(* ===== verification/_CoqProject ===== *)
-Q . S2P
Prelude.v
Lists.v
PageAlloc.v
Buddy.v
CString.v
Ports.v
Serial.v
Devices.v
Console.v
Sched.v
Heap.v
Mm.v
BootMap.v
Disk.v
Struct.v
Syscall.v
Balloc.v
Mkfs.v
Buffer.v
Blocks.v
Kept.v
Ufs.v
UfsFree.v
UfsMake.v
UfsInode.v
UfsFile.v
UfsData.v
UfsDir.v
UfsMkfs.v
UfsRun.v
Inode.v
Dir.v
Dcache.v
Namei.v
Super.v
Vfs.v
File.v
Ext2Inode.v
Ext2File.v
Ext2Dir.v
Mount.v
Paths.v
Slab.v
SlabInv.v
SlabOps.v
Memory.v
Boot.v
