(* ===== verification/Prelude.v ===== *)
(** * bach_k: a verification library for the Bach kernel

    bach_k is a small 32-bit kernel in C: memory management, processes, device
    drivers, a buffer cache and an ext2 file system below a VFS layer.  This
    library models its C code as functions on explicit states and proves what
    the parts promise to each other.

    ** The parts and where they are

    - Prelude: machine integers, arrays, the option monad, bits, tactics.
    - Lists (data_structures/list.c): circular lists through embedded links;
      every other component keeps its lists in such a store.
    - PageAlloc: the interface (a class) of a page-frame allocator; Buddy
      (memory-management/buddy.c) implements it; Slab, SlabInv, SlabOps
      (memory-management/slab.c) use it: definitions, invariant, operations;
      Memory puts the two together.
    - Heap (allocator.c) and Mm (mm.c, manager.c): boot-time heap, memory map,
      page directory and tables.
    - BootMap, Boot (mm.c, manager.c, the memory part of kernel.c): the start of
      the memory manager from the boot loader's tables to the slab allocator.
    - CString (kernel/string.c): strings and memory blocks.
    - Ports, Serial, Devices, Console: port access as an interface; UART and
      printk; interrupt controller, timer, clock, descriptor tables; screen,
      keyboard, command line.
    - Sched (kernel/task.c, fork.c, drivers/timer.c): process table, round
      robin, fork, exit, signals, timer tick.  Syscall (syscall_table.c, the
      int 0x80 path of syscall.s): the entry and exit code as instructions on
      registers and a stack, dispatch, and the layouts of task.h.
    - Disk (drivers/disk.c and the block transfers of fs.c): the ATA driver on
      ports; sectors ([SectorDev], below sector 2^24, which the driver keeps)
      and blocks ([BlockDev]) as interfaces.
    - Struct, Balloc, Mkfs (include/fs.h, ext2_balloc.c, mkfs.c): on-disk
      structures as byte images, bitmaps and reservation, making and mounting.
    - Buffer, Blocks, Kept (fs/buffer.c): the buffer cache over any [BlockDev],
      and what its clients rely on; Kept for a client that holds buffers.
    - Inode, Dir (fs/ext2/fs.c, ext2_inode.c): inode table, a file's blocks,
      directory blocks.
    - Dcache, Namei (dcache.c, namei.c): entry cache, whose entries are given
      back to the allocator with the list nodes in them, and path walk.
    - Super, Vfs (super.c, vfs.c): file-system types, superblocks, the inode
      cache, which is created before anything is mounted and holds one inode
      from then on, the operation wrappers.
    - File (fs/ext2/file.c): open files and descriptor tables.
    - Ext2Inode, Ext2File, Ext2Dir (ext2_inode.c, ext2_file.c, ext2_dir.c):
      ext2 below the VFS: inode callbacks (which keep what the inode cache
      relies on), file contents, directory operations.
    - Mount, Paths (fs/ext2/fs.c): reading and writing superblocks, mounting
      the root; splitting paths, ls, mkdir, rmdir, the first set-up of a volume.
    - Ufs, UfsInode, UfsFile (fs/ufs/ufs.c, which is not in the build): an
      earlier System V file system on the same buffer cache: superblock, free
      lists, mkufs; inode cache, directories, paths; open files.  UfsFree and
      UfsMake prove its free blocks, UfsData inodes and file contents, UfsDir
      directories, UfsMkfs mkufs as a whole; UfsRun runs the model.

    ** Conventions

    A function that can go wrong returns an option: [None] is undefined
    behaviour (a null or dangling pointer followed, an array index out of
    range, a division by zero) or a loop that does not end.  An error code or a
    null pointer the code returns is a value.  Objects live in maps by address,
    links in one store per component, keyed by the link field.  Integers are
    [Z] with the wrap-around of their C type written out.  Code outside the
    model (assembly, other file systems' callbacks, the allocator behind a
    client) is a parameter; what is relied on is a class or a record of laws,
    and an instance shows that it can hold.

    Loops that are not structural take fuel.  List walks get the size of the
    link store, which no ring exceeds; path and directory walks the length of
    the bytes they read; [getblk] two rounds and [iget] one, since the next
    round would wait for another process; the theorems prove that the fuel is
    enough where the code returns.

    ** What the theorems show

    Refinements of abstract specifications: the slab allocator (live objects
    are distinct and stay), the buddy allocator (a set of free frames), the
    buffer cache (a disk), the free blocks of the early file system (a queue
    through superblock and link blocks), the entry cache and the inode cache (search lists,
    reuse order), the command line (an editor), lists (sequences).  Round
    trips: allocate and free, write and read back (sectors, blocks, inodes,
    file contents, whole file systems), numbers printed and read.  Functional
    behaviour of fork, exit, the system call, paging, descriptor tables,
    mounting, directory and file operations, path walks.  Liveness: no ready task starves.  Safety:
    after boot no frame of the kernel, of a page table or of the memory map is
    free, and no allocation changes that.  Bounds and types: structure layouts,
    the screen's cells, truncated block numbers.  Where the code does not do
    what it means to, a theorem states what it does: a file is written to the
    block whose number is its reference count, a path is copied over the end
    of its array, an entry is freed while a list still leads to it, blocks are
    handed out twice.

    ** Not modelled

    Assembly (boot.asm, switch.S, exception.s, gdt_flush.asm, tss.asm,
    page.asm, syscall.s but for the path of a system call): its effect is a
    parameter where C code needs it.  Console messages, display routines and
    self tests, which only print; mem-test.c is commented out.  Of kernel.c only
    the memory start-up is composed, the other calls are modelled one by one. *)

From stdpp Require Export base tactics option list gmap.
From Stdlib Require Export ZArith Lia.
#[export] Set Default Goal Selector "!".
Open Scope Z_scope.

(** ** Machine integers

    The kernel is built for i686: [char] is 8 bits, [short] 16, [int], [long]
    and pointers 32.  A value of an unsigned type is a [Z] in range; every
    operation that can leave the range is followed by the wrap-around of its
    type. *)

Definition u8 (x : Z) : Z := x `mod` 2 ^ 8.
Definition u16 (x : Z) : Z := x `mod` 2 ^ 16.
Definition u32 (x : Z) : Z := x `mod` 2 ^ 32.
Definition s32 (x : Z) : Z := (x + 2 ^ 31) `mod` 2 ^ 32 - 2 ^ 31.

(** C's [&], [|], [<<] on unsigned operands. *)
Definition has_flag (v f : Z) : bool := negb (Z.land v f =? 0).

Lemma u8_small x : 0 <= x < 2 ^ 8 -> u8 x = x.
Proof. apply Z.mod_small. Qed.

Lemma u16_small x : 0 <= x < 2 ^ 16 -> u16 x = x.
Proof. apply Z.mod_small. Qed.

Lemma u32_small x : 0 <= x < 2 ^ 32 -> u32 x = x.
Proof. apply Z.mod_small. Qed.

Lemma u8_bound x : 0 <= u8 x < 2 ^ 8.
Proof. apply Z.mod_pos_bound. lia. Qed.

Lemma u16_bound x : 0 <= u16 x < 2 ^ 16.
Proof. apply Z.mod_pos_bound. lia. Qed.

Lemma u32_bound x : 0 <= u32 x < 2 ^ 32.
Proof. apply Z.mod_pos_bound. lia. Qed.

Lemma s32_small x : - 2 ^ 31 <= x < 2 ^ 31 -> s32 x = x.
Proof. intros. unfold s32. rewrite Z.mod_small by lia. lia. Qed.

Lemma s32_add_l a b : s32 (s32 a + b) = s32 (a + b).
Proof.
  unfold s32. f_equal.
  replace ((a + 2 ^ 31) `mod` 2 ^ 32 - 2 ^ 31 + b + 2 ^ 31) with ((a + 2 ^ 31) `mod` 2 ^ 32 + b) by lia.
  rewrite Zplus_mod_idemp_l. f_equal. lia.
Qed.

(** ** Fallible code

    [None] is undefined behaviour: a dereference of [NULL] or of memory the
    model does not own, an array access out of range.  A C function that
    returns a null pointer returns [Some None].  The bind is stdpp's. *)

Ltac inv_bind :=
  repeat match goal with
  | H : (_ ≫= _) = Some _ |- _ =>
      let x := fresh "x" in let E := fresh "E" in
      apply bind_Some in H as (x & E & H)
  | H : Some _ = Some _ |- _ => injection H as H; subst
  | H : mret _ = Some _ |- _ => injection H as H; subst
  | x : _ * _ |- _ => destruct x
  end.

(** ** Arrays indexed by machine integers *)

Section Arrays.
Context {A : Type}.

Definition zget (l : list A) (i : Z) : option A :=
  if i <? 0 then None else l !! Z.to_nat i.

Definition zset (l : list A) (i : Z) (x : A) : option (list A) :=
  if (i <? 0) || (Z.of_nat (length l) <=? i) then None
  else Some (<[Z.to_nat i := x]> l).

Lemma zget_Some_lt (l : list A) (i : Z) x :
  zget l i = Some x -> 0 <= i < Z.of_nat (length l).
Proof.
  unfold zget. destruct (Z.ltb_spec i 0); [done|].
  intros Hl%lookup_lt_Some. lia.
Qed.

Lemma zget_is_Some (l : list A) (i : Z) :
  0 <= i < Z.of_nat (length l) -> is_Some (zget l i).
Proof.
  intros. unfold zget. destruct (Z.ltb_spec i 0); [lia|].
  apply lookup_lt_is_Some. lia.
Qed.

Lemma zset_in_range (l : list A) (i : Z) x :
  0 <= i < Z.of_nat (length l) -> zset l i x = Some (<[Z.to_nat i := x]> l).
Proof.
  intros. unfold zset.
  destruct (Z.ltb_spec i 0), (Z.leb_spec (Z.of_nat (length l)) i); simpl; [lia..|done].
Qed.

Lemma zset_length (l l' : list A) (i : Z) x :
  zset l i x = Some l' -> length l' = length l.
Proof.
  unfold zset. destruct (_ || _); [done|]. intros [= <-]. apply length_insert.
Qed.

Lemma zget_zset_eq (l l' : list A) (i : Z) x :
  zset l i x = Some l' -> zget l' i = Some x.
Proof.
  unfold zset, zget. destruct (Z.ltb_spec i 0); [done|]. simpl.
  destruct (Z.leb_spec (Z.of_nat (length l)) i); [done|]. intros [= <-].
  apply list_lookup_insert_eq. lia.
Qed.

Lemma zget_zset_ne (l l' : list A) (i j : Z) x :
  i ≠ j -> zset l i x = Some l' -> zget l' j = zget l j.
Proof.
  unfold zset, zget. intros Hij.
  destruct (Z.ltb_spec i 0); [done|]. simpl.
  destruct (Z.leb_spec (Z.of_nat (length l)) i); [done|]. intros [= <-].
  destruct (Z.ltb_spec j 0); [done|].
  apply list_lookup_insert_ne. lia.
Qed.

Lemma zget_zset (l l' : list A) (i j : Z) x :
  zset l i x = Some l' -> zget l' j = if decide (i = j) then Some x else zget l j.
Proof.
  intros E. case_decide as D; [subst; eauto using zget_zset_eq|eauto using zget_zset_ne].
Qed.
End Arrays.

(** ** Lists *)

Lemma list_filter_all {A} (P : A -> Prop) `{!forall x, Decision (P x)} (l : list A) :
  Forall P l -> filter P l = l.
Proof. induction 1; [done|]. rewrite filter_cons_True by done. by f_equal. Qed.

Lemma list_filter_none {A} (P : A -> Prop) `{!forall x, Decision (P x)} (l : list A) :
  Forall (fun x => ~ P x) l -> filter P l = [].
Proof. induction 1; [done|]. by rewrite filter_cons_False. Qed.

(** A statement about a small range, checked value by value. *)
Lemma Forall_seqZ (P : Z -> Prop) lo n :
  Forall P (seqZ lo n) -> forall k, lo <= k < lo + n -> P k.
Proof. intros HP k Hk. rewrite Forall_forall in HP. apply HP, elem_of_seqZ. lia. Qed.

Ltac forall_cons tac := repeat (apply Forall_cons_2; [tac|]); apply Forall_nil_2.

(** A closed decidable proposition, by evaluation. *)
Ltac decided := apply (bool_decide_unpack _); vm_compute; exact I.

Ltac check_range lo n tac :=
  match goal with |- forall k, _ -> @?P k => apply (Forall_seqZ P lo n) end;
  let l := eval vm_compute in (seqZ lo n) in
  change (seqZ lo n) with l; forall_cons ltac:(cbv beta; tac).

(** ** Bits *)

Lemma land_pow2_testbit v k :
  0 <= k -> has_flag v (2 ^ k) = Z.testbit v k.
Proof.
  intros Hk. unfold has_flag.
  destruct (Z.eqb_spec (Z.land v (2 ^ k)) 0) as [E|E]; simpl.
  - assert (Z.testbit (Z.land v (2 ^ k)) k = false) as H by (rewrite E; apply Z.bits_0).
    rewrite Z.land_spec, Z.pow2_bits_true, andb_true_r in H by lia. done.
  - destruct (Z.testbit v k) eqn:Hb; [done|]. destruct E.
    apply Z.bits_inj'. intros j Hj.
    rewrite Z.land_spec, Z.bits_0, Z.pow2_bits_eqb by lia.
    destruct (Z.eqb_spec k j); [subst; by rewrite Hb|]. by rewrite andb_false_r.
Qed.

Create HintDb bach.
#[export] Hint Resolve u8_bound u16_bound u32_bound : bach.

(** ** Disjoint bits, page masks *)

Lemma lor_add a b : Z.land a b = 0 -> Z.lor a b = a + b.
Proof. intros H. by rewrite Z.add_nocarry_lxor, Z.lxor_lor by done. Qed.

Lemma land_page_mask x : 0 <= x < 2 ^ 32 -> Z.land x 0xFFFFF000 = 4096 * (x `div` 4096).
Proof.
  intros Hx. change 0xFFFFF000 with (Z.shiftl (Z.ones 20) 12).
  replace (4096 * (x `div` 4096)) with (Z.shiftl (Z.shiftr x 12) 12)
    by (rewrite Z.shiftl_mul_pow2, Z.shiftr_div_pow2 by lia; change (2 ^ 12) with 4096; lia).
  apply Z.bits_inj'. intros n Hn. rewrite Z.land_spec, !Z.shiftl_spec by lia.
  destruct (Z_lt_le_dec n 12).
  { rewrite !(Z.testbit_neg_r _ (n - 12)) by lia. by rewrite andb_false_r. }
  rewrite Z.shiftr_spec by lia. replace (n - 12 + 12) with n by lia.
  destruct (Z_lt_le_dec n 32); [by rewrite Z.ones_spec_low, andb_true_r by lia|].
  rewrite <- (Z.mod_small x (2 ^ 32)), Z.mod_pow2_bits_high by lia. done.
Qed.
