(* ===== verification/Lists.v ===== *)
(** * Intrusive circular lists (data_structures/list.c, include/list.h)

    Every component of the kernel threads its objects on circular doubly linked
    lists whose links are embedded in the objects.  A [struct list_head] is
    identified here by a key of a type [K] chosen by the client (a list head, or
    the link field of one object); a store maps each allocated [list_head] to
    its two pointers, [None] being [NULL].  The operations are the assignments
    of list.c, in their order; a dereference of [NULL] or of an unallocated
    key is undefined behaviour.  [dlist st h xs] says that the ring at [h]
    holds exactly [xs], and the specifications say what each operation does to
    the ring it touches and that it leaves every other list_head alone. *)

From S2P Require Export Prelude.

Record list_head (K : Type) := mk_list_head { next : option K; prev : option K }.
Arguments mk_list_head {K}.
Arguments next {K}.
Arguments prev {K}.

Section Lists.
Context {K : Type} `{Countable K}.
Implicit Types (st : gmap K (list_head K)) (a b h x y : K) (xs ys : list K).

Definition next_of st a : option K := n ← st !! a; next n.
Definition prev_of st a : option K := n ← st !! a; prev n.

Definition set_next st a (p : option K) : option (gmap K (list_head K)) :=
  n ← st !! a; Some (<[a := mk_list_head p (prev n)]> st).
Definition set_prev st a (p : option K) : option (gmap K (list_head K)) :=
  n ← st !! a; Some (<[a := mk_list_head (next n) p]> st).

Definition INIT_LIST_HEAD (list : K) st : option (gmap K (list_head K)) :=
  st ← set_next st list (Some list);
  set_prev st list (Some list).

Definition INIT_LIST_NULL (node : K) st : option (gmap K (list_head K)) :=
  st ← set_next st node None;
  set_prev st node None.

Definition generic_add (beg mid end_ : K) st : option (gmap K (list_head K)) :=
  st ← set_next st mid (Some end_);
  st ← set_prev st mid (Some beg);
  st ← set_next st beg (Some mid);
  set_prev st end_ (Some mid).

(** [mid->next->prev = mid->prev; mid->prev->next = mid->next;] *)
Definition generic_del (mid : K) st : option (gmap K (list_head K)) :=
  n ← st !! mid;
  nx ← next n;
  st ← set_prev st nx (prev n);
  n ← st !! mid;
  pv ← prev n;
  set_next st pv (next n).

Definition list_add (head new : K) st : option (gmap K (list_head K)) :=
  hn ← next_of st head;
  generic_add head new hn st.

Definition list_add_tail (head new : K) st : option (gmap K (list_head K)) :=
  hp ← prev_of st head;
  generic_add hp new head st.

Definition list_del (entry : K) st : option (gmap K (list_head K)) :=
  st ← generic_del entry st;
  INIT_LIST_HEAD entry st.

Definition list_del_init (entry : K) st : option (gmap K (list_head K)) :=
  st ← generic_del entry st;
  INIT_LIST_HEAD entry st.

Definition list_is_empty (head : K) st : option bool :=
  n ← st !! head;
  Some (bool_decide (next n = Some head) && bool_decide (prev n = Some head)).

(** [list_for_each(pos, head)]: the positions the macro visits, in order;
    [fuel] bounds the walk. *)
Fixpoint list_walk (fuel : nat) st (head pos : K) : option (list K) :=
  match fuel with
  | O => None
  | S fuel =>
      if decide (pos = head) then Some []
      else p ← next_of st pos;
           rest ← list_walk fuel st head p;
           Some (pos :: rest)
  end.

Definition list_for_each (fuel : nat) st (head : K) : option (list K) :=
  p ← next_of st head; list_walk fuel st head p.

(** ** The rings *)

(** [lseg st a xs b]: following [next] from [a] visits [xs] and reaches [b];
    every [prev] pointer on the way points back. *)
Fixpoint lseg st a xs b : Prop :=
  match xs with
  | [] => next_of st a = Some b /\ prev_of st b = Some a
  | x :: xs => next_of st a = Some x /\ prev_of st x = Some a /\ lseg st x xs b
  end.

Definition dlist st h xs : Prop := NoDup (h :: xs) /\ lseg st h xs h.

Lemma next_of_set_next st st' a p y :
  set_next st a p = Some st' ->
  next_of st' y = if decide (y = a) then p else next_of st y.
Proof.
  unfold set_next, next_of. intros. inv_bind.
  case_decide; subst; by simplify_map_eq.
Qed.

Lemma prev_of_set_next st st' a p y :
  set_next st a p = Some st' -> prev_of st' y = prev_of st y.
Proof.
  unfold set_next, prev_of. intros. inv_bind.
  destruct (decide (y = a)); subst; by simplify_map_eq.
Qed.

Lemma next_of_set_prev st st' a p y :
  set_prev st a p = Some st' -> next_of st' y = next_of st y.
Proof.
  unfold set_prev, next_of. intros. inv_bind.
  destruct (decide (y = a)); subst; by simplify_map_eq.
Qed.

Lemma prev_of_set_prev st st' a p y :
  set_prev st a p = Some st' ->
  prev_of st' y = if decide (y = a) then p else prev_of st y.
Proof.
  unfold set_prev, prev_of. intros. inv_bind.
  case_decide; subst; by simplify_map_eq.
Qed.

Lemma set_next_ok st a p :
  is_Some (st !! a) -> exists st', set_next st a p = Some st' /\ dom st' = dom st
    /\ forall y, y ≠ a -> st' !! y = st !! y.
Proof.
  intros [n Hn]. unfold set_next. rewrite Hn. simpl. eexists. split; [done|].
  split; [|intros; by simplify_map_eq].
  rewrite dom_insert_lookup_L; [done|eauto].
Qed.

Lemma set_prev_ok st a p :
  is_Some (st !! a) -> exists st', set_prev st a p = Some st' /\ dom st' = dom st
    /\ forall y, y ≠ a -> st' !! y = st !! y.
Proof.
  intros [n Hn]. unfold set_prev. rewrite Hn. simpl. eexists. split; [done|].
  split; [|intros; by simplify_map_eq].
  rewrite dom_insert_lookup_L; [done|eauto].
Qed.

Lemma next_of_is_Some st a p : next_of st a = Some p -> is_Some (st !! a).
Proof. unfold next_of. intros. inv_bind. eauto. Qed.

Lemma prev_of_is_Some st a p : prev_of st a = Some p -> is_Some (st !! a).
Proof. unfold prev_of. intros. inv_bind. eauto. Qed.

Lemma lookup_next_prev st st' y :
  st' !! y = st !! y -> next_of st' y = next_of st y /\ prev_of st' y = prev_of st y.
Proof. unfold next_of, prev_of. intros ->. done. Qed.

(** ** Segments *)

Lemma lseg_ext st st' a xs b :
  (forall y, y ∈ a :: xs -> next_of st' y = next_of st y) ->
  (forall y, y ∈ xs ++ [b] -> prev_of st' y = prev_of st y) ->
  lseg st a xs b -> lseg st' a xs b.
Proof.
  revert a. induction xs as [|x xs IH]; intros a Hn Hp; simpl.
  - intros [? ?]. rewrite Hn, Hp by set_solver. done.
  - intros (? & ? & ?). rewrite Hn, Hp by set_solver.
    split_and!; [done..|]. apply IH; [set_solver..|done].
Qed.

Lemma lseg_app st a xs x ys b :
  lseg st a (xs ++ x :: ys) b <-> lseg st a xs x /\ lseg st x ys b.
Proof.
  revert a. induction xs as [|y xs IH]; intros a; simpl; [tauto|].
  rewrite IH. tauto.
Qed.

Lemma lseg_first st a xs b : lseg st a xs b -> next_of st a = Some (hd b xs).
Proof. destruct xs; simpl; tauto. Qed.

Lemma lseg_last st a xs b : lseg st a xs b -> prev_of st b = Some (default a (last xs)).
Proof.
  revert a. induction xs as [|x xs IH]; intros a; simpl; [tauto|].
  intros (_ & _ & HI%IH). rewrite HI, last_cons. by destruct (last xs).
Qed.

Lemma lseg_in_dom st a xs b y : lseg st a xs b -> y ∈ a :: xs -> is_Some (st !! y).
Proof.
  revert a. induction xs as [|x xs IH]; intros a; simpl.
  - intros [Hn _] Hy. apply list_elem_of_singleton in Hy as ->.
    by eapply next_of_is_Some.
  - intros (Hn & _ & Hl) [->|Hy]%elem_of_cons; [by eapply next_of_is_Some|eauto].
Qed.

Lemma dlist_in_dom st h xs y : dlist st h xs -> y ∈ h :: xs -> is_Some (st !! y).
Proof. intros [_ ?]. eauto using lseg_in_dom. Qed.

(** A ring depends only on the list_heads it is made of. *)
Lemma dlist_frame st st' h xs :
  (forall y, y ∈ h :: xs -> st' !! y = st !! y) -> dlist st h xs -> dlist st' h xs.
Proof.
  intros Hf [? Hl]. split; [done|].
  eapply lseg_ext; [..|exact Hl]; intros y Hy; apply lookup_next_prev, Hf; set_solver.
Qed.

(** ** What the pointer assignments do *)

Lemma generic_add_effect st beg mid end_ :
  is_Some (st !! beg) -> is_Some (st !! mid) -> is_Some (st !! end_) ->
  mid ≠ beg -> mid ≠ end_ ->
  exists st', generic_add beg mid end_ st = Some st' /\ dom st' = dom st
    /\ (forall y, y ≠ beg -> y ≠ mid -> y ≠ end_ -> st' !! y = st !! y)
    /\ (forall y, next_of st' y =
          if decide (y = beg) then Some mid else
          if decide (y = mid) then Some end_ else next_of st y)
    /\ (forall y, prev_of st' y =
          if decide (y = end_) then Some mid else
          if decide (y = mid) then Some beg else prev_of st y).
Proof.
  intros Hb Hm He Hmb Hme. unfold generic_add.
  destruct (set_next_ok st mid (Some end_)) as (s1 & E1 & D1 & F1); [done|].
  rewrite E1. simpl.
  destruct (set_prev_ok s1 mid (Some beg)) as (s2 & E2 & D2 & F2).
  { apply elem_of_dom. rewrite D1. by apply elem_of_dom. }
  rewrite E2. simpl.
  destruct (set_next_ok s2 beg (Some mid)) as (s3 & E3 & D3 & F3).
  { apply elem_of_dom. rewrite D2, D1. by apply elem_of_dom. }
  rewrite E3. simpl.
  destruct (set_prev_ok s3 end_ (Some mid)) as (s4 & E4 & D4 & F4).
  { apply elem_of_dom. rewrite D3, D2, D1. by apply elem_of_dom. }
  exists s4. split_and!; [done|congruence|..]; intros y.
  - intros. rewrite F4, F3, F2, F1 by done. done.
  - rewrite (next_of_set_prev _ _ _ _ _ E4), (next_of_set_next _ _ _ _ _ E3),
      (next_of_set_prev _ _ _ _ _ E2), (next_of_set_next _ _ _ _ _ E1). done.
  - rewrite (prev_of_set_prev _ _ _ _ _ E4), (prev_of_set_next _ _ _ _ _ E3),
      (prev_of_set_prev _ _ _ _ _ E2), (prev_of_set_next _ _ _ _ _ E1). done.
Qed.

Lemma INIT_LIST_HEAD_effect st x :
  is_Some (st !! x) ->
  INIT_LIST_HEAD x st = Some (<[x := mk_list_head (Some x) (Some x)]> st).
Proof.
  intros [n Hn]. unfold INIT_LIST_HEAD, set_next, set_prev.
  rewrite Hn. simpl. rewrite lookup_insert_eq. simpl. by rewrite insert_insert_eq.
Qed.

Lemma list_del_effect st x n p :
  next_of st x = Some n -> prev_of st x = Some p ->
  is_Some (st !! n) -> is_Some (st !! p) ->
  exists st', list_del x st = Some st' /\ dom st' = dom st
    /\ (forall y, y ≠ x -> y ≠ n -> y ≠ p -> st' !! y = st !! y)
    /\ (forall y, next_of st' y =
          if decide (y = x) then Some x else
          if decide (y = p) then Some n else next_of st y)
    /\ (forall y, prev_of st' y =
          if decide (y = x) then Some x else
          if decide (y = n) then Some p else prev_of st y).
Proof.
  intros Hn Hp Hdn Hdp. unfold list_del, generic_del.
  pose proof (next_of_is_Some _ _ _ Hn) as [lx Hx].
  unfold next_of in Hn. unfold prev_of in Hp. rewrite Hx in *. simpl in *.
  rewrite Hn. simpl.
  destruct (set_prev_ok st n (prev lx)) as (s1 & E1 & D1 & F1); [done|].
  rewrite E1. simpl.
  assert (is_Some (s1 !! x)) as [lx1 Hx1].
  { apply elem_of_dom. rewrite D1. apply elem_of_dom. eauto. }
  rewrite Hx1. simpl.
  assert (prev lx1 = Some p) as Hp1.
  { pose proof (prev_of_set_prev _ _ _ _ x E1) as HH. unfold prev_of in HH.
    rewrite Hx1, Hx in HH. simpl in HH. rewrite HH. case_decide; congruence. }
  assert (next lx1 = Some n) as Hn1.
  { pose proof (next_of_set_prev _ _ _ _ x E1) as HH. unfold next_of in HH.
    rewrite Hx1, Hx in HH. simpl in HH. congruence. }
  rewrite Hp1, Hn1. simpl.
  destruct (set_next_ok s1 p (Some n)) as (s2 & E2 & D2 & F2).
  { apply elem_of_dom. rewrite D1. by apply elem_of_dom. }
  rewrite E2. simpl.
  assert (is_Some (s2 !! x)) as Hx2.
  { apply elem_of_dom. rewrite D2, D1. apply elem_of_dom. eauto. }
  rewrite INIT_LIST_HEAD_effect by done.
  eexists. split_and!; [done|..].
  - rewrite dom_insert_lookup_L by done. congruence.
  - intros y ???. rewrite lookup_insert_ne by done. rewrite F2, F1 by done. done.
  - intros y. unfold next_of at 1. rewrite lookup_insert.
    destruct (decide (x = y)); [subst; by rewrite decide_True|].
    rewrite (decide_False (P := y = x)) by done. fold (next_of s2 y).
    rewrite (next_of_set_next _ _ _ _ _ E2), (next_of_set_prev _ _ _ _ _ E1). done.
  - intros y. unfold prev_of at 1. rewrite lookup_insert.
    destruct (decide (x = y)); [subst; by rewrite decide_True|].
    rewrite (decide_False (P := y = x)) by done. fold (prev_of s2 y).
    rewrite (prev_of_set_next _ _ _ _ _ E2), (prev_of_set_prev _ _ _ _ _ E1).
    by rewrite Hp.
Qed.

(** ** Specifications of the operations on rings *)

Lemma INIT_LIST_HEAD_spec st x :
  is_Some (st !! x) -> exists st', INIT_LIST_HEAD x st = Some st' /\ dom st' = dom st
    /\ dlist st' x [] /\ forall y, y ≠ x -> st' !! y = st !! y.
Proof.
  intros Hx. rewrite INIT_LIST_HEAD_effect by done. eexists. split_and!; [done|..].
  - by rewrite dom_insert_lookup_L.
  - split; [apply NoDup_singleton|]. simpl. unfold next_of, prev_of. by simplify_map_eq.
  - intros. by rewrite lookup_insert_ne.
Qed.

Lemma list_add_spec st h xs x :
  dlist st h xs -> x ∉ h :: xs -> is_Some (st !! x) ->
  exists st', list_add h x st = Some st' /\ dom st' = dom st /\ dlist st' h (x :: xs)
    /\ forall y, y ∉ x :: h :: xs -> st' !! y = st !! y.
Proof.
  intros [Hnd Hl] Hx Hdx. unfold list_add.
  rewrite (lseg_first _ _ _ _ Hl). simpl.
  assert (hd h xs ∈ h :: xs) as Hhd by (destruct xs; set_solver).
  destruct (generic_add_effect st h x (hd h xs)) as (st' & E & D & F & N & P);
    [eauto using lseg_in_dom, list_elem_of_here|done|eauto using lseg_in_dom|set_solver..|].
  exists st'. split_and!; [done|done|..].
  - split; [apply NoDup_cons in Hnd as []; apply NoDup_cons; split;
             [set_solver|apply NoDup_cons; set_solver]|].
    simpl. rewrite N, decide_True by done. rewrite P.
    rewrite (decide_False (P := x = hd h xs)) by (intros ->; set_solver).
    rewrite decide_True by done. split_and!; [done..|].
    apply NoDup_cons in Hnd as [Hh Hnd].
    destruct xs as [|z zs]; simpl in *.
    + rewrite N, P. repeat case_decide; set_solver.
    + destruct Hl as (_ & _ & Hl). apply NoDup_cons in Hnd as [Hz Hnd].
      split_and!; [rewrite N|rewrite P|]; [repeat case_decide; set_solver..|].
      eapply lseg_ext; [..|exact Hl]; intros y Hy; [rewrite N|rewrite P];
        repeat case_decide; set_solver.
  - intros y Hy. apply F; set_solver.
Qed.

Lemma list_add_tail_spec st h xs x :
  dlist st h xs -> x ∉ h :: xs -> is_Some (st !! x) ->
  exists st', list_add_tail h x st = Some st' /\ dom st' = dom st
    /\ dlist st' h (xs ++ [x])
    /\ forall y, y ∉ x :: h :: xs -> st' !! y = st !! y.
Proof.
  intros [Hnd Hl] Hx Hdx. unfold list_add_tail.
  rewrite (lseg_last _ _ _ _ Hl). simpl.
  assert (default h (last xs) ∈ h :: xs) as Hlast.
  { destruct xs as [|z zs] using rev_ind; [set_solver|].
    rewrite last_snoc. set_solver. }
  destruct (generic_add_effect st (default h (last xs)) x h) as (st' & E & D & F & N & P);
    [eauto using lseg_in_dom|done|eauto using lseg_in_dom, list_elem_of_here|..].
  { intros ->. set_solver. }
  { set_solver. }
  exists st'. split_and!; [done|done|..].
  - split.
    { rewrite NoDup_cons in Hnd |- *. destruct Hnd. split; [set_solver|].
      apply NoDup_app. split_and!; [done|set_solver|apply NoDup_singleton]. }
    apply lseg_app. split.
    + apply NoDup_cons in Hnd as [Hh Hnd].
      destruct xs as [|z zs] using rev_ind; simpl in *.
      * rewrite N, P. repeat case_decide; set_solver.
      * rewrite last_snoc in *. simpl in *. apply lseg_app in Hl as [Hl _]. apply lseg_app.
        apply NoDup_app in Hnd as (Hnd & Hzz & _). split.
        -- eapply lseg_ext; [..|exact Hl]; intros y Hy; [rewrite N|rewrite P];
             repeat case_decide; set_solver.
        -- simpl. rewrite N, P. repeat case_decide; set_solver.
    + simpl. rewrite N, P. repeat case_decide; set_solver.
  - intros y Hy. apply F; set_solver.
Qed.

Lemma NoDup_ring_mid h xs x ys :
  NoDup (h :: xs ++ x :: ys) -> NoDup (h :: xs ++ ys) /\ x ∉ h :: xs ++ ys.
Proof.
  intros Hnd. assert (h :: xs ++ x :: ys ≡ₚ x :: h :: xs ++ ys) as E.
  { rewrite <-Permutation_middle. apply perm_swap. }
  rewrite E in Hnd. by apply NoDup_cons in Hnd as [? ?].
Qed.

(** Bypassing [x]: the two segments around it join. *)
Lemma lseg_unlink st st' a xs x ys b :
  lseg st a xs x -> lseg st x ys b ->
  (forall y, y ∈ a :: xs ++ ys -> next_of st' y =
     if decide (y = default a (last xs)) then Some (hd b ys) else next_of st y) ->
  (forall y, y ∈ xs ++ ys ++ [b] -> prev_of st' y =
     if decide (y = hd b ys) then Some (default a (last xs)) else prev_of st y) ->
  NoDup (xs ++ ys) -> a ∉ xs ++ ys -> b ∉ xs ++ ys ->
  lseg st' a (xs ++ ys) b.
Proof.
  revert a. induction xs as [|z zs IH]; intros a Hl1 Hl2 N P Hnd Ha Hb; simpl in *.
  - destruct ys as [|w ws]; simpl in *.
    + rewrite N, P by set_solver. by rewrite !decide_True.
    + destruct Hl2 as (_ & _ & Hl2). apply NoDup_cons in Hnd as [Hw _].
      split_and!.
      * rewrite N by set_solver. by rewrite decide_True.
      * rewrite P by set_solver. by rewrite decide_True.
      * eapply lseg_ext; [..|exact Hl2]; intros y Hy.
        -- rewrite N, decide_False by set_solver. done.
        -- rewrite P, decide_False by set_solver. done.
  - destruct Hl1 as (Hn & Hp & Hl1). apply NoDup_cons in Hnd as [Hz Hnd].
    rewrite last_cons in N, P. split_and!.
    + rewrite N by set_solver. rewrite decide_False; [done|].
      destruct (last zs) as [l|] eqn:El; simpl; [|set_solver].
      apply last_Some_elem_of in El. set_solver.
    + rewrite P by set_solver. rewrite decide_False; [done|].
      destruct ys; simpl; set_solver.
    + apply IH; [done|done|..|done|done|set_solver].
      * intros y Hy. rewrite N by set_solver. by destruct (last zs).
      * intros y Hy. rewrite P by set_solver. by destruct (last zs).
Qed.

Lemma list_del_spec st h xs x ys :
  dlist st h (xs ++ x :: ys) ->
  exists st', list_del x st = Some st' /\ dom st' = dom st /\ dlist st' h (xs ++ ys)
    /\ dlist st' x []
    /\ forall y, y ∉ h :: xs ++ x :: ys -> st' !! y = st !! y.
Proof.
  intros [Hnd Hl]. pose proof (NoDup_ring_mid _ _ _ _ Hnd) as [Hnd' Hx].
  pose proof Hl as [Hl1 Hl2]%lseg_app.
  pose proof (lseg_last _ _ _ _ Hl1) as Hp. pose proof (lseg_first _ _ _ _ Hl2) as Hn.
  assert (default h (last xs) ∈ h :: xs) as Hpin.
  { destruct xs as [|z zs] using rev_ind; [set_solver|]. rewrite last_snoc. set_solver. }
  assert (hd h ys ∈ h :: ys) as Hnin by (destruct ys; set_solver).
  destruct (list_del_effect st x _ _ Hn Hp) as (st' & E & D & F & N & P);
    [eapply lseg_in_dom; [exact Hl|set_solver]..|].
  exists st'. split_and!; [done|done|..|intros; apply F; set_solver].
  2:{ split; [apply NoDup_singleton|]. simpl. by rewrite N, P, !decide_True. }
  split; [done|]. apply NoDup_cons in Hnd' as [Hh (Hn1 & Hn12 & Hn2)%NoDup_app].
  eapply lseg_unlink; [exact Hl1|exact Hl2|..].
  - intros y Hy. rewrite N, decide_False; [done|set_solver].
  - intros y Hy. rewrite P, decide_False; [done|set_solver].
  - by apply NoDup_app.
  - set_solver.
  - set_solver.
Qed.

(** Deleting an entry that is on no list (a ring of its own) changes nothing:
    a second [list_del] of the same entry is harmless. *)
Lemma list_del_self st x : dlist st x [] -> list_del x st = Some st.
Proof.
  intros [_ [Hn Hp]]. unfold next_of, prev_of in *.
  destruct (st !! x) as [[n p]|] eqn:Hx; simpl in *; [|done]. simplify_eq.
  unfold list_del, generic_del, set_prev, set_next. rewrite Hx. simpl.
  rewrite Hx. simpl. rewrite lookup_insert_eq. simpl. rewrite lookup_insert_eq. simpl.
  rewrite INIT_LIST_HEAD_effect by (rewrite lookup_insert_eq; eauto).
  by rewrite !insert_insert_eq, insert_id.
Qed.

Lemma list_is_empty_spec st h xs :
  dlist st h xs -> list_is_empty h st = Some (bool_decide (xs = [])).
Proof.
  intros [Hnd Hl]. pose proof (lseg_first _ _ _ _ Hl) as Hn.
  pose proof (lseg_last _ _ _ _ Hl) as Hp.
  unfold list_is_empty. unfold next_of in Hn. unfold prev_of in Hp.
  destruct (st !! h) as [[n p]|]; simpl in *; [|done]. simplify_eq. f_equal.
  destruct xs as [|x xs]; simpl.
  - by rewrite !bool_decide_true.
  - apply NoDup_cons in Hnd as [Hh _].
    rewrite (bool_decide_false (Some x = _)) by (intros [= ->]; set_solver).
    done.
Qed.

(** A ring is no longer than its store. *)
Lemma dlist_size st h xs : dlist st h xs -> (length xs < size st)%nat.
Proof.
  intros [Hnd Hl]. rewrite <- (size_dom st).
  assert (length (h :: xs) <= size (dom st))%nat; [|simpl in *; lia].
  rewrite <- (size_list_to_set (C := gset K) (h :: xs)) by done. apply subseteq_size.
  intros y Hy%elem_of_list_to_set. apply elem_of_dom. by apply (dlist_in_dom st h xs y).
Qed.

Lemma list_walk_spec st h xs fuel a :
  (length xs < fuel)%nat -> h ∉ xs -> lseg st a xs h ->
  list_walk fuel st h (hd h xs) = Some xs.
Proof.
  revert fuel a. induction xs as [|x xs IH]; intros fuel a Hf Hh Hl; simpl in *.
  - destruct fuel; [lia|]. simpl. by rewrite decide_True.
  - destruct fuel; [lia|]. simpl. rewrite decide_False by set_solver.
    destruct Hl as (_ & _ & Hl). rewrite (lseg_first _ _ _ _ Hl). simpl.
    erewrite IH; [done|lia|set_solver|done].
Qed.

(** *** Families of disjoint rings *)

(** [L h] is the ring of head [h], for the heads in [P]. *)
Definition rings st (P : K -> Prop) (L : K -> list K) : Prop :=
  (forall h, P h -> dlist st h (L h)) /\
  (forall h h' y, P h -> P h' -> y ∈ h :: L h -> y ∈ h' :: L h' -> h = h').

Definition ring_del (x : K) (L : K -> list K) (k : K) : list K := filter (fun y => y ≠ x) (L k).

Definition ring_add (front : bool) (h x : K) (L : K -> list K) (k : K) : list K :=
  if decide (k = h) then (if front then x :: L k else L k ++ [x]) else L k.

Lemma filter_remove_mid (l1 : list K) x l2 :
  NoDup (l1 ++ x :: l2) -> filter (fun y => y ≠ x) (l1 ++ x :: l2) = l1 ++ l2.
Proof.
  intros (_ & H12 & [H2 _]%NoDup_cons)%NoDup_app.
  rewrite filter_app, filter_cons_False by tauto.
  rewrite !list_filter_all; [done|apply Forall_forall; intros ? ? ->..]; [done|]. apply (H12 x); [done|by left].
Qed.

Lemma rings_ext st st' P P' L L' :
  rings st P L -> (forall h, P' h -> P h) -> (forall h, P' h -> L' h = L h) ->
  (forall h y, P' h -> y ∈ h :: L h -> st' !! y = st !! y) -> rings st' P' L'.
Proof.
  intros [Hd Hs] HP HL Hf. split.
  - intros h Hh. rewrite HL by done. eapply dlist_frame; [|by apply Hd, HP]. eauto.
  - intros h h' y Hh Hh'. rewrite !HL by done. eauto.
Qed.

Lemma rings_del st P L h x :
  rings st P L -> P h -> x ∈ L h ->
  exists st', list_del x st = Some st' /\ dom st' = dom st /\ rings st' P (ring_del x L) /\ dlist st' x [] /\
    (forall k, P k -> x ∉ k :: ring_del x L k) /\
    forall y, (forall k, P k -> y ∉ k :: L k) -> st' !! y = st !! y.
Proof.
  intros [Hd Hs] Hh Hx. pose proof (Hd h Hh) as Hr. pose proof Hx as Hx'. apply list_elem_of_split in Hx' as (l1 & l2 & E).
  pose proof Hr as [Hnd _]. apply NoDup_cons in Hnd as [Hhn Hnd].
  rewrite E in Hr. destruct (list_del_spec st h l1 x l2 Hr) as (st' & Ed & Hdom & Hr' & Hself & Hf).
  rewrite <- E in Hf. exists st'.
  assert (forall k, P k -> k ≠ h -> x ∉ L k) as Hother.
  { intros k Hk Hne Hxk. apply Hne. apply (Hs k h x); [done..| |]; by right. }
  assert (forall k y, y ∈ k :: ring_del x L k -> y ∈ k :: L k) as Hsub.
  { intros k y. rewrite !elem_of_cons. unfold ring_del. rewrite list_elem_of_filter. tauto. }
  split_and!; [done..| |done| |].
  - split.
    + intros k Hk. unfold ring_del. destruct (decide (k = h)) as [->|Hne].
      * rewrite E, filter_remove_mid by (by rewrite <- E). done.
      * rewrite list_filter_all by (apply Forall_forall; intros y Hy ->; by apply (Hother k)).
        eapply dlist_frame; [|by apply Hd]. intros y Hy. apply Hf. intros Hy'. apply Hne. by apply (Hs k h y).
    + intros k k' y Hk Hk' Hy Hy'. apply (Hs k k' y); auto.
  - intros k Hk [->|Hin]%elem_of_cons; [|by apply list_elem_of_filter in Hin as [? _]].
    apply Hhn. assert (k = h) as -> by (apply (Hs k h k); [done..|by left|by right]). done.
  - intros y Hy. apply Hf. by apply Hy.
Qed.

Lemma rings_add st P L (front : bool) h x :
  rings st P L -> P h -> (forall k, P k -> x ∉ k :: L k) -> is_Some (st !! x) ->
  exists st', (if front then list_add h x st else list_add_tail h x st) = Some st' /\ dom st' = dom st /\
    rings st' P (ring_add front h x L) /\
    forall y, y ≠ x -> (forall k, P k -> y ∉ k :: L k) -> st' !! y = st !! y.
Proof.
  intros [Hd Hs] Hh Hx Hdx.
  assert (exists st', (if front then list_add h x st else list_add_tail h x st) = Some st' /\ dom st' = dom st /\
    dlist st' h (ring_add front h x L h) /\ forall y, y ∉ x :: h :: L h -> st' !! y = st !! y) as (st' & E & Hdom & Hd' & Hf).
  { unfold ring_add. rewrite decide_True by done.
    destruct front; [by apply list_add_spec; auto|by apply list_add_tail_spec; auto]. }
  exists st'. split_and!; [done..| |].
  - assert (forall k y, y ∈ k :: ring_add front h x L k -> y ∈ k :: L k \/ y = x /\ k = h) as Hsub.
    { intros k y. unfold ring_add. case_decide; [|tauto]. destruct front;
        rewrite !elem_of_cons, ?elem_of_app, ?elem_of_cons, ?elem_of_nil; tauto. }
    split.
    + intros k Hk. destruct (decide (k = h)) as [->|Hne]; [done|]. unfold ring_add. rewrite decide_False by done.
      eapply dlist_frame; [|by apply Hd]. intros y Hy. apply Hf. apply not_elem_of_cons. split; [intros ->; by apply (Hx k)|].
      intros Hy'. apply Hne. by apply (Hs k h y).
    + intros k k' y Hk Hk' [Hy|[-> ->]]%Hsub [Hy'|[E' ->]]%Hsub; [by apply (Hs k k' y)| | |done].
      * subst y. by destruct (Hx k).
      * by destruct (Hx k').
  - intros y Hy Hk. apply Hf. rewrite not_elem_of_cons. auto.
Qed.

Lemma list_for_each_spec st h xs fuel :
  dlist st h xs -> (length xs < fuel)%nat -> list_for_each fuel st h = Some xs.
Proof.
  intros [Hnd Hl] Hf. unfold list_for_each. rewrite (lseg_first _ _ _ _ Hl). simpl.
  apply NoDup_cons in Hnd as [Hh _]. eauto using list_walk_spec.
Qed.
End Lists.

#[export] Hint Resolve dlist_in_dom list_elem_of_here : bach.

(** ** Main theorems *)

(** A store over [nat] keys with the ring 0 <-> 1 <-> 2 and a detached 3. *)
Definition demo_store : gmap nat (list_head nat) :=
  list_to_map [(0, mk_list_head (Some 1) (Some 2)); (1, mk_list_head (Some 2) (Some 0));
               (2, mk_list_head (Some 0) (Some 1)); (3, mk_list_head None None)]%nat.

Lemma demo_store_ring : dlist demo_store 0%nat [1; 2]%nat.
Proof. split; [apply (bool_decide_unpack _); done|by vm_compute]. Qed.

(** Insertion refines sequences: on a ring holding [xs], [list_add] of a
    fresh node yields the ring holding [x :: xs] and [list_add_tail] the ring
    holding [xs ++ [x]]; no list_head outside the ring and [x] changes, so
    every disjoint ring is preserved. *)
Theorem list_insert_correct {K} `{Countable K} (st : gmap K (list_head K)) h xs x h' ys :
  dlist st h xs -> x ∉ h :: xs -> is_Some (st !! x) ->
  dlist st h' ys -> (forall y, y ∈ h' :: ys -> y ∉ x :: h :: xs) ->
  (exists st', list_add h x st = Some st' /\ dlist st' h (x :: xs) /\ dlist st' h' ys)
  /\ (exists st', list_add_tail h x st = Some st' /\ dlist st' h (xs ++ [x]) /\ dlist st' h' ys).
Proof.
  intros Hl Hx Hd Hl' Hdis.
  destruct (list_add_spec st h xs x Hl Hx Hd) as (s1 & E1 & _ & R1 & F1).
  destruct (list_add_tail_spec st h xs x Hl Hx Hd) as (s2 & E2 & _ & R2 & F2).
  split; [exists s1|exists s2]; (split_and!; [done..|]);
    (eapply dlist_frame; [|exact Hl']); intros y Hy; [apply F1|apply F2]; by apply Hdis.
Qed.

Lemma list_insert_correct_witness : exists st', list_add_tail 0%nat 3%nat
   (<[4 := mk_list_head (Some 4) (Some 4)]> demo_store)%nat = Some st'
  /\ dlist st' 0%nat ([1; 2] ++ [3])%nat.
Proof.
  destruct (list_insert_correct (<[4 := mk_list_head (Some 4) (Some 4)]> demo_store)%nat
    0%nat [1; 2]%nat 3%nat 4%nat []) as [_ (st' & E & R & _)].
  - split; [apply (bool_decide_unpack _); done|by vm_compute].
  - apply (bool_decide_unpack _). done.
  - eexists. vm_compute. done.
  - split; [apply NoDup_singleton|by vm_compute].
  - intros y Hy. apply list_elem_of_singleton in Hy as ->. apply (bool_decide_unpack _). done.
  - by exists st'.
Defined.

(** C10: Deletion refines sequences: [list_del] of a member of a ring removes
    exactly that member, leaves it as an empty ring (so deleting it twice is
    harmless), and preserves every disjoint ring. *)
Theorem list_del_correct {K} `{Countable K} (st : gmap K (list_head K)) h xs x ys h' zs :
  dlist st h (xs ++ x :: ys) ->
  dlist st h' zs -> (forall y, y ∈ h' :: zs -> y ∉ h :: xs ++ x :: ys) ->
  exists st', list_del x st = Some st' /\ dlist st' h (xs ++ ys) /\ dlist st' h' zs
    /\ list_del x st' = Some st'.
Proof.
  intros Hl Hl' Hdis. destruct (list_del_spec st h xs x ys Hl) as (s & E & _ & R & S & F).
  exists s. split_and!; [done..| |by apply list_del_self].
  eapply dlist_frame; [|exact Hl']. intros y Hy. by apply F, Hdis.
Qed.

Lemma list_del_correct_witness : exists st',
  list_del 1%nat (<[4 := mk_list_head (Some 4) (Some 4)]> demo_store)%nat = Some st'
  /\ dlist st' 0%nat ([] ++ [2])%nat /\ list_del 1%nat st' = Some st'.
Proof.
  destruct (list_del_correct (<[4 := mk_list_head (Some 4) (Some 4)]> demo_store)%nat
    0%nat [] 1%nat [2]%nat 4%nat []) as (st' & E & R & _ & D).
  - split; [apply (bool_decide_unpack _); done|by vm_compute].
  - split; [apply NoDup_singleton|by vm_compute].
  - intros y Hy. apply list_elem_of_singleton in Hy as ->. apply (bool_decide_unpack _). done.
  - by exists st'.
Defined.
