(* ===== verification/PageAlloc.v ===== *)
(** * The page allocator's contract

    What the zoned page-frame allocator promises to its clients (the slab
    allocator's [kmem_getpages]/[kmem_freepages], the kernel stacks of
    kernel/task.c): its state represents a set of free page frames; allocation
    of order [k] takes an aligned run of [2^k] frames out of that set, and
    succeeds whenever there is one; freeing a run puts it back; the holder of a
    frame may set and clear its slab flag. *)

From S2P Require Export Prelude.

(** [p] is one of the [2^k] frames from [i]. *)
Definition in_block (k i p : Z) : Prop := i <= p < i + 2 ^ k.

(** A naturally aligned run of [2^k] frames, all in [F]. *)
Definition free_run (F : Z -> Prop) (k i : Z) : Prop :=
  (2 ^ k | i) /\ forall p, in_block k i p -> F p.

Definition MAX_ORDER : Z := 10.

Class PageAllocator (S : Type) := {
  pa_alloc : S -> Z -> option (option Z * S);
  pa_free : Z -> S -> Z -> option S;
  pa_set_slab : Z -> S -> option S;
  pa_clear_slab : Z -> S -> option S;
  pa_frames : S -> Z;
  pa_rep : S -> (Z -> Prop) -> Prop;
  pa_rep_bound s F p : pa_rep s F -> F p -> 0 <= p < pa_frames s;
  pa_run_dec s F k : pa_rep s F -> 0 <= k <= MAX_ORDER ->
    (exists i, free_run F k i) \/ ~ exists i, free_run F k i;
  pa_alloc_succeeds s F k : pa_rep s F -> 0 <= k <= MAX_ORDER ->
    (exists i, free_run F k i) ->
    exists i s', pa_alloc s k = Some (Some i, s') /\ free_run F k i
      /\ pa_frames s' = pa_frames s
      /\ pa_rep s' (fun p => F p /\ ~ in_block k i p);
  pa_alloc_fails s F k : pa_rep s F -> 0 <= k <= MAX_ORDER ->
    ~ (exists i, free_run F k i) -> pa_alloc s k = Some (None, s);
  pa_free_spec s F k i : pa_rep s F -> 0 <= k <= MAX_ORDER -> (2 ^ k | i) ->
    0 <= i -> i + 2 ^ k <= pa_frames s -> (forall p, in_block k i p -> ~ F p) ->
    exists s', pa_free i s k = Some s' /\ pa_frames s' = pa_frames s
      /\ pa_rep s' (fun p => F p \/ in_block k i p);
  pa_mark_spec (set : bool) s F p : pa_rep s F -> 0 <= p < pa_frames s -> ~ F p ->
    exists s', (if set then pa_set_slab p s else pa_clear_slab p s) = Some s'
      /\ pa_frames s' = pa_frames s /\ pa_rep s' F
}.

Section Client.
Context {S : Type} `{PageAllocator S}.

(** Whatever a client does in between with other frames, giving a run back
    right after taking it restores the set of free frames. *)
Lemma pa_alloc_free s F k :
  pa_rep s F -> 0 <= k <= MAX_ORDER -> (exists i, free_run F k i) ->
  exists i s1 s2, pa_alloc s k = Some (Some i, s1) /\ pa_free i s1 k = Some s2
    /\ exists F', pa_rep s2 F' /\ forall p, F' p <-> F p.
Proof.
  intros Hrep Hk Hrun.
  destruct (pa_alloc_succeeds s F k Hrep Hk Hrun) as (i & s1 & E & Hi & Hf & Hr1).
  pose proof (Z.pow_pos_nonneg 2 k ltac:(lia) ltac:(lia)) as Hpos.
  assert (F i) as Hfi by (apply Hi; unfold in_block; lia).
  assert (F (i + 2 ^ k - 1)) as Hfe by (apply Hi; unfold in_block; lia).
  pose proof (pa_rep_bound _ _ _ Hrep Hfi). pose proof (pa_rep_bound _ _ _ Hrep Hfe).
  destruct (pa_free_spec s1 _ k i Hr1 Hk) as (s2 & E2 & _ & Hr2);
    [apply Hi|lia|lia|tauto|].
  exists i, s1, s2. split_and!; [done..|]. eexists. split; [exact Hr2|].
  intros p. cbv beta. split; [intros [[? _]|?]; [done|by apply Hi]|].
  intros Hp. destruct (decide (i <= p /\ p < i + 2 ^ k)); unfold in_block; tauto.
Qed.
End Client.
