(* ===== verification/Buddy.v ===== *)
(** * The buddy page-frame allocator (memory-management/buddy.c, include/zone.h)

    The zone keeps an array of page descriptors ([zone_mem_map], indexed by
    page frame number) and, per order [k], a circular list of the free blocks
    of [2^k] pages, threaded through the [lru] field of each block's first page.
    A list_head is identified by the [FreeList k] of the zone or by the [Lru i]
    of page [i], so [list_entry] is the inverse of [Lru].

    [buddy_inv z L] is the well-formedness invariant: list [k] holds the blocks
    [L k], each aligned, inside the zone, pairwise disjoint, marked in its page
    descriptor and counted by [nr_free]; and no two buddies are both free at the
    same order.  [free_page L] is the abstract state the allocator promises: the
    set of free page frames. *)

From S2P Require Export Prelude.
From S2P Require Import Lists PageAlloc.

(** ** Data *)

Definition BUDDY_GROUPS : Z := 11.
Definition PAGE_SIZE : Z := 4096.

(** [PG_FLAG_x] are unparenthesised macros ([1<<6]); where the source writes
    [~PG_FLAG_x] the expansion is [~1<<6], see [clear_mask]. *)
Definition PG_FLAG_private : Z := Z.shiftl 1 4.
Definition PG_FLAG_TAKEN : Z := Z.shiftl 1 6.
Definition PG_FLAG_RESERVED : Z := Z.shiftl 1 7.
Definition PG_FLAG_slab : Z := Z.shiftl 1 8.

Inductive node := FreeList (order : Z) | Lru (pfn : Z).

#[export] Instance node_eq_dec : EqDecision node.
Proof. solve_decision. Defined.

#[export] Instance node_countable : Countable node.
Proof.
  refine (inj_countable' (fun n => match n with FreeList o => inl o | Lru p => inr p end)
            (fun s : Z + Z => match s with inl o => FreeList o | inr p => Lru p end) _).
  by intros [].
Defined.

(** [list_entry(ptr, struct page, lru)] *)
Definition page_entry (n : node) : option Z :=
  match n with Lru i => Some i | FreeList _ => None end.

(** [struct page]; [lru] lives in the link store, [zone] is [true] once it
    points to the (only) zone, [first_page] is a page frame number. *)
Record page := mk_page {
  zone_set : bool;
  page_no : Z;
  flags : Z;
  ref_cnt : Z;
  map_count : Z;
  private : Z;
  first_page : option Z
}.

Record zone_t := mk_zone {
  free_pages_cnt : Z;
  present_pages : Z;
  pages_min : Z;
  pages_low : Z;
  zone_start_pfn : Z;
  zone_mem_map : gmap Z page;
  nr_free : list Z;
  links : gmap node (list_head node)
}.

Definition set_flags (f : Z) (p : page) : page :=
  mk_page (zone_set p) (page_no p) f (ref_cnt p) (map_count p) (private p) (first_page p).
Definition set_private (v : Z) (p : page) : page :=
  mk_page (zone_set p) (page_no p) (flags p) (ref_cnt p) (map_count p) v (first_page p).
Definition set_page_no_zone (n : Z) (p : page) : page :=
  mk_page true n (flags p) (ref_cnt p) (map_count p) (private p) (first_page p).

Definition set_free_pages (v : Z) (z : zone_t) : zone_t :=
  mk_zone v (present_pages z) (pages_min z) (pages_low z) (zone_start_pfn z)
    (zone_mem_map z) (nr_free z) (links z).
Definition set_mem_map (m : gmap Z page) (z : zone_t) : zone_t :=
  mk_zone (free_pages_cnt z) (present_pages z) (pages_min z) (pages_low z)
    (zone_start_pfn z) m (nr_free z) (links z).
Definition set_nr_free (l : list Z) (z : zone_t) : zone_t :=
  mk_zone (free_pages_cnt z) (present_pages z) (pages_min z) (pages_low z)
    (zone_start_pfn z) (zone_mem_map z) l (links z).
Definition set_links (st : gmap node (list_head node)) (z : zone_t) : zone_t :=
  mk_zone (free_pages_cnt z) (present_pages z) (pages_min z) (pages_low z)
    (zone_start_pfn z) (zone_mem_map z) (nr_free z) st.

Definition upd_page (z : zone_t) (i : Z) (f : page -> page) : option zone_t :=
  p ← zone_mem_map z !! i; Some (set_mem_map (<[i := f p]> (zone_mem_map z)) z).

(** [zone->free_area[k].nr_free += d] *)
Definition add_nr_free (z : zone_t) (k d : Z) : option zone_t :=
  n ← zget (nr_free z) k;
  l ← zset (nr_free z) k (u32 (n + d));
  Some (set_nr_free l z).

Definition on_links (z : zone_t)
    (f : gmap node (list_head node) -> option (gmap node (list_head node))) : option zone_t :=
  st ← f (links z); Some (set_links st z).

(** ** Page flags *)

(** [x &= ~F] where [F] is the macro [1<<k]: the operand is [(~1)<<k]. *)
Definition clear_mask (k : Z) : Z := u32 (Z.shiftl (Z.lnot 1) k).

Definition ClearPagePrivate (p : page) : page := set_flags (Z.land (flags p) (clear_mask 4)) p.
Definition ClearPageSlab (p : page) : page := set_flags (Z.land (flags p) (clear_mask 8)) p.
Definition SetPagePrivate (p : page) : page := set_flags (Z.lor (flags p) PG_FLAG_private) p.
Definition SetPageSlab (p : page) : page := set_flags (Z.lor (flags p) PG_FLAG_slab) p.

Definition PagePrivate (p : page) : bool :=
  Z.land (flags p) PG_FLAG_private =? PG_FLAG_private.

Definition page_is_buddy (buddy : page) (order : Z) : bool :=
  PagePrivate buddy && (private buddy =? u32 order).

(** ** Allocation *)

(** [for (current_order = order; current_order < BUDDY_GROUPS; ...)]; [n]
    iterations are left. *)
Fixpoint find_area (n : nat) (z : zone_t) (current_order : Z) : option (option Z) :=
  match n with
  | O => Some None
  | S n =>
      e ← list_is_empty (FreeList current_order) (links z);
      if (e : bool) then find_area n z (current_order + 1)
      else Some (Some current_order)
  end.

(** [while (current_order > order)]: hand the upper half back at each order. *)
Fixpoint expand (n : nat) (z : zone_t) (pg current_order size : Z) : option zone_t :=
  match n with
  | O => Some z
  | S n =>
      let current_order := current_order - 1 in
      let size := Z.shiftr size 1 in
      let buddy := pg + size in
      z ← on_links z (list_add (FreeList current_order) (Lru buddy));
      z ← add_nr_free z current_order 1;
      z ← upd_page z buddy (set_private (u32 current_order));
      z ← upd_page z buddy SetPagePrivate;
      expand n z pg current_order size
  end.

Definition allocate_block (z : zone_t) (order : Z) : option (option Z * zone_t) :=
  r ← find_area (Z.to_nat (BUDDY_GROUPS - order)) z order;
  match r with
  | None => Some (None, z)
  | Some current_order =>
      nx ← next_of (links z) (FreeList current_order);
      pg ← page_entry nx;
      z ← on_links z (list_del (Lru pg));
      z ← upd_page z pg ClearPagePrivate;
      z ← upd_page z pg (set_private 0);
      z ← add_nr_free z current_order (-1);
      let z := set_free_pages (u32 (free_pages_cnt z - Z.shiftl 1 order)) z in
      z ← expand (Z.to_nat (current_order - order)) z pg current_order
                 (Z.shiftl 1 current_order);
      Some (Some pg, z)
  end.

(** [alloc_pages(flags, order)] ignores its flags. *)
Definition alloc_pages (z : zone_t) (flags order : Z) : option (option Z * zone_t) :=
  allocate_block z order.

(** ** Freeing *)

(** [while (order < BUDDY_GROUPS - 1)]; [n] iterations are left. *)
Fixpoint coalesce (n : nat) (z : zone_t) (page_idx order : Z) : option (zone_t * Z * Z) :=
  match n with
  | O => Some (z, page_idx, order)
  | S n =>
      let buddy_idx := Z.lxor page_idx (Z.shiftl 1 order) in
      if present_pages z <=? buddy_idx then Some (z, page_idx, order) else
      buddy ← zone_mem_map z !! buddy_idx;
      if negb (page_is_buddy buddy order) then Some (z, page_idx, order) else
      z ← on_links z (list_del (Lru buddy_idx));
      z ← add_nr_free z order (-1);
      z ← upd_page z buddy_idx ClearPagePrivate;
      z ← upd_page z buddy_idx (set_private 0);
      coalesce n z (Z.land page_idx buddy_idx) (order + 1)
  end.

Definition free_block (page_idx : Z) (z : zone_t) (order : Z) : option zone_t :=
  let z := set_free_pages (u32 (free_pages_cnt z + Z.shiftl 1 order)) z in
  '(z, page_idx, order) ← coalesce (Z.to_nat (BUDDY_GROUPS - 1 - order)) z page_idx order;
  z ← upd_page z page_idx (set_private (u32 order));
  z ← upd_page z page_idx SetPagePrivate;
  z ← on_links z (list_add (FreeList order) (Lru page_idx));
  add_nr_free z order 1.

(** [free_pages(page, order)] goes through [page->zone]. *)
Definition free_pages (z : zone_t) (pg order : Z) : option zone_t :=
  p ← zone_mem_map z !! pg;
  if zone_set p then free_block pg z order else None.

(** ** Building the free lists *)

(** [while (num > 1) { num >>= 1; iOrder++; }]; an [int] reaches 1 in at most
    31 rounds. *)
Fixpoint order_loop (fuel : nat) (num iOrder : Z) : Z :=
  match fuel with
  | O => iOrder
  | S fuel => if 1 <? num then order_loop fuel (Z.shiftr num 1) (iOrder + 1) else iOrder
  end.

Definition order (num : Z) : Z := if num =? 0 then -1 else order_loop 31 num 0.

(** [__builtin_ctz] of a nonzero argument. *)
Fixpoint pos_ctz (p : positive) : Z :=
  match p with xO p => 1 + pos_ctz p | _ => 0 end.
Definition ctz (x : Z) : Z :=
  match x with Zpos p => pos_ctz p | Zneg p => pos_ctz p | Z0 => 0 end.

(** The order of the block [add_free_region_to_buddy] frees at [current]. *)
Definition region_order (current end_ : Z) : Z :=
  let remaining := end_ - current + 1 in
  let alignment := if current =? 0 then BUDDY_GROUPS else ctz current in
  let size_order := order_loop 31 remaining 0 in
  let max_order := if alignment <? size_order then alignment else size_order in
  if BUDDY_GROUPS <=? max_order then BUDDY_GROUPS - 1 else max_order.

Fixpoint add_free_region_loop (fuel : nat) (z : zone_t) (current end_ : Z) : option zone_t :=
  match fuel with
  | O => Some z
  | S fuel =>
      if current <=? end_ then
        let max_order := region_order current end_ in
        z ← free_block current z max_order;
        add_free_region_loop fuel z (current + Z.shiftl 1 max_order) end_
      else Some z
  end.

Definition add_free_region_to_buddy (z : zone_t) (start end_ : Z) : option zone_t :=
  add_free_region_loop (Z.to_nat (end_ - start + 1)) z start end_.

(** The first loop of [init_zone], pages [iCnt .. iCnt + n - 1]. *)
Fixpoint init_pages (n : nat) (z : zone_t) (iCnt : Z) : option zone_t :=
  match n with
  | O => Some z
  | S n =>
      z ← upd_page z iCnt (set_page_no_zone iCnt);
      z ← on_links z (INIT_LIST_HEAD (Lru iCnt));
      init_pages n z (iCnt + 1)
  end.

Definition page_unavailable (z : zone_t) (i : Z) : option bool :=
  p ← zone_mem_map z !! i;
  Some (has_flag (flags p) PG_FLAG_TAKEN || has_flag (flags p) PG_FLAG_RESERVED).

(** [while (iCnt < present_pages && (taken || reserved)) iCnt++]; [n] pages
    are left. *)
Fixpoint skip_unavailable (n : nat) (z : zone_t) (iCnt : Z) : option Z :=
  match n with
  | O => Some iCnt
  | S n =>
      u ← page_unavailable z iCnt;
      if (u : bool) then skip_unavailable n z (iCnt + 1) else Some iCnt
  end.

(** [while (iCnt < present_pages)] of [init_zone]. *)
Fixpoint scan_regions (fuel : nat) (z : zone_t) (iCnt iPrev : Z) : option (zone_t * Z) :=
  match fuel with
  | O => Some (z, iPrev)
  | S fuel =>
      if iCnt <? present_pages z then
        u ← page_unavailable z iCnt;
        if (u : bool) then
          z ← (if iPrev <? iCnt then add_free_region_to_buddy z iPrev (iCnt - 1) else Some z);
          iCnt ← skip_unavailable (Z.to_nat (present_pages z - iCnt)) z iCnt;
          scan_regions fuel z iCnt iCnt
        else scan_regions fuel z (iCnt + 1) iPrev
      else Some (z, iPrev)
  end.

(** [init_zone] up to its call of [test_buddy]. *)
Definition init_zone_lists (z : zone_t) : option zone_t :=
  let n := Z.to_nat (present_pages z) in
  z ← init_pages n z 0;
  iCnt ← skip_unavailable n z 0;
  '(z, iPrev) ← scan_regions (S n) z iCnt iCnt;
  if iPrev <? present_pages z then add_free_region_to_buddy z iPrev (present_pages z - 1)
  else Some z.

(** [test_buddy]: [free_block(NULL, ...)] after a failed allocation computes
    an index from a null pointer, which is undefined. *)
Definition test_buddy (z : zone_t) : option zone_t :=
  '(page1, z) ← allocate_block z 9;
  '(page2, z) ← allocate_block z 4;
  p2 ← page2;
  z ← free_block p2 z 4;
  p1 ← page1;
  free_block p1 z 9.

Definition init_zone (z : zone_t) : option zone_t :=
  z ← init_zone_lists z;
  test_buddy z.

(** ** The invariant *)

Definition free_page (L : Z -> list Z) (p : Z) : Prop :=
  exists k i, i ∈ L k /\ in_block k i p.

Definition block_ok (z : zone_t) (k i : Z) : Prop :=
  0 <= k < BUDDY_GROUPS /\ 0 <= i /\ (2 ^ k | i) /\ i + 2 ^ k <= present_pages z.

Record buddy_inv (z : zone_t) (L : Z -> list Z) : Prop := {
  bi_rings k : 0 <= k < BUDDY_GROUPS -> dlist (links z) (FreeList k) (Lru <$> L k);
  bi_nr k : 0 <= k < BUDDY_GROUPS -> zget (nr_free z) k = Some (Z.of_nat (length (L k)));
  bi_block k i : i ∈ L k -> block_ok z k i;
  bi_disj k i j i' p : i ∈ L k -> i' ∈ L j -> in_block k i p -> in_block j i' p ->
    k = j /\ i = i';
  bi_head i p : zone_mem_map z !! i = Some p -> PagePrivate p = true -> i ∈ L (private p);
  bi_mark k i : i ∈ L k ->
    exists p, zone_mem_map z !! i = Some p /\ PagePrivate p = true /\ private p = k;
  bi_page i : 0 <= i < present_pages z ->
    is_Some (zone_mem_map z !! i) /\ is_Some (links z !! Lru i);
  bi_max k i : i ∈ L k -> k < BUDDY_GROUPS - 1 -> Z.lxor i (2 ^ k) ∉ L k;
  bi_small : 0 <= present_pages z < 2 ^ 31
}.

(** ** Arithmetic of buddies *)

Lemma lxor_even_1 a : Z.lxor (2 * a) 1 = 2 * a + 1.
Proof.
  symmetry. apply Z.add_nocarry_lxor.
  apply Z.bits_inj'. intros n Hn. rewrite Z.land_spec, Z.bits_0.
  destruct (Z.eq_dec n 0) as [->|].
  - by rewrite Z.testbit_even_0.
  - rewrite (Z.bits_above_log2 1 n), andb_false_r by (simpl; lia). done.
Qed.

Lemma land_even_succ a : Z.land (2 * a) (2 * a + 1) = 2 * a.
Proof.
  apply Z.bits_inj'. intros n Hn. rewrite Z.land_spec.
  destruct (Z.eq_dec n 0) as [->|].
  - by rewrite Z.testbit_even_0.
  - replace n with (Z.succ (n - 1)) by lia.
    rewrite Z.testbit_even_succ, Z.testbit_odd_succ by lia. apply andb_diag.
Qed.

(** The two cases of an aligned index: a left half [2a * 2^k] or a right half
    [(2a+1) * 2^k] of the block of order [k + 1] at [2a * 2^k]. *)
Lemma buddy_cases k i :
  0 <= k -> (2 ^ k | i) -> exists a,
    let l := 2 * a * 2 ^ k in let r := (2 * a + 1) * 2 ^ k in
    (i = l \/ i = r)
    /\ Z.lxor l (2 ^ k) = r /\ Z.lxor r (2 ^ k) = l
    /\ Z.land l r = l /\ Z.land r l = l
    /\ r = l + 2 ^ k /\ 2 ^ (k + 1) = 2 ^ k + 2 ^ k /\ (2 ^ (k + 1) | l).
Proof.
  intros Hk [q ->]. exists (q / 2). simpl.
  assert (forall x y, Z.lxor (x * 2 ^ k) (y * 2 ^ k) = Z.lxor x y * 2 ^ k) as Hx.
  { intros. rewrite <-!Z.shiftl_mul_pow2 by lia. by rewrite Z.shiftl_lxor. }
  assert (forall x y, Z.land (x * 2 ^ k) (y * 2 ^ k) = Z.land x y * 2 ^ k) as Hl.
  { intros. rewrite <-!Z.shiftl_mul_pow2 by lia. by rewrite Z.shiftl_land. }
  assert (Z.lxor (2 * (q / 2) + 1) 1 = 2 * (q / 2)) as Ho.
  { rewrite <-lxor_even_1, Z.lxor_assoc, Z.lxor_nilpotent. apply Z.lxor_0_r. }
  split_and!.
  - destruct (Z.mod_pos_bound q 2); [lia|]. pose proof (Z_div_mod_eq_full q 2).
    destruct (Z.eq_dec (q `mod` 2) 0); [left|right]; f_equal; lia.
  - rewrite <-(Z.mul_1_l (2 ^ k)) at 2. rewrite Hx. by rewrite lxor_even_1.
  - rewrite <-(Z.mul_1_l (2 ^ k)) at 2. rewrite Hx. by rewrite Ho.
  - by rewrite Hl, land_even_succ.
  - by rewrite Hl, Z.land_comm, land_even_succ.
  - lia.
  - rewrite Z.pow_add_r by lia. lia.
  - exists (q / 2). rewrite Z.pow_add_r by lia. lia.
Qed.

Lemma pow2_pos k : 0 <= k -> 0 < 2 ^ k.
Proof. intros. apply Z.pow_pos_nonneg; lia. Qed.

Lemma pow2_double c : 1 <= c -> 2 ^ c = 2 ^ (c - 1) + 2 ^ (c - 1).
Proof.
  intros. replace c with (Z.succ (c - 1)) at 1 by lia. rewrite Z.pow_succ_r by lia. lia.
Qed.

Lemma shiftl_1 k : 0 <= k -> Z.shiftl 1 k = 2 ^ k.
Proof. intros. rewrite Z.shiftl_mul_pow2 by lia. lia. Qed.

(** ** Flags *)

Lemma PagePrivate_testbit p : PagePrivate p = Z.testbit (flags p) 4.
Proof.
  pose proof (land_pow2_testbit (flags p) 4 ltac:(lia)) as H. unfold has_flag in H.
  unfold PagePrivate. change PG_FLAG_private with (2 ^ 4). rewrite <-H.
  assert (Z.land (flags p) (2 ^ 4) = if Z.testbit (flags p) 4 then 2 ^ 4 else 0) as ->.
  { apply Z.bits_inj'. intros n Hn. rewrite Z.land_spec, Z.pow2_bits_eqb by lia.
    destruct (Z.eqb_spec 4 n) as [<-|].
    - rewrite andb_true_r. destruct (Z.testbit (flags p) 4); [done|by rewrite Z.bits_0].
    - rewrite andb_false_r. destruct (Z.testbit (flags p) 4); [|by rewrite Z.bits_0].
      symmetry. by apply Z.pow2_bits_false. }
  by destruct (Z.testbit (flags p) 4).
Qed.

Lemma PagePrivate_Clear p v : PagePrivate (set_private v (ClearPagePrivate p)) = false.
Proof.
  rewrite PagePrivate_testbit.
  change (flags _) with (Z.land (flags p) (clear_mask 4)).
  rewrite Z.land_spec. apply andb_false_r.
Qed.

Lemma PagePrivate_Set p v : PagePrivate (SetPagePrivate (set_private v p)) = true.
Proof.
  rewrite PagePrivate_testbit.
  change (flags _) with (Z.lor (flags p) PG_FLAG_private).
  rewrite Z.lor_spec. apply orb_true_r.
Qed.

(** ** The two elementary steps: a block leaves or enters a free list *)

Definition upd (L : Z -> list Z) (k : Z) (l : list Z) : Z -> list Z :=
  fun j => if decide (j = k) then l else L j.

Lemma upd_eq L k l : upd L k l k = l.
Proof. unfold upd. by rewrite decide_True. Qed.

Lemma upd_ne L k l j : j ≠ k -> upd L k l j = L j.
Proof. intros. unfold upd. by rewrite decide_False. Qed.

Lemma block_ok_ext z z' k i : present_pages z' = present_pages z -> block_ok z k i -> block_ok z' k i.
Proof. unfold block_ok. intros ->. done. Qed.

Lemma buddy_inv_free_pages z L v : buddy_inv z L -> buddy_inv (set_free_pages v z) L.
Proof. by intros []. Qed.

Lemma in_block_head k i : 0 <= k -> in_block k i i.
Proof. intros ?%pow2_pos. unfold in_block. lia. Qed.

Lemma free_list_disjoint z L j k i : buddy_inv z L -> i ∈ L j -> i ∈ L k -> j = k.
Proof.
  intros I Hj Hk. destruct (bi_block _ _ I j i Hj) as [? _].
  destruct (bi_block _ _ I k i Hk) as [? _].
  eapply (bi_disj _ _ I j i k i i); auto using in_block_head; apply in_block_head; lia.
Qed.

Lemma length_free_list z L k : buddy_inv z L -> Z.of_nat (length (L k)) <= present_pages z.
Proof.
  intros I. destruct (decide (0 <= k < BUDDY_GROUPS)) as [Hk|Hk].
  2:{ assert (L k = []) as ->; [|pose proof (bi_small _ _ I); simpl; lia].
      destruct (L k) as [|x l] eqn:E; [done|]. destruct Hk.
      apply (bi_block _ _ I k x). rewrite E. set_solver. }
  assert (NoDup (L k)) as Hnd.
  { pose proof (bi_rings _ _ I k Hk) as [Hnd _]. apply NoDup_cons in Hnd as [_ Hnd].
    by apply NoDup_fmap_1 in Hnd. }
  assert (L k ⊆ seqZ 0 (present_pages z)) as Hsub.
  { intros x Hx. apply elem_of_seqZ. destruct (bi_block _ _ I k x Hx) as (? & ? & _ & ?).
    pose proof (pow2_pos k). lia. }
  pose proof (submseteq_length _ _ (NoDup_submseteq _ _ Hnd Hsub)) as Hlen.
  rewrite length_seqZ in Hlen. pose proof (bi_small _ _ I). lia.
Qed.

(** The zone after block [(k, i)] has left list [k]: links [st], descriptor
    [p'] for page [i], counter [c] for order [k]. *)
Definition zone_upd (z : zone_t) (st : gmap node (list_head node)) (i : Z) (p' : page)
    (k c : Z) : zone_t :=
  set_nr_free (<[Z.to_nat k := c]> (nr_free z))
    (set_mem_map (<[i := p']> (zone_mem_map z)) (set_links st z)).

Lemma nr_free_length z L : buddy_inv z L -> Z.of_nat (length (nr_free z)) >= BUDDY_GROUPS.
Proof.
  intros I. pose proof (bi_nr _ _ I (BUDDY_GROUPS - 1) ltac:(unfold BUDDY_GROUPS; lia)) as H.
  apply zget_Some_lt in H. lia.
Qed.

Lemma nr_free_upd z L k n j :
  buddy_inv z L -> 0 <= k < BUDDY_GROUPS -> 0 <= j < BUDDY_GROUPS ->
  zget (<[Z.to_nat k := n]> (nr_free z)) j =
  if decide (j = k) then Some n else Some (Z.of_nat (length (L j))).
Proof.
  intros I Hk Hj. pose proof (nr_free_length _ _ I).
  pose proof (zset_in_range (nr_free z) k n ltac:(lia)) as E. case_decide; subst.
  - by apply zget_zset_eq in E.
  - rewrite (zget_zset_ne _ _ _ j _ ltac:(done) E). by apply (bi_nr _ _ I).
Qed.

Lemma take_block z L k i :
  buddy_inv z L -> i ∈ L k ->
  exists st p n xs ys, L k = xs ++ i :: ys
    /\ list_del (Lru i) (links z) = Some st
    /\ zone_mem_map z !! i = Some p
    /\ zget (nr_free z) k = Some n
    /\ zset (nr_free z) k (u32 (n + -1)) = Some (<[Z.to_nat k := u32 (n + -1)]> (nr_free z))
    /\ buddy_inv (zone_upd z st i (set_private 0 (ClearPagePrivate p)) k (u32 (n + -1)))
         (upd L k (xs ++ ys)).
Proof.
  intros I Hi. destruct (bi_block _ _ I k i Hi) as (Hk & Hb).
  pose proof (bi_rings _ _ I k Hk) as Hring.
  destruct (bi_mark _ _ I k i Hi) as (p & Hp & Hpp & Hpk).
  pose proof (bi_nr _ _ I k Hk) as Hnr.
  apply list_elem_of_split in Hi as (xs & ys & Hxy). rewrite Hxy in Hring, Hnr.
  rewrite fmap_app, fmap_cons in Hring.
  pose proof Hring as [Hnd _]. apply NoDup_ring_mid in Hnd as [Hnd Hnotin].
  destruct (list_del_spec _ _ _ _ _ Hring) as (st & E & D & Hring' & _ & F).
  exists st, p, (Z.of_nat (length (xs ++ i :: ys))), xs, ys.
  split_and!; [done..| |].
  { apply zset_in_range. pose proof (nr_free_length _ _ I). lia. }
  assert (forall j x, x ∈ upd L k (xs ++ ys) j <-> x ∈ L j /\ (j = k -> x ≠ i)) as Hin.
  { intros j x. unfold upd. case_decide; subst; [|naive_solver].
    rewrite Hxy. set_solver. }
  split; simpl.
  - intros j Hj. destruct (decide (j = k)) as [->|Hjk].
    + rewrite upd_eq, fmap_app. done.
    + rewrite upd_ne by done. eapply dlist_frame; [|by apply (bi_rings _ _ I)].
      intros y Hy. apply F. intros Hy'.
      rewrite <-fmap_cons, <-fmap_app, <-Hxy in Hy'.
      apply elem_of_cons in Hy as [->|(x & -> & Hx)%list_elem_of_fmap].
      * apply elem_of_cons in Hy' as [[=]|(? & [=] & _)%list_elem_of_fmap]. done.
      * apply elem_of_cons in Hy' as [[=]|(? & [= <-] & Hx')%list_elem_of_fmap].
        by destruct (free_list_disjoint _ _ j k x I Hx Hx').
  - intros j Hj. rewrite (nr_free_upd _ _ _ _ _ I Hk Hj). unfold upd.
    case_decide; [|done]. f_equal.
    pose proof (length_free_list _ _ k I) as Hlen. pose proof (bi_small _ _ I).
    rewrite Hxy in Hlen. rewrite !length_app in *. simpl in *. rewrite u32_small; lia.
  - intros j x [Hx _]%Hin. eapply block_ok_ext; [|by apply (bi_block _ _ I)]. done.
  - intros j x j' x' q [Hx _]%Hin [Hx' _]%Hin. by apply (bi_disj _ _ I).
  - intros x q. destruct (decide (x = i)) as [->|Hxi].
    + rewrite lookup_insert_eq. intros [= <-]. by rewrite PagePrivate_Clear.
    + rewrite lookup_insert_ne by done. intros Hq Hqp.
      apply Hin. split; [by apply (bi_head _ _ I)|done].
  - intros j x [Hx Hne]%Hin. destruct (bi_mark _ _ I j x Hx) as (q & Hq & Hqp & Hqk).
    exists q. split; [|done]. rewrite lookup_insert_ne; [done|]. intros ->.
    apply Hne; [|done]. congruence.
  - intros x Hx. destruct (bi_page _ _ I x Hx) as [H1 H2]. split.
    + destruct (decide (x = i)) as [->|]; simplify_map_eq; eauto.
    + apply elem_of_dom. rewrite D. by apply elem_of_dom.
  - intros j x [Hx _]%Hin Hj Hl. apply Hin in Hl as [Hl _]. by apply (bi_max _ _ I j x).
  - apply (bi_small _ _ I).
Qed.

Lemma put_block z L k i :
  buddy_inv z L -> block_ok z k i ->
  (forall p, in_block k i p -> ~ free_page L p) ->
  (k < BUDDY_GROUPS - 1 -> Z.lxor i (2 ^ k) ∉ L k) ->
  exists st p n, list_add (FreeList k) (Lru i) (links z) = Some st
    /\ zone_mem_map z !! i = Some p
    /\ zget (nr_free z) k = Some n
    /\ zset (nr_free z) k (u32 (n + 1)) = Some (<[Z.to_nat k := u32 (n + 1)]> (nr_free z))
    /\ buddy_inv (zone_upd z st i (SetPagePrivate (set_private (u32 k) p)) k (u32 (n + 1)))
         (upd L k (i :: L k)).
Proof.
  intros I Hok Hfree Hmax. pose proof Hok as (Hk & Hi0 & Hal & Hbnd).
  pose proof (pow2_pos k ltac:(lia)) as Hpow.
  assert (forall j, i ∉ L j) as Hnotin.
  { intros j Hj. destruct (bi_block _ _ I j i Hj) as [? _].
    apply (Hfree i); [apply in_block_head; lia|]. exists j, i. split; [done|].
    apply in_block_head. lia. }
  pose proof (bi_rings _ _ I k Hk) as Hring.
  destruct (bi_page _ _ I i ltac:(lia)) as [[p Hp] Hlru].
  pose proof (bi_nr _ _ I k Hk) as Hnr.
  destruct (list_add_spec _ _ _ (Lru i) Hring) as (st & E & D & Hring' & F).
  { intros [[=]|(? & [= <-] & Hx)%list_elem_of_fmap]%elem_of_cons. by eapply Hnotin. }
  { done. }
  exists st, p, (Z.of_nat (length (L k))). split_and!; [done..| |].
  { apply zset_in_range. pose proof (nr_free_length _ _ I). lia. }
  assert (forall j x, x ∈ upd L k (i :: L k) j <-> x ∈ L j \/ (j = k /\ x = i)) as Hin.
  { intros j x. unfold upd. case_decide; subst; set_solver. }
  split; simpl.
  - intros j Hj. destruct (decide (j = k)) as [->|Hjk].
    + rewrite upd_eq, fmap_cons. done.
    + rewrite upd_ne by done. eapply dlist_frame; [|by apply (bi_rings _ _ I)].
      intros y Hy. apply F.
      apply elem_of_cons in Hy as [->|(x & -> & Hx)%list_elem_of_fmap].
      * intros [[=]|[[=]|(? & [=] & _)%list_elem_of_fmap]%elem_of_cons]%elem_of_cons. done.
      * intros [[= ->]|[[=]|(? & [= <-] & Hx')%list_elem_of_fmap]%elem_of_cons]%elem_of_cons;
          [by eapply Hnotin|]. by destruct (free_list_disjoint _ _ j k x I Hx Hx').
  - intros j Hj. rewrite (nr_free_upd _ _ _ _ _ I Hk Hj). unfold upd.
    case_decide; [|done]. f_equal.
    pose proof (length_free_list _ _ k I) as Hlen. pose proof (bi_small _ _ I).
    simpl. rewrite u32_small; lia.
  - intros j x [Hx|[-> ->]]%Hin; [|done].
    eapply block_ok_ext; [|by apply (bi_block _ _ I)]. done.
  - intros j x j' x' q [Hx|[-> ->]]%Hin [Hx'|[-> ->]]%Hin Hq Hq';
      [by eapply (bi_disj _ _ I)| | |done]; exfalso; eapply Hfree; unfold free_page; eauto.
  - intros x q. destruct (decide (x = i)) as [->|Hxi].
    + rewrite lookup_insert_eq. intros [= <-] _. apply Hin. right.
      split; [|done]. simpl. apply u32_small. unfold BUDDY_GROUPS in *. lia.
    + rewrite lookup_insert_ne by done. intros Hq Hqp.
      apply Hin. left. by apply (bi_head _ _ I).
  - intros j x [Hx|[-> ->]]%Hin.
    + destruct (bi_mark _ _ I j x Hx) as (q & Hq & Hqp & Hqk).
      exists q. split; [|done]. rewrite lookup_insert_ne; [done|]. intros ->. by eapply Hnotin.
    + eexists. rewrite lookup_insert_eq. split; [done|]. rewrite PagePrivate_Set.
      split; [done|]. simpl. apply u32_small. unfold BUDDY_GROUPS in *. lia.
  - intros x Hx. destruct (bi_page _ _ I x Hx) as [H1 H2]. split.
    + destruct (decide (x = i)) as [->|]; simplify_map_eq; eauto.
    + apply elem_of_dom. rewrite D. by apply elem_of_dom.
  - intros j x [Hx|[-> ->]]%Hin Hj [Hl|[? Hl]]%Hin; subst.
    + by apply (bi_max _ _ I j x).
    + destruct (buddy_cases k x) as (a & [->| ->] & Hl1 & Hl2 & _ );
        [lia|by apply (bi_block _ _ I)| |]; apply Hmax; [done|congruence|done|congruence].
    + by apply Hmax.
    + destruct (buddy_cases k i) as (a & [->| ->] & Hl1 & Hl2 & _ & _ & Hr & _); [lia|done| |]; lia.
  - apply (bi_small _ _ I).
Qed.

(** The source performs the assignments of an elementary step in several
    orders; each sequence amounts to [zone_upd]. *)
Ltac run_zone :=
  unfold on_links, add_nr_free, upd_page; simpl;
  repeat (first
    [ match goal with
      | E : ?x = Some _ |- context [?x ≫= _] => rewrite E
      end
    | rewrite lookup_insert_eq | rewrite insert_insert_eq ]; simpl).

Section Steps.
Context {B : Type} (f : zone_t -> option B).

Lemma run_put_alloc z k i st p n :
  list_add (FreeList k) (Lru i) (links z) = Some st ->
  zone_mem_map z !! i = Some p ->
  zget (nr_free z) k = Some n ->
  zset (nr_free z) k (u32 (n + 1)) = Some (<[Z.to_nat k := u32 (n + 1)]> (nr_free z)) ->
  (z ← on_links z (list_add (FreeList k) (Lru i));
   z ← add_nr_free z k 1;
   z ← upd_page z i (set_private (u32 k));
   z ← upd_page z i SetPagePrivate;
   f z) = f (zone_upd z st i (SetPagePrivate (set_private (u32 k) p)) k (u32 (n + 1))).
Proof. intros E1 E2 E3 E4. run_zone. done. Qed.

Lemma run_put_free z k i st p n :
  list_add (FreeList k) (Lru i) (links z) = Some st ->
  zone_mem_map z !! i = Some p ->
  zget (nr_free z) k = Some n ->
  zset (nr_free z) k (u32 (n + 1)) = Some (<[Z.to_nat k := u32 (n + 1)]> (nr_free z)) ->
  (z ← upd_page z i (set_private (u32 k));
   z ← upd_page z i SetPagePrivate;
   z ← on_links z (list_add (FreeList k) (Lru i));
   z ← add_nr_free z k 1;
   f z) = f (zone_upd z st i (SetPagePrivate (set_private (u32 k) p)) k (u32 (n + 1))).
Proof. intros E1 E2 E3 E4. run_zone. done. Qed.

Lemma run_take_alloc z k i st p n :
  list_del (Lru i) (links z) = Some st ->
  zone_mem_map z !! i = Some p ->
  zget (nr_free z) k = Some n ->
  zset (nr_free z) k (u32 (n + -1)) = Some (<[Z.to_nat k := u32 (n + -1)]> (nr_free z)) ->
  (z ← on_links z (list_del (Lru i));
   z ← upd_page z i ClearPagePrivate;
   z ← upd_page z i (set_private 0);
   z ← add_nr_free z k (-1);
   f z) = f (zone_upd z st i (set_private 0 (ClearPagePrivate p)) k (u32 (n + -1))).
Proof. intros E1 E2 E3 E4. run_zone. done. Qed.

Lemma run_take_free z k i st p n :
  list_del (Lru i) (links z) = Some st ->
  zone_mem_map z !! i = Some p ->
  zget (nr_free z) k = Some n ->
  zset (nr_free z) k (u32 (n + -1)) = Some (<[Z.to_nat k := u32 (n + -1)]> (nr_free z)) ->
  (z ← on_links z (list_del (Lru i));
   z ← add_nr_free z k (-1);
   z ← upd_page z i ClearPagePrivate;
   z ← upd_page z i (set_private 0);
   f z) = f (zone_upd z st i (set_private 0 (ClearPagePrivate p)) k (u32 (n + -1))).
Proof. intros E1 E2 E3 E4. run_zone. done. Qed.
End Steps.

(** ** The set of free pages *)

Lemma free_page_put L k i p :
  free_page (upd L k (i :: L k)) p <-> free_page L p \/ in_block k i p.
Proof.
  unfold free_page. split.
  - intros (j & x & Hx & Hp). unfold upd in Hx. case_decide; subst; [|eauto].
    apply elem_of_cons in Hx as [->|Hx]; eauto.
  - intros [(j & x & Hx & Hp)|Hp].
    + exists j, x. split; [|done]. unfold upd. case_decide; subst; set_solver.
    + exists k, i. split; [|done]. rewrite upd_eq. set_solver.
Qed.

Lemma free_page_take z L k i xs ys p :
  buddy_inv z L -> L k = xs ++ i :: ys ->
  free_page (upd L k (xs ++ ys)) p <-> free_page L p /\ ~ in_block k i p.
Proof.
  intros I Hxy. assert (i ∈ L k) as Hi by (rewrite Hxy; set_solver).
  unfold free_page. split.
  - intros (j & x & Hx & Hp).
    assert (x ∈ L j /\ (j, x) ≠ (k, i)) as [Hx' Hne].
    { unfold upd in Hx. case_decide; subst; [|split; [done|congruence]].
      rewrite Hxy. split; [set_solver|]. intros [= ->].
      destruct (bi_block _ _ I k i Hi) as [Hk _].
      pose proof (bi_rings _ _ I k Hk) as [Hnd _]. rewrite Hxy in Hnd.
      rewrite fmap_app, fmap_cons in Hnd. apply NoDup_ring_mid in Hnd as [_ Hnd].
      apply Hnd. apply elem_of_cons. right. rewrite <-fmap_app. by apply list_elem_of_fmap_2. }
    split; [eauto|]. intros Hq. destruct (bi_disj _ _ I j x k i p); naive_solver.
  - intros [(j & x & Hx & Hp) Hn]. exists j, x. split; [|done].
    unfold upd. case_decide; subst; [|done]. rewrite Hxy in Hx.
    apply elem_of_app in Hx as [?|[->|?]%elem_of_cons]; [set_solver|done|set_solver].
Qed.

(** ** Splitting *)

(** Availability of pages (flags [PG_FLAG_TAKEN], [PG_FLAG_RESERVED]) is not
    touched by the allocator. *)
Definition same_avail (z z' : zone_t) : Prop :=
  forall i, page_unavailable z' i = page_unavailable z i.

Definition zone_frame (z z' : zone_t) : Prop :=
  present_pages z' = present_pages z /\ free_pages_cnt z' = free_pages_cnt z /\ same_avail z z'.

Lemma same_avail_upd z st i p p' k c :
  zone_mem_map z !! i = Some p ->
  (forall b, 6 <= b <= 7 -> Z.testbit (flags p') b = Z.testbit (flags p) b) ->
  zone_frame z (zone_upd z st i p' k c).
Proof.
  intros Hp Hb. split_and!; [done..|]. intros j. unfold page_unavailable. simpl.
  destruct (decide (j = i)) as [->|].
  - rewrite lookup_insert_eq, Hp. simpl.
    change PG_FLAG_TAKEN with (2 ^ 6). change PG_FLAG_RESERVED with (2 ^ 7).
    rewrite !land_pow2_testbit by lia. by rewrite !Hb by lia.
  - by rewrite lookup_insert_ne.
Qed.

Lemma take_frame z st i p k c :
  zone_mem_map z !! i = Some p ->
  zone_frame z (zone_upd z st i (set_private 0 (ClearPagePrivate p)) k c).
Proof.
  intros. eapply same_avail_upd; [done|]. intros b Hb.
  change (flags _) with (Z.land (flags p) (clear_mask 4)) at 1. rewrite Z.land_spec.
  assert (b = 6 \/ b = 7) as [-> | ->] by lia; apply andb_true_r.
Qed.

Lemma put_frame z st i p k c :
  zone_mem_map z !! i = Some p ->
  zone_frame z (zone_upd z st i (SetPagePrivate (set_private (u32 k) p)) k c).
Proof.
  intros. eapply same_avail_upd; [done|]. intros b Hb.
  change (flags _) with (Z.lor (flags p) PG_FLAG_private) at 1. rewrite Z.lor_spec.
  assert (b = 6 \/ b = 7) as [-> | ->] by lia; apply orb_false_r.
Qed.

Lemma zone_frame_trans z1 z2 z3 : zone_frame z1 z2 -> zone_frame z2 z3 -> zone_frame z1 z3.
Proof. unfold zone_frame, same_avail. intros (?&?&Ha) (?&?&Hb). split_and!; congruence. Qed.

#[export] Hint Resolve zone_frame_trans take_frame put_frame buddy_inv_free_pages : bach.

Lemma half_pow c : 1 <= c -> Z.shiftr (2 ^ c) 1 = 2 ^ (c - 1).
Proof. intros. rewrite Z.shiftr_div_pow2 by lia. by rewrite <-Z.pow_sub_r by lia. Qed.

Lemma expand_spec n z L pg c :
  buddy_inv z L -> Z.of_nat n <= c -> block_ok z c pg ->
  (forall p, in_block c pg p -> ~ free_page L p) ->
  exists z' L', expand n z pg c (2 ^ c) = Some z' /\ buddy_inv z' L' /\ zone_frame z z'
    /\ forall p, free_page L' p <->
         free_page L p \/ (in_block c pg p /\ ~ in_block (c - Z.of_nat n) pg p).
Proof.
  revert z L c. induction n as [|n IH]; intros z L c I Hn Hok Hfree.
  { exists z, L. split_and!; [done..|]. intros p.
    replace (c - Z.of_nat 0) with c by lia. tauto. }
  destruct Hok as (Hc & H0 & [a ->] & Hb).
  cbn [expand]. rewrite half_pow by lia.
  pose proof (pow2_double c ltac:(lia)) as Hdbl.
  pose proof (pow2_pos (c - 1) ltac:(lia)) as Hpos.
  assert (block_ok z (c - 1) (a * 2 ^ c)) as Hlo.
  { split_and!; [lia..| |lia]. exists (2 * a). rewrite Hdbl. lia. }
  assert (block_ok z (c - 1) (a * 2 ^ c + 2 ^ (c - 1))) as Hhi.
  { split_and!; [lia..| |lia]. exists (2 * a + 1). rewrite Hdbl. lia. }
  destruct (put_block z L (c - 1) (a * 2 ^ c + 2 ^ (c - 1)) I Hhi)
    as (st & p & m & E1 & E2 & E3 & E4 & I').
  { intros p Hp. apply Hfree. unfold in_block in *. lia. }
  { intros _ Hl. destruct (buddy_cases (c - 1) (a * 2 ^ c + 2 ^ (c - 1)))
      as (q & Hq & Hx1 & Hx2 & _ & _ & Hr & Hpw & _); [lia|apply Hhi|].
    destruct Hq as [Hq|Hq].
    { assert (2 * a + 1 = 2 * q) by (apply (Z.mul_reg_r _ _ (2 ^ (c - 1))); lia). lia. }
    rewrite Hq, Hx2 in Hl. eapply (Hfree (2 * q * 2 ^ (c - 1))).
    - unfold in_block. lia.
    - exists (c - 1), (2 * q * 2 ^ (c - 1)). split; [done|]. apply in_block_head. lia. }
  rewrite (run_put_alloc _ _ _ _ _ _ _ E1 E2 E3 E4).
  edestruct (IH _ _ (c - 1) I') as (z' & L' & E & I'' & F & HL);
    [lia|eapply block_ok_ext; [|exact Hlo]; done|..].
  { intros q Hq [Hf|Hf]%free_page_put; [eapply Hfree; [|done]|]; unfold in_block in *; lia. }
  exists z', L'. split_and!; [done|done|eauto with bach|].
  intros q. rewrite HL, free_page_put.
  replace (c - Z.of_nat (S n)) with (c - 1 - Z.of_nat n) by lia.
  assert (in_block c (a * 2 ^ c) q <->
    in_block (c - 1) (a * 2 ^ c) q \/ in_block (c - 1) (a * 2 ^ c + 2 ^ (c - 1)) q) as ->.
  { unfold in_block. lia. }
  assert (in_block (c - 1) (a * 2 ^ c + 2 ^ (c - 1)) q ->
    ~ in_block (c - 1 - Z.of_nat n) (a * 2 ^ c) q); [|tauto].
  intros H1 H2. unfold in_block in *.
  pose proof (Z.pow_le_mono_r 2 (c - 1 - Z.of_nat n) (c - 1) ltac:(lia) ltac:(lia)). lia.
Qed.

(** ** Allocation *)

Lemma find_area_spec n z L o :
  buddy_inv z L -> 0 <= o -> Z.of_nat n = BUDDY_GROUPS - o ->
  exists r, find_area n z o = Some r /\
    match r with
    | None => forall k, o <= k < BUDDY_GROUPS -> L k = []
    | Some c => o <= c < BUDDY_GROUPS /\ L c ≠ [] /\ forall k, o <= k < c -> L k = []
    end.
Proof.
  intros I. revert o. induction n as [|n IH]; intros o Ho Hn.
  { exists None. split; [done|]. lia. }
  cbn [find_area].
  rewrite (list_is_empty_spec _ _ _ (bi_rings _ _ I o ltac:(lia))). simpl.
  case_bool_decide as He.
  - apply fmap_nil_inv in He.
    destruct (IH (o + 1)) as (r & E & Hr); [lia..|]. exists r. split; [done|].
    destruct r as [c|]; [destruct Hr as (? & ? & Hr); split_and!; [lia..|done|]|];
      intros k Hk; (destruct (decide (k = o)) as [->|]; [done|]; apply Hr; lia).
  - exists (Some o). split_and!; [done|lia|lia| |lia]. intros HH. by rewrite HH in He.
Qed.

Lemma list_first z L c i l :
  buddy_inv z L -> 0 <= c < BUDDY_GROUPS -> L c = i :: l ->
  next_of (links z) (FreeList c) = Some (Lru i).
Proof.
  intros I Hc E. pose proof (bi_rings _ _ I c Hc) as [_ Hl].
  rewrite (lseg_first _ _ _ _ Hl), E. done.
Qed.

Lemma allocate_block_found z L order :
  buddy_inv z L -> 0 <= order < BUDDY_GROUPS ->
  (exists k, order <= k < BUDDY_GROUPS /\ L k ≠ []) ->
  exists pfn z' L', allocate_block z order = Some (Some pfn, z') /\ buddy_inv z' L'
    /\ block_ok z order pfn
    /\ (forall p, in_block order pfn p -> free_page L p)
    /\ (forall p, free_page L' p <-> free_page L p /\ ~ in_block order pfn p)
    /\ zone_frame (set_free_pages (u32 (free_pages_cnt z - 2 ^ order)) z) z'.
Proof.
  intros I Ho (k & Hk & Hne). unfold allocate_block.
  destruct (find_area_spec (Z.to_nat (BUDDY_GROUPS - order)) z L order)
    as (r & E & Hr); [done|lia..|]. rewrite E. simpl.
  destruct r as [c|]; [|by rewrite Hr in Hne by done].
  destruct Hr as (Hc & Hnec & _). destruct (L c) as [|i l] eqn:HL; [done|].
  rewrite (list_first z L c i l I ltac:(lia) HL). simpl.
  destruct (take_block z L c i I ltac:(rewrite HL; set_solver))
    as (st & p & m & xs & ys & Hxy & E1 & E2 & E3 & E4 & I').
  rewrite (run_take_alloc _ _ _ _ _ _ _ E1 E2 E3 E4).
  assert (i ∈ L c) as Hi by (rewrite HL; set_solver).
  pose proof (bi_block _ _ I c i Hi) as Hok. rewrite !shiftl_1 by lia.
  pose proof (free_page_take z L c i xs ys) as HT. rewrite Hxy in HT.
  set (z1 := set_free_pages _ _).
  destruct (expand_spec (Z.to_nat (c - order)) z1 (upd L c (xs ++ ys)) i c)
    as (z' & L' & E' & I'' & F & HL').
  { by apply buddy_inv_free_pages. }
  { lia. }
  { eapply block_ok_ext; [|exact Hok]. done. }
  { intros q Hq Hf. by apply HT in Hf as [_ ?]. }
  rewrite E'. simpl.
  replace (c - Z.of_nat (Z.to_nat (c - order))) with order in HL' by lia.
  assert (forall q, in_block order i q -> in_block c i q) as Hsub.
  { unfold in_block. intros q.
    pose proof (Z.pow_le_mono_r 2 order c ltac:(lia) ltac:(lia)). lia. }
  exists i, z', L'. split_and!; [done|done|..].
  - destruct Hok as (? & ? & [a ->] & ?). split_and!; [lia|lia|lia| |].
    + apply Z.divide_mul_r. exists (2 ^ (c - order)). rewrite <-Z.pow_add_r by lia. f_equal. lia.
    + pose proof (Z.pow_le_mono_r 2 order c ltac:(lia) ltac:(lia)). lia.
  - intros q Hq. exists c, i. auto.
  - intros q. rewrite HL', HT by done. split.
    + intros [[? ?]|[Hq ?]]; [auto|]. split; [exists c, i; auto|done].
    + intros [Hf Hn]. destruct (decide (i <= q < i + 2 ^ c)); auto.
  - eapply zone_frame_trans; [|exact F]. unfold z1.
    destruct (take_frame z st i p c (u32 (m + -1)) E2) as (? & ? & ?).
    split_and!; [done..|]. done.
Qed.

Lemma allocate_block_none z L order :
  buddy_inv z L -> 0 <= order < BUDDY_GROUPS ->
  (forall k, order <= k < BUDDY_GROUPS -> L k = []) -> allocate_block z order = Some (None, z).
Proof.
  intros I Ho Hnone. unfold allocate_block.
  destruct (find_area_spec (Z.to_nat (BUDDY_GROUPS - order)) z L order)
    as (r & E & Hr); [done|lia..|]. rewrite E. simpl.
  destruct r as [c|]; [|done]. destruct Hr as (? & Hne & _). by rewrite Hnone in Hne.
Qed.

(** ** A run of free pages lies inside one free block *)

Lemma aligned_contained k j i x :
  0 <= k <= j -> (2 ^ k | i) -> (2 ^ j | x) -> x <= i < x + 2 ^ j -> i + 2 ^ k <= x + 2 ^ j.
Proof.
  intros Hk [a ->] [b ->] Hx. pose proof (pow2_pos k ltac:(lia)).
  assert (2 ^ j = 2 ^ (j - k) * 2 ^ k) as E by (rewrite <-Z.pow_add_r by lia; f_equal; lia).
  rewrite E in *. assert (a < (b + 1) * 2 ^ (j - k)) by nia. nia.
Qed.

Lemma free_run_in_block z L k i :
  buddy_inv z L -> 0 <= k < BUDDY_GROUPS -> (2 ^ k | i) ->
  (forall p, in_block k i p -> free_page L p) ->
  exists j x, x ∈ L j /\ k <= j /\ x <= i /\ i + 2 ^ k <= x + 2 ^ j.
Proof.
  intros I [Hk0 Hk]. revert i Hk. pattern k. apply natlike_ind; [| |lia]; clear k Hk0.
  - intros i _ _ Hfree. destruct (Hfree i) as (j & x & Hx & Hp); [unfold in_block; lia|].
    exists j, x. destruct (bi_block _ _ I j x Hx). unfold in_block in Hp. split_and!; [done|lia..].
  - intros k Hk IH i Hlt [a ->] Hfree. rewrite Z.pow_succ_r in * by lia.
    pose proof (pow2_pos k Hk) as Hpos.
    destruct (IH (a * (2 * 2 ^ k))) as (j1 & x1 & Hx1 & Hj1 & Hb1 & He1);
      [lia|exists (a * 2); lia|intros p Hp; apply Hfree; unfold in_block in *;
       rewrite Z.pow_succ_r by lia; lia|].
    destruct (IH (a * (2 * 2 ^ k) + 2 ^ k)) as (j2 & x2 & Hx2 & Hj2 & Hb2 & He2);
      [lia|exists (a * 2 + 1); lia|intros p Hp; apply Hfree; unfold in_block in *;
       rewrite Z.pow_succ_r by lia; lia|].
    destruct (bi_block _ _ I _ _ Hx1) as (? & ? & Hd1 & ?).
    destruct (bi_block _ _ I _ _ Hx2) as (? & ? & Hd2 & ?).
    assert (2 * 2 ^ k = 2 ^ (k + 1)) as Hs by (rewrite Z.pow_add_r by lia; lia).
    destruct (decide (k + 1 <= j1)).
    { exists j1, x1. split_and!; [done|lia|lia|]. rewrite Hs.
      apply aligned_contained; [lia|exists a; lia|done|lia]. }
    destruct (decide (k + 1 <= j2)).
    { exists j2, x2. split_and!; [done|lia|..].
      - destruct Hd2 as [b ->]. assert (2 ^ j2 = 2 ^ (j2 - (k + 1)) * 2 ^ (k + 1)) as E.
        { rewrite <-Z.pow_add_r by lia. f_equal. lia. }
        rewrite E, <-Hs in *. assert (b * 2 ^ (j2 - (k + 1)) <= a) by nia. nia.
      - lia. }
    assert (j1 = k) as -> by lia. assert (j2 = k) as -> by lia.
    assert (x1 = a * (2 * 2 ^ k)) as -> by lia.
    assert (x2 = a * (2 * 2 ^ k) + 2 ^ k) as -> by lia.
    exfalso. apply (bi_max _ _ I k _ Hx1); [lia|].
    destruct (buddy_cases k (a * (2 * 2 ^ k))) as (b & [Hb|Hb] & Hl & _ & _ & _ & Hr & _);
      [lia|done| |].
    + rewrite Hb, Hl, Hr, <-Hb. done.
    + exfalso. assert (2 * a = 2 * b + 1) by (apply (Z.mul_reg_r _ _ (2 ^ k)); lia). lia.
Qed.

(** ** Freeing *)

Lemma page_is_buddy_spec z L k i p :
  buddy_inv z L -> 0 <= k < BUDDY_GROUPS -> zone_mem_map z !! i = Some p ->
  page_is_buddy p k = true <-> i ∈ L k.
Proof.
  intros I Hk Hp. unfold page_is_buddy.
  rewrite u32_small by (unfold BUDDY_GROUPS in *; lia). rewrite andb_true_iff, Z.eqb_eq. split.
  - intros [Hb <-]. by apply (bi_head _ _ I).
  - intros Hi. destruct (bi_mark _ _ I k i Hi) as (q & Hq & ? & ?). by simplify_eq.
Qed.

Lemma coalesce_spec n z L i k :
  buddy_inv z L -> Z.of_nat n = BUDDY_GROUPS - 1 - k -> block_ok z k i ->
  (forall p, in_block k i p -> ~ free_page L p) ->
  exists z' L' i' k', coalesce n z i k = Some (z', i', k') /\ buddy_inv z' L'
    /\ zone_frame z z' /\ block_ok z' k' i'
    /\ (forall p, in_block k' i' p -> ~ free_page L' p)
    /\ (k' < BUDDY_GROUPS - 1 -> Z.lxor i' (2 ^ k') ∉ L' k')
    /\ forall p, free_page L' p \/ in_block k' i' p <-> free_page L p \/ in_block k i p.
Proof.
  revert z L i k. induction n as [|n IH]; intros z L i k I Hn Hok Hfree.
  { exists z, L, i, k. split_and!; try done. lia. }
  pose proof Hok as (Hk & Hi0 & Hal & Hb). cbn [coalesce]. rewrite shiftl_1 by lia.
  destruct (buddy_cases k i ltac:(lia) Hal) as (a & Hcase & Hx1 & Hx2 & Hl1 & Hl2 & Hr & Hpw & Hd).
  simpl in *. pose proof (pow2_pos k ltac:(lia)) as Hpos.
  assert (0 <= a) by nia.
  set (bd := Z.lxor i (2 ^ k)) in *.
  assert (bd = i - 2 ^ k \/ bd = i + 2 ^ k) as Hbd.
  { unfold bd. destruct Hcase as [-> | ->]; rewrite ?Hx1, ?Hx2; lia. }
  destruct (Z.leb_spec (present_pages z) bd) as [Hge|Hlt].
  { exists z, L, i, k. split_and!; try done. intros _ Hin.
    destruct (bi_block _ _ I k _ Hin) as (_ & _ & _ & Hin'). fold bd in Hin'. lia. }
  assert (0 <= bd) as Hbd0.
  { unfold bd. destruct Hcase as [-> | ->]; rewrite ?Hx1, ?Hx2; lia. }
  destruct (bi_page _ _ I bd) as [[p Hp] _]; [lia|]. rewrite Hp. simpl.
  destruct (page_is_buddy p k) eqn:Hib; simpl.
  2:{ exists z, L, i, k. split_and!; try done. intros _ Hin.
      apply (page_is_buddy_spec _ _ _ _ _ I Hk Hp) in Hin. congruence. }
  apply (page_is_buddy_spec _ _ _ _ _ I Hk Hp) in Hib.
  destruct (take_block z L k bd I Hib)
    as (st & p' & m & xs & ys & Hxy & E1 & E2 & E3 & E4 & I').
  rewrite (run_take_free _ _ _ _ _ _ _ E1 E2 E3 E4). simplify_eq.
  destruct (bi_block _ _ I k _ Hib) as (_ & _ & _ & Hin').
  assert (Z.land i bd = 2 * a * 2 ^ k) as Hland.
  { unfold bd. destruct Hcase as [-> | ->]; rewrite ?Hx1, ?Hx2; congruence. }
  rewrite Hland.
  assert (forall q, in_block (k + 1) (2 * a * 2 ^ k) q <-> in_block k i q \/ in_block k bd q) as Hmerge.
  { intros q. unfold in_block. unfold bd.
    destruct Hcase as [-> | ->]; rewrite ?Hx1, ?Hx2; lia. }
  pose proof (fun q => free_page_take z L k bd xs ys q I Hxy) as HT.
  edestruct (IH _ _ (2 * a * 2 ^ k) (k + 1) I')
    as (z' & L' & i' & k' & E & I'' & F & Hok' & Hf' & Hm' & HL); [lia|..].
  { split_and!; [lia|lia|lia|done|]. simpl. rewrite Hpw.
    destruct Hcase as [-> | ->]; rewrite ?Hx1, ?Hx2 in *; lia. }
  { intros q [Hq|Hq]%Hmerge [Hf Hnb]%HT; [by eapply Hfree|done]. }
  exists z', L', i', k'. split_and!; [done|done|eauto with bach|done..|].
  intros q. rewrite HL, HT, Hmerge.
  assert (in_block k bd q -> free_page L q) by (intros; exists k, bd; auto).
  assert (in_block k i q -> ~ free_page L q) by auto.
  assert (Decision (in_block k bd q)) as [|] by (unfold in_block; apply _); tauto.
Qed.

Lemma free_block_spec z L i k :
  buddy_inv z L -> block_ok z k i -> (forall p, in_block k i p -> ~ free_page L p) ->
  exists z' L', free_block i z k = Some z' /\ buddy_inv z' L'
    /\ zone_frame (set_free_pages (u32 (free_pages_cnt z + 2 ^ k)) z) z'
    /\ forall p, free_page L' p <-> free_page L p \/ in_block k i p.
Proof.
  intros I Hok Hfree. unfold free_block. pose proof Hok as (Hk & _).
  rewrite shiftl_1 by lia. set (z0 := set_free_pages _ _).
  destruct (coalesce_spec (Z.to_nat (BUDDY_GROUPS - 1 - k)) z0 L i k)
    as (z1 & L1 & i' & k' & E & I1 & F1 & Hok1 & Hf1 & Hm1 & HL1);
    [by apply buddy_inv_free_pages|unfold BUDDY_GROUPS in *; lia|done|done|].
  rewrite E. simpl.
  destruct (put_block z1 L1 k' i' I1 Hok1 Hf1 Hm1) as (st & p & m & E1 & E2 & E3 & E4 & I2).
  pose proof (run_put_free Some _ _ _ _ _ _ E1 E2 E3 E4) as HR.
  eexists _, _. split_and!; [|exact I2|eauto with bach|].
  - rewrite <-HR. destruct (upd_page z1 i' _) as [z2|]; simpl; [|done].
    destruct (upd_page z2 i' _) as [z3|]; simpl; [|done].
    destruct (on_links z3 _) as [z4|]; simpl; [|done].
    by destruct (add_nr_free z4 k' 1).
  - intros q. rewrite free_page_put. apply HL1.
Qed.

(** ** Orders *)

Lemma order_loop_log2 fuel num acc :
  1 <= num -> Z.log2 num <= Z.of_nat fuel -> order_loop fuel num acc = acc + Z.log2 num.
Proof.
  revert num acc. induction fuel as [|fuel IH]; intros num acc Hn Hf; simpl.
  { pose proof (Z.log2_nonneg num). lia. }
  destruct (Z.ltb_spec 1 num) as [H1|H1].
  - rewrite IH; rewrite ?Z.log2_shiftr by lia.
    + pose proof (Z.log2_pos num H1). lia.
    + rewrite Z.shiftr_div_pow2 by lia. change (2 ^ 1) with 2.
      apply Z.div_le_lower_bound; lia.
    + lia.
  - assert (num = 1) as -> by lia. simpl. lia.
Qed.

Lemma log2_int num : 1 <= num < 2 ^ 31 -> Z.log2 num <= 31.
Proof. intros. assert (Z.log2 num < 31); [apply Z.log2_lt_pow2; lia|lia]. Qed.

Lemma ctz_spec x : 0 < x -> 0 <= ctz x /\ (2 ^ ctz x | x).
Proof.
  destruct x as [|p|p]; [lia| |lia]. intros _. simpl.
  induction p as [p IH|p IH|]; simpl; [split; [lia|apply Z.divide_1_l]| |split; [lia|apply Z.divide_1_l]].
  destruct IH as [H0 [q Hq]]. split; [lia|]. exists q.
  rewrite Z.pow_add_r by lia. change (2 ^ 1) with 2. lia.
Qed.

Lemma region_order_spec current end_ :
  0 <= current <= end_ -> end_ < 2 ^ 31 - 1 ->
  let k := region_order current end_ in
  0 <= k < BUDDY_GROUPS /\ (2 ^ k | current) /\ current + 2 ^ k <= end_ + 1.
Proof.
  intros Hc He. cbv zeta. unfold region_order.
  rewrite order_loop_log2 by (try apply log2_int; lia). rewrite Z.add_0_l.
  set (sz := Z.log2 (end_ - current + 1)).
  assert (0 <= sz /\ 2 ^ sz <= end_ - current + 1) as [Hs0 Hs].
  { split; [apply Z.log2_nonneg|]. apply Z.log2_spec. lia. }
  set (al := if current =? 0 then BUDDY_GROUPS else ctz current).
  assert (0 <= al /\ (2 ^ al | current)) as [Ha0 Ha].
  { unfold al. destruct (Z.eqb_spec current 0) as [->|].
    - split; [done|apply Z.divide_0_r].
    - apply ctz_spec. lia. }
  set (m := if al <? sz then al else sz).
  assert (0 <= m <= al /\ m <= sz) as [Hm1 Hm2] by (unfold m; destruct (Z.ltb_spec al sz); lia).
  set (k := if BUDDY_GROUPS <=? m then BUDDY_GROUPS - 1 else m).
  assert (0 <= k < BUDDY_GROUPS /\ k <= m) as [Hk Hkm].
  { unfold k. unfold BUDDY_GROUPS in *. destruct (Z.leb_spec 11 m); lia. }
  split_and!; [lia..| |].
  - etrans; [|exact Ha]. exists (2 ^ (al - k)). rewrite <-Z.pow_add_r by lia. f_equal. lia.
  - pose proof (Z.pow_le_mono_r 2 k sz ltac:(lia) ltac:(lia)). lia.
Qed.

(** ** Freeing a region *)

Lemma u32_add_l a b : u32 (u32 a + b) = u32 (a + b).
Proof. apply Zplus_mod_idemp_l. Qed.

Lemma add_free_region_loop_spec fuel z L cur end_ :
  buddy_inv z L -> 0 <= cur <= end_ + 1 -> end_ < present_pages z ->
  end_ - cur + 1 <= Z.of_nat fuel ->
  (forall p, cur <= p <= end_ -> ~ free_page L p) ->
  exists z' L', add_free_region_loop fuel z cur end_ = Some z' /\ buddy_inv z' L'
    /\ present_pages z' = present_pages z /\ same_avail z z'
    /\ u32 (free_pages_cnt z') = u32 (free_pages_cnt z + (end_ - cur + 1))
    /\ forall p, free_page L' p <-> free_page L p \/ cur <= p <= end_.
Proof.
  revert z L cur. induction fuel as [|fuel IH]; intros z L cur I Hc He Hf Hfree; simpl.
  { exists z, L. replace (end_ - cur + 1) with 0 by lia. rewrite Z.add_0_r.
    split_and!; try done. intros p. split; [auto|intros [?|?]; [done|lia]]. }
  destruct (Z.leb_spec cur end_) as [Hle|Hgt].
  2:{ exists z, L. replace (end_ - cur + 1) with 0 by lia. rewrite Z.add_0_r.
      split_and!; try done. intros p. split; [auto|intros [?|?]; [done|lia]]. }
  pose proof (bi_small _ _ I) as Hsm.
  destruct (region_order_spec cur end_) as (Hk & Hd & Hb); [lia..|].
  set (k := region_order cur end_) in *. pose proof (pow2_pos k ltac:(lia)).
  destruct (free_block_spec z L cur k) as (z1 & L1 & E & I1 & (Hp1 & Hc1 & Ha1) & HL1);
    [done|split_and!; [lia..|done|lia]|intros p Hp; apply Hfree; unfold in_block in *; lia|].
  simpl in Hp1, Hc1.
  rewrite E. simpl. rewrite shiftl_1 by lia.
  destruct (IH z1 L1 (cur + 2 ^ k)) as (z' & L' & E' & I' & Hp' & Ha' & Hc' & HL');
    [done|lia|lia|lia|..].
  { intros p Hp [Hf1|Hf1]%HL1; [eapply Hfree; [|done]; lia|unfold in_block in *; lia]. }
  exists z', L'. split_and!; [done|done|congruence| | |].
  - intros j. rewrite Ha'. apply Ha1.
  - rewrite Hc', Hc1, u32_add_l. f_equal. lia.
  - intros p. rewrite HL', HL1. unfold in_block. split.
    + intros [[?|?]|?]; [auto|right; lia..].
    + intros [?|?]; [auto|]. destruct (decide (p < cur + 2 ^ k)); [left; right|right]; lia.
Qed.

(** ** Initialising the zone *)

(** What [create_zone] and the boot-time page allocator leave behind: empty
    free lists, zero counters, a descriptor and a link field per page frame,
    and no page marked as the head of a free block. *)
Record zone_created (z : zone_t) : Prop := {
  zc_rings k : 0 <= k < BUDDY_GROUPS -> dlist (links z) (FreeList k) [];
  zc_nr k : 0 <= k < BUDDY_GROUPS -> zget (nr_free z) k = Some 0;
  zc_page i : 0 <= i < present_pages z ->
    is_Some (zone_mem_map z !! i) /\ is_Some (links z !! Lru i);
  zc_unmarked i p : zone_mem_map z !! i = Some p -> PagePrivate p = false;
  zc_small : 0 <= present_pages z < 2 ^ 31
}.

Lemma zone_created_inv z : zone_created z -> buddy_inv z (fun _ => []).
Proof.
  intros C. split.
  - apply (zc_rings _ C).
  - apply (zc_nr _ C).
  - intros k i Hi. by apply not_elem_of_nil in Hi.
  - intros k i j i' p Hi. by apply not_elem_of_nil in Hi.
  - intros i p Hp Hpp. pose proof (zc_unmarked _ C i p Hp). congruence.
  - intros k i Hi. by apply not_elem_of_nil in Hi.
  - apply (zc_page _ C).
  - intros k i Hi. by apply not_elem_of_nil in Hi.
  - apply (zc_small _ C).
Qed.

Lemma init_page_step z i p :
  zone_created z -> zone_mem_map z !! i = Some p -> is_Some (links z !! Lru i) ->
  exists st, INIT_LIST_HEAD (Lru i) (links z) = Some st /\
    let z' := set_links st (set_mem_map (<[i := set_page_no_zone i p]> (zone_mem_map z)) z) in
    zone_created z' /\ same_avail z z'.
Proof.
  intros C Hp Hl. destruct (INIT_LIST_HEAD_spec _ _ Hl) as (st & E & D & _ & F).
  exists st. split; [done|]. split; [split|]; simpl.
  - intros k Hk. eapply dlist_frame; [|by apply (zc_rings _ C)].
    intros y ->%list_elem_of_singleton. by apply F.
  - apply (zc_nr _ C).
  - intros j Hj. destruct (zc_page _ C j Hj). split.
    + destruct (decide (j = i)) as [->|]; simplify_map_eq; eauto.
    + apply elem_of_dom. rewrite D. by apply elem_of_dom.
  - intros j q. destruct (decide (j = i)) as [->|].
    + rewrite lookup_insert_eq. intros [= <-]. apply (zc_unmarked _ C i p Hp).
    + rewrite lookup_insert_ne by done. apply (zc_unmarked _ C).
  - apply (zc_small _ C).
  - intros j. unfold page_unavailable. simpl. destruct (decide (j = i)) as [->|].
    + by rewrite lookup_insert_eq, Hp.
    + by rewrite lookup_insert_ne.
Qed.

Lemma init_pages_spec n z i :
  zone_created z -> 0 <= i -> i + Z.of_nat n <= present_pages z ->
  exists z', init_pages n z i = Some z' /\ zone_created z' /\ zone_frame z z'.
Proof.
  revert z i. induction n as [|n IH]; intros z i C Hi Hn; simpl.
  { exists z. by split_and!. }
  destruct (zc_page _ C i ltac:(lia)) as [[p Hp] Hl].
  destruct (init_page_step z i p C Hp Hl) as (st & E & C' & Ha).
  unfold upd_page at 1. rewrite Hp. simpl. unfold on_links at 1. simpl. rewrite E. simpl.
  destruct (IH _ (i + 1) C') as (z' & E' & C'' & F); [lia|simpl; lia|].
  exists z'. split_and!; [done|done|]. eapply zone_frame_trans; [|exact F]. by split_and!.
Qed.

(** [avail z p]: neither taken nor reserved. *)
Definition avail (z : zone_t) (p : Z) : Prop := page_unavailable z p = Some false.
#[export] Instance avail_dec z p : Decision (avail z p).
Proof. unfold avail. apply _. Defined.

Definition count_avail (z : zone_t) (lo n : Z) : Z :=
  Z.of_nat (length (filter (avail z) (seqZ lo n))).

Lemma count_avail_split z lo n m :
  0 <= n -> 0 <= m -> count_avail z lo (n + m) = count_avail z lo n + count_avail z (lo + n) m.
Proof.
  intros. unfold count_avail. rewrite seqZ_app by lia. rewrite filter_app, length_app. lia.
Qed.

Lemma count_avail_all z lo n :
  0 <= n -> (forall p, lo <= p < lo + n -> avail z p) -> count_avail z lo n = n.
Proof.
  intros Hn Hall. unfold count_avail. rewrite list_filter_all.
  - rewrite length_seqZ. lia.
  - apply Forall_forall. intros x Hx%elem_of_seqZ. by apply Hall.
Qed.

Lemma count_avail_none z lo n :
  (forall p, lo <= p < lo + n -> ~ avail z p) -> count_avail z lo n = 0.
Proof.
  intros Hall. unfold count_avail. rewrite list_filter_none; [done|].
  apply Forall_forall. intros x Hx%elem_of_seqZ. by apply Hall.
Qed.

Lemma page_unavailable_total z L i :
  buddy_inv z L -> 0 <= i < present_pages z -> exists u, page_unavailable z i = Some u.
Proof.
  intros I Hi. destruct (bi_page _ _ I i Hi) as [[p Hp] _].
  unfold page_unavailable. rewrite Hp. simpl. eauto.
Qed.

Lemma skip_unavailable_spec n z L i :
  buddy_inv z L -> 0 <= i -> i + Z.of_nat n = present_pages z ->
  exists j, skip_unavailable n z i = Some j /\ i <= j <= present_pages z
    /\ (forall p, i <= p < j -> ~ avail z p)
    /\ (j < present_pages z -> avail z j).
Proof.
  intros I. revert i. induction n as [|n IH]; intros i Hi Hn; simpl.
  { exists i. split_and!; [done|lia..]. }
  destruct (page_unavailable_total z L i I) as [u Hu]; [lia|]. rewrite Hu. simpl.
  destruct u.
  - destruct (IH (i + 1)) as (j & E & Hj & Hn1 & Ha); [lia..|].
    exists j. split_and!; [done|lia|lia| |done]. intros p Hp.
    destruct (decide (p = i)) as [->|]; [unfold avail; congruence|apply Hn1; lia].
  - exists i. split_and!; [done|lia..|done].
Qed.

Section Scan.
(** [z0]: the zone at the start of the scan. *)
Context (z0 : zone_t).

(** After the regions below [iPrev] have been freed. *)
Definition scanned (z : zone_t) (L : Z -> list Z) (iPrev : Z) : Prop :=
  buddy_inv z L /\ present_pages z = present_pages z0 /\ same_avail z0 z
  /\ u32 (free_pages_cnt z) = u32 (free_pages_cnt z0 + count_avail z0 0 iPrev)
  /\ forall p, free_page L p <-> 0 <= p < iPrev /\ avail z0 p.

Lemma scanned_region z L iPrev end_ :
  scanned z L iPrev -> 0 <= iPrev <= end_ + 1 -> end_ < present_pages z0 ->
  (forall p, iPrev <= p <= end_ -> avail z0 p) ->
  exists z' L', add_free_region_to_buddy z iPrev end_ = Some z' /\ scanned z' L' (end_ + 1).
Proof.
  intros (I & Hp & Ha & Hc & HL) Hr He Hav. unfold add_free_region_to_buddy.
  destruct (add_free_region_loop_spec (Z.to_nat (end_ - iPrev + 1)) z L iPrev end_)
    as (z' & L' & E & I' & Hp' & Ha' & Hc' & HL'); [done|lia..| |].
  { intros p Hq [? _]%HL. lia. }
  exists z', L'. split; [done|]. split_and!; [done|congruence|..].
  - intros j. rewrite Ha'. apply Ha.
  - rewrite Hc'.
    replace (end_ + 1) with (iPrev + (end_ - iPrev + 1)) by lia.
    rewrite count_avail_split, (count_avail_all _ (0 + iPrev)) by (try lia; intros; apply Hav; lia).
    rewrite <-u32_add_l, Hc, u32_add_l. f_equal. lia.
  - intros p. rewrite HL', HL. split.
    + intros [[? ?]|?]; [split; [lia|done]|]. split; [lia|]. apply Hav. lia.
    + intros [? ?]. destruct (decide (p < iPrev)); [left|right]; [split; [lia|done]|lia].
Qed.

Lemma scanned_skip z L iPrev j :
  scanned z L iPrev -> 0 <= iPrev <= j -> (forall p, iPrev <= p < j -> ~ avail z0 p) ->
  scanned z L j.
Proof.
  intros (I & Hp & Ha & Hc & HL) Hj Hn. split_and!; [done..| |].
  - replace j with (iPrev + (j - iPrev)) by lia.
    rewrite count_avail_split, (count_avail_none _ (0 + iPrev)) by (try lia; intros; apply Hn; lia).
    by rewrite Z.add_0_r.
  - intros p. rewrite HL. split; [intros [? ?]; split; [lia|done]|].
    intros [? Hav]. split; [|done]. destruct (decide (p < iPrev)); [lia|].
    destruct (Hn p); [lia|done].
Qed.

Lemma avail_same z p : same_avail z0 z -> avail z p <-> avail z0 p.
Proof. intros Ha. unfold avail. by rewrite Ha. Qed.

Lemma scan_regions_spec fuel z L iCnt iPrev :
  scanned z L iPrev -> 0 <= iPrev <= iCnt -> iCnt <= present_pages z0 ->
  present_pages z0 - iCnt < Z.of_nat fuel ->
  (forall p, iPrev <= p < iCnt -> avail z0 p) ->
  exists z' L' iPrev', scan_regions fuel z iCnt iPrev = Some (z', iPrev')
    /\ scanned z' L' iPrev' /\ 0 <= iPrev' <= present_pages z0
    /\ forall p, iPrev' <= p < present_pages z0 -> avail z0 p.
Proof.
  revert z L iCnt iPrev. induction fuel as [|fuel IH];
    intros z L iCnt iPrev S Hi Hc Hf Hav; [lia|]. cbn [scan_regions].
  pose proof S as (I & Hp & Ha & _ & _). rewrite Hp.
  destruct (Z.ltb_spec iCnt (present_pages z0)) as [Hlt|Hge].
  2:{ exists z, L, iPrev. split_and!; [done..|lia|lia|]. intros; apply Hav; lia. }
  destruct (page_unavailable_total z L iCnt I) as [u Hu]; [lia|]. rewrite Hu. simpl.
  destruct u.
  2:{ apply (IH z L); [done|lia..|]. intros p Hq. destruct (decide (p = iCnt)) as [->|].
      - by apply (avail_same z).
      - apply Hav. lia. }
  assert (exists z1 L1, (if iPrev <? iCnt then add_free_region_to_buddy z iPrev (iCnt - 1)
            else Some z) = Some z1 /\ scanned z1 L1 iCnt) as (z1 & L1 & E1 & S1).
  { destruct (Z.ltb_spec iPrev iCnt).
    - destruct (scanned_region z L iPrev (iCnt - 1) S) as (z1 & L1 & E & S1); [lia..| |].
      { intros; apply Hav; lia. }
      exists z1, L1. split; [done|]. by replace (iCnt - 1 + 1) with iCnt in S1 by lia.
    - exists z, L. split; [done|]. by assert (iPrev = iCnt) as <- by lia. }
  rewrite E1. simpl. pose proof S1 as (I1 & Hp1 & Ha1 & _ & _).
  destruct (skip_unavailable_spec (Z.to_nat (present_pages z1 - iCnt)) z1 L1 iCnt)
    as (j & E2 & Hj & Hn & Hjav); [done|lia..|]. rewrite E2. simpl.
  assert (iCnt < j) as Hprog.
  { destruct (decide (j = iCnt)) as [->|]; [|lia]. exfalso.
    assert (avail z1 iCnt) as Hb by (apply Hjav; lia).
    apply (avail_same z1) in Hb; [|done]. unfold avail in Hb. rewrite Ha in Hu. congruence. }
  apply (IH z1 L1); [|lia..].
  apply scanned_skip with iCnt; [done|lia|]. intros p Hq Hb.
  apply (Hn p); [lia|]. by apply (avail_same z1).
Qed.
End Scan.

Lemma init_zone_lists_spec z :
  zone_created z ->
  exists z' L, init_zone_lists z = Some z' /\ buddy_inv z' L
    /\ present_pages z' = present_pages z
    /\ u32 (free_pages_cnt z') = u32 (free_pages_cnt z + count_avail z 0 (present_pages z))
    /\ forall p, free_page L p <-> 0 <= p < present_pages z /\ avail z p.
Proof.
  intros C. unfold init_zone_lists. pose proof (zc_small _ C) as Hsm.
  destruct (init_pages_spec (Z.to_nat (present_pages z)) z 0 C) as (z1 & E1 & C1 & Hp1 & Hc1 & Ha1);
    [lia..|]. rewrite E1. simpl. pose proof (zone_created_inv _ C1) as I1.
  destruct (skip_unavailable_spec (Z.to_nat (present_pages z)) z1 (fun _ => []) 0 I1)
    as (j & E2 & Hj & Hn & Hjav); [lia..|]. rewrite E2. simpl.
  assert (scanned z1 z1 (fun _ => []) j) as S0.
  { apply scanned_skip with 0; [|lia|intros; apply Hn; lia]. split_and!; try done.
    - unfold count_avail. simpl. by rewrite Z.add_0_r.
    - intros p. split; [|lia]. intros (k & i & Hi & _). by apply not_elem_of_nil in Hi. }
  destruct (scan_regions_spec z1 (S (Z.to_nat (present_pages z))) z1 (fun _ => []) j j S0)
    as (z2 & L2 & iPrev & E3 & S2 & Hip & Hav); [lia..|]. simpl in E3. rewrite E3. simpl.
  assert (exists z3 L3, (if iPrev <? present_pages z2
            then add_free_region_to_buddy z2 iPrev (present_pages z2 - 1) else Some z2) = Some z3
          /\ scanned z1 z3 L3 (present_pages z1)) as (z3 & L3 & E4 & S3).
  { destruct S2 as (I2 & Hp2 & Hrest). rewrite Hp2.
    destruct (Z.ltb_spec iPrev (present_pages z1)).
    - destruct (scanned_region z1 z2 L2 iPrev (present_pages z1 - 1)) as (z3 & L3 & E & S3);
        [done|lia..|intros; apply Hav; lia|].
      exists z3, L3. split; [done|].
      by replace (present_pages z1 - 1 + 1) with (present_pages z1) in S3 by lia.
    - exists z2, L2. split; [done|]. by assert (iPrev = present_pages z1) as <- by lia. }
  exists z3, L3. destruct S3 as (I3 & Hp3 & Ha3 & Hc3 & HL3).
  assert (forall p, avail z1 p <-> avail z p) as Hsame by (intros; unfold avail; by rewrite Ha1).
  split_and!; [done|done|congruence| |].
  - rewrite Hc3, Hc1, Hp1. do 2 f_equal. unfold count_avail. f_equal. f_equal.
    apply list_filter_iff. done.
  - intros p. by rewrite HL3, Hsame, Hp1.
Qed.

(** ** The allocator meets the contract *)

Lemma free_page_bound z L p : buddy_inv z L -> free_page L p -> 0 <= p < present_pages z.
Proof.
  intros I (k & i & Hi & Hp). destruct (bi_block _ _ I k i Hi) as (? & ? & _ & ?).
  unfold in_block in Hp. lia.
Qed.

Lemma free_run_has_list z L k i :
  buddy_inv z L -> 0 <= k < BUDDY_GROUPS -> free_run (free_page L) k i ->
  exists j, k <= j < BUDDY_GROUPS /\ L j ≠ [].
Proof.
  intros I Hk [Hd Hf]. destruct (free_run_in_block z L k i I Hk Hd Hf) as (j & x & Hx & Hj & _).
  destruct (bi_block _ _ I j x Hx) as [? _]. exists j. split; [lia|].
  intros E. rewrite E in Hx. by apply not_elem_of_nil in Hx.
Qed.

Lemma list_has_free_run z L j k :
  buddy_inv z L -> 0 <= k <= j -> L j ≠ [] -> exists i, free_run (free_page L) k i.
Proof.
  intros I Hk Hne. destruct (L j) as [|i l] eqn:E; [done|]. exists i.
  assert (i ∈ L j) as Hi by (rewrite E; set_solver).
  destruct (bi_block _ _ I j i Hi) as (? & _ & Hd & _). split.
  - etrans; [|exact Hd]. exists (2 ^ (j - k)). rewrite <-Z.pow_add_r by lia. f_equal. lia.
  - intros p Hp. exists j, i. split; [done|]. unfold in_block in *.
    pose proof (Z.pow_le_mono_r 2 k j ltac:(lia) ltac:(lia)). lia.
Qed.

Definition buddy_rep (z : zone_t) (F : Z -> Prop) : Prop :=
  exists L, buddy_inv z L /\ forall p, free_page L p <-> F p.

(** Flags of a page that is not free may change as long as the page does not
    become the head of a free block. *)
Lemma mark_page z L i p p' :
  buddy_inv z L -> zone_mem_map z !! i = Some p -> ~ free_page L i ->
  private p' = private p -> (PagePrivate p' = true -> PagePrivate p = true) ->
  buddy_inv (set_mem_map (<[i := p']> (zone_mem_map z)) z) L.
Proof.
  intros [I1 I2 I3 I4 I5 I6 I7 I8 I9] Ep Hf Hpr Hpp. split; try done; cbn [set_mem_map zone_mem_map].
  - intros j q Eq Hq. destruct (decide (j = i)) as [->|]; [|rewrite lookup_insert_ne in Eq by done; by apply I5].
    rewrite lookup_insert_eq in Eq. injection Eq as <-. rewrite Hpr. apply (I5 i p); auto.
  - intros k j Hj. destruct (decide (j = i)) as [->|]; [|rewrite lookup_insert_ne by done; by apply I6].
    destruct Hf. exists k, i. split; [done|]. apply in_block_head. destruct (I3 k i Hj) as [[? _] _]. done.
  - intros j Hj. split; [|by apply I7]. destruct (decide (j = i)) as [->|]; [rewrite lookup_insert_eq; eauto|].
    rewrite lookup_insert_ne by done. by apply I7.
Qed.

Lemma PagePrivate_SetSlab p : PagePrivate (SetPageSlab p) = PagePrivate p.
Proof.
  rewrite !PagePrivate_testbit. change (flags (SetPageSlab p)) with (Z.lor (flags p) PG_FLAG_slab).
  rewrite Z.lor_spec. apply orb_false_r.
Qed.

Lemma PagePrivate_ClearSlab p : PagePrivate (ClearPageSlab p) = false.
Proof.
  rewrite PagePrivate_testbit. change (flags (ClearPageSlab p)) with (Z.land (flags p) (clear_mask 8)).
  rewrite Z.land_spec. apply andb_false_r.
Qed.

#[export, program] Instance buddy_allocator : PageAllocator zone_t := {|
  pa_alloc := allocate_block;
  pa_free := free_block;
  pa_set_slab i z := upd_page z i SetPageSlab;
  pa_clear_slab i z := upd_page z i ClearPageSlab;
  pa_frames := present_pages;
  pa_rep := buddy_rep
|}.
Next Obligation.
  intros z F p (L & I & HL) Hp. apply (free_page_bound z L); [done|by apply HL].
Qed.
Next Obligation.
  intros z F k (L & I & HL) Hk. unfold MAX_ORDER in Hk.
  destruct (decide (Exists (fun j => L j ≠ []) (seqZ k (11 - k)))) as [He|Hn].
  - left. apply Exists_exists in He as (j & Hj & Hne). apply elem_of_seqZ in Hj.
    destruct (list_has_free_run z L j k I ltac:(lia) Hne) as (i & Hd & Hi). exists i. split; [done|]. intros p Hp. by apply HL, Hi.
  - right. intros (i & Hd & Hi). apply Hn, Exists_exists.
    destruct (free_run_has_list z L k i I) as (j & Hj & Hne); [unfold BUDDY_GROUPS; lia| |].
    { split; [done|]. intros p Hp. by apply HL, Hi. }
    exists j. split; [apply elem_of_seqZ; unfold BUDDY_GROUPS in Hj; lia|done].
Qed.
Next Obligation.
  intros z F k (L & I & HL) Hk (i & Hd & Hi). unfold MAX_ORDER in Hk.
  destruct (allocate_block_found z L k I) as (pfn & z' & L' & E & I' & Hok & Hf & HL' & Hfr);
    [unfold BUDDY_GROUPS; lia| |].
  { apply (free_run_has_list z L k i I); [unfold BUDDY_GROUPS; lia|].
    split; [done|]. intros p Hp. by apply HL, Hi. }
  exists pfn, z'. split_and!; [done| |apply Hfr|].
  - split; [apply Hok|]. intros p Hp. by apply HL, Hf.
  - exists L'. split; [done|]. intros p. by rewrite HL', HL.
Qed.
Next Obligation.
  intros z F k (L & I & HL) Hk Hn. unfold MAX_ORDER in Hk.
  apply (allocate_block_none z L); [done|unfold BUDDY_GROUPS; lia|]. intros j Hj.
  destruct (decide (L j = [])) as [|Hne]; [done|]. destruct Hn.
  destruct (list_has_free_run z L j k I ltac:(lia) Hne) as (i & Hd & Hi).
  exists i. split; [done|]. intros p Hp. by apply HL, Hi.
Qed.
Next Obligation.
  intros z F k i (L & I & HL) Hk Hd H0 Hb Hf. unfold MAX_ORDER in Hk.
  destruct (free_block_spec z L i k I) as (z' & L' & E & I' & Hfr & HL').
  { split_and!; [lia|unfold BUDDY_GROUPS; lia|done..]. }
  { intros p Hp. rewrite HL. by apply Hf. }
  exists z'. split_and!; [done|apply Hfr|]. exists L'. split; [done|].
  intros p. by rewrite HL', HL.
Qed.
Next Obligation.
  intros set z F i (L & I & HL) Hi Hf. destruct (bi_page _ _ I i Hi) as [[p Ep] _]. rewrite <- HL in Hf.
  unfold upd_page. rewrite Ep. cbn [mbind option_bind].
  destruct set; (eexists; split; [done|]; split; [done|]; exists L; split; [|done]); apply (mark_page z L i p); try done.
  - by rewrite PagePrivate_SetSlab.
  - by rewrite PagePrivate_ClearSlab.
Qed.

(** ** Main theorems *)

(** A zone of eight page frames of which 0 and 5 are taken, as [create_zone]
    leaves it. *)
Definition demo_page (i : Z) : page :=
  mk_page false i (if bool_decide (i = 0 \/ i = 5) then PG_FLAG_TAKEN else 0) 0 0 0 None.
Definition demo_zone : zone_t :=
  mk_zone 8 8 10 10 0
    (list_to_map ((fun i => (i, demo_page i)) <$> seqZ 0 8))
    (replicate 11 0)
    (list_to_map (((fun k => (FreeList k, mk_list_head (Some (FreeList k)) (Some (FreeList k))))
                     <$> seqZ 0 11)
                  ++ ((fun i => (Lru i, mk_list_head None None)) <$> seqZ 0 8))).

Lemma demo_zone_created : zone_created demo_zone.
Proof.
  split.
  - apply (Forall_seqZ _ 0 11). repeat constructor; try apply not_elem_of_nil; vm_compute; done.
  - apply (Forall_seqZ _ 0 11). repeat constructor.
  - apply (Forall_seqZ _ 0 8). repeat constructor; eexists; vm_compute; done.
  - assert (map_Forall (fun _ p => PagePrivate p = false) (zone_mem_map demo_zone)) as H
      by (apply (bool_decide_unpack _); vm_compute; done).
    exact H.
  - simpl. lia.
Qed.

Lemma demo_live : exists z L, init_zone_lists demo_zone = Some z /\ buddy_inv z L
  /\ present_pages z = 8 /\ forall p, free_page L p <-> 0 <= p < 8 /\ p ≠ 0 /\ p ≠ 5.
Proof.
  destruct (init_zone_lists_spec demo_zone demo_zone_created) as (z & L & E & I & Hp & _ & HL).
  exists z, L. split_and!; [done..|]. intros p. rewrite HL.
  change (present_pages demo_zone) with 8.
  assert (forall q, 0 <= q < 8 ->
    page_unavailable demo_zone q = Some (bool_decide (q = 0 \/ q = 5))) as H.
  { check_range 0 8 ltac:(reflexivity). }
  unfold avail. split.
  - intros [Hq Ha]. rewrite H in Ha by done. case_bool_decide; [done|]. lia.
  - intros (Hq & ? & ?). split; [done|]. rewrite H by done. rewrite bool_decide_false; [done|lia].
Qed.

(** C3: Allocation is correct and complete: whenever some naturally aligned run
    of [2^order] page frames is free, [allocate_block] returns such a run,
    removes exactly its frames from the free set, decrements the free-page
    counter by [2^order], and keeps the allocator's invariant (disjoint,
    aligned, fully coalesced free blocks on well-formed lists). *)
Theorem allocate_block_correct z L order :
  buddy_inv z L -> 0 <= order < BUDDY_GROUPS ->
  (exists i, free_run (free_page L) order i) ->
  exists pfn z' L', allocate_block z order = Some (Some pfn, z') /\ buddy_inv z' L'
    /\ free_run (free_page L) order pfn
    /\ (forall p, free_page L' p <-> free_page L p /\ ~ in_block order pfn p)
    /\ free_pages_cnt z' = u32 (free_pages_cnt z - 2 ^ order).
Proof.
  intros I Ho [i Hi].
  destruct (allocate_block_found z L order I Ho) as (pfn & z' & L' & E & I' & Hok & Hf & HL & Hfr).
  { by apply (free_run_has_list z L order i). }
  exists pfn, z', L'. split_and!; [done..| |done|apply Hfr]. split; [apply Hok|done].
Qed.

Lemma allocate_block_correct_witness :
  exists z L, buddy_inv z L /\ exists pfn z' L', allocate_block z 1 = Some (Some pfn, z')
    /\ buddy_inv z' L' /\ free_run (free_page L) 1 pfn.
Proof.
  destruct demo_live as (z & L & _ & I & Hp & HL). exists z, L. split; [done|].
  destruct (allocate_block_correct z L 1 I) as (pfn & z' & L' & E & I' & Hr & _);
    [unfold BUDDY_GROUPS; lia| |by exists pfn, z', L'].
  exists 2. split; [exists 1; lia|]. intros p Hq. apply HL. unfold in_block in Hq. lia.
Defined.

(** When no naturally aligned run of [2^order] frames is free,
    [allocate_block] returns [NULL] and changes nothing. *)
Theorem allocate_block_exhausted z L order :
  buddy_inv z L -> 0 <= order < BUDDY_GROUPS ->
  (forall i, ~ free_run (free_page L) order i) -> allocate_block z order = Some (None, z).
Proof.
  intros I Ho Hn. apply (allocate_block_none z L); [done..|]. intros j Hj.
  destruct (decide (L j = [])) as [|Hne]; [done|].
  destruct (list_has_free_run z L j order I ltac:(lia) Hne) as [i Hi]. by destruct (Hn i).
Qed.

Lemma allocate_block_exhausted_witness : exists z, allocate_block z 3 = Some (None, z).
Proof.
  destruct demo_live as (z & L & _ & I & Hp & HL). exists z.
  apply (allocate_block_exhausted z L 3 I); [unfold BUDDY_GROUPS; lia|].
  intros i [_ Hf]. assert (free_page L i) as H1 by (apply Hf; unfold in_block; lia).
  assert (free_page L (i + 7)) as H2 by (apply Hf; unfold in_block; lia).
  apply HL in H1. apply HL in H2. lia.
Defined.

(** C4: Freeing an aligned block none of whose frames is free adds exactly its
    frames to the free set, increments the free-page counter by [2^order] and
    keeps the invariant; in particular the result is fully coalesced with the
    neighbouring buddies. *)
Theorem free_block_correct z L i order :
  buddy_inv z L -> block_ok z order i ->
  (forall p, in_block order i p -> ~ free_page L p) ->
  exists z' L', free_block i z order = Some z' /\ buddy_inv z' L'
    /\ (forall p, free_page L' p <-> free_page L p \/ in_block order i p)
    /\ free_pages_cnt z' = u32 (free_pages_cnt z + 2 ^ order).
Proof.
  intros I Hok Hf. destruct (free_block_spec z L i order I Hok Hf) as (z' & L' & E & I' & Hfr & HL).
  exists z', L'. split_and!; [done..|apply Hfr].
Qed.

Lemma free_block_correct_witness :
  exists z L z' L', buddy_inv z L /\ free_block 5 z 0 = Some z' /\ buddy_inv z' L'
    /\ free_page L' 5.
Proof.
  destruct demo_live as (z & L & _ & I & Hp & HL).
  destruct (free_block_correct z L 5 0 I) as (z' & L' & E & I' & HL' & _).
  - split_and!; [lia|unfold BUDDY_GROUPS; lia|lia|exists 5; lia|lia].
  - intros p Hq [_ Hf]%HL. unfold in_block in Hq. lia.
  - exists z, L, z', L'. split_and!; [done..|]. apply HL'. right. unfold in_block. lia.
Defined.

(** Allocating a block and freeing it again restores the set of free
    frames and the free-page counter. *)
Theorem alloc_free_restores z L order :
  buddy_inv z L -> 0 <= order < BUDDY_GROUPS -> 0 <= free_pages_cnt z < 2 ^ 32 ->
  (exists i, free_run (free_page L) order i) ->
  exists pfn z1 z2 L2, allocate_block z order = Some (Some pfn, z1)
    /\ free_block pfn z1 order = Some z2 /\ buddy_inv z2 L2
    /\ (forall p, free_page L2 p <-> free_page L p)
    /\ free_pages_cnt z2 = free_pages_cnt z.
Proof.
  intros I Ho Hc [i Hi].
  destruct (allocate_block_found z L order I Ho) as (pfn & z1 & L1 & E & I1 & Hok & Hf & HL & Hfr).
  { by apply (free_run_has_list z L order i). }
  destruct Hfr as (Hp & Hcnt & _). simpl in Hp, Hcnt.
  destruct (free_block_spec z1 L1 pfn order I1) as (z2 & L2 & E2 & I2 & Hfr2 & HL2).
  { by eapply block_ok_ext. }
  { intros p Hb [_ ?]%HL. done. }
  exists pfn, z1, z2, L2. split_and!; [done..| |].
  - intros p. rewrite HL2, HL. split; [intros [[? _]|?]; auto|].
    intros Hp'. destruct (decide (pfn <= p /\ p < pfn + 2 ^ order)); unfold in_block; tauto.
  - destruct Hfr2 as (_ & Hcnt2 & _). simpl in Hcnt2. rewrite Hcnt2, Hcnt, u32_add_l.
    rewrite Z.sub_add. by apply u32_small.
Qed.

Lemma alloc_free_restores_witness :
  exists z pfn z1 z2, allocate_block z 0 = Some (Some pfn, z1) /\ free_block pfn z1 0 = Some z2
    /\ free_pages_cnt z2 = free_pages_cnt z.
Proof.
  destruct demo_live as (z & L & _ & I & Hp & HL).
  destruct (alloc_free_restores (set_free_pages 6 z) L 0) as (pfn & z1 & z2 & L2 & E1 & E2 & _ & _ & Hc);
    [by apply buddy_inv_free_pages|unfold BUDDY_GROUPS; lia|simpl; lia| |by eexists _, pfn, z1, z2].
  exists 2. split; [exists 2; lia|]. intros p Hq. apply HL. unfold in_block in Hq. lia.
Defined.

(** [init_zone] (before its self-test) terminates on every zone
    [create_zone] produces and builds free lists that hold exactly the page
    frames that are neither taken nor reserved; the counter grows by their
    number. *)
Theorem init_zone_lists_correct z :
  zone_created z ->
  exists z' L, init_zone_lists z = Some z' /\ buddy_inv z' L
    /\ (forall p, free_page L p <-> 0 <= p < present_pages z /\ avail z p)
    /\ u32 (free_pages_cnt z') = u32 (free_pages_cnt z + count_avail z 0 (present_pages z)).
Proof.
  intros C. destruct (init_zone_lists_spec z C) as (z' & L & E & I & Hp & Hc & HL).
  by exists z', L.
Qed.

Lemma init_zone_lists_correct_witness : exists z' L,
  init_zone_lists demo_zone = Some z' /\ buddy_inv z' L
  /\ u32 (free_pages_cnt z') = 14.
Proof.
  destruct (init_zone_lists_correct demo_zone demo_zone_created) as (z' & L & E & I & _ & Hc).
  exists z', L. split_and!; [done..|]. rewrite Hc. vm_compute. done.
Defined.

(** [ClearPagePrivate] and [ClearPageSlab] clear every flag below theirs
    as well: the unparenthesised macros make [~PG_FLAG_private] the mask
    [(~1) << 4], so the lock, referenced, dirty and lru flags go too, and
    [ClearPageSlab] also drops taken and reserved. *)
Theorem clear_page_flags_effect p b :
  0 <= b < 32 ->
  Z.testbit (flags (ClearPagePrivate p)) b = Z.testbit (flags p) b && (4 <? b)
  /\ Z.testbit (flags (ClearPageSlab p)) b = Z.testbit (flags p) b && (8 <? b).
Proof.
  intros Hb. unfold ClearPagePrivate, ClearPageSlab. cbn [flags set_flags].
  rewrite !Z.land_spec. revert b Hb.
  assert (forall b, 0 <= b < 32 -> Z.testbit (clear_mask 4) b = (4 <? b)
                                /\ Z.testbit (clear_mask 8) b = (8 <? b)) as H.
  { check_range 0 32 ltac:(split; reflexivity). }
  intros b Hb. destruct (H b Hb) as [-> ->]. done.
Qed.

Lemma clear_page_flags_effect_witness :
  Z.testbit (flags (ClearPageSlab (demo_page 0))) 6 = false
  /\ Z.testbit (flags (demo_page 0)) 6 = true.
Proof.
  split; [|reflexivity]. destruct (clear_page_flags_effect (demo_page 0) 6) as [_ ->]; [lia|].
  reflexivity.
Defined.
