(* ===== verification/CString.v ===== *)
(** * Strings and memory blocks (kernel/string.c, memcpy of memory-management/mm.c)

    A pointer into a character array is the list of bytes from that position to
    the end of the array; running past the end is undefined behaviour.  Bytes
    are [Z] values in [0, 256), the terminator is 0.  [memmove] and [strtok]
    work on one array with positions, because their arguments may overlap. *)

From S2P Require Export Prelude.

(** ** Comparison *)

Fixpoint strcmp (s1 s2 : list Z) : option Z :=
  match s1, s2 with
  | c1 :: t1, c2 :: t2 =>
      if negb (c1 =? 0) && (c1 =? c2) then strcmp t1 t2 else Some (c1 - c2)
  | _, _ => None
  end.

(** The loop of [strncmp] with [n] characters left before the test [n--]. *)
Fixpoint strncmp_loop (n : nat) (s1 s2 : list Z) : option Z :=
  match s1, s2 with
  | c1 :: t1, c2 :: t2 =>
      match n with
      | O => Some (c1 - c2)
      | S n =>
          if negb (c1 =? 0) && (c1 =? c2)
          then if (n =? 0)%nat then Some 0 else strncmp_loop n t1 t2
          else Some (c1 - c2)
      end
  | _, _ => None
  end.

Definition strncmp (s1 s2 : list Z) (n : Z) : option Z :=
  if n =? 0 then Some 0 else strncmp_loop (Z.to_nat n) s1 s2.

(** ** Length and copies *)

Fixpoint strlen (s : list Z) : option Z :=
  match s with
  | [] => None
  | c :: t => if c =? 0 then Some 0 else n ← strlen t; Some (n + 1)
  end.

Fixpoint strcpy (s ct : list Z) : option (list Z) :=
  match ct, s with
  | c :: ct, _ :: s =>
      if c =? 0 then Some (0 :: s) else r ← strcpy s ct; Some (c :: r)
  | _, _ => None
  end.

(** The padding loop: [n] terminators from [dest] on. *)
Fixpoint strncpy_pad (dest : list Z) (n : nat) {struct n} : option (list Z) :=
  match n, dest with
  | O, _ => Some dest
  | S n, _ :: dest => r ← strncpy_pad dest n; Some (0 :: r)
  | S _, [] => None
  end.

Fixpoint strncpy (dest src : list Z) (n : nat) {struct n} : option (list Z) :=
  match n, src, dest with
  | O, _, _ => Some dest
  | S n', c :: src, _ :: dest' =>
      if c =? 0 then strncpy_pad dest n
      else r ← strncpy dest' src n'; Some (c :: r)
  | S _, _, _ => None
  end.

Fixpoint memset (dest : list Z) (c : Z) (n : nat) {struct n} : option (list Z) :=
  match n, dest with
  | O, _ => Some dest
  | S n, _ :: dest => r ← memset dest c n; Some (u8 c :: r)
  | S _, [] => None
  end.

Fixpoint memcpy (dest src : list Z) (size : nat) {struct size} : option (list Z) :=
  match size, src, dest with
  | O, _, _ => Some dest
  | S n, c :: src, _ :: dest => r ← memcpy dest src n; Some (c :: r)
  | S _, _, _ => None
  end.

(** [memchr] has no [return] after its loop: the value of a failed search is
    undefined. *)
Fixpoint memchr (s : list Z) (c : Z) (n : nat) {struct n} : option Z :=
  match n, s with
  | S n, b :: s => if b =? u8 c then Some 0 else i ← memchr s c n; Some (i + 1)
  | _, _ => None
  end.

(** [memcmp] initialises [p2] from itself instead of [s2]: every read through
    it is undefined. *)
Definition memcmp (s1 s2 : list Z) (n : nat) : option Z :=
  match n with O => Some 0 | S _ => None end.

(** ** Overlapping copies: [mem] is one array, [dest] and [src] positions in it *)

Fixpoint copy_down (mem : list Z) (dest src : Z) (i : nat) : option (list Z) :=
  match i with
  | O => Some mem
  | S i => v ← zget mem (src + Z.of_nat i);
           mem ← zset mem (dest + Z.of_nat i) v;
           copy_down mem dest src i
  end.

(** [n] bytes left, [i] the next index. *)
Fixpoint copy_up (mem : list Z) (dest src i : Z) (n : nat) : option (list Z) :=
  match n with
  | O => Some mem
  | S n => v ← zget mem (src + i);
           mem ← zset mem (dest + i) v;
           copy_up mem dest src (i + 1) n
  end.

Definition memmove (mem : list Z) (dest src : Z) (n : nat) : option (list Z) :=
  if dest <? u32 (src + Z.of_nat n) then copy_down mem dest src n
  else copy_up mem dest src 0 n.

(** ** Tokens *)

Fixpoint char_in_set (c : Z) (set : list Z) : option bool :=
  match set with
  | [] => None
  | d :: set => if d =? 0 then Some false else if c =? d then Some true else char_in_set c set
  end.

(** The static variables of [strtok]. *)
Record strtok_state := mk_strtok { st_buf : Z; st_left : Z }.

(** The scan for the next delimiter; [fuel] bounds the walk. *)
Fixpoint strtok_loop (fuel : nat) (mem : list Z) (s : strtok_state) (delim : list Z) (tok : Z)
  : option (option Z * list Z * strtok_state) :=
  match fuel with
  | O => None
  | S fuel =>
      c ← zget mem (st_buf s);
      d ← char_in_set c delim;
      if (d : bool) then
        mem ← zset mem (st_buf s) 0;
        Some (Some tok, mem, mk_strtok (st_buf s + 1) (st_left s - 1))
      else if c =? 0 then Some (Some tok, mem, s)
      else strtok_loop fuel mem (mk_strtok (st_buf s + 1) (st_left s - 1)) delim tok
  end.

(** [strtok(str, delim)]; a fresh [str] is the position of a string in [mem]. *)
Definition strtok (mem : list Z) (s : strtok_state) (str : option Z) (delim : list Z)
  : option (option Z * list Z * strtok_state) :=
  s ← match str with
      | Some p => n ← (if p <? 0 then None else strlen (drop (Z.to_nat p) mem));
                  Some (mk_strtok p n)
      | None => Some s
      end;
  if st_left s =? 0 then Some (None, mem, s)
  else strtok_loop (S (length mem)) mem s delim (st_buf s).

(** ** Terminated strings *)

(** The array [s] starts with the string [a]. *)
Definition cstring (s a : list Z) : Prop := exists r, s = a ++ 0 :: r /\ 0 ∉ a.

Lemma cstring_cons s c a : cstring s (c :: a) -> exists t, s = c :: t /\ c ≠ 0 /\ cstring t a.
Proof.
  intros (r & -> & Hn). exists (a ++ 0 :: r). split_and!; [done|set_solver|].
  exists r. split; [done|set_solver].
Qed.

Lemma cstring_nil s : cstring s [] -> exists t, s = 0 :: t.
Proof. intros (r & -> & _). by exists r. Qed.

(** The lexicographic order of two byte strings. *)
Fixpoint lex (a b : list Z) : comparison :=
  match a, b with
  | [], [] => Eq
  | [], _ => Lt
  | _, [] => Gt
  | x :: a, y :: b => match x ?= y with Eq => lex a b | c => c end
  end.

Lemma strcmp_lex s1 s2 a b :
  cstring s1 a -> cstring s2 b -> Forall (fun c => 0 <= c) a -> Forall (fun c => 0 <= c) b ->
  exists r, strcmp s1 s2 = Some r /\ (r ?= 0) = lex a b.
Proof.
  revert s1 s2 b. induction a as [|x a IH]; intros s1 s2 b H1 H2 Ha Hb.
  - apply cstring_nil in H1 as [t1 ->]. destruct b as [|y b].
    + apply cstring_nil in H2 as [t2 ->]. by exists 0.
    + apply cstring_cons in H2 as (t2 & -> & Hy & _). simpl. exists (0 - y). split; [done|].
      inversion Hb; subst. apply Z.compare_lt_iff. lia.
  - apply cstring_cons in H1 as (t1 & -> & Hx & H1). inversion Ha; subst. destruct b as [|y b].
    + apply cstring_nil in H2 as [t2 ->]. exists (x - 0). simpl.
      replace (x =? 0) with false by lia. simpl. split; [done|]. apply Z.compare_gt_iff. lia.
    + apply cstring_cons in H2 as (t2 & -> & Hy & H2). inversion Hb; subst. simpl.
      replace (x =? 0) with false by lia. simpl.
      destruct (Z.eqb_spec x y) as [->|Hxy].
      * rewrite Z.compare_refl. by apply IH.
      * exists (x - y). split; [done|].
        destruct (Z.compare_spec x y); [done|..];
          [apply Z.compare_lt_iff|apply Z.compare_gt_iff]; lia.
Qed.

Lemma lex_eq a b : lex a b = Eq <-> a = b.
Proof.
  revert b. induction a as [|x a IH]; intros [|y b]; simpl; try (split; congruence).
  destruct (Z.compare_spec x y); split; intros HH; simplify_eq; try lia; try done.
  - f_equal. by apply IH.
  - by apply IH.
Qed.

Lemma strcmp_eq s1 s2 a b :
  cstring s1 a -> cstring s2 b -> exists r, strcmp s1 s2 = Some r /\ (r = 0 <-> a = b).
Proof.
  revert s1 s2 b. induction a as [|x a IH]; intros s1 s2 b H1 H2.
  - apply cstring_nil in H1 as [t1 ->]. destruct b as [|y b].
    + apply cstring_nil in H2 as [t2 ->]. by exists 0.
    + apply cstring_cons in H2 as (t2 & -> & Hy & _). simpl. exists (0 - y). split; [done|]. split; [lia|done].
  - apply cstring_cons in H1 as (t1 & -> & Hx & H1). destruct b as [|y b].
    + apply cstring_nil in H2 as [t2 ->]. exists (x - 0). simpl.
      replace (x =? 0) with false by lia. simpl. split; [done|]. split; [lia|done].
    + apply cstring_cons in H2 as (t2 & -> & Hy & H2). simpl.
      replace (x =? 0) with false by lia. simpl. destruct (Z.eqb_spec x y) as [->|Hxy].
      * destruct (IH t1 t2 b H1 H2) as (r & -> & Hr). exists r. split; [done|]. rewrite Hr. split; congruence.
      * exists (x - y). split; [done|]. split; [lia|congruence].
Qed.

Lemma strcmp_zero s1 s2 a b :
  cstring s1 a -> cstring s2 b -> exists r, strcmp s1 s2 = Some r /\ (r =? 0) = bool_decide (a = b).
Proof.
  intros H1 H2. destruct (strcmp_eq s1 s2 a b H1 H2) as (r & E & Hr). exists r. split; [done|].
  case_bool_decide; [apply Z.eqb_eq|apply Z.eqb_neq]; tauto.
Qed.

Lemma strlen_spec s a : cstring s a -> strlen s = Some (Z.of_nat (length a)).
Proof.
  revert s. induction a as [|c a IH]; intros s Hs.
  - by apply cstring_nil in Hs as [t ->].
  - apply cstring_cons in Hs as (t & -> & Hc & Ht). simpl. replace (c =? 0) with false by lia.
    rewrite (IH _ Ht). simpl. f_equal. lia.
Qed.

Lemma strncmp_loop_spec n s1 s2 a b :
  (0 < n)%nat -> cstring s1 a -> cstring s2 b ->
  exists r, strncmp_loop n s1 s2 = Some r
    /\ (r = 0 <-> take n (a ++ [0]) = take n (b ++ [0])).
Proof.
  revert s1 s2 a b. induction n as [|n IH]; intros s1 s2 a b Hn H1 H2; [lia|].
  destruct a as [|x a]; [apply cstring_nil in H1 as [t1 ->]|
                         apply cstring_cons in H1 as (t1 & -> & Hx & H1)];
  (destruct b as [|y b]; [apply cstring_nil in H2 as [t2 ->]|
                          apply cstring_cons in H2 as (t2 & -> & Hy & H2)]); simpl.
  - exists 0. done.
  - exists (0 - y). split; [done|]. split; [lia|]. intros [= E]. lia.
  - replace (x =? 0) with false by lia. replace (x =? 0) with false by lia. simpl.
    exists (x - 0). split; [done|]. split; [lia|]. intros [= E]. lia.
  - replace (x =? 0) with false by lia. simpl. destruct (Z.eqb_spec x y) as [->|Hxy].
    + destruct (Nat.eqb_spec n 0) as [->|Hn0]; [by exists 0|].
      destruct (IH t1 t2 a b) as (r & E & Hr); [lia|done..|]. exists r. split; [done|].
      rewrite Hr. split; [by intros ->|congruence].
    + exists (x - y). split; [done|]. split; [lia|]. intros [= E]. lia.
Qed.

Lemma strncpy_pad_spec n dest :
  (n <= length dest)%nat -> strncpy_pad dest n = Some (replicate n 0 ++ drop n dest).
Proof.
  revert dest. induction n as [|n IH]; intros dest Hn; simpl; [done|].
  destruct dest as [|d dest]; simpl in *; [lia|]. by rewrite IH by lia.
Qed.

Lemma take_app_replicate n m (a : list Z) :
  (n <= m)%nat -> take n (a ++ replicate m 0) = take n (a ++ replicate n 0).
Proof. intros. rewrite !take_app, !take_replicate. do 2 f_equal. lia. Qed.

Lemma strncpy_spec n dest src a :
  cstring src a -> (n <= length dest)%nat ->
  strncpy dest src n = Some (take n (a ++ replicate n 0) ++ drop n dest).
Proof.
  revert dest src a. induction n as [|n IH]; intros dest src a Hs Hn; simpl; [done|].
  destruct dest as [|d dest]; simpl in *; [lia|]. destruct a as [|c a].
  - apply cstring_nil in Hs as [t ->]. simpl. rewrite strncpy_pad_spec by lia. simpl.
    rewrite firstn_all2 by (rewrite length_replicate; lia). done.
  - apply cstring_cons in Hs as (t & -> & Hc & Ht). replace (c =? 0) with false by lia.
    rewrite (IH dest t a) by (done || lia). simpl. do 2 f_equal.
    change (0 :: replicate n 0) with (replicate (S n) 0).
    by rewrite (take_app_replicate n (S n)) by lia.
Qed.

Lemma strcpy_spec s ct a :
  cstring ct a -> (length a < length s)%nat ->
  strcpy s ct = Some (a ++ 0 :: drop (S (length a)) s).
Proof.
  revert s ct. induction a as [|c a IH]; intros s ct Hc Hl; destruct s as [|d s]; simpl in *; try lia.
  - apply cstring_nil in Hc as [t ->]. done.
  - apply cstring_cons in Hc as (t & -> & Hc & Ht). simpl. replace (c =? 0) with false by lia.
    rewrite IH by (done || lia). done.
Qed.

Lemma memset_spec n dest c :
  (n <= length dest)%nat -> memset dest c n = Some (replicate n (u8 c) ++ drop n dest).
Proof.
  revert dest. induction n as [|n IH]; intros dest Hn; simpl; [done|].
  destruct dest as [|d dest]; simpl in *; [lia|]. by rewrite IH by lia.
Qed.

Lemma memcpy_spec n dest src :
  (n <= length dest)%nat -> (n <= length src)%nat ->
  memcpy dest src n = Some (take n src ++ drop n dest).
Proof.
  revert dest src. induction n as [|n IH]; intros dest src Hd Hs; simpl; [done|].
  destruct dest as [|d dest], src as [|c src]; simpl in *; try lia. by rewrite IH by lia.
Qed.

(** ** Copies inside one array *)

(** [mem'] is [mem] with the [n] bytes from [dest] on replaced by the [n]
    bytes [mem] has from [src] on. *)
Definition moved (mem mem' : list Z) (dest src n : Z) : Prop :=
  length mem' = length mem /\
  (forall i, 0 <= i < n -> zget mem' (dest + i) = zget mem (src + i)) /\
  (forall j, ~ (dest <= j < dest + n) -> zget mem' j = zget mem j).

Section Move.
Context (mem : list Z) (dest src : Z).
Context (Hdest : 0 <= dest) (Hsrc : 0 <= src).

(** One step of a copy whose write does not clobber a byte still to be read. *)
Lemma copy_step (m : list Z) i :
  length m = length mem ->
  0 <= i -> src + i < Z.of_nat (length mem) -> dest + i < Z.of_nat (length mem) ->
  exists v m', zget m (src + i) = Some v /\ zset m (dest + i) v = Some m' /\
    length m' = length mem.
Proof.
  intros Hl Hi Hs Hd. destruct (zget_is_Some m (src + i)) as [v Hv]; [lia|].
  exists v. pose proof (zset_in_range m (dest + i) v ltac:(lia)) as E.
  eexists. split_and!; [done|exact E|]. by rewrite length_insert.
Qed.

Lemma copy_down_spec i n (m : list Z) :
  src <= dest \/ dest + n <= src ->
  length m = length mem -> 0 <= Z.of_nat i <= n ->
  src + n <= Z.of_nat (length mem) -> dest + n <= Z.of_nat (length mem) ->
  (forall j, 0 <= j < Z.of_nat i -> zget m (src + j) = zget mem (src + j)) ->
  (forall j, Z.of_nat i <= j < n -> zget m (dest + j) = zget mem (src + j)) ->
  (forall j, ~ (dest + Z.of_nat i <= j < dest + n) -> zget m j = zget mem j) ->
  exists m', copy_down m dest src i = Some m' /\ moved mem m' dest src n.
Proof.
  intros Hov. revert m. induction i as [|i IH]; intros m Hl Hi Hs Hd Hr Hw Hf; cbn [copy_down].
  { exists m. split; [done|]. split_and!; [done|intros; apply Hw; lia|intros; apply Hf; lia]. }
  destruct (copy_step m (Z.of_nat i)) as (v & m' & Ev & Em & Hl'); [done|lia..|].
  rewrite Ev. cbn. rewrite Em. cbn. apply IH; [done|lia..| | |].
  - intros j Hj. rewrite (zget_zset _ _ _ _ _ Em), decide_False by lia. apply Hr. lia.
  - intros j Hj. destruct (decide (j = Z.of_nat i)) as [->|].
    + rewrite (zget_zset_eq _ _ _ _ Em), <- Ev. apply Hr. lia.
    + rewrite (zget_zset _ _ _ _ _ Em), decide_False by lia. apply Hw. lia.
  - intros j Hj. rewrite (zget_zset _ _ _ _ _ Em), decide_False by lia. apply Hf. lia.
Qed.

Lemma copy_up_spec k i n (m : list Z) :
  dest + n <= src \/ src + n <= dest ->
  length m = length mem -> 0 <= i -> i + Z.of_nat k = n ->
  src + n <= Z.of_nat (length mem) -> dest + n <= Z.of_nat (length mem) ->
  (forall j, 0 <= j < i -> zget m (dest + j) = zget mem (src + j)) ->
  (forall j, ~ (dest <= j < dest + i) -> zget m j = zget mem j) ->
  exists m', copy_up m dest src i k = Some m' /\ moved mem m' dest src n.
Proof.
  intros Hov. revert i m. induction k as [|k IH]; intros i m Hl Hi Hn Hs Hd Hw Hf; cbn [copy_up].
  { exists m. split; [done|]. split_and!; [done|intros; apply Hw; lia|intros; apply Hf; lia]. }
  destruct (copy_step m i) as (v & m' & Ev & Em & Hl'); [done|lia..|].
  rewrite Ev. cbn. rewrite Em. cbn. apply IH; [done|lia..| |].
  - intros j Hj. destruct (decide (j = i)) as [->|].
    + rewrite (zget_zset_eq _ _ _ _ Em), <- Ev. apply Hf. lia.
    + rewrite (zget_zset _ _ _ _ _ Em), decide_False by lia. apply Hw. lia.
  - intros j Hj. rewrite (zget_zset _ _ _ _ _ Em), decide_False by lia. apply Hf. lia.
Qed.
End Move.

(** ** Tokens *)

Lemma char_in_set_spec c set ds :
  cstring set ds -> char_in_set c set = Some (bool_decide (c ∈ ds)).
Proof.
  revert set. induction ds as [|d ds IH]; intros set Hs.
  - apply cstring_nil in Hs as [t ->]. done.
  - apply cstring_cons in Hs as (t & -> & Hd & Ht). simpl. replace (d =? 0) with false by lia.
    destruct (Z.eqb_spec c d) as [->|Hc].
    + rewrite bool_decide_true by set_solver. done.
    + rewrite (IH _ Ht). f_equal. apply bool_decide_ext. set_solver.
Qed.

Lemma zget_app_r (a b : list Z) i : 0 <= i -> zget (a ++ b) (Z.of_nat (length a) + i) = zget b i.
Proof.
  intros. unfold zget. destruct (Z.ltb_spec (Z.of_nat (length a) + i) 0), (Z.ltb_spec i 0); try lia.
  rewrite lookup_app_r by lia. f_equal. lia.
Qed.

(** The scan over a token [t] that no delimiter occurs in, up to the first
    character after it. *)
Lemma strtok_loop_skip set ds t : forall fuel pre c post left tok,
  cstring set ds -> 0 ∉ t -> Forall (fun x => x ∉ ds) t -> (length t < fuel)%nat ->
  strtok_loop fuel (pre ++ t ++ c :: post) (mk_strtok (Z.of_nat (length pre)) left) set tok
  = strtok_loop (fuel - length t) (pre ++ t ++ c :: post)
      (mk_strtok (Z.of_nat (length pre + length t)) (left - Z.of_nat (length t))) set tok.
Proof.
  induction t as [|x t IH]; intros fuel pre c post left tok Hs Ht Hd Hf.
  { cbn [length]. by rewrite Nat.sub_0_r, Nat.add_0_r, Z.sub_0_r. }
  destruct fuel as [|fuel]; [simpl in Hf; lia|]. cbn [strtok_loop st_buf st_left].
  cbn [app]. rewrite <- (Z.add_0_r (Z.of_nat (length pre))) at 1. rewrite zget_app_r by lia.
  change (zget (x :: t ++ c :: post) 0) with (Some x). cbn [mbind option_bind].
  rewrite (char_in_set_spec _ _ _ Hs). apply Forall_cons in Hd as [Hx Hd].
  rewrite bool_decide_false by done. cbn [mbind option_bind].
  apply not_elem_of_cons in Ht as [Hx0 Ht]. replace (x =? 0) with false by lia.
  change (x :: t ++ c :: post) with ([x] ++ t ++ c :: post). rewrite (assoc_L (++) pre).
  replace (Z.of_nat (length pre) + 1) with (Z.of_nat (length (pre ++ [x])))
    by (rewrite length_app; simpl; lia).
  rewrite IH by (done || (simpl in Hf; lia)).
  f_equal. f_equal; rewrite ?length_app; simpl; lia.
Qed.

(** ** Correctness *)

(** [strcmp] on two terminated strings is defined and its sign is the
    lexicographic order of the byte strings: 0 exactly when they are equal,
    negative when the first precedes the second, positive when it follows. *)
Theorem strcmp_correct s1 s2 a b :
  cstring s1 a -> cstring s2 b -> Forall (fun c => 0 <= c) a -> Forall (fun c => 0 <= c) b ->
  exists r, strcmp s1 s2 = Some r /\ (r ?= 0) = lex a b /\ (r = 0 <-> a = b).
Proof.
  intros H1 H2 Ha Hb. destruct (strcmp_lex s1 s2 a b) as (r & E & Hr); [done..|].
  exists r. split_and!; [done..|]. rewrite <- lex_eq, <- Hr. symmetry. apply Z.compare_eq_iff.
Qed.

Lemma strcmp_correct_witness :
  exists r, strcmp [97; 98; 0; 7] [97; 99; 0] = Some r /\ (r ?= 0) = lex [97; 98] [97; 99]
    /\ (r = 0 <-> [97; 98] = [97; 99]).
Proof.
  apply (strcmp_correct [97; 98; 0; 7] [97; 99; 0] [97; 98] [97; 99]).
  - exists [7]; split; [done|set_solver].
  - exists []; split; [done|set_solver].
  - forall_cons lia.
  - forall_cons lia.
Defined.

(** [strncpy] fills exactly the first [n] bytes of the destination: the
    string truncated to [n] bytes, padded with terminators when it is shorter;
    the rest of the destination keeps its contents. *)
Theorem strncpy_correct n dest src a :
  cstring src a -> (n <= length dest)%nat ->
  exists r, strncpy dest src n = Some r /\ length r = length dest /\
    take n r = take n a ++ replicate (n - length a) 0 /\ drop n r = drop n dest.
Proof.
  intros Hs Hn. rewrite (strncpy_spec n dest src a) by done. eexists. split; [done|].
  assert (length (take n (a ++ replicate n 0)) = n) as Hl
    by (rewrite length_take, length_app, length_replicate; lia).
  split_and!.
  - rewrite length_app, Hl, length_drop. lia.
  - rewrite take_app_le by lia. rewrite take_take, Nat.min_id, take_app, take_replicate.
    do 2 f_equal. lia.
  - by rewrite drop_app_length'.
Qed.

Lemma strncpy_correct_witness :
  exists r, strncpy [1; 2; 3; 4; 5] [104; 105; 0; 9] 4 = Some r /\ length r = length [1; 2; 3; 4; 5] /\
    take 4 r = take 4 [104; 105] ++ replicate (4 - length [104; 105]) 0 /\
    drop 4 r = drop 4 [1; 2; 3; 4; 5].
Proof. apply (strncpy_correct 4 _ _ [104; 105]); [exists [9]; split; [done|set_solver]|simpl; lia]. Defined.

(** [memmove] copies the [n] bytes at [src] to [dest] and leaves the rest
    of memory alone whenever the destination does not start below the source
    while overlapping it. *)
Theorem memmove_correct mem dest src n :
  0 <= dest -> 0 <= src -> src + Z.of_nat n < 2 ^ 32 ->
  dest + Z.of_nat n <= Z.of_nat (length mem) -> src + Z.of_nat n <= Z.of_nat (length mem) ->
  src <= dest \/ dest + Z.of_nat n <= src ->
  exists mem', memmove mem dest src n = Some mem' /\ moved mem mem' dest src (Z.of_nat n).
Proof.
  intros Hd Hs H32 Hld Hls Hov. unfold memmove. rewrite u32_small by lia.
  destruct (Z.ltb_spec dest (src + Z.of_nat n)).
  - apply copy_down_spec; auto; lia.
  - apply copy_up_spec; auto; lia.
Qed.

Lemma memmove_correct_witness :
  exists mem', memmove [1; 2; 3; 4; 5] 2 1 3 = Some mem' /\ moved [1; 2; 3; 4; 5] mem' 2 1 3.
Proof. apply (memmove_correct [1; 2; 3; 4; 5] 2 1 3); simpl; lia. Defined.

(** In the other overlapping case, a move towards lower addresses, the
    reverse copy of [memmove] overwrites source bytes before it reads them:
    moving three bytes down by one yields three copies of the last byte. *)
Theorem memmove_down_corrupts a b c d :
  memmove [a; b; c; d] 0 1 3 = Some [d; d; d; d].
Proof. reflexivity. Qed.

(** One call of [strtok] on a string whose first token [t] is followed by
    a delimiter returns the start of the token, overwrites the delimiter with
    a terminator and leaves the scan on the character after it. *)
Theorem strtok_token mem s pre t d post set ds :
  cstring set ds -> 0 ∉ t -> Forall (fun x => x ∉ ds) t -> d ∈ ds -> 0 ∉ post ->
  mem = pre ++ t ++ d :: post ++ [0] ->
  exists s', strtok mem s (Some (Z.of_nat (length pre))) set
    = Some (Some (Z.of_nat (length pre)), pre ++ t ++ 0 :: post ++ [0], s')
    /\ st_buf s' = Z.of_nat (length pre + length t + 1) /\ st_left s' = Z.of_nat (length post).
Proof.
  intros Hs Ht Htd Hd Hp ->. unfold strtok.
  destruct (Z.ltb_spec (Z.of_nat (length pre)) 0); [lia|].
  rewrite Nat2Z.id, drop_app_length. assert (d ≠ 0) as Hd0 by (destruct Hs as (? & _ & ?); set_solver).
  rewrite (strlen_spec _ (t ++ d :: post))
    by (exists []; split; [by rewrite <- (assoc_L (++))|set_solver]).
  cbn [mbind option_bind st_left st_buf]. rewrite length_app. cbn [length].
  destruct (Z.eqb_spec (Z.of_nat (length t + S (length post))) 0); [lia|].
  rewrite (strtok_loop_skip set ds) by (done || rewrite !length_app; simpl; lia).
  remember (S (length (pre ++ t ++ d :: post ++ [0%Z])) - length t)%nat as fuel eqn:Ef.
  destruct fuel as [|fuel]; [rewrite !length_app in Ef; simpl in Ef; lia|].
  cbn [strtok_loop st_buf st_left]. rewrite (assoc_L (++)).
  replace (Z.of_nat (length pre + length t)) with (Z.of_nat (length (pre ++ t)) + 0)
    by (rewrite length_app; lia).
  rewrite zget_app_r by lia. change (zget (d :: post ++ [0]) 0) with (Some d).
  cbn [mbind option_bind]. rewrite (char_in_set_spec _ _ _ Hs), bool_decide_true by done.
  cbn [mbind option_bind].
  rewrite Z.add_0_r, zset_in_range by (rewrite !length_app; simpl; lia). cbn.
  rewrite Nat2Z.id, insert_app_r_alt, Nat.sub_diag by lia. cbn. rewrite <- (assoc_L (++)).
  eexists. split; [done|]. cbn. rewrite length_app. lia.
Qed.

Lemma strtok_token_witness :
  exists s', strtok [108; 115; 32; 45; 108; 0] (mk_strtok 0 0) (Some (Z.of_nat (length (@nil Z)))) [32; 0]
    = Some (Some (Z.of_nat (length (@nil Z))), [] ++ [108; 115] ++ 0 :: [45; 108] ++ [0], s')
    /\ st_buf s' = Z.of_nat (length (@nil Z) + length [108; 115] + 1)
    /\ st_left s' = Z.of_nat (length [45; 108]).
Proof.
  apply (strtok_token _ _ [] [108; 115] 32 [45; 108] [32; 0] [32]).
  - exists []; split; [done|set_solver].
  - decided.
  - decided.
  - decided.
  - decided.
  - done.
Defined.
