(* ===== verification/Ports.v ===== *)
(** * Port input and output (include/io_access.h)

    [inb] and [outb] are single machine instructions; what they do is the
    hardware's business.  A device is a state with a transition for each
    instruction; drivers are written against this interface and say in their
    own classes which documented behaviour of the chip they rely on. *)

From S2P Require Export Prelude.

Class PortIO (D : Type) := {
  inb : Z -> D -> Z * D;
  outb : Z -> Z -> D -> D
}.

Section Ports.
Context {D : Type} `{!PortIO D}.

Definition io_wait (d : D) : D := outb 128 0 d.

(** A busy wait [while (inb(port) & mask);] (with [want] = false) or
    [while (!(inb(port) & mask));] (with [want] = true); [fuel] bounds the
    number of polls. *)
Fixpoint poll (fuel : nat) (port mask : Z) (want : bool) (d : D) : option D :=
  match fuel with
  | O => None
  | S fuel =>
      let '(v, d) := inb port d in
      if eqb (has_flag v mask) want then Some d else poll fuel port mask want d
  end.

(** A wait ends within its fuel when a measure of the device drops at every
    unsuccessful poll. *)
Lemma poll_total (I : D -> Prop) (busy : D -> nat) (port mask : Z) want fuel d :
  (forall d, I d -> let '(v, d') := inb port d in
     I d' /\ (has_flag v mask = want \/ (busy d' < busy d)%nat)) ->
  I d -> (busy d < fuel)%nat -> exists d', poll fuel port mask want d = Some d' /\ I d'.
Proof.
  intros Hstep. revert d. induction fuel as [|fuel IH]; intros d HI Hf; [lia|].
  simpl. specialize (Hstep d HI). destruct (inb port d) as [v d']. destruct Hstep as [HI' Hv].
  destruct (eqb (has_flag v mask) want) eqn:E; [by exists d'|].
  destruct Hv as [Hv|Hv]; [rewrite Hv, eqb_reflx in E; done|]. apply IH; [done|lia].
Qed.
End Ports.
