(* ===== verification/Serial.v ===== *)
(** * Serial console (drivers/serial.c)

    The UART, the number formatting routines and [printk].  Formatting is the
    sequence of characters handed to [serial_writechar]; [serial_emit] sends
    such a sequence through the device.  Memory that [%s] reads is the
    function [mem] from addresses to the bytes stored there. *)

From S2P Require Export Ports CString.
From Stdlib Require String Ascii.
Export (notations) String.

(** A string literal, without its terminator. *)
Definition str (s : String.string) : list Z :=
  map (fun c => Z.of_nat (Ascii.nat_of_ascii c)) (String.list_ascii_of_string s).
Arguments str s%_string_scope.

(** ** The device *)

Definition COM1 : Z := 1016.

Section Uart.
Context {D : Type} `{!PortIO D}.

Definition serial_init (d : D) : D :=
  let d := outb (COM1 + 1) 0 d in
  let d := outb (COM1 + 3) 128 d in
  let d := outb (COM1 + 0) 3 d in
  let d := outb (COM1 + 1) 0 d in
  let d := outb (COM1 + 3) 3 d in
  let d := outb (COM1 + 2) 199 d in
  let d := outb (COM1 + 4) 11 d in
  outb (COM1 + 1) 1 d.

Definition serial_writechar (fuel : nat) (c : Z) (d : D) : option D :=
  d ← poll fuel (COM1 + 5) 32 true d;
  Some (outb COM1 c d).

Fixpoint serial_emit (fuel : nat) (cs : list Z) (d : D) : option D :=
  match cs with
  | [] => Some d
  | c :: cs => d ← serial_writechar fuel c d; serial_emit fuel cs d
  end.

(** [str] is the string from its first character to the end of its array. *)
Fixpoint serial_writestring (fuel : nat) (str : list Z) (d : D) : option D :=
  match str with
  | [] => None
  | c :: str =>
      if c =? 0 then Some d
      else d ← serial_writechar fuel c d; serial_writestring fuel str d
  end.

Definition serial_received (d : D) : Z * D :=
  let '(v, d) := inb (COM1 + 5) d in (Z.land v 32, d).

Fixpoint serial_readchar (fuel : nat) (d : D) : option (Z * D) :=
  match fuel with
  | O => None
  | S fuel =>
      let '(r, d) := serial_received d in
      if r =? 0 then serial_readchar fuel d else Some (inb COM1 d)
  end.
End Uart.

(** ** Numbers *)

(** The digits of a positive [num], least significant first, stored from index
    [i] on. *)
Fixpoint put_digits (fuel : nat) (buf : list Z) (num i : Z) : option (list Z * Z) :=
  match fuel with
  | O => None
  | S fuel =>
      if 0 <? num then
        buf ← zset buf i (48 + Z.rem num 10);
        put_digits fuel buf (Z.quot num 10) (i + 1)
      else Some (buf, i)
  end.

(** An [int] has at most ten digits. *)
Definition digit_fuel : nat := 11.

Definition get_digits (buf : list Z) (num i : Z) : option (list Z * Z) :=
  if num =? 0 then buf ← zset buf i 48; Some (buf, i + 1)
  else
    let is_negative := num <? 0 in
    let num := if is_negative then s32 (- num) else num in
    '(buf, i) ← put_digits digit_fuel buf num i;
    if is_negative then buf ← zset buf i 45; Some (buf, i + 1)
    else Some (buf, i).

(** [while (i--) serial_writechar(buf[i])]. *)
Fixpoint read_back (buf : list Z) (i : nat) : option (list Z) :=
  match i with
  | O => Some []
  | S i => c ← zget buf (Z.of_nat i); r ← read_back buf i; Some (c :: r)
  end.

Definition serial_writeint (num : Z) : option (list Z) :=
  '(buf, i) ← get_digits (replicate 12 0) num 0;
  read_back buf (Z.to_nat i).

Definition hex_chars : list Z := str "0123456789ABCDEF".

Fixpoint hex_loop (num : Z) (shifts : list Z) : option (list Z) :=
  match shifts with
  | [] => Some []
  | i :: shifts =>
      c ← zget hex_chars (Z.land (Z.shiftr num i) 15);
      r ← hex_loop num shifts; Some (c :: r)
  end.

Definition serial_writehex (num : Z) : option (list Z) :=
  r ← hex_loop num [28; 24; 20; 16; 12; 8; 4; 0];
  Some (str "0x" ++ r).

Definition serial_writedec (num : Z) : option (list Z) :=
  if num =? 0 then Some (str "0")
  else
    let sign := if num <? 0 then str "-" else [] in
    let num := if num <? 0 then s32 (- num) else num in
    '(buf, i) ← put_digits digit_fuel (replicate 16 0) num 0;
    r ← read_back buf (Z.to_nat i);
    Some (sign ++ r).

(** ** printk *)

Section Printk.
Context (mem : Z -> option (list Z)).

(** The bytes of the string at an address, up to its terminator. *)
Fixpoint until_nul (s : list Z) : option (list Z) :=
  match s with
  | [] => None
  | c :: s => if c =? 0 then Some [] else r ← until_nul s; Some (c :: r)
  end.

(** [args] is the sequence of 32-bit words of the variable arguments; reading
    past its end is undefined. *)
Definition va_arg (args : list Z) : option (Z * list Z) :=
  match args with [] => None | a :: args => Some (a, args) end.

(** One conversion: the format from the character after [%] on.  Returns the
    characters written, the format from the last character consumed on, and
    the arguments left. *)
Definition printk_conv (f : list Z) (args : list Z) : option (list Z * list Z * list Z) :=
  match f with
  | [] => None
  | k :: f' =>
      if k =? 100 then '(a, args) ← va_arg args; o ← serial_writedec (s32 a); Some (o, f, args)
      else if k =? 117 then '(a, args) ← va_arg args; o ← serial_writedec (s32 a); Some (o, f, args)
      else if k =? 120 then '(a, args) ← va_arg args; o ← serial_writehex a; Some (o, f, args)
      else if k =? 112 then
        '(a, args) ← va_arg args; o ← serial_writehex a; Some (str "0x" ++ o, f, args)
      else if k =? 99 then '(a, args) ← va_arg args; Some ([u8 a], f, args)
      else if k =? 115 then
        '(a, args) ← va_arg args;
        if a =? 0 then Some (str "(null)", f, args)
        else s ← mem a; o ← until_nul s; Some (o, f, args)
      else if k =? 108 then
        match f' with
        | [] => None
        | k2 :: _ =>
            if (k2 =? 100) || (k2 =? 117)
            then '(a, args) ← va_arg args; o ← serial_writedec (s32 a); Some (o, f', args)
            else Some (str "?", f', args)
        end
      else if k =? 37 then Some (str "%", f, args)
      else Some ([37; k], f, args)
  end.

Fixpoint printk_loop (fuel : nat) (f args : list Z) : option (list Z) :=
  match fuel with
  | O => None
  | S fuel =>
      match f with
      | [] => None
      | c :: f' =>
          if c =? 0 then Some []
          else if negb (c =? 37) then r ← printk_loop fuel f' args; Some (c :: r)
          else
            '(o, f'', args) ← printk_conv f' args;
            r ← printk_loop fuel (tail f'') args; Some (o ++ r)
      end
  end.

(** [format] is the terminated format string. *)
Definition printk_chars (format : list Z) (args : list Z) : option (list Z) :=
  printk_loop (S (length format)) format args.

Definition printk {D} `{!PortIO D} (fuel : nat) (format args : list Z) (d : D) : option D :=
  cs ← printk_chars format args; serial_emit fuel cs d.
End Printk.

(** ** Values of printed numbers *)

(** The number a sequence of decimal digits denotes, the first digit being the
    most significant. *)
Definition dec_value (ds : list Z) : Z := fold_left (fun a c => 10 * a + (c - 48)) ds 0.

Definition is_digit (c : Z) : Prop := 48 <= c <= 57.

(** The number a sequence of hexadecimal digits denotes. *)
Definition hex_digit (c : Z) : Z := if c <=? 57 then c - 48 else c - 55.

Definition hex_value (ds : list Z) : Z := fold_left (fun a c => 16 * a + hex_digit c) ds 0.

(** The first [i] entries of a digit buffer, most significant last. *)
Fixpoint low_value (buf : list Z) : Z :=
  match buf with [] => 0 | c :: buf => (c - 48) + 10 * low_value buf end.

Lemma dec_value_app ds c : dec_value (ds ++ [c]) = 10 * dec_value ds + (c - 48).
Proof. unfold dec_value. by rewrite fold_left_app. Qed.

Lemma dec_value_reverse ds : dec_value (reverse ds) = low_value ds.
Proof.
  induction ds as [|c ds IH]; [done|]. rewrite reverse_cons, dec_value_app, IH. simpl. lia.
Qed.

Lemma low_value_app a b : low_value (a ++ b) = low_value a + 10 ^ Z.of_nat (length a) * low_value b.
Proof.
  induction a as [|c a IH]; simpl; [lia|]. rewrite IH.
  replace (Z.of_nat (S (length a))) with (Z.of_nat (length a) + 1) by lia.
  rewrite Z.pow_add_r by lia. lia.
Qed.

Lemma read_back_spec buf i :
  (i <= length buf)%nat -> read_back buf i = Some (reverse (take i buf)).
Proof.
  induction i as [|i IH]; intros Hi; simpl; [done|].
  destruct (lookup_lt_is_Some_2 buf i) as [c Hc]; [lia|].
  unfold zget. destruct (Z.ltb_spec (Z.of_nat i) 0); [lia|]. rewrite Nat2Z.id, Hc. simpl.
  rewrite IH by lia. simpl. by rewrite (take_S_r _ _ c), reverse_app by done.
Qed.

(** The digit loop writes the digits of [num] after the [i] entries already
    there. *)
Lemma put_digits_spec fuel k : forall buf num i,
  0 <= num < 10 ^ Z.of_nat k -> (k < fuel)%nat -> 0 <= i ->
  i + Z.of_nat k <= Z.of_nat (length buf) ->
  exists buf' ds, put_digits fuel buf num i = Some (buf', i + Z.of_nat (length ds)) /\
    length buf' = length buf /\ (length ds <= k)%nat /\
    take (Z.to_nat i + length ds) buf' = take (Z.to_nat i) buf ++ ds /\
    low_value ds = num /\ Forall is_digit ds /\ (0 < num -> last ds ≠ Some 48 /\ ds ≠ []).
Proof.
  revert k. induction fuel as [|fuel IH]; intros k buf num i Hn Hk Hi Hl; [lia|]. simpl.
  destruct (Z.ltb_spec 0 num).
  - destruct k as [|k]; [simpl in Hn; lia|]. rewrite zset_in_range by lia. simpl.
    set (c := 48 + Z.rem num 10).
    assert (num = 10 * (num ÷ 10) + Z.rem num 10 /\ 0 <= Z.rem num 10 < 10) as [Hq Hr]
      by (split; [apply Z.quot_rem'|apply Z.rem_bound_pos; lia]).
    assert (0 <= num ÷ 10) as Hq0 by (apply Z.quot_pos; lia).
    rewrite Nat2Z.inj_succ, Z.pow_succ_r in Hn by lia.
    destruct (IH k (<[Z.to_nat i:=c]> buf) (num ÷ 10) (i + 1))
      as (buf' & ds & E & Hlen & Hdl & Ht & Hv & Hd & Hz); rewrite ?length_insert; try lia.
    exists buf', (c :: ds). rewrite E. split_and!.
    + f_equal. f_equal. simpl. lia.
    + by rewrite Hlen, length_insert.
    + simpl. lia.
    + replace (Z.to_nat i + length (c :: ds))%nat with (Z.to_nat (i + 1) + length ds)%nat by (simpl; lia).
      rewrite Ht. replace (Z.to_nat (i + 1)) with (S (Z.to_nat i)) by lia.
      rewrite (take_S_r _ _ c) by (apply list_lookup_insert_eq; lia).
      rewrite take_insert_ge by lia. by rewrite <- app_assoc.
    + simpl. rewrite Hv. unfold c. lia.
    + constructor; [unfold is_digit, c; lia|done].
    + intros _. split; [|done]. destruct (Z.ltb_spec 0 (num ÷ 10)).
      * destruct Hz as [Hz1 Hz2]; [done|]. destruct ds; [done|]. by rewrite last_cons_cons.
      * assert (num ÷ 10 = 0) as Hq1 by lia. rewrite Hq1 in E.
        destruct ds as [|d ds]; [simpl; intros [= E2]; unfold c in E2; lia|].
        destruct fuel; simpl in E; [done|]. injection E as _ E. simpl in E. lia.
  - exists buf, []. assert (num = 0) as -> by lia. simpl. split_and!; try done; try lia.
    + f_equal. f_equal. lia.
    + by rewrite Nat.add_0_r, app_nil_r.
Qed.

Lemma put_digits_back (n len : nat) num :
  0 < num < 10 ^ Z.of_nat n -> (n < digit_fuel)%nat -> (n <= len)%nat ->
  exists buf ds, put_digits digit_fuel (replicate len 0) num 0 = Some (buf, Z.of_nat (length ds)) /\
    length buf = len /\ (length ds <= n)%nat /\ take (length ds) buf = ds /\
    dec_value (reverse ds) = num /\ Forall is_digit ds /\ last ds ≠ Some 48 /\ ds ≠ [].
Proof.
  intros Hn Hf Hl.
  destruct (put_digits_spec digit_fuel n (replicate len 0) num 0)
    as (buf & ds & E & Hlen & Hdl & Ht & Hv & Hd & Hz);
    rewrite ?length_replicate; [lia|done|lia|lia|].
  rewrite length_replicate in Hlen. simpl in Ht. destruct Hz; [lia|].
  exists buf, ds. rewrite E, dec_value_reverse. done.
Qed.

Lemma s32_neg_range n : - 2 ^ 31 < n < 2 ^ 31 -> s32 (- n) = - n.
Proof. intros. apply s32_small. lia. Qed.

Lemma serial_writedec_spec n :
  - 2 ^ 31 < n < 2 ^ 31 ->
  exists ds, serial_writedec n = Some ((if n <? 0 then str "-" else []) ++ ds) /\
    Forall is_digit ds /\ dec_value ds = Z.abs n /\ ds ≠ [] /\ (n ≠ 0 -> head ds ≠ Some 48).
Proof.
  intros Hn. unfold serial_writedec. destruct (Z.eqb_spec n 0) as [->|Hn0].
  { exists [48]. split_and!; try done. by repeat constructor. }
  rewrite (s32_neg_range n) by lia.
  destruct (put_digits_back 10 16 (if n <? 0 then - n else n))
    as (buf & ds & E & Hl & Hdl & Ht & Hv & Hd & Hz & Hne);
    [destruct (Z.ltb_spec n 0); lia|unfold digit_fuel; lia|lia|].
  rewrite E. simpl. rewrite Nat2Z.id, read_back_spec by lia. simpl. rewrite Ht.
  exists (reverse ds). split_and!; try done.
  - by apply Forall_reverse.
  - rewrite Hv. destruct (Z.ltb_spec n 0); lia.
  - intros Hr. apply Hne. by rewrite <- (reverse_involutive ds), Hr.
  - by rewrite head_reverse.
Qed.

(** [serial_writeint] meets the same specification: digits and sign of an
    [int] fit its buffer of 12. *)
Lemma serial_writeint_spec n :
  - 2 ^ 31 < n < 2 ^ 31 ->
  exists ds, serial_writeint n = Some ((if n <? 0 then str "-" else []) ++ ds) /\
    Forall is_digit ds /\ dec_value ds = Z.abs n /\ ds ≠ [].
Proof.
  intros Hn. unfold serial_writeint, get_digits. destruct (Z.eqb_spec n 0) as [->|Hn0].
  { exists [48]. split_and!; try done. by repeat constructor. }
  rewrite (s32_neg_range n) by lia.
  destruct (put_digits_back 10 12 (if n <? 0 then - n else n))
    as (buf & ds & E & Hl & Hdl & Ht & Hv & Hd & Hz & Hne);
    [destruct (Z.ltb_spec n 0); lia|unfold digit_fuel; lia|lia|].
  rewrite E. cbn [mbind option_bind].
  assert (Forall is_digit (reverse ds) /\ dec_value (reverse ds) = Z.abs n /\ reverse ds ≠ []) as Hok.
  { split_and!; [by apply Forall_reverse|rewrite Hv; destruct (Z.ltb_spec n 0); lia|].
    intros Hr. apply Hne. by rewrite <- (reverse_involutive ds), Hr. }
  exists (reverse ds). split; [|done]. destruct (n <? 0); cbn [mbind option_bind].
  - rewrite zset_in_range by lia. cbn [mbind option_bind].
    rewrite read_back_spec by (rewrite length_insert; lia). f_equal.
    replace (Z.to_nat (Z.of_nat (length ds) + 1)) with (S (length ds)) by lia.
    rewrite Nat2Z.id, (take_S_r _ _ 45) by (apply list_lookup_insert_eq; lia).
    by rewrite take_insert_ge, Ht, reverse_app by lia.
  - rewrite Nat2Z.id, read_back_spec by lia. by rewrite Ht.
Qed.

(** *** Hexadecimal *)

Lemma hex_digit_chars v :
  0 <= v < 16 -> exists c, zget hex_chars v = Some c /\ hex_digit c = v.
Proof.
  revert v. check_range 0 16 ltac:(eexists; split; reflexivity).
Qed.

Lemma hex_loop_spec num k acc :
  0 <= num -> exists ds, hex_loop num (map (fun i => 4 * Z.of_nat i) (rev (seq 0 k))) = Some ds /\
    length ds = k /\
    fold_left (fun a c => 16 * a + hex_digit c) ds acc = acc * 16 ^ Z.of_nat k + num `mod` 16 ^ Z.of_nat k.
Proof.
  intros Hn. revert acc. induction k as [|k IH]; intros acc.
  { exists []. simpl. rewrite Z.mod_1_r. split_and!; [done..|lia]. }
  rewrite seq_S, rev_app_distr. cbn [rev app map hex_loop Nat.add].
  destruct (hex_digit_chars (Z.land (Z.shiftr num (4 * Z.of_nat k)) 15)) as (c & Ec & Hc).
  { rewrite (Z.land_ones _ 4) by lia. apply Z.mod_pos_bound. lia. }
  rewrite Ec. cbn [mbind option_bind]. destruct (IH (16 * acc + hex_digit c)) as (ds & E & Hl & Hv).
  rewrite E. exists (c :: ds). split_and!; [done|simpl; lia|]. cbn [fold_left]. rewrite Hv, Hc.
  rewrite (Z.land_ones _ 4), Z.shiftr_div_pow2 by lia. change (2 ^ 4) with 16.
  rewrite (Z.pow_mul_r 2 4) by lia. change (2 ^ 4) with 16.
  rewrite Nat2Z.inj_succ, Z.pow_succ_r by lia.
  rewrite (Z.mul_comm 16 (16 ^ _)), Z.rem_mul_r by lia. lia.
Qed.

Lemma serial_writehex_spec num :
  0 <= num < 2 ^ 32 ->
  exists ds, serial_writehex num = Some (str "0x" ++ ds) /\ length ds = 8%nat /\ hex_value ds = num.
Proof.
  intros Hn. destruct (hex_loop_spec num 8 0) as (ds & E & Hl & Hv); [lia|].
  unfold serial_writehex. exists ds.
  change [28; 24; 20; 16; 12; 8; 4; 0] with (map (fun i => 4 * Z.of_nat i) (rev (seq 0 8))).
  rewrite E. split_and!; [done..|]. unfold hex_value. rewrite Hv.
  rewrite Z.mod_small; [done|]. change (16 ^ Z.of_nat 8) with (2 ^ 32). lia.
Qed.

(** *** Running a format

    [printk_run f args o]: some amount of fuel formats [f] to [o].  The fuel of
    [printk_chars] is then enough, because every round consumes a character. *)

Section Run.
Context (mem : Z -> option (list Z)).

Definition printk_run (f args o : list Z) : Prop := exists fuel, printk_loop mem fuel f args = Some o.

Lemma printk_conv_shorter f args o f' args' :
  printk_conv mem f args = Some (o, f', args') -> (length f' <= length f)%nat.
Proof.
  unfold printk_conv. destruct f as [|k f]; [done|]. intros E.
  repeat match goal with
  | E : (if ?b then _ else _) = Some _ |- _ => destruct b
  | E : (_ ≫= _) = Some _ |- _ => apply bind_Some in E as (? & _ & E)
  | E : match ?x with _ => _ end = Some _ |- _ => destruct x
  | E : Some _ = Some _ |- _ => injection E as <- <- <-
  end; simpl; try done; lia.
Qed.

Lemma printk_loop_fuel fuel : forall f args o fuel',
  printk_loop mem fuel f args = Some o -> (length f < fuel')%nat ->
  printk_loop mem fuel' f args = Some o.
Proof.
  induction fuel as [|fuel IH]; intros f args o fuel' E Hf; [done|].
  destruct fuel' as [|fuel']; [lia|]. cbn [printk_loop] in *. destruct f as [|c f]; [done|].
  cbn [length] in Hf. destruct (c =? 0); [done|]. destruct (negb (c =? 37)).
  - apply bind_Some in E as (r & E & [= <-]). by rewrite (IH f args r) by (done || lia).
  - apply bind_Some in E as ([[o1 f1] args1] & E1 & E). apply bind_Some in E as (r & E & [= <-]).
    apply printk_conv_shorter in E1 as Hl. rewrite E1. cbn [mbind option_bind].
    rewrite (IH (tail f1) args1 r); [done..|]. destruct f1; simpl in *; lia.
Qed.

Lemma printk_run_chars f args o : printk_run f args o -> printk_chars mem f args = Some o.
Proof. intros [fuel E]. eapply printk_loop_fuel; [done|lia]. Qed.

Lemma run_end r args : printk_run (0 :: r) args [].
Proof. by exists 1%nat. Qed.

Lemma run_lit t f args o :
  Forall (fun c => c ≠ 0 /\ c ≠ 37) t -> printk_run f args o -> printk_run (t ++ f) args (t ++ o).
Proof.
  induction 1 as [|c t [Hc1 Hc2] _ IH]; intros Hr; [done|]. destruct (IH Hr) as [fuel E].
  exists (S fuel). cbn [app printk_loop]. replace (c =? 0) with false by lia.
  replace (c =? 37) with false by lia. cbn. by rewrite E.
Qed.

Lemma run_conv k f args o1 args' o :
  printk_conv mem (k :: f) args = Some (o1, k :: f, args') -> printk_run f args' o ->
  printk_run (37 :: k :: f) args (o1 ++ o).
Proof.
  intros E1 [fuel E]. exists (S fuel). cbn [printk_loop negb Z.eqb Pos.eqb]. rewrite E1.
  cbn [mbind option_bind tail]. by rewrite E.
Qed.

Lemma run_x f a args h o :
  serial_writehex a = Some h -> printk_run f args o -> printk_run (str "%x" ++ f) (a :: args) (h ++ o).
Proof. intros E. apply run_conv. cbn -[serial_writehex]. by rewrite E. Qed.

Lemma run_p f a args h o :
  serial_writehex a = Some h -> printk_run f args o ->
  printk_run (str "%p" ++ f) (a :: args) ((str "0x" ++ h) ++ o).
Proof. intros E. apply run_conv. cbn -[serial_writehex]. by rewrite E. Qed.

Lemma until_nul_app a r : 0 ∉ a -> until_nul (a ++ 0 :: r) = Some a.
Proof.
  induction a as [|c a IH]; intros Ha; [done|]. cbn [app until_nul].
  apply not_elem_of_cons in Ha as [Hc Ha]. replace (c =? 0) with false by lia. by rewrite IH.
Qed.

Lemma run_s f a args s o r :
  mem a = Some (s ++ 0 :: r) -> a ≠ 0 -> 0 ∉ s -> printk_run f args o ->
  printk_run (str "%s" ++ f) (a :: args) (s ++ o).
Proof.
  intros Hm Ha Hs. apply run_conv. cbn -[until_nul]. replace (a =? 0) with false by lia.
  rewrite Hm. cbn -[until_nul]. by rewrite until_nul_app.
Qed.
End Run.

(** *** The UART *)

(** What the driver relies on: a transmitter that is busy gets ready after
    finitely many polls of the line status register, polling sends nothing,
    and a byte written to the data port of a ready transmitter is sent. *)
Class Uart (D : Type) `{!PortIO D} := {
  uart_ok : D -> Prop;
  thr_busy : D -> nat;
  uart_sent : D -> list Z;
  thr_bound : nat;
  thr_busy_bound d : uart_ok d -> (thr_busy d <= thr_bound)%nat;
  lsr_poll d : uart_ok d -> let '(v, d') := inb (COM1 + 5) d in
    uart_ok d' /\ uart_sent d' = uart_sent d /\
    if (thr_busy d =? 0)%nat then has_flag v 32 = true /\ thr_busy d' = 0%nat
    else has_flag v 32 = false /\ (thr_busy d' < thr_busy d)%nat;
  thr_write d c : uart_ok d -> thr_busy d = 0%nat ->
    uart_ok (outb COM1 c d) /\ uart_sent (outb COM1 c d) = uart_sent d ++ [c]
}.

Section UartSpec.
Context {D : Type} `{!PortIO D, !Uart D}.

Lemma thr_wait fuel d :
  uart_ok d -> (thr_busy d < fuel)%nat ->
  exists d', poll fuel (COM1 + 5) 32 true d = Some d' /\ uart_ok d' /\ thr_busy d' = 0%nat /\
    uart_sent d' = uart_sent d.
Proof.
  revert d. induction fuel as [|fuel IH]; intros d Hok Hf; [lia|]. cbn [poll].
  pose proof (lsr_poll d Hok) as Hp. destruct (inb (COM1 + 5) d) as [v d'].
  destruct Hp as (Hok' & Hs & Hv). destruct (Nat.eqb_spec (thr_busy d) 0); destruct Hv as [-> Hb]; cbn.
  - by exists d'.
  - destruct (IH d') as (d2 & E & Hok2 & Hb2 & Hs2); [done|lia|]. exists d2. by rewrite Hs2.
Qed.

Lemma serial_writechar_spec fuel c d :
  uart_ok d -> (thr_bound < fuel)%nat ->
  exists d', serial_writechar fuel c d = Some d' /\ uart_ok d' /\ uart_sent d' = uart_sent d ++ [c].
Proof.
  intros Hok Hf. pose proof (thr_busy_bound d Hok).
  destruct (thr_wait fuel d) as (d' & E & Hok' & Hb & Hs); [done|lia|].
  unfold serial_writechar. rewrite E. cbn. destruct (thr_write d' c) as [? Hw]; [done..|].
  eexists. split; [done|]. split; [done|]. by rewrite Hw, Hs.
Qed.

Lemma serial_emit_spec fuel cs d :
  uart_ok d -> (thr_bound < fuel)%nat ->
  exists d', serial_emit fuel cs d = Some d' /\ uart_ok d' /\ uart_sent d' = uart_sent d ++ cs.
Proof.
  intros Hok Hf. revert d Hok. induction cs as [|c cs IH]; intros d Hok; cbn [serial_emit].
  { exists d. by rewrite app_nil_r. }
  destruct (serial_writechar_spec fuel c d) as (d1 & -> & Hok1 & Hs1); [done..|]. cbn [mbind option_bind].
  destruct (IH d1) as (d2 & -> & Hok2 & Hs2); [done|]. exists d2.
  rewrite Hs2, Hs1, <- app_assoc. done.
Qed.
End UartSpec.

(** A transmitter that needs two polls after every byte. *)
Record sim_uart := mk_sim_uart { sim_busy : nat; sim_sent : list Z }.

#[export] Instance sim_uart_ports : PortIO sim_uart := {
  inb p d := if p =? COM1 + 5
             then match sim_busy d with
                  | O => (96, d)
                  | S n => (0, mk_sim_uart n (sim_sent d))
                  end
             else (0, d);
  outb p v d := if p =? COM1 then mk_sim_uart 2 (sim_sent d ++ [v]) else d
}.

#[export] Program Instance sim_uart_ok : Uart sim_uart := {
  uart_ok d := (sim_busy d <= 2)%nat;
  thr_busy := sim_busy;
  uart_sent := sim_sent;
  thr_bound := 2
}.
Next Obligation. done. Qed.
Next Obligation.
  intros [b s] H. simpl in *. destruct b as [|b]; simpl; split_and!; try done; lia.
Qed.
Next Obligation. done. Qed.

(** ** Correctness *)

(** [serial_writedec] of any [int] but the least prints a sign exactly for
    negative numbers, then a non-empty decimal notation without leading zero
    that reads back as the absolute value; its buffer of 16 never overflows. *)
Theorem serial_writedec_roundtrip n :
  - 2 ^ 31 < n < 2 ^ 31 ->
  exists ds, serial_writedec n = Some ((if n <? 0 then str "-" else []) ++ ds) /\
    Forall is_digit ds /\ dec_value ds = Z.abs n /\ ds ≠ [] /\ (n ≠ 0 -> head ds ≠ Some 48).
Proof. apply serial_writedec_spec. Qed.

Lemma serial_writedec_roundtrip_witness :
  exists ds, serial_writedec (-1207) = Some (str "-" ++ ds) /\
    Forall is_digit ds /\ dec_value ds = 1207 /\ ds ≠ [] /\ (-1207 ≠ 0 -> head ds ≠ Some 48).
Proof. apply (serial_writedec_roundtrip (-1207)). lia. Defined.

(** [%u] goes through the signed routine and the least [int] loses its digits. *)
Lemma printk_unsigned_defect :
  printk_chars (fun _ => None) (str "%u" ++ [0]) [2 ^ 32 - 1] = Some (str "-1") /\
  printk_chars (fun _ => None) (str "%u" ++ [0]) [2 ^ 31] = Some (str "-").
Proof. split; vm_compute; reflexivity. Qed.

(** [%p] prints its prefix twice, and a field width is not understood. *)
Lemma printk_pointer_defect :
  printk_chars (fun _ => None) (str "%p" ++ [0]) [4096] = Some (str "0x0x00001000") /\
  printk_chars (fun _ => None) (str "%8x" ++ [0]) [4096] = Some (str "%8x").
Proof. split; vm_compute; reflexivity. Qed.

(** A [printk] whose conversions are all defined sends exactly the
    formatted characters, in order and nothing else, through any UART that
    gets ready after finitely many polls. *)
Theorem printk_sends {D} `{!PortIO D, !Uart D} mem fuel format args cs (d : D) :
  printk_chars mem format args = Some cs -> uart_ok d -> (thr_bound < fuel)%nat ->
  exists d', printk mem fuel format args d = Some d' /\ uart_ok d' /\ uart_sent d' = uart_sent d ++ cs.
Proof.
  intros Hc Hok Hf. unfold printk. rewrite Hc. by apply serial_emit_spec.
Qed.

Lemma printk_sends_witness :
  exists d', printk (fun _ => Some (str "ab" ++ [0])) 3 (str "%s=%d" ++ [10; 0]) [4096; 7] (mk_sim_uart 1 [])
    = Some d' /\ uart_ok d' /\ uart_sent d' = uart_sent (mk_sim_uart 1 []) ++ (str "ab=7" ++ [10]).
Proof.
  apply (printk_sends (fun _ => Some (str "ab" ++ [0])) 3 (str "%s=%d" ++ [10; 0]) [4096; 7]
           (str "ab=7" ++ [10]) (mk_sim_uart 1 [])).
  - vm_compute. reflexivity.
  - simpl. lia.
  - simpl. lia.
Defined.
