(* ===== verification/Devices.v ===== *)
(** * Interrupt controller, timer, clock and descriptor tables
    (kernel/idt/pic/pic.c, drivers/pit/pit.c, kernel/time.c, kernel/gdt/gdt.c,
    kernel/idt/idt.c)

    The chips are reached through the port interface; the descriptor tables
    are arrays of records with the bit layout the processor prescribes. *)

From S2P Require Export Serial.

(** ** The 8259 interrupt controllers *)

Module Pic.
Definition PIC_EOI : Z := 32.
Definition PIC1_COMMAND : Z := 32.
Definition PIC1_DATA : Z := 33.
Definition PIC2_COMMAND : Z := 160.
Definition PIC2_DATA : Z := 161.
Definition ICW1_ICW4 : Z := 1.
Definition ICW1_INIT : Z := 16.
Definition ICW4_8086 : Z := 1.
Definition PIC_READ_IRR : Z := 10.
Definition PIC_READ_ISR : Z := 11.

Section Driver.
Context {D : Type} `{!PortIO D}.

Definition IRQ_port (IRQline : Z) : Z * Z :=
  if IRQline <? 8 then (PIC1_DATA, IRQline) else (PIC2_DATA, u8 (IRQline - 8)).

Definition IRQ_set_mask (IRQline : Z) (d : D) : D :=
  let '(port, line) := IRQ_port IRQline in
  let '(v, d) := inb port d in
  outb port (u8 (Z.lor v (Z.shiftl 1 line))) d.

Definition IRQ_clear_mask (IRQline : Z) (d : D) : D :=
  let '(port, line) := IRQ_port IRQline in
  let '(v, d) := inb port d in
  outb port (u8 (Z.land v (Z.lnot (Z.shiftl 1 line)))) d.

Definition remap_pic (offset1 offset2 : Z) (d : D) : D :=
  let d := io_wait (outb PIC1_COMMAND (Z.lor ICW1_INIT ICW1_ICW4) d) in
  let d := io_wait (outb PIC2_COMMAND (Z.lor ICW1_INIT ICW1_ICW4) d) in
  let d := io_wait (outb PIC1_DATA (u8 offset1) d) in
  let d := io_wait (outb PIC2_DATA (u8 offset2) d) in
  let d := io_wait (outb PIC1_DATA 4 d) in
  let d := io_wait (outb PIC2_DATA 2 d) in
  let d := io_wait (outb PIC1_DATA ICW4_8086 d) in
  let d := io_wait (outb PIC2_DATA ICW4_8086 d) in
  let d := outb PIC1_DATA 255 d in
  let d := outb PIC2_DATA 255 d in
  let d := IRQ_clear_mask 0 d in
  let d := IRQ_clear_mask 1 d in
  let d := IRQ_clear_mask 2 d in
  IRQ_clear_mask 4 d.

Definition send_EOI (irq : Z) (d : D) : D :=
  let d := if 8 <=? irq then outb PIC2_COMMAND PIC_EOI d else d in
  outb PIC1_COMMAND PIC_EOI d.

Definition pic_get_irq_reg (ocw3 : Z) (d : D) : Z * D :=
  let d := outb PIC1_COMMAND (u8 ocw3) d in
  let d := outb PIC2_COMMAND (u8 ocw3) d in
  let '(hi, d) := inb PIC2_COMMAND d in
  let '(lo, d) := inb PIC1_COMMAND d in
  (u16 (Z.lor (Z.shiftl hi 8) lo), d).

Definition pic_get_irr : D -> Z * D := pic_get_irq_reg PIC_READ_IRR.
Definition pic_get_isr : D -> Z * D := pic_get_irq_reg PIC_READ_ISR.
End Driver.

(** *** What the driver relies on

    The documented programming model of one controller: an initialisation
    word makes it expect three more words on the data port (vector, cascade,
    mode); after them the data port is the mask register. *)

Record pic_view := mk_pic { pv_stage : Z; pv_vector : Z; pv_imr : Z; pv_eoi : Z }.

Definition pic_command (v : Z) (p : pic_view) : pic_view :=
  if has_flag v ICW1_INIT then mk_pic 3 (pv_vector p) (pv_imr p) (pv_eoi p)
  else if v =? PIC_EOI then mk_pic (pv_stage p) (pv_vector p) (pv_imr p) (pv_eoi p + 1)
  else p.

Definition pic_data (v : Z) (p : pic_view) : pic_view :=
  if pv_stage p =? 0 then mk_pic 0 (pv_vector p) v (pv_eoi p)
  else if pv_stage p =? 3 then mk_pic 2 v (pv_imr p) (pv_eoi p)
  else mk_pic (pv_stage p - 1) (pv_vector p) (pv_imr p) (pv_eoi p).

(** The write of [v] to [port], as the master ([false]) or the slave sees it. *)
Definition pic_out (slave : bool) (port v : Z) (p : pic_view) : pic_view :=
  if port =? (if slave then PIC2_COMMAND else PIC1_COMMAND) then pic_command v p
  else if port =? (if slave then PIC2_DATA else PIC1_DATA) then pic_data v p
  else p.

Class Pic8259 (D : Type) `{!PortIO D} := {
  pic : bool -> D -> pic_view;
  pic_outb slave port v d : pic slave (outb port v d) = pic_out slave port v (pic slave d);
  pic_inb slave port d : pic slave (inb port d).2 = pic slave d;
  pic_read slave d : pv_stage (pic slave d) = 0 ->
    (inb (if slave then PIC2_DATA else PIC1_DATA) d).1 = pv_imr (pic slave d)
}.

Section DriverSpec.
Context {D : Type} `{!PortIO D, !Pic8259 D}.

(** The masks of both controllers as one 16-bit word. *)
Definition irq_masked (d : D) (irq : Z) : bool :=
  if irq <? 8 then Z.testbit (pv_imr (pic false d)) irq else Z.testbit (pv_imr (pic true d)) (irq - 8).

Definition pic_ready (d : D) : Prop := pv_stage (pic false d) = 0 /\ pv_stage (pic true d) = 0.

Lemma testbit_u8 x i : 0 <= i < 8 -> Z.testbit (u8 x) i = Z.testbit x i.
Proof.
  intros. unfold u8. destruct (Z_lt_le_dec i 8); [|lia]. by rewrite Z.mod_pow2_bits_low by lia.
Qed.

Lemma testbit_set x i j :
  0 <= i < 8 -> 0 <= j < 8 -> Z.testbit (u8 (Z.lor x (Z.shiftl 1 i))) j = bool_decide (i = j) || Z.testbit x j.
Proof.
  intros. rewrite testbit_u8, Z.lor_spec, Z.shiftl_1_l, Z.pow2_bits_eqb, orb_comm by lia. f_equal.
  destruct (Z.eqb_spec i j); [rewrite bool_decide_true|rewrite bool_decide_false]; done.
Qed.

Lemma testbit_clear x i j :
  0 <= i < 8 -> 0 <= j < 8 ->
  Z.testbit (u8 (Z.land x (Z.lnot (Z.shiftl 1 i)))) j = negb (bool_decide (i = j)) && Z.testbit x j.
Proof.
  intros. rewrite testbit_u8, Z.land_spec, Z.lnot_spec, Z.shiftl_1_l, Z.pow2_bits_eqb, andb_comm by lia.
  f_equal. destruct (Z.eqb_spec i j); [rewrite bool_decide_true|rewrite bool_decide_false]; done.
Qed.

Lemma pic_out_data_ready slave v p :
  pv_stage p = 0 ->
  pic_out slave (if slave then PIC2_DATA else PIC1_DATA) v p = mk_pic 0 (pv_vector p) v (pv_eoi p).
Proof. intros Hs. destruct slave; unfold pic_out; simpl; unfold pic_data; by rewrite Hs. Qed.

Lemma pic_out_data_other slave v p :
  pic_out (negb slave) (if slave then PIC2_DATA else PIC1_DATA) v p = p.
Proof. by destruct slave. Qed.

Lemma IRQ_port_spec irq :
  0 <= irq < 16 ->
  IRQ_port irq = (if 8 <=? irq then PIC2_DATA else PIC1_DATA, if 8 <=? irq then irq - 8 else irq).
Proof.
  intros. unfold IRQ_port. destruct (Z.ltb_spec irq 8), (Z.leb_spec 8 irq); try lia; [done|].
  by rewrite u8_small by lia.
Qed.

(** One read-modify-write of the mask register that holds the line. *)
Lemma mask_update (f : Z -> Z -> Z) (g : bool -> bool -> bool) irq d :
  (forall x i j, 0 <= i < 8 -> 0 <= j < 8 -> Z.testbit (f x i) j = g (bool_decide (i = j)) (Z.testbit x j)) ->
  (forall b, g false b = b) ->
  pic_ready d -> 0 <= irq < 16 ->
  let d' := (let '(port, line) := IRQ_port irq in let '(v, d) := inb port d in outb port (f v line) d) in
  pic_ready d' /\
  (forall j, 0 <= j < 16 -> irq_masked d' j = g (bool_decide (irq = j)) (irq_masked d j)) /\
  (forall s, pv_vector (pic s d') = pv_vector (pic s d) /\ pv_eoi (pic s d') = pv_eoi (pic s d)).
Proof.
  intros Hf Hg [Hr1 Hr2] Hi. rewrite IRQ_port_spec by done. cbv zeta.
  set (sl := 8 <=? irq). set (p := if sl then PIC2_DATA else PIC1_DATA).
  set (line := if sl then irq - 8 else irq).
  assert (pv_stage (pic sl d) = 0) as Hr by (by destruct sl).
  pose proof (pic_read sl d Hr) as Hv. pose proof (pic_inb sl p d) as Hin.
  pose proof (pic_inb (negb sl) p d) as Hin'.
  destruct (inb p d) as [v d1] eqn:E. unfold p in *. rewrite E in Hv. cbn [fst snd] in Hv, Hin, Hin'.
  assert (pic sl (outb p (f v line) d1) = mk_pic 0 (pv_vector (pic sl d)) (f v line) (pv_eoi (pic sl d))) as Hs.
  { unfold p. rewrite pic_outb, Hin. by apply pic_out_data_ready. }
  assert (pic (negb sl) (outb p (f v line) d1) = pic (negb sl) d) as Hn.
  { unfold p. by rewrite pic_outb, pic_out_data_other, Hin'. }
  fold p. clear Hin Hin' E.
  unfold pic_ready, irq_masked. destruct sl eqn:Esl; unfold sl in Esl; simpl negb in Hn.
  - apply Z.leb_le in Esl. rewrite Hn, Hs. cbn. split_and!; [done..| |].
    + intros j Hj. destruct (Z.ltb_spec j 8).
      * by rewrite bool_decide_false, Hg by lia.
      * rewrite Hf, Hv by (unfold line; lia). f_equal. apply bool_decide_ext. unfold line. lia.
    + intros []; rewrite ?Hn, ?Hs; done.
  - apply Z.leb_gt in Esl. rewrite Hn, Hs. cbn. split_and!; [done..| |].
    + intros j Hj. destruct (Z.ltb_spec j 8).
      * by rewrite Hf, Hv by (unfold line; lia).
      * by rewrite bool_decide_false, Hg by lia.
    + intros []; rewrite ?Hn, ?Hs; done.
Qed.

Lemma IRQ_clear_mask_spec irq d :
  pic_ready d -> 0 <= irq < 16 ->
  pic_ready (IRQ_clear_mask irq d) /\
  (forall j, 0 <= j < 16 -> irq_masked (IRQ_clear_mask irq d) j = negb (bool_decide (irq = j)) && irq_masked d j) /\
  (forall s, pv_vector (pic s (IRQ_clear_mask irq d)) = pv_vector (pic s d) /\
             pv_eoi (pic s (IRQ_clear_mask irq d)) = pv_eoi (pic s d)).
Proof.
  apply (mask_update (fun x i => u8 (Z.land x (Z.lnot (Z.shiftl 1 i)))) (fun a b => negb a && b)).
  - intros. by apply testbit_clear.
  - done.
Qed.

Lemma IRQ_set_mask_spec irq d :
  pic_ready d -> 0 <= irq < 16 ->
  pic_ready (IRQ_set_mask irq d) /\
  (forall j, 0 <= j < 16 -> irq_masked (IRQ_set_mask irq d) j = bool_decide (irq = j) || irq_masked d j) /\
  (forall s, pv_vector (pic s (IRQ_set_mask irq d)) = pv_vector (pic s d) /\
             pv_eoi (pic s (IRQ_set_mask irq d)) = pv_eoi (pic s d)).
Proof.
  apply (mask_update (fun x i => u8 (Z.lor x (Z.shiftl 1 i))) (fun a b => a || b)).
  - intros. by apply testbit_set.
  - done.
Qed.

(** The state [remap_pic] has reached before it unmasks any line. *)
Lemma remap_pic_init o1 o2 d :
  exists d0, remap_pic o1 o2 d = IRQ_clear_mask 4 (IRQ_clear_mask 2 (IRQ_clear_mask 1 (IRQ_clear_mask 0 d0))) /\
    forall s, pic s d0 = mk_pic 0 (u8 (if s then o2 else o1)) 255 (pv_eoi (pic s d)).
Proof.
  eexists. split; [reflexivity|]. intros s. unfold io_wait. rewrite !pic_outb.
  by destruct s.
Qed.
End DriverSpec.

(** Two controllers on their own. *)
Record sim_pics := mk_sim_pics { sim_pic : bool -> pic_view }.

#[export] Instance sim_pics_ports : PortIO sim_pics := {
  inb p d := (if p =? PIC1_DATA then pv_imr (sim_pic d false)
              else if p =? PIC2_DATA then pv_imr (sim_pic d true) else 0, d);
  outb p v d := mk_sim_pics (fun s => pic_out s p v (sim_pic d s))
}.

#[export] Instance sim_pics_ok : Pic8259 sim_pics.
Proof.
  refine {| pic s d := sim_pic d s |}; [done..|]. by intros [].
Defined.

(** Whatever the controllers did before, after [remap_pic] both are
    initialised with the requested vector offsets, and exactly the lines 0
    (timer), 1 (keyboard), 2 (cascade) and 4 (serial) are unmasked. *)
Theorem remap_pic_correct {D} `{!PortIO D, !Pic8259 D} o1 o2 (d : D) :
  pic_ready (remap_pic o1 o2 d) /\
  pv_vector (pic false (remap_pic o1 o2 d)) = u8 o1 /\
  pv_vector (pic true (remap_pic o1 o2 d)) = u8 o2 /\
  forall j, 0 <= j < 16 -> irq_masked (remap_pic o1 o2 d) j = negb (bool_decide (j ∈ [0; 1; 2; 4])).
Proof.
  destruct (remap_pic_init o1 o2 d) as (d0 & -> & H0).
  assert (pic_ready d0) as R0 by (by split; rewrite H0).
  destruct (IRQ_clear_mask_spec 0 d0 R0) as (R1 & M1 & V1); [lia|].
  destruct (IRQ_clear_mask_spec 1 _ R1) as (R2 & M2 & V2); [lia|].
  destruct (IRQ_clear_mask_spec 2 _ R2) as (R3 & M3 & V3); [lia|].
  destruct (IRQ_clear_mask_spec 4 _ R3) as (R4 & M4 & V4); [lia|].
  split_and!; [done|by rewrite (proj1 (V4 _)), (proj1 (V3 _)), (proj1 (V2 _)), (proj1 (V1 _)), H0..|].
  intros j Hj. rewrite M4, M3, M2, M1 by done.
  unfold irq_masked. rewrite !H0. cbn [pv_imr]. revert j Hj. check_range 0 16 ltac:(reflexivity).
Qed.

(** End of interrupt: the master is always acknowledged, the slave exactly for
    the lines behind it. *)
Lemma send_EOI_spec {D} `{!PortIO D, !Pic8259 D} irq (d : D) :
  pv_eoi (pic false (send_EOI irq d)) = pv_eoi (pic false d) + 1 /\
  pv_eoi (pic true (send_EOI irq d)) = pv_eoi (pic true d) + (if 8 <=? irq then 1 else 0).
Proof.
  unfold send_EOI. destruct (8 <=? irq); rewrite !pic_outb; cbn; split; done || lia.
Qed.
End Pic.

(** ** The interval timer *)

Module Pit.
Definition PIT_COMMAND_REG : Z := 67.
Definition PIT_CHANNEL_0_DATA_REG : Z := 64.

Definition timer_divisor (frequency : Z) : Z := u16 (Z.quot 1193180 frequency).

Definition timer_command : Z :=
  u8 (Z.lor (Z.lor (Z.lor (Z.shiftl 0 6) (Z.shiftl 3 4)) (Z.shiftl 2 1)) 0).

(** A division by zero traps. *)
Definition init_timer {D} `{!PortIO D} (frequency : Z) (d : D) : option D :=
  if frequency =? 0 then None
  else
    let divisor := timer_divisor frequency in
    let d := outb PIT_COMMAND_REG timer_command d in
    let d := io_wait d in
    let d := outb PIT_CHANNEL_0_DATA_REG (Z.land divisor 255) d in
    Some (outb PIT_CHANNEL_0_DATA_REG (Z.land (Z.shiftr divisor 8) 255) d).

(** A log of port writes, newest first. *)
#[export] Instance log_ports : PortIO (list (Z * Z)) := { inb p d := (0, d); outb p v d := (p, v) :: d }.

(** The two data bytes make up the divisor of the wanted frequency, unless it
    is below 19 Hz, where the divisor does not fit its 16 bits. *)
Lemma init_timer_divisor f log :
  19 <= f <= 1193180 ->
  exists lo hi, init_timer f log = Some ((PIT_CHANNEL_0_DATA_REG, hi) :: (PIT_CHANNEL_0_DATA_REG, lo)
      :: (128, 0) :: (PIT_COMMAND_REG, 52) :: log) /\
    lo + 256 * hi = 1193180 `div` f /\ 0 < lo + 256 * hi.
Proof.
  intros Hf. unfold init_timer. destruct (Z.eqb_spec f 0); [lia|]. do 2 eexists. split; [done|].
  unfold timer_divisor. rewrite Z.quot_div_nonneg by lia.
  assert (1 <= 1193180 `div` f < 62800).
  { split; [apply Z.div_le_lower_bound; lia|]. apply Z.div_lt_upper_bound; lia. }
  rewrite u16_small by lia. set (q := 1193180 `div` f) in *.
  rewrite !(Z.land_ones _ 8), Z.shiftr_div_pow2 by lia. change (2 ^ 8) with 256.
  rewrite (Z.mod_small (q `div` 256)) by (split; [apply Z.div_pos; lia|apply Z.div_lt_upper_bound; lia]).
  pose proof (Z.div_mod q 256). lia.
Qed.
End Pit.

(** ** The real-time clock *)

Module Clock.
Record tm := mk_tm { tm_sec : Z; tm_min : Z; tm_hour : Z; tm_mday : Z; tm_mon : Z; tm_year : Z }.

Definition MINUTE : Z := 60.
Definition HOUR : Z := 60 * MINUTE.
Definition DAY : Z := 24 * HOUR.
Definition YEAR : Z := 365 * DAY.

Definition month : list Z :=
  [0; DAY * 31; DAY * (31 + 29); DAY * (31 + 29 + 31); DAY * (31 + 29 + 31 + 30);
   DAY * (31 + 29 + 31 + 30 + 31); DAY * (31 + 29 + 31 + 30 + 31 + 30);
   DAY * (31 + 29 + 31 + 30 + 31 + 30 + 31); DAY * (31 + 29 + 31 + 30 + 31 + 30 + 31 + 31);
   DAY * (31 + 29 + 31 + 30 + 31 + 30 + 31 + 31 + 30);
   DAY * (31 + 29 + 31 + 30 + 31 + 30 + 31 + 31 + 30 + 31);
   DAY * (31 + 29 + 31 + 30 + 31 + 30 + 31 + 31 + 30 + 31 + 30)].

(** Signed arithmetic that leaves the 32 bits is undefined. *)
Definition ck32 (z : Z) : option Z := if (- 2 ^ 31 <=? z) && (z <? 2 ^ 31) then Some z else None.

Definition kernel_mktime (t : tm) : option Z :=
  year ← ck32 (tm_year t - 70);
  a ← ck32 (YEAR * year);
  y1 ← ck32 (year + 1);
  b ← ck32 (DAY * Z.quot y1 4);
  res ← ck32 (a + b);
  m ← zget month (tm_mon t);
  res ← ck32 (res + m);
  res ← (if 1 <? tm_mon t then y2 ← ck32 (year + 2); if negb (Z.rem y2 4 =? 0) then ck32 (res - DAY) else Some res else Some res);
  d ← ck32 (DAY * (tm_mday t - 1));
  res ← ck32 (res + d);
  h ← ck32 (HOUR * tm_hour t);
  res ← ck32 (res + h);
  mi ← ck32 (MINUTE * tm_min t);
  res ← ck32 (res + mi);
  ck32 (res + tm_sec t).

Definition BCD_TO_BIN (v : Z) : Z := Z.land v 15 + Z.shiftr v 4 * 10.

Section Cmos.
Context {D : Type} `{!PortIO D}.

(** The macro passes the index as the port and the port as the value. *)
Definition CMOS_READ (addr : Z) (d : D) : Z * D := inb 113 (outb (Z.lor 128 addr) 112 d).

Fixpoint read_clock (fuel : nat) (d : D) : option (tm * D) :=
  match fuel with
  | O => None
  | S fuel =>
      let '(s, d) := CMOS_READ 0 d in
      let '(mi, d) := CMOS_READ 2 d in
      let '(h, d) := CMOS_READ 4 d in
      let '(md, d) := CMOS_READ 7 d in
      let '(mo, d) := CMOS_READ 8 d in
      let '(y, d) := CMOS_READ 9 d in
      let '(s2, d) := CMOS_READ 0 d in
      if s =? s2 then Some (mk_tm s mi h md (mo - 1) y, d) else read_clock fuel d
  end.

Definition time_init (fuel : nat) (d : D) : option (tm * D) :=
  '(t, d) ← read_clock fuel d;
  Some (mk_tm (BCD_TO_BIN (tm_sec t)) (BCD_TO_BIN (tm_min t)) (BCD_TO_BIN (tm_hour t))
              (BCD_TO_BIN (tm_mday t)) (BCD_TO_BIN (tm_mon t)) (BCD_TO_BIN (tm_year t)), d).

(** A clock chip whose index register only port 0x70 sets delivers the same
    register for every field. *)
Lemma CMOS_READ_index (idx : D -> Z) (reg : Z -> Z) addr d :
  (forall p v d, p ≠ 112 -> idx (outb p v d) = idx d) ->
  (forall d, inb 113 d = (reg (idx d), d)) ->
  0 <= addr < 16 ->
  (CMOS_READ addr d).1 = reg (idx d) /\ idx (CMOS_READ addr d).2 = idx d.
Proof.
  intros Hidx Hin Ha. unfold CMOS_READ. rewrite Hin. simpl. rewrite Hidx; [done|].
  revert addr Ha. check_range 0 16 ltac:(vm_compute; lia).
Qed.
End Cmos.

(** October, read as 0x10, becomes month 15. *)
Lemma october_month : BCD_TO_BIN (16 - 1) = 15.
Proof. reflexivity. Qed.

(** *** The calendar the conversion is meant to follow *)

Definition leap (y : Z) : bool := (y `mod` 4 =? 0) && (negb (y `mod` 100 =? 0) || (y `mod` 400 =? 0)).

Definition month_days (y m : Z) : Z :=
  if m =? 1 then (if leap y then 29 else 28)
  else if (m =? 3) || (m =? 5) || (m =? 8) || (m =? 10) then 30 else 31.

Definition sum_range (f : Z -> Z) (lo n : Z) : Z := foldr (fun k a => f k + a) 0 (seqZ lo n).

(** Days from 1970-01-01 to the first day of month [m] (0 for January). *)
Definition days_before (y m : Z) : Z :=
  sum_range (fun k => if leap k then 366 else 365) 1970 (y - 1970) + sum_range (month_days y) 0 m.

(** The day count of the conversion, checked for every month up to 2037. *)
Definition mktime_days (y m : Z) : Z :=
  365 * (y - 1970) + Z.quot (y - 1970 + 1) 4 + nth (Z.to_nat m) month 0 `div` DAY
  - (if (1 <? m) && negb (Z.rem (y - 1970 + 2) 4 =? 0) then 1 else 0).

Lemma mktime_days_ok y m : 1970 <= y < 2038 -> 0 <= m < 12 -> mktime_days y m = days_before y m.
Proof.
  intros Hy Hm.
  assert (forallb (fun y => forallb (fun m => mktime_days y m =? days_before y m) (seqZ 0 12)) (seqZ 1970 68)
          = true) as H by (vm_compute; reflexivity).
  rewrite forallb_forall in H. specialize (H y). rewrite forallb_forall in H.
  apply Z.eqb_eq, H; apply list_elem_of_In, elem_of_seqZ; lia.
Qed.

Lemma month_lookup m : 0 <= m < 12 -> zget month m = Some (DAY * (nth (Z.to_nat m) month 0 `div` DAY)).
Proof. revert m. check_range 0 12 ltac:(reflexivity). Qed.

Lemma ck32_in z : - 2 ^ 31 <= z < 2 ^ 31 -> ck32 z = Some z.
Proof. intros Hz. unfold ck32. by rewrite (proj2 (Z.leb_le _ _)), (proj2 (Z.ltb_lt _ _)) by lia. Qed.

Lemma month_bound m : 0 <= m < 12 -> 0 <= nth (Z.to_nat m) month 0 `div` DAY <= 335.
Proof. revert m. check_range 0 12 ltac:(vm_compute; split; discriminate). Qed.

(** C19: for every date from 1970 to 2037, [kernel_mktime] computes the seconds
    since 1970-01-01 of the Gregorian calendar: the leap-year corrections of
    its table are right and no signed operation overflows, which would be
    undefined. *)
Theorem kernel_mktime_correct t :
  70 <= tm_year t <= 137 -> 0 <= tm_mon t < 12 -> 1 <= tm_mday t <= 31 ->
  0 <= tm_hour t < 24 -> 0 <= tm_min t < 60 -> 0 <= tm_sec t < 60 ->
  kernel_mktime t = Some (86400 * (days_before (1900 + tm_year t) (tm_mon t) + (tm_mday t - 1))
                          + 3600 * tm_hour t + 60 * tm_min t + tm_sec t).
Proof.
  destruct t as [sec mi h md mo y]. cbn [tm_sec tm_min tm_hour tm_mday tm_mon tm_year].
  intros Hy Hmo Hmd Hh Hmi Hs. unfold kernel_mktime. cbn [tm_sec tm_min tm_hour tm_mday tm_mon tm_year].
  rewrite month_lookup by done. pose proof (month_bound mo Hmo) as Hm.
  pose proof (mktime_days_ok (1900 + y) mo ltac:(lia) Hmo) as Hd. rewrite <- Hd. clear Hd.
  unfold mktime_days. replace (1900 + y - 1970) with (y - 70) by lia.
  set (M := nth (Z.to_nat mo) month 0 `div` DAY) in *. set (Q := Z.quot (y - 70 + 1) 4).
  assert (0 <= Q <= 17) as HQ.
  { unfold Q. split; [apply Z.quot_pos; lia|]. rewrite Z.quot_div_nonneg by lia. apply Z.div_le_upper_bound; lia. }
  unfold YEAR, DAY, HOUR, MINUTE in *.
  repeat (rewrite ck32_in by lia; cbn [mbind option_bind]). fold Q. repeat (rewrite ck32_in by lia; cbn [mbind option_bind]).
  destruct (1 <? mo); cbn [andb]; [destruct (negb _)|]; cbn [mbind option_bind];
    repeat (rewrite ck32_in by lia; cbn [mbind option_bind]); f_equal; lia.
Qed.

Lemma kernel_mktime_correct_witness :
  kernel_mktime (mk_tm 0 30 12 29 1 104)
  = Some (86400 * (days_before (1900 + 104) 1 + (29 - 1)) + 3600 * 12 + 60 * 30 + 0).
Proof. apply (kernel_mktime_correct (mk_tm 0 30 12 29 1 104)); simpl; lia. Defined.
End Clock.

(** ** Segment descriptors *)

Module Gdt.
Record GDTEntry := mk_gdt {
  limit_low : Z; base_low : Z; base_middle : Z; access : Z; granularity : Z; base_high : Z
}.

Definition GDT_SIZE : Z := 6.

Definition gdt_entry (base limit acc gran : Z) : GDTEntry :=
  mk_gdt (Z.land limit 65535) (Z.land base 65535) (Z.land (Z.shiftr base 16) 255) acc
         (u8 (Z.lor (Z.land (Z.shiftr limit 16) 15) (Z.shiftl gran 4)))
         (Z.land (Z.shiftr base 24) 255).

Definition set_gdt_entry (gdt : list GDTEntry) (index base limit acc gran : Z) : option (list GDTEntry) :=
  zset gdt index (gdt_entry base limit acc gran).

(** [cpu_tss] is the address of the task state segment, whose 26 + 27 words
    take 212 bytes. *)
Definition sizeof_tss : Z := 212.

Definition fill_gdt (cpu_tss : Z) (gdt : list GDTEntry) : option (list GDTEntry) :=
  gdt ← set_gdt_entry gdt 0 0 0 0 0;
  gdt ← set_gdt_entry gdt 1 0 0xFFFFF 0x9A 0xC;
  gdt ← set_gdt_entry gdt 2 0 0xFFFFF 0x92 0xC;
  gdt ← set_gdt_entry gdt 3 0 0xFFFFF 0xFA 0xC;
  gdt ← set_gdt_entry gdt 4 0 0xFFFFF 0xF2 0xC;
  set_gdt_entry gdt 5 cpu_tss (sizeof_tss - 1) 0x89 0.

(** What the processor reads out of a descriptor. *)
Definition desc_base (e : GDTEntry) : Z :=
  base_low e + 2 ^ 16 * base_middle e + 2 ^ 24 * base_high e.
Definition desc_limit (e : GDTEntry) : Z := limit_low e + 2 ^ 16 * (granularity e `mod` 16).
Definition desc_flags (e : GDTEntry) : Z := granularity e `div` 16.

Lemma nibbles lo hi : 0 <= lo < 16 -> 0 <= hi < 16 -> Z.lor lo (Z.shiftl hi 4) = lo + 16 * hi.
Proof.
  intros Hl Hh. revert lo Hl. check_range 0 16 ltac:(revert hi Hh; check_range 0 16 ltac:(reflexivity)).
Qed.

Lemma gdt_entry_fields base limit acc gran :
  0 <= base < 2 ^ 32 -> 0 <= limit < 2 ^ 20 -> 0 <= gran < 16 ->
  let e := gdt_entry base limit acc gran in
  desc_base e = base /\ desc_limit e = limit /\ access e = acc /\ desc_flags e = gran.
Proof.
  intros Hb Hl Hg. cbv zeta. unfold desc_base, desc_limit, desc_flags, gdt_entry.
  cbn [base_low base_middle base_high limit_low granularity access].
  change 65535 with (Z.ones 16). change 255 with (Z.ones 8). change 15 with (Z.ones 4).
  rewrite !Z.land_ones, !Z.shiftr_div_pow2 by lia.
  rewrite (Z.mod_small (limit `div` 2 ^ 16)) by (split; [apply Z.div_pos; lia|apply Z.div_lt_upper_bound; lia]).
  assert (0 <= limit `div` 2 ^ 16 < 16) by (split; [apply Z.div_pos; lia|apply Z.div_lt_upper_bound; lia]).
  rewrite nibbles, u8_small by lia.
  pose proof (Z.div_mod limit (2 ^ 16)). pose proof (Z.div_mod base (2 ^ 16)).
  pose proof (Z.div_mod (base `div` 2 ^ 16) (2 ^ 8)).
  replace (base `div` 2 ^ 24) with (base `div` 2 ^ 16 `div` 2 ^ 8) by (rewrite Z.div_div by lia; done).
  rewrite (Z.mod_small (base `div` 2 ^ 16 `div` 2 ^ 8))
    by (rewrite Z.div_div by lia; split; [apply Z.div_pos; lia|apply Z.div_lt_upper_bound; lia]).
  replace (limit `div` 2 ^ 16 + 16 * gran) with (limit `div` 2 ^ 16 + gran * 16) by lia.
  rewrite Z.mod_add, Z.div_add, (Z.mod_small _ 16), (Z.div_small _ 16) by lia. lia.
Qed.

Lemma fill_gdt_spec cpu_tss gdt :
  Z.of_nat (length gdt) = GDT_SIZE -> 0 <= cpu_tss < 2 ^ 32 ->
  exists gdt', fill_gdt cpu_tss gdt = Some gdt' /\ Z.of_nat (length gdt') = GDT_SIZE /\
    (forall i, 1 <= i < 5 -> exists e, zget gdt' i = Some e /\ desc_base e = 0 /\
       desc_limit e = 2 ^ 20 - 1 /\ desc_flags e = 12 /\
       access e = (if i =? 1 then 0x9A else if i =? 2 then 0x92 else if i =? 3 then 0xFA else 0xF2)) /\
    exists e, zget gdt' 5 = Some e /\ desc_base e = cpu_tss /\ desc_limit e = sizeof_tss - 1 /\ access e = 0x89.
Proof.
  unfold GDT_SIZE. intros Hl Hc.
  do 6 (destruct gdt as [|? gdt]; [simpl in Hl; lia|]). destruct gdt; [|simpl in Hl; lia].
  unfold fill_gdt, set_gdt_entry. eexists. split; [reflexivity|]. split; [done|]. split.
  - check_range 1 4 ltac:(eexists; split; [reflexivity|vm_compute; done]).
  - eexists. split; [reflexivity|].
    destruct (gdt_entry_fields cpu_tss (sizeof_tss - 1) 0x89 0) as (? & ? & ? & ?);
      unfold sizeof_tss in *; [lia..|done].
Qed.
End Gdt.

(** ** Interrupt gates *)

Module Idt.
Record idt_entry_t := mk_gate {
  isr_low : Z; kernel_cs : Z; reserved : Z; attributes : Z; isr_high : Z
}.

Definition KERNEL_CS : Z := 8.
Definition IDT_MAX_DESCRIPTORS : Z := 256.

Definition set_gate (addr type dpl : Z) : idt_entry_t :=
  mk_gate (Z.land addr 65535) KERNEL_CS 0 (u8 (Z.lor (Z.lor 128 (Z.shiftl dpl 5)) type))
          (Z.land (Z.shiftr addr 16) 65535).

Definition set_intr_gate (idt : list idt_entry_t) (n addr : Z) := zset idt n (set_gate addr 14 0).
Definition set_trap_gate (idt : list idt_entry_t) (n addr : Z) := zset idt n (set_gate addr 15 0).
Definition set_system_gate (idt : list idt_entry_t) (n addr : Z) := zset idt n (set_gate addr 15 3).

(** The entry points, whose addresses the linker assigns. *)
Inductive isr :=
| divide_error | debug | nmi | int3 | overflow | bounds | invalid_op | device_not_available
| double_fault | coprocessor_segment_overrun | invalid_TSS | segment_not_present | stack_segment
| general_protection | coprocessor_error | reserved_isr | timer_intr | keyboard_intr | serial_intr
| system_call.

Fixpoint set_reserved (idt : list idt_entry_t) (i : Z) (n : nat) (addr : Z) : option (list idt_entry_t) :=
  match n with
  | O => Some idt
  | S n => idt ← set_trap_gate idt i addr; set_reserved idt (i + 1) n addr
  end.

Definition trap_init (entry : isr -> Z) (idt : list idt_entry_t) : option (list idt_entry_t) :=
  idt ← set_trap_gate idt 0 (entry divide_error);
  idt ← set_trap_gate idt 1 (entry debug);
  idt ← set_trap_gate idt 2 (entry nmi);
  idt ← set_system_gate idt 3 (entry int3);
  idt ← set_system_gate idt 4 (entry overflow);
  idt ← set_system_gate idt 5 (entry bounds);
  idt ← set_trap_gate idt 6 (entry invalid_op);
  idt ← set_trap_gate idt 7 (entry device_not_available);
  idt ← set_trap_gate idt 8 (entry double_fault);
  idt ← set_trap_gate idt 9 (entry coprocessor_segment_overrun);
  idt ← set_trap_gate idt 10 (entry invalid_TSS);
  idt ← set_trap_gate idt 11 (entry segment_not_present);
  idt ← set_trap_gate idt 12 (entry stack_segment);
  idt ← set_trap_gate idt 13 (entry general_protection);
  idt ← set_trap_gate idt 15 (entry reserved_isr);
  idt ← set_trap_gate idt 16 (entry coprocessor_error);
  idt ← set_reserved idt 17 15 (entry reserved_isr);
  idt ← set_intr_gate idt 32 (entry timer_intr);
  idt ← set_intr_gate idt 33 (entry keyboard_intr);
  idt ← set_intr_gate idt 36 (entry serial_intr);
  set_system_gate idt 128 (entry system_call).

(** What the processor reads out of a gate. *)
Definition gate_addr (g : idt_entry_t) : Z := isr_low g + 2 ^ 16 * isr_high g.
Definition gate_present (g : idt_entry_t) : bool := Z.testbit (attributes g) 7.
Definition gate_dpl (g : idt_entry_t) : Z := (attributes g `div` 32) `mod` 4.
Definition gate_type (g : idt_entry_t) : Z := attributes g `mod` 16.

Lemma set_gate_addr addr type dpl : 0 <= addr < 2 ^ 32 -> gate_addr (set_gate addr type dpl) = addr.
Proof.
  intros. unfold gate_addr, set_gate. cbn [isr_low isr_high]. change 65535 with (Z.ones 16).
  rewrite !Z.land_ones, Z.shiftr_div_pow2 by lia.
  rewrite (Z.mod_small (addr `div` 2 ^ 16)) by (split; [apply Z.div_pos; lia|apply Z.div_lt_upper_bound; lia]).
  pose proof (Z.div_mod addr (2 ^ 16)). lia.
Qed.

(** The gate a vector is meant to have. *)
Definition vector_isr (v : Z) : option (isr * Z * Z) :=
  if v =? 0 then Some (divide_error, 15, 0) else if v =? 1 then Some (debug, 15, 0)
  else if v =? 2 then Some (nmi, 15, 0) else if v =? 3 then Some (int3, 15, 3)
  else if v =? 4 then Some (overflow, 15, 3) else if v =? 5 then Some (bounds, 15, 3)
  else if v =? 6 then Some (invalid_op, 15, 0) else if v =? 7 then Some (device_not_available, 15, 0)
  else if v =? 8 then Some (double_fault, 15, 0)
  else if v =? 9 then Some (coprocessor_segment_overrun, 15, 0)
  else if v =? 10 then Some (invalid_TSS, 15, 0) else if v =? 11 then Some (segment_not_present, 15, 0)
  else if v =? 12 then Some (stack_segment, 15, 0) else if v =? 13 then Some (general_protection, 15, 0)
  else if v =? 14 then None else if v =? 16 then Some (coprocessor_error, 15, 0)
  else if v <? 32 then Some (reserved_isr, 15, 0)
  else if v =? 32 then Some (timer_intr, 14, 0) else if v =? 33 then Some (keyboard_intr, 14, 0)
  else if v =? 36 then Some (serial_intr, 14, 0) else if v =? 128 then Some (system_call, 15, 3)
  else None.

Definition zero_gate : idt_entry_t := mk_gate 0 0 0 0 0.

(** The finished table: 256 entries, all zero but those of [vector_isr]. *)
Definition idt_table (entry : isr -> Z) : list idt_entry_t :=
  map (fun v => match vector_isr v with
                | Some (i, type, dpl) => set_gate (entry i) type dpl
                | None => zero_gate
                end) (seqZ 0 256).

Lemma trap_init_table entry :
  trap_init entry (replicate 256 zero_gate) = Some (idt_table entry).
Proof. reflexivity. Qed.

Lemma idt_table_lookup entry v :
  0 <= v < 256 ->
  zget (idt_table entry) v = Some (match vector_isr v with
                                   | Some (i, type, dpl) => set_gate (entry i) type dpl
                                   | None => zero_gate
                                   end).
Proof.
  intros Hv. unfold zget. destruct (Z.ltb_spec v 0); [lia|]. unfold idt_table.
  rewrite list_lookup_fmap, lookup_seqZ_lt by lia. simpl. by rewrite Z2Nat.id by lia.
Qed.

Lemma vector_isr_gate v i type dpl :
  vector_isr v = Some (i, type, dpl) ->
  forall a, gate_present (set_gate a type dpl) = true /\ gate_dpl (set_gate a type dpl) = dpl /\
    gate_type (set_gate a type dpl) = type.
Proof.
  unfold vector_isr. intros H a.
  repeat (case_match; [discriminate H || by injection H as <- <- <-|]). done.
Qed.

(** From the zeroed table, [trap_init] fills every vector it names with a
    present gate of the right type that decodes to its handler's address, lets
    user mode raise exactly vectors 3, 4, 5 and 128, and leaves every other
    vector, the page fault's included, absent. *)
Theorem trap_init_correct entry :
  (forall i, 0 <= entry i < 2 ^ 32) ->
  exists idt, trap_init entry (replicate 256 zero_gate) = Some idt /\
  forall v, 0 <= v < 256 -> exists g, zget idt v = Some g /\
    match vector_isr v with
    | Some (i, type, dpl) =>
        gate_present g = true /\ gate_addr g = entry i /\ gate_type g = type /\
        gate_dpl g = dpl /\ (dpl = 3 <-> v ∈ [3; 4; 5; 128])
    | None => gate_present g = false
    end.
Proof.
  intros He. exists (idt_table entry). split; [apply trap_init_table|]. intros v Hv.
  rewrite idt_table_lookup by done. eexists. split; [done|].
  destruct (vector_isr v) as [[[i type] dpl]|] eqn:E; [|done].
  destruct (vector_isr_gate v i type dpl E (entry i)) as (? & ? & ?).
  split_and!; [done|by apply set_gate_addr|done..|].
  rewrite !elem_of_cons, elem_of_nil. unfold vector_isr in E.
  repeat (case_match; [discriminate E || (injection E as <- <- <-; lia)|]). done.
Qed.

Lemma trap_init_correct_witness :
  exists idt, trap_init (fun _ => 0x100000) (replicate 256 zero_gate) = Some idt /\
  forall v, 0 <= v < 256 -> exists g, zget idt v = Some g /\
    match vector_isr v with
    | Some (i, type, dpl) =>
        gate_present g = true /\ gate_addr g = 0x100000 /\ gate_type g = type /\
        gate_dpl g = dpl /\ (dpl = 3 <-> v ∈ [3; 4; 5; 128])
    | None => gate_present g = false
    end.
Proof. apply (trap_init_correct (fun _ => 0x100000)). intros. lia. Defined.

(** *** Exception reports

    [esp] is the stack from the saved instruction pointer up; the result is
    what goes to the console. *)

Definition TAB : Z := 9.
Definition LF : Z := 10.
Definition CR : Z := 13.

Definition die (name : list Z) (esp : list Z) (nr : Z) : option (list Z) :=
  let mem := fun _ => Some (name ++ [0]) in
  o1 ← printk_chars mem (str "%s: %x" ++ [LF; CR; 0]) [1; Z.land nr 65535];
  e0 ← zget esp 0; e1 ← zget esp 1; e2 ← zget esp 2; e3 ← zget esp 3; e4 ← zget esp 4;
  o2 ← printk_chars mem
         (str "EIP:" ++ [TAB] ++ str "%x:%p" ++ [LF] ++ str "EFLAGS:" ++ [TAB] ++ str "%p" ++ [LF]
          ++ str "ESP:" ++ [TAB] ++ str "%x:%p" ++ [LF; 0]) [e1; e0; e2; e4; e3];
  Some (o1 ++ o2).

Definition do_double_fault : list Z -> Z -> option (list Z) := die (str "double fault").
Definition do_general_protection : list Z -> Z -> option (list Z) := die (str "general protection").
Definition do_divide_error : list Z -> Z -> option (list Z) := die (str "divide error").
Definition do_nmi : list Z -> Z -> option (list Z) := die (str "nmi").
Definition do_debug : list Z -> Z -> option (list Z) := die (str "debug").
Definition do_overflow : list Z -> Z -> option (list Z) := die (str "overflow").
Definition do_bounds : list Z -> Z -> option (list Z) := die (str "bounds").
Definition do_invalid_op : list Z -> Z -> option (list Z) := die (str "invalid operand").
Definition do_device_not_available : list Z -> Z -> option (list Z) := die (str "device not available").
Definition do_coprocessor_segment_overrun : list Z -> Z -> option (list Z) := die (str "coprocessor segment overrun").
Definition do_invalid_TSS : list Z -> Z -> option (list Z) := die (str "invalid TSS").
Definition do_segment_not_present : list Z -> Z -> option (list Z) := die (str "segment not present").
Definition do_stack_segment : list Z -> Z -> option (list Z) := die (str "stack segment").
Definition do_coprocessor_error : list Z -> Z -> option (list Z) := die (str "coprocessor error").
Definition do_reserved : list Z -> Z -> option (list Z) := die (str "reserved (15,17-31) error").

(** Every report is complete: it starts with the exception's name and its
    error code and ends with the registers, whatever the stack holds. *)
Lemma die_spec name e0 e1 e2 e3 e4 rest nr :
  0 ∉ name -> Forall (fun w => 0 <= w < 2 ^ 32) [e0; e1; e2; e3; e4] ->
  exists h h0 h1 h2 h3 h4,
    serial_writehex (Z.land nr 65535) = Some h /\ serial_writehex e0 = Some h0 /\
    serial_writehex e1 = Some h1 /\ serial_writehex e2 = Some h2 /\
    serial_writehex e3 = Some h3 /\ serial_writehex e4 = Some h4 /\
    die name (e0 :: e1 :: e2 :: e3 :: e4 :: rest) nr = Some (name ++ str ": " ++ h ++ [LF; CR] ++
      str "EIP:" ++ [TAB] ++ h1 ++ str ":" ++ (str "0x" ++ h0) ++ [LF] ++
      str "EFLAGS:" ++ [TAB] ++ (str "0x" ++ h2) ++ [LF] ++
      str "ESP:" ++ [TAB] ++ h4 ++ str ":" ++ (str "0x" ++ h3) ++ [LF]).
Proof.
  intros Hn Hw. repeat (apply Forall_cons in Hw as [? Hw]).
  destruct (serial_writehex_spec e0) as (d0 & E0 & _); [done|].
  destruct (serial_writehex_spec e1) as (d1 & E1 & _); [done|].
  destruct (serial_writehex_spec e2) as (d2 & E2 & _); [done|].
  destruct (serial_writehex_spec e3) as (d3 & E3 & _); [done|].
  destruct (serial_writehex_spec e4) as (d4 & E4 & _); [done|].
  destruct (serial_writehex_spec (Z.land nr 65535)) as (h & E & _).
  { change 65535 with (Z.ones 16). rewrite Z.land_ones by lia.
    pose proof (Z.mod_pos_bound nr (2 ^ 16)). lia. }
  do 6 eexists. split_and!; [done..|]. unfold die. cbv zeta.
  set (mem := fun _ : Z => Some (name ++ [0])).
  rewrite (printk_run_chars mem _ _ (name ++ str ": " ++ (str "0x" ++ h) ++ [LF; CR] ++ [])).
  2:{ change (str "%s: %x" ++ [LF; CR; 0]) with (str "%s" ++ str ": " ++ str "%x" ++ [LF; CR] ++ [0]).
      eapply run_s; [done..|]. apply run_lit; [decided|]. eapply run_x; [done|].
      apply run_lit; [decided|]. apply run_end. }
  set (esp := e0 :: e1 :: e2 :: e3 :: e4 :: rest).
  assert (zget esp 0 = Some e0 /\ zget esp 1 = Some e1 /\ zget esp 2 = Some e2 /\ zget esp 3 = Some e3
          /\ zget esp 4 = Some e4) as (-> & -> & -> & -> & ->) by done.
  cbn [mbind option_bind].
  match goal with |- (printk_chars mem ?f ?a ≫= _) = _ =>
    assert (printk_run mem f a (str "EIP:" ++ [TAB] ++ (str "0x" ++ d1) ++ str ":" ++ (str "0x" ++ (str "0x" ++ d0))
      ++ [LF] ++ str "EFLAGS:" ++ [TAB] ++ (str "0x" ++ (str "0x" ++ d2)) ++ [LF] ++ str "ESP:" ++ [TAB]
      ++ (str "0x" ++ d4) ++ str ":" ++ (str "0x" ++ (str "0x" ++ d3)) ++ [LF] ++ [])) as R end.
  { change (str "%x:%p") with (str "%x" ++ str ":" ++ str "%p"). change [LF; 0] with ([LF] ++ [0]).
    rewrite <- !(app_assoc (str "%x")), <- !(app_assoc (str ":")).
    repeat first [apply run_end | eapply run_x; [done|] | eapply run_p; [done|]
                 | apply run_lit; [decided|]]. }
  rewrite (printk_run_chars _ _ _ _ R). cbn [mbind option_bind]. f_equal.
  rewrite <- !app_assoc, !app_nil_r. done.
Qed.
End Idt.
