(* ===== verification/Console.v ===== *)
(** * Screen, keyboard and command line
    (kernel/display/vga_display.c, drivers/keyboard.c, kernel/tty.c,
    kernel/shell.c) *)

From S2P Require Export Devices.

(** ** The text screen *)

Module Vga.
Definition VGA_WIDTH : Z := 80.
Definition VGA_HEIGHT : Z := 25.

(** [terminal_buffer] is the video memory of [VGA_WIDTH * VGA_HEIGHT] cells. *)
Record terminal := mk_terminal {
  terminal_row : Z; terminal_column : Z; terminal_color : Z; terminal_buffer : list Z
}.

Definition vga_entry_color (fg bg : Z) : Z := u8 (Z.lor fg (Z.shiftl bg 4)).
Definition vga_entry (uc color : Z) : Z := u16 (Z.lor uc (Z.shiftl color 8)).

Definition VGA_COLOR_LIGHT_GREY : Z := 7.
Definition VGA_COLOR_BLACK : Z := 0.

(** The clearing loops, row by row. *)
Fixpoint clear_cells (buf : list Z) (index : Z) (n : nat) (e : Z) : option (list Z) :=
  match n with
  | O => Some buf
  | S n => buf ← zset buf index e; clear_cells buf (index + 1) n e
  end.

Fixpoint clear_rows (width : Z) (buf : list Z) (y : Z) (n : nat) (e : Z) : option (list Z) :=
  match n with
  | O => Some buf
  | S n => buf ← clear_cells buf (y * width) (Z.to_nat width) e; clear_rows width buf (y + 1) n e
  end.

Definition terminal_initialize (t : terminal) : option terminal :=
  let color := vga_entry_color VGA_COLOR_LIGHT_GREY VGA_COLOR_BLACK in
  buf ← clear_rows VGA_WIDTH (terminal_buffer t) 0 (Z.to_nat VGA_HEIGHT) (vga_entry 32 color);
  Some (mk_terminal 0 0 color buf).

Definition terminal_setcolor (color : Z) (t : terminal) : terminal :=
  mk_terminal (terminal_row t) (terminal_column t) color (terminal_buffer t).

Definition terminal_putentryat (c color x y : Z) (t : terminal) : option terminal :=
  let index := u32 (y * VGA_WIDTH + x) in
  buf ← zset (terminal_buffer t) index (vga_entry c color);
  Some (mk_terminal (terminal_row t) (terminal_column t) (terminal_color t) buf).

Definition set_pos (row col : Z) (t : terminal) : terminal :=
  mk_terminal row col (terminal_color t) (terminal_buffer t).

(** [if (++terminal_row == VGA_HEIGHT) terminal_row = 0]. *)
Definition next_row (row : Z) : Z := if u32 (row + 1) =? VGA_HEIGHT then 0 else u32 (row + 1).

Definition terminal_putchar (c : Z) (t : terminal) : option terminal :=
  let row := terminal_row t in
  let col := terminal_column t in
  if c =? 10 then Some (set_pos (next_row row) 0 t)
  else if c =? 8 then
    if 0 <? col then terminal_putentryat 32 (terminal_color t) (col - 1) row (set_pos row (col - 1) t)
    else if 0 <? row then
      terminal_putentryat 32 (terminal_color t) (VGA_WIDTH - 1) (row - 1)
        (set_pos (row - 1) (VGA_WIDTH - 1) t)
    else Some t
  else
    t ← terminal_putentryat c (terminal_color t) col row t;
    if u32 (col + 1) =? VGA_WIDTH then Some (set_pos (next_row row) 0 t)
    else Some (set_pos row (u32 (col + 1)) t).

Fixpoint terminal_write (data : list Z) (size : nat) (t : terminal) {struct size} : option terminal :=
  match size, data with
  | O, _ => Some t
  | S n, c :: data => t ← terminal_putchar c t; terminal_write data n t
  | S _, [] => None
  end.

Definition terminal_writestring (data : list Z) (t : terminal) : option terminal :=
  n ← strlen data; terminal_write data (Z.to_nat n) t.

(** *** The cursor stays on the screen *)

Definition cells : Z := VGA_WIDTH * VGA_HEIGHT.

Record terminal_wf (t : terminal) : Prop := {
  wf_row : 0 <= terminal_row t < VGA_HEIGHT;
  wf_col : 0 <= terminal_column t < VGA_WIDTH;
  wf_buf : Z.of_nat (length (terminal_buffer t)) = cells
}.

(** The cursor as a position in the buffer. *)
Definition cursor (t : terminal) : Z := terminal_row t * VGA_WIDTH + terminal_column t.

Lemma putentryat_spec c color x y t :
  terminal_wf t -> 0 <= x < VGA_WIDTH -> 0 <= y < VGA_HEIGHT ->
  terminal_putentryat c color x y t
  = Some (mk_terminal (terminal_row t) (terminal_column t) (terminal_color t)
            (<[Z.to_nat (y * VGA_WIDTH + x) := vga_entry c color]> (terminal_buffer t))).
Proof.
  intros [? ? Hb] Hx Hy. unfold terminal_putentryat, cells, VGA_WIDTH, VGA_HEIGHT in *.
  rewrite u32_small, zset_in_range by lia. done.
Qed.

Lemma next_row_bound row : 0 <= row < VGA_HEIGHT -> 0 <= next_row row < VGA_HEIGHT.
Proof.
  intros. unfold next_row, VGA_HEIGHT in *. rewrite u32_small by lia.
  destruct (Z.eqb_spec (row + 1) 25); lia.
Qed.

Lemma terminal_putchar_ok c t :
  terminal_wf t -> exists t', terminal_putchar c t = Some t' /\ terminal_wf t' /\
    terminal_color t' = terminal_color t.
Proof.
  intros Hwf. destruct Hwf as [Hr Hc Hb]. unfold terminal_putchar.
  pose proof (next_row_bound _ Hr). unfold VGA_WIDTH, VGA_HEIGHT in *.
  destruct (c =? 10).
  { eexists. split; [done|]. split; [|done]. constructor; simpl; unfold VGA_WIDTH, VGA_HEIGHT; done || lia. }
  destruct (c =? 8).
  - destruct (Z.ltb_spec 0 (terminal_column t)); [|destruct (Z.ltb_spec 0 (terminal_row t))].
    + rewrite putentryat_spec; [| |unfold VGA_WIDTH; lia|unfold VGA_HEIGHT; lia];
        [eexists; split; [done|]; split; [|done]|];
        constructor; simpl; rewrite ?length_insert; unfold VGA_WIDTH, VGA_HEIGHT; done || lia.
    + rewrite putentryat_spec; [| |unfold VGA_WIDTH; lia|unfold VGA_HEIGHT; lia];
        [eexists; split; [done|]; split; [|done]|];
        constructor; simpl; rewrite ?length_insert; unfold VGA_WIDTH, VGA_HEIGHT; done || lia.
    + by exists t.
  - rewrite putentryat_spec; [|by constructor|done..]. cbn [mbind option_bind].
    rewrite (u32_small (terminal_column t + 1)) by lia.
    destruct (Z.eqb_spec (terminal_column t + 1) 80); (eexists; split; [done|]; split; [|done]);
      constructor; simpl; rewrite ?length_insert; unfold VGA_WIDTH, VGA_HEIGHT; done || lia.
Qed.

Lemma terminal_write_ok n data t :
  terminal_wf t -> (n <= length data)%nat ->
  exists t', terminal_write data n t = Some t' /\ terminal_wf t' /\ terminal_color t' = terminal_color t.
Proof.
  revert data t. induction n as [|n IH]; intros data t Hwf Hl; simpl; [by exists t|].
  destruct data as [|c data]; simpl in Hl; [lia|].
  destruct (terminal_putchar_ok c t Hwf) as (t1 & -> & Hwf1 & Hc1). simpl.
  destruct (IH data t1 Hwf1) as (t2 & E & Hwf2 & Hc2); [lia|]. exists t2. by rewrite Hc2.
Qed.

Lemma clear_cells_spec buf index n e :
  0 <= index -> index + Z.of_nat n <= Z.of_nat (length buf) ->
  exists buf', clear_cells buf index n e = Some buf' /\ length buf' = length buf /\
    forall j, zget buf' j = if decide (index <= j < index + Z.of_nat n) then Some e else zget buf j.
Proof.
  revert buf index. induction n as [|n IH]; intros buf index Hi Hl.
  { exists buf. split_and!; [done..|]. intros j. rewrite decide_False by lia. done. }
  cbn [clear_cells]. pose proof (zset_in_range buf index e ltac:(lia)) as E. rewrite E. cbn [mbind option_bind].
  destruct (IH (<[Z.to_nat index:=e]> buf) (index + 1)) as (buf' & E' & Hl' & Hg);
    rewrite ?length_insert; [lia..|].
  exists buf'. rewrite length_insert in Hl'. split_and!; [done..|]. intros j.
  rewrite Hg, (zget_zset _ _ _ _ _ E). repeat case_decide; try done; lia.
Qed.

Lemma clear_rows_spec buf y n e :
  0 <= y -> (y + Z.of_nat n) * VGA_WIDTH <= Z.of_nat (length buf) ->
  exists buf', clear_rows VGA_WIDTH buf y n e = Some buf' /\ length buf' = length buf /\
    forall j, zget buf' j = if decide (y * VGA_WIDTH <= j < (y + Z.of_nat n) * VGA_WIDTH)
                            then Some e else zget buf j.
Proof.
  unfold VGA_WIDTH. revert buf y. induction n as [|n IH]; intros buf y Hy Hl.
  { exists buf. split_and!; [done..|]. intros j. rewrite decide_False by lia. done. }
  cbn [clear_rows].
  destruct (clear_cells_spec buf (y * 80) (Z.to_nat 80) e) as (b1 & E1 & L1 & G1); [lia..|].
  rewrite E1. cbn [mbind option_bind].
  destruct (IH b1 (y + 1)) as (b2 & E2 & L2 & G2); [lia..|]. exists b2.
  split_and!; [done|congruence|]. intros j. rewrite G2, G1. repeat case_decide; try done; lia.
Qed.

(** [terminal_initialize] blanks the whole screen, and from then on any
    sequence of characters, newlines and backspaces included, is written
    without touching memory outside the video buffer and leaves the cursor on
    the screen. *)
Theorem terminal_write_safe t data :
  Z.of_nat (length (terminal_buffer t)) = cells ->
  exists t0 t1, terminal_initialize t = Some t0 /\
    (forall j, 0 <= j < cells -> zget (terminal_buffer t0) j = Some (vga_entry 32 7)) /\ cursor t0 = 0 /\
    terminal_write data (length data) t0 = Some t1 /\ terminal_wf t1.
Proof.
  intros Hb. unfold terminal_initialize.
  destruct (clear_rows_spec (terminal_buffer t) 0 (Z.to_nat VGA_HEIGHT)
              (vga_entry 32 (vga_entry_color VGA_COLOR_LIGHT_GREY VGA_COLOR_BLACK)))
    as (buf & E & Hl & Hg); [lia|unfold cells, VGA_WIDTH, VGA_HEIGHT in *; lia|].
  rewrite E. cbn [mbind option_bind]. eexists.
  destruct (terminal_write_ok (length data) data
    (mk_terminal 0 0 (vga_entry_color VGA_COLOR_LIGHT_GREY VGA_COLOR_BLACK) buf)) as (t1 & E1 & Hwf & _).
  { constructor; simpl; rewrite ?Hl; unfold VGA_WIDTH, VGA_HEIGHT; done || lia. }
  { done. }
  exists t1. split_and!; [done| |done..].
  intros j Hj. cbn [terminal_buffer]. rewrite Hg. unfold cells, VGA_WIDTH, VGA_HEIGHT in *.
  rewrite decide_True by lia. done.
Qed.

Lemma terminal_write_safe_witness :
  exists t0 t1, terminal_initialize (mk_terminal 3 7 0 (replicate 2000 5)) = Some t0 /\
    (forall j, 0 <= j < cells -> zget (terminal_buffer t0) j = Some (vga_entry 32 7)) /\ cursor t0 = 0 /\
    terminal_write [72; 105; 10; 8] 4 t0 = Some t1 /\ terminal_wf t1.
Proof. apply (terminal_write_safe (mk_terminal 3 7 0 (replicate 2000 5)) [72; 105; 10; 8]). reflexivity. Defined.
End Vga.

(** ** The command line *)

Module Shell.
Definition CMD_MAX_LEN : Z := 256.
Definition NL : list Z := [10].

Record shell := mk_shell { cmd_buf : list Z; cmd_len : Z }.

Section Shell.
(** The file system behind [ls] and [cat]: what the two functions print, and
    their effect on its state. *)
Context {FS : Type}.
Context (ls_root : FS -> option (list Z * FS)) (cat_file : list Z -> FS -> option (list Z * FS)).

(** A string argument is a position in the command buffer; [base] is the
    address of the buffer. *)
Context (base : Z).

Definition buf_mem (buf : list Z) (a : Z) : option (list Z) :=
  if (base <=? a) && (a <? base + CMD_MAX_LEN) then Some (drop (Z.to_nat (a - base)) buf) else None.

Definition at_pos (buf : list Z) (p : Z) : list Z := drop (Z.to_nat p) buf.

Fixpoint skip_spaces (s : list Z) : option (list Z) :=
  match s with
  | [] => None
  | c :: t => if c =? 32 then skip_spaces t else Some s
  end.

Definition cmd_help : list Z :=
  NL ++ str "Available commands:" ++ NL
  ++ str "  help          - Show this message" ++ NL
  ++ str "  echo [msg]    - Print message" ++ NL
  ++ str "  clear         - Clear screen" ++ NL
  ++ str "  ls            - List root directory" ++ NL
  ++ str "  cat <file>    - Print file contents" ++ NL
  ++ str "  uname         - Print OS name" ++ NL.

Definition cmd_ls (e : FS) : option (list Z * FS) :=
  '(o, e) ← ls_root e; Some (NL ++ o, e).

Definition cmd_cat (args : list Z) (e : FS) : option (list Z * FS) :=
  fname ← skip_spaces args;
  c ← zget fname 0;
  if c =? 0 then Some (NL ++ str "Usage: cat <filename>" ++ NL, e)
  else
    f ← until_nul fname;
    '(o, e) ← cat_file f e;
    Some (NL ++ o, e).

(** [p] is the position of [args] in the buffer. *)
Definition cmd_echo (buf : list Z) (p : Z) : option (list Z) :=
  c ← zget buf p;
  if c =? 32 then
    o ← printk_chars (buf_mem buf) (str "%s" ++ [0]) [base + p + 1];
    Some (NL ++ o ++ NL)
  else Some (NL ++ NL).

Definition cmd_uname : list Z := NL ++ str "Bach Kernel v0.1 (i386)" ++ NL.

Definition shell_execute (buf : list Z) (e : FS) : option (list Z * FS) :=
  c0 ← zget buf 0;
  if c0 =? 0 then Some ([], e)
  else
  r ← strcmp buf (str "help" ++ [0]);
  if r =? 0 then Some (cmd_help, e)
  else
  r ← strcmp buf (str "clear" ++ [0]);
  if r =? 0 then Some (NL ++ mjoin (replicate 40 NL), e)
  else
  r ← strncmp buf (str "echo" ++ [0]) 4;
  is_echo ← (if r =? 0 then c ← zget buf 4; Some ((c =? 32) || (c =? 0)) else Some false);
  if (is_echo : bool) then o ← cmd_echo buf 4; Some (o, e)
  else
  r ← strcmp buf (str "ls" ++ [0]);
  if r =? 0 then cmd_ls e
  else
  r ← strncmp buf (str "cat" ++ [0]) 3;
  is_cat ← (if r =? 0 then c ← zget buf 3; Some ((c =? 32) || (c =? 0)) else Some false);
  if (is_cat : bool) then cmd_cat (at_pos buf 3) e
  else
  r ← strcmp buf (str "uname" ++ [0]);
  if r =? 0 then Some (cmd_uname, e)
  else
    o ← printk_chars (buf_mem buf) (NL ++ str "Unknown command: %s" ++ NL ++ [0]) [base];
    Some (o, e).

Definition prompt : list Z := NL ++ str "> ".

Definition shell_init : list Z := prompt.

Definition shell_handle_char (c : Z) (s : shell) (e : FS) : option (list Z * shell * FS) :=
  if c =? 0 then Some ([], s, e)
  else if c =? 10 then
    buf ← zset (cmd_buf s) (cmd_len s) 0;
    '(o, e) ← shell_execute buf e;
    Some (o ++ prompt, mk_shell buf 0, e)
  else if c =? 8 then
    if 0 <? cmd_len s then Some ([8; 32; 8], mk_shell (cmd_buf s) (cmd_len s - 1), e)
    else Some ([], s, e)
  else
    if cmd_len s <? CMD_MAX_LEN - 1 then
      buf ← zset (cmd_buf s) (cmd_len s) c;
      Some ([c], mk_shell buf (cmd_len s + 1), e)
    else Some ([], s, e).

Definition do_tty (key : Z) (s : shell) (e : FS) : option (list Z * shell * FS) :=
  shell_handle_char (u8 key) s e.

Fixpoint shell_run (cs : list Z) (s : shell) (e : FS) : option (list Z * shell * FS) :=
  match cs with
  | [] => Some ([], s, e)
  | c :: cs =>
      '(o1, s, e) ← shell_handle_char c s e;
      '(o2, s, e) ← shell_run cs s e;
      Some (o1 ++ o2, s, e)
  end.

(** *** What a command line means *)

Inductive command :=
| Nothing | Help | Clear | Echo (msg : option (list Z)) | Ls | Cat (name : list Z) | CatUsage
| Uname | Unknown (line : list Z).

Fixpoint drop_spaces (l : list Z) : list Z :=
  match l with c :: t => if c =? 32 then drop_spaces t else l | [] => [] end.

(** [word l w]: the line is the word [w] alone or followed by a space. *)
Definition word (l w : list Z) : bool :=
  bool_decide (take (length w) l = w) &&
  match drop (length w) l with [] => true | c :: _ => c =? 32 end.

Definition parse (l : list Z) : command :=
  if bool_decide (l = []) then Nothing
  else if bool_decide (l = str "help") then Help
  else if bool_decide (l = str "clear") then Clear
  else if word l (str "echo") then
    Echo (match drop 4 l with [] => None | _ :: m => Some m end)
  else if bool_decide (l = str "ls") then Ls
  else if word l (str "cat") then
    match drop_spaces (drop 3 l) with [] => CatUsage | f => Cat f end
  else if bool_decide (l = str "uname") then Uname
  else Unknown l.

Definition perform (c : command) (e : FS) : option (list Z * FS) :=
  match c with
  | Nothing => Some ([], e)
  | Help => Some (cmd_help, e)
  | Clear => Some (NL ++ mjoin (replicate 40 NL), e)
  | Echo None => Some (NL ++ NL, e)
  | Echo (Some m) => Some (NL ++ m ++ NL, e)
  | Ls => '(o, e) ← ls_root e; Some (NL ++ o, e)
  | Cat f => '(o, e) ← cat_file f e; Some (NL ++ o, e)
  | CatUsage => Some (NL ++ str "Usage: cat <filename>" ++ NL, e)
  | Uname => Some (cmd_uname, e)
  | Unknown l => Some (NL ++ str "Unknown command: " ++ l ++ NL, e)
  end.

(** The line editor: the line typed so far. *)
Definition edit (c : Z) (l : list Z) (e : FS) : option (list Z * list Z * FS) :=
  if c =? 0 then Some ([], l, e)
  else if c =? 10 then '(o, e) ← perform (parse l) e; Some (o ++ prompt, [], e)
  else if c =? 8 then
    match l with [] => Some ([], l, e) | _ => Some ([8; 32; 8], removelast l, e) end
  else if Z.of_nat (length l) <? CMD_MAX_LEN - 1 then Some ([c], l ++ [c], e)
  else Some ([], l, e).

Fixpoint edit_run (cs l : list Z) (e : FS) : option (list Z * list Z * FS) :=
  match cs with
  | [] => Some ([], l, e)
  | c :: cs =>
      '(o1, l, e) ← edit c l e;
      '(o2, l, e) ← edit_run cs l e;
      Some (o1 ++ o2, l, e)
  end.

(** *** Recognising a command *)

Lemma strcmp_word buf l w :
  cstring buf l -> Forall (fun c => 0 <= c) l -> 0 ∉ w -> Forall (fun c => 0 <= c) w ->
  exists r, strcmp buf (w ++ [0]) = Some r /\ (r =? 0) = bool_decide (l = w).
Proof.
  intros Hb Hl Hw0 Hw. destruct (strcmp_lex buf (w ++ [0]) l w) as (r & E & Hr); [done| |done..|].
  { by exists []. }
  exists r. split; [done|]. apply Bool.eq_iff_eq_true. rewrite Z.eqb_eq, bool_decide_eq_true.
  rewrite <- lex_eq, <- Hr. symmetry. apply Z.compare_eq_iff.
Qed.

Lemma take_terminated (l w : list Z) :
  0 ∉ w -> take (length w) (l ++ [0]) = w <-> take (length w) l = w.
Proof.
  intros Hw. destruct (decide (length w <= length l)%nat).
  - by rewrite take_app_le.
  - split; intros H; exfalso.
    + rewrite take_ge in H by (rewrite length_app; simpl; lia). rewrite <- H in Hw. set_solver.
    + apply (f_equal length) in H. rewrite length_take in H. lia.
Qed.

Lemma word_length l w : word l w = true -> (length w <= length l)%nat.
Proof.
  unfold word. intros [Ht%bool_decide_eq_true _]%andb_prop. apply (f_equal length) in Ht.
  rewrite length_take in Ht. lia.
Qed.

(** The test [strncmp(cmd, w, n) == 0 && (cmd[n] == ' ' || cmd[n] == 0)]. *)
Definition word_test (buf w : list Z) : option bool :=
  r ← strncmp buf (w ++ [0]) (Z.of_nat (length w));
  if r =? 0 then c ← zget buf (Z.of_nat (length w)); Some ((c =? 32) || (c =? 0)) else Some false.

Lemma zget_after (pre post : list Z) c : zget (pre ++ c :: post) (Z.of_nat (length pre)) = Some c.
Proof.
  rewrite <- (Z.add_0_r (Z.of_nat _)), zget_app_r by lia. done.
Qed.

Lemma cstring_drop buf l n :
  cstring buf l -> (n <= length l)%nat -> cstring (drop n buf) (drop n l).
Proof.
  intros (r & -> & Hn) Hl. exists r. split; [by rewrite drop_app_le|].
  intros Hin. apply Hn. rewrite <- (take_drop n l). apply elem_of_app. by right.
Qed.

Lemma word_test_spec buf l w :
  cstring buf l -> 0 ∉ w -> w ≠ [] -> word_test buf w = Some (word l w).
Proof.
  intros Hb Hw Hw1. assert (0 < length w)%nat by (destruct w; [done|simpl; lia]).
  unfold word_test, strncmp, word. destruct (Z.eqb_spec (Z.of_nat (length w)) 0); [lia|].
  destruct (strncmp_loop_spec (Z.to_nat (Z.of_nat (length w))) buf (w ++ [0]) l w) as (r & -> & Hr);
    [lia|done|by exists []|]. cbn [mbind option_bind].
  rewrite Nat2Z.id, (take_app_length w [0]), take_terminated in Hr by done.
  destruct (Z.eqb_spec r 0) as [->|Hr0].
  - destruct Hr as [Hr _]. specialize (Hr eq_refl). rewrite bool_decide_true by done. cbn [andb].
    destruct Hb as (rest & -> & Hn). rewrite <- (take_drop (length w) l) at 1. rewrite Hr.
    destruct (drop (length w) l) as [|c t] eqn:Ed.
    + rewrite app_nil_r, zget_after. done.
    + rewrite <- app_assoc. cbn [app]. rewrite zget_after. cbn.
      assert (c ≠ 0). { intros ->. apply Hn. rewrite <- (take_drop (length w) l), Ed. set_solver. }
      replace (c =? 0) with false by lia. by rewrite orb_false_r.
  - rewrite bool_decide_false; [done|]. intros Ht. by apply Hr0, Hr.
Qed.

(** *** Executing a command *)

Lemma skip_spaces_spec s l : cstring s l -> exists s', skip_spaces s = Some s' /\ cstring s' (drop_spaces l).
Proof.
  revert s. induction l as [|c l IH]; intros s Hs.
  - apply cstring_nil in Hs as [t ->]. exists (0 :: t). split; [done|]. exists t. split; [done|set_solver].
  - apply cstring_cons in Hs as (t & -> & Hc & Ht). cbn [skip_spaces drop_spaces].
    destruct (c =? 32); [by apply IH|]. eexists. split; [done|]. destruct Ht as (r & -> & Hn).
    exists r. split; [done|]. by apply not_elem_of_cons.
Qed.

Lemma until_nul_cstring s l : cstring s l -> until_nul s = Some l.
Proof. intros (r & -> & Hn). by apply until_nul_app. Qed.

Lemma cmd_cat_spec s l e :
  cstring s l ->
  cmd_cat s e = perform (match drop_spaces l with [] => CatUsage | f => Cat f end) e.
Proof.
  intros Hs. destruct (skip_spaces_spec s l Hs) as (s' & E & Hs'). unfold cmd_cat. rewrite E.
  cbn [mbind option_bind]. destruct (drop_spaces l) as [|c t] eqn:Ed.
  - by apply cstring_nil in Hs' as [r ->].
  - pose proof (until_nul_cstring _ _ Hs') as Eu. apply cstring_cons in Hs' as (r & -> & Hc & _).
    assert (zget (c :: r) 0 = Some c) as -> by done. cbn [mbind option_bind].
    replace (c =? 0) with false by lia. rewrite Eu. cbn [mbind option_bind perform]. done.
Qed.

Lemma cmd_echo_spec buf l :
  cstring buf l -> Z.of_nat (length buf) = CMD_MAX_LEN -> 0 < base -> word l (str "echo") = true ->
  cmd_echo buf 4 = Some (match drop 4 l with [] => NL ++ NL | _ :: m => NL ++ m ++ NL end).
Proof.
  intros Hb Hlen Hbase Hw. apply word_length in Hw as Hl4. unfold word in Hw. apply andb_prop in Hw as [_ Hw].
  change (length (str "echo")) with 4%nat in *.
  pose proof (cstring_drop buf l 4 Hb Hl4) as Hd. unfold cmd_echo.
  assert (zget buf 4 = drop 4 buf !! 0%nat) as -> by (by rewrite lookup_drop). destruct (drop 4 l) as [|c m] eqn:Ed.
  - apply cstring_nil in Hd as [t ->]. done.
  - apply cstring_cons in Hd as (t & Et & Hc & Hm). rewrite Et.
    change ((c :: t) !! 0%nat) with (Some c). cbn [mbind option_bind]. rewrite Hw.
    destruct Hm as (r & -> & Hn).
    rewrite (printk_run_chars _ _ _ (m ++ [])); [by rewrite app_nil_r|].
    eapply (run_s _ [0]); [|lia|done|apply run_end]. unfold buf_mem, CMD_MAX_LEN.
    destruct (Z.leb_spec base (base + 4 + 1)), (Z.ltb_spec (base + 4 + 1) (base + 256)); try lia. cbn [andb].
    replace (Z.to_nat (base + 4 + 1 - base)) with (4 + 1)%nat by lia.
    rewrite <- drop_drop, Et. done.
Qed.

Lemma unknown_spec buf l :
  cstring buf l -> 0 < base ->
  printk_chars (buf_mem buf) (NL ++ str "Unknown command: %s" ++ NL ++ [0]) [base]
  = Some (NL ++ str "Unknown command: " ++ l ++ NL).
Proof.
  intros (r & Hb & Hn) Hbase. apply printk_run_chars.
  change (NL ++ str "Unknown command: %s" ++ NL ++ [0])
    with (NL ++ str "Unknown command: " ++ str "%s" ++ NL ++ [0]).
  rewrite <- (app_nil_r NL) at 4.
  apply run_lit; [decided|]. apply run_lit; [decided|]. eapply run_s; [|lia|done|].
  - unfold buf_mem, CMD_MAX_LEN. destruct (Z.leb_spec base base), (Z.ltb_spec base (base + 256)); try lia.
    cbn [andb]. rewrite Z.sub_diag. by rewrite Hb.
  - apply run_lit; [decided|]. apply run_end.
Qed.

Lemma shell_execute_spec buf l e :
  cstring buf l -> Forall (fun c => 0 <= c) l -> Z.of_nat (length buf) = CMD_MAX_LEN -> 0 < base ->
  shell_execute buf e = perform (parse l) e.
Proof.
  intros Hb Hl Hlen Hbase. unfold shell_execute, parse.
  destruct (bool_decide (l = [])) eqn:E0.
  { apply bool_decide_eq_true in E0 as ->. by apply cstring_nil in Hb as [t ->]. }
  destruct l as [|c l]; [done|]. pose proof Hb as Hb'. apply cstring_cons in Hb' as (t & Et & Hc & _).
  assert (zget buf 0 = Some c) as -> by (by rewrite Et). cbn [mbind option_bind].
  replace (c =? 0) with false by lia. clear t Et.
  destruct (strcmp_word buf (c :: l) (str "help")) as (r1 & -> & H1); [done..|decided|decided|].
  cbn [mbind option_bind]. rewrite H1. case_match; [done|].
  destruct (strcmp_word buf (c :: l) (str "clear")) as (r2 & -> & H2); [done..|decided|decided|].
  cbn [mbind option_bind]. rewrite H2. case_match; [done|].
  pose proof (word_test_spec buf (c :: l) (str "echo") Hb ltac:(decided) ltac:(done)) as We.
  unfold word_test in We. change (Z.of_nat (length (str "echo"))) with 4 in We.
  apply bind_Some in We as (r3 & -> & We). cbn [mbind option_bind]. cbn [mbind option_bind] in We.
  rewrite We. cbn [mbind option_bind]. destruct (word (c :: l) (str "echo")) eqn:Ew.
  { rewrite (cmd_echo_spec buf (c :: l)) by done. cbn [mbind option_bind]. by destruct (drop 4 (c :: l)). }
  destruct (strcmp_word buf (c :: l) (str "ls")) as (r4 & -> & H4); [done..|decided|decided|].
  cbn [mbind option_bind]. rewrite H4. destruct (bool_decide (c :: l = str "ls")); [reflexivity|].
  pose proof (word_test_spec buf (c :: l) (str "cat") Hb ltac:(decided) ltac:(done)) as Wc.
  unfold word_test in Wc. change (Z.of_nat (length (str "cat"))) with 3 in Wc.
  apply bind_Some in Wc as (r5 & -> & Wc). cbn [mbind option_bind]. cbn [mbind option_bind] in Wc.
  rewrite Wc. cbn [mbind option_bind]. destruct (word (c :: l) (str "cat")) eqn:Ewc.
  { unfold at_pos. apply cmd_cat_spec, (cstring_drop _ _ 3); [done|].
    by apply word_length in Ewc. }
  destruct (strcmp_word buf (c :: l) (str "uname")) as (r6 & -> & H6); [done..|decided|decided|].
  cbn [mbind option_bind]. rewrite H6. destruct (bool_decide (c :: l = str "uname")); [reflexivity|].
  by rewrite (unknown_spec buf (c :: l)).
Qed.

(** *** The buffer implements the line *)

Record shell_rep (s : shell) (l : list Z) : Prop := {
  rep_len : cmd_len s = Z.of_nat (length l);
  rep_max : cmd_len s < CMD_MAX_LEN;
  rep_buf : Z.of_nat (length (cmd_buf s)) = CMD_MAX_LEN;
  rep_line : take (length l) (cmd_buf s) = l;
  rep_nul : 0 ∉ l;
  rep_byte : Forall (fun c => 0 <= c) l
}.

Lemma empty_rep buf : Z.of_nat (length buf) = CMD_MAX_LEN -> shell_rep (mk_shell buf 0) [].
Proof. intros. constructor; cbn; try done. apply not_elem_of_nil. Qed.

Lemma shell_handle_char_refines c s l e :
  0 < base -> 0 <= c -> shell_rep s l ->
  match edit c l e with
  | Some (o, l', e') => exists s', shell_handle_char c s e = Some (o, s', e') /\ shell_rep s' l'
  | None => shell_handle_char c s e = None
  end.
Proof.
  intros Hbase Hc [Hlen Hmax Hbuf Hline Hnul Hbyte]. unfold edit, shell_handle_char.
  destruct (Z.eqb_spec c 0); [by exists s|]. unfold CMD_MAX_LEN in *.
  destruct (Z.eqb_spec c 10); [|destruct (Z.eqb_spec c 8)].
  - rewrite zset_in_range by lia. cbn [mbind option_bind].
    set (buf := <[Z.to_nat (cmd_len s) := 0]> (cmd_buf s)).
    assert (length buf = length (cmd_buf s)) as Hl by apply length_insert.
    rewrite (shell_execute_spec buf l).
    + destruct (perform (parse l) e) as [[o e']|]; [|done]. cbn [mbind option_bind].
      eexists. split; [done|]. apply empty_rep. unfold CMD_MAX_LEN. lia.
    + exists (drop (S (length l)) (cmd_buf s)). split; [|done]. unfold buf.
      rewrite insert_take_drop by lia. rewrite Hlen, Nat2Z.id, Hline. done.
    + done.
    + unfold CMD_MAX_LEN. lia.
    + done.
  - destruct l as [|x l0] eqn:El; [cbn in Hlen; rewrite Hlen; by exists s|]. rewrite <- El in *.
    destruct (Z.ltb_spec 0 (cmd_len s)); [|rewrite El in Hlen; cbn in Hlen; lia].
    eexists. split; [done|]. rewrite removelast_firstn_len.
    constructor; cbn; unfold CMD_MAX_LEN; rewrite ?length_take; try lia.
    + rewrite <- Hline at 4. rewrite take_take. f_equal; lia.
    + intros Hin. apply Hnul. rewrite <- (take_drop (pred (length l)) l). apply elem_of_app. by left.
    + by apply Forall_take.
  - rewrite Hlen. destruct (Z.ltb_spec (Z.of_nat (length l)) (256 - 1)).
    2:{ exists s. split; [done|]. by constructor. }
    rewrite zset_in_range by lia. cbn [mbind option_bind]. eexists. split; [done|].
    constructor; cbn; unfold CMD_MAX_LEN; rewrite ?length_app, ?length_insert; cbn; try lia.
    + rewrite Nat.add_1_r, Nat2Z.id, (take_S_r _ _ c) by (apply list_lookup_insert_eq; lia).
      by rewrite take_insert_ge, Hline by lia.
    + set_solver.
    + apply Forall_app. split; [done|]. by constructor.
Qed.

Lemma shell_run_refines cs s l e :
  0 < base -> Forall (fun c => 0 <= c) cs -> shell_rep s l ->
  match edit_run cs l e with
  | Some (o, l', e') => exists s', shell_run cs s e = Some (o, s', e') /\ shell_rep s' l'
  | None => shell_run cs s e = None
  end.
Proof.
  intros Hbase Hcs. revert s l e. induction Hcs as [|c cs Hc _ IH]; intros s l e Hrep; cbn [edit_run shell_run].
  { by exists s. }
  pose proof (shell_handle_char_refines c s l e Hbase Hc Hrep) as H1.
  destruct (edit c l e) as [[[o1 l1] e1]|]; cbn [mbind option_bind]; [|by rewrite H1].
  destruct H1 as (s1 & -> & Hrep1). cbn [mbind option_bind]. specialize (IH s1 l1 e1 Hrep1).
  destruct (edit_run cs l1 e1) as [[[o2 l2] e2]|]; cbn [mbind option_bind]; [|by rewrite IH].
  destruct IH as (s2 & -> & Hrep2). by exists s2.
Qed.
End Shell.

Definition shell0 : shell := mk_shell (replicate 256 0) 0.

Lemma shell0_rep : shell_rep shell0 [].
Proof. by apply empty_rep. Qed.

(** C8: fed any sequence of bytes from its initial state, the shell prints
    exactly what the abstract line editor prints, running exactly the commands
    the edited lines denote, with the same effects on the file system; the
    256-byte buffer and its index are never used out of range. *)
Theorem shell_refines_editor {FS} ls_root cat_file base cs (e : FS) :
  0 < base -> Forall (fun c => 0 <= c) cs ->
  match edit_run ls_root cat_file cs [] e with
  | Some (o, l, e') => exists s, shell_run ls_root cat_file base cs shell0 e = Some (o, s, e') /\ shell_rep s l
  | None => shell_run ls_root cat_file base cs shell0 e = None
  end.
Proof. intros Hb Hcs. apply shell_run_refines; [done..|apply shell0_rep]. Qed.

(** Typing [ecx], a backspace, [ho hi] and enter. *)
Lemma shell_refines_editor_witness :
  match edit_run (fun e : unit => Some ([], e)) (fun _ e => Some ([], e))
          (str "ecx" ++ [8] ++ str "ho hi" ++ [10]) [] tt with
  | Some (o, l, e') =>
      exists s, shell_run (fun e : unit => Some ([], e)) (fun _ e => Some ([], e)) 4096
                  (str "ecx" ++ [8] ++ str "ho hi" ++ [10]) shell0 tt = Some (o, s, e') /\ shell_rep s l
  | None => False
  end.
Proof.
  apply (shell_refines_editor (fun e : unit => Some ([], e)) (fun _ e => Some ([], e)) 4096
           (str "ecx" ++ [8] ++ str "ho hi" ++ [10]) tt); [lia|decided].
Defined.
End Shell.

(** ** The keyboard *)

Module Keyboard.
(** The characters of a row of keys, then the rest of the table, zero-filled. *)
Definition fill (n : nat) (l : list Z) : list Z := l ++ replicate (n - length l) 0.

Definition key_map : list Z :=
  fill 128 ([0; 27] ++ str "1234567890-=" ++ [8; 9] ++ str "qwertyuiop[]" ++ [10; 0]
            ++ str "asdfghjkl;'`" ++ [0; 92] ++ str "zxcvbnm,./" ++ [0; 42; 0; 32]
            ++ replicate 11 0 ++ [0; 0; 0; 0; 0; 45; 0; 0; 0; 43; 0; 0; 0; 0]).

Definition shift_map : list Z :=
  fill 128 ([0; 27] ++ str "!@#$%^&*()_+" ++ [8; 9] ++ str "QWERTYUIOP{}" ++ [10; 0]
            ++ str "ASDFGHJKL:" ++ [34] ++ str "~" ++ [0; 124] ++ str "ZXCVBNM<>?" ++ [0; 42; 0; 32]
            ++ replicate 11 0 ++ [0; 0; 0; 0; 0; 45; 0; 0; 0; 43; 0; 0; 0; 0]).

Definition alt_map : list Z :=
  fill 128 ([0; 0; 0; 64; 0; 36; 0; 0; 123; 91; 93; 125; 0; 0; 0; 0] ++ replicate 12 0 ++ [10; 0]
            ++ replicate 12 0 ++ [0; 92] ++ replicate 10 0 ++ [0; 42; 0; 32]).

Section Driver.
Context {D : Type} `{!PortIO D}.

Definition KYBRD_CTRL_STATS_MASK_OUT_BUF : Z := 1.
Definition KYBRD_CTRL_STATS_MASK_IN_BUF : Z := 2.

Definition wait_input_empty (fuel : nat) (d : D) : option D :=
  poll fuel 100 KYBRD_CTRL_STATS_MASK_IN_BUF false d.

Definition wait_output_full (fuel : nat) (d : D) : option D :=
  poll fuel 100 KYBRD_CTRL_STATS_MASK_OUT_BUF true d.

Definition kb_ctrl_rd_status (d : D) : Z * D := inb 100 d.

Definition kb_ctrl_send_cmd (fuel : nat) (cmd : Z) (d : D) : option D :=
  d ← wait_input_empty fuel d; Some (outb 100 cmd d).

Definition kb_enc_read_buf (d : D) : Z * D := inb 96 d.

Definition kybrd_enc_send_cmd (fuel : nat) (cmd : Z) (d : D) : option D :=
  d ← wait_input_empty fuel d; Some (outb 96 cmd d).

(** [while (inb(0x64) & OUT_BUF) inb(0x60);] *)
Fixpoint flush (fuel : nat) (d : D) : option D :=
  match fuel with
  | O => None
  | S fuel =>
      let '(v, d) := inb 100 d in
      if has_flag v KYBRD_CTRL_STATS_MASK_OUT_BUF then flush fuel (inb 96 d).2 else Some d
  end.

(** The new configuration byte: interrupt on, clock enabled, translation on. *)
Definition ccb_update (cmd : Z) : Z :=
  let cmd := Z.lor cmd 1 in
  let cmd := Z.land cmd (Z.lnot 16) in
  u8 (Z.lor cmd 64).

Definition kb_init (fuel : nat) (d : D) : option D :=
  d ← flush fuel d;
  d ← wait_input_empty fuel d;
  let d := outb 100 32 d in
  d ← wait_output_full fuel d;
  let '(cmd, d) := inb 96 d in
  let cmd := ccb_update cmd in
  d ← wait_input_empty fuel d;
  let d := outb 100 96 d in
  d ← wait_input_empty fuel d;
  let d := outb 96 cmd d in
  d ← wait_input_empty fuel d;
  let d := outb 100 174 d in
  d ← wait_input_empty fuel d;
  let d := outb 96 244 d in
  d ← wait_output_full fuel d;
  let d := (inb 96 d).2 in
  flush fuel d.

(** [tty] is [do_tty] with the state of the shell behind it. *)
Context {T : Type} (tty : Z -> T -> option T).

Definition keyboard_driver (d : D) (t : T) : option (D * T) :=
  let '(scancode, d) := inb 96 d in
  if has_flag scancode 128 then Some (Pic.send_EOI 1 d, t)
  else
    c ← zget key_map scancode;
    t ← (if c =? 0 then Some t else tty c t);
    Some (Pic.send_EOI 1 d, t).

(** Every press is looked up inside the table, every release is ignored, and
    the interrupt is always acknowledged. *)
Lemma keyboard_driver_spec d t :
  0 <= (inb 96 d).1 < 256 -> (forall c t, 0 < c < 128 -> is_Some (tty c t)) ->
  exists t', keyboard_driver d t = Some (Pic.send_EOI 1 (inb 96 d).2, t') /\
    (128 <= (inb 96 d).1 -> t' = t).
Proof.
  unfold keyboard_driver. destruct (inb 96 d) as [sc d']. cbn [fst snd]. intros Hsc Htty.
  destruct (has_flag sc 128) eqn:Ef; [by exists t|].
  assert (sc < 128) as Hlt.
  { change 128 with (2 ^ 7) in Ef. rewrite land_pow2_testbit in Ef by lia.
    destruct (Z_lt_le_dec sc 128); [done|]. rewrite (Z.testbit_eqb _ 7) in Ef by lia.
    apply Z.eqb_neq in Ef. destruct Ef. rewrite (Z.mod_small (sc `div` 2 ^ 7)).
    - assert (1 <= sc `div` 2 ^ 7 < 2); [|lia]. split; [apply Z.div_le_lower_bound; lia|apply Z.div_lt_upper_bound; lia].
    - split; [apply Z.div_pos; lia|apply Z.div_lt_upper_bound; lia]. }
  assert (exists c, zget key_map sc = Some c /\ 0 <= c < 128) as (c & -> & Hc).
  { destruct (zget_is_Some key_map sc) as [c Hk]; [change (Z.of_nat (length key_map)) with 128; lia|].
    exists c. split; [done|]. unfold zget in Hk. destruct (sc <? 0); [done|].
    assert (Forall (fun c => 0 <= c < 128) key_map) as Hall by decided.
    by apply (Forall_lookup_1 _ _ _ _ Hall Hk). }
  cbn [mbind option_bind]. destruct (Z.eqb_spec c 0); cbn [mbind option_bind].
  { exists t. split; [done|lia]. }
  destruct (Htty c t) as [t' ->]; [lia|]. cbn [mbind option_bind]. exists t'. split; [done|lia].
Qed.
End Driver.

(** The three bits [kb_init] means to change, and no other. *)
Lemma ccb_update_bits cmd i :
  0 <= cmd < 256 -> 0 <= i < 8 ->
  Z.testbit (ccb_update cmd) i
  = if (i =? 0) || (i =? 6) then true else if i =? 4 then false else Z.testbit cmd i.
Proof.
  intros Hc Hi. unfold ccb_update. rewrite Pic.testbit_u8 by lia.
  rewrite Z.lor_spec, Z.land_spec, Z.lor_spec, Z.lnot_spec by lia.
  revert i Hi. check_range 0 8 ltac:(cbn -[Z.testbit];
    rewrite ?orb_true_r, ?orb_false_r, ?andb_true_r, ?andb_false_r; try reflexivity).
Qed.
End Keyboard.
