(* ===== verification/Sched.v ===== *)
(** * Processes: scheduling, fork, signals and the timer tick
    (kernel/task.c, kernel/fork.c, drivers/timer.c)

    Task structures, thread_info blocks and saved register frames live in maps
    keyed by address; the process table is an array of 32 task pointers.  The
    memory they come from is an interface ([KernelMem]); the stack switch and
    the signal trampoline are assembly and therefore parameters. *)

From S2P Require Export Prelude.

(** ** Data *)

Definition NR_TASKS : Z := 32.
Definition TIME_QUANTUM : Z := 20.
Definition READY_TO_RUN_M : Z := 3.
Definition ZOMBIE : Z := 9.
Definition SIGCLD : Z := 17.
Definition KERNEL_DATA : Z := 16.
Definition KERNEL_CS : Z := 8.
Definition STACK_SIZE : Z := 8192.
Definition KSTACK_ORDER : Z := 1.
Definition PAGE_OFFSET : Z := 0xC0000000.
Definition PAGE_SHIFT : Z := 12.
Definition sizeof_pt_regs : Z := 68.

Record thread_struct := mk_thread { esp0 : Z; esp : Z; ss0 : Z; eip : Z }.

(** The fields of [struct task_struct] this code reads or writes. *)
Record task_struct := mk_task {
  thread : thread_struct;
  stack : Z;
  state : Z;
  priority : Z;
  counter : Z;
  signal : Z;
  sighandle : Z;
  sig_fn : list Z;
  pid : Z;
  father : Z;
  utime : Z;
  stime : Z;
  used_math : Z
}.

Definition zero_task : task_struct :=
  mk_task (mk_thread 0 0 0 0) 0 0 0 0 0 0 (replicate 32 0) 0 0 0 0 0.

Record thread_info := mk_tinfo { ti_task : option Z; ti_flags : Z }.

Record pt_regs := mk_regs {
  ebx : Z; ecx : Z; edx : Z; esi : Z; edi : Z; ebp : Z; eax : Z;
  r_ds : Z; r_es : Z; r_fs : Z; r_gs : Z; orig_eax : Z;
  r_eip : Z; r_cs : Z; eflags : Z; oldesp : Z; oldss : Z
}.

Definition zero_regs : pt_regs := mk_regs 0 0 0 0 0 0 0 0 0 0 0 0 0 0 0 0 0.

Definition set_eax (v : Z) (r : pt_regs) : pt_regs :=
  mk_regs (ebx r) (ecx r) (edx r) (esi r) (edi r) (ebp r) v (r_ds r) (r_es r) (r_fs r) (r_gs r)
    (orig_eax r) (r_eip r) (r_cs r) (eflags r) (oldesp r) (oldss r).
Definition set_oldesp (v : Z) (r : pt_regs) : pt_regs :=
  mk_regs (ebx r) (ecx r) (edx r) (esi r) (edi r) (ebp r) (eax r) (r_ds r) (r_es r) (r_fs r) (r_gs r)
    (orig_eax r) (r_eip r) (r_cs r) (eflags r) v (oldss r).

Definition set_thread (th : thread_struct) (t : task_struct) : task_struct :=
  mk_task th (stack t) (state t) (priority t) (counter t) (signal t) (sighandle t) (sig_fn t)
    (pid t) (father t) (utime t) (stime t) (used_math t).
Definition set_stack (v : Z) (t : task_struct) : task_struct :=
  mk_task (thread t) v (state t) (priority t) (counter t) (signal t) (sighandle t) (sig_fn t)
    (pid t) (father t) (utime t) (stime t) (used_math t).
Definition set_state (v : Z) (t : task_struct) : task_struct :=
  mk_task (thread t) (stack t) v (priority t) (counter t) (signal t) (sighandle t) (sig_fn t)
    (pid t) (father t) (utime t) (stime t) (used_math t).
Definition set_priority (v : Z) (t : task_struct) : task_struct :=
  mk_task (thread t) (stack t) (state t) v (counter t) (signal t) (sighandle t) (sig_fn t)
    (pid t) (father t) (utime t) (stime t) (used_math t).
Definition set_counter (v : Z) (t : task_struct) : task_struct :=
  mk_task (thread t) (stack t) (state t) (priority t) v (signal t) (sighandle t) (sig_fn t)
    (pid t) (father t) (utime t) (stime t) (used_math t).
Definition set_signal (v : Z) (t : task_struct) : task_struct :=
  mk_task (thread t) (stack t) (state t) (priority t) (counter t) v (sighandle t) (sig_fn t)
    (pid t) (father t) (utime t) (stime t) (used_math t).
Definition set_sighandle (v : Z) (t : task_struct) : task_struct :=
  mk_task (thread t) (stack t) (state t) (priority t) (counter t) (signal t) v (sig_fn t)
    (pid t) (father t) (utime t) (stime t) (used_math t).
Definition set_pid (v : Z) (t : task_struct) : task_struct :=
  mk_task (thread t) (stack t) (state t) (priority t) (counter t) (signal t) (sighandle t) (sig_fn t)
    v (father t) (utime t) (stime t) (used_math t).
Definition set_father (v : Z) (t : task_struct) : task_struct :=
  mk_task (thread t) (stack t) (state t) (priority t) (counter t) (signal t) (sighandle t) (sig_fn t)
    (pid t) v (utime t) (stime t) (used_math t).
Definition set_utime (v : Z) (t : task_struct) : task_struct :=
  mk_task (thread t) (stack t) (state t) (priority t) (counter t) (signal t) (sighandle t) (sig_fn t)
    (pid t) (father t) v (stime t) (used_math t).
Definition set_stime (v : Z) (t : task_struct) : task_struct :=
  mk_task (thread t) (stack t) (state t) (priority t) (counter t) (signal t) (sighandle t) (sig_fn t)
    (pid t) (father t) (utime t) v (used_math t).
Definition set_used_math (v : Z) (t : task_struct) : task_struct :=
  mk_task (thread t) (stack t) (state t) (priority t) (counter t) (signal t) (sighandle t) (sig_fn t)
    (pid t) (father t) (utime t) (stime t) v.

(** ** The memory behind it

    Task structures come zeroed from their slab cache, kernel stacks are runs
    of two page frames; both allocators may run dry. *)

Class KernelMem (M : Type) := {
  zalloc_task : M -> option (option Z * M);
  free_task : Z -> M -> option M;
  alloc_stack_pages : M -> option (option Z * M);
  task_live : M -> Z -> Prop;
  stack_used : M -> Z -> Prop;
  zalloc_task_spec m : exists r m', zalloc_task m = Some (r, m') /\
    (forall i, stack_used m' i <-> stack_used m i) /\
    match r with
    | Some a => 0 < a < 2 ^ 32 /\ ~ task_live m a /\ forall b, task_live m' b <-> task_live m b \/ b = a
    | None => forall b, task_live m' b <-> task_live m b
    end;
  free_task_spec m a : task_live m a -> exists m', free_task a m = Some m' /\
    (forall i, stack_used m' i <-> stack_used m i) /\
    forall b, task_live m' b <-> task_live m b /\ b ≠ a;
  alloc_stack_spec m : exists r m', alloc_stack_pages m = Some (r, m') /\
    (forall b, task_live m' b <-> task_live m b) /\
    match r with
    | Some i => 0 <= i /\ i + 2 < 2 ^ 18 /\ (2 | i) /\ ~ stack_used m i /\
                forall j, stack_used m' j <-> stack_used m j \/ j = i
    | None => forall j, stack_used m' j <-> stack_used m j
    end
}.

Record sched {M : Type} := mk_sched {
  tasks : gmap Z task_struct;
  tinfos : gmap Z thread_info;
  frames : gmap Z pt_regs;
  process_table : list (option Z);
  current : option Z;
  last_task_used_math : option Z;
  tss_ss0 : Z;
  mem : M
}.
Arguments sched : clear implicits.

Section Sched.
Context {M : Type} `{!KernelMem M}.

Definition set_tasks (v : gmap Z task_struct) (s : sched M) : sched M :=
  mk_sched _ v (tinfos s) (frames s) (process_table s) (current s) (last_task_used_math s) (tss_ss0 s) (mem s).
Definition set_tinfos (v : gmap Z thread_info) (s : sched M) : sched M :=
  mk_sched _ (tasks s) v (frames s) (process_table s) (current s) (last_task_used_math s) (tss_ss0 s) (mem s).
Definition set_frames (v : gmap Z pt_regs) (s : sched M) : sched M :=
  mk_sched _ (tasks s) (tinfos s) v (process_table s) (current s) (last_task_used_math s) (tss_ss0 s) (mem s).
Definition set_table (v : list (option Z)) (s : sched M) : sched M :=
  mk_sched _ (tasks s) (tinfos s) (frames s) v (current s) (last_task_used_math s) (tss_ss0 s) (mem s).
Definition set_current (v : option Z) (s : sched M) : sched M :=
  mk_sched _ (tasks s) (tinfos s) (frames s) (process_table s) v (last_task_used_math s) (tss_ss0 s) (mem s).
Definition set_last_math (v : option Z) (s : sched M) : sched M :=
  mk_sched _ (tasks s) (tinfos s) (frames s) (process_table s) (current s) v (tss_ss0 s) (mem s).
Definition set_mem (v : M) (s : sched M) : sched M :=
  mk_sched _ (tasks s) (tinfos s) (frames s) (process_table s) (current s) (last_task_used_math s) (tss_ss0 s) v.
Definition set_tss_ss0 (v : Z) (s : sched M) : sched M :=
  mk_sched _ (tasks s) (tinfos s) (frames s) (process_table s) (current s) (last_task_used_math s) v (mem s).

Definition upd_task (a : Z) (f : task_struct -> task_struct) (s : sched M) : option (sched M) :=
  t ← tasks s !! a; Some (set_tasks (<[a := f t]> (tasks s)) s).

(** ** Allocation of stacks and task structures (task.c) *)

(** [page_address]: the kernel virtual address of a page frame. *)
Definition page_address (pfn : Z) : Z := u32 (Z.shiftl pfn PAGE_SHIFT + PAGE_OFFSET).

(** The top of a fresh stack. *)
Definition alloc_kernel_stack (s : sched M) : option (option Z * sched M) :=
  '(p, m) ← alloc_stack_pages (mem s);
  let s := set_mem m s in
  match p with
  | None => Some (None, s)
  | Some p => Some (Some (u32 (page_address p + STACK_SIZE)), s)
  end.

Definition alloc_task_struct (s : sched M) : option (option Z * sched M) :=
  '(r, m) ← zalloc_task (mem s);
  let s := set_mem m s in
  match r with
  | None => Some (None, s)
  | Some a => Some (Some a, set_tasks (<[a := zero_task]> (tasks s)) s)
  end.

Definition free_task_struct (a : Z) (s : sched M) : option (sched M) :=
  m ← free_task a (mem s);
  Some (set_tasks (delete a (tasks s)) (set_mem m s)).

Definition alloc_thread_info (s : sched M) : option (option Z * sched M) :=
  '(top, s) ← alloc_kernel_stack s;
  match top with
  | None => Some (None, s)
  | Some top => Some (Some (u32 (top - STACK_SIZE)), s)
  end.

(** ** Scheduling (task.c) *)

(** What the assembly of [switch_to] stores in the outgoing task: its stack
    pointer and resume address. *)
Context (save_context : thread_struct -> thread_struct).

Definition context_switch (prev next : Z) (s : sched M) : option (sched M) :=
  _ ← tasks s !! next;
  let s := set_current (Some next) s in
  upd_task prev (fun t => set_thread (save_context (thread t)) t) s.

(** The scan of [schedule]: [n] slots left, [iCnt] the next distance. *)
Fixpoint pick_next (s : sched M) (cur_pid iCnt : Z) (n : nat) : option (option Z) :=
  match n with
  | O => Some None
  | S n =>
      let idx := Z.rem (cur_pid + iCnt) NR_TASKS in
      e ← zget (process_table s) idx;
      match e with
      | Some a =>
          t ← tasks s !! a;
          if state t =? READY_TO_RUN_M then Some (Some idx) else pick_next s cur_pid (iCnt + 1) n
      | None => pick_next s cur_pid (iCnt + 1) n
      end
  end.

Definition schedule (s : sched M) : option (sched M) :=
  cur ← current s;
  ct ← tasks s !! cur;
  next ← pick_next s (pid ct) 1 (Z.to_nat (NR_TASKS - 1));
  match next with
  | None => Some s
  | Some next =>
      if next =? pid ct then Some s
      else
        e ← zget (process_table s) next;
        tnext ← e;
        s ← upd_task tnext (set_counter TIME_QUANTUM) s;
        context_switch cur tnext s
  end.

Definition do_exit (sig : Z) (s : sched M) : option (sched M) :=
  cur ← current s;
  s ← upd_task cur (set_state ZOMBIE) s;
  schedule s.

Fixpoint find_empty_from (tbl : list (option Z)) (iCnt : Z) (n : nat) : option Z :=
  match n with
  | O => Some (-1)
  | S n =>
      e ← zget tbl iCnt;
      match e with None => Some iCnt | Some _ => find_empty_from tbl (iCnt + 1) n end
  end.

Definition find_empty_process (s : sched M) : option Z :=
  find_empty_from (process_table s) 1 (Z.to_nat (NR_TASKS - 1)).

(** ** The timer tick (timer.c); [cpl] is the privilege level interrupted *)

Definition operate_timer (cpl : Z) (s : sched M) : option (sched M) :=
  cur ← current s;
  s ← upd_task cur (fun t => if negb (cpl =? 0) then set_utime (s32 (utime t + 1)) t
                             else set_stime (s32 (stime t + 1)) t) s;
  s ← upd_task cur (fun t => set_counter (u32 (counter t - 1)) t) s;
  t ← tasks s !! cur;
  if 0 <? counter t then Some s
  else s ← upd_task cur (set_counter TIME_QUANTUM) s; schedule s.

(** ** Signals (task.c) *)

Definition siglen : nat := 4.

(** The scan of [issig]; [n] rounds left. *)
Fixpoint issig_loop (cur : Z) (iCnt : Z) (n : nat) (s : sched M) : option (bool * sched M) :=
  match n with
  | O => Some (false, s)
  | S n =>
      s ← upd_task cur (set_sighandle iCnt) s;
      t ← tasks s !! cur;
      if has_flag (signal t) (Z.shiftl 1 iCnt) then
        fn ← zget (sig_fn t) iCnt;
        if (if iCnt =? SIGCLD then negb (fn =? 1) && (fn =? 0) else fn =? 0) then Some (true, s)
        else
          s ← upd_task cur (fun t => set_signal (Z.land (signal t) (Z.lnot (Z.shiftl 1 iCnt))) t) s;
          issig_loop cur (iCnt + 1) n s
      else issig_loop cur (iCnt + 1) n s
  end.

Definition issig (s : sched M) : option (bool * sched M) :=
  cur ← current s; issig_loop cur 0 siglen s.

(** [handle_sig] is assembly. *)
Context (handle_sig : sched M -> option (sched M)).

Definition psig (s : sched M) : option (sched M) :=
  '(r, s) ← issig s;
  cur ← current s;
  t ← tasks s !! cur;
  if negb r then do_exit (sighandle t) s
  else
    s ← upd_task cur (fun t => set_signal (Z.land (signal t) (Z.lnot (Z.shiftl 1 (sighandle t)))) t) s;
    fn ← zget (sig_fn t) (sighandle t);
    if fn =? 0 then handle_sig s else do_exit (sighandle t) s.

(** A [NULL] slot is dereferenced, and [sig] is used as a mask. *)
Fixpoint do_kill_loop (p sig iCnt : Z) (n : nat) (s : sched M) : option (Z * sched M) :=
  match n with
  | O => Some (-1, s)
  | S n =>
      e ← zget (process_table s) iCnt;
      a ← e;
      t ← tasks s !! a;
      if pid t =? p then
        if has_flag (signal t) sig then Some (0, s)
        else s ← upd_task a (fun t => set_signal (Z.lor (signal t) sig) t) s; Some (0, s)
      else do_kill_loop p sig (iCnt + 1) n s
  end.

Definition do_kill (p sig : Z) (s : sched M) : option (Z * sched M) :=
  do_kill_loop p sig 0 (Z.to_nat NR_TASKS) s.

Definition math_state_restore (s : sched M) : option (sched M) :=
  cur ← current s;
  t ← tasks s !! cur;
  s ← (if negb (used_math t =? 0) then Some s else upd_task cur (set_used_math 1) s);
  Some (set_last_math (Some cur) s).

(** ** Fork (fork.c) *)

(** The contents of stack memory nothing has written yet: the first task's
    thread_info is copied without ever having been filled in. *)
Context (stale : Z -> thread_info).

Definition setup_thread_stack (new org : Z) (s : sched M) : option (sched M) :=
  tn ← tasks s !! new;
  to ← tasks s !! org;
  let ti := default (stale (stack to)) (tinfos s !! stack to) in
  Some (set_tinfos (<[stack tn := mk_tinfo (Some new) (ti_flags ti)]> (tinfos s)) s).

Definition dup_task_struct (from : Z) (s : sched M) : option (option Z * sched M) :=
  '(new, s) ← alloc_task_struct s;
  match new with
  | None => Some (None, s)
  | Some new =>
      '(ti, s) ← alloc_thread_info s;
      match ti with
      | None => s ← free_task_struct new s; Some (None, s)
      | Some ti =>
          tf ← tasks s !! from;
          s ← upd_task new (fun _ => tf) s;
          s ← upd_task new (set_stack ti) s;
          s ← setup_thread_stack new from s;
          Some (Some new, s)
      end
  end.

(** The frame below the top of the stack, with 8 bytes in reserve. *)
Definition task_pt_regs (t : task_struct) : Z :=
  u32 (u32 (u32 (stack t + STACK_SIZE) - 8) - sizeof_pt_regs).

(** The address of [ret_from_fork]. *)
Context (ret_from_fork : Z).

Definition copy_thread (clone_flags sp new : Z) (regs : pt_regs) (s : sched M) : option (Z * sched M) :=
  t ← tasks s !! new;
  let childregs := task_pt_regs t in
  let r := set_eax 0 regs in
  let r := if negb (sp =? 0) then set_oldesp sp r else r in
  let s := set_frames (<[childregs := r]> (frames s)) s in
  s ← upd_task new (fun t =>
        set_thread (mk_thread (u32 (childregs + sizeof_pt_regs)) childregs (ss0 (thread t)) ret_from_fork) t) s;
  Some (0, s).

Definition copy_process (clone_flags stack_start : Z) (regs : pt_regs) (stack_size : Z) (s : sched M)
  : option (option Z * sched M) :=
  cur ← current s;
  '(new, s) ← dup_task_struct cur s;
  match new with
  | None => Some (None, s)
  | Some new =>
      '(ret, s) ← copy_thread clone_flags stack_start new regs s;
      if ret <? 0 then s ← free_task_struct new s; Some (None, s)
      else Some (Some new, s)
  end.

Definition do_fork (clone_flags stack_start : Z) (regs : pt_regs) (stack_size : Z) (s : sched M)
  : option (Z * sched M) :=
  nr ← find_empty_process s;
  if nr <? 0 then Some (-1, s)
  else
    '(new, s) ← copy_process clone_flags stack_start regs stack_size s;
    match new with
    | None => Some (-1, s)
    | Some new =>
        cur ← current s;
        ct ← tasks s !! cur;
        s ← upd_task new (fun t => set_counter TIME_QUANTUM (set_state READY_TO_RUN_M
                                     (set_father (pid ct) (set_pid nr t)))) s;
        tbl ← zset (process_table s) nr (Some new);
        Some (nr, set_table tbl s)
    end.

Definition sys_fork (regs : pt_regs) (s : sched M) : option (Z * sched M) :=
  do_fork 0 (oldesp regs) regs 0 s.

Definition fork (s : sched M) : option (Z * sched M) := do_fork 0 0 zero_regs 0 s.

Definition kernel_thread (fn arg : Z) (s : sched M) : option (Z * sched M) :=
  do_fork 0 0 (mk_regs 0 0 0 0 0 0 arg KERNEL_DATA KERNEL_DATA KERNEL_DATA 0 0 fn KERNEL_CS 514 0 0) 0 s.

(** ** Start-up (task.c)

    [cache_ok] is whether the creation of the task cache succeeded. *)

Definition sched_init (cache_ok : bool) (s : sched M) : option (sched M) :=
  let s := set_tss_ss0 KERNEL_DATA s in
  let s := set_table (replicate (Z.to_nat NR_TASKS) None) s in
  if negb cache_ok then Some s
  else
    '(init, s) ← alloc_task_struct s;
    match init with
    | None => Some s
    | Some init =>
        '(top, s) ← alloc_kernel_stack s;
        match top with
        | None => free_task_struct init s
        | Some top =>
            s ← upd_task init (fun t =>
                  set_pid 0 (set_counter TIME_QUANTUM (set_priority 1 (set_state READY_TO_RUN_M
                    (set_thread (mk_thread top top KERNEL_DATA (eip (thread t)))
                      (set_stack (u32 (top - STACK_SIZE)) t)))))) s;
            tbl ← zset (process_table s) 0 (Some init);
            Some (set_current (Some init) (set_table tbl s))
        end
    end.

(** ** Invariant *)

(** Slot [i] of the process table holds the task at [a]. *)
Definition slot (s : sched M) (i a : Z) : Prop := zget (process_table s) i = Some (Some a).

Record sched_inv (s : sched M) : Prop := {
  inv_len : Z.of_nat (length (process_table s)) = NR_TASKS;
  inv_slot i a : slot s i a -> exists t, tasks s !! a = Some t /\ pid t = i /\
    1 <= counter t <= TIME_QUANTUM /\ length (sig_fn t) = 32%nat /\ task_live (mem s) a;
  inv_cur : exists a t, current s = Some a /\ tasks s !! a = Some t /\ slot s (pid t) a
}.

(** The task in slot [i] can run. *)
Definition ready (s : sched M) (i : Z) : Prop :=
  exists a t, slot s i a /\ tasks s !! a = Some t /\ state t = READY_TO_RUN_M.

(** The process that is running. *)
Definition running (s : sched M) (i : Z) : Prop :=
  exists a t, current s = Some a /\ tasks s !! a = Some t /\ pid t = i.

(** *** Updates of one task *)

Lemma upd_task_some a f s t :
  tasks s !! a = Some t -> upd_task a f s = Some (set_tasks (<[a := f t]> (tasks s)) s).
Proof. intros E. unfold upd_task. by rewrite E. Qed.

Lemma slot_bound s i a : sched_inv s -> slot s i a -> 0 <= i < NR_TASKS.
Proof. intros Hs Hi. apply zget_Some_lt in Hi. pose proof (inv_len _ Hs). lia. Qed.

Lemma slot_lookup s i a : sched_inv s -> slot s i a -> is_Some (tasks s !! a).
Proof. intros Hs Hi. destruct (inv_slot _ Hs _ _ Hi) as (t & -> & _). eauto. Qed.

Lemma slot_fun s i a b : slot s i a -> slot s i b -> a = b.
Proof. unfold slot. congruence. Qed.

Lemma slot_inj s i j a : sched_inv s -> slot s i a -> slot s j a -> i = j.
Proof.
  intros Hs Hi Hj. destruct (inv_slot _ Hs _ _ Hi) as (t & E & <- & _).
  destruct (inv_slot _ Hs _ _ Hj) as (t' & E' & <- & _). congruence.
Qed.

Section Update.
Context (s : sched M) (a : Z) (t t' : task_struct).
Context (Hinv : sched_inv s) (Ha : tasks s !! a = Some t).
Context (Hpid : pid t' = pid t) (Hfn : sig_fn t' = sig_fn t).
Context (Hcnt : 1 <= counter t <= TIME_QUANTUM -> 1 <= counter t' <= TIME_QUANTUM).

Lemma upd_inv : sched_inv (set_tasks (<[a := t']> (tasks s)) s).
Proof.
  constructor; cbn.
  - apply (inv_len _ Hinv).
  - intros i b Hb. destruct (inv_slot _ Hinv i b Hb) as (tb & Etb & Hp & Hc & Hl & Hm).
    destruct (decide (b = a)) as [->|].
    + rewrite lookup_insert_eq. assert (tb = t) as -> by congruence.
      exists t'. rewrite Hpid, Hfn. auto.
    + rewrite lookup_insert_ne by done. by exists tb.
  - destruct (inv_cur _ Hinv) as (c & tc & Ec & Etc & Hsl). exists c.
    destruct (decide (c = a)) as [->|].
    + exists t'. rewrite lookup_insert_eq, Hpid. assert (tc = t) as -> by congruence. auto.
    + exists tc. rewrite lookup_insert_ne by done. auto.
Qed.

Lemma upd_ready i :
  state t' = state t -> ready (set_tasks (<[a := t']> (tasks s)) s) i <-> ready s i.
Proof.
  intros Hst. unfold ready, slot. cbn. split; intros (b & tb & Hb & Etb & Hr).
  - destruct (decide (b = a)) as [->|].
    + rewrite lookup_insert_eq in Etb. injection Etb as <-. exists a, t. rewrite <- Hst. auto.
    + rewrite lookup_insert_ne in Etb by done. eauto.
  - destruct (decide (b = a)) as [->|].
    + exists a, t'. rewrite lookup_insert_eq, Hst. assert (tb = t) as -> by congruence. auto.
    + exists b, tb. rewrite lookup_insert_ne by done. auto.
Qed.
End Update.

(** *** The scan *)

Lemma rem_mod i : 0 <= i -> Z.rem i NR_TASKS = i `mod` NR_TASKS.
Proof. intros. apply Z.rem_mod_nonneg; [done|]. unfold NR_TASKS. lia. Qed.

Lemma pick_next_spec s cur n : forall i,
  sched_inv s -> 0 <= cur -> 0 <= i ->
  exists r, pick_next s cur i n = Some r /\
  match r with
  | Some idx => exists k, i <= k < i + Z.of_nat n /\ idx = (cur + k) `mod` NR_TASKS /\ ready s idx /\
                  forall j, i <= j < k -> ~ ready s ((cur + j) `mod` NR_TASKS)
  | None => forall j, i <= j < i + Z.of_nat n -> ~ ready s ((cur + j) `mod` NR_TASKS)
  end.
Proof.
  induction n as [|n IH]; intros i Hs Hc Hi; cbn [pick_next].
  { exists None. split; [done|]. intros; lia. }
  rewrite rem_mod by lia. set (idx := (cur + i) `mod` NR_TASKS).
  assert (0 <= idx < NR_TASKS) by (apply Z.mod_pos_bound; unfold NR_TASKS; lia).
  destruct (zget_is_Some (process_table s) idx) as [e He]; [rewrite (inv_len _ Hs); lia|].
  rewrite He. cbn [mbind option_bind].
  assert (~ ready s idx -> exists r, pick_next s cur (i + 1) n = Some r /\
    match r with
    | Some idx => exists k, i <= k < i + Z.of_nat (S n) /\ idx = (cur + k) `mod` NR_TASKS /\ ready s idx /\
                    forall j, i <= j < k -> ~ ready s ((cur + j) `mod` NR_TASKS)
    | None => forall j, i <= j < i + Z.of_nat (S n) -> ~ ready s ((cur + j) `mod` NR_TASKS)
    end) as Hrest.
  { intros Hnr. destruct (IH (i + 1) Hs Hc ltac:(lia)) as (r & E & Hr). exists r. split; [done|].
    destruct r as [idx'|].
    - destruct Hr as (k & Hk & Hi' & Hrd & Hmin). exists k. split_and!; [lia..|done|done|].
      intros j Hj. destruct (decide (j = i)) as [->|]; [done|]. apply Hmin. lia.
    - intros j Hj. destruct (decide (j = i)) as [->|]; [done|]. apply Hr. lia. }
  destruct e as [a|].
  - destruct (inv_slot _ Hs idx a He) as (t & Et & _). rewrite Et. cbn [mbind option_bind].
    destruct (Z.eqb_spec (state t) READY_TO_RUN_M) as [Hst|Hst].
    + exists (Some idx). split; [done|]. exists i. split_and!; [lia..|done| |intros; lia].
      by exists a, t.
    + apply Hrest. intros (a' & t' & Hsl & Et' & Hst'). pose proof (slot_fun _ _ _ _ He Hsl).
      subst. congruence.
  - apply Hrest. intros (a' & t' & Hsl & _). unfold slot in Hsl. congruence.
Qed.

(** The running task's slot and its fields. *)
Lemma running_slot s p :
  sched_inv s -> running s p -> exists a t, current s = Some a /\ tasks s !! a = Some t /\ pid t = p /\
    slot s p a /\ 0 <= p < NR_TASKS /\ 1 <= counter t <= TIME_QUANTUM.
Proof.
  intros Hs (a & t & Ec & Et & Hp). destruct (inv_cur _ Hs) as (a' & t' & Ec' & Et' & Hsl).
  assert (a' = a) as -> by congruence. assert (t' = t) as -> by congruence. rewrite Hp in Hsl.
  pose proof (slot_bound _ _ _ Hs Hsl). destruct (inv_slot _ Hs _ _ Hsl) as (t2 & Et2 & _ & Hc & _).
  assert (t2 = t) as -> by congruence. by exists a, t.
Qed.

(** What a call of [schedule] leaves: the next ready task after [p] in
    circular order runs with a full quantum, or nothing changed because no
    other task is ready. *)
Definition scheduled (s s' : sched M) (p : Z) : Prop :=
  (s' = s /\ forall i, 0 <= i < NR_TASKS -> i ≠ p -> ~ ready s i) \/
  (exists k b t, 1 <= k < NR_TASKS /\ ready s ((p + k) `mod` NR_TASKS) /\
     (forall j, 1 <= j < k -> ~ ready s ((p + j) `mod` NR_TASKS)) /\
     current s' = Some b /\ tasks s' !! b = Some t /\ pid t = (p + k) `mod` NR_TASKS /\
     counter t = TIME_QUANTUM).

(** Every other slot is met at some distance below [NR_TASKS]. *)
Lemma circular_reach p i :
  0 <= p < NR_TASKS -> 0 <= i < NR_TASKS -> i ≠ p ->
  exists k, 1 <= k < NR_TASKS /\ (p + k) `mod` NR_TASKS = i.
Proof.
  unfold NR_TASKS. intros Hp Hi Hne. exists ((i - p) `mod` 32).
  rewrite Zplus_mod_idemp_r. replace (p + (i - p)) with i by lia.
  rewrite (Z.mod_small i) by lia. split; [|done].
  pose proof (Z.mod_pos_bound (i - p) 32 ltac:(lia)).
  assert ((i - p) `mod` 32 ≠ 0); [|lia]. intros E. apply Z.mod_divide in E as [q Hq]; lia.
Qed.

Lemma circular_ne p k : 0 <= p < NR_TASKS -> 1 <= k < NR_TASKS -> (p + k) `mod` NR_TASKS ≠ p.
Proof.
  unfold NR_TASKS. intros Hp Hk E. pose proof (Z.div_mod (p + k) 32 ltac:(lia)) as H. rewrite E in H.
  assert (32 * ((p + k) `div` 32) = k) as H2 by lia. lia.
Qed.

Lemma schedule_spec s p :
  sched_inv s -> running s p ->
  exists s', schedule s = Some s' /\ sched_inv s' /\
    process_table s' = process_table s /\ mem s' = mem s /\
    (forall i, ready s' i <-> ready s i) /\ scheduled s s' p.
Proof.
  intros Hs Hrun. destruct (running_slot s p Hs Hrun) as (cur & ct & Ec & Et & Hp & Hsl & Hpr & Hcc).
  unfold schedule. rewrite Ec. cbn [mbind option_bind]. rewrite Et. cbn [mbind option_bind]. rewrite Hp.
  destruct (pick_next_spec s p (Z.to_nat (NR_TASKS - 1)) 1 Hs) as (r & -> & Hr); [lia..|].
  cbn [mbind option_bind]. change (1 + Z.of_nat (Z.to_nat (NR_TASKS - 1))) with NR_TASKS in Hr.
  destruct r as [next|].
  2:{ exists s. split_and!; [done..|]. left. split; [done|]. intros i Hi Hne.
      destruct (circular_reach p i Hpr Hi Hne) as (k & Hk & <-). by apply Hr. }
  destruct Hr as (k & Hk & Hnext & (b & tb & Hb & Etb & Hst) & Hmin).
  assert (next ≠ p) as Hne by (rewrite Hnext; by apply circular_ne).
  replace (next =? p) with false by lia. rewrite Hb. cbn [mbind option_bind]. 
  rewrite (upd_task_some _ _ _ _ Etb). cbn [mbind option_bind].
  set (s1 := set_tasks (<[b := set_counter TIME_QUANTUM tb]> (tasks s)) s).
  assert (sched_inv s1) as Hs1 by (apply (upd_inv s b tb); done).
  assert (b ≠ cur) as Hbc. { intros ->. apply Hne. by apply (slot_inj s next p cur). }
  assert (tasks s1 !! cur = Some ct) as Ecur by (unfold s1; cbn; by rewrite lookup_insert_ne).
  assert (tasks s1 !! b = Some (set_counter TIME_QUANTUM tb)) as Eb by (unfold s1; cbn; by rewrite lookup_insert_eq).
  unfold context_switch, upd_task. rewrite Eb. cbn [mbind option_bind set_current tasks]. rewrite Ecur.
  cbn [mbind option_bind].
  set (s2 := set_tasks (<[cur := set_thread (save_context (thread ct)) ct]> (tasks s1)) s1).
  assert (sched_inv s2) as Hs2 by (apply (upd_inv s1 cur ct); done).
  assert (pid tb = next) as Hpb.
  { destruct (inv_slot _ Hs _ _ Hb) as (tb' & E & Hq & _). congruence. }
  assert (tasks s2 !! b = Some (set_counter TIME_QUANTUM tb)) as Eb2
    by (unfold s2; cbn; rewrite lookup_insert_ne by done; exact Eb).
  eexists. split; [done|]. split_and!; [|done|done| |].
  - constructor; cbn; [apply (inv_len _ Hs2)|apply (inv_slot _ Hs2)|].
    exists b. eexists. split; [done|]. split; [exact Eb2|]. cbn. by rewrite Hpb.
  - intros i. change (ready s2 i <-> ready s i). unfold s2. rewrite (upd_ready s1 cur ct); [|done..].
    unfold s1. by rewrite (upd_ready s b tb).
  - right. exists k, b, (set_counter TIME_QUANTUM tb). cbn. rewrite Hpb, <- Hnext.
    split_and!; [lia..|by exists b, tb|done|done|exact Eb2|done|done].
Qed.

(** *** Ticks *)

(** The ticks left to the running task, and the distance from it to slot [q]. *)
Definition budget (s : sched M) : Z :=
  match current s with
  | Some a => match tasks s !! a with Some t => counter t | None => 0 end
  | None => 0
  end.

Definition distance (p q : Z) : Z := (q - p) `mod` NR_TASKS.

Lemma operate_timer_spec cpl s p :
  sched_inv s -> running s p ->
  exists s', operate_timer cpl s = Some s' /\ sched_inv s' /\
    process_table s' = process_table s /\ mem s' = mem s /\ (forall i, ready s' i <-> ready s i) /\
    if 1 <? budget s then running s' p /\ budget s' = budget s - 1
    else exists s1, (forall i, ready s1 i <-> ready s i) /\ running s1 p /\ budget s1 = TIME_QUANTUM /\
           scheduled s1 s' p.
Proof.
  intros Hs Hrun. destruct (running_slot s p Hs Hrun) as (cur & ct & Ec & Et & Hp & Hsl & Hpr & Hcc).
  unfold TIME_QUANTUM in Hcc. unfold operate_timer. rewrite Ec. cbn [mbind option_bind].
  rewrite (upd_task_some _ _ _ _ Et). cbn [mbind option_bind].
  set (t1 := if negb (cpl =? 0) then set_utime (s32 (utime ct + 1)) ct else set_stime (s32 (stime ct + 1)) ct).
  assert (pid t1 = pid ct /\ counter t1 = counter ct /\ sig_fn t1 = sig_fn ct /\ state t1 = state ct)
    as (Hp1 & Hc1 & Hf1 & Hst1) by (unfold t1; by destruct (negb (cpl =? 0))).
  set (s1 := set_tasks (<[cur := t1]> (tasks s)) s).
  assert (tasks s1 !! cur = Some t1) as E1 by (cbn; by rewrite lookup_insert_eq).
  rewrite (upd_task_some _ _ _ _ E1). cbn [mbind option_bind]. set (t2 := set_counter (u32 (counter t1 - 1)) t1).
  assert (counter t2 = counter ct - 1) as Hc2.
  { unfold t2. cbn. rewrite Hc1, u32_small by lia. done. }
  assert (pid t2 = pid ct /\ sig_fn t2 = sig_fn ct /\ state t2 = state ct) as (Hp2 & Hf2 & Hst2) by done.
  set (s2 := set_tasks (<[cur := t2]> (tasks s1)) s1).
  assert (tasks s2 !! cur = Some t2) as E2 by (cbn; by rewrite lookup_insert_eq).
  rewrite E2. cbn [mbind option_bind]. rewrite Hc2.
  assert (tasks s2 = <[cur := t2]> (tasks s)) as Hts by (cbn; by rewrite insert_insert_eq).
  assert (budget s = counter ct) as Hbs by (unfold budget; by rewrite Ec, Et).
  rewrite Hbs. destruct (Z.ltb_spec 0 (counter ct - 1)), (Z.ltb_spec 1 (counter ct)); try lia.
  - exists s2. split; [done|]. assert (s2 = set_tasks (<[cur := t2]> (tasks s)) s) as ->
      by (unfold s2, s1; unfold set_tasks; cbn; by rewrite insert_insert_eq).
    split_and!; [|done|done| | |].
    + apply (upd_inv s cur ct); [done..|]. rewrite Hc2. unfold TIME_QUANTUM. lia.
    + intros i. by apply (upd_ready s cur ct).
    + exists cur, t2. cbn. rewrite lookup_insert_eq. split_and!; [done..|]. congruence.
    + unfold budget. cbn. by rewrite Ec, lookup_insert_eq.
  - rewrite (upd_task_some _ _ _ _ E2). cbn [mbind option_bind]. set (t3 := set_counter TIME_QUANTUM t2).
    assert (set_tasks (<[cur := t3]> (tasks s2)) s2 = set_tasks (<[cur := t3]> (tasks s)) s) as ->
      by (unfold s2, s1; unfold set_tasks; cbn; by rewrite !insert_insert_eq).
    set (s3 := set_tasks (<[cur := t3]> (tasks s)) s).
    assert (sched_inv s3) as Hs3
      by (apply (upd_inv s cur ct); [done..|]; unfold t3, TIME_QUANTUM; cbn; lia).
    assert (forall i, ready s3 i <-> ready s i) as Hrd by (intros i; by apply (upd_ready s cur ct)).
    assert (running s3 p) as Hrun3
      by (exists cur, t3; cbn; rewrite lookup_insert_eq; split_and!; [done..|congruence]).
    destruct (schedule_spec s3 p Hs3 Hrun3) as (s' & E & Hs' & Htb & Hm & Hrd' & Hsc).
    exists s'. split_and!; [done..| |]. { intros i. by rewrite Hrd', Hrd. }
    exists s3. split_and!; [done..| |done]. unfold budget. cbn. by rewrite Ec, lookup_insert_eq.
Qed.

(** Any sequence of ticks; [cpl i] is the privilege level at tick [i]. *)
Fixpoint ticks (cpl : nat -> Z) (n : nat) (s : sched M) : option (sched M) :=
  match n with
  | O => Some s
  | S n => s ← operate_timer (cpl O) s; ticks (fun i => cpl (S i)) n s
  end.

Lemma distance_step p k q :
  0 <= p < NR_TASKS -> 0 <= q < NR_TASKS -> 1 <= k <= distance p q ->
  distance ((p + k) `mod` NR_TASKS) q = distance p q - k.
Proof.
  unfold distance, NR_TASKS. intros Hp Hq Hk.
  rewrite Zminus_mod_idemp_r. replace (q - (p + k)) with ((q - p) - k) by lia.
  rewrite <- Zminus_mod_idemp_l. apply Z.mod_small.
  pose proof (Z.mod_pos_bound (q - p) 32 ltac:(lia)). lia.
Qed.

Lemma distance_add p q : 0 <= q < NR_TASKS -> (p + distance p q) `mod` NR_TASKS = q.
Proof.
  unfold distance, NR_TASKS. intros Hq. rewrite Zplus_mod_idemp_r.
  replace (p + (q - p)) with q by lia. by apply Z.mod_small.
Qed.

(** Each tick before [q] runs brings it nearer: a measure in ticks. *)
Lemma ticks_fair fuel : forall cpl s p q,
  sched_inv s -> running s p -> ready s q -> 0 <= q < NR_TASKS ->
  TIME_QUANTUM * distance p q + budget s <= Z.of_nat fuel ->
  exists n s', (n <= fuel)%nat /\ ticks cpl n s = Some s' /\ sched_inv s' /\ running s' q.
Proof.
  induction fuel as [|fuel IH]; intros cpl s p q Hs Hrun Hrd Hq Hm;
    destruct (running_slot s p Hs Hrun) as (cur & ct & Ec & Et & Hp & Hsl & Hpr & Hcc);
    assert (0 <= distance p q < NR_TASKS) as Hd by (apply Z.mod_pos_bound; unfold NR_TASKS; lia);
    assert (budget s = counter ct) as Hbs by (unfold budget; by rewrite Ec, Et);
    unfold TIME_QUANTUM in *; [lia|].
  destruct (decide (p = q)) as [->|Hne]; [exists O, s; split_and!; [lia|done..]|].
  assert (distance p q ≠ 0) as Hd0.
  { intros E. pose proof (distance_add p q Hq) as H. rewrite E, Z.add_0_r, Z.mod_small in H; done. }
  destruct (operate_timer_spec (cpl O) s p Hs Hrun) as (s1 & E1 & Hs1 & _ & _ & Hrd1 & Hstep).
  destruct (Z.ltb_spec 1 (budget s)).
  - destruct Hstep as [Hrun1 Hb1].
    destruct (IH (fun i => cpl (S i)) s1 p q) as (n & s' & Hn & E & Hs' & Hr');
      [done..|by apply Hrd1|done|lia|].
    exists (S n), s'. split_and!; [lia| |done..]. cbn [ticks]. by rewrite E1.
  - destruct Hstep as (s0 & Hrd0 & _ & _ & [[_ Hnone]|(k & b & t & Hk & Hkr & Hmin & Ec1 & Et1 & Hpid & Hcnt)]).
    { destruct (Hnone q Hq ltac:(done)). by apply Hrd0. }
    assert (k <= distance p q) as Hkd.
    { destruct (Z_le_gt_dec k (distance p q)) as [|Hgt]; [done|]. exfalso.
      apply (Hmin (distance p q)); [lia|]. rewrite distance_add by done. by apply Hrd0. }
    assert (running s1 ((p + k) `mod` NR_TASKS)) as Hrun1 by (by exists b, t).
    destruct (IH (fun i => cpl (S i)) s1 ((p + k) `mod` NR_TASKS) q) as (n & s' & Hn & E & Hs' & Hr');
      [done..|by apply Hrd1|done| |].
    { rewrite distance_step by lia. unfold budget. rewrite Ec1, Et1, Hcnt. unfold TIME_QUANTUM. lia. }
    exists (S n), s'. split_and!; [lia| |done..]. cbn [ticks]. by rewrite E1.
Qed.

(** *** Exit *)

(** The state of the task in slot [i]. *)
Definition state_of (s : sched M) (i : Z) : option Z :=
  e ← zget (process_table s) i; a ← e; t ← tasks s !! a; Some (state t).

(** [schedule] changes no task's state. *)
Lemma upd_task_states a f s s' i :
  upd_task a f s = Some s' -> (forall t, state (f t) = state t) -> state_of s' i = state_of s i.
Proof.
  intros E Hf. unfold upd_task in E. apply bind_Some in E as (t & Et & [= <-]). unfold state_of. cbn [process_table tasks set_tasks].
  destruct (zget (process_table s) i) as [[b|]|]; cbn [mbind option_bind]; [|done..].
  destruct (decide (a = b)) as [<-|]; [rewrite lookup_insert_eq, Et; cbn; by rewrite Hf|by rewrite lookup_insert_ne].
Qed.

Lemma schedule_states s s' i : schedule s = Some s' -> state_of s' i = state_of s i.
Proof.
  unfold schedule. intros (cur & _ & (ct & _ & (next & _ & E)%bind_Some)%bind_Some)%bind_Some.
  destruct next as [next|]; [|by injection E as <-]. destruct (next =? pid ct); [by injection E as <-|].
  apply bind_Some in E as (e & _ & (tn & _ & (s1 & E1 & E)%bind_Some)%bind_Some). unfold context_switch in E.
  apply bind_Some in E as (? & _ & E). rewrite (upd_task_states _ _ _ _ i E) by done. by rewrite <- (upd_task_states _ _ _ _ i E1).
Qed.

Lemma do_exit_states sig s s' p : sched_inv s -> running s p -> do_exit sig s = Some s' ->
  state_of s' p = Some ZOMBIE /\ forall i, i ≠ p -> state_of s' i = state_of s i.
Proof.
  intros Hs Hrun E. destruct (running_slot s p Hs Hrun) as (cur & ct & Ec & Et & Hp & Hsl & _).
  unfold do_exit in E. rewrite Ec in E. cbn [mbind option_bind] in E. rewrite (upd_task_some _ _ _ _ Et) in E. cbn [mbind option_bind] in E.
  split; [|intros i Hi]; rewrite (schedule_states _ _ _ E); unfold state_of; cbn [process_table tasks set_tasks].
  - unfold slot in Hsl. rewrite Hsl. cbn [mbind option_bind]. by rewrite lookup_insert_eq.
  - destruct (zget (process_table s) i) as [[b|]|] eqn:Eb; cbn [mbind option_bind]; [|done..].
    rewrite lookup_insert_ne; [done|]. intros <-. apply Hi. by apply (slot_inj s i p cur).
Qed.

Lemma do_exit_spec sig s p :
  sched_inv s -> running s p ->
  exists s', do_exit sig s = Some s' /\ sched_inv s' /\ ~ ready s' p /\
    (forall i, i ≠ p -> ready s' i <-> ready s i) /\
    ((exists i, 0 <= i < NR_TASKS /\ i ≠ p /\ ready s i) -> exists q, q ≠ p /\ ready s q /\ running s' q).
Proof.
  intros Hs Hrun. destruct (running_slot s p Hs Hrun) as (cur & ct & Ec & Et & Hp & Hsl & Hpr & Hcc).
  unfold do_exit. rewrite Ec. cbn [mbind option_bind]. rewrite (upd_task_some _ _ _ _ Et). cbn [mbind option_bind].
  set (s1 := set_tasks (<[cur := set_state ZOMBIE ct]> (tasks s)) s).
  assert (sched_inv s1) as Hs1 by (apply (upd_inv s cur ct); done).
  assert (running s1 p) as Hr1 by (exists cur, (set_state ZOMBIE ct); cbn; by rewrite lookup_insert_eq).
  assert (forall i, ready s1 i <-> ready s i /\ i ≠ p) as Hrd.
  { intros i. unfold ready, slot. cbn. split.
    - intros (b & tb & Hb & Etb & Hst). destruct (decide (b = cur)) as [->|].
      + rewrite lookup_insert_eq in Etb. by injection Etb as <-.
      + rewrite lookup_insert_ne in Etb by done. split; [by exists b, tb|]. intros ->.
        by pose proof (slot_fun _ _ _ _ Hb Hsl).
    - intros [(b & tb & Hb & Etb & Hst) Hi]. exists b, tb. rewrite lookup_insert_ne; [done|].
      intros <-. apply Hi. by apply (slot_inj s i p cur). }
  destruct (schedule_spec s1 p Hs1 Hr1) as (s' & E & Hs' & _ & _ & Hrd' & Hsc).
  exists s'. split_and!; [done..| | |].
  - rewrite Hrd', Hrd. by intros [_ ?].
  - intros i Hi. rewrite Hrd', Hrd. split; [by intros [? _]|done].
  - intros (i & Hi & Hne & Hir). destruct Hsc as [[_ Hnone]|(k & b & t & Hk & Hkr & _ & Ec' & Et' & Hpid & _)].
    + destruct (Hnone i Hi Hne). by apply Hrd.
    + exists ((p + k) `mod` NR_TASKS). apply Hrd in Hkr as [? ?]. split_and!; [done..|]. by exists b, t.
Qed.

(** *** Signals *)

(** With no bit below 4 pending, [issig] finds nothing and only moves
    [sighandle]. *)
Lemma issig_loop_none cur n : forall i s t,
  tasks s !! cur = Some t -> 0 <= i ->
  (forall j, i <= j < i + Z.of_nat n -> Z.testbit (signal t) j = false) ->
  exists s', issig_loop cur i n s = Some (false, s') /\ current s' = current s /\ mem s' = mem s /\
    process_table s' = process_table s /\
    exists h, tasks s' = <[cur := set_sighandle h t]> (tasks s).
Proof.
  induction n as [|n IH]; intros i s t Et Hi Hb; cbn [issig_loop].
  { exists s. split_and!; [done..|]. exists (sighandle t). rewrite insert_id; [done|]. rewrite Et. by destruct t. }
  rewrite (upd_task_some _ _ _ _ Et). cbn [mbind option_bind]. cbn [tasks set_tasks].
  rewrite lookup_insert_eq. cbn [mbind option_bind signal set_sighandle].
  rewrite Z.shiftl_1_l, land_pow2_testbit, Hb by lia.
  destruct (IH (i + 1) (set_tasks (<[cur := set_sighandle i t]> (tasks s)) s) (set_sighandle i t))
    as (s' & E & Hc & Hm & Htb & h & Hts).
  { cbn. by rewrite lookup_insert_eq. }
  { lia. }
  { intros j Hj. cbn. apply Hb. lia. }
  exists s'. split_and!; [done..|]. exists h. rewrite Hts. cbn. by rewrite insert_insert_eq.
Qed.

(** *** Process creation *)

Lemma find_empty_spec tbl n : forall i,
  0 <= i -> i + Z.of_nat n <= Z.of_nat (length tbl) ->
  exists r, find_empty_from tbl i n = Some r /\
    ((r = -1 /\ forall j, i <= j < i + Z.of_nat n -> exists a, zget tbl j = Some (Some a)) \/
     (i <= r < i + Z.of_nat n /\ zget tbl r = Some None /\
      forall j, i <= j < r -> exists a, zget tbl j = Some (Some a))).
Proof.
  induction n as [|n IH]; intros i Hi Hl; cbn [find_empty_from].
  { exists (-1). split; [done|]. left. split; [done|]. intros; lia. }
  destruct (zget_is_Some tbl i) as [e He]; [lia|]. rewrite He. cbn [mbind option_bind].
  destruct e as [a|].
  - destruct (IH (i + 1)) as (r & E & Hr); [lia..|]. exists r. split; [done|].
    destruct Hr as [[-> Hall]|(Hr & Hn & Hall)]; [left|right].
    + split; [done|]. intros j Hj. destruct (decide (j = i)) as [->|]; [by exists a|]. apply Hall. lia.
    + split_and!; [lia..|done|]. intros j Hj. destruct (decide (j = i)) as [->|]; [by exists a|]. apply Hall. lia.
  - exists i. split; [done|]. right. split_and!; [lia..|done|]. intros; lia.
Qed.

(** A kernel stack starts at a multiple of its size. *)
Lemma page_address_stack f :
  0 <= f -> f + 2 < 2 ^ 18 -> page_address f = 4096 * f + PAGE_OFFSET /\
  u32 (page_address f + STACK_SIZE) = page_address f + STACK_SIZE /\
  u32 (u32 (page_address f + STACK_SIZE) - STACK_SIZE) = page_address f.
Proof.
  intros H0 H1. unfold page_address, PAGE_SHIFT, PAGE_OFFSET, STACK_SIZE.
  rewrite Z.shiftl_mul_pow2 by lia. change (2 ^ 12) with 4096.
  rewrite (u32_small (f * 4096 + _)) by lia. rewrite (u32_small (f * 4096 + _ + 8192)) by lia.
  split_and!; [lia|lia|]. rewrite u32_small by lia. lia.
Qed.

(** Masking any address of a stack finds its thread_info, as
    [current_task] does. *)
Lemma stack_mask f e :
  0 <= f -> f + 2 < 2 ^ 18 -> (2 | f) -> page_address f <= e < page_address f + STACK_SIZE ->
  Z.land e (Z.lnot (STACK_SIZE - 1)) = page_address f.
Proof.
  intros H0 H1 [q ->] He. destruct (page_address_stack (q * 2)) as [-> _] in He |- *; [lia..|].
  change (STACK_SIZE - 1) with (Z.ones 13). rewrite <- Z.ldiff_land, Z.ldiff_ones_r by lia.
  rewrite Z.shiftr_div_pow2, Z.shiftl_mul_pow2 by lia. unfold STACK_SIZE, PAGE_OFFSET in *.
  change (2 ^ 13) with 8192. replace (e `div` 8192) with (q + 393216); [lia|].
  apply Z.div_unique with (r := e - 8192 * (q + 393216)); lia.
Qed.

(** What process creation may not disturb: every task alive before. *)
Record keeps (s s' : sched M) : Prop := {
  keep_table : process_table s' = process_table s;
  keep_current : current s' = current s;
  keep_tasks b : task_live (mem s) b -> tasks s' !! b = tasks s !! b;
  keep_live b : task_live (mem s) b -> task_live (mem s') b
}.

Lemma keeps_inv s s' : sched_inv s -> keeps s s' -> sched_inv s'.
Proof.
  intros Hs [Htb Hc Ht Hl]. constructor.
  - rewrite Htb. apply (inv_len _ Hs).
  - unfold slot. rewrite Htb. intros i a Hi. destruct (inv_slot _ Hs i a Hi) as (t & Et & Hp & Hcn & Hf & Hlv).
    exists t. rewrite Ht by done. destruct Hcn. split_and!; auto.
  - destruct (inv_cur _ Hs) as (a & t & Ec & Et & Hsl).
    destruct (inv_slot _ Hs _ _ Hsl) as (_ & _ & _ & _ & _ & Hlv).
    exists a, t. unfold slot. rewrite Hc, Htb, Ht by done. done.
Qed.

(** The child's registers: the parent's, with 0 in [eax] and the given stack. *)
Definition child_regs (sp : Z) (regs : pt_regs) : pt_regs :=
  if negb (sp =? 0) then set_oldesp sp (set_eax 0 regs) else set_eax 0 regs.

(** The child as [copy_process] leaves it, on the stack frame [f]. *)
Definition child_of (ct : task_struct) (f : Z) : task_struct :=
  set_thread (mk_thread (page_address f + STACK_SIZE - 8) (page_address f + STACK_SIZE - 8 - sizeof_pt_regs)
                (ss0 (thread ct)) ret_from_fork) (set_stack (page_address f) ct).

Definition copied (s s' : sched M) (ct : task_struct) (sp : Z) (regs : pt_regs) (a f : Z) : Prop :=
  ~ task_live (mem s) a /\ task_live (mem s') a /\
  0 <= f /\ f + 2 < 2 ^ 18 /\ (2 | f) /\ ~ stack_used (mem s) f /\ stack_used (mem s') f /\
  tasks s' !! a = Some (child_of ct f) /\
  (exists fl, tinfos s' !! page_address f = Some (mk_tinfo (Some a) fl)) /\
  frames s' !! (page_address f + STACK_SIZE - 8 - sizeof_pt_regs) = Some (child_regs sp regs).

(** An allocation of the fork fails. *)
Definition no_memory (s : sched M) : Prop :=
  (exists m, zalloc_task (mem s) = Some (None, m)) \/
  (exists a m m', zalloc_task (mem s) = Some (Some a, m) /\ alloc_stack_pages m = Some (None, m')).

Lemma dup_task_struct_spec s cur ct :
  sched_inv s -> tasks s !! cur = Some ct -> task_live (mem s) cur ->
  exists r s', dup_task_struct cur s = Some (r, s') /\ keeps s s' /\
    match r with
    | None => no_memory s
    | Some a =>
        ~ task_live (mem s) a /\ task_live (mem s') a /\ exists f,
        0 <= f /\ f + 2 < 2 ^ 18 /\ (2 | f) /\ ~ stack_used (mem s) f /\ stack_used (mem s') f /\
        tasks s' !! a = Some (set_stack (page_address f) ct) /\
        exists fl, tinfos s' !! page_address f = Some (mk_tinfo (Some a) fl)
    end.
Proof.
  intros Hs Ect Hlc. unfold dup_task_struct, alloc_task_struct.
  destruct (zalloc_task_spec (mem s)) as (r & m1 & Ez & Hst1 & Hr). rewrite Ez. cbn [mbind option_bind].
  destruct r as [a|]; cbn [mbind option_bind].
  2:{ eexists None, _. split; [done|]. split; [|left; eauto]. constructor; cbn; try done. intros b Hb. by apply Hr. }
  destruct Hr as (Ha & Hna & Hl1). unfold alloc_thread_info, alloc_kernel_stack. cbn [mem set_tasks set_mem].
  destruct (alloc_stack_spec m1) as (f & m2 & Ef & Hl2 & Hf). rewrite Ef. cbn [mbind option_bind].
  assert (a ≠ cur) as Hac by (intros ->; done).
  destruct f as [f|]; cbn [mbind option_bind].
  - destruct Hf as (Hf0 & Hf1 & Hf2 & Hfu & Hst2). destruct (page_address_stack f Hf0 Hf1) as (_ & _ & Etop).
    rewrite Etop. cbn [tasks set_mem set_tasks]. rewrite lookup_insert_ne, Ect by done.
    cbn [mbind option_bind]. unfold upd_task. cbn [tasks set_mem set_tasks].
    rewrite lookup_insert_eq. cbn [mbind option_bind tasks set_mem set_tasks].
    rewrite lookup_insert_eq. cbn [mbind option_bind]. unfold setup_thread_stack.
    cbn [tasks set_mem set_tasks]. rewrite !insert_insert_eq, lookup_insert_eq, lookup_insert_ne, Ect by done.
    cbn [mbind option_bind]. eexists (Some a), _. split; [done|]. split.
    + constructor; cbn; try done.
      * intros b Hb. rewrite lookup_insert_ne; [done|]. intros ->. done.
      * intros b Hb. apply Hl2, Hl1. by left.
    + cbn. split_and!; [done|apply Hl2, Hl1; by right|]. exists f. split_and!; [done..| | | |].
      * by rewrite <- Hst1.
      * apply Hst2. by right.
      * by rewrite lookup_insert_eq.
      * eexists. by rewrite lookup_insert_eq.
  - unfold free_task_struct. cbn [mem set_mem set_tasks].
    destruct (free_task_spec m2 a) as (m3 & -> & _ & Hl3); [apply Hl2, Hl1; by right|].
    cbn [mbind option_bind]. eexists None, _. split; [done|]. split; [|right; eauto]. constructor; cbn; try done.
    + intros b Hb. rewrite delete_insert_eq, lookup_delete_ne; [done|]. intros ->. done.
    + intros b Hb. apply Hl3. split; [apply Hl2, Hl1; by left|]. intros ->. done.
Qed.

Lemma copy_process_spec fl sp regs sz s cur ct :
  sched_inv s -> current s = Some cur -> tasks s !! cur = Some ct -> task_live (mem s) cur ->
  exists r s', copy_process fl sp regs sz s = Some (r, s') /\ keeps s s' /\
    match r with None => no_memory s | Some a => exists f, copied s s' ct sp regs a f end.
Proof.
  intros Hs Ec Ect Hlc. unfold copy_process. rewrite Ec. cbn [mbind option_bind].
  destruct (dup_task_struct_spec s cur ct Hs Ect Hlc) as (r & s1 & -> & Hk & Hr). cbn [mbind option_bind].
  destruct r as [a|]; [|by exists None, s1].
  destruct Hr as (Hna & Hla & f & Hf0 & Hf1 & Hf2 & Hfu & Hfu' & Eta & Eti).
  unfold copy_thread. rewrite Eta. cbn [mbind option_bind]. unfold upd_task. cbn [tasks set_frames].
  rewrite Eta. cbn [mbind option_bind Z.ltb Z.compare].
  destruct (page_address_stack f Hf0 Hf1) as (Epa & Etop & _).
  assert (task_pt_regs (set_stack (page_address f) ct) = page_address f + STACK_SIZE - 8 - sizeof_pt_regs) as ->.
  { unfold task_pt_regs. cbn [stack set_stack]. rewrite Etop. rewrite Epa in *.
    unfold STACK_SIZE, PAGE_OFFSET, sizeof_pt_regs in *. rewrite (u32_small (_ - 8)) by lia.
    rewrite u32_small by lia. done. }
  assert (u32 (page_address f + STACK_SIZE - 8 - sizeof_pt_regs + sizeof_pt_regs)
          = page_address f + STACK_SIZE - 8) as ->.
  { rewrite Epa. unfold STACK_SIZE, PAGE_OFFSET, sizeof_pt_regs. rewrite u32_small by lia. lia. }
  eexists (Some a), _. split; [done|]. destruct Hk as [K1 K2 K3 K4]. split.
  - constructor; cbn; try done. intros b Hb. rewrite lookup_insert_ne; [by apply K3|]. intros ->. done.
  - exists f. unfold copied. cbn. rewrite !lookup_insert_eq. split_and!; try done.
Qed.

(** The outcome of a fork by process [p]. *)
Definition forked (s s' : sched M) (p sp : Z) (regs : pt_regs) (nr : Z) : Prop :=
  1 <= nr < NR_TASKS /\ zget (process_table s) nr = Some None /\
  (forall j, 1 <= j < nr -> exists b, slot s j b) /\
  (forall j b, j ≠ nr -> slot s' j b <-> slot s j b) /\
  (forall j b, slot s j b -> tasks s' !! b = tasks s !! b) /\
  exists a f ct, slot s' nr a /\ running s p /\ (exists cur, current s = Some cur /\ tasks s !! cur = Some ct) /\
    0 <= f /\ (2 | f) /\ ~ stack_used (mem s) f /\
    tasks s' !! a = Some (set_counter TIME_QUANTUM (set_state READY_TO_RUN_M
                            (set_father p (set_pid nr (child_of ct f))))) /\
    frames s' !! (page_address f + STACK_SIZE - 8 - sizeof_pt_regs) = Some (child_regs sp regs).

(** Why a fork fails: no slot is free, or an allocation fails. *)
Definition fork_fails (s : sched M) : Prop := (forall j, 1 <= j < NR_TASKS -> exists b, slot s j b) \/ no_memory s.

Lemma do_fork_spec fl sp regs sz s p :
  sched_inv s -> running s p ->
  exists r s', do_fork fl sp regs sz s = Some (r, s') /\ sched_inv s' /\ running s' p /\
    ((r = -1 /\ process_table s' = process_table s /\ fork_fails s) \/ forked s s' p sp regs r).
Proof.
  intros Hs Hrun. destruct (running_slot s p Hs Hrun) as (cur & ct & Ec & Et & Hp & Hsl & Hpr & Hcc).
  destruct (inv_slot _ Hs _ _ Hsl) as (ct' & Et' & _ & _ & Hfn & Hlv).
  assert (ct' = ct) as -> by congruence.
  unfold do_fork, find_empty_process.
  destruct (find_empty_spec (process_table s) (Z.to_nat (NR_TASKS - 1)) 1) as (nr & -> & Hnr);
    [lia|rewrite (inv_len _ Hs); unfold NR_TASKS; lia|].
  cbn [mbind option_bind]. change (1 + Z.of_nat (Z.to_nat (NR_TASKS - 1))) with NR_TASKS in Hnr.
  destruct Hnr as [[-> Hall]|(Hnr & Hempty & Hfull)].
  { exists (-1), s. split_and!; [done..|]. left. split_and!; [done..|]. by left. }
  replace (nr <? 0) with false by lia.
  destruct (copy_process_spec fl sp regs sz s cur ct Hs Ec Et Hlv) as (r & s1 & -> & Hk & Hr).
  cbn [mbind option_bind]. pose proof (keeps_inv s s1 Hs Hk) as Hs1. destruct Hk as [K1 K2 K3 K4].
  assert (tasks s1 !! cur = Some ct) as Ecur1 by (by rewrite K3).
  destruct r as [a|].
  2:{ exists (-1), s1. split_and!; [done..| |left; split_and!; [done..|by right]]. exists cur, ct. by rewrite K2. }
  destruct Hr as (f & Hna & Hla & Hf0 & Hf1 & Hf2 & Hfu & Hfu' & Eta & _ & Efr).
  rewrite K2, Ec. cbn [mbind option_bind]. rewrite Ecur1. cbn [mbind option_bind].
  rewrite (upd_task_some _ _ _ _ Eta). cbn [mbind option_bind process_table set_tasks].
  set (child := set_counter _ _).
  assert (0 <= nr < Z.of_nat (length (process_table s1))) as Hnl by (rewrite (inv_len _ Hs1); lia).
  pose proof (zset_in_range (process_table s1) nr (Some a) Hnl) as Ez. rewrite Ez. cbn [mbind option_bind].
  set (tbl := <[Z.to_nat nr := Some a]> (process_table s1)) in *.
  assert (a ≠ cur) as Hac by (intros ->; done).
  assert (forall j b, j ≠ nr -> zget tbl j = Some (Some b) <-> slot s j b) as Hslots.
  { intros j b Hj. rewrite (zget_zset _ _ _ _ _ Ez), decide_False by done. unfold slot. by rewrite K1. }
  assert (zget tbl nr = Some (Some a)) as Hnew by (by rewrite (zget_zset_eq _ _ _ _ Ez)).
  assert (forall j b, slot s j b -> b ≠ a) as Hsa.
  { intros j b Hj ->. destruct (inv_slot _ Hs _ _ Hj) as (? & _ & _ & _ & _ & ?). done. }
  exists nr. eexists. split; [done|]. split_and!.
  - constructor; cbn.
    + rewrite (zset_length _ _ _ _ Ez). apply (inv_len _ Hs1).
    + intros j b Hj. destruct (decide (j = nr)) as [->|Hjn].
      * unfold slot in Hj. cbn in Hj. assert (b = a) as -> by congruence.
        rewrite lookup_insert_eq. exists child. split_and!; done.
      * apply Hslots in Hj as Hj0; [|done]. rewrite lookup_insert_ne by (by apply not_eq_sym, (Hsa j)).
        apply (inv_slot _ Hs1). unfold slot. by rewrite K1.
    + exists cur, ct. rewrite K2, lookup_insert_ne, Ecur1 by done. split_and!; [done..|].
      apply Hslots; [|by rewrite Hp]. intros E. rewrite <- E, Hp in Hempty. unfold slot in Hsl. congruence.
  - exists cur, ct. cbn. by rewrite K2, lookup_insert_ne.
  - right. split_and!; [lia..|done|done|by apply Hslots| |].
    + intros j b Hj. cbn. rewrite lookup_insert_ne by (by apply not_eq_sym, (Hsa j)).
      destruct (inv_slot _ Hs _ _ Hj) as (? & _ & _ & _ & _ & ?). by apply K3.
    + exists a, f, ct. cbn. rewrite lookup_insert_eq. split_and!; try done.
      * by exists cur.
      * unfold child. by rewrite Hp.
Qed.

(** *** Start-up *)

Lemma sched_init_spec s :
  exists s', sched_init true s = Some s' /\
    ((current s' = current s /\ process_table s' = replicate (Z.to_nat NR_TASKS) None) \/
     (sched_inv s' /\ running s' 0 /\ ready s' 0 /\ forall i a, slot s' i a -> i = 0)).
Proof.
  unfold sched_init, alloc_task_struct. cbn [negb mem set_table set_tss_ss0].
  destruct (zalloc_task_spec (mem s)) as (r & m1 & -> & _ & Hr). cbn [mbind option_bind].
  destruct r as [a|]; cbn [mbind option_bind]; [|eexists; split; [done|by left]].
  destruct Hr as (_ & _ & Hl1). unfold alloc_kernel_stack. cbn [mem set_tasks set_mem].
  destruct (alloc_stack_spec m1) as (f & m2 & -> & Hl2 & Hf). cbn [mbind option_bind].
  assert (task_live m2 a) as Hla by (apply Hl2, Hl1; by right).
  destruct f as [f|]; cbn [mbind option_bind].
  2:{ unfold free_task_struct. cbn [mem set_mem set_tasks].
      destruct (free_task_spec m2 a Hla) as (m3 & -> & _). cbn [mbind option_bind].
      eexists. split; [done|by left]. }
  unfold upd_task. cbn [tasks set_mem set_tasks]. rewrite lookup_insert_eq. cbn [mbind option_bind].
  cbn [process_table set_tasks set_mem set_table]. change (Z.to_nat NR_TASKS) with 32%nat.
  set (tbl := replicate 32 None). pose proof (zset_in_range tbl 0 (Some a) ltac:(cbn; lia)) as Ez.
  rewrite Ez. cbn [mbind option_bind]. rewrite insert_insert_eq.
  assert (forall i b, zget (<[Z.to_nat 0 := Some a]> tbl) i = Some (Some b) -> i = 0 /\ b = a) as Hslot.
  { intros i b. rewrite (zget_zset _ _ _ _ _ Ez). case_decide as D; [subst; by intros [= ->]|].
    unfold zget. destruct (i <? 0); [done|]. intros Hb%lookup_replicate_1. by destruct Hb. }
  eexists. split; [done|]. right. split_and!.
  - constructor; cbn.
    + done.
    + intros i b [-> ->]%Hslot. rewrite lookup_insert_eq. eexists. split; [done|]. cbn. split_and!; done.
    + exists a. rewrite lookup_insert_eq. eexists. split_and!; done.
  - exists a. eexists. cbn. rewrite lookup_insert_eq. split_and!; done.
  - exists a. eexists. cbn. rewrite lookup_insert_eq. split_and!; done.
  - intros i b Hb. by apply Hslot in Hb as [-> _].
Qed.
End Sched.

(** ** A small machine *)

(** A memory that hands out increasing addresses. *)
Record bump := mk_bump { b_tasks : N; b_freed : gset Z; b_stacks : N }.

#[export] Program Instance bump_mem : KernelMem bump := {
  zalloc_task m :=
    let a := Z.of_N (b_tasks m) + 1 in
    if a <? 2 ^ 32 then Some (Some a, mk_bump (b_tasks m + 1) (b_freed m ∖ {[a]}) (b_stacks m))
    else Some (None, m);
  free_task a m := Some (mk_bump (b_tasks m) (b_freed m ∪ {[a]}) (b_stacks m));
  alloc_stack_pages m :=
    let i := 2 * Z.of_N (b_stacks m) in
    if i + 2 <? 2 ^ 18 then Some (Some i, mk_bump (b_tasks m) (b_freed m) (b_stacks m + 1))
    else Some (None, m);
  task_live m a := 1 <= a <= Z.of_N (b_tasks m) /\ a ∉ b_freed m;
  stack_used m i := (2 | i) /\ 0 <= i < 2 * Z.of_N (b_stacks m)
}.
Next Obligation.
  intros m. cbv beta zeta. set (a := Z.of_N (b_tasks m) + 1). destruct (a <? 2 ^ 32) eqn:Hlt.
  2:{ exists None, m. by split_and!. }
  apply Z.ltb_lt in Hlt. do 2 eexists. split; [done|]. cbn. split_and!; [done|lia..|].
  intros b. rewrite elem_of_difference, elem_of_singleton. split.
  - intros [Hb Hf]. destruct (decide (b = a)); [by right|left]. split; [lia|tauto].
  - intros [[Hb Hf]| ->]; split; [lia|tauto|lia|tauto].
Qed.
Next Obligation.
  intros m a Ha. eexists. split; [done|]. cbn. split; [done|]. intros b. set_solver.
Qed.
Next Obligation.
  intros m. cbv beta zeta. set (i := 2 * Z.of_N (b_stacks m)). destruct (i + 2 <? 2 ^ 18) eqn:Hlt.
  2:{ exists None, m. by split_and!. }
  apply Z.ltb_lt in Hlt. do 2 eexists. split; [done|]. cbn. split_and!; [done|lia..| | |].
  - exists (Z.of_N (b_stacks m)). lia.
  - unfold i. lia.
  - intros j. split.
    + intros [[q ->] Hj]. destruct (decide (q = Z.of_N (b_stacks m))); [right; lia|left]. split; [by exists q|lia].
    + intros [[[q ->] Hj]| ->]; split; [by exists q|lia|exists (Z.of_N (b_stacks m)); lia|lia].
Qed.

Definition boot : sched bump := mk_sched _ ∅ ∅ ∅ [] None None 0 (mk_bump 0 ∅ 0).

Definition demo0 : sched bump := default boot (sched_init true boot).
Definition demo_fork (s : sched bump) : sched bump :=
  (default (0, s) (fork (fun _ => mk_tinfo None 0) 4096 s)).2.
Definition demo : sched bump := demo_fork (demo_fork demo0).

Lemma demo0_ok : sched_inv demo0 /\ running demo0 0.
Proof.
  destruct (sched_init_spec boot) as (s' & E & Hs').
  assert (demo0 = s') as -> by (unfold demo0; by rewrite E).
  destruct Hs' as [[Hc _]|(? & ? & _)]; [|done]. exfalso.
  assert (current demo0 = current s') as Hd by (unfold demo0; by rewrite E).
  rewrite Hc in Hd. vm_compute in Hd. done.
Qed.

Lemma demo_fork_ok s : sched_inv s -> running s 0 -> sched_inv (demo_fork s) /\ running (demo_fork s) 0.
Proof.
  intros Hs Hr.
  destruct (do_fork_spec (fun _ => mk_tinfo None 0) 4096 0 0 zero_regs 0 s 0 Hs Hr) as (r & s' & E & Hs' & Hr' & _).
  unfold demo_fork, fork. rewrite E. done.
Qed.

Lemma demo_ok : sched_inv demo /\ running demo 0.
Proof. destruct demo0_ok. destruct (demo_fork_ok demo0); [done..|]. by apply demo_fork_ok. Qed.

Lemma demo_ready2 : ready demo 2.
Proof. exists 3. eexists. split_and!; vm_compute; reflexivity. Qed.

(** ** Correctness *)

(** C7: [schedule] is round robin: it keeps the invariant and every task's
    readiness, and hands the processor with a full quantum to the first ready
    task after the running one in circular order of the process table, or
    changes nothing when no other task is ready. *)
Theorem schedule_round_robin {M} `{!KernelMem M} save_context (s : sched M) p :
  sched_inv s -> running s p ->
  exists s', schedule save_context s = Some s' /\ sched_inv s' /\
    process_table s' = process_table s /\ (forall i, ready s' i <-> ready s i) /\ scheduled s s' p.
Proof.
  intros Hs Hr. destruct (schedule_spec save_context s p Hs Hr) as (s' & E & Hs' & Ht & _ & Hrd & Hsc).
  by exists s'.
Qed.

Lemma schedule_round_robin_witness :
  exists s', schedule (fun t => t) demo = Some s' /\ sched_inv s' /\
    process_table s' = process_table demo /\ (forall i, ready s' i <-> ready demo i) /\ scheduled demo s' 0.
Proof. apply (schedule_round_robin (fun t => t) demo 0); apply demo_ok. Defined.

(** C16: no starvation: whatever privilege level the ticks interrupt, every
    ready task gets the processor within 32 quanta of 20 ticks. *)
Theorem timer_no_starvation {M} `{!KernelMem M} save_context cpl (s : sched M) q :
  sched_inv s -> ready s q ->
  exists n s', (n <= 640)%nat /\ ticks save_context cpl n s = Some s' /\ sched_inv s' /\ running s' q.
Proof.
  intros Hs Hq. destruct (inv_cur _ Hs) as (a & t & Ec & Et & Hsl).
  assert (running s (pid t)) as Hr by (by exists a, t).
  assert (0 <= q < NR_TASKS) as Hqb by (destruct Hq as (b & ? & Hb & _); by apply (slot_bound s q b)).
  apply (ticks_fair save_context 640 cpl s (pid t) q); [done..|].
  destruct (running_slot s (pid t) Hs Hr) as (a' & t' & Ec' & Et' & _ & _ & _ & Hcc).
  assert (budget s = counter t') as -> by (unfold budget; by rewrite Ec', Et').
  assert (0 <= distance (pid t) q < 32) by (apply Z.mod_pos_bound; lia).
  unfold TIME_QUANTUM in *. lia.
Qed.

Lemma timer_no_starvation_witness :
  exists n s', (n <= 640)%nat /\ ticks (fun t => t) (fun _ => 3) n demo = Some s' /\ sched_inv s' /\ running s' 2.
Proof. apply (timer_no_starvation (fun t => t) (fun _ => 3) demo 2); [apply demo_ok|apply demo_ready2]. Defined.

(** C17: [do_fork] never disturbs an existing process.  It fails with -1 and an
    unchanged process table only when every slot from 1 on is taken or an
    allocation fails; else it fills the lowest free slot from 1 with a
    ready child of the caller that has a full quantum, a kernel stack nobody
    used before, the caller's registers with 0 in [eax], and starts in
    [ret_from_fork]; the invariant holds either way. *)
Theorem do_fork_correct {M} `{!KernelMem M} stale ret_from_fork fl sp regs sz (s : sched M) p :
  sched_inv s -> running s p ->
  exists r s', do_fork stale ret_from_fork fl sp regs sz s = Some (r, s') /\ sched_inv s' /\ running s' p /\
    ((r = -1 /\ process_table s' = process_table s /\ fork_fails s) \/ forked ret_from_fork s s' p sp regs r).
Proof. apply do_fork_spec. Qed.

Lemma do_fork_correct_witness :
  exists r s', do_fork (fun _ => mk_tinfo None 0) 4096 0 65536 zero_regs 0 demo = Some (r, s') /\
    sched_inv s' /\ running s' 0 /\
    ((r = -1 /\ process_table s' = process_table demo /\ fork_fails demo) \/ forked 4096 demo s' 0 65536 zero_regs r).
Proof. apply (do_fork_correct (fun _ => mk_tinfo None 0) 4096 0 65536 zero_regs 0 demo 0); apply demo_ok. Defined.

(** C18: [do_exit] makes the caller a zombie, leaves the state of every other
    task alone, and when some other task is ready gives the processor to one
    that is. *)
Theorem do_exit_correct {M} `{!KernelMem M} save_context sig (s : sched M) p :
  sched_inv s -> running s p ->
  exists s', do_exit save_context sig s = Some s' /\ sched_inv s' /\ state_of s' p = Some ZOMBIE /\
    (forall i, i ≠ p -> state_of s' i = state_of s i) /\
    ((exists i, 0 <= i < NR_TASKS /\ i ≠ p /\ ready s i) -> exists q, q ≠ p /\ ready s q /\ running s' q).
Proof.
  intros Hs Hr. destruct (do_exit_spec save_context sig s p Hs Hr) as (s' & E & Hs' & _ & _ & Hq).
  destruct (do_exit_states save_context sig s s' p Hs Hr E) as [Hz Ho]. by exists s'.
Qed.

Lemma do_exit_correct_witness :
  exists s', do_exit (fun t => t) 9 demo = Some s' /\ sched_inv s' /\ state_of s' 0 = Some ZOMBIE /\
    (forall i, i ≠ 0 -> state_of s' i = state_of demo i) /\
    ((exists i, 0 <= i < NR_TASKS /\ i ≠ 0 /\ ready demo i) -> exists q, q ≠ 0 /\ ready demo q /\ running s' q).
Proof. apply (do_exit_correct (fun t => t) 9 demo 0); apply demo_ok. Defined.

(** The test in [psig] is inverted and [issig] looks at four signals
    only: a process with no pending signal below 4, in particular one with no
    signal at all, is killed by [psig]. *)
Theorem psig_kills_unsignalled {M} `{!KernelMem M} save_context handle_sig (s : sched M) p :
  sched_inv s -> running s p ->
  (exists a t, current s = Some a /\ tasks s !! a = Some t /\
     forall j, 0 <= j < 4 -> Z.testbit (signal t) j = false) ->
  exists s', psig save_context handle_sig s = Some s' /\ ~ ready s' p.
Proof.
  intros Hs Hrun (a & t & Ec & Et & Hsig). unfold psig, issig. rewrite Ec. cbn [mbind option_bind].
  destruct (issig_loop_none a siglen 0 s t Et) as (s1 & -> & Hc & Hm & Htb & h & Hts); [lia|apply Hsig|].
  cbn [mbind option_bind]. rewrite Hc, Ec, Hts. cbn [mbind option_bind]. rewrite lookup_insert_eq.
  cbn [mbind option_bind negb].
  assert (sched_inv s1) as Hs1.
  { pose proof (upd_inv s a t (set_sighandle h t) Hs Et) as H. destruct H as [I1 I2 I3]; [done..|].
    constructor; unfold slot in *; rewrite ?Htb, ?Hm, ?Hc, ?Hts; done. }
  assert (running s1 p) as Hr1.
  { destruct Hrun as (a' & t' & Ec' & Et' & Hp). assert (a' = a) as -> by congruence.
    assert (t' = t) as -> by congruence. exists a, (set_sighandle h t).
    by rewrite Hc, Hts, lookup_insert_eq. }
  destruct (do_exit_spec save_context (sighandle (set_sighandle h t)) s1 p Hs1 Hr1) as (s' & E & _ & Hn & _).
  by exists s'.
Qed.

Lemma psig_kills_unsignalled_witness :
  exists s', psig (fun t => t) (fun s => Some s) demo = Some s' /\ ~ ready s' 0.
Proof.
  apply (psig_kills_unsignalled (fun t => t) (fun s => Some s) demo 0); [apply demo_ok..|].
  exists 1. eexists. split_and!; [vm_compute; reflexivity..|]. intros j _. by rewrite Z.bits_0.
Defined.
