(* ===== verification/Heap.v ===== *)
(** * The boot-time heap (memory-management/allocator.c)

    A bump allocator with a list of block headers laid out back to back from
    the start of the heap.  Block headers live in a map keyed by address; a
    header takes 12 bytes. *)

From S2P Require Export Prelude.

Record heap_block_t := mk_block { size : Z; is_freed : bool; next : option Z }.

Record heap := mk_heap {
  blocks : gmap Z heap_block_t;
  head : option Z;
  kalloc_ptr : Z;
  heap_end : Z
}.

Definition ALIGN : Z := 8.
Definition sizeof_block : Z := 12.

(** [+] binds tighter than [&] in the macro. *)
Definition ALIGNUP (offset align : Z) : Z :=
  u32 (Z.land (offset + (align + 1)) (Z.lnot (align - 1))).

(** The outcome of the walk: a block to reuse, or the last block of the list. *)
Inductive walk_result := Reuse (a : Z) | End_of_list (prev : option Z).

Fixpoint walk (fuel : nat) (m : gmap Z heap_block_t) (curr prev : option Z) (req : Z) : option walk_result :=
  match fuel with
  | O => None
  | S fuel =>
      match curr with
      | None => Some (End_of_list prev)
      | Some a =>
          b ← m !! a;
          if is_freed b && (req <=? size b) then Some (Reuse a)
          else walk fuel m (next b) (Some a) req
      end
  end.

(** The walk visits a block at most once unless the list has a cycle. *)
Definition kalloc (req : Z) (h : heap) : option (option Z * heap) :=
  let req := ALIGNUP req ALIGN in
  let total_req := u32 (req + sizeof_block) in
  if heap_end h <? u32 (kalloc_ptr h + total_req) then Some (None, h)
  else
    r ← walk (S (base.size (blocks h))) (blocks h) (head h) None req;
    match r with
    | Reuse a =>
        b ← blocks h !! a;
        Some (Some (u32 (a + sizeof_block)),
              mk_heap (<[a := mk_block (size b) false (next b)]> (blocks h)) (head h) (kalloc_ptr h) (heap_end h))
    | End_of_list prev =>
        let curr := kalloc_ptr h in
        let m := <[curr := mk_block req false None]> (blocks h) in
        let ptr := u32 (kalloc_ptr h + total_req) in
        match head h with
        | None => Some (Some (u32 (curr + sizeof_block)), mk_heap m (Some curr) ptr (heap_end h))
        | Some _ =>
            p ← prev;
            b ← m !! p;
            Some (Some (u32 (curr + sizeof_block)),
                  mk_heap (<[p := mk_block (size b) (is_freed b) (Some curr)]> m) (head h) ptr (heap_end h))
        end
    end.

Definition kbfree (ptr : Z) (h : heap) : option heap :=
  if ptr =? 0 then Some h
  else
    let a := u32 (ptr - sizeof_block) in
    b ← blocks h !! a;
    let m := <[a := mk_block (size b) true (next b)]> (blocks h) in
    match next b with
    | Some _ => Some (mk_heap m (head h) (kalloc_ptr h) (heap_end h))
    | None => Some (mk_heap m (head h) (u32 (kalloc_ptr h - u32 (size b + sizeof_block))) (heap_end h))
    end.

(** ** What a heap represents: sizes and freed marks, in address order *)

Fixpoint seg (m : gmap Z heap_block_t) (a : Z) (l : list (Z * bool)) (e : Z) : Prop :=
  match l with
  | [] => a = e
  | (sz, fr) :: l =>
      0 <= sz /\
      m !! a = Some (mk_block sz fr (match l with [] => None | _ => Some (a + sizeof_block + sz) end)) /\
      seg m (a + sizeof_block + sz) l e
  end.

Record heap_rep (h : heap) (start : Z) (l : list (Z * bool)) : Prop := {
  rep_start : 0 < start;
  rep_head : head h = match l with [] => None | _ => Some start end;
  rep_seg : seg (blocks h) start l (kalloc_ptr h);
  rep_bound : kalloc_ptr h <= heap_end h;
  rep_end : heap_end h < 2 ^ 31
}.

(** The address of the block after [l]. *)
Definition addr_after (start : Z) (l : list (Z * bool)) : Z :=
  foldr (fun b a => a + sizeof_block + b.1) start l.

Lemma addr_after_cons start b l : addr_after start (b :: l) = addr_after start l + sizeof_block + b.1.
Proof. done. Qed.

Lemma addr_after_shift x start l : addr_after (start + x) l = addr_after start l + x.
Proof. induction l as [|b l IH]; [done|]. rewrite !addr_after_cons, IH. lia. Qed.

(** ** Segments *)

Lemma seg_end m a l e : seg m a l e -> e = addr_after a l.
Proof.
  revert a. induction l as [|[sz fr] l IH]; intros a; cbn [seg]; [done|]. intros (_ & _ & Hs).
  rewrite (IH _ Hs), addr_after_cons. cbn [fst].
  rewrite <- Z.add_assoc, addr_after_shift. lia.
Qed.

Lemma seg_le m a l e : seg m a l e -> a <= e.
Proof.
  revert a. induction l as [|[sz fr] l IH]; intros a; cbn [seg]; [lia|]. intros (? & _ & Hs).
  apply IH in Hs. unfold sizeof_block in *. lia.
Qed.

(** Writes at or beyond the end, or before the start, do not matter. *)
Lemma seg_frame m a l e x b : seg m a l e -> e <= x \/ x < a -> seg (<[x := b]> m) a l e.
Proof.
  revert a. induction l as [|[sz fr] l IH]; intros a; cbn [seg]; [done|]. intros (? & Hm & Hs) Hx.
  pose proof (seg_le _ _ _ _ Hs). unfold sizeof_block in *.
  split_and!; [done| |apply IH; [done|lia]]. rewrite lookup_insert_ne; [done|lia].
Qed.

Lemma seg_delete m a l e x : seg m a l e -> x < a -> seg (delete x m) a l e.
Proof.
  revert a. induction l as [|[sz fr] l IH]; intros a; cbn [seg]; [done|]. intros (? & Hm & Hs) Hx.
  unfold sizeof_block in *. split_and!; [done| |apply IH; [done|lia]]. rewrite lookup_delete_ne; [done|lia].
Qed.

(** Blocks have distinct addresses, so the fuel of the walk is enough. *)
Lemma seg_size m a l e : seg m a l e -> (length l <= base.size m)%nat.
Proof.
  revert m a. induction l as [|[sz fr] l IH]; intros m a; cbn [seg length]; [lia|]. intros (? & Hm & Hs).
  apply (seg_delete _ _ _ _ a) in Hs; [|unfold sizeof_block; lia]. apply IH in Hs.
  assert (base.size (delete a m) = pred (base.size m)) as Hd by (apply map_size_delete_Some; eauto). assert (base.size m ≠ 0%nat); [|lia].
  intros E. apply map_size_empty_inv in E. subst. done.
Qed.

(** The walk: the first freed block that is large enough, or the last block. *)
Lemma walk_spec m l : forall fuel a e prev req,
  seg m a l e -> (length l < fuel)%nat ->
  exists r, walk fuel m (match l with [] => None | _ => Some a end) prev req = Some r /\
  ((exists l1 sz l2, l = l1 ++ (sz, true) :: l2 /\ req <= sz /\
      Forall (fun b => b.2 = false \/ b.1 < req) l1 /\ r = Reuse (addr_after a l1)) \/
   (Forall (fun b => b.2 = false \/ b.1 < req) l /\
    r = End_of_list (match last l with None => prev | Some _ => Some (addr_after a (removelast l)) end))).
Proof.
  induction l as [|[sz fr] l IH]; intros fuel a e prev req Hs Hf; (destruct fuel as [|fuel]; [simpl in Hf; lia|]).
  { eexists. split; [done|]. by right. }
  cbn [seg] in Hs. destruct Hs as (Hsz & Hm & Hs). cbn [walk]. rewrite Hm. cbn [mbind option_bind is_freed size next].
  destruct (fr && (req <=? sz)) eqn:E.
  - apply andb_prop in E as [-> E]. eexists. split; [done|]. left. exists [], sz, l. split_and!; [done|lia|done..].
  - assert (fr = false \/ sz < req) as Hno by (destruct fr; [right; cbn in E; lia|by left]).
    destruct (IH fuel (a + sizeof_block + sz) e (Some a) req Hs) as (r & Er & Hr); [simpl in Hf; lia|].
    exists r. split; [destruct l; exact Er|].
    assert (forall l1, addr_after (a + sizeof_block + sz) l1 = addr_after a l1 + sizeof_block + sz) as Hsh.
    { intros l1. rewrite <- Z.add_assoc, addr_after_shift. lia. }
    destruct Hr as [(l1 & sz1 & l2 & -> & Hle & Hall & ->)|[Hall ->]].
    + left. exists ((sz, fr) :: l1), sz1, l2. split_and!; [done|done|by constructor|].
      by rewrite Hsh, addr_after_cons.
    + right. split; [by constructor|]. destruct l as [|b l]; [done|].
      rewrite last_cons_cons. destruct (last (b :: l)) eqn:El; [|by apply last_None in El].
      change (removelast ((sz, fr) :: b :: l)) with ((sz, fr) :: removelast (b :: l)).
      by rewrite Hsh, addr_after_cons.
Qed.

Lemma addr_after_app a l1 l2 : addr_after a (l1 ++ l2) = addr_after (addr_after a l1) l2.
Proof.
  induction l1 as [|b l1 IH]; [done|]. cbn [app]. rewrite !addr_after_cons, IH.
  rewrite <- (Z.add_assoc (addr_after a l1)), addr_after_shift. lia.
Qed.

Lemma seg_app m a l1 l2 e :
  seg m a (l1 ++ l2) e -> l2 ≠ [] -> seg m (addr_after a l1) l2 e.
Proof.
  revert a. induction l1 as [|[sz fr] l1 IH]; intros a Hs Hne; [done|].
  cbn [app seg] in Hs. destruct Hs as (_ & _ & Hs). apply IH in Hs; [|done].
  rewrite addr_after_cons. cbn [fst]. by rewrite <- Z.add_assoc, addr_after_shift, Z.add_assoc in Hs.
Qed.

Lemma seg_addr m a l1 l2 e : seg m a (l1 ++ l2) e -> a <= addr_after a l1.
Proof.
  revert a. induction l1 as [|[sz fr] l1 IH]; intros a Hs; [done|].
  cbn [app seg] in Hs. destruct Hs as (Hsz & _ & Hs). apply IH in Hs.
  rewrite <- Z.add_assoc, addr_after_shift in Hs. rewrite addr_after_cons. cbn [fst].
  unfold sizeof_block in *. lia.
Qed.

Lemma addr_after_head a sz (fr : bool) l : addr_after (a + sizeof_block + sz) l = addr_after a ((sz, fr) :: l).
Proof. rewrite addr_after_cons, <- Z.add_assoc, addr_after_shift. cbn [fst]. lia. Qed.

(** Changing the mark of one block. *)
Lemma seg_mark m a l1 sz fr fr' l2 e :
  seg m a (l1 ++ (sz, fr) :: l2) e ->
  exists nx, m !! addr_after a l1 = Some (mk_block sz fr nx) /\ (nx = None <-> l2 = []) /\
    seg (<[addr_after a l1 := mk_block sz fr' nx]> m) a (l1 ++ (sz, fr') :: l2) e.
Proof.
  revert a. induction l1 as [|[s1 f1] l1 IH]; intros a Hs.
  - cbn [app seg] in Hs. destruct Hs as (Hsz & Hm & Hs). change (addr_after a []) with a.
    eexists. split; [exact Hm|]. split; [by destruct l2|]. cbn [app seg].
    rewrite lookup_insert_eq. split_and!; [done..|]. apply seg_frame; [done|]. unfold sizeof_block. lia.
  - cbn [app seg] in Hs. destruct Hs as (Hsz & Hm & Hs).
    destruct (IH _ Hs) as (nx & Hl & Hnx & Hs'). pose proof (seg_addr _ _ _ _ _ Hs) as Ha.
    rewrite (addr_after_head _ _ f1) in *. exists nx. split_and!; [done|apply Hnx..|]. cbn [app seg].
    split_and!; [done| |done].
    rewrite lookup_insert_ne by (unfold sizeof_block in *; lia). by destruct l1.
Qed.

(** Appending a block at the end and linking it from the last one. *)
Lemma seg_snoc m a l e req :
  seg m a l e -> l ≠ [] -> 0 <= req ->
  exists p b, last l = Some p /\
    (<[e := mk_block req false None]> m) !! addr_after a (removelast l) = Some b /\
    seg (<[addr_after a (removelast l) := mk_block (size b) (is_freed b) (Some e)]>
           (<[e := mk_block req false None]> m)) a (l ++ [(req, false)]) (e + sizeof_block + req).
Proof.
  revert a. induction l as [|[sz fr] l IH]; intros a Hs Hne Hreq; [done|].
  cbn [seg] in Hs. destruct Hs as (Hsz & Hm & Hs). pose proof (seg_le _ _ _ _ Hs) as Hle.
  unfold sizeof_block in Hle. destruct l as [|x l].
  - cbn [seg] in Hs. subst e. cbn [removelast addr_after foldr last].
    rewrite lookup_insert_ne, Hm by (unfold sizeof_block; lia). do 2 eexists. split_and!; [done..|].
    cbn [app seg size is_freed]. rewrite lookup_insert_eq, lookup_insert_ne, lookup_insert_eq by (unfold sizeof_block; lia).
    split_and!; done.
  - destruct (IH _ Hs ltac:(done) Hreq) as (p & b & Hp & Hb & Hs').
    assert (a + sizeof_block + sz <= addr_after (a + sizeof_block + sz) (removelast (x :: l))) as Hge.
    { apply (seg_addr m _ _ [p] e). replace (removelast (x :: l) ++ [p]) with (x :: l); [done|].
      rewrite (app_removelast_last p) at 1 by done. f_equal. f_equal.
      clear -Hp. rewrite (app_removelast_last p (l := x :: l)) in Hp by done. rewrite last_snoc in Hp. congruence. }
    change (removelast ((sz, fr) :: x :: l)) with ((sz, fr) :: removelast (x :: l)).
    rewrite (addr_after_head _ _ fr) in *. exists p, b. rewrite last_cons_cons. split_and!; [done..|].
    cbn [app seg]. split_and!; [done| |exact Hs'].
    rewrite !lookup_insert_ne by (unfold sizeof_block in *; lia). exact Hm.
Qed.

(** ** Alignment *)

Lemma ALIGNUP_8 req :
  0 <= req < 2 ^ 30 -> (8 | ALIGNUP req ALIGN) /\ req < ALIGNUP req ALIGN <= req + 9.
Proof.
  intros Hr. unfold ALIGNUP, ALIGN. change (8 - 1) with (Z.ones 3).
  rewrite <- Z.ldiff_land, Z.ldiff_ones_r, Z.shiftr_div_pow2, Z.shiftl_mul_pow2 by lia.
  change (2 ^ 3) with 8. pose proof (Z.div_mod (req + (8 + 1)) 8). pose proof (Z.mod_pos_bound (req + (8 + 1)) 8).
  rewrite u32_small by lia. split; [by exists ((req + (8 + 1)) `div` 8)|]. lia.
Qed.

(** ** Allocation *)

(** How an allocation of [req] bytes changes the list, and the address it
    returns. *)
Definition allocated (start req : Z) (l l' : list (Z * bool)) (p : Z) : Prop :=
  exists l1 sz l2, l' = l1 ++ (sz, false) :: l2 /\ req <= sz /\ p = addr_after start l1 + sizeof_block /\
    (l = l1 ++ (sz, true) :: l2 \/ (l = l1 /\ l2 = [])).

Lemma kalloc_spec req h start l :
  heap_rep h start l -> 0 <= req < 2 ^ 30 ->
  exists r h', kalloc req h = Some (r, h') /\ heap_end h' = heap_end h /\
    match r with
    | None => h' = h /\ heap_end h < kalloc_ptr h + ALIGNUP req ALIGN + sizeof_block
    | Some p => exists l', heap_rep h' start l' /\ allocated start req l l' p
    end.
Proof.
  intros [Hst Hh Hs Hb He] Hr. destruct (ALIGNUP_8 req Hr) as [_ Hal]. unfold kalloc.
  pose proof (seg_le _ _ _ _ Hs) as Hle. pose proof (seg_size _ _ _ _ Hs) as Hsz.
  set (rq := ALIGNUP req ALIGN) in *. change sizeof_block with 12.
  rewrite (u32_small (rq + 12)), (u32_small (kalloc_ptr h + (rq + 12))) by lia.
  destruct (Z.ltb_spec (heap_end h) (kalloc_ptr h + (rq + 12))).
  { exists None, h. split_and!; [done..|lia]. }
  destruct (walk_spec (blocks h) l (S (base.size (blocks h))) start (kalloc_ptr h) None rq Hs)
    as (r & Er & Hr'); [lia|]. rewrite Hh, Er. cbn [mbind option_bind].
  destruct Hr' as [(l1 & sz & l2 & -> & Hle1 & _ & ->)|[_ ->]].
  - destruct (seg_mark _ _ _ _ _ false _ _ Hs) as (nx & Hl & _ & Hs').
    pose proof (seg_addr _ _ _ _ _ Hs) as Ha. pose proof (seg_le _ _ _ _ (seg_app _ _ _ _ _ Hs ltac:(done))) as Hb2.
    rewrite Hl. cbn [mbind option_bind size next]. eexists (Some _), _. split; [done|]. split; [done|].
    exists (l1 ++ (sz, false) :: l2). split.
    + constructor; cbn; try done. by destruct l1.
    + exists l1, sz, l2. split_and!; [done|lia| |by left]. rewrite u32_small by lia. done.
  - assert (kalloc_ptr h = addr_after start l) as Hp by (by eapply seg_end).
    assert (allocated start req l (l ++ [(rq, false)]) (u32 (kalloc_ptr h + 12))) as Hal'.
    { exists l, rq, []. split_and!; [done|lia| |by right]. rewrite u32_small by lia. unfold sizeof_block. lia. }
    destruct l as [|x l].
    + cbn [mbind option_bind]. eexists (Some _), _. split; [done|]. split; [done|].
      eexists. split; [|exact Hal']. cbn [seg] in Hs. subst start. constructor; cbn; try done; try lia.
      rewrite lookup_insert_eq. split_and!; [lia|done|unfold sizeof_block; lia].
    + destruct (seg_snoc (blocks h) start (x :: l) (kalloc_ptr h) rq Hs ltac:(done) ltac:(lia))
        as (p & b & Hlast & Hb' & Hs').
      rewrite Hlast. cbn [mbind option_bind]. rewrite Hb'. cbn [mbind option_bind].
      eexists (Some _), _. split; [done|]. split; [done|]. eexists. split; [|exact Hal'].
      constructor; cbn; try done; try lia.
      replace (kalloc_ptr h + (rq + 12)) with (kalloc_ptr h + sizeof_block + rq) by (unfold sizeof_block; lia).
      exact Hs'.
Qed.

(** Freeing a block that is not the last one. *)
Lemma kbfree_spec h start l1 sz fr l2 :
  heap_rep h start (l1 ++ (sz, fr) :: l2) -> l2 ≠ [] ->
  exists h', kbfree (addr_after start l1 + sizeof_block) h = Some h' /\
    heap_rep h' start (l1 ++ (sz, true) :: l2).
Proof.
  intros [Hst Hh Hs Hb He] Hl2. unfold kbfree. pose proof (seg_addr _ _ _ _ _ Hs) as Ha.
  pose proof (seg_le _ _ _ _ (seg_app _ _ _ _ _ Hs ltac:(done))) as Hb2.
  destruct (Z.eqb_spec (addr_after start l1 + sizeof_block) 0); [unfold sizeof_block in *; lia|].
  replace (u32 (addr_after start l1 + sizeof_block - sizeof_block)) with (addr_after start l1)
    by (unfold sizeof_block; rewrite u32_small by lia; lia).
  destruct (seg_mark _ _ _ _ _ true _ _ Hs) as (nx & Hl & Hnx & Hs'). rewrite Hl. cbn [mbind option_bind next size].
  destruct nx as [nx|]; [|by destruct Hl2; apply Hnx].
  eexists. split; [done|]. constructor; cbn; try done. by destruct l1.
Qed.

(** ** Correctness *)

(** C20: on a well-formed heap [kalloc] terminates and either reports that the
    heap is exhausted and changes nothing, or returns the payload of a block of
    at least the requested size that was free or newly appended, keeps every
    other block and its contents' place, and leaves a well-formed heap; so live
    payloads never overlap. *)
Theorem kalloc_correct req h start l :
  heap_rep h start l -> 0 <= req < 2 ^ 30 ->
  exists r h', kalloc req h = Some (r, h') /\ heap_end h' = heap_end h /\
    match r with
    | None => h' = h /\ heap_end h < kalloc_ptr h + ALIGNUP req ALIGN + sizeof_block
    | Some p => exists l', heap_rep h' start l' /\ allocated start req l l' p
    end.
Proof. apply kalloc_spec. Qed.

Definition heap0 : heap := mk_heap ∅ None 4096 65536.

Lemma heap0_rep : heap_rep heap0 4096 [].
Proof. by constructor. Qed.

Lemma kalloc_correct_witness :
  exists r h', kalloc 40 heap0 = Some (r, h') /\ heap_end h' = heap_end heap0 /\
    match r with
    | None => h' = heap0 /\ heap_end heap0 < kalloc_ptr heap0 + ALIGNUP 40 ALIGN + sizeof_block
    | Some p => exists l', heap_rep h' 4096 l' /\ allocated 4096 40 [] l' p
    end.
Proof. apply (kalloc_correct 40 heap0 4096 []); [apply heap0_rep|lia]. Defined.

(** [kbfree] of the most recent block moves [kalloc_ptr] back but leaves
    its header on the list, so the heap is no longer well formed: of the next
    two allocations of that size the first reuses the header and the second is
    carved from the same place, and both get the same address. *)
Theorem kbfree_last_overlap :
  ('(r1, h) ← kalloc 40 heap0;
   p ← r1;
   h ← kbfree p h;
   '(r2, h) ← kalloc 40 h;
   '(r3, h) ← kalloc 40 h;
   Some (r1, r2, r3)) = Some (Some 4108, Some 4108, Some 4108).
Proof. vm_compute. reflexivity. Qed.
