(* ===== verification/Mm.v ===== *)
(** * Physical memory and paging (memory-management/mm.c, manager.c)

    The boot-time page allocator works on the [flags] words of [mem_map]; page
    tables are the arrays of 1024 words stored in the page frames it hands out.
    Addresses are physical until paging is on, and the kernel writes tables
    through them. *)

From S2P Require Export Heap.

Definition PAGE_SIZE : Z := 4096.
Definition PG_DIR_ENTRIES : Z := 1024.
Definition PG_TABLE_ENTRIES : Z := 1024.
Definition PG_FLAG_TAKEN : Z := 64.
Definition PG_FLAG_RESERVED : Z := 128.
Definition PAGE_OFFSET : Z := 0xC0000000.
Definition MAX_MEMORY_BLOCKS : Z := 10.
Definition HEAP_SIZE : Z := 256 * 4096.
Definition sizeof_page : Z := 36.

Record memory_blocks_t := mk_mblock { mb_start : Z; mb_end : Z }.

Record phy_layout := mk_layout {
  highest_usable_pfn : Z;
  totalram_pages : Z;
  max_pfn : Z;
  max_low_pfn : Z;
  totalhigh_pages : Z;
  highstart_pfn : Z;
  highend_pfn : Z
}.

(** ** The memory map (manager.c, mm.c) *)

Definition machine_specific_memory_setup (mem_lower mem_upper : Z) : phy_layout :=
  let total_ram_bytes := u32 (u32 (mem_upper * 1024) + 1024 * 1024) in
  let total_ram_pfn := total_ram_bytes `div` PAGE_SIZE in
  let lowmem_limit_pfn := u32 (mem_lower * 1024) `div` PAGE_SIZE in
  let highest := u32 (mem_upper * 1024) `div` PAGE_SIZE in
  let low := if total_ram_pfn <? lowmem_limit_pfn then total_ram_pfn else lowmem_limit_pfn in
  mk_layout highest total_ram_pfn highest low (u32 (highest - low)) low highest.

(** One entry of the boot loader's map. *)
Record mmap_entry := mk_mmap { me_addr : Z; me_len : Z; me_type : Z }.

Definition usable_block (KERNEL_END : Z) (e : mmap_entry) : memory_blocks_t :=
  let entry_start := u32 (me_addr e) in
  let entry_end := u32 (entry_start + me_len e) in
  if (entry_start <=? KERNEL_END) && (KERNEL_END <? entry_end) then mk_mblock KERNEL_END entry_end
  else mk_mblock entry_start entry_end.

Fixpoint scan_mmap (KERNEL_END : Z) (es : list mmap_entry) (blocks : list memory_blocks_t) (num_blocks : Z)
  : option (list memory_blocks_t * Z) :=
  match es with
  | [] => Some (blocks, num_blocks)
  | e :: es =>
      if (me_type e =? 1) && (num_blocks <? MAX_MEMORY_BLOCKS) then
        blocks ← zset blocks num_blocks (usable_block KERNEL_END e);
        scan_mmap KERNEL_END es blocks (num_blocks + 1)
      else scan_mmap KERNEL_END es blocks num_blocks
  end.

(** [mbi]: its flags, the size fields in KB and the decoded map. *)
Definition find_available_memory (KERNEL_END flags mem_lower mem_upper : Z) (es : list mmap_entry)
    (blocks : list memory_blocks_t) : option (Z * list memory_blocks_t * option phy_layout) :=
  if negb (Z.testbit flags 6) then Some (0, blocks, None)
  else
    '(blocks, n) ← scan_mmap KERNEL_END es blocks 0;
    Some (n, blocks, Some (machine_specific_memory_setup mem_lower mem_upper)).

(** The heap of [initialize_memeory_manager]. *)
Definition init_heap (blocks : list memory_blocks_t) : option heap :=
  b ← zget blocks 0;
  let heap_start := ALIGNUP (u32 (mb_start b)) PAGE_SIZE in
  Some (mk_heap ∅ None heap_start (u32 (heap_start + HEAP_SIZE))).

(** ** [mem_map]: one flags word per page frame *)

Definition upd_flags (mm : list Z) (i : Z) (f : Z -> Z) : option (list Z) :=
  v ← zget mm i; zset mm i (f v).

(** [flags &= ~PG_FLAG_TAKEN] with the unparenthesised macro [1<<6]. *)
Definition not_taken : Z := u32 (Z.shiftl (Z.lnot 1) 6).
Definition not_reserved : Z := u32 (Z.shiftl (Z.lnot 1) 7).

Fixpoint free_range (mm : list Z) (iCnt : Z) (n : nat) : option (list Z) :=
  match n with
  | O => Some mm
  | S n =>
      mm ← upd_flags mm iCnt (fun v => Z.land (Z.land v not_taken) not_reserved);
      free_range mm (iCnt + 1) n
  end.

Definition block_first_page (b : memory_blocks_t) : Z :=
  let phy_start := u32 (mb_start b) in
  let phy_start := if phy_start `mod` PAGE_SIZE =? 0 then phy_start
                   else u32 (phy_start - phy_start `mod` PAGE_SIZE + PAGE_SIZE) in
  phy_start `div` PAGE_SIZE.

Definition block_last_page (b : memory_blocks_t) : Z :=
  let phy_end := u32 (mb_end b) in
  let phy_end := if phy_end `mod` PAGE_SIZE =? 0 then phy_end
                 else u32 (phy_end - phy_end `mod` PAGE_SIZE + PAGE_SIZE - 1) in
  u32 (phy_end - 1) `div` PAGE_SIZE.

(** The loop over the blocks shares its counter with the loop over pages. *)
Fixpoint mark_blocks (fuel : nat) (blocks : list memory_blocks_t) (iCnt : Z) (mm : list Z) : option (list Z) :=
  match fuel with
  | O => None
  | S fuel =>
      if iCnt <? MAX_MEMORY_BLOCKS then
        b ← zget blocks iCnt;
        if (mb_start b =? 0) || (mb_end b =? 0) then mark_blocks fuel blocks (iCnt + 1) mm
        else
          let page_start := block_first_page b in
          let page_end := block_last_page b in
          mm ← free_range mm page_start (Z.to_nat (page_end + 1 - page_start));
          mark_blocks fuel blocks (Z.max page_start (page_end + 1) + 1) mm
      else Some mm
  end.

(** The map itself is allocated from the boot heap. *)
Definition create_mem_map (l : phy_layout) (blocks : list memory_blocks_t) (h : heap)
  : option (option (Z * list Z) * heap) :=
  '(p, h) ← kalloc (u32 (totalram_pages l * sizeof_page)) h;
  match p with
  | None => Some (None, h)
  | Some p =>
      let mm := replicate (Z.to_nat (totalram_pages l)) (Z.lor PG_FLAG_TAKEN PG_FLAG_RESERVED) in
      mm ← mark_blocks (S (Z.to_nat MAX_MEMORY_BLOCKS)) blocks 0 mm;
      Some (Some (p, mm), h)
  end.

(** The first frame whose TAKEN bit is clear, from [iCnt] on. *)
Fixpoint scan_free (mm : list Z) (iCnt : Z) : option Z :=
  match mm with
  | [] => None
  | v :: mm => if has_flag v PG_FLAG_TAKEN then scan_free mm (iCnt + 1) else Some iCnt
  end.

(** Exhaustion is reported as address 0, which is also page frame 0. *)
Definition get_free_page (mm : list Z) : option (Z * list Z) :=
  match scan_free mm 0 with
  | Some i => mm ← upd_flags mm i (fun v => Z.lor v PG_FLAG_TAKEN); Some (u32 (i * PAGE_SIZE), mm)
  | None => Some (0, mm)
  end.

Definition release_page (phy_addr : Z) (mm : list Z) : option (list Z) :=
  upd_flags mm (phy_addr `div` PAGE_SIZE) (fun v => Z.land v (Z.lnot PG_FLAG_TAKEN)).

Fixpoint take_pages (mm : list Z) (n : nat) : option (list Z) :=
  match n with
  | O => Some mm
  | S n => '(_, mm) ← get_free_page mm; take_pages mm n
  end.

Fixpoint clear_low (mm : list Z) (iCnt : Z) (n : nat) : option (list Z) :=
  match n with
  | O => Some mm
  | S n =>
      mm ← upd_flags mm iCnt (fun v => Z.land (Z.land v (Z.lnot PG_FLAG_TAKEN)) (Z.lnot PG_FLAG_RESERVED));
      clear_low mm (iCnt + 1) n
  end.

(** The copy moves the map to the first frame obtained; [ptr] is its old
    place in the heap. *)
Definition copy_mem_map (l : phy_layout) (ptr : Z) (mm : list Z) (h : heap) : option (Z * list Z * heap) :=
  let page_req := u32 (sizeof_page * totalram_pages l) `div` PAGE_SIZE + 1 in
  '(phy_start, mm) ← get_free_page mm;
  mm ← take_pages mm (Z.to_nat (page_req - 1));
  h ← kbfree ptr h;
  mm ← clear_low mm 0 (Z.to_nat (max_low_pfn l));
  Some (phy_start, mm, h).

(** ** Page tables *)

Definition PG_BITS : Z := 7.

Definition count_pgdir_entries (present_pages : Z) : Z :=
  u32 (present_pages * PAGE_SIZE) `div` (PAGE_SIZE * PG_TABLE_ENTRIES).

Definition pgd_index (phy_addr : Z) : Z := phy_addr `div` (PG_DIR_ENTRIES * PAGE_SIZE).

Definition entry_for (addr : Z) : Z := Z.lor (Z.land addr 0xFFFFF000) PG_BITS.

(** [while (phy_addr < total_ram && jCnt < PG_TABLE_ENTRIES)]; [n] is the room
    left in the table. *)
Fixpoint fill_table (tbl : list Z) (jCnt phy_addr total_ram : Z) (n : nat) : option (list Z * Z) :=
  match n with
  | O => Some (tbl, phy_addr)
  | S n =>
      if phy_addr <? total_ram then
        tbl ← zset tbl jCnt (entry_for phy_addr);
        fill_table tbl (jCnt + 1) (u32 (phy_addr + PAGE_SIZE)) total_ram n
      else Some (tbl, phy_addr)
  end.

Record paging := mk_paging { pg_map : list Z; pg_dir : list Z; tables : gmap Z (list Z) }.

Section Paging.
(** What a page frame holds before it becomes a table. *)
Context (stale : Z -> list Z).

Fixpoint setup_loop (tblsize : nat) (pgd iCnt phy_addr total_ram : Z) (s : paging) (n : nat) : option paging :=
  match n with
  | O => Some s
  | S n =>
      '(temp_addr, mm) ← get_free_page (pg_map s);
      dir ← zset (pg_dir s) (pgd + iCnt) (entry_for temp_addr);
      dir ← zset dir iCnt (entry_for temp_addr);
      '(tbl, phy_addr) ← fill_table (default (stale temp_addr) (tables s !! temp_addr)) 0 phy_addr total_ram tblsize;
      setup_loop tblsize pgd (iCnt + 1) phy_addr total_ram
        (mk_paging mm dir (<[temp_addr := tbl]> (tables s))) n
  end.

Definition setup_paging (l : phy_layout) (pgdir_entries : Z) (s : paging) : option paging :=
  setup_loop (Z.to_nat PG_TABLE_ENTRIES) (pgd_index PAGE_OFFSET) 0 0
    (u32 (totalram_pages l * PAGE_SIZE)) s (Z.to_nat pgdir_entries).
End Paging.

(** What the processor does with the tables: the two-level walk. *)
Definition translate (s : paging) (va : Z) : option Z :=
  pde ← zget (pg_dir s) (va `div` 2 ^ 22);
  if negb (Z.testbit pde 0) then None
  else
    tbl ← tables s !! Z.land pde 0xFFFFF000;
    pte ← zget tbl ((va `div` 4096) `mod` 1024);
    if negb (Z.testbit pte 0) then None
    else Some (Z.land pte 0xFFFFF000 + va `mod` 4096).

(** ** Entries *)

Lemma entry_for_page p : 0 <= p < 2 ^ 20 -> entry_for (4096 * p) = 4096 * p + 7.
Proof.
  intros Hp. unfold entry_for, PG_BITS. rewrite land_page_mask by lia.
  replace ((4096 * p) `div` 4096) with p by (rewrite (Z.mul_comm 4096), Z.div_mul by lia; done).
  apply lor_add. change 7 with (Z.ones 3). rewrite Z.land_ones by lia.
  replace (4096 * p) with (512 * p * 2 ^ 3) by lia. by apply Z.mod_mul.
Qed.

Lemma entry_decode p :
  0 <= p < 2 ^ 20 -> Z.land (4096 * p + 7) 0xFFFFF000 = 4096 * p /\ Z.testbit (4096 * p + 7) 0 = true.
Proof.
  intros Hp. split.
  - rewrite land_page_mask by lia. f_equal. symmetry. apply Z.div_unique with (r := 7); lia.
  - rewrite Z.bit0_odd. replace (4096 * p + 7) with (2 * (2048 * p + 3) + 1) by lia. apply Z.odd_odd.
Qed.

(** ** Free frames *)

Definition frame_free (mm : list Z) (i : Z) : Prop :=
  exists v, zget mm i = Some v /\ has_flag v PG_FLAG_TAKEN = false.

Lemma zget_cons {A} (x : A) l i : zget (x :: l) i = if i =? 0 then Some x else zget l (i - 1).
Proof.
  unfold zget. destruct (Z.eqb_spec i 0) as [->|]; [done|].
  destruct (Z.ltb_spec i 0), (Z.ltb_spec (i - 1) 0); try done; try lia.
  replace (Z.to_nat i) with (S (Z.to_nat (i - 1))) by lia. done.
Qed.

Lemma scan_free_spec mm k :
  match scan_free mm k with
  | Some i => k <= i < k + Z.of_nat (length mm) /\ frame_free mm (i - k) /\
              forall j, 0 <= j < i - k -> ~ frame_free mm j
  | None => forall j, ~ frame_free mm j
  end.
Proof.
  revert k. induction mm as [|v mm IH]; intros k; cbn [scan_free].
  { intros j (x & Hx & _). apply zget_Some_lt in Hx. simpl in Hx. lia. }
  assert (forall j, frame_free (v :: mm) j <->
            (j = 0 /\ has_flag v PG_FLAG_TAKEN = false) \/ (j ≠ 0 /\ frame_free mm (j - 1))) as Hff.
  { intros j. unfold frame_free. setoid_rewrite zget_cons. destruct (Z.eqb_spec j 0).
    - split; [intros (x & [= <-] & ?); by left|intros [[_ ?]|[? _]]; [by exists v|done]].
    - split; [intros (x & ? & ?); right; split; [done|by exists x]|intros [[? _]|[_ ?]]; done]. }
  destruct (has_flag v PG_FLAG_TAKEN) eqn:Ev.
  - specialize (IH (k + 1)). destruct (scan_free mm (k + 1)) as [i|].
    + destruct IH as (Hb & Hfr & Hmin). cbn [length]. split; [lia|]. split.
      * apply Hff. right. split; [lia|]. by replace (i - k - 1) with (i - (k + 1)) by lia.
      * intros j Hj [[_ ?]|[Hj0 Hf]]%Hff; [done|]. apply (Hmin (j - 1)); [lia|done].
    + intros j [[_ ?]|[_ Hf]]%Hff; [done|]. by apply (IH (j - 1)).
  - cbn [length]. split; [lia|]. split; [|intros; lia]. apply Hff. left. by rewrite Z.sub_diag.
Qed.

Lemma has_taken_testbit v : has_flag v PG_FLAG_TAKEN = Z.testbit v 6.
Proof. apply (land_pow2_testbit v 6). lia. Qed.

Lemma upd_flags_spec mm i v f :
  zget mm i = Some v -> exists mm', upd_flags mm i f = Some mm' /\ length mm' = length mm /\
    forall j, zget mm' j = if decide (i = j) then Some (f v) else zget mm j.
Proof.
  intros Hv. unfold upd_flags. rewrite Hv. cbn [mbind option_bind]. apply zget_Some_lt in Hv.
  pose proof (zset_in_range mm i (f v) Hv) as E. rewrite E. eexists. split; [done|].
  split; [apply length_insert|]. intros j. by apply zget_zset.
Qed.

Lemma get_free_page_spec mm :
  Z.of_nat (length mm) <= 2 ^ 20 ->
  exists r mm', get_free_page mm = Some (r, mm') /\ length mm' = length mm /\
  ((exists i, 0 <= i < Z.of_nat (length mm) /\ r = 4096 * i /\ frame_free mm i /\
      (forall j, 0 <= j < i -> ~ frame_free mm j) /\ forall j, frame_free mm' j <-> frame_free mm j /\ j ≠ i) \/
   (r = 0 /\ mm' = mm /\ forall j, ~ frame_free mm j)).
Proof.
  intros Hl. unfold get_free_page. pose proof (scan_free_spec mm 0) as Hs.
  destruct (scan_free mm 0) as [i|]; [|exists 0, mm; split_and!; [done..|by right]].
  rewrite Z.sub_0_r in Hs. destruct Hs as (Hi & Hfr & Hmin). pose proof Hfr as (v & Hv & Hvf).
  destruct (upd_flags_spec mm i v (fun v => Z.lor v PG_FLAG_TAKEN) Hv) as (mm' & -> & Hlen & Hg).
  cbn [mbind option_bind]. exists (u32 (i * PAGE_SIZE)), mm'. split_and!; [done..|]. left. exists i.
  unfold PAGE_SIZE. rewrite u32_small by lia. split_and!; [lia..|done|done|].
  intros j. unfold frame_free. setoid_rewrite Hg. case_decide as D.
  - subst j. split; [|by intros [_ ?]]. intros (x & [= <-] & Hx). rewrite has_taken_testbit, Z.lor_spec in Hx.
    change (Z.testbit PG_FLAG_TAKEN 6) with true in Hx. by rewrite orb_true_r in Hx.
  - split; [intros ?; split; [done|congruence]|by intros [? _]].
Qed.

Lemma release_page_spec mm i :
  0 <= i < Z.of_nat (length mm) ->
  exists mm', release_page (4096 * i) mm = Some mm' /\ length mm' = length mm /\
    forall j, frame_free mm' j <-> frame_free mm j \/ j = i.
Proof.
  intros Hi. unfold release_page, PAGE_SIZE.
  replace ((4096 * i) `div` 4096) with i by (rewrite Z.mul_comm, Z.div_mul by lia; done).
  destruct (zget_is_Some mm i Hi) as [v Hv].
  destruct (upd_flags_spec mm i v (fun v => Z.land v (Z.lnot PG_FLAG_TAKEN)) Hv) as (mm' & -> & Hlen & Hg).
  exists mm'. split_and!; [done..|]. intros j. unfold frame_free. setoid_rewrite Hg. case_decide as D.
  - subst j. split; [by right|]. intros _. eexists. split; [done|]. rewrite has_taken_testbit, Z.land_spec.
    change (Z.testbit (Z.lnot PG_FLAG_TAKEN) 6) with false. apply andb_false_r.
  - split; [by left|]. intros [?|?]; [done|congruence].
Qed.

(** ** Filling tables *)

Lemma fill_table_spec n : forall tbl j q total,
  0 <= j -> j + Z.of_nat n <= Z.of_nat (length tbl) -> 0 <= q -> q + Z.of_nat n < 2 ^ 20 ->
  4096 * (q + Z.of_nat n) <= total ->
  exists tbl', fill_table tbl j (4096 * q) total n = Some (tbl', 4096 * (q + Z.of_nat n)) /\
    length tbl' = length tbl /\
    forall i, zget tbl' i = if decide (j <= i < j + Z.of_nat n) then Some (4096 * (q + (i - j)) + 7) else zget tbl i.
Proof.
  induction n as [|n IH]; intros tbl j q total Hj Hl Hq Hq2 Ht; cbn [fill_table].
  { exists tbl. rewrite Z.add_0_r. split_and!; [done..|]. intros i. rewrite decide_False by lia. done. }
  destruct (Z.ltb_spec (4096 * q) total); [|lia].
  rewrite entry_for_page by lia. pose proof (zset_in_range tbl j (4096 * q + 7) ltac:(lia)) as E. rewrite E.
  cbn [mbind option_bind]. unfold PAGE_SIZE. rewrite u32_small by lia.
  replace (4096 * q + 4096) with (4096 * (q + 1)) by lia.
  destruct (IH (<[Z.to_nat j:=4096 * q + 7]> tbl) (j + 1) (q + 1) total) as (tbl' & E' & Hl' & Hg);
    rewrite ?length_insert; [lia..|].
  exists tbl'. rewrite E', Hl', length_insert. split_and!; [do 3 f_equal; lia|done|].
  intros i. rewrite Hg, (zget_zset _ _ _ _ _ E). repeat case_decide; try lia; try done; do 3 f_equal; lia.
Qed.

(** ** The mapping *)

Record paging_wf (n : Z) (T : Z) (s : paging) : Prop := {
  pw_dir : Z.of_nat (length (pg_dir s)) = PG_DIR_ENTRIES;
  pw_map : Z.of_nat (length (pg_map s)) = T;
  pw_tables k : 0 <= k < n -> exists p tbl,
    0 <= p < 2 ^ 20 /\ zget (pg_dir s) k = Some (4096 * p + 7) /\
    zget (pg_dir s) (768 + k) = Some (4096 * p + 7) /\ ~ frame_free (pg_map s) p /\
    tables s !! (4096 * p) = Some tbl /\
    forall j, 0 <= j < 1024 -> zget tbl j = Some (4096 * (1024 * k + j) + 7)
}.

(** At least [n] frames are free. *)
Definition enough_free (mm : list Z) (n : nat) : Prop :=
  exists fs, NoDup fs /\ length fs = n /\ Forall (frame_free mm) fs.

Lemma enough_free_step mm mm' n i :
  enough_free mm (S n) -> (forall j, frame_free mm' j <-> frame_free mm j /\ j ≠ i) -> enough_free mm' n.
Proof.
  intros (fs & Hnd & Hl & Hall) Hf. rewrite Forall_forall in Hall.
  destruct (decide (i ∈ fs)) as [Hi|Hi].
  - apply elem_of_Permutation in Hi as [gs Hp]. rewrite Hp in Hnd. apply NoDup_cons in Hnd as [Hig Hnd].
    exists gs. split_and!; [done|rewrite Hp in Hl; by injection Hl|]. apply Forall_forall. intros j Hj.
    apply Hf. split; [apply Hall; rewrite Hp; by right|]. intros ->. done.
  - destruct fs as [|x gs]; [done|]. apply NoDup_cons in Hnd as [_ Hnd]. apply not_elem_of_cons in Hi as [_ Hi].
    exists gs. split_and!; [done|by injection Hl|]. apply Forall_forall. intros j Hj.
    apply Hf. split; [apply Hall; by right|]. intros ->. done.
Qed.

Lemma enough_free_some mm n : enough_free mm (S n) -> exists j, frame_free mm j.
Proof.
  intros (fs & _ & Hl & Hall). destruct fs as [|x fs]; [done|]. apply Forall_cons in Hall as [? _]. by exists x.
Qed.

Lemma pgd_index_offset : pgd_index PAGE_OFFSET = 768.
Proof. reflexivity. Qed.

Section Mapping.
Context (stale : Z -> list Z) (Hstale : forall a, length (stale a) = 1024%nat).
Context (T : Z) (HT : 0 <= T <= 2 ^ 18).

(** One more table. *)
Lemma setup_step i s mm' p tbl dir1 dir2 :
  0 <= i < 256 -> paging_wf i T s -> 0 <= p < 2 ^ 20 -> frame_free (pg_map s) p ->
  length mm' = length (pg_map s) -> (forall j, frame_free mm' j <-> frame_free (pg_map s) j /\ j ≠ p) ->
  zset (pg_dir s) (768 + i) (4096 * p + 7) = Some dir1 -> zset dir1 i (4096 * p + 7) = Some dir2 ->
  (forall j, 0 <= j < 1024 -> zget tbl j = Some (4096 * (1024 * i + j) + 7)) ->
  paging_wf (i + 1) T (mk_paging mm' dir2 (<[4096 * p := tbl]> (tables s))).
Proof.
  intros Hi [Hd Hm Htb] Hp Hfree Hlen Hfr E1 E2 Htbl. constructor; cbn [pg_dir pg_map tables].
  - by rewrite (zset_length _ _ _ _ E2), (zset_length _ _ _ _ E1).
  - by rewrite Hlen.
  - intros k Hk. rewrite !(zget_zset _ _ _ _ _ E2), !(zget_zset _ _ _ _ _ E1).
    destruct (decide (k = i)) as [->|Hki].
    + exists p, tbl. repeat case_decide; try lia. rewrite lookup_insert_eq. split_and!; [lia..|done|done| |done|done]. rewrite Hfr. by intros [_ ?].
    + destruct (Htb k) as (p' & tbl' & Hp' & Hk1 & Hk2 & Hnf & Htl & Hent); [lia|]. exists p', tbl'.
      repeat case_decide; try lia. rewrite lookup_insert_ne by (intros E; assert (p = p') by lia; subst; done).
      split_and!; [lia..|done|done| |done|done]. rewrite Hfr. by intros [? _].
Qed.

Lemma setup_loop_spec n : forall i s,
  0 <= i -> i + Z.of_nat n <= 256 -> 1024 * (i + Z.of_nat n) <= T ->
  paging_wf i T s -> (forall a tbl, tables s !! a = Some tbl -> length tbl = 1024%nat) ->
  enough_free (pg_map s) n ->
  exists s', setup_loop stale 1024 768 i (4096 * (1024 * i)) (4096 * T) s n = Some s' /\
    paging_wf (i + Z.of_nat n) T s'.
Proof.
  induction n as [|n IH]; intros i s Hi Hn HnT Hwf Htl Hen; cbn [setup_loop].
  { exists s. by rewrite Z.add_0_r. }
  pose proof Hwf as [Hd Hm _]. unfold PG_DIR_ENTRIES in Hd.
  destruct (get_free_page_spec (pg_map s)) as (r & mm' & -> & Hlen & Hr); [lia|]. cbn [mbind option_bind].
  destruct Hr as [(p & Hp & -> & Hfree & _ & Hfr)|(_ & _ & Hnone)].
  2:{ destruct (enough_free_some _ _ Hen) as [j Hj]. by destruct (Hnone j). }
  rewrite entry_for_page by lia.
  pose proof (zset_in_range (pg_dir s) (768 + i) (4096 * p + 7) ltac:(lia)) as E1. rewrite E1. cbn [mbind option_bind].
  set (dir1 := <[Z.to_nat (768 + i) := 4096 * p + 7]> (pg_dir s)) in *.
  pose proof (zset_length _ _ _ _ E1) as Hl1.
  pose proof (zset_in_range dir1 i (4096 * p + 7) ltac:(lia)) as E2. rewrite E2. cbn [mbind option_bind].
  set (t0 := default (stale (4096 * p)) (tables s !! (4096 * p))).
  assert (length t0 = 1024%nat) as Ht0 by (unfold t0; destruct (tables s !! (4096 * p)) eqn:E; [by eapply Htl|apply Hstale]).
  destruct (fill_table_spec 1024 t0 0 (1024 * i) (4096 * T)) as (tbl & -> & Hltb & Hent); [lia..|].
  cbn [mbind option_bind]. replace (1024 * i + Z.of_nat 1024) with (1024 * (i + 1)) by lia.
  destruct (IH (i + 1) (mk_paging mm' (<[Z.to_nat i := 4096 * p + 7]> dir1) (<[4096 * p := tbl]> (tables s))))
    as (s' & E & Hwf'); [lia..| | | |].
  - eapply setup_step; [lia|exact Hwf|lia|done|done|done|exact E1|exact E2|].
    intros j Hj. rewrite Hent, decide_True by lia. do 3 f_equal. lia.
  - intros a t. cbn [tables]. destruct (decide (a = 4096 * p)) as [->|].
    + rewrite lookup_insert_eq. intros [= <-]. congruence.
    + rewrite lookup_insert_ne by done. apply Htl.
  - cbn [pg_map]. by eapply enough_free_step.
  - exists s'. split; [exact E|]. replace (i + Z.of_nat (S n)) with (i + 1 + Z.of_nat n) by lia. done.
Qed.
End Mapping.

(** A finished directory translates every mapped address, low and high. *)
Lemma paging_wf_translate n T s va :
  0 <= n <= 256 -> paging_wf n T s -> 0 <= va < n * 2 ^ 22 ->
  translate s va = Some va /\ translate s (va + PAGE_OFFSET) = Some va.
Proof.
  intros Hn [_ _ Htb] Hva.
  assert (0 <= va `div` 2 ^ 22 < n) as Hk by (split; [apply Z.div_pos; lia|apply Z.div_lt_upper_bound; lia]).
  destruct (Htb _ Hk) as (p & tbl & Hp & Hk1 & Hk2 & _ & Htl & Hent).
  destruct (entry_decode p Hp) as [Hdec Hbit]. set (k := va `div` 2 ^ 22) in *.
  assert (0 <= (va `div` 4096) `mod` 1024 < 1024) as Hj by (apply Z.mod_pos_bound; lia).
  assert (va = 4096 * (1024 * k + (va `div` 4096) `mod` 1024) + va `mod` 4096) as Heq.
  { unfold k. change (2 ^ 22) with (4096 * 1024). rewrite <- Z.div_div by lia.
    pose proof (Z.div_mod va 4096). pose proof (Z.div_mod (va `div` 4096) 1024). lia. }
  destruct (entry_decode (1024 * k + (va `div` 4096) `mod` 1024)) as [Hdec2 Hbit2]; [lia|].
  assert ((va + PAGE_OFFSET) `div` 2 ^ 22 = 768 + k) as Hhi.
  { unfold PAGE_OFFSET, k. replace 0xC0000000 with (768 * 2 ^ 22) by done. rewrite Z.div_add by lia. lia. }
  assert (((va + PAGE_OFFSET) `div` 4096) `mod` 1024 = (va `div` 4096) `mod` 1024) as Hhi2.
  { unfold PAGE_OFFSET. replace 0xC0000000 with (786432 * 4096) by done. rewrite Z.div_add by lia.
    replace 786432 with (768 * 1024) by done. by rewrite Z.mod_add by lia. }
  assert ((va + PAGE_OFFSET) `mod` 4096 = va `mod` 4096) as Hhi3.
  { unfold PAGE_OFFSET. replace 0xC0000000 with (786432 * 4096) by done. by rewrite Z.mod_add by lia. }
  unfold translate. rewrite Hhi, Hhi2, Hhi3. fold k. rewrite Hk1, Hk2. cbn [mbind option_bind].
  rewrite Hbit, Hdec, Htl. cbn [mbind option_bind negb]. rewrite (Hent _ Hj). cbn [mbind option_bind].
  rewrite Hbit2, Hdec2. cbn [negb]. by rewrite <- Heq.
Qed.

(** ** Correctness *)

(** [get_free_page] takes the lowest frame that is not taken, marks
    exactly it, and [release_page] of that address undoes it; only when no
    frame is free does it report 0 and change nothing. *)
Theorem get_free_page_correct mm :
  Z.of_nat (length mm) <= 2 ^ 20 ->
  exists r mm', get_free_page mm = Some (r, mm') /\ length mm' = length mm /\
  ((exists i mm2, 0 <= i < Z.of_nat (length mm) /\ r = 4096 * i /\ frame_free mm i /\
      (forall j, 0 <= j < i -> ~ frame_free mm j) /\ (forall j, frame_free mm' j <-> frame_free mm j /\ j ≠ i) /\
      release_page r mm' = Some mm2 /\ forall j, frame_free mm2 j <-> frame_free mm j) \/
   (r = 0 /\ mm' = mm /\ forall j, ~ frame_free mm j)).
Proof.
  intros Hl. destruct (get_free_page_spec mm Hl) as (r & mm' & E & Hlen & Hr). exists r, mm'.
  split_and!; [done..|]. destruct Hr as [(i & Hi & -> & Hfr & Hmin & Hf)|Hr]; [left|by right].
  destruct (release_page_spec mm' i) as (mm2 & E2 & _ & Hf2); [lia|]. exists i, mm2.
  split_and!; [lia..|done|done|done|done|done|].
  intros j. rewrite Hf2, Hf. destruct (decide (j = i)) as [->|]; [tauto|]. split; [intros [[? _]|?]; done|tauto].
Qed.

Lemma get_free_page_correct_witness :
  exists r mm', get_free_page [192; 64; 0; 64] = Some (r, mm') /\ length mm' = length [192; 64; 0; 64] /\
  ((exists i mm2, 0 <= i < Z.of_nat (length [192; 64; 0; 64]) /\ r = 4096 * i /\ frame_free [192; 64; 0; 64] i /\
      (forall j, 0 <= j < i -> ~ frame_free [192; 64; 0; 64] j) /\
      (forall j, frame_free mm' j <-> frame_free [192; 64; 0; 64] j /\ j ≠ i) /\
      release_page r mm' = Some mm2 /\ forall j, frame_free mm2 j <-> frame_free [192; 64; 0; 64] j) \/
   (r = 0 /\ mm' = [192; 64; 0; 64] /\ forall j, ~ frame_free [192; 64; 0; 64] j)).
Proof. apply (get_free_page_correct [192; 64; 0; 64]). simpl. lia. Defined.

(** [setup_paging] with enough free frames for the tables. *)
Lemma setup_paging_spec stale l n s :
  (forall a, length (stale a) = 1024%nat) ->
  0 <= totalram_pages l <= 2 ^ 18 -> Z.of_nat (length (pg_map s)) = totalram_pages l ->
  Z.of_nat (length (pg_dir s)) = PG_DIR_ENTRIES -> tables s = ∅ ->
  0 <= n -> n <= 256 -> 1024 * n <= totalram_pages l -> enough_free (pg_map s) (Z.to_nat n) ->
  exists s', setup_paging stale l n s = Some s' /\ paging_wf n (totalram_pages l) s'.
Proof.
  intros Hst HT Hm Hd Htb Hn0 Hn HnT Hen. unfold setup_paging. rewrite pgd_index_offset.
  change (Z.to_nat PG_TABLE_ENTRIES) with 1024%nat. unfold PAGE_SIZE.
  replace (u32 (totalram_pages l * 4096)) with (4096 * totalram_pages l) by (rewrite u32_small by lia; lia).
  destruct (setup_loop_spec stale Hst (totalram_pages l) HT (Z.to_nat n) 0 s) as (s' & E & Hwf); [lia..| | |done|].
  - constructor; [done..|]. intros k Hk. lia.
  - rewrite Htb. intros a tbl Ha. done.
  - exists s'. split; [exact E|]. by rewrite Z2Nat.id in Hwf by lia.
Qed.

(** C9: with enough free frames for the tables, [setup_paging] builds a
    directory under which the processor translates every address of the mapped
    RAM both to itself and, from [PAGE_OFFSET] on, to the same physical
    address. *)
Theorem setup_paging_maps stale l n s :
  (forall a, length (stale a) = 1024%nat) ->
  0 <= totalram_pages l <= 2 ^ 18 -> Z.of_nat (length (pg_map s)) = totalram_pages l ->
  Z.of_nat (length (pg_dir s)) = PG_DIR_ENTRIES -> tables s = ∅ ->
  0 <= n -> n <= 256 -> 1024 * n <= totalram_pages l -> enough_free (pg_map s) (Z.to_nat n) ->
  exists s', setup_paging stale l n s = Some s' /\
    forall va, 0 <= va < n * 2 ^ 22 -> translate s' va = Some va /\ translate s' (va + PAGE_OFFSET) = Some va.
Proof.
  intros Hst HT Hm Hd Htb Hn0 Hn HnT Hen.
  destruct (setup_paging_spec stale l n s) as (s' & E & Hwf); [done..|].
  exists s'. split; [exact E|]. intros va Hva. by apply (paging_wf_translate n (totalram_pages l)).
Qed.

(** Two tables for 8 MB with the first frames of the map free. *)
Definition demo_layout : phy_layout := mk_layout 2048 2048 2048 160 1888 160 2048.
Definition demo_paging : paging := mk_paging (replicate 2048 0) (replicate 1024 0) ∅.

Lemma setup_paging_maps_witness :
  exists s', setup_paging (fun _ => replicate 1024 0) demo_layout 2 demo_paging = Some s' /\
    forall va, 0 <= va < 2 * 2 ^ 22 -> translate s' va = Some va /\ translate s' (va + PAGE_OFFSET) = Some va.
Proof.
  apply (setup_paging_maps (fun _ => replicate 1024 0) demo_layout 2 demo_paging).
  - intros. apply length_replicate.
  - simpl. lia.
  - cbn [pg_map demo_paging]. rewrite length_replicate. reflexivity.
  - cbn [pg_dir demo_paging]. rewrite length_replicate. reflexivity.
  - reflexivity.
  - lia.
  - lia.
  - simpl. lia.
  - exists [0; 1]. split_and!; [decided|done|].
    apply Forall_cons_2; [by exists 0|]. apply Forall_cons_2; [by exists 0|apply Forall_nil_2].
Defined.

(** The loops of [create_mem_map] share one counter: once the first block
    of usable memory has been processed the counter holds a page number, so
    from page 9 on every later block is skipped and its pages stay reserved. *)
Theorem create_mem_map_first_block_only fuel b blocks mm :
  mb_start b ≠ 0 -> mb_end b ≠ 0 -> 9 <= Z.max (block_first_page b) (block_last_page b + 1) ->
  mark_blocks (S (S fuel)) (b :: blocks) 0 mm
  = free_range mm (block_first_page b) (Z.to_nat (block_last_page b + 1 - block_first_page b)).
Proof.
  intros Hs He Hp. cbn [mark_blocks]. change (0 <? MAX_MEMORY_BLOCKS) with true.
  change (zget (b :: blocks) 0) with (Some b). cbn [mbind option_bind].
  replace (mb_start b =? 0) with false by lia. replace (mb_end b =? 0) with false by lia. cbn [orb].
  destruct (free_range _ _ _) as [mm'|]; [|done]. cbn [mbind option_bind]. unfold MAX_MEMORY_BLOCKS.
  destruct (Z.ltb_spec (Z.max (block_first_page b) (block_last_page b + 1) + 1) 10); [lia|done].
Qed.

Lemma create_mem_map_first_block_only_witness :
  mark_blocks 2 [mk_mblock 65536 131072; mk_mblock 262144 524288] 0 (replicate 128 192)
  = free_range (replicate 128 192) (block_first_page (mk_mblock 65536 131072))
      (Z.to_nat (block_last_page (mk_mblock 65536 131072) + 1 - block_first_page (mk_mblock 65536 131072))).
Proof.
  apply (create_mem_map_first_block_only 0 (mk_mblock 65536 131072) [mk_mblock 262144 524288]
           (replicate 128 192)); vm_compute; discriminate.
Defined.
