(* ===== verification/BootMap.v ===== *)
(** * Memory at boot, first half (memory-management/manager.c, mm.c)

    The memory manager's start (blocks of usable memory, boot heap and its self
    test) and paging with the self test of the translation, composed from Mm
    and Heap; what they leave of [mem_map] on a PC whose memory is one block
    below 640 KB and one block from 1 MB on. *)

From S2P Require Export Mm.

#[local] Ltac Zify.zify_post_hook ::= Z.to_euclidean_division_equations.

(** ** The memory manager *)

(** [arr[i] = l[i]] for an array of [int] at [a]. *)
Fixpoint store_ints (a : Z) (l : list Z) (m : gmap Z Z) : gmap Z Z :=
  match l with [] => m | v :: l => store_ints (a + 4) l (<[a := v]> m) end.

Fixpoint ints_match (a : Z) (l : list Z) (m : gmap Z Z) : bool :=
  match l with [] => true | v :: l => bool_decide (m !! a = Some v) && ints_match (a + 4) l m end.

Definition arr1_values : list Z := (fun i => i * 2) <$> seqZ 0 10.
Definition arr2_values : list Z := (fun i => i + 100) <$> seqZ 0 5.
Definition arr3_values : list Z := (fun i => i + 200) <$> seqZ 0 8.

(** [m] is the memory of the arrays; the block headers are the heap's. *)
Definition test_allocator (h : heap) (m : gmap Z Z) : option (Z * heap * gmap Z Z) :=
  '(arr1, h) ← kalloc (10 * 4) h;
  match arr1 with
  | None => Some (-1, h, m)
  | Some a1 =>
      let m := store_ints a1 arr1_values m in
      if negb (ints_match a1 arr1_values m) then Some (-1, h, m)
      else
        '(arr2, h) ← kalloc (5 * 4) h;
        match arr2 with
        | None => Some (-1, h, m)
        | Some a2 =>
            let m := store_ints a2 arr2_values m in
            h ← kbfree a1 h;
            '(arr3, h) ← kalloc (8 * 4) h;
            match arr3 with
            | None => Some (-1, h, m)
            | Some a3 =>
                let m := store_ints a3 arr3_values m in
                if negb (ints_match a2 arr2_values m) then Some (-1, h, m) else Some (0, h, m)
            end
        end
  end.

(** What the boot loader passes; sizes in KB, the map decoded. *)
Record multiboot_info := mk_mbi { mbi_flags : Z; mem_lower : Z; mem_upper : Z; mmap : list mmap_entry }.

(** Status, [free_memory_blocks], [phy_layout] and the heap, the last two when
    they have been set; [m] is the memory of the self test. *)
Definition initialize_memeory_manager (KERNEL_END : Z) (mbi : multiboot_info) (blocks : list memory_blocks_t) (m : gmap Z Z)
  : option (Z * list memory_blocks_t * option phy_layout * option heap) :=
  '(num_blocks, blocks, l) ← find_available_memory KERNEL_END (mbi_flags mbi) (mem_lower mbi) (mem_upper mbi) (mmap mbi) blocks;
  if num_blocks =? 0 then Some (-1, blocks, l, None)
  else
    h ← init_heap blocks;
    '(r, h, _) ← test_allocator h m;
    Some (r, blocks, l, Some h).

(** ** Paging *)

(** With paging on, the two words go through the page tables; a table that
    lies in the page written to is changed.  [page] is followed for its flags
    and, at the end, twice for its number. *)
Definition test_mmu (s : paging) : option (Z * paging) :=
  '(phy_addr, mm) ← get_free_page (pg_map s);
  pa ← translate s phy_addr;
  let s := mk_paging mm (pg_dir s) (alter (fun t => <[0%nat := 0x5555]> t) pa (tables s)) in
  v ← zget (pg_map s) (phy_addr `div` PAGE_SIZE);
  let iRet := if has_flag v PG_FLAG_TAKEN then 1 else 0 in
  _ ← translate s (u32 (PAGE_OFFSET + phy_addr));
  _ ← translate s phy_addr;
  mm ← release_page phy_addr (pg_map s);
  let s := mk_paging mm (pg_dir s) (tables s) in
  v ← zget mm (phy_addr `div` PAGE_SIZE);
  let iRet := if has_flag v PG_FLAG_TAKEN then iRet else 1 in
  _ ← zget mm (Z.shiftr (0xC0002001 - PAGE_OFFSET) 12);
  _ ← zget mm (Z.shiftr 0x00002001 12);
  Some (iRet, s).

(** [setup_paging] with the call of [test_mmu] that ends it; its result is
    only printed. *)
Definition start_paging (stale : Z -> list Z) (l : phy_layout) (pgdir_entries : Z) (s : paging) : option paging :=
  s ← setup_paging stale l pgdir_entries s;
  '(_, s) ← test_mmu s;
  Some s.

(** ** [mem_map] as a function *)

(** [mm] holds [f i] for page frame [i]. *)
Definition flags_are (mm : list Z) (T : Z) (f : Z -> Z) : Prop :=
  Z.of_nat (length mm) = T /\ forall i, 0 <= i < T -> zget mm i = Some (f i).

Definition fill (lo hi v : Z) (f : Z -> Z) (i : Z) : Z := if decide (lo <= i < hi) then v else f i.

Lemma flags_ext mm T f g : flags_are mm T f -> (forall i, 0 <= i < T -> f i = g i) -> flags_are mm T g.
Proof. intros [Hl H] E. split; [done|]. intros i Hi. rewrite H by done. by rewrite E. Qed.

Lemma flags_upd mm T f i g :
  flags_are mm T f -> 0 <= i < T ->
  exists mm', upd_flags mm i g = Some mm' /\ flags_are mm' T (fill i (i + 1) (g (f i)) f).
Proof.
  intros [Hl H] Hi. destruct (upd_flags_spec mm i (f i) g (H i Hi)) as (mm' & E & Hl' & Hg). exists mm'. split; [done|].
  split; [lia|]. intros j Hj. rewrite Hg. unfold fill. destruct (decide (i = j)) as [->|].
  - rewrite decide_True by lia. done.
  - rewrite decide_False by lia. by apply H.
Qed.

Lemma flags_replicate n v : flags_are (replicate n v) (Z.of_nat n) (fun _ => v).
Proof.
  split; [by rewrite length_replicate|]. intros i Hi. unfold zget. destruct (Z.ltb_spec i 0); [lia|].
  apply lookup_replicate_2. lia.
Qed.

(** A loop that applies [g], which frees a reserved frame, to a range. *)
Lemma sweep_flags (go : list Z -> Z -> nat -> option (list Z)) (g : Z -> Z) :
  (forall mm i, go mm i O = Some mm) ->
  (forall mm i n, go mm i (S n) = mm ← upd_flags mm i g; go mm (i + 1) n) -> g 192 = 0 ->
  forall n mm T f lo,
  flags_are mm T f -> 0 <= lo -> lo + Z.of_nat n <= T -> (forall i, lo <= i < lo + Z.of_nat n -> f i = 192) ->
  exists mm', go mm lo n = Some mm' /\ flags_are mm' T (fill lo (lo + Z.of_nat n) 0 f).
Proof.
  intros G0 GS Hg. induction n as [|n IH]; intros mm T f lo Hf Hlo Hhi H192.
  { exists mm. split; [done|]. eapply flags_ext; [done|]. intros i _. unfold fill. by rewrite decide_False by lia. }
  rewrite GS. destruct (flags_upd mm T f lo g Hf ltac:(lia)) as (mm1 & -> & H1).
  cbn [mbind option_bind]. rewrite H192, Hg in H1 by lia.
  destruct (IH _ _ _ (lo + 1) H1) as (mm' & E' & H'); [lia..| |].
  { intros i Hi. unfold fill. rewrite decide_False by lia. apply H192. lia. }
  exists mm'. split; [done|]. eapply flags_ext; [done|]. intros i _. unfold fill. repeat case_decide; try lia; done.
Qed.

Definition free_range_flags := sweep_flags (fun mm i n => free_range mm i n) _ (fun _ _ => eq_refl) (fun _ _ _ => eq_refl) eq_refl.
Definition clear_low_flags := sweep_flags (fun mm i n => clear_low mm i n) _ (fun _ _ => eq_refl) (fun _ _ _ => eq_refl) eq_refl.

(** ** Taking the lowest free frames *)

Lemma flags_free mm T f i : flags_are mm T f -> frame_free mm i <-> 0 <= i < T /\ has_flag (f i) PG_FLAG_TAKEN = false.
Proof.
  intros [Hl H]. unfold frame_free. split.
  - intros (v & Hv & Hb). pose proof (zget_Some_lt _ _ _ Hv). rewrite H in Hv by lia. injection Hv as <-. split; [lia|done].
  - intros [Hi Hb]. exists (f i). split; [by apply H|done].
Qed.

Lemma get_free_page_flags mm T f lo :
  flags_are mm T f -> T <= 2 ^ 20 -> 0 <= lo < T -> f lo = 0 -> (forall i, 0 <= i < lo -> has_flag (f i) PG_FLAG_TAKEN = true) ->
  exists mm', get_free_page mm = Some (4096 * lo, mm') /\ flags_are mm' T (fill lo (lo + 1) PG_FLAG_TAKEN f).
Proof.
  intros Hf HT Hlo H0 Htaken. unfold get_free_page. pose proof (scan_free_spec mm 0) as Hs. pose proof Hf as [Hl _].
  assert (frame_free mm lo) as Hfr by (apply (flags_free mm T f); [done|]; rewrite H0; split; [lia|done]).
  destruct (scan_free mm 0) as [i|]; [|by destruct (Hs lo)]. rewrite Z.sub_0_r in Hs. destruct Hs as (Hi & Hfi & Hmin).
  assert (i = lo) as ->.
  { destruct (Z.lt_trichotomy i lo) as [Hlt|[->|Hlt]]; [|done|by destruct (Hmin lo); [lia|]].
    apply (flags_free mm T f) in Hfi as [_ Hb]; [|done]. rewrite Htaken in Hb by lia. done. }
  destruct (flags_upd mm T f lo (fun v => Z.lor v PG_FLAG_TAKEN) Hf ltac:(lia)) as (mm' & -> & H').
  cbn [mbind option_bind]. rewrite H0 in H'. exists mm'. split; [|exact H']. unfold PAGE_SIZE. rewrite u32_small by lia. do 2 f_equal. lia.
Qed.

Lemma take_pages_flags n : forall mm T f lo,
  flags_are mm T f -> T <= 2 ^ 20 -> 0 <= lo -> lo + Z.of_nat n <= T -> (forall i, lo <= i < lo + Z.of_nat n -> f i = 0) ->
  (forall i, 0 <= i < lo -> has_flag (f i) PG_FLAG_TAKEN = true) ->
  exists mm', take_pages mm n = Some mm' /\ flags_are mm' T (fill lo (lo + Z.of_nat n) PG_FLAG_TAKEN f).
Proof.
  induction n as [|n IH]; intros mm T f lo Hf HT Hlo Hhi H0 Htaken; cbn [take_pages].
  { exists mm. split; [done|]. eapply flags_ext; [done|]. intros i _. unfold fill. by rewrite decide_False by lia. }
  destruct (get_free_page_flags mm T f lo) as (mm1 & -> & H1); [done..|lia|apply H0; lia|done|]. cbn [mbind option_bind].
  destruct (IH _ _ _ (lo + 1) H1) as (mm' & E' & H'); [lia..| | |].
  - intros i Hi. unfold fill. rewrite decide_False by lia. apply H0. lia.
  - intros i Hi. unfold fill. case_decide; [done|]. apply Htaken. lia.
  - exists mm'. split; [done|]. eapply flags_ext; [done|]. intros i _. unfold fill. repeat case_decide; try lia; done.
Qed.

(** The page tables are in the frames [take_pages] would take. *)
Lemma setup_loop_takes stale tblsize pgd total n : forall i phy s s',
  setup_loop stale tblsize pgd i phy total s n = Some s' -> take_pages (pg_map s) n = Some (pg_map s').
Proof.
  induction n as [|n IH]; intros i phy s s'; cbn [setup_loop take_pages]; [by intros [= ->]|].
  intros H. destruct (get_free_page (pg_map s)) as [[a mm]|]; [|done]. cbn [mbind option_bind] in *.
  repeat (let x := fresh "x" in let E := fresh "E" in apply bind_Some in H as (x & E & H)). destruct x1. by apply IH in H.
Qed.

(** ** The self test of the translation *)

(** A write to a free frame leaves the tables alone. *)
Lemma write_free_frame n T s p v :
  paging_wf n T s -> frame_free (pg_map s) p ->
  paging_wf n T (mk_paging (pg_map s) (pg_dir s) (alter (fun t => <[0%nat := v]> t) (4096 * p) (tables s))).
Proof.
  intros [Hd Hm Ht] Hp. constructor; cbn [pg_dir pg_map tables]; [done..|]. intros k Hk.
  destruct (Ht k Hk) as (q & tbl & Hq & H1 & H2 & Hnf & Htb & He). exists q, tbl. split_and!; try done; [lia..|].
  rewrite lookup_alter_ne; [done|]. intros E. assert (p = q) by lia. subst. done.
Qed.

Lemma paging_wf_map n T s mm :
  paging_wf n T s -> Z.of_nat (length mm) = T -> (forall i, frame_free mm i -> frame_free (pg_map s) i) ->
  paging_wf n T (mk_paging mm (pg_dir s) (tables s)).
Proof.
  intros [Hd Hm Ht] Hl Hfr. constructor; cbn [pg_dir pg_map tables]; [done..|]. intros k Hk.
  destruct (Ht k Hk) as (q & tbl & Hq & H1 & H2 & Hnf & Htb & He). exists q, tbl. split_and!; try done; [lia..|]. naive_solver.
Qed.

Lemma div_4096 p : (4096 * p) `div` 4096 = p.
Proof. rewrite Z.mul_comm. by apply Z.div_mul. Qed.

(** With a free frame in the mapped memory [test_mmu] succeeds and leaves map
    and tables as they were. *)
Lemma test_mmu_spec n T s f lo :
  paging_wf n T s -> 0 < n <= 256 -> 2 < T -> T <= 2 ^ 18 -> flags_are (pg_map s) T f -> 0 <= lo < T -> lo < 1024 * n ->
  f lo = 0 -> (forall i, 0 <= i < lo -> has_flag (f i) PG_FLAG_TAKEN = true) ->
  exists s', test_mmu s = Some (1, s') /\ paging_wf n T s' /\ flags_are (pg_map s') T f.
Proof.
  intros W Hn H2 HT Hf Hlo Hmapped H0 Htaken. unfold test_mmu.
  assert (frame_free (pg_map s) lo) as Hfree by (apply (flags_free _ T f); [done|]; rewrite H0; done).
  destruct (get_free_page_flags (pg_map s) T f lo) as (mm & -> & H1); [done|lia|done..|]. cbn [mbind option_bind].
  assert (0 <= 4096 * lo < n * 2 ^ 22) as Hva by lia.
  destruct (paging_wf_translate n T s (4096 * lo) ltac:(lia) W Hva) as [-> _]. cbn [mbind option_bind pg_map pg_dir tables].
  unfold PAGE_SIZE. rewrite div_4096.
  pose proof H1 as [Hl1 Hg1]. rewrite Hg1 by lia. cbn [mbind option_bind]. set (tb := alter _ _ _).
  assert (paging_wf n T (mk_paging mm (pg_dir s) tb)) as W1.
  { apply (paging_wf_map n T (mk_paging (pg_map s) (pg_dir s) tb)); [by apply write_free_frame|lia|].
    intros i Hi. apply (flags_free _ _ _ _ H1) in Hi as [Hi Hb]. apply (flags_free _ _ _ _ Hf). split; [done|].
    unfold fill in Hb. by case_decide. }
  destruct (paging_wf_translate n T _ (4096 * lo) ltac:(lia) W1 Hva) as [E1 E2].
  replace (u32 (PAGE_OFFSET + 4096 * lo)) with (4096 * lo + PAGE_OFFSET) by (unfold PAGE_OFFSET; rewrite u32_small; lia).
  rewrite E2, E1. cbn [mbind option_bind]. unfold release_page, PAGE_SIZE. rewrite div_4096.
  destruct (flags_upd mm T _ lo (fun v => Z.land v (Z.lnot PG_FLAG_TAKEN)) H1 Hlo) as (mm2 & -> & Hf2).
  cbn [mbind option_bind]. assert (flags_are mm2 T f) as Hf3.
  { eapply flags_ext; [exact Hf2|]. intros i _. unfold fill. repeat case_decide; try lia; try done. replace i with lo by lia. by rewrite H0. }
  pose proof Hf3 as [Hl3 Hg3]. rewrite (Hg3 lo) by lia. rewrite H0. cbn [mbind option_bind].
  change (Z.shiftr _ 12) with 2. change (Z.shiftr 0x2001 12) with 2. rewrite !(Hg3 2) by lia. cbn [mbind option_bind].
  eexists. split; [reflexivity|]. split; [|exact Hf3]. cbn [pg_map].
  apply (paging_wf_map n T (mk_paging (pg_map s) (pg_dir s) tb)); [by apply write_free_frame|lia|].
  intros i. cbn [pg_map]. by rewrite (flags_free _ _ _ _ Hf3), (flags_free _ _ _ _ Hf).
Qed.

(** ** The self test of the heap *)

Lemma store_ints_ne l : forall a m x, x < a \/ a + 4 * Z.of_nat (length l) <= x -> store_ints a l m !! x = m !! x.
Proof.
  induction l as [|v l IH]; intros a m x Hx; cbn [store_ints length] in *; [done|].
  rewrite IH by lia. apply lookup_insert_ne. lia.
Qed.

Lemma ints_match_ext l : forall a m m',
  (forall x, a <= x < a + 4 * Z.of_nat (length l) -> m !! x = m' !! x) -> ints_match a l m = ints_match a l m'.
Proof.
  induction l as [|v l IH]; intros a m m' H; cbn [ints_match length] in *; [done|].
  rewrite H by lia. f_equal. apply IH. intros x Hx. apply H. lia.
Qed.

Lemma ints_match_store l : forall a m, ints_match a l (store_ints a l m) = true.
Proof.
  induction l as [|v l IH]; intros a m; cbn [ints_match store_ints]; [done|].
  rewrite IH, andb_true_r, store_ints_ne by lia. apply bool_decide_eq_true. apply lookup_insert_eq.
Qed.

Lemma ints_match_frame l l' a b m :
  b + 4 * Z.of_nat (length l') <= a \/ a + 4 * Z.of_nat (length l) <= b ->
  ints_match a l (store_ints b l' m) = ints_match a l m.
Proof. intros H. apply ints_match_ext. intros x Hx. apply store_ints_ne. lia. Qed.

(** The heap begins in page frame 1; the third array reuses the first block. *)
Definition first_heap : heap := mk_heap ∅ None 4096 1052672.
Definition tested_heap : heap :=
  mk_heap (<[4096 := mk_block 48 false (Some 4156)]> (<[4156 := mk_block 24 false None]> ∅)) (Some 4096) 4192 1052672.

Lemma test_allocator_spec m : exists m', test_allocator first_heap m = Some (0, tested_heap, m').
Proof.
  unfold test_allocator.
  assert (exists h1 h2 h3, kalloc (10 * 4) first_heap = Some (Some 4108, h1) /\ kalloc (5 * 4) h1 = Some (Some 4168, h2) /\
    kbfree 4108 h2 = Some h3 /\ kalloc (8 * 4) h3 = Some (Some 4108, tested_heap)) as (h1 & h2 & h3 & -> & E2 & E3 & E4).
  { do 3 eexists. split; [vm_compute; reflexivity|]. split; [vm_compute; reflexivity|]. split; [vm_compute; reflexivity|].
    vm_compute. reflexivity. }
  cbn [mbind option_bind]. rewrite ints_match_store. cbn [negb]. rewrite E2. cbn [mbind option_bind]. rewrite E3. cbn [mbind option_bind].
  rewrite E4. cbn [mbind option_bind].
  rewrite ints_match_frame by (left; vm_compute; discriminate). rewrite ints_match_store. cbn [negb]. by eexists.
Qed.

(** ** A PC

    One usable block below 640 KB and one from 1 MB on, which holds the kernel
    and ends at the end of the memory; the map fits below 640 KB, and after
    kernel and map there is room for an aligned run of 512 page frames. *)

Section Pc.
Context (KERNEL_END : Z) (mbi : multiboot_info).

Definition ram_frames : Z := mem_upper mbi `div` 4 + 256.
Definition low_frames : Z := mem_lower mbi `div` 4.
Definition kernel_frames : Z := (KERNEL_END + 4095) `div` 4096.
Definition map_frames : Z := (36 * ram_frames) `div` 4096 + 1.
Definition table_frames : Z := ram_frames `div` 1024.

Record pc : Prop := {
  pc_flags : Z.testbit (mbi_flags mbi) 6 = true;
  pc_blocks : exists len, filter (fun e => me_type e = 1) (mmap mbi) = [mk_mmap 0 len 1; mk_mmap 0x100000 (1024 * mem_upper mbi) 1] /\
    0 < len <= 0xA0000;
  pc_lower : 256 <= mem_lower mbi <= 640;
  pc_upper : (4 | mem_upper mbi);
  pc_size : ram_frames <= 18000;
  pc_kernel : 0x100000 <= KERNEL_END;
  pc_room : kernel_frames + map_frames + 1023 <= ram_frames
}.

(** What is free when paging is on: low memory after the page tables and high
    memory after the map. *)
Definition free_at_boot (p : Z) : Prop :=
  table_frames <= p < low_frames \/ kernel_frames + map_frames <= p < ram_frames.

Lemma scan_mmap_filter es : forall bs n,
  scan_mmap KERNEL_END es bs n = scan_mmap KERNEL_END (filter (fun e => me_type e = 1) es) bs n.
Proof.
  induction es as [|e es IH]; intros bs n; [done|]. cbn [scan_mmap]. destruct (Z.eqb_spec (me_type e) 1) as [Et|Et].
  - rewrite filter_cons_True by done. cbn [scan_mmap]. rewrite (proj2 (Z.eqb_eq _ _) Et). cbn [andb].
    destruct (n <? MAX_MEMORY_BLOCKS); [|apply IH]. destruct (zset bs n _); cbn [mbind option_bind]; [apply IH|done].
  - rewrite filter_cons_False by done. apply IH.
Qed.

Context (P : pc).

Lemma pc_upper_4 : mem_upper mbi = 4 * (ram_frames - 256).
Proof. pose proof (pc_upper P) as [k Hk]. unfold ram_frames. rewrite Hk, Z.div_mul by lia. lia. Qed.

Lemma pc_bounds : 1280 <= ram_frames <= 18000 /\ 64 <= low_frames <= 160 /\ 256 <= kernel_frames /\ 0 < map_frames /\
  1 <= table_frames <= 17 /\ 1024 * table_frames <= ram_frames.
Proof.
  pose proof (pc_room P). pose proof (pc_size P). pose proof (pc_kernel P). pose proof (pc_lower P).
  assert (256 <= kernel_frames) by (unfold kernel_frames; lia).
  assert (1280 <= ram_frames) by (unfold map_frames in *; lia). assert (0 < map_frames) by (unfold map_frames; lia).
  unfold table_frames, low_frames. lia.
Qed.

Definition pc_layout : phy_layout := machine_specific_memory_setup (mem_lower mbi) (mem_upper mbi).

Lemma pc_layout_frames : totalram_pages pc_layout = ram_frames /\ max_low_pfn pc_layout = low_frames.
Proof.
  pose proof pc_bounds as (Ht & Hl & _). pose proof pc_upper_4 as Hu. pose proof (pc_lower P).
  unfold pc_layout, machine_specific_memory_setup, PAGE_SIZE. cbn [totalram_pages max_low_pfn].
  rewrite Hu. rewrite !u32_small by (rewrite ?u32_small; lia). unfold low_frames in *.
  replace ((4 * (ram_frames - 256) * 1024 + 1024 * 1024) `div` 4096) with ram_frames by lia.
  replace ((mem_lower mbi * 1024) `div` 4096) with (mem_lower mbi `div` 4) by lia.
  split; [done|]. destruct (Z.ltb_spec ram_frames (mem_lower mbi `div` 4)); lia.
Qed.

Lemma manager_spec m : exists len,
  initialize_memeory_manager KERNEL_END mbi (replicate 10 (mk_mblock 0 0)) m =
  Some (0, [mk_mblock 0 len; mk_mblock KERNEL_END (4096 * ram_frames)] ++ replicate 8 (mk_mblock 0 0), Some pc_layout, Some tested_heap).
Proof.
  pose proof pc_bounds as (Ht & _ & Hk & Hm & _). pose proof pc_upper_4 as Hu. pose proof (pc_kernel P). pose proof (pc_room P).
  assert (KERNEL_END < 4096 * ram_frames) by (unfold kernel_frames in *; lia).
  destruct (pc_blocks P) as (len & Hes & Hlen). exists len. unfold initialize_memeory_manager, find_available_memory.
  rewrite (pc_flags P). cbn [negb]. rewrite scan_mmap_filter, Hes.
  assert (usable_block KERNEL_END (mk_mmap 0 len 1) = mk_mblock 0 len) as E1.
  { unfold usable_block. cbn [me_addr me_len]. rewrite !u32_small by (rewrite ?u32_small; lia).
    destruct (Z.ltb_spec KERNEL_END (0 + len)); [lia|]. by rewrite andb_false_r. }
  assert (usable_block KERNEL_END (mk_mmap 0x100000 (1024 * mem_upper mbi) 1) = mk_mblock KERNEL_END (4096 * ram_frames)) as E2.
  { unfold usable_block. cbn [me_addr me_len]. rewrite !u32_small by (rewrite ?u32_small; lia).
    destruct (Z.ltb_spec KERNEL_END (0x100000 + 1024 * mem_upper mbi)); [|lia].
    destruct (Z.leb_spec 0x100000 KERNEL_END); [|lia]. cbn [andb]. f_equal. lia. }
  set (bs := [_; _] ++ _).
  assert (scan_mmap KERNEL_END [mk_mmap 0 len 1; mk_mmap 0x100000 (1024 * mem_upper mbi) 1] (replicate 10 (mk_mblock 0 0)) 0 = Some (bs, 2)) as ->
    by (cbn [scan_mmap]; rewrite E1, E2; reflexivity).
  cbn [mbind option_bind]. change (2 =? 0) with false. cbn [negb]. change (init_heap bs) with (Some first_heap). cbn [mbind option_bind].
  destruct (test_allocator_spec m) as (m' & ->). done.
Qed.

(** [mem_map] lies in the heap, below 640 KB. *)
Lemma map_kalloc : exists h, kalloc (u32 (ram_frames * sizeof_page)) tested_heap = Some (Some 4204, h) /\
  4204 + ram_frames * sizeof_page <= 0xA0000 /\ exists h', kbfree 4204 h = Some h'.
Proof.
  pose proof pc_bounds as (Ht & _). unfold kalloc. set (rq := ALIGNUP _ _).
  assert (0 <= rq <= ram_frames * 36 + 9) as Hrq.
  { unfold rq. change sizeof_page with 36. rewrite u32_small by lia. pose proof (ALIGNUP_8 (ram_frames * 36)). lia. }
  change (heap_end tested_heap) with 1052672. change (kalloc_ptr tested_heap) with 4192. change sizeof_block with 12. rewrite (u32_small (rq + 12)), u32_small by lia.
  destruct (Z.ltb_spec 1052672 (4192 + (rq + 12))); [lia|].
  assert (walk (S (base.size (blocks tested_heap))) (blocks tested_heap) (head tested_heap) None rq = Some (End_of_list (Some 4156))) as E.
  { change (S (base.size (blocks tested_heap))) with 3%nat. cbn [walk tested_heap head blocks].
    change (<[4096:=_]> _ !! 4096) with (Some (mk_block 48 false (Some 4156))). cbn [mbind option_bind is_freed next andb].
    change (<[4096:=_]> _ !! 4156) with (Some (mk_block 24 false None)). done. }
  rewrite E. cbn [mbind option_bind]. change (head tested_heap) with (Some 4096). cbv iota.
  change (<[4192:=_]> _ !! 4156) with (Some (mk_block 24 false None)). cbn [mbind option_bind].
  eexists. split; [reflexivity|]. split; [unfold sizeof_page; lia|]. unfold kbfree. change (4204 =? 0) with false. cbn [blocks].
  change (u32 (4204 - sizeof_block)) with 4192. rewrite lookup_insert_ne, lookup_insert_eq by done. cbn [mbind option_bind next]. by eexists.
Qed.

(** The flags once the usable memory is marked, the map has moved behind the
    kernel and low memory has been released. *)
Definition marked : Z -> Z := fill kernel_frames ram_frames 0 (fun _ => 192).
Definition moved : Z -> Z :=
  fill 0 low_frames 0 (fill kernel_frames (kernel_frames + map_frames) PG_FLAG_TAKEN marked).

Lemma create_mem_map_spec len : exists mm h,
  create_mem_map pc_layout ([mk_mblock 0 len; mk_mblock KERNEL_END (4096 * ram_frames)] ++ replicate 8 (mk_mblock 0 0)) tested_heap
  = Some (Some (4204, mm), h) /\ flags_are mm ram_frames marked /\ exists h', kbfree 4204 h = Some h'.
Proof.
  pose proof pc_bounds as (Ht & _ & Hk & Hm & _). pose proof (pc_kernel P). pose proof (pc_room P).
  assert (KERNEL_END < 4096 * ram_frames) by (unfold kernel_frames in *; lia).
  destruct pc_layout_frames as [ET _]. unfold create_mem_map. rewrite ET.
  destruct map_kalloc as (h & -> & _ & Hh). cbn [mbind option_bind].
  change (Z.lor PG_FLAG_TAKEN PG_FLAG_RESERVED) with 192. change (S (Z.to_nat MAX_MEMORY_BLOCKS)) with 11%nat.
  set (bs := [_; _] ++ _). set (mm0 := replicate _ _). cbn [mark_blocks]. change (0 <? MAX_MEMORY_BLOCKS) with true.
  change (zget bs 0) with (Some (mk_mblock 0 len)). cbn [mbind option_bind mb_start mb_end orb Z.eqb].
  change (0 + 1 <? MAX_MEMORY_BLOCKS) with true. change (zget bs (0 + 1)) with (Some (mk_mblock KERNEL_END (4096 * ram_frames))).
  cbn [mbind option_bind mb_start mb_end]. destruct (Z.eqb_spec KERNEL_END 0); [lia|]. destruct (Z.eqb_spec (4096 * ram_frames) 0); [lia|].
  cbn [orb]. set (b := mk_mblock _ _).
  assert (block_first_page b = kernel_frames) as ->.
  { unfold block_first_page, b, PAGE_SIZE, kernel_frames. cbn [mb_start]. rewrite (u32_small KERNEL_END) by lia.
    destruct (Z.eqb_spec (KERNEL_END `mod` 4096) 0); [lia|]. rewrite u32_small by lia. lia. }
  assert (block_last_page b = ram_frames - 1) as ->.
  { unfold block_last_page, b, PAGE_SIZE. cbn [mb_end]. rewrite (u32_small (4096 * ram_frames)) by lia.
    replace ((4096 * ram_frames) `mod` 4096) with 0 by lia. cbn [Z.eqb]. rewrite u32_small by lia. lia. }
  pose proof (flags_replicate (Z.to_nat ram_frames) 192) as Hrep. fold mm0 in Hrep. rewrite Z2Nat.id in Hrep by lia.
  destruct (free_range_flags (Z.to_nat (ram_frames - 1 + 1 - kernel_frames)) mm0 ram_frames (fun _ => 192) kernel_frames) as (mm & -> & Hmm);
    [done|lia..|done|]. cbn [mbind option_bind].
  destruct (Z.ltb_spec (Z.max kernel_frames (ram_frames - 1 + 1) + 1) MAX_MEMORY_BLOCKS); [unfold MAX_MEMORY_BLOCKS in *; lia|].
  cbn [mbind option_bind]. exists mm, h. split_and!; [done| |done]. eapply flags_ext; [exact Hmm|].
  intros i _. unfold marked, fill. repeat case_decide; try lia; done.
Qed.

Lemma copy_mem_map_spec mm h h' :
  flags_are mm ram_frames marked -> kbfree 4204 h = Some h' ->
  exists mm', copy_mem_map pc_layout 4204 mm h = Some (4096 * kernel_frames, mm', h') /\ flags_are mm' ram_frames moved.
Proof.
  intros Hmm Hh. pose proof pc_bounds as (Ht & Hl & Hk & Hm & _). pose proof (pc_room P). destruct pc_layout_frames as [ET EL].
  unfold copy_mem_map. rewrite ET, EL. change sizeof_page with 36. unfold PAGE_SIZE. rewrite u32_small by lia. fold map_frames.
  assert (forall i, 0 <= i < kernel_frames -> marked i = 192) as Hlow.
  { intros i Hi. unfold marked, fill. rewrite decide_False by lia. done. }
  destruct (get_free_page_flags mm ram_frames marked kernel_frames) as (mm1 & -> & H1); [done|lia|lia| |intros i Hi; by rewrite Hlow|].
  { unfold marked, fill. rewrite decide_True by lia. done. }
  cbn [mbind option_bind].
  destruct (take_pages_flags (Z.to_nat (map_frames - 1)) mm1 ram_frames _ (kernel_frames + 1) H1) as (mm2 & -> & H2); [lia..| | |].
  { intros i Hi. unfold marked, fill. rewrite decide_False, decide_True by lia. done. }
  { intros i Hi. unfold fill at 1. case_decide; [done|]. rewrite Hlow by lia. done. }
  cbn [mbind option_bind]. rewrite Hh. cbn [mbind option_bind].
  destruct (clear_low_flags (Z.to_nat low_frames) mm2 ram_frames _ 0 H2) as (mm3 & -> & H3); [lia..| |].
  { intros i Hi. unfold fill at 1. rewrite decide_False by lia. unfold fill at 1. rewrite decide_False by lia. apply Hlow. lia. }
  cbn [mbind option_bind]. exists mm3. split; [done|]. eapply flags_ext; [exact H3|].
  intros i _. unfold moved, fill. repeat case_decide; try lia; done.
Qed.

(** Paging takes the frames from 0 on for the tables. *)
Definition paged : Z -> Z := fill 0 table_frames PG_FLAG_TAKEN moved.

Lemma start_paging_spec stale mm :
  (forall a, length (stale a) = 1024%nat) -> flags_are mm ram_frames moved ->
  exists s, start_paging stale pc_layout (count_pgdir_entries ram_frames) (mk_paging mm (replicate 1024 0) ∅) = Some s /\
    paging_wf table_frames ram_frames s /\ flags_are (pg_map s) ram_frames paged.
Proof.
  intros Hst Hmm. pose proof pc_bounds as (Ht & Hl & Hk & Hm & Htf & Htr). pose proof (pc_room P). destruct pc_layout_frames as [ET _].
  assert (count_pgdir_entries ram_frames = table_frames) as ->.
  { unfold count_pgdir_entries, PAGE_SIZE, PG_TABLE_ENTRIES, table_frames. rewrite u32_small by lia. lia. }
  assert (forall i, 0 <= i < low_frames -> moved i = 0) as Hlow by (intros i Hi; unfold moved, fill; rewrite decide_True by lia; done).
  unfold start_paging.
  destruct (setup_paging_spec stale pc_layout table_frames (mk_paging mm (replicate 1024 0) ∅)) as (s & E & W);
    rewrite ?ET; cbn [pg_map pg_dir tables]; [done|lia|apply Hmm|by rewrite length_replicate|done|lia..| |].
  { exists (seqZ 0 table_frames). rewrite length_seqZ. split_and!; [apply NoDup_seqZ|done|]. apply Forall_forall. intros i Hi%elem_of_seqZ.
    apply (flags_free _ _ _ _ Hmm). rewrite Hlow by lia. split; [lia|done]. }
  rewrite E. cbn [mbind option_bind]. rewrite ET in W. pose proof (setup_loop_takes _ _ _ _ _ _ _ _ _ E) as Htake. cbn [pg_map] in Htake.
  destruct (take_pages_flags (Z.to_nat table_frames) mm ram_frames _ 0 Hmm) as (mm' & E' & Hp); [lia..|intros; apply Hlow; lia|lia|].
  rewrite Htake in E'. injection E' as <-. replace (0 + Z.of_nat (Z.to_nat table_frames)) with table_frames in Hp by lia. fold paged in Hp.
  destruct (test_mmu_spec table_frames ram_frames s paged table_frames) as (s' & -> & W' & Hp'); [done|lia|lia|lia|done|lia|lia| | |].
  - unfold paged, fill. rewrite decide_False by lia. apply Hlow. lia.
  - intros i Hi. unfold paged, fill. rewrite decide_True by lia. done.
  - exists s'. done.
Qed.

Lemma paged_free i : 0 <= i < ram_frames ->
  (paged i = 0 /\ free_at_boot i) \/ ((paged i = 64 \/ paged i = 192) /\ ~ free_at_boot i).
Proof.
  intros Hi. pose proof pc_bounds as (Ht & Hl & Hk & Hm & Htf & Htr). pose proof (pc_room P).
  unfold paged, moved, marked, free_at_boot, fill, PG_FLAG_TAKEN. repeat case_decide; first [left; split; [done|lia]|right; split; [auto|lia]].
Qed.
End Pc.
