(* ===== verification/Disk.v ===== *)
(** * Disk driver and block access (drivers/disk.c; disk_read_blk and
    disk_write_blk of fs/ext2/fs.c)

    The ATA driver is written against the port interface extended with the
    word transfers of kernel/system.c.  The block layer above it uses whole
    sectors through [SectorDev] and offers blocks through [BlockDev], the
    interface of the buffer cache. *)

From S2P Require Export Ports.

(** ** The ATA driver *)

Module Ata.
Definition ATA_DATA_REGISTER : Z := 0x1f0.
Definition ATA_SECTOR_COUNT_REGISTER : Z := 0x1f2.
Definition ATA_LBA_LOW_REGISTER : Z := 0x1f3.
Definition ATA_LBA_MID_REGISTER : Z := 0x1f4.
Definition ATA_LBA_HIGH_REGISTER : Z := 0x1f5.
Definition ATA_DRIVE_HEAD_REGISTER : Z := 0x1f6.
Definition ATA_STATUS_REGISTER : Z := 0x1f7.
Definition ATA_COMMAND_REGISTER : Z := 0x1f7.
Definition ATA_ALT_STATUS_REGISTER : Z := 0x3f6.
Definition ATA_SECTOR_SIZE : nat := 512.
Definition ATA_STATUS_BUSY : Z := 128.
Definition ATA_STATUS_READY : Z := 64.
Definition ATA_STATUS_DATA_TRANSFER_REQUESTED : Z := 8.
Definition ATA_STATUS_ERR : Z := 1.
Definition ATA_READ_WITH_RETRY : Z := 0x20.
Definition ATA_WRITE_WITH_RETRY : Z := 0x30.
Definition ATA_CACHE_FLUSH : Z := 0xe7.

(** Word transfers: [outsw] sends a buffer, [insw] receives [n] bytes. *)
Class WordIO (D : Type) := {
  outsw : Z -> list Z -> D -> D;
  insw : Z -> nat -> D -> list Z * D
}.

Section Driver.
Context {D : Type} `{!PortIO D, !WordIO D}.
Context (fuel : nat).

Definition ata_wait_until_not_busy (d : D) : option D := poll fuel ATA_STATUS_REGISTER ATA_STATUS_BUSY false d.

Definition ata_wait_until_status (desired : Z) (d : D) : option D := poll fuel ATA_STATUS_REGISTER desired true d.

Definition waste_cycle_time (d : D) : D := (inb ATA_ALT_STATUS_REGISTER d).2.

(** The sector image: the bytes given, padded with zeros. *)
Definition sector_image (in_buf : list Z) (nchar : nat) : option (list Z) :=
  if decide (nchar <= length in_buf)%nat
  then Some (take nchar in_buf ++ replicate (ATA_SECTOR_SIZE - nchar) 0) else None.

(** An error bit after the transfer is only reported on the console. *)
Definition disk_write_sector (lba : Z) (in_buf : list Z) (nchar : nat) (d : D) : option D :=
  if (ATA_SECTOR_SIZE <? nchar)%nat then Some d
  else
    buf ← sector_image in_buf nchar;
    d ← ata_wait_until_status ATA_STATUS_READY d;
    let d := outb ATA_DRIVE_HEAD_REGISTER 0xe0 d in
    let d := outb ATA_SECTOR_COUNT_REGISTER 1 d in
    let d := outb ATA_LBA_LOW_REGISTER (Z.land (u8 lba) 0xff) d in
    let d := outb ATA_LBA_MID_REGISTER (Z.land (u8 (Z.shiftr lba 8)) 0xff) d in
    let d := outb ATA_LBA_HIGH_REGISTER (Z.land (u8 (Z.shiftr lba 16)) 0xff) d in
    let d := outb ATA_COMMAND_REGISTER ATA_WRITE_WITH_RETRY d in
    let d := waste_cycle_time d in
    d ← ata_wait_until_status ATA_STATUS_DATA_TRANSFER_REQUESTED d;
    let d := outsw ATA_DATA_REGISTER buf d in
    let d := outb ATA_COMMAND_REGISTER ATA_CACHE_FLUSH d in
    d ← ata_wait_until_not_busy d;
    Some (inb ATA_STATUS_REGISTER d).2.

(** [for (; chars_written < nchar; c_buf += 512, c_lba += 1)]; [rounds] bounds
    the number of sectors. *)
Fixpoint disk_write_loop (rounds : nat) (c_lba : Z) (c_buf : list Z) (left : nat) (d : D) : option D :=
  match rounds with
  | O => None
  | S rounds =>
      if (left =? 0)%nat then Some d
      else
        let n := Nat.min left ATA_SECTOR_SIZE in
        d ← disk_write_sector c_lba c_buf n d;
        disk_write_loop rounds (u32 (c_lba + 1)) (drop ATA_SECTOR_SIZE c_buf) (left - n) d
  end.

Definition disk_write (lba : Z) (buf : list Z) (nchar : nat) (d : D) : option D :=
  disk_write_loop (S nchar) lba buf nchar d.

Fixpoint read_sectors (n : nat) (d : D) : option (list Z * D) :=
  match n with
  | O => Some ([], d)
  | S n =>
      d ← ata_wait_until_status ATA_STATUS_DATA_TRANSFER_REQUESTED d;
      let '(b, d) := insw ATA_DATA_REGISTER ATA_SECTOR_SIZE d in
      '(r, d) ← read_sectors n d;
      Some (b ++ r, d)
  end.

(** [eoi] acknowledges interrupt 14. *)
Definition disk_read_internal (eoi : D -> D) (lba : Z) (nsectors : nat) (d : D) : option (list Z * D) :=
  d ← ata_wait_until_status ATA_STATUS_READY d;
  d ← ata_wait_until_not_busy d;
  let lba_highest := Z.land (Z.shiftr lba 24) 0xff in
  let d := outb ATA_DRIVE_HEAD_REGISTER (u8 (Z.lor 0xe0 lba_highest)) d in
  let d := outb ATA_SECTOR_COUNT_REGISTER (Z.of_nat nsectors) d in
  let d := outb ATA_LBA_LOW_REGISTER (u8 (Z.land lba 0xff)) d in
  let d := outb ATA_LBA_MID_REGISTER (u8 (Z.land (Z.shiftr lba 8) 0xff)) d in
  let d := outb ATA_LBA_HIGH_REGISTER (u8 (Z.land (Z.shiftr lba 16) 0xff)) d in
  let d := outb ATA_COMMAND_REGISTER ATA_READ_WITH_RETRY d in
  d ← ata_wait_until_not_busy d;
  '(buf, d) ← read_sectors nsectors d;
  d ← ata_wait_until_not_busy d;
  let d := (inb ATA_STATUS_REGISTER d).2 in
  Some (buf, eoi d).

Definition disk_read (eoi : D -> D) (lba : Z) (d : D) : option (list Z * D) := disk_read_internal eoi lba 1 d.
Definition disk_read_bootloader := disk_read_internal.
End Driver.

(** *** A drive that is always ready

    The register file and the sectors; the data register moves a sector from
    or to the address the registers hold when the command was given. *)

Record drive := mk_drive { regs : gmap Z Z; sectors : Z -> list Z; pending : option Z }.

Definition reg (d : drive) (p : Z) : Z := default 0 (regs d !! p).

(** The 28-bit address in the registers. *)
Definition addressed (d : drive) : Z :=
  reg d ATA_LBA_LOW_REGISTER + 2 ^ 8 * reg d ATA_LBA_MID_REGISTER + 2 ^ 16 * reg d ATA_LBA_HIGH_REGISTER
  + 2 ^ 24 * (reg d ATA_DRIVE_HEAD_REGISTER `mod` 16).

#[export] Instance drive_ports : PortIO drive := {
  inb p d := (if p =? ATA_STATUS_REGISTER then 72 else 0, d);
  outb p v d :=
    if (p =? ATA_COMMAND_REGISTER) && ((v =? ATA_READ_WITH_RETRY) || (v =? ATA_WRITE_WITH_RETRY))
    then mk_drive (regs d) (sectors d) (Some (addressed d))
    else if p =? ATA_COMMAND_REGISTER then mk_drive (regs d) (sectors d) None
    else mk_drive (<[p := v]> (regs d)) (sectors d) (pending d)
}.

#[export] Instance drive_words : WordIO drive := {
  outsw p b d :=
    match pending d with
    | Some a => mk_drive (regs d) (fun x => if x =? a then b else sectors d x) None
    | None => d
    end;
  insw p n d :=
    match pending d with
    | Some a => (take n (sectors d a), mk_drive (regs d) (sectors d) None)
    | None => ([], d)
    end
}.

Lemma drive_poll_ready fuel want d :
  has_flag 72 want = true -> poll (S fuel) ATA_STATUS_REGISTER want true d = Some d.
Proof. intros H. cbn. by rewrite H. Qed.

Lemma drive_poll_idle fuel d : poll (S fuel) ATA_STATUS_REGISTER ATA_STATUS_BUSY false d = Some d.
Proof. reflexivity. Qed.

Lemma split_bytes lba :
  0 <= lba < 2 ^ 24 -> lba `mod` 2 ^ 8 + 2 ^ 8 * ((lba `div` 2 ^ 8) `mod` 2 ^ 8)
                       + 2 ^ 16 * ((lba `div` 2 ^ 16) `mod` 2 ^ 8) = lba.
Proof.
  intros H. pose proof (Z.div_mod lba (2 ^ 8)). pose proof (Z.div_mod (lba `div` 2 ^ 8) (2 ^ 8)).
  replace (lba `div` 2 ^ 16) with (lba `div` 2 ^ 8 `div` 2 ^ 8) by (rewrite Z.div_div by lia; done).
  rewrite (Z.mod_small (lba `div` 2 ^ 8 `div` 2 ^ 8)); [lia|].
  rewrite Z.div_div by lia. split; [apply Z.div_pos; lia|apply Z.div_lt_upper_bound; lia].
Qed.

Lemma low_byte x : Z.land (u8 x) 0xff = x `mod` 2 ^ 8.
Proof.
  change 0xff with (Z.ones 8). rewrite Z.land_ones by lia. unfold u8. by rewrite Z.mod_mod by lia.
Qed.

Lemma low_byte' x : u8 (Z.land x 0xff) = x `mod` 2 ^ 8.
Proof.
  change 0xff with (Z.ones 8). rewrite Z.land_ones by lia. unfold u8. by rewrite Z.mod_mod by lia.
Qed.

Lemma head_nibble x : 0 <= x < 16 -> u8 (Z.lor 0xe0 x) `mod` 16 = x.
Proof. revert x. check_range 0 16 ltac:(reflexivity). Qed.

(** The bytes of an address are those of its low 24 bits. *)
Lemma low24_byte lba k :
  0 <= k <= 16 -> ((lba `mod` 2 ^ 24) `div` 2 ^ k) `mod` 2 ^ 8 = (lba `div` 2 ^ k) `mod` 2 ^ 8.
Proof.
  intros Hk. rewrite <- !Z.shiftr_div_pow2, <- !Z.land_ones by lia. apply Z.bits_inj'. intros j Hj.
  rewrite !Z.land_spec, !Z.shiftr_spec by lia. destruct (Z_lt_le_dec j 8).
  - rewrite Z.land_spec, (Z.ones_spec_low 24), andb_true_r by lia. done.
  - rewrite (Z.ones_spec_high 8), !andb_false_r by lia. done.
Qed.

(** A write reaches the sector whose number the low three bytes of the address
    give: the top byte is never sent. *)
Lemma disk_write_sector_spec fuel lba buf n d img :
  sector_image buf n = Some img -> (n <= 512)%nat -> 0 <= lba ->
  exists d', disk_write_sector (S fuel) lba buf n d = Some d' /\
    forall a, sectors d' a = if a =? lba `mod` 2 ^ 24 then img else sectors d a.
Proof.
  intros Hi Hn Hl. unfold disk_write_sector. change ATA_SECTOR_SIZE with 512%nat.
  destruct (Nat.ltb_spec 512 n); [lia|]. rewrite Hi. cbn [mbind option_bind].
  unfold ata_wait_until_status, ata_wait_until_not_busy, waste_cycle_time.
  rewrite drive_poll_ready by done. cbn [mbind option_bind]. rewrite !low_byte, !Z.shiftr_div_pow2 by lia.
  rewrite drive_poll_ready by done. cbn [mbind option_bind]. rewrite drive_poll_idle. cbn [mbind option_bind].
  eexists. split; [done|]. intros a. cbn -[Z.pow Z.modulo Z.div Z.mul].
  match goal with |- (if _ =? ?x then _ else _) = _ => replace x with (lba `mod` 2 ^ 24); [done|] end.
  unfold addressed, reg. cbn [regs]. simplify_map_eq. cbn [default].
  change (0xe0 `mod` 16) with 0. rewrite Z.mul_0_r, Z.add_0_r.
  rewrite <- (split_bytes (lba `mod` 2 ^ 24)) by (apply Z.mod_pos_bound; lia).
  pose proof (low24_byte lba) as Hk.
  rewrite !Hk by lia. pose proof (Hk 0 ltac:(lia)) as H0. rewrite !Z.div_1_r in H0. by rewrite H0.
Qed.

Lemma disk_read_spec fuel lba d :
  0 <= lba < 2 ^ 28 ->
  exists d', disk_read (S fuel) (fun d => d) lba d = Some (take 512 (sectors d lba), d') /\
    forall a, sectors d' a = sectors d a.
Proof.
  intros Hl. unfold disk_read, disk_read_internal, ata_wait_until_status, ata_wait_until_not_busy.
  rewrite drive_poll_ready by done. cbn [mbind option_bind]. rewrite drive_poll_idle. cbn [mbind option_bind].
  rewrite drive_poll_idle. cbn [mbind option_bind read_sectors].
  unfold ata_wait_until_status. rewrite drive_poll_ready by done. cbn [mbind option_bind].
  rewrite !low_byte', !Z.shiftr_div_pow2 by lia.
  set (head := u8 (Z.lor 0xe0 (Z.land (lba `div` 2 ^ 24) 0xff))).
  match goal with |- context [insw _ _ ?x] => set (d1 := x) end.
  assert (pending d1 = Some lba) as Hp.
  { unfold d1. cbn -[Z.pow Z.modulo Z.div Z.mul]. f_equal. unfold addressed, reg. cbn [regs].
    simplify_map_eq. cbn [default]. unfold head. change 0xff with (Z.ones 8). rewrite Z.land_ones by lia.
    assert (0 <= lba `div` 2 ^ 24 < 16) by (split; [apply Z.div_pos; lia|apply Z.div_lt_upper_bound; lia]).
    rewrite (Z.mod_small (lba `div` 2 ^ 24)) by lia. rewrite head_nibble by lia.
    pose proof (Z.div_mod lba (2 ^ 24)) as Hdm. rewrite <- (split_bytes (lba `mod` 2 ^ 24)) in Hdm by (apply Z.mod_pos_bound; lia).
    pose proof (low24_byte lba) as Hk.
    pose proof (Hk 0 ltac:(lia)) as H0. rewrite !Z.div_1_r in H0. rewrite !Hk, H0 in Hdm by lia. lia. }
  assert (sectors d1 = sectors d) as Hs by done.
  cbn [insw drive_words]. rewrite Hp. cbn [mbind option_bind]. rewrite drive_poll_idle. cbn [mbind option_bind].
  rewrite app_nil_r, Hs. eexists. done.
Qed.

(** C21: through the ATA registers of a ready drive, [disk_write_sector] stores
    the given bytes, zero-padded to a sector, and [disk_read] brings back what
    a sector holds; a write touches exactly the sector numbered by the low 24
    bits of the address, so up to 2^24 sectors the pair is a round trip and
    beyond that writes land in the wrong place. *)
Theorem ata_write_read fuel lba buf n d img :
  sector_image buf n = Some img -> (n <= 512)%nat -> 0 <= lba < 2 ^ 28 ->
  (forall a, length (sectors d a) = 512%nat) ->
  exists d1, disk_write_sector (S fuel) lba buf n d = Some d1 /\
    forall a, 0 <= a < 2 ^ 28 -> exists d2,
      disk_read (S fuel) (fun d => d) a d1
      = Some (if a =? lba `mod` 2 ^ 24 then img else sectors d a, d2).
Proof.
  intros Hi Hn Hl Hlen. destruct (disk_write_sector_spec fuel lba buf n d img Hi Hn ltac:(lia)) as (d1 & E & Hs).
  exists d1. split; [done|]. intros a Ha. destruct (disk_read_spec fuel a d1 Ha) as (d2 & E2 & _).
  exists d2. rewrite E2, Hs, take_ge; [done|]. destruct (a =? lba `mod` 2 ^ 24); [|by rewrite Hlen]. unfold sector_image in Hi.
  case_decide; [|done]. injection Hi as <-. rewrite length_app, length_take, length_replicate. unfold ATA_SECTOR_SIZE. lia.
Qed.

Definition blank_drive : drive := mk_drive ∅ (fun _ => replicate 512 0) None.

Lemma ata_write_read_witness :
  exists d1, disk_write_sector 1 5 [65; 49] 2 blank_drive = Some d1 /\
    forall a, 0 <= a < 2 ^ 28 -> exists d2,
      disk_read 1 (fun d => d) a d1
      = Some (if a =? 5 `mod` 2 ^ 24 then [65; 49] ++ replicate 510 0 else sectors blank_drive a, d2).
Proof.
  apply (ata_write_read 0 5 [65; 49] 2 blank_drive).
  - reflexivity.
  - lia.
  - lia.
  - intros a. apply length_replicate.
Defined.
End Ata.

(** ** Blocks on sectors *)

(** The sectors that the driver reads where it has written them: a write sends
    24 bits of the address, a read 28. *)
Notation DRIVE_SECTORS := (2 ^ 24) (only parsing).

Class SectorDev (D : Type) := {
  sec_read : Z -> D -> list Z;
  sec_write : Z -> list Z -> D -> D;
  sec_read_length a d : length (sec_read a d) = 512%nat;
  sec_read_write a b buf d : 0 <= a < DRIVE_SECTORS -> 0 <= b < DRIVE_SECTORS -> length buf = 512%nat ->
    sec_read a (sec_write b buf d) = if decide (a = b) then buf else sec_read a d
}.

(** A short sector, padded. *)
Definition whole_sector (l : list Z) : list Z := take 512 (l ++ replicate 512 0).

Lemma whole_sector_length l : length (whole_sector l) = 512%nat.
Proof. unfold whole_sector. rewrite length_take, length_app, length_replicate. lia. Qed.

Lemma whole_sector_id l : length l = 512%nat -> whole_sector l = l.
Proof. intros Hl. unfold whole_sector. by rewrite take_app_length'. Qed.

(** The ATA driver on a ready drive offers them. *)
Section AtaSectors.
Import Ata.

Definition ata_sec_read (a : Z) (d : drive) : list Z :=
  whole_sector (match disk_read 1 (fun d => d) a d with Some (b, _) => b | None => [] end).
Definition ata_sec_write (a : Z) (buf : list Z) (d : drive) : drive := default d (disk_write_sector 1 a buf 512 d).

Lemma ata_sec_read_at a d : 0 <= a < 2 ^ 28 -> ata_sec_read a d = whole_sector (take 512 (sectors d a)).
Proof. intros Ha. unfold ata_sec_read. by destruct (disk_read_spec 0 a d Ha) as (d' & -> & _). Qed.

Lemma ata_sec_read_write a b buf d : 0 <= a < DRIVE_SECTORS -> 0 <= b < DRIVE_SECTORS -> length buf = 512%nat ->
  ata_sec_read a (ata_sec_write b buf d) = if decide (a = b) then buf else ata_sec_read a d.
Proof.
  intros Ha Hb Hl. rewrite !ata_sec_read_at by lia. unfold ata_sec_write.
  destruct (disk_write_sector_spec 0 b buf 512 d buf) as (d' & -> & Hs); [|done|lia|].
  { unfold sector_image. rewrite decide_True, take_ge, app_nil_r by lia. done. }
  cbn [default from_option id]. rewrite Hs, Z.mod_small by lia. destruct (Z.eqb_spec a b) as [->|Hne].
  - rewrite decide_True by done. rewrite take_ge by lia. by apply whole_sector_id.
  - by rewrite decide_False.
Qed.

#[export] Instance ata_sectors : SectorDev drive := {|
  sec_read := ata_sec_read;
  sec_write := ata_sec_write;
  sec_read_length a d := whole_sector_length _;
  sec_read_write := ata_sec_read_write
|}.
End AtaSectors.

(** The state of the block layer. *)
Record volume := mk_volume { fs_start_set : bool; filesys_start : Z; s_log_block_size : Z }.

Section Blocks.
Context {D : Type} `{!SectorDev D}.
Context (v : volume).

Definition S_BLOCK_SIZE : Z := Z.shiftl 1024 (s_log_block_size v).
Definition SECTORS_PER_BLOCK : Z := S_BLOCK_SIZE `div` 512.
Definition block_lba (block_num : Z) : Z := u32 (filesys_start v + block_num * SECTORS_PER_BLOCK).

Fixpoint read_run (lba : Z) (n : nat) (d : D) : list Z :=
  match n with
  | O => []
  | S n => sec_read (u32 lba) d ++ read_run (lba + 1) n d
  end.

(** Sector by sector from [buf]; a short buffer is read out of bounds. *)
Fixpoint write_run (lba : Z) (buf : list Z) (n : nat) (d : D) : option D :=
  match n with
  | O => Some d
  | S n =>
      if decide (512 <= length buf)%nat
      then write_run (lba + 1) (drop 512 buf) n (sec_write (u32 lba) (take 512 buf) d)
      else None
  end.

(** Status and contents. *)
Definition disk_read_blk (block_num : Z) (d : D) : Z * list Z :=
  if negb (fs_start_set v) then (1, [])
  else (0, read_run (block_lba block_num) (Z.to_nat SECTORS_PER_BLOCK) d).

Definition disk_write_blk (block_num : Z) (buf : list Z) (d : D) : option (Z * D) :=
  if negb (fs_start_set v) then Some (-1, d)
  else d ← write_run (block_lba block_num) buf (Z.to_nat SECTORS_PER_BLOCK) d; Some (0, d).

(** *** Round trips *)

Lemma read_run_length lba n d : length (read_run lba n d) = (512 * n)%nat.
Proof. revert lba. induction n as [|n IH]; intros lba; simpl; [done|]. rewrite length_app, sec_read_length, IH. lia. Qed.

Lemma write_run_spec n : forall lba buf d,
  0 <= lba -> lba + Z.of_nat n <= DRIVE_SECTORS -> length buf = (512 * n)%nat ->
  exists d', write_run lba buf n d = Some d' /\ read_run lba n d' = buf /\
    forall a, 0 <= a < DRIVE_SECTORS -> ~ (lba <= a < lba + Z.of_nat n) -> sec_read a d' = sec_read a d.
Proof.
  induction n as [|n IH]; intros lba buf d Hl Hn Hb; cbn [write_run read_run].
  { exists d. apply nil_length_inv in Hb as ->. done. }
  rewrite decide_True by lia. rewrite !u32_small by lia.
  destruct (IH (lba + 1) (drop 512 buf) (sec_write lba (take 512 buf) d)) as (d' & E & Hr & Hf);
    [lia..|rewrite length_drop; lia|].
  assert (length (take 512 buf) = 512%nat) as Ht by (rewrite length_take; lia).
  exists d'. split_and!; [done| |].
  - rewrite Hr, Hf, sec_read_write, decide_True by (done || lia). apply take_drop.
  - intros a Ha Hout. rewrite Hf, sec_read_write, decide_False by (done || lia). done.
Qed.

Lemma read_run_ext lba n d d' :
  0 <= lba -> lba + Z.of_nat n <= DRIVE_SECTORS ->
  (forall a, lba <= a < lba + Z.of_nat n -> sec_read a d' = sec_read a d) -> read_run lba n d' = read_run lba n d.
Proof.
  revert lba. induction n as [|n IH]; intros lba Hl Hn Hf; cbn [read_run]; [done|].
  rewrite u32_small by lia. rewrite Hf by lia. rewrite IH; [done|lia..|]. intros a Ha. apply Hf. lia.
Qed.

(** Blocks whose sectors the driver reads where it writes them. *)
Definition block_ok (b : Z) : Prop :=
  fs_start_set v = true /\ 0 <= filesys_start v /\ 0 <= s_log_block_size v /\ 0 <= b /\
  filesys_start v + (b + 1) * SECTORS_PER_BLOCK <= DRIVE_SECTORS.

Lemma sectors_pos : 0 <= s_log_block_size v -> 2 <= SECTORS_PER_BLOCK.
Proof.
  intros H. unfold SECTORS_PER_BLOCK, S_BLOCK_SIZE. rewrite Z.shiftl_mul_pow2 by lia.
  pose proof (Z.pow_pos_nonneg 2 (s_log_block_size v) ltac:(lia) H). apply Z.div_le_lower_bound; lia.
Qed.

Lemma block_lba_ok b : block_ok b ->
  block_lba b = filesys_start v + b * SECTORS_PER_BLOCK /\ 0 <= block_lba b /\
  block_lba b + Z.of_nat (Z.to_nat SECTORS_PER_BLOCK) <= DRIVE_SECTORS.
Proof.
  unfold block_ok. intros (_ & Hs & Hl & Hb & Hm). pose proof (sectors_pos Hl). unfold block_lba.
  rewrite u32_small by nia. rewrite Z2Nat.id by lia. split_and!; [done|nia|lia].
Qed.

Lemma disk_write_blk_spec b buf d :
  block_ok b -> length buf = (512 * Z.to_nat SECTORS_PER_BLOCK)%nat ->
  exists d', disk_write_blk b buf d = Some (0, d') /\ disk_read_blk b d' = (0, buf) /\
    forall b', block_ok b' -> b' ≠ b -> disk_read_blk b' d' = disk_read_blk b' d.
Proof.
  intros Hb Hbuf. pose proof (block_lba_ok b Hb) as (Hl & Hl0 & Hl1). pose proof Hb as (Hs & _ & Hlog & _).
  pose proof (sectors_pos Hlog) as Hsp. unfold disk_write_blk, disk_read_blk. rewrite Hs. cbn [negb].
  destruct (write_run_spec (Z.to_nat SECTORS_PER_BLOCK) (block_lba b) buf d Hl0 Hl1 Hbuf) as (d' & -> & Hr & Hf).
  exists d'. split_and!; [done|by rewrite Hr|]. intros b' Hb' Hne.
  pose proof (block_lba_ok b' Hb') as (Hl' & Hl0' & Hl1'). f_equal. apply read_run_ext; [done..|].
  intros a Ha. apply Hf; [lia|]. rewrite Hl, Hl' in *. rewrite Z2Nat.id in * by lia. nia.
Qed.
End Blocks.

(** ** The interface of the buffer cache *)

Class BlockDev (B : Type) := {
  bd_ok : Z -> Prop;
  bd_read : Z -> B -> option (list Z);
  bd_write : Z -> list Z -> B -> option B;
  bd_read_ok n b : bd_ok n -> exists data, bd_read n b = Some data /\ length data = 1024%nat;
  bd_write_ok n data b : bd_ok n -> length data = 1024%nat ->
    exists b', bd_write n data b = Some b' /\ bd_read n b' = Some data /\
      forall m, bd_ok m -> m ≠ n -> bd_read m b' = bd_read m b
}.

(** The block layer with the kernel's 1024-byte blocks offers it. *)
Section Instance1024.
Context {D : Type} `{!SectorDev D}.
Context (v : volume) (Hv : s_log_block_size v = 0).

Definition volume_read (n : Z) (d : D) : option (list Z) :=
  let '(r, data) := disk_read_blk v n d in if r =? 0 then Some data else None.

Definition volume_write (n : Z) (data : list Z) (d : D) : option D :=
  '(r, d) ← disk_write_blk v n data d; Some d.

Lemma volume_read_ok n d : block_ok v n -> exists data, volume_read n d = Some data /\ length data = 1024%nat.
Proof.
  intros Hn. unfold volume_read, disk_read_blk. destruct Hn as (Hs & _). rewrite Hs. cbn [negb].
  eexists. split; [done|]. rewrite read_run_length. unfold SECTORS_PER_BLOCK, S_BLOCK_SIZE. by rewrite Hv.
Qed.

Lemma volume_write_ok n data d :
  block_ok v n -> length data = 1024%nat ->
  exists d', volume_write n data d = Some d' /\ volume_read n d' = Some data /\
    forall m, block_ok v m -> m ≠ n -> volume_read m d' = volume_read m d.
Proof.
  intros Hn Hl. unfold volume_write, volume_read. destruct (disk_write_blk_spec v n data d Hn) as (d' & E & Hr & Hf).
  { unfold SECTORS_PER_BLOCK, S_BLOCK_SIZE. by rewrite Hv. }
  exists d'. rewrite E, Hr. split_and!; [done..|]. intros m Hm Hne. by rewrite Hf.
Qed.

Definition volume_dev : BlockDev D := {|
  bd_ok := block_ok v;
  bd_read := volume_read;
  bd_write := volume_write;
  bd_read_ok := volume_read_ok;
  bd_write_ok := volume_write_ok
|}.
End Instance1024.

(** ** Sectors in memory *)

Definition mem_read (a : Z) (d : gmap Z (list Z)) : list Z := take 512 (default [] (d !! a) ++ replicate 512 0).

Lemma mem_read_length a d : length (mem_read a d) = 512%nat.
Proof. unfold mem_read. rewrite length_take, length_app, length_replicate. lia. Qed.

Lemma mem_read_write a b buf d : 0 <= a < DRIVE_SECTORS -> 0 <= b < DRIVE_SECTORS -> length buf = 512%nat ->
  mem_read a (<[b := buf]> d) = if decide (a = b) then buf else mem_read a d.
Proof.
  intros _ _ Hb. unfold mem_read. destruct (decide (a = b)) as [->|]; [|by rewrite lookup_insert_ne].
  rewrite lookup_insert_eq. cbn [default from_option id]. by rewrite take_app_length' by done.
Qed.

#[export] Instance mem_sectors : SectorDev (gmap Z (list Z)) := {|
  sec_read := mem_read;
  sec_write a buf d := <[a := buf]> d;
  sec_read_length := mem_read_length;
  sec_read_write := mem_read_write
|}.
