(* ===== verification/Struct.v ===== *)
(** * Structures as bytes (include/fs.h)

    The file-system code casts its structures to byte pointers, copies them to
    and from disk blocks and leaves members unset, so a structure is its
    memory image here: a list of bytes, with a member a range of it that holds
    a little-endian number.  The ranges follow from the member list by the
    i386 layout rule: each member at the next multiple of its element size. *)

From stdpp Require Export strings.
From S2P Require Export Prelude.

Open Scope Z_scope.

Definition is_byte (b : Z) : Prop := 0 <= b < 2 ^ 8.

Fixpoint le_bytes (n : nat) (v : Z) : list Z :=
  match n with O => [] | S n => v `mod` 2 ^ 8 :: le_bytes n (v `div` 2 ^ 8) end.

Fixpoint le_val (l : list Z) : Z :=
  match l with [] => 0 | b :: l => b + 2 ^ 8 * le_val l end.

Record field := Field { f_off : nat; f_len : nat }.

(** A range of bytes, and its replacement. *)
Definition slice (off len : nat) (img : list Z) : list Z := take len (drop off img).
Definition splice (off : nat) (new img : list Z) : list Z := take off img ++ new ++ drop (off + length new) img.

Definition get (f : field) (img : list Z) : Z := le_val (slice (f_off f) (f_len f) img).
Definition put (f : field) (v : Z) (img : list Z) : list Z := splice (f_off f) (le_bytes (f_len f) v) img.

(** Memory ranges inside a buffer; outside of it the access is undefined. *)
Definition load (off : Z) (len : nat) (img : list Z) : option (list Z) :=
  if (0 <=? off) && (off + Z.of_nat len <=? Z.of_nat (length img)) then Some (slice (Z.to_nat off) len img) else None.
Definition store (off : Z) (new img : list Z) : option (list Z) :=
  if (0 <=? off) && (off + Z.of_nat (length new) <=? Z.of_nat (length img))
  then Some (splice (Z.to_nat off) new img) else None.

(** ** Layout *)

Record member := Member { m_name : string; m_size : nat; m_count : nat }.

Definition align_up (off a : nat) : nat := ((off + a - 1) `div` a * a)%nat.

Fixpoint layout (off : nat) (ms : list member) : list (string * nat * nat * nat) :=
  match ms with
  | [] => []
  | m :: ms =>
      let o := align_up off (m_size m) in
      (m_name m, o, m_size m, m_count m) :: layout (o + m_size m * m_count m) ms
  end.

Fixpoint extent (off : nat) (ms : list member) : nat :=
  match ms with
  | [] => off
  | m :: ms => extent (align_up off (m_size m) + m_size m * m_count m) ms
  end.

Definition sizeof (ms : list member) : nat := align_up (extent 0 ms) (foldr (fun m a => Nat.max (m_size m) a) 1%nat ms).

(** Element [k] of the member called [n]. *)
Definition field_of (ms : list member) (n : string) (k : nat) : option field :=
  match list_find (fun e => e.1.1.1 = n) (layout 0 ms) with
  | Some (_, (_, o, sz, cnt)) => if (k <? cnt)%nat then Some (Field (o + k * sz) sz) else None
  | None => None
  end.

Definition U8 (n : string) := Member n 1 1.
Definition U16 (n : string) := Member n 2 1.
Definition U32 (n : string) := Member n 4 1.

(** ** The structures on disk *)

Definition ext2_super_block : list member := [
  U32 "s_inodes_count"; U32 "s_blocks_count"; U32 "s_r_blocks_count"; U32 "s_free_blocks_count";
  U32 "s_free_inodes_count"; U32 "s_first_data_block"; U32 "s_log_block_size"; U32 "s_log_frag_size";
  U32 "s_blocks_per_group"; U32 "s_frags_per_group"; U32 "s_inodes_per_group"; U32 "s_mtime"; U32 "s_wtime";
  U16 "s_mnt_count"; U16 "s_max_mnt_count"; U16 "s_magic"; U16 "s_state"; U16 "s_errors"; U16 "s_minor_rev_level";
  U32 "s_lastcheck"; U32 "s_checkinterval"; U32 "s_creator_os"; U32 "s_rev_level";
  U16 "s_def_resuid"; U16 "s_def_resgid";
  U32 "s_first_ino"; U16 "s_inode_size"; U16 "s_block_group_nr";
  U32 "s_feature_compat"; U32 "s_feature_incompat"; U32 "s_feature_ro_compat";
  Member "s_uuid" 1 16; Member "s_volume_name" 1 16; Member "s_last_mounted" 1 64; U32 "s_algo_bitmap";
  U8 "s_prealloc_blocks"; U8 "s_prealloc_dir_blocks"; U16 "alignment";
  Member "s_journal_uuid" 1 16; U32 "s_journal_inum"; U32 "s_journal_dev"; U32 "s_last_orphan";
  Member "s_hash_seed" 4 4; U8 "s_def_hash_version"; U8 "padding_a"; U16 "padding_b";
  U32 "s_default_mount_options"; U32 "s_first_meta_bg"; Member "reserved_future" 1 760 ].

Definition bgdesc_t : list member := [
  U32 "bg_block_bitmap"; U32 "bg_inode_bitmap"; U32 "bg_inode_table";
  U16 "bg_free_blocks_count"; U16 "bg_free_inodes_count"; U16 "bg_used_dirs_count"; U16 "bg_pad";
  Member "bg_reserved" 1 12 ].

Definition inode_t : list member := [
  U16 "i_mode"; U16 "i_uid"; U32 "i_size"; U32 "i_atime"; U32 "i_ctime"; U32 "i_mtime"; U32 "i_dtime";
  U16 "i_gid"; U16 "i_links_count"; U32 "i_blocks"; U32 "i_flags"; U32 "i_osd1"; Member "i_block" 4 15;
  U32 "i_generation"; U32 "i_file_acl"; U32 "i_dir_acl"; U32 "i_faddr"; Member "i_osd2" 1 12 ].

Definition dentry_t : list member := [
  U32 "inode"; U16 "rec_len"; U8 "name_len"; U8 "file_type"; Member "name" 1 64 ].

Definition structs : list (list member) := [ext2_super_block; bgdesc_t; inode_t; dentry_t].

(** Members the code uses, with the offsets the layout gives them. *)

Definition the_field (ms : list member) (n : string) : field := default (Field 0 0) (field_of ms n 0).

Definition s_inodes_count := Eval vm_compute in the_field ext2_super_block "s_inodes_count".
Definition s_blocks_count := Eval vm_compute in the_field ext2_super_block "s_blocks_count".
Definition s_free_blocks_count := Eval vm_compute in the_field ext2_super_block "s_free_blocks_count".
Definition s_free_inodes_count := Eval vm_compute in the_field ext2_super_block "s_free_inodes_count".
Definition s_first_data_block := Eval vm_compute in the_field ext2_super_block "s_first_data_block".
Definition s_log_block_size := Eval vm_compute in the_field ext2_super_block "s_log_block_size".
Definition s_log_frag_size := Eval vm_compute in the_field ext2_super_block "s_log_frag_size".
Definition s_blocks_per_group := Eval vm_compute in the_field ext2_super_block "s_blocks_per_group".
Definition s_frags_per_group := Eval vm_compute in the_field ext2_super_block "s_frags_per_group".
Definition s_inodes_per_group := Eval vm_compute in the_field ext2_super_block "s_inodes_per_group".
Definition s_magic := Eval vm_compute in the_field ext2_super_block "s_magic".
Definition s_state := Eval vm_compute in the_field ext2_super_block "s_state".
Definition s_errors := Eval vm_compute in the_field ext2_super_block "s_errors".
Definition s_checkinterval := Eval vm_compute in the_field ext2_super_block "s_checkinterval".
Definition s_creator_os := Eval vm_compute in the_field ext2_super_block "s_creator_os".
Definition s_rev_level := Eval vm_compute in the_field ext2_super_block "s_rev_level".
Definition s_first_ino := Eval vm_compute in the_field ext2_super_block "s_first_ino".
Definition s_inode_size := Eval vm_compute in the_field ext2_super_block "s_inode_size".
Definition s_block_group_nr := Eval vm_compute in the_field ext2_super_block "s_block_group_nr".

Definition bg_block_bitmap := Eval vm_compute in the_field bgdesc_t "bg_block_bitmap".
Definition bg_inode_bitmap := Eval vm_compute in the_field bgdesc_t "bg_inode_bitmap".
Definition bg_inode_table := Eval vm_compute in the_field bgdesc_t "bg_inode_table".
Definition bg_free_blocks_count := Eval vm_compute in the_field bgdesc_t "bg_free_blocks_count".
Definition bg_free_inodes_count := Eval vm_compute in the_field bgdesc_t "bg_free_inodes_count".
Definition bg_used_dirs_count := Eval vm_compute in the_field bgdesc_t "bg_used_dirs_count".
Definition bg_pad := Eval vm_compute in the_field bgdesc_t "bg_pad".
Definition bg_reserved := Eval vm_compute in the_field bgdesc_t "bg_reserved".

(** ** Numbers *)

Lemma length_le_bytes n v : length (le_bytes n v) = n.
Proof. revert v. induction n; intros v; simpl; [done|]. by f_equal. Qed.

Lemma le_bytes_bytes n v : Forall is_byte (le_bytes n v).
Proof. revert v. induction n; intros v; simpl; constructor; [apply Z.mod_pos_bound; lia|done]. Qed.

Lemma le_val_bytes n v : le_val (le_bytes n v) = v `mod` 2 ^ (8 * Z.of_nat n).
Proof.
  revert v. induction n as [|n IH]; intros v; cbn [le_bytes le_val].
  { by rewrite Z.mul_0_r, Z.pow_0_r, Z.mod_1_r. }
  rewrite IH. replace (8 * Z.of_nat (S n)) with (8 + 8 * Z.of_nat n) by lia.
  rewrite Z.pow_add_r by lia. rewrite Z.rem_mul_r by lia. lia.
Qed.

Lemma le_val_bound l : Forall is_byte l -> 0 <= le_val l < 2 ^ (8 * Z.of_nat (length l)).
Proof.
  induction 1 as [|b l Hb _ IH]; simpl le_val; [done|]. unfold is_byte in Hb. cbn [length].
  replace (8 * Z.of_nat (S (length l))) with (8 + 8 * Z.of_nat (length l)) by lia.
  rewrite Z.pow_add_r by lia. lia.
Qed.

(** ** Ranges *)

Lemma length_splice off new img : (off + length new <= length img)%nat -> length (splice off new img) = length img.
Proof. intros H. unfold splice. rewrite !length_app, length_take, length_drop. lia. Qed.

Lemma slice_splice_eq off new img :
  (off <= length img)%nat -> slice off (length new) (splice off new img) = new.
Proof.
  intros H. unfold slice, splice. rewrite drop_app_le by (rewrite length_take; lia).
  rewrite drop_ge by (rewrite length_take; lia). simpl. by rewrite take_app_length.
Qed.

Lemma slice_splice_ne off new img o l :
  (off + length new <= length img)%nat -> (o + l <= off \/ off + length new <= o)%nat ->
  slice o l (splice off new img) = slice o l img.
Proof.
  intros H Hd. unfold slice, splice. apply list_eq. intros i.
  destruct (decide (i < l)%nat); [|by rewrite !lookup_take_ge by lia].
  rewrite !lookup_take_lt, !lookup_drop by lia. destruct Hd.
  - rewrite lookup_app_l by (rewrite length_take; lia). by rewrite lookup_take_lt by lia.
  - rewrite lookup_app_r, length_take by (rewrite length_take; lia).
    rewrite lookup_app_r by lia. rewrite lookup_drop. f_equal. lia.
Qed.

Lemma splice_bytes off new img : Forall is_byte new -> Forall is_byte img -> Forall is_byte (splice off new img).
Proof. intros. unfold splice. rewrite !Forall_app. split_and!; [by apply Forall_take|done|by apply Forall_drop]. Qed.

Lemma slice_bytes off len img : Forall is_byte img -> Forall is_byte (slice off len img).
Proof. intros. by apply Forall_take, Forall_drop. Qed.

(** ** Members *)

Definition inside (f : field) (n : nat) : Prop := (f_off f + f_len f <= n)%nat.
Definition apart (f g : field) : Prop := (f_off f + f_len f <= f_off g \/ f_off g + f_len g <= f_off f)%nat.

Lemma put_length f v img : inside f (length img) -> length (put f v img) = length img.
Proof. intros H. apply length_splice. rewrite length_le_bytes. exact H. Qed.

Lemma put_bytes f v img : Forall is_byte img -> Forall is_byte (put f v img).
Proof. apply splice_bytes, le_bytes_bytes. Qed.

Lemma get_put_eq f v img :
  inside f (length img) -> get f (put f v img) = v `mod` 2 ^ (8 * Z.of_nat (f_len f)).
Proof.
  unfold inside. intros H. unfold get, put. rewrite <- (length_le_bytes (f_len f) v) at 1.
  rewrite slice_splice_eq by lia. apply le_val_bytes.
Qed.

Lemma get_put_ne f g v img : inside f (length img) -> apart f g -> get g (put f v img) = get g img.
Proof.
  unfold inside, apart. intros H Hd. unfold get, put. rewrite slice_splice_ne; rewrite ?length_le_bytes; [done|lia..].
Qed.

Lemma get_bound f img : Forall is_byte img -> inside f (length img) -> 0 <= get f img < 2 ^ (8 * Z.of_nat (f_len f)).
Proof.
  unfold inside. intros Hb Hi. unfold get. pose proof (le_val_bound _ (slice_bytes (f_off f) (f_len f) img Hb)) as H.
  replace (length (slice (f_off f) (f_len f) img)) with (f_len f) in H; [done|].
  unfold slice. rewrite length_take, length_drop. lia.
Qed.

(** ** The layout rule keeps members apart *)

Lemma align_up_spec off a : (0 < a)%nat -> (off <= align_up off a)%nat /\ (align_up off a `mod` a = 0)%nat.
Proof.
  intros Ha. unfold align_up. split; [|apply Nat.Div0.mod_mul].
  pose proof (Nat.div_mod (off + a - 1) a ltac:(lia)). pose proof (Nat.mod_upper_bound (off + a - 1) a ltac:(lia)). nia.
Qed.

Definition sized (ms : list member) : Prop := Forall (fun m => 0 < m_size m)%nat ms.

Lemma extent_ge ms off : sized ms -> (off <= extent off ms)%nat.
Proof.
  intros H. revert off. induction H as [|m ms Hm _ IH]; intros off; simpl; [done|].
  pose proof (proj1 (align_up_spec off (m_size m) Hm)). etrans; [|apply IH]. lia.
Qed.

Lemma layout_bounds ms off i n o sz cnt :
  sized ms -> layout off ms !! i = Some (n, o, sz, cnt) ->
  (off <= o /\ o + sz * cnt <= extent off ms /\ o `mod` sz = 0 /\ 0 < sz)%nat.
Proof.
  intros H. revert off i. induction H as [|m ms Hm Hms IH]; intros off i; simpl; [done|].
  pose proof (align_up_spec off (m_size m) Hm) as [Hge Hmod]. destruct i as [|i]; simpl.
  - intros [= <- <- <- <-]. split_and!; [done|by apply extent_ge|done|done].
  - intros E. apply IH in E as (? & ? & ? & ?). split_and!; [lia|done..].
Qed.

Lemma layout_apart ms off i j n o sz cnt n' o' sz' cnt' :
  sized ms -> layout off ms !! i = Some (n, o, sz, cnt) -> layout off ms !! j = Some (n', o', sz', cnt') ->
  (i < j)%nat -> (o + sz * cnt <= o')%nat.
Proof.
  intros H. revert off i j. induction H as [|m ms Hm Hms IH]; intros off i j Ei Ej Hij; simpl in *; [done|].
  destruct j as [|j]; [lia|]. destruct i as [|i]; simpl in *; [|eapply IH; eauto; lia].
  injection Ei as <- <- <- <-. eapply layout_bounds in Ej as [? _]; [lia|done].
Qed.

Lemma field_of_inv ms n k f :
  field_of ms n k = Some f -> exists i o cnt,
    layout 0 ms !! i = Some (n, o, f_len f, cnt) /\ f_off f = (o + k * f_len f)%nat /\ (k < cnt)%nat.
Proof.
  unfold field_of. destruct (list_find _ _) as [[i [[[nm o] sz] cnt]]|] eqn:E; [|done].
  apply list_find_Some in E as (E & Hn & _). cbn in Hn. subst nm.
  destruct (Nat.ltb_spec k cnt); [|done]. intros [= <-]. by exists i, o, cnt.
Qed.

Lemma field_of_inside ms n k f : sized ms -> field_of ms n k = Some f -> inside f (sizeof ms).
Proof.
  intros Hs (i & o & cnt & E & Ho & Hk)%field_of_inv. apply layout_bounds in E as (_ & Hx & _); [|done].
  unfold inside, sizeof. rewrite Ho.
  etrans; [|apply align_up_spec; induction Hs; simpl; lia]. nia.
Qed.

Lemma field_of_aligned ms n k f : sized ms -> field_of ms n k = Some f -> (f_off f `mod` f_len f = 0)%nat.
Proof.
  intros Hs (i & o & cnt & E & -> & _)%field_of_inv. apply layout_bounds in E as (_ & _ & Hm & _); [|done].
  by rewrite Nat.Div0.mod_add.
Qed.

Lemma field_of_apart ms n k f n' k' g :
  sized ms -> field_of ms n k = Some f -> field_of ms n' k' = Some g -> (n', k') ≠ (n, k) -> apart f g.
Proof.
  intros Hs Hf Hg Hne. destruct (decide (n' = n)) as [->|Hn].
  - assert (k' ≠ k) by congruence. unfold field_of in Hf, Hg.
    destruct (list_find _ _) as [[i [[[nm o] sz] cnt]]|]; [|done].
    destruct (_ <? _)%nat; [|done]. destruct (_ <? _)%nat; [|done]. simplify_eq. unfold apart; simpl. nia.
  - apply field_of_inv in Hf as (i & o & cnt & Ei & Ho & Hk), Hg as (j & o' & cnt' & Ej & Ho' & Hk').
    unfold apart. rewrite Ho, Ho'. destruct (lt_eq_lt_dec i j) as [[?| ->]|?]; [| congruence |].
    + pose proof (layout_apart _ _ _ _ _ _ _ _ _ _ _ _ Hs Ei Ej ltac:(done)). nia.
    + pose proof (layout_apart _ _ _ _ _ _ _ _ _ _ _ _ Hs Ej Ei ltac:(done)). nia.
Qed.

Lemma structs_sized ms : ms ∈ structs -> sized ms.
Proof. revert ms. apply Forall_forall. unfold structs, sized. repeat constructor. Qed.

(** The ext2 disk format, as its documentation gives it: name, offset, size of
    an element, number of elements. *)
Definition disk_format : list (list (string * nat * nat * nat)) := [
  [ ("s_inodes_count", 0, 4, 1); ("s_blocks_count", 4, 4, 1); ("s_r_blocks_count", 8, 4, 1); ("s_free_blocks_count", 12, 4, 1);
    ("s_free_inodes_count", 16, 4, 1); ("s_first_data_block", 20, 4, 1); ("s_log_block_size", 24, 4, 1); ("s_log_frag_size", 28, 4, 1);
    ("s_blocks_per_group", 32, 4, 1); ("s_frags_per_group", 36, 4, 1); ("s_inodes_per_group", 40, 4, 1); ("s_mtime", 44, 4, 1);
    ("s_wtime", 48, 4, 1); ("s_mnt_count", 52, 2, 1); ("s_max_mnt_count", 54, 2, 1); ("s_magic", 56, 2, 1); ("s_state", 58, 2, 1);
    ("s_errors", 60, 2, 1); ("s_minor_rev_level", 62, 2, 1); ("s_lastcheck", 64, 4, 1); ("s_checkinterval", 68, 4, 1);
    ("s_creator_os", 72, 4, 1); ("s_rev_level", 76, 4, 1); ("s_def_resuid", 80, 2, 1); ("s_def_resgid", 82, 2, 1);
    ("s_first_ino", 84, 4, 1); ("s_inode_size", 88, 2, 1); ("s_block_group_nr", 90, 2, 1); ("s_feature_compat", 92, 4, 1);
    ("s_feature_incompat", 96, 4, 1); ("s_feature_ro_compat", 100, 4, 1); ("s_uuid", 104, 1, 16); ("s_volume_name", 120, 1, 16);
    ("s_last_mounted", 136, 1, 64); ("s_algo_bitmap", 200, 4, 1); ("s_prealloc_blocks", 204, 1, 1); ("s_prealloc_dir_blocks", 205, 1, 1);
    ("alignment", 206, 2, 1); ("s_journal_uuid", 208, 1, 16); ("s_journal_inum", 224, 4, 1); ("s_journal_dev", 228, 4, 1);
    ("s_last_orphan", 232, 4, 1); ("s_hash_seed", 236, 4, 4); ("s_def_hash_version", 252, 1, 1); ("padding_a", 253, 1, 1);
    ("padding_b", 254, 2, 1); ("s_default_mount_options", 256, 4, 1); ("s_first_meta_bg", 260, 4, 1); ("reserved_future", 264, 1, 760) ];
  [ ("bg_block_bitmap", 0, 4, 1); ("bg_inode_bitmap", 4, 4, 1); ("bg_inode_table", 8, 4, 1); ("bg_free_blocks_count", 12, 2, 1);
    ("bg_free_inodes_count", 14, 2, 1); ("bg_used_dirs_count", 16, 2, 1); ("bg_pad", 18, 2, 1); ("bg_reserved", 20, 1, 12) ];
  [ ("i_mode", 0, 2, 1); ("i_uid", 2, 2, 1); ("i_size", 4, 4, 1); ("i_atime", 8, 4, 1); ("i_ctime", 12, 4, 1); ("i_mtime", 16, 4, 1);
    ("i_dtime", 20, 4, 1); ("i_gid", 24, 2, 1); ("i_links_count", 26, 2, 1); ("i_blocks", 28, 4, 1); ("i_flags", 32, 4, 1);
    ("i_osd1", 36, 4, 1); ("i_block", 40, 4, 15); ("i_generation", 100, 4, 1); ("i_file_acl", 104, 4, 1); ("i_dir_acl", 108, 4, 1);
    ("i_faddr", 112, 4, 1); ("i_osd2", 116, 1, 12) ];
  [ ("inode", 0, 4, 1); ("rec_len", 4, 2, 1); ("name_len", 6, 1, 1); ("file_type", 7, 1, 1); ("name", 8, 1, 64) ] ]%string%nat.

(** C22: the structures of fs.h are those of the ext2 disk format: laid out by
    the compiler's rule, superblock, group descriptor, inode and directory
    entry have every member at the offset and with the width the format gives
    it, and have 1024, 32, 128 and 72 bytes (a directory entry of the format
    ends with its name; this one keeps room for 64 characters).  Storing a
    value of a member's width makes it read back as that value and leaves every
    other element of every member as it was. *)
Theorem struct_members :
  (layout 0 <$> structs = disk_format) /\ (sizeof <$> structs = [1024; 32; 128; 72]%nat) /\
  forall ms n k f img v, ms ∈ structs -> field_of ms n k = Some f -> length img = sizeof ms ->
    0 <= v < 2 ^ (8 * Z.of_nat (f_len f)) ->
    length (put f v img) = sizeof ms /\ get f (put f v img) = v /\ (f_off f `mod` f_len f = 0)%nat /\
    forall n' k' g, field_of ms n' k' = Some g -> (n', k') ≠ (n, k) -> get g (put f v img) = get g img.
Proof.
  split; [vm_compute; reflexivity|].
  split; [vm_compute; reflexivity|]. intros ms n k f img v Hms%structs_sized Hf Hl Hv.
  pose proof (field_of_inside _ _ _ _ Hms Hf) as Hin. rewrite <- Hl in Hin. split_and!.
  - by rewrite put_length.
  - rewrite get_put_eq by done. by apply Z.mod_small.
  - by eapply field_of_aligned.
  - intros n' k' g Hg Hne. apply get_put_ne; [done|]. by eapply field_of_apart.
Qed.

Lemma struct_members_witness :
  get (Field 84 4) (put (Field 40 4) 4711 (replicate 128 7)) = le_val [7; 7; 7; 7] /\
  get (Field 40 4) (put (Field 40 4) 4711 (replicate 128 7)) = 4711.
Proof.
  pose proof (proj2 (proj2 struct_members) inode_t "i_block" 0%nat (Field 40 4) (replicate 128 7) 4711) as H.
  destruct H as (_ & Hg & _ & Ho); [|reflexivity|reflexivity|split; [discriminate|reflexivity]|].
  { unfold structs. do 2 right. left. }
  split; [|exact Hg]. rewrite (Ho "i_block"%string 11%nat (Field 84 4)) by done. reflexivity.
Defined.
