(* ===== verification/Syscall.v ===== *)
(** * System calls (kernel/syscall_table.c, the entry in kernel/syscall.s, and
    the structures of include/task.h that the assembly addresses by offset)

    [system_call] is the path of an [int 0x80]: the pushes and pops of the
    assembly on a small machine of registers and stack words, the call of a C
    function with the frame those pushes have built, read by the layout of
    [struct pt_regs], and the return.  The layouts are those of Struct, with
    structures inside structures as arrays of words. *)

From S2P Require Export Struct Sched.

(** ** Structures in memory *)

Definition i387_struct : list member :=
  [ U32 "cwd"; U32 "swd"; U32 "twd"; U32 "fip"; U32 "fcs"; U32 "foo"; U32 "fos"; Member "st_space" 4 20 ].

Definition words_of (ms : list member) : nat := Nat.div (sizeof ms) 4.

Definition tss_struct : list member :=
  [ U32 "back_link"; U32 "esp0"; U32 "ss0"; U32 "esp1"; U32 "ss1"; U32 "esp2"; U32 "ss2"; U32 "cr3"; U32 "eip"; U32 "eflags";
    U32 "eax"; U32 "ecx"; U32 "edx"; U32 "ebx"; U32 "esp"; U32 "ebp"; U32 "esi"; U32 "edi";
    U32 "es"; U32 "cs"; U32 "ss"; U32 "ds"; U32 "fs"; U32 "gs"; U32 "ldtr"; U32 "iopb"; Member "i387" 4 (words_of i387_struct) ].

Definition region : list member := [ U8 "reg_type"; U32 "reg_size"; U32 "reg_phy_addr"; U8 "status"; U32 "ref_cnt" ].

Definition pprt : list member :=
  [ U32 "va_text"; U8 "p_text"; U32 "ptr_text"; U32 "va_data"; U8 "p_data"; U32 "ptr_data"; U32 "va_stack"; U8 "p_stack"; U32 "ptr_stack" ].

Definition thread_layout : list member :=
  [ U32 "esp0"; U32 "esp"; U32 "ss0"; U32 "eip"; U32 "fs"; U32 "gs"; U32 "iopl"; Member "i387" 4 (words_of i387_struct) ].

Definition task_layout : list member :=
  [ Member "thread" 4 (words_of thread_layout); U32 "stack"; U32 "state"; U32 "priority"; U32 "counter"; U32 "signal"; U8 "sighandle";
    U32 "sig_restorer"; Member "sig_fn" 4 32; U32 "exit_code"; Member "pprt" 4 (words_of pprt);
    U32 "pid"; U32 "father"; U32 "pgrp"; U32 "session"; U32 "leader"; U16 "uid"; U16 "euid"; U16 "suid"; U16 "gid"; U16 "egid"; U16 "sgid";
    U32 "alarm"; U32 "utime"; U32 "stime"; U32 "cutime"; U32 "cstime"; U32 "start_time"; U16 "used_math";
    U32 "pwd"; U32 "root"; Member "filp" 4 30; U32 "first_free_filp"; U32 "thread_info" ].

Definition info_layout : list member := [ U32 "task"; U32 "flags" ].

Definition regs_layout : list member :=
  [ U32 "ebx"; U32 "ecx"; U32 "edx"; U32 "esi"; U32 "edi"; U32 "ebp"; U32 "eax"; U32 "ds"; U32 "es"; U32 "fs"; U32 "gs"; U32 "orig_eax";
    U32 "eip"; U32 "cs"; U32 "eflags"; U32 "oldesp"; U32 "oldss" ].

Definition prio_array_t : list member := [ U32 "nr_active"; Member "bitmap" 4 1; Member "queue" 4 10 ].

(** The offsets written into syscall.s. *)
Definition pt_offsets : list (string * nat) :=
  [ ("ebx", 0); ("ecx", 4); ("edx", 8); ("esi", 12); ("edi", 16); ("ebp", 20); ("eax", 24); ("ds", 28); ("es", 32); ("fs", 36); ("gs", 40);
    ("orig_eax", 44); ("eip", 48); ("cs", 52); ("eflags", 56); ("oldesp", 60); ("oldss", 64) ]%nat.
Definition SIGHANDLE_OFF : nat := 20.
Definition RESTORER_OFF : nat := 24.
Definition SIG_FN_OFF : nat := 28.

Definition offset_in (ms : list member) (n : string) : option nat := f_off <$> field_of ms n 0.

(** The registers are where the assembly looks for them, and a frame has the
    size the C code subtracts. *)
Lemma pt_offsets_match : Forall (fun p => offset_in regs_layout p.1 = Some p.2) pt_offsets /\ Z.of_nat (sizeof regs_layout) = sizeof_pt_regs.
Proof. split; [repeat constructor|reflexivity]. Qed.

(** The signal members are not: [thread] has come before them, and the
    assembly's offsets fall into it. *)
Lemma signal_offsets_stale :
  offset_in task_layout "sighandle" = Some 156%nat /\ offset_in task_layout "sig_restorer" = Some 160%nat /\ offset_in task_layout "sig_fn" = Some 164%nat /\
  offset_in thread_layout "gs" = Some SIGHANDLE_OFF /\ offset_in thread_layout "iopl" = Some RESTORER_OFF /\ offset_in thread_layout "i387" = Some SIG_FN_OFF.
Proof. repeat split; reflexivity. Qed.

(** ** The table *)

Inductive syscall := sys_null | SysFork.

#[export] Instance syscall_eq_dec : EqDecision syscall.
Proof. solve_decision. Defined.

(** Rows 0 to 9, 10 to 119 and 120 to 319. *)
Definition sys_call_table : list syscall :=
  [sys_null; sys_null; SysFork; sys_null; sys_null; sys_null; sys_null; sys_null; sys_null; sys_null] ++ replicate 110 sys_null ++ replicate 200 sys_null.

Lemma table_entry nr : 0 <= nr < 320 -> sys_call_table !! Z.to_nat nr = Some (if nr =? 2 then SysFork else sys_null).
Proof.
  intros Hn. destruct (Z.eqb_spec nr 2) as [->|Hne]; [done|]. unfold sys_call_table. destruct (decide (nr < 10)).
  - assert (nr = 0 \/ nr = 1 \/ nr = 3 \/ nr = 4 \/ nr = 5 \/ nr = 6 \/ nr = 7 \/ nr = 8 \/ nr = 9) as Hc by lia.
    repeat (destruct Hc as [->|Hc]; [done|]). by subst nr.
  - rewrite <- replicate_add. rewrite lookup_app_r by (simpl; lia). apply lookup_replicate_2. simpl. lia.
Qed.

(** ** The machine

    The registers of a process, the words of its kernel stack from the top on,
    and the address of the top word. *)

Inductive reg := EAX | EBX | ECX | EDX | ESI | EDI | EBP | DS | ES | FS | GS.

#[export] Instance reg_eq_dec : EqDecision reg.
Proof. solve_decision. Defined.

Record cpu := mk_cpu { gpr : reg -> Z; stk : list Z; sp : Z }.

Definition set_reg (r : reg) (v : Z) (g : reg -> Z) : reg -> Z := fun x => if decide (x = r) then v else g x.
Definition set_gpr (r : reg) (v : Z) (c : cpu) : cpu := match c with mk_cpu g t a => mk_cpu (set_reg r v g) t a end.

Inductive instr := Pushl (r : reg) | Popl (r : reg) | MovlI (v : Z) (r : reg) | Movl (src dst : reg) | Addl4Esp.

(** A segment register takes the low half of a word. *)
Definition is_segment (r : reg) : bool := match r with DS | ES | FS | GS => true | _ => false end.
Definition loaded (r : reg) (v : Z) : Z := if is_segment r then u16 v else v.

Definition step (i : instr) (c : cpu) : option cpu :=
  match c with
  | mk_cpu g t a =>
      match i with
      | Pushl r => Some (mk_cpu g (g r :: t) (a - 4))
      | Popl r => match t with [] => None | w :: t => Some (mk_cpu (set_reg r (loaded r w) g) t (a + 4)) end
      | MovlI v r => Some (mk_cpu (set_reg r (loaded r v) g) t a)
      | Movl src dst => Some (mk_cpu (set_reg dst (loaded dst (g src)) g) t a)
      | Addl4Esp => match t with [] => None | _ :: t => Some (mk_cpu g t (a + 4)) end
      end
  end.

Fixpoint exec (l : list instr) (c : cpu) : option cpu :=
  match l with [] => Some c | i :: l => c ← step i c; exec l c end.

Definition SAVE_ALL : list instr :=
  [Pushl GS; Pushl FS; Pushl ES; Pushl DS; Pushl EAX; Pushl EBP; Pushl EDI; Pushl ESI; Pushl EDX; Pushl ECX; Pushl EBX;
   MovlI 16 EDX; Movl EDX DS; Movl EDX ES].

Definition RESTORE_ALL : list instr :=
  [Popl EBX; Popl ECX; Popl EDX; Popl ESI; Popl EDI; Popl EBP; Popl EAX; Popl DS; Popl ES; Popl FS; Popl GS; Addl4Esp].

Definition ret_from_fork_code : list instr :=
  [Popl EBX; Popl ECX; Popl EDX; Popl ESI; Popl EDI; Popl EBP; Popl EAX; Popl DS; Popl ES; Popl FS; Popl GS; Addl4Esp].

(** What a process in user mode runs with. *)
Record context := mk_context { u_regs : reg -> Z; u_eip : Z; u_cs : Z; u_eflags : Z; u_esp : Z; u_ss : Z }.

(** The interrupt from user mode, with [top] the top of the kernel stack. *)
Definition int80 (top : Z) (u : context) : cpu := mk_cpu (u_regs u) [u_eip u; u_cs u; u_eflags u; u_esp u; u_ss u] (top - 20).

(** [iret] to user mode takes the stack pointer too; to kernel mode it does
    not, and the process goes on with the stack it is on. *)
Definition iret (c : cpu) : option context :=
  match stk c with
  | ip :: cs :: fl :: rest =>
      if Z.land cs 3 =? 0 then Some (mk_context (gpr c) ip cs fl (sp c + 12) 16)
      else match rest with e :: ss :: _ => Some (mk_context (gpr c) ip cs fl e ss) | _ => None end
  | _ => None
  end.

(** The word at an offset from the top of the stack. *)
Definition word_at (off : nat) (c : cpu) : option Z := stk c !! (off `div` 4)%nat.
Definition set_word_at (off : nat) (v : Z) (c : cpu) : option cpu :=
  if decide (off `div` 4 < length (stk c))%nat then Some (mk_cpu (gpr c) (<[(off `div` 4)%nat := v]> (stk c)) (sp c)) else None.

Definition PT (n : string) : nat := default 0%nat (snd <$> List.find (fun p => bool_decide (p.1 = n)) pt_offsets).

(** The frame a C function sees through a [struct pt_regs] pointer to the top
    of the stack. *)
Definition frame_of (c : cpu) : option pt_regs :=
  let m n := o ← offset_in regs_layout n; word_at o c in
  ebx ← m "ebx"; ecx ← m "ecx"; edx ← m "edx"; esi ← m "esi"; edi ← m "edi"; ebp ← m "ebp"; eax ← m "eax";
  ds ← m "ds"; es ← m "es"; fs ← m "fs"; gs ← m "gs"; orig_eax ← m "orig_eax";
  eip ← m "eip"; cs ← m "cs"; eflags ← m "eflags"; oldesp ← m "oldesp"; oldss ← m "oldss";
  Some (mk_regs ebx ecx edx esi edi ebp eax ds es fs gs orig_eax eip cs eflags oldesp oldss).

(** The words of a frame in memory. *)
Definition frame_words (r : pt_regs) : list Z :=
  [ebx r; ecx r; edx r; esi r; edi r; ebp r; eax r; r_ds r; r_es r; r_fs r; r_gs r; orig_eax r; r_eip r; r_cs r; eflags r; oldesp r; oldss r].

(** A new process, switched to for the first time: its stack pointer is the
    address [a] of the frame that fork has built, and it starts in
    [ret_from_fork] with registers [junk]. *)
Definition resume (junk : reg -> Z) (a : Z) (frame : pt_regs) : option context :=
  c ← exec ret_from_fork_code (mk_cpu junk (frame_words frame) a); iret c.

Definition GET_THREAD_INFO (esp : Z) : Z := Z.land esp 4294959104.

Section Syscall.
Context {M : Type} `{!KernelMem M} (save_context : thread_struct -> thread_struct) (handle_sig : sched M -> option (sched M)).
Context (stale : Z -> thread_info) (ret_from_fork : Z).
(** What a C function leaves in the registers it may change. *)
Context (scratch : reg -> Z).
Implicit Types s : sched M.

Definition call (f : syscall) (regs : pt_regs) s : option (Z * sched M) :=
  match f with
  | sys_null => Some (-1, s)
  | SysFork => sys_fork stale ret_from_fork regs s
  end.

Definition flags_at s (base : Z) : Z := ti_flags (default (stale base) (tinfos s !! base)).

(** The assembler takes the semicolon before [jne] as the end of a statement:
    the branch is taken, back to here after [psig], until the low half of the
    flags is 0.  [fuel] bounds the rounds. *)
Fixpoint syscall_exit (fuel : nat) (base : Z) s : option (sched M) :=
  if u16 (flags_at s base) =? 0 then Some s
  else match fuel with
       | O => None
       | S n => s ← psig save_context handle_sig s; syscall_exit n base s
       end.

(** The registers after a C function has returned [v]. *)
Definition returned (v : Z) (c : cpu) : cpu := set_gpr EAX v (set_gpr ECX (scratch ECX) (set_gpr EDX (scratch EDX) c)).

(** The number in [orig_eax] is not compared with the size of the table. *)
Definition system_call (fuel : nat) (c : cpu) s : option (context * sched M) :=
  c ← exec (Pushl EAX :: SAVE_ALL) c;
  let c := set_gpr EBP (GET_THREAD_INFO (sp c)) c in
  nr ← word_at (PT "orig_eax") c;
  frame ← frame_of c;
  f ← sys_call_table !! Z.to_nat nr;
  '(r, s) ← call f frame s;
  let c := returned (u32 r) c in
  c ← set_word_at (PT "eax") (gpr c EAX) c;
  s ← syscall_exit fuel (gpr c EBP) s;
  let c := set_gpr ECX (flags_at s (gpr c EBP)) c in
  c ← exec RESTORE_ALL c;
  u ← iret c;
  Some (u, s).

(** ** What the path keeps *)

(** The process as it was but for the value in [eax]. *)
Definition as_before (u u' : context) (v : Z) : Prop :=
  u_regs u' EAX = v /\ (forall r, r ≠ EAX -> u_regs u' r = u_regs u r) /\
  u_eip u' = u_eip u /\ u_cs u' = u_cs u /\ u_eflags u' = u_eflags u /\ u_esp u' = u_esp u /\ u_ss u' = u_ss u.

(** A process in user mode: segment registers have 16 bits. *)
Definition user_mode (u : context) : Prop :=
  (forall r, is_segment r = true -> 0 <= u_regs u r < 2 ^ 16) /\ Z.land (u_cs u) 3 ≠ 0.

(** The frame of a system call. *)
Definition call_frame (u : context) : pt_regs :=
  let r := u_regs u in
  mk_regs (r EBX) (r ECX) (r EDX) (r ESI) (r EDI) (r EBP) (r EAX) (r DS) (r ES) (r FS) (r GS) (r EAX)
    (u_eip u) (u_cs u) (u_eflags u) (u_esp u) (u_ss u).

Lemma restore_frame g u a v :
  user_mode u -> exists c u', exec RESTORE_ALL (mk_cpu g (frame_words (set_eax v (call_frame u))) a) = Some c /\
    iret c = Some u' /\ as_before u u' v.
Proof.
  intros [Hseg Hcs]. eexists. eexists. split; [reflexivity|]. split.
  - unfold iret. cbn [stk]. rewrite (proj2 (Z.eqb_neq _ _)) by exact Hcs. reflexivity.
  - split; [reflexivity|]. split; [|done]. intros r Hr.
    destruct r; try done; (cbn; unfold loaded; cbn [is_segment]; apply u16_small; by apply Hseg).
Qed.

(** What SAVE_ALL leaves on the stack is the frame as C sees it. *)
Lemma save_frame top u :
  exists g, exec (Pushl EAX :: SAVE_ALL) (int80 top u) = Some (mk_cpu g (frame_words (call_frame u)) (top - 68)).
Proof.
  eexists. replace (top - 68) with (top - 20 - 4 - 4 - 4 - 4 - 4 - 4 - 4 - 4 - 4 - 4 - 4 - 4) by lia. reflexivity.
Qed.

Lemma frame_read g r a : frame_of (mk_cpu g (frame_words r) a) = Some r /\ word_at (PT "orig_eax") (mk_cpu g (frame_words r) a) = Some (orig_eax r).
Proof. by destruct r. Qed.

Lemma frame_eax g r a v : set_word_at (PT "eax") v (mk_cpu g (frame_words r) a) = Some (mk_cpu g (frame_words (set_eax v r)) a).
Proof. reflexivity. Qed.

Lemma exit_now fuel base s : u16 (flags_at s base) = 0 -> syscall_exit fuel base s = Some s.
Proof. intros E. destruct fuel; cbn; by rewrite E. Qed.

Lemma current_live s cur : sched_inv s -> current s = Some cur -> task_live (mem s) cur.
Proof.
  intros Hs Ec. destruct (inv_cur _ Hs) as (a & t & Ea & _ & Hsl). simplify_eq.
  by destruct (inv_slot _ Hs _ _ Hsl) as (? & _ & _ & _ & _ & ?).
Qed.

(** Fork leaves the flags of its caller alone, and the child inherits them. *)
Lemma dup_keeps_flags s cur ct r s' :
  tasks s !! cur = Some ct -> task_live (mem s) cur ->
  dup_task_struct stale cur s = Some (r, s') -> flags_at s' (stack ct) = flags_at s (stack ct).
Proof.
  intros Et Hl E. unfold dup_task_struct, alloc_task_struct in E.
  destruct (zalloc_task_spec (mem s)) as (q & m1 & Eq & _ & Hq). rewrite Eq in E. cbn [mbind option_bind] in E.
  destruct q as [a|]; cbn [mbind option_bind] in E; [|by simplify_eq]. assert (a ≠ cur) as Hne by (intros ->; destruct Hq as (_ & Hq & _); done).
  unfold alloc_thread_info, alloc_kernel_stack in E. cbn [mem set_tasks set_mem] in E.
  destruct (alloc_stack_spec m1) as (f & m2 & Ef & _). rewrite Ef in E.
  cbn [mbind option_bind] in E. destruct f as [f|]; cbn [mbind option_bind] in E.
  - unfold upd_task in E. cbn [tasks set_mem set_tasks] in E. rewrite (lookup_insert_ne _ a cur), Et in E by done.
    cbn [mbind option_bind] in E. rewrite lookup_insert_eq in E. cbn [mbind option_bind tasks set_mem set_tasks] in E.
    rewrite lookup_insert_eq in E. cbn [mbind option_bind] in E. unfold setup_thread_stack in E.
    cbn [tasks set_mem set_tasks] in E. rewrite !insert_insert_eq, lookup_insert_eq, lookup_insert_ne, Et in E by done.
    cbn [mbind option_bind] in E. injection E as <- <-. unfold flags_at. cbn [tinfos set_tinfos set_mem set_tasks].
    rewrite lookup_insert. by destruct (decide _).
  - apply bind_Some in E as (s3 & E & E'). unfold free_task_struct in E. apply bind_Some in E as (m3 & _ & E). by simplify_eq.
Qed.

Lemma fork_keeps_flags fl sp regs sz s cur ct r s' :
  current s = Some cur -> tasks s !! cur = Some ct -> task_live (mem s) cur ->
  do_fork stale ret_from_fork fl sp regs sz s = Some (r, s') -> flags_at s' (stack ct) = flags_at s (stack ct).
Proof.
  intros Ec Et Hl E. unfold do_fork, copy_process in E. apply bind_Some in E as (nr & _ & E).
  destruct (nr <? 0); [by simplify_eq|]. rewrite Ec in E. apply bind_Some in E as ([new s1] & E1 & E).
  cbn [mbind option_bind] in E1. apply bind_Some in E1 as ([n2 s2] & E2 & E1).
  rewrite <- (dup_keeps_flags _ _ _ _ _ Et Hl E2). clear E2. destruct n2 as [n2|]; [|by simplify_eq].
  unfold copy_thread, upd_task in E1. cbn [tasks set_frames] in E1. destruct (tasks s2 !! n2) as [t2|]; [|done].
  cbn [mbind option_bind Z.ltb Z.compare] in E1. injection E1 as <- <-. unfold upd_task in E. by simplify_option_eq.
Qed.

(** The path around the call of entry [f], which returns [r]. *)
Lemma system_call_path fuel top u s f r s' ct :
  user_mode u -> GET_THREAD_INFO (top - 68) = stack ct -> sys_call_table !! Z.to_nat (u_regs u EAX) = Some f ->
  call f (call_frame u) s = Some (r, s') -> u16 (flags_at s' (stack ct)) = 0 ->
  exists u', system_call fuel (int80 top u) s = Some (u', s') /\ as_before u u' (u32 r).
Proof.
  intros Hu Hbase Hf Hcall Hfl. unfold system_call. destruct (save_frame top u) as (g & ->). cbn [mbind option_bind set_gpr sp].
  rewrite Hbase. destruct (frame_read (set_reg EBP (stack ct) g) (call_frame u) (top - 68)) as [-> ->]. cbn [mbind option_bind].
  change (orig_eax (call_frame u)) with (u_regs u EAX). rewrite Hf. cbn [mbind option_bind]. rewrite Hcall.
  cbn [mbind option_bind returned set_gpr]. rewrite frame_eax. cbn [mbind option_bind gpr].
  change (set_reg EAX _ _ EAX) with (u32 r). change (set_reg EAX _ _ EBP) with (stack ct). rewrite exit_now by done. cbn [mbind option_bind set_gpr].
  match goal with |- context [exec RESTORE_ALL (mk_cpu ?g _ ?a)] => destruct (restore_frame g u a (u32 r) Hu) as (c2 & u' & -> & E2 & Hb) end.
  cbn [mbind option_bind]. rewrite E2. by exists u'.
Qed.

End Syscall.

(** Fork from a process in user mode, on the stack of [demo]'s first task. *)
Definition demo_context : context :=
  mk_context (fun r => match r with EAX => 2 | EBX => 11 | ECX => 12 | EDX => 13 | ESI => 14 | EDI => 15 | EBP => 16 | _ => 35 end) 4096 27 514 65536 35.

