(* ===== verification/Balloc.v ===== *)
(** * Block and inode allocation (fs/ext2/ext2_balloc.c)

    The state is what fs/ext2/fs.c keeps in global variables: the superblock
    and the table of group descriptors as byte images, the number of groups,
    and the disk, any [BlockDev].  The disk calls' results are ignored by the
    code; a read that fails leaves its buffer undefined, hence [None]. *)

From S2P Require Export Struct Disk.

#[local] Ltac Zify.zify_post_hook ::= Z.to_euclidean_division_equations.

Definition EXT2_FREE_INO_START : Z := 11.
Definition BGDT_BLK_NO : Z := 2.
Definition BITMAP_BYTES : Z := 1024.

(** ** Bitmaps *)

Definition set_bit (bitmap : list Z) (i : Z) : option (list Z) :=
  let byte := u16 (i `div` 8) in
  let bit := u8 (i `mod` 8) in
  b ← zget bitmap byte;
  zset bitmap byte (u8 (Z.lor b (Z.shiftl 1 bit))).

Definition unset_bit (bitmap : list Z) (i : Z) : option (list Z) :=
  let byte := u16 (i `div` 8) in
  let bit := u8 (i `mod` 8) in
  b ← zget bitmap byte;
  zset bitmap byte (u8 (Z.lxor b (Z.shiftl 1 bit))).

(** [for (k = 0; k < 8; k++)]: [match] stays undefined when no bit is clear. *)
Fixpoint first_zero (n : nat) (bmj k : Z) : option Z :=
  match n with
  | O => None
  | S n => if Z.land (Z.shiftr bmj k) 1 =? 0 then Some k else first_zero n bmj (k + 1)
  end.

(** [for (j = start_byte; j < S_BLOCK_SIZE; j++)]; [n] bytes are left. *)
Fixpoint bm_scan (n : nat) (bitmap : list Z) (j allowed_start : Z) : option Z :=
  match n with
  | O => Some 0
  | S n =>
      bmj ← zget bitmap j;
      if bmj =? 255 then bm_scan n bitmap (j + 1) allowed_start
      else
        m ← first_zero 8 bmj 0;
        let first_free_entry := u16 (j * 8 + m) in
        if first_free_entry <? allowed_start then bm_scan n bitmap (j + 1) allowed_start
        else Some first_free_entry
  end.

Definition first_free_bm (bitmap : list Z) (allowed_start : Z) : option Z :=
  let start_byte := u8 (allowed_start `div` 8) in
  bm_scan (Z.to_nat (BITMAP_BYTES - start_byte)) bitmap start_byte allowed_start.

(** ** The file system's globals *)

Record ext2 {B : Type} := mk_ext2 { super : list Z; bgdt : list Z; n_block_groups : Z; dev : B }.
Arguments ext2 : clear implicits.

Definition GROUPS : Z := 1024.

Section Balloc.
Context {B : Type} `{!BlockDev B}.
Implicit Types s : ext2 B.

Definition set_super (x : list Z) s : ext2 B := mk_ext2 _ x (bgdt s) (n_block_groups s) (dev s).
Definition set_dev (d : B) s : ext2 B := mk_ext2 _ (super s) (bgdt s) (n_block_groups s) d.

(** [bgdt[i]], an array of 1024 descriptors. *)
Definition group_desc s (i : Z) : option (list Z) :=
  if (0 <=? i) && (i <? GROUPS) then Some (slice (Z.to_nat i * 32) 32 (bgdt s)) else None.

Definition first_free_block (d : list Z) s : option Z :=
  bitmap ← bd_read (get bg_block_bitmap d) (dev s);
  first_free_bm bitmap 0.

Definition first_free_inode (d : list Z) s : option Z :=
  bitmap ← bd_read (get bg_inode_bitmap d) (dev s);
  first_free_bm bitmap EXT2_FREE_INO_START.

(** The loop both searches share: the first group whose counter is not zero.
    The inner [None] is the error return. *)
Fixpoint group_search (count : field) (find : list Z -> ext2 B -> option Z) (n : nat) (i : Z) s : option (option Z) :=
  match n with
  | O => Some None
  | S n =>
      d ← group_desc s i;
      if get count d =? 0 then group_search count find n (i + 1) s
      else r ← find d s; Some (Some r)
  end.

Definition first_free_block_num s : option (option Z) :=
  group_search bg_free_blocks_count first_free_block (Z.to_nat (n_block_groups s)) 0 s.

Definition first_free_inode_num s : option (option Z) :=
  group_search bg_free_inodes_count first_free_inode (Z.to_nat (n_block_groups s)) 0 s.

(** ** Marking *)

(** Unsigned division; by zero it faults. *)
Definition udiv (a b : Z) : option Z := if b =? 0 then None else Some (a `div` b).
Definition umod (a b : Z) : option Z := if b =? 0 then None else Some (a `mod` b).

Definition mark_bit (blk bit val : Z) s : option (ext2 B) :=
  bitmap ← bd_read blk (dev s);
  bitmap ← (if val =? 1 then set_bit bitmap bit else unset_bit bitmap bit);
  d ← bd_write blk bitmap (dev s);
  Some (set_dev d s).

Definition mark_block (block_num val : Z) s : option (ext2 B) :=
  q ← udiv block_num (get s_blocks_per_group (super s));
  d ← group_desc s (u16 q);
  bit_to_set ← umod block_num (get s_inodes_per_group (super s));
  mark_bit (get bg_block_bitmap d) (u16 bit_to_set) val s.

Definition set_block_bitmap (block_num : Z) s := mark_block block_num 1 s.
Definition unset_block_bitmap (block_num : Z) s := mark_block block_num 0 s.

Definition mark_inode (inode_num val : Z) s : option (ext2 B) :=
  let index := u32 (inode_num - 1) in
  q ← udiv index (get s_inodes_per_group (super s));
  d ← group_desc s (u16 q);
  bit_to_set ← umod index (get s_inodes_per_group (super s));
  mark_bit (get bg_inode_bitmap d) (u16 bit_to_set) val s.

Definition set_inode_bitmap (inode_num : Z) s := mark_inode inode_num 1 s.
Definition unset_inode_bitmap (inode_num : Z) s := mark_inode inode_num 0 s.

(** ** Counters *)

(** Both functions change a local copy of the descriptor, which is dropped. *)
Definition update_inode_bg_desc (free_inode_n : Z) s : option (ext2 B) :=
  q ← udiv (u32 (free_inode_n - 1)) (get s_blocks_per_group (super s));
  d ← group_desc s (u16 q);
  let inode_bg_desc := put bg_free_inodes_count (get bg_free_inodes_count d - 1) d in
  let inode_bg_desc := put bg_used_dirs_count (get bg_used_dirs_count inode_bg_desc + 1) inode_bg_desc in
  Some s.

Definition update_block_bg_desc (free_block_n : Z) s : option (ext2 B) :=
  q ← udiv free_block_n (get s_blocks_per_group (super s));
  d ← group_desc s (u16 q);
  let block_bg_desc := put bg_free_blocks_count (get bg_free_blocks_count d - 1) d in
  Some s.

(** [for (i = 0; i < lim; i++) buf[i] = bgdt_cast[i]] into a block of zeros. *)
Fixpoint copy_bytes (n : nat) (i : Z) (src dst : list Z) : option (list Z) :=
  match n with
  | O => Some dst
  | S n => b ← zget src i; dst ← zset dst i b; copy_bytes n (i + 1) src dst
  end.

(** A write, whose result the code ignores. *)
Definition write_blk (n : Z) (buf : list Z) s : option (ext2 B) :=
  d ← bd_write n buf (dev s); Some (set_dev d s).

Definition disk_sync_bgdt s : option (ext2 B) :=
  let lim := n_block_groups s * 32 in
  buf ← copy_bytes (Z.to_nat lim) 0 (bgdt s) (replicate 1024 0);
  s ← write_blk BGDT_BLK_NO buf s;
  write_blk (u32 (BGDT_BLK_NO + get s_blocks_per_group (super s))) buf s.

Definition disk_sync_super s : option (ext2 B) :=
  s ← write_blk 1 (super s) s;
  write_blk (u32 (1 + get s_blocks_per_group (super s))) (super s) s.

(** [sync] of fs/ext2/fs.c. *)
Definition sync s : option (ext2 B) := s ← disk_sync_super s; disk_sync_bgdt s.

Definition dec_super (f : field) s : ext2 B := set_super (put f (u32 (get f (super s) - 1)) (super s)) s.

(** ** Reservation; the inner [None] is the error return *)

Definition reserve_free_block s : option (option Z * ext2 B) :=
  r ← first_free_block_num s;
  match r with
  | None => Some (None, s)
  | Some block_n =>
      s ← set_block_bitmap block_n s;
      s ← update_block_bg_desc block_n s;
      s ← disk_sync_bgdt s;
      s ← disk_sync_super (dec_super s_free_blocks_count s);
      Some (Some block_n, s)
  end.

Definition reserve_inode (inode_n : Z) s : option (ext2 B) :=
  s ← set_inode_bitmap inode_n s;
  s ← update_inode_bg_desc inode_n s;
  s ← disk_sync_bgdt s;
  disk_sync_super (dec_super s_free_inodes_count s).

Definition reserve_free_inode s : option (option Z * ext2 B) :=
  r ← first_free_inode_num s;
  match r with
  | None => Some (None, s)
  | Some inode_n => s ← reserve_inode inode_n s; Some (Some inode_n, s)
  end.
End Balloc.

(** ** What the bitmap search finds *)

Definition bit (bm : list Z) (i : Z) : bool :=
  match zget bm (i `div` 8) with Some b => Z.testbit b (i `mod` 8) | None => true end.

(** [r] is the first clear bit from [lo] on. *)
Definition least_clear (bm : list Z) (lo r : Z) : Prop :=
  lo <= r < 8192 /\ bit bm r = false /\ forall i, lo <= i < r -> bit bm i = true.

Definition all_set (bm : list Z) (lo hi : Z) : bool := forallb (bit bm) (seqZ lo (hi - lo)).

Definition bitmap_ok (bm : list Z) : Prop := length bm = 1024%nat /\ Forall is_byte bm.

(** Where the search for a bit from [a] on really starts: a clear bit below
    [a] in the byte of [a] makes it skip that byte. *)
Definition search_from (bm : list Z) (a : Z) : Z :=
  if all_set bm (8 * (a `div` 8)) a then a else 8 * (a `div` 8) + 8.

Lemma all_set_true bm lo hi : all_set bm lo hi = true <-> forall i, lo <= i < hi -> bit bm i = true.
Proof.
  unfold all_set. rewrite forallb_forall. setoid_rewrite <- list_elem_of_In. setoid_rewrite elem_of_seqZ.
  split; intros H i Hi; apply H; lia.
Qed.

Lemma low_bit_land b k : 0 <= k -> (Z.land (Z.shiftr b k) 1 =? 0) = negb (Z.testbit b k).
Proof.
  intros Hk. pose proof (land_pow2_testbit (Z.shiftr b k) 0 ltac:(lia)) as H. unfold has_flag in H.
  rewrite Z.shiftr_spec in H by lia. change (2 ^ 0) with 1 in H. rewrite Z.add_0_l in H.
  by rewrite <- H, negb_involutive.
Qed.

Lemma first_zero_spec n b k :
  0 <= k ->
  (exists m, first_zero n b k = Some m /\ k <= m < k + Z.of_nat n /\ Z.testbit b m = false /\
     forall i, k <= i < m -> Z.testbit b i = true) \/
  (first_zero n b k = None /\ forall i, k <= i < k + Z.of_nat n -> Z.testbit b i = true).
Proof.
  revert k. induction n as [|n IH]; intros k Hk; cbn [first_zero]; [right; split; [done|lia]|].
  rewrite low_bit_land by done. destruct (Z.testbit b k) eqn:E; cbn [negb].
  - destruct (IH (k + 1) ltac:(lia)) as [(m & -> & Hm & Hc & Hb)|[-> Hb]]; [left; exists m; split_and!|right; split]; try done; try lia.
    all: intros i Hi; destruct (decide (i = k)) as [->|]; [done|apply Hb; lia].
  - left. exists k. split_and!; [done|lia..|done|lia].
Qed.

Lemma full_byte b : is_byte b -> (forall i, 0 <= i < 8 -> Z.testbit b i = true) -> b = 255.
Proof.
  intros Hb H. change 255 with (Z.ones 8). apply Z.bits_inj'. intros i Hi.
  destruct (Z_lt_le_dec i 8); [rewrite Z.ones_spec_low by lia; apply H; lia|].
  rewrite Z.ones_spec_high by lia. unfold is_byte in Hb. rewrite <- (Z.mod_small b (2 ^ 8)) by lia.
  by apply Z.mod_pow2_bits_high.
Qed.

Lemma byte_first_zero b : is_byte b -> b ≠ 255 ->
  exists m, first_zero 8 b 0 = Some m /\ 0 <= m < 8 /\ Z.testbit b m = false /\
    forall i, 0 <= i < m -> Z.testbit b i = true.
Proof.
  intros Hb Hne. destruct (first_zero_spec 8 b 0 ltac:(lia)) as [?|[_ H]]; [done|]. by destruct Hne; apply full_byte.
Qed.

Lemma bit_in_byte bm j b m : zget bm j = Some b -> 0 <= m < 8 -> bit bm (8 * j + m) = Z.testbit b m.
Proof.
  intros E Hm. unfold bit. replace ((8 * j + m) `div` 8) with j by lia.
  replace ((8 * j + m) `mod` 8) with m by lia. by rewrite E.
Qed.

Lemma bit_of_byte bm j b i : zget bm j = Some b -> 8 * j <= i < 8 * j + 8 -> bit bm i = Z.testbit b (i - 8 * j).
Proof. intros E Hi. rewrite <- (bit_in_byte _ _ _ _ E) by lia. f_equal. lia. Qed.

Lemma bitmap_byte bm j : bitmap_ok bm -> 0 <= j < 1024 -> exists b, zget bm j = Some b /\ is_byte b.
Proof.
  intros [Hl Hb] Hj. destruct (zget_is_Some bm j ltac:(lia)) as [b E]. exists b. split; [done|].
  unfold zget in E. destruct (j <? 0); [done|]. by eapply Forall_lookup_1.
Qed.

Definition found_from (bm : list Z) (lo : Z) (o : option Z) : Prop :=
  (exists r, o = Some r /\ least_clear bm lo r) \/ (o = Some 0 /\ forall i, lo <= i < 8192 -> bit bm i = true).

Lemma found_extend bm lo lo' o :
  lo <= lo' -> (forall i, lo <= i < lo' -> bit bm i = true) -> found_from bm lo' o -> found_from bm lo o.
Proof.
  intros Hl Hs [(r & -> & Hr & Hc & Hb)|[-> Hb]].
  - left. exists r. split; [done|]. split_and!; [lia..|done|].
    intros i Hi. destruct (Z_lt_le_dec i lo'); [apply Hs|apply Hb]; lia.
  - right. split; [done|]. intros i Hi. destruct (Z_lt_le_dec i lo'); [apply Hs|apply Hb]; lia.
Qed.

Lemma bm_scan_spec n bm j a :
  bitmap_ok bm -> 0 <= j -> Z.of_nat n = 1024 - j -> a <= 8 * j -> found_from bm (8 * j) (bm_scan n bm j a).
Proof.
  intros Hbm. revert j. induction n as [|n IH]; intros j Hj Hn Ha; cbn [bm_scan].
  { right. split; [done|lia]. }
  destruct (bitmap_byte bm j Hbm ltac:(lia)) as (b & E & Hb). rewrite E. cbn [mbind option_bind].
  destruct (Z.eqb_spec b 255) as [->|Hne].
  - apply (found_extend _ _ (8 * (j + 1))); [lia| |apply IH; lia].
    intros i Hi. rewrite (bit_of_byte _ _ _ _ E) by lia. change 255 with (Z.ones 8). apply Z.ones_spec_low. lia.
  - destruct (byte_first_zero b Hb Hne) as (m & -> & Hm & Hc & Hlow). cbn [mbind option_bind].
    rewrite u16_small by lia. destruct (Z.ltb_spec (j * 8 + m) a); [lia|].
    left. exists (j * 8 + m). split; [done|]. split_and!; [lia..| |].
    + rewrite (bit_of_byte _ _ _ _ E) by lia. rewrite <- Hc. f_equal. lia.
    + intros i Hi. rewrite (bit_of_byte _ _ _ _ E) by lia. apply Hlow. lia.
Qed.

Lemma first_free_bm_spec bm a :
  bitmap_ok bm -> 0 <= a < 256 -> found_from bm (search_from bm a) (first_free_bm bm a).
Proof.
  intros Hbm Ha. unfold first_free_bm, BITMAP_BYTES. rewrite u8_small by lia. set (j := a `div` 8).
  assert (0 <= j < 32 /\ 8 * j <= a < 8 * j + 8) as [Hj Haj] by (unfold j; lia).
  destruct (Z.to_nat (1024 - j)) as [|n] eqn:En; [lia|]. cbn [bm_scan].
  destruct (bitmap_byte bm j Hbm ltac:(lia)) as (b & E & Hb). rewrite E. cbn [mbind option_bind].
  pose proof (bm_scan_spec n bm (j + 1) a Hbm ltac:(lia) ltac:(lia) ltac:(lia)) as Hrest.
  unfold search_from. fold j. destruct (all_set bm (8 * j) a) eqn:Hall.
  - rewrite all_set_true in Hall. destruct (Z.eqb_spec b 255) as [->|Hne].
    + apply (found_extend _ _ (8 * (j + 1))); [lia| |done].
      intros i Hi. rewrite (bit_of_byte _ _ _ _ E) by lia. change 255 with (Z.ones 8). apply Z.ones_spec_low. lia.
    + destruct (byte_first_zero b Hb Hne) as (m & -> & Hm & Hc & Hlow). cbn [mbind option_bind].
      rewrite u16_small by lia. rewrite (Z.mul_comm j). destruct (Z.ltb_spec (8 * j + m) a) as [Hlt|Hge].
      * rewrite <- (bit_in_byte _ _ _ _ E), Hall in Hc by lia. done.
      * left. exists (8 * j + m). split; [done|]. split_and!; [lia..| |].
        -- by rewrite (bit_in_byte _ _ _ _ E) by lia.
        -- intros i Hi. rewrite (bit_of_byte _ _ _ _ E) by lia. apply Hlow. lia.
  - replace (8 * j + 8) with (8 * (j + 1)) by lia. destruct (Z.eqb_spec b 255) as [->|Hne]; [done|].
    destruct (byte_first_zero b Hb Hne) as (m & -> & Hm & Hc & Hlow). cbn [mbind option_bind].
    rewrite u16_small by lia. destruct (Z.ltb_spec (j * 8 + m) a) as [Hlt|Hge]; [done|].
    enough (all_set bm (8 * j) a = true) by congruence. apply all_set_true. intros i Hi.
    rewrite (bit_of_byte _ _ _ _ E) by lia. apply Hlow. lia.
Qed.

(** ** Setting and clearing *)

Lemma byte_update bm j v :
  bitmap_ok bm -> 0 <= j < 1024 ->
  exists bm', zset bm j (u8 v) = Some bm' /\ bitmap_ok bm' /\
    forall k, bit bm' k = if k `div` 8 =? j then Z.testbit v (k `mod` 8) else bit bm k.
Proof.
  intros [Hl Hb] Hj. rewrite zset_in_range by lia. eexists. split; [done|]. split.
  { split; [by rewrite length_insert|]. apply Forall_insert; [done|]. apply u8_bound. }
  intros k. unfold bit. pose proof (zset_in_range bm j (u8 v) ltac:(lia)) as E.
  destruct (Z.eqb_spec (k `div` 8) j) as [->|Hne].
  - rewrite (zget_zset_eq _ _ _ _ E). unfold u8. apply Z.mod_pow2_bits_low. lia.
  - by rewrite (zget_zset_ne _ _ _ _ _ (not_eq_sym Hne) E).
Qed.

Lemma set_bit_spec bm i :
  bitmap_ok bm -> 0 <= i < 8192 ->
  exists bm', set_bit bm i = Some bm' /\ bitmap_ok bm' /\ forall k, bit bm' k = (k =? i) || bit bm k.
Proof.
  intros Hbm Hi. unfold set_bit. rewrite u16_small, u8_small by lia.
  destruct (bitmap_byte bm (i `div` 8) Hbm ltac:(lia)) as (b & E & _). rewrite E. cbn [mbind option_bind].
  destruct (byte_update bm (i `div` 8) (Z.lor b (Z.shiftl 1 (i `mod` 8))) Hbm ltac:(lia)) as (bm' & -> & Hok & Hbit).
  exists bm'. split_and!; [done..|]. intros k. rewrite Hbit, Z.lor_spec, Z.shiftl_1_l, Z.pow2_bits_eqb by lia.
  unfold bit. destruct (Z.eqb_spec (k `div` 8) (i `div` 8)) as [Hd|Hd].
  - rewrite Hd, E, orb_comm. f_equal. destruct (Z.eqb_spec k i) as [->|]; [apply Z.eqb_eq|apply Z.eqb_neq]; lia.
  - destruct (Z.eqb_spec k i) as [->|]; [lia|done].
Qed.

(** Clearing is an exclusive or: it sets a clear bit. *)
Lemma unset_bit_spec bm i :
  bitmap_ok bm -> 0 <= i < 8192 ->
  exists bm', unset_bit bm i = Some bm' /\ bitmap_ok bm' /\ forall k, bit bm' k = xorb (k =? i) (bit bm k).
Proof.
  intros Hbm Hi. unfold unset_bit. rewrite u16_small, u8_small by lia.
  destruct (bitmap_byte bm (i `div` 8) Hbm ltac:(lia)) as (b & E & _). rewrite E. cbn [mbind option_bind].
  destruct (byte_update bm (i `div` 8) (Z.lxor b (Z.shiftl 1 (i `mod` 8))) Hbm ltac:(lia)) as (bm' & -> & Hok & Hbit).
  exists bm'. split_and!; [done..|]. intros k. rewrite Hbit, Z.lxor_spec, Z.shiftl_1_l, Z.pow2_bits_eqb by lia.
  unfold bit. destruct (Z.eqb_spec (k `div` 8) (i `div` 8)) as [Hd|Hd].
  - rewrite Hd, E, xorb_comm. f_equal. destruct (Z.eqb_spec k i) as [->|]; [apply Z.eqb_eq|apply Z.eqb_neq]; lia.
  - destruct (Z.eqb_spec k i) as [->|]; [lia|]. by rewrite xorb_false_l.
Qed.

(** ** Reserving *)

Section Reserve.
Context {B : Type} `{!BlockDev B}.
Implicit Types s : ext2 B.

Notation bpg s := (get s_blocks_per_group (super s)).
Notation ipg s := (get s_inodes_per_group (super s)).

(** The superblock, the descriptor table and their backups. *)
Definition meta s : list Z := [1; 2; 1 + bpg s; 2 + bpg s].

Record balloc_ok s : Prop := {
  bo_super : length (super s) = 1024%nat;
  bo_bgdt : length (bgdt s) = Z.to_nat 32768;
  bo_groups : 0 < n_block_groups s <= 32;
  bo_bpg : 2 < bpg s < 2 ^ 32 - 2;
  bo_ipg : 0 < ipg s;
  bo_meta : Forall bd_ok (meta s)
}.

(** What the descriptor block holds after a sync. *)
Definition bgdt_block s : list Z :=
  let lim := Z.to_nat (n_block_groups s * 32) in take lim (bgdt s) ++ replicate (1024 - lim) 0.

Lemma copy_bytes_spec n src dst k :
  (k + n <= length src)%nat -> (k + n <= length dst)%nat ->
  copy_bytes n (Z.of_nat k) src dst = Some (take k dst ++ slice k n src ++ drop (k + n) dst).
Proof.
  revert k dst. induction n as [|n IH]; intros k dst Hs Hd; cbn [copy_bytes].
  { rewrite Nat.add_0_r. unfold slice. by rewrite take_0, app_nil_l, take_drop. }
  destruct (zget_is_Some src (Z.of_nat k) ltac:(lia)) as [b E]. rewrite E. cbn [mbind option_bind].
  rewrite zset_in_range by lia. cbn [mbind option_bind]. rewrite Nat2Z.id.
  replace (Z.of_nat k + 1) with (Z.of_nat (S k)) by lia. rewrite IH by (rewrite ?length_insert; lia). f_equal.
  unfold zget in E. destruct (_ <? 0); [done|]. rewrite Nat2Z.id in E. unfold slice.
  rewrite (drop_S src b k E). cbn [take]. rewrite (take_S_r _ _ b) by (apply list_lookup_insert_eq; lia).
  rewrite take_insert_ge by lia. rewrite drop_insert_lt by lia.
  rewrite <- app_assoc. cbn. by replace (S (k + n)) with (k + S n)%nat by lia.
Qed.

Lemma length_bgdt_block s : balloc_ok s -> length (bgdt_block s) = 1024%nat.
Proof. intros []. unfold bgdt_block. rewrite length_app, length_take, length_replicate. lia. Qed.

Lemma bgdt_copy s : balloc_ok s ->
  copy_bytes (Z.to_nat (n_block_groups s * 32)) 0 (bgdt s) (replicate 1024 0) = Some (bgdt_block s).
Proof.
  intros []. change 0 with (Z.of_nat 0) at 1. rewrite copy_bytes_spec by (rewrite ?length_replicate; lia).
  unfold bgdt_block, slice. by rewrite take_0, drop_0, drop_replicate.
Qed.

(** A write of a valid block. *)
Lemma write_blk_spec n buf s :
  bd_ok n -> length buf = 1024%nat ->
  exists d, write_blk n buf s = Some (set_dev d s) /\ bd_read n d = Some buf /\
    forall m, bd_ok m -> m ≠ n -> bd_read m d = bd_read m (dev s).
Proof. intros Hn Hl. unfold write_blk. destruct (bd_write_ok n buf (dev s) Hn Hl) as (d & -> & Hr & Hf). by exists d. Qed.

Lemma mark_bit_spec blk b s bm :
  bd_ok blk -> bd_read blk (dev s) = Some bm -> bitmap_ok bm -> 0 <= b < 8192 ->
  exists d bm', mark_bit blk b 1 s = Some (set_dev d s) /\ bd_read blk d = Some bm' /\ bitmap_ok bm' /\
    (forall k, bit bm' k = (k =? b) || bit bm k) /\
    forall m, bd_ok m -> m ≠ blk -> bd_read m d = bd_read m (dev s).
Proof.
  intros Hblk Hr Hbm Hb. unfold mark_bit. rewrite Hr. change (1 =? 1) with true. cbn [mbind option_bind].
  destruct (set_bit_spec bm b Hbm Hb) as (bm' & -> & Hok & Hbit). cbn [mbind option_bind].
  destruct (bd_write_ok blk bm' (dev s) Hblk (proj1 Hok)) as (d & -> & Hd & Hf). by exists d, bm'.
Qed.

Lemma super_inside f s : balloc_ok s -> (f_off f + f_len f <= 1024)%nat -> inside f (length (super s)).
Proof. intros [-> ? ? ? ? ?]. done. Qed.

Lemma dec_super_other f g s :
  balloc_ok s -> (f_off f + f_len f <= 1024)%nat -> apart f g -> get g (super (dec_super f s)) = get g (super s).
Proof. intros Hs Hf Ha. by apply get_put_ne; [apply super_inside|]. Qed.

(** The free counters do not overlap the fields the allocator reads. *)
Definition counter (f : field) : Prop := f = s_free_blocks_count \/ f = s_free_inodes_count.

Lemma counter_spec f s : counter f -> balloc_ok s ->
  bpg (dec_super f s) = bpg s /\ ipg (dec_super f s) = ipg s /\
  get f (super (dec_super f s)) = u32 (get f (super s) - 1) /\ length (super (dec_super f s)) = 1024%nat.
Proof.
  intros Hf Hs. assert (f_off f + f_len f <= 32 /\ f_len f = 4)%nat as [Ho Hl] by (destruct Hf as [-> | ->]; simpl; lia).
  split_and!.
  - apply dec_super_other; [done|lia|]. left. simpl. lia.
  - apply dec_super_other; [done|lia|]. left. simpl. lia.
  - unfold dec_super, set_super; cbn [super]. rewrite get_put_eq by (apply super_inside; [done|lia]).
    rewrite Hl. change (2 ^ (8 * Z.of_nat 4)) with (2 ^ 32). unfold u32. by rewrite Z.mod_mod.
  - unfold dec_super, set_super; cbn [super]. rewrite put_length by (apply super_inside; [done|lia]). apply Hs.
Qed.

Lemma meta_ok s m : balloc_ok s -> m ∈ meta s -> bd_ok m.
Proof. intros Hs. apply Forall_forall, Hs. Qed.

Lemma sync_bgdt_spec s : balloc_ok s ->
  exists d, disk_sync_bgdt s = Some (set_dev d s) /\ bd_read 2 d = Some (bgdt_block s) /\
    forall m, bd_ok m -> m ≠ 2 -> m ≠ 2 + bpg s -> bd_read m d = bd_read m (dev s).
Proof.
  intros Hs. unfold disk_sync_bgdt, BGDT_BLK_NO. rewrite bgdt_copy by done. cbn [mbind option_bind].
  pose proof (length_bgdt_block s Hs) as Hl. pose proof (bo_bpg s Hs) as Hb.
  destruct (write_blk_spec 2 (bgdt_block s) s) as (d1 & -> & R1 & F1);
    [apply (meta_ok s); [done|set_solver]|done|]. cbn [mbind option_bind].
  change (super (set_dev d1 s)) with (super s). rewrite u32_small by lia.
  destruct (write_blk_spec (2 + bpg s) (bgdt_block s) (set_dev d1 s)) as (d2 & -> & R2 & F2);
    [apply (meta_ok s); [done|set_solver]|done|].
  exists d2. split_and!; [done| |].
  - rewrite F2; [exact R1|apply (meta_ok s); [done|set_solver]|lia].
  - intros m Hm H1 H2. rewrite F2 by done. by apply F1.
Qed.

Lemma sync_super_spec s : balloc_ok s ->
  exists d, disk_sync_super s = Some (set_dev d s) /\ bd_read 1 d = Some (super s) /\
    forall m, bd_ok m -> m ≠ 1 -> m ≠ 1 + bpg s -> bd_read m d = bd_read m (dev s).
Proof.
  intros Hs. unfold disk_sync_super. pose proof (bo_super s Hs) as Hl. pose proof (bo_bpg s Hs) as Hb.
  destruct (write_blk_spec 1 (super s) s) as (d1 & -> & R1 & F1);
    [apply (meta_ok s); [done|set_solver]|done|]. cbn [mbind option_bind].
  change (super (set_dev d1 s)) with (super s). rewrite u32_small by lia.
  destruct (write_blk_spec (1 + bpg s) (super s) (set_dev d1 s)) as (d2 & -> & R2 & F2);
    [apply (meta_ok s); [done|set_solver]|done|].
  exists d2. split_and!; [done| |].
  - rewrite F2; [exact R1|apply (meta_ok s); [done|set_solver]|lia].
  - intros m Hm H1 H2. rewrite F2 by done. by apply F1.
Qed.

(** What a reservation leaves: bit [b] of the bitmap [bm] in block [blk] set,
    counter [f] one down, and the superblock and the descriptors on disk. *)
Record reserved s s' (f : field) (blk b : Z) (bm : list Z) : Prop := {
  rv_ok : balloc_ok s';
  rv_bgdt : bgdt s' = bgdt s /\ n_block_groups s' = n_block_groups s;
  rv_geom : bpg s' = bpg s /\ ipg s' = ipg s;
  rv_count : get f (super s') = u32 (get f (super s) - 1);
  rv_bits : exists bm', bd_read blk (dev s') = Some bm' /\ bitmap_ok bm' /\
    forall k, bit bm' k = (k =? b) || bit bm k;
  rv_super : bd_read 1 (dev s') = Some (super s');
  rv_desc : bd_read 2 (dev s') = Some (bgdt_block s);
  rv_frame m : bd_ok m -> m ≠ blk -> m ∉ meta s -> bd_read m (dev s') = bd_read m (dev s)
}.

Lemma balloc_ok_dev d s : balloc_ok s -> balloc_ok (set_dev d s).
Proof. by intros []. Qed.

Lemma balloc_ok_dec f s : counter f -> balloc_ok s -> balloc_ok (dec_super f s).
Proof.
  intros Hf Hs. destruct (counter_spec f s Hf Hs) as (Eb & Ei & _ & El). destruct Hs.
  split; unfold meta; rewrite ?Eb, ?Ei; done.
Qed.

Lemma commit_spec f blk b upd s bm :
  balloc_ok s -> counter f -> bd_ok blk -> blk ∉ meta s -> bd_read blk (dev s) = Some bm -> bitmap_ok bm ->
  0 <= b < 8192 -> (forall d, upd (set_dev d s) = Some (set_dev d s)) ->
  exists s', (s ← mark_bit blk b 1 s; s ← upd s; s ← disk_sync_bgdt s; disk_sync_super (dec_super f s)) = Some s' /\
    reserved s s' f blk b bm.
Proof.
  intros Hs Hf Hblk Hmeta Hr Hbm Hb Hupd.
  destruct (mark_bit_spec blk b s bm Hblk Hr Hbm Hb) as (d1 & bm' & -> & R1 & Hok & Hbit & F1).
  cbn [mbind option_bind]. rewrite Hupd. cbn [mbind option_bind].
  pose proof (balloc_ok_dev d1 s Hs) as Hs1.
  destruct (sync_bgdt_spec _ Hs1) as (d2 & -> & R2 & F2). cbn [mbind option_bind].
  set (s2 := set_dev d2 (set_dev d1 s)) in *. assert (balloc_ok s2) as Hs2 by by apply balloc_ok_dev.
  destruct (sync_super_spec (dec_super f s2)) as (d3 & E3 & R3 & F3); [by apply balloc_ok_dec|].
  destruct (counter_spec f s2 Hf Hs2) as (Eb & Ei & Ec & El). rewrite Eb in F3.
  change (bpg s2) with (bpg s) in *. change (bpg (set_dev d1 s)) with (bpg s) in *.
  change (dev (dec_super f s2)) with d2 in *. change (dev (set_dev d1 s)) with d1 in *.
  pose proof (bo_bpg s Hs) as Hbpg. unfold meta in Hmeta.
  assert (blk ≠ 1 /\ blk ≠ 2 /\ blk ≠ 1 + bpg s /\ blk ≠ 2 + bpg s) as (? & ? & ? & ?) by set_solver.
  exists (set_dev d3 (dec_super f s2)). split; [exact E3|]. split.
  - by apply balloc_ok_dev, balloc_ok_dec.
  - done.
  - split; [exact Eb|exact Ei].
  - exact Ec.
  - exists bm'. split; [|done]. change (dev (set_dev d3 (dec_super f s2))) with d3.
    rewrite F3, F2 by done. exact R1.
  - exact R3.
  - change (dev (set_dev d3 (dec_super f s2))) with d3. rewrite F3; [exact R2| |lia..].
    apply (meta_ok s); [done|set_solver].
  - intros m Hm Hne Hnm. change (dev (set_dev d3 (dec_super f s2))) with d3. unfold meta in Hnm.
    rewrite F3, F2 by (done || set_solver). by apply F1.
Qed.

(** The group a search looks into. *)
Definition first_group (count : field) s (g : Z) (d : list Z) : Prop :=
  0 <= g < n_block_groups s /\ group_desc s g = Some d /\ get count d ≠ 0 /\
  forall j, 0 <= j < g -> exists d', group_desc s j = Some d' /\ get count d' = 0.

Lemma group_search_first count find s g d :
  first_group count s g d -> group_search count find (Z.to_nat (n_block_groups s)) 0 s = r ← find d s; Some (Some r).
Proof.
  intros (Hg & Hd & Hc & Hz).
  assert (forall n i, 0 <= i <= g -> g < i + Z.of_nat n -> group_search count find n i s = r ← find d s; Some (Some r)) as H.
  { induction n as [|n IH]; intros i Hi Hn; cbn [group_search]; [lia|].
    destruct (decide (i = g)) as [->|].
    - rewrite Hd. cbn [mbind option_bind]. by destruct (Z.eqb_spec (get count d) 0).
    - destruct (Hz i ltac:(lia)) as (d' & -> & E). cbn [mbind option_bind]. rewrite E. cbn [Z.eqb]. apply IH; lia. }
  apply H; lia.
Qed.

Lemma first_group_ext count s s' g d :
  bgdt s' = bgdt s -> n_block_groups s' = n_block_groups s -> first_group count s g d -> first_group count s' g d.
Proof. intros Eb En. unfold first_group, group_desc. by rewrite Eb, En. Qed.

Lemma group_desc_at s g : 0 <= g < 1024 -> group_desc s g = Some (slice (Z.to_nat g * 32) 32 (bgdt s)).
Proof. intros Hg. unfold group_desc, GROUPS. destruct (Z.leb_spec 0 g), (Z.ltb_spec g 1024); simpl; done || lia. Qed.

Lemma found_least bm lo o k : found_from bm lo o -> least_clear bm lo k -> o = Some k.
Proof.
  intros [(r & -> & Hr & Hc & Hb)|[-> Hb]] (Hk & Hck & Hbk).
  - f_equal. destruct (Z.lt_trichotomy r k) as [H|[H|H]]; [|done|].
    + rewrite Hbk in Hc by lia. done.
    + rewrite Hb in Hck by lia. done.
  - rewrite Hb in Hck by lia. done.
Qed.

Lemma first_free_at bm a k :
  bitmap_ok bm -> 0 <= a < 256 -> least_clear bm (search_from bm a) k -> first_free_bm bm a = Some k.
Proof. intros Hbm Ha. by apply found_least, first_free_bm_spec. Qed.

Definition group0 s : list Z := slice 0 32 (bgdt s).

Lemma group0_desc s : group_desc s 0 = Some (group0 s).
Proof. by rewrite group_desc_at. Qed.

Lemma udiv_small a b : 0 <= a < b -> udiv a b = Some 0.
Proof. intros H. unfold udiv. destruct (Z.eqb_spec b 0); [lia|]. by rewrite Z.div_small. Qed.

Lemma umod_some a b : 0 < b -> umod a b = Some (a `mod` b).
Proof. intros H. unfold umod. destruct (Z.eqb_spec b 0); [lia|done]. Qed.

Lemma mod_le a b : 0 <= a -> 0 < b -> 0 <= a `mod` b <= a.
Proof. intros Ha Hb. split; [by apply Z.mod_pos_bound|by apply Z.mod_le]. Qed.

Lemma reserve_block_spec s g d bmg k bm0 :
  balloc_ok s -> first_group bg_free_blocks_count s g d ->
  bd_read (get bg_block_bitmap d) (dev s) = Some bmg -> bitmap_ok bmg -> least_clear bmg 0 k -> k < bpg s ->
  let blk0 := get bg_block_bitmap (group0 s) in
  bd_ok blk0 -> blk0 ∉ meta s -> bd_read blk0 (dev s) = Some bm0 -> bitmap_ok bm0 ->
  exists s', reserve_free_block s = Some (Some k, s') /\ reserved s s' s_free_blocks_count blk0 (k `mod` ipg s) bm0.
Proof.
  intros Hs Hg Hrg Hbg Hk Hkb blk0 Hok Hnm Hr0 Hb0. pose proof Hk as ((? & ?) & _). pose proof (bo_ipg s Hs).
  pose proof (mod_le k (ipg s) ltac:(lia) ltac:(lia)).
  unfold reserve_free_block, first_free_block_num. rewrite (group_search_first _ _ _ _ _ Hg).
  unfold first_free_block. rewrite Hrg. cbn [mbind option_bind].
  rewrite (first_free_at bmg 0 k) by done. cbn [mbind option_bind].
  unfold set_block_bitmap, mark_block. rewrite udiv_small by lia. cbn [mbind option_bind].
  change (u16 0) with 0. rewrite group0_desc, umod_some by lia. cbn [mbind option_bind]. rewrite u16_small by lia. fold blk0.
  destruct (commit_spec s_free_blocks_count blk0 (k `mod` ipg s) (update_block_bg_desc k) s bm0) as (s' & E & Hres);
    try done; [by left|lia| |].
  { intros d'. unfold update_block_bg_desc. change (super (set_dev d' s)) with (super s). by rewrite udiv_small by lia. }
  exists s'. split; [|done]. inv_bind. rewrite E0. cbn [mbind option_bind]. rewrite E1. cbn [mbind option_bind].
  rewrite E2. cbn [mbind option_bind]. rewrite E. done.
Qed.

Lemma reserve_inode_spec s g d bmg r bm0 :
  balloc_ok s -> first_group bg_free_inodes_count s g d ->
  bd_read (get bg_inode_bitmap d) (dev s) = Some bmg -> bitmap_ok bmg ->
  least_clear bmg (search_from bmg EXT2_FREE_INO_START) r -> r <= ipg s -> r <= bpg s -> 0 < r ->
  let blk0 := get bg_inode_bitmap (group0 s) in
  bd_ok blk0 -> blk0 ∉ meta s -> bd_read blk0 (dev s) = Some bm0 -> bitmap_ok bm0 ->
  exists s', reserve_free_inode s = Some (Some r, s') /\ reserved s s' s_free_inodes_count blk0 (r - 1) bm0.
Proof.
  intros Hs Hg Hrg Hbg Hr Hri Hrb Hr0 blk0 Hok Hnm Hrd Hb0. pose proof Hr as ((_ & ?) & _).
  unfold reserve_free_inode, first_free_inode_num. rewrite (group_search_first _ _ _ _ _ Hg).
  unfold first_free_inode. rewrite Hrg. cbn [mbind option_bind].
  rewrite (first_free_at bmg EXT2_FREE_INO_START r) by done. cbn [mbind option_bind].
  unfold reserve_inode, set_inode_bitmap, mark_inode. rewrite (u32_small (r - 1)) by lia.
  rewrite udiv_small by lia. cbn [mbind option_bind].
  change (u16 0) with 0. rewrite group0_desc, umod_some, Z.mod_small by lia. cbn [mbind option_bind]. rewrite u16_small by lia. fold blk0.
  destruct (commit_spec s_free_inodes_count blk0 (r - 1) (update_inode_bg_desc r) s bm0) as (s' & E & Hres);
    try done; [by right|lia| |].
  { intros d'. unfold update_inode_bg_desc. change (super (set_dev d' s)) with (super s).
    rewrite (u32_small (r - 1)) by lia. by rewrite udiv_small by lia. }
  exists s'. split; [|done]. rewrite E. done.
Qed.

(** What a reservation in group [g] needs of the disk. *)
Record group_ok (bitmap : field) s (d bmg bm0 : list Z) : Prop := {
  gk_blk : bd_ok (get bitmap d) /\ get bitmap d ∉ meta s;
  gk_bm : bd_read (get bitmap d) (dev s) = Some bmg /\ bitmap_ok bmg;
  gk_blk0 : bd_ok (get bitmap (group0 s)) /\ get bitmap (group0 s) ∉ meta s;
  gk_bm0 : bd_read (get bitmap (group0 s)) (dev s) = Some bm0 /\ bitmap_ok bm0
}.

(** The disk after the reservation still satisfies it; the bitmap of the
    searched group changes only if it is group 0's. *)
Lemma group_ok_after bitmap f s s' b d bmg bm0 :
  group_ok bitmap s d bmg bm0 -> reserved s s' f (get bitmap (group0 s)) b bm0 ->
  exists bmg' bm0', group_ok bitmap s' d bmg' bm0' /\
    (get bitmap d ≠ get bitmap (group0 s) -> bmg' = bmg) /\
    (get bitmap d = get bitmap (group0 s) -> forall k, bit bmg' k = (k =? b) || bit bmg k).
Proof.
  intros [[Ho Hm] [Hr Hb] [Ho0 Hm0] [Hr0 Hb0]] Hrv.
  destruct (rv_bits _ _ _ _ _ _ Hrv) as (bm' & Hr' & Hb' & Hbit).
  assert (group0 s' = group0 s) as E0 by (unfold group0; by rewrite (proj1 (rv_bgdt _ _ _ _ _ _ Hrv))).
  assert (meta s' = meta s) as Em by (unfold meta; by rewrite (proj1 (rv_geom _ _ _ _ _ _ Hrv))).
  destruct (decide (get bitmap d = get bitmap (group0 s))) as [E|E].
  - exists bm', bm'. split; [split; rewrite ?E0, ?Em, ?E; done|]. split; [done|].
    intros _ k. rewrite Hbit. rewrite E in Hr. congruence.
  - exists bmg, bm'. split; [|done]. split; rewrite ?E0, ?Em; try done. split; [|done].
    by rewrite (rv_frame _ _ _ _ _ _ Hrv).
Qed.

Lemma least_clear_again bm bm' lo b k :
  least_clear bm lo k -> b < k -> (forall i, bit bm' i = (i =? b) || bit bm i) -> least_clear bm' lo k.
Proof.
  intros (Hk & Hc & Hb) Hbk Hbit. split_and!; [lia..| |].
  - rewrite Hbit, Hc. destruct (Z.eqb_spec k b); [lia|done].
  - intros i Hi. rewrite Hbit, Hb by done. apply orb_true_r.
Qed.

Lemma search_from_again bm bm' b r :
  least_clear bm (search_from bm EXT2_FREE_INO_START) r -> b = r - 1 ->
  (forall i, bit bm' i = (i =? b) || bit bm i) ->
  search_from bm' EXT2_FREE_INO_START = search_from bm EXT2_FREE_INO_START.
Proof.
  intros (Hr & _) -> Hbit. unfold search_from in *. change (8 * (EXT2_FREE_INO_START `div` 8)) with 8 in *.
  unfold EXT2_FREE_INO_START in *. destruct (all_set bm 8 11) eqn:E, (all_set bm' 8 11) eqn:E'; try done; exfalso.
  - rewrite all_set_true in E. enough (all_set bm' 8 11 = true) by congruence. apply all_set_true. intros i Hi.
    rewrite Hbit, E by done. apply orb_true_r.
  - rewrite all_set_true in E'. enough (all_set bm 8 11 = true) by congruence. apply all_set_true. intros i Hi.
    specialize (E' i Hi). rewrite Hbit in E'. destruct (Z.eqb_spec i (r - 1)); [lia|done].
Qed.
End Reserve.

Section Claims.
Context {B : Type} `{!BlockDev B}.
Implicit Types s : ext2 B.

(** C24: the bitmap search always ends; it returns the first clear bit from the
    allowed start on, except that a clear bit below the start in the same byte
    makes it begin at the next byte, and 0 when every bit from there on is
    set. *)
Theorem first_free_bm_correct bm a :
  bitmap_ok bm -> 0 <= a < 256 ->
  exists r, first_free_bm bm a = Some r /\
    (least_clear bm (search_from bm a) r \/ r = 0 /\ forall i, search_from bm a <= i < 8192 -> bit bm i = true).
Proof. intros Hbm Ha. destruct (first_free_bm_spec bm a Hbm Ha) as [(r & E & H)|[E H]]; eauto. Qed.

(** C23: when the first block group has free blocks and the first clear bit [k]
    of its bitmap is below the number of inodes per group, reserve_free_block
    returns [k], sets exactly that bit on disk, takes one from the
    superblock's counter, stores the superblock and the descriptor table, and
    changes no other block but those and their backups. *)
Theorem reserve_free_block_correct s bm k :
  balloc_ok s -> get bg_free_blocks_count (group0 s) ≠ 0 ->
  let blk := get bg_block_bitmap (group0 s) in
  bd_ok blk -> blk ∉ meta s -> bd_read blk (dev s) = Some bm -> bitmap_ok bm ->
  least_clear bm 0 k -> k < get s_inodes_per_group (super s) -> k < get s_blocks_per_group (super s) ->
  exists s', reserve_free_block s = Some (Some k, s') /\ reserved s s' s_free_blocks_count blk k bm.
Proof.
  intros Hs Hc blk Hok Hnm Hr Hbm Hk Hki Hkb. pose proof Hk as ((? & ?) & _).
  destruct (reserve_block_spec s 0 (group0 s) bm k bm) as (s' & E & R); try done.
  - split; [pose proof (bo_groups s Hs); lia|]. split_and!; [apply group0_desc|done|lia].
  - rewrite Z.mod_small in R by lia. eauto.
Qed.

(** In every other case - the free blocks are in a later group, or the
    first clear bit is not below the number of inodes per group - the bit that
    is set is not the one that was found, and the next reservation returns the
    same block again. *)
Theorem reserve_free_block_again s g d bmg bm0 k :
  balloc_ok s -> first_group bg_free_blocks_count s g d -> group_ok bg_block_bitmap s d bmg bm0 ->
  least_clear bmg 0 k -> k < get s_blocks_per_group (super s) ->
  get bg_block_bitmap d ≠ get bg_block_bitmap (group0 s) \/ get s_inodes_per_group (super s) <= k ->
  exists s1 s2, reserve_free_block s = Some (Some k, s1) /\ reserve_free_block s1 = Some (Some k, s2).
Proof.
  intros Hs Hg Hok Hk Hkb Hbad. pose proof Hok as [_ [? ?] [? ?] [? ?]].
  destruct (reserve_block_spec s g d bmg k bm0) as (s1 & E1 & R1); try done.
  destruct (group_ok_after _ _ _ _ _ _ _ _ Hok R1) as (bmg' & bm0' & Hok' & Hsame & Hset).
  pose proof Hok' as [_ [? ?] [? ?] [? ?]]. pose proof (rv_geom _ _ _ _ _ _ R1) as [Eb _].
  assert (least_clear bmg' 0 k) as Hk'.
  { destruct (decide (get bg_block_bitmap d = get bg_block_bitmap (group0 s))) as [E|E]; [|by rewrite Hsame].
    eapply least_clear_again; [done| |by apply Hset]. pose proof (bo_ipg s Hs) as Hi.
    destruct Hbad as [?|?]; [done|]. pose proof (Z.mod_pos_bound k _ Hi). lia. }
  destruct (reserve_block_spec s1 g d bmg' k bm0') as (s2 & E2 & _); try done; [apply R1| |by rewrite Eb|eauto].
  by apply (first_group_ext _ s); [apply R1..|].
Qed.

(** Reserve_free_inode returns the index of a clear bit as the inode
    number but marks the bit before it, so the next call returns the same
    inode number again. *)
Theorem reserve_free_inode_repeats s g d bmg bm0 r :
  balloc_ok s -> first_group bg_free_inodes_count s g d -> group_ok bg_inode_bitmap s d bmg bm0 ->
  least_clear bmg (search_from bmg EXT2_FREE_INO_START) r ->
  r <= get s_inodes_per_group (super s) -> r <= get s_blocks_per_group (super s) ->
  exists s1 s2, reserve_free_inode s = Some (Some r, s1) /\ reserve_free_inode s1 = Some (Some r, s2).
Proof.
  intros Hs Hg Hok Hr Hri Hrb. pose proof Hok as [_ [? ?] [? ?] [? ?]].
  assert (0 < r) as Hpos.
  { destruct Hr as (Hr & _). unfold search_from, EXT2_FREE_INO_START in Hr. destruct (all_set _ _ _); lia. }
  destruct (reserve_inode_spec s g d bmg r bm0) as (s1 & E1 & R1); try done.
  destruct (group_ok_after _ _ _ _ _ _ _ _ Hok R1) as (bmg' & bm0' & Hok' & Hsame & Hset).
  pose proof Hok' as [_ [? ?] [? ?] [? ?]]. pose proof (rv_geom _ _ _ _ _ _ R1) as [Eb Ei].
  assert (least_clear bmg' (search_from bmg' EXT2_FREE_INO_START) r) as Hr'.
  { destruct (decide (get bg_inode_bitmap d = get bg_inode_bitmap (group0 s))) as [E|E]; [|by rewrite Hsame].
    rewrite (search_from_again bmg bmg' (r - 1) r) by (done || by apply Hset).
    apply (least_clear_again bmg _ _ (r - 1)); [done|lia|by apply Hset]. }
  destruct (reserve_inode_spec s1 g d bmg' r bm0') as (s2 & E2 & _);
    try done; [apply R1| |by rewrite Ei|by rewrite Eb|eauto].
  by apply (first_group_ext _ s); [apply R1..|].
Qed.
End Claims.

(** ** A small file system *)

Definition mem_volume : volume := mk_volume true 0 0.

#[local] Instance mem_blocks : BlockDev (gmap Z (list Z)) := volume_dev mem_volume eq_refl.

Definition demo_super : list Z :=
  put s_free_blocks_count 500 (put s_inodes_per_group 1024 (put s_blocks_per_group 8192 (replicate 1024 0))).
Definition demo_desc : list Z :=
  put bg_free_blocks_count 500 (put bg_free_inodes_count 900 (put bg_block_bitmap 3 (put bg_inode_bitmap 4 (replicate 32 0)))).

(** One group; [full] bytes of its block bitmap are full, its inode bitmap
    has the first two bits set. *)
Definition demo_fs (full : nat) : option (ext2 (gmap Z (list Z))) :=
  let s := mk_ext2 _ demo_super (demo_desc ++ replicate (Z.to_nat 32736) 0) 1 ∅ in
  s ← write_blk 3 (replicate full 255 ++ replicate (1024 - full) 0) s;
  write_blk 4 (3 :: replicate 1023 0) s.

Definition demo (full : nat) := default (mk_ext2 _ [] [] 0 ∅) (demo_fs full).

Lemma mem_block_ok n : 0 <= n < 100000 -> bd_ok n.
Proof.
  intros Hn. change (block_ok mem_volume n). unfold block_ok. change (SECTORS_PER_BLOCK mem_volume) with 2.
  cbn [mem_volume fs_start_set filesys_start Disk.s_log_block_size]. lia.
Qed.

Lemma demo_balloc_ok full : full = 16%nat \/ full = 128%nat -> balloc_ok (demo full).
Proof.
  intros [-> | ->]; (split; [vm_compute; reflexivity|apply Nat2Z.inj; vm_compute; reflexivity|decided|decided|decided|]).
  all: change (Forall bd_ok [1; 2; 8193; 8194]); forall_cons ltac:(apply mem_block_ok; lia).
Qed.

(** [k] is the first clear bit of a concrete bitmap. *)
Lemma least_clear_by bm lo k :
  lo <= k < 8192 -> bit bm k = false -> all_set bm lo k = true -> least_clear bm lo k.
Proof. intros Hk Hb Ha. split_and!; [lia..|done|]. by apply all_set_true. Qed.

Definition demo_bitmap (full : nat) : list Z := replicate full 255 ++ replicate (1024 - full) 0.

Lemma demo_bitmap_ok full : (full <= 1024)%nat -> bitmap_ok (demo_bitmap full).
Proof.
  intros Hf. split; [unfold demo_bitmap; rewrite length_app, !length_replicate; lia|].
  apply Forall_app; split; apply Forall_replicate; unfold is_byte; lia.
Qed.

Lemma inode_bitmap_ok : bitmap_ok (3 :: replicate 1023 0).
Proof. split; [done|]. constructor; [unfold is_byte; lia|]. apply Forall_replicate. unfold is_byte; lia. Qed.

Lemma first_free_bm_correct_witness : first_free_bm (demo_bitmap 16) 0 = Some 128.
Proof.
  destruct (first_free_bm_correct (demo_bitmap 16) 0) as (r & E & H); [apply demo_bitmap_ok; lia|lia|].
  rewrite E. f_equal. vm_compute in E. congruence.
Defined.

Lemma reserve_free_block_correct_witness :
  exists s', reserve_free_block (demo 16) = Some (Some 128, s') /\
    get s_free_blocks_count (super s') = 499.
Proof.
  destruct (reserve_free_block_correct (demo 16) (demo_bitmap 16) 128) as (s' & E & R).
  - apply demo_balloc_ok. by left.
  - by vm_compute.
  - change (bd_ok 3). by apply mem_block_ok.
  - decided.
  - vm_compute. reflexivity.
  - apply demo_bitmap_ok. lia.
  - apply least_clear_by; [lia|by vm_compute..].
  - by vm_compute.
  - by vm_compute.
  - exists s'. split; [exact E|]. rewrite (rv_count _ _ _ _ _ _ R). by vm_compute.
Defined.

Lemma demo_group count (s : ext2 (gmap Z (list Z))) : n_block_groups s = 1 -> get count (group0 s) ≠ 0 -> first_group count s 0 (group0 s).
Proof. intros Hn Hc. split; [lia|]. split_and!; [apply group0_desc|done|lia]. Qed.

Lemma reserve_free_block_again_witness :
  exists s1 s2, reserve_free_block (demo 128) = Some (Some 1024, s1) /\ reserve_free_block s1 = Some (Some 1024, s2).
Proof.
  apply (reserve_free_block_again (demo 128) 0 (group0 (demo 128)) (demo_bitmap 128) (demo_bitmap 128) 1024).
  - apply demo_balloc_ok. by right.
  - apply demo_group; by vm_compute.
  - split; (split; [|try decided; apply demo_bitmap_ok; lia]); try (vm_compute; reflexivity);
      change (bd_ok 3); by apply mem_block_ok.
  - apply least_clear_by; [lia|by vm_compute..].
  - by vm_compute.
  - right. by vm_compute.
Defined.

Lemma reserve_free_inode_repeats_witness :
  exists s1 s2, reserve_free_inode (demo 16) = Some (Some 16, s1) /\ reserve_free_inode s1 = Some (Some 16, s2).
Proof.
  apply (reserve_free_inode_repeats (demo 16) 0 (group0 (demo 16)) (3 :: replicate 1023 0) (3 :: replicate 1023 0) 16).
  - apply demo_balloc_ok. by left.
  - apply demo_group; by vm_compute.
  - split; (split; [|try decided; apply inode_bitmap_ok]); try (vm_compute; reflexivity);
      change (bd_ok 4); by apply mem_block_ok.
  - apply least_clear_by; [by vm_compute..].
  - by vm_compute.
  - by vm_compute.
Defined.
