(* ===== verification/Mkfs.v ===== *)
(** * Making and mounting a file system (fs/ext2/mkfs.c; read_fs,
    set_superblock, set_bgdt and fs_start_to_lba_superblk of fs/ext2/fs.c)

    [mkfs] works on sectors; [read_fs] then reads back, through the block
    layer, the superblock and the descriptor table it wrote.  [sys_exit] is an
    endless loop, so a path that reaches it is [None]. *)

From S2P Require Export Balloc.

#[local] Ltac Zify.zify_post_hook ::= Z.to_euclidean_division_equations.

Definition EXT2_SUPER_MAGIC : Z := 0xef53.
Definition EXT2_VALID_FS : Z := 1.
Definition EXT2_ERRORS_RO : Z := 2.
Definition EXT2_OS_COW : Z := 0x100.
Definition EXT2_GOOD_OLD_FIRST_INO : Z := 11.
Definition EXT2_GOOD_OLD_INODE_SIZE : Z := 128.
Definition EXT2_BLK_SIZE : Z := 1024.
Definition EXT2_BLOCKS_PER_GROUP : Z := 8192.
Definition EXT2_BYTES_PER_INODE : Z := 8192.
Definition EXT2_INODES_PER_GROUP : Z := (EXT2_BLOCKS_PER_GROUP * EXT2_BLK_SIZE) `div` EXT2_BYTES_PER_INODE.
Definition SECTORS_PER_BLOCK : Z := EXT2_BLK_SIZE `div` 512.
Definition SECTORS_PER_BLOCK_GROUP : Z := SECTORS_PER_BLOCK * EXT2_BLOCKS_PER_GROUP.
Definition mb_to_lba (mb : Z) : Z := u32 (mb * 1024 * 2).

(** The globals of mkfs.c. *)
Record geometry := mk_geometry { g_n_block_groups : Z; g_total_blocks : Z; g_blocks_in_last_group : Z }.

Definition last_group (total per : Z) : Z := if total `mod` per =? 0 then per else total `mod` per.

Definition calculate_block_groups (fs_size_mb : Z) : geometry :=
  let total := u32 (fs_size_mb * 1024) in
  mk_geometry (u32 (total + EXT2_BLOCKS_PER_GROUP - 1) `div` EXT2_BLOCKS_PER_GROUP) total
              (last_group total EXT2_BLOCKS_PER_GROUP).

Definition inode_table_blocks : Z := (EXT2_INODES_PER_GROUP * 128 + EXT2_BLK_SIZE - 1) `div` EXT2_BLK_SIZE.
Definition reserved_blocks_per_group : Z := 1 + 1 + inode_table_blocks.

Definition free_blocks_in_group (g : geometry) (group_idx : Z) (has_super_backup : bool) : Z :=
  let reserved := reserved_blocks_per_group in
  let total_blocks_in_group :=
    if group_idx =? u32 (g_n_block_groups g - 1) then g_blocks_in_last_group g else EXT2_BLOCKS_PER_GROUP in
  let reserved := if has_super_backup then reserved + 2 else reserved in
  u32 (total_blocks_in_group - reserved).

Definition has_backup (i : Z) : bool := i <? 2.

Fixpoint total_free (n : nat) (g : geometry) (i acc : Z) : Z :=
  match n with
  | O => acc
  | S n => total_free n g (i + 1) (u32 (acc + free_blocks_in_group g i (has_backup i)))
  end.

Definition make_super (g : geometry) (block_group_nr : Z) : list Z :=
  let b := replicate 1024 0 in
  let b := put s_inodes_per_group EXT2_INODES_PER_GROUP b in
  let b := put s_blocks_per_group EXT2_BLOCKS_PER_GROUP b in
  let b := put s_frags_per_group EXT2_BLOCKS_PER_GROUP b in
  let b := put s_inodes_count (u32 (EXT2_INODES_PER_GROUP * g_n_block_groups g)) b in
  let b := put s_blocks_count (g_total_blocks g) b in
  let b := put s_free_blocks_count (total_free (Z.to_nat (g_n_block_groups g)) g 0 0) b in
  let b := put s_free_inodes_count (u32 (get s_inodes_count b - 2)) b in
  let b := put s_first_data_block 1 b in
  let b := put Struct.s_log_block_size 0 b in
  let b := put s_log_frag_size 0 b in
  let b := put s_magic EXT2_SUPER_MAGIC b in
  let b := put s_state EXT2_VALID_FS b in
  let b := put s_errors EXT2_ERRORS_RO b in
  let b := put s_creator_os EXT2_OS_COW b in
  let b := put s_rev_level 0 b in
  let b := put s_checkinterval (Z.shiftl 1 24) b in
  let b := put s_first_ino EXT2_GOOD_OLD_FIRST_INO b in
  let b := put s_inode_size EXT2_GOOD_OLD_INODE_SIZE b in
  put s_block_group_nr block_group_nr b.

(** One round of [make_bgdt] on the descriptor's old contents. *)
Definition make_desc (g : geometry) (i : Z) (t : list Z) : list Z :=
  let extra_blocks := if has_backup i then 2 else 0 in
  let group_base := u32 (i * EXT2_BLOCKS_PER_GROUP) in
  let t := put bg_block_bitmap (u32 (group_base + extra_blocks + 1)) t in
  let t := put bg_inode_bitmap (u32 (group_base + extra_blocks + 2)) t in
  let t := put bg_inode_table (u32 (group_base + extra_blocks + 3)) t in
  let t := put bg_free_blocks_count (u16 (free_blocks_in_group g i (has_backup i))) t in
  let t := put bg_free_inodes_count (if i =? 0 then EXT2_INODES_PER_GROUP - 2 else EXT2_INODES_PER_GROUP) t in
  let t := put bg_used_dirs_count (if i =? 0 then 1 else 0) t in
  let t := put bg_pad 0 t in
  splice (f_off bg_reserved) (replicate 12 0) t.

(** [table] is the memory kmalloc gave; outside of it the loop overruns. *)
Fixpoint make_bgdt (n : nat) (g : geometry) (i : nat) (table : list Z) : option (list Z) :=
  match n with
  | O => Some table
  | S n =>
      if decide (32 * i + 32 <= length table)%nat
      then make_bgdt n g (S i) (splice (32 * i) (make_desc g (Z.of_nat i) (slice (32 * i) 32 table)) table)
      else None
  end.

Section Mkfs.
Context {D : Type} `{!SectorDev D}.

(** [disk_write(lba, buf, 1024)]. *)
Definition write_block (lba : Z) (buf : list Z) (d : D) : option D := write_run lba buf 2 d.

Definition write_superblock (location : Z) (b : list Z) (d : D) : option D := write_block location b d.

Definition write_bgdt (g : geometry) (addr : Z) (table : list Z) (d : D) : option D :=
  let bgdt_size := u32 (g_n_block_groups g * 32) in
  if EXT2_BLK_SIZE <? bgdt_size then None
  else
    buffer ← copy_bytes (Z.to_nat bgdt_size) 0 table (replicate 1024 0);
    write_block addr buffer d.

(** [for (i = 0; i < reserved; i++) bitmap[i / 8] |= 1 << (i % 8)]. *)
Fixpoint mark_used (n : nat) (i : Z) (bitmap : list Z) : option (list Z) :=
  match n with
  | O => Some bitmap
  | S n => bitmap ← set_bit bitmap i; mark_used n (i + 1) bitmap
  end.

Definition init_bitmaps (fs_lba group_start group_idx : Z) (d : D) : option D :=
  let reserved := if group_idx <? 2 then reserved_blocks_per_group + 2 else reserved_blocks_per_group in
  bitmap ← mark_used (Z.to_nat reserved) 0 (replicate 1024 0);
  d ← write_block (u32 (fs_lba + (group_start + 0) * SECTORS_PER_BLOCK)) bitmap d;
  let bitmap := if group_idx =? 0 then 3 :: replicate 1023 0 else replicate 1024 0 in
  write_block (u32 (fs_lba + (group_start + 1) * SECTORS_PER_BLOCK)) bitmap d.

Fixpoint zero_blocks (n : nat) (fs_lba group_start i : Z) (d : D) : option D :=
  match n with
  | O => Some d
  | S n =>
      d ← write_block (u32 (fs_lba + (group_start + 2 + i) * SECTORS_PER_BLOCK)) (replicate 1024 0) d;
      zero_blocks n fs_lba group_start (i + 1) d
  end.

Definition init_inode_table (fs_lba group_start : Z) (d : D) : option D :=
  zero_blocks (Z.to_nat inode_table_blocks) fs_lba group_start 0 d.

(** Superblocks go to the first two groups only. *)
Fixpoint write_supers (n : nat) (g : geometry) (fs_lba i : Z) (d : D) : option D :=
  match n with
  | O => Some d
  | S n =>
      d ← (if i <? 2 then write_superblock (u32 (fs_lba + i * SECTORS_PER_BLOCK_GROUP)) (make_super g i) d else Some d);
      write_supers n g fs_lba (i + 1) d
  end.

Fixpoint init_groups (n : nat) (fs_lba i : Z) (d : D) : option D :=
  match n with
  | O => Some d
  | S n =>
      let bitmap_start := if i <? 2 then 2 else 0 in
      let block_offset := i * EXT2_BLOCKS_PER_GROUP + bitmap_start in
      d ← init_bitmaps fs_lba block_offset i d;
      d ← init_inode_table fs_lba block_offset d;
      init_groups n fs_lba (i + 1) d
  end.

(** [show_fs] reads one sector, which holds all the members it uses. *)
Definition show_fs (fs_lba : Z) (d : D) (g : geometry) : option geometry :=
  let sb := sec_read fs_lba d in
  if negb (get s_magic sb =? EXT2_SUPER_MAGIC) then Some g
  else
    let per := get s_blocks_per_group sb in
    n_groups ← udiv (u32 (get s_blocks_count sb + per - 1)) per;
    Some (mk_geometry n_groups (get s_blocks_count sb) (last_group (get s_blocks_count sb) per)).

(** [spb] is fs.c's SECTORS_PER_BLOCK, from the superblock in memory. *)
Definition fs_start_to_lba_superblk (spb mb_start : Z) : Z := u32 (mb_to_lba mb_start + spb).

(** [mem] is kmalloc's result for the descriptor table. *)
Definition mkfs (spb mb_start len : Z) (mem : option (list Z)) (d : D) : option (geometry * D) :=
  let fs_lba := fs_start_to_lba_superblk spb mb_start in
  let g := calculate_block_groups len in
  table ← mem;
  let n := Z.to_nat (g_n_block_groups g) in
  table ← make_bgdt n g 0 table;
  d ← write_supers n g fs_lba 0 d;
  d ← write_bgdt g (u32 (fs_lba + SECTORS_PER_BLOCK)) table d;
  d ← write_bgdt g (u32 (fs_lba + SECTORS_PER_BLOCK_GROUP + SECTORS_PER_BLOCK)) table d;
  d ← init_groups n fs_lba 0 d;
  g ← show_fs fs_lba d g;
  Some (g, d).

(** ** Mounting *)

(** The read overruns the superblock on the stack when a block is larger. *)
Definition set_superblock (v : volume) (s : ext2 D) : option (ext2 D) :=
  let '(r, b) := disk_read_blk v 1 (dev s) in
  if negb (r =? 0) then Some s
  else if decide (length b = 1024%nat) then
    if negb (get s_magic b =? EXT2_SUPER_MAGIC) then Some s else Some (set_super b s)
  else None.

Definition set_bgdt (v : volume) (s : ext2 D) : option (ext2 D) :=
  let bc := get s_blocks_count (super s) in
  let bpg := get s_blocks_per_group (super s) in
  if bpg =? 0 then Some s
  else
    let n := u16 (bc `div` bpg) in
    let n := if bc `mod` bpg =? 0 then n else u16 (n + 1) in
    let '(_, buf) := disk_read_blk v 2 (dev s) in
    t ← copy_bytes (Z.to_nat (n * 32)) 0 buf (bgdt s);
    Some (mk_ext2 _ (super s) t n (dev s)).

Definition read_fs (fs_start_in_mb : Z) (s : ext2 D) : option (volume * ext2 D) :=
  let start := mb_to_lba fs_start_in_mb in
  s ← set_superblock (mk_volume true start (get Struct.s_log_block_size (super s))) s;
  let v := mk_volume true start (get Struct.s_log_block_size (super s)) in
  s ← set_bgdt v s;
  Some (v, s).
End Mkfs.

(** ** Images of known length *)

Lemma put_len n f v img : length img = n -> inside f n -> length (put f v img) = n.
Proof. intros <- H. by apply put_length. Qed.

Lemma get_put_eq_len n f v img :
  length img = n -> inside f n -> get f (put f v img) = v `mod` 2 ^ (8 * Z.of_nat (f_len f)).
Proof. intros <- H. by apply get_put_eq. Qed.

Lemma get_put_ne_len n f g v img : length img = n -> inside f n -> apart f g -> get g (put f v img) = get g img.
Proof. intros <- H. by apply get_put_ne. Qed.

Ltac nat_le := apply leb_complete; vm_compute; reflexivity.
Ltac img_len :=
  match goal with
  | |- length (put _ _ _) = _ => apply put_len; [img_len|nat_le]
  | |- length (replicate _ _) = _ => apply length_replicate
  | |- length _ = _ => assumption
  end.
Ltac img_side :=
  match goal with
  | |- inside _ _ => nat_le
  | |- apart _ _ => first [left; nat_le | right; nat_le]
  | |- length _ = _ => img_len
  end.
(** Reads a member out of a chain of stores. *)
Ltac img_get n :=
  repeat rewrite (get_put_ne_len n) by img_side;
  rewrite (get_put_eq_len n) by img_side.

Lemma length_make_super g i : length (make_super g i) = 1024%nat.
Proof. unfold make_super. cbv zeta. img_len. Qed.

Lemma make_super_fields g i :
  get s_magic (make_super g i) = EXT2_SUPER_MAGIC /\ get Struct.s_log_block_size (make_super g i) = 0 /\
  get s_blocks_per_group (make_super g i) = 8192 /\ get s_inodes_per_group (make_super g i) = 1024 /\
  get s_blocks_count (make_super g i) = g_total_blocks g `mod` 2 ^ 32.
Proof. unfold make_super. cbv zeta. split_and!; img_get 1024%nat; reflexivity. Qed.

Lemma get_splice_before n f off new img :
  length img = n -> (off + length new <= n)%nat -> (f_off f + f_len f <= off)%nat ->
  get f (splice off new img) = get f img.
Proof. intros <- Hn Hf. unfold get. rewrite slice_splice_ne; [done|lia|by left]. Qed.

Lemma length_make_desc g i t : length t = 32%nat -> length (make_desc g i t) = 32%nat.
Proof.
  intros Ht. unfold make_desc. cbv zeta.
  match goal with |- length (splice _ _ ?x) = _ => assert (length x = 32%nat) as E by img_len end.
  rewrite length_splice, E; [done|]. rewrite E. nat_le.
Qed.

Definition extra (i : Z) : Z := if i <? 2 then 2 else 0.

Lemma make_desc_fields g i t : length t = 32%nat -> 0 <= i < 32 ->
  get bg_block_bitmap (make_desc g i t) = 8192 * i + extra i + 1 /\
  get bg_inode_bitmap (make_desc g i t) = 8192 * i + extra i + 2 /\
  get bg_inode_table (make_desc g i t) = 8192 * i + extra i + 3 /\
  get bg_free_blocks_count (make_desc g i t) = u16 (free_blocks_in_group g i (has_backup i)).
Proof.
  intros Ht Hi. unfold make_desc, has_backup. cbv zeta. fold (extra i).
  assert (0 <= extra i <= 2) as He by (unfold extra; destruct (i <? 2); lia).
  assert (u32 (i * EXT2_BLOCKS_PER_GROUP) = 8192 * i) as -> by (unfold EXT2_BLOCKS_PER_GROUP; rewrite u32_small; lia).
  rewrite !u32_small by lia.
  match goal with |- context [splice _ _ ?x] => assert (length x = 32%nat) as E by img_len end.
  split_and!; (rewrite (get_splice_before 32) by (exact E || nat_le)); img_get 32%nat.
  1-3: apply Z.mod_small; cbn [f_len bg_block_bitmap bg_inode_bitmap bg_inode_table]; lia.
  apply Z.mod_small. apply u16_bound.
Qed.

(** ** The descriptor table *)

Lemma make_bgdt_spec n g i table :
  (32 * (i + n) <= length table)%nat ->
  exists t', make_bgdt n g i table = Some t' /\ length t' = length table /\
    (forall j, (i <= j < i + n)%nat -> slice (32 * j) 32 t' = make_desc g (Z.of_nat j) (slice (32 * j) 32 table)) /\
    forall j, (j < i)%nat -> slice (32 * j) 32 t' = slice (32 * j) 32 table.
Proof.
  revert i table. induction n as [|n IH]; intros i table Hl; cbn [make_bgdt].
  { exists table. split_and!; [done..|lia|done]. }
  rewrite decide_True by lia.
  assert (length (make_desc g (Z.of_nat i) (slice (32 * i) 32 table)) = 32%nat) as Hd.
  { apply length_make_desc. unfold slice. rewrite length_take, length_drop. lia. }
  set (tb := splice (32 * i) _ table). assert (length tb = length table) as Htb by (unfold tb; rewrite length_splice; lia).
  destruct (IH (S i) tb) as (t' & -> & Hlen & Hnew & Hold); [lia|]. exists t'. split_and!; [done|lia| |].
  - intros j Hj. destruct (decide (j = i)) as [->|].
    + rewrite Hold by lia. unfold tb.
      pose proof (slice_splice_eq (32 * i) (make_desc g (Z.of_nat i) (slice (32 * i) 32 table)) table) as Hq.
      rewrite Hd in Hq. apply Hq. lia.
    + rewrite Hnew by lia. unfold tb. rewrite slice_splice_ne by lia. done.
  - intros j Hj. rewrite Hold by lia. unfold tb. rewrite slice_splice_ne by lia. done.
Qed.

#[local] Opaque make_super.

(** ** The formatted volume *)

Section Format.
Context {D : Type} `{!SectorDev D}.
Context (mb len : Z).
Hypothesis (Hmb : 0 <= mb) (Hlen : 1 <= len <= 256) (Hfit : mb * 2048 + 540672 <= DRIVE_SECTORS).

Definition vol : volume := mk_volume true (mb * 2048) 0.
#[local] Instance vol_dev : BlockDev D := volume_dev vol eq_refl.
Definition geom : geometry := calculate_block_groups len.
Definition groups : Z := g_n_block_groups geom.
Definition fs_lba : Z := fs_start_to_lba_superblk 2 mb.

Lemma groups_bound : 1 <= groups <= 32 /\ g_total_blocks geom = len * 1024 /\
  groups = (len * 1024 + 8191) `div` 8192 /\ 1024 <= g_blocks_in_last_group geom <= 8192.
Proof.
  unfold groups, geom, calculate_block_groups. cbn [g_n_block_groups g_total_blocks g_blocks_in_last_group].
  unfold EXT2_BLOCKS_PER_GROUP, last_group. rewrite (u32_small (len * 1024)), u32_small by lia.
  destruct (Z.eqb_spec ((len * 1024) `mod` 8192) 0); split_and!; lia.
Qed.

Lemma fs_lba_eq : fs_lba = mb * 2048 + 2.
Proof. unfold fs_lba, fs_start_to_lba_superblk, mb_to_lba. rewrite (u32_small (_ * _ * _)), u32_small by lia. lia. Qed.

(** Blocks of 33 groups lie on the disk. *)
Lemma vol_ok b : 0 <= b < 270336 -> bd_ok b.
Proof.
  intros Hb. change (block_ok vol b). unfold block_ok. change (Disk.SECTORS_PER_BLOCK vol) with 2.
  cbn [vol fs_start_set filesys_start Disk.s_log_block_size]. lia.
Qed.

Lemma write_block_vol x lba buf d :
  lba = fs_lba + x * 2 -> 0 <= x < 270335 -> length buf = 1024%nat ->
  exists d', write_block (u32 lba) buf d = Some d' /\ bd_read (x + 1) d' = Some buf /\
    forall m, bd_ok m -> m ≠ x + 1 -> bd_read m d' = bd_read m d.
Proof.
  intros -> Hx Hb. destruct (bd_write_ok (x + 1) buf d (vol_ok (x + 1) ltac:(lia)) Hb) as (d' & E & Hr & Hf).
  exists d'. split; [|done]. revert E. change (bd_write (x + 1) buf d) with (volume_write vol (x + 1) buf d).
  unfold volume_write, disk_write_blk. cbn [fs_start_set vol negb]. change (Disk.SECTORS_PER_BLOCK vol) with 2.
  unfold write_block, block_lba. change (Disk.SECTORS_PER_BLOCK vol) with 2. cbn [filesys_start vol].
  rewrite fs_lba_eq. replace (mb * 2048 + 2 + x * 2) with (mb * 2048 + (x + 1) * 2) by lia.
  change (Z.to_nat 2) with 2%nat. by destruct (write_run _ buf 2 d).
Qed.

(** *** What each block holds in the end; [T] is the descriptor block *)

Definition block_bitmap (i : Z) : list Z := replicate 16 255 ++ (if i <? 2 then 15 else 3) :: replicate 1007 0.
Definition inode_bitmap (i : Z) : list Z := if i =? 0 then 3 :: replicate 1023 0 else replicate 1024 0.

Definition content (T : list Z) (b : Z) : list Z :=
  let i := b `div` 8192 in
  let o := b - 8192 * i - extra i in
  if b =? 1 then make_super geom 0 else if b =? 8193 then make_super geom 1
  else if (b =? 2) || (b =? 8194) then T
  else if o =? 1 then block_bitmap i else if o =? 2 then inode_bitmap i else replicate 1024 0.

Lemma length_block_bitmap i : length (block_bitmap i) = 1024%nat.
Proof. unfold block_bitmap. rewrite length_app. cbn [length]. by rewrite !length_replicate. Qed.

Lemma length_inode_bitmap i : length (inode_bitmap i) = 1024%nat.
Proof. unfold inode_bitmap. destruct (i =? 0); [cbn [length]; by rewrite length_replicate|apply length_replicate]. Qed.

(** Block [o] of group [i], counted after the superblock and the descriptors. *)
Definition in_group (i o : Z) : Z := 8192 * i + extra i + o.

Lemma content_group T i o : 0 <= i < 33 -> 1 <= o <= 130 ->
  content T (in_group i o) = if o =? 1 then block_bitmap i else if o =? 2 then inode_bitmap i else replicate 1024 0.
Proof.
  intros Hi Ho. unfold content, in_group. assert (0 <= extra i <= 2 /\ (i < 2 -> extra i = 2)) as [He He2].
  { unfold extra. destruct (Z.ltb_spec i 2); lia. }
  replace ((8192 * i + extra i + o) `div` 8192) with i by lia. cbv zeta.
  replace (8192 * i + extra i + o - 8192 * i - extra i) with o by lia.
  rewrite !(proj2 (Z.eqb_neq _ _)) by lia. done.
Qed.

Definition formatted (T : list Z) (P : Z -> Prop) (d : D) : Prop :=
  forall b, 0 <= b < 270336 -> P b -> bd_read b d = Some (content T b).

Lemma format_step T (P : Z -> Prop) x lba buf d :
  formatted T P d -> lba = fs_lba + x * 2 -> 0 <= x < 270335 -> buf = content T (x + 1) -> length buf = 1024%nat ->
  exists d', write_block (u32 lba) buf d = Some d' /\ formatted T (fun b => P b \/ b = x + 1) d'.
Proof.
  intros HP Hlba Hx -> Hl. destruct (write_block_vol x lba _ d Hlba Hx Hl) as (d' & E & Hr & Hf).
  exists d'. split; [done|]. intros b Hb Hor. destruct (decide (b = x + 1)) as [->|Hne]; [done|].
  rewrite Hf; [|by apply vol_ok|done]. apply HP; [done|]. tauto.
Qed.

Lemma formatted_weaken T (P Q : Z -> Prop) d : (forall b, Q b -> P b) -> formatted T P d -> formatted T Q d.
Proof. intros H HP b Hb HQ. apply HP; [done|by apply H]. Qed.

Lemma zero_blocks_spec T n i k (P : Z -> Prop) d :
  0 <= i < 33 -> 0 <= k -> k + Z.of_nat n <= 128 -> formatted T P d ->
  exists d', zero_blocks n fs_lba (8192 * i + extra i) k d = Some d' /\
    formatted T (fun b => P b \/ exists o, k + 3 <= o < k + 3 + Z.of_nat n /\ b = in_group i o) d'.
Proof.
  intros Hi. revert k P d. induction n as [|n IH]; intros k P d Hk Hn HP; cbn [zero_blocks].
  { exists d. split; [done|]. eapply formatted_weaken; [|done]. intros b [?|(o & ? & _)]; [done|lia]. }
  assert (0 <= extra i <= 2) as He by (unfold extra; destruct (i <? 2); lia).
  destruct (format_step T P (8192 * i + extra i + 2 + k) (fs_lba + (8192 * i + extra i + 2 + k) * SECTORS_PER_BLOCK)
              (replicate 1024 0) d HP) as (d1 & -> & H1); [done|lia| |apply length_replicate|].
  { replace (8192 * i + extra i + 2 + k + 1) with (in_group i (k + 3)) by (unfold in_group; lia).
    rewrite content_group by lia. by rewrite !(proj2 (Z.eqb_neq _ _)) by lia. }
  cbn [mbind option_bind]. destruct (IH (k + 1) _ d1 ltac:(lia) ltac:(lia) H1) as (d2 & -> & H2).
  exists d2. split; [done|]. eapply formatted_weaken; [|exact H2]. intros b [?|(o & Ho & ->)]; [tauto|].
  destruct (decide (o = k + 3)) as [->|]; [left; right; unfold in_group; lia|right; exists o; split; [lia|done]].
Qed.

Lemma mark_used_group i :
  mark_used (Z.to_nat (if i <? 2 then reserved_blocks_per_group + 2 else reserved_blocks_per_group)) 0 (replicate 1024 0)
  = Some (block_bitmap i).
Proof. unfold block_bitmap. destruct (i <? 2); vm_compute; reflexivity. Qed.

Lemma init_groups_spec T n i (P : Z -> Prop) d :
  0 <= i -> i + Z.of_nat n <= 33 -> formatted T P d ->
  exists d', init_groups n fs_lba i d = Some d' /\
    formatted T (fun b => P b \/ exists j o, i <= j < i + Z.of_nat n /\ 1 <= o <= 130 /\ b = in_group j o) d'.
Proof.
  revert i P d. induction n as [|n IH]; intros i P d Hi Hn HP; cbn [init_groups].
  { exists d. split; [done|]. eapply formatted_weaken; [|done]. intros b [?|(j & o & ? & _)]; [done|lia]. }
  assert (0 <= extra i <= 2) as He by (unfold extra; destruct (i <? 2); lia).
  fold (extra i). unfold EXT2_BLOCKS_PER_GROUP. rewrite (Z.mul_comm i). unfold init_bitmaps.
  rewrite mark_used_group. cbn [mbind option_bind].
  destruct (format_step T P (8192 * i + extra i + 0) (fs_lba + (8192 * i + extra i + 0) * SECTORS_PER_BLOCK)
              (block_bitmap i) d HP) as (d1 & -> & H1); [done|lia| |apply length_block_bitmap|].
  { replace (8192 * i + extra i + 0 + 1) with (in_group i 1) by (unfold in_group; lia). by rewrite content_group by lia. }
  cbn [mbind option_bind]. fold (inode_bitmap i).
  destruct (format_step T _ (8192 * i + extra i + 1) (fs_lba + (8192 * i + extra i + 1) * SECTORS_PER_BLOCK)
              (inode_bitmap i) d1 H1) as (d2 & -> & H2); [done|lia| |apply length_inode_bitmap|].
  { replace (8192 * i + extra i + 1 + 1) with (in_group i 2) by (unfold in_group; lia). by rewrite content_group by lia. }
  cbn [mbind option_bind]. unfold init_inode_table.
  destruct (zero_blocks_spec T (Z.to_nat inode_table_blocks) i 0 _ d2 ltac:(lia) ltac:(lia) ltac:(done) H2) as (d3 & -> & H3).
  cbn [mbind option_bind]. destruct (IH (i + 1) _ d3 ltac:(lia) ltac:(lia) H3) as (d4 & -> & H4).
  exists d4. split; [done|]. eapply formatted_weaken; [|exact H4]. change (Z.of_nat (Z.to_nat inode_table_blocks)) with 128.
  intros b [?|(j & o & Hj & Ho & ->)]; [tauto|]. destruct (decide (j = i)) as [->|]; [left|right; exists j, o; split; [lia|done]].
  destruct (decide (o = 1)) as [->|]; [left; left; right; unfold in_group; lia|].
  destruct (decide (o = 2)) as [->|]; [left; right; unfold in_group; lia|]. right. exists o. split; [lia|done].
Qed.

Lemma write_supers_spec T n i (P : Z -> Prop) d :
  0 <= i -> i + Z.of_nat n <= 33 -> formatted T P d ->
  exists d', write_supers n geom fs_lba i d = Some d' /\
    formatted T (fun b => P b \/ exists j, i <= j < i + Z.of_nat n /\ j < 2 /\ b = 8192 * j + 1) d'.
Proof.
  revert i P d. induction n as [|n IH]; intros i P d Hi Hn HP; cbn [write_supers].
  { exists d. split; [done|]. eapply formatted_weaken; [|done]. intros b [?|(j & ? & _)]; [done|lia]. }
  destruct (Z.ltb_spec i 2) as [Hi2|Hi2]; unfold write_superblock.
  - destruct (format_step T P (8192 * i) (fs_lba + i * SECTORS_PER_BLOCK_GROUP) (make_super geom i) d HP)
      as (d1 & -> & H1); [change SECTORS_PER_BLOCK_GROUP with 16384; lia|lia| |apply length_make_super|].
    { assert (i = 0 \/ i = 1) as [-> | ->] by lia; unfold content; reflexivity. }
    cbn [mbind option_bind]. destruct (IH (i + 1) _ d1 ltac:(lia) ltac:(lia) H1) as (d2 & -> & H2).
    exists d2. split; [done|]. eapply formatted_weaken; [|exact H2]. intros b [?|(j & Hj & Hj2 & ->)]; [tauto|].
    destruct (decide (j = i)) as [->|]; [left; by right|right; exists j; split; [lia|done]].
  - cbn [mbind option_bind]. destruct (IH (i + 1) _ d ltac:(lia) ltac:(lia) HP) as (d2 & -> & H2).
    exists d2. split; [done|]. eapply formatted_weaken; [|exact H2]. intros b [?|(j & ? & ? & ?)]; [tauto|lia].
Qed.

(** The block [write_bgdt] writes. *)
Definition table_block (table : list Z) : list Z :=
  take (Z.to_nat (groups * 32)) table ++ replicate (1024 - Z.to_nat (groups * 32)) 0.

Lemma write_bgdt_eq addr table d : (32 * Z.to_nat groups <= length table)%nat ->
  write_bgdt geom addr table d = write_block addr (table_block table) d.
Proof.
  intros Hl. pose proof groups_bound as (Hg & _). unfold write_bgdt, EXT2_BLK_SIZE. fold groups.
  rewrite u32_small by lia. destruct (Z.ltb_spec 1024 (groups * 32)); [lia|].
  change 0 with (Z.of_nat 0) at 1. rewrite copy_bytes_spec by (rewrite ?length_replicate; lia).
  unfold table_block, slice. by rewrite take_0, drop_0, drop_replicate.
Qed.

Lemma length_table_block table : (32 * Z.to_nat groups <= length table)%nat -> length (table_block table) = 1024%nat.
Proof.
  intros Hl. pose proof groups_bound as (Hg & _). unfold table_block.
  rewrite length_app, length_take, length_replicate. lia.
Qed.

Lemma table_block_desc table j : (j < Z.to_nat groups)%nat -> (32 * Z.to_nat groups <= length table)%nat ->
  slice (32 * j) 32 (table_block table) = slice (32 * j) 32 table.
Proof.
  intros Hj Hl. unfold table_block, slice. rewrite drop_app_le by (rewrite length_take; lia).
  rewrite take_app_le by (rewrite length_drop, length_take; lia).
  rewrite skipn_firstn_comm, take_take. f_equal. lia.
Qed.

(** The blocks [mkfs] fills. *)
Definition filled (b : Z) : Prop :=
  b = 1 \/ b = 2 \/ b = 8194 \/ (2 <= groups /\ b = 8193) \/
  exists j o, 0 <= j < groups /\ 1 <= o <= 130 /\ b = in_group j o.

Lemma get_take f n img : (f_off f + f_len f <= n)%nat -> get f (take n img) = get f img.
Proof. intros H. unfold get, slice. rewrite skipn_firstn_comm, take_take. do 2 f_equal; lia. Qed.

Lemma read_vol b d : 0 <= b < 270336 ->
  bd_read b d = Some (sec_read (mb * 2048 + b * 2) d ++ sec_read (mb * 2048 + b * 2 + 1) d).
Proof.
  intros Hb. change (bd_read b d) with (volume_read vol b d). unfold volume_read, disk_read_blk.
  cbn [vol fs_start_set negb]. unfold block_lba. change (Disk.SECTORS_PER_BLOCK vol) with 2. cbn [filesys_start vol].
  change (Z.to_nat 2) with 2%nat. cbn [read_run]. by rewrite !u32_small, app_nil_r by (rewrite ?u32_small; lia).
Qed.

Lemma first_sector d img : bd_read 1 d = Some img -> sec_read fs_lba d = take 512 img.
Proof.
  rewrite read_vol by lia. intros [= <-]. rewrite take_app_le by (rewrite sec_read_length; lia).
  rewrite take_ge by (rewrite sec_read_length; lia). rewrite fs_lba_eq. done.
Qed.

Lemma show_fs_spec d : bd_read 1 d = Some (make_super geom 0) -> show_fs fs_lba d geom = Some geom.
Proof.
  intros Hr. unfold show_fs. rewrite (first_sector _ _ Hr). pose proof groups_bound as (Hg & Ht & Hn & _).
  pose proof (make_super_fields geom 0) as (Em & _ & Eb & _ & Ec).
  rewrite !get_take by nat_le. rewrite Em, Eb, Ec, Ht. rewrite Z.mod_small by lia. cbn [negb].
  rewrite Z.eqb_refl. cbn [negb]. rewrite u32_small by lia. unfold udiv. cbn [Z.eqb mbind option_bind]. f_equal.
  replace (len * 1024 + 8192 - 1) with (len * 1024 + 8191) by lia. rewrite <- Hn, <- Ht.
  unfold groups. destruct geom as [n t l] eqn:Eg. cbn. f_equal.
  unfold geom, calculate_block_groups in Eg. injection Eg as <- <- <-. done.
Qed.

Lemma mkfs_spec mem d : (32 * Z.to_nat groups <= length mem)%nat ->
  exists T d', mkfs 2 mb len (Some mem) d = Some (geom, d') /\ formatted T filled d' /\ length T = 1024%nat /\
    forall j, 0 <= j < groups -> exists t, length t = 32%nat /\ slice (32 * Z.to_nat j) 32 T = make_desc geom j t.
Proof.
  intros Hm. pose proof groups_bound as (Hg & _). unfold mkfs. fold geom fs_lba groups. cbn [mbind option_bind].
  destruct (make_bgdt_spec (Z.to_nat groups) geom 0 mem) as (table & -> & Hlt & Hdesc & _); [lia|].
  rewrite <- Hlt in Hm. set (T := table_block table). cbn [mbind option_bind].
  pose proof (length_table_block table Hm) as HlT. fold T in HlT.
  destruct (write_supers_spec T (Z.to_nat groups) 0 (fun _ => False) d) as (d1 & -> & H1); [lia|lia|by intros b|].
  cbn [mbind option_bind]. rewrite write_bgdt_eq by done. fold T.
  destruct (format_step T _ 1 (fs_lba + SECTORS_PER_BLOCK) T d1 H1) as (d2 & -> & H2);
    [done|lia|reflexivity|exact HlT|]. cbn [mbind option_bind]. rewrite write_bgdt_eq by done. fold T.
  destruct (format_step T _ 8193 (fs_lba + SECTORS_PER_BLOCK_GROUP + SECTORS_PER_BLOCK) T d2 H2) as (d3 & -> & H3);
    [change SECTORS_PER_BLOCK_GROUP with 16384; change SECTORS_PER_BLOCK with 2; lia|lia|reflexivity|exact HlT|].
  cbn [mbind option_bind]. destruct (init_groups_spec T (Z.to_nat groups) 0 _ d3 ltac:(lia) ltac:(lia) H3) as (d4 & -> & H4).
  cbn [mbind option_bind]. assert (formatted T filled d4) as HF.
  { eapply formatted_weaken; [|exact H4]. intros b [->|[->|[->|[[? ->]|(j & o & Hj & Ho & ->)]]]].
    - left. left. left. right. exists 0. lia.
    - left. left. by right.
    - left. by right.
    - left. left. left. right. exists 1. lia.
    - right. exists j, o. split; [lia|done]. }
  rewrite show_fs_spec by (apply HF; [lia|by left]). exists T, d4. split_and!; [done..|].
  intros j Hj. exists (slice (32 * Z.to_nat j) 32 mem). split; [unfold slice; rewrite length_take, length_drop; lia|].
  unfold T. rewrite table_block_desc by lia. rewrite Hdesc by lia. by rewrite Z2Nat.id by lia.
Qed.

(** *** Reading it back *)

Lemma read_blk_of b d img : bd_read b d = Some img -> disk_read_blk vol b d = (0, img).
Proof.
  change (bd_read b d) with (volume_read vol b d). unfold volume_read, disk_read_blk.
  cbn [vol fs_start_set negb]. generalize (read_run (block_lba vol b) (Z.to_nat (Disk.SECTORS_PER_BLOCK vol)) d).
  intros l. cbn [Z.eqb]. congruence.
Qed.

Definition mounted (T : list Z) (d : D) (s : ext2 D) : ext2 D :=
  mk_ext2 _ (make_super geom 0) (take (Z.to_nat (groups * 32)) T ++ drop (Z.to_nat (groups * 32)) (bgdt s)) groups d.

Lemma read_fs_spec T d s :
  formatted T filled d -> length T = 1024%nat -> get Struct.s_log_block_size (super s) = 0 ->
  length (bgdt s) = Z.to_nat 32768 -> read_fs mb (set_dev d s) = Some (vol, mounted T d s).
Proof.
  intros HF HT Hlog Hbg. pose proof groups_bound as (Hg & Ht & Hn & _).
  pose proof (make_super_fields geom 0) as (Em & El & Eb & _ & Ec).
  assert (bd_read 1 d = Some (make_super geom 0)) as R1 by (apply HF; [lia|by left]).
  assert (bd_read 2 d = Some T) as R2 by (apply HF; [lia|right; by left]).
  unfold read_fs. assert (mb_to_lba mb = mb * 2048) as -> by (unfold mb_to_lba; rewrite u32_small; lia).
  change (super (set_dev d s)) with (super s). rewrite Hlog. fold vol.
  unfold set_superblock. change (dev (set_dev d s)) with d. rewrite (read_blk_of _ _ _ R1). cbn [Z.eqb negb].
  rewrite decide_True by apply length_make_super. rewrite Em, Z.eqb_refl. cbn [negb mbind option_bind].
  change (super (set_super (make_super geom 0) (set_dev d s))) with (make_super geom 0). rewrite El. fold vol. unfold set_bgdt, set_super, set_dev. cbn [super bgdt dev]. rewrite Eb, Ec, Ht. change (8192 =? 0) with false.
  rewrite (Z.mod_small _ (2 ^ 32)) by lia. rewrite (read_blk_of _ _ _ R2).
  assert ((if (len * 1024) `mod` 8192 =? 0 then u16 ((len * 1024) `div` 8192)
           else u16 (u16 ((len * 1024) `div` 8192) + 1)) = groups) as ->.
  { rewrite Hn. destruct (Z.eqb_spec ((len * 1024) `mod` 8192) 0); rewrite !u16_small; rewrite ?u16_small; lia. }
  pose proof (copy_bytes_spec (Z.to_nat (groups * 32)) T (bgdt s) 0 ltac:(lia) ltac:(lia)) as Hc.
  change (Z.of_nat 0) with 0 in Hc. rewrite Hc. cbn [mbind option_bind]. reflexivity.
Qed.

Lemma mounted_desc T d s j :
  length T = 1024%nat -> 0 <= j < groups -> group_desc (mounted T d s) j = Some (slice (32 * Z.to_nat j) 32 T).
Proof.
  intros HT Hj. pose proof groups_bound as (Hg & _). rewrite group_desc_at by lia. cbn [bgdt mounted]. f_equal.
  rewrite (Nat.mul_comm _ 32). unfold slice. rewrite drop_app_le by (rewrite length_take; lia).
  rewrite take_app_le by (rewrite length_drop, length_take; lia). rewrite skipn_firstn_comm, take_take. f_equal. lia.
Qed.
End Format.

(** ** Properties *)

Section Claims.
Context {D : Type} `{!SectorDev D}.

(** What a mounted, freshly made file system of [len] megabytes looks like. *)
Record fresh_fs (mb len : Z) (v : volume) (s : ext2 D) : Prop := {
  ff_vol : v = mk_volume true (mb * 2048) 0;
  ff_super : super s = make_super (calculate_block_groups len) 0;
  ff_groups : n_block_groups s = (len * 1024 + 8191) `div` 8192;
  ff_desc i : 0 <= i < n_block_groups s -> exists t, group_desc s i = Some t /\
    get bg_block_bitmap t = 8192 * i + extra i + 1 /\ get bg_inode_bitmap t = 8192 * i + extra i + 2 /\
    get bg_inode_table t = 8192 * i + extra i + 3 /\
    get bg_free_blocks_count t = u16 (free_blocks_in_group (calculate_block_groups len) i (has_backup i)) /\
    disk_read_blk v (get bg_block_bitmap t) (dev s) = (0, block_bitmap i) /\
    disk_read_blk v (get bg_inode_bitmap t) (dev s) = (0, inode_bitmap i) /\
    forall j, 0 <= j < inode_table_blocks -> disk_read_blk v (get bg_inode_table t + j) (dev s) = (0, replicate 1024 0)
}.

Lemma mkfs_then_read mb len mem (s : ext2 D) d :
  0 <= mb -> 1 <= len <= 256 -> mb * 2048 + 540672 <= DRIVE_SECTORS ->
  (32 * Z.to_nat ((len * 1024 + 8191) `div` 8192) <= length mem)%nat ->
  get Struct.s_log_block_size (super s) = 0 -> length (bgdt s) = Z.to_nat 32768 ->
  exists d' v s', mkfs 2 mb len (Some mem) d = Some (calculate_block_groups len, d') /\
    read_fs mb (set_dev d' s) = Some (v, s') /\ fresh_fs mb len v s' /\ length (bgdt s') = Z.to_nat 32768 /\
    exists T, formatted mb len T (filled len) (dev s') /\ s' = mounted len T (dev s') s.
Proof.
  intros Hmb Hlen Hfit Hm Hlog Hbg. pose proof (groups_bound len Hlen) as (Hg & _ & Hn & _).
  rewrite <- Hn in Hm. destruct (mkfs_spec mb len Hmb Hlen Hfit mem d Hm) as (T & d' & E & HF & HT & HD).
  exists d', (vol mb), (mounted len T d' s). split_and!; [done|by apply read_fs_spec| |cbn [bgdt mounted]|by exists T].
  2: { rewrite length_app, length_take, length_drop. lia. }
  split; [done..| |].
  { by cbn [n_block_groups mounted]. }
  cbn [n_block_groups mounted dev]. intros i Hi. destruct (HD i Hi) as (t & Ht & Et).
  assert (0 <= extra i <= 2) as He by (unfold extra; destruct (i <? 2); lia).
  assert (forall o, 1 <= o <= 130 ->
            disk_read_blk (vol mb) (in_group i o) d' = (0, content len T (in_group i o))) as HR.
  { intros o Ho. apply read_blk_of; [done..|]. apply HF; [unfold in_group; lia|]. do 4 right. exists i, o. done. }
  exists (make_desc (geom len) i t). rewrite mounted_desc by done. rewrite Et.
  destruct (make_desc_fields (geom len) i t Ht ltac:(lia)) as (Eb & Ei & Eit & Ef). rewrite Eb, Ei, Eit.
  split_and!; [done..| | |].
  - change (8192 * i + extra i + 1) with (in_group i 1). rewrite HR, content_group by lia. done.
  - change (8192 * i + extra i + 2) with (in_group i 2). rewrite HR, content_group by lia. done.
  - intros j Hj. change inode_table_blocks with 128 in Hj.
    replace (8192 * i + extra i + 3 + j) with (in_group i (j + 3)) by (unfold in_group; lia).
    rewrite HR, content_group by lia. by rewrite !(proj2 (Z.eqb_neq _ _)) by lia.
Qed.

(** C25: for every size from 1 to 256 megabytes and every partition start that
    keeps it below sector 2^24, where the driver's writes and reads still mean
    the same sector, mkfs followed by read_fs succeeds and mounts the file
    system mkfs describes:
    the superblock it made, its number of groups, and for each group
    descriptors that point to the bitmaps and to the zeroed inode table mkfs
    wrote on the disk. *)
Theorem mkfs_read_fs mb len mem (s : ext2 D) d :
  0 <= mb -> 1 <= len <= 256 -> mb * 2048 + 540672 <= DRIVE_SECTORS ->
  (32 * Z.to_nat ((len * 1024 + 8191) `div` 8192) <= length mem)%nat ->
  get Struct.s_log_block_size (super s) = 0 -> length (bgdt s) = Z.to_nat 32768 ->
  exists d' v s', mkfs 2 mb len (Some mem) d = Some (calculate_block_groups len, d') /\
    read_fs mb (set_dev d' s) = Some (v, s') /\ fresh_fs mb len v s'.
Proof.
  intros Hmb Hlen Hfit Hm Hlog Hbg.
  destruct (mkfs_then_read mb len mem s d) as (d' & v & s' & E & Er & Hf & _); [done..|]. by exists d', v, s'.
Qed.

Lemma block_bitmap_ok i : bitmap_ok (block_bitmap i).
Proof.
  split; [apply length_block_bitmap|]. unfold block_bitmap. apply Forall_app; split; [|apply Forall_cons; split].
  - apply Forall_replicate. unfold is_byte. lia.
  - unfold is_byte. destruct (i <? 2); lia.
  - apply Forall_replicate. unfold is_byte. lia.
Qed.

Lemma free_blocks_group0 len : 1 <= len <= 256 ->
  u16 (free_blocks_in_group (geom len) 0 (has_backup 0)) ≠ 0.
Proof.
  intros Hlen. destruct (groups_bound len Hlen) as (Hg & _ & _ & Hl). fold (geom len) in *. unfold groups in Hg.
  unfold free_blocks_in_group. change (has_backup 0) with true. change reserved_blocks_per_group with 130.
  unfold EXT2_BLOCKS_PER_GROUP. rewrite (u32_small (_ - 1)) by lia. destruct (0 =? _); rewrite u32_small, u16_small; lia.
Qed.

Lemma fresh_balloc_ok mb len T d (s : ext2 D) :
  0 <= mb -> 1 <= len <= 256 -> mb * 2048 + 540672 <= DRIVE_SECTORS -> length (bgdt (mounted len T d s)) = Z.to_nat 32768 ->
  @balloc_ok D (vol_dev mb) (mounted len T d s).
Proof.
  intros Hmb Hlen Hfit Hb. pose proof (groups_bound len Hlen) as (Hg & _).
  pose proof (make_super_fields (geom len) 0) as (_ & _ & Ebp & Eip & _).
  split; cbn [super mounted n_block_groups]; [apply length_make_super|exact Hb|unfold groups in *; lia|rewrite Ebp; lia|rewrite Eip; lia|].
  unfold meta. cbn [super mounted]. rewrite Ebp. forall_cons ltac:(apply vol_ok; [done..|lia]).
Qed.

(** The block bitmap mkfs writes does not cover the boot block, so that it
    leaves the last block of the first inode table marked free: the first
    reserve_free_block after mkfs and read_fs hands out block 132, inside the
    inode table of group 0. *)
Theorem mkfs_first_block mb len mem (s : ext2 D) d :
  0 <= mb -> 1 <= len <= 256 -> mb * 2048 + 540672 <= DRIVE_SECTORS ->
  (32 * Z.to_nat ((len * 1024 + 8191) `div` 8192) <= length mem)%nat ->
  get Struct.s_log_block_size (super s) = 0 -> length (bgdt s) = Z.to_nat 32768 ->
  exists d' v s' t s2, mkfs 2 mb len (Some mem) d = Some (calculate_block_groups len, d') /\
    read_fs mb (set_dev d' s) = Some (v, s') /\ group_desc s' 0 = Some t /\
    @reserve_free_block D (vol_dev mb) s' = Some (Some 132, s2) /\
    get bg_inode_table t <= 132 < get bg_inode_table t + inode_table_blocks.
Proof.
  intros Hmb Hlen Hfit Hm Hlog Hbg. pose proof (groups_bound len Hlen) as (Hg & _).
  destruct (mkfs_then_read mb len mem s d) as (d' & v & s' & E & Er & Hf & Hb & T & HF & Es); [done..|].
  pose proof (make_super_fields (calculate_block_groups len) 0) as (_ & _ & Ebp & _).
  pose proof (fresh_balloc_ok mb len T (dev s') s Hmb Hlen Hfit) as Hok. rewrite <- Es in Hok. specialize (Hok Hb).
  destruct (ff_desc _ _ _ _ Hf 0) as (t & Et & Eb & _ & Eit & Ef & _); [rewrite Es; cbn [n_block_groups mounted]; lia|].
  assert (t = group0 s') as -> by (rewrite group0_desc in Et; congruence).
  assert (@bd_read D (vol_dev mb) 3 (dev s') = Some (block_bitmap 0)) as R3.
  { change 3 with (in_group 0 1). rewrite HF; [by rewrite content_group|unfold in_group, extra; cbn; lia|].
    do 4 right. exists 0, 1. split_and!; unfold groups in *; lia || done. }
  change (8192 * 0 + extra 0 + 1) with 3 in Eb. change (8192 * 0 + extra 0 + 3) with 5 in Eit.
  destruct (@reserve_block_spec D (vol_dev mb) s' 0 (group0 s') (block_bitmap 0) 132 (block_bitmap 0)) as (s2 & E2 & _).
  - exact Hok.
  - split; [pose proof (bo_groups s' Hok); lia|]. split_and!; [done| |lia]. rewrite Ef. by apply free_blocks_group0.
  - by rewrite Eb.
  - apply block_bitmap_ok.
  - apply least_clear_by; [lia|by vm_compute..].
  - rewrite (ff_super _ _ _ _ Hf), Ebp. lia.
  - rewrite Eb. by apply vol_ok.
  - rewrite Eb. unfold meta. rewrite (ff_super _ _ _ _ Hf), Ebp. decided.
  - by rewrite Eb.
  - apply block_bitmap_ok.
  - exists d', v, s', (group0 s'), s2. split_and!; try done; rewrite Eit; by vm_compute.
Qed.
End Claims.

Definition blank_fs : ext2 (gmap Z (list Z)) := mk_ext2 _ (replicate 1024 0) (replicate (Z.to_nat 32768) 0) 0 ∅.

Lemma blank_table : length (bgdt blank_fs) = Z.to_nat 32768.
Proof. apply length_replicate. Qed.

(** On the ATA driver. *)
Definition blank_ata : ext2 Ata.drive := mk_ext2 _ (replicate 1024 0) (replicate (Z.to_nat 32768) 0) 0 Ata.blank_drive.

Lemma blank_ata_table : length (bgdt blank_ata) = Z.to_nat 32768.
Proof. apply length_replicate. Qed.

Lemma mkfs_read_fs_witness :
  exists d' v s', mkfs 2 0 8 (Some (replicate 32 7)) Ata.blank_drive = Some (calculate_block_groups 8, d') /\
    read_fs 0 (set_dev d' blank_ata) = Some (v, s') /\ fresh_fs 0 8 v s'.
Proof.
  apply (mkfs_read_fs 0 8 (replicate 32 7) blank_ata Ata.blank_drive).
  - lia.
  - lia.
  - lia.
  - nat_le.
  - by vm_compute.
  - apply blank_ata_table.
Defined.

Lemma mkfs_first_block_witness :
  exists d' v s' t s2, mkfs 2 0 8 (Some (replicate 32 7)) (∅ : gmap Z (list Z)) = Some (calculate_block_groups 8, d') /\
    read_fs 0 (set_dev d' blank_fs) = Some (v, s') /\ group_desc s' 0 = Some t /\
    @reserve_free_block _ (vol_dev 0) s' = Some (Some 132, s2) /\
    get bg_inode_table t <= 132 < get bg_inode_table t + inode_table_blocks.
Proof.
  apply (mkfs_first_block 0 8 (replicate 32 7) blank_fs ∅).
  - lia.
  - lia.
  - lia.
  - nat_le.
  - by vm_compute.
  - apply blank_table.
Defined.
