(* ===== verification/Buffer.v ===== *)
(** * The buffer cache (fs/buffer.c, include/buffer.h)

    Buffer heads live in a map; their two link fields and the heads of the hash
    queues and of the free list are the nodes of one link store.  The disk is
    any [BlockDev].  Sleeping is a busy loop in the code: [getblk] runs out of
    fuel when it would wait for another process. *)

From S2P Require Export Lists Disk.

Inductive bnode := HashHead (i : Z) | FreeHead | BHash (b : Z) | BFree (b : Z).

#[export] Instance bnode_eq_dec : EqDecision bnode.
Proof. solve_decision. Defined.

#[export] Instance bnode_countable : Countable bnode.
Proof.
  refine (inj_countable'
    (fun n => match n with HashHead i => inl (inl i) | FreeHead => inl (inr tt)
                         | BHash b => inr (inl b) | BFree b => inr (inr b) end)
    (fun s : (Z + unit) + (Z + Z) =>
       match s with inl (inl i) => HashHead i | inl (inr _) => FreeHead
                  | inr (inl b) => BHash b | inr (inr b) => BFree b end) _).
  by intros [].
Defined.

Definition DEV_NO : Z := 4.
Definition BUFFERS : nat := 100.
Definition BUFFER_SIZE : nat := 1024.
Definition BH_lock : Z := 1.
Definition BH_dirty : Z := 2.
Definition BH_uptodate : Z := 4.
Definition BH_delay : Z := 8.
Definition BH_old : Z := 32.

Definition hash_fn (bno devno : Z) : Z := Z.rem bno devno.

Record buffer_head := mk_bh { flags : Z; b_count : Z; b_data : list Z; b_dev : Z; b_blocknr : Z }.

Record buffer_cache {B : Type} := mk_cache {
  bufs : gmap Z buffer_head;
  links : gmap bnode (list_head bnode);
  disk : B
}.
Arguments buffer_cache : clear implicits.

Definition set_bflags (f : Z) (b : buffer_head) : buffer_head :=
  mk_bh f (b_count b) (b_data b) (b_dev b) (b_blocknr b).
Definition set_data (x : list Z) (b : buffer_head) : buffer_head :=
  mk_bh (flags b) (b_count b) x (b_dev b) (b_blocknr b).

Section Buffer.
Context {B : Type} `{!BlockDev B}.
Implicit Types c : buffer_cache B.

Definition upd_buf (b : Z) (f : buffer_head -> buffer_head) c : option (buffer_cache B) :=
  bh ← bufs c !! b; Some (mk_cache _ (<[b := f bh]> (bufs c)) (links c) (disk c)).

Definition on_links c (f : gmap bnode (list_head bnode) -> option (gmap bnode (list_head bnode)))
  : option (buffer_cache B) :=
  st ← f (links c); Some (mk_cache _ (bufs c) st (disk c)).

Definition set_flag (f : Z) (b : buffer_head) : buffer_head := set_bflags (Z.lor (flags b) f) b.
Definition clear_flag (f : Z) (b : buffer_head) : buffer_head := set_bflags (Z.land (flags b) (Z.lnot f)) b.

Definition locked_buffer (b : Z) c : option (buffer_cache B) := upd_buf b (set_flag BH_lock) c.
Definition unlocked_buffer (b : Z) c : option (buffer_cache B) := upd_buf b (clear_flag BH_lock) c.

(** ** Set-up *)

(** [kmalloc(BUFFER_SIZE)] may fail; [data] is the memory it returns. *)
Definition binit (b dev blocknr : Z) (data : option (list Z)) c : option (buffer_cache B) :=
  bh ← bufs c !! b;
  match data with
  | None => Some (mk_cache _ (<[b := mk_bh 0 (b_count bh) [] (b_dev bh) (b_blocknr bh)]> (bufs c)) (links c) (disk c))
  | Some data =>
      let c := mk_cache _ (<[b := mk_bh 0 0 data dev blocknr]> (bufs c)) (links c) (disk c) in
      c ← on_links c (INIT_LIST_NULL (BHash b));
      on_links c (INIT_LIST_NULL (BFree b))
  end.

Fixpoint init_heads (i : Z) (n : nat) (st : gmap bnode (list_head bnode)) : option (gmap bnode (list_head bnode)) :=
  match n with
  | O => Some st
  | S n => st ← INIT_LIST_HEAD (HashHead i) st; init_heads (i + 1) n st
  end.

(** The allocations of the loop: for each buffer its address and its data. *)
Fixpoint add_buffers (iCnt : Z) (allocs : list (Z * list Z)) c : option (buffer_cache B) :=
  match allocs with
  | [] => Some c
  | (b, data) :: allocs =>
      let c := mk_cache _ (<[b := mk_bh 0 0 [] 0 0]> (bufs c))
                 (<[BHash b := mk_list_head None None]> (<[BFree b := mk_list_head None None]> (links c))) (disk c) in
      c ← binit b DEV_NO iCnt (Some data) c;
      c ← on_links c (list_add (HashHead (hash_fn iCnt DEV_NO)) (BHash b));
      c ← on_links c (list_add FreeHead (BFree b));
      add_buffers (iCnt + 1) allocs c
  end.

Definition create_buffer_cache (allocs : list (Z * list Z)) c : option (buffer_cache B) :=
  st ← init_heads 0 (Z.to_nat DEV_NO) (links c);
  st ← INIT_LIST_HEAD FreeHead st;
  add_buffers 0 allocs (mk_cache _ (bufs c) st (disk c)).

(** ** Lookup *)

Fixpoint search_walk (fuel : nat) (head pos : bnode) (dev_no blocknr : Z) c : option (option Z) :=
  match fuel with
  | O => None
  | S fuel =>
      if decide (pos = head) then Some None
      else
        match pos with
        | BHash b =>
            bh ← bufs c !! b;
            if (b_blocknr bh =? blocknr) && (b_dev bh =? dev_no) then Some (Some b)
            else p ← next_of (links c) pos; search_walk fuel head p dev_no blocknr c
        | _ => None
        end
  end.

Definition search_hash (dev_no blocknr : Z) c : option (option Z) :=
  let head := HashHead (hash_fn blocknr dev_no) in
  p ← next_of (links c) head;
  search_walk (S (size (links c))) head p dev_no blocknr c.

(** ** Getting a buffer *)

Definition buf_entry (n : bnode) : option Z := match n with BFree b => Some b | _ => None end.

(** [fuel] bounds the rounds of the [while (1)] loop. *)
Fixpoint getblk (fuel : nat) (dev_no blocknr : Z) c : option (Z * buffer_cache B) :=
  match fuel with
  | O => None
  | S fuel =>
      r ← search_hash dev_no blocknr c;
      match r with
      | Some b =>
          bh ← bufs c !! b;
          if has_flag (flags bh) BH_lock then getblk fuel dev_no blocknr c
          else
            c ← on_links c (list_del (BFree b));
            c ← locked_buffer b c;
            Some (b, c)
      | None =>
          e ← list_is_empty FreeHead (links c);
          if (e : bool) then getblk fuel dev_no blocknr c
          else
            n ← next_of (links c) FreeHead;
            b ← buf_entry n;
            c ← on_links c (list_del (BFree b));
            bh ← bufs c !! b;
            if has_flag (flags bh) BH_delay then
              d ← bd_write (b_blocknr bh) (b_data bh) (disk c);
              let c := mk_cache _ (bufs c) (links c) d in
              c ← upd_buf b (clear_flag BH_delay) c;
              c ← on_links c (list_add FreeHead (BFree b));
              getblk fuel dev_no blocknr c
            else
              c ← on_links c (list_del (BHash b));
              c ← upd_buf b (fun bh => mk_bh 0 (b_count bh) (b_data bh) dev_no blocknr) c;
              c ← on_links c (list_add (HashHead (hash_fn blocknr dev_no)) (BHash b));
              c ← locked_buffer b c;
              Some (b, c)
      end
  end.

Definition brelse (b : Z) c : option (buffer_cache B) :=
  bh ← bufs c !! b;
  c ← (if negb (has_flag (flags bh) BH_dirty) && negb (has_flag (flags bh) BH_old)
       then on_links c (list_add_tail FreeHead (BFree b))
       else on_links c (list_add FreeHead (BFree b)));
  unlocked_buffer b c.

(** [None] in the result is the null pointer. *)
Definition bread (fuel : nat) (dev_no blocknr : Z) c : option (option Z * buffer_cache B) :=
  '(b, c) ← getblk fuel dev_no blocknr c;
  bh ← bufs c !! b;
  if has_flag (flags bh) BH_uptodate then c ← unlocked_buffer b c; Some (Some b, c)
  else
    match bd_read (b_blocknr bh) (disk c) with
    | None => c ← brelse b c; Some (None, c)
    | Some data =>
        c ← upd_buf b (set_data data) c;
        c ← upd_buf b (set_flag BH_uptodate) c;
        c ← upd_buf b (clear_flag BH_dirty) c;
        c ← unlocked_buffer b c;
        Some (Some b, c)
    end.

(** The result of the write is ignored. *)
Definition bwrite (b : Z) c : option (buffer_cache B) :=
  c ← locked_buffer b c;
  bh ← bufs c !! b;
  d ← bd_write (b_blocknr bh) (b_data bh) (disk c);
  let c := mk_cache _ (bufs c) (links c) d in
  c ← upd_buf b (clear_flag BH_dirty) c;
  c ← unlocked_buffer b c;
  brelse b c.

(** ** Representation *)

(** [fs]: the free list in order; [hs i]: hash queue [i]. *)
Record cache_rep c (fs : list Z) (hs : Z -> list Z) : Prop := {
  cr_free : dlist (links c) FreeHead (BFree <$> fs);
  cr_hash i : 0 <= i < DEV_NO -> dlist (links c) (HashHead i) (BHash <$> hs i);
  cr_queue i b : 0 <= i < DEV_NO -> b ∈ hs i <->
    exists bh, bufs c !! b = Some bh /\ hash_fn (b_blocknr bh) DEV_NO = i;
  cr_buf b bh : bufs c !! b = Some bh ->
    b_dev bh = DEV_NO /\ 0 <= b_blocknr bh /\ bd_ok (b_blocknr bh) /\ length (b_data bh) = BUFFER_SIZE;
  cr_unique b b' bh bh' : bufs c !! b = Some bh -> bufs c !! b' = Some bh' ->
    b_blocknr bh = b_blocknr bh' -> b = b';
  cr_onfree b : b ∈ fs -> exists bh, bufs c !! b = Some bh /\ has_flag (flags bh) BH_lock = false;
  cr_busy b : is_Some (bufs c !! b) -> b ∉ fs -> dlist (links c) (BFree b) []
}.

(** A buffer marked valid holds its block unless it waits to be written or is in
    [X], the buffers their users are changing; only valid buffers wait. *)
Definition coherent_out (X : Z -> Prop) c : Prop :=
  forall b bh, bufs c !! b = Some bh ->
    (has_flag (flags bh) BH_delay = true -> has_flag (flags bh) BH_uptodate = true) /\
    (~ X b -> has_flag (flags bh) BH_uptodate = true -> has_flag (flags bh) BH_delay = false ->
     bd_read (b_blocknr bh) (disk c) = Some (b_data bh)).

Definition coherent c : Prop := coherent_out (fun _ => False) c.

(** Coherent but for the contents of one buffer. *)
Definition coherent_but (b0 : Z) c : Prop := coherent_out (fun b => b = b0) c.

Lemma coherent_out_weaken (X Y : Z -> Prop) c : coherent_out X c -> (forall b, X b -> Y b) -> coherent_out Y c.
Proof. intros Hc HXY b bh Eb. destruct (Hc b bh Eb) as [H1 H2]. split; [done|]. intros Hy. apply H2. naive_solver. Qed.

(** What a reader of block [n] is to see. *)
Definition holds c (n : Z) (data : list Z) : Prop :=
  (exists b bh, bufs c !! b = Some bh /\ b_blocknr bh = n /\
     has_flag (flags bh) BH_uptodate = true /\ b_data bh = data) \/
  ((forall b bh, bufs c !! b = Some bh -> b_blocknr bh = n -> has_flag (flags bh) BH_uptodate = false) /\
   bd_read n (disk c) = Some data).

Lemma hash_fn_range n : 0 <= n -> 0 <= hash_fn n DEV_NO < DEV_NO.
Proof. intros. unfold hash_fn, DEV_NO. rewrite Z.rem_mod_nonneg by lia. apply Z.mod_pos_bound. lia. Qed.

(** *** Lookup finds the one buffer of a block *)

Lemma search_walk_spec c h n xs : forall fuel a,
  lseg (links c) a (BHash <$> xs) h -> h ∉ BHash <$> xs -> (length xs < fuel)%nat ->
  (forall b, b ∈ xs -> exists bh, bufs c !! b = Some bh /\ b_dev bh = DEV_NO) ->
  exists r, search_walk fuel h (hd h (BHash <$> xs)) DEV_NO n c = Some r /\
    match r with
    | Some b => b ∈ xs /\ exists bh, bufs c !! b = Some bh /\ b_blocknr bh = n
    | None => forall b bh, b ∈ xs -> bufs c !! b = Some bh -> b_blocknr bh ≠ n
    end.
Proof.
  induction xs as [|b xs IH]; intros fuel a Hl Hh Hf Hx; (destruct fuel as [|fuel]; [simpl in Hf; lia|]);
    cbn [fmap list_fmap hd search_walk].
  { rewrite decide_True by done. exists None. split; [done|]. intros b bh Hb. by apply elem_of_nil in Hb. }
  rewrite fmap_cons in Hl, Hh. apply not_elem_of_cons in Hh as [Hne Hh]. rewrite decide_False by done.
  destruct (Hx b) as (bh & Eb & Hd); [by left|]. rewrite Eb. cbn [mbind option_bind]. rewrite Hd.
  replace (DEV_NO =? DEV_NO) with true by done. rewrite andb_true_r.
  destruct (Z.eqb_spec (b_blocknr bh) n) as [Hn|Hn].
  { exists (Some b). split; [done|]. split; [by left|]. by exists bh. }
  cbn [lseg] in Hl. destruct Hl as (_ & _ & Hl). rewrite (lseg_first _ _ _ _ Hl). cbn [mbind option_bind].
  destruct (IH fuel (BHash b) Hl Hh) as (r & E & Hr); [simpl in Hf; lia|intros b' Hb'; apply Hx; by right|].
  exists r. split; [exact E|]. destruct r as [b'|].
  - destruct Hr as [Hin Hr]. split; [by right|done].
  - intros b' bh' [->|Hb']%elem_of_cons; [|by apply Hr]. intros ?. congruence.
Qed.

Lemma search_hash_spec c fs hs n :
  cache_rep c fs hs -> 0 <= n ->
  exists r, search_hash DEV_NO n c = Some r /\
    match r with
    | Some b => exists bh, bufs c !! b = Some bh /\ b_blocknr bh = n
    | None => forall b bh, bufs c !! b = Some bh -> b_blocknr bh ≠ n
    end.
Proof.
  intros Hc Hn. pose proof (hash_fn_range n Hn) as Hi. set (i := hash_fn n DEV_NO) in *.
  pose proof (cr_hash _ _ _ Hc i Hi) as Hr. pose proof (dlist_size _ _ _ Hr) as Hsz. rewrite length_fmap in Hsz.
  destruct Hr as [Hnd Hl]. apply NoDup_cons in Hnd as [Hh _]. unfold search_hash. fold i.
  rewrite (lseg_first _ _ _ _ Hl). cbn [mbind option_bind].
  destruct (search_walk_spec c (HashHead i) n (hs i) (S (size (links c))) (HashHead i)) as (r & E & Hr); [done..|lia| |].
  { intros b Hb. apply (cr_queue _ _ _ Hc) in Hb as (bh & Eb & _); [|done]. exists bh. split; [done|].
    by apply (cr_buf _ _ _ Hc) in Eb as (? & _). }
  exists r. split; [exact E|]. destruct r as [b|]; [by destruct Hr|].
  intros b bh Eb Hbn. apply (Hr b bh); [|done..]. apply (cr_queue _ _ _ Hc); [done|].
  exists bh. split; [done|]. by rewrite Hbn.
Qed.

(** *** Changes of one buffer head *)

Lemma upd_buf_some b f c bh :
  bufs c !! b = Some bh -> upd_buf b f c = Some (mk_cache _ (<[b := f bh]> (bufs c)) (links c) (disk c)).
Proof. intros E. unfold upd_buf. by rewrite E. Qed.

Lemma on_links_some c f st : f (links c) = Some st -> on_links c f = Some (mk_cache _ (bufs c) st (disk c)).
Proof. intros E. unfold on_links. by rewrite E. Qed.

(** Flags and data may change, the identity of the block may not. *)
Lemma rep_upd c fs hs b bh bh' d :
  cache_rep c fs hs -> bufs c !! b = Some bh ->
  b_dev bh' = b_dev bh -> b_blocknr bh' = b_blocknr bh -> length (b_data bh') = length (b_data bh) ->
  (b ∈ fs -> has_flag (flags bh') BH_lock = false) ->
  cache_rep (mk_cache _ (<[b := bh']> (bufs c)) (links c) d) fs hs.
Proof.
  intros [H1 H2 H3 H4 H5 H6 H7] Eb Hdev Hblk Hlen Hlk. constructor; cbn [links bufs disk]; try done.
  - intros i x Hi. rewrite H3 by done. split; intros (bx & Ex & Hx).
    + destruct (decide (x = b)) as [->|]; [|exists bx; by rewrite lookup_insert_ne].
      exists bh'. rewrite lookup_insert_eq, Hblk. split; [done|]. congruence.
    + destruct (decide (x = b)) as [->|]; [|exists bx; by rewrite lookup_insert_ne in Ex].
      rewrite lookup_insert_eq in Ex. injection Ex as <-. exists bh. by rewrite <- Hblk.
  - intros x bx Ex. destruct (decide (x = b)) as [->|]; [|rewrite lookup_insert_ne in Ex by done; eauto].
    rewrite lookup_insert_eq in Ex. injection Ex as <-. rewrite Hdev, Hblk, Hlen. by eapply H4.
  - intros x y bx by' Ex Ey Hxy.
    destruct (decide (x = b)) as [->|], (decide (y = b)) as [->|]; [done|..];
      rewrite ?lookup_insert_eq, ?lookup_insert_ne in Ex by done;
      rewrite ?lookup_insert_eq, ?lookup_insert_ne in Ey by done.
    + injection Ex as <-. rewrite Hblk in Hxy. by apply (H5 b y bh by').
    + injection Ey as <-. rewrite Hblk in Hxy. by apply (H5 x b bx bh).
    + by apply (H5 x y bx by').
  - intros x Hx. destruct (decide (x = b)) as [->|]; [|rewrite lookup_insert_ne by done; by apply H6].
    exists bh'. rewrite lookup_insert_eq. split; [done|]. by apply Hlk.
  - intros x Hx Hnx. apply H7; [|done]. destruct (decide (x = b)) as [->|]; [by exists bh|].
    by rewrite lookup_insert_ne in Hx.
Qed.

(** *** The free list *)

Lemma BFree_not_in b xs : b ∉ xs -> BFree b ∉ FreeHead :: (BFree <$> xs).
Proof. intros Hb [?|Hin]%elem_of_cons; [done|]. apply list_elem_of_fmap in Hin as (y & [= ->] & ?). done. Qed.

(** A change of links confined to the free list and the free link of [b]. *)
Lemma rep_free_links c fs fs' hs b st :
  cache_rep c fs hs -> is_Some (bufs c !! b) ->
  (forall x, x ≠ b -> x ∈ fs' <-> x ∈ fs) ->
  dlist st FreeHead (BFree <$> fs') -> (b ∉ fs' -> dlist st (BFree b) []) ->
  (forall y, y ∉ BFree b :: FreeHead :: (BFree <$> fs) -> st !! y = links c !! y) ->
  (b ∈ fs' -> exists bh, bufs c !! b = Some bh /\ has_flag (flags bh) BH_lock = false) ->
  cache_rep (mk_cache _ (bufs c) st (disk c)) fs' hs.
Proof.
  intros [H1 H2 H3 H4 H5 H6 H7] Hb Hfs Hd Hself Hframe Hlk. constructor; cbn [links bufs disk]; try done.
  - intros i Hi. eapply dlist_frame; [|by apply H2]. intros y Hy. apply Hframe.
    apply elem_of_cons in Hy as [->|Hy].
    + rewrite !not_elem_of_cons. split_and!; [done..|]. intros (z & ? & _)%list_elem_of_fmap. done.
    + apply list_elem_of_fmap in Hy as (z & -> & _). rewrite !not_elem_of_cons. split_and!; [done..|].
      intros (w & ? & _)%list_elem_of_fmap. done.
  - intros x Hx. destruct (decide (x = b)) as [->|Hne]; [by apply Hlk|]. apply H6. by apply Hfs.
  - intros x Hx Hnx. destruct (decide (x = b)) as [->|Hne]; [by apply Hself|].
    assert (x ∉ fs) as Hxf by (by rewrite <- Hfs). eapply dlist_frame; [|by apply H7].
    intros y Hy. apply list_elem_of_singleton in Hy as ->. apply Hframe. apply not_elem_of_cons.
    split; [congruence|]. by apply BFree_not_in.
Qed.

Lemma NoDup_remove_mid (l1 l2 : list Z) b : NoDup (l1 ++ b :: l2) -> b ∉ l1 ++ l2.
Proof.
  intros (_ & H12 & [H2 _]%NoDup_cons)%NoDup_app [H|H]%elem_of_app; [|done]. apply (H12 b H). by left.
Qed.

Lemma take_off_free c fs hs b bh :
  cache_rep c fs hs -> bufs c !! b = Some bh ->
  exists st, list_del (BFree b) (links c) = Some st /\
    cache_rep (mk_cache _ (bufs c) st (disk c)) (filter (fun x => x ≠ b) fs) hs.
Proof.
  intros Hc Eb. pose proof (cr_free _ _ _ Hc) as Hd.
  destruct (decide (b ∈ fs)) as [Hin|Hin].
  - apply list_elem_of_split in Hin as (l1 & l2 & ->). rewrite fmap_app, fmap_cons in Hd.
    destruct (list_del_spec _ _ _ _ _ Hd) as (st & E & _ & Hd' & Hself & Hf). exists st. split; [done|].
    assert (NoDup (l1 ++ b :: l2)) as Hnd.
    { destruct Hd as [Hnd _]. apply NoDup_cons in Hnd as [_ Hnd]. rewrite <- fmap_cons, <- fmap_app in Hnd.
      by apply NoDup_fmap_1 in Hnd. }
    rewrite (filter_remove_mid l1 b l2 Hnd). apply NoDup_remove_mid in Hnd.
    apply (rep_free_links c (l1 ++ b :: l2) (l1 ++ l2) hs b st); [done|by exists bh| | |done| |].
    + intros x Hx. rewrite !elem_of_app, elem_of_cons. tauto.
    + by rewrite fmap_app.
    + intros y Hy. apply Hf. rewrite fmap_app, fmap_cons in Hy. by apply not_elem_of_cons in Hy as [_ Hy].
    + by intros ?%Hnd.
  - rewrite list_del_self by (apply (cr_busy _ _ _ Hc); [by exists bh|done]). eexists. split; [done|].
    rewrite list_filter_all by (apply Forall_forall; intros ? ? ->; done). by destruct c.
Qed.

Lemma put_on_free c fs hs b bh (front : bool) :
  cache_rep c fs hs -> bufs c !! b = Some bh -> b ∉ fs ->
  exists st, (if front then list_add FreeHead (BFree b) (links c) else list_add_tail FreeHead (BFree b) (links c))
    = Some st /\
    (has_flag (flags bh) BH_lock = false ->
     cache_rep (mk_cache _ (bufs c) st (disk c)) (if front then b :: fs else fs ++ [b]) hs).
Proof.
  intros Hc Eb Hin. pose proof (cr_free _ _ _ Hc) as Hd.
  assert (is_Some (links c !! BFree b)) as Hdom.
  { apply (dlist_in_dom _ (BFree b) []); [apply (cr_busy _ _ _ Hc); [by exists bh|done]|by left]. }
  assert (exists st, (if front then list_add FreeHead (BFree b) (links c) else list_add_tail FreeHead (BFree b) (links c))
            = Some st /\ dlist st FreeHead (BFree <$> (if front then b :: fs else fs ++ [b])) /\
            forall y, y ∉ BFree b :: FreeHead :: (BFree <$> fs) -> st !! y = links c !! y) as (st & E & Hd' & Hf).
  { destruct front.
    - destruct (list_add_spec _ _ _ (BFree b) Hd) as (st & E & _ & Hd' & Hf); [by apply BFree_not_in|done|]. by exists st.
    - destruct (list_add_tail_spec _ _ _ (BFree b) Hd) as (st & E & _ & Hd' & Hf); [by apply BFree_not_in|done|].
      exists st. by rewrite fmap_app. }
  exists st. split; [done|]. intros Hlk.
  apply (rep_free_links c fs _ hs b st); [done|by exists bh| |done| |done|by exists bh].
  - intros x Hx. destruct front; [rewrite elem_of_cons|rewrite elem_of_app, list_elem_of_singleton]; tauto.
  - intros Hnb. destruct Hnb. destruct front; set_solver.
Qed.

(** *** Moving a buffer to another block *)

Lemma hash_queues_disjoint c fs hs i j y :
  cache_rep c fs hs -> 0 <= i < DEV_NO -> 0 <= j < DEV_NO -> i ≠ j ->
  y ∈ HashHead i :: (BHash <$> hs i) -> y ∉ HashHead j :: (BHash <$> hs j).
Proof.
  intros Hc Hi Hj Hne Hy Hy'.
  apply elem_of_cons in Hy as [->|(b & -> & Hb)%list_elem_of_fmap];
    apply elem_of_cons in Hy' as [[= E]|(b' & [= E] & Hb')%list_elem_of_fmap]; [done|].
  subst b'. apply (cr_queue _ _ _ Hc) in Hb as (bh & E & Hh); [|done].
  apply (cr_queue _ _ _ Hc) in Hb' as (bh' & E' & Hh'); [|done]. congruence.
Qed.

Lemma unhash c fs hs b bh :
  cache_rep c fs hs -> bufs c !! b = Some bh ->
  exists st, list_del (BHash b) (links c) = Some st /\
    (forall i, 0 <= i < DEV_NO -> dlist st (HashHead i) (BHash <$> filter (fun x => x ≠ b) (hs i))) /\
    (forall y, (forall i, y ≠ HashHead i) -> (forall x, y ≠ BHash x) -> st !! y = links c !! y) /\
    is_Some (st !! BHash b).
Proof.
  intros Hc Eb. set (i0 := hash_fn (b_blocknr bh) DEV_NO).
  assert (0 <= i0 < DEV_NO) as Hi0 by (apply hash_fn_range; by apply (cr_buf _ _ _ Hc) in Eb as (_ & ? & _)).
  assert (b ∈ hs i0) as Hin by (apply (cr_queue _ _ _ Hc); [done|by exists bh]).
  pose proof (cr_hash _ _ _ Hc i0 Hi0) as Hd. apply list_elem_of_split in Hin as (l1 & l2 & E0).
  assert (NoDup (hs i0)) as Hnd.
  { destruct Hd as [Hnd _]. apply NoDup_cons in Hnd as [_ Hnd]. by apply NoDup_fmap_1 in Hnd. }
  pose proof Hd as Hd'. rewrite E0, fmap_app, fmap_cons in Hd'.
  destruct (list_del_spec _ _ _ _ _ Hd') as (st & E & _ & Hd1 & Hself & Hf). exists st.
  rewrite <- fmap_cons, <- fmap_app, <- E0 in Hf. split_and!; [done| | |].
  - intros i Hi. destruct (decide (i = i0)) as [->|Hne].
    + rewrite E0 in Hnd |- *. rewrite (filter_remove_mid l1 b l2 Hnd). by rewrite fmap_app.
    + rewrite list_filter_all.
      2:{ apply Forall_forall. intros x Hx ->. apply (cr_queue _ _ _ Hc) in Hx as (bh' & E' & Hh); [|done].
          unfold i0 in Hne. congruence. }
      eapply dlist_frame; [|by apply (cr_hash _ _ _ Hc)]. intros y Hy. apply Hf.
      by apply (hash_queues_disjoint c fs hs i i0).
  - intros y H1 H2. apply Hf. intros [?|(x & ? & _)%list_elem_of_fmap]%elem_of_cons; [by eapply H1|by eapply H2].
  - eapply dlist_in_dom; [exact Hself|by left].
Qed.

Lemma rehash c fs hs b bh bh' n :
  cache_rep c fs hs -> bufs c !! b = Some bh -> b ∉ fs -> 0 <= n -> bd_ok n ->
  (forall x bx, bufs c !! x = Some bx -> b_blocknr bx ≠ n) ->
  b_dev bh' = DEV_NO -> b_blocknr bh' = n -> b_data bh' = b_data bh ->
  exists st1 st2 hs', list_del (BHash b) (links c) = Some st1 /\
    list_add (HashHead (hash_fn n DEV_NO)) (BHash b) st1 = Some st2 /\
    cache_rep (mk_cache _ (<[b := bh']> (bufs c)) st2 (disk c)) fs hs'.
Proof.
  intros Hc Eb Hb Hn Hok Hnew Hdev Hblk Hdata. pose proof (hash_fn_range n Hn) as Hi0.
  destruct (unhash c fs hs b bh Hc Eb) as (st1 & E1 & Hq & Hf1 & Hdom). set (i0 := hash_fn n DEV_NO) in *.
  assert (forall i, BHash b ∉ HashHead i :: (BHash <$> filter (fun x => x ≠ b) (hs i))) as Hnb.
  { intros i [?|(x & [= ->] & Hx)%list_elem_of_fmap]%elem_of_cons; [done|]. by apply list_elem_of_filter in Hx as [? _]. }
  destruct (list_add_spec _ _ _ (BHash b) (Hq i0 Hi0) (Hnb i0) Hdom) as (st2 & E2 & _ & Hd2 & Hf2).
  exists st1, st2, (fun i => if decide (i = i0) then b :: filter (fun x => x ≠ b) (hs i) else filter (fun x => x ≠ b) (hs i)).
  split_and!; [done..|]. destruct Hc as [H1 H2 H3 H4 H5 H6 H7].
  assert (forall y, (forall i, y ≠ HashHead i) -> (forall x, y ≠ BHash x) -> st2 !! y = links c !! y) as Hf.
  { intros y Ha Hx. rewrite Hf2; [by apply Hf1|]. rewrite !not_elem_of_cons. split_and!; [done..|].
    intros (x & ? & _)%list_elem_of_fmap. by eapply Hx. }
  constructor; cbn [links bufs disk].
  - eapply dlist_frame; [|exact H1]. intros y Hy. apply elem_of_cons in Hy as [->|(x & -> & _)%list_elem_of_fmap]; by apply Hf.
  - intros i Hi. destruct (decide (i = i0)) as [->|Hne]; [done|]. eapply dlist_frame; [|by apply Hq].
    intros y Hy. apply Hf2. apply not_elem_of_cons. split; [intros ->; by apply (Hnb i)|].
    assert (forall k, y ∈ HashHead k :: (BHash <$> filter (fun x => x ≠ b) (hs k)) -> y ∈ HashHead k :: (BHash <$> hs k)) as Hsub.
    { intros k. rewrite !elem_of_cons, !list_elem_of_fmap. intros [?|(x & ? & Hx)]; [by left|right].
      exists x. apply list_elem_of_filter in Hx as [_ Hx]. done. }
    intros Hy'. apply Hsub in Hy, Hy'. by eapply (hash_queues_disjoint c fs hs i i0 y).
  - intros i x Hi. destruct (decide (x = b)) as [->|Hne].
    + rewrite lookup_insert_eq. split.
      * intros Hx. exists bh'. split; [done|]. rewrite Hblk. case_decide; [done|]. apply list_elem_of_filter in Hx as [? _]. done.
      * intros (bx & [= <-] & Hx). rewrite Hblk in Hx. rewrite decide_True by done. by left.
    + rewrite lookup_insert_ne by done. rewrite <- H3 by done. case_decide; rewrite ?elem_of_cons, list_elem_of_filter; tauto.
  - intros x bx Ex. destruct (decide (x = b)) as [->|]; [|rewrite lookup_insert_ne in Ex by done; eauto].
    rewrite lookup_insert_eq in Ex. injection Ex as <-. rewrite Hdev, Hblk, Hdata. split_and!; [done..|]. by eapply H4.
  - intros x y bx by' Ex Ey Hxy. destruct (decide (x = b)) as [->|], (decide (y = b)) as [->|]; [done|..];
      rewrite ?lookup_insert_eq, ?lookup_insert_ne in Ex by done; rewrite ?lookup_insert_eq, ?lookup_insert_ne in Ey by done.
    + injection Ex as <-. rewrite Hblk in Hxy. by destruct (Hnew y by').
    + injection Ey as <-. rewrite Hblk in Hxy. by destruct (Hnew x bx).
    + by apply (H5 x y bx by').
  - intros x Hx. rewrite lookup_insert_ne by congruence. by apply H6.
  - intros x Hx Hnx. eapply dlist_frame; [|apply H7; [|done]].
    + intros y Hy%list_elem_of_singleton. subst y. by apply Hf.
    + destruct (decide (x = b)) as [->|]; [by exists bh|]. by rewrite lookup_insert_ne in Hx.
Qed.

(** *** What readers see *)

Definition same_view c c' : Prop := forall m data, bd_ok m -> holds c m data -> holds c' m data.

Lemma flag_set f g v : has_flag (Z.lor v f) g = has_flag v g || has_flag f g.
Proof.
  unfold has_flag. rewrite Z.land_lor_distr_l.
  destruct (Z.eqb_spec (Z.lor (Z.land v g) (Z.land f g)) 0) as [E|E].
  - apply Z.lor_eq_0_iff in E as [-> ->]. done.
  - destruct (Z.eqb_spec (Z.land v g) 0) as [E1|]; [|done]. destruct (Z.eqb_spec (Z.land f g) 0) as [E2|]; [|done].
    by rewrite E1, E2 in E.
Qed.

Lemma flag_clear f g v : Z.land g (Z.lnot f) = g -> has_flag (Z.land v (Z.lnot f)) g = has_flag v g.
Proof. intros E. unfold has_flag. by rewrite <- Z.land_assoc, (Z.land_comm (Z.lnot f)), E. Qed.

Lemma flag_cleared f v : has_flag (Z.land v (Z.lnot f)) f = false.
Proof. unfold has_flag. rewrite <- Z.land_assoc, (Z.land_comm (Z.lnot f)), Z.land_lnot_diag, Z.land_0_r. done. Qed.

(** Flags other than valid and delayed are invisible. *)
Lemma view_upd c b bh bh' st :
  bufs c !! b = Some bh -> b_blocknr bh' = b_blocknr bh -> b_data bh' = b_data bh ->
  has_flag (flags bh') BH_uptodate = has_flag (flags bh) BH_uptodate ->
  has_flag (flags bh') BH_delay = has_flag (flags bh) BH_delay ->
  let c' := mk_cache _ (<[b := bh']> (bufs c)) st (disk c) in
  (forall X, coherent_out X c -> coherent_out X c') /\ same_view c c'.
Proof.
  intros Eb Hn Hd Hu Hw c'. split.
  - intros X Hc x bx. cbn [c' bufs disk]. destruct (decide (x = b)) as [->|]; [|rewrite lookup_insert_ne by done; exact (Hc x bx)].
    rewrite lookup_insert_eq. intros [= <-]. rewrite Hn, Hd, Hu, Hw. exact (Hc _ _ Eb).
  - intros m data _ [(x & bx & Ex & Hx)|[Hno Hr]].
    + left. destruct (decide (x = b)) as [->|]; [exists b, bh'|exists x, bx; cbn [c' bufs]; by rewrite lookup_insert_ne].
      rewrite Eb in Ex. injection Ex as <-. cbn [c' bufs]. rewrite lookup_insert_eq, Hn, Hd, Hu. done.
    + right. split; [|done]. intros x bx. cbn [c' bufs]. destruct (decide (x = b)) as [->|];
        [|rewrite lookup_insert_ne by done; exact (Hno x bx)]. rewrite lookup_insert_eq. intros [= <-]. rewrite Hn, Hu. exact (Hno _ _ Eb).
Qed.

(** Writing a valid buffer out. *)
Lemma view_write c b bh bh' d st :
  (forall x bx, bufs c !! x = Some bx -> bd_ok (b_blocknr bx)) ->
  (forall x bx, bufs c !! x = Some bx -> b_blocknr bx = b_blocknr bh -> x = b) ->
  bufs c !! b = Some bh -> b_blocknr bh' = b_blocknr bh -> b_data bh' = b_data bh ->
  has_flag (flags bh) BH_uptodate = true -> has_flag (flags bh') BH_uptodate = true ->
  bd_read (b_blocknr bh) d = Some (b_data bh) ->
  (forall m, bd_ok m -> m ≠ b_blocknr bh -> bd_read m d = bd_read m (disk c)) ->
  let c' := mk_cache _ (<[b := bh']> (bufs c)) st d in
  (forall X, coherent_out X c -> coherent_out X c') /\ same_view c c'.
Proof.
  intros Hok Huniq Eb Hn Hd Hu Hu' Hr Hf c'. split.
  - intros X Hc x bx. cbn [c' bufs disk]. destruct (decide (x = b)) as [->|].
    + rewrite lookup_insert_eq. intros [= <-]. rewrite Hn, Hd, Hu'. done.
    + rewrite lookup_insert_ne by done. intros Ex. rewrite Hf; [exact (Hc _ _ Ex)|by eapply Hok|].
      intros E. by apply (Huniq x bx) in Ex.
  - intros m data Hm [(x & bx & Ex & Hx)|[Hno Hm']].
    + left. destruct (decide (x = b)) as [->|]; [exists b, bh'|exists x, bx; cbn [c' bufs]; by rewrite lookup_insert_ne].
      rewrite Eb in Ex. injection Ex as <-. cbn [c' bufs]. rewrite lookup_insert_eq, Hn, Hd, Hu'. naive_solver.
    + assert (m ≠ b_blocknr bh) as Hne by (intros ->; rewrite (Hno b bh Eb eq_refl) in Hu; done).
      right. split; [|cbn [c' disk]; by rewrite Hf]. intros x bx. cbn [c' bufs]. destruct (decide (x = b)) as [->|];
        [|rewrite lookup_insert_ne by done; exact (Hno x bx)]. rewrite lookup_insert_eq. intros [= <-]. congruence.
Qed.

(** Giving a buffer that does not wait to be written another block. *)
Lemma view_reuse c b bh bh' st :
  (forall x bx, bufs c !! x = Some bx -> b_blocknr bx = b_blocknr bh -> x = b) ->
  (forall x bx, bufs c !! x = Some bx -> b_blocknr bx ≠ b_blocknr bh') ->
  bufs c !! b = Some bh -> has_flag (flags bh) BH_delay = false ->
  has_flag (flags bh') BH_uptodate = false -> has_flag (flags bh') BH_delay = false ->
  let c' := mk_cache _ (<[b := bh']> (bufs c)) st (disk c) in
  forall X, coherent_out X c -> ~ X b -> coherent_out X c' /\ same_view c c'.
Proof.
  intros Huniq Hnew Eb Hw Hu' Hw' c' X Hc HX. split.
  - intros x bx. cbn [c' bufs disk]. destruct (decide (x = b)) as [->|]; [|rewrite lookup_insert_ne by done; exact (Hc x bx)].
    rewrite lookup_insert_eq. intros [= <-]. rewrite Hu', Hw'. done.
  - assert (forall m, (forall x bx, bufs c !! x = Some bx -> b_blocknr bx = m -> x = b \/ has_flag (flags bx) BH_uptodate = false) ->
      forall x bx, bufs c' !! x = Some bx -> b_blocknr bx = m -> has_flag (flags bx) BH_uptodate = false) as Hmiss.
    { intros m Hm x bx. cbn [c' bufs]. destruct (decide (x = b)) as [->|];
        [rewrite lookup_insert_eq; by intros [= <-]|rewrite lookup_insert_ne by done]. intros Ex Hx. by destruct (Hm x bx Ex Hx). }
    intros m data _ [(x & bx & Ex & Hx & Hu & Hd)|[Hno Hm']].
    + destruct (decide (x = b)) as [->|]; [|left; exists x, bx; cbn [c' bufs]; by rewrite lookup_insert_ne].
      rewrite Eb in Ex. injection Ex as <-. right. split.
      * apply Hmiss. intros x bx Ex Hx'. left. apply (Huniq x bx Ex). congruence.
      * cbn [c' disk]. destruct (Hc _ _ Eb) as [_ Hr]. rewrite <- Hx, <- Hd. by apply Hr.
    + right. split; [|done]. apply Hmiss. intros x bx Ex Hx. right. by apply (Hno x bx).
Qed.

(** *** Getting a buffer *)

(** The buffer of block [n], or one that can be given to it, is free now. *)
Definition available c (fs : list Z) (n : Z) : Prop :=
  (exists b bh, bufs c !! b = Some bh /\ b_blocknr bh = n /\ has_flag (flags bh) BH_lock = false) \/
  ((forall b bh, bufs c !! b = Some bh -> b_blocknr bh ≠ n) /\ fs ≠ []).

(** Buffer [b] of [c'] is locked for block [n]; it is on no free list, and every
    block reads as before. *)
Record got (X : Z -> Prop) c (fs : list Z) (n b : Z) c' : Prop := {
  got_rep : exists hs, cache_rep c' (filter (fun x => x ≠ b) fs) hs;
  got_coherent : coherent_out X c';
  got_view : same_view c c';
  got_buf : exists bh, bufs c' !! b = Some bh /\ b_blocknr bh = n /\ has_flag (flags bh) BH_lock = true;
  got_others x : x ≠ b -> bufs c' !! x = bufs c !! x;
  got_from : b ∈ fs \/ exists bh, bufs c !! b = Some bh /\ b_blocknr bh = n
}.

Lemma not_in_filter b (l : list Z) : b ∉ filter (fun x => x ≠ b) l.
Proof. intros [? _]%list_elem_of_filter. done. Qed.

Lemma cr_one c fs hs b bh : cache_rep c fs hs -> bufs c !! b = Some bh ->
  forall x bx, bufs c !! x = Some bx -> b_blocknr bx = b_blocknr bh -> x = b.
Proof. intros Hc Eb x bx Ex E. by apply (cr_unique _ _ _ Hc x b bx bh). Qed.

Lemma getblk_hit fuel X c fs hs b bh :
  cache_rep c fs hs -> coherent_out X c -> bufs c !! b = Some bh -> has_flag (flags bh) BH_lock = false ->
  exists c', getblk (S fuel) DEV_NO (b_blocknr bh) c = Some (b, c') /\ got X c fs (b_blocknr bh) b c'.
Proof.
  intros Hc Hco Eb Hlk. pose proof (cr_buf _ _ _ Hc _ _ Eb) as (_ & Hn & _ & _).
  destruct (search_hash_spec c fs hs _ Hc Hn) as (r & Er & Hr). destruct r as [x|]; [|by destruct (Hr b bh)].
  destruct Hr as (bx & Ex & Hx). apply (cr_one c fs hs b bh Hc Eb x bx Ex) in Hx. subst x.
  destruct (take_off_free c fs hs b bh Hc Eb) as (st & Est & Hc1).
  cbn [getblk]. rewrite Er. cbn [mbind option_bind]. rewrite Eb. cbn [mbind option_bind]. rewrite Hlk.
  rewrite (on_links_some _ _ _ Est). cbn [mbind option_bind].
  unfold locked_buffer. rewrite (upd_buf_some b _ _ bh) by done. cbn [mbind option_bind bufs links disk].
  eexists. split; [done|].
  destruct (view_upd c b bh (set_flag BH_lock bh) st Eb) as [V1 V2]; [done..| | |].
  1,2: cbn [set_flag set_bflags flags]; rewrite flag_set; apply orb_false_r.
  constructor; [exists hs|by apply V1|done| | |right; by exists bh].
  - apply (rep_upd _ _ _ b bh _ (disk c) Hc1); [done..|]. by intros ?%not_in_filter.
  - cbn [bufs]. rewrite lookup_insert_eq. eexists. split_and!; [done..|]. cbn [set_flag set_bflags flags]. rewrite flag_set.
    apply orb_true_r.
  - intros x Hx. cbn [bufs]. by rewrite lookup_insert_ne.
Qed.

Lemma getblk_reuse fuel X c b fs hs bh n :
  cache_rep c (b :: fs) hs -> coherent_out X c -> ~ X b -> bufs c !! b = Some bh -> 0 <= n -> bd_ok n ->
  (forall x bx, bufs c !! x = Some bx -> b_blocknr bx ≠ n) -> has_flag (flags bh) BH_delay = false ->
  exists c', getblk (S fuel) DEV_NO n c = Some (b, c') /\ got X c (b :: fs) n b c'.
Proof.
  intros Hc Hco HX Eb Hn Hok Hnew Hw. pose proof (cr_free _ _ _ Hc) as Hd.
  destruct (search_hash_spec c _ hs n Hc Hn) as (r & Er & Hr). destruct r as [x|]; [destruct Hr as (bx & Ex & ?); by destruct (Hnew x bx)|].
  destruct (take_off_free c _ hs b bh Hc Eb) as (st & Est & Hc1).
  set (bh1 := mk_bh 0 (b_count bh) (b_data bh) DEV_NO n).
  destruct (rehash _ _ hs b bh (set_flag BH_lock bh1) n Hc1 Eb (not_in_filter b _) Hn Hok Hnew) as (st1 & st2 & hs' & E1 & E2 & Hc2); [done..|].
  cbn [links disk bufs] in E1, E2, Hc2.
  cbn [getblk]. rewrite Er. cbn [mbind option_bind]. rewrite (list_is_empty_spec _ _ _ Hd).
  rewrite fmap_cons, bool_decide_false by done. cbn [mbind option_bind].
  rewrite fmap_cons in Hd. rewrite (lseg_first _ _ _ _ (proj2 Hd)). cbn [hd mbind option_bind buf_entry].
  rewrite (on_links_some _ _ _ Est). cbn [mbind option_bind bufs]. rewrite Eb. cbn [mbind option_bind]. rewrite Hw.
  rewrite (on_links_some (mk_cache _ _ _ _) _ _ E1). cbn [mbind option_bind].
  rewrite (upd_buf_some b _ _ bh) by done. cbn [mbind option_bind bufs links disk].
  rewrite (on_links_some (mk_cache _ _ _ _) _ _ E2). cbn [mbind option_bind bufs disk].
  unfold locked_buffer. rewrite (upd_buf_some b _ _ bh1) by (cbn [bufs]; apply lookup_insert_eq).
  cbn [mbind option_bind bufs links disk]. rewrite insert_insert_eq. eexists. split; [done|].
  destruct (view_reuse c b bh (set_flag BH_lock bh1) st2 (cr_one _ _ _ _ _ Hc Eb) Hnew Eb Hw eq_refl eq_refl X Hco HX) as [V1 V2].
  constructor; [by exists hs'|done..| | |by left; left]; cbn [bufs]; [rewrite lookup_insert_eq; by eexists|]. intros x Hx. by rewrite lookup_insert_ne.
Qed.

(** One round writes the delayed buffer at the head of the free list. *)
Lemma getblk_delayed fuel X c b fs hs bh n :
  cache_rep c (b :: fs) hs -> coherent_out X c -> bufs c !! b = Some bh -> 0 <= n ->
  (forall x bx, bufs c !! x = Some bx -> b_blocknr bx ≠ n) -> has_flag (flags bh) BH_delay = true ->
  exists c1, getblk (S fuel) DEV_NO n c = getblk fuel DEV_NO n c1 /\ cache_rep c1 (b :: fs) hs /\ coherent_out X c1 /\
    same_view c c1 /\ bufs c1 = <[b := clear_flag BH_delay bh]> (bufs c).
Proof.
  intros Hc Hco Eb Hn Hnew Hw. pose proof (cr_free _ _ _ Hc) as Hd.
  destruct (search_hash_spec c _ hs n Hc Hn) as (r & Er & Hr). destruct r as [x|]; [destruct Hr as (bx & Ex & ?); by destruct (Hnew x bx)|].
  destruct (take_off_free c _ hs b bh Hc Eb) as (st & Est & Hc1).
  assert (b ∉ fs) as Hb.
  { destruct Hd as [Hnd _]. rewrite fmap_cons in Hnd. apply NoDup_cons in Hnd as [_ Hnd]. apply NoDup_cons in Hnd as [Hnd _].
    intros ?. apply Hnd. by apply list_elem_of_fmap_2. }
  rewrite filter_cons_False, list_filter_all in Hc1 by (try tauto; apply Forall_forall; intros ? ? ->; done).
  pose proof (cr_buf _ _ _ Hc _ _ Eb) as (_ & _ & Hok & Hlen).
  destruct (bd_write_ok (b_blocknr bh) (b_data bh) (disk c) Hok Hlen) as (d & Ed & Hr1 & Hr2).
  destruct (cr_onfree _ _ _ Hc b) as (bh0 & E0 & Hlk); [by left|]. rewrite Eb in E0. injection E0 as <-.
  assert (has_flag (flags (clear_flag BH_delay bh)) BH_lock = false) as Hlk'.
  { cbn [clear_flag set_bflags flags]. by rewrite flag_clear by done. }
  pose proof (rep_upd _ _ _ b bh (clear_flag BH_delay bh) d Hc1 Eb eq_refl eq_refl eq_refl ltac:(done)) as Hc2. cbn [links bufs] in Hc2.
  destruct (put_on_free _ _ _ b (clear_flag BH_delay bh) true Hc2) as (st2 & E2 & Hc3); [cbn [bufs]; apply lookup_insert_eq|done|].
  cbn [links disk bufs] in E2, Hc3.
  cbn [getblk]. rewrite Er. cbn [mbind option_bind]. rewrite (list_is_empty_spec _ _ _ Hd).
  rewrite fmap_cons, bool_decide_false by done. cbn [mbind option_bind].
  rewrite fmap_cons in Hd. rewrite (lseg_first _ _ _ _ (proj2 Hd)). cbn [hd mbind option_bind buf_entry].
  rewrite (on_links_some _ _ _ Est). cbn [mbind option_bind bufs]. rewrite Eb. cbn [mbind option_bind]. rewrite Hw.
  cbn [disk]. rewrite Ed. cbn [mbind option_bind bufs links].
  rewrite (upd_buf_some b _ _ bh) by done. cbn [mbind option_bind bufs links disk].
  rewrite (on_links_some (mk_cache _ _ _ _) _ _ E2). cbn [mbind option_bind bufs disk].
  eexists. split; [done|]. split; [by apply Hc3|].
  destruct (Hco _ _ Eb) as [Hu _]. specialize (Hu Hw).
  destruct (view_write c b bh (clear_flag BH_delay bh) d st2) as [V1 V2]; [|by apply (cr_one _ _ _ _ _ Hc Eb)|done..| |done| |].
  - intros x bx Ex. by apply (cr_buf _ _ _ Hc) in Ex as (_ & _ & ? & _).
  - cbn [clear_flag set_bflags flags]. by rewrite flag_clear by done.
  - done.
  - split_and!; [by apply V1|done..].
Qed.

Lemma getblk_spec fuel X c fs hs n :
  cache_rep c fs hs -> coherent_out X c -> (forall x, X x -> x ∉ fs) -> 0 <= n -> bd_ok n -> available c fs n ->
  exists b c', getblk (S (S fuel)) DEV_NO n c = Some (b, c') /\ got X c fs n b c'.
Proof.
  intros Hc Hco HX Hn Hok [(b & bh & Eb & <- & Hlk)|[Hnew Hfs]].
  { destruct (getblk_hit (S fuel) X c fs hs b bh Hc Hco Eb Hlk) as (c' & E & G). by exists b, c'. }
  destruct fs as [|b fs]; [done|]. assert (~ X b) as HXb by (intros ?; apply (HX b); [done|by left]). destruct (cr_onfree _ _ _ Hc b) as (bh & Eb & _); [by left|]. exists b.
  destruct (has_flag (flags bh) BH_delay) eqn:Hw; [|by apply (getblk_reuse (S fuel) X c b fs hs bh)].
  destruct (getblk_delayed (S fuel) X c b fs hs bh n Hc Hco Eb Hn Hnew Hw) as (c1 & E1 & Hc1 & Hco1 & Hv1 & Hb1).
  destruct (getblk_reuse fuel X c1 b fs hs (clear_flag BH_delay bh) n Hc1 Hco1 HXb) as (c' & E & [G1 G2 G3 G4 G5 _]); try done.
  - by rewrite Hb1, lookup_insert_eq.
  - intros x bx. rewrite Hb1. destruct (decide (x = b)) as [->|]; [|rewrite lookup_insert_ne by done; apply Hnew].
    rewrite lookup_insert_eq. intros [= <-]. by apply (Hnew b bh).
  - apply flag_cleared.
  - exists c'. rewrite E1. split; [done|]. constructor; [done..| |done| |by left; left].
    + intros m data Hm H. by apply G3, Hv1.
    + intros x Hx. by rewrite G5, Hb1, lookup_insert_ne by done.
Qed.

(** *** Releasing, reading and writing *)

Definition to_front (bh : buffer_head) : bool := has_flag (flags bh) BH_dirty || has_flag (flags bh) BH_old.

Lemma brelse_links c b bh :
  bufs c !! b = Some bh ->
  brelse b c = st ← (if to_front bh then list_add FreeHead (BFree b) (links c) else list_add_tail FreeHead (BFree b) (links c));
               Some (mk_cache _ (<[b := clear_flag BH_lock bh]> (bufs c)) st (disk c)).
Proof.
  intros Eb. unfold brelse. rewrite Eb. cbn [mbind option_bind]. rewrite <- negb_orb. fold (to_front bh).
  destruct (to_front bh); cbn [negb]; unfold on_links; [destruct (list_add _ _ _)|destruct (list_add_tail _ _ _)];
    cbn [mbind option_bind]; [|done| |done]; unfold unlocked_buffer; by rewrite (upd_buf_some b _ _ bh).
Qed.

Lemma brelse_spec c fs hs b bh :
  cache_rep c fs hs -> bufs c !! b = Some bh -> b ∉ fs ->
  exists st, let c' := mk_cache _ (<[b := clear_flag BH_lock bh]> (bufs c)) st (disk c) in
    brelse b c = Some c' /\ cache_rep c' (if to_front bh then b :: fs else fs ++ [b]) hs /\
    (forall X, coherent_out X c -> coherent_out X c') /\ same_view c c'.
Proof.
  intros Hc Eb Hb. set (bh1 := clear_flag BH_lock bh).
  pose proof (rep_upd _ _ _ b bh bh1 (disk c) Hc Eb eq_refl eq_refl eq_refl ltac:(done)) as Hc1.
  destruct (put_on_free _ _ _ b bh1 (to_front bh) Hc1) as (st & Est & Hc2); [cbn [bufs]; apply lookup_insert_eq|done|].
  cbn [links bufs disk] in Est, Hc2. exists st. rewrite (brelse_links c b bh Eb), Est.
  split_and!; [done|apply Hc2, flag_cleared|..]; apply (view_upd c b bh); try done;
    cbn [bh1 clear_flag set_bflags flags]; by apply flag_clear.
Qed.

Lemma bwrite_spec X c fs hs b bh :
  cache_rep c fs hs -> bufs c !! b = Some bh -> b ∉ fs -> coherent_out X c ->
  exists c', bwrite b c = Some c' /\
    cache_rep c' (if has_flag (flags bh) BH_old then b :: fs else fs ++ [b]) hs /\ coherent_out (fun x => X x /\ x ≠ b) c' /\
    bd_read (b_blocknr bh) (disk c') = Some (b_data bh) /\
    (forall m, bd_ok m -> m ≠ b_blocknr bh -> bd_read m (disk c') = bd_read m (disk c)) /\
    (exists bh', bufs c' !! b = Some bh' /\ b_data bh' = b_data bh /\ has_flag (flags bh') BH_lock = false /\
       b_blocknr bh' = b_blocknr bh /\ has_flag (flags bh') BH_uptodate = has_flag (flags bh) BH_uptodate /\
       has_flag (flags bh') BH_dirty = false /\ has_flag (flags bh') BH_old = has_flag (flags bh) BH_old) /\
    forall x, x ≠ b -> bufs c' !! x = bufs c !! x.
Proof.
  intros Hc Eb Hb Hco. pose proof (cr_buf _ _ _ Hc _ _ Eb) as (_ & _ & Hok & Hlen).
  destruct (bd_write_ok (b_blocknr bh) (b_data bh) (disk c) Hok Hlen) as (d & Ed & Hr1 & Hr2).
  unfold bwrite, locked_buffer. rewrite (upd_buf_some b _ _ bh) by done. cbn [mbind option_bind bufs].
  rewrite lookup_insert_eq. cbn [mbind option_bind disk links b_blocknr b_data set_flag set_bflags]. rewrite Ed.
  cbn [mbind option_bind]. rewrite (upd_buf_some b _ _ (set_flag BH_lock bh)) by (cbn [bufs]; apply lookup_insert_eq).
  cbn [mbind option_bind bufs links disk]. unfold unlocked_buffer.
  rewrite (upd_buf_some b _ _ (clear_flag BH_dirty (set_flag BH_lock bh))) by (cbn [bufs]; apply lookup_insert_eq).
  cbn [mbind option_bind bufs links disk]. rewrite !insert_insert_eq.
  set (bh1 := clear_flag BH_lock (clear_flag BH_dirty (set_flag BH_lock bh))).
  assert (forall f, Z.land f (Z.lnot BH_dirty) = f -> Z.land f (Z.lnot BH_lock) = f -> has_flag BH_lock f = false ->
    has_flag (flags bh1) f = has_flag (flags bh) f) as Hkeep.
  { intros f H1 H2 H3. cbn [bh1 clear_flag set_flag set_bflags flags]. rewrite !flag_clear, flag_set, H3 by done. apply orb_false_r. }
  pose proof (rep_upd _ _ _ b bh bh1 d Hc Eb eq_refl eq_refl eq_refl ltac:(done)) as Hc1.
  destruct (brelse_spec _ _ _ b bh1 Hc1) as (st & E & Hc2 & Hco2 & _); [cbn [bufs]; apply lookup_insert_eq|done|].
  cbn [bufs links disk] in E, Hc2, Hco2. rewrite insert_insert_eq in E, Hc2, Hco2. rewrite E. eexists. split; [done|].
  assert (to_front bh1 = has_flag (flags bh) BH_old) as Hfront.
  { unfold to_front. rewrite (Hkeep BH_old) by done. cbn [bh1 clear_flag set_flag set_bflags flags].
    rewrite (flag_clear BH_lock BH_dirty) by done. by rewrite flag_cleared. }
  rewrite Hfront in Hc2. split_and!; [done| |done..| |].
  - apply Hco2. intros x bx. cbn [bufs disk]. destruct (decide (x = b)) as [->|].
    + rewrite lookup_insert_eq. intros [= <-]. rewrite (Hkeep BH_uptodate), (Hkeep BH_delay) by done. destruct (Hco _ _ Eb) as [H1 _]. done.
    + rewrite lookup_insert_ne by done. intros Ex. destruct (Hco _ _ Ex) as [H1 H2]. split; [done|]. intros HX Hx1 Hx2.
      rewrite Hr2; [apply H2; [tauto|done..]|by apply (cr_buf _ _ _ Hc) in Ex as (_ & _ & ? & _)|].
      intros Hx. by apply (cr_one _ _ _ _ _ Hc Eb x bx Ex) in Hx.
  - cbn [bufs]. rewrite lookup_insert_eq. eexists. split_and!; [done..|apply flag_cleared|done| | |]; cbn [clear_flag set_bflags flags].
    + rewrite (flag_clear BH_lock BH_uptodate) by done. by rewrite Hkeep.
    + rewrite (flag_clear BH_lock BH_dirty) by done. cbn [bh1 clear_flag set_flag set_bflags flags].
      rewrite (flag_clear BH_lock BH_dirty) by done. apply flag_cleared.
    + rewrite (flag_clear BH_lock BH_old) by done. by apply Hkeep.
  - intros x Hx. cbn [bufs]. by rewrite lookup_insert_ne.
Qed.

(** The tail of [bread] after a successful transfer. *)
Definition load_tail (b : Z) (data : list Z) c : option (option Z * buffer_cache B) :=
  c ← upd_buf b (set_data data) c;
  c ← upd_buf b (set_flag BH_uptodate) c;
  c ← upd_buf b (clear_flag BH_dirty) c;
  c ← unlocked_buffer b c;
  Some (Some b, c).

Lemma view_load c b bh bh' st :
  (forall x bx, bufs c !! x = Some bx -> b_blocknr bx = b_blocknr bh -> x = b) ->
  bufs c !! b = Some bh -> has_flag (flags bh) BH_uptodate = false -> b_blocknr bh' = b_blocknr bh ->
  bd_read (b_blocknr bh) (disk c) = Some (b_data bh') -> has_flag (flags bh') BH_uptodate = true ->
  let c' := mk_cache _ (<[b := bh']> (bufs c)) st (disk c) in
  (forall X, coherent_out X c -> coherent_out X c') /\ same_view c c'.
Proof.
  intros Huniq Eb Hu Hn Hr Hu' c'. split.
  - intros X Hc x bx. cbn [c' bufs disk]. destruct (decide (x = b)) as [->|]; [|rewrite lookup_insert_ne by done; exact (Hc x bx)].
    rewrite lookup_insert_eq. intros [= <-]. rewrite Hn. done.
  - intros m data _ Hm. destruct (decide (m = b_blocknr bh)) as [->|Hne].
    + left. exists b, bh'. cbn [c' bufs]. rewrite lookup_insert_eq. split_and!; [done..|].
      destruct Hm as [(x & bx & Ex & Hx & Hxu & _)|[_ Hm]]; [|congruence].
      apply (Huniq x bx Ex) in Hx. subst x. congruence.
    + destruct Hm as [(x & bx & Ex & Hx)|[Hno Hm]].
      * left. exists x, bx. cbn [c' bufs]. rewrite lookup_insert_ne; [done|]. intros ->. rewrite Eb in Ex. naive_solver.
      * right. split; [|done]. intros x bx. cbn [c' bufs]. destruct (decide (x = b)) as [->|];
          [|rewrite lookup_insert_ne by done; exact (Hno x bx)]. rewrite lookup_insert_eq. intros [= <-]. congruence.
Qed.

Lemma load_buffer X c fs hs b bh n data :
  cache_rep c (filter (fun x => x ≠ b) fs) hs -> coherent_out X c -> bufs c !! b = Some bh -> b_blocknr bh = n ->
  length data = 1024%nat -> has_flag (flags bh) BH_uptodate = false -> bd_read n (disk c) = Some data ->
  exists c' bh', load_tail b data c = Some (Some b, c') /\
    cache_rep c' (filter (fun x => x ≠ b) fs) hs /\ coherent_out X c' /\ same_view c c' /\
    bufs c' !! b = Some bh' /\ b_blocknr bh' = n /\ b_data bh' = data /\
    has_flag (flags bh') BH_uptodate = true /\ has_flag (flags bh') BH_lock = false /\
    forall x, x ≠ b -> bufs c' !! x = bufs c !! x.
Proof.
  intros Hc Hco Eb <- Hlen Hu Hr. unfold load_tail, unlocked_buffer.
  do 4 (erewrite upd_buf_some; [|cbn [bufs]; first [exact Eb|apply lookup_insert_eq]]; cbn [mbind option_bind bufs links disk]).
  rewrite !insert_insert_eq. eexists _, _. split; [done|]. cbn [bufs]. rewrite lookup_insert_eq.
  set (bh' := clear_flag BH_lock _).
  assert (has_flag (flags bh') BH_uptodate = true) as Hu'.
  { cbn [bh' clear_flag set_flag set_data set_bflags flags]. rewrite !flag_clear, flag_set by done. apply orb_true_r. }
  destruct (view_load c b bh bh' (links c) (cr_one _ _ _ _ _ Hc Eb) Eb Hu eq_refl Hr Hu') as [V1 V2].
  split_and!; [|by apply V1|done..|apply flag_cleared|intros x Hx; by rewrite lookup_insert_ne].
  apply (rep_upd _ _ _ b bh bh' _ Hc Eb); [done..| |by intros ?%not_in_filter].
  cbn [bh' clear_flag set_flag set_data set_bflags b_data]. by apply (cr_buf _ _ _ Hc) in Eb as (_ & _ & _ & ->).
Qed.

Lemma bread_spec fuel X c fs hs n data :
  cache_rep c fs hs -> coherent_out X c -> (forall x, X x -> x ∉ fs) -> 0 <= n -> bd_ok n -> available c fs n -> holds c n data ->
  exists b c' hs' bh, bread (S (S fuel)) DEV_NO n c = Some (Some b, c') /\
    cache_rep c' (filter (fun x => x ≠ b) fs) hs' /\ coherent_out X c' /\ same_view c c' /\
    bufs c' !! b = Some bh /\ b_blocknr bh = n /\ b_data bh = data /\
    has_flag (flags bh) BH_uptodate = true /\ has_flag (flags bh) BH_lock = false /\
    (forall x, x ≠ b -> bufs c' !! x = bufs c !! x) /\ (b ∈ fs \/ exists bh, bufs c !! b = Some bh /\ b_blocknr bh = n).
Proof.
  intros Hc Hco HX Hn Hok Hav Hd.
  destruct (getblk_spec fuel X c fs hs n Hc Hco HX Hn Hok Hav) as (b & c1 & E & [[hs1 Hc1] Hco1 Hv (bh & Eb & Hbn & Hlk) Hoth Hfrom]).
  unfold bread. rewrite E. cbn [mbind option_bind]. rewrite Eb. cbn [mbind option_bind].
  apply Hv in Hd; [|done].
  destruct (has_flag (flags bh) BH_uptodate) eqn:Hu.
  - unfold unlocked_buffer. rewrite (upd_buf_some b _ _ bh Eb). cbn [mbind option_bind].
    destruct (view_upd c1 b bh (clear_flag BH_lock bh) (links c1) Eb) as [V1 V2]; [done..| | |].
    1,2: cbn [clear_flag set_bflags flags]; by apply flag_clear.
    eexists b, _, hs1, (clear_flag BH_lock bh). split; [done|]. split_and!.
    + by apply (rep_upd _ _ _ b bh _ _ Hc1 Eb); [done..|intros ?%not_in_filter].
    + by apply V1.
    + intros m x Hm H. by apply V2, Hv.
    + cbn [bufs]. apply lookup_insert_eq.
    + done.
    + destruct Hd as [(x & bx & Ex & Hx & _ & Hxd)|[Hno _]]; [|rewrite (Hno b bh Eb Hbn) in Hu; done].
      assert (x = b) as -> by (apply (cr_one _ _ _ _ _ Hc1 Eb x bx Ex); congruence). rewrite Eb in Ex. by injection Ex as <-.
    + cbn [clear_flag set_bflags flags]. by rewrite flag_clear.
    + apply flag_cleared.
    + intros x Hx. cbn [bufs]. rewrite lookup_insert_ne by done. by apply Hoth.
    + done.
  - destruct Hd as [(x & bx & Ex & Hx & Hxu & _)|[_ Hr]].
    { assert (x = b) as -> by (apply (cr_one _ _ _ _ _ Hc1 Eb x bx Ex); congruence). congruence. }
    rewrite Hbn, Hr. destruct (bd_read_ok n (disk c1) Hok) as (data' & Hr' & Hlen). rewrite Hr in Hr'. injection Hr' as <-.
    destruct (load_buffer X c1 fs hs1 b bh n data Hc1 Hco1 Eb Hbn Hlen Hu Hr) as (c2 & bh2 & E2 & H2).
    unfold load_tail in E2. rewrite E2. exists b, c2, hs1, bh2. split; [done|]. destruct H2 as (? & ? & Hv2 & ? & ? & ? & ? & ? & Ho2). split_and!; try tauto.
    + intros m x Hm Hx. by apply Hv2, Hv.
    + intros x Hx. rewrite Ho2 by done. by apply Hoth.
Qed.

(** The one buffer being changed. *)
Lemma bwrite_one c fs hs b bh :
  cache_rep c fs hs -> bufs c !! b = Some bh -> b ∉ fs -> coherent_but b c -> has_flag (flags bh) BH_uptodate = true ->
  exists c' bh', bwrite b c = Some c' /\
    cache_rep c' (if has_flag (flags bh) BH_old then b :: fs else fs ++ [b]) hs /\ coherent c' /\
    bd_read (b_blocknr bh) (disk c') = Some (b_data bh) /\
    (forall m, bd_ok m -> m ≠ b_blocknr bh -> bd_read m (disk c') = bd_read m (disk c)) /\
    bufs c' !! b = Some bh' /\ b_data bh' = b_data bh /\ has_flag (flags bh') BH_lock = false /\
    b_blocknr bh' = b_blocknr bh /\ has_flag (flags bh') BH_uptodate = true /\
    has_flag (flags bh') BH_dirty = false /\ has_flag (flags bh') BH_old = has_flag (flags bh) BH_old /\
    forall x, x ≠ b -> bufs c' !! x = bufs c !! x.
Proof.
  intros Hc Eb Hb Hco Hu.
  destruct (bwrite_spec _ c fs hs b bh Hc Eb Hb Hco) as (c' & E & Hc' & Hco' & Hr & Hf & (bh' & Eb' & Hd' & Hl' & Hn' & Hu' & H) & Hx).
  exists c', bh'. rewrite Hu in Hu'. split_and!; try tauto.
  eapply coherent_out_weaken; [exact Hco'|]. intros x [-> Hn]. by apply Hn.
Qed.

(** *** Creating the cache *)

Definition null_node : list_head bnode := mk_list_head None None.

Lemma init_null_id (st : gmap bnode (list_head bnode)) y :
  st !! y = Some null_node -> INIT_LIST_NULL y st = Some st.
Proof.
  intros E. unfold INIT_LIST_NULL, set_next, set_prev. rewrite E. cbn [mbind option_bind].
  rewrite lookup_insert_eq. cbn [mbind option_bind]. f_equal. rewrite insert_insert_eq. by apply insert_id.
Qed.

(** One turn of the loop of [create_buffer_cache]. *)
Lemma add_one c fs hs b data n :
  cache_rep c fs hs -> bufs c !! b = None -> 0 <= n -> bd_ok n -> length data = BUFFER_SIZE ->
  (forall x bx, bufs c !! x = Some bx -> b_blocknr bx ≠ n) ->
  exists st1 st2 hs',
    list_add (HashHead (hash_fn n DEV_NO)) (BHash b) (<[BHash b := null_node]> (<[BFree b := null_node]> (links c))) = Some st1 /\
    list_add FreeHead (BFree b) st1 = Some st2 /\
    cache_rep (mk_cache _ (<[b := mk_bh 0 0 data DEV_NO n]> (bufs c)) st2 (disk c)) (b :: fs) hs'.
Proof.
  intros Hc Eb Hn Hok Hlen Hnew. pose proof (hash_fn_range n Hn) as Hi0. set (i0 := hash_fn n DEV_NO) in *.
  destruct Hc as [H1 H2 H3 H4 H5 H6 H7]. set (L := <[BHash b := null_node]> _).
  assert (b ∉ fs) as Hbf by (intros (? & ? & _)%H6; congruence).
  assert (forall i, 0 <= i < DEV_NO -> b ∉ hs i) as Hbh by (intros i Hi (? & ? & _)%H3; [congruence|done]).
  assert (forall y, y ≠ BHash b -> y ≠ BFree b -> L !! y = links c !! y) as HL.
  { intros y ? ?. unfold L. by rewrite !lookup_insert_ne. }
  assert (forall i, BHash b ∉ HashHead i :: (BHash <$> hs i) \/ ~ 0 <= i < DEV_NO) as Hnh.
  { intros i. destruct (decide (0 <= i < DEV_NO)); [left|by right].
    intros [?|(x & [= ->] & ?)%list_elem_of_fmap]%elem_of_cons; [done|]. by apply (Hbh i). }
  assert (forall i, 0 <= i < DEV_NO -> dlist L (HashHead i) (BHash <$> hs i)) as HLh.
  { intros i Hi. eapply dlist_frame; [|by apply H2]. intros y Hy. apply HL.
    - intros ->. destruct (Hnh i); done.
    - intros ->. apply elem_of_cons in Hy as [?|(? & ? & _)%list_elem_of_fmap]; done. }
  destruct (list_add_spec L (HashHead i0) (BHash <$> hs i0) (BHash b)) as (st1 & E1 & _ & Hd1 & Hf1);
    [by apply HLh|destruct (Hnh i0); done|unfold L; rewrite lookup_insert_eq; by eexists|].
  assert (forall y, (forall i, y ≠ HashHead i) -> (forall x, y ≠ BHash x) -> st1 !! y = L !! y) as Hf1'.
  { intros y Ha Hx. apply Hf1. rewrite !not_elem_of_cons. split_and!; [done..|]. intros (x & ? & _)%list_elem_of_fmap. by eapply Hx. }
  destruct (list_add_spec st1 FreeHead (BFree <$> fs) (BFree b)) as (st2 & E2 & _ & Hd2 & Hf2); [|by apply BFree_not_in| |].
  { eapply dlist_frame; [|exact H1]. intros y Hy. rewrite Hf1', HL; [done|..];
      apply elem_of_cons in Hy as [->|(x & -> & ?)%list_elem_of_fmap]; congruence. }
  { rewrite Hf1' by done. unfold L. rewrite lookup_insert_ne, lookup_insert_eq by done. by eexists. }
  assert (forall y, y ≠ FreeHead -> (forall x, y ≠ BFree x) -> st2 !! y = st1 !! y) as Hf2'.
  { intros y Ha Hx. apply Hf2. rewrite !not_elem_of_cons. split_and!; [done..|]. intros (x & ? & _)%list_elem_of_fmap. by eapply Hx. }
  exists st1, st2, (fun i => if decide (i = i0) then b :: hs i else hs i). split_and!; [done..|].
  constructor; cbn [links bufs disk].
  - done.
  - intros i Hi. eapply dlist_frame; [|instantiate (1 := st1)].
    { intros y Hy. apply Hf2'; apply elem_of_cons in Hy as [->|(? & -> & _)%list_elem_of_fmap]; done. }
    destruct (decide (i = i0)) as [->|Hne]; [done|]. eapply dlist_frame; [|by apply HLh].
    intros y Hy. apply Hf1. apply not_elem_of_cons. split; [intros ->; destruct (Hnh i); done|].
    intros Hy'. eapply (hash_queues_disjoint c fs hs i i0 y); [by constructor|done..].
  - intros i x Hi. destruct (decide (x = b)) as [->|Hne].
    + rewrite lookup_insert_eq. split.
      * intros Hx. eexists. split; [done|]. cbn [b_blocknr]. case_decide; [done|]. by apply Hbh in Hx.
      * intros (bx & [= <-] & Hx). cbn [b_blocknr] in Hx. rewrite decide_True by done. by left.
    + rewrite lookup_insert_ne by done. rewrite <- H3 by done. case_decide; rewrite ?elem_of_cons; tauto.
  - intros x bx Ex. destruct (decide (x = b)) as [->|]; [|rewrite lookup_insert_ne in Ex by done; eauto].
    rewrite lookup_insert_eq in Ex. by injection Ex as <-.
  - intros x y bx by' Ex Ey Hxy. destruct (decide (x = b)) as [->|], (decide (y = b)) as [->|]; [done|..];
      rewrite ?lookup_insert_eq, ?lookup_insert_ne in Ex by done; rewrite ?lookup_insert_eq, ?lookup_insert_ne in Ey by done.
    + injection Ex as <-. by destruct (Hnew y by').
    + injection Ey as <-. by destruct (Hnew x bx).
    + by apply (H5 x y bx by').
  - intros x [->|Hx]%elem_of_cons; [rewrite lookup_insert_eq; by eexists|]. rewrite lookup_insert_ne by congruence. by apply H6.
  - intros x Hx [Hxb Hxf]%not_elem_of_cons. rewrite lookup_insert_ne in Hx by done. eapply dlist_frame; [|by apply H7].
    intros y Hy%list_elem_of_singleton. subst y. rewrite Hf2, Hf1', HL; [done|congruence..|].
    apply not_elem_of_cons. split; [congruence|]. by apply BFree_not_in.
Qed.

Lemma add_buffers_spec allocs : forall n c fs hs,
  cache_rep c fs hs -> 0 <= n -> (forall x bx, bufs c !! x = Some bx -> b_blocknr bx < n /\ flags bx = 0) ->
  NoDup allocs.*1 -> (forall b, b ∈ allocs.*1 -> bufs c !! b = None) ->
  Forall (fun a => length a.2 = BUFFER_SIZE) allocs ->
  (forall m, n <= m < n + Z.of_nat (length allocs) -> bd_ok m) ->
  exists c' hs', add_buffers n allocs c = Some c' /\ cache_rep c' (reverse allocs.*1 ++ fs) hs' /\ disk c' = disk c /\
    (forall x bx, bufs c' !! x = Some bx -> b_blocknr bx < n + Z.of_nat (length allocs) /\ flags bx = 0).
Proof.
  induction allocs as [|[b data] allocs IH]; intros n c fs hs Hc Hn Hlt Hnd Hfresh Hlen Hok.
  { exists c, hs. split_and!; [done..|]. simpl. intros x bx E. apply Hlt in E. lia. }
  rewrite !fmap_cons in *. cbn [fst] in *. apply NoDup_cons in Hnd as [Hb Hnd]. apply Forall_cons in Hlen as [Hl Hlen]. cbn [snd] in Hl.
  cbn [length] in Hok. cbn [length].
  destruct (add_one c fs hs b data n Hc) as (st1 & st2 & hs1 & E1 & E2 & Hc1);
    [apply Hfresh; by left|done|apply Hok; lia|done|intros x bx Ex; apply Hlt in Ex; lia|].
  cbn [add_buffers]. unfold binit. cbn [bufs]. rewrite lookup_insert_eq. cbn [mbind option_bind links disk].
  rewrite insert_insert_eq. fold null_node.
  rewrite (on_links_some (mk_cache _ _ _ _) _ (<[BHash b := null_node]> (<[BFree b := null_node]> (links c))))
    by (cbn [links]; apply init_null_id, lookup_insert_eq).
  cbn [mbind option_bind bufs disk].
  rewrite (on_links_some (mk_cache _ _ _ _) _ (<[BHash b := null_node]> (<[BFree b := null_node]> (links c))))
    by (cbn [links]; apply init_null_id; rewrite lookup_insert_ne by done; apply lookup_insert_eq).
  cbn [mbind option_bind bufs disk].
  rewrite (on_links_some (mk_cache _ _ _ _) _ _ E1). cbn [mbind option_bind bufs disk].
  rewrite (on_links_some (mk_cache _ _ _ _) _ _ E2). cbn [mbind option_bind bufs disk].
  destruct (IH (n + 1) _ _ _ Hc1) as (c' & hs' & E & Hc' & Hd & Hlt').
  - lia.
  - intros x bx. cbn [bufs]. destruct (decide (x = b)) as [->|].
    + rewrite lookup_insert_eq. intros [= <-]. split; [cbn [b_blocknr]; lia|done].
    + rewrite lookup_insert_ne by done. intros Ex. apply Hlt in Ex. lia.
  - done.
  - intros x Hx. cbn [bufs]. rewrite lookup_insert_ne by (intros ->; done). apply Hfresh. by right.
  - done.
  - intros m Hm. apply Hok. lia.
  - exists c', hs'. rewrite E. split_and!; [done| |done|].
    + by rewrite reverse_cons, <- app_assoc.
    + intros x bx Ex. apply Hlt' in Ex. lia.
Qed.

Lemma init_heads_spec n : forall i (st : gmap bnode (list_head bnode)),
  (forall j, i <= j < i + Z.of_nat n -> is_Some (st !! HashHead j)) ->
  exists st', init_heads i n st = Some st' /\
    (forall j, i <= j < i + Z.of_nat n -> st' !! HashHead j = Some (mk_list_head (Some (HashHead j)) (Some (HashHead j)))) /\
    forall y, (forall j, i <= j < i + Z.of_nat n -> y ≠ HashHead j) -> st' !! y = st !! y.
Proof.
  induction n as [|n IH]; intros i st Hst.
  { exists st. split_and!; [done| |done]. intros j Hj. lia. }
  cbn [init_heads]. rewrite INIT_LIST_HEAD_effect by (apply Hst; lia). cbn [mbind option_bind].
  destruct (IH (i + 1) (<[HashHead i := mk_list_head (Some (HashHead i)) (Some (HashHead i))]> st)) as (st' & E & Hin & Hout).
  { intros j Hj. rewrite lookup_insert_ne by (intros [= ?]; lia). apply Hst. lia. }
  exists st'. split_and!; [done| |].
  - intros j Hj. destruct (decide (j = i)) as [->|]; [|apply Hin; lia].
    rewrite Hout by (intros k Hk [= ?]; lia). apply lookup_insert_eq.
  - intros y Hy. rewrite Hout by (intros j Hj; apply Hy; lia). apply lookup_insert_ne. intros <-. apply (Hy i); [lia|done].
Qed.

Lemma self_ring (st : gmap bnode (list_head bnode)) y : st !! y = Some (mk_list_head (Some y) (Some y)) -> dlist st y [].
Proof. intros E. split; [apply NoDup_singleton|]. unfold lseg, next_of, prev_of. by rewrite E. Qed.

Lemma create_buffer_cache_spec allocs c :
  bufs c = ∅ -> (forall i, 0 <= i < DEV_NO -> is_Some (links c !! HashHead i)) -> is_Some (links c !! FreeHead) ->
  NoDup allocs.*1 -> Forall (fun a => length a.2 = BUFFER_SIZE) allocs ->
  (forall m, 0 <= m < Z.of_nat (length allocs) -> bd_ok m) ->
  exists c' hs, create_buffer_cache allocs c = Some c' /\ cache_rep c' (reverse allocs.*1) hs /\ coherent c' /\
    disk c' = disk c /\ forall x bx, bufs c' !! x = Some bx -> b_blocknr bx < Z.of_nat (length allocs) /\ flags bx = 0.
Proof.
  intros Hb Hh Hf Hnd Hlen Hok. unfold create_buffer_cache.
  destruct (init_heads_spec (Z.to_nat DEV_NO) 0 (links c)) as (st & E & Hin & Hout); [exact Hh|]. rewrite E. cbn [mbind option_bind].
  rewrite INIT_LIST_HEAD_effect by (by rewrite Hout). cbn [mbind option_bind].
  set (c0 := mk_cache _ (bufs c) (<[FreeHead := mk_list_head (Some FreeHead) (Some FreeHead)]> st) (disk c)).
  assert (cache_rep c0 [] (fun _ => [])) as Hc0.
  { constructor; cbn [c0 links bufs]; rewrite ?Hb.
    - apply self_ring, lookup_insert_eq.
    - intros i Hi. apply self_ring. rewrite lookup_insert_ne by done. by apply Hin.
    - intros i b _. rewrite elem_of_nil. split; [done|]. intros (? & ? & _). by rewrite lookup_empty in *.
    - intros b bh. by rewrite lookup_empty.
    - intros b b' bh bh'. by rewrite lookup_empty.
    - intros b. by rewrite elem_of_nil.
    - intros b [? ?]. by rewrite lookup_empty in *. }
  destruct (add_buffers_spec allocs 0 c0 [] _ Hc0) as (c' & hs & E' & Hc' & Hd & Hfl); [done| |done| |done|done|].
  { intros x bx. cbn [c0 bufs]. by rewrite Hb, lookup_empty. }
  { intros b _. cbn [c0 bufs]. by rewrite Hb, lookup_empty. }
  rewrite app_nil_r in Hc'. exists c', hs. split_and!; [done..| |done|done].
  intros b bh Ebh. apply Hfl in Ebh as [_ ->]. done.
Qed.

(** *** A second release *)

Lemma walk_stuck (st : gmap bnode (list_head bnode)) h x fuel :
  next_of st x = Some x -> x ≠ h -> list_walk fuel st h x = None.
Proof. intros E Hx. induction fuel as [|fuel IH]; [done|]. cbn [list_walk]. rewrite decide_False, E by done. cbn [mbind option_bind]. by rewrite IH. Qed.

Lemma walk_into_loop (st st' : gmap bnode (list_head bnode)) h b xs : forall a fuel,
  lseg st a (xs ++ [b]) h -> (forall y, y ≠ b -> next_of st' y = next_of st y) -> next_of st' b = Some b ->
  b ∉ xs -> h ∉ xs -> b ≠ h -> list_walk fuel st' h (hd h (xs ++ [b])) = None.
Proof.
  induction xs as [|x xs IH]; intros a fuel Hl Hf Hb Hbx Hhx Hbh; cbn [app hd]; [by apply walk_stuck|].
  apply not_elem_of_cons in Hbx as [Hne Hbx]. apply not_elem_of_cons in Hhx as [Hhn Hhx].
  destruct fuel as [|fuel]; [done|]. cbn [list_walk]. rewrite decide_False, Hf by done.
  cbn [app lseg] in Hl. destruct Hl as (_ & _ & Hl). rewrite (lseg_first _ _ _ _ Hl). cbn [mbind option_bind].
  by erewrite IH.
Qed.

(** Adding the node that already is at that end of the ring ties it to itself. *)
Lemma add_again st h b xs (front : bool) :
  dlist st h (if front then b :: xs else xs ++ [b]) -> b ∉ xs ->
  exists st', (if front then list_add h b st else list_add_tail h b st) = Some st' /\ next_of st' b = Some b /\
    forall fuel, list_for_each fuel st' h = (None : option (list bnode)).
Proof.
  intros Hd Hb. pose proof (lseg_first _ _ _ _ (proj2 Hd)) as Hn. pose proof (lseg_last _ _ _ _ (proj2 Hd)) as Hp.
  assert (b ≠ h /\ h ∉ xs) as [Hbh Hhx].
  { destruct Hd as [Hnd _]. apply NoDup_cons in Hnd as [Hh _]. destruct front;
      [apply not_elem_of_cons in Hh as [? ?]|apply not_elem_of_app in Hh as [? ?%not_elem_of_cons]]; naive_solver. }
  assert (is_Some (st !! b) /\ is_Some (st !! h)) as [[nb Eb] [nh Eh]].
  { split; eapply dlist_in_dom; try exact Hd; [|by left]. destruct front; set_solver. }
  assert (exists st', (if front then list_add h b st else list_add_tail h b st) = Some st' /\
    forall y, next_of st' y = if decide (y = b) then Some b else next_of st y) as (st' & E & Hnx).
  { destruct front.
    - unfold list_add. rewrite Hn. cbn [hd mbind option_bind]. unfold generic_add, set_next, set_prev. rewrite Eb. cbn [mbind option_bind].
      rewrite lookup_insert_eq. cbn [mbind option_bind]. rewrite insert_insert_eq, lookup_insert_ne by done. rewrite Eh. cbn [mbind option_bind].
      rewrite lookup_insert_ne, lookup_insert_eq by done. cbn [mbind option_bind]. eexists. split; [done|]. intros y. unfold next_of.
      destruct (decide (y = b)) as [->|]; [by rewrite lookup_insert_eq|]. rewrite lookup_insert_ne by done.
      destruct (decide (y = h)) as [->|]; [|by rewrite !lookup_insert_ne by done]. rewrite lookup_insert_eq, Eh. cbn [mbind option_bind next].
      unfold next_of in Hn. rewrite Eh in Hn. symmetry. exact Hn.
    - unfold list_add_tail. rewrite Hp, last_snoc. cbn [default from_option id mbind option_bind]. unfold generic_add, set_next, set_prev. rewrite Eb.
      cbn [mbind option_bind]. rewrite lookup_insert_eq. cbn [mbind option_bind]. rewrite insert_insert_eq, lookup_insert_eq. cbn [mbind option_bind].
      rewrite insert_insert_eq, lookup_insert_ne by done. rewrite Eh. cbn [mbind option_bind]. eexists. split; [done|]. intros y. unfold next_of.
      destruct (decide (y = h)) as [->|]; [rewrite lookup_insert_eq, decide_False, Eh by done; done|]. rewrite lookup_insert_ne by done.
      destruct (decide (y = b)) as [->|]; [by rewrite lookup_insert_eq|]. by rewrite lookup_insert_ne. }
  exists st'. split; [done|]. pose proof (Hnx b) as Hb'. rewrite decide_True in Hb' by done. split; [done|].
  intros fuel. unfold list_for_each. rewrite Hnx, decide_False, Hn by done. cbn [mbind option_bind].
  destruct front; [by apply walk_stuck|].
  eapply walk_into_loop; [exact (proj2 Hd)|intros y Hy; by rewrite Hnx, decide_False|done..].
Qed.

Lemma release_again c fs hs b bh :
  cache_rep c (if to_front bh then b :: fs else fs ++ [b]) hs -> b ∉ fs -> bufs c !! b = Some bh ->
  exists c', brelse b c = Some c' /\ next_of (links c') (BFree b) = Some (BFree b) /\
    forall fuel, list_for_each fuel (links c') FreeHead = None.
Proof.
  intros Hc Hb Eb. pose proof (cr_free _ _ _ Hc) as Hd.
  destruct (add_again (links c) FreeHead (BFree b) (BFree <$> fs) (to_front bh)) as (st & E & Hn & Hw).
  - destruct (to_front bh); [done|]. by rewrite fmap_app in Hd.
  - intros (x & [= ->] & ?)%list_elem_of_fmap. done.
  - rewrite (brelse_links c b bh Eb), E. by eexists.
Qed.

(** C5: the cache is transparent to readers.  When the buffer of block [n] is
    unlocked, or no buffer has it and one is free, [bread] returns within two
    rounds of [getblk] a valid unlocked buffer of block [n] that holds exactly
    what the block last held (a delayed buffer's data, else the disk's), it
    leaves the free list, the cache stays well formed and coherent, and every
    other block reads as before; delayed data that must make room is written
    out first. *)
Theorem bread_correct fuel c fs hs n data :
  cache_rep c fs hs -> coherent c -> 0 <= n -> bd_ok n -> available c fs n -> holds c n data ->
  exists b c' hs' bh, bread (S (S fuel)) DEV_NO n c = Some (Some b, c') /\
    cache_rep c' (filter (fun x => x ≠ b) fs) hs' /\ coherent c' /\ same_view c c' /\
    bufs c' !! b = Some bh /\ b_blocknr bh = n /\ b_data bh = data /\
    has_flag (flags bh) BH_uptodate = true /\ has_flag (flags bh) BH_lock = false.
Proof.
  intros Hc Hco Hn Hok Ha Hd.
  destruct (bread_spec fuel (fun _ => False) c fs hs n data Hc Hco ltac:(done) Hn Hok Ha Hd) as (b & c' & hs' & bh & H).
  exists b, c', hs', bh. unfold coherent. tauto.
Qed.

(** C6: [bwrite] of a buffer its caller has changed is durable: the block's
    sectors then hold the new data and no other block changes, the buffer is
    back on the free list, the cache is coherent again, and the next [bread] of
    the block returns the same buffer with the data written. *)
Theorem bwrite_durable fuel c fs hs b bh :
  cache_rep c fs hs -> bufs c !! b = Some bh -> b ∉ fs ->
  coherent_but b c -> has_flag (flags bh) BH_uptodate = true ->
  exists c', bwrite b c = Some c' /\
    cache_rep c' (if has_flag (flags bh) BH_old then b :: fs else fs ++ [b]) hs /\ coherent c' /\
    bd_read (b_blocknr bh) (disk c') = Some (b_data bh) /\
    (forall m, bd_ok m -> m ≠ b_blocknr bh -> bd_read m (disk c') = bd_read m (disk c)) /\
    exists c'' bh'', bread (S (S fuel)) DEV_NO (b_blocknr bh) c' = Some (Some b, c'') /\
      bufs c'' !! b = Some bh'' /\ b_data bh'' = b_data bh.
Proof.
  intros Hc Eb Hb Hco Hu.
  destruct (bwrite_one c fs hs b bh Hc Eb Hb Hco Hu) as (c' & bh' & E & Hc' & Hco' & Hr & Hf & Eb' & Hd' & Hl' & Hn' & Hu' & _).
  exists c'. split_and!; [done..|]. pose proof (cr_buf _ _ _ Hc' _ _ Eb') as (_ & Hn & Hok & _).
  destruct (bread_spec fuel _ c' _ hs (b_blocknr bh') (b_data bh') Hc' Hco' ltac:(done) Hn Hok) as (x & c'' & hs'' & bx & Ex & Hc'' & _ & _ & Ebx & Hx & Hdx & _).
  - left. by exists b, bh'.
  - left. by exists b, bh'.
  - rewrite <- Hn'. assert (x = b) as ->; [|exists c'', bx; by rewrite Hdx].
    destruct (getblk_hit (S fuel) _ c' _ hs b bh' Hc' Hco' Eb' Hl') as (c1 & Eg & _). unfold bread in Ex. rewrite Eg in Ex.
    cbn [mbind option_bind] in Ex. destruct (bufs c1 !! b) as [b1|]; [|done]. cbn [mbind option_bind] in Ex.
    destruct (has_flag (flags b1) BH_uptodate); [by apply bind_Some in Ex as (? & _ & [= <- _])|].
    destruct (bd_read (b_blocknr b1) (disk c1)); [|by apply bind_Some in Ex as (? & _ & [= ? _])].
    do 4 (apply bind_Some in Ex as (? & _ & Ex)). by injection Ex as <- _.
Qed.

(** Releasing a buffer that [bwrite] has already released (as
    [write_block_at] and [write_sb] do) ties its free-list link to itself:
    the walk of the free list then never ends. *)
Theorem bwrite_brelse_loops c fs hs b bh :
  cache_rep c fs hs -> bufs c !! b = Some bh -> b ∉ fs ->
  coherent_but b c -> has_flag (flags bh) BH_uptodate = true -> has_flag (flags bh) BH_old = false ->
  exists c1 c2, bwrite b c = Some c1 /\ brelse b c1 = Some c2 /\
    next_of (links c2) (BFree b) = Some (BFree b) /\ forall fuel, list_for_each fuel (links c2) FreeHead = None.
Proof.
  intros Hc Eb Hb Hco Hu Ho.
  destruct (bwrite_one c fs hs b bh Hc Eb Hb Hco Hu) as (c1 & bh' & E & Hc1 & _ & _ & _ & Eb' & _ & _ & _ & _ & Hd' & Ho' & _).
  rewrite Ho in Hc1. destruct (release_again c1 fs hs b bh') as (c2 & E2 & H2); [|done..|by exists c1, c2].
  unfold to_front. by rewrite Hd', Ho', Ho.
Qed.
End Buffer.

(** ** An instance: two buffers over a volume in memory *)

Definition demo_volume : volume := mk_volume true 8 0.

#[export] Instance demo_dev : BlockDev (gmap Z (list Z)) := volume_dev demo_volume eq_refl.

Lemma demo_block_ok n : 0 <= n < 100 -> bd_ok n.
Proof.
  intros Hn. change (block_ok demo_volume n). unfold block_ok. change (SECTORS_PER_BLOCK demo_volume) with 2.
  cbn [demo_volume fs_start_set filesys_start s_log_block_size]. lia.
Qed.

Definition demo_cache : buffer_cache (gmap Z (list Z)) :=
  mk_cache _ ∅ (list_to_map ((fun n => (n, null_node)) <$> [HashHead 0; HashHead 1; HashHead 2; HashHead 3; FreeHead])) ∅.

Lemma demo_created :
  exists c hs, create_buffer_cache [(1000, replicate 1024 0); (2000, replicate 1024 0)] demo_cache = Some c /\
    cache_rep c [2000; 1000] hs /\ coherent c /\ disk c = ∅ /\
    forall x bx, bufs c !! x = Some bx -> b_blocknr bx < 2 /\ flags bx = 0.
Proof.
  apply (create_buffer_cache_spec [(1000, replicate 1024 0); (2000, replicate 1024 0)] demo_cache).
  - done.
  - intros i Hi. unfold DEV_NO in Hi. assert (i = 0 \/ i = 1 \/ i = 2 \/ i = 3) as [->|[->|[->| ->]]] by lia; by eexists.
  - by eexists.
  - by apply (bool_decide_unpack _).
  - by repeat constructor.
  - intros m Hm. cbn [length] in Hm. apply demo_block_ok. lia.
Qed.

Lemma bread_correct_witness :
  exists c b c' bh, create_buffer_cache [(1000, replicate 1024 0); (2000, replicate 1024 0)] demo_cache = Some c /\
    bread 2 DEV_NO 7 c = Some (Some b, c') /\ bufs c' !! b = Some bh /\ b_blocknr bh = 7 /\ b_data bh = replicate 1024 0.
Proof.
  destruct demo_created as (c & hs & E & Hc & Hco & Hd & Hf).
  assert (forall x bx, bufs c !! x = Some bx -> b_blocknr bx ≠ 7) as Hno by (intros x bx Hx; apply Hf in Hx; lia).
  destruct (bread_correct 0 c [2000; 1000] hs 7 (replicate 1024 0) Hc Hco) as (b & c' & hs' & bh & E' & _ & _ & _ & Eb & Hn & Hdt & _).
  - clear. lia.
  - clear. by apply demo_block_ok.
  - clear E. by right.
  - clear E. right. split; [intros x bx Hx Hx'; by apply Hno in Hx|]. rewrite Hd. by vm_compute.
  - exists c, b, c', bh. split_and!; assumption.
Defined.

(** A created cache in which block 7 has been read and its buffer changed. *)
Lemma demo_changed (data : list Z) : length data = BUFFER_SIZE ->
  exists c fs hs b bh, cache_rep c fs hs /\ bufs c !! b = Some bh /\ b ∉ fs /\ coherent_but b c /\
    has_flag (flags bh) BH_uptodate = true /\ has_flag (flags bh) BH_old = false /\ b_blocknr bh = 7 /\ b_data bh = data.
Proof.
  intros Hlen. destruct demo_created as (c & hs & _ & Hc & Hco & Hd & Hf).
  assert (forall x bx, bufs c !! x = Some bx -> b_blocknr bx ≠ 7) as Hno by (intros x bx Hx; apply Hf in Hx; lia).
  destruct (cr_onfree _ _ _ Hc 2000) as (bh0 & E0 & _); [by left|]. pose proof (Hf _ _ E0) as [_ Hf0].
  destruct (getblk_reuse 0 _ c 2000 [1000] hs bh0 7 Hc Hco (fun H => H) E0) as (c1 & E1 & [[hs1 Hc1] Hco1 _ (bh & Eb & Hn & _) _ _]);
    [done|by apply demo_block_ok|done|by rewrite Hf0|].
  change (filter (fun x => x ≠ 2000) [2000; 1000]) with [1000] in Hc1.
  set (bh' := set_bflags BH_uptodate (set_data data bh)).
  exists (mk_cache _ (<[2000 := bh']> (bufs c1)) (links c1) (disk c1)), [1000], hs1, 2000, bh'.
  assert (2000 ∉ [1000]) as Hnin by (by intros ?%list_elem_of_singleton).
  split_and!; [|cbn [bufs]; apply lookup_insert_eq|exact Hnin| |reflexivity|reflexivity|exact Hn|reflexivity].
  - apply (rep_upd _ _ _ 2000 bh bh' _ Hc1 Eb); [reflexivity|reflexivity| |intros ?; by destruct Hnin].
    cbn [bh' set_bflags set_data b_data]. rewrite Hlen. by apply (cr_buf _ _ _ Hc1) in Eb as (_ & _ & _ & ->).
  - intros x bx. cbn [bufs disk]. destruct (decide (x = 2000)) as [->|].
    + rewrite lookup_insert_eq. intros [= <-]. split; [discriminate|]. intros Hne. by destruct Hne.
    + rewrite lookup_insert_ne by congruence. intros Ex. destruct (Hco1 _ _ Ex) as [? H2]. split; [assumption|]. intros _. exact (H2 (fun H => H)).
Qed.

Lemma bwrite_durable_witness :
  exists (c c' c'' : buffer_cache (gmap Z (list Z))) b bh, b_data bh = replicate 1024 65 /\ bufs c !! b = Some bh /\
    bwrite b c = Some c' /\ bd_read 7 (disk c') = Some (replicate 1024 65) /\
    exists bh'', bread 2 DEV_NO 7 c' = Some (Some b, c'') /\ bufs c'' !! b = Some bh'' /\ b_data bh'' = replicate 1024 65.
Proof.
  destruct (demo_changed (replicate 1024 65) eq_refl) as (c & fs & hs & b & bh & Hc & Eb & Hb & Hco & Hu & Ho & Hn & Hd).
  destruct (bwrite_durable 0 c fs hs b bh Hc Eb Hb Hco Hu) as (c' & E & _ & _ & Hr & _ & c'' & bh'' & Er & Eb'' & Hd'').
  rewrite Hn in *. rewrite Hd in *. exists c, c', c'', b, bh. split_and!; try assumption. exists bh''. split_and!; assumption.
Defined.

Lemma bwrite_brelse_loops_witness :
  exists (c c1 c2 : buffer_cache (gmap Z (list Z))) b, bwrite b c = Some c1 /\ brelse b c1 = Some c2 /\
    forall fuel, list_for_each fuel (links c2) FreeHead = None.
Proof.
  destruct (demo_changed (replicate 1024 65) eq_refl) as (c & fs & hs & b & bh & Hc & Eb & Hb & Hco & Hu & Ho & _ & _).
  destruct (bwrite_brelse_loops c fs hs b bh Hc Eb Hb Hco Hu Ho) as (c1 & c2 & E1 & E2 & _ & Hw).
  exists c, c1, c2, b. split_and!; assumption.
Defined.
