(* ===== verification/Blocks.v ===== *)
(** * Using the buffer cache

    What the file-system code relies on when it reads a block with [bread] and
    gives it back with [brelse], changes it and writes it with [bwrite], or
    keeps the buffer.  [quiet k c]: no buffer of [c] is locked and at least [k]
    are on the free list. *)

From S2P Require Export Buffer.

Section Blocks.
Context {B : Type} `{!BlockDev B}.
Implicit Types c : buffer_cache B.

(** ** Which buffers a read locks *)

Definition unlocked (bh : buffer_head) : Prop := has_flag (flags bh) BH_lock = false.

Definition locks_same (b : Z) c c' : Prop :=
  forall x bx', x ≠ b -> bufs c' !! x = Some bx' ->
    exists bx, bufs c !! x = Some bx /\ has_flag (flags bx') BH_lock = has_flag (flags bx) BH_lock.

Lemma locks_same_refl b c c' : bufs c' = bufs c -> locks_same b c c'.
Proof. intros E x bx' _ Ex. rewrite E in Ex. by exists bx'. Qed.

Lemma locks_same_trans b c1 c2 c3 : locks_same b c1 c2 -> locks_same b c2 c3 -> locks_same b c1 c3.
Proof.
  intros H1 H2 x bx' Hx Ex. destruct (H2 x bx' Hx Ex) as (bx & E & L). destruct (H1 x bx Hx E) as (b0 & E0 & L0).
  exists b0. split; [done|]. congruence.
Qed.

Lemma on_links_locks b c c' f : on_links c f = Some c' -> locks_same b c c'.
Proof. unfold on_links. intros (st & _ & [= <-])%bind_Some. by apply locks_same_refl. Qed.

Lemma upd_buf_locks b c c' f : upd_buf b f c = Some c' -> locks_same b c c'.
Proof.
  unfold upd_buf. intros (bh & _ & [= <-])%bind_Some x bx' Hx. cbn [bufs]. rewrite lookup_insert_ne by done.
  intros Ex. by exists bx'.
Qed.

Lemma clear_delay_locks b b0 c c' : upd_buf b0 (clear_flag BH_delay) c = Some c' -> locks_same b c c'.
Proof.
  unfold upd_buf. intros (bh & E & [= <-])%bind_Some x bx' Hx. cbn [bufs].
  destruct (decide (x = b0)) as [->|]; [|rewrite lookup_insert_ne by done; intros Ex; by exists bx'].
  rewrite lookup_insert_eq. intros [= <-]. exists bh. split; [done|]. cbn [clear_flag set_bflags flags]. by apply flag_clear.
Qed.

Hint Resolve on_links_locks upd_buf_locks clear_delay_locks : locks.

Lemma getblk_locks fuel : forall dev n c b c', getblk fuel dev n c = Some (b, c') -> locks_same b c c'.
Proof.
  induction fuel as [|fuel IH]; intros dev n c b c'; cbn [getblk]; [done|].
  intros (r & _ & H)%bind_Some. destruct r as [b1|].
  - apply bind_Some in H as (bh & _ & H). destruct (has_flag _ _); [by eapply IH|].
    apply bind_Some in H as (c1 & E1 & H). apply bind_Some in H as (c2 & E2 & [= <- <-]).
    eapply locks_same_trans; eauto with locks.
  - apply bind_Some in H as (e & _ & H). destruct e; [by eapply IH|].
    apply bind_Some in H as (nx & _ & H). apply bind_Some in H as (b1 & _ & H).
    apply bind_Some in H as (c1 & E1 & H). apply bind_Some in H as (bh & _ & H).
    eapply locks_same_trans; [by eauto with locks|]. destruct (has_flag _ _).
    + apply bind_Some in H as (d & _ & H). apply bind_Some in H as (c2 & E2 & H). apply bind_Some in H as (c3 & E3 & H).
      eapply locks_same_trans; [|by eapply IH]. eapply locks_same_trans; [|by eauto with locks].
      eapply (locks_same_trans _ _ (mk_cache _ (bufs c1) (links c1) d)); [by apply locks_same_refl|by eauto with locks].
    + apply bind_Some in H as (c2 & E2 & H). apply bind_Some in H as (c3 & E3 & H). apply bind_Some in H as (c4 & E4 & H).
      apply bind_Some in H as (c5 & E5 & [= <- <-]).
      do 3 (eapply locks_same_trans; [by eauto with locks|]). by eauto with locks.
Qed.

Lemma bread_locks fuel dev n c b c' : bread fuel dev n c = Some (Some b, c') -> locks_same b c c'.
Proof.
  unfold bread. intros ([b1 c1] & E1 & H)%bind_Some. apply bind_Some in H as (bh & _ & H).
  apply getblk_locks in E1. destruct (has_flag _ _).
  { apply bind_Some in H as (c2 & E2 & [= <- <-]). eapply locks_same_trans; eauto with locks. }
  destruct (bd_read _ _) as [data|]; [|by apply bind_Some in H as (c2 & _ & [= ? _])].
  apply bind_Some in H as (c2 & E2 & H). apply bind_Some in H as (c3 & E3 & H). apply bind_Some in H as (c4 & E4 & H).
  apply bind_Some in H as (c5 & E5 & [= <- <-]).
  do 4 (eapply locks_same_trans; [by eauto with locks|]). by eauto with locks.
Qed.

(** ** Quiet caches *)

Definition quiet (k : nat) c : Prop :=
  exists fs hs, cache_rep c fs hs /\ coherent c /\ (forall b bh, bufs c !! b = Some bh -> unlocked bh) /\
    (k <= length fs)%nat.

(** Buffer [b] has been read for block [n] and is off the free list. *)
Definition taken (k : nat) (b n : Z) (data : list Z) c : Prop :=
  exists fs hs bh, cache_rep c fs hs /\ coherent c /\ (forall x bx, bufs c !! x = Some bx -> unlocked bx) /\
    (k <= length fs)%nat /\ b ∉ fs /\ bufs c !! b = Some bh /\ b_blocknr bh = n /\ b_data bh = data /\
    has_flag (flags bh) BH_uptodate = true.

Lemma quiet_le k k' c : (k' <= k)%nat -> quiet k c -> quiet k' c.
Proof. intros Hk (fs & hs & ? & ? & ? & ?). exists fs, hs. split_and!; [done..|lia]. Qed.

(** Keeping the buffer costs the free list one. *)
Lemma taken_quiet k b n data c : taken k b n data c -> quiet k c.
Proof. intros (fs & hs & bh & ? & ? & ? & ? & _). by exists fs, hs. Qed.

Lemma filter_ne_length (l : list Z) b : NoDup l -> (length l <= S (length (filter (fun x => x ≠ b) l)))%nat.
Proof.
  induction 1 as [|x l Hx Hl IH]; [simpl; lia|]. destruct (decide (x = b)) as [->|].
  - rewrite filter_cons_False by (intros H; by apply H). rewrite list_filter_all; [simpl; lia|].
    apply Forall_forall. intros y Hy ->. done.
  - rewrite filter_cons_True by done. simpl. lia.
Qed.

Lemma rep_nodup c fs hs : cache_rep c fs hs -> NoDup fs.
Proof. intros Hc. destruct (cr_free _ _ _ Hc) as [[_ H]%NoDup_cons _]. by apply NoDup_fmap_1 in H. Qed.

Lemma quiet_available k c n fs hs :
  cache_rep c fs hs -> (forall b bh, bufs c !! b = Some bh -> unlocked bh) -> (S k <= length fs)%nat -> available c fs n.
Proof.
  intros Hc Hu Hk. destruct (decide (map_Exists (fun _ bh => b_blocknr bh = n) (bufs c))) as [(b & bh & Eb & Hn)|Hno].
  - left. exists b, bh. split_and!; [done..|by eapply Hu].
  - right. split; [|by destruct fs; [simpl in Hk; lia|]]. intros b bh Eb Hn. apply Hno. by exists b, bh.
Qed.

Lemma bread_quiet k c n data :
  quiet (S k) c -> 0 <= n -> bd_ok n -> holds c n data ->
  exists b c', bread 2 DEV_NO n c = Some (Some b, c') /\ taken k b n data c' /\ same_view c c'.
Proof.
  intros (fs & hs & Hc & Hco & Hu & Hk) Hn Hok Hd.
  destruct (bread_spec 0 _ c fs hs n data Hc Hco ltac:(done) Hn Hok (quiet_available k c n fs hs Hc Hu Hk) Hd)
    as (b & c' & hs' & bh & E & Hc' & Hco' & Hv & Eb & Hbn & Hbd & Hup & Hl & _).
  exists b, c'. split_and!; [done| |done]. exists (filter (fun x => x ≠ b) fs), hs', bh.
  split_and!; try done; [| |apply not_in_filter].
  - intros x bx Ex. destruct (decide (x = b)) as [->|Hne]; [unfold unlocked; congruence|].
    destruct (bread_locks _ _ _ _ _ _ E x bx Hne Ex) as (bx0 & E0 & L). unfold unlocked. rewrite L. by eapply Hu.
  - pose proof (filter_ne_length fs b (rep_nodup _ _ _ Hc)). lia.
Qed.

Lemma brelse_quiet k b n data c : taken k b n data c -> exists c', brelse b c = Some c' /\ quiet (S k) c' /\ same_view c c'.
Proof.
  intros (fs & hs & bh & Hc & Hco & Hu & Hk & Hb & Eb & _).
  destruct (brelse_spec c fs hs b bh Hc Eb Hb) as (st & E & Hc' & Hco' & Hv). eexists. split_and!; [done| |done].
  eexists _, hs. split_and!; [done|by apply Hco'| |].
  - intros x bx. cbn [bufs]. destruct (decide (x = b)) as [->|]; [|rewrite lookup_insert_ne by done; by apply Hu].
    rewrite lookup_insert_eq. intros [= <-]. apply flag_cleared.
  - destruct (to_front bh); [simpl|rewrite length_app; simpl]; lia.
Qed.

(** Storing into the buffer and writing it. *)
Lemma bwrite_quiet k b n data data' c c1 :
  taken k b n data c -> length data' = BUFFER_SIZE -> upd_buf b (set_data data') c = Some c1 ->
  exists c', bwrite b c1 = Some c' /\ quiet (S k) c' /\ holds c' n data' /\
    forall m x, bd_ok m -> m ≠ n -> holds c m x -> holds c' m x.
Proof.
  intros (fs & hs & bh & Hc & Hco & Hu & Hk & Hb & Eb & Hn & Hd & Hup) Hlen E1.
  rewrite (upd_buf_some b _ _ bh Eb) in E1. injection E1 as <-.
  pose proof (cr_buf _ _ _ Hc _ _ Eb) as (_ & _ & _ & Hlb).
  pose proof (rep_upd _ _ _ b bh (set_data data' bh) (disk c) Hc Eb eq_refl eq_refl) as Hc1.
  specialize (Hc1 ltac:(cbn [set_data b_data]; congruence) ltac:(by intros ?)).
  destruct (bwrite_one _ fs hs b (set_data data' bh) Hc1) as (c' & bh' & E & Hc' & Hco' & Hr & Hf & Eb' & Hd' & Hl' & Hn' & Hu' & _ & _ & Hx).
  - cbn [bufs]. apply lookup_insert_eq.
  - done.
  - intros x bx. cbn [bufs disk]. destruct (decide (x = b)) as [->|].
    + rewrite lookup_insert_eq. intros [= <-]. split; [by intros _|done].
    + rewrite lookup_insert_ne by done. intros Ex. destruct (Hco x bx Ex) as [H1 H2]. split; [exact H1|intros _; exact (H2 (fun H => H))].
  - done.
  - exists c'. split; [done|]. cbn [set_data b_blocknr b_data flags bufs disk] in *. split_and!.
    + eexists _, hs. split_and!; [done..| |].
      * intros x bx Ex. destruct (decide (x = b)) as [->|Hne]; [unfold unlocked; congruence|].
        rewrite Hx, lookup_insert_ne in Ex by done. by eapply Hu.
      * destruct (has_flag (flags bh) BH_old); [simpl|rewrite length_app; simpl]; lia.
    + left. exists b, bh'. split_and!; [done|congruence|done|congruence].
    + intros m x Hm Hne [(y & by' & Ey & Hy & Hyu & Hyd)|[Hno Hr']].
      * left. assert (y ≠ b) as Hyb by (intros ->; rewrite Eb in Ey; congruence).
        exists y, by'. rewrite Hx, lookup_insert_ne by done. done.
      * right. split; [|rewrite Hf; [done|done|congruence]].
        intros y by' Ey Hy. assert (y ≠ b) as Hyb by (intros ->; congruence).
        rewrite Hx, lookup_insert_ne in Ey by done. by eapply Hno.
Qed.

(** In a coherent cache a block has exactly one content. *)
Lemma rep_holds_unique c fs hs n x y : cache_rep c fs hs -> holds c n x -> holds c n y -> x = y.
Proof.
  intros Hc [(b & bh & Eb & Hn & Hu & Hd)|[Hno Hr]] [(b' & bh' & Eb' & Hn' & Hu' & Hd')|[Hno' Hr']].
  - assert (b = b') as -> by (apply (cr_unique _ _ _ Hc b b' bh bh'); congruence). congruence.
  - rewrite (Hno' b bh Eb Hn) in Hu. done.
  - rewrite (Hno b' bh' Eb' Hn') in Hu'. done.
  - congruence.
Qed.

Lemma holds_unique k c n x y : quiet k c -> holds c n x -> holds c n y -> x = y.
Proof. intros (fs & hs & Hc & _). by apply (rep_holds_unique c fs hs). Qed.

(** Storing into a buffer that stays taken, and writing the same data to the
    disk beside the cache. *)
Lemma write_beside k b n data data' c c1 d :
  taken k b n data c -> length data' = BUFFER_SIZE -> upd_buf b (set_data data') c = Some c1 ->
  bd_write n data' (disk c) = Some d ->
  let c' := mk_cache _ (bufs c1) (links c1) d in
  quiet k c' /\ holds c' n data' /\ forall m x, bd_ok m -> m ≠ n -> holds c m x -> holds c' m x.
Proof.
  intros (fs & hs & bh & Hc & Hco & Hu & Hk & Hb & Eb & Hn & Hd & Hup) Hlen E1 Ed c'.
  rewrite (upd_buf_some b _ _ bh Eb) in E1. injection E1 as <-. cbn [bufs links] in c'.
  pose proof (cr_buf _ _ _ Hc _ _ Eb) as (_ & _ & Hok & Hlb). rewrite Hn in Hok.
  destruct (bd_write_ok n data' (disk c) Hok Hlen) as (d' & Ed' & Hr & Hf). rewrite Ed in Ed'. injection Ed' as <-.
  pose proof (rep_upd _ _ _ b bh (set_data data' bh) d Hc Eb eq_refl eq_refl) as Hc1.
  specialize (Hc1 ltac:(cbn [set_data b_data]; congruence) ltac:(by intros ?)).
  split_and!.
  - exists fs, hs. split_and!; [done| | |done]; intros x bx; cbn [c' bufs disk];
      (destruct (decide (x = b)) as [->|Hne]; [rewrite lookup_insert_eq; intros [= <-]|rewrite lookup_insert_ne by done; intros Ex]).
    + split; [by intros _|]. intros _ _ _. cbn [set_data b_blocknr b_data]. by rewrite Hn.
    + destruct (Hco x bx Ex) as [H1 H2]. split; [done|]. intros HX Hx1 Hx2. rewrite Hf; [by apply (H2 HX)| |].
      * by apply (cr_buf _ _ _ Hc) in Ex as (_ & _ & ? & _).
      * intros Hx. rewrite <- Hn in Hx. by apply (cr_one _ _ _ _ _ Hc Eb x bx Ex) in Hx.
    + by apply (Hu b bh).
    + by apply (Hu x bx).
  - left. exists b, (set_data data' bh). cbn [c' bufs]. by rewrite lookup_insert_eq.
  - intros m x Hm Hne [(y & by' & Ey & Hy & Hyu & Hyd)|[Hno Hr']].
    + left. assert (y ≠ b) as Hyb by (intros ->; rewrite Eb in Ey; congruence).
      exists y, by'. cbn [c' bufs]. by rewrite lookup_insert_ne.
    + right. cbn [c' bufs disk]. split; [|by rewrite Hf]. intros y by' Ey Hy.
      assert (y ≠ b) as Hyb by (intros ->; rewrite lookup_insert_eq in Ey; injection Ey as <-; cbn [set_data b_blocknr] in Hy; congruence).
      rewrite lookup_insert_ne in Ey by done. by eapply Hno.
Qed.
End Blocks.
