(* ===== verification/Kept.v ===== *)
(** * Buffers kept by their users

    A client that holds several buffers at once, or changes a buffer and writes
    it later.  [kept k xs D c]: the buffers [xs] are off the free list, those of
    [D] (among them) may differ from the disk, every other buffer is unlocked,
    and at least [k] are free. *)

From S2P Require Export Blocks.

Section Kept.
Context {B : Type} `{!BlockDev B}.
Implicit Types c : buffer_cache B.

Definition kept (k : nat) (xs : list Z) (D : Z -> Prop) c : Prop :=
  exists fs hs, cache_rep c fs hs /\ coherent_out D c /\ (forall x, x ∈ xs -> x ∉ fs /\ is_Some (bufs c !! x)) /\
    (forall x, D x -> x ∈ xs) /\ (forall b bh, bufs c !! b = Some bh -> b ∉ xs -> unlocked bh) /\ (k <= length fs)%nat.

(** Every other buffer is as before. *)
Definition others (b : Z) c c' : Prop := forall x, x ≠ b -> bufs c' !! x = bufs c !! x.

(** No buffer of [xs] is for block [n]. *)
Definition not_kept (xs : list Z) (n : Z) c : Prop := forall x bx, x ∈ xs -> bufs c !! x = Some bx -> b_blocknr bx ≠ n.

Lemma kept_quiet k c : quiet k c -> kept k [] (fun _ => False) c.
Proof.
  intros (fs & hs & Hc & Hco & Hu & Hk). exists fs, hs. split_and!; try done; [by intros x ?%not_elem_of_nil|].
  intros b bh Eb _. by eapply Hu.
Qed.

Lemma kept_rest k c (D : Z -> Prop) : kept k [] D c -> quiet k c.
Proof.
  intros (fs & hs & Hc & Hco & _ & HD & Hu & Hk). exists fs, hs. split_and!; try done.
  - eapply coherent_out_weaken; [exact Hco|]. intros b Hb%HD. by apply not_elem_of_nil in Hb.
  - intros b bh Eb. apply (Hu b bh Eb), not_elem_of_nil.
Qed.

Lemma kept_le k k' xs D c : (k' <= k)%nat -> kept k xs D c -> kept k' xs D c.
Proof. intros Hk (fs & hs & H1 & H2 & H3 & H4 & H5 & H6). exists fs, hs. split_and!; [done..|lia]. Qed.

Lemma kept_weaken k xs (D D' : Z -> Prop) c :
  kept k xs D c -> (forall x, D x -> D' x) -> (forall x, D' x -> x ∈ xs) -> kept k xs D' c.
Proof.
  intros (fs & hs & H1 & H2 & H3 & H4 & H5 & H6) HD HD'. exists fs, hs. split_and!; try done.
  by eapply coherent_out_weaken.
Qed.

Lemma kept_buf k xs D c b bh : kept k xs D c -> bufs c !! b = Some bh ->
  b_dev bh = DEV_NO /\ 0 <= b_blocknr bh /\ bd_ok (b_blocknr bh) /\ length (b_data bh) = BUFFER_SIZE.
Proof. intros (fs & hs & Hc & _). apply (cr_buf _ _ _ Hc). Qed.

Lemma kept_unique k xs D c b b' bh bh' : kept k xs D c -> bufs c !! b = Some bh -> bufs c !! b' = Some bh' ->
  b_blocknr bh = b_blocknr bh' -> b = b'.
Proof. intros (fs & hs & Hc & _). apply (cr_unique _ _ _ Hc). Qed.

Lemma kept_holds_unique k xs D c n x y : kept k xs D c -> holds c n x -> holds c n y -> x = y.
Proof. intros (fs & hs & Hc & _). by apply (rep_holds_unique c fs hs). Qed.

Lemma kept_available k xs c n fs hs :
  cache_rep c fs hs -> (forall b bh, bufs c !! b = Some bh -> b ∉ xs -> unlocked bh) -> not_kept xs n c -> (S k <= length fs)%nat ->
  available c fs n.
Proof.
  intros Hc Hu Hn Hk. destruct (decide (map_Exists (fun _ bh => b_blocknr bh = n) (bufs c))) as [(b & bh & Eb & Hb)|Hno].
  - left. exists b, bh. split_and!; [done..|]. apply (Hu b bh Eb). intros Hx. by apply (Hn b bh Hx Eb).
  - right. split; [|by destruct fs; [simpl in Hk; lia|]]. intros b bh Eb Hb. apply Hno. by exists b, bh.
Qed.

Lemma filter_length_S k (fs : list Z) b : NoDup fs -> (S k <= length fs)%nat -> (k <= length (filter (fun x => x ≠ b) fs))%nat.
Proof. intros Hnd Hk. pose proof (filter_ne_length fs b Hnd). lia. Qed.

(** A buffer taken from the free list joins the kept ones. *)
Lemma kept_join k xs D c c' b bh fs hs hs' n :
  cache_rep c fs hs -> (forall x, x ∈ xs -> x ∉ fs /\ is_Some (bufs c !! x)) -> (forall x, D x -> x ∈ xs) ->
  (forall b bh, bufs c !! b = Some bh -> b ∉ xs -> unlocked bh) -> (S k <= length fs)%nat -> not_kept xs n c ->
  cache_rep c' (filter (fun x => x ≠ b) fs) hs' -> coherent_out D c' -> bufs c' !! b = Some bh -> others b c c' ->
  (b ∈ fs \/ exists bh0, bufs c !! b = Some bh0 /\ b_blocknr bh0 = n) ->
  b ∉ xs /\ kept k (b :: xs) D c'.
Proof.
  intros Hc Hxs HD Hu Hk Hn Hc' Hco' Eb Hoth Hfrom.
  assert (b ∉ xs) as Hb.
  { intros Hx. destruct Hfrom as [Hf|(bh0 & E0 & H0)]; [by apply (proj1 (Hxs b Hx))|by apply (Hn b bh0 Hx E0)]. }
  split; [done|]. exists (filter (fun x => x ≠ b) fs), hs'. split_and!; try done.
  - intros x [->|Hx]%elem_of_cons; [split; [apply not_in_filter|by eexists]|].
    destruct (Hxs x Hx) as [Hf Hs]. assert (x ≠ b) by congruence. split; [|by rewrite Hoth].
    intros [_ ?]%list_elem_of_filter. done.
  - intros x Hx. right. by apply HD.
  - intros x bx Ex Hx. apply not_elem_of_cons in Hx as [Hxb Hx]. rewrite Hoth in Ex by done. by eapply Hu.
  - apply filter_length_S; [by eapply rep_nodup|done].
Qed.

Lemma kept_getblk k xs D c n :
  kept (S k) xs D c -> 0 <= n -> bd_ok n -> not_kept xs n c ->
  exists b c' bh, getblk 2 DEV_NO n c = Some (b, c') /\ b ∉ xs /\ kept k (b :: xs) D c' /\ same_view c c' /\ others b c c' /\
    bufs c' !! b = Some bh /\ b_blocknr bh = n.
Proof.
  intros (fs & hs & Hc & Hco & Hxs & HD & Hu & Hk) Hn Hok Hnk.
  destruct (getblk_spec 0 D c fs hs n Hc Hco) as (b & c' & E & [[hs' Hc'] Hco' Hv (bh & Eb & Hbn & _) Hoth Hfrom]); try done.
  { intros x Hx. by apply Hxs, HD. }
  { by eapply (kept_available k xs). }
  destruct (kept_join k xs D c c' b bh fs hs hs' n) as [Hb Hkept]; try done. exists b, c', bh. split_and!; done.
Qed.

Lemma kept_bread k xs D c n data :
  kept (S k) xs D c -> 0 <= n -> bd_ok n -> not_kept xs n c -> holds c n data ->
  exists b c' bh, bread 2 DEV_NO n c = Some (Some b, c') /\ b ∉ xs /\ kept k (b :: xs) D c' /\ same_view c c' /\ others b c c' /\
    bufs c' !! b = Some bh /\ b_blocknr bh = n /\ b_data bh = data /\ has_flag (flags bh) BH_uptodate = true.
Proof.
  intros (fs & hs & Hc & Hco & Hxs & HD & Hu & Hk) Hn Hok Hnk Hd.
  destruct (bread_spec 0 D c fs hs n data Hc Hco) as (b & c' & hs' & bh & E & Hc' & Hco' & Hv & Eb & Hbn & Hbd & Hup & _ & Hoth & Hfrom); try done.
  { intros x Hx. by apply Hxs, HD. }
  { by eapply (kept_available k xs). }
  destruct (kept_join k xs D c c' b bh fs hs hs' n) as [Hb Hkept]; try done. exists b, c', bh. split_and!; done.
Qed.

(** A buffer goes back to the free list. *)
Lemma kept_leave k xs (D' : Z -> Prop) c c' b bh' fs fs' hs' :
  (forall x, x ∈ b :: xs -> x ∉ fs /\ is_Some (bufs c !! x)) -> (forall x bx, bufs c !! x = Some bx -> x ∉ b :: xs -> unlocked bx) ->
  (k <= length fs)%nat -> b ∉ xs -> cache_rep c' fs' hs' -> fs' = b :: fs \/ fs' = fs ++ [b] -> coherent_out D' c' ->
  (forall x, D' x -> x ∈ xs) -> others b c c' -> bufs c' !! b = Some bh' -> has_flag (flags bh') BH_lock = false ->
  kept (S k) xs D' c'.
Proof.
  intros Hxs Hu Hk Hb Hc' Hfs' Hco' HD' Hoth Eb' Hl'. exists fs', hs'.
  assert (forall x, x ∈ fs' <-> x = b \/ x ∈ fs) as Hfs by (intros x; destruct Hfs' as [-> | ->]; set_solver).
  split_and!; try done.
  - intros x Hx. assert (x ≠ b) by congruence. destruct (Hxs x) as [Hf Hs]; [by right|]. split; [rewrite Hfs; tauto|by rewrite Hoth].
  - intros x bx Ex Hx. destruct (decide (x = b)) as [->|Hne]; [unfold unlocked; congruence|]. rewrite Hoth in Ex by done.
    eapply Hu; [done|]. apply not_elem_of_cons. done.
  - destruct Hfs' as [-> | ->]; [simpl|rewrite length_app; simpl]; lia.
Qed.

Lemma kept_brelse k xs D c b :
  kept k (b :: xs) D c -> b ∉ xs -> ~ D b ->
  exists c', brelse b c = Some c' /\ kept (S k) xs D c' /\ same_view c c' /\ others b c c'.
Proof.
  intros (fs & hs & Hc & Hco & Hxs & HD & Hu & Hk) Hb HDb. destruct (Hxs b) as [Hf [bh Eb]]; [by left|].
  destruct (brelse_spec c fs hs b bh Hc Eb Hf) as (st & E & Hc' & Hco' & Hv). eexists. split; [exact E|].
  assert (others b c (mk_cache _ (<[b := clear_flag BH_lock bh]> (bufs c)) st (disk c))) as Hoth
    by (intros x Hx; cbn [bufs]; by rewrite lookup_insert_ne).
  split_and!; [|done..].
  eapply (kept_leave k xs D c _ b (clear_flag BH_lock bh)); try done.
  - destruct (to_front bh); auto.
  - by apply Hco'.
  - intros x Hx. pose proof (HD x Hx) as [->|?]%elem_of_cons; done.
  - cbn [bufs]. apply lookup_insert_eq.
  - apply flag_cleared.
Qed.

(** Storing into a kept buffer. *)
Lemma kept_store k xs D c b bh data :
  kept k xs D c -> b ∈ xs -> bufs c !! b = Some bh -> length data = BUFFER_SIZE ->
  exists c', upd_buf b (set_data data) c = Some c' /\ kept k xs (fun x => D x \/ x = b) c' /\ others b c c' /\
    bufs c' !! b = Some (set_data data bh) /\
    (forall m x, m ≠ b_blocknr bh -> holds c m x -> holds c' m x).
Proof.
  intros (fs & hs & Hc & Hco & Hxs & HD & Hu & Hk) Hb Eb Hlen. rewrite (upd_buf_some b _ _ bh Eb).
  pose proof (cr_buf _ _ _ Hc _ _ Eb) as (_ & _ & _ & Hlb). destruct (Hxs b Hb) as [Hf _].
  pose proof (rep_upd _ _ _ b bh (set_data data bh) (disk c) Hc Eb eq_refl eq_refl) as Hc1.
  specialize (Hc1 ltac:(cbn [set_data b_data]; congruence) ltac:(done)). eexists. split; [done|].
  assert (forall x, x ≠ b -> <[b := set_data data bh]> (bufs c) !! x = bufs c !! x) as Hoth by (intros; by rewrite lookup_insert_ne).
  split_and!; [|done|cbn [bufs]; apply lookup_insert_eq|].
  - exists fs, hs. split_and!; try done; cbn [bufs disk].
    + intros x bx. cbn [bufs disk]. destruct (decide (x = b)) as [->|].
      * rewrite lookup_insert_eq. intros [= <-]. destruct (Hco b bh Eb) as [H1 _]. split; [exact H1|]. intros Hx. destruct Hx. by right.
      * rewrite lookup_insert_ne by done. intros Ex. destruct (Hco x bx Ex) as [H1 H2]. split; [exact H1|]. intros Hx. apply H2. tauto.
    + intros x Hx. split; [by apply Hxs|]. destruct (decide (x = b)) as [->|]; [rewrite lookup_insert_eq; by eexists|].
      rewrite lookup_insert_ne by done. by apply Hxs.
    + intros x [Hx| ->]; [by apply HD|done].
    + intros x bx Ex Hx. rewrite Hoth in Ex by congruence. by eapply Hu.
  - intros m x Hm [(y & by' & Ey & Hy & Hyu & Hyd)|[Hno Hr]]; cbn [bufs disk].
    + left. assert (y ≠ b) by congruence. exists y, by'. cbn [bufs]. by rewrite lookup_insert_ne.
    + right. split; [|done]. intros y by' Ey Hy. cbn [bufs] in Ey. destruct (decide (y = b)) as [->|].
      * rewrite lookup_insert_eq in Ey. injection Ey as <-. by rewrite <- Hy in Hm.
      * rewrite lookup_insert_ne in Ey by done. by eapply Hno.
Qed.

(** Writing a kept buffer out. *)
Lemma kept_bwrite k xs D c b bh :
  kept k (b :: xs) D c -> b ∉ xs -> bufs c !! b = Some bh ->
  exists c', bwrite b c = Some c' /\ kept (S k) xs (fun x => D x /\ x ≠ b) c' /\ others b c c' /\
    holds c' (b_blocknr bh) (b_data bh) /\ (forall m x, bd_ok m -> m ≠ b_blocknr bh -> holds c m x -> holds c' m x).
Proof.
  intros (fs & hs & Hc & Hco & Hxs & HD & Hu & Hk) Hb Eb. destruct (Hxs b) as [Hf _]; [by left|].
  destruct (bwrite_spec D c fs hs b bh Hc Eb Hf Hco) as (c' & E & Hc' & Hco' & Hr & Hfr & (bh' & Eb' & Hd' & Hl' & Hn' & Hu' & _) & Hoth).
  exists c'. split; [done|]. split_and!; [|done| |].
  - eapply (kept_leave k xs _ c c' b bh'); try done.
    + destruct (has_flag (flags bh) BH_old); auto.
    + intros x [Hx Hne]. pose proof (HD x Hx) as [->|?]%elem_of_cons; done.
  - destruct (has_flag (flags bh) BH_uptodate) eqn:Eu.
    + left. exists b, bh'. split_and!; done.
    + right. split; [|done]. intros x bx Ex Hx. assert (x = b) as -> by (apply (cr_unique _ _ _ Hc' x b bx bh' Ex Eb'); congruence). congruence.
  - intros m x Hm Hne [(y & by' & Ey & Hy & Hyu & Hyd)|[Hno Hr']].
    + left. assert (y ≠ b) by congruence. exists y, by'. by rewrite Hoth.
    + right. split; [|by rewrite Hfr]. intros y by' Ey Hy. destruct (decide (y = b)) as [->|Hyb]; [congruence|].
      rewrite Hoth in Ey by done. by eapply Hno.
Qed.
End Kept.
