(* ===== verification/Ufs.v ===== *)
(** * The early file system: blocks and inodes on disk (fs/ufs/ufs.c,
    include/ufs.h)

    A System V file system: the superblock keeps the top of a chain of free
    blocks and a list of some free inodes.  [super] points into the data of a
    buffer, so every access goes through the buffer cache; [None] as a value is
    the null pointer.  A loop that waits for a lock does not end: [None].  Two
    rounds of [getblk] are enough, as in Buffer. *)

From S2P Require Import CString.
From S2P Require Export Struct Kept.

Definition U_BLK_SIZE : Z := 1024.
Definition U_BYTES_PER_INODE : Z := 4096.
Definition INODES_PER_BLOCK : Z := 8.
Definition FREE_INODE_LIST : Z := 50.
Definition FREE_BLOCK_LIST : Z := 128.
Definition INODE_MEMBER_BLOCKS : Z := 15.
Definition DIR_ENTRY_BYTES : Z := 32.
Definition DIR_ENTRY_NAME_SIZE : Z := 28.
Definition SUPER_MODIFIED : Z := Z.shiftl 0 2.

(** [disk_read_blk] and [disk_write_blk]: blocks of two sectors from sector 0 on. *)
Definition ufs_volume : volume := mk_volume true 0 0.
Definition ufs_disk_read_blk {D} `{!SectorDev D} (block_num : Z) (d : D) : Z * list Z := disk_read_blk ufs_volume block_num d.
Definition ufs_disk_write_blk {D} `{!SectorDev D} (block_num : Z) (buf : list Z) (d : D) : option (Z * D) :=
  disk_write_blk ufs_volume block_num buf d.

(** ** Structures *)

Definition ufs_super_block : list member := [
  U16 "s_fs_size"; U16 "s_flags"; U32 "s_inode_list_size"; U32 "s_total_inodes"; U32 "s_n_free_inodes";
  Member "s_free_inodes" 4 50; U32 "s_next_free_inode"; U32 "s_remembered_inode"; U8 "s_inode_list_lock";
  U32 "s_blk_dilb_start"; U32 "s_blk_dilb_end"; U8 "s_block_list_lock"; U32 "s_n_free_blocks";
  Member "s_free_blocks" 4 128; U32 "s_next_free_block" ].

Definition d_inode : list member := [
  U16 "i_mode"; U16 "i_uid"; U32 "i_size"; U32 "i_atime"; U32 "i_ctime"; U32 "i_mtime"; U32 "i_dtime";
  U16 "i_gid"; U16 "i_nlinks"; U32 "i_n_blocks"; U32 "i_flags"; U32 "i_dev"; Member "i_blocks" 4 15;
  U32 "i_no"; U32 "i_blkno"; U32 "i_dir_acl"; U32 "i_pino"; Member "i_osd2" 1 12 ].

Definition dir_entry : list member := [ U32 "dir_inode"; Member "dir_name" 1 28 ].

Definition s_fs_size := Eval vm_compute in the_field ufs_super_block "s_fs_size".
Definition s_flags := Eval vm_compute in the_field ufs_super_block "s_flags".
Definition s_inode_list_size := Eval vm_compute in the_field ufs_super_block "s_inode_list_size".
Definition s_total_inodes := Eval vm_compute in the_field ufs_super_block "s_total_inodes".
Definition s_n_free_inodes := Eval vm_compute in the_field ufs_super_block "s_n_free_inodes".
Definition s_next_free_inode := Eval vm_compute in the_field ufs_super_block "s_next_free_inode".
Definition s_remembered_inode := Eval vm_compute in the_field ufs_super_block "s_remembered_inode".
Definition s_inode_list_lock := Eval vm_compute in the_field ufs_super_block "s_inode_list_lock".
Definition s_blk_dilb_start := Eval vm_compute in the_field ufs_super_block "s_blk_dilb_start".
Definition s_blk_dilb_end := Eval vm_compute in the_field ufs_super_block "s_blk_dilb_end".
Definition s_block_list_lock := Eval vm_compute in the_field ufs_super_block "s_block_list_lock".
Definition s_n_free_blocks := Eval vm_compute in the_field ufs_super_block "s_n_free_blocks".
Definition s_next_free_block := Eval vm_compute in the_field ufs_super_block "s_next_free_block".

Definition ui_mode := Eval vm_compute in the_field d_inode "i_mode".
Definition ui_uid := Eval vm_compute in the_field d_inode "i_uid".
Definition ui_size := Eval vm_compute in the_field d_inode "i_size".
Definition ui_atime := Eval vm_compute in the_field d_inode "i_atime".
Definition ui_ctime := Eval vm_compute in the_field d_inode "i_ctime".
Definition ui_mtime := Eval vm_compute in the_field d_inode "i_mtime".
Definition ui_dtime := Eval vm_compute in the_field d_inode "i_dtime".
Definition ui_gid := Eval vm_compute in the_field d_inode "i_gid".
Definition ui_nlinks := Eval vm_compute in the_field d_inode "i_nlinks".
Definition ui_n_blocks := Eval vm_compute in the_field d_inode "i_n_blocks".
Definition ui_flags := Eval vm_compute in the_field d_inode "i_flags".
Definition ui_dev := Eval vm_compute in the_field d_inode "i_dev".
Definition ui_no := Eval vm_compute in the_field d_inode "i_no".
Definition ui_blkno := Eval vm_compute in the_field d_inode "i_blkno".
Definition ui_dir_acl := Eval vm_compute in the_field d_inode "i_dir_acl".
Definition ui_pino := Eval vm_compute in the_field d_inode "i_pino".

(** Array members; an index out of range is undefined. *)
Definition in_array (ms : list member) (n : string) (k : Z) : option field :=
  if k <? 0 then None else field_of ms n (Z.to_nat k).
Definition s_free_blocks (k : Z) : option field := in_array ufs_super_block "s_free_blocks" k.
Definition s_free_inodes (k : Z) : option field := in_array ufs_super_block "s_free_inodes" k.
Definition ui_blocks (k : Z) : option field := in_array d_inode "i_blocks" k.

(** Word [k] of a block, as [((unsigned long * )b_data)[k]]. *)
Definition word (k : Z) : field := Field (4 * Z.to_nat k) 4.

Definition init_dinode (dev_no i_no blkno : Z) (img : list Z) : list Z :=
  let img := put ui_mode 0 img in
  let img := put ui_uid 0 img in
  let img := put ui_size 0 img in
  let img := put ui_atime 0 img in
  let img := put ui_ctime 0 img in
  let img := put ui_mtime 0 img in
  let img := put ui_dtime 0 img in
  let img := put ui_gid 0 img in
  let img := put ui_nlinks 0 img in
  let img := put ui_n_blocks 0 img in
  let img := put ui_flags 0 img in
  let img := put ui_dev dev_no img in
  let img := foldl (fun img k => put (Field (40 + 4 * k) 4) 0 img) img (seq 0 15) in
  let img := put ui_no i_no img in
  let img := put ui_blkno blkno img in
  let img := put ui_dir_acl 0 img in
  put ui_pino 0 img.

(** ** State *)

Record ufs {B : Type} := mk_ufs { cache : buffer_cache B; super : option Z; sb_bh : option Z }.
Arguments ufs : clear implicits.
Arguments mk_ufs {B} _ _ _.

Section Ufs.
Context {B : Type} `{!BlockDev B}.
Implicit Types s : ufs B.

Definition set_cache c s : ufs B := mk_ufs c (super s) (sb_bh s).

(** Buffers: [None] in the result of a read is the null pointer. *)
Definition u_bread (n : Z) s : option (option Z * ufs B) := '(r, c) ← bread 2 DEV_NO n (cache s); Some (r, set_cache c s).
Definition u_getblk (n : Z) s : option (Z * ufs B) := '(b, c) ← getblk 2 DEV_NO n (cache s); Some (b, set_cache c s).
Definition u_bwrite (b : Z) s : option (ufs B) := c ← bwrite b (cache s); Some (set_cache c s).
Definition u_brelse (b : Z) s : option (ufs B) := c ← brelse b (cache s); Some (set_cache c s).
Definition data_of (b : Z) s : option (list Z) := bh ← bufs (cache s) !! b; Some (b_data bh).
Definition set_data_of (b : Z) (data : list Z) s : option (ufs B) := c ← upd_buf b (set_data data) (cache s); Some (set_cache c s).

(** [super->f] and [super->f = v]. *)
Definition sb_get (f : field) s : option Z := b ← super s; img ← data_of b s; Some (get f img).
Definition sb_put (f : field) (v : Z) s : option (ufs B) := b ← super s; img ← data_of b s; set_data_of b (put f v img) s.

(** ** The free inode list *)

(** The [dCnt] inodes from [dinode] on; the flag says that the list is full. *)
Fixpoint scan_dinodes (dCnt : nat) (dinode : list Z) (i_free_cnt : Z) s : option (bool * Z * ufs B) :=
  match dCnt with
  | O => Some (false, i_free_cnt, s)
  | S dCnt =>
      '(i_free_cnt, s) ← (if get ui_mode dinode =? 0 then
        f ← s_free_inodes i_free_cnt;
        s ← sb_put f (get ui_no dinode) s;
        n ← sb_get s_next_free_inode s;
        s ← sb_put s_next_free_inode (n + 1) s;
        Some (i_free_cnt + 1, s)
      else Some (i_free_cnt, s));
      if i_free_cnt =? FREE_INODE_LIST then
        s ← sb_put s_remembered_inode (get ui_no dinode + 1) s;
        Some (true, i_free_cnt, s)
      else scan_dinodes dCnt (drop 128 dinode) i_free_cnt s
  end.

Fixpoint fill_loop (n : nat) (dilb_start i_free_cnt : Z) s : option (ufs B) :=
  match n with
  | O => Some s
  | S n =>
      '(r, s) ← u_bread dilb_start s;
      match r with
      | None => Some s
      | Some b =>
          data ← data_of b s;
          '(bFlag, i_free_cnt, s) ← scan_dinodes (Z.to_nat INODES_PER_BLOCK) data i_free_cnt s;
          s ← u_brelse b s;
          if (bFlag : bool) then Some s else fill_loop n (dilb_start + 1) i_free_cnt s
      end
  end.

Definition fill_free_inode_list s : option (ufs B) :=
  st ← sb_get s_blk_dilb_start s;
  rem ← sb_get s_remembered_inode s;
  en ← sb_get s_blk_dilb_end s;
  let dilb_start := u32 (st + rem `div` INODES_PER_BLOCK) in
  fill_loop (Z.to_nat (en + 1 - dilb_start)) dilb_start 0 s.

(** The free inode list as [ifree] changes it. *)
Definition ifree (dev_no i_no : Z) s : option (ufs B) :=
  n ← sb_get s_n_free_inodes s;
  s ← sb_put s_n_free_inodes (n + 1) s;
  l ← sb_get s_inode_list_lock s;
  if l =? 1 then Some s
  else
    nx ← sb_get s_next_free_inode s;
    if s32 nx =? FREE_INODE_LIST then
      rem ← sb_get s_remembered_inode s;
      if i_no <? rem then sb_put s_remembered_inode i_no s else Some s
    else
      s ← sb_put s_next_free_inode (nx + 1) s;
      f ← s_free_inodes (s32 (nx + 1));
      sb_put f i_no s.

(** ** Free blocks *)

(** [for (; bCnt >= 0 && iblk <= end_blk; bCnt--, iblk++)] on the superblock. *)
Fixpoint fill_super (n : nat) (bCnt iblk end_blk : Z) s : option (Z * ufs B) :=
  match n with
  | O => Some (iblk, s)
  | S n =>
      if iblk <=? end_blk then
        f ← s_free_blocks bCnt;
        s ← sb_put f iblk s;
        fill_super n (bCnt - 1) (u32 (iblk + 1)) end_blk s
      else Some (iblk, s)
  end.

(** The same loop on the words of a link block. *)
Fixpoint fill_link (n : nat) (bCnt iCnt end_blk : Z) (data : list Z) : Z * list Z :=
  match n with
  | O => (iCnt, data)
  | S n =>
      if iCnt <=? end_blk then fill_link n (bCnt - 1) (u32 (iCnt + 1)) end_blk (put (word bCnt) iCnt data)
      else (iCnt, data)
  end.

(** [while (iblk <= end_blk)]; every round but the last fills a link block. *)
Fixpoint link_loop (fuel : nat) (iblk end_blk link_blk : Z) s : option (ufs B) :=
  match fuel with
  | O => None
  | S fuel =>
      if iblk <=? end_blk then
        '(r, s) ← u_bread link_blk s;
        match r with
        | None => Some s
        | Some b =>
            data ← data_of b s;
            data ← memset data 0 (Z.to_nat U_BLK_SIZE);
            let '(iCnt, data) := fill_link (Z.to_nat FREE_BLOCK_LIST) (FREE_BLOCK_LIST - 1) iblk end_blk data in
            s ← set_data_of b data s;
            let link_blk := get (word 0) data in
            s ← u_bwrite b s;
            if link_blk =? 0 then Some s else link_loop fuel iCnt end_blk link_blk s
        end
      else Some s
  end.

Definition make_block_list (fs_bytes : Z) s : option (ufs B) :=
  en ← sb_get s_blk_dilb_end s;
  let start_blk := u32 (en + 1) in
  let end_blk := u32 (fs_bytes `div` U_BLK_SIZE - 1) in
  '(iblk, s) ← fill_super (Z.to_nat FREE_BLOCK_LIST) (FREE_BLOCK_LIST - 1) start_blk end_blk s;
  if end_blk <? iblk then Some s
  else
    f ← s_free_blocks 0;
    link_blk ← sb_get f s;
    link_loop (S (Z.to_nat (end_blk + 1 - iblk))) iblk end_blk link_blk s.

Fixpoint first_inodes_loop (n : nat) (iCnt : Z) s : option (ufs B) :=
  match n with
  | O => Some s
  | S n => f ← s_free_inodes iCnt; s ← sb_put f (iCnt + 2) s; first_inodes_loop n (iCnt + 1) s
  end.

Definition make_super (mb : Z) s : option (ufs B) :=
  s ← sb_put s_fs_size mb s;
  let fs_bytes := u32 (mb * 1024 * 1024) in
  let total := fs_bytes `div` U_BYTES_PER_INODE in
  s ← sb_put s_total_inodes total s;
  let inode_blocks := (total + INODES_PER_BLOCK - 1) `div` INODES_PER_BLOCK in
  s ← sb_put s_blk_dilb_start 2 s;
  s ← sb_put s_blk_dilb_end (2 + inode_blocks - 1) s;
  s ← sb_put s_inode_list_size FREE_INODE_LIST s;
  s ← sb_put s_n_free_inodes total s;
  s ← sb_put s_next_free_inode (FREE_INODE_LIST - 1) s;
  s ← first_inodes_loop (Z.to_nat FREE_INODE_LIST) 0 s;
  s ← sb_put s_remembered_inode (FREE_INODE_LIST + 2) s;
  s ← sb_put s_inode_list_lock 0 s;
  s ← sb_put s_flags 0 s;
  s ← sb_put s_next_free_block (FREE_BLOCK_LIST - 1) s;
  en ← sb_get s_blk_dilb_end s;
  let start_blk := u32 (en + 1) in
  let end_blk := u32 (fs_bytes `div` U_BLK_SIZE - 1) in
  s ← sb_put s_n_free_blocks (end_blk - start_blk + 1) s;
  make_block_list fs_bytes s.

(** [for (iCnt = 0; iCnt < blocks; iCnt++) super->s_free_blocks[iCnt] = ptr[iCnt]] *)
Fixpoint load_list (n : nat) (iCnt : Z) (data : list Z) s : option (ufs B) :=
  match n with
  | O => Some s
  | S n => f ← s_free_blocks iCnt; s ← sb_put f (get (word iCnt) data) s; load_list n (iCnt + 1) data s
  end.

(** The link block [blk_no] gives the next list; [false]: it cannot be read. *)
Definition refill (blk_no : Z) s : option (bool * ufs B) :=
  s ← sb_put s_block_list_lock 1 s;
  '(r, s) ← u_bread blk_no s;
  match r with
  | None => Some (false, s)
  | Some b =>
      data ← data_of b s;
      s ← load_list (Z.to_nat FREE_BLOCK_LIST) 0 data s;
      s ← sb_put s_next_free_block (FREE_BLOCK_LIST - 1) s;
      s ← u_brelse b s;
      s ← sb_put s_block_list_lock 0 s;
      Some (true, s)
  end.

(** A buffer for the block, cleared, and the counters. *)
Definition take_block (blk_no : Z) s : option (Z * ufs B) :=
  '(b, s) ← u_getblk blk_no s;
  data ← data_of b s;
  data ← memset data 0 (Z.to_nat U_BLK_SIZE);
  s ← set_data_of b data s;
  n ← sb_get s_n_free_blocks s;
  s ← sb_put s_n_free_blocks (n - 1) s;
  fl ← sb_get s_flags s;
  s ← sb_put s_flags (Z.lor fl SUPER_MODIFIED) s;
  Some (b, s).

(** [None] as a value is the null pointer: an empty list or a failed read. *)
Definition balloc s : option (option Z * ufs B) :=
  l ← sb_get s_block_list_lock s;
  if l =? 1 then None
  else
    nx ← sb_get s_next_free_block s;
    if s32 nx <? 0 then Some (None, s)
    else
      f ← s_free_blocks (s32 nx);
      blk_no ← sb_get f s;
      s ← sb_put s_next_free_block (nx - 1) s;
      '(ok, s) ← (if s32 (nx - 1) =? -1 then refill blk_no s else Some (true, s));
      if negb ok then Some (None, s)
      else '(b, s) ← take_block blk_no s; Some (Some b, s).

(** [ptr[iCnt] = super->s_free_blocks[iCnt]] *)
Fixpoint save_list (n : nat) (iCnt : Z) s (data : list Z) : option (list Z) :=
  match n with
  | O => Some data
  | S n => f ← s_free_blocks iCnt; v ← sb_get f s; save_list n (iCnt + 1) s (put (word iCnt) v data)
  end.

Definition bfree (blk_no : Z) s : option (ufs B) :=
  l ← sb_get s_block_list_lock s;
  if l =? 1 then None
  else
    s ← sb_put s_block_list_lock 1 s;
    nx ← sb_get s_next_free_block s;
    if FREE_BLOCK_LIST <=? s32 nx then
      '(r, s) ← u_bread blk_no s;
      match r with
      | None => Some s
      | Some b =>
          data ← data_of b s;
          data ← save_list (Z.to_nat FREE_BLOCK_LIST) 0 s data;
          s ← set_data_of b data s;
          f ← s_free_blocks 0;
          s ← sb_put f blk_no s;
          s ← sb_put s_next_free_block 0 s;
          s ← u_bwrite b s;
          sb_put s_block_list_lock 0 s
      end
    else
      s ← sb_put s_next_free_block (nx + 1) s;
      f ← s_free_blocks (s32 nx);
      s ← sb_put f blk_no s;
      sb_put s_block_list_lock 0 s.

(** ** Inodes on disk *)

(** The code follows the null pointer when the read fails. *)
Definition get_dinode (i_no : Z) s : option (list Z * ufs B) :=
  st ← sb_get s_blk_dilb_start s;
  '(r, s) ← u_bread (u32 (i_no `div` INODES_PER_BLOCK + st)) s;
  b ← r;
  data ← data_of b s;
  dinode ← load (128 * (i_no `mod` INODES_PER_BLOCK)) 128 data;
  s ← u_brelse b s;
  Some (dinode, s).

(** [read_inode] of an inode numbered [i_no]: its image on disk. *)
Definition read_inode (i_no : Z) s : option (list Z * ufs B) := get_dinode i_no s.

(** The first 128 bytes of an in-core inode are a [d_inode]. *)
Definition write_inode (inode : list Z) s : option (ufs B) :=
  let i_no := get ui_no inode in
  st ← sb_get s_blk_dilb_start s;
  '(r, s) ← u_bread (u32 (i_no `div` INODES_PER_BLOCK + st)) s;
  b ← r;
  data ← data_of b s;
  data ← store (128 * (i_no `mod` INODES_PER_BLOCK)) inode data;
  s ← set_data_of b data s;
  u_bwrite b s.

(** ** Making a file system *)

(** [dentry] holds what was on the stack; at most 27 characters are copied. *)
Definition create_entry (dentry entry_name : list Z) (b offset inode_no : Z) s : option (ufs B) :=
  let dentry := put (Field 0 4) inode_no dentry in
  name ← strncpy (slice 4 28 dentry) entry_name 27;
  let dentry := splice 31 [0] (splice 4 name dentry) in
  data ← data_of b s;
  data ← store offset dentry data;
  set_data_of b data s.

(** The names of the directories in the root. *)
Definition root_names : list (list Z) := [
  [46; 0]; [46; 46; 0]; [100; 101; 118; 0]; [101; 116; 99; 0]; [117; 115; 114; 0]; [109; 110; 116; 0]; [98; 105; 110; 0];
  [98; 111; 111; 116; 0]; [104; 111; 109; 101; 0] ].

Fixpoint root_entries (stack : list Z) (names : list (list Z)) (iCnt : Z) (b : Z) (inode : list Z) s : option (list Z * ufs B) :=
  match names with
  | [] => Some (inode, s)
  | name :: names =>
      c1 ← strcmp name [46; 46; 0];
      c2 ← strcmp name [46; 0];
      if (c1 =? 0) || (c2 =? 0) then
        s ← create_entry stack name b (iCnt * DIR_ENTRY_BYTES) 1 s;
        root_entries stack names (iCnt + 1) b (put ui_pino 1 inode) s
      else
        nx ← sb_get s_next_free_inode s;
        s ← sb_put s_next_free_inode (nx - 1) s;
        f ← s_free_inodes (s32 nx);
        inos ← sb_get f s;
        s ← create_entry stack name b (iCnt * DIR_ENTRY_BYTES) inos s;
        '(dinode, s) ← read_inode inos s;
        let dinode := put ui_pino 1 dinode in
        n ← sb_get s_n_free_inodes s;
        s ← sb_put s_n_free_inodes (n - 1) s;
        s ← write_inode dinode s;
        root_entries stack names (iCnt + 1) b inode s
  end.

Definition create_root (stack : list Z) s : option (Z * ufs B) :=
  '(inode, s) ← read_inode 1 s;
  '(r, s) ← balloc s;
  match r with
  | None => Some (-1, s)
  | Some b =>
      bh ← bufs (cache s) !! b;
      let inode := put (Field 40 4) (b_blocknr bh) inode in
      '(inode, s) ← root_entries stack root_names 0 b inode s;
      let inode := put ui_size (Z.of_nat (length root_names) * DIR_ENTRY_BYTES) inode in
      s ← write_inode inode s;
      s ← u_bwrite b s;
      Some (0, s)
  end.

(** The inodes of one block. *)
Fixpoint init_inodes (n : nat) (jCnt iCnt blk : Z) (data : list Z) : option (list Z) :=
  match n with
  | O => Some data
  | S n =>
      dinode ← load (128 * jCnt) 128 data;
      data ← store (128 * jCnt) (init_dinode DEV_NO (iCnt + jCnt) blk dinode) data;
      init_inodes n (jCnt + 1) iCnt blk data
  end.

(** [fuel] rounds of the loop over the inode blocks, of which there are no more
    than inodes. *)
Fixpoint init_inode_blocks (fuel : nat) (iCnt : Z) s : option (ufs B) :=
  match fuel with
  | O => None
  | S fuel =>
      total ← sb_get s_total_inodes s;
      if iCnt <? total then
        st ← sb_get s_blk_dilb_start s;
        let blk := u32 (iCnt `div` INODES_PER_BLOCK + st) in
        '(r, s) ← u_bread blk s;
        match r with
        | None => Some s
        | Some b =>
            data ← data_of b s;
            data ← init_inodes (Z.to_nat INODES_PER_BLOCK) 0 iCnt blk data;
            s ← set_data_of b data s;
            s ← u_bwrite b s;
            init_inode_blocks fuel (iCnt + INODES_PER_BLOCK) s
        end
      else Some s
  end.

Definition mkufs (stack : list Z) (mb : Z) s : option (ufs B) :=
  '(r, s) ← u_bread 1 s;
  match r with
  | None => Some s
  | Some b =>
      let s := mk_ufs (cache s) (Some b) (sb_bh s) in
      s ← make_super mb s;
      total ← sb_get s_total_inodes s;
      s ← init_inode_blocks (S (Z.to_nat total)) 0 s;
      '(iCnt, s) ← create_root stack s;
      if iCnt =? -1 then Some s else u_bwrite b s
  end.

(** [sync]: the result and the state. *)
Definition ufs_sync s : option (Z * ufs B) :=
  match sb_bh s with
  | None => Some (-1, s)
  | Some b => s ← u_bwrite b s; Some (0, s)
  end.
End Ufs.
