(* ===== verification/UfsFree.v ===== *)
(** * The free blocks of the early file system

    What the superblock and the chain of link blocks represent: the sequence
    of blocks that [balloc] will hand out. *)

From S2P Require Import CString.
From S2P Require Export Ufs.

#[local] Ltac Zify.zify_post_hook ::= Z.to_euclidean_division_equations.

(** ** Fields of the superblock *)

(** [s_free_blocks[k]] *)
Definition fb (k : Z) : field := Field (244 + 4 * Z.to_nat k) 4.

Lemma s_free_blocks_at k : 0 <= k < 128 -> s_free_blocks k = Some (fb k).
Proof. revert k. check_range 0 128 ltac:(reflexivity). Qed.

Lemma s_free_blocks_out k : ~ 0 <= k < 128 -> s_free_blocks k = None.
Proof.
  intros Hk. unfold s_free_blocks, in_array. destruct (Z.ltb_spec k 0); [done|]. unfold field_of.
  change (list_find _ _) with (Some (13%nat, ("s_free_blocks", 244%nat, 4%nat, 128%nat))). cbv beta iota.
  destruct (Nat.ltb_spec (Z.to_nat k) 128); [lia|done].
Qed.

Lemma fb_inside k : 0 <= k < 128 -> inside (fb k) 1024.
Proof. unfold inside, fb. cbn [f_off f_len]. lia. Qed.

(** Members that do not meet, by computing their places. *)
Ltac fields := unfold inside, apart, fb, word; cbn -[Nat.mul Nat.add Z.to_nat]; lia.

Lemma fb_apart j k : 0 <= j -> 0 <= k -> j ≠ k -> apart (fb j) (fb k).
Proof. fields. Qed.

Lemma word_inside k : 0 <= k < 256 -> inside (word k) 1024.
Proof. fields. Qed.

Lemma memset_zeros data : forall n, length data = n -> memset data 0 n = Some (replicate n 0).
Proof.
  induction data as [|x data IH]; intros [|n] Hl; try discriminate Hl; [done|]. cbn [memset]. rewrite (IH n) by (injection Hl; done).
  done.
Qed.

Lemma get_replicate f n : get f (replicate n 0) = 0.
Proof.
  unfold get, slice. rewrite drop_replicate, take_replicate. generalize (f_len f `min` (n - f_off f))%nat. intros m.
  induction m as [|m IH]; [done|]. cbn [replicate le_val]. by rewrite IH.
Qed.

(** ** The state seen from outside *)

Section Mounted.
Context {B : Type} `{!BlockDev B}.
Implicit Types s : ufs B.

(** [super] points to buffer [b], which holds the image [img] of block 1; the
    buffers [xs] are in use, those of [D] differ from the disk. *)
Definition mounted (k : nat) (xs : list Z) (D : Z -> Prop) s (b : Z) (img : list Z) : Prop :=
  super s = Some b /\ b ∉ xs /\ kept k (b :: xs) D (cache s) /\ D b /\
  exists bh, bufs (cache s) !! b = Some bh /\ b_blocknr bh = 1 /\ b_data bh = img.

(** From [s] to [s'] the buffers [xs] do not change, nor any block outside [N]. *)
Record step (xs : list Z) (N : Z -> Prop) s s' : Prop := {
  st_bufs x : x ∈ xs -> bufs (cache s') !! x = bufs (cache s) !! x;
  st_view m data : bd_ok m -> ~ N m -> holds (cache s) m data -> holds (cache s') m data;
  st_sb : sb_bh s' = sb_bh s
}.

Lemma step_refl xs N s : step xs N s s.
Proof. by constructor. Qed.

Lemma step_trans xs N s1 s2 s3 : step xs N s1 s2 -> step xs N s2 s3 -> step xs N s1 s3.
Proof.
  intros [A1 A2 A3] [B1 B2 B3]. constructor; [|eauto|congruence]. intros x Hx. rewrite B1 by done. by apply A1.
Qed.

Lemma step_weaken xs xs' (N N' : Z -> Prop) s s' :
  step xs N s s' -> (forall x, x ∈ xs' -> x ∈ xs) -> (forall m, N m -> N' m) -> step xs' N' s s'.
Proof. intros [A1 A2 A3] Hx HN. constructor; [auto| |done]. intros m data Hm Hn. apply A2; [done|]. naive_solver. Qed.

Definition only1 (m : Z) : Prop := m = 1.

Lemma mounted_length k xs D s b img : mounted k xs D s b img -> length img = 1024%nat.
Proof. intros (_ & _ & K & _ & bh & Eb & _ & <-). by apply (kept_buf _ _ _ _ _ _ K Eb). Qed.

Lemma mounted_weaken k xs (D D' : Z -> Prop) s b img :
  mounted k xs D s b img -> (forall x, D x -> D' x) -> (forall x, D' x -> x = b \/ x ∈ xs) -> mounted k xs D' s b img.
Proof.
  intros (Es & Hb & K & HD & Hbh) H1 H2. split_and!; try done; [|by apply H1].
  eapply kept_weaken; [done..|]. intros x [->|?]%H2; [by left|by right].
Qed.

Lemma sb_get_spec k xs D s b img f : mounted k xs D s b img -> sb_get f s = Some (get f img).
Proof.
  intros (Es & _ & _ & _ & bh & Eb & _ & <-). unfold sb_get, data_of. rewrite Es. cbn [mbind option_bind]. by rewrite Eb.
Qed.

(** Storing into the superblock. *)
Lemma sb_store_spec k xs D s b img img' :
  mounted k xs D s b img -> length img' = 1024%nat ->
  exists s', set_data_of b img' s = Some s' /\ mounted k xs D s' b img' /\ step xs only1 s s'.
Proof.
  intros (Es & Hb & K & HD & bh & Eb & Hn & Hd) Hl. unfold set_data_of.
  destruct (kept_store k (b :: xs) D (cache s) b bh img' K ltac:(by left) Eb Hl) as (c' & -> & K' & Ho & Eb' & Hv).
  cbn [mbind option_bind]. eexists. split; [done|]. split.
  - split_and!; try done; [|by exists (set_data img' bh)]. eapply kept_weaken; [exact K'|by intros x [?| ->]|].
    intros x Hx. destruct K as (? & ? & _ & _ & _ & HDx & _). by apply HDx.
  - constructor; cbn [cache set_cache sb_bh]; [|intros m data _ Hm; apply Hv; by rewrite Hn|done].
    intros x Hx. apply Ho. congruence.
Qed.

Lemma sb_put_spec k xs D s b img f v :
  mounted k xs D s b img -> inside f 1024 ->
  exists s', sb_put f v s = Some s' /\ mounted k xs D s' b (put f v img) /\ step xs only1 s s'.
Proof.
  intros M Hf. pose proof M as (Es & _ & _ & _ & bh & Eb & _ & Hd). unfold sb_put, data_of. rewrite Es. cbn [mbind option_bind].
  rewrite Eb. cbn [mbind option_bind]. rewrite Hd.
  apply (sb_store_spec k xs D s b img); [done|]. rewrite put_length; by rewrite (mounted_length _ _ _ _ _ _ M).
Qed.

Lemma not_kept_sb k xs D s b img n : mounted k xs D s b img -> n ≠ 1 -> not_kept xs n (cache s) -> not_kept (b :: xs) n (cache s).
Proof.
  intros (_ & _ & _ & _ & bh & Eb & Hn & _) H1 Hx x bx [->|Hin]%elem_of_cons Ex; [congruence|by apply (Hx x bx)].
Qed.

(** Taking a buffer for block [n] beside the superblock: it joins [xs]. *)
Lemma mounted_join k xs D s s' b img b0 c' :
  mounted (S k) xs D s b img -> b0 ∉ b :: xs -> kept k (b0 :: b :: xs) D c' -> same_view (cache s) c' -> others b0 (cache s) c' ->
  s' = set_cache c' s -> mounted k (b0 :: xs) D s' b img /\ forall N, step xs N s s'.
Proof.
  intros (Es & Hb & K & HD & bh & Eb & Hn & Hd) [Hne Hxs]%not_elem_of_cons K' Hv Ho ->. split.
  - split_and!; try done; [by apply not_elem_of_cons| |exists bh; by rewrite Ho].
    destruct K' as (fs & hs & H1 & H2 & H3 & H4 & H5 & H6). exists fs, hs. split_and!; try done; intros x.
    + intros Hx. apply H3. set_solver.
    + intros Hx. apply H4 in Hx. set_solver.
    + intros bx Ex Hx. apply (H5 x bx Ex). set_solver.
  - intros N. constructor; cbn [cache set_cache sb_bh]; [|by intros m data Hm _ Hh; apply Hv|done]. intros x Hx. apply Ho. congruence.
Qed.

Lemma u_bread_spec k xs D s b img n data :
  mounted (S k) xs D s b img -> 0 <= n -> bd_ok n -> n ≠ 1 -> not_kept xs n (cache s) -> holds (cache s) n data ->
  exists b0 s' bh, u_bread n s = Some (Some b0, s') /\ b0 ∉ b :: xs /\ mounted k (b0 :: xs) D s' b img /\ (forall N, step xs N s s') /\
    bufs (cache s') !! b0 = Some bh /\ b_blocknr bh = n /\ b_data bh = data.
Proof.
  intros M Hn Hok H1 Hnk Hd. pose proof M as (_ & _ & K & _).
  destruct (kept_bread k (b :: xs) D (cache s) n data K Hn Hok) as (b0 & c' & bh & E & Hb0 & K' & Hv & Ho & Eb & Hbn & Hbd & _);
    [by eapply not_kept_sb|done|].
  unfold u_bread. rewrite E. cbn [mbind option_bind].
  destruct (mounted_join k xs D s (set_cache c' s) b img b0 c' M Hb0 K' Hv Ho eq_refl) as [M' St].
  exists b0, (set_cache c' s), bh. split_and!; done.
Qed.

Lemma u_getblk_spec k xs D s b img n :
  mounted (S k) xs D s b img -> 0 <= n -> bd_ok n -> n ≠ 1 -> not_kept xs n (cache s) ->
  exists b0 s' bh, u_getblk n s = Some (b0, s') /\ b0 ∉ b :: xs /\ mounted k (b0 :: xs) D s' b img /\ (forall N, step xs N s s') /\
    bufs (cache s') !! b0 = Some bh /\ b_blocknr bh = n.
Proof.
  intros M Hn Hok H1 Hnk. pose proof M as (_ & _ & K & _).
  destruct (kept_getblk k (b :: xs) D (cache s) n K Hn Hok) as (b0 & c' & bh & E & Hb0 & K' & Hv & Ho & Eb & Hbn); [by eapply not_kept_sb|].
  unfold u_getblk. rewrite E. cbn [mbind option_bind].
  destruct (mounted_join k xs D s (set_cache c' s) b img b0 c' M Hb0 K' Hv Ho eq_refl) as [M' St].
  exists b0, (set_cache c' s), bh. split_and!; done.
Qed.

Lemma mounted_front k xs D s b img b0 : mounted k (b0 :: xs) D s b img -> kept k (b0 :: b :: xs) D (cache s).
Proof.
  intros (_ & _ & (fs & hs & H1 & H2 & H3 & H4 & H5 & H6) & _). exists fs, hs. split_and!; try done; intros x.
  - intros Hx. apply H3. set_solver.
  - intros Hx. apply H4 in Hx. set_solver.
  - intros bx Ex Hx. apply (H5 x bx Ex). set_solver.
Qed.

Lemma u_brelse_spec k xs D s b img b0 :
  mounted k (b0 :: xs) D s b img -> b0 ∉ xs -> ~ D b0 ->
  exists s', u_brelse b0 s = Some s' /\ mounted (S k) xs D s' b img /\ forall N, step xs N s s'.
Proof.
  intros M Hb0 HD0. pose proof M as (Es & Hb & K & HD & bh & Eb & Hn & Hd). pose proof (mounted_front _ _ _ _ _ _ _ M) as K'.
  apply not_elem_of_cons in Hb as [Hne Hb].
  destruct (kept_brelse k (b :: xs) D (cache s) b0 K' ltac:(by apply not_elem_of_cons) HD0) as (c' & E & K2 & Hv & Ho).
  unfold u_brelse. rewrite E. cbn [mbind option_bind]. eexists. split; [done|]. split.
  - split_and!; try done. exists bh. by rewrite Ho.
  - intros N. constructor; cbn [cache set_cache sb_bh]; [|by intros m data Hm _ Hh; apply Hv|done]. intros x Hx. apply Ho. congruence.
Qed.

(** Storing into a buffer in use. *)
Lemma set_data_spec k xs D s b img b0 bh data :
  mounted k (b0 :: xs) D s b img -> bufs (cache s) !! b0 = Some bh -> length data = 1024%nat ->
  exists s', set_data_of b0 data s = Some s' /\ mounted k (b0 :: xs) (fun x => D x \/ x = b0) s' b img /\
    bufs (cache s') !! b0 = Some (set_data data bh) /\ (forall x, x ≠ b0 -> bufs (cache s') !! x = bufs (cache s) !! x) /\
    forall xs', b0 ∉ xs' -> step xs' (fun m => m = b_blocknr bh) s s'.
Proof.
  intros (Es & Hb & K & HD & bh1 & Eb & Hn & Hd) E0 Hl. unfold set_data_of. apply not_elem_of_cons in Hb as [Hne Hb].
  destruct (kept_store k (b :: b0 :: xs) D (cache s) b0 bh data K ltac:(set_solver) E0 Hl) as (c' & -> & K' & Ho & Eb' & Hv).
  cbn [mbind option_bind]. eexists. split; [done|]. unfold mounted. split_and!; try done.
  - by apply not_elem_of_cons.
  - by left.
  - exists bh1. by rewrite Ho.
  - intros xs' Hx'. constructor; cbn [cache set_cache sb_bh]; [|intros m x _ Hm; by apply Hv|done]. intros x Hx. apply Ho. congruence.
Qed.

Lemma u_bwrite_spec k xs D s b img b0 bh :
  mounted k (b0 :: xs) D s b img -> b0 ∉ xs -> bufs (cache s) !! b0 = Some bh ->
  exists s', u_bwrite b0 s = Some s' /\ mounted (S k) xs (fun x => D x /\ x ≠ b0) s' b img /\
    step xs (fun m => m = b_blocknr bh) s s' /\ holds (cache s') (b_blocknr bh) (b_data bh).
Proof.
  intros M Hb0 E0. pose proof M as (Es & Hb & K & HD & bh1 & Eb & Hn & Hd). pose proof (mounted_front _ _ _ _ _ _ _ M) as K'.
  apply not_elem_of_cons in Hb as [Hne Hb].
  destruct (kept_bwrite k (b :: xs) D (cache s) b0 bh K' ltac:(by apply not_elem_of_cons) E0) as (c' & E & K2 & Ho & Hh & Hv).
  unfold u_bwrite. rewrite E. cbn [mbind option_bind]. eexists. split; [done|]. unfold mounted. split_and!; try done.
  - exists bh1. by rewrite Ho.
  - constructor; cbn [cache set_cache sb_bh]; [|intros m x Hm Hne'; by apply Hv|done]. intros x Hx. apply Ho. congruence.
Qed.

End Mounted.

(** Reading and writing members one after the other. *)
Ltac sb_read :=
  match goal with |- context [sb_get ?f ?s] =>
    match goal with M : mounted _ _ _ s _ _ |- _ => rewrite (sb_get_spec _ _ _ s _ _ f M); cbn [mbind option_bind] end end.
Tactic Notation "sb_write" ident(s') ident(M') ident(St) :=
  match goal with |- context [sb_put ?f ?v ?s] =>
    match goal with M : mounted ?k ?xs ?D s ?b ?img |- _ =>
      let E := fresh "E" in
      destruct (sb_put_spec k xs D s b img f v M ltac:(fields)) as (s' & E & M' & St);
      rewrite E; cbn [mbind option_bind]; clear E end end.

(** ** What the chain represents *)

Section Free.
Context {B : Type} `{!BlockDev B}.
Implicit Types s : ufs B.

Definition words (data : list Z) : list Z := (fun k => u32 (get (word k) data)) <$> seqZ 0 128.

(** [s_free_blocks[n]] down to [s_free_blocks[0]]. *)
Definition stack_upto (img : list Z) (n : Z) : list Z := (fun k => get (fb k) img) <$> reverse (seqZ 0 (n + 1)).

(** [chain c st l]: with the blocks [st] in the superblock, top first, the next
    blocks handed out are [l].  The last block of the list holds the next list. *)
Inductive chain (c : buffer_cache B) : list Z -> list Z -> Prop :=
| chain_stop st : chain c st []
| chain_pop x y st l : chain c (y :: st) l -> chain c (x :: y :: st) (x :: l)
| chain_link x data l : holds c x data -> chain c (reverse (words data)) l -> chain c [x] (x :: l).

(** The superblock: unlocked, top at [n]. *)
Definition list_ready (img : list Z) (n : Z) : Prop :=
  get s_block_list_lock img ≠ 1 /\ get s_next_free_block img = n /\ 0 <= n < 128.

Lemma stack_upto_cons img n : 0 <= n -> stack_upto img n = get (fb n) img :: stack_upto img (n - 1).
Proof.
  intros Hn. unfold stack_upto. rewrite (seqZ_app 0 n 1) by lia. rewrite reverse_app, Z.add_0_l. replace (n - 1 + 1) with n by lia. done.
Qed.

Lemma stack_upto_ext img img' n : (forall k, 0 <= k <= n -> get (fb k) img' = get (fb k) img) -> stack_upto img' n = stack_upto img n.
Proof.
  intros H. unfold stack_upto. apply list_fmap_ext. intros i k Hk. apply H. apply list_elem_of_lookup_2 in Hk.
  rewrite elem_of_reverse, elem_of_seqZ in Hk. lia.
Qed.

Lemma stack_upto_words img data :
  (forall k, 0 <= k < 128 -> get (fb k) img = u32 (get (word k) data)) -> stack_upto img 127 = reverse (words data).
Proof.
  intros H. unfold stack_upto, words. rewrite <- fmap_reverse. apply list_fmap_ext. intros i k Hk. apply H.
  apply list_elem_of_lookup_2 in Hk. rewrite elem_of_reverse, elem_of_seqZ in Hk. lia.
Qed.

(** A change of blocks that are not link blocks to come leaves the chain. *)
Lemma chain_view c c' st l : chain c st l -> (forall m data, m ∈ l -> holds c m data -> holds c' m data) -> chain c' st l.
Proof.
  induction 1 as [st|x y st l H IH|x data l Hx H IH]; intros Hv.
  - constructor.
  - constructor. apply IH. intros m data Hm. apply Hv. by right.
  - econstructor; [apply Hv; [by left|done]|]. apply IH. intros m d Hm. apply Hv. by right.
Qed.

(** ** Allocation *)

Lemma load_list_spec k xs D b data n : forall i s img,
  mounted k xs D s b img -> 0 <= i -> i + Z.of_nat n <= 128 ->
  exists s' img', load_list n i data s = Some s' /\ mounted k xs D s' b img' /\ step xs only1 s s' /\
    (forall j, 0 <= j < 128 -> get (fb j) img' = if decide (i <= j < i + Z.of_nat n) then u32 (get (word j) data) else get (fb j) img) /\
    (forall f, (f_off f + f_len f <= 244 \/ 756 <= f_off f)%nat -> get f img' = get f img).
Proof.
  induction n as [|n IH]; intros i s img M Hi Hn; cbn [load_list].
  { exists s, img. split_and!; [done|done|apply step_refl| |done]. intros j Hj. by rewrite decide_False by lia. }
  rewrite s_free_blocks_at by lia. cbn [mbind option_bind]. pose proof (mounted_length _ _ _ _ _ _ M) as Hl. sb_write s0 M0 St.
  destruct (IH (i + 1) _ _ M0) as (s' & img' & E & M' & St' & Hj & Hf); [lia..|].
  exists s', img'. split_and!; [done|done|by eapply step_trans| |].
  - intros j Hr. rewrite Hj by lia. destruct (decide (i = j)) as [->|Hne].
    + rewrite decide_False, decide_True by lia. rewrite get_put_eq by (rewrite Hl; apply fb_inside; lia). done.
    + rewrite get_put_ne; [|rewrite Hl; apply fb_inside; lia|by apply fb_apart; lia]. repeat case_decide; try lia; done.
  - intros f H. rewrite Hf by done. apply get_put_ne; [rewrite Hl; apply fb_inside; lia|]. unfold apart, fb. cbn [f_off f_len]. lia.
Qed.

(** A block that can be taken: not the superblock's and not in use. *)
Definition can_take (xs : list Z) s (x : Z) : Prop := 0 <= x /\ bd_ok x /\ x ≠ 1 /\ not_kept xs x (cache s).

Lemma not_kept_step xs N s s' x : step xs N s s' -> not_kept xs x (cache s) -> not_kept xs x (cache s').
Proof. intros [Hb _ _] Hn y bx Hy Ey. rewrite Hb in Ey by done. by apply (Hn y bx). Qed.

Lemma can_take_step xs N s s' x : step xs N s s' -> can_take xs s x -> can_take xs s' x.
Proof. intros St (? & ? & ? & ?). split_and!; try done. by eapply not_kept_step. Qed.

(** Members of the inode part of the superblock. *)
Definition inode_part (g : field) : Prop := (4 <= f_off g /\ f_off g + f_len g <= 236)%nat.

(** Members outside the counters of the block list. *)
Definition off_counters (f : field) : Prop := apart s_n_free_blocks f /\ apart s_flags f.

Lemma take_block_spec k xs D s b img x :
  mounted (S k) xs D s b img -> can_take xs s x ->
  exists b0 s' bh img', take_block x s = Some (b0, s') /\ b0 ∉ b :: xs /\ mounted k (b0 :: xs) (fun y => D y \/ y = b0) s' b img' /\
    step xs (fun m => m = 1 \/ m = x) s s' /\ bufs (cache s') !! b0 = Some bh /\ b_blocknr bh = x /\ b_data bh = replicate 1024 0 /\
    get s_n_free_blocks img' = u32 (get s_n_free_blocks img - 1) /\ forall f, off_counters f -> get f img' = get f img.
Proof.
  intros M (Hx & Hok & H1 & Hnk). pose proof (mounted_length _ _ _ _ _ _ M) as Hl. unfold take_block.
  destruct (u_getblk_spec k xs D s b img x M Hx Hok H1 Hnk) as (b0 & s1 & bh & -> & Hb0 & M1 & St1 & Eb & Hbn). cbn [mbind option_bind].
  unfold data_of at 1. rewrite Eb. cbn [mbind option_bind]. pose proof M1 as (_ & _ & K1 & _).
  pose proof (kept_buf _ _ _ _ _ _ K1 Eb) as (_ & _ & _ & Hlb). rewrite memset_zeros by done. cbn [mbind option_bind].
  change (Z.to_nat U_BLK_SIZE) with 1024%nat.
  destruct (set_data_spec k xs D s1 b img b0 bh (replicate 1024 0) M1 Eb ltac:(by rewrite length_replicate)) as (s2 & -> & M2 & Eb2 & _ & St2).
  cbn [mbind option_bind]. sb_read. sb_write s3 M3 St3. sb_read. sb_write s4 M4 St4.
  apply not_elem_of_cons in Hb0 as [Hbb Hb0].
  assert (step xs (fun m => m = 1 \/ m = x) s s4) as St'.
  { eapply step_trans; [apply St1|]. eapply step_trans; [apply (step_weaken _ _ _ _ _ _ (St2 xs Hb0)); [done|intros m ->; rewrite Hbn; auto]|].
    eapply step_trans; (eapply step_weaken; [eassumption|by intros y ?; right|by left]). }
  exists b0, s4, (set_data (replicate 1024 0) bh). eexists. split_and!; [done|by apply not_elem_of_cons|done|done| |done|done| |].
  - rewrite (st_bufs _ _ _ _ St4), (st_bufs _ _ _ _ St3) by (by left). done.
  - rewrite get_put_ne by (rewrite ?put_length; rewrite ?Hl; fields). by rewrite get_put_eq by (rewrite Hl; fields).
  - intros f [H2 H3]. rewrite !get_put_ne; rewrite ?put_length; rewrite ?Hl; try done; fields.
Qed.

Lemma u_refill_spec k xs D s b img x data :
  mounted (S k) xs D s b img -> can_take xs s x -> holds (cache s) x data -> (forall y, D y -> y = b \/ y ∈ xs) ->
  exists s' img', refill x s = Some (true, s') /\ mounted (S k) xs D s' b img' /\ step xs only1 s s' /\
    list_ready img' 127 /\ stack_upto img' 127 = reverse (words data) /\ get s_n_free_blocks img' = get s_n_free_blocks img /\
    forall g, inode_part g -> get g img' = get g img.
Proof.
  intros M (Hx & Hok & H1 & Hnk) Hd HD. pose proof (mounted_length _ _ _ _ _ _ M) as Hl. unfold refill. sb_write s1 M1 St.
  pose proof (mounted_length _ _ _ _ _ _ M1) as Hl1.
  destruct (u_bread_spec k xs D s1 b _ x data M1 Hx Hok H1) as (b0 & s2 & bh & -> & Hb0 & M2 & St2 & Eb & Hbn & Hbd).
  { by eapply not_kept_step. }
  { apply (st_view _ _ _ _ St); [done| |done]. unfold only1. done. }
  cbn [mbind option_bind]. unfold data_of. rewrite Eb. cbn [mbind option_bind]. rewrite Hbd.
  destruct (load_list_spec k (b0 :: xs) D b data (Z.to_nat FREE_BLOCK_LIST) 0 s2 _ M2) as (s3 & img3 & -> & M3 & St3 & Hfb & Hoth); [unfold FREE_BLOCK_LIST; lia..|].
  cbn [mbind option_bind]. pose proof (mounted_length _ _ _ _ _ _ M3) as Hl3. sb_write s0 M0 St0.
  apply not_elem_of_cons in Hb0 as [Hbb Hb0].
  destruct (u_brelse_spec k xs D s0 b _ b0 M0 Hb0) as (s4 & -> & M4 & St4). { intros [?|?]%HD; done. }
  cbn [mbind option_bind]. sb_write s5 M5 St5. eexists _, _. split; [done|]. split; [done|].
  assert (forall f, (f_off f + f_len f <= 244 \/ 756 <= f_off f)%nat -> apart s_block_list_lock f -> apart s_next_free_block f ->
    get f (put s_block_list_lock 0 (put s_next_free_block (FREE_BLOCK_LIST - 1) img3)) = get f img) as Hg.
  { intros f Hf Ha Hb. rewrite !get_put_ne; rewrite ?put_length; rewrite ?Hl3; try done; [|fields..].
    rewrite Hoth by done. apply get_put_ne; [rewrite Hl; fields|done]. }
  split_and!.
  - eapply step_trans; [exact St|]. eapply step_trans; [apply St2|].
    eapply step_trans; [eapply step_weaken; [exact St3|by right|done]|]. eapply step_trans; [eapply step_weaken; [exact St0|by right|done]|].
    eapply step_trans; [apply St4|]. exact St5.
  - split_and!; [|rewrite get_put_ne; [|rewrite ?put_length; rewrite ?Hl3; fields|fields]|lia..].
    + rewrite get_put_eq by (rewrite ?put_length; rewrite ?Hl3; fields). done.
    + rewrite get_put_eq by (rewrite Hl3; fields). done.
  - apply stack_upto_words. intros j Hj. rewrite !get_put_ne; rewrite ?put_length; rewrite ?Hl3; try fields.
    rewrite Hfb by done. by rewrite decide_True by (unfold FREE_BLOCK_LIST; lia).
  - apply Hg; [left; cbn; lia|fields..].
  - unfold inode_part. intros g Hg'. apply Hg; [left; lia|fields..].
Qed.

Lemma chain_cons c x st l x' : chain c (x :: st) (x' :: l) ->
  x' = x /\ ((exists y st', st = y :: st' /\ chain c st l) \/ (st = [] /\ exists data, holds c x data /\ chain c (reverse (words data)) l)).
Proof. intros H. inversion H; subst; [split; [done|]; left; by eexists _, _|split; [done|]; right; split; [done|]; by eexists]. Qed.

Lemma balloc_spec k xs D s b img n x l :
  mounted (S k) xs D s b img -> (forall y, D y -> y = b \/ y ∈ xs) -> list_ready img n -> chain (cache s) (stack_upto img n) (x :: l) ->
  can_take xs s x -> Forall (fun y => y ≠ x /\ bd_ok y /\ y ≠ 1) l ->
  exists b0 s' bh img' n', balloc s = Some (Some b0, s') /\ b0 ∉ b :: xs /\ mounted k (b0 :: xs) (fun y => D y \/ y = b0) s' b img' /\
    list_ready img' n' /\ chain (cache s') (stack_upto img' n') l /\ step xs (fun m => m = 1 \/ m = x) s s' /\
    bufs (cache s') !! b0 = Some bh /\ b_blocknr bh = x /\ b_data bh = replicate 1024 0 /\
    get s_n_free_blocks img' = u32 (get s_n_free_blocks img - 1) /\
    (0 < n -> n' = n - 1 /\ forall j, 0 <= j < 128 -> get (fb j) img' = get (fb j) img) /\
    forall g, inode_part g -> get g img' = get g img.
Proof.
  intros M HD (Hlock & Hnx & Hn) Hch Hx Hl. pose proof (mounted_length _ _ _ _ _ _ M) as Hlen. unfold balloc. sb_read. sb_read.
  rewrite (proj2 (Z.eqb_neq _ 1) Hlock), Hnx, s32_small by lia.
  destruct (Z.ltb_spec n 0); [lia|]. rewrite s_free_blocks_at by lia. cbn [mbind option_bind]. sb_read. sb_write s1 M1 St.
  rewrite stack_upto_cons in Hch by lia. apply chain_cons in Hch as [Ex Hch]. rewrite <- Ex. rewrite <- Ex in Hch. rewrite s32_small by lia.
  set (img1 := put s_next_free_block (n - 1) img) in *.
  assert (exists s2 img2 n2, (if n - 1 =? -1 then refill x s1 else Some (true, s1)) = Some (true, s2) /\ mounted (S k) xs D s2 b img2 /\
    step xs only1 s s2 /\ list_ready img2 n2 /\ chain (cache s2) (stack_upto img2 n2) l /\
    (get s_n_free_blocks img2 = get s_n_free_blocks img /\ forall g, inode_part g -> get g img2 = get g img) /\
    (0 < n -> n2 = n - 1 /\ forall j, 0 <= j < 128 -> get (fb j) img2 = get (fb j) img)) as (s2 & img2 & n2 & -> & M2 & St2 & Hr2 & Hch2 & [Hc2 Hb2] & Hp2).
  { assert (forall s', step xs only1 s s' -> forall st, chain (cache s) st l -> chain (cache s') st l) as Hkeep.
    { intros s' Hs' st Hst. apply (chain_view (cache s)); [done|]. intros m data Hm Hh. rewrite Forall_forall in Hl.
      destruct (Hl m Hm) as (_ & Hok & H1). by apply (st_view _ _ _ _ Hs'). }
    destruct (Z.eqb_spec (n - 1) (-1)) as [E0|E0].
    - destruct Hch as [(y & st' & Est & _)|[_ (data & Hd & Hch)]]; [replace (n - 1) with (-1) in Est; done|].
      destruct (u_refill_spec k xs D s1 b img1 x data M1) as (s2 & img2 & E & M2 & St2 & Hr & Hst & Hc & Hb); [by eapply can_take_step| |done|].
      { apply (st_view _ _ _ _ St); [apply Hx| |done]. unfold only1. apply Hx. }
      exists s2, img2, 127. assert (step xs only1 s s2) by (by eapply step_trans). rewrite Hst. split_and!; try done; [by apply Hkeep|rewrite Hc|intros g Hg; rewrite Hb by done|lia..];
        (apply get_put_ne; [rewrite Hlen|]; unfold inode_part in *; fields).
    - destruct Hch as [(y & st' & Est & Hch)|[Est _]]; [|rewrite stack_upto_cons in Est by lia; done].
      exists s1, img1, (n - 1). split_and!; try done.
      + unfold list_ready, img1. split_and!; [rewrite get_put_ne; [done|rewrite Hlen; fields|fields]| |lia..].
        rewrite get_put_eq by (rewrite Hlen; fields). cbn [f_len s_next_free_block]. rewrite Z.mod_small; lia.
      + apply Hkeep; [done|]. rewrite (stack_upto_ext img); [done|]. intros j Hj. apply get_put_ne; [rewrite Hlen|]; fields.
      + apply get_put_ne; [rewrite Hlen|]; fields.
      + unfold inode_part. intros g Hg. apply get_put_ne; [rewrite Hlen|]; fields.
      + intros _. split; [done|]. intros j Hj. apply get_put_ne; [rewrite Hlen|]; fields. }
  cbn [mbind option_bind negb].
  destruct (take_block_spec k xs D s2 b img2 x M2) as (b0 & s' & bh & img' & -> & Hb0 & M' & St' & Eb & Hbn & Hbd & Hcnt & Hf); [by eapply can_take_step|].
  cbn [mbind option_bind]. destruct Hr2 as (Hlk2 & Hnx2 & Hn2). exists b0, s', bh, img', n2.
  assert (list_ready img' n2) as Hr' by (split_and!; [rewrite Hf; [done|split; fields]|rewrite Hf; [done|split; fields]|lia..]).
  split_and!; try done.
  - rewrite (stack_upto_ext img2) by (intros j Hj; apply Hf; split; fields). apply (chain_view (cache s2)); [done|].
    intros m data Hm Hh. rewrite Forall_forall in Hl. destruct (Hl m Hm) as (Hne & Hok & H1). apply (st_view _ _ _ _ St'); [done|tauto|done].
  - eapply step_trans; [|exact St']. eapply step_weaken; [exact St2|done|]. intros m ->. by left.
  - by rewrite Hcnt, Hc2.
  - intros Hpos. destruct (Hp2 Hpos) as [? Hsame]. split; [done|]. intros j Hj. rewrite Hf by (split; fields). by apply Hsame.
  - intros g Hg. rewrite Hf by (unfold inode_part in Hg; split; fields). by apply Hb2.
Qed.

(** [bfree] overwrites the top of the list and uncovers the entry above it. *)
Lemma bfree_spec k xs D s b img n x :
  mounted k xs D s b img -> list_ready img n -> n < 127 -> 0 <= x < 2 ^ 32 ->
  exists s' img', bfree x s = Some s' /\ mounted k xs D s' b img' /\ step xs only1 s s' /\ list_ready img' (n + 1) /\
    forall j, 0 <= j < 128 -> get (fb j) img' = if decide (j = n) then x else get (fb j) img.
Proof.
  intros M (Hlock & Hnx & Hn) Hn' Hx. pose proof (mounted_length _ _ _ _ _ _ M) as Hl. unfold bfree. sb_read.
  rewrite (proj2 (Z.eqb_neq _ 1) Hlock). sb_write s1 M1 St1. sb_read.
  rewrite get_put_ne by (rewrite ?Hl; fields). rewrite Hnx, s32_small by lia. unfold FREE_BLOCK_LIST.
  destruct (Z.leb_spec 128 n); [lia|]. sb_write s2 M2 St2. rewrite s_free_blocks_at by lia. cbn [mbind option_bind].
  sb_write s3 M3 St3. sb_write s4 M4 St4. eexists _, _. split; [done|]. split; [done|]. split_and!.
  - do 2 (eapply step_trans; [eassumption|]). by eapply step_trans.
  - split_and!; [| |lia..].
    + rewrite get_put_eq by (repeat rewrite put_length; rewrite ?Hl; fields). done.
    + do 2 (rewrite get_put_ne by (repeat rewrite put_length; rewrite ?Hl; fields)). rewrite get_put_eq by (repeat rewrite put_length; rewrite ?Hl; fields).
      cbn [f_len s_next_free_block]. rewrite Z.mod_small; lia.
  - intros j Hj. rewrite get_put_ne by (repeat rewrite put_length; rewrite ?Hl; fields). case_decide as E.
    + subst j. rewrite get_put_eq by (repeat rewrite put_length; rewrite ?Hl; fields). apply Z.mod_small. cbn [fb f_len]. lia.
    + rewrite !get_put_ne; repeat rewrite put_length; rewrite ?Hl; try fields; done.
Qed.

(** C13: [balloc] implements a queue: when the superblock's list and the link
    blocks behind it hold [x :: l], it returns a buffer for [x] filled with
    zeros, the rest [l] stays in the chain, also across a link block, the count
    of free blocks goes down by one, and no other block changes. *)
Theorem ufs_balloc_correct k xs D s b img n x l :
  mounted (S k) xs D s b img -> (forall y, D y -> y = b \/ y ∈ xs) -> list_ready img n -> chain (cache s) (stack_upto img n) (x :: l) ->
  can_take xs s x -> Forall (fun y => y ≠ x /\ bd_ok y /\ y ≠ 1) l ->
  exists b0 s' bh img' n', balloc s = Some (Some b0, s') /\ mounted k (b0 :: xs) (fun y => D y \/ y = b0) s' b img' /\
    list_ready img' n' /\ chain (cache s') (stack_upto img' n') l /\ step xs (fun m => m = 1 \/ m = x) s s' /\
    bufs (cache s') !! b0 = Some bh /\ b_blocknr bh = x /\ b_data bh = replicate 1024 0 /\
    get s_n_free_blocks img' = u32 (get s_n_free_blocks img - 1).
Proof.
  intros M HD Hr Hch Hx Hl.
  destruct (balloc_spec k xs D s b img n x l M HD Hr Hch Hx Hl) as (b0 & s' & bh & img' & n' & E & _ & M' & Hr' & Hch' & St & Eb & Hn & Hd & Hc & _).
  exists b0, s', bh, img', n'. repeat (split; [done|]). done.
Qed.

(** C38: a block given back with [bfree] takes the place of the next free one.
    With [x :: y :: st] in the superblock, [balloc] takes [x]; after [bfree x]
    the list is [x :: x :: st]: [y] is lost and [x] will be handed out twice. *)
Theorem bfree_doubles k xs D s b img n x y st l :
  mounted (S k) xs D s b img -> (forall y, D y -> y = b \/ y ∈ xs) -> list_ready img n -> chain (cache s) (x :: y :: st) (x :: l) ->
  stack_upto img n = x :: y :: st -> can_take xs s x -> x < 2 ^ 32 -> Forall (fun y => y ≠ x /\ bd_ok y /\ y ≠ 1) l ->
  exists b0 s1 s2 bh img', balloc s = Some (Some b0, s1) /\ bufs (cache s1) !! b0 = Some bh /\ b_blocknr bh = x /\ bfree x s1 = Some s2 /\
    mounted k (b0 :: xs) (fun y => D y \/ y = b0) s2 b img' /\ list_ready img' n /\ stack_upto img' n = x :: x :: st.
Proof.
  intros M HD Hr Hch Hst Hx Hx32 Hl. pose proof Hr as (_ & _ & Hn).
  assert (0 < n) as Hn0. { destruct (Z.eq_dec n 0) as [->|]; [discriminate Hst|lia]. }
  rewrite <- Hst in Hch.
  destruct (balloc_spec k xs D s b img n x l M HD Hr Hch Hx Hl) as (b0 & s1 & bh & img1 & n1 & E1 & _ & M1 & Hr1 & _ & _ & Eb & Hbn & _ & _ & Hp & _).
  destruct (Hp Hn0) as [-> Hsame]. destruct Hx as (Hx0 & _).
  destruct (bfree_spec k _ _ s1 b img1 (n - 1) x M1 Hr1) as (s2 & img2 & E2 & M2 & _ & Hr2 & Hw); [lia..|]. replace (n - 1 + 1) with n in Hr2 by lia.
  exists b0, s1, s2, bh, img2. do 6 (split; [done|]).
  rewrite !stack_upto_cons in Hst |- * by lia. injection Hst as Hsx _ Hrest. rewrite !Hw by lia. rewrite decide_False, decide_True by lia.
  rewrite Hsame, Hsx by lia. rewrite <- Hrest. do 2 f_equal. apply stack_upto_ext. intros j Hj. rewrite Hw, decide_False by lia. apply Hsame. lia.
Qed.
End Free.
