(* ===== verification/UfsMake.v ===== *)
(** * Making the chain of free blocks of the early file system

    What [make_super] leaves: the whole data area, in order. *)

From S2P Require Import CString.
From S2P Require Export UfsFree.

#[local] Ltac Zify.zify_post_hook ::= Z.to_euclidean_division_equations.

Section Make.
Context {B : Type} `{!BlockDev B}.
Implicit Types s : ufs B.

Lemma chain_app c p y st l : chain c (y :: st) l -> chain c (p ++ y :: st) (p ++ l).
Proof.
  intros H. induction p as [|x p IH]; [done|]. destruct p as [|x' p]; cbn [app] in *; by constructor.
Qed.

(** What the loops write: [iblk], [iblk + 1], ... from index [bCnt] down. *)
Definition listed (bCnt iblk r : Z) (old : Z -> Z) (j : Z) : Z :=
  if decide (bCnt - r < j <= bCnt) then iblk + (bCnt - j) else old j.

Lemma fill_link_spec n : forall bCnt iCnt end_blk data,
  bCnt = Z.of_nat n - 1 -> (n <= 128)%nat -> 0 <= iCnt -> iCnt <= end_blk + 1 -> end_blk < 2 ^ 32 - 1 -> length data = 1024%nat ->
  exists data', fill_link n bCnt iCnt end_blk data = (iCnt + Z.min (Z.of_nat n) (end_blk + 1 - iCnt), data') /\ length data' = 1024%nat /\
    forall j, 0 <= j < 128 -> get (word j) data' = listed bCnt iCnt (Z.min (Z.of_nat n) (end_blk + 1 - iCnt)) (fun j => get (word j) data) j.
Proof.
  induction n as [|n IH]; intros bCnt iCnt end_blk data Hb Hn Hi Hie He Hl; cbn [fill_link].
  { exists data. split; [f_equal; lia|]. split; [done|]. intros j Hj. unfold listed. by rewrite decide_False by lia. }
  destruct (Z.leb_spec iCnt end_blk).
  - rewrite u32_small by lia. set (d1 := put (word bCnt) iCnt data).
    assert (length d1 = 1024%nat) as Hl1 by (unfold d1; rewrite put_length; rewrite ?Hl; fields).
    destruct (IH (bCnt - 1) (iCnt + 1) end_blk d1) as (data' & E & Hl' & Hw); [lia..|done|]. rewrite E. exists data'.
    split; [f_equal; lia|]. split; [done|]. intros j Hj. rewrite Hw by done. unfold listed, d1. destruct (decide (j = bCnt)) as [->|Hne].
    + rewrite decide_False, decide_True by lia. rewrite get_put_eq by (rewrite Hl; fields). cbn [f_len word]. rewrite Z.mod_small by lia. lia.
    + rewrite get_put_ne by (rewrite ?Hl; fields). repeat case_decide; lia.
  - exists data. split; [f_equal; lia|]. split; [done|]. intros j Hj. unfold listed. by rewrite decide_False by lia.
Qed.

Lemma fill_super_spec k xs D b n : forall bCnt iblk end_blk s img,
  bCnt = Z.of_nat n - 1 -> (n <= 128)%nat -> 0 <= iblk -> iblk <= end_blk + 1 -> end_blk < 2 ^ 32 - 1 -> mounted k xs D s b img ->
  exists s' img', fill_super n bCnt iblk end_blk s = Some (iblk + Z.min (Z.of_nat n) (end_blk + 1 - iblk), s') /\
    mounted k xs D s' b img' /\ step xs only1 s s' /\
    (forall j, 0 <= j < 128 -> get (fb j) img' = listed bCnt iblk (Z.min (Z.of_nat n) (end_blk + 1 - iblk)) (fun j => get (fb j) img) j) /\
    (forall f, (f_off f + f_len f <= 244 \/ 756 <= f_off f)%nat -> get f img' = get f img).
Proof.
  induction n as [|n IH]; intros bCnt iblk end_blk s img Hb Hn Hi Hie He M; cbn [fill_super].
  { exists s, img. split; [do 2 f_equal; lia|]. split_and!; [done|apply step_refl| |done]. intros j Hj. unfold listed. by rewrite decide_False by lia. }
  pose proof (mounted_length _ _ _ _ _ _ M) as Hl. destruct (Z.leb_spec iblk end_blk).
  - rewrite s_free_blocks_at by lia. cbn [mbind option_bind]. sb_write s1 M1 St1. rewrite u32_small by lia.
    destruct (IH (bCnt - 1) (iblk + 1) end_blk s1 (put (fb bCnt) iblk img)) as (s' & img' & E & M' & St' & Hw & Hf); [lia..|exact M1|]. rewrite E. exists s', img'.
    split; [do 2 f_equal; lia|]. split_and!; [done|by eapply step_trans| |].
    + intros j Hj. rewrite Hw by done. unfold listed. destruct (decide (j = bCnt)) as [->|Hne].
      * rewrite decide_False, decide_True by lia. rewrite get_put_eq by (rewrite Hl; fields). cbn [f_len fb]. rewrite Z.mod_small by lia. lia.
      * rewrite get_put_ne by (rewrite ?Hl; fields). repeat case_decide; lia.
    + intros f H'. rewrite Hf by done. apply get_put_ne; [rewrite Hl; fields|]. unfold apart, fb. cbn [f_off f_len]. lia.
  - exists s, img. split; [do 2 f_equal; lia|]. split_and!; [done|apply step_refl| |done]. intros j Hj. unfold listed. by rewrite decide_False by lia.
Qed.

(** The words of a list from the top: consecutive blocks, then what was there. *)
Lemma reverse_words data iblk r :
  0 <= r <= 128 -> 0 <= iblk -> iblk + r <= 2 ^ 32 -> (forall j, 0 <= j < 128 -> get (word j) data = listed 127 iblk r (fun _ => 0) j) ->
  reverse (words data) = seqZ iblk r ++ replicate (Z.to_nat (128 - r)) 0.
Proof.
  intros Hr Hi Hb Hw. apply list_eq. intros i. unfold words.
  destruct (decide (i < 128)%nat) as [Hlt|Hge].
  - rewrite reverse_lookup by (rewrite length_fmap, length_seqZ; lia). rewrite length_fmap, length_seqZ, list_lookup_fmap.
    rewrite lookup_seqZ_lt by lia. cbn [fmap option_fmap option_map]. rewrite Hw by lia. unfold listed.
    destruct (decide (i < Z.to_nat r)%nat).
    + rewrite decide_True by lia. rewrite lookup_app_l by (rewrite length_seqZ; lia). rewrite lookup_seqZ_lt by lia.
      rewrite u32_small by lia. f_equal. lia.
    + rewrite decide_False by lia. rewrite lookup_app_r by (rewrite length_seqZ; lia). rewrite length_seqZ.
      symmetry. apply lookup_replicate_2. lia.
  - rewrite !lookup_ge_None_2; [done|rewrite length_app, length_seqZ, length_replicate; lia|rewrite length_reverse, length_fmap, length_seqZ; lia].
Qed.

(** A block that can be read and taken. *)
Definition usable s (m : Z) : Prop := 0 <= m /\ bd_ok m /\ m ≠ 1 /\ exists data, holds (cache s) m data.

Lemma link_loop_spec k D b end_blk fuel : forall link s img,
  mounted (S k) [] D s b img -> (forall y, D y -> y = b) -> 0 <= link <= end_blk -> end_blk < 2 ^ 32 - 1 ->
  (forall m, link <= m <= end_blk -> usable s m) -> (Z.to_nat (end_blk - link) < fuel)%nat ->
  exists s', link_loop fuel (link + 1) end_blk link s = Some s' /\ mounted (S k) [] D s' b img /\
    step [] (fun m => link <= m <= end_blk) s s' /\ chain (cache s') [link] (seqZ link (end_blk + 1 - link)).
Proof.
  induction fuel as [|fuel IH]; intros link s img M HD Hlk He Hus Hfuel; [lia|]. cbn [link_loop].
  destruct (Hus link ltac:(lia)) as (Hl0 & Hok & H1 & data & Hd).
  destruct (Z.leb_spec (link + 1) end_blk) as [Hle|Hgt].
  2:{ exists s. split; [done|]. split; [done|]. split; [apply step_refl|]. replace (end_blk + 1 - link) with 1 by lia.
      change (seqZ link 1) with [link]. econstructor; [exact Hd|constructor]. }
  destruct (u_bread_spec k [] D s b img link data M Hl0 Hok H1) as (b0 & s1 & bh & -> & Hb0 & M1 & St1 & Eb & Hbn & Hbd).
  { by intros x bx ?%not_elem_of_nil. }
  { done. }
  cbn [mbind option_bind]. unfold data_of. rewrite Eb. cbn [mbind option_bind]. pose proof M1 as (_ & _ & K1 & _).
  pose proof (kept_buf _ _ _ _ _ _ K1 Eb) as (_ & _ & _ & Hlb). rewrite memset_zeros by done. cbn [mbind option_bind].
  change (Z.to_nat U_BLK_SIZE) with 1024%nat. change (Z.to_nat FREE_BLOCK_LIST) with 128%nat. change (FREE_BLOCK_LIST - 1) with 127.
  destruct (fill_link_spec 128 127 (link + 1) end_blk (replicate 1024 0)) as (data' & -> & Hl' & Hw); [lia..|by rewrite length_replicate|].
  set (r := Z.min (Z.of_nat 128) (end_blk + 1 - (link + 1))) in *.
  assert (forall j, 0 <= j < 128 -> get (word j) data' = listed 127 (link + 1) r (fun _ => 0) j) as Hw'.
  { intros j Hj. rewrite Hw by done. unfold listed. case_decide; [done|]. apply get_replicate. }
  pose proof (reverse_words data' (link + 1) r ltac:(lia) ltac:(lia) ltac:(lia) Hw') as Hrev.
  destruct (set_data_spec k [] D s1 b img b0 bh data' M1 Eb Hl') as (s2 & -> & M2 & Eb2 & _ & St2). cbn [mbind option_bind].
  apply not_elem_of_cons in Hb0 as [Hbb _].
  destruct (u_bwrite_spec k [] _ s2 b img b0 _ M2 ltac:(apply not_elem_of_nil) Eb2) as (s3 & -> & M3 & St3 & Hh3). cbn [mbind option_bind].
  cbn [set_data b_blocknr b_data] in St3, Hh3. rewrite Hbn in St3, Hh3.
  assert (mounted (S k) [] D s3 b img) as M3'.
  { eapply mounted_weaken; [exact M3|intros x [[?| ->] Hx]; done|]. intros x ->%HD. by left. }
  assert (step [] (fun m => m = link) s s3) as St13.
  { eapply step_trans; [apply St1|]. eapply step_trans; [|exact St3]. rewrite <- Hbn. apply St2, not_elem_of_nil. }
  rewrite Hw' by lia. unfold listed. destruct (decide (127 - r < 0 <= 127)) as [Hfull|Hpart].
  - assert (r = 128 /\ 128 <= end_blk - link) as [Er Hroom] by lia. clearbody r. subst r. destruct (Z.eqb_spec (link + 1 + (127 - 0)) 0); [lia|].
    replace (link + 1 + 128) with (link + 128 + 1) by lia. replace (link + 1 + (127 - 0)) with (link + 128) by lia.
    destruct (IH (link + 128) s3 img M3' HD) as (s' & E & M' & St' & Hch); [lia..| |lia|].
    { intros m Hm. destruct (Hus m ltac:(lia)) as (Hm0 & Hmo & Hm1 & dm & Hdm). split_and!; try done. exists dm.
      apply (st_view _ _ _ _ St13); [done|lia|done]. }
    exists s'. split; [exact E|]. split; [exact M'|]. split.
    + eapply step_trans; [eapply step_weaken; [exact St13|done|]|eapply step_weaken; [exact St'|done|]]; cbv beta; intros m ?; lia.
    + replace (end_blk + 1 - link) with (1 + (end_blk - link)) by lia. rewrite seqZ_app by lia. change (seqZ link 1) with [link].
      cbn [app]. apply (chain_link _ _ data').
      * apply (st_view _ _ _ _ St'); [done|lia|done].
      * rewrite Hrev. replace (Z.to_nat (128 - 128)) with 0%nat by lia. rewrite app_nil_r. rewrite (seqZ_app _ 127 1) by lia.
        change (seqZ (link + 1 + 127) 1) with [link + 1 + 127].
        replace (end_blk - link) with (127 + (end_blk + 1 - (link + 128))) by lia. rewrite (seqZ_app _ 127) by lia.
        replace (link + 1 + 127) with (link + 128) by lia. by apply chain_app.
  - cbn [Z.eqb]. exists s3. split; [done|]. split; [done|]. split.
    + eapply step_weaken; [exact St13|done|]. intros m ->. lia.
    + assert (r = end_blk - link) as Er by lia. rewrite Er in Hrev.
      replace (end_blk + 1 - link) with (1 + (end_blk - link)) by lia. rewrite seqZ_app by lia. change (seqZ link 1) with [link].
      cbn [app]. apply (chain_link _ _ data'); [done|]. rewrite Hrev.
      replace (Z.to_nat (128 - (end_blk - link))) with (S (Z.to_nat (127 - (end_blk - link)))) by lia. cbn [replicate].
      rewrite <- (app_nil_r (seqZ (link + 1) (end_blk - link))) at 2. apply chain_app. constructor.
Qed.

Lemma stack_listed img start old :
  (forall j, 0 <= j < 128 -> get (fb j) img = listed 127 start 128 old j) -> stack_upto img 127 = seqZ start 128.
Proof.
  intros H. apply list_eq. intros i. unfold stack_upto. destruct (decide (i < 128)%nat).
  - rewrite list_lookup_fmap, reverse_lookup by (rewrite length_seqZ; lia). rewrite length_seqZ, !lookup_seqZ_lt by lia.
    cbn [fmap option_fmap option_map]. rewrite H by lia. unfold listed. rewrite decide_True by lia. f_equal. lia.
  - rewrite !lookup_ge_None_2; [done|rewrite length_seqZ; lia|rewrite length_fmap, length_reverse, length_seqZ; lia].
Qed.

(** A member outside [s_free_blocks]. *)
Definition off_list (f : field) : Prop := (f_off f + f_len f <= 244 \/ 756 <= f_off f)%nat.

Lemma make_block_list_spec k D b s img fs_bytes start end_blk :
  mounted (S k) [] D s b img -> (forall y, D y -> y = b) -> get s_blk_dilb_end img = start - 1 -> fs_bytes `div` 1024 = end_blk + 1 ->
  0 < start -> start + 128 <= end_blk -> end_blk < 2 ^ 32 - 1 -> (forall m, start <= m <= end_blk -> usable s m) ->
  exists s' img', make_block_list fs_bytes s = Some s' /\ mounted (S k) [] D s' b img' /\
    step [] (fun m => m = 1 \/ start <= m <= end_blk) s s' /\
    chain (cache s') (stack_upto img' 127) (seqZ start (end_blk + 1 - start)) /\ forall f, off_list f -> get f img' = get f img.
Proof.
  intros M HD Hen Hfs Hst Hlen He Hus. unfold make_block_list. sb_read. rewrite Hen.
  change U_BLK_SIZE with 1024. rewrite Hfs. replace (end_blk + 1 - 1) with end_blk by lia. replace (start - 1 + 1) with start by lia.
  rewrite !u32_small by lia.
  change (Z.to_nat FREE_BLOCK_LIST) with 128%nat. change (FREE_BLOCK_LIST - 1) with 127.
  destruct (fill_super_spec (S k) [] D b 128 127 start end_blk s img) as (s1 & img1 & -> & M1 & St1 & Hw & Hf); [lia..|done|].
  cbn [mbind option_bind]. replace (Z.min (Z.of_nat 128) (end_blk + 1 - start)) with 128 in * by lia.
  destruct (Z.ltb_spec end_blk (start + 128)); [lia|]. rewrite s_free_blocks_at by lia. cbn [mbind option_bind]. sb_read.
  rewrite Hw by lia. unfold listed at 1. rewrite decide_True by lia.
  replace (start + 128) with (start + 127 + 1) by lia. replace (start + (127 - 0)) with (start + 127) by lia.
  assert (forall m, start + 127 <= m <= end_blk -> usable s1 m) as Hus1.
  { intros m Hm. destruct (Hus m ltac:(lia)) as (Hm0 & Hmo & Hm1 & dm & Hdm). split_and!; try done. exists dm. by apply (st_view _ _ _ _ St1). }
  destruct (link_loop_spec k D b end_blk (S (Z.to_nat (end_blk + 1 - (start + 127 + 1)))) (start + 127) s1 img1 M1 HD) as (s' & E & M' & St' & Hch);
    [lia..|done|lia|].
  exists s', img1. split; [exact E|]. split; [exact M'|]. split; [|split; [|exact Hf]].
  - eapply step_trans; (eapply step_weaken; [eassumption|done|]); unfold only1; cbv beta; intros m ?; lia.
  - rewrite (stack_listed _ _ _ Hw), (seqZ_app _ 127 1) by lia. change (seqZ (start + 127) 1) with [start + 127].
    replace (end_blk + 1 - start) with (127 + (end_blk + 1 - (start + 127))) by lia. rewrite seqZ_app by lia. by apply chain_app.
Qed.

(** [s_free_inodes[j]] *)
Definition fi (j : Z) : field := Field (16 + 4 * Z.to_nat j) 4.

Lemma s_free_inodes_at j : 0 <= j < 50 -> s_free_inodes j = Some (fi j).
Proof. revert j. check_range 0 50 ltac:(reflexivity). Qed.

Lemma first_inodes_loop_spec k xs D b n : forall i s img,
  mounted k xs D s b img -> 0 <= i -> i + Z.of_nat n <= 50 ->
  exists s' img', first_inodes_loop n i s = Some s' /\ mounted k xs D s' b img' /\ step xs only1 s s' /\
    (forall f, (f_off f + f_len f <= 16 \/ 216 <= f_off f)%nat -> get f img' = get f img) /\
    forall j, 0 <= j < 50 -> get (fi j) img' = if decide (i <= j < i + Z.of_nat n) then j + 2 else get (fi j) img.
Proof.
  induction n as [|n IH]; intros i s img M Hi Hn; cbn [first_inodes_loop].
  { exists s, img. split_and!; [done|done|apply step_refl|done|]. intros j Hj. by rewrite decide_False by lia. }
  rewrite s_free_inodes_at by lia. cbn [mbind option_bind]. pose proof (mounted_length _ _ _ _ _ _ M) as Hl.
  destruct (sb_put_spec k xs D s b img (fi i) (i + 2) M) as (s0 & -> & M0 & St); [unfold fi; fields|]. cbn [mbind option_bind].
  destruct (IH (i + 1) _ _ M0) as (s' & img' & E & M' & St' & Hf & Hv); [lia..|].
  exists s', img'. split_and!; [done|done|by eapply step_trans| |].
  - intros f Hj. rewrite Hf by done. apply get_put_ne; [rewrite Hl; unfold fi; fields|]. unfold apart, fi. cbn [f_off f_len]. lia.
  - intros j Hj. rewrite Hv by done. destruct (decide (i = j)) as [->|Hne].
    + rewrite decide_False, decide_True by lia. rewrite get_put_eq by (rewrite Hl; unfold fi; fields). cbn [fi f_len]. rewrite Z.mod_small; lia.
    + rewrite get_put_ne; [|rewrite Hl; unfold fi; fields|unfold fi; fields]. repeat case_decide; try lia; done.
Qed.

(** A store, seen through the members. *)
Definition fits (f : field) (v : Z) : Prop := 0 <= v < 2 ^ (8 * Z.of_nat (f_len f)).

Lemma sb_set_spec k xs D s b img f v :
  mounted k xs D s b img -> inside f 1024 ->
  exists s' img', sb_put f v s = Some s' /\ mounted k xs D s' b img' /\ step xs only1 s s' /\
    (fits f v -> get f img' = v) /\ forall g, apart f g -> get g img' = get g img.
Proof.
  intros M Hf. pose proof (mounted_length _ _ _ _ _ _ M) as Hl. destruct (sb_put_spec k xs D s b img f v M Hf) as (s' & E & M' & St).
  exists s', (put f v img). split; [done|]. split; [done|]. split; [done|]. split.
  - intros Hv. rewrite get_put_eq by (by rewrite Hl). by apply Z.mod_small.
  - intros g Hg. apply get_put_ne; [by rewrite Hl|done].
Qed.

Ltac fits := first [fields|unfold fits, FREE_BLOCK_LIST, FREE_INODE_LIST; cbn; lia].
Tactic Notation "sb_set" ident(img') ident(M) ident(St) ident(Hv) ident(Ho) :=
  match goal with |- context [sb_put ?f ?v ?s] =>
    match goal with M0 : mounted ?k ?xs ?D s ?b ?img |- _ =>
      let s' := fresh "s" in let E := fresh "E" in
      destruct (sb_set_spec k xs D s b img f v M0 ltac:(fields)) as (s' & img' & E & M & St & Hv & Ho);
      rewrite E; cbn [mbind option_bind]; clear E end end.

(** The superblock of [mb] megabytes: the data blocks follow the inodes. *)
Lemma make_super_spec k D b s img mb :
  mounted (S k) [] D s b img -> (forall y, D y -> y = b) -> 1 <= mb < 4096 -> get s_block_list_lock img ≠ 1 ->
  (forall m, 32 * mb + 2 <= m < 1024 * mb -> usable s m) ->
  exists s' img', make_super mb s = Some s' /\ mounted (S k) [] D s' b img' /\
    step [] (fun m => m = 1 \/ 32 * mb + 2 <= m < 1024 * mb) s s' /\ list_ready img' 127 /\
    chain (cache s') (stack_upto img' 127) (seqZ (32 * mb + 2) (992 * mb - 2)) /\
    get s_n_free_blocks img' = 992 * mb - 2 /\ get s_total_inodes img' = 256 * mb /\ get s_blk_dilb_start img' = 2 /\
    get s_next_free_inode img' = 49 /\ forall j, 0 <= j < 50 -> get (fi j) img' = j + 2.
Proof.
  intros M HD Hmb Hlock Hus. pose proof (mounted_length _ _ _ _ _ _ M) as Hl. unfold make_super.
  rewrite (u32_small (mb * 1024 * 1024)) by lia.
  replace ((mb * 1024 * 1024) `div` U_BYTES_PER_INODE) with (256 * mb) by (unfold U_BYTES_PER_INODE; lia).
  replace ((256 * mb + INODES_PER_BLOCK - 1) `div` INODES_PER_BLOCK) with (32 * mb) by (unfold INODES_PER_BLOCK; lia).
  replace ((mb * 1024 * 1024) `div` U_BLK_SIZE) with (1024 * mb) by (unfold U_BLK_SIZE; lia).
  sb_set i1 M1 St1 V1 O1. sb_set i2 M2 St2 V2 O2. sb_set i3 M3 St3 V3 O3. sb_set i4 M4 St4 V4 O4. sb_set i5 M5 St5 V5 O5. sb_set i6 M6 St6 V6 O6. sb_set i7 M7 St7 V7 O7.
  destruct (first_inodes_loop_spec (S k) [] D b (Z.to_nat FREE_INODE_LIST) 0 _ _ M7) as (s8' & i8 & -> & M8 & St8 & O8 & F8); [unfold FREE_INODE_LIST; lia..|].
  cbn [mbind option_bind]. sb_set i9 M9 St9 V9 O9. sb_set i10 M10 St10 V10 O10. sb_set i11 M11 St11 V11 O11. sb_set i12 M12 St12 V12 O12. sb_read.
  assert (forall f, (228 <= f_off f /\ f_off f + f_len f <= 756)%nat -> get f i12 = get f i7) as P7.
  { intros f Hf. rewrite O12, O11, O10, O9, O8; [done|fields..]. }
  rewrite P7 by fields. rewrite O7, O6, O5, V4 by fits. replace (2 + 32 * mb - 1 + 1) with (32 * mb + 2) by lia.
  rewrite !u32_small by lia. sb_set i13 M13 St13 V13 O13.
  assert (forall f, (236 <= f_off f /\ f_off f + f_len f <= 240)%nat -> get f i13 = get f img) as P1.
  { intros f Hf. rewrite O13 by fields. rewrite P7 by fields. rewrite O7, O6, O5, O4, O3, O2, O1; [done|fields..]. }
  match type of M13 with mounted _ _ _ ?t _ _ => assert (step [] only1 s t) as St by (do 12 (eapply step_trans; [eassumption|]); assumption) end.
  clear St1 St2 St3 St4 St5 St6 St7 St8 St9 St10 St11 St12 St13.
  destruct (make_block_list_spec k D b _ i13 (mb * 1024 * 1024) (32 * mb + 2) (1024 * mb - 1) M13 HD) as (s' & img' & E & M' & St' & Hch & Hf);
    [|lia..| |].
  - rewrite O13, P7, O7, O6, O5, V4 by fits. lia.
  - intros m Hm. destruct (Hus m ltac:(lia)) as (Hm0 & Hmo & Hm1 & dm & Hdm). split_and!; try done. exists dm. by apply (st_view _ _ _ _ St).
  - exists s', img'. replace (1024 * mb - 1 + 1 - (32 * mb + 2)) with (992 * mb - 2) in Hch by lia.
    split; [exact E|]. split; [exact M'|]. split; [|split; [split; [|split; [|lia]]|split; [exact Hch|split; [|split; [|split; [|split]]]]]].
    + eapply step_trans; (eapply step_weaken; [eassumption|done|]); unfold only1; cbv beta; intros m ?; lia.
    + rewrite Hf, P1 by (unfold off_list; fields). exact Hlock.
    + rewrite Hf, O13, V12 by (unfold off_list; fits). done.
    + rewrite Hf, V13 by (unfold off_list; fits). lia.
    + rewrite Hf, O13, O12, O11, O10, O9, O8, O7, O6, O5, O4, O3, V2 by (unfold off_list; fits). done.
    + rewrite Hf, O13, P7, O7, O6, O5, O4, V3 by (unfold off_list; fits). done.
    + rewrite Hf, O13, O12, O11, O10, O9, O8, V7 by (unfold off_list; fits). done.
    + intros j Hj. rewrite Hf, O13, O12, O11, O10, O9 by (unfold off_list, fi; fits). rewrite F8, decide_True by (unfold FREE_INODE_LIST; lia). done.
Qed.

(** ** From the superblock to the last block *)

Lemma holds_exists (c : buffer_cache B) n : bd_ok n -> exists data, holds c n data.
Proof.
  intros Hok. destruct (bd_read_ok n (disk c) Hok) as (data & Hr & _).
  destruct (decide (map_Exists (fun _ bh => b_blocknr bh = n /\ has_flag (flags bh) BH_uptodate = true) (bufs c))) as [(b & bh & Eb & Hn & Hu)|Hno].
  - exists (b_data bh). left. by exists b, bh.
  - exists data. right. split; [|done]. intros b bh Eb Hn. destruct (has_flag (flags bh) BH_uptodate) eqn:E; [|done].
    destruct Hno. by exists b, bh.
Qed.

(** A client that takes [n] blocks and writes each back: their numbers. *)
Fixpoint ballocs (n : nat) s : option (list Z * ufs B) :=
  match n with
  | O => Some ([], s)
  | S n =>
      '(r, s) ← balloc s;
      b ← r;
      bh ← bufs (cache s) !! b;
      s ← u_bwrite b s;
      '(l, s) ← ballocs n s;
      Some (b_blocknr bh :: l, s)
  end.

Lemma ballocs_spec k D b l1 : forall l2 s img n,
  mounted (S k) [] D s b img -> (forall y, D y -> y = b) -> list_ready img n -> chain (cache s) (stack_upto img n) (l1 ++ l2) ->
  NoDup (l1 ++ l2) -> Forall (fun m => 0 <= m /\ bd_ok m /\ m ≠ 1) (l1 ++ l2) ->
  Z.of_nat (length l1) <= get s_n_free_blocks img < 2 ^ 32 ->
  exists s' img' n', ballocs (length l1) s = Some (l1, s') /\ mounted (S k) [] D s' b img' /\ list_ready img' n' /\
    chain (cache s') (stack_upto img' n') l2 /\ get s_n_free_blocks img' = get s_n_free_blocks img - Z.of_nat (length l1) /\
    (forall m, m ∈ l1 -> holds (cache s') m (replicate 1024 0)) /\ step [] (fun m => m = 1 \/ m ∈ l1) s s'.
Proof.
  induction l1 as [|x l1 IH]; intros l2 s img n M HD Hr Hch Hnd Hall Hcnt; cbn [ballocs length app] in *.
  { exists s, img, n. do 3 (split; [done|]). split; [done|]. split; [lia|]. split; [by intros m ?%not_elem_of_nil|apply step_refl]. }
  apply NoDup_cons in Hnd as [Hx Hnd]. apply Forall_cons in Hall as [(Hx0 & Hxo & Hx1) Hall].
  destruct (balloc_spec k [] D s b img n x (l1 ++ l2) M) as (b0 & s1 & bh & img1 & n1 & -> & Hb0 & M1 & Hr1 & Hch1 & St1 & Eb & Hbn & Hbd & Hc1 & _).
  { intros y ?%HD. by left. }
  { done. }
  { done. }
  { split_and!; try done. by intros y bx ?%not_elem_of_nil. }
  { rewrite Forall_forall in Hall |- *. intros y Hy. destruct (Hall y Hy) as (? & ? & ?). split_and!; try done. by intros ->. }
  cbn [mbind option_bind]. rewrite Eb. cbn [mbind option_bind]. apply not_elem_of_cons in Hb0 as [Hbb _].
  destruct (u_bwrite_spec k [] _ s1 b img1 b0 _ M1 ltac:(apply not_elem_of_nil) Eb) as (s2 & -> & M2 & St2 & Hh2). cbn [mbind option_bind].
  rewrite Hbn in St2, Hh2. rewrite Hbd in Hh2.
  assert (mounted (S k) [] D s2 b img1) as M2'.
  { eapply mounted_weaken; [exact M2|intros y [[?| ->] Hy]; done|]. intros y ->%HD. by left. }
  destruct (IH l2 s2 img1 n1 M2' HD Hr1) as (s' & img' & n' & -> & M' & Hr' & Hch' & Hc' & Hz & St'); [|done..| |].
  { apply (chain_view (cache s1)); [done|]. intros m data Hm Hh. rewrite Forall_forall in Hall. destruct (Hall m Hm) as (? & ? & ?).
    apply (st_view _ _ _ _ St2); [done| |done]. by intros ->. }
  { rewrite Hc1, u32_small by lia. lia. }
  cbn [mbind option_bind]. exists s', img', n'. split; [by rewrite Hbn|]. do 3 (split; [done|]). split; [rewrite Hc', Hc1, u32_small by lia; lia|]. split.
  - intros m [->|Hm]%elem_of_cons; [|by apply Hz]. apply (st_view _ _ _ _ St'); [done| |done].
    intros [?|Hin]; [done|]. apply Hx. apply elem_of_app. by left.
  - eapply step_trans; [|eapply step_weaken; [exact St'|done|]].
    + eapply step_trans; (eapply step_weaken; [eassumption|done|]); cbv beta; intros m Hm; rewrite elem_of_cons; tauto.
    + cbv beta. intros m Hm. rewrite elem_of_cons. tauto.
Qed.

(** A cache at rest: [mkufs] reads block 1 and makes it the superblock. *)
Lemma super_read_spec k c sb n data :
  quiet (S k) c -> bd_ok 1 -> holds c 1 data ->
  exists b c', u_bread 1 (mk_ufs c n sb) = Some (Some b, mk_ufs c' n sb) /\
    mounted k [] (fun x => x = b) (mk_ufs c' (Some b) sb) b data /\ same_view c c'.
Proof.
  intros Hq Hok Hd. destruct (kept_bread k [] (fun _ => False) c 1 data (kept_quiet _ _ Hq)) as (b & c' & bh & E & _ & K & Hv & _ & Eb & Hn & Hbd & _);
    [lia|done|by intros x bx ?%not_elem_of_nil|done|].
  exists b, c'. unfold u_bread. cbn [cache]. rewrite E. split; [done|]. split; [|done]. split_and!; cbn [super cache]; try done.
  - apply not_elem_of_nil.
  - eapply kept_weaken; [exact K|done|]. intros x ->. by left.
  - by exists bh.
Qed.

(** C37: making a file system of [mb] megabytes and then taking blocks gives
    every block of the data area exactly once, in increasing order from the end
    of the inodes to the last block; each comes cleared, and the count of free
    blocks goes from [992 * mb - 2] to 0.  The lists in the link blocks are read
    when the superblock's list runs out. *)
Theorem make_super_hands_out c sb mb data :
  quiet 2 c -> holds c 1 data -> get s_block_list_lock data ≠ 1 -> 1 <= mb < 4096 -> (forall m, 1 <= m < 1024 * mb -> bd_ok m) ->
  exists b c' s1 img1 s2 img2, u_bread 1 (mk_ufs c None sb) = Some (Some b, mk_ufs c' None sb) /\
    make_super mb (mk_ufs c' (Some b) sb) = Some s1 /\ mounted 1 [] (fun x => x = b) s1 b img1 /\ get s_n_free_blocks img1 = 992 * mb - 2 /\
    ballocs (Z.to_nat (992 * mb - 2)) s1 = Some (seqZ (32 * mb + 2) (992 * mb - 2), s2) /\
    mounted 1 [] (fun x => x = b) s2 b img2 /\ get s_n_free_blocks img2 = 0 /\
    forall m, 32 * mb + 2 <= m < 1024 * mb -> holds (cache s2) m (replicate 1024 0).
Proof.
  intros Hq Hd Hlock Hmb Hok. destruct (super_read_spec 1 c sb None data Hq) as (b & c' & E & M & _); [apply Hok; lia|done|].
  destruct (make_super_spec 0 _ b _ data mb M) as (s1 & img1 & E1 & M1 & _ & Hr1 & Hch & Hc1 & _); [done..| |].
  { intros m Hm. assert (bd_ok m) by (apply Hok; lia). split_and!; [lia|done|lia|by apply holds_exists]. }
  destruct (ballocs_spec 0 _ b (seqZ (32 * mb + 2) (992 * mb - 2)) [] s1 img1 127 M1) as (s2 & img2 & n2 & E2 & M2 & _ & _ & Hc2 & Hz & _);
    rewrite ?app_nil_r; try done.
  - apply NoDup_seqZ.
  - rewrite Forall_forall. intros m Hm%elem_of_seqZ. split_and!; [lia|apply Hok; lia|lia].
  - rewrite length_seqZ, Hc1. lia.
  - rewrite length_seqZ in E2, Hc2. exists b, c', s1, img1, s2, img2. do 6 (split; [done|]). split; [lia|].
    intros m Hm. apply Hz, elem_of_seqZ. lia.
Qed.
End Make.

(** ** An instance: one megabyte over a volume in memory *)

Lemma demo_megabyte_ok n : 0 <= n < 1024 -> bd_ok n.
Proof.
  intros Hn. change (block_ok demo_volume n). unfold block_ok. change (SECTORS_PER_BLOCK demo_volume) with 2.
  cbn [demo_volume fs_start_set filesys_start s_log_block_size]. lia.
Qed.

Lemma demo_at_rest : exists c : buffer_cache (gmap Z (list Z)), quiet 2 c /\ holds c 1 (replicate 1024 0).
Proof.
  destruct demo_created as (c & hs & _ & Hc & Hco & Hd & Hf). exists c. split.
  - exists [2000; 1000], hs. split_and!; [done|done| |simpl; lia]. intros b bh [_ Hfl]%Hf. unfold unlocked. rewrite Hfl. done.
  - right. split; [intros b bh [_ Hfl]%Hf _; rewrite Hfl; done|]. rewrite Hd. by vm_compute.
Qed.

(** A file system that has just been made. *)
Lemma demo_made : exists (s : ufs (gmap Z (list Z))) b img,
  mounted 1 [] (fun x => x = b) s b img /\ list_ready img 127 /\ chain (cache s) (stack_upto img 127) (34 :: seqZ 35 989) /\
  get s_blk_dilb_start img = 2.
Proof.
  destruct demo_at_rest as (c & Hq & Hd).
  destruct (super_read_spec 1 c None None (replicate 1024 0) Hq) as (b & c' & _ & M & _); [by apply demo_megabyte_ok|done|].
  destruct (make_super_spec 0 _ b _ _ 1 M) as (s1 & img1 & _ & M1 & _ & Hr1 & Hch & _ & _ & Hst & _); [done|lia|by rewrite get_replicate| |].
  { intros m Hm. assert (bd_ok m) by (apply demo_megabyte_ok; lia). split_and!; [lia|done|lia|by apply holds_exists]. }
  exists s1, b, img1. split; [exact M1|]. split; [exact Hr1|]. rewrite seqZ_cons in Hch by lia. split; [exact Hch|exact Hst].
Qed.

Lemma demo_can_take s : can_take (B := gmap Z (list Z)) [] s 34.
Proof. split_and!; [done|by apply demo_megabyte_ok|done|]. by intros y bx ?%not_elem_of_nil. Qed.

Lemma demo_rest : Forall (fun y => y ≠ 34 /\ bd_ok y /\ y ≠ 1) (seqZ 35 989).
Proof. apply Forall_forall. intros y Hy%elem_of_seqZ. split_and!; [lia|apply demo_megabyte_ok; lia|lia]. Qed.

Lemma make_super_hands_out_witness :
  exists (c : buffer_cache (gmap Z (list Z))) b c' s1 s2, u_bread 1 (mk_ufs c None None) = Some (Some b, mk_ufs c' None None) /\
    make_super 1 (mk_ufs c' (Some b) None) = Some s1 /\ ballocs (Z.to_nat 990) s1 = Some (seqZ 34 990, s2) /\
    holds (cache s2) 1023 (replicate 1024 0).
Proof.
  destruct demo_at_rest as (c & Hq & Hd).
  destruct (make_super_hands_out c None 1 (replicate 1024 0) Hq Hd) as (b & c' & s1 & img1 & s2 & img2 & E & E1 & _ & _ & E2 & _ & _ & Hz).
  - by rewrite get_replicate.
  - lia.
  - intros m Hm. apply demo_megabyte_ok. lia.
  - exists c, b, c', s1, s2. split; [exact E|]. split; [exact E1|]. split; [exact E2|]. apply Hz. lia.
Defined.

Lemma ufs_balloc_correct_witness :
  exists (s s' : ufs (gmap Z (list Z))) b0 bh, balloc s = Some (Some b0, s') /\ bufs (cache s') !! b0 = Some bh /\ b_blocknr bh = 34.
Proof.
  destruct demo_made as (s & b & img & M & Hr & Hch & _).
  destruct (ufs_balloc_correct 0 [] _ s b img 127 34 (seqZ 35 989) M) as (b0 & s' & bh & img' & n' & E & _ & _ & _ & _ & Eb & Hn & _).
  - intros y Hy. left. exact Hy.
  - exact Hr.
  - exact Hch.
  - apply demo_can_take.
  - apply demo_rest.
  - exists s, s', b0, bh. split; [exact E|]. split; [exact Eb|exact Hn].
Defined.

Lemma bfree_doubles_witness :
  exists (s s1 s2 : ufs (gmap Z (list Z))) b0 st img', balloc s = Some (Some b0, s1) /\ bfree 34 s1 = Some s2 /\ stack_upto img' 127 = 34 :: 34 :: st.
Proof.
  destruct demo_made as (s & b & img & M & Hr & Hch & _).
  assert (exists y st, stack_upto img 127 = 34 :: y :: st) as (y & st & Est).
  { rewrite (stack_upto_cons img 127), (stack_upto_cons img (127 - 1)) in Hch |- * by lia. apply chain_cons in Hch as [-> _]. by eexists _, _. }
  destruct (bfree_doubles 0 [] _ s b img 127 34 y st (seqZ 35 989) M) as (b0 & s1 & s2 & bh & img' & E1 & _ & _ & E2 & _ & _ & Hst).
  - intros x Hx. left. exact Hx.
  - exact Hr.
  - rewrite <- Est. exact Hch.
  - exact Est.
  - apply demo_can_take.
  - lia.
  - apply demo_rest.
  - exists s, s1, s2, b0, st, img'. split; [exact E1|]. split; [exact E2|exact Hst].
Defined.
