(* ===== verification/UfsInode.v ===== *)
(** * The early file system: inodes in memory, directories and paths
    (fs/ufs/ufs.c, struct inode and struct file of include/ufs.h)

    The first 128 bytes of an inode in memory are the image of the inode on
    disk, so its members are fields of that image.  Inodes and open files live
    in maps by address; their list fields, the hash queues, the free list and
    the file table are the nodes of one link store.  [ipool] and [fpool] hold
    what the object caches will hand out.  A loop that waits for a lock does
    not end, and neither does its model: [None].  The routines that only print
    ([display_inode_cache], [display_sb], [display_itable]) are left out. *)

From S2P Require Import CString Serial.
From S2P Require Export Ufs.

Definition INODES : Z := 50.
Definition INCORE_TABLE : Z := 50.
Definition NR_OPEN : Z := 30.
Definition I_LOCKED : Z := 1.
Definition I_DIRTY_INODE : Z := 4.
Definition I_DIRTY_DATA : Z := 8.
Definition O_CREAT : Z := 2.
Definition O_RDONLY : Z := 4.
Definition O_WRONLY : Z := 8.
Definition O_DIR : Z := 32.
Definition N_PARENT : Z := 2.

Inductive unode := UHash (h : Z) | UFree | UFiles | UNHash (a : Z) | UNFree (a : Z) | UNFile (f : Z).

#[export] Instance unode_eq_dec : EqDecision unode.
Proof. solve_decision. Defined.

#[export] Instance unode_countable : Countable unode.
Proof.
  refine (inj_countable'
    (fun n => match n with UHash h => (0, h) | UFree => (1, 0) | UFiles => (2, 0) | UNHash a => (3, a) | UNFree a => (4, a) | UNFile f => (5, f) end)
    (fun '(t, i) => if decide (t = 0) then UHash i else if decide (t = 1) then UFree else if decide (t = 2) then UFiles else
       if decide (t = 3) then UNHash i else if decide (t = 4) then UNFree i else UNFile i) _).
  by intros [].
Defined.

Record inode := mk_inode { i_img : list Z; i_state : Z; i_count : Z; i_parent : option Z }.
Record file := mk_file { f_inode : option Z; f_count : Z; f_flags : Z; f_mode : Z; f_pos : Z }.

Definition set_img (img : list Z) (i : inode) : inode := mk_inode img (i_state i) (i_count i) (i_parent i).
Definition set_state (v : Z) (i : inode) : inode := mk_inode (i_img i) v (i_count i) (i_parent i).
Definition set_count (v : Z) (i : inode) : inode := mk_inode (i_img i) (i_state i) v (i_parent i).
Definition set_parent (p : option Z) (i : inode) : inode := mk_inode (i_img i) (i_state i) (i_count i) p.
Definition on_img (f : list Z -> list Z) (i : inode) : inode := set_img (f (i_img i)) i.
Definition set_pos (v : Z) (x : file) : file := mk_file (f_inode x) (f_count x) (f_flags x) (f_mode x) v.

(** [locked_inode] and [unlocked_inode]: the flag goes into [i_flags]. *)
Definition locked_inode (i : inode) : inode := on_img (fun img => put ui_flags (Z.lor (get ui_flags img) I_LOCKED) img) i.
Definition unlocked_inode (i : inode) : inode := on_img (fun img => put ui_flags (Z.land (get ui_flags img) (Z.lnot I_LOCKED)) img) i.

(** [SET_FLAG(inode->i_state, I_DIRTY_INODE | I_DIRTY_DATA)] *)
Definition dirty_inode (i : inode) : inode := set_state (Z.lor (i_state i) (Z.lor I_DIRTY_INODE I_DIRTY_DATA)) i.

(** [init_inode] keeps [i_count], the links and [i_parent]. *)
Definition init_inode (dev_no i_no blkno : Z) (i : inode) : inode := set_state 0 (on_img (init_dinode dev_no i_no blkno) i).

Definition bmap (byte_offset : Z) : Z := s32 (byte_offset `div` U_BLK_SIZE).

(** [current]'s part and the tables. *)
Record world {B : Type} := mk_world {
  fsys : ufs B;
  inodes : gmap Z inode;
  ulinks : gmap unode (list_head unode);
  ipool : list (Z * inode);
  files : gmap Z file;
  fpool : list (Z * file);
  itable : list (option Z);
  root : option Z;
  pwd : option Z;
  filp : list (option Z);
  first_free_filp : Z;
  k_ok : bool
}.
Arguments world : clear implicits.

Section Inodes.
Context {B : Type} `{!BlockDev B}.
Implicit Types w : world B.

Definition with_fsys s w : world B :=
  mk_world _ s (inodes w) (ulinks w) (ipool w) (files w) (fpool w) (itable w) (root w) (pwd w) (filp w) (first_free_filp w) (k_ok w).
Definition with_inodes m w : world B :=
  mk_world _ (fsys w) m (ulinks w) (ipool w) (files w) (fpool w) (itable w) (root w) (pwd w) (filp w) (first_free_filp w) (k_ok w).
Definition with_ulinks l w : world B :=
  mk_world _ (fsys w) (inodes w) l (ipool w) (files w) (fpool w) (itable w) (root w) (pwd w) (filp w) (first_free_filp w) (k_ok w).
Definition with_ipool p w : world B :=
  mk_world _ (fsys w) (inodes w) (ulinks w) p (files w) (fpool w) (itable w) (root w) (pwd w) (filp w) (first_free_filp w) (k_ok w).
Definition with_files m p w : world B :=
  mk_world _ (fsys w) (inodes w) (ulinks w) (ipool w) m p (itable w) (root w) (pwd w) (filp w) (first_free_filp w) (k_ok w).
Definition with_itable t w : world B :=
  mk_world _ (fsys w) (inodes w) (ulinks w) (ipool w) (files w) (fpool w) t (root w) (pwd w) (filp w) (first_free_filp w) (k_ok w).
Definition with_dirs r p w : world B :=
  mk_world _ (fsys w) (inodes w) (ulinks w) (ipool w) (files w) (fpool w) (itable w) r p (filp w) (first_free_filp w) (k_ok w).
Definition with_filp t n w : world B :=
  mk_world _ (fsys w) (inodes w) (ulinks w) (ipool w) (files w) (fpool w) (itable w) (root w) (pwd w) t n (k_ok w).

Definition on_ulinks (f : gmap unode (list_head unode) -> option (gmap unode (list_head unode))) w : option (world B) :=
  l ← f (ulinks w); Some (with_ulinks l w).
Definition upd_inode (a : Z) (f : inode -> inode) w : option (world B) :=
  i ← inodes w !! a; Some (with_inodes (<[a := f i]> (inodes w)) w).
Definition img_of (a : Z) w : option (list Z) := i ← inodes w !! a; Some (i_img i).

(** Element [i] of an array; outside of it the access is undefined. *)
Definition array_get {A} (l : list A) (i : Z) : option A := if i <? 0 then None else l !! Z.to_nat i.
Definition array_put {A} (i : Z) (x : A) (l : list A) : option (list A) :=
  if (0 <=? i) && (i <? Z.of_nat (length l)) then Some (<[Z.to_nat i := x]> l) else None.

(** ** Inodes on disk, from memory *)

Definition iread (a : Z) w : option (world B) :=
  img ← img_of a w;
  '(img, s) ← read_inode (get ui_no img) (fsys w);
  upd_inode a (set_img img) (with_fsys s w).

Definition iwrite (a : Z) w : option (world B) :=
  img ← img_of a w;
  s ← write_inode img (fsys w);
  Some (with_fsys s w).

(** ** The inode cache *)

Fixpoint ih_walk (fuel : nat) (head pos : unode) (dev_no inum : Z) w : option (option Z) :=
  match fuel with
  | O => None
  | S fuel =>
      if decide (pos = head) then Some None
      else
        match pos with
        | UNHash a =>
            img ← img_of a w;
            if (get ui_no img =? inum) && (get ui_dev img =? dev_no) then Some (Some a)
            else p ← next_of (ulinks w) pos; ih_walk fuel head p dev_no inum w
        | _ => None
        end
  end.

Definition search_inode_hash (dev_no inum : Z) w : option (option Z) :=
  let head := UHash (hash_fn (s32 inum) dev_no) in
  p ← next_of (ulinks w) head;
  ih_walk (S (size (ulinks w))) head p dev_no inum w.

Definition inode_init (a dev_no inum : Z) w : option (world B) :=
  w ← upd_inode a (on_img (put ui_no inum)) w;
  w ← iread a w;
  w ← on_ulinks (INIT_LIST_NULL (UNHash a)) w;
  w ← on_ulinks (INIT_LIST_NULL (UNFree a)) w;
  upd_inode a (fun i => set_parent None (set_count 0 (set_state 0 i))) w.

(** The inner [None] is the null pointer: the free list is empty. *)
Definition iget (dev_no inum : Z) w : option (option Z * world B) :=
  found ← search_inode_hash dev_no inum w;
  match found with
  | Some a =>
      i ← inodes w !! a;
      if has_flag (i_state i) I_LOCKED then None
      else
        w ← (if i_count i =? 0 then on_ulinks (list_del (UNFree a)) w else Some w);
        w ← upd_inode a (fun i => locked_inode (set_count (u32 (i_count i + 1)) i)) w;
        Some (Some a, w)
  | None =>
      e ← list_is_empty UFree (ulinks w);
      if (e : bool) then Some (None, w)
      else
        p ← next_of (ulinks w) UFree;
        match p with
        | UNFree a =>
            w ← on_ulinks (list_del (UNFree a)) w;
            w ← upd_inode a (on_img (put ui_no inum)) w;
            w ← on_ulinks (list_del (UNHash a)) w;
            w ← on_ulinks (list_add (UHash (hash_fn inum dev_no)) (UNHash a)) w;
            w ← iread a w;
            w ← upd_inode a (fun i => locked_inode (set_count (u32 (i_count i + 1)) i)) w;
            Some (Some a, w)
        | _ => None
        end
  end.

Definition iput (a : Z) w : option (world B) :=
  w ← upd_inode a (fun i => let i := locked_inode i in set_count (u32 (i_count i - 1)) i) w;
  i ← inodes w !! a;
  w ← (if (i_count i =? 0) && (has_flag (i_state i) I_DIRTY_INODE || has_flag (i_state i) I_DIRTY_DATA)
       then iwrite a w else Some w);
  w ← on_ulinks (list_add_tail UFree (UNFree a)) w;
  upd_inode a unlocked_inode w.

(** [init_file], the constructor of the file cache. *)
Definition init_file (fobj : Z) w : option (world B) := on_ulinks (INIT_LIST_NULL (UNFile fobj)) w.
Definition new_file : file := mk_file None 0 0 0 0.

(** The objects of the new cache go through the constructor. *)
Fixpoint construct_files (pool : list (Z * file)) w : option (list (Z * file) * world B) :=
  match pool with
  | [] => Some ([], w)
  | (f, _) :: pool => w ← init_file f w; '(l, w) ← construct_files pool w; Some ((f, new_file) :: l, w)
  end.

(** [file_ok]: kmem_cache_create gave the cache. *)
Definition create_file_cache (file_ok : bool) w : option (world B) :=
  if file_ok then '(l, w) ← construct_files (fpool w) w; Some (with_files (files w) l w) else Some w.

Fixpoint init_ihash (n : nat) (h : Z) w : option (world B) :=
  match n with
  | O => Some w
  | S n => w ← on_ulinks (INIT_LIST_HEAD (UHash h)) w; init_ihash n (h + 1) w
  end.

Fixpoint add_inodes (n : nat) (iCnt : Z) w : option (world B) :=
  match n with
  | O => Some w
  | S n =>
      match ipool w with
      | [] => Some w
      | (a, old) :: rest =>
          let w := with_ipool rest (with_inodes (<[a := old]> (inodes w)) w) in
          w ← inode_init a DEV_NO iCnt w;
          w ← on_ulinks (list_add (UHash (hash_fn iCnt DEV_NO)) (UNHash a)) w;
          w ← on_ulinks (list_add UFree (UNFree a)) w;
          add_inodes n (iCnt + 1) w
      end
  end.

(** [test_icache] takes inode 16 and keeps it. *)
Definition test_icache w : option (world B) := '(_, w) ← iget DEV_NO 16 w; Some w.

Definition create_inode_cache (inode_ok file_ok : bool) w : option (world B) :=
  if inode_ok then
    w ← create_file_cache file_ok w;
    w ← init_ihash (Z.to_nat DEV_NO) 0 w;
    w ← on_ulinks (INIT_LIST_HEAD UFree) w;
    w ← add_inodes (Z.to_nat INODES) 1 w;
    test_icache w
  else Some w.

(** ** Allocation *)

Definition ialloc (dev_no : Z) w : option (option Z * world B) :=
  l ← sb_get s_inode_list_lock (fsys w);
  if l =? 1 then None
  else
    nx ← sb_get s_next_free_inode (fsys w);
    s ← (if s32 nx =? -1 then s ← sb_put s_inode_list_lock 1 (fsys w); fill_free_inode_list s else Some (fsys w));
    nx ← sb_get s_next_free_inode s;
    s ← sb_put s_next_free_inode (nx - 1) s;
    f ← s_free_inodes (s32 nx);
    i_no ← sb_get f s;
    '(r, w) ← iget DEV_NO i_no (with_fsys s w);
    match r with
    | None => Some (None, w)
    | Some a =>
        st ← sb_get s_blk_dilb_start (fsys w);
        w ← upd_inode a (init_inode dev_no i_no (u32 (st + i_no `div` INODES_PER_BLOCK))) w;
        n ← sb_get s_n_free_inodes (fsys w);
        s ← sb_put s_n_free_inodes (n - 1) (fsys w);
        w ← upd_inode a locked_inode (with_fsys s w);
        Some (Some a, w)
    end.

(** ** Directories *)

(** The entries of one block from [dentry] on: the inode of a match, or the
    bytes passed. *)
Fixpoint scan_dir (max_dir_ent : nat) (dentry entry : list Z) (entry_len i_size total_bytes : Z) : option (option Z * Z) :=
  match max_dir_ent with
  | O => Some (None, total_bytes)
  | S max_dir_ent =>
      if i_size <=? total_bytes then Some (None, total_bytes)
      else
        let dir_name := drop 4 dentry in
        c ← strncmp dir_name entry entry_len;
        same ← (if c =? 0 then n ← strlen dir_name; Some (n =? entry_len) else Some false);
        if (same : bool) then Some (Some (get (Field 0 4) dentry), total_bytes)
        else scan_dir max_dir_ent (drop (Z.to_nat DIR_ENTRY_BYTES) dentry) entry entry_len i_size (total_bytes + DIR_ENTRY_BYTES)
  end.

Definition not_found : Z := u32 (-1).

Fixpoint search_blocks (n : nat) (iCnt : Z) (img entry : list Z) (entry_len total_bytes : Z) (s : ufs B) : option (Z * ufs B) :=
  match n with
  | O => Some (not_found, s)
  | S n =>
      f ← ui_blocks iCnt;
      '(r, s) ← u_bread (get f img) s;
      match r with
      | None => Some (not_found, s)
      | Some b =>
          data ← data_of b s;
          '(r, total_bytes) ← scan_dir (Z.to_nat (U_BLK_SIZE `div` DIR_ENTRY_BYTES)) data entry entry_len (get ui_size img) total_bytes;
          s ← u_brelse b s;
          match r with
          | Some ino => Some (ino, s)
          | None => search_blocks n (iCnt + 1) img entry entry_len total_bytes s
          end
      end
  end.

(** [search_dir] in the directory with image [img]. *)
Definition search_dir (img entry : list Z) (entry_len : Z) (s : ufs B) : option (Z * ufs B) :=
  search_blocks (Z.to_nat (get ui_size img `div` U_BLK_SIZE + 1)) 0 img entry entry_len 0 s.

(** ** Paths *)

Fixpoint next_token_loop (n : nat) (str : list Z) (end_ len : Z) : option Z :=
  match n with
  | O => Some end_
  | S n =>
      if end_ <? len then
        c ← array_get str end_;
        if (c =? 0) || (c =? 47) then Some end_ else next_token_loop n str (end_ + 1) len
      else Some end_
  end.

Definition next_token (str : list Z) (start len : Z) : option Z :=
  e ← next_token_loop (Z.to_nat (len - start)) str start len; Some (e - 1).

(** [fuel] rounds of the loop; each passes a character or ends.  [k_ok]: kmalloc
    gives the memory for the token, otherwise the copy goes to the null pointer. *)
Fixpoint namei_loop (fuel : nat) (path : list Z) (index len flags work : Z) w : option (option Z * world B) :=
  match fuel with
  | O => None
  | S fuel =>
      if index <? len then
        e ← next_token path index len;
        if negb (k_ok w) then None
        else
          token ← load index (Z.to_nat (e - index + 1)) path;
          img ← img_of work w;
          '(inode, s) ← search_dir img (token ++ [0]) (e - index + 1) (fsys w);
          let w := with_fsys s w in
          let last := has_flag flags N_PARENT && (len <=? e + 1) in
          if inode =? not_found then Some (if last then Some work else None, w)
          else if last then Some (Some work, w)
          else
            w ← iput work w;
            '(r, w) ← iget DEV_NO inode w;
            match r with
            | None => Some (None, w)
            | Some work => namei_loop fuel path (e + 2) len flags work w
            end
      else Some (Some work, w)
  end.

Definition namei (path : list Z) (flags : Z) w : option (option Z * world B) :=
  len ← strlen path;
  if len <=? 0 then Some (None, w)
  else
    c ← array_get path 0;
    let abs := c =? 47 in
    work ← (if abs then root w else pwd w);
    namei_loop (S (Z.to_nat len)) path (if abs then 1 else 0) len flags work w.

(** The loop of [my_name] from [i] down. *)
Fixpoint my_name_loop (n : nat) (pathname : list Z) : option (list Z) :=
  match n with
  | O => Some pathname
  | S i => c ← pathname !! i; if c =? 47 then Some (drop (S i) pathname) else my_name_loop i pathname
  end.

(** The rest of the string, a trailing slash included. *)
Definition my_name (pathname : list Z) : option (list Z) :=
  len ← strlen pathname;
  if len =? 0 then Some pathname
  else
    c ← array_get pathname (len - 1);
    let end_ := if c =? 47 then len - 2 else len - 1 in
    my_name_loop (Z.to_nat (end_ + 1)) pathname.

(** ** Tables *)

Fixpoint alloc_entry_loop (n : nat) (iCnt : Z) (inode : Z) (t : list (option Z)) : option (Z * list (option Z)) :=
  match n with
  | O => Some (-1, t)
  | S n =>
      x ← array_get t iCnt;
      match x with
      | None => t ← array_put iCnt (Some inode) t; Some (iCnt, t)
      | Some _ => alloc_entry_loop n (iCnt + 1) inode t
      end
  end.

Definition alloc_incore_entry (inode : Z) w : option (Z * world B) :=
  '(r, t) ← alloc_entry_loop (Z.to_nat INCORE_TABLE) 0 inode (itable w); Some (r, with_itable t w).

(** [kmem_cache_alloc(file_cache, 0)] *)
Definition take_file w : option Z * world B :=
  match fpool w with
  | [] => (None, w)
  | (f, x) :: rest => (Some f, with_files (<[f := x]> (files w)) rest w)
  end.

(** Descriptor, inode and place in the file table of the new file [f]. *)
Definition install_file (f : Z) (inode : option Z) w : option (Z * world B) :=
  let fd := first_free_filp w in
  t ← array_put fd (Some f) (filp w);
  let w := with_filp t (fd + 1) w in
  x ← files w !! f;
  let w := with_files (<[f := mk_file inode (f_count x) (f_flags x) (f_mode x) (f_pos x)]> (files w)) (fpool w) w in
  w ← on_ulinks (list_add_tail UFiles (UNFile f)) w;
  Some (fd, w).

Definition alloc_file_entry (incore_entry : Z) w : option (Z * world B) :=
  match take_file w with
  | (None, w) => Some (-1, w)
  | (Some f, w) => inode ← array_get (itable w) incore_entry; install_file f inode w
  end.

(** Every empty entry of the table gets the inode. *)
Fixpoint fill_table (n : nat) (iCnt : Z) (inode : Z) (t : list (option Z)) : option (list (option Z)) :=
  match n with
  | O => Some t
  | S n =>
      x ← array_get t iCnt;
      t ← (match x with None => array_put iCnt (Some inode) t | Some _ => Some t end);
      fill_table n (iCnt + 1) inode t
  end.

Definition allocate_file (inode : Z) w : option (Z * world B) :=
  if first_free_filp w =? NR_OPEN then Some (-1, w)
  else
    t ← fill_table (Z.to_nat INCORE_TABLE) 0 inode (itable w);
    match take_file (with_itable t w) with
    | (None, w) => Some (-1, w)
    | (Some f, w) => install_file f (Some inode) w
    end.
End Inodes.
