(* ===== verification/UfsFile.v ===== *)
(** * The early file system: mounting and files (fs/ufs/ufs.c)

    [init_fs], [mount_rootfs], the calls on open files and [test_fs], which
    runs them all.  [stack] is the memory in which [create_entry] builds its
    entry.  The user's buffer is a list of bytes that a read returns changed. *)

From S2P Require Import CString Serial.
From S2P Require Export UfsInode.

Section Files.
Context {B : Type} `{!BlockDev B}.
Implicit Types w : world B.

(** ** Set-up *)

(** [for (iCnt = 0; iCnt < INCORE_TABLE; iCnt++) itable.table[iCnt] = NULL] *)
Fixpoint clear_table (n : nat) (iCnt : Z) (t : list (option Z)) : option (list (option Z)) :=
  match n with
  | O => Some t
  | S n => t ← array_put iCnt None t; clear_table n (iCnt + 1) t
  end.

(** The superblock's buffer stays taken. *)
Definition read_super w : option (option Z * world B) :=
  '(r, s) ← u_bread 1 (fsys w);
  match r with
  | None => Some (None, with_fsys s w)
  | Some b => Some (Some b, with_fsys (mk_ufs (cache s) (Some b) (sb_bh s)) w)
  end.

(** [table]: the pointers that fit into the memory [kzalloc(INCORE_TABLE, 0)]
    gave, if it gave any. *)
Definition init_fs (table : option (list (option Z))) w : option (world B) :=
  '(ok, w) ← (match super (fsys w) with
    | Some _ => Some (true, w)
    | None => '(r, w) ← read_super w; Some (match r with Some _ => true | None => false end, w)
    end);
  if negb ok then Some w
  else
    match table with
    | None => Some w
    | Some t => t ← clear_table (Z.to_nat INCORE_TABLE) 0 t; on_ulinks (INIT_LIST_HEAD UFiles) (with_itable t w)
    end.

(** The listing reads the entries of the first [file_size] bytes. *)
Fixpoint list_root (n : nat) (iCnt file_size : Z) (data : list Z) : option unit :=
  match n with
  | O => Some tt
  | S n =>
      if iCnt <? file_size then
        _ ← load iCnt (Z.to_nat DIR_ENTRY_BYTES) data;
        _ ← strlen (drop (Z.to_nat iCnt + 4) data);
        list_root n (iCnt + DIR_ENTRY_BYTES) file_size data
      else Some tt
  end.

(** The inner [None]: the function ends without a value. *)
Definition mount_rootfs w : option (option Z * world B) :=
  '(r, w) ← iget DEV_NO 1 w;
  match r with
  | None => Some (Some (-1), w)
  | Some a =>
      w ← iread a w;
      img ← img_of a w;
      f ← ui_blocks 0;
      '(r, s) ← u_bread (get f img) (fsys w);
      let w := with_fsys s w in
      match r with
      | None => Some (Some (-1), w)
      | Some b =>
          '(_, w) ← alloc_incore_entry a w;
          let w := with_dirs (Some a) (Some a) w in
          data ← data_of b (fsys w);
          let file_size := get ui_size img in
          _ ← list_root (S (Z.to_nat (file_size `div` DIR_ENTRY_BYTES))) 0 file_size data;
          w ← iput a w;
          s ← u_brelse b (fsys w);
          Some (None, with_fsys s w)
      end
  end.

(** ** Opening *)

(** The block of [pinode] for a new entry: a new one, or the last, which is not
    read from the disk.  The inner [None]: no block is left. *)
Definition entry_block (pinode : Z) w : option (option Z * world B) :=
  img ← img_of pinode w;
  let curr_blk := get ui_size img `div` U_BLK_SIZE in
  if get ui_size img `mod` U_BLK_SIZE =? 0 then
    '(r, s) ← balloc (fsys w);
    let w := with_fsys s w in
    match r with
    | None => Some (None, w)
    | Some b =>
        bh ← bufs (cache s) !! b;
        f ← ui_blocks curr_blk;
        w ← upd_inode pinode (on_img (put f (b_blocknr bh))) w;
        Some (Some b, w)
    end
  else
    f ← ui_blocks curr_blk;
    '(b, s) ← u_getblk (get f img) (fsys w);
    Some (Some b, with_fsys s w).

(** The first block of a new directory; [false]: no block is left. *)
Definition new_dir (stack : list Z) (inode pinode : Z) w : option (bool * world B) :=
  '(r, s) ← balloc (fsys w);
  match r with
  | None => Some (false, with_fsys s w)
  | Some ibh =>
      img ← img_of inode w;
      pimg ← img_of pinode w;
      s ← create_entry stack (str "." ++ [0]) ibh 0 (get ui_no img) s;
      s ← create_entry stack (str ".." ++ [0]) ibh DIR_ENTRY_BYTES (get ui_no pimg) s;
      w ← upd_inode inode (fun i => dirty_inode (on_img (fun img => put ui_size (get ui_size img + 2 * DIR_ENTRY_BYTES) img) i)) (with_fsys s w);
      s ← u_bwrite ibh (fsys w);
      Some (true, with_fsys s w)
  end.

(** The [O_CREAT] part up to the label [relse]: [bFlag], [inode] and [bh]. *)
Definition open_create (stack pathname : list Z) (flags pinode : Z) w : option (bool * option Z * option Z * world B) :=
  entry_name ← my_name pathname;
  n ← strlen entry_name;
  img ← img_of pinode w;
  '(ino, s) ← search_dir img entry_name n (fsys w);
  let w := with_fsys s w in
  if negb (s32 ino =? -1) then
    if has_flag flags O_DIR then Some (false, None, None, w)
    else
      '(r, w) ← iget DEV_NO ino w;
      match r with
      | None => Some (false, None, None, w)
      | Some a => Some (true, Some a, None, w)
      end
  else
    '(r, w) ← ialloc DEV_NO w;
    match r with
    | None => Some (false, None, None, w)
    | Some inode =>
        '(r, w) ← entry_block pinode w;
        match r with
        | None => Some (false, Some inode, None, w)
        | Some bh =>
            img ← img_of pinode w;
            nimg ← img_of inode w;
            s ← create_entry stack entry_name bh (get ui_size img `mod` U_BLK_SIZE) (get ui_no nimg) (fsys w);
            s ← u_bwrite bh s;
            let w := with_fsys s w in
            '(ok, w) ← (if has_flag flags O_DIR then new_dir stack inode pinode w else Some (true, w));
            if negb ok then Some (false, Some inode, Some bh, w)
            else
              w ← upd_inode pinode (fun i => dirty_inode (on_img (fun img => put ui_size (get ui_size img + DIR_ENTRY_BYTES) img) i)) w;
              Some (true, Some inode, Some bh, w)
        end
    end.

(** From [allocate_file] on. *)
Definition open_end (inode : Z) w : option (Z * world B) :=
  '(fd, w) ← allocate_file inode w;
  w ← upd_inode inode unlocked_inode w;
  Some (fd, w).

Definition sys_open (stack pathname : list Z) (flags : Z) w : option (Z * world B) :=
  '(r, w) ← namei pathname N_PARENT w;
  match r with
  | None => Some (-1, w)
  | Some pinode =>
      if has_flag flags O_CREAT then
        '(bFlag, inode, bh, w) ← open_create stack pathname flags pinode w;
        w ← iput pinode w;
        s ← (match bh with Some bh => u_brelse bh (fsys w) | None => Some (fsys w) end);
        let w := with_fsys s w in
        if negb bFlag then Some (-1, w)
        else inode ← inode; open_end inode w
      else
        '(r, w) ← namei pathname 0 w;
        match r with
        | None => w ← iput pinode w; Some (-1, w)
        | Some inode => w ← upd_inode inode (set_parent (Some pinode)) w; open_end inode w
        end
  end.

Definition mkdir (stack pathname : list Z) w : option (Z * world B) :=
  '(fd, w) ← sys_open stack pathname (Z.lor O_CREAT O_DIR) w;
  Some (if fd =? -1 then -1 else fd, w).

Definition sys_close (fd : Z) w : option (Z * world B) :=
  f ← array_get (filp w) fd;
  match f with
  | None => Some (-1, w)
  | Some f => x ← files w !! f; a ← f_inode x; w ← iput a w; Some (0, w)
  end.

(** ** Reading and writing *)

(** How far a round goes: [blk_end] and [inc]. *)
Definition round_end (cur end_ : Z) : Z * Z :=
  let stop := (bmap cur + 1) * U_BLK_SIZE in
  if stop <=? u32 (cur + u32 (end_ - cur)) then (U_BLK_SIZE, u32 (stop - cur))
  else (end_ `mod` U_BLK_SIZE, end_ `mod` U_BLK_SIZE - cur `mod` U_BLK_SIZE).

(** [fuel] rounds; a round ends the block or the request.  The inner [None]: a
    block cannot be read. *)
Fixpoint read_loop (fuel : nat) (img : list Z) (cur end_ u_off : Z) (pu : list Z) (s : ufs B) : option (option (Z * Z) * list Z * ufs B) :=
  match fuel with
  | O => None
  | S fuel =>
      if cur <? end_ then
        f ← ui_blocks (bmap cur);
        '(r, s) ← u_bread (get f img) s;
        match r with
        | None => Some (None, pu, s)
        | Some b =>
            let blk_off := cur `mod` U_BLK_SIZE in
            let '(blk_end, inc) := round_end cur end_ in
            data ← data_of b s;
            part ← load blk_off (Z.to_nat (blk_end - blk_off)) data;
            pu ← store u_off part pu;
            s ← u_brelse b s;
            read_loop fuel img (cur + inc) end_ (u_off + inc) pu s
        end
      else Some (Some (cur, u_off), pu, s)
  end.

(** The rounds a request from [cur] to [end_] can take, and one more. *)
Definition rounds (cur end_ : Z) : nat := Z.to_nat (end_ `div` U_BLK_SIZE - cur `div` U_BLK_SIZE + 2).

(** When a block cannot be read the inode stays marked. *)
Definition sys_read (fd : Z) (usr_buf : list Z) (len : Z) w : option (Z * list Z * world B) :=
  f ← array_get (filp w) fd;
  match f with
  | None => Some (-1, usr_buf, w)
  | Some f =>
      x ← files w !! f;
      let cur := f_pos x in
      a ← f_inode x;
      i ← inodes w !! a;
      if has_flag (i_state i) I_LOCKED then Some (-1, usr_buf, w)
      else
        w ← upd_inode a locked_inode w;
        img ← img_of a w;
        let len := if get ui_size img <? u32 (cur + len) then u32 (get ui_size img - cur) else len in
        let end_ := u32 (cur + len) in
        '(r, pu, s) ← read_loop (rounds cur end_) img cur end_ 0 usr_buf (fsys w);
        let w := with_fsys s w in
        match r with
        | None => Some (-1, pu, w)
        | Some (cur, u_off) =>
            let w := with_files (<[f := set_pos cur x]> (files w)) (fpool w) w in
            w ← upd_inode a unlocked_inode w;
            Some (u_off, pu, w)
        end
  end.

(** The block a round writes: a new one at the start of a block, else the one
    there is.  The inner [None]: there is none. *)
Definition write_block (a cur : Z) w : option (option Z * world B) :=
  if cur `mod` U_BLK_SIZE =? 0 then
    '(r, s) ← balloc (fsys w);
    let w := with_fsys s w in
    match r with
    | None => Some (None, w)
    | Some b =>
        bh ← bufs (cache s) !! b;
        f ← ui_blocks (bmap cur);
        w ← upd_inode a (on_img (put f (b_blocknr bh))) w;
        Some (Some b, w)
    end
  else
    img ← img_of a w;
    f ← ui_blocks (bmap cur);
    '(r, s) ← u_bread (get f img) (fsys w);
    Some (r, with_fsys s w).

Fixpoint write_loop (fuel : nat) (a cur end_ u_off : Z) (pu : list Z) w : option (option (Z * Z) * world B) :=
  match fuel with
  | O => None
  | S fuel =>
      if cur <? end_ then
        '(r, w) ← write_block a cur w;
        match r with
        | None => Some (None, w)
        | Some b =>
            let blk_off := cur `mod` U_BLK_SIZE in
            let '(blk_end, inc) := round_end cur end_ in
            part ← load u_off (Z.to_nat (blk_end - blk_off)) pu;
            data ← data_of b (fsys w);
            data ← store blk_off part data;
            s ← set_data_of b data (fsys w);
            s ← u_bwrite b s;
            write_loop fuel a (cur + inc) end_ (u_off + inc) pu (with_fsys s w)
        end
      else Some (Some (cur, u_off), w)
  end.

Definition sys_write (fd : Z) (usr_buf : list Z) (len : Z) w : option (Z * world B) :=
  f ← array_get (filp w) fd;
  match f with
  | None => Some (-1, w)
  | Some f =>
      x ← files w !! f;
      let cur := f_pos x in
      a ← f_inode x;
      i ← inodes w !! a;
      if has_flag (i_state i) I_LOCKED then Some (-1, w)
      else
        w ← upd_inode a locked_inode w;
        let end_ := u32 (cur + len) in
        '(r, w) ← write_loop (rounds cur end_) a cur end_ 0 usr_buf w;
        match r with
        | None => Some (-1, w)
        | Some (cur, u_off) =>
            let w := with_files (<[f := set_pos cur x]> (files w)) (fpool w) w in
            w ← upd_inode a (fun i => dirty_inode (on_img (fun img => put ui_size (get ui_size img + u_off) img) i)) w;
            w ← upd_inode a unlocked_inode w;
            Some (u_off, w)
        end
  end.

(** ** [test_fs] *)

Definition test_str : list Z := str "Hello, UFS World!" ++ [0].
Definition nested_msg : list Z := str "RootFS is Persistent" ++ [0].

(** A string is written to a new file, which is then closed. *)
Definition write_string (stack pathname text : list Z) w : option (world B) :=
  '(fd, w) ← sys_open stack pathname (Z.lor O_CREAT O_WRONLY) w;
  if fd <? 0 then Some w
  else
    n ← strlen text;
    '(_, w) ← sys_write fd text n w;
    '(_, w) ← sys_close fd w;
    Some w.

(** A file is read into the 128 bytes of [buffer], cleared before. *)
Definition read_string (stack pathname : list Z) w : option (world B) :=
  '(fd, w) ← sys_open stack pathname O_RDONLY w;
  if fd <? 0 then Some w
  else
    '(_, _, w) ← sys_read fd (replicate 128 0) 128 w;
    '(_, w) ← sys_close fd w;
    Some w.

Definition test_fs (stack : list Z) w : option (world B) :=
  '(ok, w) ← (match super (fsys w) with
    | Some _ => Some (true, w)
    | None =>
        '(r, w) ← read_super w;
        match r with
        | None => Some (false, w)
        | Some b => Some (true, with_fsys (mk_ufs (cache (fsys w)) (Some b) (Some b)) w)
        end
    end);
  if negb ok then Some w
  else
    w ← write_string stack (str "/test.txt" ++ [0]) test_str w;
    w ← read_string stack (str "/test.txt" ++ [0]) w;
    '(_, w) ← mkdir stack (str "/data" ++ [0]) w;
    w ← write_string stack (str "/data/nested_log.txt" ++ [0]) nested_msg w;
    read_string stack (str "/data/nested_log.txt" ++ [0]) w.
End Files.
