(* ===== verification/UfsData.v ===== *)
(** * The early file system: contents of files and inodes

    What is written to a file or an inode is what is read back. *)

From S2P Require Import CString.
From S2P Require Export UfsMake UfsFile.

#[local] Ltac Zify.zify_post_hook ::= Z.to_euclidean_division_equations.

Section Data.
Context {B : Type} `{!BlockDev B}.
Implicit Types s : ufs B.
Implicit Types w : world B.

(** The superblock is in buffer [b], the inodes start at block [st], [k]
    buffers are free beside one, and the blocks [l] will be handed out. *)
Definition ready (k : nat) (b st : Z) s (l : list Z) : Prop :=
  exists D img n, mounted (S k) [] D s b img /\ (forall y, D y -> y = b) /\ list_ready img n /\
    chain (cache s) (stack_upto img n) l /\ NoDup l /\ Forall (fun m => 0 <= m < 2 ^ 32 /\ bd_ok m /\ m ≠ 1) l /\
    get s_blk_dilb_start img = st.

Definition nothing (m : Z) : Prop := False.

Lemma no_kept n (c : buffer_cache B) : not_kept [] n c.
Proof. by intros x bx ?%not_elem_of_nil. Qed.

(** Steps that leave the superblock and the blocks to come alone. *)
Lemma ready_step k b st s s' l D img n N :
  mounted (S k) [] D s' b img -> (forall y, D y -> y = b) -> list_ready img n -> chain (cache s) (stack_upto img n) l -> NoDup l ->
  Forall (fun m => 0 <= m < 2 ^ 32 /\ bd_ok m /\ m ≠ 1) l -> get s_blk_dilb_start img = st -> step [] N s s' -> (forall m, m ∈ l -> ~ N m) ->
  ready k b st s' l.
Proof.
  intros M HD Hr Hch Hnd Hall Hst St HN. exists D, img, n. do 3 (split; [done|]). split; [|done].
  apply (chain_view (cache s)); [done|]. intros m data Hm Hh. rewrite Forall_forall in Hall. destruct (Hall m Hm) as (_ & Hok & _).
  apply (st_view _ _ _ _ St); [done|by apply HN|done].
Qed.

(** A new block is taken, filled and written. *)
Lemma ready_take k b st s x l data : ready k b st s (x :: l) -> length data = 1024%nat ->
  exists b0 s1 bh s2 s3, balloc s = Some (Some b0, s1) /\ bufs (cache s1) !! b0 = Some bh /\ b_blocknr bh = x /\ b_data bh = replicate 1024 0 /\
    set_data_of b0 data s1 = Some s2 /\ u_bwrite b0 s2 = Some s3 /\ ready k b st s3 l /\ holds (cache s3) x data /\
    step [] (fun m => m = 1 \/ m = x) s s3.
Proof.
  intros (D & img & n & M & HD & Hr & Hch & Hnd & Hall & Hst) Hlen.
  apply NoDup_cons in Hnd as [Hx Hnd]. apply Forall_cons in Hall as [(Hx0 & Hxo & Hx1) Hall].
  destruct (balloc_spec k [] D s b img n x l M) as (b0 & s1 & bh & img1 & n1 & E & Hb0 & M1 & Hr1 & Hch1 & St1 & Eb & Hbn & Hbd & _ & _ & Hoff).
  { intros y ?%HD. by left. }
  { done. }
  { done. }
  { split_and!; try done; [lia|apply no_kept]. }
  { rewrite Forall_forall in Hall |- *. intros y Hy. destruct (Hall y Hy) as (? & ? & ?). split_and!; try done. by intros ->. }
  apply not_elem_of_cons in Hb0 as [Hbb _].
  destruct (set_data_spec k [] _ s1 b img1 b0 bh data M1 Eb Hlen) as (s2 & E2 & M2 & Eb2 & _ & St2).
  destruct (u_bwrite_spec k [] _ s2 b img1 b0 _ M2 ltac:(apply not_elem_of_nil) Eb2) as (s3 & E3 & M3 & St3 & Hh3).
  cbn [set_data b_blocknr b_data] in St3, Hh3. rewrite Hbn in St3, Hh3.
  specialize (St2 [] ltac:(apply not_elem_of_nil)). rewrite Hbn in St2. pose proof (step_trans _ _ _ _ _ St2 St3) as St23.
  exists b0, s1, bh, s2, s3. do 6 (split; [done|]). split; [|split; [done|]].
  - eapply (ready_step k b st s1 s3 l D img1 n1); try done.
    + eapply mounted_weaken; [exact M3|intros y [[[?| ->]| ->] Hy]; done|]. intros y ->%HD. by left.
    + rewrite <- Hst. apply Hoff. unfold inode_part. fields.
    + intros m Hm ->. done.
  - eapply step_trans; [exact St1|]. eapply step_weaken; [exact St23|done|]. intros m ->. by right.
Qed.

(** A block is read and its buffer released, beside the buffers [xs]. *)
Lemma mounted_read k xs D s b img x data : mounted (S k) xs D s b img -> (forall y, D y -> y = b \/ y ∈ xs) ->
  0 <= x -> bd_ok x -> x ≠ 1 -> not_kept xs x (cache s) -> holds (cache s) x data ->
  exists b0 s1 bh s2, u_bread x s = Some (Some b0, s1) /\ bufs (cache s1) !! b0 = Some bh /\ b_data bh = data /\
    u_brelse b0 s1 = Some s2 /\ mounted (S k) xs D s2 b img /\ step xs nothing s s2.
Proof.
  intros M HD Hx Hok H1 Hnk Hd.
  destruct (u_bread_spec k xs D s b img x data M Hx Hok H1 Hnk Hd) as (b0 & s1 & bh & E & Hb0 & M1 & St1 & Eb & _ & Hbd).
  apply not_elem_of_cons in Hb0 as [Hbb Hb0].
  destruct (u_brelse_spec k xs D s1 b img b0 M1 Hb0) as (s2 & E2 & M2 & St2); [by intros [?|?]%HD|].
  exists b0, s1, bh, s2. do 5 (split; [done|]). eapply step_trans; [apply St1|apply St2].
Qed.

(** A block is read, changed and written. *)
Lemma mounted_change k xs D s b img x data data' : mounted (S k) xs D s b img -> (forall y, D y -> y = b \/ y ∈ xs) ->
  0 <= x -> bd_ok x -> x ≠ 1 -> not_kept xs x (cache s) -> holds (cache s) x data -> length data' = 1024%nat ->
  exists b0 s1 bh s2 s3, u_bread x s = Some (Some b0, s1) /\ bufs (cache s1) !! b0 = Some bh /\ b_data bh = data /\
    set_data_of b0 data' s1 = Some s2 /\ u_bwrite b0 s2 = Some s3 /\ mounted (S k) xs D s3 b img /\ holds (cache s3) x data' /\
    step xs (fun m => m = x) s s3.
Proof.
  intros M HD Hx Hok H1 Hnk Hd Hlen.
  destruct (u_bread_spec k xs D s b img x data M Hx Hok H1 Hnk Hd) as (b0 & s1 & bh & E & Hb0 & M1 & St1 & Eb & Hbn & Hbd).
  apply not_elem_of_cons in Hb0 as [Hbb Hb0].
  destruct (set_data_spec k xs D s1 b img b0 bh data' M1 Eb Hlen) as (s2 & E2 & M2 & Eb2 & _ & St2).
  destruct (u_bwrite_spec k xs _ s2 b img b0 _ M2 Hb0 Eb2) as (s3 & E3 & M3 & St3 & Hh3).
  cbn [set_data b_blocknr b_data] in St3, Hh3. rewrite Hbn in St3, Hh3. specialize (St2 xs Hb0). rewrite Hbn in St2.
  exists b0, s1, bh, s2, s3. do 5 (split; [done|]). split; [|split; [done|eapply step_trans; [apply St1|by eapply step_trans]]].
  eapply mounted_weaken; [exact M3|intros y [[?| ->] Hy]; done|done].
Qed.

Lemma ready_read k b st s l x data : ready k b st s l -> 0 <= x -> bd_ok x -> x ≠ 1 -> holds (cache s) x data ->
  exists b0 s1 bh s2, u_bread x s = Some (Some b0, s1) /\ bufs (cache s1) !! b0 = Some bh /\ b_data bh = data /\
    u_brelse b0 s1 = Some s2 /\ ready k b st s2 l /\ step [] nothing s s2.
Proof.
  intros (D & img & n & M & HD & Hr & Hch & Hnd & Hall & Hst) Hx Hok H1 Hd.
  destruct (mounted_read k [] D s b img x data M) as (b0 & s1 & bh & s2 & E & Eb & Hbd & E2 & M2 & St); try done; [intros y ->%HD; by left|apply no_kept|].
  exists b0, s1, bh, s2. do 4 (split; [done|]). split; [|done]. eapply (ready_step k b st s s2 l D img n nothing); try done. by intros m _ [].
Qed.

(** ** Inodes on disk *)

(** The block of inode [i] can be used and is not free. *)
Definition inode_block (st : Z) (l : list Z) (i : Z) : Prop :=
  0 <= i /\ 0 <= i `div` 8 + st < 2 ^ 32 /\ bd_ok (i `div` 8 + st) /\ i `div` 8 + st ≠ 1 /\ i `div` 8 + st ∉ l.

(** Inode [i] of the disk, without reading it. *)
Definition disk_inode (st i : Z) s (img : list Z) : Prop :=
  exists data, holds (cache s) (i `div` 8 + st) data /\ length data = 1024%nat /\ img = slice (128 * Z.to_nat (i `mod` 8)) 128 data.

Lemma load_inode i data : 0 <= i -> length data = 1024%nat -> load (128 * (i `mod` 8)) 128 data = Some (slice (128 * Z.to_nat (i `mod` 8)) 128 data).
Proof.
  intros Hi Hl. unfold load. rewrite Hl. rewrite (proj2 (Z.leb_le _ _)), (proj2 (Z.leb_le _ _)) by lia. cbn [andb]. do 2 f_equal. lia.
Qed.

Lemma store_inode i img data : 0 <= i -> length data = 1024%nat -> length img = 128%nat ->
  store (128 * (i `mod` 8)) img data = Some (splice (128 * Z.to_nat (i `mod` 8)) img data).
Proof.
  intros Hi Hl Hm. unfold store. rewrite Hl, Hm. rewrite (proj2 (Z.leb_le _ _)), (proj2 (Z.leb_le _ _)) by lia. cbn [andb]. do 2 f_equal. lia.
Qed.

Lemma disk_inode_step st i xs N s s' img : step xs N s s' -> bd_ok (i `div` 8 + st) -> ~ N (i `div` 8 + st) -> disk_inode st i s img -> disk_inode st i s' img.
Proof. intros St Hok HN (data & Hd & H). exists data. split; [|done]. by apply (st_view _ _ _ _ St). Qed.

Lemma read_inode_mounted k xs D s b img i inode : mounted (S k) xs D s b img -> (forall y, D y -> y = b \/ y ∈ xs) ->
  let st := get s_blk_dilb_start img in
  inode_block st [] i -> not_kept xs (i `div` 8 + st) (cache s) -> disk_inode st i s inode ->
  exists s', read_inode i s = Some (inode, s') /\ mounted (S k) xs D s' b img /\ step xs nothing s s'.
Proof.
  intros M HD st (Hi & Hr & Hok & H1 & _) Hnk (data & Hd & Hl & ->). unfold read_inode, get_dinode. sb_read. fold st.
  change INODES_PER_BLOCK with 8. rewrite u32_small by lia.
  destruct (mounted_read k xs D s b img (i `div` 8 + st) data M HD) as (b0 & s1 & bh & s2 & -> & Eb & Hbd & E2 & M2 & St); [lia|done..|].
  cbn [mbind option_bind]. unfold data_of. rewrite Eb. cbn [mbind option_bind]. rewrite Hbd, load_inode by done. cbn [mbind option_bind].
  rewrite E2. by exists s2.
Qed.

(** Two inodes at the same place of the same block are the same. *)
Lemma inode_place i j : 0 <= i -> 0 <= j -> i `div` 8 = j `div` 8 -> i `mod` 8 = j `mod` 8 -> i = j.
Proof. lia. Qed.

Lemma write_inode_mounted k xs D s b img inode old : mounted (S k) xs D s b img -> (forall y, D y -> y = b \/ y ∈ xs) ->
  let st := get s_blk_dilb_start img in let i := get ui_no inode in
  length inode = 128%nat -> inode_block st [] i -> not_kept xs (i `div` 8 + st) (cache s) -> disk_inode st i s old ->
  exists s', write_inode inode s = Some s' /\ mounted (S k) xs D s' b img /\ disk_inode st i s' inode /\
    (forall j other, 0 <= j -> bd_ok (j `div` 8 + st) -> j ≠ i -> disk_inode st j s other -> disk_inode st j s' other) /\
    step xs (fun m => m = i `div` 8 + st) s s'.
Proof.
  intros M HD st i Hl (Hi & Hr & Hok & H1 & _) Hnk (data & Hd & Hld & _). unfold write_inode. sb_read. fold st. fold i.
  change INODES_PER_BLOCK with 8. rewrite u32_small by lia. set (data' := splice (128 * Z.to_nat (i `mod` 8)) inode data).
  assert (length data' = 1024%nat) as Hl' by (unfold data'; rewrite length_splice; lia).
  destruct (mounted_change k xs D s b img (i `div` 8 + st) data data' M HD) as (b0 & s1 & bh & s2 & s3 & -> & Eb & Hbd & E2 & E3 & M3 & Hh & St); [lia|done..|].
  cbn [mbind option_bind]. unfold data_of. rewrite Eb. cbn [mbind option_bind]. rewrite Hbd, store_inode by done. cbn [mbind option_bind].
  fold data'. rewrite E2. cbn [mbind option_bind]. rewrite E3. exists s3. do 2 (split; [done|]). split; [|split; [|done]].
  - exists data'. do 2 (split; [done|]). unfold data'. symmetry. generalize (slice_splice_eq (128 * Z.to_nat (i `mod` 8)) inode data). rewrite Hl. intros ->; [done|lia].
  - intros j other Hj0 Hj Hji Hdj. destruct (decide (j `div` 8 = i `div` 8)) as [E|E].
    + destruct Hdj as (dj & Hdj & Hlj & ->). assert (dj = data) as ->.
      { destruct M as (_ & _ & K & _). eapply (kept_holds_unique _ _ _ _ _ _ _ K); [|exact Hd]. by rewrite <- E. }
      exists data'. rewrite E. do 2 (split; [done|]). unfold data'. symmetry. apply slice_splice_ne; rewrite Hl; [lia|].
      assert (j `mod` 8 ≠ i `mod` 8) by (intros ?; by apply Hji, inode_place). lia.
    + apply (disk_inode_step _ _ _ _ _ _ _ St); [done|lia|done].
Qed.

Lemma inode_block_nil st l i : inode_block st l i -> inode_block st [] i.
Proof. intros (? & ? & ? & ? & _). split_and!; try done; [lia..|apply not_elem_of_nil]. Qed.

Lemma u_read_inode_spec k b st s l i img : ready k b st s l -> inode_block st l i -> disk_inode st i s img ->
  exists s', read_inode i s = Some (img, s') /\ ready k b st s' l /\ step [] nothing s s'.
Proof.
  intros (D & sb & n & M & HD & Hr & Hch & Hnd & Hall & <-) Hi Hd.
  destruct (read_inode_mounted k [] D s b sb i img M) as (s' & E & M' & St); [intros y ->%HD; by left|by eapply inode_block_nil|apply no_kept|done|].
  exists s'. split; [done|]. split; [|done]. eapply (ready_step k b _ s s' l D sb n nothing); try done. by intros m _ [].
Qed.

Lemma u_write_inode_spec k b st s l img old : ready k b st s l -> length img = 128%nat -> inode_block st l (get ui_no img) ->
  disk_inode st (get ui_no img) s old ->
  exists s', write_inode img s = Some s' /\ ready k b st s' l /\ disk_inode st (get ui_no img) s' img /\
    (forall j other, inode_block st l j -> j ≠ get ui_no img -> disk_inode st j s other -> disk_inode st j s' other) /\
    step [] (fun m => m = get ui_no img `div` 8 + st) s s'.
Proof.
  intros (D & sb & n & M & HD & Hr & Hch & Hnd & Hall & <-) Hl Hi Hd.
  destruct (write_inode_mounted k [] D s b sb img old M) as (s' & E & M' & D' & Ho & St); [intros y ->%HD; by left|done|by eapply inode_block_nil|apply no_kept|done|].
  exists s'. split; [done|]. split; [|split; [done|split; [|done]]].
  - eapply (ready_step k b _ s s' l D sb n); try done. intros m Hm ->. by apply Hi.
  - intros j other (? & _ & ? & _). by apply Ho.
Qed.

(** ** Files *)

(** [i_blocks[j]] *)
Definition ub (j : Z) : field := Field (40 + 4 * Z.to_nat j) 4.

Lemma ui_blocks_at j : 0 <= j < 15 -> ui_blocks j = Some (ub j).
Proof. revert j. check_range 0 15 ltac:(reflexivity). Qed.

(** Block [j] of a file with contents [d]. *)
Definition chunk (d : list Z) (j : Z) : list Z :=
  let p := slice (1024 * Z.to_nat j) 1024 d in p ++ replicate (1024 - length p) 0.

Lemma chunk_length d j : length (chunk d j) = 1024%nat.
Proof. unfold chunk, slice. rewrite length_app, length_replicate, length_take. lia. Qed.

Lemma part_eq (pu : list Z) cur n c : (cur <= n)%nat -> c = (1024 `min` (n - cur))%nat ->
  slice cur c pu = slice cur 1024 (take n pu).
Proof.
  intros Hc ->. unfold slice. rewrite !take_drop_commute, !take_take. f_equal. f_equal. lia.
Qed.

Lemma chunk_store (pu : list Z) j n c : 0 <= j -> 1024 * j < n -> n <= Z.of_nat (length pu) -> c = Z.min 1024 (n - 1024 * j) ->
  load (1024 * j) (Z.to_nat c) pu = Some (slice (1024 * Z.to_nat j) (Z.to_nat c) pu) /\
  store 0 (slice (1024 * Z.to_nat j) (Z.to_nat c) pu) (replicate 1024 0) = Some (chunk (take (Z.to_nat n) pu) j).
Proof.
  intros Hj Hn Hl Hc. assert (length (slice (1024 * Z.to_nat j) (Z.to_nat c) pu) = Z.to_nat c) as Hlen.
  { unfold slice. rewrite length_take, length_drop. lia. }
  split.
  - unfold load. rewrite (proj2 (Z.leb_le _ _)), (proj2 (Z.leb_le _ _)) by lia. cbn [andb]. do 2 f_equal. lia.
  - unfold store. rewrite Hlen, length_replicate, (proj2 (Z.leb_le _ _)), (proj2 (Z.leb_le _ _)) by lia. cbn [andb]. f_equal.
    unfold chunk. rewrite <- (part_eq pu _ (Z.to_nat n) (Z.to_nat c)) by lia. unfold splice. rewrite Hlen, drop_replicate.
    change (Z.to_nat 0) with 0%nat. cbn [take app]. f_equal.
Qed.

Lemma round_end_aligned j n : 0 <= j < 2 ^ 20 -> 1024 * j < n -> n < 2 ^ 30 ->
  round_end (1024 * j) n = (Z.min 1024 (n - 1024 * j), Z.min 1024 (n - 1024 * j)).
Proof.
  intros Hj Hn Hb. unfold round_end, bmap. change U_BLK_SIZE with 1024. replace ((1024 * j) `div` 1024) with j by lia.
  rewrite s32_small by lia. rewrite (u32_small (n - 1024 * j)), (u32_small (1024 * j + _)) by lia.
  destruct (Z.leb_spec ((j + 1) * 1024) (1024 * j + (n - 1024 * j))).
  - rewrite u32_small by lia. f_equal; lia.
  - f_equal; lia.
Qed.

Lemma bmap_aligned j : 0 <= j < 2 ^ 20 -> bmap (1024 * j) = j.
Proof. intros Hj. unfold bmap. change U_BLK_SIZE with 1024. rewrite s32_small; lia. Qed.

(** The part of an image outside [i_blocks]. *)
Definition off_blocks (f : field) : Prop := (f_off f + f_len f <= 40 \/ 100 <= f_off f)%nat.

(** A new block for the start of block [j] of the file. *)
Lemma write_block_new k b st a w i x l j data :
  ready k b st (fsys w) (x :: l) -> inodes w !! a = Some i -> 0 <= j < 15 -> length data = 1024%nat ->
  exists b0 s1 bh s2 s3, write_block a (1024 * j) w = Some (Some b0, with_inodes (<[a := on_img (put (ub j) x) i]> (inodes w)) (with_fsys s1 w)) /\
    bufs (cache s1) !! b0 = Some bh /\ b_data bh = replicate 1024 0 /\
    set_data_of b0 data s1 = Some s2 /\ u_bwrite b0 s2 = Some s3 /\ ready k b st s3 l /\ holds (cache s3) x data /\
    step [] (fun m => m = 1 \/ m = x) (fsys w) s3.
Proof.
  intros R Ei Hj Hl. destruct (ready_take k b st (fsys w) x l data R Hl) as (b0 & s1 & bh & s2 & s3 & E & Eb & Hbn & Hbd & E2 & E3 & R3 & Hh & St).
  exists b0, s1, bh, s2, s3. split; [|done]. unfold write_block. change U_BLK_SIZE with 1024.
  destruct (Z.eqb_spec ((1024 * j) `mod` 1024) 0); [|lia]. rewrite E. cbn [mbind option_bind]. rewrite Eb. cbn [mbind option_bind].
  rewrite bmap_aligned, ui_blocks_at by lia. cbn [mbind option_bind]. unfold upd_inode. cbn [inodes with_fsys]. rewrite Ei. cbn [mbind option_bind].
  by rewrite Hbn.
Qed.

(** What writing has done to the file's inode and blocks. *)
Record written (pu : list Z) (n j : Z) (xs : list Z) (img img' : list Z) s' : Prop := {
  wr_length : length img' = 128%nat;
  wr_block (m : nat) x : xs !! m = Some x -> get (ub (j + Z.of_nat m)) img' = x /\ holds (cache s') x (chunk (take (Z.to_nat n) pu) (j + Z.of_nat m));
  wr_other f : off_blocks f -> get f img' = get f img;
  wr_before t : 0 <= t < j -> get (ub t) img' = get (ub t) img
}.

Lemma world_same w a i : inodes w !! a = Some i -> with_fsys (fsys w) (with_inodes (<[a := set_img (i_img i) i]> (inodes w)) w) = w.
Proof. intros Ei. destruct w, i. unfold with_fsys, with_inodes, set_img. cbn in *. by rewrite insert_id. Qed.

Lemma u_write_loop_spec k b st a pu n fuel : forall j xs l w i,
  ready k b st (fsys w) (xs ++ l) -> inodes w !! a = Some i -> length (i_img i) = 128%nat ->
  0 <= j -> 0 <= n <= 15 * 1024 -> n <= Z.of_nat (length pu) ->
  Z.of_nat (length xs) = (n - Z.min (1024 * j) n + 1023) `div` 1024 -> (length xs < fuel)%nat ->
  exists s' img', write_loop fuel a (Z.min (1024 * j) n) n (Z.min (1024 * j) n) pu w =
      Some (Some (n, n), with_fsys s' (with_inodes (<[a := set_img img' i]> (inodes w)) w)) /\
    ready k b st s' l /\ written pu n j xs (i_img i) img' s' /\ step [] (fun m => m = 1 \/ m ∈ xs) (fsys w) s'.
Proof.
  induction fuel as [|fuel IH]; intros j xs l w i R Ei Hli Hj Hn Hpu Hxs Hf; [lia|]. cbn [write_loop].
  destruct (Z.ltb_spec (Z.min (1024 * j) n) n) as [Hlt|Hge].
  2:{ destruct xs as [|x xs]; [|cbn [length] in Hxs; lia]. exists (fsys w), (i_img i). rewrite world_same by done.
      replace (Z.min (1024 * j) n) with n by lia. split; [done|]. split; [done|]. split; [|apply step_refl]. by constructor. }
  rewrite Z.min_l in Hxs |- * by lia. destruct xs as [|x xs]; [cbn [length] in Hxs; lia|]. cbn [length app] in *.
  set (d := chunk (take (Z.to_nat n) pu) j).
  destruct (write_block_new k b st a w i x (xs ++ l) j d R Ei) as (b0 & s1 & bh & s2 & s3 & -> & Eb & Hbd & E2 & E3 & R3 & Hh & St);
    [lia|apply chunk_length|].
  cbn [mbind option_bind]. rewrite round_end_aligned by lia. change U_BLK_SIZE with 1024. replace ((1024 * j) `mod` 1024) with 0 by lia.
  rewrite Z.sub_0_r. destruct (chunk_store pu j n (Z.min 1024 (n - 1024 * j))) as [-> Est]; [lia..|]. cbn [mbind option_bind].
  unfold data_of. cbn [fsys with_inodes with_fsys]. rewrite Eb. cbn [mbind option_bind]. rewrite Hbd, Est. cbn [mbind option_bind].
  fold d. rewrite E2. cbn [mbind option_bind]. rewrite E3. cbn [mbind option_bind].
  replace (1024 * j + Z.min 1024 (n - 1024 * j)) with (Z.min (1024 * (j + 1)) n) by lia.
  set (w1 := with_fsys s3 _). set (i1 := on_img (put (ub j) x) i).
  assert (length (i_img i1) = 128%nat) as Hl1 by (unfold i1; cbn [on_img set_img i_img]; rewrite put_length; [done|rewrite Hli; unfold inside, ub; cbn [f_off f_len]; lia]).
  destruct (IH (j + 1) xs l w1 i1) as (s' & img' & E & R' & [W1 W2 W3 W4] & St'); try done; [cbn [inodes w1 with_fsys with_inodes]; apply lookup_insert_eq|lia..|].
  exists s', img'. rewrite E. split; [|split; [done|split]].
  - cbn [inodes w1 with_fsys with_inodes]. by rewrite insert_insert_eq.
  - destruct R as (D & im & nn & _ & _ & _ & _ & Hnd & Hall & _). apply NoDup_cons in Hnd as [Hx Hnd]. apply Forall_cons in Hall as [(Hx0 & Hxo & Hx1) _].
    constructor; [done| | |].
    + intros [|m] y Hy; cbn in Hy.
      * injection Hy as <-. rewrite Z.add_0_r. rewrite W4 by lia. unfold i1. cbn [on_img set_img i_img]. split.
        -- rewrite get_put_eq by (rewrite Hli; unfold inside, ub; cbn [f_off f_len]; lia). cbn [ub f_len]. apply Z.mod_small. lia.
        -- apply (st_view _ _ _ _ St'); [done| |done]. intros [?|Hin]; [done|]. apply Hx, elem_of_app. by left.
      * replace (j + Z.of_nat (S m)) with (j + 1 + Z.of_nat m) by lia. by apply W2.
    + intros f Hoff. rewrite W3 by done. unfold i1. cbn [on_img set_img i_img]. apply get_put_ne; [rewrite Hli; unfold inside, ub; cbn [f_off f_len]; lia|].
      unfold off_blocks in Hoff. unfold apart, ub. cbn [f_off f_len]. lia.
    + intros t Ht. rewrite W4 by lia. unfold i1. cbn [on_img set_img i_img]. apply get_put_ne; [rewrite Hli|]; unfold inside, apart, ub; cbn [f_off f_len]; lia.
  - eapply step_trans; [eapply step_weaken; [exact St|done|]|eapply step_weaken; [exact St'|done|]]; cbv beta; intros m Hm; rewrite elem_of_cons; tauto.
Qed.

Lemma chunk_load d j c : 0 <= j -> 0 <= c -> c = Z.min 1024 (Z.of_nat (length d) - 1024 * j) ->
  load 0 (Z.to_nat c) (chunk d j) = Some (slice (1024 * Z.to_nat j) (Z.to_nat c) d).
Proof.
  intros Hj Hc0 Hc. unfold load. rewrite chunk_length, (proj2 (Z.leb_le _ _)), (proj2 (Z.leb_le _ _)) by lia. cbn [andb]. f_equal.
  unfold chunk, slice. rewrite Z2Nat.inj_0, drop_0, take_app_le by (rewrite length_take, length_drop; lia). rewrite take_take. f_equal. lia.
Qed.

Lemma store_progress (d buf : list Z) cur c : 0 <= cur -> 0 <= c -> cur + c <= Z.of_nat (length d) -> (length d <= length buf)%nat ->
  store cur (slice (Z.to_nat cur) (Z.to_nat c) d) (take (Z.to_nat cur) d ++ drop (Z.to_nat cur) buf) =
    Some (take (Z.to_nat (cur + c)) d ++ drop (Z.to_nat (cur + c)) buf).
Proof.
  intros H0 Hc Hl Hb. unfold store.
  assert (length (slice (Z.to_nat cur) (Z.to_nat c) d) = Z.to_nat c) as Hlen by (unfold slice; rewrite length_take, length_drop; lia).
  rewrite Hlen, length_app, length_take, length_drop, (proj2 (Z.leb_le _ _)), (proj2 (Z.leb_le _ _)) by lia. cbn [andb]. f_equal.
  unfold splice. rewrite Hlen, take_app_le, take_take, drop_app_ge by (rewrite length_take; lia). rewrite length_take, drop_drop, Nat.min_id.
  rewrite app_assoc. f_equal; [|f_equal; lia]. unfold slice. rewrite take_take_drop. f_equal. lia.
Qed.

(** The blocks of a file on disk hold [d]. *)
Definition file_holds s (img d : list Z) : Prop :=
  forall t, 0 <= t -> 1024 * t < Z.of_nat (length d) -> let x := get (ub t) img in
    0 <= x /\ bd_ok x /\ x ≠ 1 /\ holds (cache s) x (chunk d t).

Lemma u_read_loop_spec k b st l img d buf n fuel : forall j s,
  ready k b st s l -> 0 <= j -> n = Z.of_nat (length d) -> n <= 15 * 1024 -> (length d <= length buf)%nat -> file_holds s img d ->
  (Z.to_nat ((n - Z.min (1024 * j) n + 1023) `div` 1024) < fuel)%nat ->
  exists s', read_loop fuel img (Z.min (1024 * j) n) n (Z.min (1024 * j) n)
      (take (Z.to_nat (Z.min (1024 * j) n)) d ++ drop (Z.to_nat (Z.min (1024 * j) n)) buf) s =
      Some (Some (n, n), d ++ drop (length d) buf, s') /\ ready k b st s' l /\ step [] nothing s s'.
Proof.
  induction fuel as [|fuel IH]; intros j s R Hj Hn H15 Hb Hh Hf; [lia|]. cbn [read_loop].
  destruct (Z.ltb_spec (Z.min (1024 * j) n) n) as [Hlt|Hge].
  2:{ exists s. replace (Z.min (1024 * j) n) with n by lia. rewrite take_ge by lia. replace (Z.to_nat n) with (length d) by lia.
      split; [done|]. split; [done|apply step_refl]. }
  rewrite Z.min_l in Hf |- * by lia. rewrite bmap_aligned, ui_blocks_at by lia. cbn [mbind option_bind].
  destruct (Hh j) as (Hx0 & Hxo & Hx1 & Hxd); [lia..|].
  destruct (ready_read k b st s l (get (ub j) img) (chunk d j) R Hx0 Hxo Hx1 Hxd) as (b0 & s1 & bh & s2 & -> & Eb & Hbd & E2 & R2 & St).
  cbn [mbind option_bind]. rewrite round_end_aligned by lia. change U_BLK_SIZE with 1024. replace ((1024 * j) `mod` 1024) with 0 by lia.
  rewrite Z.sub_0_r. unfold data_of. rewrite Eb. cbn [mbind option_bind]. rewrite Hbd, chunk_load by lia. cbn [mbind option_bind].
  replace (1024 * Z.to_nat j)%nat with (Z.to_nat (1024 * j)) by lia. rewrite store_progress by lia. cbn [mbind option_bind]. rewrite E2.
  cbn [mbind option_bind]. replace (1024 * j + Z.min 1024 (n - 1024 * j)) with (Z.min (1024 * (j + 1)) n) by lia.
  destruct (IH (j + 1) s2) as (s' & E & R' & St'); [done|lia|done..| |lia|].
  { intros t Ht0 Ht. destruct (Hh t Ht0 Ht) as (? & ? & ? & Hd). split_and!; try done. apply (st_view _ _ _ _ St); [done|by intros []|done]. }
  exists s'. split; [exact E|]. split; [done|]. by eapply step_trans.
Qed.

Lemma upd_inode_some a g w i : inodes w !! a = Some i -> upd_inode a g w = Some (with_inodes (<[a := g i]> (inodes w)) w).
Proof. intros Ei. unfold upd_inode. by rewrite Ei. Qed.

(** Descriptor [fd] is open on inode [a] at position 0. *)
Definition opened (fd f a : Z) (x : file) w : Prop :=
  array_get (filp w) fd = Some (Some f) /\ files w !! f = Some x /\ f_pos x = 0 /\ f_inode x = Some a.

Lemma put_flags_length v img : length img = 128%nat -> length (put ui_flags v img) = 128%nat.
Proof. intros Hl. rewrite put_length; [done|rewrite Hl; fields]. Qed.

Lemma get_put_flags f v img : length img = 128%nat -> apart ui_flags f -> get f (put ui_flags v img) = get f img.
Proof. intros Hl Ha. apply get_put_ne; [rewrite Hl; fields|done]. Qed.

(** The state of the inode after [n] bytes were written to an empty file. *)
Definition write_done (n : Z) (i : inode) (img' : list Z) : inode :=
  unlocked_inode (dirty_inode (on_img (fun img => put ui_size (get ui_size img + n) img) (set_img img' (locked_inode i)))).

Lemma sys_write_spec k b st w fd f x a i xs l pu n :
  ready k b st (fsys w) (xs ++ l) -> opened fd f a x w -> inodes w !! a = Some i -> has_flag (i_state i) I_LOCKED = false ->
  length (i_img i) = 128%nat -> get ui_size (i_img i) = 0 -> 0 <= n <= 15 * 1024 -> n <= Z.of_nat (length pu) ->
  Z.of_nat (length xs) = (n + 1023) `div` 1024 ->
  exists s' img', sys_write fd pu n w = Some (n, with_inodes (<[a := write_done n i img']> (inodes w))
      (with_files (<[f := set_pos n x]> (files w)) (fpool w) (with_fsys s' w))) /\
    ready k b st s' l /\ written pu n 0 xs (i_img (locked_inode i)) img' s' /\ step [] (fun m => m = 1 \/ m ∈ xs) (fsys w) s'.
Proof.
  intros R (Efd & Ef & Hpos & Hfi) Ei Hlk Hl Hsz Hn Hpu Hxs. unfold sys_write. rewrite Efd. cbn [mbind option_bind]. rewrite Ef. cbn [mbind option_bind].
  rewrite Hfi. cbn [mbind option_bind]. rewrite Ei. cbn [mbind option_bind]. rewrite Hlk. rewrite (upd_inode_some a _ w i Ei). cbn [mbind option_bind].
  rewrite Hpos, Z.add_0_l, u32_small by lia. set (i0 := locked_inode i). set (w0 := with_inodes _ _).
  assert (length (i_img i0) = 128%nat) as Hl0 by (unfold i0, locked_inode; cbn [on_img set_img i_img]; by apply put_flags_length).
  assert (inodes w0 !! a = Some i0) as Ei0 by (cbn [w0 inodes with_inodes]; apply lookup_insert_eq).
  destruct (u_write_loop_spec k b st a pu n (rounds 0 n) 0 xs l w0 i0 R Ei0 Hl0) as (s' & img' & E & R' & W & St);
    [lia|lia|lia|replace (Z.min (1024 * 0) n) with 0 by lia; by rewrite Z.sub_0_r|unfold rounds, U_BLK_SIZE; lia|].
  replace (Z.min (1024 * 0) n) with 0 in E by lia. rewrite E. cbn [mbind option_bind]. exists s', img'. split; [|done].
  unfold upd_inode. cbn [inodes with_files with_fsys with_inodes w0]. rewrite lookup_insert_eq. cbn [mbind option_bind inodes with_files with_fsys with_inodes].
  rewrite lookup_insert_eq. cbn [mbind option_bind]. by rewrite !insert_insert_eq.
Qed.

Lemma sys_read_spec k b st w fd f x a i l d buf n :
  ready k b st (fsys w) l -> opened fd f a x w -> inodes w !! a = Some i -> has_flag (i_state i) I_LOCKED = false ->
  length (i_img i) = 128%nat -> get ui_size (i_img i) = Z.of_nat (length d) -> Z.of_nat (length d) <= 15 * 1024 -> (length d <= length buf)%nat ->
  Z.of_nat (length d) <= n < 2 ^ 32 -> file_holds (fsys w) (i_img i) d ->
  exists w', sys_read fd buf n w = Some (Z.of_nat (length d), d ++ drop (length d) buf, w') /\ ready k b st (fsys w') l /\
    step [] nothing (fsys w) (fsys w').
Proof.
  intros R (Efd & Ef & Hpos & Hfi) Ei Hlk Hl Hsz H15 Hb Hn Hh. unfold sys_read. rewrite Efd. cbn [mbind option_bind]. rewrite Ef. cbn [mbind option_bind].
  rewrite Hfi. cbn [mbind option_bind]. rewrite Ei. cbn [mbind option_bind]. rewrite Hlk. rewrite (upd_inode_some a _ w i Ei). cbn [mbind option_bind].
  unfold img_of. cbn [inodes with_inodes]. rewrite lookup_insert_eq. cbn [mbind option_bind].
  set (img := i_img (locked_inode i)). assert (forall g, apart ui_flags g -> get g img = get g (i_img i)) as Hg by (intros g; by apply get_put_flags).
  rewrite Hg, Hsz, Hpos, !Z.add_0_l, (u32_small n), Z.sub_0_r by first [lia|fields].
  replace (u32 (if Z.of_nat (length d) <? n then u32 (Z.of_nat (length d)) else n)) with (Z.of_nat (length d))
    by (destruct (Z.ltb_spec (Z.of_nat (length d)) n); rewrite ?(u32_small (Z.of_nat (length d))), ?(u32_small n) by lia; lia).
  destruct (u_read_loop_spec k b st l img d buf (Z.of_nat (length d)) (rounds 0 (Z.of_nat (length d))) 0 (fsys w) R) as (s' & E & R' & St);
    [lia|done|done|done| |unfold rounds, U_BLK_SIZE; lia|].
  { intros t Ht0 Ht. rewrite Hg by fields. by apply Hh. }
  replace (Z.min (1024 * 0) (Z.of_nat (length d))) with 0 in E by lia. rewrite Z2Nat.inj_0, take_0, drop_0 in E. cbn [app] in E.
  cbn [fsys with_inodes] in *. rewrite E. cbn [mbind option_bind]. unfold upd_inode. cbn [inodes with_files with_fsys with_inodes]. rewrite lookup_insert_eq.
  cbn [mbind option_bind]. eexists. split; [done|]. done.
Qed.

(** C14: what is written to a file is what is read back.  Writing [n] bytes, up to
    the 15 blocks of an inode, through a descriptor of an empty file takes as
    many blocks as they need and returns [n]; reading through another
    descriptor of the file then returns the same bytes and leaves the rest of the
    reader's buffer as it was. *)
Theorem ufs_write_read k b st w fd f x fd' f' x' a i xs l pu n buf m :
  ready k b st (fsys w) (xs ++ l) -> opened fd f a x w -> opened fd' f' a x' w -> f ≠ f' -> inodes w !! a = Some i ->
  has_flag (i_state i) I_LOCKED = false -> length (i_img i) = 128%nat -> get ui_size (i_img i) = 0 -> 0 <= n <= 15 * 1024 ->
  n <= Z.of_nat (length pu) -> Z.of_nat (length xs) = (n + 1023) `div` 1024 -> n <= Z.of_nat (length buf) -> n <= m < 2 ^ 32 ->
  exists w1 w2, sys_write fd pu n w = Some (n, w1) /\
    sys_read fd' buf m w1 = Some (n, take (Z.to_nat n) pu ++ drop (Z.to_nat n) buf, w2) /\ ready k b st (fsys w2) l.
Proof.
  intros R O1 (Efd & Ef & Hp & Hfi) Hff Ei Hlk Hl Hsz Hn Hpu Hxs Hb Hm.
  destruct (sys_write_spec k b st w fd f x a i xs l pu n) as (s' & img' & E & R' & [W1 W2 W3 W4] & St); try done.
  set (w1 := with_inodes _ _) in E. exists w1. set (d := take (Z.to_nat n) pu).
  assert (length d = Z.to_nat n) as Hd by (unfold d; rewrite length_take; lia).
  assert (get ui_size img' = 0) as Hs0.
  { rewrite W3 by (unfold off_blocks; fields). unfold locked_inode. cbn [on_img set_img i_img]. rewrite get_put_flags by first [done|fields]. done. }
  set (img1 := put ui_size (0 + n) img'). assert (length img1 = 128%nat) as Hl1 by (unfold img1; rewrite put_length; [done|rewrite W1; fields]).
  assert (i_img (write_done n i img') = put ui_flags (Z.land (get ui_flags img1) (Z.lnot I_LOCKED)) img1) as Hi
    by (unfold write_done; cbn [unlocked_inode dirty_inode set_state on_img set_img i_img]; by rewrite Hs0).
  destruct (sys_read_spec k b st w1 fd' f' x' a (write_done n i img') l d buf m) as (w2 & E2 & R2 & _).
  - exact R'.
  - split_and!; [done| |done..]. cbn [w1 files with_inodes with_files]. by rewrite lookup_insert_ne.
  - apply lookup_insert_eq.
  - unfold write_done. cbn [unlocked_inode dirty_inode set_state on_img set_img i_state locked_inode]. unfold has_flag in Hlk |- *.
    rewrite Z.land_lor_distr_l. change (Z.land (Z.lor I_DIRTY_INODE I_DIRTY_DATA) I_LOCKED) with 0. by rewrite Z.lor_0_r.
  - rewrite Hi. by apply put_flags_length.
  - rewrite Hi, get_put_flags by first [done|fields]. unfold img1. rewrite get_put_eq by (rewrite W1; fields). cbn [f_len ui_size].
    rewrite Hd, Z.mod_small; lia.
  - lia.
  - lia.
  - lia.
  - intros t Ht0 Ht. rewrite Hi, get_put_flags by first [done|unfold ub; fields]. unfold img1.
    rewrite get_put_ne by first [rewrite W1; fields|unfold ub; fields].
    destruct (lookup_lt_is_Some_2 xs (Z.to_nat t)) as [y Hy]; [lia|]. destruct (W2 _ _ Hy) as [Hg Hh]. rewrite Z.add_0_l, Z2Nat.id in Hg, Hh by lia.
    rewrite Hg. destruct R as (D & im & nn & _ & _ & _ & _ & _ & Hall & _). rewrite Forall_forall in Hall.
    destruct (Hall y) as (? & ? & ?); [apply elem_of_app; left; by eapply list_elem_of_lookup_2|]. split_and!; [lia|done|done|done].
  - exists w2. split; [exact E|]. split; [|done]. rewrite E2, Hd. do 2 f_equal. f_equal. lia.
Qed.

(** An inode written to disk is what [read_inode] returns next, and the other
    inodes, also those in the same block, keep their contents. *)
Theorem ufs_inode_roundtrip k b st s l img old j other :
  ready k b st s l -> length img = 128%nat -> inode_block st l (get ui_no img) -> disk_inode st (get ui_no img) s old ->
  inode_block st l j -> j ≠ get ui_no img -> disk_inode st j s other ->
  exists s1 s2 s3, write_inode img s = Some s1 /\ read_inode (get ui_no img) s1 = Some (img, s2) /\ read_inode j s2 = Some (other, s3) /\
    ready k b st s3 l.
Proof.
  intros R Hl Hi Hd Hj Hne Ho. destruct (u_write_inode_spec k b st s l img old R Hl Hi Hd) as (s1 & E1 & R1 & D1 & Hoth & _).
  destruct (u_read_inode_spec k b st s1 l _ img R1 Hi D1) as (s2 & E2 & R2 & St2).
  destruct (Hoth j other Hj Hne Ho) as (data & Hh & Hld & ->).
  destruct (u_read_inode_spec k b st s2 l j (slice (128 * Z.to_nat (j `mod` 8)) 128 data) R2 Hj) as (s3 & E3 & R3 & _).
  { exists data. split; [|done]. apply (st_view _ _ _ _ St2); [apply Hj|by intros []|done]. }
  by exists s1, s2, s3.
Qed.
End Data.

(** ** An instance: a file of 1500 bytes *)

Lemma demo_ready : exists (s : ufs (gmap Z (list Z))) b, ready 0 b 2 s (seqZ 34 990).
Proof.
  destruct demo_made as (s & b & img & M & Hr & Hch & Hst). exists s, b, (fun x => x = b), img, 127.
  rewrite (seqZ_cons 34 990) by lia. split; [exact M|]. split; [done|]. split; [exact Hr|]. split; [exact Hch|].
  rewrite <- (seqZ_cons 34 990) by lia. split; [apply NoDup_seqZ|]. split; [|exact Hst].
  apply Forall_forall. intros y Hy%elem_of_seqZ. split_and!; [lia|lia|apply demo_megabyte_ok; lia|lia].
Qed.

(** Two descriptors of the empty file in inode 20. *)
Definition demo_world (s : ufs (gmap Z (list Z))) : world (gmap Z (list Z)) :=
  mk_world _ s {[ 5000 := mk_inode (put ui_no 20 (replicate 128 0)) 0 2 None ]} ∅ []
    {[ 7000 := mk_file (Some 5000) 0 0 0 0; 7100 := mk_file (Some 5000) 0 0 0 0 ]} [] [] None None [Some 7000; Some 7100] 2 true.

Lemma ufs_write_read_witness :
  exists (s : ufs (gmap Z (list Z))) w1 w2, sys_write 0 (replicate 1500 65) 1500 (demo_world s) = Some (1500, w1) /\
    sys_read 1 (replicate 1600 0) 1600 w1 = Some (1500, replicate 1500 65 ++ replicate 100 0, w2).
Proof.
  destruct demo_ready as (s & b & R). exists s.
  destruct (ufs_write_read 0 b 2 (demo_world s) 0 7000 (mk_file (Some 5000) 0 0 0 0) 1 7100 (mk_file (Some 5000) 0 0 0 0) 5000
    (mk_inode (put ui_no 20 (replicate 128 0)) 0 2 None) [34; 35] (seqZ 36 988) (replicate 1500 65) 1500 (replicate 1600 0) 1600) as (w1 & w2 & E1 & E2 & _).
  - exact R.
  - split_and!; reflexivity.
  - split_and!; reflexivity.
  - discriminate.
  - reflexivity.
  - reflexivity.
  - reflexivity.
  - reflexivity.
  - lia.
  - rewrite length_replicate. lia.
  - reflexivity.
  - rewrite length_replicate. lia.
  - lia.
  - exists w1, w2. split; [exact E1|]. rewrite E2. reflexivity.
Defined.
