(* ===== verification/UfsDir.v ===== *)
(** * The early file system: directories

    What a directory contains, as a list of names and inodes, and that
    [search_dir] finds the first entry of a name. *)

From Stdlib Require Import ZifyNat.
From S2P Require Import CString.
From S2P Require Export UfsData.

#[local] Ltac Zify.zify_post_hook ::= Z.to_euclidean_division_equations.

(** An entry as [create_entry] lays it out. *)
Definition dirent (e : list Z * Z) : list Z := le_bytes 4 e.2 ++ e.1 ++ replicate (28 - length e.1) 0.

Definition wf_entry (e : list Z * Z) : Prop := 0 ∉ e.1 /\ (length e.1 <= 27)%nat /\ 0 <= e.2 < 2 ^ 32.

Lemma dirent_length e : wf_entry e -> length (dirent e) = 32%nat.
Proof. intros (_ & Hl & _). unfold dirent. rewrite !length_app, length_le_bytes, length_replicate. lia. Qed.

Lemma dirent_inode e rest : wf_entry e -> get (Field 0 4) (dirent e ++ rest) = e.2.
Proof.
  intros (_ & _ & He). unfold get, slice, dirent. cbn [f_off f_len]. rewrite drop_0, <- app_assoc, take_app_le by (rewrite length_le_bytes; lia).
  rewrite take_ge by (rewrite length_le_bytes; lia). rewrite le_val_bytes. by apply Z.mod_small.
Qed.

Lemma dirent_name e rest : wf_entry e -> cstring (drop 4 (dirent e ++ rest)) e.1.
Proof.
  intros (Hc & Hl & _). unfold dirent. rewrite <- app_assoc, drop_app_ge by (rewrite length_le_bytes; lia). rewrite length_le_bytes, Nat.sub_diag, drop_0.
  destruct (28 - length e.1)%nat as [|m] eqn:E; [lia|]. exists (replicate m 0 ++ rest). split; [|done]. by rewrite <- !app_assoc.
Qed.

(** The test of the loop compares the names. *)
Lemma same_name (mem entry name ename : list Z) :
  cstring mem ename -> cstring entry name ->
  exists c, strncmp mem entry (Z.of_nat (length name)) = Some c /\
    (if c =? 0 then n ← strlen mem; Some (n =? Z.of_nat (length name)) else Some false) = Some (bool_decide (ename = name)).
Proof.
  intros Hm He. unfold strncmp. rewrite (strlen_spec _ _ Hm). cbn [mbind option_bind].
  destruct (Z.eqb_spec (Z.of_nat (length name)) 0) as [E0|E0].
  - exists 0. split; [done|]. cbn [Z.eqb]. destruct name; [|simpl in E0; lia]. f_equal. destruct ename; [done|].
    rewrite bool_decide_eq_false_2 by done. apply Z.eqb_neq. simpl. lia.
  - rewrite Nat2Z.id. destruct (strncmp_loop_spec (length name) mem entry ename name) as (r & -> & Hr); [lia|done..|].
    exists r. split; [done|]. rewrite (take_app_le name [0]), (take_ge name) in Hr by lia.
    destruct (Z.eqb_spec r 0) as [Er|Er].
    + apply Hr in Er. f_equal. destruct (Z.eqb_spec (Z.of_nat (length ename)) (Z.of_nat (length name))) as [El|El].
      * rewrite bool_decide_eq_true_2; [done|]. rewrite take_app_le, take_ge in Er by lia. done.
      * rewrite bool_decide_eq_false_2; [done|]. by intros ->.
    + f_equal. rewrite bool_decide_eq_false_2; [done|]. intros ->. apply Er, Hr. rewrite take_app_le, take_ge by lia. done.
Qed.

Section Dirs.
Context {B : Type} `{!BlockDev B}.
Implicit Types s : ufs B.

(** The entries [es] from the start of [data] on. *)
Definition dir_data (es : list (list Z * Z)) : list Z := concat (dirent <$> es).

(** The inode of the first entry called [name]. *)
Definition find_entry (name : list Z) (es : list (list Z * Z)) : option Z := snd <$> find (fun e => bool_decide (e.1 = name)) es.

Lemma scan_dir_spec entry name size : cstring entry name -> forall m es rest total,
  Forall wf_entry es -> 0 <= total -> total + 32 * Z.of_nat (length es) = Z.min size (total + 32 * Z.of_nat m) -> 
  exists t, scan_dir m (dir_data es ++ rest) entry (Z.of_nat (length name)) size total = Some (find_entry name es, t) /\
    (find_entry name es = None -> t = total + 32 * Z.of_nat (length es)).
Proof.
  intros Hn. induction m as [|m IH]; intros es rest total Hwf H0 Hlen; cbn [scan_dir].
  { destruct es; [|simpl in Hlen; lia]. exists total. split; [done|]. simpl. lia. }
  destruct (Z.leb_spec size total).
  { destruct es; [|simpl in Hlen; lia]. exists total. split; [done|]. simpl. lia. }
  destruct es as [|e es]; [simpl in Hlen; lia|]. apply Forall_cons in Hwf as [He Hwf].
  unfold dir_data. cbn [fmap list_fmap concat]. rewrite <- app_assoc. fold (dir_data es).
  destruct (same_name (drop 4 (dirent e ++ dir_data es ++ rest)) entry name e.1) as (c & -> & Hs); [by apply dirent_name|done|].
  cbn [mbind option_bind] in Hs |- *. rewrite Hs. cbn [mbind option_bind]. unfold find_entry. cbn [find]. case_bool_decide.
  - exists total. rewrite dirent_inode by done. split; [done|]. intros; done.
  - change (Z.to_nat DIR_ENTRY_BYTES) with 32%nat. rewrite drop_app_ge by (rewrite dirent_length; [lia|done]).
    rewrite dirent_length, Nat.sub_diag, drop_0 by done. unfold DIR_ENTRY_BYTES.
    destruct (IH es rest (total + 32)) as (t & -> & Ht); [done|lia|cbn [length] in Hlen; lia|]. exists t. split; [done|].
    intros E. rewrite Ht by done. cbn [length]. lia.
Qed.

(** A directory of the entries [es] on disk; the block behind a full one is read too. *)
Definition dir_holds s (img : list Z) (es : list (list Z * Z)) : Prop :=
  get ui_size img = 32 * Z.of_nat (length es) /\ (length es < 480)%nat /\ Forall wf_entry es /\
  forall t, (32 * t <= length es)%nat -> let x := get (ub (Z.of_nat t)) img in
    0 <= x /\ bd_ok x /\ x ≠ 1 /\ exists rest, holds (cache s) x (dir_data (take 32 (drop (32 * t) es)) ++ rest).

Lemma find_entry_app name l1 l2 : find_entry name (l1 ++ l2) = match find_entry name l1 with Some i => Some i | None => find_entry name l2 end.
Proof. unfold find_entry. induction l1 as [|e l1 IH]; [done|]. cbn [app find]. by case_bool_decide. Qed.

Lemma search_blocks_spec k b st l img es entry name : cstring entry name -> forall n t s,
  ready k b st s l -> dir_holds s img es -> (32 * t <= length es)%nat -> n = (length es / 32 + 1 - t)%nat ->
  exists s', search_blocks n (Z.of_nat t) img entry (Z.of_nat (length name)) (1024 * Z.of_nat t) s =
      Some (default not_found (find_entry name (drop (32 * t) es)), s') /\ ready k b st s' l /\ step [] nothing s s'.
Proof.
  intros Hn. induction n as [|n IH]; intros t s R Hd Ht En; cbn [search_blocks]; [lia|].
  pose proof Hd as (Hsz & Hle & Hwf & Hblk). destruct (Hblk t Ht) as (Hx0 & Hxo & Hx1 & rest & Hh).
  rewrite ui_blocks_at by lia. cbn [mbind option_bind].
  destruct (ready_read k b st s l _ _ R Hx0 Hxo Hx1 Hh) as (b0 & s1 & bh & s2 & -> & Eb & Hbd & E2 & R2 & St).
  cbn [mbind option_bind]. unfold data_of. rewrite Eb. cbn [mbind option_bind]. rewrite Hbd, Hsz.
  change (Z.to_nat (U_BLK_SIZE `div` DIR_ENTRY_BYTES)) with 32%nat.
  destruct (scan_dir_spec entry name (32 * Z.of_nat (length es)) Hn 32 (take 32 (drop (32 * t) es)) rest (1024 * Z.of_nat t)) as (tot & -> & Htot).
  { by apply Forall_take, Forall_drop. }
  { lia. }
  { rewrite length_take, length_drop. lia. }
  cbn [mbind option_bind]. rewrite E2. cbn [mbind option_bind].
  assert (find_entry name (drop (32 * t) es) = match find_entry name (take 32 (drop (32 * t) es)) with Some i => Some i
    | None => find_entry name (drop 32 (drop (32 * t) es)) end) as -> by (by rewrite <- find_entry_app, take_drop).
  destruct (find_entry name (take 32 (drop (32 * t) es))) as [ino|] eqn:Ef; [by exists s2|]. rewrite drop_drop.
  destruct (decide (32 * t + 32 <= length es)%nat) as [Hmore|Hlast].
  - rewrite Htot, length_take, length_drop by done.
    replace (1024 * Z.of_nat t + 32 * Z.of_nat (32 `min` (length es - 32 * t))) with (1024 * Z.of_nat (S t)) by lia.
    replace (Z.of_nat t + 1) with (Z.of_nat (S t)) by lia. replace (32 * t + 32)%nat with (32 * S t)%nat by lia.
    destruct (IH (S t) s2 R2) as (s' & E & R' & St'); [|lia|lia|exists s'; split; [exact E|]; split; [done|by eapply step_trans]].
    split; [done|]. split; [done|]. split; [done|]. intros t' Ht'. destruct (Hblk t' Ht') as (? & ? & ? & r' & Hr'). split_and!; try done. exists r'.
    apply (st_view _ _ _ _ St); [done|by intros []|done].
  - replace n with 0%nat by lia. cbn [search_blocks]. exists s2. by rewrite drop_ge by lia.
Qed.

Lemma search_dir_spec k b st l img es s name :
  ready k b st s l -> dir_holds s img es -> 0 ∉ name ->
  exists s', search_dir img (name ++ [0]) (Z.of_nat (length name)) s = Some (default not_found (find_entry name es), s') /\ ready k b st s' l.
Proof.
  intros R Hd Hn. pose proof Hd as (Hsz & Hle & _). unfold search_dir. rewrite Hsz. change U_BLK_SIZE with 1024.
  replace (Z.to_nat ((32 * Z.of_nat (length es)) `div` 1024 + 1)) with (length es / 32 + 1 - 0)%nat by lia.
  destruct (search_blocks_spec k b st l img es (name ++ [0]) name (ex_intro _ [] (conj eq_refl Hn)) _ 0 s R Hd ltac:(lia) eq_refl) as (s' & E & R' & _).
  exists s'. rewrite drop_0 in E. split; [exact E|done].
Qed.
(** C39: [search_dir] returns the inode of the first entry with the name, or -1
    when there is none: names are compared in full, and entries in every block
    of the directory are found, up to the 15 blocks an inode can have. *)
Theorem search_dir_correct k b st l img es s name :
  ready k b st s l -> dir_holds s img es -> 0 ∉ name ->
  exists s', search_dir img (name ++ [0]) (Z.of_nat (length name)) s = Some (default not_found (find_entry name es), s') /\ ready k b st s' l.
Proof. apply search_dir_spec. Qed.
End Dirs.

(** ** An instance: a directory with two entries in block 34 *)

Definition demo_es : list (list Z * Z) := [([97; 98], 7); ([97], 9)].
Definition demo_dir : list Z := put ui_size 64 (put (ub 0) 34 (replicate 128 0)).

Lemma demo_dir_ready : exists (s : ufs (gmap Z (list Z))) b l, ready 0 b 2 s l /\ dir_holds s demo_dir demo_es.
Proof.
  destruct demo_ready as (s & b & R). rewrite seqZ_cons in R by lia.
  destruct (ready_take 0 b 2 s 34 _ (dir_data demo_es ++ replicate 960 0) R eq_refl) as (_ & _ & _ & _ & s3 & _ & _ & _ & _ & _ & _ & R3 & Hh & _).
  exists s3, b, (seqZ (Z.succ 34) (Z.pred 990)). split; [exact R3|]. split; [done|]. split; [cbn; lia|]. split.
  - repeat constructor; first [set_solver|cbn; lia].
  - intros t Ht. assert (t = 0%nat) as -> by (cbn in Ht; lia). split_and!; [done|by apply demo_megabyte_ok|done|by eexists].
Qed.

Lemma search_dir_correct_witness : exists (s s' s'' : ufs (gmap Z (list Z))),
  search_dir demo_dir [97; 0] 1 s = Some (9, s') /\ search_dir demo_dir [99; 0] 1 s = Some (4294967295, s'').
Proof.
  destruct demo_dir_ready as (s & b & l & R & Hd).
  destruct (search_dir_correct 0 b 2 l demo_dir demo_es s [97] R Hd) as (s' & E & _); [by apply (bool_decide_unpack _)|].
  destruct (search_dir_correct 0 b 2 l demo_dir demo_es s [99] R Hd) as (s'' & E' & _); [by apply (bool_decide_unpack _)|].
  exists s, s', s''. split; [exact E|exact E'].
Defined.
