(* ===== verification/UfsMkfs.v ===== *)
(** * The early file system: [mkufs]

    What [mkufs] leaves on the disk: the superblock with the chain of free
    blocks, the inodes and the root directory. *)

From S2P Require Import CString.
From S2P Require Export UfsDir.

#[local] Ltac Zify.zify_post_hook ::= Z.to_euclidean_division_equations.

(** ** Inodes *)

Lemma put_length128 f v img : length img = 128%nat -> inside f 128 -> length (put f v img) = 128%nat.
Proof. intros Hl Hf. rewrite put_length; [done|by rewrite Hl]. Qed.

Lemma clear_blocks_length ks : forall img, Forall (fun k => (k < 15)%nat) ks -> length img = 128%nat ->
  length (foldl (fun img k => put (Field (40 + 4 * k) 4) 0 img) img ks) = 128%nat.
Proof.
  induction ks as [|k ks IH]; intros img Hk Hl; [done|]. apply Forall_cons in Hk as [Hk Hks]. cbn [foldl]. apply IH; [done|].
  apply put_length128; [done|]. unfold inside. cbn [f_off f_len]. lia.
Qed.

(** An inode as the code leaves it: 128 bytes with its number. *)
Definition numbered (i : Z) (img : list Z) : Prop := length img = 128%nat /\ get ui_no img = i.

Lemma init_dinode_numbered dev i blk img : length img = 128%nat -> 0 <= i < 2 ^ 32 -> numbered i (init_dinode dev i blk img).
Proof.
  intros Hl Hi. unfold init_dinode, numbered. match goal with |- context [foldl _ ?x _] => set (img1 := x) end.
  assert (length img1 = 128%nat) as H1 by (unfold img1; repeat (apply put_length128; [|fields]); done).
  match goal with |- context [foldl ?g img1 ?ks] => set (img2 := foldl g img1 ks) end.
  assert (length img2 = 128%nat) as H2 by (apply clear_blocks_length; [repeat constructor; lia|done]). clearbody img2.
  assert (length (put ui_no i img2) = 128%nat) as H3 by (by apply put_length128; [|fields]).
  assert (length (put ui_blkno blk (put ui_no i img2)) = 128%nat) as H4 by (by apply put_length128; [|fields]).
  split; [do 2 (apply put_length128; [|fields]); done|].
  rewrite get_put_ne by first [rewrite put_length; rewrite H4; fields|fields].
  rewrite get_put_ne by first [rewrite H4; fields|fields]. rewrite get_put_ne by first [rewrite H3; fields|fields].
  rewrite get_put_eq by (rewrite H2; fields). by apply Z.mod_small.
Qed.

Lemma init_inodes_spec iCnt blk n : forall j data, 0 <= j -> j + Z.of_nat n <= 8 -> length data = 1024%nat -> 0 <= iCnt -> iCnt + 8 < 2 ^ 32 ->
  exists data', init_inodes n j iCnt blk data = Some data' /\ length data' = 1024%nat /\
    (forall m, j <= m < j + Z.of_nat n -> numbered (iCnt + m) (slice (128 * Z.to_nat m) 128 data')) /\
    (forall m, 0 <= m < j -> slice (128 * Z.to_nat m) 128 data' = slice (128 * Z.to_nat m) 128 data).
Proof.
  induction n as [|n IH]; intros j data Hj Hn Hl Hi0 Hi; cbn [init_inodes].
  { exists data. split_and!; try done. intros m Hm. lia. }
  unfold load. rewrite Hl, (proj2 (Z.leb_le _ _)), (proj2 (Z.leb_le _ _)) by lia. cbn [andb mbind option_bind].
  replace (Z.to_nat (128 * j)) with (128 * Z.to_nat j)%nat by lia. set (img := init_dinode DEV_NO (iCnt + j) blk (slice (128 * Z.to_nat j) 128 data)).
  assert (numbered (iCnt + j) img) as [Hli Hno] by (apply init_dinode_numbered; [unfold slice; rewrite length_take, length_drop; lia|lia]).
  unfold store. rewrite Hl, Hli, (proj2 (Z.leb_le _ _)), (proj2 (Z.leb_le _ _)) by lia. cbn [andb mbind option_bind].
  replace (Z.to_nat (128 * j)) with (128 * Z.to_nat j)%nat by lia. set (d1 := splice (128 * Z.to_nat j) img data).
  assert (length d1 = 1024%nat) as Hl1 by (unfold d1; rewrite length_splice; lia).
  destruct (IH (j + 1) d1) as (data' & E & Hl' & Hin & Hbe); [lia..|]. exists data'. split; [done|]. split; [done|]. split; intros m Hm.
  - destruct (decide (m = j)) as [->|]; [|apply Hin; lia]. rewrite Hbe by lia. unfold d1.
    generalize (slice_splice_eq (128 * Z.to_nat j) img data). rewrite Hli. intros ->; [done|lia].
  - rewrite Hbe by lia. unfold d1. apply slice_splice_ne; lia.
Qed.

Section Mkfs.
Context {B : Type} `{!BlockDev B}.
Implicit Types s : ufs B.

Lemma mounted_holds_length k xs D s b img n data : mounted k xs D s b img -> bd_ok n -> holds (cache s) n data -> length data = 1024%nat.
Proof.
  intros (_ & _ & K & _) Hok [(b0 & bh & Eb & _ & _ & <-)|[_ Hr]]; [by apply (kept_buf _ _ _ _ _ _ K Eb)|].
  destruct (bd_read_ok n (disk (cache s)) Hok) as (data' & Hr' & Hl). congruence.
Qed.

(** The inodes from [8 * q] to [8 * n], numbered. *)
Definition inodes_made (st lo hi : Z) s : Prop := forall i, lo <= i < hi -> exists img, disk_inode st i s img /\ numbered i img.

Lemma init_inode_blocks_spec k D b img n fuel : forall q s,
  mounted (S k) [] D s b img -> (forall y, D y -> y = b) -> let st := get s_blk_dilb_start img in
  get s_total_inodes img = 8 * n -> 0 <= q <= n -> 0 <= st -> n + st < 2 ^ 20 -> (forall m, st <= m < st + n -> usable s m) -> n - q < Z.of_nat fuel ->
  exists s', init_inode_blocks fuel (8 * q) s = Some s' /\ mounted (S k) [] D s' b img /\
    step [] (fun m => st + q <= m < st + n) s s' /\ inodes_made st (8 * q) (8 * n) s'.
Proof.
  induction fuel as [|fuel IH]; intros q s M HD st Ht Hq Hst Hb Hus Hf; [lia|]. cbn [init_inode_blocks]. sb_read. sb_read. rewrite Ht.
  destruct (Z.ltb_spec (8 * q) (8 * n)).
  2:{ exists s. split; [done|]. split; [done|]. split; [apply step_refl|]. intros i Hi. lia. }
  fold st. change INODES_PER_BLOCK with 8. replace (u32 ((8 * q) `div` 8 + st)) with (q + st) by (rewrite u32_small; lia).
  destruct (Hus (q + st) ltac:(lia)) as (Hm0 & Hmo & Hm1 & data & Hd). pose proof (mounted_holds_length _ _ _ _ _ _ _ _ M Hmo Hd) as Hl.
  destruct (init_inodes_spec (8 * q) (q + st) 8 0 data) as (data' & Ei & Hl' & Hin & _); [lia..|].
  destruct (mounted_change k [] D s b img (q + st) data data' M) as (b0 & s1 & bh & s2 & s3 & -> & Eb & Hbd & E2 & E3 & M3 & Hh & St); try done;
    [intros y ->%HD; by left|apply no_kept|].
  cbn [mbind option_bind]. unfold data_of. rewrite Eb. cbn [mbind option_bind]. rewrite Hbd. change (Z.to_nat 8) with 8%nat. rewrite Ei.
  cbn [mbind option_bind]. rewrite E2. cbn [mbind option_bind]. rewrite E3. cbn [mbind option_bind]. replace (8 * q + 8) with (8 * (q + 1)) by lia.
  destruct (IH (q + 1) s3 M3 HD) as (s' & E & M' & St' & Hmade); [done|lia..| |lia|].
  { intros m Hm. destruct (Hus m Hm) as (? & ? & ? & dm & Hdm). split_and!; try done. by apply holds_exists. }
  exists s'. split; [exact E|]. split; [done|]. fold st in St', Hmade. split.
  - eapply step_trans; (eapply step_weaken; [eassumption|done|]); cbv beta; intros m Hm; lia.
  - intros i Hi. destruct (decide (8 * (q + 1) <= i)); [apply Hmade; lia|]. exists (slice (128 * Z.to_nat (i `mod` 8)) 128 data'). split.
    + exists data'. split; [|done]. replace (i `div` 8) with q by lia. apply (st_view _ _ _ _ St'); [done|lia|done].
    + replace i with (8 * q + i `mod` 8) at 1 by lia. apply Hin. lia.
Qed.

(** ** The root directory *)

Lemma create_entry_eq stack name b off ino s data : length stack = 32%nat -> 0 ∉ name -> (length name <= 27)%nat ->
  data_of b s = Some data -> length data = 1024%nat -> 0 <= off -> off + 32 <= 1024 ->
  create_entry stack (name ++ [0]) b off ino s = set_data_of b (splice (Z.to_nat off) (dirent (name, ino)) data) s.
Proof.
  intros Hst Hn Hln Hd Hl Ho Ho'. unfold create_entry. set (d0 := put (Field 0 4) ino stack).
  assert (d0 = le_bytes 4 ino ++ drop 4 stack) as Hd0 by reflexivity.
  assert (slice 4 28 d0 = drop 4 stack) as ->.
  { unfold slice. rewrite Hd0, drop_app_ge by (rewrite length_le_bytes; lia). rewrite length_le_bytes, Nat.sub_diag, drop_0, take_ge; [done|].
    rewrite length_drop. lia. }
  rewrite (strncpy_spec 27 (drop 4 stack) (name ++ [0]) name); [|by exists []|rewrite length_drop; lia]. cbn [mbind option_bind].
  rewrite Hd. cbn [mbind option_bind]. set (d1 := splice 31 [0] _).
  assert (d1 = dirent (name, ino)) as ->.
  { unfold d1. assert (length (take 27 (name ++ replicate 27 0)) = 27%nat) as H27 by (rewrite length_take, length_app, length_replicate; lia).
    assert (splice 4 (take 27 (name ++ replicate 27 0) ++ drop 27 (drop 4 stack)) d0 =
      (le_bytes 4 ino ++ take 27 (name ++ replicate 27 0)) ++ drop 31 stack) as ->.
    { unfold splice. rewrite Hd0, (take_app_le (le_bytes 4 ino)), (take_ge (le_bytes 4 ino)) by (rewrite length_le_bytes; lia).
      rewrite (drop_ge (le_bytes 4 ino ++ drop 4 stack)); [by rewrite app_nil_r, drop_drop, <- !app_assoc|]. rewrite !length_app, H27, !length_drop, length_le_bytes. lia. }
    unfold splice. rewrite take_app_le, take_ge by (rewrite length_app, H27, length_le_bytes; lia).
    rewrite drop_ge by (rewrite !length_app, H27, length_drop, length_le_bytes; simpl; lia). unfold dirent. cbn [fst snd].
    rewrite app_nil_r, <- app_assoc. f_equal. rewrite take_app_ge, take_replicate by lia. rewrite <- app_assoc. f_equal.
    change [0] with (replicate 1 0). rewrite <- replicate_add. f_equal. lia. }
  unfold store. rewrite Hl. replace (length (dirent (name, ino))) with 32%nat
    by (unfold dirent; rewrite !length_app, length_le_bytes, length_replicate; cbn [fst]; lia).
  rewrite (proj2 (Z.leb_le _ _)), (proj2 (Z.leb_le _ _)) by lia. cbn [andb mbind option_bind]. done.
Qed.

(** A block with the entries [es] and nothing else. *)
Definition dir_block (es : list (list Z * Z)) : list Z := dir_data es ++ replicate (1024 - 32 * length es) 0.

Lemma dir_data_length es : Forall wf_entry es -> length (dir_data es) = (32 * length es)%nat.
Proof.
  induction 1 as [|e es He _ IH]; [done|]. unfold dir_data. cbn [fmap list_fmap concat length]. rewrite length_app, dirent_length by done.
  fold (dir_data es). rewrite IH. lia.
Qed.

Lemma dir_block_length es : Forall wf_entry es -> (length es <= 32)%nat -> length (dir_block es) = 1024%nat.
Proof. intros Hwf Hl. unfold dir_block. rewrite length_app, dir_data_length, length_replicate by done. lia. Qed.

Lemma dir_block_snoc es e : Forall wf_entry es -> wf_entry e -> (length es < 32)%nat ->
  splice (32 * length es) (dirent e) (dir_block es) = dir_block (es ++ [e]).
Proof.
  intros Hes He Hl. unfold splice, dir_block. rewrite dirent_length by done.
  rewrite take_app_le, take_ge, drop_app_ge by (rewrite dir_data_length by done; lia). rewrite dir_data_length, drop_replicate, length_app by done.
  unfold dir_data at 2. rewrite fmap_app, concat_app. cbn [fmap list_fmap concat length]. rewrite app_nil_r, <- app_assoc. f_equal. f_equal. f_equal. lia.
Qed.

(** The entries of the root: "." and ".." are the root itself, the others take
    the inodes [next + 2], [next + 1], ... from the free list. *)
Definition is_dot (name : list Z) : bool := bool_decide (name = [46; 46]) || bool_decide (name = [46]).
Fixpoint root_es (names : list (list Z)) (next : Z) : list (list Z * Z) :=
  match names with
  | [] => []
  | name :: names => if is_dot name then (name, 1) :: root_es names next else (name, next + 2) :: root_es names (next - 1)
  end.

(** While the root is made: its buffer [b0] for block [x] holds the entries so
    far, the inodes 0 to 51 are on disk and [next] is the top of their list. *)
Record rooting (k : nat) (b b0 x : Z) (es : list (list Z * Z)) (next : Z) s (img : list Z) : Prop := {
  rt_mounted : mounted (S k) [b0] (fun y => y = b \/ y = b0) s b img;
  rt_buf : exists bh, bufs (cache s) !! b0 = Some bh /\ b_blocknr bh = x /\ b_data bh = dir_block es;
  rt_start : get s_blk_dilb_start img = 2;
  rt_next : get s_next_free_inode img = next;
  rt_free j : 0 <= j < 50 -> get (fi j) img = j + 2;
  rt_inodes : inodes_made 2 0 52 s;
  rt_wf : Forall wf_entry es
}.

(** The members that change meanwhile. *)
Definition off_counts (g : field) : Prop := apart s_n_free_inodes g /\ apart s_next_free_inode g.

Lemma made_step st hi xs N s s' : step xs N s s' -> (forall m, st <= m <= st + hi `div` 8 -> bd_ok m /\ ~ N m) -> inodes_made st 0 hi s -> inodes_made st 0 hi s'.
Proof.
  intros St HN Hm i Hi. destruct (Hm i Hi) as (img & Hd & Hn). exists img. split; [|done].
  destruct (HN (i `div` 8 + st)) as [Hok Hno]; [lia|]. by apply (disk_inode_step _ _ _ _ _ _ _ St).
Qed.

(** Blocks of the first 52 inodes. *)
Definition first_ok : Prop := forall m, 2 <= m < 9 -> bd_ok m.

Lemma root_entry_add stack k b b0 x es next s img name ino : first_ok -> 9 <= x -> length stack = 32%nat ->
  rooting k b b0 x es next s img -> wf_entry (name, ino) -> (length es < 32)%nat ->
  exists s', create_entry stack (name ++ [0]) b0 (Z.of_nat (length es) * DIR_ENTRY_BYTES) ino s = Some s' /\
    rooting k b b0 x (es ++ [(name, ino)]) next s' img /\ step [] (fun m => m = x) s s'.
Proof.
  intros Hok Hx Hst [M (bh & Eb & Hbn & Hbd) H1 H2 H3 H4 H5] Hwf Hes. pose proof Hwf as (Hn & Hln & Hino). cbn [fst] in Hn, Hln.
  assert (data_of b0 s = Some (dir_block es)) as Hdat by (unfold data_of; rewrite Eb; cbn [mbind option_bind]; by f_equal).
  rewrite (create_entry_eq stack name b0 _ ino s (dir_block es) Hst Hn Hln Hdat); [|apply dir_block_length; [done|lia]|unfold DIR_ENTRY_BYTES; lia..].
  replace (Z.to_nat (Z.of_nat (length es) * DIR_ENTRY_BYTES)) with (32 * length es)%nat by (unfold DIR_ENTRY_BYTES; lia).
  rewrite dir_block_snoc by done.
  assert (Forall wf_entry (es ++ [(name, ino)])) as Hwf' by (apply Forall_app; split; [done|by constructor]).
  destruct (set_data_spec (S k) [] _ s b img b0 bh (dir_block (es ++ [(name, ino)])) M Eb) as (s' & E & M' & Eb' & _ & St).
  { apply dir_block_length; [done|]. rewrite length_app. simpl. lia. }
  specialize (St [] ltac:(apply not_elem_of_nil)). rewrite Hbn in St. exists s'. split; [done|]. split; [|done]. constructor; try done.
  - eapply mounted_weaken; [exact M'|by intros y [?| ->]; [|right]|]. intros y [->| ->]; [by left|right; by left].
  - by eexists.
  - apply (made_step _ _ _ _ _ _ St); [|done]. intros m Hm. split; [apply Hok; lia|lia].
Qed.

Lemma root_put k b b0 x es next s img f v : first_ok -> rooting k b b0 x es next s img ->
  (f = s_n_free_inodes \/ f = s_next_free_inode /\ fits f v) ->
  exists s' img', sb_put f v s = Some s' /\ rooting k b b0 x es (if decide (f_off f = 216%nat) then v else next) s' img' /\
    step [b0] only1 s s' /\ forall g, off_counts g -> get g img' = get g img.
Proof.
  intros Hok [M (bh & Eb & Hbn & Hbd) H1 H2 H3 H4 H5] Hf.
  destruct (sb_set_spec (S k) [b0] _ s b img f v M) as (s' & img' & E & M' & St & Hget & Ho); [destruct Hf as [->|[-> _]]; fields|].
  exists s', img'. split; [done|]. assert (forall g, off_counts g -> get g img' = get g img) as Hoff by (intros g [? ?]; apply Ho; by destruct Hf as [->|[-> _]]).
  split; [|done]. constructor; try done.
  - exists bh. rewrite (st_bufs _ _ _ _ St) by (by left). done.
  - rewrite Hoff; [done|split; fields].
  - destruct Hf as [->|[-> Hv]]; [rewrite decide_False by done; rewrite Ho by fields; done|rewrite decide_True by done; by apply Hget].
  - intros j Hj. rewrite Hoff; [by apply H3|split; unfold fi; fields].
  - apply (made_step _ _ _ _ _ _ St); [|done]. intros m Hm. unfold only1. split; [apply Hok; lia|lia].
Qed.

(** Reading an inode and writing it with another parent. *)
Lemma root_inode k b b0 x es next s img i : first_ok -> 9 <= x -> rooting k b b0 x es next s img -> 0 <= i < 52 ->
  exists dinode s1, read_inode i s = Some (dinode, s1) /\ numbered i dinode /\ rooting k b b0 x es next s1 img /\ step [b0] nothing s s1.
Proof.
  intros Hok Hx [M (bh & Eb & Hbn & Hbd) H1 H2 H3 H4 H5] Hi. destruct (H4 i Hi) as (dinode & Hd & Hnum).
  destruct (read_inode_mounted k [b0] _ s b img i dinode M) as (s1 & E & M1 & St).
  - intros y [->| ->]; [by left|right; by left].
  - rewrite H1. split_and!; try lia; [apply Hok; lia|apply not_elem_of_nil].
  - rewrite H1. intros y bx ->%list_elem_of_singleton Ey. assert (b_blocknr bx = x) by congruence. lia.
  - by rewrite H1.
  - exists dinode, s1. split; [done|]. split; [done|]. split; [|done]. constructor; try done.
    + exists bh. rewrite (st_bufs _ _ _ _ St) by (by left). done.
    + apply (made_step _ _ _ _ _ _ St); [|done]. intros m Hm. split; [apply Hok; lia|by intros []].
Qed.

Lemma root_write k b b0 x es next s img i dinode : first_ok -> 9 <= x -> rooting k b b0 x es next s img -> 0 <= i < 52 -> numbered i dinode ->
  exists s', write_inode dinode s = Some s' /\ rooting k b b0 x es next s' img /\ disk_inode 2 i s' dinode /\
    step [b0] (fun m => m = i `div` 8 + 2) s s'.
Proof.
  intros Hok Hx [M (bh & Eb & Hbn & Hbd) H1 H2 H3 H4 H5] Hi [Hl Hno]. destruct (H4 i Hi) as (old & Hd & _).
  destruct (write_inode_mounted k [b0] _ s b img dinode old M) as (s' & E & M' & D' & Ho & St); rewrite ?H1, ?Hno; try done.
  - intros y [->| ->]; [by left|right; by left].
  - split_and!; try lia; [apply Hok; lia|apply not_elem_of_nil].
  - intros y bx ->%list_elem_of_singleton Ey. assert (b_blocknr bx = x) by congruence. lia.
  - rewrite H1, Hno in D', Ho, St. exists s'. split; [done|]. split; [|done]. constructor; try done.
    + exists bh. rewrite (st_bufs _ _ _ _ St) by (by left). done.
    + intros j Hj. destruct (decide (j = i)) as [->|Hji]; [by exists dinode|]. destruct (H4 j Hj) as (img' & Hd' & Hn'). exists img'.
      split; [|done]. apply Ho; [lia|apply Hok; lia|done|done].
Qed.

Lemma put_pino_numbered i dinode v : numbered i dinode -> numbered i (put ui_pino v dinode).
Proof.
  intros [Hl Hn]. split; [by apply put_length128; [|fields]|]. rewrite get_put_ne; [done|rewrite Hl; fields|fields].
Qed.

Definition near (x m : Z) : Prop := 1 <= m < 9 \/ m = x.

(** A directory of the root other than "." and "..". *)
Lemma root_entry_dir stack k b b0 x es next s img name : first_ok -> 9 <= x -> length stack = 32%nat ->
  rooting k b b0 x es next s img -> 0 ∉ name -> (length name <= 27)%nat -> (length es < 32)%nat -> 1 <= next < 50 ->
  exists s1 s2 s3 s4 s' img' dinode n, sb_get s_next_free_inode s = Some next /\ sb_put s_next_free_inode (next - 1) s = Some s1 /\
    sb_get (fi next) s1 = Some (next + 2) /\ create_entry stack (name ++ [0]) b0 (Z.of_nat (length es) * DIR_ENTRY_BYTES) (next + 2) s1 = Some s2 /\
    read_inode (next + 2) s2 = Some (dinode, s3) /\ sb_get s_n_free_inodes s3 = Some n /\ sb_put s_n_free_inodes (n - 1) s3 = Some s4 /\
    write_inode (put ui_pino 1 dinode) s4 = Some s' /\
    rooting k b b0 x (es ++ [(name, next + 2)]) (next - 1) s' img' /\ (forall g, off_counts g -> get g img' = get g img) /\ step [] (near x) s s'.
Proof.
  intros Hok Hx Hst R Hn Hln Hes Hnx. destruct (root_put k b b0 x es next s img s_next_free_inode (next - 1) Hok R) as (s1 & img1 & E1 & R1 & St1 & O1).
  { right. split; [done|]. unfold fits. cbn. lia. }
  rewrite decide_True in R1 by done.
  destruct (root_entry_add stack k b b0 x es (next - 1) s1 img1 name (next + 2) Hok Hx Hst R1) as (s2 & E2 & R2 & St2); [split_and!; cbn; done || lia|done|].
  destruct (root_inode k b b0 x _ _ s2 img1 (next + 2) Hok Hx R2) as (dinode & s3 & E3 & Hnum & R3 & St3); [lia|].
  destruct (root_put k b b0 x _ _ s3 img1 s_n_free_inodes (get s_n_free_inodes img1 - 1) Hok R3) as (s4 & img4 & E4 & R4 & St4 & O4); [by left|].
  rewrite decide_False in R4 by done.
  destruct (root_write k b b0 x _ _ s4 img4 (next + 2) (put ui_pino 1 dinode) Hok Hx R4) as (s' & E5 & R5 & _ & St5); [lia|by apply put_pino_numbered|].
  exists s1, s2, s3, s4, s', img4, dinode, (get s_n_free_inodes img1). split.
  { rewrite (sb_get_spec _ _ _ _ _ _ _ (rt_mounted _ _ _ _ _ _ _ _ R)). f_equal. apply (rt_next _ _ _ _ _ _ _ _ R). }
  split; [done|]. split.
  { rewrite (sb_get_spec _ _ _ _ _ _ _ (rt_mounted _ _ _ _ _ _ _ _ R1)). f_equal. apply (rt_free _ _ _ _ _ _ _ _ R1). lia. }
  split; [done|]. split; [done|]. split; [by rewrite (sb_get_spec _ _ _ _ _ _ _ (rt_mounted _ _ _ _ _ _ _ _ R3))|]. split; [done|]. split; [done|].
  split; [done|]. split; [intros g Hg; by rewrite O4, O1|].
  eapply step_trans; [|eapply step_trans; [|eapply step_trans; [|eapply step_trans]]]; (eapply step_weaken; [eassumption|by intros y ?%not_elem_of_nil|]);
    unfold near, only1, nothing; cbv beta; intros m Hm; lia.
Qed.

Definition ok_name (name : list Z) : Prop := 0 ∉ name /\ (length name <= 27)%nat.

Lemma root_entries_spec stack k b b0 x names : first_ok -> 9 <= x -> length stack = 32%nat -> forall es next inode s img,
  rooting k b b0 x es next s img -> Forall ok_name names -> (length es + length names <= 32)%nat ->
  Z.of_nat (length names) <= next < 50 -> length inode = 128%nat ->
  exists inode' s' img' next', root_entries stack ((fun name => name ++ [0]) <$> names) (Z.of_nat (length es)) b0 inode s = Some (inode', s') /\
    rooting k b b0 x (es ++ root_es names next) next' s' img' /\ length inode' = 128%nat /\
    (forall f, apart ui_pino f -> get f inode' = get f inode) /\ (forall g, off_counts g -> get g img' = get g img) /\ step [] (near x) s s'.
Proof.
  intros Hok Hx Hst. induction names as [|name names IH]; intros es next inode s img R Hnames Hlen Hnx Hli; cbn [fmap list_fmap root_entries root_es].
  { exists inode, s, img, next. rewrite app_nil_r. do 5 (split; [done|]). apply step_refl. }
  apply Forall_cons in Hnames as [[Hn Hln] Hnames]. cbn [length] in Hlen, Hnx.
  assert (cstring (name ++ [0]) name) as Hc by (by exists []).
  destruct (strcmp_zero (name ++ [0]) [46; 46; 0] name [46; 46] Hc) as (c1 & -> & Hc1); [exists []; split; [done|set_solver]|].
  destruct (strcmp_zero (name ++ [0]) [46; 0] name [46] Hc) as (c2 & -> & Hc2); [exists []; split; [done|set_solver]|].
  cbn [mbind option_bind]. rewrite Hc1, Hc2. change (bool_decide (name = [46; 46]) || bool_decide (name = [46])) with (is_dot name).
  destruct (is_dot name).
  - destruct (root_entry_add stack k b b0 x es next s img name 1 Hok Hx Hst R) as (s1 & -> & R1 & St1); [split_and!; cbn; done || lia|lia|].
    cbn [mbind option_bind]. replace (Z.of_nat (length es) + 1) with (Z.of_nat (length (es ++ [(name, 1)]))) by (rewrite length_app; simpl; lia).
    destruct (IH (es ++ [(name, 1)]) next (put ui_pino 1 inode) s1 img R1 Hnames) as (inode' & s' & img' & next' & E & R' & Hl' & Hf & Hg & St');
      [rewrite length_app; simpl; lia|lia|by apply put_length128; [|fields]|].
    exists inode', s', img', next'. rewrite E, <- app_assoc in *. split; [done|]. split; [done|]. split; [done|]. split; [|split; [done|]].
    + intros f Ha. rewrite Hf by done. apply get_put_ne; [rewrite Hli; fields|done].
    + eapply step_trans; [|exact St']. eapply step_weaken; [exact St1|done|]. intros m ->. by right.
  - destruct (root_entry_dir stack k b b0 x es next s img name Hok Hx Hst R Hn Hln)
      as (s1 & s2 & s3 & s4 & s5 & img5 & dinode & n & -> & E1 & E2 & E3 & E4 & E5 & E6 & E7 & R5 & O5 & St5); [lia..|].
    cbn [mbind option_bind]. rewrite E1. cbn [mbind option_bind]. rewrite s32_small, s_free_inodes_at by lia. cbn [mbind option_bind]. rewrite E2.
    cbn [mbind option_bind]. rewrite E3. cbn [mbind option_bind]. rewrite E4. cbn [mbind option_bind]. rewrite E5. cbn [mbind option_bind]. rewrite E6.
    cbn [mbind option_bind]. rewrite E7. cbn [mbind option_bind].
    replace (Z.of_nat (length es) + 1) with (Z.of_nat (length (es ++ [(name, next + 2)]))) by (rewrite length_app; simpl; lia).
    destruct (IH (es ++ [(name, next + 2)]) (next - 1) inode s5 img5 R5 Hnames) as (inode' & s' & img' & next' & E & R' & Hl' & Hf & Hg & St');
      [rewrite length_app; simpl; lia|lia|done|].
    exists inode', s', img', next'. rewrite E, <- app_assoc in *. do 4 (split; [done|]). split; [intros g Hg'; by rewrite Hg, O5|].
    by eapply step_trans.
Qed.

(** The names in the root, without their terminators. *)
Definition names : list (list Z) :=
  [[46]; [46; 46]; [100; 101; 118]; [101; 116; 99]; [117; 115; 114]; [109; 110; 116]; [98; 105; 110]; [98; 111; 111; 116]; [104; 111; 109; 101]].

Lemma names_ok : Forall ok_name names.
Proof. repeat constructor; set_solver. Qed.

Lemma root_names_eq : root_names = (fun name => name ++ [0]) <$> names.
Proof. reflexivity. Qed.

(** The root directory of [x]: its inode and its block. *)
Definition root_made (x : Z) s : Prop :=
  exists rimg, disk_inode 2 1 s rimg /\ length rimg = 128%nat /\ get ui_size rimg = 288 /\ get (ub 0) rimg = x /\ holds (cache s) x (dir_block (root_es names 49)).

Lemma root_image inode' x : numbered 1 inode' -> get (ub 0) inode' = x -> let rimg := put ui_size 288 inode' in
  numbered 1 rimg /\ get ui_size rimg = 288 /\ get (ub 0) rimg = x.
Proof.
  intros [Hl Hn] Hx rimg. unfold rimg, numbered. rewrite put_length128 by first [done|fields]. rewrite get_put_eq by (rewrite Hl; fields).
  rewrite !get_put_ne by first [rewrite Hl; fields|unfold ub; fields]. done.
Qed.

(** The block of the root, before its entries are made. *)
Lemma rooting_start k b s img x l : first_ok -> 9 <= x < 2 ^ 32 ->
  mounted (S (S k)) [] (fun y => y = b) s b img -> list_ready img 127 -> chain (cache s) (stack_upto img 127) (x :: l) ->
  bd_ok x -> Forall (fun y => y ≠ x /\ bd_ok y /\ 9 <= y) l -> get s_blk_dilb_start img = 2 -> get s_next_free_inode img = 49 ->
  (forall j, 0 <= j < 50 -> get (fi j) img = j + 2) -> inodes_made 2 0 52 s ->
  exists b0 s' bh img' n', balloc s = Some (Some b0, s') /\ b0 ≠ b /\ bufs (cache s') !! b0 = Some bh /\ b_blocknr bh = x /\
    rooting k b b0 x [] 49 s' img' /\ list_ready img' n' /\ chain (cache s') (stack_upto img' n') l.
Proof.
  intros Hok Hx M Hr Hch Hxo Hl Hst2 Hnext Hfi Hmade.
  destruct (balloc_spec (S k) [] _ s b img 127 x l M) as (b0 & s2 & bh & img2 & n2 & E & Hb0 & M2 & Hr2 & Hch2 & St2 & Eb & Hbn & Hbd & _ & _ & Hpart); try done.
  { by intros y ->; left. }
  { split_and!; [lia|done|lia|apply no_kept]. }
  { eapply Forall_impl; [exact Hl|]. intros y (? & ? & ?). split_and!; try done. lia. }
  apply not_elem_of_cons in Hb0 as [Hbb _]. exists b0, s2, bh, img2, n2. do 4 (split; [done|]). split; [|done].
  constructor; [done|by exists bh| | | | |done].
  - rewrite Hpart; [done|unfold inode_part; fields].
  - rewrite Hpart; [done|unfold inode_part; fields].
  - intros j Hj. rewrite Hpart; [by apply Hfi|unfold inode_part, fi; fields].
  - apply (made_step _ _ _ _ _ _ St2); [intros m Hm; split; [apply Hok; lia|lia]|done].
Qed.

Lemma create_root_spec stack k b s img x l : first_ok -> 9 <= x < 2 ^ 32 -> length stack = 32%nat ->
  mounted (S (S k)) [] (fun y => y = b) s b img -> list_ready img 127 -> chain (cache s) (stack_upto img 127) (x :: l) ->
  bd_ok x -> Forall (fun y => y ≠ x /\ bd_ok y /\ 9 <= y) l -> get s_blk_dilb_start img = 2 -> get s_next_free_inode img = 49 ->
  (forall j, 0 <= j < 50 -> get (fi j) img = j + 2) -> inodes_made 2 0 52 s ->
  exists s' img' n', create_root stack s = Some (0, s') /\ mounted (S (S k)) [] (fun y => y = b) s' b img' /\ list_ready img' n' /\
    chain (cache s') (stack_upto img' n') l /\ get s_blk_dilb_start img' = 2 /\ root_made x s'.
Proof.
  intros Hok Hx Hst M Hr Hch Hxo Hl Hst2 Hnext Hfi Hmade. unfold create_root.
  destruct (Hmade 1 ltac:(lia)) as (inode & Hd & Hnum).
  destruct (read_inode_mounted (S k) [] _ s b img 1 inode M) as (s1 & -> & M1 & St1); [by intros y ->; left| |apply no_kept|by rewrite Hst2|].
  { rewrite Hst2. split_and!; try lia; [apply Hok; lia|apply not_elem_of_nil]. }
  cbn [mbind option_bind].
  assert (chain (cache s1) (stack_upto img 127) (x :: l)) as Hch1.
  { apply (chain_view (cache s)); [done|]. intros m data Hm Hh. apply (st_view _ _ _ _ St1); [|by intros []|done].
    apply elem_of_cons in Hm as [->|Hm]; [done|]. rewrite Forall_forall in Hl. by apply Hl. }
  destruct (rooting_start k b s1 img x l) as (b0 & s2 & bh & img2 & n2 & -> & Hbb & Eb & Hbn & R2 & Hr2 & Hch2); try done.
  { apply (made_step _ _ _ _ _ _ St1); [intros m Hm; split; [apply Hok; lia|by intros []]|done]. }
  cbn [mbind option_bind]. rewrite Eb. cbn [mbind option_bind]. rewrite Hbn.
  destruct Hnum as [Hli Hno]. rewrite root_names_eq.
  destruct (root_entries_spec stack k b b0 x names Hok ltac:(lia) Hst [] 49 (put (Field 40 4) x inode) s2 img2 R2 names_ok)
    as (inode' & s3 & img3 & next3 & E3 & R3 & Hl3 & Hf3 & Hg3 & St3); [cbn; lia|cbn; lia|by apply put_length128; [|fields]|].
  change (Z.of_nat (length [])) with 0 in E3. rewrite E3. cbn [mbind option_bind]. change (Z.of_nat (length ((fun name => name ++ [0]) <$> names)) * DIR_ENTRY_BYTES) with 288.
  assert (numbered 1 inode' /\ get (ub 0) inode' = x) as [Hn3 Hu3].
  { unfold numbered. rewrite !Hf3 by (unfold ub; fields). rewrite get_put_ne by first [rewrite Hli; fields|fields].
    change (ub 0) with (Field 40 4). rewrite get_put_eq by (rewrite Hli; fields). split; [done|]. apply Z.mod_small. cbn. lia. }
  destruct (root_image inode' x Hn3 Hu3) as (Hnr & Hsr & Hur).
  destruct (root_write k b b0 x _ _ s3 img3 1 (put ui_size 288 inode') Hok ltac:(lia) R3) as (s4 & -> & R4 & D4 & St4); [lia|done|].
  cbn [mbind option_bind]. destruct R4 as [M4 (bh4 & Eb4 & Hbn4 & Hbd4) Hst4 _ _ _ _].
  destruct (u_bwrite_spec (S k) [] _ s4 b img3 b0 bh4 M4 ltac:(apply not_elem_of_nil) Eb4) as (s5 & -> & M5 & St5 & Hh5). cbn [mbind option_bind].
  rewrite Hbn4, Hbd4 in *. exists s5, img3, n2.
  assert (step [] (near x) s2 s5) as St25.
  { eapply step_trans; [exact St3|]. eapply step_trans; (eapply step_weaken; [eassumption|by intros y ?%not_elem_of_nil|]); unfold near; cbv beta; intros m Hm; lia. }
  split; [done|]. split; [|split; [|split; [|split; [done|]]]].
  - eapply mounted_weaken; [exact M5|intros y [[?| ->] Hy]; done|]. intros y ->. by left.
  - destruct Hr2 as (Hlk & Hnx & Hn). unfold list_ready. rewrite !Hg3 by (split; fields). done.
  - rewrite (stack_upto_ext img2) by (intros j Hj; apply Hg3; destruct Hr2; split; unfold fb; fields).
    apply (chain_view (cache s2)); [done|]. intros m data Hm Hh. rewrite Forall_forall in Hl. destruct (Hl m Hm) as (? & ? & ?).
    apply (st_view _ _ _ _ St25); [done|unfold near; lia|done].
  - exists (put ui_size 288 inode'). split; [|split; [apply Hnr|done]].
    apply (disk_inode_step _ _ _ _ _ _ _ St5); [apply Hok; lia|lia|done].
Qed.

(** Writing the superblock out releases it. *)
Lemma super_write_spec k D s b img : mounted k [] D s b img -> (forall y, D y -> y = b) ->
  exists s', u_bwrite b s = Some s' /\ quiet (S k) (cache s') /\ holds (cache s') 1 img /\
    (forall m data, bd_ok m -> m ≠ 1 -> holds (cache s) m data -> holds (cache s') m data) /\ sb_bh s' = sb_bh s.
Proof.
  intros (Es & _ & K & HDb & bh & Eb & Hn & Hd) HD.
  destruct (kept_bwrite k [] D (cache s) b bh K ltac:(apply not_elem_of_nil) Eb) as (c' & E & K' & _ & Hh & Hv).
  unfold u_bwrite. rewrite E. cbn [mbind option_bind]. eexists. split; [done|]. cbn [cache set_cache sb_bh]. rewrite Hn in Hh, Hv. rewrite Hd in Hh.
  split; [by eapply kept_rest|]. done.
Qed.

(** The state before the root is made. *)
Lemma mkufs_inodes c sb mb data : quiet 3 c -> holds c 1 data -> get s_block_list_lock data ≠ 1 -> 1 <= mb < 4096 ->
  (forall m, 1 <= m < 1024 * mb -> bd_ok m) ->
  exists b c' s1 s2 img, u_bread 1 (mk_ufs c None sb) = Some (Some b, mk_ufs c' None sb) /\ make_super mb (mk_ufs c' (Some b) sb) = Some s1 /\
    sb_get s_total_inodes s1 = Some (256 * mb) /\ init_inode_blocks (S (Z.to_nat (256 * mb))) 0 s1 = Some s2 /\
    mounted 2 [] (fun y => y = b) s2 b img /\ list_ready img 127 /\ chain (cache s2) (stack_upto img 127) (seqZ (32 * mb + 2) (992 * mb - 2)) /\
    get s_blk_dilb_start img = 2 /\ get s_next_free_inode img = 49 /\ (forall j, 0 <= j < 50 -> get (fi j) img = j + 2) /\ inodes_made 2 0 (256 * mb) s2.
Proof.
  intros Hq Hd Hlock Hmb Hok. destruct (super_read_spec 2 c sb None data Hq) as (b & c' & E & M & _); [apply Hok; lia|done|].
  assert (forall s m, 2 <= m < 1024 * mb -> usable s m) as Hus.
  { intros s m Hm. assert (bd_ok m) by (apply Hok; lia). split_and!; [lia|done|lia|by apply holds_exists]. }
  destruct (make_super_spec 1 _ b _ data mb M) as (s1 & img & E1 & M1 & _ & Hr1 & Hch & _ & Htot & Hst & Hnx & Hfi); [done..|intros m Hm; apply Hus; lia|].
  destruct (init_inode_blocks_spec 1 _ b img (32 * mb) (S (Z.to_nat (256 * mb))) 0 s1 M1) as (s2 & E2 & M2 & St2 & Hmade); rewrite ?Hst; try done; [lia..| |lia|].
  { intros m Hm. apply Hus. lia. }
  rewrite Hst in St2, Hmade. exists b, c', s1, s2, img. do 2 (split; [done|]). split; [by rewrite (sb_get_spec _ _ _ _ _ _ _ M1), Htot|].
  split; [exact E2|]. do 2 (split; [done|]). split; [|do 3 (split; [done|]); by replace (256 * mb) with (8 * (32 * mb)) by lia].
  apply (chain_view (cache s1)); [done|]. intros m d Hm%elem_of_seqZ Hh. apply (st_view _ _ _ _ St2); [apply Hok; lia|lia|done].
Qed.

(** The nine entries. *)
Lemma root_es_names : root_es names 49 =
  [([46], 1); ([46; 46], 1); ([100; 101; 118], 51); ([101; 116; 99], 50); ([117; 115; 114], 49); ([109; 110; 116], 48); ([98; 105; 110], 47);
   ([98; 111; 111; 116], 46); ([104; 111; 109; 101], 45)].
Proof. reflexivity. Qed.

Lemma root_es_wf : Forall wf_entry (root_es names 49).
Proof. rewrite root_es_names. repeat constructor; first [set_solver|cbn; lia]. Qed.

Lemma root_dir_holds x s rimg : get ui_size rimg = 288 -> get (ub 0) rimg = x -> 9 <= x -> bd_ok x ->
  holds (cache s) x (dir_block (root_es names 49)) -> dir_holds s rimg (root_es names 49).
Proof.
  intros Hsz Hx H9 Hok Hh. assert (length (root_es names 49) = 9%nat) as H9' by reflexivity.
  split; [by rewrite H9'|]. split; [lia|]. split; [apply root_es_wf|]. intros t Ht. assert (t = 0%nat) as -> by lia.
  change (Z.of_nat 0) with 0. rewrite Hx. split_and!; [lia|done|lia|]. rewrite Nat.mul_0_r, drop_0, take_ge by lia. by eexists.
Qed.

(** C12: [mkufs] makes a file system that can be mounted.  On a disk of [mb]
    megabytes it ends, with every buffer released.  When the superblock is read
    again, all blocks behind the root's are free, in order, and inode 1 is the
    root directory: a search in it finds exactly the nine names, "." and ".."
    with inode 1 and the others with inodes 51 down to 45. *)
Theorem mkufs_correct stack c sb mb data : quiet 3 c -> holds c 1 data -> get s_block_list_lock data ≠ 1 -> 1 <= mb < 4096 ->
  (forall m, 1 <= m < 1024 * mb -> bd_ok m) -> length stack = 32%nat ->
  exists s0, mkufs stack mb (mk_ufs c None sb) = Some s0 /\ quiet 3 (cache s0) /\
    exists b c' rimg s1, u_bread 1 (mk_ufs (cache s0) None sb) = Some (Some b, mk_ufs c' None sb) /\
      ready 1 b 2 (mk_ufs c' (Some b) sb) (seqZ (32 * mb + 3) (992 * mb - 3)) /\ read_inode 1 (mk_ufs c' (Some b) sb) = Some (rimg, s1) /\
      forall name, 0 ∉ name -> exists s2,
        search_dir rimg (name ++ [0]) (Z.of_nat (length name)) s1 = Some (default not_found (find_entry name (root_es names 49)), s2).
Proof.
  intros Hq Hd Hlock Hmb Hok Hst.
  destruct (mkufs_inodes c sb mb data Hq Hd Hlock Hmb Hok) as (b & c' & s1 & s2 & img & E & E1 & Et & E2 & M2 & Hr2 & Hch & Hst2 & Hnx & Hfi & Hmade).
  rewrite seqZ_cons in Hch by lia. replace (Z.succ (32 * mb + 2)) with (32 * mb + 3) in Hch by lia.
  replace (Z.pred (992 * mb - 2)) with (992 * mb - 3) in Hch by lia.
  assert (forall m, 32 * mb + 2 <= m < 1024 * mb -> bd_ok m /\ 9 <= m < 2 ^ 32) as Hdata by (intros m Hm; split; [apply Hok; lia|lia]).
  destruct (create_root_spec stack 0 b s2 img (32 * mb + 2) (seqZ (32 * mb + 3) (992 * mb - 3))) as (s3 & img3 & n3 & E3 & M3 & Hr3 & Hch3 & Hst3 & (rimg & Hroot & _ & Hsz & Hu & Hh)); try done.
  { intros m Hm. apply Hok. lia. }
  { lia. }
  { apply Hdata. lia. }
  { apply Forall_forall. intros y Hy%elem_of_seqZ. split; [lia|]. split; apply Hdata; lia. }
  { intros i Hi. apply Hmade. lia. }
  destruct (super_write_spec 2 _ s3 b img3 M3) as (s0 & E0 & Hq0 & Hh0 & Hv0 & _); [done|]. exists s0.
  split; [|split; [done|]].
  { unfold mkufs. rewrite E. cbn [mbind option_bind cache sb_bh]. rewrite E1. cbn [mbind option_bind]. rewrite Et. cbn [mbind option_bind]. rewrite E2.
    cbn [mbind option_bind]. rewrite E3. exact E0. }
  destruct (super_read_spec 2 (cache s0) sb None img3 Hq0) as (b' & c2 & E4 & M4 & Hv4); [apply Hok; lia|done|].
  assert (forall m d, bd_ok m -> m ≠ 1 -> holds (cache s3) m d -> holds c2 m d) as Hv by (intros m d Hm H1 Hmd; by apply Hv4, Hv0).
  assert (ready 1 b' 2 (mk_ufs c2 (Some b') sb) (seqZ (32 * mb + 3) (992 * mb - 3))) as R.
  { exists (fun y => y = b'), img3, n3. do 3 (split; [done|]). split; [|split; [apply NoDup_seqZ|split; [|done]]].
    - apply (chain_view (cache s3)); [done|]. intros m d Hm%elem_of_seqZ. apply Hv; [apply Hdata|]; lia.
    - apply Forall_forall. intros y Hy%elem_of_seqZ. destruct (Hdata y ltac:(lia)). split_and!; try done; lia. }
  assert (holds c2 (32 * mb + 2) (dir_block (root_es names 49))) as Hblk by (apply Hv; [apply Hdata|lia|done]; lia).
  destruct Hroot as (d & Hhd & Hld & ->).
  destruct (u_read_inode_spec 1 b' 2 _ _ 1 (slice (128 * Z.to_nat (1 `mod` 8)) 128 d) R) as (s5 & E5 & R5 & St5).
  { split_and!; try lia; [apply Hok; lia|]. rewrite elem_of_seqZ. lia. }
  { exists d. split; [|done]. apply Hv; [apply Hok; lia|lia|done]. }
  exists b', c2, (slice (128 * Z.to_nat (1 `mod` 8)) 128 d), s5. do 3 (split; [done|]). intros name Hn.
  destruct (search_dir_spec 1 b' 2 _ (slice (128 * Z.to_nat (1 `mod` 8)) 128 d) (root_es names 49) s5 name R5) as (s6 & E6 & _); [|done|by exists s6].
  apply (root_dir_holds (32 * mb + 2)); [done|done|lia|apply Hdata; lia|]. apply (st_view _ _ _ _ St5); [apply Hdata; lia|by intros []|done].
Qed.
End Mkfs.

(** ** An instance: one megabyte over a volume in memory, three buffers *)

Lemma demo_quiet3 : exists c : buffer_cache (gmap Z (list Z)), quiet 3 c /\ holds c 1 (replicate 1024 0).
Proof.
  destruct (create_buffer_cache_spec [(1000, replicate 1024 0); (2000, replicate 1024 0); (3000, replicate 1024 0)] demo_cache) as (c & hs & _ & Hc & Hco & Hd & Hf).
  - done.
  - intros i Hi. unfold DEV_NO in Hi. assert (i = 0 \/ i = 1 \/ i = 2 \/ i = 3) as [->|[->|[->| ->]]] by lia; by eexists.
  - by eexists.
  - by apply (bool_decide_unpack _).
  - by repeat constructor.
  - intros m Hm. cbn [length] in Hm. apply demo_block_ok. lia.
  - exists c. split.
    + exists [3000; 2000; 1000], hs. split_and!; [done|done| |simpl; lia]. intros b bh [_ Hfl]%Hf. unfold unlocked. rewrite Hfl. done.
    + right. split; [intros b bh [_ Hfl]%Hf _; rewrite Hfl; done|]. rewrite Hd. by vm_compute.
Qed.

Lemma mkufs_correct_witness : exists (c : buffer_cache (gmap Z (list Z))) s0 b c' rimg s1 s2,
  mkufs (replicate 32 7) 1 (mk_ufs c None None) = Some s0 /\ u_bread 1 (mk_ufs (cache s0) None None) = Some (Some b, mk_ufs c' None None) /\
  read_inode 1 (mk_ufs c' (Some b) None) = Some (rimg, s1) /\ search_dir rimg ([100; 101; 118] ++ [0]) 3 s1 = Some (51, s2).
Proof.
  destruct demo_quiet3 as (c & Hq & Hd).
  destruct (mkufs_correct (replicate 32 7) c None 1 (replicate 1024 0) Hq Hd) as (s0 & E0 & _ & b & c' & rimg & s1 & E1 & _ & E2 & Hs).
  - rewrite get_replicate. lia.
  - lia.
  - intros m Hm. apply demo_megabyte_ok. lia.
  - reflexivity.
  - destruct (Hs [100; 101; 118]) as (s2 & E3); [by apply (bool_decide_unpack _)|].
    exists c, s0, b, c', rimg, s1, s2. split; [exact E0|]. split; [exact E1|]. split; [exact E2|exact E3].
Defined.
