(* ===== verification/UfsRun.v ===== *)
(** * The early file system, run

    The model is executable: on a volume in memory the whole life of the file
    system is computed, from [mkufs] to [test_fs].  What the runs show of the
    code's own tests is stated here, with two of its faults. *)

From S2P Require Import CString Serial.
From S2P Require Export UfsMkfs.

Notation mem := (gmap Z (list Z)).

(** Twenty buffers, fifty inodes and ten file objects; their memory. *)
Definition run_buffers : list (Z * list Z) := (fun n => (10000 + 100 * n, replicate 1024 0)) <$> seqZ 0 20.
Definition run_links : gmap unode (list_head unode) :=
  list_to_map ((fun n => (n, mk_list_head None None)) <$>
    ([UHash 0; UHash 1; UHash 2; UHash 3; UFree; UFiles] ++ (UNHash <$> seqZ 5000 50) ++ (UNFree <$> seqZ 5000 50) ++ (UNFile <$> seqZ 7000 10))).
Definition run_stack : list Z := replicate 32 7.

Definition run_world (s : ufs mem) : world mem :=
  mk_world _ s ∅ run_links ((fun a => (a, mk_inode (replicate 128 9) 3 3 None)) <$> seqZ 5000 50) ∅ ((fun a => (a, new_file)) <$> seqZ 7000 10)
    [] None None (replicate 30 None) 0 true.

(** Start-up: a new disk, the caches, the tables and the root. *)
Definition run_mounted (table : list (option Z)) : option (world mem) :=
  c ← create_buffer_cache run_buffers demo_cache;
  s ← mkufs run_stack 1 (mk_ufs c None None);
  w ← create_inode_cache true true (run_world s);
  w ← init_fs (Some table) w;
  '(_, w) ← mount_rootfs w;
  Some w.

(** What a read of 128 bytes from the start of a file gives. *)
Definition run_read (pathname : list Z) (w : world mem) : option (Z * list Z) :=
  '(fd, w) ← sys_open run_stack pathname O_RDONLY w;
  '(n, buf, _) ← sys_read fd (replicate 128 0) 128 w;
  Some (n, take (Z.to_nat n) buf).

(** The tests of [test_fs] run through, and both files read back. *)
Example run_test_fs :
  (w ← run_mounted (replicate 50 None);
   w ← test_fs run_stack w;
   a ← run_read (str "/test.txt" ++ [0]) w;
   b ← run_read (str "/data/nested_log.txt" ++ [0]) w;
   Some (a, b)) = Some ((17, str "Hello, UFS World!"), (20, str "RootFS is Persistent")).
Proof. vm_compute. reflexivity. Qed.

(** A table of the 12 pointers that fit into the 50 bytes asked for is overrun. *)
Example run_table_too_small : run_mounted (replicate 12 None) = None.
Proof. vm_compute. reflexivity. Qed.

(** [mount_rootfs] gives up the root while the process keeps it: the next call
    takes its count below zero. *)
Example run_root_count :
  (w ← run_mounted (replicate 50 None);
   w ← write_string run_stack (str "/test.txt" ++ [0]) test_str w;
   a ← root w;
   i ← inodes w !! a;
   Some (i_count i)) = Some (2 ^ 32 - 1).
Proof. vm_compute. reflexivity. Qed.

(** When the list of free inodes is empty [ialloc] fills it and keeps the lock:
    it returns an inode, but the next call waits for ever. *)
Example run_ialloc_stops :
  (w ← run_mounted (replicate 50 None);
   s ← sb_put s_next_free_inode (-1) (fsys w);
   '(r, w) ← ialloc DEV_NO (with_fsys s w);
   Some (bool_decide (is_Some r), bool_decide (ialloc DEV_NO w = None))) = Some (true, true).
Proof. vm_compute. reflexivity. Qed.
