(* ===== verification/Inode.v ===== *)
(** * The inode table and a file's blocks (get_inode, indirect_block,
    get_file_block, set_i_block, i_block_len, add_block_to_file,
    write_block_at, new_dir_inode of fs/ext2/fs.c; write_inode_table of
    fs/ext2/ext2_inode.c)

    The state is the globals of fs.c over the buffer cache; inodes are 128-byte
    images.  Block numbers and offsets keep the widths of the variables that
    hold them.  Two rounds of [getblk] are enough unless it would wait for a
    buffer; a null buffer is dereferenced where the code does so. *)

From S2P Require Export Balloc Blocks.

#[local] Ltac Zify.zify_post_hook ::= Z.to_euclidean_division_equations.

Definition i_mode := Eval vm_compute in the_field inode_t "i_mode".
Definition i_uid := Eval vm_compute in the_field inode_t "i_uid".
Definition i_gid := Eval vm_compute in the_field inode_t "i_gid".
Definition i_size := Eval vm_compute in the_field inode_t "i_size".
Definition i_atime := Eval vm_compute in the_field inode_t "i_atime".
Definition i_ctime := Eval vm_compute in the_field inode_t "i_ctime".
Definition i_mtime := Eval vm_compute in the_field inode_t "i_mtime".
Definition i_links_count := Eval vm_compute in the_field inode_t "i_links_count".
Definition i_blocks := Eval vm_compute in the_field inode_t "i_blocks".
Definition i_file_acl := Eval vm_compute in the_field inode_t "i_file_acl".
Definition i_dir_acl := Eval vm_compute in the_field inode_t "i_dir_acl".
Definition i_faddr := Eval vm_compute in the_field inode_t "i_faddr".
(** [i_block[k]]. *)
Definition i_block (k : Z) : field := Field (40 + 4 * Z.to_nat k) 4.

Lemma i_block_member k : 0 <= k < 15 -> field_of inode_t "i_block" (Z.to_nat k) = Some (i_block k).
Proof. revert k. check_range 0 15 ltac:(reflexivity). Qed.

Definition EXT2_S_IFDIR : Z := 0x4000.

(** A [char] read as a number. *)
Definition s8 (x : Z) : Z := if x <? 128 then x else x - 256.

Section Inode.
Context {B : Type} `{!BlockDev B}.
Notation fsys := (ext2 (buffer_cache B)).
Implicit Types s : fsys.

Definition block_size s : Z := Z.shiftl 1024 (get Struct.s_log_block_size (super s)).

(** [bh = bread(DEV_NO, n)], then [bh->b_data]: buffer, contents, state. *)
Definition read_buf (n : Z) s : option (Z * list Z * fsys) :=
  '(o, c) ← bread 2 DEV_NO n (dev s);
  b ← o;
  bh ← bufs c !! b;
  Some (b, b_data bh, set_dev c s).

Definition release (b : Z) s : option fsys := c ← brelse b (dev s); Some (set_dev c s).

(** Storing [data] into the buffer. *)
Definition fill_buf (b : Z) (data : list Z) s : option fsys :=
  c ← upd_buf b (set_data data) (dev s); Some (set_dev c s).

Definition write_buf (b : Z) s : option fsys := c ← bwrite b (dev s); Some (set_dev c s).

(** ** Inodes *)

Definition inode_size s : Z :=
  let z := if 0 <? get s_rev_level (super s) then get s_inode_size (super s) else 128 in
  if z =? 0 then 128 else z.

Definition get_inode (inode_n : Z) s : option (list Z * fsys) :=
  let index := u32 (inode_n - 1) in
  q ← udiv index (get s_inodes_per_group (super s));
  inode_offset ← umod index (get s_inodes_per_group (super s));
  d ← group_desc s (u16 q);
  let inodes_per_blk := u16 (block_size s `div` inode_size s) in
  bq ← udiv inode_offset inodes_per_blk;
  br ← umod inode_offset inodes_per_blk;
  let inode_blk_n := u16 (get bg_inode_table d + bq) in
  let byte_offset_in_blk := u16 (u16 br * inode_size s) in
  '(b, data, s) ← read_buf inode_blk_n s;
  res ← load byte_offset_in_blk 128 data;
  s ← release b s;
  Some (res, s).

(** A null buffer makes it return without writing. *)
Definition write_inode_table (inode_n : Z) (new_inode : list Z) s : option fsys :=
  let index := u32 (inode_n - 1) in
  q ← udiv index (get s_inodes_per_group (super s));
  r ← umod index (get s_inodes_per_group (super s));
  let bg_offset := u16 r in
  let block_offset := u16 ((bg_offset * 128) `div` 1024) in
  let in_block_offset := u16 ((bg_offset * 128) `mod` 1024) in
  d ← group_desc s (u16 q);
  let block_to_update := u32 (get bg_inode_table d + block_offset) in
  '(o, c) ← bread 2 DEV_NO block_to_update (dev s);
  match o with
  | None => Some (set_dev c s)
  | Some b =>
      let s := set_dev c s in
      bh ← bufs c !! b;
      data ← store in_block_offset new_inode (b_data bh);
      s ← fill_buf b data s;
      write_buf b s
  end.

(** Members that are not set keep what the stack held: [stale]. *)
Definition new_dir_inode (stale : list Z) : list Z :=
  let n := put i_mode EXT2_S_IFDIR stale in
  let n := put i_links_count 1 n in
  let n := put i_blocks 0 n in
  let n := put i_links_count 1 n in
  let n := put i_file_acl 0 n in
  let n := put i_dir_acl 0 n in
  put i_faddr 0 n.

(** ** The blocks of a file *)

Definition i_block_len (i : list Z) s : Z :=
  u16 (get i_blocks i `div` Z.shiftl 2 (get Struct.s_log_block_size (super s))).

(** [*(uint32_t* )(bh->b_data + j)]: [j] counts bytes.  The buffers read here
    are never released. *)
Definition indirect_block (file : list Z) (i : Z) s : option (Z * fsys) :=
  let dir_blk_len := 12 in
  if i <? dir_blk_len then Some (get (i_block i) file, s)
  else
    let ind_blk_len := u32 (block_size s `div` 4) in
    if i <? u32 (dir_blk_len + ind_blk_len) then
      '(_, data, s) ← read_buf (get (i_block 12) file) s;
      w ← load (u16 (i - dir_blk_len)) 4 data;
      Some (le_val w, s)
    else
      let dbl_ind_blk_len := u32 (block_size s * ind_blk_len) in
      if i <? u32 (dir_blk_len + ind_blk_len + dbl_ind_blk_len) then
        '(_, data, s) ← read_buf (get (i_block 13) file) s;
        let j := u32 (i - dir_blk_len - ind_blk_len) in
        ind_blk_index ← udiv j ind_blk_len;
        blk_index ← umod j ind_blk_len;
        x ← zget data ind_blk_index;
        '(_, s) ← bread 2 DEV_NO (u32 (s8 x)) (dev s) ≫= (fun '(o, c) => Some (o, set_dev c s));
        w ← load blk_index 4 data;
        Some (le_val w, s)
      else Some (0, s).

Definition set_i_block (file : list Z) (inode_n i blockn : Z) s : option (list Z * fsys) :=
  let dir_blk_len := 12 in
  if i <? dir_blk_len then
    let file := put (i_block i) blockn file in
    s ← write_inode_table inode_n file s;
    Some (file, s)
  else
    let ind_blk_len := u32 (block_size s `div` 4) in
    if i <? u32 (dir_blk_len + ind_blk_len) then
      '(b, data, s) ← read_buf (get (i_block 12) file) s;
      data ← store (u16 (i - dir_blk_len)) (le_bytes 4 blockn) data;
      s ← fill_buf b data s;
      s ← write_buf b s;
      Some (file, s)
    else
      let dbl_ind_blk_len := u32 (block_size s * ind_blk_len) in
      if i <? u32 (dir_blk_len + ind_blk_len + dbl_ind_blk_len) then
        blocks ← bd_read (get (i_block 13) file) (disk (dev s));
        let j := u32 (i - dir_blk_len - ind_blk_len) in
        ind_blk_index ← udiv j ind_blk_len;
        blk_index ← umod j ind_blk_len;
        w ← load (4 * ind_blk_index) 4 blocks;
        let update_location := le_val w in
        blocks ← bd_read update_location (disk (dev s));
        blocks ← store (4 * blk_index) (le_bytes 4 blockn) blocks;
        d ← bd_write update_location blocks (disk (dev s));
        let c := dev s in
        Some (file, set_dev (mk_cache _ (bufs c) (links c) d) s)
      else Some (file, s).

(** The handle is the inode image and its number. *)
Definition add_block_to_file (file : list Z) (inode_n new_block : Z) s : option (list Z * fsys) :=
  let file := put i_blocks (u32 (get i_blocks file + 2)) file in
  let block_len := i_block_len file s in
  set_i_block file inode_n (u32 (block_len - 1)) new_block s.

(** The buffer is released twice. *)
Definition write_block_at (block offset : Z) (chunk : list Z) s : option (Z * fsys) :=
  if block_size s <? offset + Z.of_nat (length chunk) then Some (-1, s)
  else
    '(o, c) ← bread 2 DEV_NO block (dev s);
    let s := set_dev c s in
    match o with
    | None => Some (-1, s)
    | Some b =>
        bh ← bufs c !! b;
        data ← store offset chunk (b_data bh);
        s ← fill_buf b data s;
        s ← write_buf b s;
        s ← release b s;
        Some (0, s)
    end.

(** ** Reading and writing one block *)

Lemma set_dev_set_dev c c' s : set_dev c' (set_dev c s) = set_dev c' s.
Proof. done. Qed.

Lemma holds_length k c n data : quiet k c -> bd_ok n -> holds c n data -> length data = 1024%nat.
Proof.
  intros (fs & hs & Hc & _) Hn [(b & bh & Eb & _ & _ & <-)|[_ Hr]].
  - by apply (cr_buf _ _ _ Hc) in Eb as (_ & _ & _ & ?).
  - destruct (bd_read_ok n (disk c) Hn) as (x & E & Hl). congruence.
Qed.

Lemma read_buf_spec k n data s :
  quiet (S k) (dev s) -> 0 <= n -> bd_ok n -> holds (dev s) n data ->
  exists b c, read_buf n s = Some (b, data, set_dev c s) /\ taken k b n data c /\ same_view (dev s) c.
Proof.
  intros Hq Hn Hok Hd. destruct (bread_quiet k (dev s) n data Hq Hn Hok Hd) as (b & c & E & Ht & Hv).
  exists b, c. split; [|done]. unfold read_buf. rewrite E. cbn [mbind option_bind].
  destruct Ht as (fs & hs & bh & _ & _ & _ & _ & _ & Eb & _ & Hbd & _). rewrite Eb. cbn [mbind option_bind]. by rewrite Hbd.
Qed.

Lemma release_spec k b n data s :
  taken k b n data (dev s) -> exists c, release b s = Some (set_dev c s) /\ quiet (S k) c /\ same_view (dev s) c.
Proof. intros Ht. destruct (brelse_quiet _ _ _ _ _ Ht) as (c & E & ?). exists c. unfold release. by rewrite E. Qed.

Lemma write_back_spec k b n data data' s :
  taken k b n data (dev s) -> length data' = 1024%nat ->
  exists c, (s ← fill_buf b data' s; write_buf b s) = Some (set_dev c s) /\ quiet (S k) c /\ holds c n data' /\
    forall m x, bd_ok m -> m ≠ n -> holds (dev s) m x -> holds c m x.
Proof.
  intros Ht Hl. pose proof Ht as (fs & hs & bh & _ & _ & _ & _ & _ & Eb & _).
  destruct (bwrite_quiet k b n data data' (dev s) _ Ht Hl (upd_buf_some b _ _ bh Eb)) as (c & E & Hq & Hh & Hf).
  exists c. split; [|done]. unfold fill_buf. rewrite (upd_buf_some b _ _ bh Eb). cbn [mbind option_bind].
  unfold write_buf. change (dev (set_dev ?c s)) with c. rewrite E. done.
Qed.

Lemma load_ok off len img : 0 <= off -> off + Z.of_nat len <= Z.of_nat (length img) ->
  load off len img = Some (slice (Z.to_nat off) len img).
Proof.
  intros H1 H2. unfold load. destruct (Z.leb_spec 0 off), (Z.leb_spec (off + Z.of_nat len) (Z.of_nat (length img)));
    simpl; done || lia.
Qed.

Lemma store_ok off new img : 0 <= off -> off + Z.of_nat (length new) <= Z.of_nat (length img) ->
  store off new img = Some (splice (Z.to_nat off) new img).
Proof.
  intros H1 H2. unfold store. destruct (Z.leb_spec 0 off), (Z.leb_spec (off + Z.of_nat (length new)) (Z.of_nat (length img)));
    simpl; done || lia.
Qed.

(** ** Where an inode lies *)

(** The geometry mkfs makes: blocks of 1024 bytes, inodes of 128. *)
Record std_fs s : Prop := {
  sf_log : get Struct.s_log_block_size (super s) = 0;
  sf_size : inode_size s = 128;
  sf_ipg : 0 < get s_inodes_per_group (super s) <= 65536
}.

(** Inode [n] lies at byte [off] of block [blk]. *)
Definition inode_at s (n blk off : Z) : Prop :=
  let ipg := get s_inodes_per_group (super s) in
  1 <= n < 2 ^ 32 /\ exists d, group_desc s ((n - 1) `div` ipg) = Some d /\
    blk = get bg_inode_table d + ((n - 1) `mod` ipg) `div` 8 /\ off = 128 * (((n - 1) `mod` ipg) `mod` 8).

Lemma inode_at_off s n blk off : inode_at s n blk off -> 0 <= off <= 896 /\ off `mod` 128 = 0.
Proof. intros (Hn & d & _ & _ & ->). lia. Qed.

Lemma std_fs_dev c s : std_fs (set_dev c s) <-> std_fs s.
Proof. split; intros []; done. Qed.

Lemma get_inode_eq s n blk off :
  std_fs s -> inode_at s n blk off ->
  get_inode n s = '(b, data, s) ← read_buf (u16 blk) s; res ← load off 128 data; s ← release b s; Some (res, s).
Proof.
  intros [Hl Hz Hi] (Hn & d & Hd & -> & ->). unfold get_inode. rewrite (u32_small (n - 1)) by lia.
  unfold udiv, umod. rewrite (proj2 (Z.eqb_neq (get s_inodes_per_group (super s)) 0)) by lia. cbn [mbind option_bind].
  set (ipg := get s_inodes_per_group (super s)) in *.
  assert (0 <= (n - 1) `div` ipg < 1024) as Hq.
  { unfold group_desc, GROUPS in Hd. destruct (Z.leb_spec 0 ((n - 1) `div` ipg)), (Z.ltb_spec ((n - 1) `div` ipg) 1024); done || lia. }
  rewrite (u16_small ((n - 1) `div` ipg)) by lia. rewrite Hd. cbn [mbind option_bind].
  unfold block_size. rewrite Hl, Hz. change (u16 (Z.shiftl 1024 0 `div` 128)) with 8. cbn [Z.eqb mbind option_bind].
  pose proof (Z.mod_pos_bound (n - 1) ipg ltac:(lia)) as Hr.
  rewrite (u16_small (((n - 1) `mod` ipg) `mod` 8)) by lia. rewrite u16_small by lia.
  by rewrite (Z.mul_comm (((n - 1) `mod` ipg) `mod` 8)).
Qed.

Lemma get_inode_spec k s n blk off data :
  std_fs s -> inode_at s n blk off -> quiet (S k) (dev s) -> bd_ok (u16 blk) -> holds (dev s) (u16 blk) data ->
  exists c, get_inode n s = Some (slice (Z.to_nat off) 128 data, set_dev c s) /\ quiet (S k) c /\ same_view (dev s) c.
Proof.
  intros Hs Hat Hq Hok Hd. rewrite (get_inode_eq _ _ _ _ Hs Hat). pose proof (inode_at_off _ _ _ _ Hat) as [Ho _].
  pose proof (holds_length _ _ _ _ Hq Hok Hd) as Hlen.
  destruct (read_buf_spec k (u16 blk) data s Hq (proj1 (u16_bound blk)) Hok Hd) as (b & c & -> & Ht & Hv).
  cbn [mbind option_bind]. rewrite load_ok by lia. cbn [mbind option_bind].
  destruct (release_spec k b (u16 blk) data (set_dev c s) Ht) as (c' & -> & Hq' & Hv').
  exists c'. split_and!; [done..|]. intros m x Hm Hx. by apply Hv', Hv.
Qed.

Lemma write_inode_spec k s n blk off img data :
  std_fs s -> inode_at s n blk off -> length img = 128%nat ->
  quiet (S k) (dev s) -> 0 <= blk < 2 ^ 32 -> bd_ok blk -> holds (dev s) blk data ->
  exists c, write_inode_table n img s = Some (set_dev c s) /\ quiet (S k) c /\
    holds c blk (splice (Z.to_nat off) img data) /\
    forall m x, bd_ok m -> m ≠ blk -> holds (dev s) m x -> holds c m x.
Proof.
  intros [Hl Hz Hi] Hat Himg Hq Hb Hok Hd. pose proof (inode_at_off _ _ _ _ Hat) as [Ho _].
  pose proof (holds_length _ _ _ _ Hq Hok Hd) as Hlen. destruct Hat as (Hn & d & Hg & Hblk & Hoff).
  unfold write_inode_table. rewrite (u32_small (n - 1)) by lia.
  set (ipg := get s_inodes_per_group (super s)) in *.
  unfold udiv, umod. rewrite (proj2 (Z.eqb_neq ipg 0)) by lia. cbn [mbind option_bind].
  assert (0 <= (n - 1) `div` ipg < 1024) as Hgr.
  { unfold group_desc, GROUPS in Hg. destruct (Z.leb_spec 0 ((n - 1) `div` ipg)), (Z.ltb_spec ((n - 1) `div` ipg) 1024); done || lia. }
  pose proof (Z.mod_pos_bound (n - 1) ipg ltac:(lia)) as Hr. set (r := (n - 1) `mod` ipg) in *.
  rewrite (u16_small ((n - 1) `div` ipg)), (u16_small r) by lia. rewrite Hg. cbn [mbind option_bind].
  replace ((r * 128) `div` 1024) with (r `div` 8) by lia. rewrite (u16_small (r `div` 8)) by lia.
  rewrite <- Hblk, u32_small by lia. replace ((r * 128) `mod` 1024) with off by lia. rewrite u16_small by lia.
  destruct (bread_quiet k (dev s) blk data Hq ltac:(lia) Hok Hd) as (b & c & -> & Ht & Hv). cbn [mbind option_bind].
  pose proof Ht as (fs & hs & bh & _ & _ & _ & _ & _ & Eb & _ & Hbd & _). rewrite Eb. cbn [mbind option_bind]. rewrite Hbd.
  rewrite store_ok by lia. cbn [mbind option_bind].
  destruct (write_back_spec k b blk data (splice (Z.to_nat off) img data) (set_dev c s) Ht) as (c' & -> & Hq' & Hh & Hf).
  { rewrite length_splice; lia. }
  exists c'. split_and!; [done..|]. intros m x Hm Hne Hx. apply Hf; [done..|]. by apply Hv.
Qed.

Lemma holds_total k c n : quiet k c -> bd_ok n -> exists data, holds c n data.
Proof.
  intros (fs & hs & Hc & _) Hn.
  destruct (decide (map_Exists (fun _ bh => b_blocknr bh = n /\ has_flag (flags bh) BH_uptodate = true) (bufs c)))
    as [(b & bh & Eb & Hbn & Hu)|Hno].
  - exists (b_data bh). left. by exists b, bh.
  - destruct (bd_read_ok n (disk c) Hn) as (data & E & _). exists data. right. split; [|done].
    intros b bh Eb Hbn. destruct (has_flag _ _) eqn:Hu; [|done]. destruct Hno. by exists b, bh.
Qed.

Lemma inode_at_dev c s n blk off : inode_at (set_dev c s) n blk off <-> inode_at s n blk off.
Proof. done. Qed.

(** *** The indirect block *)

Lemma indirect_range s i : std_fs s -> 12 <= i < 268 ->
  (i <? 12) = false /\ (i <? u32 (12 + u32 (block_size s `div` 4))) = true /\ u16 (i - 12) = i - 12.
Proof.
  intros [Hl _ _] Hi. unfold block_size. rewrite Hl. change (u32 (12 + u32 (Z.shiftl 1024 0 `div` 4))) with 268.
  split_and!; [apply Z.ltb_ge; lia|apply Z.ltb_lt; lia|apply u16_small; lia].
Qed.

Lemma set_indirect_spec k s file n i a data :
  std_fs s -> 12 <= i < 268 -> quiet (S k) (dev s) -> 0 <= get (i_block 12) file -> bd_ok (get (i_block 12) file) ->
  holds (dev s) (get (i_block 12) file) data ->
  exists c, set_i_block file n i a s = Some (file, set_dev c s) /\ quiet (S k) c /\
    holds c (get (i_block 12) file) (splice (Z.to_nat (i - 12)) (le_bytes 4 a) data).
Proof.
  intros Hs Hi Hq Hb Hok Hd. destruct (indirect_range s i Hs Hi) as (E1 & E2 & E3). unfold set_i_block.
  rewrite E1, E2, E3. pose proof (holds_length _ _ _ _ Hq Hok Hd) as Hlen.
  destruct (read_buf_spec k _ data s Hq Hb Hok Hd) as (b & c & -> & Ht & Hv). cbn [mbind option_bind].
  rewrite store_ok by (rewrite ?length_le_bytes; lia). cbn [mbind option_bind].
  destruct (write_back_spec k b _ data (splice (Z.to_nat (i - 12)) (le_bytes 4 a) data) (set_dev c s) Ht)
    as (c' & E & Hq' & Hh & _); [rewrite length_splice; rewrite ?length_le_bytes; lia|].
  exists c'. split; [|done]. apply bind_Some in E as (s1 & E & E'). rewrite E. cbn [mbind option_bind]. by rewrite E'.
Qed.

Lemma indirect_spec k s file i data :
  std_fs s -> 12 <= i < 268 -> quiet (S k) (dev s) -> 0 <= get (i_block 12) file -> bd_ok (get (i_block 12) file) ->
  holds (dev s) (get (i_block 12) file) data ->
  exists c, indirect_block file i s = Some (le_val (slice (Z.to_nat (i - 12)) 4 data), set_dev c s) /\ quiet k c.
Proof.
  intros Hs Hi Hq Hb Hok Hd. destruct (indirect_range s i Hs Hi) as (E1 & E2 & E3). unfold indirect_block.
  rewrite E1, E2, E3. pose proof (holds_length _ _ _ _ Hq Hok Hd) as Hlen.
  destruct (read_buf_spec k _ data s Hq Hb Hok Hd) as (b & c & -> & Ht & Hv). cbn [mbind option_bind].
  rewrite load_ok by lia. cbn [mbind option_bind]. exists c. split; [done|by eapply taken_quiet].
Qed.

Lemma slice_prefix o n m (l : list Z) : (n <= m)%nat -> slice o n l = take n (slice o m l).
Proof. intros H. unfold slice. rewrite take_take. f_equal. lia. Qed.

(** The first byte of one entry and three of the next. *)
Lemma overlapping_entries j a b data : (j + 5 <= length data)%nat ->
  le_val (slice j 4 (splice (S j) (le_bytes 4 b) (splice j (le_bytes 4 a) data))) = a `mod` 2 ^ 8 + 2 ^ 8 * (b `mod` 2 ^ 24).
Proof.
  intros Hl. set (d1 := splice j (le_bytes 4 a) data).
  assert (length d1 = length data) as Hl1 by (apply length_splice; rewrite length_le_bytes; lia).
  assert (slice j 1 (splice (S j) (le_bytes 4 b) d1) = [a `mod` 2 ^ 8]) as E1.
  { rewrite slice_splice_ne; [|rewrite length_le_bytes; lia|lia]. unfold d1.
    pose proof (slice_splice_eq j (le_bytes 4 a) data ltac:(lia)) as H. rewrite length_le_bytes in H.
    rewrite (slice_prefix j 1 4) by lia. by rewrite H. }
  assert (slice (S j) 3 (splice (S j) (le_bytes 4 b) d1) = take 3 (le_bytes 4 b)) as E3.
  { pose proof (slice_splice_eq (S j) (le_bytes 4 b) d1 ltac:(lia)) as H. rewrite length_le_bytes in H.
    rewrite (slice_prefix (S j) 3 4) by lia. by rewrite H. }
  set (d2 := splice (S j) (le_bytes 4 b) d1) in *.
  assert (slice j 4 d2 = slice j 1 d2 ++ slice (S j) 3 d2) as ->.
  { unfold slice. change 4%nat with (1 + 3)%nat. rewrite <- take_take_drop, drop_drop. by rewrite Nat.add_1_r. }
  rewrite E1, E3. cbn [app le_val]. f_equal. f_equal.
  change (take 3 (le_bytes 4 b)) with (le_bytes 3 b). by rewrite le_val_bytes.
Qed.
End Inode.

Section Claims.
Context {B : Type} `{!BlockDev B}.
Implicit Types s : ext2 (buffer_cache B).

(** C26: an inode written with write_inode_table reads back through get_inode
    exactly as written, and every inode stored at another place of the tables
    reads as it did before, when the inode's block number fits 16 bits. *)
Theorem inode_write_get k s n blk off img :
  std_fs s -> inode_at s n blk off -> length img = 128%nat -> quiet (S k) (dev s) ->
  0 <= blk < 2 ^ 16 -> bd_ok blk ->
  exists c1 c2, write_inode_table n img s = Some (set_dev c1 s) /\
    get_inode n (set_dev c1 s) = Some (img, set_dev c2 s) /\ quiet (S k) c2 /\
    forall m blk' off' y s', inode_at s m blk' off' -> 0 <= blk' < 2 ^ 16 -> bd_ok blk' -> (blk', off') ≠ (blk, off) ->
      get_inode m s = Some (y, s') -> exists c3, get_inode m (set_dev c1 s) = Some (y, set_dev c3 s).
Proof.
  intros Hs Hat Himg Hq Hb Hok. destruct (holds_total _ _ _ Hq Hok) as [data Hd].
  pose proof (holds_length _ _ _ _ Hq Hok Hd) as Hlen. pose proof (inode_at_off _ _ _ _ Hat) as [Ho Hoa].
  destruct (write_inode_spec k s n blk off img data) as (c1 & E1 & Hq1 & Hh1 & Hf1); try done; [lia|].
  pose proof (proj2 (std_fs_dev c1 s) Hs) as Hs1.
  destruct (get_inode_spec k (set_dev c1 s) n blk off (splice (Z.to_nat off) img data)) as (c2 & E2 & Hq2 & _);
    [done..|by rewrite u16_small|by rewrite u16_small|].
  exists c1, c2. split_and!; [done| |done|].
  { rewrite E2. f_equal. f_equal. rewrite <- Himg. apply slice_splice_eq. lia. }
  intros m blk' off' y s' Hat' Hb' Hok' Hne Ey. pose proof (inode_at_off _ _ _ _ Hat') as [Ho' Hoa'].
  destruct (holds_total _ _ _ Hq Hok') as [x Hx].
  destruct (get_inode_spec k s m blk' off' x) as (c0 & E0 & _); [done..|by rewrite u16_small|by rewrite u16_small|].
  rewrite E0 in Ey. injection Ey as <- _. destruct (decide (blk' = blk)) as [->|Hblk].
  - assert (x = data) as -> by exact (holds_unique _ _ _ _ _ Hq Hx Hd). assert (off' ≠ off) by congruence.
    destruct (get_inode_spec k (set_dev c1 s) m blk off' (splice (Z.to_nat off) img data)) as (c3 & E3 & _);
      [done..|by rewrite u16_small|by rewrite u16_small|].
    exists c3. rewrite E3. rewrite slice_splice_ne; [done|lia|rewrite Himg; lia].
  - destruct (get_inode_spec k (set_dev c1 s) m blk' off' x) as (c3 & E3 & _);
      [done..|by rewrite u16_small|rewrite u16_small by done; by apply Hf1|].
    exists c3. by rewrite E3.
Qed.

(** C27: get_inode keeps the block number in 16 bits, write_inode_table in 32:
    for an inode whose block is numbered 65536 or more, get_inode after
    write_inode_table returns what lies in the block with the number modulo
    65536, whatever was written. *)
Theorem get_inode_truncates k s n blk off img data' :
  std_fs s -> inode_at s n blk off -> length img = 128%nat -> quiet (S k) (dev s) ->
  2 ^ 16 <= blk < 2 ^ 32 -> bd_ok blk -> bd_ok (blk `mod` 2 ^ 16) -> holds (dev s) (blk `mod` 2 ^ 16) data' ->
  exists c1 c2, write_inode_table n img s = Some (set_dev c1 s) /\
    get_inode n (set_dev c1 s) = Some (slice (Z.to_nat off) 128 data', set_dev c2 s).
Proof.
  intros Hs Hat Himg Hq Hb Hok Hok' Hd'. destruct (holds_total _ _ _ Hq Hok) as [data Hd].
  destruct (write_inode_spec k s n blk off img data) as (c1 & E1 & Hq1 & Hh1 & Hf1); try done; [lia|].
  pose proof (proj2 (std_fs_dev c1 s) Hs) as Hs1.
  destruct (get_inode_spec k (set_dev c1 s) n blk off data') as (c2 & E2 & _); [done..| |].
  - apply Hf1; [done| |done]. unfold u16. pose proof (Z.mod_pos_bound blk (2 ^ 16) ltac:(lia)). lia.
  - by exists c1, c2.
Qed.

(** The entries of the indirect block are addressed by byte: setting two
    consecutive blocks of a file leaves the first one mapped to a number made
    of its own low byte and the low three bytes of the second. *)
Theorem indirect_entries_overlap k s file n i a b :
  std_fs s -> 12 <= i < 267 -> quiet (S k) (dev s) -> 0 <= get (i_block 12) file -> bd_ok (get (i_block 12) file) ->
  exists s1 s2 s3, set_i_block file n i a s = Some (file, s1) /\ set_i_block file n (i + 1) b s1 = Some (file, s2) /\
    indirect_block file i s2 = Some (a `mod` 2 ^ 8 + 2 ^ 8 * (b `mod` 2 ^ 24), s3).
Proof.
  intros Hs Hi Hq Hb Hok. destruct (holds_total _ _ _ Hq Hok) as [data Hd].
  pose proof (holds_length _ _ _ _ Hq Hok Hd) as Hlen.
  destruct (set_indirect_spec k s file n i a data) as (c1 & E1 & Hq1 & Hh1); try done; [lia|].
  destruct (set_indirect_spec k (set_dev c1 s) file n (i + 1) b _ (proj2 (std_fs_dev c1 s) Hs) ltac:(lia) Hq1 Hb Hok Hh1) as (c2 & E2 & Hq2 & Hh2).
  destruct (indirect_spec k (set_dev c2 s) file i _ (proj2 (std_fs_dev c2 s) Hs) ltac:(lia) Hq2 Hb Hok Hh2) as (c3 & E3 & _).
  exists (set_dev c1 s), (set_dev c2 s), (set_dev c3 s). split_and!; [done..|]. rewrite E3. do 2 f_equal.
  replace (Z.to_nat (i + 1 - 12)) with (S (Z.to_nat (i - 12))) by lia. apply overlapping_entries. lia.
Qed.
End Claims.

(** ** An instance *)

Definition inode_super : list Z := put s_inodes_per_group 1024 (put s_blocks_per_group 8192 (replicate 1024 0)).

(** One group whose inode table starts at [table]. *)
Definition inode_fs (table : Z) (c : buffer_cache (gmap Z (list Z))) : ext2 (buffer_cache (gmap Z (list Z))) :=
  mk_ext2 _ inode_super (put bg_inode_table table (replicate 64 0)) 1 c.

Lemma inode_std_fs table c : std_fs (inode_fs table c).
Proof. split; [by vm_compute..|decided]. Qed.

Lemma demo_quiet : exists c, quiet 2 c /\ disk c = (∅ : gmap Z (list Z)) /\
  forall b bh, bufs c !! b = Some bh -> has_flag (flags bh) BH_uptodate = false.
Proof.
  destruct demo_created as (c & hs & _ & Hc & Hco & Hd & Hf). exists c. split_and!; [|done|].
  - exists [2000; 1000], hs. split_and!; [done..| |done]. intros b bh Eb. apply Hf in Eb as [_ E]. unfold unlocked. by rewrite E.
  - intros b bh Eb. apply Hf in Eb as [_ E]. by rewrite E.
Qed.

Lemma inode_write_get_witness :
  exists c c1 c2, write_inode_table 11 (replicate 128 65) (inode_fs 5 c) = Some (inode_fs 5 c1) /\
    get_inode 11 (inode_fs 5 c1) = Some (replicate 128 65, inode_fs 5 c2).
Proof.
  destruct demo_quiet as (c & Hq & _).
  destruct (inode_write_get 1 (inode_fs 5 c) 11 6 256 (replicate 128 65)) as (c1 & c2 & E1 & E2 & _).
  - apply inode_std_fs.
  - split; [lia|]. eexists. split; [reflexivity|]. split; reflexivity.
  - apply length_replicate.
  - exact Hq.
  - lia.
  - by apply demo_block_ok.
  - exists c, c1, c2. split; [exact E1|exact E2].
Defined.

Lemma get_inode_truncates_witness :
  exists c c1 c2, write_inode_table 11 (replicate 128 65) (inode_fs 65540 c) = Some (inode_fs 65540 c1) /\
    get_inode 11 (inode_fs 65540 c1) = Some (replicate 128 0, inode_fs 65540 c2).
Proof.
  destruct demo_quiet as (c & Hq & Hd & Hu).
  destruct (get_inode_truncates 1 (inode_fs 65540 c) 11 65541 256 (replicate 128 65) (replicate 1024 0)) as (c1 & c2 & E1 & E2).
  - apply inode_std_fs.
  - split; [lia|]. eexists. split; [reflexivity|]. split; reflexivity.
  - apply length_replicate.
  - exact Hq.
  - lia.
  - change (block_ok demo_volume 65541). unfold block_ok. change (SECTORS_PER_BLOCK demo_volume) with 2.
    cbn [demo_volume fs_start_set filesys_start Disk.s_log_block_size]. lia.
  - by apply demo_block_ok.
  - right. split; [intros b bh Eb _; by eapply Hu|]. cbn [dev inode_fs]. rewrite Hd. by vm_compute.
  - exists c, c1, c2. split; [exact E1|exact E2].
Defined.

Lemma indirect_entries_overlap_witness :
  exists s s1 s2 s3, set_i_block (put (i_block 12) 7 (replicate 128 0)) 11 12 1000 s = Some (put (i_block 12) 7 (replicate 128 0), s1) /\
    set_i_block (put (i_block 12) 7 (replicate 128 0)) 11 13 1001 s1 = Some (put (i_block 12) 7 (replicate 128 0), s2) /\
    indirect_block (B := gmap Z (list Z)) (put (i_block 12) 7 (replicate 128 0)) 12 s2 = Some (256488, s3).
Proof.
  destruct demo_quiet as (c & Hq & _). exists (inode_fs 5 c).
  apply (indirect_entries_overlap 1 (inode_fs 5 c) (put (i_block 12) 7 (replicate 128 0)) 11 12 1000 1001).
  - apply inode_std_fs.
  - lia.
  - exact Hq.
  - by vm_compute.
  - by apply demo_block_ok.
Defined.
