(* ===== verification/Dir.v ===== *)
(** * Directories and file contents (cat_file, ls_root, get_file_block,
    add_dentry, add_dentry_to_new_block, get_root_dir, chdir of
    fs/ext2/fs.c)

    A directory block is its bytes.  The two readers walk the entries by their
    [rec_len]; the writer lays entries of 72 bytes side by side.  Messages on
    the console are left out; what [cat_file] prints of the file and what
    [ls_root] prints per entry are the results.  Strings are byte lists with a
    terminator, as in CString. *)

From S2P Require Export CString Inode.

#[local] Ltac Zify.zify_post_hook ::= Z.to_euclidean_division_equations.

Definition d_inode := Eval vm_compute in the_field dentry_t "inode".
Definition d_rec_len := Eval vm_compute in the_field dentry_t "rec_len".
Definition d_name_len := Eval vm_compute in the_field dentry_t "name_len".
Definition d_file_type := Eval vm_compute in the_field dentry_t "file_type".

Definition EXT2_ROOT_INO : Z := 2.
Definition DENTRY_SIZE : Z := 72.

(** ** Walking a directory block *)

(** The four members at [pos] and the name's first bytes; [None] is a read
    beyond the buffer. *)
Definition entry_at (blk : list Z) (pos : Z) : option (Z * Z * Z * Z) :=
  ino ← load pos 4 blk;
  rec_len ← load (pos + 4) 2 blk;
  name_len ← load (pos + 6) 1 blk;
  file_type ← load (pos + 7) 1 blk;
  Some (le_val ino, le_val rec_len, le_val name_len, le_val file_type).

(** [memcpy(name, name_ptr, len); name[len] = 0] with [len] at most 255. *)
Definition entry_name (blk : list Z) (pos name_len : Z) : option (list Z) :=
  let len := if 255 <? name_len then 255 else name_len in
  nm ← load (pos + 8) (Z.to_nat len) blk;
  Some (nm ++ [0]).

Inductive scan := Found (ino : Z) | NotFound | Fault | OutOfFuel.

(** [while (pos < S_BLOCK_SIZE)] of [cat_file]. *)
Fixpoint dir_scan (fuel : nat) (bs : Z) (blk fn : list Z) (pos : Z) : scan :=
  match fuel with
  | O => OutOfFuel
  | S fuel =>
      if pos <? bs then
        match entry_at blk pos with
        | None => Fault
        | Some (ino, rec_len, name_len, _) =>
            let next := if (rec_len =? 0) || (bs <? pos + rec_len) then NotFound
                        else dir_scan fuel bs blk fn (pos + rec_len) in
            if ino =? 0 then next
            else match entry_name blk pos name_len ≫= fun nm => strcmp nm fn with
                 | None => Fault
                 | Some r => if r =? 0 then Found ino else next
                 end
        end
      else NotFound
  end.

(** What [cat_file] prints of a block: printable characters, new line,
    carriage return and tab. *)
Definition printable (c : Z) : bool := (32 <=? c) && (c <=? 126) || (c =? 10) || (c =? 13) || (c =? 9).

Section Dir.
Context {B : Type} `{!BlockDev B}.
Notation fsys := (ext2 (buffer_cache B)).
Implicit Types s : fsys.

(** [for (i = 0; i < 12 && bytes_left > 0; i++)]; [n] rounds are left. *)
Fixpoint cat_blocks (n : nat) (i bytes_left : Z) (inode : list Z) s : option (list Z * fsys) :=
  match n with
  | O => Some ([], s)
  | S n =>
      if 0 <? bytes_left then
        let blk := get (i_block i) inode in
        if blk =? 0 then Some ([], s)
        else
          '(o, c) ← bread 2 DEV_NO blk (dev s);
          let s := set_dev c s in
          match o with
          | None => Some ([], s)
          | Some b =>
              bh ← bufs c !! b;
              let to_read := if block_size s <? bytes_left then block_size s else bytes_left in
              bytes ← load 0 (Z.to_nat to_read) (b_data bh);
              s ← release b s;
              '(rest, s) ← cat_blocks n (i + 1) (bytes_left - to_read) inode s;
              Some (List.filter printable bytes ++ rest, s)
          end
      else Some ([], s)
  end.

(** The inner [None]: the file was not found, or the directory not read.
    [dir_scan] needs at most one round per byte of the block. *)
Definition cat_file (fn : list Z) s : option (option (list Z) * fsys) :=
  '(root_inode, s) ← get_inode EXT2_ROOT_INO s;
  '(o, c) ← bread 2 DEV_NO (get (i_block 0) root_inode) (dev s);
  let s := set_dev c s in
  match o with
  | None => Some (None, s)
  | Some b =>
      bh ← bufs c !! b;
      target_ino ← match dir_scan (S (Z.to_nat (block_size s))) (block_size s) (b_data bh) fn 0 with
                   | Found ino => Some ino | NotFound => Some 0 | Fault | OutOfFuel => None end;
      s ← release b s;
      if target_ino =? 0 then Some (None, s)
      else
        '(inode, s) ← get_inode target_ino s;
        '(out, s) ← cat_blocks 12 0 (get i_size inode) inode s;
        Some (Some out, s)
  end.

(** [ls_root]: inode number, type, size and name of each entry. *)
Fixpoint ls_entries (fuel : nat) (blk : list Z) (pos : Z) s : option (list (Z * Z * Z * list Z) * fsys) :=
  match fuel with
  | O => None
  | S fuel =>
      if pos <? block_size s then
        '(ino, rec_len, name_len, file_type) ← entry_at blk pos;
        '(here, s) ← (if ino =? 0 then Some ([], s)
                      else nm ← entry_name blk pos name_len;
                           '(ind, s) ← get_inode ino s;
                           Some ([(ino, file_type, get i_size ind, nm)], s));
        if (rec_len =? 0) || (block_size s <? pos + rec_len) then Some (here, s)
        else '(rest, s) ← ls_entries fuel blk (pos + rec_len) s; Some (here ++ rest, s)
      else Some ([], s)
  end.

Definition ls_root s : option (list (Z * Z * Z * list Z) * fsys) :=
  '(root_inode, s) ← get_inode EXT2_ROOT_INO s;
  '(o, c) ← bread 2 DEV_NO (get (i_block 0) root_inode) (dev s);
  let s := set_dev c s in
  match o with
  | None => Some ([], s)
  | Some b =>
      bh ← bufs c !! b;
      '(es, s) ← ls_entries (S (Z.to_nat (block_size s))) (b_data bh) 0 s;
      s ← release b s;
      Some (es, s)
  end.

(** ** Adding an entry *)

(** The buffer of the [i]th block of a file; [alloc] tells whether kmalloc
    gives the buffer that is then not used.  The inner [None] is null. *)
Definition get_file_block (alloc : bool) (file : list Z) (i : Z) s : option (option Z * fsys) :=
  '(block_n, s) ← indirect_block file i s;
  if negb alloc then Some (None, s)
  else
    '(o, c) ← bread 2 DEV_NO block_n (dev s);
    Some (o, set_dev c s).

(** A call of the allocator, which works on the disk below the cache. *)
Definition on_disk {A} (f : ext2 B -> option (A * ext2 B)) s : option (A * fsys) :=
  let c := dev s in
  '(a, e) ← f (mk_ext2 _ (super s) (bgdt s) (n_block_groups s) (disk c));
  Some (a, mk_ext2 _ (super e) (bgdt e) (n_block_groups e) (mk_cache _ (bufs c) (links c) (dev e))).

(** When no block is free [new_block] keeps what the stack held: [stale]. *)
Definition add_dentry_to_new_block (stale : Z) (dir : list Z) (inode_n : Z) (d : list Z) s : option (Z * fsys) :=
  '(r, s) ← on_disk reserve_free_block s;
  let new_block := default stale r in
  '(dir, s) ← add_block_to_file dir inode_n new_block s;
  let d := put d_rec_len (u16 (block_size s)) d in
  write_block_at new_block 0 d s.

(** [while (pos < S_BLOCK_SIZE)] of [add_dentry]: entries read and the last
    one's position.  It never ends at an entry with [rec_len] 0. *)
Fixpoint last_entry (fuel : nat) (bs : Z) (blk : list Z) (pos dentries_read : Z) (curr : option Z)
  : option (Z * option Z) :=
  match fuel with
  | O => None
  | S fuel =>
      if pos <? bs then
        rec_len ← load (pos + 4) 2 blk;
        last_entry fuel bs blk (u16 (pos + le_val rec_len)) (u8 (dentries_read + 1)) (Some pos)
      else Some (dentries_read, curr)
  end.

Definition add_dentry (fuel : nat) (alloc : bool) (stale : Z) (dir : list Z) (inode_n : Z) (d : list Z) s
  : option (Z * fsys) :=
  let block_len := i_block_len dir s in
  if block_len =? 0 then add_dentry_to_new_block stale dir inode_n d s
  else
    '(o, s) ← get_file_block alloc dir (u32 (block_len - 1)) s;
    match o with
    | None => Some (-1, s)
    | Some b =>
        bh ← bufs (dev s) !! b;
        let block := b_data bh in
        '(dentries_read, curr) ← last_entry fuel (block_size s) block 0 0 None;
        if block_size s `div` DENTRY_SIZE <=? dentries_read then add_dentry_to_new_block stale dir inode_n d s
        else
          curr ← curr;
          block ← (if 0 <? dentries_read then store (curr + 4) (le_bytes 2 DENTRY_SIZE) block else Some block);
          block ← store (curr + DENTRY_SIZE) (put d_rec_len (u16 (block_size s - dentries_read * DENTRY_SIZE)) d) block;
          s ← fill_buf b block s;
          '(fblock_n, s) ← indirect_block dir (u32 (block_len - 1)) s;
          let c := dev s in
          dsk ← bd_write fblock_n block (disk c);
          Some (0, set_dev (mk_cache _ (bufs c) (links c) dsk) s)
    end.

Definition get_root_dir s : option (list Z * Z * fsys) :=
  '(i, s) ← get_inode EXT2_ROOT_INO s; Some (i, EXT2_ROOT_INO, s).

(** The entries of one block, 72 bytes apart; the name is the member's 64
    bytes, read as a string. *)
Fixpoint find_name (n : nat) (i : Z) (blk name : list Z) : option (option Z) :=
  match n with
  | O => Some None
  | S n =>
      d ← load (i * DENTRY_SIZE) 72 blk;
      r ← strcmp (slice 8 64 d) name;
      if r =? 0 then Some (Some (get d_inode d)) else find_name n (i + 1) blk name
  end.

(** [free] is kfree of the block's memory, which the buffer cache still holds. *)
Fixpoint chdir_blocks (alloc : bool) (free : Z -> fsys -> option fsys) (n : nat) (i : Z) (dir name : list Z) s
  : option (option (list Z * Z) * fsys) :=
  match n with
  | O => Some (None, s)
  | S n =>
      '(o, s) ← get_file_block alloc dir i s;
      match o with
      | None => Some (None, s)
      | Some b =>
          bh ← bufs (dev s) !! b;
          r ← find_name (Z.to_nat (block_size s `div` DENTRY_SIZE)) 0 (b_data bh) name;
          match r with
          | Some ino => '(inode, s) ← get_inode ino s; Some (Some (inode, ino), s)
          | None => s ← free b s; chdir_blocks alloc free n (i + 1) dir name s
          end
      end
  end.

(** The inner [None] is the error return. *)
Definition chdir (alloc : bool) (free : Z -> fsys -> option fsys) (current_dir name : list Z) s
  : option (option (list Z * Z) * fsys) :=
  chdir_blocks alloc free (Z.to_nat (i_block_len current_dir s)) 0 current_dir name s.
End Dir.

(** ** The walk ends *)

Lemma load_nonneg off len blk w : Forall is_byte blk -> load off len blk = Some w -> 0 <= le_val w.
Proof.
  unfold load. destruct (_ && _); [|done]. intros Hb [= <-]. apply le_val_bound, slice_bytes, Hb.
Qed.

Lemma entry_at_nonneg blk pos ino rl nl ft :
  Forall is_byte blk -> entry_at blk pos = Some (ino, rl, nl, ft) -> 0 <= rl /\ 0 <= nl.
Proof.
  intros Hb. unfold entry_at. intros (a & _ & H)%bind_Some. apply bind_Some in H as (b & E1 & H).
  apply bind_Some in H as (c & E2 & H). apply bind_Some in H as (d & _ & [= _ <- <- _]).
  split; by eapply load_nonneg.
Qed.

Lemma dir_scan_fuel fuel bs blk fn pos :
  Forall is_byte blk -> (0 < fuel)%nat -> bs - pos < Z.of_nat fuel -> dir_scan fuel bs blk fn pos ≠ OutOfFuel.
Proof.
  intros Hb. revert pos. induction fuel as [|fuel IH]; intros pos H0 Hf; cbn [dir_scan]; [lia|].
  destruct (Z.ltb_spec pos bs); [|done].
  destruct (entry_at blk pos) as [[[[ino rl] nl] ft]|] eqn:E; [|done].
  apply entry_at_nonneg in E as [Hrl _]; [|done].
  assert ((if (rl =? 0) || (bs <? pos + rl) then NotFound else dir_scan fuel bs blk fn (pos + rl)) ≠ OutOfFuel) as Hnext.
  { destruct (Z.eqb_spec rl 0); [done|]. cbn [orb]. destruct (Z.ltb_spec bs (pos + rl)); [done|]. apply IH; lia. }
  destruct (ino =? 0); [done|]. destruct (_ ≫= _) as [r|]; [|done]. by destruct (r =? 0).
Qed.

(** ** What it finds *)

(** The entries of a well-formed block from [pos] on: inode number and name. *)
Inductive chain (blk : list Z) : Z -> list (Z * list Z) -> Prop :=
| chain_end : chain blk 1024 []
| chain_entry pos ino rl name ft es :
    0 <= pos -> entry_at blk pos = Some (ino, rl, Z.of_nat (length name), ft) ->
    slice (Z.to_nat (pos + 8)) (length name) blk = name -> 0 ∉ name ->
    8 + Z.of_nat (length name) <= rl -> pos + rl <= 1024 -> chain blk (pos + rl) es ->
    chain blk pos ((ino, name) :: es).

Fixpoint lookup_name (es : list (Z * list Z)) (name : list Z) : option Z :=
  match es with
  | [] => None
  | (ino, nm) :: es => if bool_decide (ino ≠ 0 /\ nm = name) then Some ino else lookup_name es name
  end.

Lemma entry_name_spec blk pos name :
  0 <= pos -> length blk = 1024%nat -> slice (Z.to_nat (pos + 8)) (length name) blk = name ->
  pos + 8 + Z.of_nat (length name) <= 1024 -> (length name <= 255)%nat ->
  entry_name blk pos (Z.of_nat (length name)) = Some (name ++ [0]).
Proof.
  intros Hp Hl Hs Hb Hn. unfold entry_name. destruct (Z.ltb_spec 255 (Z.of_nat (length name))); [lia|].
  rewrite load_ok by lia. rewrite Nat2Z.id, Hs. done.
Qed.

Lemma entry_at_name_len blk pos ino rl nl ft :
  Forall is_byte blk -> entry_at blk pos = Some (ino, rl, nl, ft) -> nl < 256.
Proof.
  intros Hb. unfold entry_at. intros (a & _ & H)%bind_Some. apply bind_Some in H as (b & _ & H).
  apply bind_Some in H as (c & E2 & H). apply bind_Some in H as (d & _ & [= _ _ <- _]).
  unfold load in E2. destruct (_ && _) eqn:Eb; [|done]. injection E2 as <-. apply andb_true_iff in Eb as [E1 E2].
  rewrite Z.leb_le in E1, E2. pose proof (le_val_bound _ (slice_bytes (Z.to_nat (pos + 6)) 1 blk Hb)) as H.
  replace (length (slice (Z.to_nat (pos + 6)) 1 blk)) with 1%nat in H; [lia|].
  unfold slice. rewrite length_take, length_drop. lia.
Qed.

Lemma dir_scan_spec blk fn name pos es fuel :
  length blk = 1024%nat -> Forall is_byte blk -> cstring fn name -> Forall (fun c => 0 <= c) name ->
  chain blk pos es -> 1024 - pos < Z.of_nat fuel ->
  dir_scan fuel 1024 blk fn pos = match lookup_name es name with Some ino => Found ino | None => NotFound end.
Proof.
  intros Hl Hb Hfn Hpos Hch. revert fuel. induction Hch as [|pos ino rl nm ft es Hp E Hs Hn Hrl Hend Hch IH]; intros fuel Hf.
  { by destruct fuel; [lia|]. }
  destruct fuel as [|fuel]; [lia|]. cbn [dir_scan lookup_name]. destruct (Z.ltb_spec pos 1024); [|lia].
  rewrite E. rewrite (proj2 (Z.eqb_neq rl 0)), (proj2 (Z.ltb_ge 1024 (pos + rl))) by lia. cbn [orb].
  rewrite IH by lia. destruct (Z.eqb_spec ino 0) as [->|Hi]; [by rewrite bool_decide_false by (intros []; done)|].
  pose proof (entry_at_name_len _ _ _ _ _ _ Hb E) as Hnl.
  rewrite entry_name_spec by (done || lia). cbn [mbind option_bind].
  destruct (strcmp_lex (nm ++ [0]) fn nm name) as (r & -> & Hr); [by exists []|done| |done|].
  { rewrite <- Hs. eapply Forall_impl; [by apply slice_bytes|]. intros x Hx. apply Hx. }
  destruct (Z.eqb_spec r 0) as [->|Hr0].
  - symmetry in Hr. apply lex_eq in Hr. by rewrite bool_decide_true.
  - rewrite bool_decide_false; [done|]. intros [_ ->]. rewrite (proj2 (lex_eq name name) eq_refl) in Hr.
    by apply Z.compare_eq_iff in Hr.
Qed.

(** ** Printing a file *)

Section Cat.
Context {B : Type} `{!BlockDev B}.
Implicit Types s : ext2 (buffer_cache B).

(** The blocks [datas] of the file from the [i]th on. *)
Definition file_blocks s (inode : list Z) (i : Z) (datas : list (list Z)) : Prop :=
  forall j d, datas !! j = Some d ->
    let blk := get (i_block (i + Z.of_nat j)) inode in 0 < blk /\ bd_ok blk /\ holds (dev s) blk d.

Lemma file_blocks_view c s inode i datas :
  same_view (dev s) c -> file_blocks s inode i datas -> file_blocks (set_dev c s) inode i datas.
Proof. intros Hv H j d Ej. destruct (H j d Ej) as (? & ? & ?). split_and!; [done..|]. by apply Hv. Qed.

Lemma same_view_trans (c1 c2 c3 : buffer_cache B) : same_view c1 c2 -> same_view c2 c3 -> same_view c1 c3.
Proof. intros H1 H2 m x Hm Hx. by apply H2, H1. Qed.

Lemma cat_blocks_spec k n i left inode datas s :
  std_fs s -> quiet (S k) (dev s) -> 0 <= i -> 0 <= left <= 1024 * Z.of_nat (length datas) -> (length datas <= n)%nat ->
  file_blocks s inode i datas ->
  exists c, cat_blocks n i left inode s = Some (List.filter printable (take (Z.to_nat left) (concat datas)), set_dev c s) /\
    quiet (S k) c /\ same_view (dev s) c.
Proof.
  intros Hs. assert (block_size s = 1024) as Hbs by (unfold block_size; by rewrite (sf_log s Hs)).
  revert i left n s Hs Hbs. induction datas as [|d datas IH]; intros i left n s Hs Hbs Hq Hi Hleft Hn Hfb.
  { assert (left = 0) as -> by (simpl in Hleft; lia). exists (dev s).
    destruct n; cbn [cat_blocks]; (split; [by destruct s|split; [done|by intros m x]]). }
  destruct n as [|n]; [simpl in Hn; lia|]. cbn [cat_blocks].
  destruct (Z.ltb_spec 0 left) as [Hpos|Hz].
  2: { assert (left = 0) as -> by lia. exists (dev s). split; [by destruct s|split; [done|by intros m x]]. }
  destruct (Hfb 0%nat d eq_refl) as (Hb & Hok & Hd). rewrite Z.add_0_r in Hb, Hok, Hd.
  rewrite (proj2 (Z.eqb_neq _ _)) by lia. pose proof (holds_length _ _ _ _ Hq Hok Hd) as Hlen.
  destruct (bread_quiet k (dev s) (get (i_block i) inode) d Hq ltac:(lia) Hok Hd) as (b & c & -> & Ht & Hv). cbn [mbind option_bind].
  pose proof Ht as (fs & hs & bh & _ & _ & _ & _ & _ & Eb & _ & Hbd & _). rewrite Eb. cbn [mbind option_bind].
  change (block_size (set_dev c s)) with (block_size s). rewrite Hbs, Hbd.
  set (r := if 1024 <? left then 1024 else left). assert (0 < r <= 1024 /\ r <= left /\ (r = 1024 \/ r = left)) as Hr.
  { unfold r. destruct (Z.ltb_spec 1024 left); lia. }
  rewrite load_ok by lia. cbn [mbind option_bind].
  destruct (release_spec k b _ d (set_dev c s) Ht) as (c' & -> & Hq' & Hv'). cbn [mbind option_bind].
  rewrite set_dev_set_dev. pose proof (same_view_trans _ _ _ Hv Hv') as Hv2.
  destruct (IH (i + 1) (left - r) n (set_dev c' s)) as (c2 & -> & Hq2 & Hv3).
  - by apply std_fs_dev.
  - done.
  - done.
  - lia.
  - cbn [length] in Hleft. lia.
  - simpl in Hn. lia.
  - apply file_blocks_view; [done|]. intros j x Ej. specialize (Hfb (S j) x Ej).
    by replace (i + 1 + Z.of_nat j) with (i + Z.of_nat (S j)) by lia.
  - exists c2. split_and!; [|done|by eapply same_view_trans].
    cbn [mbind option_bind concat]. rewrite set_dev_set_dev. do 2 f_equal.
    rewrite <- List.filter_app. f_equal. unfold slice. rewrite drop_0. destruct Hr as (Hr & Hrl & [Hr1|Hr1]).
    + rewrite Hr1. rewrite take_ge by lia. rewrite take_app_ge by lia. f_equal. f_equal. lia.
    + rewrite Hr1, Z.sub_diag. rewrite take_app_le by lia. by rewrite take_0, app_nil_r.
Qed.

(** A directory whose block at [blk] lists [es]. *)
Definition lists_dir s (blk : Z) (es : list (Z * list Z)) : Prop :=
  exists data, 0 <= blk /\ bd_ok blk /\ holds (dev s) blk data /\ Forall is_byte data /\ chain data 0 es.

(** Inode [n] is stored as [img]. *)
Definition stored s (n : Z) (img : list Z) : Prop :=
  exists blk off data, inode_at s n blk off /\ 0 <= blk < 2 ^ 16 /\ bd_ok blk /\ holds (dev s) blk data /\
    img = slice (Z.to_nat off) 128 data.

Lemma stored_view c s n img : same_view (dev s) c -> stored s n img -> stored (set_dev c s) n img.
Proof.
  intros Hv (blk & off & data & Hat & Hb & Hok & Hh & ->). exists blk, off, data.
  split_and!; [done|lia|lia|done|by apply Hv|done].
Qed.

Lemma get_stored k s n img : std_fs s -> quiet (S k) (dev s) -> stored s n img ->
  exists c, get_inode n s = Some (img, set_dev c s) /\ quiet (S k) c /\ same_view (dev s) c.
Proof.
  intros Hs Hq (blk & off & data & Hat & Hb & Hok & Hh & ->).
  apply (get_inode_spec k s n blk off data); [done..| |]; by rewrite u16_small.
Qed.

(** The part of [cat_file] after the search. *)
Definition cat_found (target_ino : Z) s : option (option (list Z) * ext2 (buffer_cache B)) :=
  if target_ino =? 0 then Some (None, s)
  else
    '(inode, s) ← get_inode target_ino s;
    '(out, s) ← cat_blocks 12 0 (get i_size inode) inode s;
    Some (Some out, s).

Lemma cat_search k s root es fn name :
  std_fs s -> quiet (S k) (dev s) -> stored s EXT2_ROOT_INO root ->
  lists_dir s (get (i_block 0) root) es -> cstring fn name -> Forall (fun c => 0 <= c) name ->
  exists c, cat_file fn s = cat_found (default 0 (lookup_name es name)) (set_dev c s) /\
    quiet (S k) c /\ same_view (dev s) c.
Proof.
  intros Hs Hq Hroot (data & Hb & Hok & Hh & Hby & Hch) Hfn Hnn. unfold cat_file.
  destruct (get_stored k s _ _ Hs Hq Hroot) as (c1 & -> & Hq1 & Hv1). cbn [mbind option_bind].
  change (dev (set_dev c1 s)) with c1. pose proof (Hv1 _ _ Hok Hh) as Hh1.
  pose proof (holds_length _ _ _ _ Hq1 Hok Hh1) as Hlen.
  destruct (bread_quiet k c1 _ data Hq1 Hb Hok Hh1) as (b & c2 & -> & Ht & Hv2). cbn [mbind option_bind].
  pose proof Ht as (fs & hs & bh & _ & _ & _ & _ & _ & Eb & _ & Hbd & _). rewrite Eb. cbn [mbind option_bind].
  change (block_size (set_dev c2 (set_dev c1 s))) with (block_size s).
  assert (block_size s = 1024) as -> by (unfold block_size; by rewrite (sf_log s Hs)).
  assert (1024 - 0 < Z.of_nat (S (Z.to_nat 1024))) as Hfuel by lia. revert Hfuel.
  generalize (S (Z.to_nat 1024)). intros fuel Hfuel.
  rewrite Hbd, (dir_scan_spec data fn name 0 es fuel Hlen Hby Hfn Hnn Hch Hfuel).
  destruct (release_spec k b _ data (set_dev c2 (set_dev c1 s)) Ht) as (c3 & E3 & Hq3 & Hv3).
  exists c3. split_and!; [|done|eapply same_view_trans; [exact Hv1|]; eapply same_view_trans; [exact Hv2|exact Hv3]].
  by destruct (lookup_name es name); cbn [mbind option_bind default]; rewrite E3.
Qed.

Lemma lookup_nonzero es name ino : lookup_name es name = Some ino -> ino ≠ 0.
Proof.
  induction es as [|[i nm] es IH]; simpl; [done|]. case_bool_decide as Hd; [|by apply IH]. intros [= ->]. by destruct Hd.
Qed.

(** The directory walk of cat_file ends on every block, whatever its
    bytes: one round per byte of the block is always enough. *)
Theorem dir_scan_terminates blk fn : length blk = 1024%nat -> Forall is_byte blk -> dir_scan 1025 1024 blk fn 0 ≠ OutOfFuel.
Proof. intros Hl Hb. apply dir_scan_fuel; [done|lia|lia]. Qed.

(** [cat_file] finds a file exactly when the root directory lists its name
    with a nonzero inode number, and then prints the printable characters of
    the file's contents, block after block up to its size, for a file that
    fits its twelve direct blocks; every buffer it read is free again. *)
Theorem cat_file_correct k s root es fn name :
  std_fs s -> quiet (S k) (dev s) -> stored s EXT2_ROOT_INO root ->
  lists_dir s (get (i_block 0) root) es -> cstring fn name -> Forall (fun c => 0 <= c) name ->
  match lookup_name es name with
  | None => exists c, cat_file fn s = Some (None, set_dev c s) /\ quiet (S k) c
  | Some ino => forall img datas,
      stored s ino img -> file_blocks s img 0 datas -> (length datas <= 12)%nat ->
      0 <= get i_size img <= 1024 * Z.of_nat (length datas) ->
      exists c, cat_file fn s = Some (Some (List.filter printable (take (Z.to_nat (get i_size img)) (concat datas))), set_dev c s) /\
        quiet (S k) c
  end.
Proof.
  intros Hs Hq Hroot Hdir Hfn Hnn.
  destruct (cat_search k s root es fn name Hs Hq Hroot Hdir Hfn Hnn) as (c & -> & Hqc & Hv).
  destruct (lookup_name es name) as [ino|] eqn:El; [|by exists c].
  intros img datas Hst Hfb Hn Hsz. apply lookup_nonzero in El. change (default 0 (Some ino)) with ino. unfold cat_found.
  revert Hn. generalize 12%nat. intros nb Hn.
  rewrite (proj2 (Z.eqb_neq ino 0)) by done. pose proof (proj2 (std_fs_dev c s) Hs) as Hsc.
  destruct (get_stored k (set_dev c s) ino img Hsc Hqc (stored_view _ _ _ _ Hv Hst)) as (c4 & -> & Hq4 & Hv4).
  cbn [mbind option_bind]. rewrite set_dev_set_dev.
  destruct (cat_blocks_spec k nb 0 (get i_size img) img datas (set_dev c4 s)) as (c5 & -> & Hq5 & _);
    [by apply std_fs_dev|done|lia|done|done|apply file_blocks_view; [by eapply same_view_trans|done]|].
  cbn [mbind option_bind]. by exists c5.
Qed.
End Cat.

(** ** Adding entries *)

(** A block that [add_dentry] fills: entries of 72 bytes side by side, the
    last one's [rec_len] reaching to the end. *)
Definition packed (data : list Z) (es : list (Z * list Z)) : Prop :=
  (1 <= length es <= 14)%nat /\
  forall i ino name, es !! i = Some (ino, name) ->
    le_val (slice (72 * i) 4 data) = ino /\
    le_val (slice (72 * i + 4) 2 data) = (if (S i =? length es)%nat then 1024 - 72 * Z.of_nat i else 72) /\
    le_val (slice (72 * i + 6) 1 data) = Z.of_nat (length name) /\
    slice (72 * i + 8) (length name) data = name /\ 0 ∉ name /\ (length name <= 64)%nat.

Lemma entry_at_slices blk p : (p + 8 <= length blk)%nat ->
  entry_at blk (Z.of_nat p) = Some (le_val (slice p 4 blk), le_val (slice (p + 4) 2 blk), le_val (slice (p + 6) 1 blk), le_val (slice (p + 7) 1 blk)).
Proof.
  intros H. unfold entry_at. rewrite !load_ok by lia. cbn [mbind option_bind].
  replace (Z.to_nat (Z.of_nat p + 4)) with (p + 4)%nat by lia. replace (Z.to_nat (Z.of_nat p + 6)) with (p + 6)%nat by lia.
  replace (Z.to_nat (Z.of_nat p + 7)) with (p + 7)%nat by lia. by rewrite Nat2Z.id.
Qed.

Lemma packed_chain data es : length data = 1024%nat -> packed data es -> chain data 0 es.
Proof.
  intros Hl [Hk Hes].
  assert (forall n i, (i + n = length es)%nat -> (0 < n)%nat -> chain data (72 * Z.of_nat i) (drop i es)) as H.
  { induction n as [|n IH]; intros i Hi Hn; [lia|].
    destruct (lookup_lt_is_Some_2 es i ltac:(lia)) as [[ino name] Ei].
    rewrite (drop_S _ _ _ Ei). destruct (Hes i ino name Ei) as (E1 & E2 & E3 & E4 & E5 & E6).
    replace (72 * Z.of_nat i) with (Z.of_nat (72 * i)) by lia.
    set (rl := if (S i =? length es)%nat then 1024 - 72 * Z.of_nat i else 72) in *.
    apply (chain_entry _ _ _ rl _ (le_val (slice (72 * i + 7) 1 data))); [lia| | |done| | |].
    - rewrite entry_at_slices by lia. by rewrite E1, E2, E3.
    - replace (Z.to_nat (Z.of_nat (72 * i) + 8)) with (72 * i + 8)%nat by lia. exact E4.
    - unfold rl. destruct (Nat.eqb_spec (S i) (length es)); lia.
    - unfold rl. destruct (Nat.eqb_spec (S i) (length es)); lia.
    - unfold rl. destruct (Nat.eqb_spec (S i) (length es)) as [He|He].
      + rewrite drop_ge by lia. replace (Z.of_nat (72 * i) + (1024 - 72 * Z.of_nat i)) with 1024 by lia. apply chain_end.
      + replace (Z.of_nat (72 * i) + 72) with (72 * Z.of_nat (S i)) by lia. apply IH; lia. }
  apply (H (length es) 0%nat); lia.
Qed.

Lemma last_entry_spec data es fuel : length data = 1024%nat -> packed data es -> (length es < fuel)%nat ->
  last_entry fuel 1024 data 0 0 None = Some (Z.of_nat (length es), Some (72 * (Z.of_nat (length es) - 1))).
Proof.
  intros Hl [Hk Hes] Hf.
  assert (forall n i f cur, (i + n = length es)%nat -> (0 < n)%nat -> (n < f)%nat ->
    last_entry f 1024 data (72 * Z.of_nat i) (Z.of_nat i) cur = Some (Z.of_nat (length es), Some (72 * (Z.of_nat (length es) - 1)))) as H.
  { induction n as [|n IH]; intros i f cur Hi Hn Hfn; [lia|]. destruct f as [|f]; [lia|]. cbn [last_entry].
    destruct (Z.ltb_spec (72 * Z.of_nat i) 1024); [|lia].
    destruct (lookup_lt_is_Some_2 es i ltac:(lia)) as [[ino name] Ei].
    destruct (Hes i ino name Ei) as (_ & E2 & _). rewrite load_ok by lia. cbn [mbind option_bind].
    replace (Z.to_nat (72 * Z.of_nat i + 4)) with (72 * i + 4)%nat by lia. rewrite E2. rewrite (u8_small (Z.of_nat i + 1)) by lia.
    destruct (Nat.eqb_spec (S i) (length es)) as [He|He].
    - rewrite u16_small by lia. destruct f as [|f]; [lia|]. cbn [last_entry].
      destruct (Z.ltb_spec (72 * Z.of_nat i + (1024 - 72 * Z.of_nat i)) 1024); [lia|]. do 2 f_equal; [lia|f_equal; lia].
    - rewrite u16_small by lia. replace (72 * Z.of_nat i + 72) with (72 * Z.of_nat (S i)) by lia.
      replace (Z.of_nat i + 1) with (Z.of_nat (S i)) by lia. apply IH; lia. }
  by apply (H (length es) 0%nat); lia.
Qed.

Lemma slice_splice_in off new img o n :
  (off + length new <= length img)%nat -> (o + n <= length new)%nat ->
  slice (off + o) n (splice off new img) = slice o n new.
Proof.
  intros H Ho. apply list_eq. intros j. unfold slice, splice.
  destruct (decide (j < n)%nat); [|by rewrite !lookup_take_ge by lia].
  rewrite !lookup_take_lt, !lookup_drop by lia. rewrite lookup_app_r, length_take by (rewrite length_take; lia).
  rewrite lookup_app_l by lia. f_equal. lia.
Qed.

(** The image of an entry with inode [ino] and name [name]. *)
Definition entry_image (d : list Z) (ino : Z) (name : list Z) : Prop :=
  length d = 72%nat /\ get d_inode d = ino /\ get d_name_len d = Z.of_nat (length name) /\
  slice 8 (length name) d = name /\ 0 ∉ name /\ (length name <= 64)%nat.

(** The block after [add_dentry] has changed it. *)
Definition with_entry (data : list Z) (k : nat) (d : list Z) : list Z :=
  splice (72 * k) (put d_rec_len (1024 - 72 * Z.of_nat k) d) (splice (72 * (k - 1) + 4) (le_bytes 2 DENTRY_SIZE) data).

Lemma length_with_entry data k d :
  length data = 1024%nat -> length d = 72%nat -> (1 <= k < 14)%nat -> length (with_entry data k d) = 1024%nat.
Proof.
  intros Hl Hd Hk. unfold with_entry.
  assert (length (put d_rec_len (1024 - 72 * Z.of_nat k) d) = 72%nat) as Hp
    by (rewrite put_length by (rewrite Hd; unfold inside; simpl; lia); done).
  rewrite !length_splice by (rewrite ?length_splice; rewrite ?length_le_bytes; lia). done.
Qed.

Lemma packed_add data es d ino name :
  length data = 1024%nat -> packed data es -> (length es < 14)%nat -> entry_image d ino name ->
  packed (with_entry data (length es) d) (es ++ [(ino, name)]).
Proof.
  intros Hl [Hk Hes] Hlt (Hd & Hino & Hnl & Hnm & Hz & Hn). unfold with_entry. set (k := length es) in *.
  set (d' := put d_rec_len (1024 - 72 * Z.of_nat k) d).
  assert (inside d_rec_len (length d)) as Hin by (rewrite Hd; unfold inside; simpl; lia).
  assert (length d' = 72%nat) as Hd' by (unfold d'; by rewrite put_length).
  set (data1 := splice (72 * (k - 1) + 4) (le_bytes 2 DENTRY_SIZE) data).
  assert (length data1 = 1024%nat) as Hl1 by (unfold data1; rewrite length_splice; rewrite ?length_le_bytes; lia).
  split; [rewrite length_app; simpl; lia|]. rewrite length_app. cbn [length]. fold k.
  intros i ino' name' Ei. destruct (decide (i = k)) as [->|Hne].
  - rewrite list_lookup_middle in Ei by done. injection Ei as <- <-.
    rewrite <- (Nat.add_0_r (72 * k)) at 1. rewrite !slice_splice_in by lia.
    rewrite (proj2 (Nat.eqb_eq _ _)) by lia.
    split_and!; [| | | |done|done].
    + rewrite <- Hino. symmetry. rewrite <- (get_put_ne d_rec_len d_inode (1024 - 72 * Z.of_nat k) d Hin) by (right; simpl; lia). done.
    + change (le_val (slice 4 2 d')) with (get d_rec_len d'). unfold d'. rewrite get_put_eq by done.
      cbn [f_len d_rec_len]. apply Z.mod_small. lia.
    + rewrite <- Hnl. symmetry. rewrite <- (get_put_ne d_rec_len d_name_len (1024 - 72 * Z.of_nat k) d Hin) by (left; simpl; lia). done.
    + rewrite <- Hnm at 2. unfold d', put. apply slice_splice_ne; rewrite length_le_bytes; simpl; lia.
  - assert (i < k)%nat as Hik.
    { apply lookup_lt_Some in Ei. rewrite length_app in Ei. cbn [length] in Ei. fold k in Ei. lia. }
    rewrite lookup_app_l in Ei by lia. destruct (Hes i ino' name' Ei) as (E1 & E2 & E3 & E4 & E5 & E6).
    rewrite !(slice_splice_ne (72 * k)) by lia. rewrite (proj2 (Nat.eqb_neq _ _)) by lia.
    assert (forall o n, (o + n <= 4 \/ 6 <= o)%nat -> (o + n <= 72)%nat -> slice (72 * i + o) n data1 = slice (72 * i + o) n data) as Hfar.
    { intros o n Ho Hon. unfold data1. apply slice_splice_ne; rewrite length_le_bytes; [lia|].
      destruct (decide (i = k - 1)%nat) as [->|]; lia. }
    rewrite <- (Nat.add_0_r (72 * i)) in E1 |- * at 1.
    rewrite (Hfar 0%nat 4%nat), (Hfar 6%nat 1%nat), (Hfar 8%nat (length name')) by lia.
    split_and!; [exact E1| |exact E3|exact E4|done|done].
    destruct (decide (i = k - 1)%nat) as [->|Hi].
    + unfold data1. rewrite <- (Nat.add_0_r (72 * (k - 1) + 4)) at 1.
      rewrite slice_splice_in by (rewrite ?length_le_bytes; lia). done.
    + unfold data1. rewrite slice_splice_ne by (rewrite ?length_le_bytes; lia). rewrite E2.
      by rewrite (proj2 (Nat.eqb_neq _ _)) by lia.
Qed.


Section Add.
Context {B : Type} `{!BlockDev B}.
Implicit Types s : ext2 (buffer_cache B).

Lemma with_entry_stores data k d :
  length data = 1024%nat -> length d = 72%nat -> (1 <= k < 14)%nat ->
  (block ← store (72 * (Z.of_nat k - 1) + 4) (le_bytes 2 DENTRY_SIZE) data;
   store (72 * (Z.of_nat k - 1) + DENTRY_SIZE) (put d_rec_len (u16 (1024 - Z.of_nat k * DENTRY_SIZE)) d) block)
  = Some (with_entry data k d).
Proof.
  intros Hl Hd Hk. unfold DENTRY_SIZE.
  assert (length (put d_rec_len (u16 (1024 - Z.of_nat k * 72)) d) = 72%nat) as Hp
    by (rewrite put_length by (rewrite Hd; unfold inside; simpl; lia); done).
  rewrite store_ok by (rewrite ?length_le_bytes; lia). cbn [mbind option_bind].
  rewrite store_ok by (rewrite ?length_splice, ?Hp by (rewrite ?length_le_bytes; lia); lia).
  unfold with_entry, DENTRY_SIZE. rewrite u16_small by lia. do 2 f_equal; [lia|f_equal; lia|f_equal; lia].
Qed.

(** C28: adding an entry to a directory whose last block is direct and has room
    makes the entry the last of that block: the block then lists, for the
    directory walk of cat_file, the old entries and after them the new one, and
    no other block changes; the block's buffer stays off the free list. *)
Theorem add_dentry_appends k s dir n d ino name es data fuel stale :
  std_fs s -> quiet (S k) (dev s) -> 1 <= i_block_len dir s <= 12 ->
  let blk := get (i_block (i_block_len dir s - 1)) dir in
  0 <= blk -> bd_ok blk -> holds (dev s) blk data -> Forall is_byte data -> packed data es -> (length es < 14)%nat ->
  entry_image d ino name -> Forall is_byte d -> (length es < fuel)%nat ->
  exists c, add_dentry fuel true stale dir n d s = Some (0, set_dev c s) /\ quiet k c /\
    lists_dir (set_dev c s) blk (es ++ [(ino, name)]) /\
    forall m x, bd_ok m -> m ≠ blk -> holds (dev s) m x -> holds c m x.
Proof.
  intros Hs Hq Hlen blk Hb Hok Hd Hby Hpk Hroom Himg Hdb Hf. pose proof (holds_length _ _ _ _ Hq Hok Hd) as Hl.
  assert (block_size s = 1024) as Hbs by (unfold block_size; by rewrite (sf_log s Hs)).
  unfold add_dentry. rewrite (proj2 (Z.eqb_neq _ 0)) by lia. rewrite u32_small by lia. unfold get_file_block, indirect_block.
  rewrite (proj2 (Z.ltb_lt _ 12)) by lia. cbn [mbind option_bind negb]. fold blk.
  destruct (bread_quiet k (dev s) blk data Hq Hb Hok Hd) as (b & c & -> & Ht & Hv). cbn [mbind option_bind].
  pose proof Ht as (fs & hs & bh & _ & _ & _ & _ & _ & Eb & _ & Hbd & _).
  change (dev (set_dev c s)) with c. rewrite Eb. cbn [mbind option_bind].
  change (block_size (set_dev c s)) with (block_size s). rewrite Hbs, Hbd.
  rewrite (last_entry_spec data es fuel Hl Hpk Hf). cbn [mbind option_bind].
  change (1024 `div` DENTRY_SIZE) with 14. rewrite (proj2 (Z.leb_gt _ _)) by lia.
  destruct Hpk as [Hk Hes]. rewrite (proj2 (Z.ltb_lt 0 _)) by lia. pose proof Himg as (Hd72 & _).
  pose proof (with_entry_stores data (length es) d Hl Hd72 ltac:(lia)) as Hst. apply bind_Some in Hst as (b1 & -> & E2).
  cbn [mbind option_bind]. rewrite E2. cbn [mbind option_bind]. set (data' := with_entry data (length es) d).
  assert (length data' = 1024%nat) as Hl' by (apply length_with_entry; [done..|lia]).
  unfold fill_buf. change (dev (set_dev c s)) with c. rewrite (upd_buf_some b _ _ bh Eb). cbn [mbind option_bind].
  change (get (i_block (i_block_len dir s - 1)) dir) with blk. cbn [dev set_dev disk].
  destruct (bd_write_ok blk data' (disk c) Hok Hl') as (dk & Edk & _ & _). rewrite Edk. cbn [mbind option_bind].
  destruct (write_beside k b blk data data' c _ dk Ht Hl' (upd_buf_some b _ _ bh Eb) Edk) as (Hq' & Hh' & Hf').
  eexists. split_and!; [reflexivity|exact Hq'| |].
  - exists data'. split_and!; [done..|exact Hh'| |].
    + apply splice_bytes; [by apply put_bytes|]. apply splice_bytes; [apply le_bytes_bytes|done].
    + apply packed_chain; [done|]. by apply packed_add.
  - intros m x Hm Hne Hx. apply Hf'; [done..|]. by apply Hv.
Qed.
End Add.


(** ** An instance: a root directory with one file, "a", that holds "Hi" *)

Lemma demo_quiet_on (d : gmap Z (list Z)) : exists c, quiet 2 c /\ disk c = d /\
  forall b bh, bufs c !! b = Some bh -> has_flag (flags bh) BH_uptodate = false.
Proof.
  destruct demo_created as (c & hs & _ & Hc & Hco & _ & Hf).
  exists (mk_cache _ (bufs c) (links c) d). split_and!; [|done|].
  - exists [2000; 1000], hs. split_and!; [by destruct Hc| | |done].
    + intros b bh Eb. apply Hf in Eb as [_ E]. by rewrite E.
    + intros b bh Eb. apply Hf in Eb as [_ E]. unfold unlocked. by rewrite E.
  - intros b bh Eb. apply Hf in Eb as [_ E]. by rewrite E.
Qed.

Definition root_img : list Z := put (i_block 0) 20 (replicate 128 0).
Definition file_img : list Z := put i_size 3 (put (i_block 0) 30 (replicate 128 0)).
Definition table5 : list Z := splice 128 root_img (replicate 1024 0).
Definition table6 : list Z := splice 384 file_img (replicate 1024 0).
Definition root_dir : list Z := le_bytes 4 12 ++ le_bytes 2 1024 ++ [1; 1; 97] ++ replicate 1015 0.
Definition file_data : list Z := [72; 105; 10] ++ replicate 1021 0.

Definition cat_disk : gmap Z (list Z) :=
  default ∅ (d ← bd_write 5 table5 ∅; d ← bd_write 6 table6 d; d ← bd_write 20 root_dir d; bd_write 30 file_data d).

Lemma cat_reads c :
  disk c = cat_disk -> (forall b bh, bufs c !! b = Some bh -> has_flag (flags bh) BH_uptodate = false) ->
  holds c 5 table5 /\ holds c 6 table6 /\ holds c 20 root_dir /\ holds c 30 file_data.
Proof.
  intros Hd Hu. assert (forall n data, bd_read n cat_disk = Some data -> holds c n data) as H.
  { intros n data Hr. right. rewrite Hd. split; [intros b bh Eb _; by eapply Hu|exact Hr]. }
  split_and!; apply H; vm_compute; reflexivity.
Qed.

Lemma root_dir_chain : chain root_dir 0 [(12, [97])].
Proof.
  apply (chain_entry root_dir 0 12 1024 [97] 1 []); [lia|by vm_compute|by vm_compute|set_solver|done|done|apply chain_end].
Qed.

Lemma dir_scan_terminates_witness : dir_scan 1025 1024 root_dir [98; 0] 0 ≠ OutOfFuel.
Proof. apply dir_scan_terminates; [by vm_compute|]. by apply (bool_decide_unpack _); vm_compute. Defined.

Lemma inode_places c : inode_at (inode_fs 5 c) 2 5 128 /\ inode_at (inode_fs 5 c) 12 6 384.
Proof. split; (split; [lia|]); eexists; split_and!; reflexivity. Qed.

Lemma cat_file_correct_witness :
  exists c c', cat_file [97; 0] (inode_fs 5 c) = Some (Some [72; 105; 10], inode_fs 5 c').
Proof.
  destruct (demo_quiet_on cat_disk) as (c & Hq & Hd & Hu).
  destruct (cat_reads c Hd Hu) as (H5 & H6 & H20 & H30). clear Hd Hu. exists c.
  pose proof (cat_file_correct 1 (inode_fs 5 c) root_img [(12, [97])] [97; 0] [97] (inode_std_fs 5 c) Hq) as H.
  change (lookup_name [(12, [97])] [97]) with (Some 12) in H. cbv iota in H.
  destruct H with (img := file_img) (datas := [file_data]) as (c' & E & _).
  - exists 5, 128, table5. split_and!; [apply inode_places|lia|lia|by apply demo_block_ok|exact H5|vm_compute; reflexivity].
  - exists root_dir. split_and!; [by vm_compute|by apply demo_block_ok|exact H20| |apply root_dir_chain].
    by apply (bool_decide_unpack _); vm_compute.
  - exists []. split; [reflexivity|]. by apply (bool_decide_unpack _); vm_compute.
  - forall_cons lia.
  - exists 6, 384, table6. split_and!; [apply inode_places|lia|lia|by apply demo_block_ok|exact H6|vm_compute; reflexivity].
  - intros [|j] x; [|discriminate]. intros [= <-]. split_and!; [by vm_compute|by apply demo_block_ok|exact H30].
  - simpl. lia.
  - split; by vm_compute.
  - exists c'. rewrite E. vm_compute (List.filter _ _). reflexivity.
Defined.

Definition new_entry : list Z := le_bytes 4 13 ++ le_bytes 2 0 ++ [1; 1; 98] ++ replicate 63 0.

Lemma root_dir_packed : packed root_dir [(12, [97])].
Proof.
  split; [simpl; lia|]. intros [|i] ino name; [|discriminate]. intros [= <- <-].
  split_and!; try (vm_compute; reflexivity); [|simpl; lia]. by apply (bool_decide_unpack _); vm_compute.
Qed.

Lemma add_dentry_appends_witness :
  exists c c', add_dentry 2 true 0 (put i_blocks 2 root_img) 2 new_entry (inode_fs 5 c) = Some (0, inode_fs 5 c') /\
    lists_dir (inode_fs 5 c') 20 [(12, [97]); (13, [98])].
Proof.
  destruct (demo_quiet_on cat_disk) as (c & Hq & Hd & Hu).
  destruct (cat_reads c Hd Hu) as (_ & _ & H20 & _). clear Hd Hu. exists c.
  destruct (add_dentry_appends 1 (inode_fs 5 c) (put i_blocks 2 root_img) 2 new_entry 13 [98] [(12, [97])] root_dir 2 0)
    as (c' & E & _ & Hl & _).
  - apply inode_std_fs.
  - exact Hq.
  - by vm_compute.
  - by vm_compute.
  - by apply demo_block_ok.
  - exact H20.
  - by apply (bool_decide_unpack _); vm_compute.
  - apply root_dir_packed.
  - simpl. lia.
  - split_and!; try (vm_compute; reflexivity); [|simpl; lia]. by apply (bool_decide_unpack _); vm_compute.
  - by apply (bool_decide_unpack _); vm_compute.
  - simpl. lia.
  - exists c'. split; [exact E|exact Hl].
Defined.
