(* ===== verification/Dcache.v ===== *)
(** * Directory-entry cache and path lookup (fs/ext2/dcache.c, namei.c,
    include/dcache.h, namei.h and struct dentry of include/vfs.h)

    Entries live in a map by address; their list fields, the hash chains'
    heads and the [i_dentry] heads of the inodes are the nodes of one link
    store.  [pool] holds the addresses the slab allocator will hand out, with
    what their name fields hold before; an empty pool is a failed allocation.
    An entry's four list nodes come into being with it and go with it: after
    kmem_cache_free neither its fields nor its nodes can be touched.
    Names are byte lists with a terminator. *)

From S2P Require Export Lists CString.

Inductive dnode := Chain (i : Z) | DHash (d : Z) | Subdirs (d : Z) | Child (d : Z) | DLru (d : Z) | IDentry (i : Z).

#[export] Instance dnode_eq_dec : EqDecision dnode.
Proof. solve_decision. Defined.

#[export] Instance dnode_countable : Countable dnode.
Proof.
  refine (inj_countable'
    (fun n => match n with Chain i => (0, i) | DHash i => (1, i) | Subdirs i => (2, i) | Child i => (3, i)
                         | DLru i => (4, i) | IDentry i => (5, i) end)
    (fun '(t, i) => if decide (t = 0) then Chain i else if decide (t = 1) then DHash i else
       if decide (t = 2) then Subdirs i else if decide (t = 3) then Child i else
       if decide (t = 4) then DLru i else IDentry i) _).
  by intros [].
Defined.

Definition DENTRY_HASH_SIZE : Z := 256.
Definition DCACHE_UNHASHED : Z := 2.
Definition NAME_SIZE : nat := 30.

Record dentry := mk_dentry {
  d_count : Z; d_flags : Z; d_inode : option Z; d_parent : Z; d_name : list Z; d_sb : option Z
}.

Record dcache := mk_dcache {
  dentries : gmap Z dentry;
  dlinks : gmap dnode (list_head dnode);
  pool : list (Z * list Z)
}.

Definition set_count (n : Z) (d : dentry) := mk_dentry n (d_flags d) (d_inode d) (d_parent d) (d_name d) (d_sb d).
Definition set_dflags (f : Z) (d : dentry) := mk_dentry (d_count d) f (d_inode d) (d_parent d) (d_name d) (d_sb d).
Definition set_inode (i : option Z) (d : dentry) := mk_dentry (d_count d) (d_flags d) i (d_parent d) (d_name d) (d_sb d).
Definition set_parent (p : Z) (d : dentry) := mk_dentry (d_count d) (d_flags d) (d_inode d) p (d_name d) (d_sb d).
Definition set_sb (b : option Z) (d : dentry) := mk_dentry (d_count d) (d_flags d) (d_inode d) (d_parent d) (d_name d) b.

Definition upd_dentry (a : Z) (f : dentry -> dentry) (s : dcache) : option dcache :=
  d ← dentries s !! a; Some (mk_dcache (<[a := f d]> (dentries s)) (dlinks s) (pool s)).

Definition on_dlinks (f : gmap dnode (list_head dnode) -> option (gmap dnode (list_head dnode))) (s : dcache) : option dcache :=
  st ← f (dlinks s); Some (mk_dcache (dentries s) st (pool s)).

(** ** Hashing *)

(** [hash = hash * 31 + *p++] while the character is not 0; [char] is signed. *)
Fixpoint hash_name (name : list Z) (hash : Z) : option Z :=
  match name with
  | [] => None
  | c :: t => if c =? 0 then Some hash else hash_name t (u32 (hash * 31 + (if c <? 128 then c else c - 256)))
  end.

Definition d_hash (parent : option Z) (name : list Z) : option Z :=
  hash ← hash_name name 0;
  let hash := match parent with Some p => Z.lxor hash p | None => hash end in
  Some (hash `mod` DENTRY_HASH_SIZE).

(** [for (i = 0; i < DENTRY_HASH_SIZE; i++) INIT_LIST_HEAD(...)]; the result
    of kmem_cache_create is [cache_ok]. *)
Fixpoint init_chains (n : nat) (i : Z) (s : dcache) : option dcache :=
  match n with
  | O => Some s
  | S n => s ← on_dlinks (INIT_LIST_HEAD (Chain i)) s; init_chains n (i + 1) s
  end.

Definition dcache_init (cache_ok : bool) (s : dcache) : option dcache :=
  if cache_ok then init_chains (Z.to_nat DENTRY_HASH_SIZE) 0 s else Some s.

(** The list nodes inside the memory of an entry: there, with unknown links,
    once the allocator has handed it out, and gone when it is given back. *)
Definition own_nodes (a : Z) : list dnode := [DLru a; Child a; Subdirs a; DHash a].

Definition new_nodes (a : Z) (st : gmap dnode (list_head dnode)) : gmap dnode (list_head dnode) :=
  foldr (fun k st => <[k := mk_list_head None None]> st) st (own_nodes a).

Definition drop_nodes (a : Z) (st : gmap dnode (list_head dnode)) : gmap dnode (list_head dnode) :=
  foldr delete st (own_nodes a).

(** ** Allocation; the inner [None] is the null pointer *)

Definition d_alloc (parent : option Z) (name : option (list Z)) (s : dcache) : option (option Z * dcache) :=
  match pool s with
  | [] => Some (None, s)
  | (a, old) :: rest =>
      nm ← match name with
           | Some n => nm ← strncpy old n (NAME_SIZE - 1); zset nm (Z.of_nat NAME_SIZE - 1) 0
           | None => zset old 0 0
           end;
      let d := mk_dentry 1 0 None (default a parent) nm None in
      let s := mk_dcache (<[a := d]> (dentries s)) (new_nodes a (dlinks s)) rest in
      s ← on_dlinks (INIT_LIST_HEAD (DLru a)) s;
      s ← on_dlinks (INIT_LIST_HEAD (Child a)) s;
      s ← on_dlinks (INIT_LIST_HEAD (Subdirs a)) s;
      s ← on_dlinks (INIT_LIST_HEAD (DHash a)) s;
      s ← match parent with
          | Some p => if p =? a then Some s else on_dlinks (list_add (Subdirs p) (Child a)) s
          | None => Some s
          end;
      Some (Some a, s)
  end.

(** [sb] is the inode's [i_sb]. *)
Definition d_alloc_root (root_inode : option Z) (sb : option Z) (s : dcache) : option (option Z * dcache) :=
  match root_inode with
  | None => Some (None, s)
  | Some i =>
      '(r, s) ← d_alloc None (Some [47; 0]) s;
      match r with
      | None => Some (None, s)
      | Some a =>
          s ← upd_dentry a (set_inode (Some i)) s;
          s ← upd_dentry a (set_sb sb) s;
          s ← on_dlinks (list_add (IDentry i) (Child a)) s;
          Some (Some a, s)
      end
  end.

Definition d_instantiate (dentry inode : option Z) (s : dcache) : option dcache :=
  match dentry, inode with
  | Some a, Some i =>
      s ← upd_dentry a (set_inode (Some i)) s;
      on_dlinks (list_add (IDentry i) (Child a)) s
  | _, _ => Some s
  end.

(** ** Lookup *)

Fixpoint chain_walk (fuel : nat) (head pos : dnode) (parent : Z) (name : list Z) (s : dcache) : option (option Z) :=
  match fuel with
  | O => None
  | S fuel =>
      if decide (pos = head) then Some None
      else
        match pos with
        | DHash a =>
            d ← dentries s !! a;
            m ← (if d_parent d =? parent then r ← strcmp (d_name d) name; Some (r =? 0) else Some false);
            if (m : bool) then Some (Some a)
            else p ← next_of (dlinks s) pos; chain_walk fuel head p parent name s
        | _ => None
        end
  end.

Definition d_lookup (parent : option Z) (name : option (list Z)) (s : dcache) : option (option Z * dcache) :=
  match parent, name with
  | Some p, Some n =>
      h ← d_hash (Some p) n;
      pos ← next_of (dlinks s) (Chain h);
      r ← chain_walk (S (size (dlinks s))) (Chain h) pos p n s;
      match r with
      | Some a => s ← upd_dentry a (fun d => set_count (u32 (d_count d + 1)) d) s; Some (Some a, s)
      | None => Some (None, s)
      end
  | _, _ => Some (None, s)
  end.

(** Hashing and clearing the flag, as [d_add] and [d_rehash] end. *)
Definition d_enhash (a : Z) (s : dcache) : option dcache :=
  d ← dentries s !! a;
  h ← d_hash (Some (d_parent d)) (d_name d);
  s ← on_dlinks (list_add (Chain h) (DHash a)) s;
  upd_dentry a (fun d => set_dflags (Z.land (d_flags d) (Z.lnot DCACHE_UNHASHED)) d) s.

Definition d_add (dentry inode : option Z) (s : dcache) : option dcache :=
  match dentry with
  | None => Some s
  | Some a =>
      s ← match inode with Some _ => d_instantiate dentry inode s | None => Some s end;
      d_enhash a s
  end.

Definition d_delete (dentry : option Z) (s : dcache) : option dcache :=
  match dentry with
  | None => Some s
  | Some a =>
      d ← dentries s !! a;
      if has_flag (d_flags d) DCACHE_UNHASHED then Some s
      else
        s ← on_dlinks (list_del (DHash a)) s;
        upd_dentry a (fun d => set_dflags (Z.lor (d_flags d) DCACHE_UNHASHED) d) s
  end.

Definition dput (dentry : option Z) (s : dcache) : option dcache :=
  match dentry with
  | None => Some s
  | Some a =>
      s ← upd_dentry a (fun d => set_count (u32 (d_count d - 1)) d) s;
      d ← dentries s !! a;
      if d_count d =? 0 then
        s ← (if d_parent d =? a then Some s else on_dlinks (list_del (Child a)) s);
        s ← d_delete dentry s;
        Some (mk_dcache (delete a (dentries s)) (drop_nodes a (dlinks s)) (pool s))
      else Some s
  end.

Definition dget (dentry : option Z) (s : dcache) : option (option Z * dcache) :=
  match dentry with
  | None => Some (None, s)
  | Some a => s ← upd_dentry a (fun d => set_count (u32 (d_count d + 1)) d) s; Some (dentry, s)
  end.

Definition d_unhashed (dentry : option Z) (s : dcache) : option bool :=
  match dentry with
  | None => Some false
  | Some a => d ← dentries s !! a; Some (has_flag (d_flags d) DCACHE_UNHASHED)
  end.

Definition d_rehash (dentry : option Z) (s : dcache) : option dcache :=
  match dentry with
  | None => Some s
  | Some a => u ← d_unhashed dentry s; if (u : bool) then d_enhash a s else Some s
  end.

Definition d_move (dentry target : option Z) (s : dcache) : option dcache :=
  match dentry, target with
  | Some a, Some t =>
      s ← d_delete dentry s;
      dt ← dentries s !! t;
      s ← upd_dentry a (set_parent (d_parent dt)) s;
      d ← dentries s !! a;
      d_add dentry (d_inode d) s
  | _, _ => Some s
  end.

(** ** Pieces *)

(** The chain of a directory and a name. *)
Definition name_hash (n : list Z) : Z := foldl (fun h c => u32 (h * 31 + (if c <? 128 then c else c - 256))) 0 n.
Definition key_hash (k : Z * list Z) : Z := Z.lxor (name_hash k.2) k.1 `mod` DENTRY_HASH_SIZE.

Lemma hash_name_spec name n h :
  cstring name n ->
  hash_name name h = Some (foldl (fun h c => u32 (h * 31 + (if c <? 128 then c else c - 256))) h n).
Proof.
  revert name h. induction n as [|c n IH]; intros name h Hn.
  - by apply cstring_nil in Hn as [t ->].
  - apply cstring_cons in Hn as (t & -> & Hc & Ht). simpl. replace (c =? 0) with false by lia. by apply IH.
Qed.

Lemma d_hash_spec p name n : cstring name n -> d_hash (Some p) name = Some (key_hash (p, n)).
Proof. intros Hn. unfold d_hash. by rewrite (hash_name_spec _ _ _ Hn). Qed.

Lemma key_hash_range k : 0 <= key_hash k < DENTRY_HASH_SIZE.
Proof. apply Z.mod_pos_bound. done. Qed.

Lemma find_filter {A} (P : A -> Prop) `{!forall x, Decision (P x)} (f : A -> bool) (l : list A) :
  (forall x, f x = true -> P x) -> find f (filter P l) = find f l.
Proof.
  intros Hf. induction l as [|x l IH]; [done|]. rewrite filter_cons. simpl. case_decide as HP; simpl; [by rewrite IH|].
  destruct (f x) eqn:E; [|done]. by apply Hf in E.
Qed.

Lemma filter_elem_iff {A} (P Q : A -> Prop) `{!forall x, Decision (P x)} `{!forall x, Decision (Q x)} (l : list A) :
  (forall x, x ∈ l -> P x <-> Q x) -> filter P l = filter Q l.
Proof.
  induction l as [|x l IH]; intros HPQ; [done|]. rewrite !filter_cons, IH by set_solver.
  destruct (HPQ x); [by left|]. repeat case_decide; tauto.
Qed.

(** *** The tree lists

    [d_child] and [d_subdirs] of the entries and [i_dentry] of the inodes are
    linked with each other.  Where [d_child] has been linked twice, what still
    holds of the lists it was on is that following a link from one of their
    nodes reaches one. *)

Definition in_tree (k : dnode) : bool := match k with Subdirs _ | Child _ | IDentry _ => true | _ => false end.

Definition closed (st : gmap dnode (list_head dnode)) (T : dnode -> Prop) : Prop :=
  forall k, T k -> exists n p, st !! k = Some (mk_list_head (Some n) (Some p)) /\ T n /\ T p.

Definition kept_in (T : dnode -> Prop) (st st' : gmap dnode (list_head dnode)) : Prop :=
  forall y, ~ T y -> st' !! y = st !! y.

Lemma kept_in_trans T st1 st2 st3 : kept_in T st1 st2 -> kept_in T st2 st3 -> kept_in T st1 st3.
Proof. intros F1 F2 y Hy. by rewrite F2, F1. Qed.

Lemma closed_set_next st (T : dnode -> Prop) k v :
  closed st T -> T k -> T v -> exists st', set_next st k (Some v) = Some st' /\ closed st' T /\ kept_in T st st'.
Proof.
  intros HT Hk Hv. destruct (HT k Hk) as (n & p & E & Hn & Hp). unfold set_next. rewrite E. simpl. eexists.
  split; [done|]. split.
  - intros y Hy. destruct (decide (k = y)) as [->|]; [rewrite lookup_insert_eq; eauto|]. rewrite lookup_insert_ne by done. eauto.
  - intros y Hy. apply lookup_insert_ne. by intros ->.
Qed.

Lemma closed_set_prev st (T : dnode -> Prop) k v :
  closed st T -> T k -> T v -> exists st', set_prev st k (Some v) = Some st' /\ closed st' T /\ kept_in T st st'.
Proof.
  intros HT Hk Hv. destruct (HT k Hk) as (n & p & E & Hn & Hp). unfold set_prev. rewrite E. simpl. eexists.
  split; [done|]. split.
  - intros y Hy. destruct (decide (k = y)) as [->|]; [rewrite lookup_insert_eq; eauto|]. rewrite lookup_insert_ne by done. eauto.
  - intros y Hy. apply lookup_insert_ne. by intros ->.
Qed.

Ltac closed_step :=
  match goal with
  | HT : closed ?st ?T |- context [set_next ?st ?k (Some ?v)] =>
      destruct (closed_set_next st T k v) as (?st & ?E & ?HT & ?HK); [done|try done..|]
  | HT : closed ?st ?T |- context [set_prev ?st ?k (Some ?v)] =>
      destruct (closed_set_prev st T k v) as (?st & ?E & ?HT & ?HK); [done|try done..|]
  end;
  match goal with E : _ = Some ?st |- _ => rewrite E; clear E; cbn [mbind option_bind] end.

Lemma closed_add st (T : dnode -> Prop) h x :
  closed st T -> T h -> T x -> exists st', list_add h x st = Some st' /\ closed st' T /\ kept_in T st st'.
Proof.
  intros HT Hh Hx. destruct (HT h Hh) as (n & p & E & Hn & Hp). unfold list_add, next_of. rewrite E. simpl.
  unfold generic_add. do 4 closed_step. eexists. split; [done|]. split; [done|]. eauto using kept_in_trans.
Qed.

Lemma closed_frame st st' (T : dnode -> Prop) : closed st T -> (forall y, T y -> st' !! y = st !! y) -> closed st' T.
Proof. intros HT Hf k Hk. rewrite Hf by done. by apply HT. Qed.

Lemma lseg_closed (st : gmap dnode (list_head dnode)) b xs : forall a, lseg st a xs b -> forall x, x ∈ a :: xs ->
  exists y, next_of st x = Some y /\ y ∈ b :: xs.
Proof.
  induction xs as [|z xs IH]; intros a Hl x Hx; simpl in Hl.
  - apply list_elem_of_singleton in Hx as ->. destruct Hl as [Hl _]. exists b. split; [done|by left].
  - destruct Hl as (Hn & _ & Hl). apply elem_of_cons in Hx as [->|Hx]; [exists z; set_solver|].
    destruct (IH z Hl x Hx) as (y & ? & ?). exists y. set_solver.
Qed.

Lemma lseg_closed_prev (st : gmap dnode (list_head dnode)) b xs : forall a, lseg st a xs b -> forall x, x ∈ b :: xs ->
  exists y, prev_of st x = Some y /\ y ∈ a :: xs.
Proof.
  induction xs as [|z xs IH]; intros a Hl x Hx; simpl in Hl.
  - apply list_elem_of_singleton in Hx as ->. destruct Hl as [_ Hl]. exists a. split; [done|by left].
  - destruct Hl as (_ & Hp & Hl). destruct (decide (x = z)) as [->|Hxz]; [exists a; set_solver|].
    destruct (IH z Hl x) as (y & ? & ?); [set_solver|]. exists y. set_solver.
Qed.

Lemma ring_next (st : gmap dnode (list_head dnode)) h xs x : dlist st h xs -> x ∈ h :: xs -> exists y, next_of st x = Some y /\ y ∈ h :: xs.
Proof. intros [_ Hl]. by apply (lseg_closed _ _ _ h). Qed.

Lemma ring_closed st h xs : dlist st h xs -> closed st (fun k => k ∈ h :: xs).
Proof.
  intros Hd k Hk. destruct (ring_next _ _ _ _ Hd Hk) as (n & En & Hn). destruct Hd as [_ Hl].
  destruct (lseg_closed_prev _ _ _ _ Hl k Hk) as (p & Ep & Hp). unfold next_of, prev_of in *.
  destruct (st !! k) as [[n' p']|]; [|done]. simpl in *. subst. eauto.
Qed.

Lemma ring_self (st : gmap dnode (list_head dnode)) k : st !! k = Some (mk_list_head (Some k) (Some k)) -> dlist st k [].
Proof. intros E. split; [apply NoDup_singleton|]. simpl. unfold next_of, prev_of. by rewrite E. Qed.

(** ** What the cache promises

    The abstract cache knows the live entries (count, directory, name), the
    hashed ones, newest first, those whose flag says unhashed, the addresses
    the allocator will hand out and the inodes that have an [i_dentry] head.
    A hash table never shows: lookup searches one list.

    Because memory goes back to the allocator, it also knows which list an
    entry is on: [whole] holds the directories whose [d_subdirs] list is
    intact, and [home] the entries that are on such a list and on no other.
    Connecting an entry to an inode links its [d_child] a second time, which
    takes its directory out of [whole] and all entries there out of [home]. *)

Record adcache := mk_adcache {
  alive : gmap Z (Z * Z * list Z);
  hashed : list Z;
  dropped : gset Z;
  supply : list Z;
  heads : gset Z;
  home : gmap Z Z;
  whole : gset Z
}.

Definition a_key (A : adcache) (a : Z) : option (Z * list Z) := '(_, p, n) ← alive A !! a; Some (p, n).

Definition a_find (A : adcache) (k : Z * list Z) : option Z :=
  find (fun a => bool_decide (a_key A a = Some k)) (hashed A).

Inductive dop :=
  | Alloc (parent : option Z) (n : list Z)
  | Root (i : Z) (sb : option Z)
  | Instantiate (a i : Z)
  | Lookup (p : Z) (n : list Z)
  | Add (a : Z) (i : option Z)
  | Delete (a : Z)
  | Put (a : Z)
  | Get (a : Z)
  | Rehash (a : Z)
  | Move (a t : Z).

(** The code of an operation; a string is its bytes and a terminator. *)
Definition run_dop (o : dop) (s : dcache) : option (option Z * dcache) :=
  match o with
  | Alloc p n => d_alloc p (Some (n ++ [0])) s
  | Root i sb => d_alloc_root (Some i) sb s
  | Instantiate a i => s ← d_instantiate (Some a) (Some i) s; Some (None, s)
  | Lookup p n => d_lookup (Some p) (Some (n ++ [0])) s
  | Add a i => s ← d_add (Some a) i s; Some (None, s)
  | Delete a => s ← d_delete (Some a) s; Some (None, s)
  | Put a => s ← dput (Some a) s; Some (None, s)
  | Get a => dget (Some a) s
  | Rehash a => s ← d_rehash (Some a) s; Some (None, s)
  | Move a t => s ← d_move (Some a) (Some t) s; Some (None, s)
  end.

Definition a_live (A : adcache) (m : gmap Z (Z * Z * list Z)) := mk_adcache m (hashed A) (dropped A) (supply A) (heads A) (home A) (whole A).

Definition opt_all (f : Z -> bool) (o : option Z) : bool := match o with Some x => f x | None => true end.

Definition a_alloc (parent : option Z) (n : list Z) (A : adcache) : option (option Z * adcache) :=
  match supply A with
  | [] => Some (None, A)
  | a :: rest =>
      if bool_decide (alive A !! a = None /\ 0 ∉ n) && opt_all (fun p => bool_decide (is_Some (alive A !! p))) parent then
        Some (Some a, mk_adcache (<[a := (1, default a parent, take 29 n)]> (alive A)) (hashed A) (dropped A ∖ {[a]}) rest (heads A)
          (match parent with Some p => if bool_decide (p ∈ whole A) then <[a := p]> (home A) else home A | None => home A end)
          ({[a]} ∪ whole A))
      else None
  end.

Definition a_hash (a : Z) (A : adcache) : option adcache :=
  if bool_decide (is_Some (alive A !! a) /\ a ∉ hashed A) then
    Some (mk_adcache (alive A) (a :: hashed A) (dropped A ∖ {[a]}) (supply A) (heads A) (home A) (whole A))
  else None.

Definition a_delete (a : Z) (A : adcache) : adcache :=
  mk_adcache (alive A) (filter (fun x => x ≠ a) (hashed A)) ({[a]} ∪ dropped A) (supply A) (heads A) (home A) (whole A).

Definition a_count (a : Z) (f : Z -> Z) (A : adcache) : option adcache :=
  '(c, p, n) ← alive A !! a; Some (a_live A (<[a := (u32 (f c), p, n)]> (alive A))).

(** An entry's [d_child] goes on an inode's list. *)
Definition a_tie (a : Z) (A : adcache) : adcache :=
  match home A !! a with
  | Some p => mk_adcache (alive A) (hashed A) (dropped A) (supply A) (heads A) (filter (fun e => e.2 ≠ p) (home A)) (whole A ∖ {[p]})
  | None => A
  end.

(** An entry of directory [p] that can be given back: it is on its
    directory's list only, which [dput] takes it off, and no entry is on its own. *)
Definition a_loose (a p : Z) (A : adcache) : bool :=
  bool_decide (is_Some (home A !! a) /\ a ∈ whole A /\ map_Forall (fun _ q => q ≠ a) (home A) /\ p ≠ a).

Definition a_free (a : Z) (A : adcache) : adcache :=
  mk_adcache (delete a (alive A)) (filter (fun x => x ≠ a) (hashed A)) ({[a]} ∪ dropped A) (supply A) (heads A)
    (delete a (home A)) (whole A ∖ {[a]}).

(** [None] where an operation has no meaning: an entry that is not live, an
    inode without a head, an entry hashed twice, an address handed out twice,
    and the last reference to an entry that some list will still hold. *)
Definition spec_dop (o : dop) (A : adcache) : option (option Z * adcache) :=
  match o with
  | Alloc p n => a_alloc p n A
  | Root i _ => if bool_decide (i ∈ heads A) then a_alloc None [47] A else None
  | Instantiate a i => if bool_decide (is_Some (alive A !! a) /\ i ∈ heads A) then Some (None, a_tie a A) else None
  | Lookup p n =>
      if bool_decide (0 ∈ n) then None
      else match a_find A (p, n) with
           | Some a => A ← a_count a (fun c => c + 1) A; Some (Some a, A)
           | None => Some (None, A)
           end
  | Add a i =>
      if opt_all (fun j => bool_decide (j ∈ heads A)) i then
        A ← a_hash a (match i with Some _ => a_tie a A | None => A end); Some (None, A)
      else None
  | Delete a => if bool_decide (is_Some (alive A !! a)) then Some (None, a_delete a A) else None
  | Put a =>
      A ← a_count a (fun c => c - 1) A;
      '(c, p, _) ← alive A !! a;
      if c =? 0 then if a_loose a p A then Some (None, a_free a A) else None
      else Some (None, A)
  | Get a => A ← a_count a (fun c => c + 1) A; Some (Some a, A)
  | Rehash a =>
      if bool_decide (is_Some (alive A !! a)) then
        if bool_decide (a ∈ dropped A) then A ← a_hash a A; Some (None, A) else Some (None, A)
      else None
  | Move a t =>
      '(_, q, _) ← alive A !! t;
      let A := a_delete a A in
      '(c, _, n) ← alive A !! a;
      A ← a_hash a (a_live A (<[a := (c, q, n)]> (alive A)));
      Some (None, A)
  end.

Fixpoint run_dops (os : list dop) (s : dcache) : option (list (option Z) * dcache) :=
  match os with
  | [] => Some ([], s)
  | o :: os => '(r, s) ← run_dop o s; '(rs, s) ← run_dops os s; Some (r :: rs, s)
  end.

Fixpoint spec_dops (os : list dop) (A : adcache) : option (list (option Z) * adcache) :=
  match os with
  | [] => Some ([], A)
  | o :: os => '(r, A) ← spec_dop o A; '(rs, A) ← spec_dops os A; Some (r :: rs, A)
  end.

(** ** How the hash table represents it *)

Definition entry_of (A : adcache) (a : Z) (d : dentry) (e : Z * Z * list Z) : Prop :=
  let '(c, p, n) := e in
  d_count d = c /\ d_parent d = p /\ cstring (d_name d) n /\
  has_flag (d_flags d) DCACHE_UNHASHED = bool_decide (a ∈ dropped A) /\
  forall i, d_inode d = Some i -> i ∈ heads A /\ home A !! a = None.

Definition chain_of (A : adcache) (h : Z) : list Z := filter (fun a => key_hash <$> a_key A a = Some h) (hashed A).

(** The nodes of lists that may have run into each other. *)
Definition mixed (A : adcache) (k : dnode) : Prop :=
  match k with
  | IDentry i => i ∈ heads A
  | Subdirs p => is_Some (alive A !! p) /\ p ∉ whole A
  | Child a => is_Some (alive A !! a) /\ home A !! a = None
  | _ => False
  end.

Record tree_of (st : gmap dnode (list_head dnode)) (A : adcache) : Prop := mk_tree_of {
  tr_mixed : closed st (mixed A);
  tr_whole : forall p, p ∈ whole A -> is_Some (alive A !! p) /\
    exists l, dlist st (Subdirs p) (Child <$> l) /\ forall a, a ∈ l <-> home A !! a = Some p;
  tr_home : forall a p, home A !! a = Some p -> p ∈ whole A /\ is_Some (alive A !! a)
}.

Record represents (s : dcache) (A : adcache) : Prop := mk_represents {
  rp_nodup : NoDup (hashed A);
  rp_hashed : forall a, a ∈ hashed A -> is_Some (alive A !! a) /\ a ∉ dropped A;
  rp_same : forall a, option_Forall2 (entry_of A a) (dentries s !! a) (alive A !! a);
  rp_chain : forall h, 0 <= h < DENTRY_HASH_SIZE -> dlist (dlinks s) (Chain h) (DHash <$> chain_of A h);
  rp_alone : forall a, is_Some (alive A !! a) -> a ∉ hashed A -> dlist (dlinks s) (DHash a) [];
  rp_tree : tree_of (dlinks s) A;
  rp_pool : supply A = (pool s).*1 /\ Forall (fun e => length e.2 = NAME_SIZE) (pool s)
}.

Lemma unhashed_clear f : has_flag (Z.land f (Z.lnot DCACHE_UNHASHED)) DCACHE_UNHASHED = false.
Proof.
  change DCACHE_UNHASHED with (2 ^ 1). rewrite land_pow2_testbit by lia.
  rewrite Z.land_spec, Z.lnot_spec, Z.pow2_bits_true by lia. by rewrite andb_false_r.
Qed.

Lemma unhashed_set f : has_flag (Z.lor f DCACHE_UNHASHED) DCACHE_UNHASHED = true.
Proof.
  change DCACHE_UNHASHED with (2 ^ 1). rewrite land_pow2_testbit by lia.
  rewrite Z.lor_spec, Z.pow2_bits_true by lia. by rewrite orb_true_r.
Qed.

Lemma rp_entry s A a e :
  represents s A -> alive A !! a = Some e -> exists d, dentries s !! a = Some d /\ entry_of A a d e.
Proof.
  intros HR E. pose proof (rp_same _ _ HR a) as H. rewrite E in H. inversion H; subst. eauto.
Qed.

Lemma rp_back s A a d :
  represents s A -> dentries s !! a = Some d -> exists e, alive A !! a = Some e /\ entry_of A a d e.
Proof.
  intros HR E. pose proof (rp_same _ _ HR a) as H. rewrite E in H. inversion H; subst. eauto.
Qed.

Definition with_links (s : dcache) st : dcache := mk_dcache (dentries s) st (pool s).
Definition with_entry (s : dcache) (a : Z) (d : dentry) : dcache := mk_dcache (<[a := d]> (dentries s)) (dlinks s) (pool s).

Lemma upd_dentry_at s a f d : dentries s !! a = Some d -> upd_dentry a f s = Some (with_entry s a (f d)).
Proof. intros E. unfold upd_dentry. by rewrite E. Qed.

(** *** The tree lists under the operations *)

Lemma mixed_in_tree A k : mixed A k -> in_tree k = true.
Proof. by destruct k. Qed.

Lemma tree_same st A A' :
  (forall x, is_Some (alive A' !! x) <-> is_Some (alive A !! x)) -> home A' = home A -> whole A' = whole A -> heads A' = heads A ->
  tree_of st A -> tree_of st A'.
Proof.
  intros Hal Eh Ew Ed [HC HW HH]. assert (forall k, mixed A' k <-> mixed A k) as Hm.
  { intros []; simpl; rewrite ?Hal, ?Eh, ?Ew, ?Ed; done. }
  split.
  - intros k Hk%Hm. destruct (HC k Hk) as (n & p & ? & ?%Hm & ?%Hm). eauto.
  - intros p. rewrite Ew, Hal. setoid_rewrite Eh. apply HW.
  - intros a p. rewrite Eh, Ew, Hal. apply HH.
Qed.

Lemma tree_frame st st' A : (forall y, in_tree y = true -> st' !! y = st !! y) -> tree_of st A -> tree_of st' A.
Proof.
  intros F [HC HW HH]. split; [|..|done].
  - eapply closed_frame; [done|]. intros y Hy. by eapply F, mixed_in_tree.
  - intros p Hp. destruct (HW p Hp) as (? & l & Hl & ?). split; [done|]. exists l. split; [|done].
    eapply dlist_frame; [|exact Hl]. intros y [->|(? & -> & _)%list_elem_of_fmap]%elem_of_cons; by apply F.
Qed.

(** A node of an intact list is not one of a mixed list. *)
Lemma whole_not_mixed A p l y :
  p ∈ whole A -> (forall a, a ∈ l <-> home A !! a = Some p) -> y ∈ Subdirs p :: (Child <$> l) -> ~ mixed A y.
Proof.
  intros Hp Hl [->|(a & -> & Ha%Hl)%list_elem_of_fmap]%elem_of_cons; simpl; [tauto|]. intros [_ ?]. congruence.
Qed.

Lemma tree_mixed_step st st' A : tree_of st A -> closed st' (mixed A) -> kept_in (mixed A) st st' -> tree_of st' A.
Proof.
  intros [_ HW HH] HC HK. split; [done| |done]. intros p Hp. destruct (HW p Hp) as (? & l & Hl & Hi). split; [done|].
  exists l. split; [|done]. eapply dlist_frame; [|exact Hl]. intros y Hy. apply HK. by eapply whole_not_mixed.
Qed.

Lemma a_tie_home A a x q : home (a_tie a A) !! x = Some q <-> home A !! x = Some q /\ home A !! a ≠ Some q.
Proof.
  unfold a_tie. destruct (home A !! a) as [p|] eqn:Ea; cbn [home].
  - rewrite map_lookup_filter_Some. simpl. split; intros [? ?]; (split; [done|congruence]).
  - split; [done|by intros [? _]].
Qed.

Lemma a_tie_whole A a q : q ∈ whole (a_tie a A) <-> q ∈ whole A /\ home A !! a ≠ Some q.
Proof.
  unfold a_tie. destruct (home A !! a) as [p|] eqn:Ea; cbn [whole]; [|split; [done|by intros [? _]]].
  rewrite elem_of_difference, elem_of_singleton. split; intros [? ?]; (split; [done|congruence]).
Qed.

Lemma a_tie_self A a : home (a_tie a A) !! a = None.
Proof.
  destruct (home (a_tie a A) !! a) as [q|] eqn:E; [|done]. apply a_tie_home in E as [? ?]. congruence.
Qed.

Lemma a_tie_alive A a : alive (a_tie a A) = alive A /\ heads (a_tie a A) = heads A /\ hashed (a_tie a A) = hashed A /\
  dropped (a_tie a A) = dropped A /\ supply (a_tie a A) = supply A.
Proof. unfold a_tie. by destruct (home A !! a). Qed.

(** What leaves [whole] is still closed, with the lists it may run into. *)
Lemma tree_tied st A a : tree_of st A -> tree_of st (a_tie a A).
Proof.
  intros HT. pose proof HT as [HC HW HH]. destruct (a_tie_alive A a) as (Eal & Ehd & _).
  destruct (home A !! a) as [p|] eqn:Ea; [|unfold a_tie; by rewrite Ea].
  destruct (HH a p Ea) as [Hp Ha]. destruct (HW p Hp) as (Hpa & l & Hl & Hi).
  assert (forall k, mixed (a_tie a A) k <-> mixed A k \/ k ∈ Subdirs p :: (Child <$> l)) as Hm.
  { intros k. destruct k as [|b|q|b|b|i]; simpl; rewrite ?Eal, ?Ehd, elem_of_cons, list_elem_of_fmap.
    - split; [done|]. intros [[]|[?|(? & ? & _)]]; done.
    - split; [done|]. intros [[]|[?|(? & ? & _)]]; done.
    - rewrite a_tie_whole, Ea. destruct (decide (p = q)) as [<-|Hne].
      + split; [by right; left|]. intros _. split; [done|]. by intros [_ []].
      + split.
        * intros [? Hn]. left. split; [done|]. intros ?. apply Hn. split; [done|congruence].
        * intros [[? Hn]|[[= ->]|(? & ? & _)]]; [|done..]. split; [done|]. by intros [? _].
    - destruct (home A !! b) as [q|] eqn:Eb.
      + destruct (decide (q = p)) as [->|Hne].
        * split; [intros _; right; right; exists b; split; [done|by apply Hi]|]. intros _. split; [by eapply HH|].
          destruct (home (a_tie a A) !! b) as [r|] eqn:Er; [|done]. apply a_tie_home in Er as [? ?]. congruence.
        * assert (home (a_tie a A) !! b = Some q) as -> by (apply a_tie_home; split; [done|congruence]).
          split; [by intros [_ ?]|]. intros [[_ ?]|[?|(x & [= <-] & ?%Hi)]]; congruence.
      + split; [by intros [? _]; left|]. intros [[? _]|[?|(x & [= <-] & ?%Hi)]]; [|congruence..]. split; [done|].
        destruct (home (a_tie a A) !! b) as [r|] eqn:Er; [|done]. apply a_tie_home in Er as [? ?]. congruence.
    - split; [done|]. intros [[]|[?|(? & ? & _)]]; done.
    - split; [by left|]. intros [?|[?|(? & ? & _)]]; done. }
  split.
  - intros k [Hk|Hk]%Hm.
    + destruct (HC k Hk) as (n & q & ? & ? & ?). exists n, q. rewrite !Hm. auto.
    + destruct (ring_closed _ _ _ Hl k Hk) as (n & q & ? & ? & ?). exists n, q. rewrite !Hm. auto.
  - intros q [Hq Hne]%a_tie_whole. rewrite Eal. destruct (HW q Hq) as (? & l' & Hl' & Hi'). split; [done|].
    exists l'. split; [done|]. intros x. rewrite a_tie_home, Hi'. tauto.
  - intros x q [Hx Hne]%a_tie_home. rewrite a_tie_whole, Eal. destruct (HH x q Hx). auto.
Qed.

Lemma tree_tie st A a i :
  tree_of st A -> is_Some (alive A !! a) -> i ∈ heads A ->
  exists st', list_add (IDentry i) (Child a) st = Some st' /\ tree_of st' (a_tie a A) /\
    forall y, in_tree y = false -> st' !! y = st !! y.
Proof.
  intros HT Ha Hi. apply (tree_tied _ _ a) in HT. destruct (a_tie_alive A a) as (Eal & Ehd & _).
  destruct (closed_add st (mixed (a_tie a A)) (IDentry i) (Child a) (tr_mixed _ _ HT)) as (st' & E & HC & HK).
  { simpl. by rewrite Ehd. }
  { simpl. by rewrite Eal, a_tie_self. }
  exists st'. split; [done|]. split; [by eapply tree_mixed_step|]. intros y Hy. apply HK. intros Hm%mixed_in_tree. congruence.
Qed.

(** Nor does a change of an entry that keeps its directory and name. *)
Lemma represents_entry s A a d' e e' :
  represents s A -> alive A !! a = Some e -> entry_of A a d' e' -> e.1.2 = e'.1.2 -> e.2 = e'.2 ->
  represents (with_entry s a d') (a_live A (<[a := e']> (alive A))).
Proof.
  intros HR Ea He' E1 E2. assert (forall x, a_key (a_live A (<[a := e']> (alive A))) x = a_key A x) as Hk.
  { intros x. unfold a_key. simpl. destruct (decide (a = x)) as [->|].
    - rewrite lookup_insert_eq, Ea. destruct e as [[]], e' as [[]]. simpl in *. by subst.
    - by rewrite lookup_insert_ne. }
  assert (forall x, is_Some (<[a := e']> (alive A) !! x) <-> is_Some (alive A !! x)) as Hs.
  { intros x. rewrite lookup_insert. case_decide; [subst; split; eauto|done]. }
  destruct HR. split; simpl; try done.
  - intros x Hx. rewrite Hs. eauto.
  - intros x. destruct (decide (a = x)) as [->|]; [rewrite !lookup_insert_eq; by constructor|].
    rewrite !lookup_insert_ne by done. apply rp_same0.
  - intros h Hh. unfold chain_of. erewrite (list_filter_iff _ (fun x => key_hash <$> a_key A x = Some h)) by (intros x; by rewrite Hk).
    by apply rp_chain0.
  - intros x. rewrite Hs. by apply rp_alone0.
  - by eapply tree_same; [exact Hs|..|exact rp_tree0].
Qed.

Lemma represents_same s A a d' e :
  represents s A -> alive A !! a = Some e -> entry_of A a d' e -> represents (with_entry s a d') A.
Proof.
  intros HR E He. pose proof (represents_entry s A a d' e e HR E He eq_refl eq_refl) as H.
  unfold a_live in H. rewrite insert_id in H by done. by destruct A.
Qed.

Lemma count_spec s A A' a f :
  represents s A -> a_count a f A = Some A' ->
  exists d, dentries s !! a = Some d /\ d_count d = from_option (fun e => e.1.1) 0 (alive A !! a) /\
    represents (with_entry s a (set_count (u32 (f (d_count d))) d)) A'.
Proof.
  intros HR E. unfold a_count in E. inv_bind. destruct (rp_entry _ _ _ _ HR E0) as (d & Ed & Hc & Hp & Hn & Hf & Hi).
  exists d. rewrite E0. split_and!; [done..|]. eapply represents_entry; [done|done| |done|done]. subst. done.
Qed.

(** A change of the tree's links changes nothing else the cache promises. *)
Lemma represents_links s A A' st' :
  represents s A -> (forall y, in_tree y = false -> st' !! y = dlinks s !! y) -> tree_of st' A' ->
  alive A' = alive A /\ heads A' = heads A /\ hashed A' = hashed A /\ dropped A' = dropped A /\ supply A' = supply A ->
  (forall a, home A !! a = None -> home A' !! a = None) -> represents (with_links s st') A'.
Proof.
  intros HR F HT (Ea & Ehd & Eh & Ed & Es) Hm. destruct HR. split; rewrite ?Ea, ?Eh, ?Ed, ?Es; try done.
  - intros a. specialize (rp_same0 a). cbn [with_links dentries]. destruct rp_same0 as [d [[]] He|]; constructor.
    destruct He as (? & ? & ? & ? & Hi). unfold entry_of. rewrite Ed, Ehd. repeat split; try done; apply Hi in H3 as []; auto.
  - intros h Hh. replace (chain_of A' h) with (chain_of A h).
    + eapply dlist_frame; [|by apply rp_chain0]. intros y Hy. apply F.
      apply elem_of_cons in Hy as [->|(? & -> & _)%list_elem_of_fmap]; done.
    + unfold chain_of, a_key. by rewrite Eh, Ea.
  - intros a Ha Hn. eapply dlist_frame; [|by apply rp_alone0]. intros y Hy%list_elem_of_singleton. subst. by apply F.
Qed.

(** Connecting an entry to an inode, as [d_alloc_root] and [d_instantiate] do. *)
Lemma connect_spec s A a d i f :
  represents s A -> dentries s !! a = Some d -> i ∈ heads A -> d_inode (f d) = Some i ->
  d_count (f d) = d_count d -> d_parent (f d) = d_parent d -> d_name (f d) = d_name d -> d_flags (f d) = d_flags d ->
  exists s', on_dlinks (list_add (IDentry i) (Child a)) (with_entry s a (f d)) = Some s' /\ represents s' (a_tie a A).
Proof.
  intros HR Ed Hi E1 E2 E3 E4 E5. destruct (rp_back _ _ _ _ HR Ed) as ([[c p] n] & Ea & Hc & Hp & Hn & Hf & Hj).
  assert (is_Some (alive A !! a)) as Hal by eauto.
  assert (represents s (a_tie a A)) as HR1.
  { destruct s. apply (represents_links _ A _ _ HR); [done|apply tree_tied, HR|apply a_tie_alive|].
    intros x Hx. destruct (home (a_tie a A) !! x) eqn:E; [|done]. apply a_tie_home in E as []. congruence. }
  destruct (a_tie_alive A a) as (Eal & Ehd & Ehs & Edr & _).
  assert (represents (with_entry s a (f d)) (a_tie a A)) as HR2.
  { eapply represents_same; [done|by rewrite Eal|]. unfold entry_of. rewrite E1, E2, E3, E4, E5, Edr, Ehd. split_and!; try done.
    intros j [= <-]. split; [done|apply a_tie_self]. }
  destruct (tree_tie (dlinks s) A a i (rp_tree _ _ HR) Hal Hi) as (st' & E & HT & F).
  unfold on_dlinks. cbn [with_entry dlinks dentries pool]. rewrite E. eexists. split; [done|].
  by apply (represents_links (with_entry s a (f d)) (a_tie a A)).
Qed.

Lemma instantiate_spec s A a i :
  represents s A -> is_Some (alive A !! a) -> i ∈ heads A ->
  exists s', d_instantiate (Some a) (Some i) s = Some s' /\ represents s' (a_tie a A).
Proof.
  intros HR [e Ea] Hi. destruct (rp_entry _ _ _ _ HR Ea) as (d & Ed & _).
  unfold d_instantiate. rewrite (upd_dentry_at _ _ _ _ Ed). cbn [mbind option_bind]. by apply (connect_spec s A a d i (set_inode (Some i))).
Qed.

Lemma chain_of_range A a k : a_key A a = Some k -> a ∈ hashed A -> a ∈ chain_of A (key_hash k).
Proof. intros E H. apply list_elem_of_filter. by rewrite E. Qed.

(** Putting an entry that is on no chain at the head of its own. *)
Lemma enhash_spec s A A' a :
  represents s A -> a_hash a A = Some A' -> exists s', d_enhash a s = Some s' /\ represents s' A'.
Proof.
  intros HR E. unfold a_hash in E. case_bool_decide as H; [|done]. injection E as <-. destruct H as [[[[c p] n] Ea] Hn].
  destruct (rp_entry _ _ _ _ HR Ea) as (d & Ed & Hc & Hp & Hnm & Hf & Hi).
  assert (a_key A a = Some (p, n)) as Hk by (unfold a_key; by rewrite Ea).
  unfold d_enhash. rewrite Ed. cbn [mbind option_bind]. rewrite (d_hash_spec _ _ _ Hnm), Hp. cbn [mbind option_bind].
  set (h := key_hash (p, n)). pose proof (rp_chain _ _ HR h (key_hash_range _)) as Hch.
  assert (forall g, 0 <= g < DENTRY_HASH_SIZE -> DHash a ∉ Chain g :: (DHash <$> chain_of A g)) as Hout.
  { intros g Hg [?|(b & [= <-] & [_ Hb]%list_elem_of_filter)%list_elem_of_fmap]%elem_of_cons; [done|]. by apply Hn. }
  destruct (list_add_spec (dlinks s) (Chain h) _ (DHash a) Hch) as (st' & E' & D & Hch' & F).
  { apply Hout, key_hash_range. }
  { eapply dlist_in_dom; [apply (rp_alone _ _ HR a); [by rewrite Ea|done]|by left]. }
  unfold on_dlinks. rewrite E'. cbn [mbind option_bind]. unfold upd_dentry. cbn [dentries dlinks pool]. rewrite Ed.
  cbn [mbind option_bind]. eexists. split; [done|]. destruct HR. split; cbn [alive hashed dropped supply heads dentries dlinks pool].
  - by apply NoDup_cons.
  - intros x [->|Hx]%elem_of_cons; [rewrite Ea; set_solver|]. destruct (rp_hashed0 x Hx). set_solver.
  - intros x. destruct (decide (a = x)) as [<-|Hne].
    + rewrite lookup_insert_eq, Ea. constructor. unfold entry_of. cbn [d_count d_parent d_name d_inode d_flags set_dflags dropped heads].
      rewrite unhashed_clear, bool_decide_false by set_solver. done.
    + rewrite lookup_insert_ne by done. specialize (rp_same0 x). destruct rp_same0 as [? [[]] He|]; constructor.
      destruct He as (? & ? & ? & Hfl & ?). split_and!; try done. rewrite Hfl. apply bool_decide_ext. cbn. set_solver.
  - intros g Hg. unfold chain_of in *. cbn [hashed]. rewrite filter_cons.
    change (a_key (mk_adcache _ _ _ _ _ _ _)) with (a_key A). rewrite Hk. cbn [fmap option_fmap option_map].
    destruct (decide (Some (key_hash (p, n)) = Some g)) as [Hd|Hd].
    + assert (g = h) as -> by (unfold h; congruence). exact Hch'.
    + assert (g ≠ h) as Hgh by (unfold h; congruence).
      eapply dlist_frame; [|by apply rp_chain0]. intros y Hy. apply F. intros Hy'.
      apply elem_of_cons in Hy' as [->|Hy']; [by apply (Hout g)|].
      apply elem_of_cons in Hy as [->|(b & -> & [Hb _]%list_elem_of_filter)%list_elem_of_fmap];
        apply elem_of_cons in Hy' as [?|(b' & [=] & [Hb' _]%list_elem_of_filter)%list_elem_of_fmap]; congruence.
  - intros x Hx Hxn. eapply dlist_frame; [|apply rp_alone0; [done|set_solver]]. intros y Hy%list_elem_of_singleton. subst y.
    apply F. intros [[= ->]|Hy]%elem_of_cons; [set_solver|].
    apply elem_of_cons in Hy as [?|(b & [= <-] & [_ Hb]%list_elem_of_filter)%list_elem_of_fmap]; [done|]. set_solver.
  - apply (tree_same _ A); try done. eapply tree_frame; [|exact rp_tree0]. intros y Hy. apply F.
    intros [->|[->|(? & -> & _)%list_elem_of_fmap]%elem_of_cons]%elem_of_cons; done.
  - done.
Qed.

Lemma chain_of_delete A a h : chain_of (a_delete a A) h = filter (fun x => x ≠ a) (chain_of A h).
Proof.
  unfold chain_of. cbn [a_delete hashed]. rewrite !list_filter_filter. apply list_filter_iff. intros x.
  change (a_key (a_delete a A) x) with (a_key A x). tauto.
Qed.

Lemma fmap_filter_out (l : list Z) a : a ∉ l -> filter (fun x => x ≠ a) l = l.
Proof. intros H. apply list_filter_all, Forall_forall. by intros x Hx ->. Qed.

(** Unlinking an entry from the chain it is on, if any. *)
Lemma unhash_links s A a :
  represents s A -> is_Some (alive A !! a) ->
  exists st', list_del (DHash a) (dlinks s) = Some st' /\ dom st' = dom (dlinks s) /\
    (forall h, 0 <= h < DENTRY_HASH_SIZE -> dlist st' (Chain h) (DHash <$> chain_of (a_delete a A) h)) /\
    dlist st' (DHash a) [] /\
    forall y, in_tree y = true \/ (exists b, y = DHash b /\ b ≠ a /\ b ∉ hashed A) -> st' !! y = dlinks s !! y.
Proof.
  intros HR [[[c p] n] Ea]. assert (a_key A a = Some (p, n)) as Hk by (unfold a_key; by rewrite Ea).
  destruct (decide (a ∈ hashed A)) as [Hin|Hout].
  2:{ pose proof (rp_alone _ _ HR a ltac:(by rewrite Ea) Hout) as Hs. exists (dlinks s). rewrite list_del_self by done.
      split_and!; try done. intros h Hh. rewrite chain_of_delete, fmap_filter_out; [by apply (rp_chain _ _ HR)|].
      by intros [_ ?]%list_elem_of_filter. }
  set (h := key_hash (p, n)). pose proof (rp_chain _ _ HR h (key_hash_range _)) as Hch.
  destruct (list_elem_of_split (chain_of A h) a) as (l1 & l2 & E); [by apply chain_of_range|].
  pose proof Hch as Hch'. rewrite E, fmap_app, fmap_cons in Hch'.
  destruct (list_del_spec _ _ _ _ _ Hch') as (st' & Ed & D & Hd & Hself & F). exists st'.
  rewrite <- fmap_cons, <- fmap_app, <- E in F. rewrite <- fmap_app in Hd.
  split_and!; try done.
  - intros g Hg. rewrite chain_of_delete. destruct (decide (g = h)) as [->|Hgh].
    + rewrite E, filter_remove_mid; [done|]. rewrite <- E. apply NoDup_filter, (rp_nodup _ _ HR).
    + rewrite fmap_filter_out; [eapply dlist_frame; [|by apply (rp_chain _ _ HR)]|].
      * intros y Hy. apply F. intros Hy'.
        apply elem_of_cons in Hy as [->|(b & -> & [Hb _]%list_elem_of_filter)%list_elem_of_fmap];
          apply elem_of_cons in Hy' as [?|(b' & [=] & [Hb' _]%list_elem_of_filter)%list_elem_of_fmap]; congruence.
      * intros [Hb _]%list_elem_of_filter. apply Hgh. rewrite Hk in Hb. by injection Hb.
  - intros y Hy. apply F. intros [->|(b & -> & [_ Hb]%list_elem_of_filter)%list_elem_of_fmap]%elem_of_cons;
      destruct Hy as [?|(b' & ? & ? & ?)]; by simplify_eq.
Qed.

Lemma delete_spec s A a :
  represents s A -> is_Some (alive A !! a) -> exists s', d_delete (Some a) s = Some s' /\ represents s' (a_delete a A).
Proof.
  intros HR Hal. pose proof Hal as [[[c p] n] Ea]. destruct (rp_entry _ _ _ _ HR Ea) as (d & Ed & Hc & Hp & Hnm & Hf & Hi).
  unfold d_delete. rewrite Ed. cbn [mbind option_bind]. rewrite Hf. case_bool_decide as Hdr.
  { exists s. split; [done|]. replace (a_delete a A) with A; [done|]. unfold a_delete.
    rewrite fmap_filter_out by (by intros [_ []]%(rp_hashed _ _ HR)).
    replace ({[a]} ∪ dropped A) with (dropped A) by set_solver. by destruct A. }
  destruct (unhash_links s A a HR Hal) as (st' & E & D & Hch & Hself & F). unfold on_dlinks. rewrite E. cbn [mbind option_bind].
  unfold upd_dentry. cbn [dentries dlinks pool]. rewrite Ed. cbn [mbind option_bind]. eexists. split; [done|].
  destruct HR. split; cbn [alive hashed dropped supply heads dentries dlinks pool a_delete]; try done.
  - by apply NoDup_filter.
  - intros x [Hne Hx]%list_elem_of_filter. destruct (rp_hashed0 x Hx). set_solver.
  - intros x. destruct (decide (a = x)) as [<-|Hne].
    + rewrite lookup_insert_eq, Ea. constructor. unfold entry_of. cbn [d_count d_parent d_name d_inode d_flags set_dflags dropped heads a_delete].
      rewrite unhashed_set, bool_decide_true by set_solver. done.
    + rewrite lookup_insert_ne by done. specialize (rp_same0 x). destruct rp_same0 as [? [[]] He|]; constructor.
      destruct He as (? & ? & ? & Hfl & ?). split_and!; try done. rewrite Hfl. apply bool_decide_ext. cbn. set_solver.
  - intros x Hx Hxn. rewrite list_elem_of_filter in Hxn. destruct (decide (x = a)) as [->|Hne]; [done|].
    eapply dlist_frame; [|apply rp_alone0; [done|tauto]]. intros y Hy%list_elem_of_singleton. subst y. apply F. right. exists x. tauto.
  - apply (tree_same _ A); try done. eapply tree_frame; [|exact rp_tree0]. intros y Hy. apply F. by left.
Qed.

Lemma delete_keeps_tree s A a s' :
  represents s A -> d_delete (Some a) s = Some s' -> forall y, in_tree y = true -> dlinks s' !! y = dlinks s !! y.
Proof.
  intros HR E y Hy. unfold d_delete in E. destruct (dentries s !! a) as [d|] eqn:Ed; [|done]. cbn [mbind option_bind] in E.
  destruct (has_flag _ _); [by injection E as <-|]. destruct (rp_back _ _ _ _ HR Ed) as (e & Ea & _).
  destruct (unhash_links s A a HR) as (st' & E' & _ & _ & _ & F); [eauto|]. unfold on_dlinks in E. rewrite E' in E. cbn [mbind option_bind] in E.
  unfold upd_dentry in E. cbn [dentries dlinks] in E. rewrite Ed in E. injection E as <-. apply F. by left.
Qed.

(** The search along a chain is the search among its entries. *)
Lemma chain_walk_spec s A h p n name l :
  represents s A -> cstring name n -> (forall a, a ∈ l -> is_Some (alive A !! a)) ->
  forall fuel x, (length l < fuel)%nat -> lseg (dlinks s) x (DHash <$> l) (Chain h) ->
  chain_walk fuel (Chain h) (hd (Chain h) (DHash <$> l)) p name s = Some (find (fun a => bool_decide (a_key A a = Some (p, n))) l).
Proof.
  intros HR Hn. induction l as [|a l IH]; intros Hl fuel x Hf Hs; (destruct fuel as [|fuel]; [simpl in *; lia|]);
    cbn [length fmap list_fmap hd chain_walk find lseg] in *.
  - by rewrite decide_True.
  - rewrite decide_False by done. destruct (Hl a) as [[[c q] m] Ea]; [by left|].
    destruct (rp_entry _ _ _ _ HR Ea) as (d & Ed & _ & Hp & Hm & _). rewrite Ed. cbn [mbind option_bind].
    destruct Hs as (_ & _ & Hs). pose proof (lseg_first _ _ _ _ Hs) as Hnx.
    assert (a_key A a = Some (q, m)) as Hk by (unfold a_key; by rewrite Ea). rewrite Hk, Hp.
    assert (forall b : bool, (b = true <-> (q, m) = (p, n)) ->
      (if b then Some (Some a) else p0 ← next_of (dlinks s) (DHash a); chain_walk fuel (Chain h) p0 p name s) =
      Some (if bool_decide (Some (q, m) = Some (p, n)) then Some a
            else find (fun a => bool_decide (a_key A a = Some (p, n))) l)) as Hstep.
    { intros b Hb. destruct (decide ((q, m) = (p, n))) as [Hq|Hq].
      { rewrite bool_decide_true by congruence. by rewrite (proj2 Hb Hq). }
      rewrite bool_decide_false by congruence. destruct b; [by destruct (Hq (proj1 Hb eq_refl))|]. rewrite Hnx. cbn [mbind option_bind].
      eapply IH; [intros b Hb'; apply Hl; by right|lia|done]. }
    destruct (Z.eqb_spec q p) as [->|Hqp]; [|apply (Hstep false); split; congruence].
    destruct (strcmp_eq _ _ _ _ Hm Hn) as (r & -> & Hr). cbn [mbind option_bind]. apply Hstep. rewrite Z.eqb_eq, Hr. split; congruence.
Qed.

Lemma cstring_snoc n : 0 ∉ n -> cstring (n ++ [0]) n.
Proof. intros H. by exists []. Qed.

Lemma lookup_spec s A p n :
  represents s A -> 0 ∉ n ->
  d_lookup (Some p) (Some (n ++ [0])) s =
  match a_find A (p, n) with
  | Some a => s ← upd_dentry a (fun d => set_count (u32 (d_count d + 1)) d) s; Some (Some a, s)
  | None => Some (None, s)
  end.
Proof.
  intros HR Hn%cstring_snoc. unfold d_lookup. rewrite (d_hash_spec _ _ _ Hn). cbn [mbind option_bind].
  set (h := key_hash (p, n)). pose proof (rp_chain _ _ HR h (key_hash_range _)) as Hch.
  pose proof (dlist_size _ _ _ Hch) as Hsz. rewrite length_fmap in Hsz. destruct Hch as [_ Hs].
  rewrite (lseg_first _ _ _ _ Hs). cbn [mbind option_bind].
  rewrite (chain_walk_spec s A h p n _ _ HR Hn) with (x := Chain h);
    [|intros a [_ Ha]%list_elem_of_filter; by apply (rp_hashed _ _ HR)|lia|done].
  cbn [mbind option_bind]. unfold chain_of, a_find. rewrite find_filter; [done|].
  intros x Hx%bool_decide_eq_true. by rewrite Hx.
Qed.

Lemma alloc_name old n :
  length old = NAME_SIZE -> 0 ∉ n ->
  exists nm, (nm ← strncpy old (n ++ [0]) (NAME_SIZE - 1); zset nm (Z.of_nat NAME_SIZE - 1) 0) = Some nm /\ cstring nm (take 29 n).
Proof.
  intros Hl Hn. change (NAME_SIZE - 1)%nat with 29%nat.
  rewrite (strncpy_spec 29 old _ n (cstring_snoc _ Hn)) by (rewrite Hl; unfold NAME_SIZE; lia).
  cbn [mbind option_bind]. set (l := take 29 (n ++ replicate 29 0)).
  assert (length l = 29%nat) as Hll by (unfold l; rewrite length_take, length_app, length_replicate; lia).
  assert (length (drop 29 old) = 1%nat) as Hd by (rewrite length_drop, Hl; done).
  destruct (drop 29 old) as [|x [|]]; try done. rewrite zset_in_range by (rewrite length_app, Hll; unfold NAME_SIZE; simpl; lia).
  eexists. split; [done|]. change (Z.to_nat _) with 29%nat. rewrite insert_app_r_alt by lia. rewrite Hll. simpl.
  assert (0 ∉ take 29 n) as Hn' by (intros (i & Hi & _)%elem_of_take; apply Hn; by eapply list_elem_of_lookup_2).
  unfold l. rewrite take_app, take_replicate. destruct (29 - length n)%nat as [|k] eqn:E.
  - exists []. by rewrite app_nil_r.
  - exists (replicate k 0 ++ [0]). split; [|done]. rewrite <- app_assoc. do 2 f_equal. by replace (S k `min` 29)%nat with (S k) by lia.
Qed.

Lemma own_hash a : DHash a ∈ own_nodes a.
Proof. unfold own_nodes. set_solver. Qed.

(** The list fields of a new entry. *)
Lemma alloc_links (st : gmap dnode (list_head dnode)) a :
  exists st', (st ← INIT_LIST_HEAD (DLru a) (new_nodes a st); st ← INIT_LIST_HEAD (Child a) st;
               st ← INIT_LIST_HEAD (Subdirs a) st; INIT_LIST_HEAD (DHash a) st) = Some st' /\
    (forall k, k ∈ own_nodes a -> st' !! k = Some (mk_list_head (Some k) (Some k))) /\
    forall y, y ∉ own_nodes a -> st' !! y = st !! y.
Proof.
  unfold new_nodes, own_nodes. cbn [foldr].
  rewrite INIT_LIST_HEAD_effect by (simplify_map_eq; eauto). cbn [mbind option_bind].
  rewrite INIT_LIST_HEAD_effect by (simplify_map_eq; eauto). cbn [mbind option_bind].
  rewrite INIT_LIST_HEAD_effect by (simplify_map_eq; eauto). cbn [mbind option_bind].
  rewrite INIT_LIST_HEAD_effect by (simplify_map_eq; eauto). eexists. split; [done|]. split.
  - intros k Hk. rewrite !elem_of_cons in Hk. destruct Hk as [->|[->|[->|[->|Hk]]]]; [by simplify_map_eq..|by apply not_elem_of_nil in Hk].
  - intros y Hy. rewrite !not_elem_of_cons in Hy. destruct Hy as (? & ? & ? & ? & _). by rewrite !lookup_insert_ne by done.
Qed.

(** Memory not in use has no node on a list. *)
Lemma unused_not_mixed A a y : alive A !! a = None -> mixed A y -> y ∉ own_nodes a.
Proof.
  intros Ha Hy. unfold own_nodes. rewrite !elem_of_cons, elem_of_nil. intros [->|[->|[->|[->|[]]]]]; simpl in Hy; try done;
    destruct Hy as [[? ?] _]; congruence.
Qed.

Lemma unused_homeless st A a : tree_of st A -> alive A !! a = None -> home A !! a = None.
Proof. intros HT Ha. destruct (home A !! a) eqn:E; [|done]. apply (tr_home _ _ HT) in E as [_ [? ?]]. congruence. Qed.

(** The tree with a new entry that is on no list, and with one below [p]. *)
Lemma tree_new st st' A A' a e :
  tree_of st A -> alive A !! a = None -> alive A' = <[a := e]> (alive A) -> heads A' = heads A -> home A' = home A ->
  whole A' = {[a]} ∪ whole A -> (forall k, k ∈ own_nodes a -> st' !! k = Some (mk_list_head (Some k) (Some k))) ->
  (forall y, y ∉ own_nodes a -> st' !! y = st !! y) -> tree_of st' A'.
Proof.
  intros HT Ha Eal Ehd Eho Ewh Hown F. pose proof (unused_homeless _ _ _ HT Ha) as Hha. destruct HT as [HC HW HH].
  assert (forall x, is_Some (alive A !! x) -> x ≠ a) as Hne by (intros x [? ?] ->; congruence).
  assert (forall k, mixed A k -> mixed A' k /\ st' !! k = st !! k) as Hm.
  { intros k Hk. split.
    - destruct k as [|b|q|b|b|i]; simpl in *; rewrite ?Eal, ?Ehd, ?Eho, ?Ewh; try done; destruct Hk as [Hk ?];
        pose proof (Hne _ Hk); rewrite lookup_insert_ne by done; split; try done; set_solver.
    - by eapply F, unused_not_mixed. }
  split.
  - intros k Hk. destruct (decide (k = Child a)) as [->|Hka].
    { exists (Child a), (Child a). split; [apply Hown; unfold own_nodes; set_solver|done]. }
    assert (mixed A k) as Hk'.
    { destruct k as [|b|q|b|b|i]; simpl in *; rewrite ?Eal, ?Ehd, ?Eho, ?Ewh in Hk; try done; destruct Hk as [Hk ?].
      - rewrite lookup_insert_ne in Hk by set_solver. split; [done|set_solver].
      - rewrite lookup_insert_ne in Hk by congruence. done. }
    destruct (HC k Hk') as (n & q & E & Hn%Hm & Hq%Hm). apply Hm in Hk' as [_ ->]. exists n, q. tauto.
  - intros p. rewrite Ewh, Eal, Eho. intros [->%elem_of_singleton|Hp]%elem_of_union.
    { rewrite lookup_insert_eq. split; [done|]. exists []. split; [apply ring_self, Hown; unfold own_nodes; set_solver|].
      intros x. split; [by intros ?%not_elem_of_nil|]. intros [[E _]%HW _]%HH. by apply Hne in E. }
    destruct (HW p Hp) as (Hpa & l & Hl & Hi). rewrite lookup_insert_ne by (symmetry; by apply Hne). split; [done|].
    exists l. split; [|done]. eapply dlist_frame; [|exact Hl]. intros y Hy. apply F. unfold own_nodes.
    rewrite !elem_of_cons, elem_of_nil. intros [->|[->|[->|[->|[]]]]]; rewrite elem_of_cons, list_elem_of_fmap in Hy;
      destruct Hy as [Hy|(x & Hy & Hx%Hi)]; try done; injection Hy as <-; [congruence|by apply Hne in Hpa].
  - intros x p. rewrite Eho, Ewh, Eal. intros [Hp Hx]%HH. rewrite lookup_insert_ne by (symmetry; by apply Hne). split; [set_solver|done].
Qed.

Lemma tree_below st st' A A' a p e :
  tree_of st A -> alive A !! a = None -> is_Some (alive A !! p) -> alive A' = <[a := e]> (alive A) -> heads A' = heads A ->
  home A' = (if bool_decide (p ∈ whole A) then <[a := p]> (home A) else home A) -> whole A' = {[a]} ∪ whole A ->
  (forall k, k ∈ own_nodes a -> st' !! k = Some (mk_list_head (Some k) (Some k))) -> (forall y, y ∉ own_nodes a -> st' !! y = st !! y) ->
  exists st'', list_add (Subdirs p) (Child a) st' = Some st'' /\ tree_of st'' A' /\
    forall y, in_tree y = false -> st'' !! y = st' !! y.
Proof.
  intros HT Ha Hp Eal Ehd Eho Ewh Hown F.
  set (A1 := mk_adcache (alive A') (hashed A') (dropped A') (supply A') (heads A') (home A) (whole A')).
  assert (tree_of st' A1) as HT1 by (by apply (tree_new st st' A A1 a e)).
  assert (forall x, is_Some (alive A !! x) -> x ≠ a) as Hne by (intros x [? ?] ->; congruence).
  pose proof (unused_homeless _ _ _ HT Ha) as Hha. case_bool_decide as Hw.
  2:{ destruct (closed_add st' (mixed A1) (Subdirs p) (Child a) (tr_mixed _ _ HT1)) as (st'' & E & HC & HK).
      - simpl. rewrite Eal, Ewh, lookup_insert_ne by (symmetry; by apply Hne). pose proof (Hne _ Hp). split; [done|set_solver].
      - simpl. rewrite Eal, lookup_insert_eq. done.
      - exists st''. split; [done|]. split; [|intros y Hy; apply HK; intros Hm%mixed_in_tree; congruence].
        apply (tree_same _ A1); [done|done..|]. by eapply tree_mixed_step. }
  destruct (tr_whole _ _ HT1 p) as (_ & l & Hl & Hi); [cbn [A1 whole]; rewrite Ewh; set_solver|].
  destruct (list_add_spec st' (Subdirs p) (Child <$> l) (Child a) Hl) as (st'' & E & _ & Hl'' & F'').
  { intros [?|(x & [= <-] & Hx%Hi)%list_elem_of_fmap]%elem_of_cons; [done|]. cbn [A1 home] in Hx. congruence. }
  { rewrite Hown by (unfold own_nodes; set_solver). eauto. }
  exists st''. split; [done|]. assert (forall y, y ∉ Child a :: Subdirs p :: (Child <$> l) -> st'' !! y = st' !! y) as F' by exact F''.
  split; [|intros y Hy; apply F'; intros [->|[->|(? & -> & _)%list_elem_of_fmap]%elem_of_cons]%elem_of_cons; done].
  assert (forall y, mixed A y -> st'' !! y = st !! y /\ mixed A' y) as Hm.
  { intros y Hy. pose proof (unused_not_mixed _ _ _ Ha Hy) as Hyo. split.
    - rewrite F', F; [done|done|]. intros [->|Hy']%elem_of_cons; [by apply Hyo; unfold own_nodes; set_solver|].
      by apply (whole_not_mixed A p l y).
    - destruct y as [|b|q|b|b|i]; simpl in *; rewrite ?Eal, ?Ehd, ?Eho, ?Ewh; try done; destruct Hy as [Hy ?];
        pose proof (Hne _ Hy); rewrite ?lookup_insert_ne by done; split; try done; set_solver. }
  split.
  - intros k Hk. assert (mixed A k) as Hk'.
    { destruct k as [|b|q|b|b|i]; simpl in *; rewrite ?Eal, ?Ehd, ?Eho, ?Ewh in Hk; try done; destruct Hk as [Hk Hk2].
      - rewrite lookup_insert_ne in Hk by set_solver. split; [done|set_solver].
      - destruct (decide (a = b)) as [<-|]; [by rewrite lookup_insert_eq in Hk2|]. by rewrite !lookup_insert_ne in * by done. }
    destruct (tr_mixed _ _ HT k Hk') as (n & q & E' & Hn%Hm & Hq%Hm). apply Hm in Hk' as [-> _]. exists n, q. tauto.
  - intros q Hq. destruct (tr_whole _ _ HT1 q) as (? & l' & Hl' & Hi'); [done|]. split; [done|].
    destruct (decide (q = p)) as [->|Hqp].
    + exists (a :: l). split; [done|]. intros x. rewrite Eho, elem_of_cons, Hi. cbn [A1 home].
      destruct (decide (a = x)) as [<-|Hax]; [rewrite lookup_insert_eq; tauto|]. rewrite lookup_insert_ne by done.
      split; [by intros [->|]|by right].
    + exists l'. split.
      * eapply dlist_frame; [|exact Hl']. intros y Hy. apply F'. intros Hy'.
        rewrite !elem_of_cons, !list_elem_of_fmap in *. cbn [A1 home] in Hi, Hi'.
        destruct Hy as [->|(x & -> & Hx%Hi')]; destruct Hy' as [?|[?|(x' & [= <-] & Hx'%Hi)]]; congruence.
      * intros x. rewrite Eho, Hi'. cbn [A1 home]. destruct (decide (a = x)) as [<-|Hax]; [|by rewrite lookup_insert_ne].
        rewrite lookup_insert_eq. split; congruence.
  - intros x q. rewrite Eho, Ewh, Eal. destruct (decide (a = x)) as [<-|Hax].
    + rewrite !lookup_insert_eq. intros [= <-]. split; [set_solver|done].
    + rewrite !lookup_insert_ne by done. intros [? ?]%(tr_home _ _ HT). split; [set_solver|done].
Qed.

Lemma represents_new s A A' a d e rest st' :
  represents s A -> alive A !! a = None -> alive A' = <[a := e]> (alive A) -> hashed A' = hashed A -> heads A' = heads A ->
  dropped A' = dropped A ∖ {[a]} -> supply A' = rest.*1 -> (forall x, x ≠ a -> home A' !! x = home A !! x) ->
  entry_of A' a d e -> tree_of st' A' -> dlist st' (DHash a) [] ->
  (forall y, in_tree y = false -> y ∉ own_nodes a -> st' !! y = dlinks s !! y) -> (exists x, pool s = x :: rest) ->
  represents (mk_dcache (<[a := d]> (dentries s)) st' rest) A'.
Proof.
  intros HR Ha Eal Ehs Ehd Edr Esu Eho He HT' Hself F [x0 Ep].
  assert (forall x, x ∈ hashed A -> x ≠ a) as Hne.
  { intros x Hx ->. destruct (rp_hashed _ _ HR a Hx) as [[] _]. congruence. }
  assert (forall x, x ≠ a -> DHash x ∉ own_nodes a) as Hno.
  { intros x Hx. unfold own_nodes. rewrite !elem_of_cons, elem_of_nil. intros [?|[?|[?|[?|[]]]]]; congruence. }
  destruct HR. split; rewrite ?Ehs; try done.
  - intros x Hx. destruct (rp_hashed0 x Hx) as [[e' ?] ?]. rewrite Eal, Edr. split; [|set_solver].
    rewrite lookup_insert_ne by (symmetry; by apply Hne). eauto.
  - intros x. cbn [dentries]. rewrite Eal. destruct (decide (a = x)) as [<-|Hax].
    + rewrite !lookup_insert_eq. by constructor.
    + rewrite !lookup_insert_ne by done. specialize (rp_same0 x). destruct rp_same0 as [? [[]] He'|]; constructor.
      destruct He' as (? & ? & ? & Hfl & ?). unfold entry_of. rewrite Ehd, Eho by done. split_and!; try done.
      rewrite Hfl. apply bool_decide_ext. rewrite Edr. set_solver.
  - intros h Hh. replace (chain_of A' h) with (chain_of A h).
    + eapply dlist_frame; [|by apply rp_chain0]. intros y Hy.
      apply F; apply elem_of_cons in Hy as [->|(b & -> & [_ Hb]%list_elem_of_filter)%list_elem_of_fmap]; try done.
      * unfold own_nodes. rewrite !elem_of_cons, elem_of_nil. intros [?|[?|[?|[?|[]]]]]; done.
      * by apply Hno, Hne.
    + unfold chain_of. rewrite Ehs. apply filter_elem_iff. intros x Hx. unfold a_key. rewrite Eal.
      by rewrite lookup_insert_ne by (symmetry; by apply Hne).
  - intros x Hx Hxn. destruct (decide (x = a)) as [->|Hax]; [done|].
    rewrite Eal, lookup_insert_ne in Hx by done. eapply dlist_frame; [|by apply rp_alone0]. intros y Hy%list_elem_of_singleton. subst y.
    apply F; [done|by apply Hno].
  - split; [done|]. destruct rp_pool0 as [_ Hp]. rewrite Ep in Hp. by apply Forall_cons in Hp as [_ Hp].
Qed.

Lemma alloc_code parent old rest a n nm s :
  pool s = (a, old) :: rest ->
  (nm ← strncpy old (n ++ [0]) (NAME_SIZE - 1); zset nm (Z.of_nat NAME_SIZE - 1) 0) = Some nm ->
  d_alloc parent (Some (n ++ [0])) s =
    st ← (st ← INIT_LIST_HEAD (DLru a) (new_nodes a (dlinks s)); st ← INIT_LIST_HEAD (Child a) st;
          st ← INIT_LIST_HEAD (Subdirs a) st; INIT_LIST_HEAD (DHash a) st);
    st ← match parent with Some p => if p =? a then Some st else list_add (Subdirs p) (Child a) st | None => Some st end;
    Some (Some a, mk_dcache (<[a := mk_dentry 1 0 None (default a parent) nm None]> (dentries s)) st rest).
Proof.
  intros Ep En. unfold d_alloc. rewrite Ep, En. cbn [mbind option_bind]. unfold on_dlinks. cbn [dlinks dentries pool].
  destruct (INIT_LIST_HEAD (DLru a) _) as [st1|]; [|done]. cbn [mbind option_bind dlinks dentries pool].
  destruct (INIT_LIST_HEAD (Child a) st1) as [st2|]; [|done]. cbn [mbind option_bind dlinks dentries pool].
  destruct (INIT_LIST_HEAD (Subdirs a) st2) as [st3|]; [|done]. cbn [mbind option_bind dlinks dentries pool].
  destruct (INIT_LIST_HEAD (DHash a) st3) as [st4|]; [|done]. cbn [mbind option_bind dlinks dentries pool].
  destruct parent as [p|]; [|done]. destruct (p =? a); [done|]. by destruct (list_add _ _ st4).
Qed.

Lemma d_alloc_spec s A A' parent n r :
  represents s A -> a_alloc parent n A = Some (r, A') ->
  exists s', d_alloc parent (Some (n ++ [0])) s = Some (r, s') /\ represents s' A'.
Proof.
  intros HR E. unfold a_alloc in E. destruct (rp_pool _ _ HR) as [Esup Hpool]. rewrite Esup in E.
  destruct (pool s) as [|[a old] rest] eqn:Ep; simpl in E.
  { injection E as <- <-. unfold d_alloc. rewrite Ep. eauto. }
  case_bool_decide as Hc; [|done]. destruct Hc as [Ha Hn]. simpl in E.
  destruct (opt_all _ parent) eqn:Hpar; [|done]. injection E as <- <-.
  apply Forall_cons in Hpool as [Hold Hpool]. cbn [fst snd] in Hold.
  destruct (alloc_name old n Hold Hn) as (nm & Enm & Hnm). rewrite (alloc_code _ _ _ _ _ _ _ Ep Enm).
  destruct (alloc_links (dlinks s) a) as (st' & -> & Hown & F). cbn [mbind option_bind].
  set (d := mk_dentry 1 0 None (default a parent) nm None). set (e := (1, default a parent, take 29 n)). set (A' := mk_adcache _ _ _ _ _ _ _).
  assert (entry_of A' a d e) as He.
  { unfold entry_of, e. split_and!; try done. cbn [A' dropped d d_flags]. rewrite bool_decide_false; [done|].
    intros [_ H]%elem_of_difference. by apply H, elem_of_singleton. }
  assert (forall st'', tree_of st'' A' -> (forall y, in_tree y = false -> st'' !! y = st' !! y) ->
    represents (mk_dcache (<[a := d]> (dentries s)) st'' rest) A') as Hall.
  { intros st'' HT'' F''. apply (represents_new s A A' a d e); try done; [| | |by eexists].
    - intros x Hx. cbn [A' home]. destruct parent as [q|]; [|done]. case_bool_decide; [by apply lookup_insert_ne|done].
    - apply ring_self. rewrite F'' by done. apply Hown, own_hash.
    - intros y Hy Hyo. by rewrite F'', F. }
  destruct parent as [q|].
  - simpl in Hpar. apply bool_decide_eq_true in Hpar.
    replace (q =? a) with false by (symmetry; apply Z.eqb_neq; intros ->; destruct Hpar; congruence).
    destruct (tree_below (dlinks s) st' A A' a q e (rp_tree _ _ HR) Ha Hpar) as (st'' & -> & HT'' & F''); [done..|].
    eexists. split; [done|]. by apply Hall.
  - eexists. split; [done|]. apply Hall; [|done]. by apply (tree_new (dlinks s) st' A A' a e (rp_tree _ _ HR)).
Qed.

(** *** Giving an entry's memory back *)

Lemma drop_nodes_own a (st : gmap dnode (list_head dnode)) y : y ∉ own_nodes a -> drop_nodes a st !! y = st !! y.
Proof.
  intros Hy. unfold own_nodes in Hy. rewrite !not_elem_of_cons in Hy. destruct Hy as (? & ? & ? & ? & _).
  unfold drop_nodes, own_nodes. cbn [foldr]. by rewrite !lookup_delete_ne by done.
Qed.

Definition a_away (a : Z) (A : adcache) : adcache :=
  mk_adcache (alive A) (hashed A) (dropped A) (supply A) (heads A) (delete a (home A)) (whole A).

(** [list_del] of [d_child]: the entry is on no list. *)
Lemma tree_unlink st A a p :
  tree_of st A -> home A !! a = Some p ->
  exists st', list_del (Child a) st = Some st' /\ tree_of st' (a_away a A) /\ closed st' (mixed A) /\
    forall y, in_tree y = false -> st' !! y = st !! y.
Proof.
  intros [HC HW HH] Ea. destruct (HH a p Ea) as [Hp Ha]. destruct (HW p Hp) as (Hpa & l & Hl & Hi).
  destruct (list_elem_of_split l a) as (l1 & l2 & El); [by apply Hi|].
  pose proof Hl as Hl'. rewrite El, fmap_app, fmap_cons in Hl'.
  destruct (list_del_spec _ _ _ _ _ Hl') as (st' & E & _ & Hd & Hself & F). exists st'.
  rewrite <- fmap_cons, <- fmap_app, <- El in F. rewrite <- fmap_app in Hd.
  assert (a ∉ l1 ++ l2) as Hal.
  { destruct Hl' as [Hnd _]. apply NoDup_ring_mid in Hnd as [_ Hnd]. intros Hin. apply Hnd. right. rewrite <- fmap_app.
    by apply list_elem_of_fmap_2. }
  assert (closed st' (mixed A)) as HC'.
  { eapply closed_frame; [done|]. intros y Hy. apply F. intros Hy'. by apply (whole_not_mixed A p l y). }
  split; [done|]. split; [|split; [done|intros y Hy; apply F; intros [->|(? & -> & _)%list_elem_of_fmap]%elem_of_cons; done]].
  assert (forall k, mixed A k -> mixed (a_away a A) k) as Hm.
  { intros k Hk. destruct k; simpl in *; try done. split; [apply Hk|]. apply lookup_delete_None. right. apply Hk. }
  split.
  - intros k Hk. destruct (decide (k = Child a)) as [->|Hne].
    + destruct (ring_closed _ _ _ Hself (Child a)) as (n & q & E' & ->%list_elem_of_singleton & ->%list_elem_of_singleton); [by left|]. eauto.
    + destruct (HC' k) as (n & q & ? & ? & ?); [|exists n, q; auto].
      destruct k as [| | |b| |]; try exact Hk. cbn [mixed a_away alive home] in *. by rewrite lookup_delete_ne in Hk by congruence.
  - intros q Hq. destruct (HW q Hq) as (? & l' & Hlq & Hi'). split; [done|]. cbn [a_away home].
    destruct (decide (q = p)) as [->|Hqp].
    + exists (l1 ++ l2). split; [done|]. intros x. rewrite lookup_delete_Some, <- Hi, El, !elem_of_app, elem_of_cons.
      split; [intros Hx; split; [intros ->; by apply Hal, elem_of_app|tauto]|].
      intros [? [?|[?|?]]]; [by left|congruence|by right].
    + exists l'. split.
      * eapply dlist_frame; [|exact Hlq]. intros y Hy. apply F. intros Hy'. rewrite !elem_of_cons, !list_elem_of_fmap in *.
        destruct Hy as [->|(x & -> & Hx%Hi')]; destruct Hy' as [?|(x' & [= <-] & Hx'%Hi)]; congruence.
      * intros x. rewrite lookup_delete_Some, Hi'. split; [|tauto]. intros Hx. split; [congruence|done].
  - intros x q Hx. cbn [a_away home] in Hx. apply lookup_delete_Some in Hx as [_ Hx]. by apply HH.
Qed.

(** The nodes of an entry that is on no list, and whose list is empty, may go. *)
Lemma tree_free st A a :
  tree_of st (a_away a A) -> closed st (mixed A) -> a ∈ whole A -> map_Forall (fun _ q => q ≠ a) (home A) -> is_Some (home A !! a) ->
  tree_of (drop_nodes a st) (a_free a A).
Proof.
  intros [_ HW HH] HC Ha Hno [p Hp].
  assert (forall k, mixed A k -> mixed (a_free a A) k /\ drop_nodes a st !! k = st !! k) as Hm.
  { intros k Hk. assert (k ≠ Child a /\ k ≠ Subdirs a) as [H1 H2].
    { split; intros ->; destruct Hk; [congruence|done]. }
    split; [|apply drop_nodes_own; unfold own_nodes; rewrite !elem_of_cons, elem_of_nil; intros [->|[->|[->|[->|[]]]]]; done].
    destruct k as [| |q|b| |]; cbn [mixed a_free alive home whole heads] in *; try done; destruct Hk as [? Hk];
      rewrite !lookup_delete_ne by congruence; (split; [done|]); [|done]. intros [? _]%elem_of_difference. done. }
  split.
  - intros k Hk. assert (mixed A k) as Hk'.
    { destruct k as [| |q|b| |]; cbn [mixed a_free alive home whole heads] in *; try done; destruct Hk as [[? [Hne ?]%lookup_delete_Some] Hk].
      - split; [eauto|]. intros Hq. apply Hk, elem_of_difference. split; [done|]. intros ->%elem_of_singleton. done.
      - rewrite lookup_delete_ne in Hk by done. eauto. }
    destruct (HC k Hk') as (n & q & E & Hn%Hm & Hq%Hm). apply Hm in Hk' as [_ ->]. exists n, q. tauto.
  - intros q [Hq Hqa]%elem_of_difference. rewrite elem_of_singleton in Hqa. destruct (HW q Hq) as (? & l & Hl & Hi).
    cbn [a_free alive home]. rewrite lookup_delete_ne by done. split; [done|]. exists l. split; [|done].
    eapply dlist_frame; [|exact Hl]. intros y Hy. apply drop_nodes_own. unfold own_nodes. rewrite !elem_of_cons, elem_of_nil.
    rewrite elem_of_cons, list_elem_of_fmap in Hy.
    destruct Hy as [->|(x & -> & Hx%Hi)]; intros [?|[E|[E|[?|[]]]]]; try done; injection E as ->; [done|].
    cbn [a_away home] in Hx. by rewrite lookup_delete_eq in Hx.
  - intros x q. cbn [a_free home whole alive]. intros [Hne Hx]%lookup_delete_Some.
    destruct (HH x q) as [Hq ?]; [by apply lookup_delete_Some|]. rewrite lookup_delete_ne by done. split; [|done].
    apply elem_of_difference. split; [done|]. intros ->%elem_of_singleton. by apply (Hno x a Hx).
Qed.

Lemma represents_free s A a :
  represents s (a_delete a (a_away a A)) -> tree_of (drop_nodes a (dlinks s)) (a_free a A) ->
  represents (mk_dcache (delete a (dentries s)) (drop_nodes a (dlinks s)) (pool s)) (a_free a A).
Proof.
  intros HR HT. set (B := a_delete a (a_away a A)) in HR.
  assert (forall x, x ∈ hashed (a_free a A) -> a ≠ x) as Hne by (intros x [? _]%list_elem_of_filter; congruence).
  assert (forall x, x ≠ a -> DHash x ∉ own_nodes a) as Hno.
  { intros x Hx. unfold own_nodes. rewrite !elem_of_cons, elem_of_nil. intros [?|[?|[?|[?|[]]]]]; congruence. }
  destruct HR. split; cbn [dentries dlinks pool]; try done.
  - intros x Hx. cbn [a_free alive dropped]. rewrite lookup_delete_ne by (by apply Hne). by apply (rp_hashed0 x).
  - intros x. cbn [a_free alive]. destruct (decide (a = x)) as [<-|Hax]; [rewrite !lookup_delete_eq; constructor|].
    rewrite !lookup_delete_ne by done. exact (rp_same0 x).
  - intros h Hh. replace (chain_of (a_free a A) h) with (chain_of B h).
    + eapply dlist_frame; [|by apply rp_chain0]. intros y Hy. apply drop_nodes_own.
      apply elem_of_cons in Hy as [->|(b & -> & [_ Hb]%list_elem_of_filter)%list_elem_of_fmap].
      * unfold own_nodes. rewrite !elem_of_cons, elem_of_nil. intros [?|[?|[?|[?|[]]]]]; done.
      * apply Hno. intros ->. by apply (Hne a).
    + unfold chain_of. apply filter_elem_iff. intros x Hx. unfold a_key. cbn [a_free alive].
      by rewrite lookup_delete_ne by (by apply Hne).
  - intros x Hx Hxn. cbn [a_free alive] in Hx. destruct (decide (a = x)) as [<-|Hax]; [rewrite lookup_delete_eq in Hx; by destruct Hx|].
    rewrite lookup_delete_ne in Hx by done. eapply dlist_frame; [|by apply rp_alone0]. intros y Hy%list_elem_of_singleton. subst y.
    by apply drop_nodes_own, Hno.
Qed.

Lemma put_spec s A A' a r :
  represents s A -> spec_dop (Put a) A = Some (r, A') -> exists s', run_dop (Put a) s = Some (r, s') /\ represents s' A'.
Proof.
  intros HR E. cbn [spec_dop] in E. destruct (a_count a _ A) as [A1|] eqn:EA; [|done]. cbn [mbind option_bind] in E.
  destruct (count_spec _ _ _ _ _ HR EA) as (d & Ed & Hc & HR1). cbn [run_dop dput].
  rewrite (upd_dentry_at _ _ _ _ Ed). cbn [mbind option_bind]. set (s1 := with_entry s a _) in *.
  destruct (alive A1 !! a) as [[[c p] n]|] eqn:Ea; [|done]. cbn [mbind option_bind] in E.
  destruct (rp_entry _ _ _ _ HR1 Ea) as (d1 & Ed1 & Hc1 & Hp1 & _). rewrite Ed1. cbn [mbind option_bind]. rewrite Hc1.
  destruct (c =? 0); [|injection E as <- <-; by eexists]. unfold a_loose in E. case_bool_decide as Hlo; [|done]. injection E as <- <-.
  destruct Hlo as ([q Hq] & Hwh & Hno & Hpa). rewrite Hp1. replace (p =? a) with false by lia.
  destruct (tree_unlink _ _ _ _ (rp_tree _ _ HR1) Hq) as (st' & E' & HT & HC & F). unfold on_dlinks. rewrite E'. cbn [mbind option_bind].
  assert (represents (with_links s1 st') (a_away a A1)) as HR2.
  { apply (represents_links s1 A1); [done|done|done|done|]. intros x Hx. cbn [a_away home]. apply lookup_delete_None. by right. }
  destruct (delete_spec _ _ a HR2) as (s3 & E3 & HR3); [cbn [a_away alive]; by rewrite Ea|].
  pose proof (delete_keeps_tree _ _ _ _ HR2 E3) as F3.
  change (mk_dcache (dentries s1) st' (pool s1)) with (with_links s1 st'). rewrite E3. cbn [mbind option_bind].
  eexists. split; [done|]. apply (represents_free s3 A1); [done|]. apply tree_free; [|..|done|done|by rewrite Hq].
  - apply (tree_same _ (a_delete a (a_away a A1))); [done..|]. apply HR3.
  - eapply closed_frame; [exact HC|]. intros y Hy%mixed_in_tree. by apply F3.
Qed.

(** An entry that is on no chain may change its directory. *)
Lemma represents_moved s A a d c p n q :
  represents s A -> alive A !! a = Some (c, p, n) -> a ∉ hashed A -> entry_of A a (set_parent q d) (c, q, n) ->
  represents (with_entry s a (set_parent q d)) (a_live A (<[a := (c, q, n)]> (alive A))).
Proof.
  intros HR Ea Hn He. assert (forall x, x ∈ hashed A -> a ≠ x) as Hne by (by intros x Hx ->).
  assert (forall x, is_Some (<[a := (c, q, n)]> (alive A) !! x) <-> is_Some (alive A !! x)) as Hs.
  { intros x. rewrite lookup_insert. case_decide; [subst; rewrite Ea; split; eauto|done]. }
  destruct HR. split; cbn [alive hashed dropped supply heads dentries dlinks pool a_live with_entry]; try done.
  - intros x Hx. rewrite Hs. eauto.
  - intros x. destruct (decide (a = x)) as [->|]; [rewrite !lookup_insert_eq; by constructor|].
    rewrite !lookup_insert_ne by done. apply rp_same0.
  - intros h Hh. replace (chain_of _ h) with (chain_of A h); [by apply rp_chain0|].
    unfold chain_of. cbn [a_live hashed]. apply filter_elem_iff. intros x Hx. unfold a_key. cbn [a_live alive].
    by rewrite lookup_insert_ne by (by apply Hne).
  - intros x. rewrite Hs. by apply rp_alone0.
  - by eapply tree_same; [exact Hs|..|exact rp_tree0].
Qed.

Lemma move_spec s A A' a t r :
  represents s A -> spec_dop (Move a t) A = Some (r, A') -> exists s', run_dop (Move a t) s = Some (r, s') /\ represents s' A'.
Proof.
  intros HR E. cbn [spec_dop] in E. destruct (alive A !! t) as [[[tc q] tn]|] eqn:Et; [|done]. cbn [mbind option_bind] in E.
  change (alive (a_delete a A)) with (alive A) in E. destruct (alive A !! a) as [[[c p] n]|] eqn:Ea; [|done]. cbn [mbind option_bind] in E.
  destruct (delete_spec s A a HR) as (s1 & E1 & HR1); [by rewrite Ea|]. cbn [run_dop d_move]. rewrite E1. cbn [mbind option_bind].
  destruct (rp_entry s1 (a_delete a A) t _ HR1 Et) as (dt & Edt & _ & Hq & _). rewrite Edt. cbn [mbind option_bind].
  destruct (rp_entry s1 (a_delete a A) a _ HR1 Ea) as (d & Ed & Hd). rewrite (upd_dentry_at _ _ _ _ Ed), Hq. cbn [mbind option_bind].
  set (A1 := a_live _ _) in E. set (s2 := with_entry s1 a _).
  assert (represents s2 A1) as HR2.
  { apply (represents_moved s1 (a_delete a A) a d c p n q); [done|done| |].
    - cbn [a_delete hashed]. by intros [? _]%list_elem_of_filter.
    - destruct Hd as (? & ? & ? & ? & ?). done. }
  destruct (a_hash a A1) as [A2|] eqn:EA; [|done]. cbn [mbind option_bind] in E. injection E as <- <-.
  assert (dentries s2 !! a = Some (set_parent q d)) as -> by apply lookup_insert_eq. cbn [mbind option_bind].
  change (d_inode (set_parent q d)) with (d_inode d). unfold d_add.
  assert (exists s3, match d_inode d with Some _ => d_instantiate (Some a) (d_inode d) s2 | None => Some s2 end = Some s3 /\ represents s3 A1) as (s3 & -> & HR3).
  { destruct (d_inode d) as [i|] eqn:Ei; [|by eexists]. destruct Hd as (_ & _ & _ & _ & Hi). destruct (Hi i Ei) as [Hih Hho].
    destruct (instantiate_spec s2 A1 a i HR2) as (s3 & E3 & HR3); [cbn [A1 a_live alive]; rewrite lookup_insert_eq; eauto|done|].
    exists s3. split; [done|]. assert (a_tie a A1 = A1) as <-; [|done]. unfold a_tie. cbn [A1 a_live home]. by rewrite Hho. }
  cbn [mbind option_bind]. destruct (enhash_spec _ _ _ _ HR3 EA) as (s4 & -> & HR4). by eexists.
Qed.

Lemma root_spec s A A' i sb r :
  represents s A -> spec_dop (Root i sb) A = Some (r, A') -> exists s', run_dop (Root i sb) s = Some (r, s') /\ represents s' A'.
Proof.
  intros HR E. cbn [spec_dop] in E. case_bool_decide as Hi; [|done]. cbn [run_dop d_alloc_root].
  destruct (d_alloc_spec _ _ _ _ _ _ HR E) as (s1 & E1 & HR1). change ([47] ++ [0]) with [47; 0] in E1. rewrite E1. cbn [mbind option_bind].
  destruct r as [a|]; [|by eexists].
  assert (is_Some (alive A' !! a) /\ heads A' = heads A /\ home A' !! a = None) as ([e Ea] & Hh & Ho).
  { unfold a_alloc in E. destruct (supply A) as [|a' rest]; [done|]. case_bool_decide as Hb; [|done]. cbn [andb opt_all] in E. injection E as <- <-.
    cbn [alive heads home]. rewrite lookup_insert_eq. split_and!; [eauto|done|].
    apply (unused_homeless _ _ _ (rp_tree _ _ HR)), Hb. }
  destruct (rp_entry _ _ _ _ HR1 Ea) as (d & Ed & Hd). rewrite (upd_dentry_at _ _ _ _ Ed). cbn [mbind option_bind].
  unfold upd_dentry. cbn [with_entry dentries]. rewrite lookup_insert_eq. cbn [mbind option_bind dlinks pool].
  rewrite insert_insert_eq.
  destruct (connect_spec s1 A' a d i (fun d => set_sb sb (set_inode (Some i) d)) HR1 Ed) as (s' & E' & HR'); [by rewrite Hh|done..|].
  unfold with_entry in *. cbn [dlinks pool] in *. rewrite E'. eexists. split; [done|]. assert (a_tie a A' = A') as <-; [|done].
  unfold a_tie. destruct (home A' !! a) as [q|] eqn:Eq; [|done]. by rewrite Ho in Eq.
Qed.

Lemma dop_spec s A o r A' :
  represents s A -> spec_dop o A = Some (r, A') -> exists s', run_dop o s = Some (r, s') /\ represents s' A'.
Proof.
  intros HR E. destruct o.
  - by apply (d_alloc_spec s A).
  - by apply (root_spec s A).
  - cbn in E. case_bool_decide as H; [|done]. injection E as <- <-.
    destruct (instantiate_spec s A a i HR) as (s' & Es & HR'); [apply H..|]. cbn [run_dop]. rewrite Es. by eexists.
  - cbn [spec_dop] in E. case_bool_decide as Hn; [done|]. cbn [run_dop]. rewrite (lookup_spec _ _ _ _ HR Hn).
    destruct (a_find A (p, n)) as [a|]; [|injection E as <- <-; by eexists].
    destruct (a_count a _ A) as [A1|] eqn:EA; [|done]. cbn [mbind option_bind] in E. injection E as <- <-.
    destruct (count_spec _ _ _ _ _ HR EA) as (d & Ed & _ & HR1). rewrite (upd_dentry_at _ _ _ _ Ed). by eexists.
  - cbn [spec_dop] in E. destruct (opt_all _ i) eqn:Hi; [|done]. destruct (a_hash a _) as [A1|] eqn:EA; [|done].
    cbn [mbind option_bind] in E. injection E as <- <-. cbn [run_dop d_add].
    assert (exists s1, match i with Some _ => d_instantiate (Some a) i s | None => Some s end = Some s1 /\
      represents s1 (match i with Some _ => a_tie a A | None => A end)) as (s1 & -> & HR1).
    { destruct i as [i|]; [|by eexists]. apply instantiate_spec; [done| |by apply bool_decide_eq_true in Hi].
      unfold a_hash in EA. case_bool_decide as H; [|done]. destruct H as [H _]. by rewrite (proj1 (a_tie_alive A a)) in H. }
    cbn [mbind option_bind]. destruct (enhash_spec _ _ _ _ HR1 EA) as (s2 & -> & HR2). by eexists.
  - cbn [spec_dop] in E. case_bool_decide as H; [|done]. injection E as <- <-. cbn [run_dop].
    destruct (delete_spec s A a HR H) as (s1 & -> & HR1). by eexists.
  - by apply (put_spec s A).
  - cbn [spec_dop] in E. destruct (a_count a _ A) as [A1|] eqn:EA; [|done]. cbn [mbind option_bind] in E. injection E as <- <-.
    destruct (count_spec _ _ _ _ _ HR EA) as (d & Ed & _ & HR1). cbn [run_dop dget]. rewrite (upd_dentry_at _ _ _ _ Ed). by eexists.
  - cbn [spec_dop] in E. case_bool_decide as Hal; [|done]. destruct Hal as [[[c p] n] Ea].
    destruct (rp_entry _ _ _ _ HR Ea) as (d & Ed & _ & _ & _ & Hf & _). cbn [run_dop d_rehash d_unhashed]. rewrite Ed. cbn [mbind option_bind].
    rewrite Hf. case_bool_decide; [|injection E as <- <-; by eexists].
    destruct (a_hash a A) as [A1|] eqn:EA; [|done]. cbn [mbind option_bind] in E. injection E as <- <-.
    destruct (enhash_spec _ _ _ _ HR EA) as (s2 & -> & HR2). by eexists.
  - by apply (move_spec s A).
Qed.

Lemma dops_spec os : forall s A rs A',
  represents s A -> spec_dops os A = Some (rs, A') -> exists s', run_dops os s = Some (rs, s') /\ represents s' A'.
Proof.
  induction os as [|o os IH]; intros s A rs A' HR E; simpl in *; [injection E as <- <-; by eexists|].
  destruct (spec_dop o A) as [[r A1]|] eqn:E1; [|done]. cbn [mbind option_bind] in E.
  destruct (spec_dops os A1) as [[rs1 A2]|] eqn:E2; [|done]. cbn [mbind option_bind] in E. injection E as <- <-.
  destruct (dop_spec _ _ _ _ _ HR E1) as (s1 & -> & HR1). cbn [mbind option_bind].
  destruct (IH _ _ _ _ HR1 E2) as (s2 & -> & HR2). by eexists.
Qed.

(** ** The cache at start *)

Record fresh (s : dcache) (hd : gset Z) : Prop := mk_fresh {
  fr_entries : dentries s = ∅;
  fr_chain : forall h, 0 <= h < DENTRY_HASH_SIZE -> is_Some (dlinks s !! Chain h);
  fr_heads : forall i, i ∈ hd -> dlist (dlinks s) (IDentry i) [];
  fr_pool : Forall (fun e => length e.2 = NAME_SIZE) (pool s)
}.

Definition empty_cache (s : dcache) (hd : gset Z) : adcache := mk_adcache ∅ [] ∅ (pool s).*1 hd ∅ ∅.

Lemma init_chains_spec n : forall i s,
  (forall h, i <= h < i + Z.of_nat n -> is_Some (dlinks s !! Chain h)) ->
  exists st, init_chains n i s = Some (with_links s st) /\ dom st = dom (dlinks s) /\
    (forall h, i <= h < i + Z.of_nat n -> dlist st (Chain h) []) /\
    forall y, (forall h, i <= h < i + Z.of_nat n -> y ≠ Chain h) -> st !! y = dlinks s !! y.
Proof.
  induction n as [|n IH]; intros i s Hd.
  { exists (dlinks s). split_and!; [by destruct s|done|lia|done]. }
  destruct (INIT_LIST_HEAD_spec (dlinks s) (Chain i)) as (st1 & E & D1 & Hi & F1); [apply Hd; lia|].
  cbn [init_chains]. unfold on_dlinks. rewrite E. cbn [mbind option_bind].
  change (mk_dcache _ st1 _) with (with_links s st1). destruct (IH (i + 1) (with_links s st1)) as (st & -> & D & Hall & F).
  { intros h Hh. apply elem_of_dom. cbn [with_links dlinks]. rewrite D1. apply elem_of_dom, Hd. lia. }
  cbn [with_links dlinks] in *. exists st. split_and!; [done|congruence|..].
  - intros h Hh. destruct (decide (h = i)) as [->|]; [|apply Hall; lia].
    eapply dlist_frame; [|exact Hi]. intros y Hy%list_elem_of_singleton. subst. apply F. intros h Hh' [=]. lia.
  - intros y Hy. rewrite F, F1; [done|apply Hy; lia|]. intros h Hh. apply Hy. lia.
Qed.

Lemma dcache_init_spec s hd : fresh s hd -> exists s0, dcache_init true s = Some s0 /\ represents s0 (empty_cache s hd).
Proof.
  intros [He Hc Hh Hp]. destruct (init_chains_spec (Z.to_nat DENTRY_HASH_SIZE) 0 s) as (st & E & D & Hall & F); [exact Hc|].
  unfold dcache_init. rewrite E. eexists. split; [done|]. split; try done.
  - apply NoDup_nil_2.
  - intros a Ha. by apply not_elem_of_nil in Ha.
  - intros a. cbn [with_links dentries empty_cache alive]. rewrite He, !lookup_empty. constructor.
  - intros a Ha. cbn [empty_cache alive] in Ha. rewrite lookup_empty in Ha. by destruct Ha.
  - split.
    + intros k Hk. destruct k as [| |q|b| |i]; simpl in Hk; try done; [rewrite lookup_empty in Hk; by destruct Hk as [[]]..|].
      destruct (ring_closed _ _ _ (Hh i Hk) (IDentry i)) as (n & p & E' & ->%list_elem_of_singleton & ->%list_elem_of_singleton); [by left|].
      exists (IDentry i), (IDentry i). cbn [with_links dlinks]. rewrite F by done. done.
    + intros p Hw. by apply not_elem_of_empty in Hw.
    + intros a p Ha. cbn [empty_cache home] in Ha. by rewrite lookup_empty in Ha.
Qed.

(** ** A walk that cannot come back *)

Lemma walk_trapped (st : gmap dnode (list_head dnode)) h (S : dnode -> Prop) :
  (forall x, S x -> exists y, next_of st x = Some y /\ S y) -> ~ S h -> forall fuel x, S x -> list_walk fuel st h x = None.
Proof.
  intros Hc Hh. induction fuel as [|fuel IH]; intros x Hx; [done|]. cbn [list_walk].
  rewrite decide_False by (by intros ->). destruct (Hc x Hx) as (y & -> & Hy). cbn [mbind option_bind]. by rewrite IH.
Qed.

Lemma walk_into_trap (st st' : gmap dnode (list_head dnode)) h b (S : dnode -> Prop) xs : forall a fuel,
  (forall x, S x -> exists y, next_of st' x = Some y /\ S y) -> ~ S h -> S b ->
  lseg st a xs b -> (forall y, y ∈ xs -> next_of st' y = next_of st y) -> h ∉ xs ->
  list_walk fuel st' h (hd b xs) = None.
Proof.
  induction xs as [|x xs IH]; intros a fuel Hc Hh Hb Hl Hf Hhx; cbn [hd]; [by eapply walk_trapped|].
  apply not_elem_of_cons in Hhx as [Hhn Hhx]. destruct fuel as [|fuel]; [done|]. cbn [list_walk].
  rewrite decide_False, Hf by (done || by left). destruct Hl as (_ & _ & Hl).
  rewrite (lseg_first _ _ _ _ Hl). cbn [mbind option_bind]. erewrite IH; [done|done|done|done|exact Hl|set_solver|done].
Qed.

(** ** Main theorems *)


(** A store with the chains, two inodes and room for two entries, and a
    session: the root, an entry [b] below it without an inode, found, released
    and given back; its memory is handed out again for an entry [a], which is
    connected to an inode, found, unhashed, rehashed and found again. *)
Definition demo_name : list Z := replicate NAME_SIZE 65.
Definition demo_nodes : list (dnode * list_head dnode) :=
  ((fun h => (Chain h, mk_list_head None None)) <$> seqZ 0 DENTRY_HASH_SIZE) ++
  ((fun i => (IDentry i, mk_list_head (Some (IDentry i)) (Some (IDentry i)))) <$> [7; 8]).
Definition demo_dcache : dcache := mk_dcache ∅ (list_to_map demo_nodes) [(100, demo_name); (200, demo_name); (200, demo_name)].
Definition demo_heads : gset Z := {[7; 8]}.
Definition demo_ops : list dop :=
  [Root 7 None; Alloc (Some 100) [98]; Add 200 None; Lookup 100 [98]; Put 200; Put 200; Lookup 100 [98];
   Alloc (Some 100) [97]; Lookup 100 [97]; Add 200 (Some 8); Lookup 100 [97]; Delete 200; Lookup 100 [97];
   Rehash 200; Lookup 100 [97]; Put 200].
Definition demo_results : list (option Z) :=
  [Some 100; Some 200; None; Some 200; None; None; None; Some 200; None; None; Some 200; None; None; None; Some 200; None].

Lemma demo_dcache_fresh : fresh demo_dcache demo_heads.
Proof.
  split; [done|..].
  - apply (Forall_seqZ (fun h => is_Some (dlinks demo_dcache !! Chain h)) 0 256). decided.
  - intros i Hi. assert (i = 7 \/ i = 8) as [-> | ->] by set_solver;
      (split; [apply NoDup_singleton|]; split; vm_compute; reflexivity).
  - decided.
Qed.


(** An entry connected to an inode is on two lists, and [dput] takes it off
    one before it gives it back.  The directory's list still leads to it: the
    next entry allocated below writes to the memory given back. *)
Definition demo_freed : dcache := mk_dcache ∅ (list_to_map demo_nodes) [(100, demo_name); (200, demo_name); (300, demo_name)].

Lemma dput_leaves_freed_entry :
  is_Some (s0 ← dcache_init true demo_freed; run_dops [Root 7 None; Alloc (Some 100) [97]; Add 200 (Some 8); Put 200] s0) /\
  (s0 ← dcache_init true demo_freed; run_dops [Root 7 None; Alloc (Some 100) [97]; Add 200 (Some 8); Put 200; Alloc (Some 100) [98]] s0) = None.
Proof. split; [eexists|]; vm_compute; reflexivity. Qed.

(** Connecting an entry to an inode destroys its directory's list.  An
    entry is on its directory's [d_subdirs] by its [d_child] field since
    [d_alloc]; [d_instantiate] links the same field into the inode's
    [i_dentry] list without taking it off the first, and a walk of
    [d_subdirs] then never returns. *)
Theorem d_instantiate_breaks_parent s p a d i l1 l2 ys :
  dentries s !! a = Some d -> dlist (dlinks s) (Subdirs p) (l1 ++ Child a :: l2) -> dlist (dlinks s) (IDentry i) ys ->
  (forall y, y ∈ Subdirs p :: l1 ++ Child a :: l2 -> y ∉ IDentry i :: ys) ->
  exists s', d_instantiate (Some a) (Some i) s = Some s' /\ forall fuel, list_for_each fuel (dlinks s') (Subdirs p) = None.
Proof.
  intros Ed Hp Hi Hdis. pose proof Hp as [Hnd Hl]. apply lseg_app in Hl as [Hl _].
  destruct (list_add_spec (dlinks s) (IDentry i) ys (Child a) Hi) as (st' & E & _ & Hi' & F);
    [apply Hdis; set_solver|eapply dlist_in_dom; [exact Hp|set_solver]|].
  unfold d_instantiate. rewrite (upd_dentry_at _ _ _ _ Ed). cbn [mbind option_bind]. unfold on_dlinks. cbn [with_entry dlinks].
  rewrite E. eexists. split; [done|]. intros fuel. cbn [dlinks]. unfold list_for_each.
  apply NoDup_cons in Hnd as [Hh (_ & Hx & [Hc _]%NoDup_cons)%NoDup_app].
  assert (forall y, y ∈ Subdirs p :: l1 -> next_of st' y = next_of (dlinks s) y) as Hsame.
  { intros y Hy. apply lookup_next_prev, F. intros [->|Hy']%elem_of_cons; [|by apply (Hdis y); [set_solver|]]. set_solver. }
  rewrite Hsame, (lseg_first _ _ _ _ Hl) by set_solver. cbn [mbind option_bind].
  eapply (walk_into_trap _ _ _ (Child a) (fun x => x ∈ IDentry i :: Child a :: ys)); [intros x Hx'; by eapply ring_next| |set_solver|exact Hl| |set_solver].
  - intros [?|[?|Hy]%elem_of_cons]%elem_of_cons; [done..|]. apply (Hdis (Subdirs p)); [by left|by right].
  - intros y Hy. apply Hsame. by right.
Qed.

(** An entry [200] as [d_alloc] leaves it below [100]. *)
Definition demo_child : dcache :=
  mk_dcache {[200 := mk_dentry 1 0 None 100 demo_name None]}
    (list_to_map [(Subdirs 100, mk_list_head (Some (Child 200)) (Some (Child 200)));
                  (Child 200, mk_list_head (Some (Subdirs 100)) (Some (Subdirs 100)));
                  (IDentry 8, mk_list_head (Some (IDentry 8)) (Some (IDentry 8)))]) [].

Lemma d_instantiate_breaks_parent_witness : exists s',
  d_instantiate (Some 200) (Some 8) demo_child = Some s' /\ forall fuel, list_for_each fuel (dlinks s') (Subdirs 100) = None.
Proof.
  apply (d_instantiate_breaks_parent demo_child 100 200 (mk_dentry 1 0 None 100 demo_name None) 8 [] [] []).
  - reflexivity.
  - split; [decided|]. cbn [app lseg]. split_and!; reflexivity.
  - split; [decided|]. cbn [app lseg]. split_and!; reflexivity.
  - intros y Hy. apply elem_of_cons in Hy as [->|Hy]; [decided|]. apply list_elem_of_singleton in Hy as ->. decided.
Defined.
