(* ===== verification/Namei.v ===== *)
(** * Path lookup (fs/ext2/namei.c, include/namei.h)

    A path is an array of bytes with a terminator, a pointer into it the rest
    of the array.  [i_lookup] is the table of the [i_op->lookup] callbacks: the
    null pointer, or a function of the new entry; it belongs to the file system
    that made the inode.  [component] is the uninitialised local array. *)

From S2P Require Export Dcache.

Record nameidata := mk_nd { nd_dentry : option Z; nd_flags : Z; nd_last_type : Z; nd_last_name : option (list Z) }.

Definition set_nd_dentry (d : option Z) (nd : nameidata) := mk_nd d (nd_flags nd) (nd_last_type nd) (nd_last_name nd).

Definition COMPONENT_SIZE : Z := 64.

Fixpoint skip_slashes (path : list Z) : option (list Z) :=
  match path with
  | [] => None
  | c :: t => if c =? 47 then skip_slashes t else Some path
  end.

(** The copying loop of [get_component] and the final [component[len] = 0]. *)
Fixpoint copy_component (path component : list Z) (len max_len : Z) : option (list Z * list Z) :=
  match path with
  | [] => None
  | c :: t =>
      if negb (c =? 0) && negb (c =? 47) && (len <? max_len - 1) then
        component ← zset component len c; copy_component t component (len + 1) max_len
      else component ← zset component len 0; Some (path, component)
  end.

Definition get_component (path component : list Z) (max_len : Z) : option (list Z * list Z) :=
  path ← skip_slashes path; copy_component path component 0 max_len.

Section Namei.
Variable i_lookup : Z -> option (Z -> dcache -> option (option Z * dcache)).

Definition do_lookup (parent : option Z) (name : option (list Z)) (s : dcache) : option (option Z * dcache) :=
  match parent, name with
  | Some p, Some n =>
      c ← zget n 0;
      if c =? 0 then Some (None, s)
      else
        dp ← dentries s !! p;
        match d_inode dp with
        | None => Some (None, s)
        | Some dir =>
            '(hit, s) ← d_lookup parent name s;
            match hit with
            | Some _ => Some (hit, s)
            | None =>
                '(dentry, s) ← d_alloc parent name s;
                match dentry with
                | None => Some (None, s)
                | Some a =>
                    match i_lookup dir with
                    | Some lookup =>
                        '(result, s) ← lookup a s;
                        match result with
                        | None => s ← dput dentry s; Some (None, s)
                        | Some _ => Some (result, s)
                        end
                    | None => s ← dput dentry s; Some (None, s)
                    end
                end
            end
        end
  | _, _ => Some (None, s)
  end.

(** The loop of [link_path_walk]; the inner [None] is the failed component. *)
Fixpoint walk_path (fuel : nat) (path component : list Z) (dentry : Z) (s : dcache) : option (option Z * dcache) :=
  match fuel with
  | O => None
  | S fuel =>
      c ← zget path 0;
      if c =? 0 then Some (Some dentry, s)
      else
        '(path, component) ← get_component path component COMPONENT_SIZE;
        c ← zget component 0;
        if c =? 0 then Some (Some dentry, s)
        else
          dot ← strcmp component [46; 0];
          if dot =? 0 then walk_path fuel path component dentry s
          else
            dotdot ← strcmp component [46; 46; 0];
            if dotdot =? 0 then
              d ← dentries s !! dentry;
              let dentry := if d_parent d =? dentry then dentry else d_parent d in
              walk_path fuel path component dentry s
            else
              '(r, s) ← do_lookup (Some dentry) (Some component) s;
              match r with
              | None => Some (None, s)
              | Some dentry => walk_path fuel path component dentry s
              end
  end.

Definition link_path_walk (path : option (list Z)) (nd : option nameidata) (component : list Z) (s : dcache)
    : option (Z * option nameidata * dcache) :=
  match path, nd with
  | Some path, Some nd0 =>
      match nd_dentry nd0 with
      | None => Some (-1, nd, s)
      | Some dentry =>
          path ← skip_slashes path;
          '(r, s) ← walk_path (S (length path)) path component dentry s;
          match r with
          | None => Some (-1, nd, s)
          | Some dentry => Some (0, Some (set_nd_dentry (Some dentry) nd0), s)
          end
      end
  | _, _ => Some (-1, nd, s)
  end.

(** [while (nd->dentry->d_parent != nd->dentry) nd->dentry = nd->dentry->d_parent;] *)
Fixpoint walk_up (fuel : nat) (dentry : Z) (s : dcache) : option Z :=
  match fuel with
  | O => None
  | S fuel => d ← dentries s !! dentry; if d_parent d =? dentry then Some dentry else walk_up fuel (d_parent d) s
  end.

Definition path_lookup (path : option (list Z)) (flags : Z) (nd : option nameidata) (component : list Z) (s : dcache)
    : option (Z * option nameidata * dcache) :=
  match path, nd with
  | Some p, Some nd0 =>
      let nd := mk_nd (nd_dentry nd0) flags 0 None in
      match nd_dentry nd with
      | None => Some (-1, Some nd, s)
      | Some dentry =>
          c ← zget p 0;
          nd ← (if c =? 47 then root ← walk_up (S (size (dentries s))) dentry s; Some (set_nd_dentry (Some root) nd) else Some nd);
          link_path_walk path (Some nd) component s
      end
  | _, _ => Some (-1, nd, s)
  end.

Definition lookup_one_len (name : option (list Z)) (base : option Z) (len : Z) (component : list Z) (s : dcache)
    : option (option Z * dcache) :=
  match name, base with
  | Some n, Some _ =>
      if (len <=? 0) || (COMPONENT_SIZE <=? len) then Some (None, s)
      else
        component ← strncpy component n (Z.to_nat len);
        component ← zset component len 0;
        do_lookup base (Some component) s
  | _, _ => Some (None, s)
  end.

Definition path_release (nd : option nameidata) (s : dcache) : option (option nameidata * dcache) :=
  match nd with
  | None => Some (nd, s)
  | Some nd0 =>
      match nd_dentry nd0 with
      | Some _ => s ← dput (nd_dentry nd0) s; Some (Some (set_nd_dentry None nd0), s)
      | None => Some (nd, s)
      end
  end.

(** No mounts: [follow_down] and [follow_up] return 0. *)
Definition follow_down (mnt dentry : Z) : Z := 0.
Definition follow_up (mnt dentry : Z) : Z := 0.

Definition path_walk (path : option (list Z)) (nd : option nameidata) (component : list Z) (s : dcache) :=
  link_path_walk path nd component s.
End Namei.

(** ** The names of a path

    The reference: the pieces between slashes that are not empty, each cut
    into pieces of 63 bytes. *)

Fixpoint split_slash (p : list Z) : list (list Z) :=
  match p with
  | [] => [[]]
  | c :: t =>
      if c =? 47 then [] :: split_slash t
      else match split_slash t with w :: ws => (c :: w) :: ws | [] => [[c]] end
  end.

Fixpoint chunks (fuel : nat) (w : list Z) : list (list Z) :=
  match fuel, w with
  | S fuel, _ :: _ => take 63 w :: chunks fuel (drop 63 w)
  | _, _ => []
  end.

Definition components (p : list Z) : list (list Z) := w ← split_slash p; chunks (length w) w.

Lemma chunks_enough fuel w : (length w <= fuel)%nat -> chunks fuel w = chunks (length w) w.
Proof.
  revert w. induction fuel as [fuel IH] using (well_founded_induction lt_wf). intros w Hw.
  destruct w as [|c w]; [by destruct fuel|]. destruct fuel as [|fuel]; [simpl in Hw; lia|]. simpl in Hw.
  cbn [chunks length]. f_equal. assert (length (drop 63 (c :: w)) <= length w)%nat by (rewrite length_drop; simpl; lia).
  rewrite IH by lia. destruct (decide (length w < S fuel)%nat); [|lia]. symmetry. apply IH; lia.
Qed.

Lemma chunks_step w : w ≠ [] -> chunks (length w) w = take 63 w :: chunks (length (drop 63 w)) (drop 63 w).
Proof.
  intros Hw. destruct w as [|c w]; [done|]. cbn [chunks length]. f_equal. apply chunks_enough. rewrite length_drop. simpl. lia.
Qed.

Lemma components_slash t : components (47 :: t) = components t.
Proof. done. Qed.

Lemma split_slash_app w r : Forall (fun c => c ≠ 47) w -> (r = [] \/ exists t, r = 47 :: t) ->
  exists ws, split_slash (w ++ r) = w :: ws /\ components r = (x ← ws; chunks (length x) x).
Proof.
  intros Hw Hr. induction Hw as [|c w Hc Hw IH]; simpl.
  - destruct Hr as [->|(t & ->)]; simpl; eexists; done.
  - replace (c =? 47) with false by lia. destruct IH as (ws & -> & E). eauto.
Qed.

Lemma components_app w r : Forall (fun c => c ≠ 47) w -> (r = [] \/ exists t, r = 47 :: t) ->
  components (w ++ r) = chunks (length w) w ++ components r.
Proof. intros Hw Hr. destruct (split_slash_app w r Hw Hr) as (ws & E & ->). unfold components. by rewrite E. Qed.

Lemma span_slash p : exists w r, p = w ++ r /\ Forall (fun c => c ≠ 47) w /\ (r = [] \/ exists t, r = 47 :: t).
Proof.
  induction p as [|c p (w & r & -> & Hw & Hr)]; [exists [], []; auto|].
  destruct (decide (c = 47)) as [->|Hc]; [exists [], (47 :: w ++ r); eauto 6|]. exists (c :: w), r. auto.
Qed.

(** What one step of the loop takes off the path. *)
Lemma components_step w r : w ≠ [] -> Forall (fun c => c ≠ 47) w -> (r = [] \/ exists t, r = 47 :: t) ->
  components (w ++ r) = take 63 w :: components (drop 63 w ++ r).
Proof.
  intros Hne Hw Hr. rewrite !components_app by (done || by apply Forall_drop). by rewrite chunks_step.
Qed.

Lemma skip_slashes_spec path p : cstring path p ->
  exists path' p', skip_slashes path = Some path' /\ cstring path' p' /\ components p' = components p /\
    (length p' <= length p)%nat /\ (length path' <= length path)%nat /\ head p' ≠ Some 47.
Proof.
  revert path. induction p as [|c p IH]; intros path Hp.
  - apply cstring_nil in Hp as [t ->]. exists (0 :: t), []. split_and!; [done| |done|done|done|done]. exists t. split; [done|apply not_elem_of_nil].
  - pose proof Hp as (t & -> & Hc & Ht)%cstring_cons. simpl. destruct (Z.eqb_spec c 47) as [->|Hs].
    + destruct (IH t Ht) as (path' & p' & -> & ? & E & ? & ? & ?). exists path', p'. split_and!; try done; simpl; lia.
    + exists (c :: t), (c :: p). split_and!; try done. simpl. congruence.
Qed.

Lemma zset_snoc (done tail : list Z) x c :
  zset (done ++ x :: tail) (Z.of_nat (length done)) c = Some (done ++ c :: tail).
Proof.
  rewrite zset_in_range by (rewrite length_app; simpl; lia). rewrite Nat2Z.id, insert_app_r_alt by lia. by rewrite Nat.sub_diag.
Qed.

(** The copying loop takes the name, or the 63 bytes there is room for. *)
Lemma copy_component_spec w : forall done tail rest,
  (length done + length tail = 64)%nat -> (length done < 64)%nat -> Forall (fun c => c ≠ 47 /\ c ≠ 0) w ->
  (exists c t, rest = c :: t /\ (c = 0 \/ c = 47)) ->
  exists tail', copy_component (w ++ rest) (done ++ tail) (Z.of_nat (length done)) COMPONENT_SIZE =
    Some (drop (63 - length done) w ++ rest, (done ++ take (63 - length done) w) ++ 0 :: tail').
Proof.
  induction w as [|c w IH]; intros done tail rest Hl Hd Hw Hr;
    (destruct tail as [|x tail]; [simpl in *; lia|]).
  - destruct Hr as (c & t & -> & Hc). cbn [app copy_component].
    replace (negb (c =? 0) && negb (c =? 47)) with false by (destruct Hc; subst; done). cbn [andb].
    rewrite zset_snoc. cbn [mbind option_bind]. rewrite drop_nil, take_nil, app_nil_r. by eexists.
  - apply Forall_cons in Hw as [[Hc1 Hc2] Hw]. cbn [app copy_component].
    replace (c =? 0) with false by lia. replace (c =? 47) with false by lia. cbn [negb andb]. rewrite zset_snoc.
    destruct (Z.ltb_spec (Z.of_nat (length done)) (COMPONENT_SIZE - 1)) as [Hlt|Hge]; unfold COMPONENT_SIZE in *.
    + cbn [mbind option_bind]. replace (done ++ c :: tail) with ((done ++ [c]) ++ tail) by (by rewrite <- app_assoc).
      replace (Z.of_nat (length done) + 1) with (Z.of_nat (length (done ++ [c]))) by (rewrite length_app; simpl; lia).
      destruct (IH (done ++ [c]) tail rest) as (tail' & ->);
        [rewrite length_app; simpl in *; lia..|done|done|]. exists tail'.
      rewrite length_app. cbn [length]. replace (63 - length done)%nat with (S (63 - (length done + 1))) by lia.
      cbn [take drop]. by rewrite <- !app_assoc.
    + rewrite zset_snoc. cbn [mbind option_bind]. replace (63 - length done)%nat with 0%nat by lia. rewrite drop_0, take_0, app_nil_r. by eexists.
Qed.

Lemma copy_component_length path : forall component len max_len path' component',
  copy_component path component len max_len = Some (path', component') -> length component' = length component.
Proof.
  induction path as [|c path IH]; intros component len max_len path' component' E; [done|]. cbn [copy_component] in E.
  destruct (_ && _); destruct (zset component len _) as [l|] eqn:Ez; try done; cbn [mbind option_bind] in E;
    apply zset_length in Ez; [by rewrite (IH _ _ _ _ _ E)|by injection E as <- <-].
Qed.

(** ** A name matters up to its terminator *)

Lemma strcmp_name s1 s2 b : cstring s2 b -> strcmp s1 s2 = strcmp s1 (b ++ [0]).
Proof.
  revert s1 s2. induction b as [|y b IH]; intros s1 s2 H.
  - apply cstring_nil in H as [t ->]. destruct s1 as [|x s1]; [done|]. simpl.
    destruct (Z.eqb_spec x 0) as [->|]; [done|]. simpl. by destruct (x =? 0).
  - apply cstring_cons in H as (t & -> & Hy & H). destruct s1 as [|x s1]; [done|]. cbn [app strcmp]. by rewrite (IH s1 t H).
Qed.

Lemma strncpy_name dest n src a : cstring src a -> strncpy dest src n = strncpy dest (a ++ [0]) n.
Proof.
  revert dest src a. induction n as [|n IH]; intros dest src a H; [done|]. destruct dest as [|d dest]; [by destruct a, src|].
  destruct a as [|c a]; [by apply cstring_nil in H as [t ->]|]. apply cstring_cons in H as (t & -> & Hc & H).
  cbn [app strncpy]. by rewrite (IH dest t a H).
Qed.

Lemma chain_walk_name fuel head pos p name n s :
  cstring name n -> chain_walk fuel head pos p name s = chain_walk fuel head pos p (n ++ [0]) s.
Proof.
  intros Hn. revert pos. induction fuel as [|fuel IH]; intros pos; [done|]. cbn [chain_walk].
  destruct (decide (pos = head)); [done|]. destruct pos; try done. destruct (dentries s !! d) as [e|]; [|done]. cbn [mbind option_bind].
  rewrite (strcmp_name (d_name e) _ _ Hn). set (m := if d_parent e =? p then _ else _).
  destruct m as [[|]|]; [done| |done]. cbn [mbind option_bind]. destruct (next_of (dlinks s) (DHash d)); [apply IH|done].
Qed.

Lemma d_lookup_name p name n s : 0 ∉ n -> cstring name n -> d_lookup p (Some name) s = d_lookup p (Some (n ++ [0])) s.
Proof.
  intros Hn Hc. unfold d_lookup. destruct p as [p|]; [|done].
  rewrite (d_hash_spec p _ _ Hc), (d_hash_spec p _ _ (cstring_snoc _ Hn)). cbn [mbind option_bind].
  destruct (next_of _ _); [|done]. cbn [mbind option_bind]. by rewrite (chain_walk_name _ _ _ _ _ _ _ Hc).
Qed.

Lemma d_alloc_name p name n s : cstring name n -> d_alloc p (Some name) s = d_alloc p (Some (n ++ [0])) s.
Proof. intros Hc. unfold d_alloc. destruct (pool s) as [|[a old] rest]; [done|]. by rewrite (strncpy_name old _ _ _ Hc). Qed.

Lemma zget_name name n : cstring name n -> zget name 0 = zget (n ++ [0]) 0.
Proof. intros (r & -> & _). by destruct n. Qed.

Section Walk.
Variable i_lookup : Z -> option (Z -> dcache -> option (option Z * dcache)).

Lemma do_lookup_name p name n s :
  0 ∉ n -> cstring name n -> do_lookup i_lookup p (Some name) s = do_lookup i_lookup p (Some (n ++ [0])) s.
Proof.
  intros Hn Hc. unfold do_lookup. destruct p as [p|]; [|done]. rewrite (zget_name _ _ Hc).
  rewrite (d_lookup_name (Some p) _ _ s Hn Hc). destruct (zget _ 0) as [c|]; [|done]. cbn [mbind option_bind].
  destruct (c =? 0); [done|]. destruct (dentries s !! p) as [dp|]; [|done]. cbn [mbind option_bind].
  destruct (d_inode dp); [|done]. destruct (d_lookup _ _ _) as [[[hit|] s1]|]; try done. cbn [mbind option_bind].
  by rewrite (d_alloc_name (Some p) _ _ s1 Hc).
Qed.

(** The reference walk: the names one after the other. *)
Fixpoint walk_names (ws : list (list Z)) (d : Z) (s : dcache) : option (option Z * dcache) :=
  match ws with
  | [] => Some (Some d, s)
  | w :: ws =>
      if bool_decide (w = [46]) then walk_names ws d s
      else if bool_decide (w = [46; 46]) then e ← dentries s !! d; walk_names ws (d_parent e) s
      else
        '(r, s) ← do_lookup i_lookup (Some d) (Some (w ++ [0])) s;
        match r with None => Some (None, s) | Some d => walk_names ws d s end
  end.

Lemma strcmp_const component w v : cstring component w -> 0 ∉ v ->
  exists r, strcmp component (v ++ [0]) = Some r /\ (r =? 0) = bool_decide (w = v).
Proof.
  intros Hw Hv. exact (strcmp_zero _ _ _ _ Hw (cstring_snoc v Hv)).
Qed.

(** One component, as the loop sees it. *)
Lemma get_component_spec path p component :
  cstring path p -> length component = 64%nat ->
  exists path' p' component' w, get_component path component COMPONENT_SIZE = Some (path', component') /\
    cstring path' p' /\ cstring component' w /\ length component' = 64%nat /\
    (w = [] /\ components p = [] \/ w ≠ [] /\ components p = w :: components p' /\ (length p' < length p)%nat).
Proof.
  intros Hp Hl. destruct (skip_slashes_spec path p Hp) as (path1 & p1 & E1 & Hp1 & Hc & Hlen & _ & Hhd).
  destruct (span_slash p1) as (w & r & -> & Hw & Hr). destruct Hp1 as (rest & -> & Hz).
  unfold get_component. rewrite E1. cbn [mbind option_bind]. rewrite <- app_assoc.
  destruct (copy_component_spec w [] component (r ++ 0 :: rest)) as (tail & E); [done|simpl; lia| | |].
  { apply Forall_forall. intros c Hin. rewrite Forall_forall in Hw. split; [by apply Hw|]. intros ->. set_solver. }
  { destruct Hr as [->|(t & ->)]; simpl; eauto. }
  cbn [length app] in E. change (Z.of_nat 0) with 0 in E. change (63 - 0)%nat with 63%nat in E. rewrite E. exists (drop 63 w ++ r ++ 0 :: rest), (drop 63 w ++ r), (take 63 w ++ 0 :: tail), (take 63 w).
  assert (forall x, x ∈ drop 63 w \/ x ∈ take 63 w -> x ∈ w) as Hsub.
  { intros x. rewrite <- (take_drop 63 w) at 3. set_solver. }
  assert (length (take 63 w ++ 0 :: tail) = 64%nat) as Hl' by (by rewrite (copy_component_length _ _ _ _ _ _ E)).
  split_and!; [done| | |done|].
  - exists rest. rewrite <- app_assoc. split; [done|]. set_solver.
  - exists tail. split; [done|]. intros H. apply Hz. apply elem_of_app. left. apply Hsub. by right.
  - destruct w as [|c w].
    + left. split; [done|]. rewrite <- Hc. destruct Hr as [->|(t & ->)]; [done|]. by destruct Hhd.
    + right. split; [done|]. rewrite <- Hc. split; [by apply components_step|].
      rewrite length_app, length_drop. rewrite length_app in Hlen. simpl in *. lia.
Qed.

Lemma walk_path_spec fuel : forall path p component d s,
  cstring path p -> length component = 64%nat -> (length p < fuel)%nat ->
  walk_path i_lookup fuel path component d s = walk_names (components p) d s.
Proof.
  induction fuel as [|fuel IH]; intros path p component d s Hp Hl Hf; [lia|]. cbn [walk_path].
  rewrite (zget_name _ _ Hp). destruct p as [|c p]; [done|]. cbn [app]. change (zget (c :: p ++ [0]) 0) with (Some c). cbn [mbind option_bind].
  pose proof Hp as (t & _ & Hc & _)%cstring_cons. replace (c =? 0) with false by lia.
  destruct (get_component_spec path _ component Hp Hl) as (path' & p' & component' & w & -> & Hp' & Hw & Hl' & Hcase).
  cbn [mbind option_bind]. rewrite (zget_name _ _ Hw). destruct Hcase as [[-> ->]|(Hne & -> & Hlt)]; [done|].
  destruct w as [|x w]; [done|]. cbn [app]. change (zget (x :: w ++ [0]) 0) with (Some x). cbn [mbind option_bind walk_names].
  pose proof Hw as (t' & _ & Hx & _)%cstring_cons. replace (x =? 0) with false by lia.
  destruct (strcmp_const component' _ [46] Hw) as (r1 & E1 & H1); [set_solver|]. change ([46] ++ [0]) with [46; 0] in E1. rewrite E1. cbn [mbind option_bind]. rewrite H1.
  assert (forall d s, walk_path i_lookup fuel path' component' d s = walk_names (components p') d s) as IH' by (intros; apply IH; [done..|simpl in *; lia]).
  case_bool_decide; [apply IH'|].
  destruct (strcmp_const component' _ [46; 46] Hw) as (r2 & E2 & H2); [set_solver|]. change ([46; 46] ++ [0]) with [46; 46; 0] in E2. rewrite E2. cbn [mbind option_bind]. rewrite H2.
  case_bool_decide.
  - destruct (dentries s !! d) as [e|]; [|done]. cbn [mbind option_bind]. rewrite IH'. f_equal. destruct (Z.eqb_spec (d_parent e) d); congruence.
  - rewrite (do_lookup_name (Some d) component' (x :: w) s); [|by destruct Hw as (? & _ & ?)|done].
    destruct (do_lookup _ _ _ _) as [[[d'|] s']|]; try done. cbn [mbind option_bind]. apply IH'.
Qed.
End Walk.

(** ** Main theorems *)

(** C30: the walk takes the names of the path one after the other.  For every
    terminated path, whatever the slashes before, between and after its names,
    [link_path_walk] ends, and its result, its error and the state it leaves
    are those of looking up the names from left to right, with [.] skipped,
    [..] going to the directory above (the root is its own), and the first
    name that is not found giving -1 with the starting point unchanged.  A name
    of more than 63 bytes is looked up in pieces, as if slashes separated
    them. *)
Theorem link_path_walk_correct i_lookup path p nd a component s :
  cstring path p -> length component = 64%nat -> nd_dentry nd = Some a ->
  link_path_walk i_lookup (Some path) (Some nd) component s =
  ('(r, s') ← walk_names i_lookup (components p) a s;
   Some (match r with
         | Some d => (0, Some (set_nd_dentry (Some d) nd), s')
         | None => (-1, Some nd, s')
         end)).
Proof.
  intros Hp Hl Ha. unfold link_path_walk. rewrite Ha.
  destruct (skip_slashes_spec path p Hp) as (path' & p' & -> & Hp' & Hc & _ & _ & _). cbn [mbind option_bind].
  rewrite (walk_path_spec i_lookup _ path' p'); [|done|done|destruct Hp' as (r & -> & _); rewrite length_app; simpl; lia].
  rewrite Hc. destruct (walk_names _ _ _ _) as [[[d|] s']|]; done.
Qed.

(** The session of the entry cache: its root, and a file system in which every
    name exists. *)
Definition demo_root : dcache :=
  default demo_dcache (s ← dcache_init true demo_dcache; '(_, s) ← run_dops [Root 7 None] s; Some s).
Definition demo_lookup (dir : Z) : option (Z -> dcache -> option (option Z * dcache)) :=
  Some (fun a s => s ← d_add (Some a) (Some 8) s; Some (Some a, s)).
Definition demo_nd : nameidata := mk_nd (Some 100) 0 0 None.

Lemma link_path_walk_correct_witness :
  (fun '(r, nd, _) => (r, nd)) <$>
    link_path_walk demo_lookup (Some [47; 47; 97; 47; 46; 47; 46; 46; 47; 97; 47; 0]) (Some demo_nd) (replicate 64 65) demo_root =
  Some (0, Some (set_nd_dentry (Some 200) demo_nd)).
Proof.
  rewrite (link_path_walk_correct demo_lookup _ [47; 47; 97; 47; 46; 47; 46; 46; 47; 97; 47] demo_nd 100 (replicate 64 65) demo_root).
  - vm_compute. reflexivity.
  - exists []. split; [done|decided].
  - done.
  - done.
Defined.

(** A looked-up path carries no reference.  [path_lookup] of a path that
    names the directory it starts from leaves every count as it was, and the
    [path_release] that goes with it drops a reference all the same: when the
    start is a root with one reference, it is freed under its owner. *)
Theorem path_release_frees_start i_lookup s A a n nd flags component :
  represents s A -> alive A !! a = Some (1, a, n) -> length component = 64%nat -> nd_dentry nd = Some a ->
  exists nd' nd'' s', path_lookup i_lookup (Some [46; 0]) flags (Some nd) component s = Some (0, Some nd', s) /\
    path_release (Some nd') s = Some (nd'', s') /\ dentries s' !! a = None.
Proof.
  intros HR Ea Hl Hnd. set (nd0 := mk_nd (Some a) flags 0 None).
  assert (link_path_walk i_lookup (Some [46; 0]) (Some nd0) component s = Some (0, Some nd0, s)) as E.
  { unfold link_path_walk. cbn [nd0 nd_dentry skip_slashes]. change (46 =? 47) with false. cbn [mbind option_bind].
    rewrite (walk_path_spec i_lookup _ [46; 0] [46]); [done|exists []; split; [done|decided]|done|simpl; lia]. }
  destruct (count_spec s A (a_live A (<[a := (0, a, n)]> (alive A))) a (fun c => c - 1) HR) as (d & Ed & Hc & HR1).
  { unfold a_count. by rewrite Ea. }
  rewrite Ea in Hc. cbn in Hc. set (d1 := set_count _ d) in HR1. set (s1 := with_entry s a d1) in HR1.
  assert (dentries s1 !! a = Some d1) as Ed1 by apply lookup_insert_eq.
  destruct (rp_back _ _ _ _ HR1 Ed1) as ([[c p] m] & Ea1 & _ & Hp & _).
  assert (p = a) as -> by (cbn [a_live alive] in Ea1; rewrite lookup_insert_eq in Ea1; congruence).
  destruct (delete_spec _ _ a HR1) as (s2 & E2 & HR2); [by rewrite Ea1|].
  exists nd0, (Some (set_nd_dentry None nd0)), (mk_dcache (delete a (dentries s2)) (drop_nodes a (dlinks s2)) (pool s2)). split_and!.
  - unfold path_lookup. rewrite Hnd. cbn [nd_dentry]. exact E.
  - unfold path_release, dput. cbn [nd0 nd_dentry]. rewrite (upd_dentry_at _ _ _ _ Ed). cbn [mbind option_bind].
    change (with_entry s a _) with s1. rewrite Ed1. cbn [mbind option_bind].
    assert (d_count d1 = 0) as -> by (cbn [d1 set_count d_count]; by rewrite Hc). cbn [Z.eqb]. rewrite Hp, Z.eqb_refl. cbn [mbind option_bind].
    by rewrite E2.
  - apply lookup_delete_eq.
Qed.

Lemma path_release_frees_start_witness : exists s nd' nd'' s',
  path_lookup demo_lookup (Some [46; 0]) 0 (Some demo_nd) (replicate 64 65) s = Some (0, Some nd', s) /\
  path_release (Some nd') s = Some (nd'', s') /\ dentries s' !! 100 = None.
Proof.
  destruct (dcache_init_spec _ _ demo_dcache_fresh) as (s0 & _ & HR0).
  destruct (dop_spec s0 _ (Root 7 None) (Some 100) (mk_adcache {[100 := (1, 100, [47])]} [] ∅ [200; 200] demo_heads ∅ {[100]}) HR0) as (s & _ & HR).
  { vm_compute. reflexivity. }
  exists s. destruct (path_release_frees_start demo_lookup s _ 100 [47] demo_nd 0 (replicate 64 65) HR) as (nd' & nd'' & s' & H);
    [reflexivity..|]. exists nd', nd'', s'. exact H.
Defined.
