(* ===== verification/Super.v ===== *)
(** * File-system types and superblocks (fs/ext2/super.c, struct
    file_system_type and struct super_block of include/vfs.h)

    The registry is one circular list of file-system types, each with the list
    of its mounted superblocks.  File-system types are static objects: [fs_name]
    gives their names.  [super_pool] holds the addresses the slab allocator will
    hand out; a cache that was not created is a null pointer, and allocating
    from it is undefined. *)

From S2P Require Export Lists CString.

Inductive rnode := FileSystems | FsList (f : Z) | FsSupers (f : Z) | SList (b : Z) | SInodes (b : Z) | SDirty (b : Z) | SFiles (b : Z).

#[export] Instance rnode_eq_dec : EqDecision rnode.
Proof. solve_decision. Defined.

#[export] Instance rnode_countable : Countable rnode.
Proof.
  refine (inj_countable'
    (fun n => match n with FileSystems => (0, 0) | FsList f => (1, f) | FsSupers f => (2, f) | SList b => (3, b)
                         | SInodes b => (4, b) | SDirty b => (5, b) | SFiles b => (6, b) end)
    (fun '(t, i) => if decide (t = 0) then FileSystems else if decide (t = 1) then FsList i else
       if decide (t = 2) then FsSupers i else if decide (t = 3) then SList i else if decide (t = 4) then SInodes i else
       if decide (t = 5) then SDirty i else SFiles i) _).
  by intros [].
Defined.

Record super_block := mk_super {
  sb_dev : Z; sb_blocksize : Z; sb_dirt : Z; sb_op : option Z; sb_flags : Z; sb_magic : Z;
  sb_root : option Z; sb_count : Z; sb_fs_info : option Z
}.

Record registry := mk_registry {
  fs_name : gmap Z (option (list Z));
  supers : gmap Z super_block;
  rlinks : gmap rnode (list_head rnode);
  fs_list_initialized : bool;
  super_cache : bool;
  super_pool : list Z
}.

Definition on_rlinks (f : gmap rnode (list_head rnode) -> option (gmap rnode (list_head rnode))) (s : registry) : option registry :=
  st ← f (rlinks s); Some (mk_registry (fs_name s) (supers s) st (fs_list_initialized s) (super_cache s) (super_pool s)).

(** [cache_ok]: kmem_cache_create returned a cache. *)
Definition init_fs_registry (cache_ok : bool) (s : registry) : option registry :=
  if fs_list_initialized s then Some s
  else
    s ← on_rlinks (INIT_LIST_HEAD FileSystems) s;
    Some (mk_registry (fs_name s) (supers s) (rlinks s) true cache_ok (super_pool s)).

(** The loop over [file_systems] that stops at the first type with the name. *)
Fixpoint fs_walk (fuel : nat) (pos : rnode) (name : list Z) (s : registry) : option (option Z) :=
  match fuel with
  | O => None
  | S fuel =>
      if decide (pos = FileSystems) then Some None
      else
        match pos with
        | FsList f =>
            nm ← fs_name s !! f;
            nm ← nm;
            r ← strcmp nm name;
            if r =? 0 then Some (Some f) else p ← next_of (rlinks s) pos; fs_walk fuel p name s
        | _ => None
        end
  end.

Definition fs_find (name : list Z) (s : registry) : option (option Z) :=
  p ← next_of (rlinks s) FileSystems; fs_walk (S (size (rlinks s))) p name s.

Definition register_filesystem (cache_ok : bool) (fs : option Z) (s : registry) : option (Z * registry) :=
  match fs with
  | None => Some (-1, s)
  | Some f =>
      nm ← fs_name s !! f;
      match nm with
      | None => Some (-1, s)
      | Some nm =>
          s ← init_fs_registry cache_ok s;
          existing ← fs_find nm s;
          match existing with
          | Some _ => Some (-1, s)
          | None =>
              s ← on_rlinks (INIT_LIST_HEAD (FsSupers f)) s;
              s ← on_rlinks (list_add FileSystems (FsList f)) s;
              Some (0, s)
          end
      end
  end.

Definition unregister_filesystem (fs : option Z) (s : registry) : option (Z * registry) :=
  match fs with
  | None => Some (-1, s)
  | Some f => s ← on_rlinks (list_del (FsList f)) s; Some (0, s)
  end.

Definition get_fs_type (cache_ok : bool) (name : option (list Z)) (s : registry) : option (option Z * registry) :=
  match name with
  | None => Some (None, s)
  | Some n => s ← init_fs_registry cache_ok s; r ← fs_find n s; Some (r, s)
  end.

Definition alloc_super (cache_ok : bool) (s : registry) : option (option Z * registry) :=
  s ← (if super_cache s then Some s else init_fs_registry cache_ok s);
  if negb (super_cache s) then None
  else
    match super_pool s with
    | [] => Some (None, s)
    | b :: rest =>
        s ← on_rlinks (INIT_LIST_HEAD (SList b)) s;
        let sb := mk_super 0 0 0 None 0 0 None 1 None in
        let s := mk_registry (fs_name s) (<[b := sb]> (supers s)) (rlinks s) (fs_list_initialized s) (super_cache s) rest in
        s ← on_rlinks (INIT_LIST_HEAD (SInodes b)) s;
        s ← on_rlinks (INIT_LIST_HEAD (SDirty b)) s;
        s ← on_rlinks (INIT_LIST_HEAD (SFiles b)) s;
        Some (Some b, s)
    end.

(** [kfree sb->s_fs_info] is a call of the allocator; the freed superblock is
    gone from the map. *)
Definition destroy_super (sb : option Z) (s : registry) : option registry :=
  match sb with
  | None => Some s
  | Some b =>
      x ← supers s !! b;
      let x := mk_super (sb_dev x) (sb_blocksize x) (sb_dirt x) (sb_op x) (sb_flags x) (sb_magic x) (sb_root x)
                 (u32 (sb_count x - 1)) (sb_fs_info x) in
      let m := if sb_count x =? 0 then delete b (supers s) else <[b := x]> (supers s) in
      Some (mk_registry (fs_name s) m (rlinks s) (fs_list_initialized s) (super_cache s) (super_pool s))
  end.

(** The inner loop of [get_super], over one type's superblocks. *)
Fixpoint super_walk (fuel : nat) (head pos : rnode) (dev : Z) (s : registry) : option (option Z) :=
  match fuel with
  | O => None
  | S fuel =>
      if decide (pos = head) then Some None
      else
        match pos with
        | SList b =>
            x ← supers s !! b;
            if sb_dev x =? dev then Some (Some b) else p ← next_of (rlinks s) pos; super_walk fuel head p dev s
        | _ => None
        end
  end.

Fixpoint types_walk (fuel : nat) (pos : rnode) (dev : Z) (s : registry) : option (option Z) :=
  match fuel with
  | O => None
  | S fuel =>
      if decide (pos = FileSystems) then Some None
      else
        match pos with
        | FsList f =>
            q ← next_of (rlinks s) (FsSupers f);
            r ← super_walk (S (size (rlinks s))) (FsSupers f) q dev s;
            match r with
            | Some b => Some (Some b)
            | None => p ← next_of (rlinks s) pos; types_walk fuel p dev s
            end
        | _ => None
        end
  end.

(** [dev] is an unsigned char. *)
Definition get_super (dev : Z) (s : registry) : option (option Z) :=
  if fs_list_initialized s then
    p ← next_of (rlinks s) FileSystems; types_walk (S (size (rlinks s))) p (u8 dev) s
  else Some None.

(** ** What the registry holds

    [L]: the registered types, newest first; [M f]: the superblocks of [f]. *)

Definition type_name (s : registry) (f : Z) (n : list Z) : Prop :=
  exists nm, fs_name s !! f = Some (Some nm) /\ cstring nm n.

Record registered (s : registry) (L : list (Z * list Z)) (M : Z -> list Z) : Prop := mk_registered {
  rg_init : fs_list_initialized s = true;
  rg_types : dlist (rlinks s) FileSystems (FsList <$> L.*1);
  rg_names : forall f n, (f, n) ∈ L -> type_name s f n;
  rg_supers : forall f n, (f, n) ∈ L -> dlist (rlinks s) (FsSupers f) (SList <$> M f) /\ Forall (fun b => is_Some (supers s !! b)) (M f)
}.

Definition named (L : list (Z * list Z)) (n : list Z) : option Z := fst <$> find (fun e => bool_decide (e.2 = n)) L.

Lemma fs_walk_spec s L name n :
  cstring name n -> (forall f m, (f, m) ∈ L -> type_name s f m) ->
  forall fuel x, (length L < fuel)%nat -> lseg (rlinks s) x (FsList <$> L.*1) FileSystems ->
  fs_walk fuel (hd FileSystems (FsList <$> L.*1)) name s = Some (named L n).
Proof.
  intros Hn. induction L as [|[f m] L IH]; intros HL fuel x Hf Hs; (destruct fuel as [|fuel]; [simpl in *; lia|]);
    cbn [length fmap list_fmap hd fs_walk fst] in *; [by rewrite decide_True|]. rewrite decide_False by done.
  destruct (HL f m) as (nm & -> & Hm); [by left|]. cbn [mbind option_bind]. destruct (strcmp_zero _ _ _ _ Hm Hn) as (r & -> & Hr).
  cbn [mbind option_bind]. rewrite Hr. unfold named. cbn [find snd]. case_bool_decide; [done|].
  destruct Hs as (_ & _ & Hs). rewrite (lseg_first _ _ _ _ Hs). cbn [mbind option_bind].
  rewrite (IH ltac:(intros; apply HL; by right) fuel (FsList f)) by (done || lia). done.
Qed.

Lemma fs_find_spec s L M name n : registered s L M -> cstring name n -> fs_find name s = Some (named L n).
Proof.
  intros HR Hn. pose proof (rg_types _ _ _ HR) as Hd. pose proof (dlist_size _ _ _ Hd) as Hsz. rewrite !length_fmap in Hsz.
  destruct Hd as [_ Hs]. unfold fs_find. rewrite (lseg_first _ _ _ _ Hs). cbn [mbind option_bind].
  apply fs_walk_spec with (x := FileSystems); [done|apply (rg_names _ _ _ HR)|lia|done].
Qed.

Definition super_of (s : registry) (dev : Z) (l : list Z) : option Z :=
  find (fun b => bool_decide (sb_dev <$> supers s !! b = Some dev)) l.

Lemma super_walk_spec s h dev l :
  Forall (fun b => is_Some (supers s !! b)) l -> (forall b, h ≠ SList b) ->
  forall fuel x, (length l < fuel)%nat -> lseg (rlinks s) x (SList <$> l) h ->
  super_walk fuel h (hd h (SList <$> l)) dev s = Some (super_of s dev l).
Proof.
  intros Hl Hh. induction Hl as [|b l [y Hb] Hl IH]; intros fuel x Hf Hs; (destruct fuel as [|fuel]; [simpl in *; lia|]);
    cbn [length fmap list_fmap hd super_walk] in *; [by rewrite decide_True|].
  rewrite decide_False by (intros E; by apply (Hh b)). rewrite Hb. cbn [mbind option_bind]. unfold super_of. cbn [find]. rewrite Hb.
  cbn [fmap option_fmap option_map]. destruct Hs as (_ & _ & Hs). rewrite (lseg_first _ _ _ _ Hs). cbn [mbind option_bind].
  destruct (Z.eqb_spec (sb_dev y) dev) as [->|]; [by rewrite bool_decide_true|]. rewrite bool_decide_false by congruence.
  apply (IH fuel (SList b)); [lia|done].
Qed.

(** The first superblock of the device, type by type. *)
Definition mounted (s : registry) (M : Z -> list Z) (dev : Z) (fs : list Z) : option Z := super_of s dev (fs ≫= M).

Lemma types_walk_spec s dev M (L : list (Z * list Z)) :
  (forall f n, (f, n) ∈ L -> dlist (rlinks s) (FsSupers f) (SList <$> M f) /\ Forall (fun b => is_Some (supers s !! b)) (M f)) ->
  forall fuel x, (length L < fuel)%nat -> lseg (rlinks s) x (FsList <$> L.*1) FileSystems ->
  types_walk fuel (hd FileSystems (FsList <$> L.*1)) dev s = Some (mounted s M dev L.*1).
Proof.
  induction L as [|[f m] L IH]; intros HL fuel x Hf Hs; (destruct fuel as [|fuel]; [simpl in *; lia|]);
    cbn [length fmap list_fmap hd types_walk fst] in *; [by rewrite decide_True|]. rewrite decide_False by done.
  destruct (HL f m) as [Hd Hall]; [by left|]. pose proof (dlist_size _ _ _ Hd) as Hsz. rewrite length_fmap in Hsz. destruct Hd as [_ Hd].
  rewrite (lseg_first _ _ _ _ Hd). cbn [mbind option_bind].
  rewrite (super_walk_spec s _ dev _ Hall) with (x := FsSupers f) by (done || lia). cbn [mbind option_bind].
  assert (mounted s M dev (f :: L.*1) = match super_of s dev (M f) with Some b => Some b | None => mounted s M dev L.*1 end) as ->.
  { unfold mounted, super_of. cbn [mbind list_bind]. generalize (L.*1 ≫= M). clear. intros r. induction (M f) as [|b l IH]; [done|]. simpl.
    by case_bool_decide. }
  destruct (super_of s dev (M f)); [done|]. destruct Hs as (_ & _ & Hs). rewrite (lseg_first _ _ _ _ Hs). cbn [mbind option_bind].
  apply (IH ltac:(intros; eapply HL; by right) fuel (FsList f)); [lia|done].
Qed.

Lemma get_super_spec s L M dev : registered s L M -> get_super dev s = Some (mounted s M (u8 dev) L.*1).
Proof.
  intros HR. pose proof (rg_types _ _ _ HR) as Hd. pose proof (dlist_size _ _ _ Hd) as Hsz. rewrite !length_fmap in Hsz.
  destruct Hd as [_ Hs]. unfold get_super. rewrite (rg_init _ _ _ HR), (lseg_first _ _ _ _ Hs). cbn [mbind option_bind].
  apply types_walk_spec with (x := FileSystems); [apply (rg_supers _ _ _ HR)|lia|done].
Qed.

(** ** Registering a type *)

Lemma registered_add s L M f n :
  registered s L M -> type_name s f n -> f ∉ L.*1 -> is_Some (rlinks s !! FsList f) -> is_Some (rlinks s !! FsSupers f) ->
  exists s', (s ← on_rlinks (INIT_LIST_HEAD (FsSupers f)) s; on_rlinks (list_add FileSystems (FsList f)) s) = Some s' /\
    registered s' ((f, n) :: L) (fun g => if decide (g = f) then [] else M g).
Proof.
  intros HR Hn Hf Hd1 Hd2. destruct HR as [Hi Ht Hnm Hs].
  destruct (INIT_LIST_HEAD_spec (rlinks s) (FsSupers f) Hd2) as (st1 & E1 & D1 & Hnew & F1).
  unfold on_rlinks at 2. rewrite E1. cbn [mbind option_bind].
  assert (dlist st1 FileSystems (FsList <$> L.*1)) as Ht1.
  { eapply dlist_frame; [|exact Ht]. intros y Hy. apply F1. intros ->.
    by apply elem_of_cons in Hy as [?|(? & ? & _)%list_elem_of_fmap]. }
  assert (forall y, y ∈ FsList f :: FileSystems :: (FsList <$> L.*1) -> forall g, y ≠ FsSupers g /\ y ≠ SList g) as Hkind.
  { intros y Hy g. apply elem_of_cons in Hy as [->|[->|(? & -> & _)%list_elem_of_fmap]%elem_of_cons]; done. }
  destruct (list_add_spec st1 FileSystems _ (FsList f) Ht1) as (st2 & E2 & D2 & Hadd & F2).
  { intros [?|(g & [= <-] & Hg)%list_elem_of_fmap]%elem_of_cons; done. }
  { apply elem_of_dom. rewrite D1. by apply elem_of_dom. }
  unfold on_rlinks. cbn [rlinks]. rewrite E2. eexists. split; [done|]. split; cbn [rlinks fs_name supers fs_list_initialized]; try done.
  - intros g m [[= -> ->]|Hg]%elem_of_cons; [exact Hn|by apply Hnm].
  - intros g m Hg. assert (g = f \/ g ≠ f /\ (g, m) ∈ L) as [->|[Hne Hin]].
    { apply elem_of_cons in Hg as [[= -> ->]|Hg]; [by left|]. right. split; [|done]. intros ->. apply Hf. by apply (list_elem_of_fmap_2' fst _ _ _ Hg). }
    + rewrite decide_True by done. split; [|done]. eapply dlist_frame; [|exact Hnew]. intros y ->%list_elem_of_singleton. apply F2.
      intros Hy. by destruct (Hkind _ Hy f).
    + rewrite decide_False by done. destruct (Hs g m Hin) as [Hr Hall]. split; [|done]. eapply dlist_frame; [|exact Hr].
      intros y Hy. rewrite F2.
      * apply F1. apply elem_of_cons in Hy as [->|(? & -> & _)%list_elem_of_fmap]; congruence.
      * intros Hy'. apply elem_of_cons in Hy as [->|(b & -> & _)%list_elem_of_fmap]; [by destruct (Hkind _ Hy' g)|by destruct (Hkind _ Hy' b)].
Qed.

(** ** Main theorems *)

(** A type is found by its name once it is registered, and a name is
    registered once: [register_filesystem] returns 0 and puts a type with a new
    name in front, or returns -1 and changes nothing, and [get_fs_type] then
    finds it, or the type that had the name. *)
Theorem register_get_fs_type s L M f n nm ok :
  registered s L M -> type_name s f n -> f ∉ L.*1 -> is_Some (rlinks s !! FsList f) -> is_Some (rlinks s !! FsSupers f) -> cstring nm n ->
  match named L n with
  | Some g => register_filesystem ok (Some f) s = Some (-1, s) /\ get_fs_type ok (Some nm) s = Some (Some g, s)
  | None => exists s', register_filesystem ok (Some f) s = Some (0, s') /\
      registered s' ((f, n) :: L) (fun g => if decide (g = f) then [] else M g) /\
      get_fs_type ok (Some nm) s' = Some (Some f, s')
  end.
Proof.
  intros HR (fnm & Ef & Hfn) Hf Hd1 Hd2 Hnm.
  assert (forall s L M, registered s L M -> init_fs_registry ok s = Some s) as Hini.
  { intros s0 L0 M0 [Hi _ _ _]. unfold init_fs_registry. by rewrite Hi. }
  unfold register_filesystem, get_fs_type. rewrite Ef. cbn [mbind option_bind]. rewrite (Hini s L M HR). cbn [mbind option_bind].
  rewrite (fs_find_spec s L M fnm n HR Hfn), (fs_find_spec s L M nm n HR Hnm). cbn [mbind option_bind].
  destruct (named L n) as [g|]; [done|].
  destruct (registered_add s L M f n HR) as (s' & E & HR'); [by exists fnm|done..|].
  destruct (on_rlinks (INIT_LIST_HEAD (FsSupers f)) s) as [s1|]; [|done]. cbn [mbind option_bind] in E |- *. rewrite E.
  exists s'. split; [done|]. split; [done|]. rewrite (Hini s' _ _ HR'). cbn [mbind option_bind].
  rewrite (fs_find_spec s' _ _ nm n HR' Hnm). unfold named. cbn [find snd]. by rewrite bool_decide_true.
Qed.
