(* ===== verification/Vfs.v ===== *)
(** * The inode cache (fs/ext2/vfs.c, struct inode of include/vfs.h)

    Inodes live in a map by address; their list fields, the hash queues and the
    free list are the nodes of one link store.  [ipool] holds what the slab
    allocator will hand out: addresses, with the contents the memory has.  The
    superblocks come from the registry.  [sops] gives the callbacks of an
    [s_op] table, each possibly null, as functions on the inode they are given
    and the file system's own state [D].  Sleeping is not implemented in the
    code: [iget] of a locked inode loops, and runs out of fuel here.  The
    wrappers at the end call through tables of callbacks as well. *)

From S2P Require Export Super Buffer.

Inductive inode_node := IHash (h : Z) | IFreeHead | NHash (a : Z) | NFree (a : Z) | NSbList (a : Z) | NDentry (a : Z).

#[export] Instance inode_node_eq_dec : EqDecision inode_node.
Proof. solve_decision. Defined.

#[export] Instance inode_node_countable : Countable inode_node.
Proof.
  refine (inj_countable'
    (fun n => match n with IHash h => (0, h) | IFreeHead => (1, 0) | NHash a => (2, a) | NFree a => (3, a)
                         | NSbList a => (4, a) | NDentry a => (5, a) end)
    (fun '(t, i) => if decide (t = 0) then IHash i else if decide (t = 1) then IFreeHead else
       if decide (t = 2) then NHash i else if decide (t = 3) then NFree i else
       if decide (t = 4) then NSbList i else NDentry i) _).
  by intros [].
Defined.

Definition INODES : Z := 30.
Definition I_DIRTY : Z := 1.
Definition I_lock : Z := 1.

Record inode := mk_inode {
  in_dev : Z; in_no : Z; in_count : Z; in_mode : Z; in_nlinks : Z; in_uid : Z; in_gid : Z; in_flags : Z; in_size : Z;
  in_atime : Z; in_mtime : Z; in_ctime : Z; in_state : Z; in_blocks : Z;
  in_op : option Z; in_fop : option Z; in_sb : option Z
}.

Definition set_in_count (n : Z) (i : inode) := mk_inode (in_dev i) (in_no i) n (in_mode i) (in_nlinks i) (in_uid i) (in_gid i)
  (in_flags i) (in_size i) (in_atime i) (in_mtime i) (in_ctime i) (in_state i) (in_blocks i) (in_op i) (in_fop i) (in_sb i).
Definition set_in_flags (f : Z) (i : inode) := mk_inode (in_dev i) (in_no i) (in_count i) (in_mode i) (in_nlinks i) (in_uid i) (in_gid i)
  f (in_size i) (in_atime i) (in_mtime i) (in_ctime i) (in_state i) (in_blocks i) (in_op i) (in_fop i) (in_sb i).
Definition set_in_key (dev no : Z) (i : inode) := mk_inode dev no (in_count i) (in_mode i) (in_nlinks i) (in_uid i) (in_gid i)
  (in_flags i) (in_size i) (in_atime i) (in_mtime i) (in_ctime i) (in_state i) (in_blocks i) (in_op i) (in_fop i) (in_sb i).
Definition set_in_sb (b : option Z) (i : inode) := mk_inode (in_dev i) (in_no i) (in_count i) (in_mode i) (in_nlinks i) (in_uid i) (in_gid i)
  (in_flags i) (in_size i) (in_atime i) (in_mtime i) (in_ctime i) (in_state i) (in_blocks i) (in_op i) (in_fop i) b.

Definition locked_inode (i : inode) : inode := set_in_flags (Z.lor (in_flags i) I_lock) i.
Definition unlocked_inode (i : inode) : inode := set_in_flags (Z.land (in_flags i) (Z.lnot I_lock)) i.

(** [i_state] keeps what the memory held. *)
Definition inode_fields (dev_no inum : Z) (i : inode) : inode :=
  mk_inode dev_no inum 0 0 0 0 0 0 0 0 0 0 (in_state i) 0 None None None.

Section Vfs.
Context {D : Type}.

Record super_ops := mk_sops {
  read_inode : option (inode -> D -> option (inode * D));
  write_inode : option (inode -> D -> option (Z * D))
}.

Variable sops : Z -> super_ops.

Record icache := mk_icache {
  inodes : gmap Z inode;
  ilinks : gmap inode_node (list_head inode_node);
  ipool : list (Z * inode);
  reg : registry;
  idisk : D
}.

Definition with_inodes (m : gmap Z inode) (s : icache) := mk_icache m (ilinks s) (ipool s) (reg s) (idisk s).
Definition on_ilinks (f : gmap inode_node (list_head inode_node) -> option (gmap inode_node (list_head inode_node))) (s : icache) : option icache :=
  st ← f (ilinks s); Some (mk_icache (inodes s) st (ipool s) (reg s) (idisk s)).
Definition upd_inode (a : Z) (f : inode -> inode) (s : icache) : option icache :=
  i ← inodes s !! a; Some (with_inodes (<[a := f i]> (inodes s)) s).

(** [inum % dev_no]; a device number of 0 is a division by zero. *)
Definition ihash (inum dev_no : Z) : option Z := if dev_no =? 0 then None else Some (hash_fn inum dev_no).

Fixpoint ih_walk (fuel : nat) (head pos : inode_node) (dev_no inum : Z) (s : icache) : option (option Z) :=
  match fuel with
  | O => None
  | S fuel =>
      if decide (pos = head) then Some None
      else
        match pos with
        | NHash a =>
            i ← inodes s !! a;
            if (in_no i =? inum) && (in_dev i =? dev_no) then Some (Some a)
            else p ← next_of (ilinks s) pos; ih_walk fuel head p dev_no inum s
        | _ => None
        end
  end.

Definition search_hash (dev_no inum : Z) (s : icache) : option (option Z) :=
  h ← ihash inum dev_no;
  p ← next_of (ilinks s) (IHash h);
  ih_walk (S (size (ilinks s))) (IHash h) p dev_no inum s.

Definition inode_init (a dev_no inum : Z) (s : icache) : option icache :=
  s ← on_ilinks (INIT_LIST_HEAD (NHash a)) s;
  s ← on_ilinks (INIT_LIST_HEAD (NSbList a)) s;
  s ← on_ilinks (INIT_LIST_HEAD (NDentry a)) s;
  upd_inode a (inode_fields dev_no inum) s.

(** The search for a superblock when the inode has none. *)
Definition ensure_sb (a dev_no : Z) (s : icache) : option icache :=
  i ← inodes s !! a;
  match in_sb i with
  | Some _ => Some s
  | None => b ← get_super dev_no (reg s); upd_inode a (set_in_sb b) s
  end.

(** [i_sb->s_op->read_inode(inode)] when all three pointers are there. *)
Definition call_read (a : Z) (s : icache) : option icache :=
  i ← inodes s !! a;
  match in_sb i with
  | None => Some s
  | Some b =>
      sb ← supers (reg s) !! b;
      match sb_op sb with
      | None => Some s
      | Some o =>
          match read_inode (sops o) with
          | None => Some s
          | Some f => '(i, d) ← f i (idisk s); Some (mk_icache (<[a := i]> (inodes s)) (ilinks s) (ipool s) (reg s) d)
          end
      end
  end.

(** The inner [None] is the null pointer: no inode is free. *)
Fixpoint iget (fuel : nat) (dev_no inum : Z) (s : icache) : option (option Z * icache) :=
  match fuel with
  | O => None
  | S fuel =>
      found ← search_hash dev_no inum s;
      match found with
      | Some a =>
          i ← inodes s !! a;
          if has_flag (in_flags i) I_lock then iget fuel dev_no inum s
          else
            s ← (if in_count i =? 0 then on_ilinks (list_del (NFree a)) s else Some s);
            s ← ensure_sb a dev_no s;
            s ← upd_inode a (fun i => locked_inode (set_in_count (u32 (in_count i + 1)) i)) s;
            Some (Some a, s)
      | None =>
          empty ← list_is_empty IFreeHead (ilinks s);
          if (empty : bool) then Some (None, s)
          else
            p ← next_of (ilinks s) IFreeHead;
            match p with
            | NFree a =>
                s ← on_ilinks (list_del (NFree a)) s;
                s ← upd_inode a (set_in_key dev_no inum) s;
                b ← get_super dev_no (reg s);
                s ← upd_inode a (set_in_sb b) s;
                s ← on_ilinks (list_del (NHash a)) s;
                h ← ihash inum dev_no;
                s ← on_ilinks (list_add (IHash h) (NHash a)) s;
                s ← call_read a s;
                s ← upd_inode a (fun i => locked_inode (set_in_count (u32 (in_count i + 1)) i)) s;
                Some (Some a, s)
            | _ => None
            end
      end
  end.

(** [i_sb->s_op->write_inode(inode)]: null pointers are followed. *)
Definition call_write (a : Z) (s : icache) : option icache :=
  i ← inodes s !! a;
  b ← in_sb i;
  sb ← supers (reg s) !! b;
  o ← sb_op sb;
  f ← write_inode (sops o);
  '(_, d) ← f i (idisk s);
  Some (mk_icache (inodes s) (ilinks s) (ipool s) (reg s) d).

Definition iput (a : Z) (s : icache) : option icache :=
  s ← upd_inode a (fun i => let i := locked_inode i in set_in_count (u32 (in_count i - 1)) i) s;
  i ← inodes s !! a;
  s ← (if (in_count i =? 0) && has_flag (in_state i) I_DIRTY then call_write a s else Some s);
  s ← on_ilinks (list_add_tail IFreeHead (NFree a)) s;
  upd_inode a unlocked_inode s.

(** The loops of [create_inode_cache]. *)
Fixpoint init_ihash (n : nat) (h : Z) (s : icache) : option icache :=
  match n with
  | O => Some s
  | S n => s ← on_ilinks (INIT_LIST_HEAD (IHash h)) s; init_ihash n (h + 1) s
  end.

Fixpoint add_inodes (n : nat) (iCnt : Z) (s : icache) : option icache :=
  match n with
  | O => Some s
  | S n =>
      match ipool s with
      | [] => Some s
      | (a, old) :: rest =>
          let s := mk_icache (<[a := old]> (inodes s)) (ilinks s) rest (reg s) (idisk s) in
          s ← inode_init a DEV_NO iCnt s;
          s ← on_ilinks (list_add (IHash (hash_fn iCnt DEV_NO)) (NHash a)) s;
          s ← on_ilinks (list_add IFreeHead (NFree a)) s;
          add_inodes n (iCnt + 1) s
      end
  end.

(** [test_icache] takes inode 16 and keeps it. *)
Definition test_icache (s : icache) : option icache := '(_, s) ← iget 1 DEV_NO 16 s; Some s.

(** [cache_ok]: kmem_cache_create gave the inode cache.  The file cache and the
    display of the queues are left out. *)
Definition create_inode_cache (cache_ok : bool) (s : icache) : option icache :=
  if cache_ok then
    s ← init_ihash (Z.to_nat DEV_NO) 0 s;
    s ← on_ilinks (INIT_LIST_HEAD IFreeHead) s;
    s ← add_inodes (Z.to_nat INODES) 0 s;
    test_icache s
  else Some s.
End Vfs.

(** ** The wrappers

    [i_op dir] and [f_op file] are the tables an object points to, if any; an
    operation is an optional callback on the state [S].  [-1] is the error. *)

Record inode_operations (S : Type) := mk_iops {
  op_create : option (Z -> Z -> Z -> S -> option (Z * S));
  op_mkdir : option (Z -> Z -> Z -> S -> option (Z * S));
  op_rmdir : option (Z -> Z -> S -> option (Z * S));
  op_rename : option (Z -> Z -> Z -> Z -> S -> option (Z * S))
}.

Record file_operations (S : Type) := mk_fops {
  op_read : option (Z -> Z -> Z -> Z -> S -> option (Z * S));
  op_write : option (Z -> Z -> Z -> Z -> S -> option (Z * S))
}.

Arguments op_create {S}.
Arguments op_mkdir {S}.
Arguments op_rmdir {S}.
Arguments op_rename {S}.
Arguments op_read {S}.
Arguments op_write {S}.

Section Wrappers.
Context {S : Type} (i_op : Z -> option (inode_operations S)) (f_op : Z -> option (file_operations S)).

Definition vfs_create (dir dentry : option Z) (mode : Z) (s : S) : option (Z * S) :=
  match dir, dentry with
  | Some d, Some e => match i_op d ≫= op_create with Some f => f d e mode s | None => Some (-1, s) end
  | _, _ => Some (-1, s)
  end.

Definition vfs_mkdir (dir dentry : option Z) (mode : Z) (s : S) : option (Z * S) :=
  match dir, dentry with
  | Some d, Some e => match i_op d ≫= op_mkdir with Some f => f d e mode s | None => Some (-1, s) end
  | _, _ => Some (-1, s)
  end.

Definition vfs_rmdir (dir dentry : option Z) (s : S) : option (Z * S) :=
  match dir, dentry with
  | Some d, Some e => match i_op d ≫= op_rmdir with Some f => f d e s | None => Some (-1, s) end
  | _, _ => Some (-1, s)
  end.

(** Unlinking goes through [rmdir] too. *)
Definition vfs_unlink (dir dentry : option Z) (s : S) : option (Z * S) :=
  match dir, dentry with
  | Some d, Some e => match i_op d ≫= op_rmdir with Some f => f d e s | None => Some (-1, s) end
  | _, _ => Some (-1, s)
  end.

Definition vfs_rename (old_dir old_dentry new_dir new_dentry : option Z) (s : S) : option (Z * S) :=
  match old_dir, old_dentry, new_dir, new_dentry with
  | Some d, Some e, Some d', Some e' => match i_op d ≫= op_rename with Some f => f d e d' e' s | None => Some (-1, s) end
  | _, _, _, _ => Some (-1, s)
  end.

Definition vfs_read (file buf : option Z) (count pos : Z) (s : S) : option (Z * S) :=
  match file, buf with
  | Some x, Some b => match f_op x ≫= op_read with Some f => f x b count pos s | None => Some (-1, s) end
  | _, _ => Some (-1, s)
  end.

Definition vfs_write (file buf : option Z) (count pos : Z) (s : S) : option (Z * S) :=
  match file, buf with
  | Some x, Some b => match f_op x ≫= op_write with Some f => f x b count pos s | None => Some (-1, s) end
  | _, _ => Some (-1, s)
  end.
End Wrappers.

(** ** What the cache promises

    The abstract cache: which inode number each cached inode holds, and the
    inodes nobody holds in the order they will be reused. *)

Record aicache := mk_aicache { number : gmap Z Z; order : list Z }.

Definition holder (A : aicache) (n : Z) : option Z := fst <$> find (fun e => e.2 =? n) (map_to_list (number A)).

Inductive iop := Iget (n : Z) | Iput (a : Z).

(** [None]: an inode somebody holds (the code would wait), or a release of one
    nobody holds. *)
Definition spec_iop (o : iop) (A : aicache) : option (option Z * aicache) :=
  match o with
  | Iget n =>
      match holder A n with
      | Some a => if bool_decide (a ∈ order A) then Some (Some a, mk_aicache (number A) (filter (fun x => x ≠ a) (order A))) else None
      | None =>
          match order A with
          | [] => Some (None, A)
          | a :: rest => Some (Some a, mk_aicache (<[a := n]> (number A)) rest)
          end
      end
  | Iput a => if bool_decide (is_Some (number A !! a) /\ a ∉ order A) then Some (None, mk_aicache (number A) (order A ++ [a])) else None
  end.

Fixpoint spec_iops (os : list iop) (A : aicache) : option (list (option Z) * aicache) :=
  match os with
  | [] => Some ([], A)
  | o :: os => '(r, A) ← spec_iop o A; '(rs, A) ← spec_iops os A; Some (r :: rs, A)
  end.

Section Icache.
Context {D : Type}.
Variable sops : Z -> super_ops (D := D).
(** The inode numbers the file system has. *)
Variable valid : Z -> Prop.
Implicit Types s : icache (D := D).

Definition run_iop (o : iop) s : option (option Z * icache) :=
  match o with
  | Iget n => iget sops 1 DEV_NO n s
  | Iput a => s ← iput sops a s; Some (None, s)
  end.

Fixpoint run_iops (os : list iop) s : option (list (option Z) * icache) :=
  match os with
  | [] => Some ([], s)
  | o :: os => '(r, s) ← run_iop o s; '(rs, s) ← run_iops os s; Some (r :: rs, s)
  end.

(** What the file system's callbacks owe the cache: for its inode numbers and
    on states that are [ok] they return, stay on such states, and leave the
    cache's fields alone. *)
Definition cache_fields (i : inode) := (in_dev i, in_no i, in_count i, in_flags i, in_state i, in_sb i).

Record callbacks (o : Z) (ok : D -> Prop) : Prop := {
  cb_read : exists f, read_inode (sops o) = Some f /\
    forall i d, ok d -> valid (in_no i) -> exists i' d', f i d = Some (i', d') /\ ok d' /\ cache_fields i' = cache_fields i;
  cb_write : exists f, write_inode (sops o) = Some f /\
    forall i d, ok d -> valid (in_no i) -> exists r d', f i d = Some (r, d') /\ ok d'
}.

(** The device is mounted. *)
Definition mounted_dev (r : registry) (b o : Z) : Prop :=
  get_super DEV_NO r = Some (Some b) /\ exists sb, supers r !! b = Some sb /\ sb_op sb = Some o.

Definition iheads (k : inode_node) : Prop := match k with IHash h => 0 <= h < DEV_NO | IFreeHead => True | _ => False end.

(** What [get_super] finds: nothing before the device is mounted, and after
    that superblock [b] with the callbacks [o]. *)
Definition mount_state (r : registry) (mt : option (Z * Z)) : Prop :=
  match mt with None => get_super DEV_NO r = Some None | Some (b, o) => mounted_dev r b o end.

Definition icallbacks (mt : option (Z * Z)) (ok : D -> Prop) : Prop :=
  match mt with None => True | Some (_, o) => callbacks o ok end.

Definition ivalid (mt : option (Z * Z)) (n : Z) : Prop := 0 <= n < 2 ^ 32 /\ (is_Some mt -> valid n).

(** An inode taken before the mount has no superblock, and keeps none until
    it is taken again; only one that has its superblock can be dirty. *)
Definition inode_of (A : aicache) (a n : Z) (mt : option (Z * Z)) (i : inode) : Prop :=
  in_no i = n /\ in_dev i = DEV_NO /\ 0 <= n < 2 ^ 32 /\
  in_count i = (if decide (a ∈ order A) then 0 else 1) /\ has_flag (in_flags i) I_lock = negb (bool_decide (a ∈ order A)) /\
  (in_sb i = None \/ in_sb i = fst <$> mt) /\
  (has_flag (in_state i) I_DIRTY = true -> valid n /\ is_Some (in_sb i)).

Record irep (mt : option (Z * Z)) (ok : D -> Prop) s (A : aicache) : Prop := mk_irep {
  ir_rings : exists L, rings (ilinks s) iheads L /\ L IFreeHead = NFree <$> order A /\
    forall h x, 0 <= h < DEV_NO -> x ∈ L (IHash h) <-> exists a n, x = NHash a /\ number A !! a = Some n /\ hash_fn n DEV_NO = h;
  ir_inodes : forall a, option_Forall2 (fun i n => inode_of A a n mt i) (inodes s !! a) (number A !! a);
  ir_unique : forall a a' n, number A !! a = Some n -> number A !! a' = Some n -> a = a';
  ir_order : forall a, a ∈ order A -> is_Some (number A !! a);
  ir_links : forall a, is_Some (number A !! a) -> is_Some (ilinks s !! NFree a);
  ir_mounted : mount_state (reg s) mt;
  ir_disk : ok (idisk s)
}.

Lemma irep_nodup mt ok s A : irep mt ok s A -> NoDup (order A).
Proof.
  intros [(L & [Hd _] & E & _) _ _ _ _ _ _]. specialize (Hd IFreeHead I). rewrite E in Hd. destruct Hd as [[_ Hnd]%NoDup_cons _].
  by eapply NoDup_fmap_1.
Qed.

Lemma ir_get mt ok s A a n :
  irep mt ok s A -> number A !! a = Some n -> exists i, inodes s !! a = Some i /\ inode_of A a n mt i.
Proof. intros HR E. pose proof (ir_inodes _ _ _ _ HR a) as H. rewrite E in H. inversion H; subst. eauto. Qed.

Lemma holder_Some mt ok s A n a : irep mt ok s A -> holder A n = Some a <-> number A !! a = Some n.
Proof.
  intros HR. unfold holder. split.
  - destruct (find _ _) as [[a' m]|] eqn:E; [|done]. intros [= <-]. apply find_some in E as [Hin Hm]. simpl in *.
    apply Z.eqb_eq in Hm as ->. apply elem_of_map_to_list. by apply list_elem_of_In.
  - intros Ha. destruct (find _ _) as [[a' m]|] eqn:E.
    + apply find_some in E as [Hin Hm]. simpl in *. apply Z.eqb_eq in Hm as ->. f_equal. apply list_elem_of_In, elem_of_map_to_list in Hin.
      by apply (ir_unique _ _ _ _ HR a' a n).
    + apply elem_of_map_to_list, list_elem_of_In in Ha. apply (find_none _ _ E) in Ha. simpl in Ha. lia.
Qed.

Lemma hash_in_range n : 0 <= n -> 0 <= hash_fn n DEV_NO < DEV_NO.
Proof. intros. unfold hash_fn. apply Z.rem_bound_pos; [done|done]. Qed.

(** *** The search *)

Lemma ih_walk_spec s h n l :
  (forall x, x ∈ l -> exists a i, x = NHash a /\ inodes s !! a = Some i /\ in_dev i = DEV_NO) ->
  forall fuel y, (length l < fuel)%nat -> lseg (ilinks s) y l (IHash h) ->
  exists r, ih_walk fuel (IHash h) (hd (IHash h) l) DEV_NO n s = Some r /\
    match r with
    | Some a => exists i, NHash a ∈ l /\ inodes s !! a = Some i /\ in_no i = n
    | None => forall a i, NHash a ∈ l -> inodes s !! a = Some i -> in_no i ≠ n
    end.
Proof.
  induction l as [|x l IH]; intros Hl fuel y Hf Hs; (destruct fuel as [|fuel]; [simpl in *; lia|]); cbn [length hd ih_walk] in *.
  - rewrite decide_True by done. exists None. split; [done|]. intros a i Ha. by apply not_elem_of_nil in Ha.
  - destruct (Hl x) as (a & i & -> & Ei & Edev); [by left|]. rewrite decide_False, Ei by done. cbn [mbind option_bind].
    rewrite Edev, Z.eqb_refl, andb_true_r. destruct (Z.eqb_spec (in_no i) n) as [En|En].
    + exists (Some a). split; [done|]. exists i. split; [by left|done].
    + destruct Hs as (_ & _ & Hs). rewrite (lseg_first _ _ _ _ Hs). cbn [mbind option_bind].
      destruct (IH ltac:(intros; apply Hl; by right) fuel (NHash a)) as (r & -> & Hr); [lia|done|]. exists r. split; [done|].
      destruct r as [a'|].
      * destruct Hr as (i' & ? & ?). exists i'. split; [by right|done].
      * intros a' i' [[= ->]|Ha]%elem_of_cons; [congruence|by apply Hr].
Qed.

Lemma isearch_spec mt ok s A n :
  irep mt ok s A -> 0 <= n -> search_hash DEV_NO n s = Some (holder A n).
Proof.
  intros HR Hn. destruct (ir_rings _ _ _ _ HR) as (L & [Hd _] & _ & Hm). set (h := hash_fn n DEV_NO).
  assert (0 <= h < DEV_NO) as Hh by (by apply hash_in_range). specialize (Hd (IHash h) Hh).
  unfold search_hash, ihash. change (DEV_NO =? 0) with false. cbn [mbind option_bind]. fold h.
  pose proof (dlist_size _ _ _ Hd) as Hsz. destruct Hd as [_ Hs]. rewrite (lseg_first _ _ _ _ Hs). cbn [mbind option_bind].
  destruct (ih_walk_spec s h n (L (IHash h))) with (fuel := S (size (ilinks s))) (y := IHash h) as (r & -> & Hr); [|lia|done|].
  { intros x (a & m & -> & Ha & _)%(Hm h x Hh). destruct (ir_get _ _ _ _ _ _ HR Ha) as (i & ? & ? & ? & _). eauto. }
  f_equal. destruct r as [a|].
  - destruct Hr as (i & Hin & Ei & En). apply (Hm h _ Hh) in Hin as (a' & m & [= <-] & Ha & _). symmetry. apply (holder_Some mt ok s A n a HR).
    destruct (ir_get _ _ _ _ _ _ HR Ha) as (i' & Ei' & En' & _). congruence.
  - destruct (holder A n) as [a|] eqn:E; [|done]. apply (holder_Some mt ok s A n a HR) in E.
    destruct (ir_get _ _ _ _ _ _ HR E) as (i & Ei & En & _). exfalso. apply (Hr a i); [|done|done]. apply Hm; [done|]. eauto.
Qed.

(** *** The steps *)

Definition rings_of st (A : aicache) : Prop :=
  exists L, rings st iheads L /\ L IFreeHead = NFree <$> order A /\
    forall h x, 0 <= h < DEV_NO -> x ∈ L (IHash h) <-> exists a n, x = NHash a /\ number A !! a = Some n /\ hash_fn n DEV_NO = h.

(** One inode, the lists and the disk change. *)
Lemma irep_update mt ok s A A' a n i st' d :
  irep mt ok s A -> rings_of st' A' -> dom st' = dom (ilinks s) -> ok d ->
  (forall x, x ≠ a -> number A' !! x = number A !! x /\ (x ∈ order A' <-> x ∈ order A)) ->
  is_Some (number A !! a) -> number A' !! a = Some n -> inode_of A' a n mt i ->
  (forall x, number A !! x = Some n -> x = a) ->
  irep mt ok (mk_icache (<[a := i]> (inodes s)) st' (ipool s) (reg s) d) A'.
Proof.
  intros HR Hst Hdom Hd Hoth Ha Hn Hi Hu. destruct HR as [_ Hin Hun Hor Hli Hmt _].
  assert (forall x, is_Some (number A' !! x) <-> is_Some (number A !! x)) as Hs.
  { intros x. destruct (decide (x = a)) as [->|Hx]; [rewrite Hn; split; eauto|]. by rewrite (proj1 (Hoth x Hx)). }
  split; cbn [inodes ilinks ipool reg idisk]; try done.
  - intros x. destruct (decide (a = x)) as [<-|Hx]; [rewrite lookup_insert_eq, Hn; by constructor|].
    destruct (Hoth x) as [E Eo]; [done|]. rewrite lookup_insert_ne, E by done. specialize (Hin x).
    destruct Hin as [i' m Hi'|]; constructor. destruct Hi' as (? & ? & ? & Hc & Hf & ? & ?). unfold inode_of.
    assert (in_count i' = if decide (x ∈ order A') then 0 else 1) as Hc'.
    { rewrite Hc. destruct (decide (x ∈ order A)), (decide (x ∈ order A')); tauto. }
    rewrite (bool_decide_ext _ _ Eo). split_and!; first [done|tauto].
  - intros x y m Hx Hy. destruct (decide (x = a)) as [->|Hxa], (decide (y = a)) as [->|Hya]; [done|..].
    + rewrite (proj1 (Hoth y Hya)) in Hy. rewrite Hn in Hx. injection Hx as <-. symmetry. by apply Hu.
    + rewrite (proj1 (Hoth x Hxa)) in Hx. rewrite Hn in Hy. injection Hy as <-. by apply Hu.
    + rewrite (proj1 (Hoth x Hxa)) in Hx. rewrite (proj1 (Hoth y Hya)) in Hy. by apply (Hun x y m).
  - intros x Hx. destruct (decide (x = a)) as [->|Hxa]; [by rewrite Hn|]. destruct (Hoth x Hxa) as [-> Eo]. by apply Hor, Eo.
  - intros x Hx%Hs. apply elem_of_dom. rewrite Hdom. apply elem_of_dom. by apply Hli.
Qed.

Lemma ring_del_free a L l :
  L IFreeHead = NFree <$> l -> ring_del (NFree a) L IFreeHead = NFree <$> filter (fun x => x ≠ a) l.
Proof.
  intros E. unfold ring_del. rewrite E. clear E. induction l as [|x l IH]; [done|]. rewrite fmap_cons, !filter_cons.
  destruct (decide (x = a)) as [->|Hx].
  - rewrite (decide_False (P := NFree a ≠ NFree a)), (decide_False (P := a ≠ a)) by tauto. exact IH.
  - rewrite (decide_True (P := NFree x ≠ NFree a)) by congruence. rewrite (decide_True (P := x ≠ a)) by done. cbn. by rewrite IH.
Qed.

Lemma rings_take st A a :
  rings_of st A -> a ∈ order A ->
  exists st', list_del (NFree a) st = Some st' /\ dom st' = dom st /\
    rings_of st' (mk_aicache (number A) (filter (fun x => x ≠ a) (order A))).
Proof.
  intros (L & HR & EF & EH) Ha.
  destruct (rings_del st iheads L IFreeHead (NFree a) HR I) as (st' & E & Hdm & HR' & _ & _ & _).
  { rewrite EF. by apply list_elem_of_fmap_2. }
  exists st'. split_and!; [done..|]. exists (ring_del (NFree a) L). split_and!; [done|by apply ring_del_free|].
  intros h x Hh. unfold ring_del. rewrite list_elem_of_filter, EH by done. split; [tauto|]. intros (y & n & -> & ?). split; [done|eauto].
Qed.

Lemma rings_give st A a :
  rings_of st A -> a ∉ order A -> is_Some (st !! NFree a) ->
  exists st', list_add_tail IFreeHead (NFree a) st = Some st' /\ dom st' = dom st /\ rings_of st' (mk_aicache (number A) (order A ++ [a])).
Proof.
  intros (L & HR & EF & EH) Ha Hd.
  destruct (rings_add st iheads L false IFreeHead (NFree a) HR I) as (st' & E & Hdm & HR' & _); [|done|].
  { intros k Hk [<-|Hin]%elem_of_cons; [done|]. destruct k; try done.
    - apply EH in Hin as (? & ? & ? & _); done.
    - rewrite EF in Hin. apply list_elem_of_fmap in Hin as (? & [= <-] & ?). done. }
  exists st'. split_and!; [done..|]. exists (ring_add false IFreeHead (NFree a) L). split_and!; [done|..].
  - unfold ring_add. cbn [order]. rewrite decide_True, EF, fmap_app by done. done.
  - intros h x Hh. unfold ring_add. rewrite decide_False by done. by apply EH.
Qed.

(** Moving an inode to the queue of its new number. *)
Lemma rings_rehash st A a n m :
  rings_of st A -> number A !! a = Some n -> 0 <= n -> 0 <= m ->
  exists st1 st2, list_del (NHash a) st = Some st1 /\ list_add (IHash (hash_fn m DEV_NO)) (NHash a) st1 = Some st2 /\
    dom st2 = dom st /\ rings_of st2 (mk_aicache (<[a := m]> (number A)) (order A)).
Proof.
  intros (L & HR & EF & EH) Ha Hn Hm. pose proof (hash_in_range n Hn) as Hr. pose proof (hash_in_range m Hm) as Hr'.
  destruct (rings_del st iheads L (IHash (hash_fn n DEV_NO)) (NHash a) HR Hr) as (st1 & E1 & D1 & HR1 & Hself & Hout & _).
  { apply EH; [done|]. eauto. }
  destruct (rings_add st1 iheads _ true (IHash (hash_fn m DEV_NO)) (NHash a) HR1 Hr' Hout) as (st2 & E2 & D2 & HR2 & _).
  { eapply dlist_in_dom; [exact Hself|by left]. }
  exists st1, st2. split_and!; [done|done|congruence|]. eexists. split; [exact HR2|]. split.
  - unfold ring_add. rewrite decide_False by done. unfold ring_del. rewrite EF. apply list_filter_all, Forall_forall.
    by intros x (y & -> & _)%list_elem_of_fmap.
  - intros h x Hh. cbn [number].
    assert (x ∈ ring_del (NHash a) L (IHash h) <-> exists y k, x = NHash y /\ y ≠ a /\ number A !! y = Some k /\ hash_fn k DEV_NO = h) as Hdel.
    { unfold ring_del. rewrite list_elem_of_filter, EH by done. split.
      - intros (Hx & y & k & -> & ? & ?). exists y, k. split_and!; [done|congruence|done..].
      - intros (y & k & -> & ? & ? & ?). split; [congruence|eauto]. }
    assert ((exists y k, x = NHash y /\ <[a := m]> (number A) !! y = Some k /\ hash_fn k DEV_NO = h) <->
      x = NHash a /\ hash_fn m DEV_NO = h \/ x ∈ ring_del (NHash a) L (IHash h)) as ->.
    { rewrite Hdel. split.
      - intros (y & k & -> & [[<- <-]|[Hne ?]]%lookup_insert_Some & ?); [by left|]. right. exists y, k. done.
      - intros [[-> ?]|(y & k & -> & ? & ? & ?)]; [exists a, m; by rewrite lookup_insert_eq|exists y, k; by rewrite lookup_insert_ne]. }
    unfold ring_add. case_decide as Hd; [injection Hd as ->; rewrite elem_of_cons|]; naive_solver.
Qed.

Lemma lock_set f : has_flag (Z.lor f I_lock) I_lock = true.
Proof.
  change I_lock with (2 ^ 0). rewrite land_pow2_testbit by lia. rewrite Z.lor_spec, Z.pow2_bits_true by lia. by rewrite orb_true_r.
Qed.

Lemma lock_clear f : has_flag (Z.land f (Z.lnot I_lock)) I_lock = false.
Proof.
  change I_lock with (2 ^ 0). rewrite land_pow2_testbit by lia.
  rewrite Z.land_spec, Z.lnot_spec, Z.pow2_bits_true by lia. by rewrite andb_false_r.
Qed.

Lemma upd_inode_at s a f i : inodes s !! a = Some i -> upd_inode a f s = Some (with_inodes (<[a := f i]> (inodes s)) s).
Proof. intros E. unfold upd_inode. by rewrite E. Qed.

Lemma mount_get r mt : mount_state r mt -> get_super DEV_NO r = Some (fst <$> mt).
Proof. destruct mt as [[b o]|]; [by intros [? _]|done]. Qed.

(** The inode found on its queue, free. *)
Lemma iget_hit mt ok s A n a :
  irep mt ok s A -> number A !! a = Some n -> a ∈ order A ->
  exists s' j, iget sops 1 DEV_NO n s = Some (Some a, s') /\ irep mt ok s' (mk_aicache (number A) (filter (fun x => x ≠ a) (order A))) /\
    inodes s' !! a = Some j /\ in_sb j = fst <$> mt.
Proof.
  intros HR En Ho. destruct (ir_get _ _ _ _ _ _ HR En) as (i & Ei & Hno & Hdev & Hrng & Hc & Hf & Hsb & Hdirty).
  cbn [iget]. rewrite (isearch_spec mt ok s A n HR) by lia. cbn [mbind option_bind].
  rewrite (proj2 (holder_Some mt ok s A n a HR) En), Ei. cbn [mbind option_bind].
  rewrite bool_decide_true in Hf by done. rewrite decide_True in Hc by done. rewrite Hf. cbn [negb]. rewrite Hc. cbn [Z.eqb].
  destruct (rings_take (ilinks s) A a (ir_rings _ _ _ _ HR) Ho) as (st' & E & Hdm & Hst).
  unfold on_ilinks. rewrite E. cbn [mbind option_bind]. pose proof (mount_get _ _ (ir_mounted _ _ _ _ HR)) as Hget.
  set (s1 := mk_icache (inodes s) st' (ipool s) (reg s) (idisk s)).
  assert (exists i1, ensure_sb a DEV_NO s1 = Some (with_inodes (<[a := i1]> (inodes s)) s1) /\
    in_no i1 = n /\ in_dev i1 = DEV_NO /\ in_count i1 = 0 /\ in_sb i1 = (fst <$> mt) /\ in_state i1 = in_state i) as (i1 & -> & H1 & H2 & H3 & H4 & H5).
  { unfold ensure_sb. cbn [s1 inodes reg]. rewrite Ei. cbn [mbind option_bind]. destruct Hsb as [E0|E0]; rewrite E0.
    - rewrite Hget. cbn [mbind option_bind]. rewrite (upd_inode_at s1 a _ i Ei). eexists. split; [done|]. done.
    - rewrite <- E0. destruct (in_sb i) as [b|] eqn:E1; [exists i; by rewrite insert_id by done|].
      rewrite Hget. cbn [mbind option_bind]. rewrite (upd_inode_at s1 a _ i Ei). eexists. split; [done|]. by rewrite <- E0. }
  cbn [mbind option_bind]. rewrite (upd_inode_at _ a _ i1) by apply lookup_insert_eq. cbn [mbind option_bind]. do 2 eexists. split; [done|].
  cbn [with_inodes inodes s1 ilinks ipool reg idisk]. rewrite insert_insert_eq. split; [|split; [by apply lookup_insert_eq|done]].
  assert (a ∉ filter (fun x => x ≠ a) (order A)) as Hout by (by intros [? _]%list_elem_of_filter).
  eapply (irep_update mt ok s A _ a n); [done|done|done|by apply (ir_disk _ _ _ _ HR)| |by rewrite En|exact En| |].
  - intros x Hx. split; [done|]. cbn [order]. rewrite list_elem_of_filter. tauto.
  - unfold inode_of. cbn [order locked_inode set_in_flags set_in_count in_no in_dev in_count in_flags in_sb in_state].
    rewrite decide_False, bool_decide_false, H3, H4, H5, lock_set by done. split_and!; auto; try lia. intros [? Hs]%Hdirty. split; [done|].
    destruct Hsb as [E0|E0]; [rewrite E0 in Hs; by destruct Hs|by rewrite <- E0].
  - intros x Hx. by apply (ir_unique _ _ _ _ HR x a n).
Qed.

(** Reading an inode that has its superblock, if there is one. *)
Lemma read_spec mt ok s a i :
  icallbacks mt ok -> mount_state (reg s) mt -> ok (idisk s) -> inodes s !! a = Some i -> in_sb i = fst <$> mt -> (is_Some mt -> valid (in_no i)) ->
  exists i' d, call_read sops a s = Some (mk_icache (<[a := i']> (inodes s)) (ilinks s) (ipool s) (reg s) d) /\ ok d /\
    cache_fields i' = cache_fields i.
Proof.
  intros Hcb Hmt Hok Ei Esb Hval. unfold call_read. rewrite Ei. cbn [mbind option_bind]. rewrite Esb. destruct mt as [[b o]|]; cbn [fmap option_fmap option_map fst].
  - destruct Hmt as [_ (sb & -> & Eop)]. cbn [mbind option_bind]. rewrite Eop. destruct (cb_read _ _ Hcb) as (f & -> & Hrd).
    destruct (Hrd i (idisk s) Hok) as (i' & d' & -> & Hd' & Hkey); [by apply Hval|]. cbn [mbind option_bind]. by exists i', d'.
  - exists i, (idisk s). rewrite insert_id by done. split; [by destruct s|done].
Qed.

(** The first free inode, given the number. *)
Lemma iget_miss mt ok s A n a rest :
  icallbacks mt ok -> irep mt ok s A -> holder A n = None -> order A = a :: rest -> ivalid mt n ->
  exists s' j, iget sops 1 DEV_NO n s = Some (Some a, s') /\ irep mt ok s' (mk_aicache (<[a := n]> (number A)) rest) /\
    inodes s' !! a = Some j /\ in_sb j = fst <$> mt.
Proof.
  intros Hcb HR Hh Ho [Hn Hval]. destruct (ir_order _ _ _ _ HR a) as [m Em]; [rewrite Ho; by left|].
  destruct (ir_get _ _ _ _ _ _ HR Em) as (i & Ei & Hno & Hdev & Hrng & Hc & Hf & Hsb & Hdirty).
  rewrite decide_True in Hc by (rewrite Ho; by left).
  assert (a ∉ rest /\ filter (fun x => x ≠ a) (order A) = rest) as [Har Efl].
  { pose proof (irep_nodup _ _ _ _ HR) as Hnd. rewrite Ho in Hnd |- *. apply NoDup_cons in Hnd as [Hna _]. split; [done|].
    rewrite filter_cons_False by tauto. apply list_filter_all, Forall_forall. by intros x Hx ->. }
  pose proof (mount_get _ _ (ir_mounted _ _ _ _ HR)) as Hget.
  cbn [iget]. rewrite (isearch_spec mt ok s A n HR), Hh by lia. cbn [mbind option_bind].
  pose proof (ir_rings _ _ _ _ HR) as Hst. pose proof Hst as (L & [HdL _] & EF & _). specialize (HdL IFreeHead I). rewrite EF, Ho in HdL.
  rewrite (list_is_empty_spec _ _ _ HdL), bool_decide_false by done. cbn [mbind option_bind].
  rewrite (lseg_first _ _ _ _ (proj2 HdL)). cbn [mbind option_bind fmap list_fmap hd].
  destruct (rings_take (ilinks s) A a Hst) as (st1 & E1 & Dm1 & Hst1); [rewrite Ho; by left|]. rewrite Efl in Hst1.
  destruct (rings_rehash st1 _ a m n Hst1 Em) as (st2 & st3 & E2 & E3 & Dm3 & Hst3); [lia..|].
  unfold on_ilinks. rewrite E1. cbn [mbind option_bind]. unfold upd_inode. cbn [with_inodes inodes ilinks ipool reg idisk].
  rewrite Ei. cbn [mbind option_bind with_inodes inodes ilinks ipool reg idisk]. rewrite Hget. cbn [mbind option_bind].
  rewrite lookup_insert_eq. cbn [mbind option_bind with_inodes inodes ilinks ipool reg idisk]. rewrite insert_insert_eq, E2. cbn [mbind option_bind ilinks inodes ipool reg idisk].
  unfold ihash. change (DEV_NO =? 0) with false. cbn [mbind option_bind]. rewrite E3. cbn [mbind option_bind].
  set (i1 := set_in_sb (fst <$> mt) (set_in_key DEV_NO n i)).
  destruct (read_spec mt ok (mk_icache (<[a := i1]> (inodes s)) st3 (ipool s) (reg s) (idisk s)) a i1 Hcb (ir_mounted _ _ _ _ HR))
    as (i' & d' & E4 & Hd' & Hkey); [apply (ir_disk _ _ _ _ HR)|apply lookup_insert_eq|done|done|].
  rewrite E4. clear E4.
  cbn [mbind option_bind inodes ilinks ipool reg]. rewrite lookup_insert_eq. cbn [mbind option_bind]. do 2 eexists. split; [done|].
  cbn [with_inodes inodes ilinks ipool reg idisk]. rewrite !insert_insert_eq.
  unfold cache_fields in Hkey. cbn [i1 set_in_sb set_in_key in_dev in_no in_count in_flags in_state in_sb] in Hkey. injection Hkey as K1 K2 K3 K4 K6 K5.
  split; [|split; [by apply lookup_insert_eq|done]].
  eapply (irep_update mt ok s A _ a n); [done|exact Hst3|exact (eq_trans Dm3 Dm1)|done| |by rewrite Em|by apply lookup_insert_eq| |].
  - intros x Hx. cbn [number order]. rewrite lookup_insert_ne by done. split; [done|]. rewrite Ho, elem_of_cons. naive_solver.
  - unfold inode_of. cbn [order locked_inode set_in_flags set_in_count in_no in_dev in_count in_flags in_sb in_state].
    rewrite decide_False, bool_decide_false, lock_set, K1, K2, K3, K5, K6, Hc by done. split_and!; auto; try lia.
    intros [_ Hs]%Hdirty. destruct mt as [[b o]|]; [by split; [apply Hval|]|]. destruct Hsb as [E0|E0]; rewrite E0 in Hs; by destruct Hs.
  - intros x Hx. apply (holder_Some mt ok s A n x HR) in Hx. congruence.
Qed.

Lemma iput_spec mt ok s A a n :
  icallbacks mt ok -> irep mt ok s A -> number A !! a = Some n -> a ∉ order A ->
  exists s', iput sops a s = Some s' /\ irep mt ok s' (mk_aicache (number A) (order A ++ [a])).
Proof.
  intros Hcb HR En Ho. destruct (ir_get _ _ _ _ _ _ HR En) as (i & Ei & Hno & Hdev & Hrng & Hc & Hf & Hsb & Hdirty).
  rewrite decide_False in Hc by done. pose proof (ir_mounted _ _ _ _ HR) as Hmt.
  unfold iput. rewrite (upd_inode_at s a _ i Ei). cbn [mbind option_bind]. set (i1 := set_in_count _ _). set (s1 := with_inodes _ s).
  assert (inodes s1 !! a = Some i1) as Es1 by apply lookup_insert_eq. rewrite Es1. cbn [mbind option_bind].
  assert (exists d, (if (in_count i1 =? 0) && has_flag (in_state i1) I_DIRTY then call_write sops a s1 else Some s1) =
    Some (mk_icache (inodes s1) (ilinks s) (ipool s) (reg s) d) /\ ok d) as (d & -> & Hd).
  { pose proof (ir_disk _ _ _ _ HR) as Hok. destruct (_ && _) eqn:Hb; [|exists (idisk s); done].
    apply andb_true_iff in Hb as [_ Hb]. unfold call_write. rewrite Es1. cbn [mbind option_bind].
    destruct (Hdirty Hb) as [Hval Hs]. destruct Hsb as [E0|E0]; [rewrite E0 in Hs; by destruct Hs|]. rewrite E0 in Hs.
    destruct mt as [[b o]|]; [|by destruct Hs]. destruct Hmt as [_ (sb & Esb & Eop)].
    change (in_sb i1) with (in_sb i). rewrite E0. cbn [mbind option_bind fmap option_fmap option_map fst]. change (reg s1) with (reg s). rewrite Esb. cbn [mbind option_bind].
    rewrite Eop. cbn [mbind option_bind]. destruct (cb_write _ _ Hcb) as (f & -> & Hwr). cbn [mbind option_bind].
    destruct (Hwr i1 (idisk s1) Hok) as (r & d & -> & Hd); [cbn; by rewrite Hno|]. cbn [mbind option_bind]. by exists d. }
  cbn [mbind option_bind]. destruct (rings_give (ilinks s) A a (ir_rings _ _ _ _ HR) Ho) as (st' & E & Hdm & Hst).
  { apply (ir_links _ _ _ _ HR). by rewrite En. }
  unfold on_ilinks. cbn [ilinks inodes ipool reg idisk]. rewrite E. cbn [mbind option_bind].
  rewrite (upd_inode_at (mk_icache (inodes s1) st' (ipool s) (reg s) d) a _ i1 Es1). eexists. split; [done|]. cbn [with_inodes inodes ilinks ipool reg idisk s1]. rewrite insert_insert_eq.
  eapply (irep_update mt ok s A _ a n); [done|done|done|done| |by rewrite En|exact En| |].
  - intros x Hx. split; [done|]. cbn [order]. rewrite elem_of_app, list_elem_of_singleton. tauto.
  - unfold inode_of. cbn [order]. rewrite decide_True, bool_decide_true by (apply elem_of_app; right; by left).
    cbn [i1 unlocked_inode locked_inode set_in_flags set_in_count in_no in_dev in_count in_flags in_sb in_state]. rewrite lock_clear, Hc. auto 12.
  - intros x Hx. by apply (ir_unique _ _ _ _ HR x a n).
Qed.

Definition valid_iop (o : iop) : Prop := match o with Iget n => 0 <= n < 2 ^ 32 /\ valid n | Iput _ => True end.

Lemma iget_spec mt ok s A n r A' :
  icallbacks mt ok -> irep mt ok s A -> ivalid mt n -> spec_iop (Iget n) A = Some (r, A') ->
  exists s', iget sops 1 DEV_NO n s = Some (r, s') /\ irep mt ok s' A' /\
    forall a, r = Some a -> exists j, inodes s' !! a = Some j /\ in_sb j = fst <$> mt.
Proof.
  intros Hcb HR Hv E. cbn [spec_iop] in E. destruct (holder A n) as [a|] eqn:Hh.
  - case_bool_decide as Ha; [|done]. injection E as <- <-.
    destruct (iget_hit mt ok s A n a) as (s' & j & ? & ? & ?); [done|by apply (holder_Some mt ok s A n a HR)|done|].
    exists s'. split_and!; [done..|]. intros a' [= <-]. eauto.
  - destruct (order A) as [|a rest] eqn:Ho; injection E as <- <-.
    + exists s. split_and!; [|done|done]. cbn [iget]. rewrite (isearch_spec mt ok s A n HR), Hh by apply Hv. cbn [mbind option_bind].
      destruct (ir_rings _ _ _ _ HR) as (L & [HdL _] & EF & _). specialize (HdL IFreeHead I). rewrite EF, Ho in HdL.
      by rewrite (list_is_empty_spec _ _ _ HdL).
    + destruct (iget_miss mt ok s A n a rest) as (s' & j & ? & ? & ?); [done..|]. exists s'. split_and!; [done..|]. intros a' [= <-]. eauto.
Qed.

Lemma iop_spec mt ok s A op r A' :
  icallbacks mt ok -> irep mt ok s A -> valid_iop op -> spec_iop op A = Some (r, A') ->
  exists s', run_iop op s = Some (r, s') /\ irep mt ok s' A'.
Proof.
  intros Hcb HR Hv E. destruct op as [n|a]; cbn [run_iop valid_iop] in *.
  - destruct (iget_spec mt ok s A n r A' Hcb HR) as (s' & ? & ? & _); [by split; [|intros _]; apply Hv|done|]. eauto.
  - cbn [spec_iop] in E. case_bool_decide as Ha; [|done]. injection E as <- <-. destruct Ha as [[n En] Ha].
    destruct (iput_spec mt ok s A a n Hcb HR En Ha) as (s' & -> & HR'). by eexists.
Qed.

Lemma iops_spec os mt ok : forall s A rs A',
  icallbacks mt ok -> irep mt ok s A -> Forall valid_iop os -> spec_iops os A = Some (rs, A') ->
  exists s', run_iops os s = Some (rs, s') /\ irep mt ok s' A'.
Proof.
  induction os as [|op os IH]; intros s A rs A' Hcb HR Hv E; cbn [spec_iops run_iops] in *; [injection E as <- <-; by eexists|].
  apply Forall_cons in Hv as [Hv1 Hv]. destruct (spec_iop op A) as [[r A1]|] eqn:E1; [|done]. cbn [mbind option_bind] in E.
  destruct (spec_iops os A1) as [[rs1 A2]|] eqn:E2; [|done]. cbn [mbind option_bind] in E. injection E as <- <-.
  destruct (iop_spec mt ok _ _ _ _ _ Hcb HR Hv1 E1) as (s1 & -> & HR1). cbn [mbind option_bind].
  destruct (IH _ _ _ _ Hcb HR1 Hv E2) as (s2 & -> & HR2). by eexists.
Qed.

Definition with_reg (r : registry) s : icache := mk_icache (inodes s) (ilinks s) (ipool s) r (idisk s).

Lemma irep_store mt ok s A r d :
  irep mt ok s A -> mount_state r mt -> ok d -> irep mt ok (mk_icache (inodes s) (ilinks s) (ipool s) r d) A.
Proof. intros [] Hr Hd. by split. Qed.

(** The device is mounted: the cache as it stands is the cache of the
    mounted device. *)
Lemma irep_mount ok s A r b o : irep None ok s A -> mounted_dev r b o -> irep (Some (b, o)) ok (with_reg r s) A.
Proof.
  intros [Hst Hin Hu Hor Hli Hmt Hok] Hr. split; try done. intros a. specialize (Hin a). cbn [with_reg inodes]. destruct Hin as [i n Hi|]; constructor.
  destruct Hi as (? & ? & ? & ? & ? & Hsb & Hd). assert (in_sb i = None) as E by (by destruct Hsb).
  unfold inode_of. rewrite E in *. split_and!; try done; try lia; first [by left|intros [_ [? ?]]%Hd; done].
Qed.

(** ** Building the cache *)

Definition ring_node (A : aicache) (y : inode_node) : Prop :=
  match y with IHash _ | IFreeHead | NFree _ => True | NHash x => is_Some (number A !! x) | NSbList _ | NDentry _ => False end.

Lemma rings_of_frame st st' A : rings_of st A -> (forall y, ring_node A y -> st' !! y = st !! y) -> rings_of st' A.
Proof.
  intros (L & HR & EF & EH) Hf. exists L. split_and!; [|done..]. eapply rings_ext; [exact HR|done|done|].
  intros k y Hk Hy. apply Hf. destruct k as [h| | | | |]; try done.
  - apply elem_of_cons in Hy as [->|(x & n & -> & E & _)%EH]; [done| |done]. simpl. eauto.
  - rewrite EF in Hy. apply elem_of_cons in Hy as [->|(x & -> & _)%list_elem_of_fmap]; done.
Qed.

Lemma rings_new st A a n :
  rings_of st A -> number A !! a = None -> a ∉ order A -> 0 <= n -> is_Some (st !! NHash a) -> is_Some (st !! NFree a) ->
  exists st1 st2, list_add (IHash (hash_fn n DEV_NO)) (NHash a) st = Some st1 /\ list_add IFreeHead (NFree a) st1 = Some st2 /\
    dom st2 = dom st /\ rings_of st2 (mk_aicache (<[a := n]> (number A)) (a :: order A)).
Proof.
  intros (L & HR & EF & EH) Ha Hao Hn Hd1 Hd2. pose proof (hash_in_range n Hn) as Hh.
  destruct (rings_add st iheads L true (IHash (hash_fn n DEV_NO)) (NHash a) HR Hh) as (st1 & E1 & Dm1 & HR1 & _); [|done|].
  { intros k Hk [<-|Hin]%elem_of_cons; [done|]. destruct k; try done.
    - apply EH in Hin as (? & ? & [= <-] & ? & _); [congruence|done].
    - rewrite EF in Hin. by apply list_elem_of_fmap in Hin as (? & ? & _). }
  destruct (rings_add st1 iheads _ true IFreeHead (NFree a) HR1 I) as (st2 & E2 & Dm2 & HR2 & _).
  { intros k Hk [<-|Hin]%elem_of_cons; [done|]. unfold ring_add in Hin. destruct k; try done.
    - case_decide; [apply elem_of_cons in Hin as [?|Hin]; [done|]|]; by apply EH in Hin as (? & ? & ? & _).
    - rewrite decide_False, EF in Hin by done. by apply list_elem_of_fmap in Hin as (? & [= <-] & ?). }
  { apply elem_of_dom. rewrite Dm1. by apply elem_of_dom. }
  exists st1, st2. split_and!; [done|done|congruence|]. eexists. split; [exact HR2|]. split.
  - unfold ring_add. rewrite decide_True by done. rewrite decide_False by done. by rewrite EF.
  - intros h x Hr. cbn [number]. unfold ring_add at 1. rewrite decide_False by done.
    assert ((exists y k, x = NHash y /\ <[a := n]> (number A) !! y = Some k /\ hash_fn k DEV_NO = h) <->
      x = NHash a /\ hash_fn n DEV_NO = h \/ x ∈ L (IHash h)) as ->.
    { rewrite EH by done. split.
      - intros (y & k & -> & [[<- <-]|[Hne ?]]%lookup_insert_Some & ?); [by left|right; eauto].
      - intros [[-> ?]|(y & k & -> & ? & ?)]; [exists a, n; by rewrite lookup_insert_eq|].
        exists y, k. rewrite lookup_insert_ne by congruence. done. }
    unfold ring_add. case_decide as Hd; [injection Hd as ->; rewrite elem_of_cons|]; naive_solver.
Qed.

Definition inode_nodes (a : Z) : list inode_node := [NHash a; NFree a; NSbList a; NDentry a].

(** One round of the loop. *)
Lemma add_inode_spec mt ok s A a old rest n :
  irep mt ok s A -> ipool s = (a, old) :: rest -> number A !! a = None -> 0 <= n < 2 ^ 32 ->
  has_flag (in_state old) I_DIRTY = false -> (forall x, number A !! x = Some n -> False) -> Forall (fun y => is_Some (ilinks s !! y)) (inode_nodes a) ->
  exists s', (let s := mk_icache (<[a := old]> (inodes s)) (ilinks s) rest (reg s) (idisk s) in
              s ← inode_init a DEV_NO n s;
              s ← on_ilinks (list_add (IHash (hash_fn n DEV_NO)) (NHash a)) s;
              on_ilinks (list_add IFreeHead (NFree a)) s) = Some s' /\
    irep mt ok s' (mk_aicache (<[a := n]> (number A)) (a :: order A)) /\ ipool s' = rest /\ dom (ilinks s') = dom (ilinks s).
Proof.
  intros HR Ep Ha Hn Hcl Hun Hnodes. unfold inode_nodes in Hnodes. rewrite !Forall_cons in Hnodes. destruct Hnodes as (N1 & N2 & N3 & N4 & _).
  assert (a ∉ order A) as Hao by (intros [? ?]%(ir_order _ _ _ _ HR); congruence).
  destruct (INIT_LIST_HEAD_spec (ilinks s) (NHash a) N1) as (st1 & E1 & Dm1 & _ & F1).
  rewrite <- elem_of_dom, <- Dm1, elem_of_dom in N1, N2, N3, N4.
  destruct (INIT_LIST_HEAD_spec st1 (NSbList a) N3) as (st2 & E2 & Dm2 & _ & F2).
  rewrite <- elem_of_dom, <- Dm2, elem_of_dom in N1, N2, N4.
  destruct (INIT_LIST_HEAD_spec st2 (NDentry a) N4) as (st3 & E3 & Dm3 & _ & F3).
  rewrite <- elem_of_dom, <- Dm3, elem_of_dom in N1, N2.
  assert (rings_of st3 A) as Hst3.
  { eapply rings_of_frame; [exact (ir_rings _ _ _ _ HR)|]. intros y Hy. rewrite F3, F2, F1; try done; intros ->; simpl in Hy; [|done..].
    destruct Hy; congruence. }
  destruct (rings_new st3 A a n Hst3 Ha Hao) as (st4 & st5 & E4 & E5 & Dm5 & Hst5); [lia|done|done|].
  cbn zeta. unfold inode_init, on_ilinks. cbn [ilinks inodes ipool reg idisk].
  rewrite E1. cbn [mbind option_bind ilinks inodes ipool reg idisk]. rewrite E2. cbn [mbind option_bind ilinks inodes ipool reg idisk].
  rewrite E3. cbn [mbind option_bind]. unfold upd_inode. cbn [ilinks inodes ipool reg idisk]. rewrite lookup_insert_eq.
  cbn [mbind option_bind with_inodes ilinks inodes ipool reg idisk]. rewrite E4. cbn [mbind option_bind ilinks inodes ipool reg idisk].
  rewrite E5. cbn [mbind option_bind]. rewrite insert_insert_eq. eexists. split; [done|].
  split; [|split; [done|]; cbn [ilinks]; congruence].
  destruct HR as [_ Hin Hu Hor Hli Hmt Hok]. split; cbn [inodes ilinks ipool reg idisk number order]; try done.
  - intros x. destruct (decide (a = x)) as [<-|Hx].
    + rewrite !lookup_insert_eq. constructor. unfold inode_of. cbn [order inode_fields in_no in_dev in_count in_flags in_sb].
      rewrite decide_True, bool_decide_true by (by left). split_and!; try done; [lia|lia|by left|].
      cbn [inode_fields in_state]. rewrite Hcl. done.
    + rewrite !lookup_insert_ne by done. specialize (Hin x). destruct Hin as [i m Hi|]; constructor.
      assert (x ∈ a :: order A <-> x ∈ order A) as Eo by (rewrite elem_of_cons; naive_solver).
      destruct Hi as (? & ? & ? & Hc & Hf & ? & ?). unfold inode_of. cbn [order].
      assert (in_count i = if decide (x ∈ a :: order A) then 0 else 1) as Hc'.
      { rewrite Hc. destruct (decide (x ∈ order A)), (decide (x ∈ a :: order A)); tauto. }
      rewrite (bool_decide_ext _ _ Eo). split_and!; first [done|tauto].
  - intros x y m [[<- <-]|[Hx Ex]]%lookup_insert_Some [[<- E]|[Hy Ey]]%lookup_insert_Some; [done|by apply Hun in Ey|subst; by apply Hun in Ex|].
    by apply (Hu x y m).
  - intros x [->|Hx]%elem_of_cons; [by rewrite lookup_insert_eq|]. rewrite lookup_insert. case_decide; eauto.
  - intros x Hx. apply elem_of_dom. assert (dom st5 = dom (ilinks s)) as -> by congruence. apply elem_of_dom.
    rewrite lookup_insert in Hx. case_decide; [subst|by apply Hli]. apply elem_of_dom. rewrite <- Dm1, <- Dm2, <- Dm3. by apply elem_of_dom.
Qed.

(** The inodes get the numbers from [i] on; the last one comes first on the
    free list. *)
Fixpoint spec_add (l : list Z) (i : Z) (A : aicache) : aicache :=
  match l with
  | [] => A
  | a :: l => spec_add l (i + 1) (mk_aicache (<[a := i]> (number A)) (a :: order A))
  end.

Definition pool_ok s : Prop :=
  NoDup (ipool s).*1 /\ Forall (fun e => has_flag (in_state e.2) I_DIRTY = false /\
    Forall (fun y => is_Some (ilinks s !! y)) (inode_nodes e.1)) (ipool s).

Lemma add_inodes_spec mt ok n : forall i s A,
  irep mt ok s A -> pool_ok s -> (forall a, a ∈ (ipool s).*1 -> number A !! a = None) ->
  (forall x m, number A !! x = Some m -> m < i) -> 0 <= i -> i + Z.of_nat n <= 2 ^ 32 ->
  exists s', add_inodes n i s = Some s' /\ irep mt ok s' (spec_add (take n (ipool s).*1) i A).
Proof.
  induction n as [|n IH]; intros i s A HR [Hnd Hnodes] Hnew Hlt Hi Hn; cbn [add_inodes take]; [by eexists|].
  destruct (ipool s) as [|[a old] rest] eqn:Ep; [by eexists|]. cbn [fmap list_fmap fst] in *.
  apply NoDup_cons in Hnd as [Hna Hnd]. apply Forall_cons in Hnodes as [[Hcl Hn1] Hnodes].
  destruct (add_inode_spec mt ok s A a old rest i HR Ep) as (s1 & E & HR1 & Ep1 & Dm1);
    [apply Hnew; by left|lia|done|intros x Hx; apply Hlt in Hx; lia|done|].
  cbn zeta in E. destruct (inode_init a DEV_NO i _) as [s2|]; [|done]. cbn [mbind option_bind] in E |- *.
  destruct (on_ilinks (list_add (IHash _) _) s2) as [s3|]; [|done]. cbn [mbind option_bind] in E |- *. rewrite E. cbn [mbind option_bind].
  cbn [take spec_add]. change (map fst rest) with rest.*1. rewrite <- Ep1. apply IH; rewrite ?Ep1; [done|..|lia|lia].
  - split; rewrite Ep1; [done|]. eapply Forall_impl; [exact Hnodes|]. intros e [? He]. split; [done|].
    eapply Forall_impl; [exact He|]. intros y. rewrite <- !elem_of_dom. by rewrite Dm1.
  - intros x Hx. cbn [number]. rewrite lookup_insert_ne by (intros ->; done). apply Hnew. by right.
  - cbn [number]. intros x m [[_ <-]|[_ Hx]]%lookup_insert_Some; [lia|]. apply Hlt in Hx. lia.
Qed.

Lemma init_ihash_spec n : forall h s,
  (forall k, h <= k < h + Z.of_nat n -> is_Some (ilinks s !! IHash k)) ->
  exists st, init_ihash n h s = Some (mk_icache (inodes s) st (ipool s) (reg s) (idisk s)) /\ dom st = dom (ilinks s) /\
    forall k, h <= k < h + Z.of_nat n -> dlist st (IHash k) [].
Proof.
  induction n as [|n IH]; intros h s Hd; [exists (ilinks s); split_and!; [by destruct s|done|lia]|]. cbn [init_ihash].
  destruct (INIT_LIST_HEAD_spec (ilinks s) (IHash h)) as (st1 & E & Dm & Hh & F1); [apply Hd; lia|].
  unfold on_ilinks. rewrite E. cbn [mbind option_bind].
  destruct (IH (h + 1) (mk_icache (inodes s) st1 (ipool s) (reg s) (idisk s))) as (st & E' & Dm' & Hall).
  { intros k Hk. apply elem_of_dom. cbn [ilinks]. rewrite Dm. apply elem_of_dom, Hd. lia. }
  rewrite E'. exists st. cbn [inodes ipool reg idisk ilinks] in *. split_and!; [done|congruence|].
  intros k Hk. destruct (decide (k = h)) as [->|]; [|apply Hall; lia].
  assert (forall m j (s : icache (D := D)) s', j > h -> init_ihash m j s = Some s' -> ilinks s' !! IHash h = ilinks s !! IHash h) as Hkeep.
  { clear. intros m. induction m as [|m IHm]; intros j s s' Hj E; cbn [init_ihash] in E; [by injection E as <-|]. unfold on_ilinks in E.
    destruct (INIT_LIST_HEAD (IHash j) (ilinks s)) as [st|] eqn:Ei; [|done]. cbn [mbind option_bind] in E.
    rewrite (IHm (j + 1) _ _ ltac:(lia) E). cbn [ilinks].
    assert (is_Some (ilinks s !! IHash j)) as Hs.
    { unfold INIT_LIST_HEAD, set_next in Ei. destruct (ilinks s !! IHash j); [eauto|done]. }
    rewrite INIT_LIST_HEAD_effect in Ei by done. injection Ei as <-. apply lookup_insert_ne. intros [=]. lia. }
  eapply dlist_frame; [|exact Hh]. intros y ->%list_elem_of_singleton. apply (Hkeep n (h + 1) _ _ ltac:(lia) E').
Qed.

(** The store before [create_inode_cache]: nothing is mounted. *)
Record ifresh (ok : D -> Prop) s : Prop := {
  if_inodes : inodes s = ∅;
  if_heads : forall k, iheads k -> is_Some (ilinks s !! k);
  if_pool : pool_ok s;
  if_mounted : get_super DEV_NO (reg s) = Some None;
  if_disk : ok (idisk s)
}.

Definition first_inodes s : aicache := spec_add (take 30 (ipool s).*1) 0 (mk_aicache ∅ []).

Lemma icache_lists_spec ok s :
  ifresh ok s -> exists s0,
    (s ← init_ihash (Z.to_nat DEV_NO) 0 s; s ← on_ilinks (INIT_LIST_HEAD IFreeHead) s; add_inodes (Z.to_nat INODES) 0 s) = Some s0 /\
    irep None ok s0 (first_inodes s).
Proof.
  intros [Hi Hh [Hp1 Hp2] Hm Hok].
  destruct (init_ihash_spec (Z.to_nat DEV_NO) 0 s) as (st1 & E1 & Dm1 & Hall); [exact (fun k Hk => Hh (IHash k) Hk)|].
  rewrite E1. cbn [mbind option_bind]. destruct (INIT_LIST_HEAD_spec st1 IFreeHead) as (st2 & E2 & Dm2 & Hfree & F2).
  { apply elem_of_dom. rewrite Dm1. apply elem_of_dom. by apply Hh. }
  unfold on_ilinks. cbn [ilinks inodes ipool reg idisk]. rewrite E2. cbn [mbind option_bind].
  set (s2 := mk_icache (inodes s) st2 (ipool s) (reg s) (idisk s)).
  apply (add_inodes_spec None ok 30 0 s2 (mk_aicache ∅ [])); [| |intros; apply lookup_empty|intros x m Hx; cbn [number] in Hx; by rewrite lookup_empty in Hx|lia|lia].
  - split; cbn [s2 inodes ilinks ipool reg idisk number order]; try done.
    + exists (fun _ => []). split; [split|split; [done|]].
      * intros h Hhd. destruct h as [h| | | | |]; try done. eapply dlist_frame; [|by apply Hall]. intros y ->%list_elem_of_singleton. by apply F2.
      * intros h h' y _ _ ->%list_elem_of_singleton ->%list_elem_of_singleton. done.
      * intros h x _. split; [intros Hx; by apply not_elem_of_nil in Hx|]. intros (a & n & _ & Hx & _). by rewrite lookup_empty in Hx.
    + intros a. rewrite Hi, !lookup_empty. constructor.
    + intros a Hx. by apply not_elem_of_nil in Hx.
    + intros a [? Hx]. by rewrite lookup_empty in Hx.
  - split; [done|]. cbn [s2 ilinks ipool]. eapply Forall_impl; [exact Hp2|]. intros e [? He]. split; [done|].
    eapply Forall_impl; [exact He|]. intros y. rewrite <- !elem_of_dom. assert (dom st2 = dom (ilinks s)) as -> by congruence. done.
Qed.

(** [create_inode_cache], with the inode [test_icache] takes and keeps. *)
Lemma icache_create_spec ok s r A :
  ifresh ok s -> spec_iop (Iget 16) (first_inodes s) = Some (r, A) ->
  exists s0, create_inode_cache sops true s = Some s0 /\ irep None ok s0 A.
Proof.
  intros Hf E. destruct (icache_lists_spec ok s Hf) as (s1 & E1 & HR1).
  destruct (iget_spec None ok s1 _ 16 r A I HR1) as (s2 & E2 & HR2 & _); [by split; [lia|intros []]|done|].
  exists s2. split; [|done]. unfold create_inode_cache, test_icache.
  destruct (init_ihash _ _ _) as [t1|]; [|done]. cbn [mbind option_bind] in E1 |- *.
  destruct (on_ilinks _ _) as [t2|]; [|done]. cbn [mbind option_bind] in E1 |- *. rewrite E1. cbn [mbind option_bind]. by rewrite E2.
Qed.
End Icache.

Lemma icache_run {D} (sops : Z -> super_ops (D := D)) valid reg' b o ok s os r rs A' :
  ifresh ok s -> mounted_dev reg' b o -> callbacks sops valid o ok -> Forall (valid_iop valid) os ->
  spec_iops (Iget 16 :: os) (first_inodes s) = Some (r :: rs, A') ->
  exists s0 s', create_inode_cache sops true s = Some s0 /\ run_iops sops os (with_reg reg' s0) = Some (rs, s') /\
    irep valid (Some (b, o)) ok s' A'.
Proof.
  intros Hf Hm Hcb Hv E. cbn [spec_iops] in E.
  destruct (spec_iop (Iget 16) (first_inodes s)) as [[r1 A1]|] eqn:E2; [|done]. cbn [mbind option_bind] in E.
  destruct (spec_iops os A1) as [[rs1 A2]|] eqn:E3; [|done]. cbn [mbind option_bind] in E. injection E as <- <- <-.
  destruct (icache_create_spec sops valid ok s r1 A1 Hf E2) as (s1 & E1 & HR1). exists s1.
  destruct (iops_spec sops valid os (Some (b, o)) ok (with_reg reg' s1) A1 rs1 A2 Hcb) as (s2 & ? & ?); [by apply irep_mount|done|done|]. eauto.
Qed.

(** ** Main theorems *)

(** C31: the inode cache hands out one inode per number and reuses the one
    released longest ago.  [create_inode_cache] runs on a fresh store before
    anything is mounted, and leaves inode 16 taken, without a superblock.
    From there, once the device is mounted with callbacks that return and
    leave the cache's fields alone, any sequence of [iget] and [iput] that
    would not wait, releases of inode 16 included, gives the results of the
    abstract cache: the inode that has the number, taken off the free list;
    else the first free one, given the number and read from disk; else the
    null pointer; and a release puts it last. *)
Theorem icache_refines {D} (sops : Z -> super_ops (D := D)) valid reg' b o ok s os r rs A' :
  ifresh ok s -> mounted_dev reg' b o -> callbacks sops valid o ok -> Forall (valid_iop valid) os ->
  spec_iops (Iget 16 :: os) (first_inodes s) = Some (r :: rs, A') ->
  exists s0 s', create_inode_cache sops true s = Some s0 /\ run_iops sops os (with_reg reg' s0) = Some (rs, s') /\
    irep valid (Some (b, o)) ok s' A'.
Proof. exact (icache_run sops valid reg' b o ok s os r rs A'). Qed.

(** A file system without a disk: reading an inode sets its size to its
    number. *)
Definition demo_sops (o : Z) : super_ops (D := unit) :=
  mk_sops (Some (fun i d => Some (mk_inode (in_dev i) (in_no i) (in_count i) (in_mode i) (in_nlinks i) (in_uid i) (in_gid i) (in_flags i)
             (in_no i) (in_atime i) (in_mtime i) (in_ctime i) (in_state i) (in_blocks i) (in_op i) (in_fop i) (in_sb i), d)))
          (Some (fun _ d => Some (0, d))).

Definition demo_registry : registry :=
  mk_registry {[1 := Some [101; 120; 116; 50; 0]]} {[5 := mk_super DEV_NO 1024 0 (Some 9) 0 0 None 1 None]}
    (list_to_map [(FileSystems, mk_list_head (Some (FsList 1)) (Some (FsList 1)));
                  (FsList 1, mk_list_head (Some FileSystems) (Some FileSystems));
                  (FsSupers 1, mk_list_head (Some (SList 5)) (Some (SList 5)));
                  (SList 5, mk_list_head (Some (FsSupers 1)) (Some (FsSupers 1)))]) true true [].

(** The same before the superblock is there. *)
Definition unmounted_registry : registry :=
  mk_registry {[1 := Some [101; 120; 116; 50; 0]]} ∅
    (list_to_map [(FileSystems, mk_list_head (Some (FsList 1)) (Some (FsList 1)));
                  (FsList 1, mk_list_head (Some FileSystems) (Some FileSystems));
                  (FsSupers 1, mk_list_head (Some (FsSupers 1)) (Some (FsSupers 1)))]) true true [].

Definition demo_inode : inode := mk_inode 0 0 0 0 0 0 0 0 0 0 0 0 0 0 None None None.

Definition demo_icache : icache (D := unit) :=
  mk_icache ∅
    (list_to_map ((fun y => (y, mk_list_head None None)) <$>
       ([IHash 0; IHash 1; IHash 2; IHash 3; IFreeHead] ++ (seqZ 100 30 ≫= inode_nodes))))
    ((fun a => (a, demo_inode)) <$> seqZ 100 30) unmounted_registry tt.

Lemma demo_icache_fresh : ifresh (fun _ => True) demo_icache.
Proof.
  split; [done|..|done].
  - intros [h| | | | |] Hk; try done.
    revert h Hk. change (forall h, 0 <= h < 0 + 4 -> is_Some (ilinks demo_icache !! IHash h)).
    apply (Forall_seqZ (fun h => is_Some (ilinks demo_icache !! IHash h)) 0 4). decided.
  - split; decided.
  - vm_compute. reflexivity.
Qed.

Lemma demo_mounted : mounted_dev demo_registry 5 9.
Proof. split; [vm_compute; reflexivity|]. eexists. split; reflexivity. Qed.

Lemma demo_callbacks : callbacks demo_sops (fun _ => True) 9 (fun _ => True).
Proof. split; eexists; (split; [done|]); intros i d _ _; do 2 eexists; done. Qed.

(** Inode 16, at 116, is released; inode 500 takes the memory of inode 29. *)
Definition demo_iops : list iop := [Iget 2; Iget 500; Iput 116; Iput 102; Iget 2; Iput 129; Iget 16].

Lemma icache_refines_witness : exists s0 s' A',
  create_inode_cache demo_sops true demo_icache = Some s0 /\
  run_iops demo_sops demo_iops (with_reg demo_registry s0) = Some ([Some 102; Some 129; None; None; Some 102; None; Some 116], s') /\
  irep (fun _ => True) (Some (5, 9)) (fun _ => True) s' A'.
Proof.
  pose (os := demo_iops).
  destruct (spec_iops (Iget 16 :: os) (first_inodes demo_icache)) as [[rs A']|] eqn:E; [|vm_compute in E; done].
  assert (rs = Some 116 :: [Some 102; Some 129; None; None; Some 102; None; Some 116]) as ->.
  { assert (fst <$> spec_iops (Iget 16 :: os) (first_inodes demo_icache) = Some rs) as Er by (by rewrite E). vm_compute in Er. by injection Er. }
  destruct (icache_refines demo_sops (fun _ => True) demo_registry 5 9 (fun _ => True) demo_icache os (Some 116)
      [Some 102; Some 129; None; None; Some 102; None; Some 116] A' demo_icache_fresh demo_mounted demo_callbacks)
    as (s0 & s' & H); [|exact E|by exists s0, s', A'].
  clear E. unfold os, demo_iops. repeat apply Forall_cons_2; try apply Forall_nil_2; cbn [valid_iop]; split_and?; first [exact I|lia].
Defined.
