(* ===== verification/File.v ===== *)
(** * Open files and descriptor tables (fs/ext2/file.c, include/file.h, struct
    file of include/vfs.h)

    Open files and descriptor tables live in maps by address; [fpool] and
    [kpool] are the addresses the object cache and kmalloc will hand out.
    [release] gives the [release] callback of an [f_op] table, if there is one;
    its result is ignored by the code.  The entries are those of the entry
    cache. *)

From S2P Require Export Dcache.

Definition MAX_FILES : Z := 256.

Record file := mk_file {
  f_dentry : option Z; f_fop : option Z; f_count : Z; f_flags : Z; f_mode : Z; f_pos : Z; f_uid : Z; f_gid : Z
}.

Definition set_f_count (n : Z) (f : file) := mk_file (f_dentry f) (f_fop f) n (f_flags f) (f_mode f) (f_pos f) (f_uid f) (f_gid f).
Definition set_f_op (o : option Z) (f : file) := mk_file (f_dentry f) o (f_count f) (f_flags f) (f_mode f) (f_pos f) (f_uid f) (f_gid f).

Record files_struct := mk_files { fd_array : list (option Z); next_fd : Z; fs_count : Z }.

Record fstate := mk_fstate {
  tables : gmap Z files_struct;
  filps : gmap Z file;
  flinks : gmap Z (list_head Z);
  fpool : list Z;
  kpool : list Z;
  file_cache : bool;
  dc : dcache
}.

Definition set_tables m (s : fstate) := mk_fstate m (filps s) (flinks s) (fpool s) (kpool s) (file_cache s) (dc s).
Definition set_filps m (s : fstate) := mk_fstate (tables s) m (flinks s) (fpool s) (kpool s) (file_cache s) (dc s).
Definition set_dc d (s : fstate) := mk_fstate (tables s) (filps s) (flinks s) (fpool s) (kpool s) (file_cache s) d.

(** [cache_ok]: kmem_cache_create returned a cache. *)
Definition file_cache_init (cache_ok : bool) (s : fstate) : fstate :=
  mk_fstate (tables s) (filps s) (flinks s) (fpool s) (kpool s) cache_ok (dc s).

Definition ensure_file_cache (cache_ok : bool) (s : fstate) : fstate :=
  if file_cache s then s else file_cache_init cache_ok s.

Definition init_files (cache_ok : bool) (s : fstate) : option Z * fstate :=
  let s := ensure_file_cache cache_ok s in
  match kpool s with
  | [] => (None, s)
  | f :: rest =>
      (Some f, mk_fstate (<[f := mk_files (replicate (Z.to_nat MAX_FILES) None) 0 1]> (tables s))
                 (filps s) (flinks s) (fpool s) rest (file_cache s) (dc s))
  end.

Section File.
Variable release : Z -> option (option Z -> Z -> fstate -> option fstate).

Definition fput (file : option Z) (s : fstate) : option fstate :=
  match file with
  | None => Some s
  | Some x =>
      f ← filps s !! x;
      let f := set_f_count (u32 (f_count f - 1)) f in
      let s := set_filps (<[x := f]> (filps s)) s in
      if f_count f =? 0 then
        s ← match f_fop f ≫= release, f_dentry f with
            | Some r, Some e => d ← dentries (dc s) !! e; r (d_inode d) x s
            | _, _ => Some s
            end;
        f ← filps s !! x;
        s ← match f_dentry f with
            | Some e => d ← dput (Some e) (dc s); Some (set_dc d s)
            | None => Some s
            end;
        Some (set_filps (delete x (filps s)) s)
      else Some s
  end.

(** [for (i = 0; i < MAX_FILES; i++)] of [destroy_files]. *)
Fixpoint put_all (l : list (option Z)) (s : fstate) : option fstate :=
  match l with
  | [] => Some s
  | x :: l => s ← match x with Some _ => fput x s | None => Some s end; put_all l s
  end.

Definition destroy_files (files : option Z) (s : fstate) : option fstate :=
  match files with
  | None => Some s
  | Some f =>
      t ← tables s !! f;
      let t := mk_files (fd_array t) (next_fd t) (u32 (fs_count t - 1)) in
      let s := set_tables (<[f := t]> (tables s)) s in
      if fs_count t =? 0 then
        s ← put_all (fd_array t) s; Some (set_tables (delete f (tables s)) s)
      else Some s
  end.

(** The loop of [get_unused_fd]; reading past the array is undefined. *)
Fixpoint free_fd (n : nat) (fd : Z) (l : list (option Z)) : option Z :=
  match n with
  | O => Some (-1)
  | S n => x ← zget l fd; match x with None => Some fd | Some _ => free_fd n (fd + 1) l end
  end.

Definition get_unused_fd (files : option Z) (s : fstate) : option Z :=
  match files with
  | None => Some (-1)
  | Some f => t ← tables s !! f; free_fd (Z.to_nat MAX_FILES) 0 (fd_array t)
  end.

Definition fd_install (files : option Z) (fd : Z) (file : option Z) (s : fstate) : option fstate :=
  match files, file with
  | Some f, Some _ =>
      if (fd <? 0) || (MAX_FILES <=? fd) then Some s
      else
        t ← tables s !! f;
        l ← zset (fd_array t) fd file;
        Some (set_tables (<[f := mk_files l (next_fd t) (fs_count t)]> (tables s)) s)
  | _, _ => Some s
  end.

Definition fget (files : option Z) (fd : Z) (s : fstate) : option (option Z * fstate) :=
  match files with
  | None => Some (None, s)
  | Some f =>
      if (fd <? 0) || (MAX_FILES <=? fd) then Some (None, s)
      else
        t ← tables s !! f;
        file ← zget (fd_array t) fd;
        match file with
        | None => Some (None, s)
        | Some x => y ← filps s !! x; Some (file, set_filps (<[x := set_f_count (u32 (f_count y + 1)) y]> (filps s)) s)
        end
  end.

(** Allocating from a null cache is undefined. *)
Definition get_empty_filp (cache_ok : bool) (s : fstate) : option (option Z * fstate) :=
  let s := ensure_file_cache cache_ok s in
  if negb (file_cache s) then None
  else
    match fpool s with
    | [] => Some (None, s)
    | x :: rest =>
        st ← INIT_LIST_HEAD x (flinks s);
        Some (Some x, mk_fstate (tables s) (<[x := mk_file None None 1 0 0 0 0 0]> (filps s)) st rest (kpool s) (file_cache s) (dc s))
    end.

(** [i_fop] is the inode's [f_op]. *)
Definition generic_file_open (inode : option Z) (i_fop : Z -> option Z) (filp : option Z) (s : fstate) : option (Z * fstate) :=
  match inode, filp with
  | Some i, Some x => f ← filps s !! x; Some (0, set_filps (<[x := set_f_op (i_fop i) f]> (filps s)) s)
  | _, _ => Some (-1, s)
  end.

Definition generic_file_release (inode filp : option Z) (s : fstate) : Z * fstate := (0, s).

(** ** Descriptors *)

Lemma free_fd_spec n : forall fd l,
  0 <= fd -> fd + Z.of_nat n <= Z.of_nat (length l) ->
  (free_fd n fd l = Some (-1) /\ forall i, fd <= i < fd + Z.of_nat n -> exists x, zget l i = Some (Some x)) \/
  exists k, free_fd n fd l = Some k /\ fd <= k < fd + Z.of_nat n /\ zget l k = Some None /\
    forall i, fd <= i < k -> exists x, zget l i = Some (Some x).
Proof.
  induction n as [|n IH]; intros fd l Hfd Hl; cbn [free_fd]; [left; split; [done|lia]|].
  destruct (zget_is_Some l fd) as [x Hx]; [lia|]. rewrite Hx. cbn [mbind option_bind]. destruct x as [x|].
  - destruct (IH (fd + 1) l) as [[E Hall]|(k & E & Hk & Hnone & Hall)]; [lia|lia|left|right].
    + split; [done|]. intros i Hi. destruct (decide (i = fd)) as [->|]; [eauto|]. apply Hall. lia.
    + exists k. split_and!; [done|lia|lia|done|]. intros i Hi. destruct (decide (i = fd)) as [->|]; [eauto|]. apply Hall. lia.
  - right. exists fd. split_and!; [done|lia|lia|done|lia].
Qed.
End File.

(** ** Main theorems *)

(** C32: descriptors are handed out lowest first and lead to their file.  In a
    table of 256 descriptors [get_unused_fd] returns -1 when all are taken, and
    else the lowest free one; installing a file there makes [fget] of it return
    the file with one more reference, which [fput] gives back, and leaves what
    every other descriptor leads to unchanged. *)
Theorem fd_table_correct release s f t x y :
  tables s !! f = Some t -> length (fd_array t) = Z.to_nat MAX_FILES -> filps s !! x = Some y -> 0 < f_count y < 2 ^ 32 - 1 ->
  (get_unused_fd (Some f) s = Some (-1) /\ forall fd, 0 <= fd < MAX_FILES -> exists z, zget (fd_array t) fd = Some (Some z)) \/
  exists fd s1 s2, get_unused_fd (Some f) s = Some fd /\ 0 <= fd < MAX_FILES /\ zget (fd_array t) fd = Some None /\
    (forall k, 0 <= k < fd -> exists z, zget (fd_array t) k = Some (Some z)) /\
    fd_install (Some f) fd (Some x) s = Some s1 /\
    fget (Some f) fd s1 = Some (Some x, s2) /\ filps s2 !! x = Some (set_f_count (f_count y + 1) y) /\
    fput release (Some x) s2 = Some s1 /\
    forall k, k ≠ fd -> fst <$> fget (Some f) k s1 = fst <$> fget (Some f) k s.
Proof.
  intros Et Hl Ex Hc. unfold get_unused_fd. rewrite Et. cbn [mbind option_bind].
  destruct (free_fd_spec (Z.to_nat MAX_FILES) 0 (fd_array t)) as [[E Hall]|(fd & E & Hfd & Hnone & Hall)]; [lia|rewrite Hl; lia|by left|right].
  destruct (zset (fd_array t) fd (Some x)) as [l|] eqn:El.
  2:{ rewrite zset_in_range in El by (rewrite Hl; lia). done. }
  assert ((fd <? 0) || (MAX_FILES <=? fd) = false) as Hrng by (unfold MAX_FILES in *; lia).
  set (s1 := set_tables (<[f := mk_files l (next_fd t) (fs_count t)]> (tables s)) s).
  exists fd, s1, (set_filps (<[x := set_f_count (f_count y + 1) y]> (filps s)) s1).
  split; [done|]. split; [unfold MAX_FILES in *; lia|]. split; [done|]. split; [intros; apply Hall; lia|].
  unfold fd_install. rewrite Hrng, Et. cbn [mbind option_bind]. rewrite El. split; [done|].
  unfold fget. rewrite Hrng. cbn [s1 set_tables tables filps]. rewrite lookup_insert_eq, Et. cbn [mbind option_bind fd_array].
  rewrite (zget_zset_eq _ _ _ _ El). cbn [mbind option_bind]. rewrite Ex. cbn [mbind option_bind]. rewrite u32_small by lia. split_and!; [done|apply lookup_insert_eq| |].
  - unfold fput. cbn [set_filps filps]. rewrite lookup_insert_eq. cbn [mbind option_bind set_f_count f_count].
    replace (f_count y + 1 - 1) with (f_count y) by lia. rewrite u32_small by lia. replace (f_count y =? 0) with false by lia.
    f_equal. cbn [set_filps tables filps flinks fpool kpool file_cache dc]. rewrite insert_insert_eq, insert_id; [done|]. rewrite Ex. by destruct y.
  - intros k Hk. rewrite (zget_zset_ne _ _ _ _ _ (not_eq_sym Hk) El).
    destruct ((k <? 0) || (MAX_FILES <=? k)); [done|]. destruct (zget (fd_array t) k) as [[z|]|]; [|done|done]. cbn [mbind option_bind].
    destruct (filps s !! z); done.
Qed.

(** A table with descriptor 0 in use and a new file. *)
Definition demo_files : fstate :=
  mk_fstate {[1 := mk_files (Some 10 :: replicate 255 None) 0 1]}
    {[10 := mk_file None None 1 0 0 0 0 0; 11 := mk_file None None 1 0 0 0 0 0]} ∅ [] [] true (mk_dcache ∅ ∅ []).

Lemma fd_table_correct_witness : exists s1 s2,
  get_unused_fd (Some 1) demo_files = Some 1 /\ fd_install (Some 1) 1 (Some 11) demo_files = Some s1 /\
  fget (Some 1) 1 s1 = Some (Some 11, s2) /\ fput (fun _ => None) (Some 11) s2 = Some s1.
Proof.
  destruct (fd_table_correct (fun _ => None) demo_files 1 (mk_files (Some 10 :: replicate 255 None) 0 1) 11 (mk_file None None 1 0 0 0 0 0)
    eq_refl eq_refl eq_refl ltac:(simpl; lia)) as [[E _]|(fd & s1 & s2 & E & _ & _ & _ & E1 & E2 & _ & E3 & _)]; vm_compute in E; [done|].
  injection E as <-. by exists s1, s2.
Defined.
