(* ===== verification/Ext2Inode.v ===== *)
(** * Inodes of ext2 behind the inode cache (fs/ext2/ext2_inode.c)

    The callbacks of ext2's [super_operations] on the inode a client holds and
    the file system's state: superblock, descriptors and buffer cache.  The
    inode cache relies on [callbacks]; here ext2 keeps it.  [dir_ops],
    [file_ops] and [file_fops] are the addresses of the static tables
    ext2_dir_inode_operations, ext2_file_inode_operations and
    ext2_file_operations. *)

From S2P Require Export Vfs Dir.

#[local] Ltac Zify.zify_post_hook ::= Z.to_euclidean_division_equations.

Section Ext2Inode.
Context {B : Type} `{!BlockDev B}.
Notation fsys := (ext2 (buffer_cache B)).
Variables dir_ops file_ops file_fops : Z.
Implicit Types (i : inode) (d : fsys).

(** The [i_op] and [f_op] an inode of mode [mode] gets. *)
Definition ext2_set_ops (mode : Z) i : inode :=
  let is_dir := has_flag mode EXT2_S_IFDIR in
  mk_inode (in_dev i) (in_no i) (in_count i) (in_mode i) (in_nlinks i) (in_uid i) (in_gid i) (in_flags i) (in_size i)
    (in_atime i) (in_mtime i) (in_ctime i) (in_state i) (in_blocks i)
    (Some (if is_dir then dir_ops else file_ops)) (if is_dir then in_fop i else Some file_fops) (in_sb i).

Definition ext2_read_inode i d : option (inode * fsys) :=
  '(disk_inode, d) ← get_inode (in_no i) d;
  let i := mk_inode (in_dev i) (in_no i) (in_count i) (get i_mode disk_inode) (get i_links_count disk_inode)
             (get i_uid disk_inode) (get i_gid disk_inode) (in_flags i) (get i_size disk_inode)
             (get i_atime disk_inode) (get i_mtime disk_inode) (get i_ctime disk_inode) (in_state i) (get i_blocks disk_inode)
             (in_op i) (in_fop i) (in_sb i) in
  Some (ext2_set_ops (get i_mode disk_inode) i, d).

(** The members of the disk inode that come from the inode. *)
Definition ext2_fill_inode i (disk_inode : list Z) : list Z :=
  let n := put i_mode (in_mode i) disk_inode in
  let n := put i_uid (in_uid i) n in
  let n := put i_gid (in_gid i) n in
  let n := put i_size (in_size i) n in
  let n := put i_atime (in_atime i) n in
  let n := put i_mtime (in_mtime i) n in
  let n := put i_ctime (in_ctime i) n in
  let n := put i_blocks (in_blocks i) n in
  put i_links_count (in_nlinks i) n.

Definition ext2_write_inode i d : option (Z * fsys) :=
  '(disk_inode, d) ← get_inode (in_no i) d;
  d ← write_inode_table (in_no i) (ext2_fill_inode i disk_inode) d;
  Some (0, d).

Definition ext2_free_inode (inode : option inode) d : option fsys :=
  match inode with
  | None => Some d
  | Some i => '(_, d) ← on_disk (fun e => e ← unset_inode_bitmap (in_no i) e; Some (tt, e)) d; Some d
  end.

Definition ext2_delete_inode (inode : option inode) d : option fsys :=
  match inode with None => Some d | Some _ => ext2_free_inode inode d end.

(** [block_num] may be null. *)
Definition ext2_get_block (inode : option inode) (block_idx : Z) (has_result : bool) d : option (Z * option Z * fsys) :=
  match inode with
  | Some i =>
      if has_result then
        '(disk_inode, d) ← get_inode (in_no i) d;
        '(n, d) ← indirect_block disk_inode block_idx d;
        Some (0, Some n, d)
      else Some (-1, None, d)
  | None => Some (-1, None, d)
  end.

(** The table ext2_sops. *)
Definition ext2_sops (o : Z) : super_ops (D := fsys) := mk_sops (Some ext2_read_inode) (Some ext2_write_inode).

(** [iget] gives one round.  [dir] gives the device; the inode that was
    reserved stays so when no inode is free. *)
Definition ext2_new_inode (dir : option inode) (mode : Z) (s : icache (D := fsys)) : option (option Z * icache) :=
  '(r, d) ← on_disk reserve_free_inode (idisk s);
  let s := mk_icache (inodes s) (ilinks s) (ipool s) (reg s) d in
  match r with
  | None => Some (None, s)
  | Some n =>
      '(o, s) ← iget ext2_sops 1 (match dir with Some i => in_dev i | None => DEV_NO end) n s;
      match o with
      | None => Some (None, s)
      | Some a =>
          s ← upd_inode a (fun i =>
                let i := mk_inode (in_dev i) (in_no i) (in_count i) (u16 mode) 1 0 0 (in_flags i) 0
                           (in_atime i) (in_mtime i) (in_ctime i) (in_state i) 0 (in_op i) (in_fop i) (in_sb i) in
                ext2_set_ops mode i) s;
          Some (Some a, s)
      end
  end.

(** ** The callbacks keep the cache's contract *)

(** Mounted on [d0], with room in the buffer cache. *)
Definition ext2_ok (d0 d : fsys) : Prop := exists k c, d = set_dev c d0 /\ quiet (S k) c.

(** The inodes whose table block can be named in 16 bits. *)
Definition ext2_valid (d0 : fsys) (n : Z) : Prop :=
  exists blk off, inode_at d0 n blk off /\ 0 <= blk < 2 ^ 16 /\ bd_ok blk.

Lemma ext2_get (d0 d : fsys) n :
  std_fs d0 -> ext2_ok d0 d -> ext2_valid d0 n ->
  exists img d', get_inode n d = Some (img, d') /\ length img = 128%nat /\ ext2_ok d0 d'.
Proof.
  intros Hs (k & c & -> & Hq) (blk & off & Hat & Hb & Hok). destruct (holds_total _ _ _ Hq Hok) as [data Hd].
  pose proof (inode_at_off _ _ _ _ Hat) as [Ho _]. pose proof (holds_length _ _ _ _ Hq Hok Hd) as Hl.
  destruct (get_inode_spec k (set_dev c d0) n blk off data) as (c' & E & Hq' & _); try (by rewrite ?u16_small); [by apply std_fs_dev|].
  exists (slice (Z.to_nat off) 128 data), (set_dev c' d0). split; [exact E|]. split; [|by exists k, c'].
  unfold slice. rewrite length_take, length_drop. lia.
Qed.

(** A sequence of stores into fields that are inside the image and disjoint. *)
Fixpoint puts (l : list (field * Z)) (img : list Z) : list Z :=
  match l with [] => img | (f, v) :: l => puts l (put f v img) end.

Fixpoint disjoint_fields (n : nat) (l : list (field * Z)) : Prop :=
  match l with [] => True | (f, _) :: l => inside f n /\ Forall (fun p => apart f p.1) l /\ disjoint_fields n l end.

Lemma puts_length l : forall img, disjoint_fields (length img) l -> length (puts l img) = length img.
Proof.
  induction l as [|[f v] l IH]; intros img; [done|]. intros (Hi & _ & H). cbn [puts].
  rewrite IH; rewrite put_length; done.
Qed.

Lemma get_puts_ne g l : forall img,
  disjoint_fields (length img) l -> Forall (fun p => apart p.1 g) l -> get g (puts l img) = get g img.
Proof.
  induction l as [|[f v] l IH]; intros img; [done|]. intros (Hi & _ & H) [Hg Hl]%Forall_cons. cbn [puts].
  rewrite IH by (rewrite ?put_length; done). by apply get_put_ne.
Qed.

Lemma get_puts f v l : forall img,
  disjoint_fields (length img) l -> (f, v) ∈ l -> get f (puts l img) = v `mod` 2 ^ (8 * Z.of_nat (f_len f)).
Proof.
  induction l as [|[g w] l IH]; intros img; [by intros _ ?%elem_of_nil|]. intros (Hi & Ha & H) Hin. cbn [puts].
  apply elem_of_cons in Hin as [[= <- <-]|Hin].
  - rewrite get_puts_ne; [by apply get_put_eq|by rewrite put_length|].
    eapply Forall_impl; [exact Ha|]. intros [h x] Hx. unfold apart in *. cbn in *. tauto.
  - apply IH; [by rewrite put_length|done].
Qed.

Definition inode_puts i : list (field * Z) :=
  [(i_mode, in_mode i); (i_uid, in_uid i); (i_gid, in_gid i); (i_size, in_size i); (i_atime, in_atime i);
   (i_mtime, in_mtime i); (i_ctime, in_ctime i); (i_blocks, in_blocks i); (i_links_count, in_nlinks i)].

Lemma fill_puts i img : ext2_fill_inode i img = puts (inode_puts i) img.
Proof. done. Qed.

#[local] Ltac fields := repeat first [split | apply Forall_cons_2 | apply Forall_nil_2]; unfold inside, apart; cbn; lia.

Lemma inode_puts_disjoint i : disjoint_fields 128 (inode_puts i).
Proof. cbn [inode_puts disjoint_fields]. fields. Qed.

Lemma fill_length i img : length img = 128%nat -> length (ext2_fill_inode i img) = 128%nat.
Proof. intros H. rewrite fill_puts, puts_length; [done|]. rewrite H. apply inode_puts_disjoint. Qed.

Lemma fill_get i img f v :
  length img = 128%nat -> (f, v) ∈ inode_puts i -> 0 <= v < 2 ^ (8 * Z.of_nat (f_len f)) -> get f (ext2_fill_inode i img) = v.
Proof.
  intros H Hin Hv. rewrite fill_puts, (get_puts f v) by (rewrite ?H; first [done | apply inode_puts_disjoint]). by apply Z.mod_small.
Qed.

Lemma fill_block i img k : length img = 128%nat -> 0 <= k < 15 -> get (i_block k) (ext2_fill_inode i img) = get (i_block k) img.
Proof.
  intros H Hk. rewrite fill_puts, get_puts_ne; [done|rewrite H; apply inode_puts_disjoint|].
  cbn [inode_puts]. unfold i_block. repeat first [apply Forall_cons_2 | apply Forall_nil_2]; unfold apart; cbn; lia.
Qed.

(** The members of the inode that the disk keeps, within their widths there. *)
Definition disk_fields i := (in_mode i, in_uid i, in_gid i, in_size i, in_atime i, in_mtime i, in_ctime i, in_blocks i, in_nlinks i).

Definition disk_ranges i : Prop :=
  0 <= in_mode i < 2 ^ 16 /\ 0 <= in_uid i < 2 ^ 16 /\ 0 <= in_gid i < 2 ^ 16 /\ 0 <= in_size i < 2 ^ 32 /\
  0 <= in_atime i < 2 ^ 32 /\ 0 <= in_mtime i < 2 ^ 32 /\ 0 <= in_ctime i < 2 ^ 32 /\ 0 <= in_blocks i < 2 ^ 32 /\
  0 <= in_nlinks i < 2 ^ 16.

Lemma fill_fields i img :
  length img = 128%nat -> disk_ranges i ->
  let n := ext2_fill_inode i img in
  (get i_mode n, get i_uid n, get i_gid n, get i_size n, get i_atime n, get i_mtime n, get i_ctime n, get i_blocks n,
   get i_links_count n) = disk_fields i.
Proof.
  intros H (H1 & H2 & H3 & H4 & H5 & H6 & H7 & H8 & H9). cbv zeta. unfold disk_fields.
  rewrite (fill_get i img i_mode (in_mode i)), (fill_get i img i_uid (in_uid i)), (fill_get i img i_gid (in_gid i)),
    (fill_get i img i_size (in_size i)), (fill_get i img i_atime (in_atime i)), (fill_get i img i_mtime (in_mtime i)),
    (fill_get i img i_ctime (in_ctime i)), (fill_get i img i_blocks (in_blocks i)), (fill_get i img i_links_count (in_nlinks i));
    first [done | unfold inode_puts; rewrite ?elem_of_cons; tauto].
Qed.

Lemma ext2_put (d0 d : fsys) n img :
  std_fs d0 -> ext2_ok d0 d -> ext2_valid d0 n -> length img = 128%nat ->
  exists d1 d2, write_inode_table n img d = Some d1 /\ ext2_ok d0 d1 /\ get_inode n d1 = Some (img, d2) /\ ext2_ok d0 d2.
Proof.
  intros Hs (k & c & -> & Hq) (blk & off & Hat & Hb & Hok) Hl. destruct (holds_total _ _ _ Hq Hok) as [data Hd].
  pose proof (inode_at_off _ _ _ _ Hat) as [Ho _]. pose proof (holds_length _ _ _ _ Hq Hok Hd) as Hdl.
  destruct (write_inode_spec k (set_dev c d0) n blk off img data) as (c1 & E & Hq1 & Hh & _); [by apply std_fs_dev|done..|lia|done|done|].
  rewrite set_dev_set_dev in E.
  destruct (get_inode_spec k (set_dev c1 d0) n blk off (splice (Z.to_nat off) img data)) as (c2 & E2 & Hq2 & _);
    [by apply std_fs_dev|done|done|by rewrite u16_small|by rewrite u16_small|]. rewrite set_dev_set_dev in E2.
  exists (set_dev c1 d0), (set_dev c2 d0). split_and!; [exact E|by exists k, c1| |by exists k, c2].
  rewrite E2, <- Hl, slice_splice_eq by lia. done.
Qed.

Lemma ext2_read_spec (d0 d : fsys) i :
  std_fs d0 -> ext2_ok d0 d -> ext2_valid d0 (in_no i) ->
  exists i' d', ext2_read_inode i d = Some (i', d') /\ ext2_ok d0 d' /\ cache_fields i' = cache_fields i.
Proof.
  intros Hs Hd Hv. destruct (ext2_get d0 d (in_no i)) as (img & d' & E & _ & Hok); [done..|].
  unfold ext2_read_inode. rewrite E. cbn [mbind option_bind]. eexists _, _. split; [done|]. split; [done|]. done.
Qed.

Lemma ext2_write_spec (d0 d : fsys) i :
  std_fs d0 -> ext2_ok d0 d -> ext2_valid d0 (in_no i) ->
  exists img d1 d2 d3, get_inode (in_no i) d = Some (img, d1) /\ length img = 128%nat /\
    ext2_write_inode i d = Some (0, d2) /\ ext2_ok d0 d2 /\
    get_inode (in_no i) d2 = Some (ext2_fill_inode i img, d3) /\ ext2_ok d0 d3.
Proof.
  intros Hs Hd Hv. destruct (ext2_get d0 d (in_no i)) as (img & d1 & E & Hl & Hok); [done..|].
  destruct (ext2_put d0 d1 (in_no i) (ext2_fill_inode i img)) as (d2 & d3 & E2 & Hok2 & E3 & Hok3); [done..|by apply fill_length|].
  exists img, d1, d2, d3. split_and!; try done. unfold ext2_write_inode. rewrite E. cbn [mbind option_bind]. by rewrite E2.
Qed.

Lemma ext2_callbacks (d0 : fsys) o : std_fs d0 -> callbacks ext2_sops (ext2_valid d0) o (ext2_ok d0).
Proof.
  intros Hs. split.
  - exists ext2_read_inode. split; [done|]. intros i d Hd Hv. by apply ext2_read_spec.
  - exists ext2_write_inode. split; [done|]. intros i d Hd Hv.
    destruct (ext2_write_spec d0 d i) as (img & d1 & d2 & d3 & _ & _ & E & Hok & _); [done..|]. by exists 0, d2.
Qed.

(** [ext2_write_inode] followed by ext2_read_inode into any cached inode of
    that number gives back mode, owner, size, times, block count and links
    (below 65536) and chooses the operations by the mode; number, device,
    counts and flags of the cached inode stay, and so do the block pointers of
    the inode on disk. *)
Theorem ext2_write_read_inode (d0 d : fsys) i j :
  std_fs d0 -> ext2_ok d0 d -> ext2_valid d0 (in_no i) -> in_no j = in_no i -> disk_ranges i ->
  exists img d1 d2 img' d3 i' d4,
    get_inode (in_no i) d = Some (img, d1) /\ ext2_write_inode i d = Some (0, d2) /\
    ext2_read_inode j d2 = Some (i', d4) /\ disk_fields i' = disk_fields i /\ cache_fields i' = cache_fields j /\
    (in_op i' = Some (if has_flag (in_mode i) EXT2_S_IFDIR then dir_ops else file_ops)) /\
    get_inode (in_no i) d2 = Some (img', d3) /\
    forall k, 0 <= k < 15 -> get (i_block k) img' = get (i_block k) img.
Proof.
  intros Hs Hd Hv Hj Hr.
  destruct (ext2_write_spec d0 d i) as (img & d1 & d2 & d3 & E & Hl & E2 & _ & E3 & _); [done..|].
  pose proof (fill_fields i img Hl Hr) as Hf. cbv zeta in Hf.
  eexists img, d1, d2, _, d3, _, d3. split; [exact E|]. split; [exact E2|].
  split. { unfold ext2_read_inode. rewrite Hj, E3. reflexivity. }
  split. { rewrite <- Hf. reflexivity. }
  split. { unfold cache_fields. cbn. by rewrite Hj. } split. { cbn [in_op ext2_set_ops]. pose proof (f_equal (fun p => p.1.1.1.1.1.1.1.1) Hf) as Em. cbn [disk_fields fst] in Em. by rewrite Em. }
  split; [exact E3|]. intros k Hk. by apply fill_block.
Qed.

(** The inode cache over ext2.  [create_inode_cache] on a fresh store with
    nothing mounted and then, with the volume mounted, any sequence of [iget]
    and [iput] of inodes of the volume that would not wait return what the
    bounded cache of numbers returns: the ext2 callbacks, which go through the
    inode table and the buffer cache, keep the contract the inode cache relies
    on. *)
Theorem ext2_icache_refines (d0 : fsys) reg' b o s os r rs A' :
  std_fs d0 -> ifresh (ext2_ok d0) s -> mounted_dev reg' b o -> Forall (valid_iop (ext2_valid d0)) os ->
  spec_iops (Iget 16 :: os) (first_inodes s) = Some (r :: rs, A') ->
  exists s0 s', create_inode_cache ext2_sops true s = Some s0 /\ run_iops ext2_sops os (with_reg reg' s0) = Some (rs, s') /\
    irep (ext2_valid d0) (Some (b, o)) (ext2_ok d0) s' A'.
Proof. intros Hs Hf Hm Hv E. by apply (icache_run _ _ reg' b o (ext2_ok d0) s os r rs A' Hf Hm (ext2_callbacks d0 o Hs)). Qed.
End Ext2Inode.

(** ** An instance *)

Definition demo_i : inode := mk_inode DEV_NO 11 1 33188 2 7 8 0 5000 1 2 3 0 10 None None None.

Lemma demo_valid c n : 1 <= n <= 700 -> ext2_valid (B := gmap Z (list Z)) (inode_fs 5 c) n.
Proof.
  intros Hn. exists (5 + (n - 1) `div` 8), (128 * ((n - 1) `mod` 8)).
  assert (0 <= 5 + (n - 1) `div` 8 < 100) as Hb by lia. split; [|split; [lia|apply demo_block_ok; lia]].
  split; [lia|]. eexists. split.
  - change (get s_inodes_per_group (super (inode_fs 5 c))) with 1024. rewrite Z.div_small by lia. reflexivity.
  - change (get s_inodes_per_group (super (inode_fs 5 c))) with 1024. rewrite (Z.mod_small (n - 1)) by lia. split; reflexivity.
Qed.

Lemma ext2_write_read_inode_witness :
  exists c d2 i' d4, ext2_write_inode demo_i (inode_fs 5 c) = Some (0, d2) /\
    ext2_read_inode 1 2 3 (set_in_key DEV_NO 11 demo_inode) d2 = Some (i', d4) /\ disk_fields i' = disk_fields demo_i.
Proof.
  destruct demo_quiet as (c & Hq & _).
  destruct (ext2_write_read_inode 1 2 3 (inode_fs 5 c) (inode_fs 5 c) demo_i (set_in_key DEV_NO 11 demo_inode))
    as (_ & _ & d2 & _ & _ & i' & d4 & _ & E2 & E3 & E4 & _).
  - apply inode_std_fs.
  - exists 1%nat, c. done.
  - by apply demo_valid.
  - done.
  - unfold disk_ranges. cbn. lia.
  - by exists c, d2, i', d4.
Defined.

Definition ext2_demo_icache c : icache (D := ext2 (buffer_cache (gmap Z (list Z)))) :=
  mk_icache (inodes demo_icache) (ilinks demo_icache) (ipool demo_icache) (reg demo_icache) (inode_fs 5 c).

Lemma demo_first c : first_inodes (ext2_demo_icache c) = first_inodes demo_icache.
Proof. unfold first_inodes. by cbn [ext2_demo_icache ipool]. Qed.

Lemma ext2_demo_fresh c : quiet 2 c -> ifresh (ext2_ok (inode_fs 5 c)) (ext2_demo_icache c).
Proof.
  intros Hq. destruct demo_icache_fresh as [H1 H2 H3 H4 _]. split; [exact H1|exact H2|exact H3|exact H4|]. exists 1%nat, c. done.
Qed.

Lemma ext2_icache_refines_witness : exists c s0 s',
  create_inode_cache (ext2_sops 1 2 3) true (ext2_demo_icache c) = Some s0 /\
  run_iops (ext2_sops 1 2 3) demo_iops (with_reg demo_registry s0) = Some ([Some 102; Some 129; None; None; Some 102; None; Some 116], s').
Proof.
  destruct demo_quiet as (c & Hq & _). pose (os := demo_iops).
  destruct (spec_iops (Iget 16 :: os) (first_inodes demo_icache)) as [[rs A']|] eqn:E; [|vm_compute in E; done].
  assert (rs = Some 116 :: [Some 102; Some 129; None; None; Some 102; None; Some 116]) as ->.
  { assert (fst <$> spec_iops (Iget 16 :: os) (first_inodes demo_icache) = Some rs) as Er by (by rewrite E). vm_compute in Er. by injection Er. }
  assert (spec_iops (Iget 16 :: os) (first_inodes (ext2_demo_icache c)) = Some (Some 116 :: [Some 102; Some 129; None; None; Some 102; None; Some 116], A')) as E1
    by (rewrite demo_first; exact E).
  destruct (ext2_icache_refines 1 2 3 (inode_fs 5 c) demo_registry 5 9 (ext2_demo_icache c) os (Some 116) [Some 102; Some 129; None; None; Some 102; None; Some 116] A')
    as (s0 & s' & H1 & H2 & _); [apply inode_std_fs|by apply ext2_demo_fresh|apply demo_mounted| |exact E1|clear E E1; exists c, s0, s'; split; assumption].
  clear E E1. unfold os, demo_iops. repeat apply Forall_cons_2; try apply Forall_nil_2; cbn [valid_iop];
    first [exact I | split; [lia|apply demo_valid; lia]].
Defined.
