(* ===== verification/Ext2File.v ===== *)
(** * Reading and writing ext2 files (fs/ext2/ext2_file.c)

    A file operation gets the open file, the inode its entry points to
    ([d_inode_of], [Some None] for a null pointer) and the user's buffer as
    bytes.  The code finds the blocks of the file by casting the inode it
    holds, a [struct inode], to the [inode_t] of the disk; [inode_image] is
    what the cast reads, laid out over [mem], the 128 bytes of memory from the
    inode's address on (list pointers, padding, and what follows the inode).
    [None] is a fault, or fuel that has run out. *)

From S2P Require Import Mkfs.
From S2P Require Export Ext2Inode File Namei.

#[local] Ltac Zify.zify_post_hook ::= Z.to_euclidean_division_equations.

(** ** [struct inode] seen as [inode_t] *)

Definition vfs_inode : list member := [
  Member "i_hash" 4 2; Member "i_free" 4 2; Member "i_sb_list" 4 2; Member "i_dentry" 4 2;
  U16 "i_dev"; U32 "i_no"; U32 "i_count"; U16 "i_mode"; U32 "i_nlinks"; U16 "i_uid"; U16 "i_gid"; U32 "i_flags";
  U32 "i_size"; U32 "i_atime"; U32 "i_mtime"; U32 "i_ctime"; U32 "i_state"; U32 "i_blocks";
  U32 "i_op"; U32 "f_op"; U32 "i_sb" ].

(** The members with their values; a null pointer is 0. *)
Definition inode_members (i : inode) : list (string * Z) := [
  ("i_dev", in_dev i); ("i_no", in_no i); ("i_count", in_count i); ("i_mode", in_mode i); ("i_nlinks", in_nlinks i);
  ("i_uid", in_uid i); ("i_gid", in_gid i); ("i_flags", in_flags i); ("i_size", in_size i); ("i_atime", in_atime i);
  ("i_mtime", in_mtime i); ("i_ctime", in_ctime i); ("i_state", in_state i); ("i_blocks", in_blocks i);
  ("i_op", default 0 (in_op i)); ("f_op", default 0 (in_fop i)); ("i_sb", default 0 (in_sb i)) ]%string.

Definition inode_image (mem : list Z) (i : inode) : list Z :=
  puts ((fun '(n, v) => (the_field vfs_inode n, v)) <$> inode_members i) mem.

Section Ext2File.
Context {B : Type} `{!BlockDev B}.
Notation fsys := (ext2 (buffer_cache B)).
Variable ext2_file_operations : Z.
Implicit Types (i : inode) (d : fsys) (f : file).

Definition set_f_pos (p : Z) f := mk_file (f_dentry f) (f_fop f) (f_count f) (f_flags f) (f_mode f) p (f_uid f) (f_gid f).
Definition set_in_size (n : Z) i := mk_inode (in_dev i) (in_no i) (in_count i) (in_mode i) (in_nlinks i) (in_uid i) (in_gid i)
  (in_flags i) n (in_atime i) (in_mtime i) (in_ctime i) (in_state i) (in_blocks i) (in_op i) (in_fop i) (in_sb i).

Definition ext2_file_open (inode : option Z) (filp : option file) : Z * option file :=
  match inode, filp with
  | Some _, Some f => (0, Some (set_f_op (Some ext2_file_operations) f))
  | _, _ => (-1, filp)
  end.

Definition ext2_file_release (inode : option Z) (filp : option file) : Z * option file := (0, filp).

(** [loff_t] is unsigned long: -1 is returned as 2^32-1. *)
Definition ext2_llseek (d_inode_of : Z -> option (option inode)) (filp : option file) (offset whence : Z)
  : option (Z * option file) :=
  match filp with
  | None => Some (u32 (-1), filp)
  | Some f =>
      match f_dentry f with
      | None => Some (u32 (-1), filp)
      | Some e =>
          di ← d_inode_of e;
          match di with
          | None => Some (u32 (-1), filp)
          | Some i =>
              let seek new_pos :=
                if new_pos <? 0 then Some (u32 (-1), filp) else Some (new_pos, Some (set_f_pos new_pos f)) in
              if whence =? 0 then seek offset
              else if whence =? 1 then seek (u32 (f_pos f + offset))
              else if whence =? 2 then seek (u32 (in_size i + offset))
              else Some (u32 (-1), filp)
          end
      end
  end.

(** [while (read_bytes < count)]: position, bytes read, buffer and state. *)
Fixpoint read_loop (fuel : nat) i (img : list Z) (count : Z) (buf : list Z) (pos read_bytes : Z) d
  : option (Z * Z * list Z * fsys) :=
  match fuel with
  | O => None
  | S fuel =>
      if read_bytes <? count then
        let block_idx := pos `div` EXT2_BLK_SIZE in
        let block_offset := pos `mod` EXT2_BLK_SIZE in
        let bytes_to_read := EXT2_BLK_SIZE - block_offset in
        let bytes_to_read := if u32 (count - read_bytes) <? bytes_to_read then u32 (count - read_bytes) else bytes_to_read in
        '(block_num, d) ← indirect_block img block_idx d;
        if block_num =? 0 then Some (pos, read_bytes, buf, d)
        else
          '(o, c) ← bread 2 (in_dev i) block_num (dev d);
          let d := set_dev c d in
          match o with
          | None => Some (pos, read_bytes, buf, d)
          | Some b =>
              bh ← bufs c !! b;
              chunk ← load block_offset (Z.to_nat bytes_to_read) (b_data bh);
              buf ← store read_bytes chunk buf;
              d ← release b d;
              read_loop fuel i img count buf (u32 (pos + bytes_to_read)) (u32 (read_bytes + bytes_to_read)) d
          end
      else Some (pos, read_bytes, buf, d)
  end.

(** Result, buffer, [*ppos] and state.  A round reads at least one byte. *)
Definition ext2_file_read (d_inode_of : Z -> option (option inode)) (mem : list Z) (filp : option file)
  (buf : option (list Z)) (count : Z) (ppos : option Z) d : option (Z * option (list Z) * option Z * fsys) :=
  match filp, buf, ppos with
  | Some f, Some bytes, Some pos =>
      e ← f_dentry f;
      di ← d_inode_of e;
      match di with
      | None => Some (-1, buf, ppos, d)
      | Some i =>
          if in_size i <=? pos then Some (0, buf, ppos, d)
          else
            let count := if in_size i <? u32 (pos + count) then u32 (in_size i - pos) else count in
            '(pos, read_bytes, bytes, d) ← read_loop (S (Z.to_nat count)) i (inode_image mem i) count bytes pos 0 d;
            Some (s32 read_bytes, Some bytes, Some pos, d)
      end
  | _, _, _ => Some (-1, buf, ppos, d)
  end.

(** The buffer is marked dirty and written. *)
Definition dirty_write (b : Z) d : option fsys :=
  c ← upd_buf b (set_flag BH_dirty) (dev d); write_buf b (set_dev c d).

(** [while (written_bytes < count)].  A block reserved for a hole is not
    entered into the inode. *)
Fixpoint write_loop (fuel : nat) i (img : list Z) (count : Z) (buf : list Z) (pos written_bytes : Z) d
  : option (Z * Z * fsys) :=
  match fuel with
  | O => None
  | S fuel =>
      if written_bytes <? count then
        let block_idx := pos `div` EXT2_BLK_SIZE in
        let block_offset := pos `mod` EXT2_BLK_SIZE in
        let bytes_to_write := EXT2_BLK_SIZE - block_offset in
        let bytes_to_write :=
          if u32 (count - written_bytes) <? bytes_to_write then u32 (count - written_bytes) else bytes_to_write in
        '(block_num, d) ← indirect_block img block_idx d;
        '(r, d) ← (if block_num =? 0 then on_disk reserve_free_block d else Some (Some block_num, d));
        match r with
        | None => Some (pos, written_bytes, d)
        | Some block_num =>
            '(o, c) ← bread 2 (in_dev i) block_num (dev d);
            let d := set_dev c d in
            match o with
            | None => Some (pos, written_bytes, d)
            | Some b =>
                bh ← bufs c !! b;
                chunk ← load written_bytes (Z.to_nat bytes_to_write) buf;
                data ← store block_offset chunk (b_data bh);
                d ← fill_buf b data d;
                d ← dirty_write b d;
                write_loop fuel i img count buf (u32 (pos + bytes_to_write)) (u32 (written_bytes + bytes_to_write)) d
            end
        end
      else Some (pos, written_bytes, d)
  end.

(** Result, [*ppos], the inode with its new size, and state. *)
Definition ext2_file_write (d_inode_of : Z -> option (option inode)) (mem : list Z) (filp : option file)
  (buf : option (list Z)) (count : Z) (ppos : option Z) d : option (Z * option Z * option inode * fsys) :=
  match filp, buf, ppos with
  | Some f, Some bytes, Some pos =>
      e ← f_dentry f;
      di ← d_inode_of e;
      match di with
      | None => Some (-1, ppos, None, d)
      | Some i =>
          '(pos, written_bytes, d) ← write_loop (S (Z.to_nat count)) i (inode_image mem i) count bytes pos 0 d;
          Some (s32 written_bytes, Some pos, Some (if in_size i <? pos then set_in_size pos i else i), d)
      end
  | _, _, _ => Some (-1, ppos, None, d)
  end.

Definition init_file_entry f : file := set_f_pos 0 (set_f_count (u32 (f_count f + 1)) f).

(** The open files of the current process: [filp] and [first_free_filp]. *)
Record task_files := mk_task_files { filp : list (option Z); first_free_filp : Z }.

Definition NR_OPEN : Z := 30.

(** [nd] is what the stack held; [cache_made] and [objects] are the global
    file_cache of vfs.c, which is not file.c's.  The inner [None] is the result
    of a call that ends without a return statement; [zset] past the array is
    undefined. *)
Definition open_file (i_lookup : Z -> option (Z -> dcache -> option (option Z * dcache))) (cache_made : bool) (objects : list Z)
  (pathname : option (list Z)) (nd : nameidata) (component : list Z) (t : task_files) (s : fstate)
  : option (option Z * task_files * list Z * fstate) :=
  '(iRet, _, d) ← path_lookup i_lookup pathname 0 (Some nd) component (dc s);
  let s := set_dc d s in
  if iRet =? -1 then Some (Some iRet, t, objects, s)
  else if negb cache_made then None
  else
    match objects with
    | [] => Some (Some (-1), t, objects, s)
    | x :: rest =>
        let f := init_file_entry (mk_file None None 0 0 0 0 0 0) in
        l ← zset (filp t) (first_free_filp t) (Some x);
        Some (None, mk_task_files l (first_free_filp t + 1), rest,
              mk_fstate (tables s) (<[x := f]> (filps s)) (<[x := mk_list_head None None]> (flinks s)) (fpool s) (kpool s) (file_cache s) (dc s))
    end.
End Ext2File.

(** ** Slices *)

Lemma slice_lookup o n (l : list Z) k : slice o n l !! k = if decide (k < n)%nat then l !! (o + k)%nat else None.
Proof. unfold slice. case_decide; [rewrite lookup_take_lt by lia; by rewrite lookup_drop|by rewrite lookup_take_ge by lia]. Qed.

Lemma splice_lookup o (a l : list Z) k : (o + length a <= length l)%nat ->
  splice o a l !! k = if decide (o <= k < o + length a)%nat then a !! (k - o)%nat else l !! k.
Proof.
  intros H. unfold splice. destruct (decide (k < o)%nat) as [Hk|Hk].
  - rewrite decide_False by lia. rewrite lookup_app_l by (rewrite length_take; lia). by rewrite lookup_take_lt by lia.
  - rewrite lookup_app_r by (rewrite length_take; lia). rewrite length_take, Nat.min_l by lia. case_decide as Hd.
    + by rewrite lookup_app_l by lia.
    + rewrite lookup_app_r, lookup_drop by lia. f_equal. lia.
Qed.

Lemma slice_length o n (l : list Z) : (o + n <= length l)%nat -> length (slice o n l) = n.
Proof. intros H. unfold slice. rewrite length_take, length_drop. lia. Qed.

Lemma slice_slice o n p m (l : list Z) : (p + m <= n)%nat -> slice p m (slice o n l) = slice (o + p) m l.
Proof. intros H. apply list_eq. intros k. rewrite !slice_lookup. repeat case_decide; try lia; [|done]. f_equal. lia. Qed.

Lemma slice_app o n m (l : list Z) : (o + n <= length l)%nat -> slice o (n + m) l = slice o n l ++ slice (o + n) m l.
Proof.
  intros H. apply list_eq. intros k. rewrite slice_lookup. destruct (decide (k < n)%nat).
  - rewrite lookup_app_l by (rewrite slice_length; lia). rewrite slice_lookup. by rewrite !decide_True by lia.
  - rewrite lookup_app_r by (rewrite slice_length; lia). rewrite slice_length, slice_lookup by lia.
    repeat case_decide; try lia; [|done]. f_equal. lia.
Qed.

Lemma splice_splice o (a b l : list Z) : (o + length a + length b <= length l)%nat ->
  splice (o + length a) b (splice o a l) = splice o (a ++ b) l.
Proof.
  intros H. apply list_eq. intros k. rewrite !splice_lookup by (rewrite ?length_splice, ?length_app; lia).
  rewrite length_app. destruct (decide (o + length a <= k < o + length a + length b)%nat).
  - rewrite decide_True by lia. rewrite lookup_app_r by lia. f_equal. lia.
  - case_decide; [rewrite decide_True by lia; by rewrite lookup_app_l by lia|by rewrite decide_False by lia].
Qed.

Lemma splice_nil o (l : list Z) : splice o [] l = l.
Proof. unfold splice. cbn [length app]. rewrite Nat.add_0_r. apply take_drop. Qed.

Lemma slice_splice_inner o p m (a l : list Z) : (p + length a <= m)%nat -> (o + m <= length l)%nat ->
  slice o m (splice (o + p) a l) = splice p a (slice o m l).
Proof.
  intros H1 H2. apply list_eq. intros k. rewrite slice_lookup, !splice_lookup by (rewrite ?slice_length; lia).
  rewrite slice_lookup. repeat case_decide; try lia; [f_equal; lia|done..].
Qed.

Section Contents.
Context {B : Type} `{!BlockDev B}.
Notation fsys := (ext2 (buffer_cache B)).
Implicit Types (i : inode) (d : fsys) (L : list Z).

(** [L] is what the first [n] blocks hold that [img] points to. *)
Record contents d (img : list Z) (n : nat) L : Prop := {
  ct_len : length L = (1024 * n)%nat;
  ct_direct : (n <= 12)%nat;
  ct_block k : (k < n)%nat -> let blk := get (i_block (Z.of_nat k)) img in
    0 < blk /\ bd_ok blk /\ holds (dev d) blk (slice (1024 * k) 1024 L)
}.

Definition own_blocks (img : list Z) (n : nat) : Prop :=
  forall j k, (j < k < n)%nat -> get (i_block (Z.of_nat j)) img ≠ get (i_block (Z.of_nat k)) img.

Lemma contents_view c d img n L : same_view (dev d) c -> contents d img n L -> contents (set_dev c d) img n L.
Proof.
  intros Hv [H1 H2 H3]. split; [done..|]. intros k Hk. destruct (H3 k Hk) as (? & ? & ?). split_and!; [done..|by apply Hv].
Qed.

(** The blocks [img] does not point to stay as they are. *)
Definition rest_kept (c c' : buffer_cache B) (img : list Z) (n : nat) : Prop :=
  forall m x, bd_ok m -> (forall j, (j < n)%nat -> m ≠ get (i_block (Z.of_nat j)) img) -> holds c m x -> holds c' m x.

(** The bytes a round moves. *)
Lemma round_bytes pos r :
  0 <= pos < 2 ^ 32 -> 0 < r < 2 ^ 32 ->
  let m := if u32 r <? EXT2_BLK_SIZE - pos `mod` EXT2_BLK_SIZE then u32 r else EXT2_BLK_SIZE - pos `mod` EXT2_BLK_SIZE in
  0 < m <= r /\ pos `mod` 1024 + m <= 1024.
Proof. intros Hp Hr. cbv zeta. rewrite u32_small by lia. unfold EXT2_BLK_SIZE. destruct (Z.ltb_spec r (1024 - pos `mod` 1024)); lia. Qed.

(** A block of the file, read. *)
Lemma read_round k d i img n L pos m :
  contents d img n L -> quiet (S k) (dev d) -> in_dev i = DEV_NO -> 0 <= pos -> 0 < m -> pos `mod` 1024 + m <= 1024 ->
  pos + m <= 1024 * Z.of_nat n ->
  exists blk b c bh c', indirect_block img (pos `div` EXT2_BLK_SIZE) d = Some (blk, d) /\ blk ≠ 0 /\
    bread 2 (in_dev i) blk (dev d) = Some (Some b, c) /\ taken k b blk (b_data bh) c /\ same_view (dev d) c /\ bufs c !! b = Some bh /\
    b_data bh = slice (1024 * Z.to_nat (pos `div` 1024)) 1024 L /\
    load (pos `mod` EXT2_BLK_SIZE) (Z.to_nat m) (b_data bh) = Some (slice (Z.to_nat pos) (Z.to_nat m) L) /\
    release b (set_dev c d) = Some (set_dev c' d) /\ quiet (S k) c' /\ same_view (dev d) c'.
Proof.
  intros [Hl Hd Hb] Hq Hdev Hp Hm Hoff Hend. change EXT2_BLK_SIZE with 1024.
  assert (pos `div` 1024 < Z.of_nat n) as Hn by lia.
  destruct (Hb (Z.to_nat (pos `div` 1024)) ltac:(lia)) as (Hpos & Hok & Hh). rewrite Z2Nat.id in Hpos, Hok, Hh by lia.
  set (blk := get (i_block (pos `div` 1024)) img) in *.
  destruct (bread_quiet k (dev d) blk _ Hq ltac:(lia) Hok Hh) as (b & c & E & Ht & Hv).
  pose proof Ht as (fs & hs & bh & _ & _ & _ & _ & _ & Eb & _ & Hbd & _).
  destruct (release_spec k b blk _ (set_dev c d) Ht) as (c' & Er & Hq' & Hv').
  exists blk, b, c, bh, c'. rewrite Hdev, Hbd. split_and!; try done; [|lia| |by eapply same_view_trans].
  - unfold indirect_block. by rewrite (proj2 (Z.ltb_lt _ _)) by lia.
  - rewrite load_ok by (rewrite ?slice_length; lia). f_equal. rewrite slice_slice by lia. f_equal. lia.
Qed.

Lemma read_loop_spec k n fuel : forall d i img L count buf pos rb,
  contents d img n L -> quiet (S k) (dev d) -> in_dev i = DEV_NO ->
  0 <= pos -> 0 <= rb <= count -> count < 2 ^ 32 -> pos + (count - rb) <= 1024 * Z.of_nat n ->
  count <= Z.of_nat (length buf) -> count - rb < Z.of_nat fuel ->
  exists c, read_loop fuel i img count buf pos rb d =
      Some (pos + (count - rb), count, splice (Z.to_nat rb) (slice (Z.to_nat pos) (Z.to_nat (count - rb)) L) buf, set_dev c d) /\
    quiet (S k) c /\ same_view (dev d) c.
Proof.
  induction fuel as [|fuel IH]; intros d i img L count buf pos rb Hc Hq Hdev Hp Hrb Hcount Hend Hbuf Hf; [lia|]. cbn [read_loop].
  destruct (Z.ltb_spec rb count) as [Hlt|Hge].
  2: { assert (count = rb) as -> by lia. exists (dev d). rewrite Z.sub_diag, Z.add_0_r. unfold slice at 1. cbn [take]. rewrite splice_nil.
       split; [by destruct d|split; [done|by intros m x]]. }
  pose proof (ct_direct _ _ _ _ Hc) as Hn. pose proof (round_bytes pos (count - rb) ltac:(lia) ltac:(lia)) as Hr. cbv zeta in Hr |- *.
  set (m := if u32 (count - rb) <? _ then _ else _) in *. destruct Hr as [Hm Hmo].
  destruct (read_round k d i img n L pos m Hc Hq Hdev) as (blk & b & c & bh & c' & E1 & Hz & E2 & _ & _ & Eb & _ & E3 & E4 & Hq' & Hv'); [lia..|].
  rewrite E1. cbn [mbind option_bind]. rewrite (proj2 (Z.eqb_neq _ _)) by done. rewrite E2. cbn [mbind option_bind]. rewrite Eb. cbn [mbind option_bind].
  rewrite E3. cbn [mbind option_bind]. pose proof (ct_len _ _ _ _ Hc) as Hlen.
  assert (length (slice (Z.to_nat pos) (Z.to_nat m) L) = Z.to_nat m) as Hsl by (apply slice_length; lia).
  rewrite store_ok by lia. cbn [mbind option_bind]. rewrite E4. cbn [mbind option_bind]. rewrite !u32_small by lia.
  destruct (IH (set_dev c' d) i img L count (splice (Z.to_nat rb) (slice (Z.to_nat pos) (Z.to_nat m) L) buf) (pos + m) (rb + m))
    as (c2 & -> & Hq2 & Hv2); [by apply contents_view|done|done|lia..|rewrite length_splice; lia|lia|].
  exists c2. rewrite set_dev_set_dev. split; [|split; [done|by eapply same_view_trans]].
  do 2 f_equal. f_equal; [f_equal; lia|]. replace (Z.to_nat (rb + m)) with (Z.to_nat rb + length (slice (Z.to_nat pos) (Z.to_nat m) L))%nat by lia.
  rewrite splice_splice by (rewrite Hsl, slice_length; lia). f_equal.
  replace (Z.to_nat (pos + m)) with (Z.to_nat pos + Z.to_nat m)%nat by lia. rewrite <- slice_app by lia. f_equal. lia.
Qed.

(** bwrite clears the mark. *)
Lemma bwrite_dirty b c c' : upd_buf b (set_flag BH_dirty) c = Some c' -> bwrite b c' = bwrite b c.
Proof.
  destruct (bufs c !! b) as [bh|] eqn:Eb; [|unfold upd_buf; by rewrite Eb]. rewrite (upd_buf_some b _ _ bh Eb). intros [= <-].
  unfold bwrite, locked_buffer, unlocked_buffer. rewrite (upd_buf_some b _ c bh Eb).
  rewrite (upd_buf_some b _ _ (set_flag BH_dirty bh)) by (cbn [bufs]; apply lookup_insert_eq). cbn [mbind option_bind bufs links disk].
  rewrite !lookup_insert_eq. cbn [mbind option_bind set_flag set_bflags b_blocknr b_data].
  destruct (bd_write (b_blocknr bh) (b_data bh) (disk c)) as [d|]; [|done]. cbn [mbind option_bind].
  rewrite !(upd_buf_some b (clear_flag BH_dirty) _ _ (lookup_insert_eq _ _ _)). cbn [mbind option_bind bufs links disk].
  rewrite !insert_insert_eq. 
  assert (clear_flag BH_dirty (set_flag BH_lock (set_flag BH_dirty bh)) = clear_flag BH_dirty (set_flag BH_lock bh)) as ->; [|done].
  unfold clear_flag, set_flag, set_bflags. cbn [flags b_count b_data b_dev b_blocknr]. f_equal.
  rewrite !Z.land_lor_distr_l. change (Z.land BH_dirty (Z.lnot BH_dirty)) with 0. by rewrite Z.lor_0_r.
Qed.

(** A block of the file, written; the other blocks stay. *)
Lemma write_round k d i img n L pos m buf w :
  contents d img n L -> own_blocks img n -> quiet (S k) (dev d) -> in_dev i = DEV_NO -> 0 <= pos -> 0 < m -> pos `mod` 1024 + m <= 1024 ->
  pos + m <= 1024 * Z.of_nat n -> 0 <= w -> w + m <= Z.of_nat (length buf) ->
  exists blk b c bh chunk data d1 c', indirect_block img (pos `div` EXT2_BLK_SIZE) d = Some (blk, d) /\ blk ≠ 0 /\
    bread 2 (in_dev i) blk (dev d) = Some (Some b, c) /\ bufs c !! b = Some bh /\
    load w (Z.to_nat m) buf = Some chunk /\ store (pos `mod` EXT2_BLK_SIZE) chunk (b_data bh) = Some data /\
    fill_buf b data (set_dev c d) = Some d1 /\ dirty_write b d1 = Some (set_dev c' d) /\ quiet (S k) c' /\
    contents (set_dev c' d) img n (splice (Z.to_nat pos) (slice (Z.to_nat w) (Z.to_nat m) buf) L) /\ rest_kept (dev d) c' img n.
Proof.
  intros Hc Hown Hq Hdev Hp Hm Hoff Hend Hw Hbuf.
  destruct (read_round k d i img n L pos m Hc Hq Hdev Hp Hm Hoff Hend) as (blk & b & c & bh & _ & E1 & Hz & E2 & Ht & Hv & Eb & Hbd & _).
  pose proof (contents_view c d img n L Hv Hc) as Hcc. destruct Hc as [Hl Hd _].
  assert (pos `div` 1024 < Z.of_nat n) as Hn by lia.
  assert (1024 * Z.to_nat (pos `div` 1024) + 1024 <= length L)%nat as Hin by (clear - Hn Hl Hp; lia).
  assert (length (b_data bh) = 1024%nat) as Hbl by (by rewrite Hbd, slice_length).
  set (chunk := slice (Z.to_nat w) (Z.to_nat m) buf). assert (length chunk = Z.to_nat m) as Hcl by (apply slice_length; lia).
  set (data := splice (Z.to_nat (pos `mod` 1024)) chunk (b_data bh)).
  assert (length data = 1024%nat) as Hdl by (unfold data; rewrite length_splice; [exact Hbl|rewrite Hcl, Hbl; lia]).
  destruct (write_back_spec k b blk (b_data bh) data (set_dev c d) Ht Hdl) as (c' & E & Hq' & Hh & Hf).
  unfold fill_buf in E. change (dev (set_dev c d)) with c in E, Hf. rewrite (upd_buf_some b _ _ bh Eb) in E. cbn [mbind option_bind] in E.
  unfold write_buf in E. change (dev (set_dev ?x ?y)) with x in E.
  change EXT2_BLK_SIZE with 1024 in E1 |- *.
  assert (blk = get (i_block (pos `div` 1024)) img) as Hblk.
  { unfold indirect_block in E1. rewrite (proj2 (Z.ltb_lt _ _)) in E1 by lia. by injection E1. }
  set (q := Z.to_nat (pos `div` 1024)). fold q in Hbd.
  assert (Z.to_nat pos = 1024 * q + Z.to_nat (pos `mod` 1024))%nat as Hpq by lia.
  exists blk, b, c, bh, chunk, data. eexists _, c'. rewrite load_ok by lia. rewrite store_ok by lia. unfold fill_buf.
  change (dev (set_dev c d)) with c. rewrite (upd_buf_some b _ _ bh Eb). cbn [mbind option_bind]. split_and!; try done.
  { unfold dirty_write. change (dev (set_dev ?x ?y)) with x. set (c1 := mk_cache _ _ _ _) in *.
    assert (bufs c1 !! b = Some (set_data data bh)) as E3 by apply lookup_insert_eq. rewrite (upd_buf_some b _ _ _ E3). cbn [mbind option_bind].
    unfold write_buf. change (dev (set_dev ?x ?y)) with x. rewrite (bwrite_dirty b c1 _ (upd_buf_some b _ _ _ E3)). exact E. }
  2: { intros x y Hx Hne Hy. apply Hf; [done| |by apply Hv]. rewrite Hblk. replace (pos `div` 1024) with (Z.of_nat q) by lia. apply Hne. lia. }
  split; [rewrite length_splice; lia|done|]. intros j Hj. destruct (ct_block _ _ _ _ Hcc j Hj) as (Hb1 & Hb2 & Hb3). split_and!; [done..|].
  rewrite Hpq. destruct (decide (j = q)) as [->|Hjq].
  - rewrite slice_splice_inner by lia. rewrite <- Hbd. unfold q. rewrite Z2Nat.id by lia. by rewrite <- Hblk.
  - rewrite slice_splice_ne by lia. apply Hf; [done| |done]. rewrite Hblk. replace (pos `div` 1024) with (Z.of_nat q) by lia.
    assert (j < q \/ q < j)%nat as [?|?] by lia; [|apply not_eq_sym]; apply Hown; lia.
Qed.

Lemma write_loop_spec k n fuel : forall d i img L count buf pos w,
  contents d img n L -> own_blocks img n -> quiet (S k) (dev d) -> in_dev i = DEV_NO ->
  0 <= pos -> 0 <= w <= count -> count < 2 ^ 32 -> pos + (count - w) <= 1024 * Z.of_nat n ->
  count <= Z.of_nat (length buf) -> count - w < Z.of_nat fuel ->
  exists c, write_loop fuel i img count buf pos w d = Some (pos + (count - w), count, set_dev c d) /\ quiet (S k) c /\
    contents (set_dev c d) img n (splice (Z.to_nat pos) (slice (Z.to_nat w) (Z.to_nat (count - w)) buf) L) /\ rest_kept (dev d) c img n.
Proof.
  induction fuel as [|fuel IH]; intros d i img L count buf pos w Hc Hown Hq Hdev Hp Hw Hcount Hend Hbuf Hf; [lia|]. cbn [write_loop].
  destruct (Z.ltb_spec w count) as [Hlt|Hge].
  2: { assert (count = w) as -> by lia. exists (dev d). rewrite Z.sub_diag, Z.add_0_r. unfold slice. cbn [take]. rewrite splice_nil.
       destruct d. split_and!; try done. by intros ? ?. }
  pose proof (ct_direct _ _ _ _ Hc) as Hn. pose proof (round_bytes pos (count - w) ltac:(lia) ltac:(lia)) as Hr. cbv zeta in Hr |- *.
  set (m := if u32 (count - w) <? _ then _ else _) in *. destruct Hr as [Hm Hmo].
  destruct (write_round k d i img n L pos m buf w Hc Hown Hq Hdev)
    as (blk & b & c & bh & chunk & data & d1 & c' & E1 & Hz & E2 & Eb & E3 & E4 & E5 & E6 & Hq' & Hc' & Hr'); [lia..|].
  rewrite E1. cbn [mbind option_bind]. rewrite (proj2 (Z.eqb_neq _ _)) by done. cbn [mbind option_bind]. rewrite E2. cbn [mbind option_bind].
  rewrite Eb. cbn [mbind option_bind]. rewrite E3. cbn [mbind option_bind]. rewrite E4. cbn [mbind option_bind].
  rewrite E5. cbn [mbind option_bind]. rewrite E6. cbn [mbind option_bind]. rewrite !u32_small by lia.
  destruct (IH (set_dev c' d) i img _ count buf (pos + m) (w + m) Hc' Hown Hq' Hdev) as (c2 & -> & Hq2 & Hc2 & Hr2); [lia..|].
  exists c2. rewrite set_dev_set_dev in Hc2 |- *. split; [do 3 f_equal; lia|]. split; [done|].
  split; [|intros x y Hx Hne Hy; by apply Hr2, Hr']. revert Hc2.
  pose proof (ct_len _ _ _ _ Hc) as Hlen.
  assert (length (slice (Z.to_nat w) (Z.to_nat m) buf) = Z.to_nat m) as Hsl by (apply slice_length; lia).
  replace (Z.to_nat (pos + m)) with (Z.to_nat pos + length (slice (Z.to_nat w) (Z.to_nat m) buf))%nat by lia.
  rewrite splice_splice by (rewrite Hsl, slice_length; lia). replace (Z.to_nat (w + m)) with (Z.to_nat w + Z.to_nat m)%nat by lia.
  rewrite <- slice_app by lia. by replace (Z.to_nat m + Z.to_nat (count - (w + m)))%nat with (Z.to_nat (count - w)) by lia.
Qed.

Section Claims.
Variables (d_inode_of : Z -> option (option inode)) (f : file) (e : Z) (i : inode).
Hypothesis f_entry : f_dentry f = Some e.
Hypothesis e_inode : d_inode_of e = Some (Some i).
Hypothesis i_device : in_dev i = DEV_NO.

Lemma file_read_spec k d mem n L buf count pos :
  contents d (inode_image mem i) n L -> quiet (S k) (dev d) ->
  0 <= pos < in_size i -> in_size i <= 1024 * Z.of_nat n -> 0 <= count -> pos + count < 2 ^ 32 ->
  let r := Z.min count (in_size i - pos) in r <= Z.of_nat (length buf) ->
  exists c, ext2_file_read d_inode_of mem (Some f) (Some buf) count (Some pos) d =
      Some (r, Some (splice 0 (slice (Z.to_nat pos) (Z.to_nat r) L) buf), Some (pos + r), set_dev c d) /\
    quiet (S k) c /\ same_view (dev d) c.
Proof.
  intros Hc Hq Hp Hs Hn Ho r Hr. pose proof (ct_direct _ _ _ _ Hc) as Hd. unfold ext2_file_read. rewrite f_entry. cbn [mbind option_bind].
  rewrite e_inode. cbn [mbind option_bind]. rewrite (proj2 (Z.leb_gt _ _)) by lia. rewrite (u32_small (pos + count)) by lia.
  assert ((if in_size i <? pos + count then u32 (in_size i - pos) else count) = r) as ->.
  { unfold r. destruct (Z.ltb_spec (in_size i) (pos + count)); [rewrite u32_small by lia|]; lia. }
  destruct (read_loop_spec k n (S (Z.to_nat r)) d i (inode_image mem i) L r buf pos 0) as (c & -> & Hq' & Hv); [done..|lia|lia|lia|lia|done|lia|].
  exists c. cbn [mbind option_bind]. rewrite Z.sub_0_r. by rewrite s32_small by lia.
Qed.

Lemma file_write_spec k d mem n L buf count pos :
  contents d (inode_image mem i) n L -> own_blocks (inode_image mem i) n -> quiet (S k) (dev d) ->
  0 <= pos -> 0 <= count -> pos + count <= 1024 * Z.of_nat n -> count <= Z.of_nat (length buf) ->
  exists c, ext2_file_write d_inode_of mem (Some f) (Some buf) count (Some pos) d =
      Some (count, Some (pos + count), Some (if in_size i <? pos + count then set_in_size (pos + count) i else i), set_dev c d) /\
    quiet (S k) c /\ contents (set_dev c d) (inode_image mem i) n (splice (Z.to_nat pos) (take (Z.to_nat count) buf) L) /\
    rest_kept (dev d) c (inode_image mem i) n.
Proof.
  intros Hc Hown Hq Hp Hn Ho Hb. pose proof (ct_direct _ _ _ _ Hc) as Hd. unfold ext2_file_write. rewrite f_entry. cbn [mbind option_bind].
  rewrite e_inode. cbn [mbind option_bind].
  destruct (write_loop_spec k n (S (Z.to_nat count)) d i (inode_image mem i) L count buf pos 0) as (c & -> & Hq' & Hv & Hk); [done..|lia|lia|lia|lia|done|lia|].
  exists c. cbn [mbind option_bind]. rewrite Z.sub_0_r in Hv |- *. rewrite s32_small by lia. by split_and!.
Qed.
End Claims.
End Contents.

(** ** The image of the inode in memory *)

Lemma image_disjoint i : disjoint_fields 128 ((fun '(n, v) => (the_field vfs_inode n, v)) <$> inode_members i).
Proof.
  cbn [fmap list_fmap inode_members disjoint_fields]. 
  repeat first [split | apply Forall_cons_2 | apply Forall_nil_2]; unfold inside, apart; vm_compute; lia.
Qed.

Lemma image_block0 mem i : length mem = 128%nat -> 0 <= in_count i < 2 ^ 32 -> get (i_block 0) (inode_image mem i) = in_count i.
Proof.
  intros Hm Hc. unfold inode_image. rewrite (get_puts (i_block 0) (in_count i)).
  - by apply Z.mod_small.
  - rewrite Hm. apply image_disjoint.
  - apply list_elem_of_In. vm_compute. tauto.
Qed.

Lemma image_length mem i : length mem = 128%nat -> length (inode_image mem i) = 128%nat.
Proof. intros Hm. unfold inode_image. rewrite puts_length; [done|]. rewrite Hm. apply image_disjoint. Qed.

(** ** Main theorems *)

Section Main.
Context {B : Type} `{!BlockDev B}.
Implicit Types (d : ext2 (buffer_cache B)) (L buf mem : list Z).

(** An open file whose entry has the inode [i] of the mounted device. *)
Definition open_on (d_inode_of : Z -> option (option inode)) (f : file) (i : inode) : Prop :=
  (exists e, f_dentry f = Some e /\ d_inode_of e = Some (Some i)) /\ in_dev i = DEV_NO.

(** C33: ext2_file_read at a position inside the file fills the buffer with the
    bytes of the file from there on, as many as asked for and not beyond the
    size, advances the position by that number and returns it; the blocks of
    the volume stay as they are.  [L] are the bytes of the blocks the code
    takes for the file's. *)
Theorem ext2_file_read_correct k d di f i mem n L buf count pos :
  open_on di f i -> contents d (inode_image mem i) n L -> quiet (S k) (dev d) ->
  0 <= pos < in_size i -> in_size i <= 1024 * Z.of_nat n -> 0 <= count -> pos + count < 2 ^ 32 ->
  Z.min count (in_size i - pos) <= Z.of_nat (length buf) ->
  exists c, let r := Z.min count (in_size i - pos) in
    ext2_file_read di mem (Some f) (Some buf) count (Some pos) d =
      Some (r, Some (splice 0 (slice (Z.to_nat pos) (Z.to_nat r) L) buf), Some (pos + r), set_dev c d) /\
    quiet (S k) c /\ same_view (dev d) c.
Proof. intros [(e & Hf & He) Hdev] Hc Hq Hp Hs Hn Ho Hr. by apply (file_read_spec di f e i Hf He Hdev k d mem n L). Qed.

(** What ext2_file_write stores in the blocks the cast points to,
    ext2_file_read gives back: when those are different blocks the write
    returns the number of bytes, their bytes are the old ones with those
    replaced, the size stays, and a read of that range returns the bytes
    written.  These blocks are not the file's (see below). *)
Theorem ext2_file_write_read k d di f i mem n L buf pos (dst : list Z) :
  open_on di f i -> contents d (inode_image mem i) n L -> own_blocks (inode_image mem i) n -> quiet (S k) (dev d) ->
  let count := Z.of_nat (length buf) in
  0 <= pos -> 0 < count -> pos + count <= in_size i -> in_size i <= 1024 * Z.of_nat n -> length dst = length buf ->
  exists c c', ext2_file_write di mem (Some f) (Some buf) count (Some pos) d = Some (count, Some (pos + count), Some i, set_dev c d) /\
    contents (set_dev c d) (inode_image mem i) n (splice (Z.to_nat pos) buf L) /\
    ext2_file_read di mem (Some f) (Some dst) count (Some pos) (set_dev c d) = Some (count, Some buf, Some (pos + count), set_dev c' d).
Proof.
  intros [(e & Hf & He) Hdev] Hc Hown Hq count Hp Hn Hs Hsn Hdst. pose proof (ct_direct _ _ _ _ Hc) as Hd. pose proof (ct_len _ _ _ _ Hc) as Hl.
  destruct (file_write_spec di f e i Hf He Hdev k d mem n L buf count pos Hc Hown Hq) as (c & E & Hq1 & Hc1 & _); [lia..|].
  rewrite (proj2 (Z.ltb_ge _ _)) in E by lia. unfold count in Hc1. rewrite Nat2Z.id, firstn_all in Hc1.
  destruct (file_read_spec di f e i Hf He Hdev k (set_dev c d) mem n _ dst count pos Hc1 Hq1) as (c' & E' & _); [lia..|].
  exists c, c'. split; [exact E|]. split; [exact Hc1|]. rewrite E'. replace (Z.min count (in_size i - pos)) with count by lia.
  rewrite set_dev_set_dev. unfold count. rewrite Nat2Z.id, slice_splice_eq by lia. do 4 f_equal. unfold splice. cbn [take app].
  rewrite drop_ge, app_nil_r by lia. done.
Qed.

(** C34: writing to a file overwrites the block of the volume whose number is
    the file's reference count.  ext2_file_write finds a block by casting the
    inode in memory to the inode of the disk, and the reference count lies
    where that has its first block pointer.  A write within the first 1024
    bytes reports success and the new position, and grows the size if it ends
    beyond it; on the volume it changes the block with that number, at the
    position written to, and no other.  For an inode held once that is block
    1, the superblock's. *)
Theorem ext2_file_write_block0 k d di f i mem buf pos data :
  open_on di f i -> length mem = 128%nat -> 0 < in_count i < 2 ^ 32 -> bd_ok (in_count i) -> quiet (S k) (dev d) ->
  holds (dev d) (in_count i) data -> let count := Z.of_nat (length buf) in 0 <= pos -> pos + count <= 1024 ->
  exists c, ext2_file_write di mem (Some f) (Some buf) count (Some pos) d =
      Some (count, Some (pos + count), Some (if in_size i <? pos + count then set_in_size (pos + count) i else i), set_dev c d) /\
    holds c (in_count i) (splice (Z.to_nat pos) buf data) /\
    forall m x, bd_ok m -> m ≠ in_count i -> holds (dev d) m x -> holds c m x.
Proof.
  intros [(e & Hf & He) Hdev] Hm Hi Hok Hq Hh count Hp Hb. pose proof (holds_length _ _ _ _ Hq Hok Hh) as Hl.
  assert (slice 0 1024 data = data) as Hsl by (unfold slice; rewrite drop_0; apply take_ge; lia).
  assert (contents d (inode_image mem i) 1 data) as Hc.
  { split; [lia|lia|]. intros j Hj. assert (j = 0%nat) as -> by lia. cbv zeta. change (Z.of_nat 0) with 0.
    rewrite image_block0 by lia. rewrite Nat.mul_0_r, Hsl. split_and!; [lia|done|done]. }
  destruct (file_write_spec di f e i Hf He Hdev k d mem 1 data buf count pos Hc) as (c & E & Hq1 & Hc1 & Hk); [intros ? ? ?; lia|done|lia..|].
  exists c. split; [exact E|]. destruct (ct_block _ _ _ _ Hc1 0%nat ltac:(lia)) as (_ & _ & H0). change (Z.of_nat 0) with 0 in H0.
  rewrite image_block0 in H0 by lia. unfold count in H0. rewrite Nat2Z.id, firstn_all in H0.
  unfold slice in H0. rewrite Nat.mul_0_r, drop_0, take_ge in H0 by (rewrite length_splice; lia). split; [exact H0|].
  intros m x Hx Hne. apply Hk; [done|]. intros j Hj. assert (j = 0%nat) as -> by lia. change (Z.of_nat 0) with 0. by rewrite image_block0 by lia.
Qed.
End Main.

(** ** An instance: a file held once, on a volume whose block 1 is zero *)

Definition demo_file : file := mk_file (Some 40) None 1 0 0 0 0 0.
Definition demo_open (e : Z) : option (option inode) := if e =? 40 then Some (Some demo_i) else None.

Lemma demo_open_on : open_on demo_open demo_file demo_i.
Proof. split; [|done]. exists 40. done. Qed.

(** [demo_i] with a size of one block. *)
Definition small_i : inode := set_in_size 1000 demo_i.
Definition small_open (e : Z) : option (option inode) := if e =? 40 then Some (Some small_i) else None.

Lemma small_open_on : open_on small_open demo_file small_i.
Proof. split; [|done]. exists 40. done. Qed.

Lemma small_contents : exists c, quiet 2 c /\ holds c 1 (replicate 1024 0) /\
  contents (inode_fs 5 c) (inode_image (replicate 128 0) small_i) 1 (replicate 1024 0).
Proof.
  destruct demo_quiet as (c & Hq & Hd & Hu). exists c. split; [done|].
  assert (holds c 1 (replicate 1024 0)) as H1.
  { right. split; [intros b bh Eb _; by eapply Hu|]. rewrite Hd. by vm_compute. }
  split; [done|]. split; [apply length_replicate|lia|]. intros j Hj. assert (j = 0%nat) as -> by lia. cbv zeta.
  change (Z.of_nat 0) with 0. rewrite image_block0 by first [apply length_replicate|cbn; lia].
  split_and!; [by cbn|by apply demo_block_ok|]. change (slice (1024 * 0) 1024 (replicate 1024 0)) with (replicate 1024 0). exact H1.
Qed.

Lemma ext2_file_read_correct_witness : exists c c',
  ext2_file_read small_open (replicate 128 0) (Some demo_file) (Some [9; 9; 9; 9]) 4 (Some 998) (inode_fs 5 c) =
    Some (2, Some [0; 0; 9; 9], Some 1000, inode_fs 5 c').
Proof.
  destruct small_contents as (c & Hq & _ & Hc). exists c.
  destruct (ext2_file_read_correct 1 (inode_fs 5 c) small_open demo_file small_i (replicate 128 0) 1 (replicate 1024 0) [9; 9; 9; 9] 4 998)
    as (c' & E & _); [apply small_open_on|exact Hc|exact Hq|cbn; lia..|]. exists c'. exact E.
Defined.

Lemma ext2_file_write_read_witness : exists c c1 c2,
  ext2_file_write small_open (replicate 128 0) (Some demo_file) (Some [72; 105]) 2 (Some 998) (inode_fs 5 c) =
    Some (2, Some 1000, Some small_i, inode_fs 5 c1) /\
  ext2_file_read small_open (replicate 128 0) (Some demo_file) (Some [9; 9]) 2 (Some 998) (inode_fs 5 c1) =
    Some (2, Some [72; 105], Some 1000, inode_fs 5 c2).
Proof.
  destruct small_contents as (c & Hq & _ & Hc). exists c.
  destruct (ext2_file_write_read 1 (inode_fs 5 c) small_open demo_file small_i (replicate 128 0) 1 (replicate 1024 0) [72; 105] 998 [9; 9])
    as (c1 & c2 & E1 & _ & E2); [apply small_open_on|exact Hc|intros ? ? ?; lia|exact Hq|cbn; lia..|done|].
  exists c1, c2. split; [exact E1|exact E2].
Defined.

Lemma ext2_file_write_block0_witness : exists c c1,
  ext2_file_write demo_open (replicate 128 0) (Some demo_file) (Some [72; 105]) 2 (Some 0) (inode_fs 5 c) =
    Some (2, Some 2, Some demo_i, inode_fs 5 c1) /\ holds c1 1 (72 :: 105 :: replicate 1022 0).
Proof.
  destruct small_contents as (c & Hq & H1 & _). exists c.
  destruct (ext2_file_write_block0 1 (inode_fs 5 c) demo_open demo_file demo_i (replicate 128 0) [72; 105] 0 (replicate 1024 0))
    as (c1 & E & H & _); [apply demo_open_on|apply length_replicate|cbn; lia|by apply demo_block_ok|exact Hq|exact H1|lia|cbn; lia|].
  exists c1. split; [exact E|exact H].
Defined.
