(* ===== verification/Ext2Dir.v ===== *)
(** * Directory operations of ext2 (fs/ext2/ext2_dir.c)

    They work on the inode cache (whose file-system state is the ext2 volume)
    and the entry cache at once; inodes and entries are given by address, null
    pointers are [None].  As in Ext2File the directory's [struct inode] is cast
    to the disk's [inode_t]: [mem] is the memory it is read from.  [alloc] and
    [free] are kmalloc and kfree as in Dir; stack memory that is not
    initialised is an argument.  The inode's [i_dentry] list is the entry
    cache's. *)

From S2P Require Import Mkfs.
From S2P Require Export Ext2File.

#[local] Ltac Zify.zify_post_hook ::= Z.to_euclidean_division_equations.

Definition EXT2_S_IFREG : Z := 0x8000.
Definition EXT2_FT_REG_FILE : Z := 1.
Definition EXT2_FT_DIR : Z := 2.

(** The entries of a block from the [j]th on; a name may run into the next
    entry.  The first with the name and an inode number. *)
Fixpoint find_entry (n : nat) (j : Z) (blk name : list Z) : option (option Z) :=
  match n with
  | O => Some None
  | S n =>
      ino ← load (j * DENTRY_SIZE) 4 blk;
      if le_val ino =? 0 then find_entry n (j + 1) blk name
      else
        r ← strcmp (drop (Z.to_nat (j * DENTRY_SIZE + 8)) blk) name;
        if r =? 0 then Some (Some (le_val ino)) else find_entry n (j + 1) blk name
  end.

(** The entry for a new file: [strncpy] fills 63 bytes of the name. *)
Definition make_dentry (stale : list Z) (ino file_type : Z) (d_name : list Z) : option (list Z) :=
  let d := put Dir.d_inode ino stale in
  let d := put d_rec_len DENTRY_SIZE d in
  len ← strlen d_name;
  let d := put d_name_len len d in
  let d := put d_file_type file_type d in
  nm ← strncpy (slice 8 64 d) d_name 63;
  Some (splice 8 nm d).

Section Ext2Dir.
Context {B : Type} `{!BlockDev B}.
Notation fsys := (ext2 (buffer_cache B)).
Variables dir_ops file_ops file_fops : Z.
Variables (alloc : bool) (free : Z -> fsys -> option fsys).

Record vstate := mk_vstate { vi : icache (D := fsys); vd : dcache }.

Definition set_vi s (v : vstate) := mk_vstate s (vd v).
Definition set_vd s (v : vstate) := mk_vstate (vi v) s.
Definition set_idisk (d : fsys) (v : vstate) := set_vi (mk_icache (inodes (vi v)) (ilinks (vi v)) (ipool (vi v)) (reg (vi v)) d) v.
Definition vdisk (v : vstate) : fsys := idisk (vi v).

(** What the operations copy into the inode they got. *)
Definition copy_inode (img : list Z) (ops : Z) (i : inode) : inode :=
  mk_inode (in_dev i) (in_no i) (in_count i) (get i_mode img) (in_nlinks i) (in_uid i) (in_gid i) (in_flags i) (get i_size img)
    (in_atime i) (in_mtime i) (in_ctime i) (in_state i) (get i_blocks img) (Some ops) (in_fop i) (in_sb i).

Definition vget (dev_no ino : Z) (v : vstate) : option (option Z * vstate) :=
  '(x, s) ← iget (ext2_sops dir_ops file_ops file_fops) 1 dev_no ino (vi v); Some (x, set_vi s v).

Definition set_and_instantiate (x : Z) (img : list Z) (ops dentry : Z) (v : vstate) : option vstate :=
  s ← upd_inode x (copy_inode img ops) (vi v);
  d ← d_instantiate (Some dentry) (Some x) (vd v);
  Some (mk_vstate s d).

Definition vfree (b : Z) (v : vstate) : option vstate := d ← free b (vdisk v); Some (set_idisk d v).

(** [for (i = 0; i < block_len; i++)], [n] rounds left. *)
Fixpoint lookup_blocks (n : nat) (i : Z) (i_dev : Z) (dir_inode name : list Z) (dentry : Z) (v : vstate) : option (option Z * vstate) :=
  match n with
  | O => Some (None, v)
  | S n =>
      '(o, d) ← get_file_block alloc dir_inode i (vdisk v);
      let v := set_idisk d v in
      match o with
      | None => lookup_blocks n (i + 1) i_dev dir_inode name dentry v
      | Some b =>
          bh ← bufs (dev d) !! b;
          r ← find_entry (Z.to_nat (EXT2_BLK_SIZE `div` DENTRY_SIZE)) 0 (b_data bh) name;
          match r with
          | Some ino =>
              '(disk_inode, d) ← get_inode ino (vdisk v);
              let v := set_idisk d v in
              '(x, v) ← vget i_dev ino v;
              match x with
              | None => v ← vfree b v; Some (None, v)
              | Some x =>
                  v ← set_and_instantiate x disk_inode (if has_flag (get i_mode disk_inode) EXT2_S_IFDIR then dir_ops else file_ops) dentry v;
                  v ← vfree b v;
                  Some (Some dentry, v)
              end
          | None => v ← vfree b v; lookup_blocks n (i + 1) i_dev dir_inode name dentry v
          end
      end
  end.

Definition ext2_lookup (mem : list Z) (dir dentry : option Z) (v : vstate) : option (option Z * vstate) :=
  match dir, dentry with
  | Some a, Some e =>
      i ← inodes (vi v) !! a;
      de ← dentries (vd v) !! e;
      let img := inode_image mem i in
      lookup_blocks (Z.to_nat (i_block_len img (vdisk v))) 0 (in_dev i) img (d_name de) e v
  | _, _ => Some (None, v)
  end.

(** What [ext2_create] and [ext2_mkdir] share once the new inode is built:
    writing it, entering it into the directory, and giving the entry an
    inode. *)
Definition enter_inode (fuel : nat) (stale : Z) (mem stale_dentry : list Z) (a e : Z) (ino file_type ops : Z) (new_inode : list Z) (v : vstate)
  : option (Z * vstate) :=
  d ← write_inode_table ino new_inode (vdisk v);
  let v := set_idisk d v in
  de ← dentries (vd v) !! e;
  new_dentry ← make_dentry stale_dentry ino file_type (d_name de);
  i ← inodes (vi v) !! a;
  '(r, d) ← add_dentry fuel alloc stale (inode_image mem i) (in_no i) new_dentry (vdisk v);
  let v := set_idisk d v in
  if negb (r =? 0) then Some (-1, v)
  else
    '(x, v) ← vget (in_dev i) ino v;
    match x with
    | None => Some (0, v)
    | Some x => v ← set_and_instantiate x new_inode ops e v; Some (0, v)
    end.

Definition reserve_both (v : vstate) : option (option (Z * Z) * vstate) :=
  '(r, d) ← on_disk (B := B) reserve_free_inode (vdisk v);
  let v := set_idisk d v in
  match r with
  | None => Some (None, v)
  | Some ino =>
      '(r, d) ← on_disk (B := B) reserve_free_block (vdisk v);
      Some (match r with Some blk => Some (ino, blk) | None => None end, set_idisk d v)
  end.

Definition create_image (mode free_block_n : Z) : list Z :=
  let n := replicate 128 0 in
  let n := put i_mode (Z.lor EXT2_S_IFREG mode) n in
  let n := put i_size 0 n in
  let n := put i_blocks 2 n in
  let n := put i_links_count 1 n in
  put (i_block 0) free_block_n n.

Definition ext2_create (fuel : nat) (stale : Z) (mem stale_dentry : list Z) (dir dentry : option Z) (mode : Z) (v : vstate)
  : option (Z * vstate) :=
  match dir, dentry with
  | Some a, Some e =>
      '(r, v) ← reserve_both v;
      match r with
      | None => Some (-1, v)
      | Some (ino, blk) => enter_inode fuel stale mem stale_dentry a e ino EXT2_FT_REG_FILE file_ops (create_image mode blk) v
      end
  | _, _ => Some (-1, v)
  end.

Definition mkdir_image (stale_inode : list Z) (mode free_block_n : Z) : list Z :=
  let n := new_dir_inode stale_inode in
  let n := put i_mode (Z.lor (get i_mode n) mode) n in
  let n := put i_blocks 2 n in
  put (i_block 0) free_block_n n.

Definition ext2_mkdir (fuel : nat) (stale : Z) (mem stale_inode stale_dentry : list Z) (dir dentry : option Z) (mode : Z) (v : vstate)
  : option (Z * vstate) :=
  match dir, dentry with
  | Some a, Some e =>
      '(r, v) ← reserve_both v;
      match r with
      | None => Some (-1, v)
      | Some (ino, blk) => enter_inode fuel stale mem stale_dentry a e ino EXT2_FT_DIR dir_ops (mkdir_image stale_inode mode blk) v
      end
  | _, _ => Some (-1, v)
  end.

Definition ext2_rmdir (dir dentry : option Z) (v : vstate) : option (Z * vstate) :=
  match dir, dentry with
  | Some _, Some e =>
      de ← dentries (vd v) !! e;
      match Dcache.d_inode de with
      | None => Some (-1, v)
      | Some x =>
          i ← inodes (vi v) !! x;
          '(_, d) ← on_disk (fun s => s ← unset_inode_bitmap (in_no i) s; Some (tt, s)) (vdisk v);
          Some (0, set_idisk d v)
      end
  | _, _ => Some (-1, v)
  end.

Definition ext2_rename (old_dir old_dentry new_dir new_dentry : option Z) (v : vstate) : Z * vstate := (-1, v).
End Ext2Dir.

(** ** Searching a block *)

(** Slot [j] of the block has inode number and name [es !! j]. *)
Definition slots (blk : list Z) (j : nat) (es : list (Z * list Z)) : Prop :=
  forall k ino nm, es !! k = Some (ino, nm) ->
    le_val (slice (72 * (j + k)) 4 blk) = ino /\ (ino ≠ 0 -> cstring (drop (72 * (j + k) + 8) blk) nm).

Lemma find_entry_spec blk es name nm : forall j,
  length blk = 1024%nat -> (j + length es <= 14)%nat -> slots blk j es -> cstring name nm ->
  find_entry (length es) (Z.of_nat j) blk name = Some (lookup_name es nm).
Proof.
  induction es as [|[ino n] es IH]; intros j Hl Hj Hs Hn; [done|]. cbn [length] in Hj |- *. cbn [find_entry lookup_name].
  destruct (Hs 0%nat ino n eq_refl) as [Hi Hc]. rewrite Nat.add_0_r in Hi, Hc. unfold DENTRY_SIZE.
  rewrite load_ok by lia. cbn [mbind option_bind]. replace (Z.to_nat (Z.of_nat j * 72)) with (72 * j)%nat by lia. rewrite Hi.
  replace (Z.of_nat j + 1) with (Z.of_nat (S j)) by lia.
  assert (slots blk (S j) es) as Hs'. { intros k i' n' Hk. specialize (Hs (S k) i' n' Hk). by rewrite <- Nat.add_succ_comm in Hs. }
  destruct (Z.eqb_spec ino 0) as [->|Hz]; [rewrite bool_decide_false by tauto; apply IH; [done|lia|done|done]|].
  replace (Z.to_nat (Z.of_nat j * 72 + 8)) with (72 * j + 8)%nat by lia.
  destruct (strcmp_zero _ _ _ _ (Hc Hz) Hn) as (r & -> & Hr). cbn [mbind option_bind]. rewrite Hr.
  case_bool_decide as Hd; [by rewrite bool_decide_true by done|]. rewrite bool_decide_false by tauto. apply IH; [done|lia|done|done].
Qed.

Section Lookup.
Context {B : Type} `{!BlockDev B}.
Notation fsys := (ext2 (buffer_cache B)).
Variables dir_ops file_ops file_fops : Z.
Variable free : Z -> fsys -> option fsys.
Variables (d0 : fsys) (b o : Z).
Notation rep := (irep (ext2_valid d0) (Some (b, o)) (ext2_ok d0)).

Lemma rep_disk s A d : rep s A -> ext2_ok d0 d -> rep (mk_icache (inodes s) (ilinks s) (ipool s) (reg s) d) A.
Proof. intros [] Hd. by split. Qed.

Lemma iget_number s A n x A' : rep s A -> spec_iop (Iget n) A = Some (Some x, A') -> number A' !! x = Some n.
Proof.
  intros HR E. cbn [spec_iop] in E. destruct (holder A n) as [y|] eqn:Hh.
  - case_bool_decide; [|done]. injection E as <- <-. by apply (holder_Some (ext2_valid d0) (Some (b, o)) (ext2_ok d0) s A n y HR).
  - destruct (Vfs.order A) as [|y r]; [done|]. injection E as <- <-. apply lookup_insert_eq.
Qed.

(** Inodes that the operations have copied to are still the cache's. *)
Lemma rep_copy s A x n i img ops :
  rep s A -> number A !! x = Some n -> inodes s !! x = Some i ->
  rep (mk_icache (<[x := copy_inode img ops i]> (inodes s)) (ilinks s) (ipool s) (reg s) (idisk s)) A.
Proof.
  intros HR Hn Hi. destruct (ir_get _ _ _ _ _ _ _ HR Hn) as (i' & Hi' & Hof). rewrite Hi in Hi'. injection Hi' as <-.
  apply (irep_update (ext2_sops dir_ops file_ops file_fops) (ext2_valid d0) (Some (b, o)) (ext2_ok d0) s A A x n); try done.
  { apply (ir_rings _ _ _ _ _ HR). } { apply (ir_disk _ _ _ _ _ HR). }
  intros y Hy. by apply (ir_unique _ _ _ _ _ HR y x n).
Qed.

(** The block count the cast reads lies in the inode's list pointers. *)
Lemma image_block_len mem i (d : fsys) : length mem = 128%nat -> i_block_len (inode_image mem i) d = i_block_len mem d.
Proof.
  intros Hm. unfold i_block_len. do 2 f_equal. unfold inode_image. apply get_puts_ne; [rewrite Hm; apply image_disjoint|].
  cbn [fmap list_fmap inode_members]. repeat first [apply Forall_cons_2 | apply Forall_nil_2]; unfold apart; vm_compute; lia.
Qed.

Definition frees : Prop := forall x d, ext2_ok d0 d -> exists d', free x d = Some d' /\ ext2_ok d0 d'.

(** The branch of the search that has found inode [ino]. *)
Lemma found_spec s dch dch' A x A' ino img e buf ops :
  std_fs d0 -> frees -> rep s A -> ext2_valid d0 ino -> spec_iop (Iget ino) A = Some (Some x, A') -> 0 <= ino < 2 ^ 32 ->
  d_instantiate (Some e) (Some x) dch = Some dch' ->
  exists s', ('(y, v) ← vget dir_ops file_ops file_fops DEV_NO ino (mk_vstate s dch);
              match y with
              | None => v ← vfree free buf v; Some (None, v)
              | Some y => v ← set_and_instantiate y img ops e v; v ← vfree free buf v; Some (Some e, v)
              end) = Some (Some e, mk_vstate s' dch') /\ rep s' A' /\
    exists j, inodes s' !! x = Some j /\ in_no j = ino /\ in_mode j = get i_mode img /\ in_size j = get i_size img /\ in_op j = Some ops.
Proof.
  intros Hs Hfr HR Hv E Hino Ed. unfold vget. cbn [vi vd].
  destruct (iop_spec _ _ (Some (b, o)) (ext2_ok d0) s A (Iget ino) _ _ (ext2_callbacks dir_ops file_ops file_fops d0 o Hs) HR (conj Hino Hv) E) as (s1 & E1 & HR1).
  cbn [run_iop] in E1. rewrite E1. cbn [mbind option_bind]. pose proof (iget_number s A ino x A' HR E) as Hn.
  destruct (ir_get _ _ _ _ _ _ _ HR1 Hn) as (i & Hi & Hno & _). unfold set_and_instantiate. cbn [set_vi vi vd].
  rewrite (upd_inode_at s1 x _ i Hi). cbn [mbind option_bind]. rewrite Ed. cbn [mbind option_bind].
  pose proof (rep_copy s1 A' x ino i img ops HR1 Hn Hi) as HR2. unfold vfree, vdisk. cbn [vi with_inodes idisk].
  destruct (Hfr buf (idisk s1)) as (d' & -> & Hd'); [by apply (ir_disk _ _ _ _ _ HR1)|]. cbn [mbind option_bind].
  eexists. split; [reflexivity|]. split; [apply (rep_disk _ A' d' HR2 Hd')|]. cbn [set_idisk set_vi vi with_inodes inodes].
  exists (copy_inode img ops i). split; [apply lookup_insert_eq|done].
Qed.
End Lookup.

(** ** Main theorem *)

(** Every directory is searched in block 1 of the volume first.  A
    directory in use has the reference count 1, which the cast takes for its
    first block; so [ext2_lookup] of a name that block 1 lists returns the
    entry, instantiated with the inode of the number listed there, with its
    mode, size and operations, whichever directory it was asked for.  The
    inode comes out of the inode cache as the abstract cache says. *)
Theorem ext2_lookup_block1 {B} `{!BlockDev B} dir_ops file_ops file_fops free (d0 : ext2 (buffer_cache B)) b o k c A mem a n e de dch dch' s blk es nm ino img x A' :
  std_fs d0 -> frees free d0 -> irep (ext2_valid d0) (Some (b, o)) (ext2_ok d0) s A -> idisk s = set_dev c d0 -> quiet (S (S k)) c ->
  length mem = 128%nat -> number A !! a = Some n -> a ∉ Vfs.order A -> 0 < i_block_len mem d0 ->
  bd_ok 1 -> holds c 1 blk -> length es = 14%nat -> slots blk 0 es -> lookup_name es nm = Some ino -> stored (set_dev c d0) ino img ->
  dentries dch !! e = Some de -> cstring (d_name de) nm ->
  spec_iop (Iget ino) A = Some (Some x, A') -> d_instantiate (Some e) (Some x) dch = Some dch' ->
  exists s', ext2_lookup dir_ops file_ops file_fops true free mem (Some a) (Some e) (mk_vstate s dch) = Some (Some e, mk_vstate s' dch') /\
    irep (ext2_valid d0) (Some (b, o)) (ext2_ok d0) s' A' /\
    exists j, inodes s' !! x = Some j /\ in_no j = ino /\ in_mode j = get i_mode img /\ in_size j = get i_size img /\
      in_op j = Some (if has_flag (get i_mode img) EXT2_S_IFDIR then dir_ops else file_ops).
Proof.
  intros Hs Hfr HR Hdk Hq Hm Ha Hord Hlen Hok Hh Hes Hsl Hlk Hst Hde Hnm Hget Hinst.
  destruct (ir_get _ _ _ _ _ _ _ HR Ha) as (i & Hi & Hno & Hdev & _ & Hc & _). rewrite decide_False in Hc by done.
  unfold ext2_lookup. cbn [vi vd]. rewrite Hi. cbn [mbind option_bind]. rewrite Hde. cbn [mbind option_bind]. unfold vdisk at 1. cbn [vi].
  rewrite Hdk. assert (forall g, i_block_len g (set_dev c d0) = i_block_len g d0) as -> by reflexivity. rewrite image_block_len by done.
  destruct (Z.to_nat (i_block_len mem d0)) as [|m] eqn:Em; [lia|]. cbn [lookup_blocks]. change (vdisk (mk_vstate s dch)) with (idisk s). rewrite Hdk.
  unfold get_file_block, indirect_block. rewrite (proj2 (Z.ltb_lt 0 12)) by lia. cbn [mbind option_bind negb].
  rewrite image_block0, Hc by first [done|lia]. change (dev (set_dev c d0)) with c. pose proof (holds_length _ _ _ _ Hq Hok Hh) as Hbl.
  destruct (bread_quiet (S k) c 1 blk Hq ltac:(lia) Hok Hh) as (buf & c1 & -> & Ht & Hv). cbn [mbind option_bind].
  rewrite set_dev_set_dev. change (dev (set_dev c1 d0)) with c1. pose proof (taken_quiet _ _ _ _ _ Ht) as Hq1.
  destruct Ht as (_ & _ & bh & _ & _ & _ & _ & _ & Eb & _ & Hbd & _). rewrite Eb. cbn [mbind option_bind]. rewrite Hbd.
  change (Z.to_nat (EXT2_BLK_SIZE `div` DENTRY_SIZE)) with 14%nat.
  pose proof (find_entry_spec blk es (d_name de) nm 0 Hbl ltac:(lia) Hsl Hnm) as Ef. rewrite Hes in Ef. change (Z.of_nat 0) with 0 in Ef.
  rewrite Ef, Hlk. cbn [mbind option_bind].
  cbn [vdisk set_idisk set_vi vi idisk vd inodes ilinks ipool reg].
  destruct (get_stored k (set_dev c1 d0) ino img) as (c2 & -> & Hq2 & _); [by apply std_fs_dev|done|by apply (stored_view c1 (set_dev c d0))|].
  cbn [mbind option_bind]. rewrite set_dev_set_dev, Hdev. cbn [vdisk set_idisk set_vi vi idisk vd inodes ilinks ipool reg].
  assert (ext2_ok d0 (set_dev c2 d0)) as Hok2 by (by exists k, c2).
  destruct Hst as (blk' & off & data & Hat & Hb & Hbok & _).
  apply (found_spec dir_ops file_ops file_fops free d0 b o _ dch dch' A x A' ino img e buf _ Hs Hfr (rep_disk d0 b o s A _ HR Hok2)); try done.
  - exists blk', off. by rewrite inode_at_dev in Hat.
  - destruct Hat as [? _]. lia.
Qed.

(** ** An instance: the root directory of Dir's instance, in block 1 *)

Definition lookup_disk : gmap Z (list Z) := default ∅ (d ← bd_write 6 table6 ∅; bd_write 1 root_dir d).

Definition held_16 : aicache := default (mk_aicache ∅ []) (snd <$> spec_iop (Iget 16) (first_inodes demo_icache)).
Definition held_12 : aicache := default held_16 (snd <$> spec_iop (Iget 12) held_16).

(** The cache as [create_inode_cache] leaves it, inode 16 taken, mounted. *)
Lemma icache_created c : quiet 2 c -> exists s0, create_inode_cache (ext2_sops 1 2 3) true (ext2_demo_icache c) = Some s0 /\
  irep (ext2_valid (inode_fs 5 c)) None (ext2_ok (inode_fs 5 c)) s0 held_16.
Proof.
  intros Hq. apply (icache_create_spec _ _ (ext2_ok (inode_fs 5 c)) (ext2_demo_icache c) (Some 116)); [by apply ext2_demo_fresh|].
  rewrite demo_first. unfold held_16. destruct (spec_iop (Iget 16) (first_inodes demo_icache)) as [[r A]|] eqn:E; [|vm_compute in E; done].
  assert (fst <$> spec_iop (Iget 16) (first_inodes demo_icache) = Some r) as Er by (by rewrite E). vm_compute in Er. injection Er as <-. reflexivity.
Qed.

Lemma demo_holding c : quiet 2 c -> exists s, irep (ext2_valid (inode_fs 5 c)) (Some (5, 9)) (ext2_ok (inode_fs 5 c)) s held_16 /\ idisk s = inode_fs 5 c.
Proof.
  intros Hq. assert (ext2_ok (inode_fs 5 c) (inode_fs 5 c)) as Hok by (exists 1%nat, c; split; [reflexivity|exact Hq]).
  destruct (icache_created c Hq) as (s & _ & HR). pose proof (irep_mount _ _ _ _ _ 5 9 HR demo_mounted) as HR'.
  exists (mk_icache (inodes s) (ilinks s) (ipool s) demo_registry (inode_fs 5 c)). split; [|reflexivity].
  exact (rep_disk _ _ _ _ _ _ HR' Hok).
Qed.

Definition demo_dch : dcache :=
  mk_dcache {[40 := mk_dentry 1 0 None 39 [97; 0] None]}
    (list_to_map [(IDentry 112, mk_list_head (Some (IDentry 112)) (Some (IDentry 112))); (Child 40, mk_list_head None None)]) [].

Definition demo_dch' : dcache := default demo_dch (d_instantiate (Some 40) (Some 112) demo_dch).

Lemma root_slots : slots root_dir 0 ((12, [97]) :: replicate 13 (0, [])).
Proof.
  intros k ino nm Hk. destruct k as [|k].
  - injection Hk as <- <-. split; [by vm_compute|]. intros _. exists (replicate 1014 0). split; [by vm_compute|set_solver].
  - rewrite lookup_cons_ne_0 in Hk by lia. cbn [Nat.pred] in Hk. apply lookup_replicate in Hk as [E Hk]. injection E as -> ->. split; [|done].
    do 13 (destruct k as [|k]; [by vm_compute|]). lia.
Qed.

Lemma ext2_lookup_block1_witness : exists c s s' mem,
  idisk s = inode_fs 5 c /\
  ext2_lookup 1 2 3 true (fun _ d => Some d) mem (Some 116) (Some 40) (mk_vstate s demo_dch) = Some (Some 40, mk_vstate s' demo_dch') /\
  exists j, inodes s' !! 112 = Some j /\ in_no j = 12 /\ in_size j = 3.
Proof.
  destruct (demo_quiet_on lookup_disk) as (c & Hq & Hd & Hu). destruct (demo_holding c Hq) as (s & HR & Hs).
  assert (forall n data, bd_read n lookup_disk = Some data -> holds c n data) as Hh.
  { intros n data Hr. right. rewrite Hd. split; [intros b bh Eb _; by eapply Hu|exact Hr]. }
  exists c, s. destruct (ext2_lookup_block1 1 2 3 (fun _ d => Some d) (inode_fs 5 c) 5 9 0 c held_16 (put i_blocks 2 (replicate 128 0)) 116 16 40
    (mk_dentry 1 0 None 39 [97; 0] None) demo_dch demo_dch' s root_dir ((12, [97]) :: replicate 13 (0, [])) [97] 12 file_img 112 held_12)
    as (s' & E & _ & j & E1 & E2 & _ & E3 & _).
  - apply inode_std_fs.
  - intros x d Hx. exists d. split; [reflexivity|exact Hx].
  - exact HR.
  - exact Hs.
  - exact Hq.
  - vm_compute; reflexivity.
  - vm_compute; reflexivity.
  - decided.
  - vm_compute; reflexivity.
  - apply demo_block_ok. lia.
  - apply Hh. vm_compute. reflexivity.
  - reflexivity.
  - apply root_slots.
  - reflexivity.
  - exists 6, 384, table6. split_and!; [apply inode_places|lia|lia|apply demo_block_ok; lia|apply Hh; vm_compute; reflexivity|vm_compute; reflexivity].
  - reflexivity.
  - exists []. split; [reflexivity|clear; set_solver].
  - vm_compute. reflexivity.
  - vm_compute. reflexivity.
  - exists s', (put i_blocks 2 (replicate 128 0)). split; [exact Hs|]. split; [exact E|]. exists j. split; [exact E1|]. split; [exact E2|]. exact E3.
Defined.
