(* ===== verification/Mount.v ===== *)
(** * Mounting ext2 (copy_ext2_sb_to_mem ... ext2_mount_root of
    fs/ext2/fs.c)

    The state is the directory operations' (inode cache with registry and
    volume, entry cache) and the [ext2_sb_info] objects kmalloc has returned;
    [sbi_pool] are the ones it will return, with what they hold before.  A
    pointer to a buffer's data is the buffer.  Messages are left out. *)

From S2P Require Import Mkfs.
From S2P Require Export Ext2Dir.

(** The members of [struct ext2_sb_info] the code sets. *)
Record ext2_sb_info := mk_sbi {
  si_inodes_per_block : Z; si_blocks_per_group : Z; si_inodes_per_group : Z; si_itb_per_group : Z; si_gdb_count : Z;
  si_desc_per_block : Z; si_groups_count : Z; si_sbh : option Z; si_es : option Z; si_group_desc : option Z; si_inode_size : Z; si_first_ino : Z;
  si_freeblocks_counter : Z; si_freeinodes_counter : Z
}.

(** [g_n_block_groups] is mkfs.c's variable; [es] the buffer, [img] its data. *)
Definition copy_ext2_sb_to_mem (g_n_block_groups : Z) (es : Z) (img : list Z) : ext2_sb_info :=
  mk_sbi (EXT2_BLK_SIZE `div` 128) (get s_blocks_per_group img) (get s_inodes_per_group img) 1
    (u32 (g_n_block_groups * 32) `div` EXT2_BLK_SIZE) (EXT2_BLK_SIZE `div` 32) g_n_block_groups None (Some es) None
    (get s_inode_size img) (s32 (get s_first_ino img)) (get s_free_blocks_count img) (get s_free_inodes_count img).

Definition copy_ext2_sb_from_mem (sbi : ext2_sb_info) (img : list Z) : list Z :=
  let img := put s_free_inodes_count (si_freeinodes_counter sbi) img in
  put s_free_blocks_count (si_freeblocks_counter sbi) img.

Definition set_sbh (b : Z) (i : ext2_sb_info) := mk_sbi (si_inodes_per_block i) (si_blocks_per_group i) (si_inodes_per_group i)
  (si_itb_per_group i) (si_gdb_count i) (si_desc_per_block i) (si_groups_count i) (Some b) (Some b) (si_group_desc i) (si_inode_size i)
  (si_first_ino i) (si_freeblocks_counter i) (si_freeinodes_counter i).

Definition set_sb_dirt (n : Z) (b : super_block) := mk_super (sb_dev b) (sb_blocksize b) n (sb_op b) (sb_flags b) (sb_magic b) (sb_root b) (sb_count b) (sb_fs_info b).
Definition set_sb_root (r : option Z) (b : super_block) := mk_super (sb_dev b) (sb_blocksize b) (sb_dirt b) (sb_op b) (sb_flags b) (sb_magic b) r (sb_count b) (sb_fs_info b).
Definition set_sb_info (x : option Z) (b : super_block) := mk_super (sb_dev b) (sb_blocksize b) (sb_dirt b) (sb_op b) (sb_flags b) (sb_magic b) (sb_root b) (sb_count b) x.

Section Mount.
Context {B : Type} `{!BlockDev B}.
Notation fsys := (ext2 (buffer_cache B)).
Variables dir_ops file_ops file_fops : Z.
(** The address of the table ext2_sops. *)
Variable sops_table : Z.
(** What kmem_cache_create of the superblock cache gives, when it is called. *)
Variable cache_ok : bool.
Variable g_n_block_groups : Z.
Implicit Types d : fsys.

(** Block 2 is read where the superblock is expected; a null buffer is
    followed. *)
Definition read_sb d : option (ext2_sb_info * fsys) :=
  '(b, img, d) ← read_buf 2 d;
  let sbi := copy_ext2_sb_to_mem g_n_block_groups b img in
  d ← release b d;
  Some (sbi, d).

(** The buffer is released by bwrite and once more. *)
Definition write_sb (sbi : ext2_sb_info) d : option fsys :=
  '(b, img, d) ← read_buf 2 d;
  d ← fill_buf b (copy_ext2_sb_from_mem sbi img) d;
  d ← write_buf b d;
  release b d.

Definition hello_name : list Z := [104; 101; 108; 108; 111; 46; 99; 0].
Definition app_name : list Z := [97; 112; 112; 0].

(** What the three calls print, when block 1 could be read. *)
Definition ext2_test_fs d : option (option (list (Z * Z * Z * list Z) * option (list Z) * option (list Z)) * fsys) :=
  '(o, c) ← bread 2 DEV_NO 1 (dev d);
  let d := set_dev c d in
  match o with
  | None => Some (None, d)
  | Some b =>
      d ← release b d;
      '(entries, d) ← ls_root d;
      '(hello, d) ← cat_file hello_name d;
      '(app, d) ← cat_file app_name d;
      Some (Some (entries, hello, app), d)
  end.

(** [alloc] tells whether kmalloc succeeds; the object is not kept. *)
Definition ext2_fs_init (alloc : bool) d : option fsys :=
  if negb alloc then Some d
  else
    '(sbi, d) ← read_sb d;
    d ← write_sb sbi d;
    '(_, d) ← ext2_test_fs d;
    Some d.

Record mstate := mk_mstate { ms : vstate (B := B); sbis : gmap Z ext2_sb_info; sbi_pool : list (Z * ext2_sb_info) }.

Definition set_ms v (m : mstate) := mk_mstate v (sbis m) (sbi_pool m).
Definition set_sbis x (m : mstate) := mk_mstate (ms m) x (sbi_pool m).
Definition mreg (m : mstate) : registry := reg (vi (ms m)).
Definition set_mreg (r : registry) (m : mstate) : mstate :=
  let s := vi (ms m) in set_ms (set_vi (mk_icache (inodes s) (ilinks s) (ipool s) r (idisk s)) (ms m)) m.
Definition mdisk (m : mstate) : fsys := vdisk (ms m).
Definition set_mdisk d (m : mstate) : mstate := set_ms (set_idisk d (ms m)) m.

Definition set_supers x (r : registry) := mk_registry (fs_name r) x (rlinks r) (fs_list_initialized r) (super_cache r) (super_pool r).

Definition upd_super (b : Z) (f : super_block -> super_block) (m : mstate) : option mstate :=
  x ← supers (mreg m) !! b; Some (set_mreg (set_supers (<[b := f x]> (supers (mreg m))) (mreg m)) m).

(** [sb->s_fs_info] *)
Definition EXT2_SB (b : Z) (m : mstate) : option (option Z) := x ← supers (mreg m) !! b; Some (sb_fs_info x).

Definition sbi_of (b : Z) (m : mstate) : option ext2_sb_info := o ← EXT2_SB b m; x ← o; sbis m !! x.

Definition ext2_count_free_blocks (b : Z) (m : mstate) : option Z := i ← sbi_of b m; Some (si_freeblocks_counter i).
Definition ext2_count_free_inodes (b : Z) (m : mstate) : option Z := i ← sbi_of b m; Some (si_freeinodes_counter i).

Definition mark_buffer_dirty (bh : option Z) d : option fsys :=
  match bh with None => Some d | Some b => c ← upd_buf b (set_flag BH_dirty) (dev d); Some (set_dev c d) end.

Definition ext2_sync_super (sb : Z) (es : option Z) (wait : Z) (m : mstate) : option mstate :=
  e ← es;
  n ← ext2_count_free_blocks sb m;
  bh ← bufs (dev (mdisk m)) !! e;
  d ← fill_buf e (put s_free_blocks_count n (b_data bh)) (mdisk m);
  n ← ext2_count_free_inodes sb m;
  bh ← bufs (dev d) !! e;
  d ← fill_buf e (put s_free_inodes_count n (b_data bh)) d;
  i ← sbi_of sb m;
  d ← mark_buffer_dirty (si_sbh i) d;
  upd_super sb (set_sb_dirt 0) (set_mdisk d m).

Definition ext2_sync_fs (sb : Z) (wait : Z) (m : mstate) : option (Z * mstate) :=
  i ← sbi_of sb m;
  m ← ext2_sync_super sb (si_es i) wait m;
  Some (0, m).

Definition ext2_write_super (sb : Z) (m : mstate) : option mstate := '(_, m) ← ext2_sync_fs sb 1 m; Some m.

Definition mrelease (b : Z) (m : mstate) : option mstate := d ← release b (mdisk m); Some (set_mdisk d m).

(** The error returns: the buffer is released and [sbi] freed; [sb] keeps what
    it was given. *)
Definition give_up_super (b x : Z) (m : mstate) : option (option Z * mstate) :=
  m ← mrelease b m; Some (None, set_sbis (delete x (sbis m)) m).

Definition EXT2_NAME : list Z := [101; 120; 116; 50; 0].

(** [list_add(&sb->s_list, &fst->fs_supers)]: the type's list is entered into
    the superblock's. *)
Definition register_super (b : Z) (m : mstate) : option mstate :=
  '(fst, r) ← get_fs_type cache_ok (Some EXT2_NAME) (mreg m);
  r ← match fst with None => Some r | Some f => on_rlinks (list_add (SList b) (FsSupers f)) r end;
  Some (set_mreg r m).

Definition fill_super (b x : Z) (m : mstate) : option mstate :=
  upd_super b (fun s => mk_super (u8 DEV_NO) EXT2_BLK_SIZE (sb_dirt s) (Some sops_table) (sb_flags s) EXT2_SUPER_MAGIC
                          (sb_root s) (sb_count s) (Some x)) m.

(** The root inode is read once more after [iget] has done so. *)
Definition read_root (m : mstate) : option (option Z * mstate) :=
  '(o, v) ← vget dir_ops file_ops file_fops DEV_NO EXT2_ROOT_INO (ms m);
  let m := set_ms v m in
  match o with
  | None => Some (None, m)
  | Some a =>
      i ← inodes (vi v) !! a;
      '(i, d) ← ext2_read_inode dir_ops file_ops file_fops i (vdisk v);
      let s := vi v in
      Some (Some a, set_ms (set_vi (mk_icache (<[a := i]> (inodes s)) (ilinks s) (ipool s) (reg s) d) v) m)
  end.

Definition ext2_read_super (sb : option Z) (m : mstate) : option (option Z * mstate) :=
  match sb with
  | None => Some (None, m)
  | Some b =>
      match sbi_pool m with
      | [] => Some (None, m)
      | (x, old) :: rest =>
          let m := mk_mstate (ms m) (<[x := old]> (sbis m)) rest in
          '(o, c) ← bread 2 DEV_NO 1 (dev (mdisk m));
          let m := set_mdisk (set_dev c (mdisk m)) m in
          match o with
          | None => Some (None, set_sbis (delete x (sbis m)) m)
          | Some bh =>
              buf ← bufs c !! bh;
              let es := b_data buf in
              if negb (get s_magic es =? EXT2_SUPER_MAGIC) then give_up_super bh x m
              else
                m ← register_super b m;
                let m := set_sbis (<[x := copy_ext2_sb_to_mem g_n_block_groups bh es]> (sbis m)) m in
                m ← fill_super b x m;
                i ← sbis m !! x;
                let m := set_sbis (<[x := set_sbh bh i]> (sbis m)) m in
                '(root_inode, m) ← read_root m;
                match root_inode with
                | None => give_up_super bh x m
                | Some a =>
                    i ← inodes (vi (ms m)) !! a;
                    '(root_dentry, dch) ← d_alloc_root (Some a) (in_sb i) (vd (ms m));
                    let m := set_ms (set_vd dch (ms m)) m in
                    match root_dentry with
                    | None => give_up_super bh x m
                    | Some _ => m ← upd_super b (set_sb_root root_dentry) m; Some (Some b, m)
                    end
                end
          end
      end
  end.

Definition ext2_put_super (sb : option Z) (m : mstate) : option mstate :=
  match sb with
  | None => Some m
  | Some b =>
      sbi ← EXT2_SB b m;
      match sbi with
      | None => Some m
      | Some x =>
          s ← supers (mreg m) !! b;
          m ← (if negb (sb_dirt s =? 0) then ext2_write_super b m else Some m);
          i ← sbis m !! x;
          m ← match si_sbh i with Some bh => mrelease bh m | None => Some m end;
          upd_super b (set_sb_info None) (set_sbis (delete x (sbis m)) m)
      end
  end.

(** [fst] is the address of ext2_fs_type. *)
Definition ext2_register_filesystem (fst : Z) (m : mstate) : option (Z * mstate) :=
  '(r, g) ← register_filesystem cache_ok (Some fst) (mreg m); Some (r, set_mreg g m).

Definition ext2_init_fs (dcache_ok : bool) (fst : Z) (m : mstate) : option (Z * mstate) :=
  '(r, m) ← ext2_register_filesystem fst m;
  if negb (r =? 0) then Some (-1, m)
  else dch ← dcache_init dcache_ok (vd (ms m)); Some (0, set_ms (set_vd dch (ms m)) m).
End Mount.

(** ** The root file system

    The sectors [D] are read as blocks of the volume [v], which [read_fs]
    sets. *)
Section MountRoot.
Context {D : Type} `{!SectorDev D} (v : volume) (Hv : Disk.s_log_block_size v = 0).
#[local] Instance root_dev : BlockDev D := volume_dev v Hv.
Variables dir_ops file_ops file_fops sops_table : Z.
Variable cache_ok : bool.
Variable g_n_block_groups : Z.
Implicit Types m : mstate (B := D).

(** The process's [root] and [pwd]. *)
Record task_dirs := mk_dirs { t_root : option Z; t_pwd : option Z }.

(** The first block of the root directory is read, to be shown, when the inode
    says it has one. *)
Definition show_root (root_inode : Z) m : option mstate :=
  i ← inodes (vi (ms m)) !! root_inode;
  if 0 <? in_size i then
    '(disk_inode, d) ← get_inode EXT2_ROOT_INO (mdisk m);
    let m := set_mdisk d m in
    if 0 <? get i_blocks disk_inode then
      '(o, c) ← bread 2 DEV_NO (get (i_block 0) disk_inode) (dev (mdisk m));
      let m := set_mdisk (set_dev c (mdisk m)) m in
      match o with None => Some m | Some b => mrelease b m end
    else Some m
  else Some m.

Definition destroy_sb (sb : option Z) m : option mstate := r ← destroy_super sb (mreg m); Some (set_mreg r m).

Definition ext2_mount_root (current : option task_dirs) m : option (Z * option task_dirs * mstate) :=
  '(_, d) ← on_disk (B := D) (fun e => '(_, e) ← read_fs 0 e; Some (tt, e)) (mdisk m);
  let m := set_mdisk d m in
  '(sb, r) ← alloc_super cache_ok (mreg m);
  let m := set_mreg r m in
  match sb with
  | None => Some (-1, current, m)
  | Some b =>
      '(o, m) ← ext2_read_super dir_ops file_ops file_fops sops_table cache_ok g_n_block_groups sb m;
      match o with
      | None => m ← destroy_sb sb m; Some (-1, current, m)
      | Some _ =>
          s ← supers (mreg m) !! b;
          root ← sb_root s;
          de ← dentries (vd (ms m)) !! root;
          match Dcache.d_inode de with
          | None => m ← destroy_sb sb m; Some (-1, current, m)
          | Some a =>
              '(current, m) ← match current with
                | None => Some (None, m)
                | Some _ =>
                    s ← upd_inode a (fun i => set_in_count (u32 (in_count i + 2)) i) (vi (ms m));
                    Some (Some (mk_dirs (Some a) (Some a)), set_ms (set_vi s (ms m)) m)
                end;
              m ← show_root a m;
              Some (0, current, m)
          end
      end
  end.
End MountRoot.

(** ** The registry after a mount *)

Lemma dlist_swap `{Countable K} (st : gmap K (list_head K)) h x : dlist st h [x] -> dlist st x [h].
Proof.
  intros [Hnd (H1 & H2 & H3 & H4)]. split; [|by split_and!]. apply NoDup_cons in Hnd as [Hx _].
  apply NoDup_cons. split; [|apply NoDup_singleton]. intros ->%list_elem_of_singleton. apply Hx. by left.
Qed.

Lemma named_elem L n f : named L n = Some f -> (f, n) ∈ L.
Proof.
  unfold named. destruct (find _ L) as [[g m]|] eqn:E; [|done]. intros [= <-]. apply find_some in E as [Hin Hm]. simpl in Hm.
  apply bool_decide_eq_true in Hm as ->. by apply list_elem_of_In.
Qed.

Definition only_super (f b g : Z) : list Z := if decide (g = f) then [b] else [].

Lemma register_super_list r L M f b :
  registered r L M -> named L (take 4 EXT2_NAME) = Some f -> (forall g n, (g, n) ∈ L -> M g = []) ->
  dlist (rlinks r) (SList b) [] -> is_Some (supers r !! b) ->
  exists r', on_rlinks (list_add (SList b) (FsSupers f)) r = Some r' /\ registered r' L (only_super f b) /\ supers r' = supers r.
Proof.
  intros [Hi Ht Hn Hs] Hf HM Hb Hsb. pose proof (named_elem _ _ _ Hf) as Hin. destruct (Hs f _ Hin) as [Hr _].
  rewrite (HM f _ Hin) in Hr.
  destruct (list_add_spec (rlinks r) (SList b) [] (FsSupers f) Hb) as (st & E & Dm & Hd & F).
  { intros E%list_elem_of_singleton. done. } { eapply dlist_in_dom; [exact Hr|by left]. }
  unfold on_rlinks. rewrite E. cbn [mbind option_bind]. eexists. split; [done|]. split; [|done].
  split; cbn [rlinks fs_name supers fs_list_initialized]; [done| |done|].
  - eapply dlist_frame; [|exact Ht]. intros y Hy. apply F. intros Hy'.
    apply elem_of_cons in Hy as [->|(g & -> & _)%list_elem_of_fmap]; by rewrite !elem_of_cons in Hy'; destruct Hy' as [?|[?|?%elem_of_nil]].
  - intros g n Hg. unfold only_super. case_decide as Hgf.
    + subst g. split; [by apply dlist_swap|]. by constructor.
    + split; [|done]. destruct (Hs g n Hg) as [Hgr _]. rewrite (HM g n Hg) in Hgr. eapply dlist_frame; [|exact Hgr].
      intros y ->%list_elem_of_singleton. apply F. rewrite !elem_of_cons. intros [?|[?|?%elem_of_nil]]; congruence.
Qed.

Lemma only_super_found (P : Z -> bool) f b l : f ∈ l -> P b = true -> find P (l ≫= only_super f b) = Some b.
Proof.
  intros Hf Hb. induction l as [|g l IH]; [by apply elem_of_nil in Hf|]. cbn [mbind list_bind]. unfold only_super at 1. case_decide as Hg.
  - cbn [app find]. by rewrite Hb.
  - apply IH. apply elem_of_cons in Hf as [->|Hf]; done.
Qed.

Lemma registered_supers r L M x : registered r L M -> (forall b, is_Some (supers r !! b) -> is_Some (x !! b)) -> registered (set_supers x r) L M.
Proof.
  intros [Hi Ht Hn Hs] Hx. split; [done..|]. intros f n Hf. destruct (Hs f n Hf) as [? Hall]. split; [done|]. eapply Forall_impl; [exact Hall|exact Hx].
Qed.

Lemma registered_mounted r L f b o sb :
  registered r L (only_super f b) -> f ∈ L.*1 -> supers r !! b = Some sb -> sb_dev sb = u8 DEV_NO -> sb_op sb = Some o -> mounted_dev r b o.
Proof.
  intros HR Hf Hb Hd Ho. split; [|by exists sb]. rewrite (get_super_spec r L _ DEV_NO HR). f_equal. unfold mounted, super_of.
  apply only_super_found; [done|]. apply bool_decide_eq_true. by rewrite Hb, <- Hd.
Qed.

(** ** Reading the superblock *)

(** [iget] leaves the registry alone. *)
Section IgetReg.
Context {D : Type} (sops : Z -> super_ops (D := D)).

Lemma on_ilinks_reg f (s s' : icache (D := D)) : on_ilinks f s = Some s' -> reg s' = reg s.
Proof. unfold on_ilinks. intros. inv_bind. done. Qed.

Lemma upd_inode_reg a f (s s' : icache (D := D)) : upd_inode a f s = Some s' -> reg s' = reg s.
Proof. unfold upd_inode. intros. inv_bind. done. Qed.

Lemma ensure_sb_reg a n (s s' : icache (D := D)) : ensure_sb a n s = Some s' -> reg s' = reg s.
Proof. unfold ensure_sb. intros. inv_bind. destruct (in_sb _); [congruence|]. inv_bind. by eapply upd_inode_reg. Qed.

Lemma call_read_reg a (s s' : icache (D := D)) : call_read sops a s = Some s' -> reg s' = reg s.
Proof.
  unfold call_read. intros. inv_bind. destruct (in_sb _); [|by inv_bind]. inv_bind. destruct (sb_op _); [|by inv_bind].
  destruct (read_inode _); inv_bind; done.
Qed.

Lemma iget_reg fuel : forall dev_no n (s s' : icache (D := D)) o, iget sops fuel dev_no n s = Some (o, s') -> reg s' = reg s.
Proof.
  induction fuel as [|fuel IH]; intros dev_no n s s' o E; [done|]. cbn [iget] in E. inv_bind. case_match; inv_bind.
  - case_match; [by eapply IH|]. inv_bind. repeat match goal with
      | H : upd_inode _ _ _ = Some _ |- _ => apply upd_inode_reg in H
      | H : ensure_sb _ _ _ = Some _ |- _ => apply ensure_sb_reg in H end.
    case_match; [match goal with H : on_ilinks _ _ = Some _ |- _ => apply on_ilinks_reg in H end|inv_bind]; congruence.
  - case_match; [by inv_bind|]. inv_bind. case_match; try done. inv_bind. repeat match goal with
      | H : upd_inode _ _ _ = Some _ |- _ => apply upd_inode_reg in H
      | H : call_read _ _ _ = Some _ |- _ => apply call_read_reg in H
      | H : on_ilinks _ _ = Some _ |- _ => apply on_ilinks_reg in H end. congruence.
Qed.
End IgetReg.

Section ReadSuper.
Context {B : Type} `{!BlockDev B}.
Notation fsys := (ext2 (buffer_cache B)).
Variables dir_ops file_ops file_fops sops_table : Z.
Variable cache_ok : bool.
Variable g_n_block_groups : Z.
Variables (d0 : fsys) (b : Z).
Notation rep := (irep (ext2_valid d0) (Some (b, sops_table)) (ext2_ok d0)).

Lemma rep_fields s A a n i i' d :
  rep s A -> number A !! a = Some n -> inodes s !! a = Some i -> cache_fields i' = cache_fields i -> ext2_ok d0 d ->
  rep (mk_icache (<[a := i']> (inodes s)) (ilinks s) (ipool s) (reg s) d) A.
Proof.
  intros HR Hn Hi Hf Hd. destruct (ir_get _ _ _ _ _ _ _ HR Hn) as (i0 & Hi0 & Hof). rewrite Hi in Hi0. injection Hi0 as <-.
  apply (irep_update (ext2_sops dir_ops file_ops file_fops) (ext2_valid d0) (Some (b, sops_table)) (ext2_ok d0) s A A a n); try done.
  - apply (ir_rings _ _ _ _ _ HR).
  - unfold inode_of in *. unfold cache_fields in Hf. injection Hf as -> -> -> -> -> ->. exact Hof.
  - intros y Hy. by apply (ir_unique _ _ _ _ _ HR y a n).
Qed.

Lemma read_root_spec (m : mstate (B := B)) A a A' :
  std_fs d0 -> rep (vi (ms m)) A -> ext2_valid d0 EXT2_ROOT_INO -> spec_iop (Iget EXT2_ROOT_INO) A = Some (Some a, A') ->
  exists s' i, read_root dir_ops file_ops file_fops m = Some (Some a, set_ms (set_vi s' (ms m)) m) /\ rep s' A' /\
    reg s' = reg (vi (ms m)) /\ inodes s' !! a = Some i /\ in_no i = EXT2_ROOT_INO /\ in_sb i = Some b.
Proof.
  intros Hs HR Hv E.
  destruct (iget_spec _ _ (Some (b, sops_table)) (ext2_ok d0) (vi (ms m)) A EXT2_ROOT_INO (Some a) A' (ext2_callbacks dir_ops file_ops file_fops d0 sops_table Hs) HR)
    as (s1 & E1 & HR1 & Hj); [by split|exact E|].
  unfold read_root, vget. rewrite E1. cbn [mbind option_bind]. pose proof (iget_number d0 b sops_table _ A _ a A' HR E) as Hn.
  destruct (Hj a eq_refl) as (i & Hi & Hsb). destruct (ir_get _ _ _ _ _ _ _ HR1 Hn) as (i0 & Hi0 & Hno & _).
  rewrite Hi in Hi0. injection Hi0 as <-.
  cbn [set_vi vi]. rewrite Hi. cbn [mbind option_bind]. unfold vdisk. change (vi (set_vi s1 (ms m))) with s1.
  pose proof (ir_disk _ _ _ _ _ HR1) as Hd. cbn [fmap option_fmap option_map fst] in Hsb.
  destruct (ext2_read_spec dir_ops file_ops file_fops d0 (idisk s1) i) as (i' & d' & -> & Hd' & Hf); [done|done|by rewrite Hno|].
  cbn [mbind option_bind]. eexists _, i'. split; [reflexivity|]. pose proof (iget_reg _ _ _ _ _ _ _ E1) as Hreg. unfold cache_fields in Hf. injection Hf as F1 F2 F3 F4 F5 F6.
  split; [by apply (rep_fields s1 A' a EXT2_ROOT_INO i i' d'); [..|unfold cache_fields; congruence|]|].
  cbn [reg inodes]. split; [done|]. split; [apply lookup_insert_eq|]. split; congruence.
Qed.

(** What the mount of superblock [b] starts from: the volume below the caches,
    ext2 registered as the type at [f] with nothing mounted, a superblock
    object from [alloc_super], memory for its [ext2_sb_info] at [x], and the
    inode cache as [create_inode_cache] left it before the mount. *)
Record mountable (m : mstate (B := B)) k c es L M f x old rest A : Prop := {
  mo_fs : std_fs d0;
  mo_disk : mdisk m = set_dev c d0;
  mo_quiet : quiet (S (S k)) c;
  mo_block : bd_ok 1 /\ holds c 1 es;
  mo_types : registered (mreg m) L M;
  mo_ext2 : named L (take 4 EXT2_NAME) = Some f;
  mo_none : forall g n, (g, n) ∈ L -> M g = [];
  mo_list : dlist (rlinks (mreg m)) (SList b) [];
  mo_super : is_Some (supers (mreg m) !! b);
  mo_pool : sbi_pool m = (x, old) :: rest;
  mo_inodes : irep (ext2_valid d0) None (ext2_ok d0) (vi (ms m)) A
}.

Notation read_super := (ext2_read_super dir_ops file_ops file_fops sops_table cache_ok g_n_block_groups).

Lemma register_super_spec (m : mstate (B := B)) L M f :
  registered (mreg m) L M -> named L (take 4 EXT2_NAME) = Some f -> (forall g n, (g, n) ∈ L -> M g = []) ->
  dlist (rlinks (mreg m)) (SList b) [] -> is_Some (supers (mreg m) !! b) ->
  exists r, register_super cache_ok b m = Some (set_mreg r m) /\ registered r L (only_super f b) /\ supers r = supers (mreg m).
Proof.
  intros HR Hf HM Hl Hs. unfold register_super, get_fs_type, init_fs_registry. rewrite (rg_init _ _ _ HR). cbn [mbind option_bind].
  rewrite (fs_find_spec _ L M EXT2_NAME (take 4 EXT2_NAME) HR); [|exists []; split; [reflexivity|decided]]. cbn [mbind option_bind]. rewrite Hf.
  destruct (register_super_list (mreg m) L M f b HR Hf HM Hl Hs) as (r & E & HR' & Hsup). rewrite E. cbn [mbind option_bind]. by exists r.
Qed.

(** The superblock is there and has the magic number. *)
Lemma read_super_found (m : mstate (B := B)) k c es L M f x old rest A a A' e dch :
  mountable m k c es L M f x old rest A -> get s_magic es = EXT2_SUPER_MAGIC ->
  ext2_valid d0 EXT2_ROOT_INO -> spec_iop (Iget EXT2_ROOT_INO) A = Some (Some a, A') -> d_alloc_root (Some a) (Some b) (vd (ms m)) = Some (Some e, dch) ->
  exists m' bh i sb, read_super (Some b) m = Some (Some b, m') /\ mounted_dev (mreg m') b sops_table /\ rep (vi (ms m')) A' /\
    inodes (vi (ms m')) !! a = Some i /\ in_no i = EXT2_ROOT_INO /\ in_sb i = Some b /\ vd (ms m') = dch /\
    sbis m' !! x = Some (set_sbh bh (copy_ext2_sb_to_mem g_n_block_groups bh es)) /\
    supers (mreg m') !! b = Some sb /\ sb_root sb = Some e /\ sb_fs_info sb = Some x.
Proof.
  intros [Hs Hdk Hq [Hok Hh] HR Hf HM Hl [sb0 Hsb] Hp Hw] Hmg Hv Hget Hroot.
  unfold ext2_read_super. rewrite Hp. set (m1 := mk_mstate (ms m) _ rest). change (mdisk m1) with (mdisk m). rewrite Hdk.
  change (dev (set_dev c d0)) with c. destruct (bread_quiet (S k) c 1 es Hq ltac:(lia) Hok Hh) as (bh & c1 & -> & Ht & _). cbn [mbind option_bind].
  pose proof (taken_quiet _ _ _ _ _ Ht) as Hq1. destruct Ht as (_ & _ & buf & _ & _ & _ & _ & _ & Eb & _ & Hbd & _). rewrite Eb. cbn [mbind option_bind].
  rewrite Hbd, Hmg, Z.eqb_refl. cbn [negb]. rewrite set_dev_set_dev. set (m2 := set_mdisk _ m1).
  destruct (register_super_spec m2 L M f HR Hf HM Hl) as (r & -> & HR' & Hsup); [by exists sb0|]. cbn [mbind option_bind].
  change (supers r = supers (mreg m)) in Hsup. unfold fill_super, upd_super. cbn [mreg set_mreg set_sbis set_ms set_vi vi ms reg sbis]. rewrite Hsup, Hsb. cbn [mbind option_bind].
  set (sb1 := mk_super _ _ _ _ _ _ _ _ _). set (r1 := set_supers _ r). cbn [sbis set_sbis set_mreg set_ms]. rewrite lookup_insert_eq. cbn [mbind option_bind].
  rewrite insert_insert_eq. set (m3 := set_sbis _ _).
  assert (f ∈ L.*1) as HfL by (by apply (list_elem_of_fmap_2' fst _ _ _ (named_elem _ _ _ Hf))).
  assert (registered r1 L (only_super f b)) as HR1.
  { apply registered_supers; [done|]. intros y Hy. rewrite Hsup in Hy. rewrite lookup_insert. case_decide; eauto. }
  assert (mounted_dev r1 b sops_table) as Hmt.
  { by apply (registered_mounted r1 L f b sops_table sb1 HR1); [|apply lookup_insert_eq|..]. }
  assert (ext2_ok d0 (set_dev c1 d0)) as Hok1 by (by exists k, c1).
  pose proof (irep_store _ _ _ _ _ r1 _ (irep_mount _ _ _ _ r1 b sops_table Hw Hmt) Hmt Hok1) as Hw1.
  destruct (read_root_spec m3 A a A' Hs Hw1 Hv Hget) as (s' & i & -> & HR2 & Hreg & Hi & Hno & Hisb).
  cbn [mbind option_bind]. change (vi (ms (set_ms (set_vi s' (ms m3)) m3))) with s'. rewrite Hi. cbn [mbind option_bind].
  change (vd (ms (set_ms (set_vi s' (ms m3)) m3))) with (vd (ms m)). rewrite Hisb, Hroot. cbn [mbind option_bind].
  unfold upd_super. set (m4 := set_ms (set_vd dch _) _). assert (mreg m4 = r1) as -> by exact Hreg.
  assert (supers r1 !! b = Some sb1) as Hb1 by apply lookup_insert_eq. rewrite Hb1. cbn [mbind option_bind].
  eexists _, bh, i, (set_sb_root (Some e) sb1). split; [reflexivity|].
  assert (mounted_dev (set_supers (<[b := set_sb_root (Some e) sb1]> (supers r1)) r1) b sops_table) as Hmt2.
  { apply (registered_mounted _ L f b sops_table (set_sb_root (Some e) sb1)); [|done|apply lookup_insert_eq|done|done].
    apply registered_supers; [done|]. intros y Hy. rewrite lookup_insert. case_decide; eauto. }
  split; [exact Hmt2|]. split; [exact (irep_store _ _ _ _ _ _ _ HR2 Hmt2 (ir_disk _ _ _ _ _ HR2))|]. split_and!; try done; apply lookup_insert_eq.
Qed.

(** C35: mounting.  With a superblock on block 1 that has the magic number,
    [ext2_read_super] returns the superblock object, which [get_super] then
    finds for the device with the ext2 operations; the root inode comes out of
    the inode cache with the superblock as its own, the root entry is the one
    [d_alloc_root] made, and [s_fs_info] holds the counters of block 1 and its
    buffer.  The inode cache is the one [create_inode_cache] leaves before
    the mount, inode 16 taken without a superblock included.  With another
    magic number [ext2_read_super] returns null, and registry, caches and the
    volume's blocks stay as they were. *)
Theorem ext2_read_super_correct (m : mstate (B := B)) k c es L M f x old rest A a A' e dch :
  mountable m k c es L M f x old rest A -> sbis m !! x = None ->
  ext2_valid d0 EXT2_ROOT_INO -> spec_iop (Iget EXT2_ROOT_INO) A = Some (Some a, A') -> d_alloc_root (Some a) (Some b) (vd (ms m)) = Some (Some e, dch) ->
  (get s_magic es = EXT2_SUPER_MAGIC ->
   exists m' bh i sb, read_super (Some b) m = Some (Some b, m') /\ mounted_dev (mreg m') b sops_table /\ rep (vi (ms m')) A' /\
     inodes (vi (ms m')) !! a = Some i /\ in_no i = EXT2_ROOT_INO /\ in_sb i = Some b /\ vd (ms m') = dch /\
     sbis m' !! x = Some (set_sbh bh (copy_ext2_sb_to_mem g_n_block_groups bh es)) /\
     supers (mreg m') !! b = Some sb /\ sb_root sb = Some e /\ sb_fs_info sb = Some x) /\
  (get s_magic es ≠ EXT2_SUPER_MAGIC ->
   exists c', read_super (Some b) m = Some (None, set_mdisk (set_dev c' d0) (mk_mstate (ms m) (sbis m) rest)) /\ same_view c c').
Proof.
  intros Hm Hx Hv Hget Hroot. split; intros Hmg; [by eapply read_super_found|].
  destruct Hm as [Hs Hdk Hq [Hok Hh] _ _ _ _ _ Hp _]. unfold ext2_read_super. rewrite Hp. set (m1 := mk_mstate (ms m) (<[x := old]> (sbis m)) rest).
  change (mdisk m1) with (mdisk m). rewrite Hdk.
  change (dev (set_dev c d0)) with c. destruct (bread_quiet (S k) c 1 es Hq ltac:(lia) Hok Hh) as (bh & c1 & -> & Ht & Hv1). cbn [mbind option_bind].
  pose proof Ht as (_ & _ & buf & _ & _ & _ & _ & _ & Eb & _ & Hbd & _). rewrite Eb. cbn [mbind option_bind].
  rewrite Hbd, (proj2 (Z.eqb_neq _ _) Hmg). cbn [negb]. rewrite set_dev_set_dev. unfold give_up_super, mrelease. set (m2 := set_mdisk _ m1).
  change (mdisk m2) with (set_dev c1 d0). destruct (release_spec (S k) bh 1 es (set_dev c1 d0) Ht) as (c2 & -> & _ & Hv2). cbn [mbind option_bind].
  exists c2. split; [|by eapply same_view_trans]. do 2 f_equal. unfold m2, m1, set_sbis, set_mdisk, set_ms. cbn [sbis ms sbi_pool].
  by rewrite delete_insert_id.
Qed.
End ReadSuper.

(** ** An instance: the registry of Vfs's instance with nothing mounted *)

Definition empty_registry : registry :=
  mk_registry {[1 := Some EXT2_NAME]} {[5 := mk_super 0 0 0 None 0 0 None 1 None]}
    (list_to_map [(FileSystems, mk_list_head (Some (FsList 1)) (Some (FsList 1)));
                  (FsList 1, mk_list_head (Some FileSystems) (Some FileSystems));
                  (FsSupers 1, mk_list_head (Some (FsSupers 1)) (Some (FsSupers 1)));
                  (SList 5, mk_list_head (Some (SList 5)) (Some (SList 5)))]) true true [].

Lemma empty_registered : registered empty_registry [(1, take 4 EXT2_NAME)] (fun _ => []).
Proof.
  split; [done|split; [decided|by vm_compute]|..].
  - intros f n [[= -> ->]|?%elem_of_nil]%elem_of_cons; [|done]. exists EXT2_NAME. split; [done|]. exists []. split; [done|decided].
  - intros f n [[= -> ->]|?%elem_of_nil]%elem_of_cons; [|done]. split; [split; [decided|by vm_compute]|done].
Qed.

Definition mount_disk : gmap Z (list Z) := default ∅ (bd_write 1 (put s_magic EXT2_SUPER_MAGIC (replicate 1024 0)) ∅).

Definition root_dch : dcache :=
  mk_dcache ∅ (list_to_map ((fun y => (y, mk_list_head (Some y) (Some y))) <$> [IDentry 102]))
    [(40, replicate 30 0)].
Definition root_dch' : dcache := match d_alloc_root (Some 102) (Some 5) root_dch with Some (_, s) => s | None => root_dch end.
Definition held_2 : aicache := default held_16 (snd <$> spec_iop (Iget EXT2_ROOT_INO) held_16).

(** The cache [s], created at boot, with the superblock object allocated. *)
Definition demo_mount (c : buffer_cache (gmap Z (list Z))) (s : icache (D := ext2 (buffer_cache (gmap Z (list Z))))) : mstate (B := gmap Z (list Z)) :=
  mk_mstate (mk_vstate (mk_icache (inodes s) (ilinks s) (ipool s) empty_registry (inode_fs 5 c)) root_dch) ∅ [(70, mk_sbi 0 0 0 0 0 0 0 None None None 0 0 0 0)].

Lemma ext2_read_super_correct_witness : exists c s m',
  create_inode_cache (ext2_sops 1 2 3) true (ext2_demo_icache c) = Some s /\
  ext2_read_super 1 2 3 9 true 1 (Some 5) (demo_mount c s) = Some (Some 5, m') /\ mounted_dev (mreg m') 5 9 /\
  exists i, inodes (vi (ms m')) !! 102 = Some i /\ in_no i = EXT2_ROOT_INO.
Proof.
  destruct (demo_quiet_on mount_disk) as (c & Hq & Hd & Hu). destruct (icache_created c Hq) as (s & Es & Hw).
  assert (holds c 1 (put s_magic EXT2_SUPER_MAGIC (replicate 1024 0))) as Hh.
  { right. rewrite Hd. split; [intros b bh Eb _; by eapply Hu|vm_compute; reflexivity]. }
  exists c, s. destruct (ext2_read_super_correct 1 2 3 9 true 1 (inode_fs 5 c) 5 (demo_mount c s) 0 c (put s_magic EXT2_SUPER_MAGIC (replicate 1024 0))
    [(1, take 4 EXT2_NAME)] (fun _ => []) 1 70 (mk_sbi 0 0 0 0 0 0 0 None None None 0 0 0 0) [] held_16 102 held_2 40 root_dch') as [H _].
  - split; [apply inode_std_fs|reflexivity|exact Hq|split; [apply demo_block_ok; lia|exact Hh]|exact empty_registered|vm_compute; reflexivity|reflexivity
      |split; [decided|vm_compute; split; reflexivity]|by eexists|reflexivity|].
    apply (irep_store _ _ _ _ _ _ _ Hw); [vm_compute; reflexivity|exists 1%nat, c; split; [reflexivity|exact Hq]].
  - reflexivity.
  - apply demo_valid. unfold EXT2_ROOT_INO. lia.
  - vm_compute. reflexivity.
  - vm_compute. reflexivity.
  - destruct H as (m' & bh & i & sb & E & Hmt & _ & Hi & Hno & _); [vm_compute; reflexivity|].
    exists m'. split; [exact Es|]. split; [exact E|]. split; [exact Hmt|]. exists i. split; [exact Hi|exact Hno].
Defined.
