(* ===== verification/Paths.v ===== *)
(** * Path operations and first set-up of a volume (split_path, ls, mkdir,
    rmdir, create_root_directory, set_initial_used_blocks, create_test_file and
    disk_write_bn of fs/ext2/fs.c)

    A file handle is the inode's image and its number.  The copy of a path
    lies in a stack array of [strlen] bytes, one byte short.  [slack] is the
    memory behind the array that may be written: in C there is none, and
    [split_path] with an empty [slack] is what the source means; compiled, the
    terminator goes to the byte of the stack that follows.  A call that ends without a
    return statement has no result: the inner [None].  Stack memory that is
    not initialised is an argument; null pointers are followed. *)

From S2P Require Import Mkfs.
From S2P Require Export Ext2Dir.

#[local] Ltac Zify.zify_post_hook ::= Z.to_euclidean_division_equations.

Definition SLASH : list Z := [47; 0].

(** A string given by its address in [mem]. *)
Definition str_at (mem : list Z) (p : Z) : list Z := drop (Z.to_nat p) mem.

Section Paths.
Context {B : Type} `{!BlockDev B}.
Notation fsys := (ext2 (buffer_cache B)).
Variables (alloc : bool) (free : Z -> fsys -> option fsys).
Implicit Types s : fsys.

(** [while (following_dirname != NULL)] *)
Fixpoint split_loop (fuel : nat) (curr : list Z * Z) (next_dirname : option Z) (following : option Z) (mem : list Z)
  (st : strtok_state) s : option (option (list Z * Z * option Z * list Z) * strtok_state * fsys) :=
  match fuel with
  | O => None
  | S fuel =>
      match following with
      | None => Some (Some (curr, next_dirname, mem), st, s)
      | Some _ =>
          p ← next_dirname;
          '(r, s) ← chdir alloc free curr.1 (str_at mem p) s;
          match r with
          | None => Some (None, st, s)
          | Some next_dir =>
              '(following', mem, st) ← strtok mem st None SLASH;
              split_loop fuel next_dir following following' mem st s
          end
      end
  end.

(** Parent directory and the bytes of [leaf]; the inner [None] is -1. *)
Definition split_path (usr_path slack leaf : list Z) (st : strtok_state) s
  : option (option (list Z * Z * list Z) * strtok_state * fsys) :=
  n ← strlen usr_path;
  mem ← strcpy (replicate (Z.to_nat n) 0 ++ slack) usr_path;
  '(next_dirname, mem, st) ← strtok mem st (Some 0) SLASH;
  p ← next_dirname;
  n ← strlen (str_at mem p);
  if negb (n =? 0) then Some (None, st, s)
  else
    '(next_dirname, mem, st) ← strtok mem st None SLASH;
    '(following, mem, st) ← strtok mem st None SLASH;
    '(ri, rn, s) ← get_root_dir s;
    '(r, st, s) ← split_loop (S (length mem)) (ri, rn) next_dirname following mem st s;
    match r with
    | None => Some (None, st, s)
    | Some (curr, next_dirname, mem) =>
        p ← next_dirname;
        leaf ← strcpy leaf (str_at mem p);
        Some (Some (curr, leaf), st, s)
    end.

(** [for (i = 0; i < block_len; i++)] of [ls]; kfree of a null pointer does
    nothing. *)
Fixpoint ls_blocks (n : nat) (i : Z) (dir : list Z) s : option fsys :=
  match n with
  | O => Some s
  | S n =>
      '(o, s) ← get_file_block alloc dir i s;
      s ← match o with Some b => free b s | None => Some s end;
      ls_blocks n (i + 1) dir s
  end.

(** The results of both calls are not looked at: on failure the directory is
    what the stack held. *)
Definition ls (path slack leaf : list Z) (stale_parent stale_dir : list Z) (st : strtok_state) s : option (strtok_state * fsys) :=
  '(r, st, s) ← split_path path slack leaf st s;
  let '(parent, leaf) := match r with Some (p, l) => (p.1, l) | None => (stale_parent, leaf) end in
  '(d, s) ← chdir alloc free parent leaf s;
  let leaf_dir := match d with Some (img, _) => img | None => stale_dir end in
  s ← ls_blocks (Z.to_nat (i_block_len leaf_dir s)) 0 leaf_dir s;
  Some (st, s).

(** When nothing is free the numbers are what the stack held. *)
Definition mkdir (fuel : nat) (path slack leaf : list Z) (stale_ino stale_blk stale : Z) (stale_inode : list Z) (st : strtok_state) s
  : option (option Z * strtok_state * fsys) :=
  '(r, st, s) ← split_path path slack leaf st s;
  match r with
  | None => Some (Some (-1), st, s)
  | Some (parent_dir, new_dirname) =>
      '(r, s) ← on_disk (B := B) reserve_free_inode s;
      let new_inode_n := default stale_ino r in
      '(_, s) ← on_disk (B := B) reserve_free_block s;
      s ← write_inode_table new_inode_n (new_dir_inode stale_inode) s;
      n ← strlen new_dirname;
      let d := put d_file_type EXT2_FT_DIR (put d_name_len n (put d_rec_len DENTRY_SIZE (put Dir.d_inode new_inode_n (replicate 72 0)))) in
      nm ← strcpy (slice 8 64 d) new_dirname;
      '(_, s) ← add_dentry fuel alloc stale parent_dir.1 parent_dir.2 (splice 8 nm d) s;
      Some (None, st, s)
  end.

Definition rmdir (path slack leaf : list Z) (st : strtok_state) s : option (option Z * strtok_state * fsys) :=
  '(r, st, s) ← split_path path slack leaf st s;
  match r with
  | None => Some (Some (-1), st, s)
  | Some _ => Some (None, st, s)
  end.

Definition create_root_directory (stale_inode : list Z) s : option fsys :=
  let new_inode := new_dir_inode stale_inode in
  '(_, s) ← on_disk (B := B) (fun e => e ← reserve_inode EXT2_ROOT_INO e; Some (tt, e)) s;
  write_inode_table EXT2_ROOT_INO new_inode s.
End Paths.

(** ** Marking the metadata of a new volume *)

Section Initial.
Context {B : Type} `{!BlockDev B}.
Implicit Types e : ext2 B.

Fixpoint mark_tables (n : nat) (i bpg : Z) e : option (ext2 B) :=
  match n with
  | O => Some e
  | S n =>
      e ← set_block_bitmap (u32 (3 + i)) e;
      e ← set_block_bitmap (u32 (3 + bpg + i)) e;
      e ← set_block_bitmap (u32 (1 + 2 * bpg + i)) e;
      mark_tables n (i + 1) bpg e
  end.

Definition set_initial_used_blocks e : option (ext2 B) :=
  let inodes_per_block := u16 (1024 `div` 128) in
  let inode_table_blocks := get s_inodes_per_group (super e) `div` inodes_per_block in
  let bpg := get s_blocks_per_group (super e) in
  e ← set_block_bitmap 0 e;
  e ← set_block_bitmap 1 e;
  e ← set_block_bitmap (u32 (1 + bpg)) e;
  e ← set_block_bitmap 2 e;
  e ← set_block_bitmap (u32 (2 + bpg)) e;
  mark_tables (Z.to_nat (u32 (2 + inode_table_blocks))) 0 bpg e.
End Initial.

(** ** The test file

    [disk_write_bn] writes sectors that it fills up with zeros. *)
Section TestFile.
Context {D : Type} `{!SectorDev D} (v : volume) (Hv : Disk.s_log_block_size v = 0).
#[local] Instance file_dev : BlockDev D := volume_dev v Hv.
Notation fsys := (ext2 (buffer_cache D)).

(** [disk_write] of drivers/disk.c on sectors. *)
Fixpoint write_chars (rounds : nat) (lba : Z) (buf : list Z) (left : nat) (d : D) : option D :=
  match rounds with
  | O => None
  | S rounds =>
      if (left =? 0)%nat then Some d
      else
        let n := Nat.min left 512 in
        if (n <=? length buf)%nat then
          write_chars rounds (u32 (lba + 1)) (drop 512 buf) (left - n) (sec_write lba (take n buf ++ replicate (512 - n) 0) d)
        else None
  end.

Definition disk_write_bn (block_num : Z) (buf : list Z) (len : nat) (d : D) : option (Z * D) :=
  if negb (fs_start_set v) then Some (-1, d)
  else if Disk.S_BLOCK_SIZE v <? Z.of_nat len then Some (-1, d)
  else d ← write_chars (S len) (block_lba v block_num) buf len d; Some (0, d).

Definition bn (block_num : Z) (buf : list Z) (s : fsys) : option fsys :=
  '(_, s) ← on_disk (B := D) (fun e => '(_, d) ← disk_write_bn block_num buf (length buf) (dev e); Some (tt, set_dev d e)) s; Some s.

Definition below (f : ext2 D -> option (ext2 D)) (s : fsys) : option fsys :=
  '(_, s) ← on_disk (B := D) (fun e => e ← f e; Some (tt, e)) s; Some s.

Definition TEST_NAME : list Z := [116; 101; 115; 116; 46; 116; 120; 116; 0].

Definition test_inode (free_block_n : Z) : list Z :=
  put (i_block 0) free_block_n (put i_blocks 2 (put i_size 4 (put i_mode EXT2_S_IFREG (replicate 128 0)))).

Definition create_test_file (s : fsys) : option (option Z * fsys) :=
  '(r, _) ← on_disk (B := D) (fun e => r ← first_free_block_num e; Some (r, e)) s;
  match r with
  | None => Some (Some (-1), s)
  | Some free_block_n =>
      '(r, _) ← on_disk (B := D) (fun e => r ← first_free_inode_num e; Some (r, e)) s;
      match r with
      | None => Some (Some (-1), s)
      | Some free_inode_n =>
          s ← write_inode_table free_inode_n (test_inode free_block_n) s;
          s ← below (set_inode_bitmap free_inode_n) s;
          s ← below (set_block_bitmap free_block_n) s;
          let d := put d_file_type EXT2_FT_DIR (put d_name_len 9 (put d_rec_len (block_size s) (put Dir.d_inode free_inode_n (replicate 72 0)))) in
          nm ← strcpy (slice 8 64 d) TEST_NAME;
          '(root, _, s) ← get_root_dir s;
          s ← bn (get (i_block 0) root) (splice 8 nm d) s;
          s ← bn free_block_n [72; 105; 10; 0] s;
          s ← below (update_inode_bg_desc free_inode_n) s;
          s ← below (update_block_bg_desc free_block_n) s;
          s ← below disk_sync_bgdt s;
          s ← below (fun e => disk_sync_super (dec_super s_free_inodes_count (dec_super s_free_blocks_count e))) s;
          Some (None, s)
      end
  end.
End TestFile.

(** ** Tokens of a path *)

(** The words with slashes between them, and what follows the first word once
    it has been cut off. *)
Fixpoint join (ws : list (list Z)) : list Z :=
  match ws with [] => [] | w :: ws => w ++ match ws with [] => [] | _ => 47 :: join ws end end.

Definition after (ws : list (list Z)) (slack : list Z) : list Z := match ws with [] => slack | _ => join ws ++ 0 :: slack end.

Definition at_token (ws : list (list Z)) (pos : nat) : strtok_state :=
  match ws with [] => mk_strtok (Z.of_nat pos) 0 | _ => mk_strtok (Z.of_nat (pos + 1)) (Z.of_nat (length (join ws))) end.

Definition word (w : list Z) : Prop := w ≠ [] /\ 0 ∉ w /\ 47 ∉ w.

Lemma slash_set : cstring SLASH [47].
Proof. exists []. split; [done|decided]. Qed.

Lemma word_free w : 47 ∉ w -> Forall (fun x => x ∉ [47]) w.
Proof. intros H. apply Forall_forall. intros x Hx ->%list_elem_of_singleton. done. Qed.

(** One token is cut off. *)
Lemma next_token w ws pre slack tok : 0 ∉ w -> 47 ∉ w ->
  strtok_loop (S (length (pre ++ join (w :: ws) ++ 0 :: slack))) (pre ++ join (w :: ws) ++ 0 :: slack)
    (mk_strtok (Z.of_nat (length pre)) (Z.of_nat (length (join (w :: ws))))) SLASH tok =
  Some (Some tok, pre ++ w ++ 0 :: after ws slack, at_token ws (length pre + length w)).
Proof.
  intros H0 H47. destruct ws as [|w' ws]; cbn [join].
  - rewrite app_nil_r. rewrite (strtok_loop_skip SLASH [47]); [|apply slash_set|done|by apply word_free|rewrite !length_app; lia].
    replace (S (length (pre ++ w ++ 0%Z :: slack)) - length w)%nat with (S (length pre + S (length slack))) by (rewrite !length_app; simpl; lia).
    cbn [strtok_loop st_buf st_left]. rewrite (assoc_L (++)). rewrite <- (Z.add_0_r (Z.of_nat _)) at 1. rewrite <- length_app, zget_app_r by lia.
    change (zget (0 :: slack) 0) with (Some 0). cbn [mbind option_bind]. rewrite (char_in_set_spec _ _ _ slash_set).
    rewrite bool_decide_false by (by intros ?%list_elem_of_singleton). cbn [mbind option_bind Z.eqb].
    apply (f_equal Some), (f_equal2 pair); [apply (f_equal2 pair); [done|by rewrite <- (assoc_L (++))]|].
    unfold at_token. f_equal; rewrite ?length_app; lia.
  - rewrite <- (assoc_L (++)). cbn [app]. set (rest := join (w' :: ws)). change (w' ++ match ws with [] => [] | _ => 47 :: join ws end) with rest.
    rewrite (strtok_loop_skip SLASH [47]); [|apply slash_set|done|by apply word_free|rewrite !length_app; lia].
    replace (S (length (pre ++ w ++ 47%Z :: rest ++ 0%Z :: slack)) - length w)%nat with (S (length pre + S (length (rest ++ 0%Z :: slack)))) by (rewrite !length_app; cbn [length]; rewrite ?length_app; cbn [length]; lia).
    cbn [strtok_loop st_buf st_left]. rewrite (assoc_L (++)). rewrite <- (Z.add_0_r (Z.of_nat _)) at 1. rewrite <- length_app, zget_app_r by lia.
    change (zget (47 :: rest ++ 0 :: slack) 0) with (Some 47). cbn [mbind option_bind]. rewrite (char_in_set_spec _ _ _ slash_set).
    rewrite bool_decide_true by (by left). cbn [mbind option_bind].
    rewrite zset_in_range by (rewrite !length_app; simpl; lia). cbn [mbind option_bind]. rewrite Nat2Z.id.
    rewrite insert_app_r_alt, Nat.sub_diag by lia. cbn [insert list_insert].
    apply (f_equal Some), (f_equal2 pair); [apply (f_equal2 pair); [done|by rewrite <- (assoc_L (++))]|].
    unfold at_token. fold rest. f_equal; rewrite ?length_app; cbn [length]; lia.
Qed.

(** The next call of [strtok]: the word behind the one cut off last. *)
Lemma strtok_next ws pre slack : Forall word ws ->
  strtok (pre ++ 0 :: after ws slack) (at_token ws (length pre)) None SLASH =
  match ws with
  | [] => Some (None, pre ++ 0 :: after ws slack, at_token ws (length pre))
  | w :: ws => Some (Some (Z.of_nat (length pre + 1)), (pre ++ [0]) ++ w ++ 0 :: after ws slack, at_token ws (length (pre ++ [0]) + length w))
  end.
Proof.
  intros Hw. destruct ws as [|w ws]; unfold strtok; cbn [mbind option_bind]; [done|].
  apply Forall_cons in Hw as [(Hne & H0 & H47) _].
  assert (0 < length (join (w :: ws)))%nat by (cbn [join]; rewrite length_app; destruct w; [done|simpl; lia]).
  assert (length (pre ++ [0%Z]) = length pre + 1)%nat as Hl by (rewrite length_app; simpl; lia).
  assert (at_token (w :: ws) (length pre) = mk_strtok (Z.of_nat (length (pre ++ [0%Z]))) (Z.of_nat (length (join (w :: ws))))) as -> by (unfold at_token; by rewrite Hl).
  cbn [st_left st_buf]. rewrite (proj2 (Z.eqb_neq _ _)) by lia. cbn [after].
  replace (pre ++ 0 :: join (w :: ws) ++ 0 :: slack) with ((pre ++ [0]) ++ join (w :: ws) ++ 0 :: slack) by (by rewrite <- (assoc_L (++))).
  rewrite next_token by done. by rewrite Hl.
Qed.

Lemma find_name_string n : forall i blk name w, cstring name w -> find_name n i blk name = find_name n i blk (w ++ [0]).
Proof.
  induction n as [|n IH]; intros i blk name w Hw; [done|]. cbn [find_name]. destruct (load _ _ _) as [d|]; [|done]. cbn [mbind option_bind].
  rewrite (strcmp_name _ name w Hw). destruct (strcmp _ _) as [r|]; [|done]. cbn [mbind option_bind]. case_match; [done|by apply IH].
Qed.

Section SplitPath.
Context {B : Type} `{!BlockDev B}.
Notation fsys := (ext2 (buffer_cache B)).
Variables (alloc : bool) (free : Z -> fsys -> option fsys).
Implicit Types s : fsys.

Lemma chdir_blocks_string n : forall i dir name w s,
  cstring name w -> chdir_blocks alloc free n i dir name s = chdir_blocks alloc free n i dir (w ++ [0]) s.
Proof.
  induction n as [|n IH]; intros i dir name w s Hw; [done|]. cbn [chdir_blocks].
  destruct (get_file_block _ _ _ _) as [[[b|] s1]|]; [|done..]. cbn [mbind option_bind]. destruct (bufs _ !! b) as [bh|]; [|done]. cbn [mbind option_bind].
  rewrite (find_name_string _ _ _ name w Hw). destruct (find_name _ _ _ _) as [[r|]|]; [done| |done]. cbn [mbind option_bind].
  destruct (free b s1) as [s2|]; [|done]. cbn [mbind option_bind]. by apply IH.
Qed.

Lemma chdir_string dir name w s : cstring name w -> chdir alloc free dir name s = chdir alloc free dir (w ++ [0]) s.
Proof. apply chdir_blocks_string. Qed.

(** The reference: enter the directories one after the other; the last word is
    left. *)
Fixpoint enter_dirs (ws : list (list Z)) (curr : list Z * Z) s : option (option (list Z * Z * list Z) * fsys) :=
  match ws with
  | [] => None
  | [leaf] => Some (Some (curr, leaf), s)
  | w :: ws =>
      '(r, s) ← chdir alloc free curr.1 (w ++ [0]) s;
      match r with
      | None => Some (None, s)
      | Some next_dir => enter_dirs ws next_dir s
      end
  end.

(** [following] after the word at the end of [pre]. *)
Definition following_of (ws : list (list Z)) (pos : nat) : option Z := match ws with [] => None | _ => Some (Z.of_nat (pos + 1)) end.
Definition cut_mem (ws : list (list Z)) (slack : list Z) : list Z := match ws with [] => slack | w :: ws => w ++ 0 :: after ws slack end.
Definition cut_state (ws : list (list Z)) (pos : nat) : strtok_state :=
  match ws with [] => at_token [] pos | w :: ws => at_token ws (pos + 1 + length w) end.

Lemma split_loop_spec fuel : forall w ws pre slack curr s,
  Forall word (w :: ws) -> (length ws < fuel)%nat ->
  match enter_dirs (w :: ws) curr s with
  | None => split_loop alloc free fuel curr (Some (Z.of_nat (length pre))) (following_of ws (length pre + length w)) (pre ++ w ++ 0 :: cut_mem ws slack)
              (cut_state ws (length pre + length w)) s = None
  | Some (None, s') => exists st, split_loop alloc free fuel curr (Some (Z.of_nat (length pre))) (following_of ws (length pre + length w))
              (pre ++ w ++ 0 :: cut_mem ws slack) (cut_state ws (length pre + length w)) s = Some (None, st, s')
  | Some (Some (c, leaf), s') => exists p mem st, split_loop alloc free fuel curr (Some (Z.of_nat (length pre))) (following_of ws (length pre + length w))
              (pre ++ w ++ 0 :: cut_mem ws slack) (cut_state ws (length pre + length w)) s = Some (Some (c, Some p, mem), st, s') /\ cstring (str_at mem p) leaf
  end.
Proof.
  induction fuel as [|fuel IH]; intros w ws pre slack curr s Hw Hf; [lia|]. apply Forall_cons in Hw as [(Hne & H0 & H47) Hws].
  assert (cstring (str_at (pre ++ w ++ 0 :: cut_mem ws slack) (Z.of_nat (length pre))) w) as Hstr.
  { exists (cut_mem ws slack). split; [|done]. unfold str_at. by rewrite Nat2Z.id, drop_app_length. }
  destruct ws as [|w' ws]; cbn [enter_dirs split_loop following_of mbind option_bind].
  - eexists _, _, _. split; [reflexivity|exact Hstr].
  - rewrite (chdir_string _ _ w s Hstr). destruct (chdir alloc free curr.1 (w ++ [0]) s) as [[[nd|] s1]|]; cbn [mbind option_bind]; [|by eexists|done].
    cbn [cut_mem cut_state]. pose proof (Forall_cons_1 _ _ _ Hws) as [Hw' Hws'].
    pose proof (strtok_next ws (pre ++ w ++ 0 :: w') slack Hws') as Ht.
    replace (pre ++ w ++ 0 :: w' ++ 0 :: after ws slack) with ((pre ++ w ++ 0 :: w') ++ 0 :: after ws slack) by (by rewrite <- !(assoc_L (++))).
    assert (length (pre ++ w ++ 0%Z :: w') = length pre + length w + 1 + length w')%nat as Hl by (rewrite !length_app; simpl; lia).
    rewrite Hl in Ht. rewrite Ht.
    specialize (IH w' ws (pre ++ w ++ [0]) slack nd s1 Hws ltac:(simpl in Hf; lia)).
    replace (length (pre ++ w ++ [0%Z])) with (length pre + length w + 1)%nat in IH by (rewrite !length_app; simpl; lia).
    replace ((pre ++ w ++ [0]) ++ w' ++ 0 :: cut_mem ws slack) with ((pre ++ w ++ 0 :: w') ++ 0 :: cut_mem ws slack) in IH by (by rewrite <- !(assoc_L (++))).
    assert (match ws with
            | [] => Some (None, (pre ++ w ++ 0 :: w') ++ 0 :: after ws slack, at_token ws (length pre + length w + 1 + length w'))
            | w0 :: ws0 => Some (Some (Z.of_nat (length pre + length w + 1 + length w' + 1)), ((pre ++ w ++ 0 :: w') ++ [0]) ++ w0 ++ 0 :: after ws0 slack,
                at_token ws0 (length ((pre ++ w ++ 0 :: w') ++ [0]) + length w0))
            end = Some (following_of ws (length pre + length w + 1 + length w'), (pre ++ w ++ 0 :: w') ++ 0 :: cut_mem ws slack,
                        cut_state ws (length pre + length w + 1 + length w'))) as ->.
    { destruct ws as [|w0 ws0]; [done|]. cbn [following_of cut_mem cut_state]. rewrite length_app, Hl. cbn [length]. by rewrite <- !(assoc_L (++)). }
    cbn [mbind option_bind]. exact IH.
Qed.

Lemma enter_dirs_leaf ws : forall curr s c leaf s', enter_dirs ws curr s = Some (Some (c, leaf), s') -> last ws = Some leaf.
Proof.
  induction ws as [|w ws IH]; intros curr s c leaf s' E; [done|]. cbn [enter_dirs] in E. destruct ws as [|w' ws]; [by injection E as <- <- <-|].
  destruct (chdir _ _ _ _ _) as [[[nd|] s1]|]; cbn [mbind option_bind] in E; [|done..].
  rewrite last_cons_cons. by eapply IH.
Qed.

Lemma join_length ws : Forall word ws -> (length ws <= length (join ws))%nat.
Proof.
  induction 1 as [|w ws (Hne & _) _ IH]; [done|]. cbn [join length]. rewrite length_app. assert (1 <= length w)%nat by (destruct w; [done|simpl; lia]).
  destruct ws; [simpl in *; lia|]. cbn [length] in *. lia.
Qed.

(** The first call cuts off the empty word before the first slash. *)
Lemma split_first ws slack st : ws ≠ [] -> Forall word ws ->
  strtok (47 :: join ws ++ 0 :: slack) st (Some 0) SLASH = Some (Some 0, 0 :: after ws slack, at_token ws 0).
Proof.
  intros Hne Hw. unfold strtok. cbn [Z.ltb Z.compare Z.to_nat drop].
  assert (forall ws', Forall word ws' -> 0 ∉ join ws') as Hj.
  { induction 1 as [|w ws' (_ & H0 & _) _ IH]; [apply not_elem_of_nil|]. cbn [join]. rewrite not_elem_of_app. split; [done|].
    destruct ws'; [apply not_elem_of_nil|]. rewrite not_elem_of_cons. done. }
  rewrite (strlen_spec _ (47 :: join ws)) by (exists slack; split; [done|rewrite not_elem_of_cons; split; [done|by apply Hj]]).
  cbn [mbind option_bind st_left]. rewrite (proj2 (Z.eqb_neq _ _)) by (simpl; lia). cbn [st_buf].
  destruct ws as [|w ws]; [done|]. exact (next_token [] (w :: ws) [] slack 0 (not_elem_of_nil _) (not_elem_of_nil _)).
Qed.

Lemma split_path_spec usr_path ws slack x leaf st s :
  cstring usr_path (47 :: join ws) -> ws ≠ [] -> Forall word ws -> (length (default [] (last ws)) < length leaf)%nat ->
  match ('(ri, rn, s) ← get_root_dir s; enter_dirs ws (ri, rn) s) with
  | None => split_path alloc free usr_path (x :: slack) leaf st s = None
  | Some (None, s') => exists st', split_path alloc free usr_path (x :: slack) leaf st s = Some (None, st', s')
  | Some (Some (c, name), s') => exists leaf' st',
      split_path alloc free usr_path (x :: slack) leaf st s = Some (Some (c, leaf'), st', s') /\ cstring leaf' name
  end.
Proof.
  intros Hp Hne Hw Hlf. unfold split_path. rewrite (strlen_spec _ _ Hp). cbn [mbind option_bind]. rewrite Nat2Z.id.
  rewrite (strcpy_spec _ _ _ Hp) by (rewrite length_app, length_replicate; cbn [length]; lia). cbn [mbind option_bind].
  rewrite drop_app_ge by (rewrite length_replicate; lia). rewrite length_replicate.
  replace (S (length (47%Z :: join ws)) - length (47%Z :: join ws))%nat with 1%nat by lia. cbn [drop app].
  rewrite drop_0. rewrite split_first by done. cbn [mbind option_bind]. change (strlen (str_at (0 :: after ws slack) 0)) with (Some 0). cbn [mbind option_bind Z.eqb negb].
  pose proof (strtok_next ws [] slack Hw) as Ht1. cbn [app length] in Ht1. rewrite Ht1. destruct ws as [|w ws]; [done|]. cbn [mbind option_bind app length].
  pose proof (Forall_cons_1 _ _ _ Hw) as [_ Hws]. pose proof (strtok_next ws (0 :: w) slack Hws) as Ht2. cbn [app length] in Ht2.
  change (0 + 1)%nat with 1%nat. change (1 + length w)%nat with (S (length w)). rewrite Ht2.
  assert (match ws with
          | [] => Some (None, 0 :: w ++ 0 :: after ws slack, at_token ws (S (length w)))
          | w0 :: ws0 => Some (Some (Z.of_nat (S (length w) + 1)), 0 :: (w ++ [0]) ++ w0 ++ 0 :: after ws0 slack, at_token ws0 (S (length (w ++ [0])) + length w0))
          end = Some (following_of ws (1 + length w), [0] ++ w ++ 0 :: cut_mem ws slack, cut_state ws (1 + length w))) as ->.
  { destruct ws as [|w0 ws0]; [done|]. cbn [following_of cut_mem cut_state app]. rewrite length_app. cbn [length]. rewrite <- !(assoc_L (++)). cbn [app].
    done. }
  cbn [mbind option_bind]. destruct (get_root_dir s) as [[[ri rn] s1]|]; [|done]. cbn [mbind option_bind].
  pose proof (join_length _ Hw) as Hjl. assert (length ws < S (length ([0%Z] ++ w ++ 0%Z :: cut_mem ws slack)))%nat as Hfuel.
  { rewrite !length_app. cbn [length]. destruct ws as [|w0 ws0]; [simpl; lia|]. cbn [cut_mem length]. rewrite !length_app. cbn [length].
    destruct ws0 as [|w1 ws1]; [simpl; lia|]. cbn [after]. rewrite length_app. apply Forall_cons in Hws as [_ Hws0]. pose proof (join_length _ Hws0). cbn [length] in *. lia. }
  pose proof (split_loop_spec (S (length ([0%Z] ++ w ++ 0%Z :: cut_mem ws slack))) w ws [0] slack (ri, rn) s1 Hw Hfuel) as HL.
  change (Z.of_nat (length [0])) with (Z.of_nat 1) in HL. change (length [0%Z] + length w)%nat with (1 + length w)%nat in HL.
  destruct (enter_dirs (w :: ws) (ri, rn) s1) as [[[[c name]|] s']|] eqn:Ee.
  - destruct HL as (p & mem & st' & -> & Hstr). cbn [mbind option_bind].
    assert (length name < length leaf)%nat as Hn by (by rewrite (enter_dirs_leaf _ _ _ _ _ _ Ee) in Hlf).
    rewrite (strcpy_spec _ _ _ Hstr Hn). cbn [mbind option_bind]. eexists _, st'. split; [reflexivity|]. destruct Hstr as (r & _ & H0). by eexists.
  - destruct HL as (st' & ->). cbn [mbind option_bind]. by eexists.
  - rewrite HL. done.
Qed.
End SplitPath.

(** ** Main theorems *)

Lemma split_path_overruns {B} `{!BlockDev B} alloc free usr_path p leaf st (s : ext2 (buffer_cache B)) :
  cstring usr_path p -> split_path alloc free usr_path [] leaf st s = None.
Proof.
  intros Hp. unfold split_path. rewrite (strlen_spec _ _ Hp). cbn [mbind option_bind]. rewrite Nat2Z.id, app_nil_r.
  assert (strcpy (replicate (length p) 0) usr_path = None) as ->; [|done]. revert usr_path Hp. induction p as [|c p IH]; intros u Hu.
  - apply cstring_nil in Hu as [t ->]. done.
  - apply cstring_cons in Hu as (t & -> & Hc & Hu). cbn [length replicate strcpy]. rewrite (proj2 (Z.eqb_neq _ _)) by done. by rewrite (IH t Hu).
Qed.

(** C36: split_path writes behind its array for every path, and resolves the
    path when the byte there may be written.  With the array as declared,
    [strlen] bytes, copying the path overruns it, whatever the path.  With at
    least one byte behind it, as when the stack has padding there, an absolute
    path is resolved word by word: from the root directory the directory of
    every word but the last is entered with chdir, and the result is the
    directory reached and the last word, which must fit into [leaf], or -1
    when chdir fails; it is then defined exactly when those calls are. *)
Theorem split_path_correct {B} `{!BlockDev B} alloc free usr_path ws leaf st (s : ext2 (buffer_cache B)) :
  cstring usr_path (47 :: join ws) -> ws ≠ [] -> Forall word ws -> (length (default [] (last ws)) < length leaf)%nat ->
  split_path alloc free usr_path [] leaf st s = None /\
  forall x slack,
  match ('(ri, rn, s) ← get_root_dir s; enter_dirs alloc free ws (ri, rn) s) with
  | None => split_path alloc free usr_path (x :: slack) leaf st s = None
  | Some (None, s') => exists st', split_path alloc free usr_path (x :: slack) leaf st s = Some (None, st', s')
  | Some (Some (c, name), s') => exists leaf' st',
      split_path alloc free usr_path (x :: slack) leaf st s = Some (Some (c, leaf'), st', s') /\ cstring leaf' name
  end.
Proof. intros Hp Hne Hw Hl. split; [by eapply split_path_overruns|]. intros x slack. by apply split_path_spec. Qed.

Lemma split_path_correct_witness : exists c s' leaf' st',
  split_path true (fun _ s => Some s) [47; 97; 0] [] (replicate 64 0) (mk_strtok 0 0) (inode_fs 5 c) = None /\
  split_path true (fun _ s => Some s) [47; 97; 0] [9; 9] (replicate 64 0) (mk_strtok 0 0) (inode_fs 5 c) = Some (Some (root_img, EXT2_ROOT_INO, leaf'), st', s') /\
  cstring leaf' [97].
Proof.
  destruct (demo_quiet_on cat_disk) as (c & Hq & Hd & Hu). destruct (cat_reads c Hd Hu) as (H5 & _). clear Hd Hu. exists c.
  destruct (get_stored 1 (inode_fs 5 c) 2 root_img (inode_std_fs 5 c) Hq) as (c' & E & _).
  { exists 5, 128, table5. split_and!; [apply inode_places|lia|lia|apply demo_block_ok; lia|exact H5|vm_compute; reflexivity]. }
  destruct (split_path_correct true (fun _ s => Some s) [47; 97; 0] [[97]] (replicate 64 0) (mk_strtok 0 0) (inode_fs 5 c)) as [H0 H].
  - exists []. split; [reflexivity|decided].
  - done.
  - forall_cons ltac:(split_and!; [done|decided|decided]).
  - simpl. lia.
  - specialize (H 9 [9]). unfold get_root_dir, EXT2_ROOT_INO in H. rewrite E in H. cbn [mbind option_bind enter_dirs] in H.
    destruct H as (leaf' & st' & E' & Hl). exists (set_dev c' (inode_fs 5 c)), leaf', st'. split; [exact H0|]. split; [exact E'|exact Hl].
Defined.
