(* ===== verification/Slab.v ===== *)
(** * The slab allocator (memory-management/slab.c, include/slab.h)

    Cache and slab descriptors are records keyed by their address; their list
    heads are the nodes of one link store; the first word of an object, which
    chains the free objects of a slab, is in a word memory; the three fields
    the allocator keeps in [struct page] ([lru.next], [lru.prev],
    [first_page]) are keyed by page frame.  Page frames come from any
    [PageAllocator]. *)

From S2P Require Export Lists PageAlloc.

Definition PAGE_SHIFT : Z := 12.
Definition PAGE_SIZE : Z := 4096.
Definition PAGE_OFFSET : Z := 0xC0000000.
Definition L1_CACHE_BYTES : Z := 32.
Definition BYTES_PER_WORD : Z := 4.
Definition KMALLOC_MAX_ORDER : Z := 10.
Definition KMALLOC_MINALIGN : Z := 8.
Definition CFLGS_OFF_SLAB : Z := 0x80000000.
Definition SLAB_HWCACHE_ALIGN : Z := 0x2000.
Definition KMALLOC_FLAGS : Z := SLAB_HWCACHE_ALIGN.
Definition sizeof_slab_t : Z := 28.
Definition sizeof_kmem_cache : Z := 104.

(** [ALIGN(x, a)] on 32 bits. *)
Definition ALIGN (x a : Z) : Z := Z.land (u32 (x + (a - 1))) (Z.lnot (a - 1)).

Definition pa_of (x : Z) : Z := if PAGE_OFFSET <=? x then x - PAGE_OFFSET else x.
Definition va_of (x : Z) : Z := u32 (x + PAGE_OFFSET).
Definition virt_to_page (kaddr : Z) : Z := Z.shiftr (pa_of kaddr) PAGE_SHIFT.
Definition page_address (page : Z) : Z := va_of (Z.shiftl page PAGE_SHIFT).

Inductive snode := LFull (c : Z) | LPart (c : Z) | LFree (c : Z) | SlabN (s : Z) | Chain | CacheN (c : Z).

#[export] Instance snode_eq_dec : EqDecision snode.
Proof. solve_decision. Defined.

#[export] Instance snode_countable : Countable snode.
Proof.
  refine (inj_countable'
    (fun n => match n with LFull c => inl (inl c) | LPart c => inl (inr (inl c)) | LFree c => inl (inr (inr c))
       | SlabN s => inr (inl s) | Chain => inr (inr None) | CacheN c => inr (inr (Some c)) end)
    (fun s : (Z + (Z + Z)) + (Z + option Z) => match s with inl (inl c) => LFull c | inl (inr (inl c)) => LPart c
       | inl (inr (inr c)) => LFree c | inr (inl s) => SlabN s | inr (inr None) => Chain | inr (inr (Some c)) => CacheN c end) _).
  by intros [].
Defined.

(** A constructor or destructor is what it does to the word memory. *)
Definition cfun : Type := Z -> gmap Z Z -> gmap Z Z.

Record kmem_cache := mk_kmem_cache {
  free_objects : Z;
  objsize : Z;
  cflags : Z;
  num : Z;
  free_limit : Z;
  gfporder : Z;
  gfpflags : Z;
  colour : Z;
  colour_off : Z;
  colour_next : Z;
  slabp_cache : Z;
  slab_size : Z;
  ctor : option cfun;
  dtor : option cfun
}.

Record slab_s := mk_slab { colouroff : Z; s_mem : Z; inuse : Z; free : Z; free_list : Z }.

Record page_use := mk_use { pg_cache : Z; pg_slab : Z; pg_first : Z }.

Record world {S : Type} := mk_world {
  caches : gmap Z kmem_cache;
  slabs : gmap Z slab_s;
  links : gmap snode (list_head snode);
  words : gmap Z Z;
  pgs : gmap Z page_use;
  pages : S
}.
Arguments world : clear implicits.

Definition set_free_objects (v : Z) (k : kmem_cache) : kmem_cache :=
  mk_kmem_cache (u32 v) (objsize k) (cflags k) (num k) (free_limit k) (gfporder k) (gfpflags k) (colour k)
    (colour_off k) (colour_next k) (slabp_cache k) (slab_size k) (ctor k) (dtor k).
Definition set_colour_next (v : Z) (k : kmem_cache) : kmem_cache :=
  mk_kmem_cache (free_objects k) (objsize k) (cflags k) (num k) (free_limit k) (gfporder k) (gfpflags k) (colour k)
    (colour_off k) v (slabp_cache k) (slab_size k) (ctor k) (dtor k).
Definition set_slabp_cache (v : Z) (k : kmem_cache) : kmem_cache :=
  mk_kmem_cache (free_objects k) (objsize k) (cflags k) (num k) (free_limit k) (gfporder k) (gfpflags k) (colour k)
    (colour_off k) (colour_next k) v (slab_size k) (ctor k) (dtor k).
Definition OFF_SLAB (k : kmem_cache) : bool := has_flag (cflags k) CFLGS_OFF_SLAB.

(** ** Geometry *)

Definition slab_mgmt_size (align : Z) : Z := ALIGN sizeof_slab_t align.

(** [(num, left_over)]; a zero [objsize] is a division by zero. *)
Definition cache_estimate (gfporder objsize align flags : Z) : option (Z * Z) :=
  let slab_size := u32 (Z.shiftl PAGE_SIZE gfporder) in
  if objsize =? 0 then None
  else if has_flag flags CFLGS_OFF_SLAB then
    let nr_objs := slab_size `div` objsize in
    Some (u32 nr_objs, u32 (slab_size - nr_objs * objsize))
  else
    let nr_objs := u32 (slab_size - sizeof_slab_t) `div` objsize in
    let nr_objs := if slab_size <? u32 (slab_mgmt_size align + nr_objs * objsize) then nr_objs - 1 else nr_objs in
    Some (u32 nr_objs, u32 (slab_size - nr_objs * objsize - slab_mgmt_size align)).

(** The loop over the orders; the result is [(order, num, left_over)]. *)
Fixpoint order_search (n : nat) (gfporder size align flags : Z) (last : Z * Z) : option (Z * Z * Z) :=
  match n with
  | O => Some (gfporder, last.1, last.2)
  | S n =>
      '(nr, rest) ← cache_estimate gfporder size align flags;
      if nr =? 0 then order_search n (gfporder + 1) size align flags (nr, rest)
      else Some (gfporder, nr, rest)
  end.

(** [(gfporder, num, left_over)] *)
Definition calculate_slab_order (size align flags : Z) : option (Z * Z * Z) :=
  order_search (Z.to_nat (KMALLOC_MAX_ORDER + 1)) 0 size align flags (0, 0).

(** [while (size <= ralign / 2) ralign /= 2;] *)
Fixpoint shrink_align (fuel : nat) (size ralign : Z) : option Z :=
  match fuel with
  | O => None
  | S fuel => if size <=? ralign `div` 2 then shrink_align fuel size (ralign `div` 2) else Some ralign
  end.

Definition round_word (size : Z) : Z :=
  if has_flag size (BYTES_PER_WORD - 1)
  then Z.land (u32 (size + (BYTES_PER_WORD - 1))) (Z.lnot (BYTES_PER_WORD - 1)) else size.

Section Slab.
Context {S : Type} `{!PageAllocator S}.
Implicit Types w : world S.

Definition set_caches m w : world S := mk_world _ m (slabs w) (links w) (words w) (pgs w) (pages w).
Definition set_slabs m w : world S := mk_world _ (caches w) m (links w) (words w) (pgs w) (pages w).
Definition set_links m w : world S := mk_world _ (caches w) (slabs w) m (words w) (pgs w) (pages w).
Definition set_words m w : world S := mk_world _ (caches w) (slabs w) (links w) m (pgs w) (pages w).
Definition set_pgs m w : world S := mk_world _ (caches w) (slabs w) (links w) (words w) m (pages w).
Definition set_pages m w : world S := mk_world _ (caches w) (slabs w) (links w) (words w) (pgs w) m.

Definition upd_cache (c : Z) (f : kmem_cache -> kmem_cache) w : option (world S) :=
  k ← caches w !! c; Some (set_caches (<[c := f k]> (caches w)) w).
Definition on_links w (f : gmap snode (list_head snode) -> option (gmap snode (list_head snode))) : option (world S) :=
  st ← f (links w); Some (set_links st w).

(** ** Page frames *)

Definition page_set_cache (page cachep : Z) w : option (world S) :=
  u ← pgs w !! page; Some (set_pgs (<[page := mk_use cachep (pg_slab u) (pg_first u)]> (pgs w)) w).
Definition page_set_slab (page slabp : Z) w : option (world S) :=
  u ← pgs w !! page; Some (set_pgs (<[page := mk_use (pg_cache u) slabp (pg_first u)]> (pgs w)) w).

Definition virt_to_head_page (obj : Z) w : option Z := u ← pgs w !! virt_to_page obj; Some (pg_first u).

(** [virt_to_head_page], then [compound_head] once more. *)
Definition virt_to_cache (obj : Z) w : option Z :=
  h ← virt_to_head_page obj w; u ← pgs w !! h; u ← pgs w !! pg_first u; Some (pg_cache u).

Definition virt_to_slab (obj : Z) w : option Z :=
  h ← virt_to_head_page obj w; u ← pgs w !! h; Some (pg_slab u).

(** [while (i--) SetPageSlab(temp++)], and its inverse. *)
Fixpoint mark_run (set : bool) (n : nat) (temp : Z) (s : S) : option S :=
  match n with
  | O => Some s
  | Datatypes.S n => s ← (if set then pa_set_slab temp s else pa_clear_slab temp s); mark_run set n (temp + 1) s
  end.

Definition kmem_getpages (cachep flags : Z) w : option (option Z * world S) :=
  k ← caches w !! cachep;
  '(page, s) ← pa_alloc (pages w) (gfporder k);
  match page with
  | None => Some (None, set_pages s w)
  | Some page =>
      s ← mark_run true (Z.to_nat (Z.shiftl 1 (gfporder k))) page s;
      Some (Some (page_address page), set_pages s w)
  end.

(** The [struct page] fields of freed frames belong to the page allocator. *)
Definition forget_pages (page n : Z) (m : gmap Z page_use) : gmap Z page_use :=
  filter (fun e => ~ (page <= e.1 < page + n)) m.

Definition kmem_freepages (cachep addr : Z) w : option (world S) :=
  k ← caches w !! cachep;
  let page := virt_to_page addr in
  let n := Z.shiftl 1 (gfporder k) in
  s ← mark_run false (Z.to_nat n) page (pages w);
  s ← pa_free page s (gfporder k);
  Some (set_pgs (forget_pages page n (pgs w)) (set_pages s w)).

(** [do { ... } while (--nr_pages)] *)
Fixpoint map_pages (n : nat) (cachep slabp first page : Z) w : world S :=
  match n with
  | O => w
  | Datatypes.S n => map_pages n cachep slabp first (page + 1)
              (set_pgs (<[page := mk_use cachep slabp first]> (pgs w)) w)
  end.

Definition slab_map_pages (cachep slabp objp : Z) w : option (world S) :=
  k ← caches w !! cachep;
  let page := virt_to_page objp in
  Some (map_pages (Z.to_nat (Z.shiftl 1 (gfporder k))) cachep slabp page page w).

(** ** Objects *)

Definition slab_get_obj (cachep slabp : Z) w : option (Z * world S) :=
  sl ← slabs w !! slabp;
  let objp := free_list sl in
  nxt ← words w !! objp;
  let w := set_slabs (<[slabp := mk_slab (colouroff sl) (s_mem sl) (u32 (inuse sl + 1)) (free sl) nxt]> (slabs w)) w in
  w ← upd_cache cachep (fun k => set_free_objects (free_objects k - 1) k) w;
  Some (objp, w).

Definition slab_put_obj (cachep slabp objp : Z) w : option (world S) :=
  sl ← slabs w !! slabp;
  let w := set_words (<[objp := free_list sl]> (words w)) w in
  Some (set_slabs (<[slabp := mk_slab (colouroff sl) (s_mem sl) (u32 (inuse sl - 1)) (free sl) objp]> (slabs w)) w).

(** [for (i = num - 1; i >= 0; i--)], [n] objects left. *)
Fixpoint init_objs (n : nat) (k : kmem_cache) (slabp ptr : Z) w : option (world S) :=
  match n with
  | O => Some w
  | Datatypes.S i =>
      let objp := ptr + Z.of_nat i * objsize k in
      sl ← slabs w !! slabp;
      let w := set_words (<[objp := free_list sl]> (words w)) w in
      let w := set_slabs (<[slabp := mk_slab (colouroff sl) (s_mem sl) (inuse sl) (free sl) objp]> (slabs w)) w in
      let w := match ctor k with Some f => set_words (f objp (words w)) w | None => w end in
      init_objs i k slabp ptr w
  end.

Definition cache_init_objs (cachep slabp : Z) w : option (world S) :=
  k ← caches w !! cachep;
  sl ← slabs w !! slabp;
  let w := set_slabs (<[slabp := mk_slab (colouroff sl) (s_mem sl) (inuse sl) (free sl) 0]> (slabs w)) w in
  init_objs (Z.to_nat (num k)) k slabp (s_mem sl) w.

(** The walks over the three lists. *)
Definition display_kmemlist (cachep : Z) w : option unit :=
  _ ← list_for_each (Datatypes.S (size (links w))) (links w) (LPart cachep);
  _ ← list_for_each (Datatypes.S (size (links w))) (links w) (LFull cachep);
  _ ← list_for_each (Datatypes.S (size (links w))) (links w) (LFree cachep);
  Some tt.

(** [list_entry(entry, struct slab_s, list)] *)
Definition slab_entry (n : snode) : option Z := match n with SlabN s => Some s | _ => None end.

(** ** Growing a cache, with the allocation of a descriptor as a parameter *)

Definition alloc_slabmgmt (alloc : Z -> Z -> world S -> option (option Z * world S))
    (cachep objp colour_off flags : Z) w : option (option Z * world S) :=
  k ← caches w !! cachep;
  '(r, colour_off, w) ←
    (if OFF_SLAB k then '(r, w) ← alloc (slabp_cache k) flags w; Some (r, colour_off, w)
     else Some (Some (objp + colour_off), colour_off + slab_size k, w));
  match r with
  | None => Some (None, w)
  | Some slabp =>
      let w := set_links (<[SlabN slabp := mk_list_head None None]> (links w)) w in
      w ← on_links w (INIT_LIST_HEAD (SlabN slabp));
      Some (Some slabp, set_slabs (<[slabp := mk_slab colour_off (objp + colour_off) 0 0 0]> (slabs w)) w)
  end.

(** The new slab's pages, objects and place on the free list. *)
Definition grow_attach (cachep slabp objp : Z) w : option (bool * world S) :=
  w ← slab_map_pages cachep slabp objp w;
  w ← cache_init_objs cachep slabp w;
  w ← on_links w (list_add_tail (LFree cachep) (SlabN slabp));
  w ← upd_cache cachep (fun k => set_free_objects (free_objects k + num k) k) w;
  Some (true, w).

Definition cache_grow (alloc : Z -> Z -> world S -> option (option Z * world S))
    (cachep flags : Z) w : option (bool * world S) :=
  k ← caches w !! cachep;
  let next := u32 (colour_next k + 1) in
  let next := if colour k <=? next then 0 else next in
  w ← upd_cache cachep (set_colour_next next) w;
  let offset := u32 (colour_next k * colour_off k) in
  '(objp, w) ← kmem_getpages cachep flags w;
  match objp with
  | None => Some (false, w)
  | Some objp =>
      '(slabp, w) ← alloc_slabmgmt alloc cachep objp offset flags w;
      match slabp with
      | None => w ← kmem_freepages cachep objp w; Some (false, w)
      | Some slabp => grow_attach cachep slabp objp w
      end
  end.

(** The first slab of the free list becomes partial. *)
Definition pick_free (cachep : Z) w : option (option snode * world S) :=
  entry ← next_of (links w) (LFree cachep);
  slabp ← slab_entry entry;
  w ← on_links w (list_del (SlabN slabp));
  w ← on_links w (list_add (LPart cachep) (SlabN slabp));
  Some (Some entry, w).

(** The slab to take from: the first partial one, else the first free one,
    which becomes partial, growing the cache if there is none. *)
Definition refill_pick (alloc : Z -> Z -> world S -> option (option Z * world S))
    (cachep flags : Z) w : option (option snode * world S) :=
  entry ← next_of (links w) (LPart cachep);
  if decide (entry = LPart cachep) then
    entry ← next_of (links w) (LFree cachep);
    '(x, w) ← (if decide (entry = LFree cachep) then cache_grow alloc cachep flags w else Some (true, w));
    if (x : bool) then pick_free cachep w else Some (None, w)
  else Some (Some entry, w).

Definition refill_take (cachep : Z) (entry : snode) w : option (option Z * world S) :=
  slabp ← slab_entry entry;
  '(objp, w) ← slab_get_obj cachep slabp w;
  sl ← slabs w !! slabp;
  w ← (if free_list sl =? 0 then
         w ← on_links w (list_del (SlabN slabp));
         on_links w (list_add (LFull cachep) (SlabN slabp))
       else Some w);
  _ ← display_kmemlist cachep w;
  Some (Some objp, w).

Definition cache_alloc_refill (alloc : Z -> Z -> world S -> option (option Z * world S))
    (cachep flags : Z) w : option (option Z * world S) :=
  _ ← display_kmemlist cachep w;
  '(entry, w) ← refill_pick alloc cachep flags w;
  match entry with
  | None => Some (None, w)
  | Some entry => refill_take cachep entry w
  end.

(** The allocation of an external slab descriptor calls back: [fuel] bounds
    the depth. *)
Fixpoint kmem_cache_alloc (fuel : nat) (cachep flags : Z) w : option (option Z * world S) :=
  match fuel with
  | O => None
  | Datatypes.S fuel => cache_alloc_refill (kmem_cache_alloc fuel) cachep flags w
  end.

(** ** Freeing *)

Fixpoint run_dtor (f : cfun) (n : nat) (objp step : Z) (m : gmap Z Z) : gmap Z Z :=
  match n with
  | O => m
  | Datatypes.S n => run_dtor f n (objp + step) step (f objp m)
  end.

Definition slab_destroy (free : Z -> Z -> world S -> option (world S)) (cachep slabp : Z) w : option (world S) :=
  k ← caches w !! cachep;
  sl ← slabs w !! slabp;
  let w := match dtor k with
           | Some f => set_words (run_dtor f (Z.to_nat (num k)) (s_mem sl) (objsize k) (words w)) w
           | None => w
           end in
  let w := set_slabs (delete slabp (slabs w)) w in
  if OFF_SLAB k then
    w ← kmem_freepages cachep (s_mem sl) w;
    free (slabp_cache k) slabp w
  else kmem_freepages cachep (s_mem sl - colouroff sl) w.

Fixpoint kmem_cache_free (fuel : nat) (cachep objp : Z) w : option (world S) :=
  match fuel with
  | O => None
  | Datatypes.S fuel =>
      slabp ← virt_to_slab objp w;
      k ← caches w !! cachep;
      sl ← slabs w !! slabp;
      let was_full := inuse sl =? num k in
      w ← slab_put_obj cachep slabp objp w;
      w ← upd_cache cachep (fun k => set_free_objects (free_objects k + 1) k) w;
      sl ← slabs w !! slabp;
      k ← caches w !! cachep;
      if inuse sl =? 0 then
        w ← on_links w (list_del (SlabN slabp));
        if free_limit k <? free_objects k then
          w ← upd_cache cachep (fun k => set_free_objects (free_objects k - num k) k) w;
          slab_destroy (kmem_cache_free fuel) cachep slabp w
        else on_links w (list_add (LFree cachep) (SlabN slabp))
      else if was_full then
        w ← on_links w (list_del (SlabN slabp));
        on_links w (list_add_tail (LPart cachep) (SlabN slabp))
      else Some w
  end.

(** [memset(objp, 0, objsize)]: the words of the object become zero. *)
Definition zero_words (objp n : Z) (m : gmap Z Z) : gmap Z Z :=
  foldr (fun i m => <[objp + 4 * i := 0]> m) m (seqZ 0 (n `div` 4)).

Definition kmem_cache_zalloc (fuel : nat) (cachep flags : Z) w : option (option Z * world S) :=
  '(r, w) ← kmem_cache_alloc fuel cachep flags w;
  match r with
  | None => Some (None, w)
  | Some objp =>
      k ← caches w !! cachep;
      Some (Some objp, set_words (zero_words objp (objsize k) (words w)) w)
  end.

(** ** Creating caches *)

Definition kmem_list3_init (cachep : Z) w : option (world S) :=
  w ← on_links w (INIT_LIST_HEAD (LFull cachep));
  w ← on_links w (INIT_LIST_HEAD (LPart cachep));
  w ← on_links w (INIT_LIST_HEAD (LFree cachep));
  upd_cache cachep (set_free_objects 0) w.

(** The fields of a new cache that are computed; [old] is what its memory
    held: [gfpflags], [colour_next] and [dtor] keep that value. *)
Definition setup_cache (old : kmem_cache) (size align flags : Z) (order_num_left : Z * Z * Z)
    (c : option cfun) (slabp_cache : Z) : kmem_cache :=
  let '(order, nr, left_over) := order_num_left in
  let colour_off := if L1_CACHE_BYTES <? align then align else L1_CACHE_BYTES in
  mk_kmem_cache 0 size flags nr nr order (gfpflags old) (left_over `div` colour_off) colour_off (colour_next old)
    slabp_cache (if has_flag flags CFLGS_OFF_SLAB then sizeof_slab_t else ALIGN sizeof_slab_t align) c (dtor old).

(** [old] is the uninitialised content of the descriptor's memory, [cc] the
    address of [cache_cache]. *)
Definition kmem_cache_create (fuel : nat) (cc : Z) (old : kmem_cache) (size align flags : Z) (c : option cfun) w
    : option (option Z * world S) :=
  let size := round_word size in
  ralign ← (if has_flag flags SLAB_HWCACHE_ALIGN then shrink_align 8 size L1_CACHE_BYTES else Some BYTES_PER_WORD);
  '(r, w) ← kmem_cache_alloc fuel cc 0 w;
  match r with
  | None => Some (None, w)
  | Some cachep =>
      let w := set_caches (<[cachep := old]> (caches w)) w in
      let w := set_links (<[LFull cachep := mk_list_head None None]> (<[LPart cachep := mk_list_head None None]>
                 (<[LFree cachep := mk_list_head None None]> (<[CacheN cachep := mk_list_head None None]> (links w))))) w in
      w ← kmem_list3_init cachep w;
      let size := ALIGN size align in
      onl ← calculate_slab_order size align flags;
      if onl.1.2 =? 0 then
        w ← kmem_cache_free fuel cc cachep (set_caches (delete cachep (caches w)) w); Some (None, w)
      else
        kc ← caches w !! cc;
        let w := set_caches (<[cachep := setup_cache old size align flags onl c (slabp_cache kc)]> (caches w)) w in
        w ← on_links w (INIT_LIST_HEAD (CacheN cachep));
        w ← on_links w (list_add Chain (CacheN cachep));
        Some (Some cachep, w)
  end.

(** ** kmalloc *)

(** [malloc_sizes]: sizes with the caches that serve them, up to the sentinel. *)
Definition malloc_table : Type := list (Z * Z).

Fixpoint find_size (size : Z) (t : malloc_table) : option Z :=
  match t with
  | [] => None
  | (cs_size, cs_cachep) :: t => if cs_size <? size then find_size size t else Some cs_cachep
  end.

Definition kmalloc (fuel : nat) (t : malloc_table) (size flags : Z) w : option (option Z * world S) :=
  match find_size size t with
  | None => Some (None, w)
  | Some cachep => kmem_cache_alloc fuel cachep flags w
  end.

Definition kzalloc (fuel : nat) (t : malloc_table) (size flags : Z) w : option (option Z * world S) :=
  match find_size size t with
  | None => Some (None, w)
  | Some cachep => kmem_cache_zalloc fuel cachep flags w
  end.

Definition kfree (fuel : nat) (objp : Z) w : option (world S) :=
  if objp =? 0 then Some w
  else u ← pgs w !! virt_to_page objp; kmem_cache_free fuel (pg_cache u) objp w.

(** ** Initialisation *)

Definition malloc_sizes : list Z :=
  [32; 64; 96; 128; 192; 256; 512; 1024; 2048; 4096; 8192; 16384; 32768; 65536; 131072].

(** The general caches; the loop stops at the first failure. *)
Fixpoint create_sizes (fuel : nat) (cc : Z) (old : kmem_cache) (l : list Z) w : option (malloc_table * world S) :=
  match l with
  | [] => Some ([], w)
  | cs_size :: l =>
      '(r, w) ← kmem_cache_create fuel cc old cs_size KMALLOC_MINALIGN (Z.lor CFLGS_OFF_SLAB KMALLOC_FLAGS) None w;
      match r with
      | None => Some ([], w)
      | Some c => '(t, w) ← create_sizes fuel cc old l w; Some ((cs_size, c) :: t, w)
      end
  end.

(** [cachep] is [cache_cache]; [k0] its static contents. *)
Definition kmem_cache_init (fuel : nat) (cachep : Z) (old k0 : kmem_cache) (size : Z) (c d : option cfun) w
    : option (malloc_table * world S) :=
  w ← on_links w (INIT_LIST_HEAD Chain);
  w ← on_links w (INIT_LIST_HEAD (CacheN cachep));
  w ← on_links w (list_add Chain (CacheN cachep));
  let size := ALIGN size L1_CACHE_BYTES in
  w ← kmem_list3_init cachep (set_caches (<[cachep := k0]> (caches w)) w);
  onl ← order_search 11 0 size L1_CACHE_BYTES 0 (0, 0);
  let '(order, nr, left_over) := onl in
  let kc sc := mk_kmem_cache 0 size (cflags k0) nr nr order (gfpflags k0) (left_over `div` L1_CACHE_BYTES) L1_CACHE_BYTES 0
                 sc (ALIGN sizeof_slab_t L1_CACHE_BYTES) c d in
  let w := set_caches (<[cachep := kc (slabp_cache k0)]> (caches w)) w in
  '(r, w) ← kmem_cache_create fuel cachep old sizeof_slab_t KMALLOC_MINALIGN SLAB_HWCACHE_ALIGN None w;
  w ← upd_cache cachep (set_slabp_cache (default 0 r)) w;
  create_sizes fuel cachep old malloc_sizes w.

Definition init_slab (fuel : nat) (cc : Z) (old k0 : kmem_cache) w : option (malloc_table * world S) :=
  kmem_cache_init fuel cc old k0 sizeof_kmem_cache None None w.
End Slab.

(** ** Geometry *)

Lemma mgmt_size_32 align : align = 8 \/ align = 32 -> slab_mgmt_size align = 32.
Proof. by intros [->| ->]. Qed.

Lemma slab_bytes ord : 0 <= ord <= 10 -> u32 (Z.shiftl PAGE_SIZE ord) = PAGE_SIZE * 2 ^ ord /\ 4096 <= PAGE_SIZE * 2 ^ ord <= 2 ^ 22.
Proof.
  intros Ho. rewrite Z.shiftl_mul_pow2 by lia. pose proof (Z.pow_le_mono_r 2 ord 10 ltac:(lia) ltac:(lia)). pose proof (Z.pow_le_mono_r 2 0 ord ltac:(lia) ltac:(lia)).
  unfold PAGE_SIZE. rewrite u32_small by lia. lia.
Qed.

(** The reference: as many objects as fit after the descriptor. *)
Definition fit_objects (bytes objsize : Z) : Z * Z := (bytes `div` objsize, bytes `mod` objsize).

Lemma estimate_external ord objsize align flags : 0 <= ord <= 10 -> 0 < objsize < 2 ^ 32 -> has_flag flags CFLGS_OFF_SLAB = true ->
  cache_estimate ord objsize align flags = Some (fit_objects (PAGE_SIZE * 2 ^ ord) objsize).
Proof.
  intros Ho Hs Hf. unfold cache_estimate, fit_objects. destruct (slab_bytes ord Ho) as [-> Hb]. set (b := PAGE_SIZE * 2 ^ ord) in *.
  destruct (Z.eqb_spec objsize 0); [lia|]. rewrite Hf. pose proof (Z.div_mod b objsize ltac:(lia)). pose proof (Z.mod_pos_bound b objsize ltac:(lia)).
  assert (0 <= b `div` objsize <= b) by (split; [apply Z.div_pos; lia|apply Z.div_le_upper_bound; nia]).
  rewrite !u32_small by lia. do 2 f_equal. lia.
Qed.

Lemma estimate_internal ord objsize align flags : 0 <= ord <= 10 -> 4 <= objsize < 2 ^ 32 -> (align = 8 \/ align = 32) ->
  has_flag flags CFLGS_OFF_SLAB = false ->
  cache_estimate ord objsize align flags = Some (fit_objects (PAGE_SIZE * 2 ^ ord - slab_mgmt_size align) objsize).
Proof.
  intros Ho Hs Ha Hf. unfold cache_estimate, fit_objects. destruct (slab_bytes ord Ho) as [-> Hb]. set (b := PAGE_SIZE * 2 ^ ord) in *.
  destruct (Z.eqb_spec objsize 0); [lia|]. rewrite Hf, (mgmt_size_32 align Ha). unfold sizeof_slab_t. rewrite (u32_small (b - 28)) by lia.
  pose proof (Z.div_mod (b - 28) objsize ltac:(lia)) as D1. pose proof (Z.mod_pos_bound (b - 28) objsize ltac:(lia)) as M1.
  pose proof (Z.div_mod (b - 32) objsize ltac:(lia)) as D2. pose proof (Z.mod_pos_bound (b - 32) objsize ltac:(lia)) as M2.
  set (q1 := (b - 28) `div` objsize) in *. set (q2 := (b - 32) `div` objsize) in *.
  assert (0 <= q2) by (apply Z.div_pos; lia). assert (q2 = q1 \/ q2 = q1 - 1) as Hq by nia.
  assert (0 <= q1 * objsize <= b) by nia. rewrite (u32_small (32 + q1 * objsize)) by lia.
  assert (q2 <= b) by nia.
  destruct (Z.ltb_spec b (32 + q1 * objsize)).
  - assert (q2 = q1 - 1) as E by nia. rewrite <- E. rewrite !u32_small by nia. do 2 f_equal. lia.
  - assert (q2 = q1) as E by nia. rewrite <- E. rewrite !u32_small by nia. do 2 f_equal. lia.
Qed.

Lemma order_search_found n : forall ord size align flags last ord' nr rest,
  order_search n ord size align flags last = Some (ord', nr, rest) -> nr ≠ 0 -> last.1 = 0 ->
  ord <= ord' < ord + Z.of_nat n /\ cache_estimate ord' size align flags = Some (nr, rest).
Proof.
  induction n as [|n IH]; intros ord size align flags last ord' nr rest E Hnr Hlast; cbn [order_search] in E.
  { injection E as <- <- <-. done. }
  destruct (cache_estimate ord size align flags) as [[nr1 rest1]|] eqn:Ee; [|done]. cbn [mbind option_bind] in E.
  destruct (Z.eqb_spec nr1 0) as [->|Hne].
  - destruct (IH _ _ _ _ _ _ _ _ E Hnr eq_refl). split; [lia|done].
  - injection E as <- <- <-. split; [lia|done].
Qed.

(** A cache of zero-sized objects is never created: the alignment loop runs
    for ever. *)
Lemma shrink_align_zero fuel : forall r, 0 <= r -> shrink_align fuel 0 r = None.
Proof.
  induction fuel as [|fuel IH]; intros r Hr; [done|]. cbn [shrink_align]. pose proof (Z.div_pos r 2 Hr ltac:(lia)).
  destruct (Z.leb_spec 0 (r `div` 2)); [by apply IH|lia].
Qed.
