(* ===== verification/SlabInv.v ===== *)
(** * The invariant of the slab allocator

    Well-formedness of the caches, their slabs and their free objects, and how
    it changes when one slab changes, a slab or a cache is added, a slab is
    removed, or the fields around them change. *)

From S2P Require Export Slab.

Section Slab.
Context {S : Type} `{!PageAllocator S}.
Implicit Types w : world S.

(** ** Representation *)

(** [chain m a l]: the words of [m] chain the objects [l] from [a] to null. *)
Fixpoint chain (m : gmap Z Z) (a : Z) (l : list Z) : Prop :=
  match l with
  | [] => a = 0
  | x :: l => a = x /\ exists b, m !! x = Some b /\ chain m b l
  end.

Definition is_obj (k : kmem_cache) (sl : slab_s) (o : Z) : Prop :=
  exists i, 0 <= i < num k /\ o = s_mem sl + i * objsize k.

Definition owner (h : snode) : option Z :=
  match h with LFull c | LPart c | LFree c => Some c | _ => None end.

(** The list heads in use: three for every cache, and the chain of caches. *)
Definition is_head w (h : snode) : Prop := h = Chain \/ exists c, owner h = Some c /\ is_Some (caches w !! c).

(** What may be on the list of head [h]. *)
Definition elem_ok w (h y : snode) : Prop :=
  match h with
  | Chain => exists c, y = CacheN c /\ is_Some (caches w !! c)
  | _ => exists s, y = SlabN s
  end.

Lemma is_head_ext w w' : (forall c, is_Some (caches w' !! c) -> is_Some (caches w !! c)) -> forall h, is_head w' h -> is_head w h.
Proof. intros H h [->|(c & Ho & Hc)]; [by left|]. right. exists c. auto. Qed.

Lemma elem_ok_ext w w' h y : (forall c, is_Some (caches w !! c) -> is_Some (caches w' !! c)) -> elem_ok w h y -> elem_ok w' h y.
Proof. intros H. destruct h; cbn [elem_ok]; try done. intros (c & -> & Hc). exists c. auto. Qed.

(** What the code does not store: the slabs on each list, the free objects of
    each slab in order, the first page frame of each slab. *)
Record ghost := mk_ghost { gL : snode -> list snode; gchain : Z -> list Z; gbase : Z -> Z }.

Definition listed w (g : ghost) (h : snode) (c : Z) (k : kmem_cache) (s : Z) : Prop :=
  owner h = Some c /\ caches w !! c = Some k /\ SlabN s ∈ gL g h.

(** The bytes of a slab before its first object, colour apart. *)
Definition header (k : kmem_cache) : Z := if OFF_SLAB k then 0 else slab_size k.

Record geom_ok (k : kmem_cache) : Prop := {
  go_objsize : 4 <= objsize k;
  go_num : 1 <= num k;
  go_order : 0 <= gfporder k <= MAX_ORDER;
  go_colour : 0 <= colour_next k /\ (colour_next k = 0 \/ colour_next k < colour k) /\ 0 <= colour k /\ 0 < colour_off k;
  go_fits : header k + colour k * colour_off k + num k * objsize k <= PAGE_SIZE * 2 ^ gfporder k;
  go_header : if OFF_SLAB k then colour k * colour_off k <= PAGE_SIZE else sizeof_slab_t <= slab_size k;
  go_plain : ctor k = None /\ dtor k = None
}.

Record slab_ok w (g : ghost) (c : Z) (k : kmem_cache) (s : Z) (sl : slab_s) : Prop := {
  so_chain : chain (words w) (free_list sl) (gchain g s);
  so_objs : forall o, o ∈ gchain g s -> is_obj k sl o;
  so_nodup : NoDup (gchain g s);
  so_inuse : inuse sl = num k - Z.of_nat (length (gchain g s));
  so_mem : s_mem sl = PAGE_OFFSET + PAGE_SIZE * gbase g s + colouroff sl;
  so_off : 0 <= colouroff sl /\ colouroff sl + num k * objsize k <= PAGE_SIZE * 2 ^ gfporder k;
  so_desc : if OFF_SLAB k then colouroff sl < PAGE_SIZE
            else PAGE_OFFSET + PAGE_SIZE * gbase g s <= s /\ s + sizeof_slab_t <= s_mem sl;
  so_pages : forall p, in_block (gfporder k) (gbase g s) p -> pgs w !! p = Some (mk_use c s (gbase g s));
  so_align : (2 ^ gfporder k | gbase g s)
}.

(** The list a slab is on says how many of its objects are free. *)
Definition placed (h : snode) (k : kmem_cache) (l : list Z) : Prop :=
  match h with
  | LFull _ => l = []
  | LPart _ => l ≠ [] /\ Z.of_nat (length l) < num k
  | LFree _ => Z.of_nat (length l) = num k
  | _ => False
  end.

(** An allocated object of cache [c]. *)
Definition live w (g : ghost) (c o : Z) : Prop :=
  exists h k s sl, listed w g h c k s /\ slabs w !! s = Some sl /\ is_obj k sl o /\ o ∉ gchain g s.

(** [o] is in use as an external slab descriptor. *)
Definition descriptor w (g : ghost) (o : Z) : Prop :=
  exists h c k, listed w g h c k o /\ OFF_SLAB k = true.

(** [R]: page frames that are neither free nor part of a slab. *)
Record slab_inv w (g : ghost) (R : Z -> Prop) : Prop := {
  iv_rings : rings (links w) (is_head w) (gL g);
  iv_elem h y : is_head w h -> y ∈ gL g h -> elem_ok w h y;
  iv_geom c k : caches w !! c = Some k -> geom_ok k;
  iv_mgmt c k : caches w !! c = Some k -> OFF_SLAB k = true ->
    exists k', caches w !! slabp_cache k = Some k' /\ OFF_SLAB k' = false /\ sizeof_slab_t <= objsize k';
  iv_slab h c k s : listed w g h c k s ->
    placed h k (gchain g s) /\ exists sl, slabs w !! s = Some sl /\ slab_ok w g c k s sl;
  iv_desc h c k s : listed w g h c k s -> OFF_SLAB k = true -> live w g (slabp_cache k) s;
  iv_disj h c k s h' c' k' s' p : listed w g h c k s -> listed w g h' c' k' s' ->
    in_block (gfporder k) (gbase g s) p -> in_block (gfporder k') (gbase g s') p -> s = s';
  iv_pages : exists F, pa_rep (pages w) F /\ pa_frames (pages w) <= 2 ^ 18 /\ (forall p, R p -> ~ F p) /\
    forall h c k s p, listed w g h c k s -> in_block (gfporder k) (gbase g s) p ->
      ~ F p /\ ~ R p /\ 0 <= p < pa_frames (pages w)
}.

Lemma listed_head w g h c k s : listed w g h c k s -> is_head w h.
Proof. intros (Ho & Ec & _). right. exists c. split; [done|]. by exists k. Qed.

Lemma listed_unique w g R h c k s h' c' k' :
  slab_inv w g R -> listed w g h c k s -> listed w g h' c' k' s -> h = h' /\ c = c' /\ k = k'.
Proof.
  intros I Hl Hl'. pose proof Hl as (Ho & Ec & Hs). pose proof Hl' as (Ho' & Ec' & Hs').
  assert (h = h') as <-.
  { eapply (proj2 (iv_rings _ _ _ I) h h' (SlabN s)); [by eapply listed_head|by eapply listed_head|by right|by right]. }
  rewrite Ho in Ho'. injection Ho' as <-. rewrite Ec in Ec'. injection Ec' as <-. done.
Qed.

(** *** Addresses *)

Lemma page_address_small p : 0 <= p < 2 ^ 18 -> page_address p = PAGE_OFFSET + PAGE_SIZE * p.
Proof.
  intros Hp. unfold page_address, va_of, PAGE_SHIFT. rewrite Z.shiftl_mul_pow2 by lia.
  rewrite u32_small; unfold PAGE_OFFSET, PAGE_SIZE; lia.
Qed.

Lemma virt_to_page_at p off : 0 <= p -> 0 <= off ->
  virt_to_page (PAGE_OFFSET + PAGE_SIZE * p + off) = p + off `div` PAGE_SIZE.
Proof.
  intros Hp Ho. unfold virt_to_page, pa_of, PAGE_SHIFT, PAGE_SIZE. destruct (Z.leb_spec PAGE_OFFSET (PAGE_OFFSET + 4096 * p + off)); [|lia].
  rewrite Z.shiftr_div_pow2 by lia. change (2 ^ 12) with 4096.
  replace (PAGE_OFFSET + 4096 * p + off - PAGE_OFFSET) with (off + p * 4096) by lia. rewrite Z.div_add by lia. lia.
Qed.

Lemma block_nonneg w g R h c k s : slab_inv w g R -> listed w g h c k s ->
  0 <= gbase g s /\ gbase g s + 2 ^ gfporder k <= 2 ^ 18 /\ in_block (gfporder k) (gbase g s) (gbase g s).
Proof.
  intros I Hl. destruct (iv_pages _ _ _ I) as (F & _ & Hfr & _ & Hp). destruct (go_order k) as [Ho _]; [by eapply (iv_geom _ _ _ I), Hl|].
  pose proof (Z.pow_pos_nonneg 2 (gfporder k) ltac:(lia) Ho) as H2.
  assert (in_block (gfporder k) (gbase g s) (gbase g s)) as H1 by (unfold in_block; lia).
  destruct (Hp h c k s _ Hl H1) as (_ & _ & Hb).
  destruct (Hp h c k s (gbase g s + 2 ^ gfporder k - 1) Hl) as (_ & _ & Hb'); [unfold in_block; lia|]. split_and!; [lia..|done].
Qed.

(** An address inside the pages of a slab. *)
Lemma addr_in_block base ord a : 0 <= base -> 0 <= ord ->
  PAGE_OFFSET + PAGE_SIZE * base <= a < PAGE_OFFSET + PAGE_SIZE * base + PAGE_SIZE * 2 ^ ord ->
  in_block ord base (virt_to_page a).
Proof.
  intros Hb Ho Ha. replace a with (PAGE_OFFSET + PAGE_SIZE * base + (a - PAGE_OFFSET - PAGE_SIZE * base)) by lia.
  rewrite virt_to_page_at by lia. unfold in_block. unfold PAGE_SIZE in *.
  assert (0 <= (a - PAGE_OFFSET - 4096 * base) `div` 4096) by (apply Z.div_pos; lia).
  assert ((a - PAGE_OFFSET - 4096 * base) `div` 4096 < 2 ^ ord) by (apply Z.div_lt_upper_bound; lia). lia.
Qed.

Lemma obj_range w g c k s sl o : geom_ok k -> slab_ok w g c k s sl -> is_obj k sl o ->
  PAGE_OFFSET + PAGE_SIZE * gbase g s <= s_mem sl <= o /\
  o + objsize k <= PAGE_OFFSET + PAGE_SIZE * gbase g s + PAGE_SIZE * 2 ^ gfporder k.
Proof.
  intros G Hs (i & Hi & ->). destruct (so_off _ _ _ _ _ _ Hs). rewrite (so_mem _ _ _ _ _ _ Hs). pose proof (go_objsize _ G).
  assert ((i + 1) * objsize k <= num k * objsize k) by (apply Z.mul_le_mono_nonneg_r; lia).
  assert (0 <= i * objsize k) by (apply Z.mul_nonneg_nonneg; lia). lia.
Qed.

Lemma obj_page w g R h c k s sl o a : slab_inv w g R -> listed w g h c k s -> slabs w !! s = Some sl -> is_obj k sl o ->
  o <= a < o + objsize k -> in_block (gfporder k) (gbase g s) (virt_to_page a).
Proof.
  intros I Hl Es Ho Ha. destruct (iv_slab _ _ _ I _ _ _ _ Hl) as (_ & sl' & Es' & Hs). rewrite Es in Es'. injection Es' as <-.
  pose proof (iv_geom _ _ _ I c k (proj1 (proj2 Hl))) as G. destruct (block_nonneg _ _ _ _ _ _ _ I Hl) as (Hb & _ & _).
  destruct (obj_range _ _ _ _ _ _ _ G Hs Ho). apply addr_in_block; [done|apply (go_order _ G)|lia].
Qed.

(** Objects of different slabs have different addresses. *)
Lemma obj_slab w g R h c k s sl h' c' k' s' sl' o : slab_inv w g R ->
  listed w g h c k s -> slabs w !! s = Some sl -> is_obj k sl o ->
  listed w g h' c' k' s' -> slabs w !! s' = Some sl' -> is_obj k' sl' o -> s = s'.
Proof.
  intros I Hl Es Ho Hl' Es' Ho'. pose proof (go_objsize _ (iv_geom _ _ _ I _ _ (proj1 (proj2 Hl)))).
  pose proof (go_objsize _ (iv_geom _ _ _ I _ _ (proj1 (proj2 Hl')))).
  apply (iv_disj _ _ _ I h c k s h' c' k' s' (virt_to_page o) Hl Hl').
  - apply (obj_page w g R h c k s sl o o); [done..|lia].
  - apply (obj_page w g R h' c' k' s' sl' o o); [done..|lia].
Qed.

Lemma virt_to_slab_obj w g R h c k s sl o : slab_inv w g R -> listed w g h c k s -> slabs w !! s = Some sl -> is_obj k sl o ->
  virt_to_slab o w = Some s /\ exists u, pgs w !! virt_to_page o = Some u /\ pg_cache u = c.
Proof.
  intros I Hl Es Ho. pose proof (go_objsize _ (iv_geom _ _ _ I _ _ (proj1 (proj2 Hl)))).
  pose proof (obj_page w g R h c k s sl o o I Hl Es Ho ltac:(lia)) as Hb.
  destruct (iv_slab _ _ _ I _ _ _ _ Hl) as (_ & sl' & Es' & Hs). pose proof (so_pages _ _ _ _ _ _ Hs) as Hpg.
  destruct (block_nonneg _ _ _ _ _ _ _ I Hl) as (_ & _ & Hbb).
  unfold virt_to_slab, virt_to_head_page. rewrite (Hpg _ Hb). cbn [mbind option_bind pg_first]. rewrite (Hpg _ Hbb). cbn [mbind option_bind pg_slab].
  split; [done|]. by eexists.
Qed.

(** *** Changing one slab *)

(** The fields of a cache that its slabs depend on. *)
Definition same_geom (k k' : kmem_cache) : Prop :=
  objsize k' = objsize k /\ num k' = num k /\ gfporder k' = gfporder k /\ cflags k' = cflags k /\ slabp_cache k' = slabp_cache k.

#[local] Instance same_geom_equiv : Equivalence same_geom.
Proof.
  split; [done|intros ? ? (?&?&?&?&?)|intros ? ? ? (?&?&?&?&?) (?&?&?&?&?)]; unfold same_geom; split_and!; congruence.
Qed.

Lemma same_geom_off k k' : same_geom k k' -> OFF_SLAB k' = OFF_SLAB k.
Proof. intros (_ & _ & _ & E & _). unfold OFF_SLAB. by rewrite E. Qed.

Lemma same_geom_obj k k' sl sl' o : same_geom k k' -> s_mem sl' = s_mem sl -> is_obj k sl o <-> is_obj k' sl' o.
Proof. intros (E1 & E2 & _) E. unfold is_obj. by rewrite E1, E2, E. Qed.

Definition live_at w (g : ghost) (c s o : Z) : Prop :=
  exists h k sl, listed w g h c k s /\ slabs w !! s = Some sl /\ is_obj k sl o /\ o ∉ gchain g s.

Lemma live_live_at w g c o : live w g c o <-> exists s, live_at w g c s o.
Proof. unfold live, live_at. naive_solver. Qed.

(** Every cache is still there with its geometry. *)
Definition kept w w' : Prop := forall d kd, caches w !! d = Some kd -> exists kd', caches w' !! d = Some kd' /\ same_geom kd kd'.

Lemma kept_refl w : kept w w.
Proof. intros d kd E. by exists kd. Qed.

Lemma kept_trans w1 w2 w3 : kept w1 w2 -> kept w2 w3 -> kept w1 w3.
Proof.
  intros H1 H2 d kd E. destruct (H1 d kd E) as (k2 & E2 & G2). destruct (H2 d k2 E2) as (k3 & E3 & G3).
  exists k3. split; [done|]. by transitivity k2.
Qed.

Section Update.
Context (w : world S) (g : ghost) (R : Z -> Prop) (h : snode) (c : Z) (k : kmem_cache) (s : Z) (sl : slab_s).
Context (I : slab_inv w g R) (Hl : listed w g h c k s) (Es : slabs w !! s = Some sl).
Context (k' : kmem_cache) (sl' : slab_s) (st' : gmap snode (list_head snode)) (W' : gmap Z Z).
Context (L' : snode -> list snode) (ch' : list Z) (h' : snode).
Context (Hk : same_geom k k') (Hg : geom_ok k') (Hh' : owner h' = Some c) (Hpl : placed h' k ch').
Context (Hco : colouroff sl' = colouroff sl) (Hsm : s_mem sl' = s_mem sl).
Context (Hin : inuse sl' = num k - Z.of_nat (length ch')).
Context (HW : forall a, ~ is_obj k sl a -> W' !! a = words w !! a) (Hch : chain W' (free_list sl') ch').
Context (Hobj : forall o, o ∈ ch' -> is_obj k sl o) (Hnd : NoDup ch').
Context (Hdesc : forall o, o ∈ ch' -> o ∈ gchain g s \/ ~ descriptor w g o).
Context (Hr : rings st' (is_head w) L').
Context (HL : forall x y, is_head w x -> y ∈ L' x <-> if decide (y = SlabN s) then x = h' else y ∈ gL g x).

Definition upd_world : world S := mk_world _ (<[c := k']> (caches w)) (<[s := sl']> (slabs w)) st' W' (pgs w) (pages w).
Definition upd_ghost : ghost := mk_ghost L' (fun x => if decide (x = s) then ch' else gchain g x) (gbase g).

Lemma upd_dom d : is_Some (caches upd_world !! d) <-> is_Some (caches w !! d).
Proof.
  cbn [upd_world caches]. destruct Hl as (_ & Ec & _). destruct (decide (d = c)) as [->|]; [rewrite lookup_insert_eq|by rewrite lookup_insert_ne].
  split; intros _; by eexists.
Qed.

Lemma upd_head x : is_head upd_world x <-> is_head w x.
Proof. split; apply is_head_ext; intros d; apply upd_dom. Qed.

Lemma upd_cache_lookup d kd' : caches upd_world !! d = Some kd' <->
  (d = c /\ kd' = k') \/ (d ≠ c /\ caches w !! d = Some kd').
Proof.
  cbn [upd_world caches]. destruct (decide (d = c)) as [->|].
  - rewrite lookup_insert_eq. naive_solver.
  - rewrite lookup_insert_ne by done. naive_solver.
Qed.

Lemma upd_cache_back d kd' : caches upd_world !! d = Some kd' -> exists kd, caches w !! d = Some kd /\ same_geom kd kd'.
Proof.
  destruct Hl as (_ & Ec & _). intros [[-> ->]|[_ ?]]%upd_cache_lookup; [by exists k|]. by exists kd'.
Qed.

Lemma upd_cache_forth d kd : caches w !! d = Some kd -> exists kd', caches upd_world !! d = Some kd' /\ same_geom kd kd'.
Proof.
  destruct Hl as (_ & Ec & _). intros Ed. destruct (decide (d = c)) as [->|].
  - exists k'. rewrite upd_cache_lookup. rewrite Ec in Ed. injection Ed as <-. auto.
  - exists kd. rewrite upd_cache_lookup. split; [auto|reflexivity].
Qed.

Lemma upd_listed_back x d kd' t : listed upd_world upd_ghost x d kd' t ->
  exists y kd, listed w g y d kd t /\ same_geom kd kd' /\ (t ≠ s -> y = x) /\ (t = s -> x = h').
Proof.
  intros (Ho & Ed & Ht). destruct (upd_cache_back _ _ Ed) as (kd & Ed0 & Hgm).
  assert (is_head w x) as Hx by (right; exists d; split; [done|by exists kd]). cbn [upd_ghost gL] in Ht. rewrite HL in Ht by done.
  destruct (decide (SlabN t = SlabN s)) as [[= ->]|Hne].
  - subst x. rewrite Hh' in Ho. injection Ho as <-. exists h, kd. destruct Hl as (? & Ec & ?). rewrite Ed0 in Ec. injection Ec as ->.
    split_and!; done.
  - exists x, kd. split_and!; [done..|congruence].
Qed.

Lemma upd_listed_forth y d kd t : listed w g y d kd t ->
  exists x kd', listed upd_world upd_ghost x d kd' t /\ same_geom kd kd' /\ (t ≠ s -> x = y).
Proof.
  intros Hy. pose proof Hy as (Ho & Ed & Ht). destruct (upd_cache_forth _ _ Ed) as (kd' & Ed' & Hgm).
  assert (is_head w y) as Hhy by (right; exists d; split; [done|by exists kd]).
  destruct (decide (t = s)) as [->|Hne].
  - destruct (listed_unique _ _ _ _ _ _ _ _ _ _ I Hl Hy) as (-> & -> & ->).
    exists h', kd'. split_and!; [|done|done]. split_and!; [done..|]. cbn [upd_ghost gL]. rewrite HL, decide_True; [done|done|].
    right. exists d. split; [done|]. by exists kd.
  - exists y, kd'. split_and!; [|done|done]. split_and!; [done..|]. cbn [upd_ghost gL]. by rewrite HL, decide_False by congruence.
Qed.

Lemma upd_live_same d x : live_at upd_world upd_ghost d s x <-> d = c /\ is_obj k sl x /\ x ∉ ch'.
Proof.
  split.
  - intros (y & kd & slx & Hy & Ex & Hx & Hnx). destruct (upd_listed_back _ _ _ _ Hy) as (y0 & k0 & Hy0 & Hgm & _).
    destruct (listed_unique _ _ _ _ _ _ _ _ _ _ I Hl Hy0) as (_ & -> & ->). cbn [upd_world slabs upd_ghost gchain] in *.
    rewrite lookup_insert_eq in Ex. injection Ex as <-. rewrite decide_True in Hnx by done. split_and!; [done| |done].
    by apply (same_geom_obj k0 kd sl sl').
  - intros (-> & Hx & Hnx). destruct (upd_listed_forth _ _ _ _ Hl) as (y & kd & Hy & Hgm & _). exists y, kd, sl'.
    cbn [upd_world slabs upd_ghost gchain]. rewrite lookup_insert_eq, decide_True by done. split_and!; [done..| |done].
    by apply (same_geom_obj k kd sl sl').
Qed.

Lemma upd_live_other d t x : t ≠ s -> live_at upd_world upd_ghost d t x <-> live_at w g d t x.
Proof.
  intros Hne. split.
  - intros (y & kd & slx & Hy & Ex & Hx & Hnx). destruct (upd_listed_back _ _ _ _ Hy) as (y0 & k0 & Hy0 & Hgm & _).
    exists y0, k0, slx. cbn [upd_world slabs upd_ghost gchain] in *. rewrite lookup_insert_ne in Ex by done. rewrite decide_False in Hnx by done.
    split_and!; [done..| |done]. by apply (same_geom_obj k0 kd slx slx).
  - intros (y & kd & slx & Hy & Ex & Hx & Hnx). destruct (upd_listed_forth _ _ _ _ Hy) as (y0 & k0 & Hy0 & Hgm & _).
    exists y0, k0, slx. cbn [upd_world slabs upd_ghost gchain] in *. rewrite lookup_insert_ne by done. rewrite decide_False by done.
    split_and!; [done..| |done]. by apply (same_geom_obj kd k0 slx slx).
Qed.

Lemma upd_descriptor x : descriptor upd_world upd_ghost x <-> descriptor w g x.
Proof.
  split; intros (y & d & kd & Hy & Hoff).
  - destruct (upd_listed_back _ _ _ _ Hy) as (y0 & k0 & Hy0 & Hgm & _). exists y0, d, k0. split; [done|].
    by rewrite <- (same_geom_off _ _ Hgm).
  - destruct (upd_listed_forth _ _ _ _ Hy) as (y0 & k0 & Hy0 & Hgm & _). exists y0, d, k0. split; [done|].
    by rewrite (same_geom_off _ _ Hgm).
Qed.

(** A live object that is a descriptor stays live. *)
Lemma upd_live_desc d x : live w g d x -> descriptor w g x -> live upd_world upd_ghost d x.
Proof.
  rewrite !live_live_at. intros [t Ht] Hx. exists t. destruct (decide (t = s)) as [->|]; [|by apply upd_live_other].
  apply upd_live_same. destruct Ht as (y & kd & slx & Hy & Ex & Ho & Hn).
  destruct (listed_unique _ _ _ _ _ _ _ _ _ _ I Hl Hy) as (_ & -> & ->). rewrite Es in Ex. injection Ex as <-.
  split_and!; [done..|]. intros Hc. by destruct (Hdesc x Hc).
Qed.

Lemma chain_ext (m m' : gmap Z Z) l : forall a, chain m a l -> (forall x, x ∈ l -> m' !! x = m !! x) -> chain m' a l.
Proof.
  induction l as [|x l IH]; intros a; [done|]. cbn [chain]. intros (-> & b & E & Hc) Hx. split; [done|]. exists b.
  split; [rewrite Hx; [done|by left]|]. apply IH; [done|]. intros y Hy. apply Hx. by right.
Qed.

Lemma upd_slab_ok x d kd' t : listed upd_world upd_ghost x d kd' t ->
  placed x kd' (gchain upd_ghost t) /\ exists slt, slabs upd_world !! t = Some slt /\ slab_ok upd_world upd_ghost d kd' t slt.
Proof.
  intros Hx. destruct (upd_listed_back _ _ _ _ Hx) as (y & kd & Hy & Hgm & Hyx & Hxh).
  destruct (iv_slab _ _ _ I _ _ _ _ Hy) as (Hp & slt & Et & [C1 C2 C3 C4 C5 C6 C7 C8 C9]).
  pose proof Hgm as (E1 & E2 & E3 & E4 & E5). pose proof (same_geom_off _ _ Hgm) as E6.
  destruct (decide (t = s)) as [->|Hne].
  - destruct (listed_unique _ _ _ _ _ _ _ _ _ _ I Hl Hy) as (<- & <- & <-). rewrite (Hxh eq_refl). rewrite Es in Et. injection Et as <-.
    cbn [upd_ghost gchain upd_world slabs]. rewrite decide_True, lookup_insert_eq by done. split.
    { destruct h'; cbn [placed] in *; rewrite ?E2; done. }
    exists sl'. split; [done|]. constructor; cbn [upd_ghost gchain gbase upd_world words pgs]; rewrite ?decide_True by done; rewrite ?E1, ?E2, ?E3, ?E6; try done.
    + intros o Ho. apply (same_geom_obj k kd' sl sl'); auto.
    + by rewrite Hsm, Hco.
    + by rewrite Hco.
    + by rewrite Hco, Hsm.
  - rewrite (Hyx Hne) in *. cbn [upd_ghost gchain upd_world slabs]. rewrite decide_False, lookup_insert_ne by done. split.
    { destruct x; cbn [placed] in *; rewrite ?E2; done. }
    exists slt. split; [done|]. constructor; cbn [upd_ghost gchain gbase upd_world words pgs]; rewrite ?decide_False by done; rewrite ?E1, ?E2, ?E3, ?E6; try done.
    + eapply chain_ext; [done|]. intros o Ho. apply HW. intros Ho'. apply Hne. symmetry.
      eapply (obj_slab w g R); eauto.
    + intros o Ho. apply (same_geom_obj kd kd' slt slt); auto.
Qed.

Lemma inv_update : slab_inv upd_world upd_ghost R.
Proof.
  constructor.
  - cbn [upd_world links upd_ghost gL]. eapply rings_ext; [exact Hr|by intros ? ?%upd_head|done..].
  - intros x y Hx%upd_head Hy. cbn [upd_ghost gL] in Hy. rewrite HL in Hy by done.
    apply (elem_ok_ext w); [intros d; apply upd_dom|].
    destruct (decide (y = SlabN s)) as [->|]; [subst x; destruct h'; try done; by exists s|]. by apply (iv_elem _ _ _ I).
  - intros d kd [[-> ->]|[_ ?]]%upd_cache_lookup; [done|by eapply (iv_geom _ _ _ I)].
  - intros d kd' Ed Hoff. destruct (upd_cache_back _ _ Ed) as (kd & Ed0 & Hgm). rewrite (same_geom_off _ _ Hgm) in Hoff.
    destruct (iv_mgmt _ _ _ I _ _ Ed0 Hoff) as (k2 & E2 & Ho2 & Hs2). destruct (upd_cache_forth _ _ E2) as (k2' & E2' & Hgm2).
    exists k2'. destruct Hgm as (_ & _ & _ & _ & ->). rewrite (same_geom_off _ _ Hgm2). destruct Hgm2 as (-> & _). done.
  - apply upd_slab_ok.
  - intros x d kd' t Hx Hoff. destruct (upd_listed_back _ _ _ _ Hx) as (y & kd & Hy & Hgm & _). rewrite (same_geom_off _ _ Hgm) in Hoff.
    destruct Hgm as (_ & _ & _ & _ & ->). apply upd_live_desc; [by eapply (iv_desc _ _ _ I)|]. by exists y, d, kd.
  - intros x d kd' t x2 d2 kd2' t2 p Hx Hx2. destruct (upd_listed_back _ _ _ _ Hx) as (y & kd & Hy & (_ & _ & -> & _) & _).
    destruct (upd_listed_back _ _ _ _ Hx2) as (y2 & kd2 & Hy2 & (_ & _ & -> & _) & _). by eapply (iv_disj _ _ _ I).
  - destruct (iv_pages _ _ _ I) as (F & HF & Hfr & HR & Hp). exists F. split_and!; [done..|].
    intros x d kd' t p Hx. destruct (upd_listed_back _ _ _ _ Hx) as (y & kd & Hy & (_ & _ & -> & _) & _). by eapply Hp.
Qed.

Lemma update_spec : slab_inv upd_world upd_ghost R /\ kept w upd_world /\
  (forall d x, live upd_world upd_ghost d x <->
     (d = c /\ is_obj k sl x /\ x ∉ ch') \/ (exists t, t ≠ s /\ live_at w g d t x)) /\
  (forall x, descriptor upd_world upd_ghost x <-> descriptor w g x).
Proof.
  split_and!; [apply inv_update|intros d kd; apply upd_cache_forth| |apply upd_descriptor].
  intros d x. rewrite live_live_at. split.
  - intros [t Ht]. destruct (decide (t = s)) as [->|Hne]; [left; by apply upd_live_same|]. right. exists t. split; [done|].
    by apply upd_live_other.
  - intros [H|(t & Hne & Ht)]; [exists s; by apply upd_live_same|]. exists t. by apply upd_live_other.
Qed.
End Update.

Lemma live_split w g R h c k s sl d x : slab_inv w g R -> listed w g h c k s -> slabs w !! s = Some sl ->
  live w g d x <-> (d = c /\ is_obj k sl x /\ x ∉ gchain g s) \/ (exists t, t ≠ s /\ live_at w g d t x).
Proof.
  intros I Hl Es. rewrite live_live_at. split.
  - intros [t Ht]. destruct (decide (t = s)) as [->|Hne]; [left|right; by exists t].
    destruct Ht as (y & kd & slx & Hy & Ex & Ho & Hn). destruct (listed_unique _ _ _ _ _ _ _ _ _ _ I Hl Hy) as (_ & -> & ->).
    rewrite Es in Ex. by injection Ex as <-.
  - intros [(-> & Ho & Hn)|(t & _ & Ht)]; [|by exists t]. exists s, h, k, sl. done.
Qed.

(** *** Moving a slab between lists *)

Definition relocated (P : snode -> Prop) (s : Z) (h' : snode) (L L' : snode -> list snode) : Prop :=
  forall x y, P x -> y ∈ L' x <-> if decide (y = SlabN s) then x = h' else y ∈ L x.

Lemma relocated_trans (P : snode -> Prop) s h1 h2 L1 L2 L3 :
  relocated P s h1 L1 L2 -> relocated P s h2 L2 L3 -> relocated P s h2 L1 L3.
Proof. intros H1 H2 x y Hx. rewrite (H2 x y Hx). case_decide; [done|]. rewrite (H1 x y Hx). by rewrite decide_False. Qed.

Lemma relocated_stay w g R h c k s : slab_inv w g R -> listed w g h c k s -> relocated (is_head w) s h (gL g) (gL g).
Proof.
  intros I Hl x y Hx. destruct (decide (y = SlabN s)) as [->|Hy]; [|done]. split; [|by intros ->; apply Hl].
  intros Hs. apply (proj2 (iv_rings _ _ _ I) x h (SlabN s)); [done|by eapply listed_head|by right|]. right. apply Hl.
Qed.

Lemma move_slab st P L s h h' (front : bool) : rings st P L -> P h -> P h' -> SlabN s ∈ L h ->
  exists st1 st2 L', list_del (SlabN s) st = Some st1 /\
    (if front then list_add h' (SlabN s) st1 else list_add_tail h' (SlabN s) st1) = Some st2 /\
    rings st2 P L' /\ relocated P s h' L L'.
Proof.
  intros Hr Hh Hh' Hs. destruct (rings_del st P L h (SlabN s) Hr Hh Hs) as (st1 & E1 & _ & Hr1 & Hself & Hno & _).
  destruct (rings_add st1 P _ front h' (SlabN s) Hr1 Hh' Hno) as (st2 & E2 & _ & Hr2 & _).
  { eapply dlist_in_dom; [exact Hself|by left]. }
  exists st1, st2, (ring_add front h' (SlabN s) (ring_del (SlabN s) L)). split_and!; [done..|].
  intros x y Hx. unfold ring_add, ring_del. destruct (decide (y = SlabN s)) as [Hy|Hy].
  - subst y. case_decide as Hxh; [|rewrite list_elem_of_filter; tauto].
    split; [done|]. intros _. destruct front; [by left|]. apply elem_of_app. right. by left.
  - case_decide; [destruct front; rewrite ?elem_of_cons, ?elem_of_app, ?elem_of_cons, ?elem_of_nil|]; rewrite list_elem_of_filter; tauto.
Qed.

Lemma display_ok w (P : snode -> Prop) L c : rings (links w) P L -> P (LPart c) -> P (LFull c) -> P (LFree c) ->
  display_kmemlist c w = Some tt.
Proof.
  intros [Hd _] H1 H2 H3. unfold display_kmemlist.
  assert (forall h, P h -> list_for_each (Datatypes.S (size (links w))) (links w) h = Some (L h)) as Hw.
  { intros h Hh. apply list_for_each_spec; [by apply Hd|]. pose proof (dlist_size _ _ _ (Hd h Hh)). lia. }
  by rewrite !Hw by done.
Qed.

Lemma cache_heads w c k : caches w !! c = Some k -> is_head w (LPart c) /\ is_head w (LFull c) /\ is_head w (LFree c).
Proof. intros E. split_and!; right; exists c; (split; [done|by exists k]). Qed.

(** *** Taking an object *)

Lemma geom_free_objects v k : geom_ok k -> geom_ok (set_free_objects v k).
Proof. by intros []. Qed.

Lemma num_small k : geom_ok k -> 1 <= num k < 2 ^ 31.
Proof.
  intros G. pose proof (go_fits _ G). pose proof (go_num _ G). pose proof (go_objsize _ G). destruct (go_order _ G) as [Ho1 Ho2].
  destruct (go_colour _ G) as (_ & _ & Hc1 & Hc2). unfold MAX_ORDER in Ho2.
  pose proof (Z.pow_le_mono_r 2 (gfporder k) 10 ltac:(lia) ltac:(lia)).
  assert (0 <= header k) by (unfold header; pose proof (go_header _ G); unfold sizeof_slab_t in *; destruct (OFF_SLAB k); lia).
  assert (0 <= colour k * colour_off k) by (apply Z.mul_nonneg_nonneg; lia).
  assert (num k * 4 <= num k * objsize k) by (apply Z.mul_le_mono_nonneg_l; lia). unfold PAGE_SIZE in *. lia.
Qed.

Lemma obj_positive w g R h c k s sl o : slab_inv w g R -> listed w g h c k s -> slabs w !! s = Some sl -> is_obj k sl o -> 0 < o.
Proof.
  intros I Hl Es Ho. destruct (iv_slab _ _ _ I _ _ _ _ Hl) as (_ & sl' & Es' & Hs). rewrite Es in Es'. injection Es' as <-.
  destruct (obj_range _ _ _ _ _ _ _ (iv_geom _ _ _ I _ _ (proj1 (proj2 Hl))) Hs Ho). destruct (block_nonneg _ _ _ _ _ _ _ I Hl).
  unfold PAGE_OFFSET, PAGE_SIZE in *. lia.
Qed.

Lemma take_spec w g R h c k s o rest st1 L1 :
  slab_inv w g R -> listed w g h c k s -> gchain g s = o :: rest ->
  rings st1 (is_head w) L1 -> relocated (is_head w) s (LPart c) (gL g) L1 ->
  exists w' g', refill_take c (SlabN s) (set_links st1 w) = Some (Some o, w') /\ slab_inv w' g' R /\ kept w w' /\
    (forall d x, live w' g' d x <-> live w g d x \/ (d = c /\ x = o)) /\ (forall x, descriptor w' g' x <-> descriptor w g x) /\
    pa_frames (pages w') = pa_frames (pages w) /\ dom (caches w') = dom (caches w).
Proof.
  intros I Hl Hch Hr1 Hrel1. destruct (iv_slab _ _ _ I _ _ _ _ Hl) as (Hp & sl & Es & Hs). pose proof Hl as (Ho & Ec & Hin).
  pose proof (iv_geom _ _ _ I _ _ Ec) as G. pose proof (num_small _ G) as Hnum.
  pose proof (so_chain _ _ _ _ _ _ Hs) as Hc. rewrite Hch in Hc. cbn [chain] in Hc. destruct Hc as (Hfl & b & Eb & Hc).
  pose proof (so_nodup _ _ _ _ _ _ Hs) as Hnd. rewrite Hch in Hnd. apply NoDup_cons in Hnd as [Hon Hnd].
  pose proof (so_objs _ _ _ _ _ _ Hs) as Hobj. rewrite Hch in Hobj.
  pose proof (so_inuse _ _ _ _ _ _ Hs) as Hiu. rewrite Hch in Hiu. cbn [length] in Hiu.
  destruct (cache_heads w c k Ec) as (HP1 & HP2 & HP3).
  assert (Z.of_nat (length rest) < num k) as Hlen.
  { rewrite Hch in Hp. destruct h; cbn [placed length] in Hp; try done; lia. }
  set (sl' := mk_slab (colouroff sl) (s_mem sl) (u32 (inuse sl + 1)) (free sl) b).
  set (k' := set_free_objects (free_objects k - 1) k).
  assert (b =? 0 = bool_decide (rest = [])) as Hb0.
  { destruct rest as [|y rest]; cbn [chain] in Hc; [by subst b|]. destruct Hc as (-> & _). rewrite bool_decide_false by done.
    apply Z.eqb_neq. pose proof (obj_positive _ _ _ _ _ _ _ _ y I Hl Es (Hobj y ltac:(right; by left))). lia. }
  unfold refill_take. cbn [slab_entry mbind option_bind]. unfold slab_get_obj. cbn [set_links slabs words]. rewrite Es. cbn [mbind option_bind].
  rewrite Hfl, Eb. cbn [mbind option_bind]. unfold upd_cache. cbn [set_slabs set_links caches]. rewrite Ec. cbn [mbind option_bind]. fold sl' k'.
  set (w1 := set_caches (<[c:=k']> (caches w)) (set_slabs (<[s:=sl']> (slabs w)) (set_links st1 w))).
  rewrite (lookup_insert_eq (slabs w) s sl' : slabs w1 !! s = Some sl'). cbn [mbind option_bind]. change (free_list sl') with b. rewrite Hb0.
  set (h' := if bool_decide (rest = []) then LFull c else LPart c).
  assert (exists st2 L2, (if bool_decide (rest = []) then
       w0 ← on_links w1 (list_del (SlabN s)); on_links w0 (list_add (LFull c) (SlabN s))
     else Some w1)
     = Some (mk_world _ (<[c:=k']> (caches w)) (<[s:=sl']> (slabs w)) st2 (words w) (pgs w) (pages w)) /\
     rings st2 (is_head w) L2 /\ relocated (is_head w) s h' (gL g) L2) as (st2 & L2 & E2 & Hr2 & Hrel2).
  { unfold h'. destruct (bool_decide (rest = [])); [|by exists st1, L1].
    destruct (move_slab st1 _ L1 s (LPart c) (LFull c) true Hr1 HP1 HP2) as (st2 & st3 & L3 & E2 & E3 & Hr3 & Hrel3).
    { apply Hrel1; [done|]. by rewrite decide_True. }
    exists st3, L3. unfold on_links. cbn [w1 set_caches set_slabs set_links links]. rewrite E2. cbn [mbind option_bind set_links links]. rewrite E3.
    split_and!; [done..|]. by eapply relocated_trans. }
  rewrite E2. cbn [mbind option_bind].
  erewrite display_ok; [|exact Hr2|done..]. cbn [mbind option_bind].
  destruct (update_spec w g R h c k s sl I Hl Es k' sl' st2 (words w) L2 rest h') as (I' & Hk & Hlv & Hds); try done.
  - by apply geom_free_objects.
  - unfold h'. by destruct (bool_decide (rest = [])).
  - unfold h'. case_bool_decide; cbn [placed]; done.
  - cbn [sl' inuse]. rewrite u32_small by lia. lia.
  - intros x Hx. apply Hobj. by right.
  - intros x Hx. left. rewrite Hch. by right.
  - eexists _, _. split; [done|]. split_and!; [exact I'|exact Hk| |exact Hds|done|cbn [caches]; rewrite dom_insert_lookup_L; [done|by rewrite Ec]]. intros d x. rewrite Hlv.
    rewrite (live_split w g R h c k s sl d x I Hl Es), Hch, not_elem_of_cons. split.
    + intros [(-> & Hx & Hnx)|?]; [|tauto]. destruct (decide (x = o)) as [->|]; tauto.
    + intros [[(-> & Hx & [? ?])|?]|[-> ->]]; [tauto..|]. left. split_and!; [done|apply Hobj; by left|done].
Qed.

(** *** Adding a slab *)

Section AddSlab.
Context (w : world S) (g : ghost) (R : Z -> Prop) (c : Z) (k : kmem_cache) (s i : Z) (sl : slab_s).
Context (I : slab_inv w g (fun p => R p \/ in_block (gfporder k) i p)) (Ec : caches w !! c = Some k).
Context (Hfresh : forall x, is_head w x -> SlabN s ∉ gL g x).
Context (HRi : forall p, R p -> ~ in_block (gfporder k) i p).
Context (Hi : forall p, in_block (gfporder k) i p -> 0 <= p < pa_frames (pages w)) (Hal : (2 ^ gfporder k | i)).
Context (k' : kmem_cache) (st' : gmap snode (list_head snode)) (W' : gmap Z Z) (pg' : gmap Z page_use).
Context (L' : snode -> list snode) (ch : list Z).
Context (Hk : same_geom k k') (Hg : geom_ok k').
Context (Hsl : s_mem sl = PAGE_OFFSET + PAGE_SIZE * i + colouroff sl).
Context (Hoff : 0 <= colouroff sl /\ colouroff sl + num k * objsize k <= PAGE_SIZE * 2 ^ gfporder k).
Context (Hdsc : if OFF_SLAB k then colouroff sl < PAGE_SIZE else PAGE_OFFSET + PAGE_SIZE * i <= s /\ s + sizeof_slab_t <= s_mem sl).
Context (Hlive : OFF_SLAB k = true -> live w g (slabp_cache k) s).
Context (Hch : chain W' (free_list sl) ch) (Hobj : forall o, is_obj k sl o <-> o ∈ ch) (Hnd : NoDup ch).
Context (Hlen : Z.of_nat (length ch) = num k) (Hiu : inuse sl = 0).
Context (HW : forall a, ~ is_obj k sl a -> W' !! a = words w !! a).
Context (Hpg : forall p, pg' !! p = if decide (i <= p < i + 2 ^ gfporder k) then Some (mk_use c s i) else pgs w !! p).
Context (Hr : rings st' (is_head w) L').
Context (HL : forall x y, is_head w x -> y ∈ L' x <-> (y = SlabN s /\ x = LFree c) \/ y ∈ gL g x).

Definition add_world : world S := mk_world _ (<[c := k']> (caches w)) (<[s := sl]> (slabs w)) st' W' pg' (pages w).
Definition add_ghost : ghost := mk_ghost L' (fun x => if decide (x = s) then ch else gchain g x) (fun x => if decide (x = s) then i else gbase g x).

Lemma add_cache_back d kd' : caches add_world !! d = Some kd' -> exists kd, caches w !! d = Some kd /\ same_geom kd kd' /\ geom_ok kd'.
Proof.
  cbn [add_world caches]. destruct (decide (d = c)) as [->|]; [rewrite lookup_insert_eq|rewrite lookup_insert_ne by done].
  - intros [= <-]. by exists k.
  - intros E. exists kd'. split_and!; [done..|]. by eapply (iv_geom _ _ _ I).
Qed.

Lemma add_cache_forth d kd : caches w !! d = Some kd -> exists kd', caches add_world !! d = Some kd' /\ same_geom kd kd'.
Proof.
  cbn [add_world caches]. intros E. destruct (decide (d = c)) as [->|]; [rewrite lookup_insert_eq|rewrite lookup_insert_ne by done; by exists kd].
  exists k'. rewrite Ec in E. by injection E as <-.
Qed.

Lemma add_dom d : is_Some (caches add_world !! d) <-> is_Some (caches w !! d).
Proof.
  split; intros [kd Hd].
  - destruct (add_cache_back _ _ Hd) as (k0 & ? & _). by exists k0.
  - destruct (add_cache_forth _ _ Hd) as (k0 & ? & _). by exists k0.
Qed.

Lemma add_head x : is_head add_world x <-> is_head w x.
Proof. split; apply is_head_ext; intros d; apply add_dom. Qed.

Lemma add_listed_back x d kd' t : listed add_world add_ghost x d kd' t ->
  (t = s /\ x = LFree c /\ d = c /\ kd' = k') \/
  (t ≠ s /\ exists kd, listed w g x d kd t /\ same_geom kd kd').
Proof.
  intros (Ho & Ed & Ht). destruct (add_cache_back _ _ Ed) as (kd & Ed0 & Hgm & _).
  assert (is_head w x) as Hx by (right; exists d; split; [done|by exists kd]). cbn [add_ghost gL] in Ht. rewrite HL in Ht by done.
  destruct Ht as [[[= ->] ->]|Ht].
  - left. injection Ho as <-. cbn [add_world caches] in Ed. rewrite lookup_insert_eq in Ed. by injection Ed as <-.
  - right. split; [intros ->; by apply (Hfresh x)|]. by exists kd.
Qed.

Lemma add_listed_forth x d kd t : listed w g x d kd t -> t ≠ s /\ exists kd', listed add_world add_ghost x d kd' t /\ same_geom kd kd'.
Proof.
  intros Hx. pose proof Hx as (Ho & Ed & Ht). pose proof (listed_head _ _ _ _ _ _ Hx) as Hh. split; [intros ->; by apply (Hfresh x)|].
  destruct (add_cache_forth _ _ Ed) as (kd' & Ed' & Hgm). exists kd'. split; [|done]. split_and!; [done..|]. cbn [add_ghost gL]. rewrite HL by done. by right.
Qed.

Lemma add_listed_new : listed add_world add_ghost (LFree c) c k' s.
Proof.
  split_and!; [done|cbn [add_world caches]; apply lookup_insert_eq|]. cbn [add_ghost gL]. apply HL; [|by left].
  right. exists c. split; [done|]. by exists k.
Qed.

Lemma add_live d x : live add_world add_ghost d x <-> live w g d x.
Proof.
  split; intros (y & kd & t & slt & Hy & Et & Hx & Hn).
  - destruct (add_listed_back _ _ _ _ Hy) as [(-> & -> & -> & ->)|(Hne & k0 & Hy0 & Hgm)]; cbn [add_world add_ghost slabs gchain] in *.
    + rewrite lookup_insert_eq in Et. injection Et as <-. rewrite decide_True in Hn by done. destruct Hn. apply Hobj.
      by apply (same_geom_obj k k' sl sl).
    + rewrite lookup_insert_ne in Et by done. rewrite decide_False in Hn by done. exists y, k0, t, slt. split_and!; [done..| |done].
      by apply (same_geom_obj k0 kd slt slt).
  - destruct (add_listed_forth _ _ _ _ Hy) as (Hne & k0 & Hy0 & Hgm). exists y, k0, t, slt. cbn [add_world add_ghost slabs gchain].
    rewrite lookup_insert_ne, decide_False by done. split_and!; [done..| |done]. by apply (same_geom_obj kd k0 slt slt).
Qed.

Lemma add_descriptor x : descriptor add_world add_ghost x <-> descriptor w g x \/ (x = s /\ OFF_SLAB k = true).
Proof.
  split.
  - intros (y & d & kd & Hy & Ho). destruct (add_listed_back _ _ _ _ Hy) as [(-> & _ & _ & ->)|(Hne & k0 & Hy0 & Hgm)].
    + right. split; [done|]. by rewrite <- (same_geom_off _ _ Hk).
    + left. exists y, d, k0. split; [done|]. by rewrite <- (same_geom_off _ _ Hgm).
  - intros [(y & d & kd & Hy & Ho)|[-> Ho]].
    + destruct (add_listed_forth _ _ _ _ Hy) as (Hne & k0 & Hy0 & Hgm). exists y, d, k0. split; [done|]. by rewrite (same_geom_off _ _ Hgm).
    + exists (LFree c), c, k'. split; [apply add_listed_new|]. by rewrite (same_geom_off _ _ Hk).
Qed.

Lemma add_slab_ok x d kd' t : listed add_world add_ghost x d kd' t ->
  placed x kd' (gchain add_ghost t) /\ exists slt, slabs add_world !! t = Some slt /\ slab_ok add_world add_ghost d kd' t slt.
Proof.
  intros Hx. destruct (add_listed_back _ _ _ _ Hx) as [(-> & -> & -> & ->)|(Hne & kd & Hy & Hgm)].
  - pose proof Hk as (E1 & E2 & E3 & E4 & E5). pose proof (same_geom_off _ _ Hk) as E6.
    cbn [add_ghost gchain add_world slabs]. rewrite decide_True, lookup_insert_eq by done. split; [cbn [placed]; by rewrite E2|].
    exists sl. split; [done|]. constructor; cbn [add_ghost gchain gbase add_world words pgs]; rewrite ?decide_True by done; rewrite ?E1, ?E2, ?E3, ?E6; try done.
    + intros o Ho. apply (same_geom_obj k k' sl sl); [done..|]. by apply Hobj.
    + lia.
    + intros p Hp. rewrite Hpg, decide_True by done. done.
  - destruct (iv_slab _ _ _ I _ _ _ _ Hy) as (Hp & slt & Et & [C1 C2 C3 C4 C5 C6 C7 C8 C9]).
    pose proof Hgm as (E1 & E2 & E3 & E4 & E5). pose proof (same_geom_off _ _ Hgm) as E6.
    cbn [add_ghost gchain add_world slabs]. rewrite decide_False, lookup_insert_ne by done. split.
    { destruct x; cbn [placed] in *; rewrite ?E2; done. }
    assert (forall p, in_block (gfporder kd) (gbase g t) p -> ~ in_block (gfporder k) i p) as Hdj.
    { destruct (iv_pages _ _ _ I) as (F & _ & _ & _ & Hpp). intros p H1 H2. destruct (Hpp _ _ _ _ _ Hy H1) as (_ & HR & _). tauto. }
    exists slt. split; [done|]. constructor; cbn [add_ghost gchain gbase add_world words pgs]; rewrite ?decide_False by done; rewrite ?E1, ?E2, ?E3, ?E6; try done.
    + eapply chain_ext; [done|]. intros o Ho. apply HW. intros Ho'. pose proof (C2 o Ho) as Ho2.
      pose proof (iv_geom _ _ _ I _ _ (proj1 (proj2 Hy))) as Gd. pose proof (iv_geom _ _ _ I _ _ Ec) as Gk.
      apply (Hdj (virt_to_page o)).
      * apply (obj_page _ _ _ _ _ _ _ _ o o I Hy Et Ho2). pose proof (go_objsize _ Gd). lia.
      * destruct Ho' as (j & Hj & ->). pose proof (go_objsize _ Gk).
        assert ((j + 1) * objsize k <= num k * objsize k) by (apply Z.mul_le_mono_nonneg_r; lia).
        assert (0 <= j * objsize k) by (apply Z.mul_nonneg_nonneg; lia). destruct (go_order _ Gk) as [Hor _].
        pose proof (Z.pow_pos_nonneg 2 (gfporder k) ltac:(lia) Hor). assert (0 <= i) by (apply (Hi i); unfold in_block; lia).
        apply addr_in_block; [lia|lia|]. lia.
    + intros o Ho. apply (same_geom_obj kd kd' slt slt); auto.
    + intros p Hp'. rewrite Hpg, decide_False; [by apply C8|]. apply Hdj. done.
Qed.

Lemma add_spec : slab_inv add_world add_ghost R /\ kept w add_world.
Proof.
  split; [|intros d kd; apply add_cache_forth]. destruct (iv_pages _ _ _ I) as (F & HF & Hfr & HR & Hp).
  assert (forall x d kd' t, listed add_world add_ghost x d kd' t -> forall p, in_block (gfporder kd') (gbase add_ghost t) p ->
    (t = s /\ in_block (gfporder k) i p) \/ (t ≠ s /\ exists kd, listed w g x d kd t /\ in_block (gfporder kd) (gbase g t) p)) as Hblk.
  { intros x d kd' t Hx p. destruct (add_listed_back _ _ _ _ Hx) as [(-> & -> & -> & ->)|(Hne & kd & Hy & Hgm)]; cbn [add_ghost gbase].
    - rewrite decide_True by done. destruct Hk as (_ & _ & -> & _). auto.
    - rewrite decide_False by done. pose proof Hgm as (_ & _ & -> & _). right. split; [done|]. by exists kd. }
  constructor.
  - cbn [add_world links add_ghost gL]. eapply rings_ext; [exact Hr|by intros ? ?%add_head|done..].
  - intros x y Hx%add_head Hy. cbn [add_ghost gL] in Hy. rewrite HL in Hy by done.
    apply (elem_ok_ext w); [intros d; apply add_dom|]. destruct Hy as [[-> ->]|Hy]; [by eexists|]. by apply (iv_elem _ _ _ I).
  - intros d kd Ed. by destruct (add_cache_back _ _ Ed) as (? & _ & _ & ?).
  - intros d kd' Ed Ho. destruct (add_cache_back _ _ Ed) as (kd & Ed0 & Hgm & _). rewrite (same_geom_off _ _ Hgm) in Ho.
    destruct (iv_mgmt _ _ _ I _ _ Ed0 Ho) as (k2 & E2 & Ho2 & Hs2). destruct (add_cache_forth _ _ E2) as (k2' & E2' & Hgm2).
    exists k2'. destruct Hgm as (_ & _ & _ & _ & ->). rewrite (same_geom_off _ _ Hgm2). destruct Hgm2 as (-> & _). done.
  - apply add_slab_ok.
  - intros x d kd' t Hx Ho. apply add_live. destruct (add_listed_back _ _ _ _ Hx) as [(-> & -> & -> & ->)|(Hne & kd & Hy & Hgm)].
    + rewrite (same_geom_off _ _ Hk) in Ho. destruct Hk as (_ & _ & _ & _ & ->). by apply Hlive.
    + rewrite (same_geom_off _ _ Hgm) in Ho. destruct Hgm as (_ & _ & _ & _ & ->). by eapply (iv_desc _ _ _ I).
  - intros x d kd' t x2 d2 kd2' t2 p Hx Hx2 H1 H2. destruct (Hblk _ _ _ _ Hx p H1) as [[-> B1]|(N1 & k1 & Y1 & B1)];
      destruct (Hblk _ _ _ _ Hx2 p H2) as [[-> B2]|(N2 & k2 & Y2 & B2)]; [done|..].
    + destruct (Hp _ _ _ _ _ Y2 B2) as (_ & ? & _). tauto.
    + destruct (Hp _ _ _ _ _ Y1 B1) as (_ & ? & _). tauto.
    + by eapply (iv_disj _ _ _ I).
  - exists F. cbn [add_world pages]. split_and!; [done..|intros p Hp'; apply HR; by left|].
    intros x d kd' t p Hx H1. destruct (Hblk _ _ _ _ Hx p H1) as [[-> B1]|(N1 & k1 & Y1 & B1)].
    + split_and!; [apply HR; by right|intros HRp; by apply (HRi p)|by apply Hi..].
    + destruct (Hp _ _ _ _ _ Y1 B1) as (? & ? & ?). tauto.
Qed.
End AddSlab.

(** *** Changes around the slabs: cache fields, page frames *)

(** Allocation decides whether there is a free run. *)
Lemma decide_free_run (F : Z -> Prop) s k : pa_rep s F -> 0 <= k <= MAX_ORDER ->
  (exists i s', pa_alloc s k = Some (Some i, s') /\ free_run F k i /\ pa_frames s' = pa_frames s /\
     pa_rep s' (fun p => F p /\ ~ in_block k i p)) \/
  ((~ exists i, free_run F k i) /\ pa_alloc s k = Some (None, s)).
Proof.
  intros HF Hk. destruct (pa_run_dec s F k HF Hk) as [Hrun|Hno].
  - left. by apply pa_alloc_succeeds.
  - right. split; [done|]. by apply (pa_alloc_fails s F).
Qed.

(** As [same_geom], but a cache with internal descriptors may get another
    cache of descriptors. *)
Definition weak_geom (k k' : kmem_cache) : Prop :=
  objsize k' = objsize k /\ num k' = num k /\ gfporder k' = gfporder k /\ cflags k' = cflags k /\
  (OFF_SLAB k = true -> slabp_cache k' = slabp_cache k).

Lemma same_weak k k' : same_geom k k' -> weak_geom k k'.
Proof. by intros (? & ? & ? & ? & ?). Qed.

Lemma weak_geom_off k k' : weak_geom k k' -> OFF_SLAB k' = OFF_SLAB k.
Proof. intros (_ & _ & _ & E & _). unfold OFF_SLAB. by rewrite E. Qed.

Lemma weak_geom_obj k k' sl sl' o : weak_geom k k' -> s_mem sl' = s_mem sl -> is_obj k sl o <-> is_obj k' sl' o.
Proof. intros (E1 & E2 & _) E. unfold is_obj. by rewrite E1, E2, E. Qed.

Section Env.
Context (w w' : world S) (g : ghost) (R R' F' : Z -> Prop).
Context (I : slab_inv w g R).
Context (E1 : slabs w' = slabs w) (E2 : links w' = links w) (E3 : words w' = words w).
Context (Hback : forall d kd', caches w' !! d = Some kd' -> geom_ok kd' /\ exists kd, caches w !! d = Some kd /\ weak_geom kd kd').
Context (Hkept : forall d kd, caches w !! d = Some kd -> exists kd', caches w' !! d = Some kd' /\ weak_geom kd kd').
Context (Hpg : forall h c k s p, listed w g h c k s -> in_block (gfporder k) (gbase g s) p -> pgs w' !! p = pgs w !! p).
Context (HF : pa_rep (pages w') F') (Hfr : pa_frames (pages w') = pa_frames (pages w)) (HR : forall p, R' p -> ~ F' p).
Context (Hpp : forall h c k s p, listed w g h c k s -> in_block (gfporder k) (gbase g s) p -> ~ F' p /\ ~ R' p).

Lemma env_listed_back x d kd' t : listed w' g x d kd' t -> exists kd, listed w g x d kd t /\ weak_geom kd kd'.
Proof. intros (Ho & Ed & Ht). destruct (Hback _ _ Ed) as (_ & kd & E & G). by exists kd. Qed.

Lemma env_listed_forth x d kd t : listed w g x d kd t -> exists kd', listed w' g x d kd' t /\ weak_geom kd kd'.
Proof. intros (Ho & Ed & Ht). destruct (Hkept _ _ Ed) as (kd' & E & G). by exists kd'. Qed.

Lemma env_live d x : live w' g d x <-> live w g d x.
Proof.
  split; intros (y & kd & t & slt & Hy & Et & Hx & Hn).
  - destruct (env_listed_back _ _ _ _ Hy) as (k0 & Hy0 & G). exists y, k0, t, slt. rewrite <- E1. split_and!; [done..| |done].
    by apply (weak_geom_obj k0 kd slt slt).
  - destruct (env_listed_forth _ _ _ _ Hy) as (k0 & Hy0 & G). exists y, k0, t, slt. rewrite E1. split_and!; [done..| |done].
    by apply (weak_geom_obj kd k0 slt slt).
Qed.

Lemma env_descriptor x : descriptor w' g x <-> descriptor w g x.
Proof.
  split; intros (y & d & kd & Hy & Ho).
  - destruct (env_listed_back _ _ _ _ Hy) as (k0 & Hy0 & G). exists y, d, k0. split; [done|]. by rewrite <- (weak_geom_off _ _ G).
  - destruct (env_listed_forth _ _ _ _ Hy) as (k0 & Hy0 & G). exists y, d, k0. split; [done|]. by rewrite (weak_geom_off _ _ G).
Qed.

Lemma env_inv : slab_inv w' g R'.
Proof.
  assert (forall x, is_head w' x -> is_head w x) as Hh.
  { apply is_head_ext. intros d [kd Hd]. destruct (Hback _ _ Hd) as (_ & k0 & ? & _). by exists k0. }
  constructor.
  - rewrite E2. eapply rings_ext; [exact (iv_rings _ _ _ I)|done..].
  - intros x y Hx Hy. apply (elem_ok_ext w); [intros d [kd Hd]; destruct (Hkept _ _ Hd) as (k0 & ? & _); by exists k0|].
    apply (iv_elem _ _ _ I); [by apply Hh|done].
  - intros d kd Ed. by apply Hback in Ed as [? _].
  - intros d kd' Ed Ho. destruct (Hback _ _ Ed) as (_ & kd & Ed0 & Hgm). rewrite (weak_geom_off _ _ Hgm) in Ho.
    destruct (iv_mgmt _ _ _ I _ _ Ed0 Ho) as (k2 & Ek2 & Ho2 & Hs2). destruct (Hkept _ _ Ek2) as (k2' & E2' & Hgm2).
    exists k2'. destruct Hgm as (_ & _ & _ & _ & Hgm). rewrite (Hgm Ho). rewrite (weak_geom_off _ _ Hgm2). destruct Hgm2 as (-> & _). done.
  - intros x d kd' t Hx. destruct (env_listed_back _ _ _ _ Hx) as (kd & Hy & G). pose proof G as (G1 & G2 & G3 & G4 & G5).
    destruct (iv_slab _ _ _ I _ _ _ _ Hy) as (Hp & slt & Et & [C1 C2 C3 C4 C5 C6 C7 C8 C9]). split.
    { destruct x; cbn [placed] in *; rewrite ?G2; done. }
    exists slt. rewrite E1. split; [done|]. constructor; rewrite ?E3, ?G1, ?G2, ?G3, ?(weak_geom_off _ _ G); try done.
    + intros o Ho. apply (weak_geom_obj kd kd' slt slt); auto.
    + intros p Hp'. rewrite (Hpg _ _ _ _ _ Hy Hp'). by apply C8.
  - intros x d kd' t Hx Ho. apply env_live. destruct (env_listed_back _ _ _ _ Hx) as (kd & Hy & G).
    rewrite (weak_geom_off _ _ G) in Ho. destruct G as (_ & _ & _ & _ & G). rewrite (G Ho). by eapply (iv_desc _ _ _ I).
  - intros x d kd' t x2 d2 kd2' t2 p Hx Hx2. destruct (env_listed_back _ _ _ _ Hx) as (kd & Hy & (_ & _ & -> & _)).
    destruct (env_listed_back _ _ _ _ Hx2) as (kd2 & Hy2 & (_ & _ & -> & _)). by eapply (iv_disj _ _ _ I).
  - destruct (iv_pages _ _ _ I) as (F & _ & Hfr0 & _ & Hp). exists F'. split_and!; [done|lia|done|].
    intros x d kd' t p Hx. destruct (env_listed_back _ _ _ _ Hx) as (kd & Hy & (_ & _ & -> & _)). intros Hb.
    destruct (Hp _ _ _ _ _ Hy Hb) as (_ & _ & ?). destruct (Hpp _ _ _ _ _ Hy Hb). rewrite Hfr. done.
Qed.

End Env.

(** Nothing a client can see has changed. *)
Lemma env_spec w w' g (R R' F' : Z -> Prop) : slab_inv w g R -> slabs w' = slabs w -> links w' = links w -> words w' = words w ->
  (forall d kd', caches w' !! d = Some kd' -> geom_ok kd' /\ exists kd, caches w !! d = Some kd /\ same_geom kd kd') -> kept w w' ->
  (forall h c k s p, listed w g h c k s -> in_block (gfporder k) (gbase g s) p -> pgs w' !! p = pgs w !! p) ->
  pa_rep (pages w') F' -> pa_frames (pages w') = pa_frames (pages w) -> (forall p, R' p -> ~ F' p) ->
  (forall h c k s p, listed w g h c k s -> in_block (gfporder k) (gbase g s) p -> ~ F' p /\ ~ R' p) ->
  slab_inv w' g R' /\ kept w w' /\ (forall d x, live w' g d x <-> live w g d x) /\ (forall x, descriptor w' g x <-> descriptor w g x).
Proof.
  intros I E1 E2 E3 Hb Hk Hpg HF Hfr HR Hp.
  assert (forall d kd', caches w' !! d = Some kd' -> geom_ok kd' /\ exists kd, caches w !! d = Some kd /\ weak_geom kd kd') as Hb'.
  { intros d kd' E. destruct (Hb d kd' E) as (? & kd & ? & ?). split; [done|]. exists kd. split; [done|by apply same_weak]. }
  assert (forall d kd, caches w !! d = Some kd -> exists kd', caches w' !! d = Some kd' /\ weak_geom kd kd') as Hk'.
  { intros d kd E. destruct (Hk d kd E) as (kd' & ? & ?). exists kd'. split; [done|by apply same_weak]. }
  split_and!; [by apply (env_inv w w' g R R' F')|done|intros d x; by apply (env_live w w' g)|intros x; by apply (env_descriptor w w' g)].
Qed.

Lemma mark_run_spec (set : bool) n : forall p s F, pa_rep s F ->
  (forall q, p <= q < p + Z.of_nat n -> 0 <= q < pa_frames s /\ ~ F q) ->
  exists s', mark_run set n p s = Some s' /\ pa_frames s' = pa_frames s /\ pa_rep s' F.
Proof.
  induction n as [|n IH]; intros p s F HF Hq; [by exists s|]. cbn [mark_run].
  destruct (pa_mark_spec set s F p HF) as (s1 & E1 & Hf1 & HF1); [apply Hq; lia..|]. rewrite E1. cbn [mbind option_bind].
  destruct (IH (p + 1) s1 F HF1) as (s' & E & Hf & HF'); [intros q Hq'; rewrite Hf1; apply Hq; lia|].
  exists s'. split_and!; [done|congruence|done].
Qed.

(** One cache gets other values of its bookkeeping fields. *)
Lemma cache_field_spec w g R c k k' : slab_inv w g R -> caches w !! c = Some k -> same_geom k k' -> geom_ok k' ->
  let w' := set_caches (<[c := k']> (caches w)) w in
  slab_inv w' g R /\ kept w w' /\ (forall d x, live w' g d x <-> live w g d x) /\ (forall x, descriptor w' g x <-> descriptor w g x).
Proof.
  intros I Ec G Gk w'. destruct (iv_pages _ _ _ I) as (F & HF & Hfr & HR & Hp).
  apply (env_spec w w' g R R F); try done.
  - intros d kd'. cbn [w' set_caches caches]. destruct (decide (d = c)) as [->|]; [rewrite lookup_insert_eq|rewrite lookup_insert_ne by done].
    + intros [= <-]. split; [done|]. by exists k.
    + intros E. split; [by eapply (iv_geom _ _ _ I)|]. by exists kd'.
  - intros d kd. cbn [w' set_caches caches]. intros E. destruct (decide (d = c)) as [->|];
      [rewrite lookup_insert_eq|rewrite lookup_insert_ne by done; by exists kd]. rewrite Ec in E. injection E as <-. by exists k'.
  - intros x d kd t p Hx Hb. destruct (Hp _ _ _ _ _ Hx Hb) as (? & ? & _). done.
Qed.

Lemma getpages_spec w g R c k flags : slab_inv w g R -> caches w !! c = Some k ->
  exists r w', kmem_getpages c flags w = Some (r, w') /\
    match r with
    | None => w' = w /\ forall F, pa_rep (pages w) F -> ~ exists i, free_run F (gfporder k) i
    | Some a => exists s i, w' = set_pages s w /\ a = PAGE_OFFSET + PAGE_SIZE * i /\ (2 ^ gfporder k | i) /\
        pa_frames s = pa_frames (pages w) /\
        (forall p, in_block (gfporder k) i p -> 0 <= p < pa_frames (pages w) /\ ~ R p) /\
        slab_inv w' g (fun p => R p \/ in_block (gfporder k) i p) /\ (forall d x, live w' g d x <-> live w g d x) /\
        (forall x, descriptor w' g x <-> descriptor w g x)
    end.
Proof.
  intros I Ec. destruct (iv_pages _ _ _ I) as (F & HF & Hfr & HR & Hp). destruct (iv_geom _ _ _ I _ _ Ec) as [_ _ Ho _ _ _ _].
  unfold kmem_getpages. rewrite Ec. cbn [mbind option_bind].
  destruct (decide_free_run F (pages w) (gfporder k) HF Ho) as [(i & s1 & E1 & Hrun & Hf1 & HF1)|[Hno E1]].
  2:{ rewrite E1. cbn [mbind option_bind]. exists None, w. split; [by destruct w|]. split; [done|].
      intros F' HF' Hrun. destruct (pa_alloc_succeeds _ _ _ HF' Ho Hrun) as (? & ? & E & _). congruence. }
  rewrite E1. cbn [mbind option_bind]. rewrite Z.shiftl_1_l. pose proof (Z.pow_pos_nonneg 2 (gfporder k) ltac:(lia) ltac:(lia)) as H2.
  assert (forall p, in_block (gfporder k) i p -> 0 <= p < pa_frames (pages w) /\ F p) as Hin.
  { intros p Hb. pose proof (proj2 Hrun p Hb) as HFp. split; [by eapply pa_rep_bound|done]. }
  destruct (mark_run_spec true (Z.to_nat (2 ^ gfporder k)) i s1 _ HF1) as (s2 & E2 & Hf2 & HF2).
  { intros q Hq. rewrite Z2Nat.id in Hq by lia. destruct (Hin q) as [? ?]; [done|]. rewrite Hf1. split; [done|]. unfold in_block. tauto. }
  rewrite E2. cbn [mbind option_bind]. exists (Some (page_address i)), (set_pages s2 w). split; [done|]. exists s2, i.
  assert (in_block (gfporder k) i i) as Hii by (unfold in_block; lia). destruct (Hin i Hii).
  destruct (env_spec w (set_pages s2 w) g R (fun p => R p \/ in_block (gfporder k) i p) (fun p => F p /\ ~ in_block (gfporder k) i p) I)
    as (I' & _ & Hl & Hd); try done.
  - intros d kd E. split; [by eapply (iv_geom _ _ _ I)|]. by exists kd.
  - intros d kd E. by exists kd.
  - cbn [set_pages pages]. congruence.
  - intros p [Hp1|Hp1]; [|tauto]. intros [Hp2 _]. by apply (HR p).
  - intros x d kd t p Hx Hb. destruct (Hp _ _ _ _ _ Hx Hb) as (HnF & HnR & _). split; [tauto|]. intros [?|Hb2]; [done|].
    by destruct (Hin p Hb2).
  - split_and!; [done|by apply page_address_small; lia|apply Hrun|congruence| |done..].
    intros p Hb. destruct (Hin p Hb). split; [done|]. intros HRp. by apply (HR p).
Qed.

Lemma forget_lookup page n m p :
  forget_pages page n m !! p = if decide (page <= p < page + n) then None else m !! p.
Proof.
  unfold forget_pages. destruct (m !! p) as [u|] eqn:E; case_decide as Hp.
  - apply map_lookup_filter_None. right. intros u' _ Hn. by apply Hn.
  - apply map_lookup_filter_Some. done.
  - apply map_lookup_filter_None. by left.
  - apply map_lookup_filter_None. by left.
Qed.

Lemma freepages_spec w g R c k i a :
  slab_inv w g (fun p => R p \/ in_block (gfporder k) i p) -> caches w !! c = Some k -> virt_to_page a = i ->
  (2 ^ gfporder k | i) -> (forall p, in_block (gfporder k) i p -> 0 <= p < pa_frames (pages w) /\ ~ R p) ->
  exists w', kmem_freepages c a w = Some w' /\ slab_inv w' g R /\ kept w w' /\ caches w' = caches w /\ pa_frames (pages w') = pa_frames (pages w) /\
    (forall d x, live w' g d x <-> live w g d x) /\ (forall x, descriptor w' g x <-> descriptor w g x).
Proof.
  intros I Ec Ha Hal Hi. destruct (iv_pages _ _ _ I) as (F & HF & Hfr & HR & Hp). destruct (iv_geom _ _ _ I _ _ Ec) as [_ _ Ho _ _ _ _].
  pose proof (Z.pow_pos_nonneg 2 (gfporder k) ltac:(lia) ltac:(lia)) as H2. unfold kmem_freepages. rewrite Ec. cbn [mbind option_bind].
  rewrite Ha, Z.shiftl_1_l.
  assert (forall p, in_block (gfporder k) i p -> ~ F p) as HnF by (intros p Hb; apply HR; by right).
  destruct (mark_run_spec false (Z.to_nat (2 ^ gfporder k)) i (pages w) F HF) as (s1 & E1 & Hf1 & HF1).
  { intros q Hq. rewrite Z2Nat.id in Hq by lia. split; [by apply Hi|by apply HnF]. }
  rewrite E1. cbn [mbind option_bind].
  destruct (Hi i) as [[Hi0 _] _]; [unfold in_block; lia|]. destruct (Hi (i + 2 ^ gfporder k - 1)) as [[_ Hi1] _]; [unfold in_block; lia|].
  destruct (pa_free_spec s1 F (gfporder k) i HF1 Ho Hal Hi0) as (s2 & E2 & Hf2 & HF2); [lia|done|].
  rewrite E2. cbn [mbind option_bind]. eexists. split; [done|].
  destruct (env_spec w (set_pgs (forget_pages i (2 ^ gfporder k) (pgs w)) (set_pages s2 w)) g
    (fun p => R p \/ in_block (gfporder k) i p) R (fun p => F p \/ in_block (gfporder k) i p) I) as (I' & Hk & Hl & Hd); try done.
  - intros d kd E. split; [by eapply (iv_geom _ _ _ I)|]. by exists kd.
  - intros d kd E. by exists kd.
  - intros x d kd t p Hx Hb. cbn [set_pgs pgs]. rewrite forget_lookup, decide_False; [done|].
    destruct (Hp _ _ _ _ _ Hx Hb) as (_ & Hn & _). intros Hn2. apply Hn. by right.
  - cbn [set_pgs set_pages pages]. congruence.
  - intros p HRp [?|Hb]; [by apply (HR p); [left|]|by apply (Hi p Hb)].
  - intros x d kd t p Hx Hb. destruct (Hp _ _ _ _ _ Hx Hb) as (? & ? & _). tauto.
  - split_and!; [done..| |done|done]. cbn [set_pgs set_pages pages]. congruence.
Qed.

(** The objects of a slab in address order. *)
Definition objs (k : kmem_cache) (ptr : Z) (n : nat) : list Z := (fun i => ptr + Z.of_nat i * objsize k) <$> seq 0 n.

Lemma objs_elem k ptr n o : o ∈ objs k ptr n <-> exists i, 0 <= i < Z.of_nat n /\ o = ptr + i * objsize k.
Proof.
  unfold objs. rewrite list_elem_of_fmap. split.
  - intros (j & -> & Hj). apply elem_of_seq in Hj. exists (Z.of_nat j). split; [lia|done].
  - intros (j & Hj & ->). exists (Z.to_nat j). rewrite Z2Nat.id by lia. split; [done|]. apply elem_of_seq. lia.
Qed.

Lemma objs_snoc k ptr n : objs k ptr (Datatypes.S n) = objs k ptr n ++ [ptr + Z.of_nat n * objsize k].
Proof. unfold objs. by rewrite seq_S, fmap_app. Qed.

Lemma objs_nodup k ptr n : 0 < objsize k -> NoDup (objs k ptr n).
Proof.
  intros Hk. induction n as [|n IH]; [constructor|]. rewrite objs_snoc. apply NoDup_app. split_and!; [done| |apply NoDup_singleton].
  intros x (j & Hj & Hx)%objs_elem Hy%list_elem_of_singleton. rewrite Hx in Hy. nia.
Qed.

Lemma init_objs_spec k s ptr n : ctor k = None -> 0 < objsize k -> forall w sl ch,
  slabs w !! s = Some sl -> chain (words w) (free_list sl) ch -> (forall o, o ∈ objs k ptr n -> o ∉ ch) ->
  exists W fl, init_objs n k s ptr w = Some (mk_world _ (caches w)
      (<[s := mk_slab (colouroff sl) (s_mem sl) (inuse sl) (free sl) fl]> (slabs w)) (links w) W (pgs w) (pages w)) /\
    chain W fl (objs k ptr n ++ ch) /\ forall a, a ∉ objs k ptr n -> W !! a = words w !! a.
Proof.
  intros Hct Hk. induction n as [|n IH]; intros w sl ch Es Hc Hd.
  { exists (words w), (free_list sl). split_and!; [|done|done]. cbn [init_objs]. f_equal. destruct w. cbn in *. f_equal.
    symmetry. apply insert_id. rewrite Es. by destruct sl. }
  cbn [init_objs]. rewrite Es. cbn [mbind option_bind]. rewrite Hct. cbn [set_words set_slabs slabs words caches links pgs pages].
  set (o := ptr + Z.of_nat n * objsize k). rewrite objs_snoc in Hd |- *. fold o in Hd |- *.
  destruct (IH (mk_world _ (caches w) (<[s := mk_slab (colouroff sl) (s_mem sl) (inuse sl) (free sl) o]> (slabs w)) (links w)
    (<[o := free_list sl]> (words w)) (pgs w) (pages w)) (mk_slab (colouroff sl) (s_mem sl) (inuse sl) (free sl) o) (o :: ch))
    as (W & fl & E & HW & Hf).
  - cbn [slabs]. apply lookup_insert_eq.
  - cbn [words free_list chain]. split; [done|]. exists (free_list sl). rewrite lookup_insert_eq. split; [done|].
    eapply chain_ext; [done|]. intros x Hx. apply lookup_insert_ne. intros <-. apply (Hd o); [|done]. apply elem_of_app. right. by left.
  - intros x Hx [->|Hxc]%elem_of_cons; [|apply (Hd x); [apply elem_of_app; by left|done]].
    apply objs_elem in Hx as (j & Hj & E). unfold o in E. nia.
  - exists W, fl. cbn [caches slabs links words pgs pages colouroff s_mem inuse free] in *. rewrite insert_insert_eq in E. split_and!; [done| |].
    + by rewrite <- app_assoc.
    + intros a Ha. rewrite not_elem_of_app, list_elem_of_singleton in Ha. rewrite Hf by tauto. apply lookup_insert_ne. intros <-. tauto.
Qed.

Lemma map_pages_spec c s i n : forall p w,
  exists pg, map_pages n c s i p w = mk_world _ (caches w) (slabs w) (links w) (words w) pg (pages w) /\
    forall q, pg !! q = if decide (p <= q < p + Z.of_nat n) then Some (mk_use c s i) else pgs w !! q.
Proof.
  induction n as [|n IH]; intros p w.
  { exists (pgs w). split; [by destruct w|]. intros q. rewrite decide_False by lia. done. }
  cbn [map_pages]. destruct (IH (p + 1) (set_pgs (<[p := mk_use c s i]> (pgs w)) w)) as (pg & E & Hq). exists pg. rewrite E.
  split; [done|]. intros q. rewrite Hq. cbn [set_pgs pgs]. destruct (decide (q = p)) as [->|Hne].
  - rewrite lookup_insert_eq. repeat case_decide; (done || lia).
  - rewrite lookup_insert_ne by done. repeat case_decide; (done || lia).
Qed.
End Slab.
