(* ===== verification/SlabOps.v ===== *)
(** * The operations of the slab allocator

    Growth, allocation, release, creation and initialisation keep the invariant
    of SlabInv and do what their callers rely on. *)

From S2P Require Export SlabInv.

Section Slab.
Context {S : Type} `{!PageAllocator S}.
Implicit Types w : world S.

(** *** Growing *)

(** An allocated object that is not in use as a descriptor: a client's. *)
Definition held w (g : ghost) (d x : Z) : Prop := live w g d x /\ ~ descriptor w g x.

(** There is a run of page frames for a slab of a cache with internal
    descriptors. *)
Definition can_grow w (k : kmem_cache) : Prop :=
  OFF_SLAB k = false /\ exists F i, pa_rep (pages w) F /\ free_run F (gfporder k) i.

(** The contract of an allocation from [c]: [r] is null or a new object. *)
Record alloc_post w (g : ghost) (R : Z -> Prop) (c : Z) (r : option Z) w' (g' : ghost) : Prop := {
  ap_inv : slab_inv w' g' R;
  ap_kept : kept w w';
  ap_dom : dom (caches w') = dom (caches w);
  ap_frames : pa_frames (pages w') = pa_frames (pages w);
  ap_mono d x : live w g d x -> live w' g' d x;
  ap_new x : r = Some x -> live w' g' c x /\ ~ descriptor w' g' x /\ forall d, ~ live w g d x;
  ap_held d x : held w' g' d x <-> held w g d x \/ (r = Some x /\ d = c)
}.

(** An allocator for caches with internal descriptors: no descriptor comes or
    goes. *)
Definition alloc_ok (alloc : Z -> Z -> world S -> option (option Z * world S)) (c : Z) : Prop :=
  forall w g R k flags, slab_inv w g R -> caches w !! c = Some k -> OFF_SLAB k = false ->
    exists r w' g', alloc c flags w = Some (r, w') /\ alloc_post w g R c r w' g' /\
      (forall x, descriptor w' g' x <-> descriptor w g x).

Lemma head_not_slab w s : ~ is_head w (SlabN s).
Proof. by intros [?|(c & ? & _)]. Qed.

Lemma slab_not_chain w g R s : slab_inv w g R -> SlabN s ∉ gL g Chain.
Proof. intros I Hin. by destruct (iv_elem _ _ _ I Chain _ (or_introl eq_refl) Hin) as (? & ? & _). Qed.

Lemma fresh_on_slab w g R k i s off :
  slab_inv w g (fun p => R p \/ in_block (gfporder k) i p) -> 0 <= i -> 0 <= gfporder k ->
  s = PAGE_OFFSET + PAGE_SIZE * i + off -> 0 <= off < PAGE_SIZE * 2 ^ gfporder k ->
  forall x, is_head w x -> SlabN s ∉ gL g x.
Proof.
  intros I Hi0 Ho Hs Hoff x [->|(d & Hd & kd & Ed)] Hin; [by eapply slab_not_chain|].
  assert (in_block (gfporder k) i (virt_to_page s)) as Hb by (apply addr_in_block; lia).
  assert (listed w g x d kd s) as Hl by done. destruct (iv_slab _ _ _ I _ _ _ _ Hl) as (_ & sl & Es & Hok).
  destruct (iv_pages _ _ _ I) as (F & _ & _ & _ & Hp). pose proof (iv_geom _ _ _ I _ _ Ed) as G.
  pose proof (so_desc _ _ _ _ _ _ Hok) as Hds. destruct (OFF_SLAB kd) eqn:Eo.
  - destruct (iv_desc _ _ _ I _ _ _ _ Hl Eo) as (y & k2 & t & slt & Hy & Et & Hobj & _).
    pose proof (go_objsize _ (iv_geom _ _ _ I _ _ (proj1 (proj2 Hy)))).
    pose proof (obj_page _ _ _ _ _ _ _ _ s s I Hy Et Hobj ltac:(lia)) as Hb2. destruct (Hp _ _ _ _ _ Hy Hb2) as (_ & Hn & _). tauto.
  - destruct (block_nonneg _ _ _ _ _ _ _ I Hl) as (Hb0 & _ & _). destruct (so_off _ _ _ _ _ _ Hok) as [_ Hfit].
    pose proof (so_mem _ _ _ _ _ _ Hok) as Hmem. pose proof (go_objsize _ G). pose proof (go_num _ G).
    assert (0 <= num kd * objsize kd) by (apply Z.mul_nonneg_nonneg; lia). unfold sizeof_slab_t in Hds.
    assert (in_block (gfporder kd) (gbase g s) (virt_to_page s)) as Hb2 by (apply addr_in_block; [done|apply (go_order _ G)|lia]).
    destruct (Hp _ _ _ _ _ Hl Hb2) as (_ & Hn & _). tauto.
Qed.

(** A newly allocated object is not already a slab descriptor. *)
Lemma fresh_off_slab w g R c k' s :
  slab_inv w g R -> caches w !! c = Some k' -> OFF_SLAB k' = false -> live w g c s -> ~ descriptor w g s ->
  forall x, is_head w x -> SlabN s ∉ gL g x.
Proof.
  intros I Ec Eo Hlive Hnd x [->|(d & Hd & kd & Ed)] Hin; [by eapply slab_not_chain|]. assert (listed w g x d kd s) as Hl by done.
  destruct (OFF_SLAB kd) eqn:Eod; [apply Hnd; by exists x, d, kd|].
  destruct Hlive as (y & k2 & t & slt & Hy & Et & Hobj & _). assert (k2 = k') as -> by (destruct Hy as (_ & E & _); congruence).
  destruct (iv_slab _ _ _ I _ _ _ _ Hl) as (_ & sl & Es & Hok). pose proof (so_desc _ _ _ _ _ _ Hok) as Hds. rewrite Eod in Hds.
  destruct (so_off _ _ _ _ _ _ Hok) as [_ Hfit]. pose proof (so_mem _ _ _ _ _ _ Hok) as Hmem.
  pose proof (iv_geom _ _ _ I _ _ Ed) as G. pose proof (go_objsize _ G). pose proof (go_num _ G).
  assert (0 <= num kd * objsize kd) by (apply Z.mul_nonneg_nonneg; lia). unfold sizeof_slab_t in Hds.
  destruct (block_nonneg _ _ _ _ _ _ _ I Hl) as (Hb0 & _ & _).
  assert (in_block (gfporder kd) (gbase g s) (virt_to_page s)) as Hb2 by (apply addr_in_block; [done|apply (go_order _ G)|lia]).
  pose proof (go_objsize _ (iv_geom _ _ _ I _ _ Ec)).
  pose proof (obj_page _ _ _ _ _ _ _ _ s s I Hy Et Hobj ltac:(lia)) as Hb1.
  assert (s = t) as <- by exact (iv_disj _ _ _ I _ _ _ _ _ _ _ _ _ Hl Hy Hb2 Hb1).
  rewrite Es in Et. injection Et as <-. destruct (iv_slab _ _ _ I _ _ _ _ Hy) as (_ & sl2 & Es2 & Hok2). rewrite Es in Es2. injection Es2 as <-.
  destruct (obj_range _ _ _ _ _ _ _ (iv_geom _ _ _ I _ _ Ec) Hok2 Hobj). lia.
Qed.

Definition self_node (s : Z) : list_head snode := mk_list_head (Some (SlabN s)) (Some (SlabN s)).

(** The world in which the descriptor of the new slab has been written. *)
Definition with_desc (s co a : Z) w : world S :=
  mk_world _ (caches w) (<[s := mk_slab co (a + co) 0 0 0]> (slabs w)) (<[SlabN s := self_node s]> (links w)) (words w) (pgs w) (pages w).

Lemma rings_fresh w g R s : slab_inv w g R -> (forall x, is_head w x -> SlabN s ∉ gL g x) ->
  rings (<[SlabN s := self_node s]> (links w)) (is_head w) (gL g).
Proof.
  intros I Hf. eapply rings_ext; [exact (iv_rings _ _ _ I)|done..|]. intros x y Hx Hy. apply lookup_insert_ne. intros <-.
  apply elem_of_cons in Hy as [Hy|Hy]; [|by apply (Hf x)]. rewrite <- Hy in Hx. by apply head_not_slab in Hx.
Qed.

Lemma attach_spec w g R c k s i co :
  slab_inv w g (fun p => R p \/ in_block (gfporder k) i p) -> caches w !! c = Some k ->
  (forall x, is_head w x -> SlabN s ∉ gL g x) ->
  (forall p, in_block (gfporder k) i p -> 0 <= p < pa_frames (pages w) /\ ~ R p) -> (2 ^ gfporder k | i) ->
  0 <= co -> co + num k * objsize k <= PAGE_SIZE * 2 ^ gfporder k ->
  (if OFF_SLAB k then co < PAGE_SIZE else PAGE_OFFSET + PAGE_SIZE * i <= s /\ s + sizeof_slab_t <= PAGE_OFFSET + PAGE_SIZE * i + co) ->
  (OFF_SLAB k = true -> live w g (slabp_cache k) s) ->
  let a := PAGE_OFFSET + PAGE_SIZE * i in
  exists w' g',
    grow_attach c s a (with_desc s co a w) = Some (true, w') /\
    slab_inv w' g' R /\ kept w w' /\ dom (caches w') = dom (caches w) /\ pa_frames (pages w') = pa_frames (pages w) /\
    (forall d x, live w' g' d x <-> live w g d x) /\
    (forall x, descriptor w' g' x <-> descriptor w g x \/ (x = s /\ OFF_SLAB k = true)) /\ SlabN s ∈ gL g' (LFree c).
Proof.
  intros I Ec Hfresh Hi Hal Hco0 Hco1 Hdsc Hlive a. pose proof (iv_geom _ _ _ I _ _ Ec) as G. destruct (go_order _ G) as [Hor _].
  pose proof (Z.pow_pos_nonneg 2 (gfporder k) ltac:(lia) Hor) as H2. pose proof (go_objsize _ G) as Hos. destruct (num_small _ G) as [Hn1 _].
  destruct (Hi i) as [[Hi0 _] _]; [unfold in_block; lia|].
  unfold grow_attach, slab_map_pages. cbn [with_desc caches]. rewrite Ec. cbn [mbind option_bind]. rewrite Z.shiftl_1_l.
  replace (virt_to_page a) with i by (pose proof (virt_to_page_at i 0 Hi0 ltac:(lia)) as Hv; rewrite Z.add_0_r in Hv; unfold a; rewrite Hv, Z.div_0_l by done; lia).
  destruct (map_pages_spec c s i (Z.to_nat (2 ^ gfporder k)) i (with_desc s co a w)) as (pg & -> & Hpg).
  cbn [with_desc caches slabs links words pgs pages] in Hpg |- *. rewrite Z2Nat.id in Hpg by lia.
  unfold cache_init_objs. cbn [caches slabs]. rewrite Ec. cbn [mbind option_bind]. rewrite lookup_insert_eq. cbn [mbind option_bind].
  unfold set_slabs. cbn [slabs caches links words pgs pages colouroff s_mem inuse free]. rewrite insert_insert_eq.
  destruct (init_objs_spec k s (a + co) (Z.to_nat (num k)) (proj1 (go_plain _ G)) ltac:(lia)
    (mk_world _ (caches w) (<[s := mk_slab co (a + co) 0 0 0]> (slabs w)) (<[SlabN s := self_node s]> (links w)) (words w) pg (pages w))
    (mk_slab co (a + co) 0 0 0) []) as (W & fl & E & Hch & HW); [cbn [slabs]; apply lookup_insert_eq|done|by intros ? _ ?%elem_of_nil|].
  rewrite E. cbn [mbind option_bind caches slabs links words pgs pages colouroff s_mem inuse free] in *. rewrite insert_insert_eq. rewrite app_nil_r in Hch.
  destruct (cache_heads w c k Ec) as (_ & _ & HP3).
  destruct (rings_add (<[SlabN s := self_node s]> (links w)) (is_head w) (gL g) false (LFree c) (SlabN s)) as (st & Est & _ & Hr & _).
  { by apply (rings_fresh w g (fun p => R p \/ in_block (gfporder k) i p)). }
  { done. }
  { intros x Hx [Hy|Hy]%elem_of_cons; [|by apply (Hfresh x)]. rewrite <- Hy in Hx. by apply head_not_slab in Hx. }
  { rewrite lookup_insert_eq. by eexists. }
  unfold on_links. cbn [links]. rewrite Est. cbn [mbind option_bind]. unfold upd_cache. cbn [set_links caches]. rewrite Ec. cbn [mbind option_bind].
  set (sl := mk_slab co (a + co) 0 0 fl). set (k' := set_free_objects (free_objects k + num k) k).
  assert (forall o, is_obj k sl o <-> o ∈ objs k (a + co) (Z.to_nat (num k))) as Hobj.
  { intros o. rewrite objs_elem, Z2Nat.id by lia. done. }
  assert (forall x y, is_head w x -> y ∈ ring_add false (LFree c) (SlabN s) (gL g) x <-> (y = SlabN s /\ x = LFree c) \/ y ∈ gL g x) as HL.
  { intros x y _. unfold ring_add. case_decide; [rewrite elem_of_app, list_elem_of_singleton|]; tauto. }
  eexists (add_world w c s sl k' st W pg), (add_ghost g s i (ring_add false (LFree c) (SlabN s) (gL g)) (objs k (a + co) (Z.to_nat (num k)))).
  split; [done|].
  assert (forall p, R p -> ~ in_block (gfporder k) i p) as HRi by (intros p HRp Hb; by apply (Hi p Hb)).
  assert (same_geom k k') as Hsg by done. assert (geom_ok k') as Hgk by (by apply geom_free_objects).
  assert (a + co = a + co) as Hsm by done.
  destruct (add_spec w g R c k s i sl I Ec Hfresh HRi (fun p Hp => proj1 (Hi p Hp)) Hal k' st W pg
    (ring_add false (LFree c) (SlabN s) (gL g)) (objs k (a + co) (Z.to_nat (num k)))) as [I' Hk]; try done.
  { apply objs_nodup. lia. }
  { unfold objs. rewrite length_fmap, length_seq. lia. }
  { intros x Hx. apply HW. by rewrite <- Hobj. }
  split_and!; [done|done|cbn [add_world caches]; rewrite dom_insert_lookup_L; [done|by rewrite Ec]|done| | |].
  - intros d x. eapply (add_live w g R c k s i sl I Ec Hfresh); try done.
  - intros x. eapply (add_descriptor w g R c k s i sl I Ec Hfresh); try done.
  - cbn [add_ghost gL]. apply HL; [done|]. by left.
Qed.

(** A step that changes nothing a client can see, on the way to [r]. *)
Lemma alloc_post_trans w g R c r w1 g1 w2 g2 :
  alloc_post w g R c None w1 g1 -> alloc_post w1 g1 R c r w2 g2 -> alloc_post w g R c r w2 g2.
Proof.
  intros [_ K1 O1 F1 M1 _ H1] [I2 K2 O2 F2 M2 N2 H2]. constructor; [done|by eapply kept_trans|congruence|congruence|eauto| |].
  - intros x Hx. destruct (N2 x Hx) as (? & ? & Hn). split_and!; [done..|]. intros d Hd. by apply (Hn d), M1.
  - intros d x. rewrite H2, H1. naive_solver.
Qed.

Lemma alloc_post_same w g R c w' :
  slab_inv w' g R -> kept w w' -> dom (caches w') = dom (caches w) -> pa_frames (pages w') = pa_frames (pages w) ->
  (forall d x, live w' g d x <-> live w g d x) -> (forall x, descriptor w' g x <-> descriptor w g x) ->
  alloc_post w g R c None w' g.
Proof.
  intros I K Dm Fr L D. constructor; [done..| | |].
  - intros d x. by rewrite L.
  - done.
  - intros d x. unfold held. rewrite L, D. naive_solver.
Qed.

Lemma next_colour_ok k : geom_ok k ->
  geom_ok (set_colour_next (let n := u32 (colour_next k + 1) in if colour k <=? n then 0 else n) k).
Proof.
  intros [G1 G2 G3 (G4 & G5 & G6 & G7) G8 G9 G10]. constructor; try done. cbn [set_colour_next colour_next colour colour_off].
  pose proof (u32_bound (colour_next k + 1)). cbv zeta. destruct (Z.leb_spec (colour k) (u32 (colour_next k + 1))); lia.
Qed.

Lemma offset_ok k : geom_ok k -> let off := u32 (colour_next k * colour_off k) in
  0 <= off /\ header k + off + num k * objsize k <= PAGE_SIZE * 2 ^ gfporder k /\ (OFF_SLAB k = true -> off < PAGE_SIZE).
Proof.
  intros G off. pose proof (num_small _ G). destruct G as [G1 G2 G3 (G4 & G5 & G6 & G7) G8 G9 _].
  assert (0 <= header k) by (unfold header; unfold sizeof_slab_t in *; destruct (OFF_SLAB k); lia).
  assert (0 <= colour k * colour_off k) by (apply Z.mul_nonneg_nonneg; lia).
  assert (0 <= num k * objsize k) by (apply Z.mul_nonneg_nonneg; lia).
  pose proof (Z.pow_le_mono_r 2 (gfporder k) 10 ltac:(lia) ltac:(unfold MAX_ORDER in *; lia)).
  assert (0 <= colour_next k * colour_off k /\ (colour_next k * colour_off k = 0 \/ colour_next k * colour_off k + colour_off k <= colour k * colour_off k)) as [Ha Hb].
  { split; [apply Z.mul_nonneg_nonneg; lia|]. destruct G5 as [->|Hlt]; [by left|right].
    replace (colour_next k * colour_off k + colour_off k) with ((colour_next k + 1) * colour_off k) by lia. apply Z.mul_le_mono_nonneg_r; lia. }
  unfold off. rewrite u32_small by (unfold PAGE_SIZE in *; lia). split_and!; [lia|lia|]. intros Eo. rewrite Eo in G9. unfold PAGE_SIZE in *. lia.
Qed.

(** Descriptor and slab of a cache whose descriptors are inside the slab. *)
Lemma mgmt_internal alloc w c k a off flags : caches w !! c = Some k -> OFF_SLAB k = false ->
  alloc_slabmgmt alloc c a off flags w = Some (Some (a + off), with_desc (a + off) (off + slab_size k) a w).
Proof.
  intros Ec Eo. unfold alloc_slabmgmt. rewrite Ec. cbn [mbind option_bind]. rewrite Eo. cbn [mbind option_bind].
  unfold on_links. cbn [set_links links]. rewrite INIT_LIST_HEAD_effect by (rewrite lookup_insert_eq; by eexists). cbn [mbind option_bind].
  rewrite insert_insert_eq. done.
Qed.

Lemma mgmt_external alloc w w' c k a off flags r : caches w !! c = Some k -> OFF_SLAB k = true ->
  alloc (slabp_cache k) flags w = Some (r, w') ->
  alloc_slabmgmt alloc c a off flags w =
    Some (match r with None => (None, w') | Some s => (Some s, with_desc s off a w') end).
Proof.
  intros Ec Eo Ea. unfold alloc_slabmgmt. rewrite Ec. cbn [mbind option_bind]. rewrite Eo, Ea. cbn [mbind option_bind]. destruct r as [s|]; [|done].
  unfold on_links. cbn [set_links links]. rewrite INIT_LIST_HEAD_effect by (rewrite lookup_insert_eq; by eexists). cbn [mbind option_bind].
  rewrite insert_insert_eq. done.
Qed.

Lemma grow_spec alloc w g R c k flags :
  slab_inv w g R -> caches w !! c = Some k -> (OFF_SLAB k = true -> alloc_ok alloc (slabp_cache k)) ->
  exists b w' g', cache_grow alloc c flags w = Some (b, w') /\ alloc_post w g R c None w' g' /\
    (OFF_SLAB k = false -> forall x, descriptor w' g' x <-> descriptor w g x) /\
    (b = true -> exists s, SlabN s ∈ gL g' (LFree c)) /\ (can_grow w k -> b = true).
Proof.
  intros I Ec Hall. pose proof (iv_geom _ _ _ I _ _ Ec) as G. pose proof (offset_ok _ G) as (Hof0 & Hof1 & Hof2).
  set (off := u32 (colour_next k * colour_off k)) in *. pose proof (next_colour_ok _ G) as G1. cbv zeta in G1.
  unfold cache_grow. rewrite Ec. cbn [mbind option_bind]. cbv zeta. fold off. unfold upd_cache at 1. rewrite Ec. cbn [mbind option_bind].
  set (k1 := set_colour_next _ k) in *. set (w1 := set_caches (<[c := k1]> (caches w)) w).
  destruct (cache_field_spec w g R c k k1 I Ec ltac:(done) G1) as (I1 & K1 & L1 & D1). fold w1 in I1, K1, L1, D1.
  assert (caches w1 !! c = Some k1) as Ec1 by apply lookup_insert_eq.
  assert (dom (caches w1) = dom (caches w)) as O1 by (cbn [w1 set_caches caches]; apply dom_insert_lookup_L; by rewrite Ec).
  pose proof (alloc_post_same w g R c w1 I1 K1 O1 eq_refl L1 D1) as P1.
  destruct (getpages_spec w1 g R c k1 flags I1 Ec1) as (r & w2 & E2 & Hr). rewrite E2. cbn [mbind option_bind].
  destruct r as [a|].
  2:{ destruct Hr as [-> Hno]. exists false, w1, g. split_and!; try done. intros (_ & F & i & HF & Hi). by destruct (Hno F HF); exists i. }
  destruct Hr as (s2 & i & -> & -> & Hal & Hfr2 & Hi & I2 & L2 & D2). set (a := PAGE_OFFSET + PAGE_SIZE * i) in *.
  set (w2 := set_pages s2 w1) in *. assert (caches w2 !! c = Some k1) as Ec2 by done.
  change (pages w1) with (pages w) in Hfr2, Hi. change (gfporder k1) with (gfporder k) in *.
  assert (kept w w2) as K2 by (intros d kd Ed; exact (K1 d kd Ed)). assert (pa_frames (pages w2) = pa_frames (pages w)) as Fr2 by done.
  destruct (go_order _ G) as [Hor _]. pose proof (Z.pow_pos_nonneg 2 (gfporder k) ltac:(lia) Hor) as H2.
  destruct (Hi i) as [[Hi0 _] _]; [unfold in_block; lia|]. pose proof (go_num _ G). pose proof (go_objsize _ G).
  assert (0 < num k * objsize k) by (apply Z.mul_pos_pos; lia).
  assert (forall p, in_block (gfporder k) i p -> 0 <= p < pa_frames (pages w2) /\ ~ R p) as Hi2 by (intros p Hp; rewrite Fr2; auto).
  destruct (OFF_SLAB k) eqn:Eo.
  - destruct (iv_mgmt _ _ _ I2 c k1 Ec2 Eo) as (kd & Ekd & Eod & _). change (slabp_cache k1) with (slabp_cache k) in Ekd.
    destruct (Hall eq_refl w2 g _ kd flags I2 Ekd Eod) as (r & w3 & g3 & E3 & [I3 K3 O3 Fr3 M3 N3 H3] & D3). change (caches w2) with (caches w1) in O3.
    rewrite (mgmt_external alloc w2 w3 c k1 a off flags r Ec2 Eo E3). destruct (K3 _ _ Ec2) as (k3 & Ec3 & Hg3).
    assert (gfporder k3 = gfporder k) as Eg3 by apply Hg3. pose proof (same_geom_off _ _ Hg3) as Eo3. change (OFF_SLAB k1) with (OFF_SLAB k) in Eo3. rewrite Eo in Eo3.
    rewrite <- Eg3 in I3. assert (forall p, in_block (gfporder k3) i p -> 0 <= p < pa_frames (pages w3) /\ ~ R p) as Hi3.
    { intros p Hp. rewrite Fr3, Eg3 in *. by apply Hi2. }
    rewrite <- Eg3 in Hal. cbn [mbind option_bind]. destruct r as [s|]; cbn [mbind option_bind].
    + destruct (N3 s eq_refl) as (Hls & Hds & Hns).
      destruct (attach_spec w3 g3 R c k3 s i off I3 Ec3) as (w4 & g4 & E4 & I4 & K4 & O4 & Fr4 & L4 & D4 & Hin4); try done.
      { destruct (K3 _ _ Ekd) as (kd3 & Ekd3 & Hgd). eapply (fresh_off_slab w3 g3 _ (slabp_cache k) kd3); try done. by rewrite (same_geom_off _ _ Hgd). }
      { destruct Hg3 as (-> & -> & -> & _). change (objsize k1) with (objsize k). change (num k1) with (num k). change (gfporder k1) with (gfporder k).
        unfold header in Hof1. rewrite Eo in Hof1. lia. }
      { rewrite Eo3. by apply Hof2. }
      { intros _. destruct Hg3 as (_ & _ & _ & _ & ->). done. }
      fold a in E4. rewrite E4. exists true, w4, g4. split_and!; [done| |done|intros _; by exists s|done]. constructor.
      * done.
      * eapply kept_trans; [exact K2|]. by eapply kept_trans.
      * congruence.
      * congruence.
      * intros d x Hx. apply L4, M3, L2, L1. done.
      * done.
      * intros d x. unfold held. rewrite L4, D4, Eo3, D3, D2, D1. pose proof (H3 d x) as Hh. unfold held in Hh. rewrite D3, D2, D1, L2, L1 in Hh.
        destruct (decide (x = s)) as [->|Hxs]; [|naive_solver].
        split; [naive_solver|]. intros [[Hlx _]|[? _]]; [|done]. exfalso. by apply (Hns d), L2, L1.
    + destruct (freepages_spec w3 g3 R c k3 i a I3 Ec3) as (w4 & E4 & I4 & K4 & O4 & Fr4 & L4 & D4); [|done|done|].
      { unfold a. rewrite <- (Z.add_0_r (PAGE_SIZE * i)), Z.add_assoc, virt_to_page_at by lia. rewrite Z.div_0_l by done. lia. }
      rewrite E4. cbn [mbind option_bind]. exists false, w4, g3. split_and!; [done| |done|done|by intros [? _]; congruence]. constructor.
      * done.
      * eapply kept_trans; [exact K2|]. by eapply kept_trans.
      * congruence.
      * congruence.
      * intros d x Hx. apply L4, M3, L2, L1. done.
      * done.
      * intros d x. pose proof (H3 d x) as Hh. unfold held in *. rewrite L4, D4, D3. rewrite D3, D2, D1, L2, L1 in Hh. rewrite D2, D1. naive_solver.
  - rewrite (mgmt_internal alloc w2 c k1 a off flags Ec2 Eo). cbn [mbind option_bind]. change (slab_size k1) with (slab_size k).
    unfold header in Hof1. rewrite Eo in Hof1. pose proof (go_header _ G) as Hhd. rewrite Eo in Hhd. unfold sizeof_slab_t in Hhd.
    destruct (attach_spec w2 g R c k1 (a + off) i (off + slab_size k) I2 Ec2) as (w4 & g4 & E4 & I4 & K4 & O4 & Fr4 & L4 & D4 & Hin4); try done.
    { eapply (fresh_on_slab w2 g R k1 i (a + off) off I2); try done. change (gfporder k1) with (gfporder k). lia. }
    { lia. }
    { change (objsize k1) with (objsize k). change (num k1) with (num k). change (gfporder k1) with (gfporder k). lia. }
    { change (OFF_SLAB k1) with (OFF_SLAB k). rewrite Eo. fold a. unfold sizeof_slab_t. lia. }
    { change (OFF_SLAB k1) with (OFF_SLAB k). by rewrite Eo. }
    fold a in E4. rewrite E4. exists true, w4, g4. assert (forall x, descriptor w4 g4 x <-> descriptor w g x) as D.
    { intros x. rewrite D4, D2, D1. change (OFF_SLAB k1) with (OFF_SLAB k). rewrite Eo. naive_solver. }
    split_and!; [done| |done|intros _; by exists (a + off)|done]. constructor.
    + done.
    + by eapply kept_trans.
    + rewrite O4. exact O1.
    + congruence.
    + intros d x Hx. apply L4, L2, L1. done.
    + done.
    + intros d x. unfold held. rewrite L4, L2, L1, D. naive_solver.
Qed.

(** *** Allocation *)

Lemma chain_not_live w g R h c k s o d : slab_inv w g R -> listed w g h c k s -> o ∈ gchain g s -> ~ live w g d o.
Proof.
  intros I Hl Ho (y & kd & t & slt & Hy & Et & Hx & Hn). destruct (iv_slab _ _ _ I _ _ _ _ Hl) as (_ & sl & Es & Hs).
  assert (s = t) as <-; [|done]. apply (obj_slab w g R h c k s sl y d kd t slt o I Hl Es (so_objs _ _ _ _ _ _ Hs o Ho) Hy Et Hx).
Qed.

Lemma descriptor_live w g R x : slab_inv w g R -> descriptor w g x -> exists d, live w g d x.
Proof. intros I (h & c & k & Hl & Eo). exists (slabp_cache k). by eapply (iv_desc _ _ _ I). Qed.

Lemma take_post w g R h c k s st1 L1 :
  slab_inv w g R -> listed w g h c k s -> gchain g s ≠ [] ->
  rings st1 (is_head w) L1 -> relocated (is_head w) s (LPart c) (gL g) L1 ->
  exists o w' g', refill_take c (SlabN s) (set_links st1 w) = Some (Some o, w') /\ alloc_post w g R c (Some o) w' g' /\
    forall x, descriptor w' g' x <-> descriptor w g x.
Proof.
  intros I Hl Hne Hr Hrel. destruct (gchain g s) as [|o rest] eqn:Hch; [done|].
  destruct (take_spec w g R h c k s o rest st1 L1 I Hl Hch Hr Hrel) as (w' & g' & E & I' & K & L & D & Fr & Dm).
  assert (forall d, ~ live w g d o) as Hno by (intros d; eapply chain_not_live; [done..|]; rewrite Hch; by left).
  assert (~ descriptor w g o) as Hnd by (intros Hd; destruct (descriptor_live _ _ _ _ I Hd) as [d ?]; by apply (Hno d)).
  exists o, w', g'. split_and!; [done| |done]. constructor; [done..| | |].
  - intros d x Hx. apply L. by left.
  - intros x [= <-]. split_and!; [apply L; by right|by rewrite D|done].
  - intros d x. unfold held. rewrite L, D. naive_solver.
Qed.

Lemma ring_first w g R h : slab_inv w g R -> is_head w h -> next_of (links w) h = Some (hd h (gL g h)).
Proof. intros I Hh. destruct (iv_rings _ _ _ I) as [Hd _]. apply (lseg_first _ _ _ _ (proj2 (Hd h Hh))). Qed.

Lemma pick_free_spec w g R c k s l : slab_inv w g R -> caches w !! c = Some k -> gL g (LFree c) = SlabN s :: l ->
  exists st1 L1, pick_free c w = Some (Some (SlabN s), set_links st1 w) /\ listed w g (LFree c) c k s /\
    rings st1 (is_head w) L1 /\ relocated (is_head w) s (LPart c) (gL g) L1.
Proof.
  intros I Ec EL. destruct (cache_heads w c k Ec) as (HP1 & _ & HP3).
  assert (SlabN s ∈ gL g (LFree c)) as Hin by (rewrite EL; by left).
  destruct (move_slab (links w) _ (gL g) s (LFree c) (LPart c) true (iv_rings _ _ _ I) HP3 HP1 Hin) as (st1 & st2 & L' & E1 & E2 & Hr & Hrel).
  exists st2, L'. unfold pick_free. rewrite (ring_first _ _ _ _ I HP3), EL. cbn [hd mbind option_bind slab_entry].
  unfold on_links. rewrite E1. cbn [mbind option_bind set_links links]. rewrite E2. done.
Qed.

Lemma free_slab_has_objects w g R c k s : slab_inv w g R -> listed w g (LFree c) c k s -> gchain g s ≠ [].
Proof.
  intros I Hl. destruct (iv_slab _ _ _ I _ _ _ _ Hl) as [Hp _]. cbn [placed] in Hp. pose proof (go_num _ (iv_geom _ _ _ I _ _ (proj1 (proj2 Hl)))).
  intros E. rewrite E in Hp. cbn [length] in Hp. lia.
Qed.

Lemma set_links_id w : set_links (links w) w = w.
Proof. by destruct w. Qed.

(** Cache [c] has a slab with a free object. *)
Definition has_free (g : ghost) (c : Z) : Prop := gL g (LPart c) ≠ [] \/ gL g (LFree c) ≠ [].

Lemma refill_spec alloc w g R c k flags :
  slab_inv w g R -> caches w !! c = Some k -> (OFF_SLAB k = true -> alloc_ok alloc (slabp_cache k)) ->
  exists r w' g', cache_alloc_refill alloc c flags w = Some (r, w') /\ alloc_post w g R c r w' g' /\
    (OFF_SLAB k = false -> forall x, descriptor w' g' x <-> descriptor w g x) /\ (has_free g c \/ can_grow w k -> r ≠ None).
Proof.
  intros I Ec Hall. destruct (cache_heads w c k Ec) as (HP1 & HP2 & HP3). unfold cache_alloc_refill, refill_pick.
  rewrite (display_ok w _ _ c (iv_rings _ _ _ I) HP1 HP2 HP3). cbn [mbind option_bind]. rewrite (ring_first _ _ _ _ I HP1). cbn [mbind option_bind].
  destruct (gL g (LPart c)) as [|y l] eqn:EP; cbn [hd].
  2:{ destruct (iv_elem _ _ _ I (LPart c) y HP1 ltac:(rewrite EP; by left)) as [s ->]. rewrite decide_False by done. cbn [mbind option_bind].
      assert (listed w g (LPart c) c k s) as Hl by (split_and!; [done..|rewrite EP; by left]).
      destruct (take_post w g R _ c k s (links w) (gL g) I Hl) as (o & w' & g' & E & P & D).
      - by destruct (iv_slab _ _ _ I _ _ _ _ Hl) as [[? _] _].
      - apply (iv_rings _ _ _ I).
      - by eapply relocated_stay.
      - rewrite set_links_id in E. rewrite E. exists (Some o), w', g'. split_and!; done. }
  rewrite decide_True by done. rewrite (ring_first _ _ _ _ I HP3). cbn [mbind option_bind].
  assert (forall w1 g1 k1, alloc_post w g R c None w1 g1 -> caches w1 !! c = Some k1 -> gL g1 (LFree c) ≠ [] ->
    exists o w' g', ('(entry, w) ← pick_free c w1; match entry with None => Some (None, w) | Some entry => refill_take c entry w end)
      = Some (Some o, w') /\ alloc_post w g R c (Some o) w' g' /\ forall x, descriptor w' g' x <-> descriptor w1 g1 x) as Hfree.
  { intros w1 g1 k1 P1 Ec1 Hne. pose proof (ap_inv _ _ _ _ _ _ _ P1) as I1. destruct (cache_heads w1 c k1 Ec1) as (_ & _ & HP).
    destruct (gL g1 (LFree c)) as [|y l] eqn:EL; [done|]. destruct (iv_elem _ _ _ I1 (LFree c) y HP ltac:(rewrite EL; by left)) as [s ->].
    destruct (pick_free_spec w1 g1 R c k1 s l I1 Ec1 EL) as (st1 & L1 & E1 & Hl & Hr & Hrel). rewrite E1. cbn [mbind option_bind].
    destruct (take_post w1 g1 R _ c k1 s st1 L1 I1 Hl (free_slab_has_objects _ _ _ _ _ _ I1 Hl) Hr Hrel) as (o & w' & g' & E & P & D).
    exists o, w', g'. split_and!; [done|by eapply alloc_post_trans|done]. }
  destruct (gL g (LFree c)) as [|y l] eqn:EF; cbn [hd].
  - rewrite decide_True by done. destruct (grow_spec alloc w g R c k flags I Ec Hall) as (b & w1 & g1 & E1 & P1 & D1 & Hb & Hgr).
    rewrite E1. cbn [mbind option_bind]. destruct b.
    + destruct (ap_kept _ _ _ _ _ _ _ P1 _ _ Ec) as (k1 & Ec1 & _). destruct (Hb eq_refl) as [s Hs].
      destruct (Hfree w1 g1 k1 P1 Ec1) as (o & w' & g' & E & P & D); [intros E0; rewrite E0 in Hs; by apply elem_of_nil in Hs|].
      exists (Some o), w', g'. split_and!; [exact E|done| |done]. intros Eo x. rewrite D. by apply D1.
    + cbn [mbind option_bind]. exists None, w1, g1. split_and!; [done..|]. unfold has_free. rewrite EP, EF. intros [?|Hg]; [tauto|]. by specialize (Hgr Hg).
  - destruct (iv_elem _ _ _ I (LFree c) y HP3 ltac:(rewrite EF; by left)) as [s ->]. rewrite decide_False by done. cbn [mbind option_bind].
    destruct (Hfree w g k) as (o & w' & g' & E & P & D); [|done|by rewrite EF|].
    { apply alloc_post_same; try done. apply kept_refl. }
    exists (Some o), w', g'. split_and!; [exact E|done..].
Qed.

Lemma alloc_internal fuel c : alloc_ok (kmem_cache_alloc (Datatypes.S fuel)) c.
Proof.
  intros w g R k flags I Ec Eo. cbn [kmem_cache_alloc].
  destruct (refill_spec (kmem_cache_alloc fuel) w g R c k flags I Ec) as (r & w' & g' & E & P & D & _); [by rewrite Eo|].
  exists r, w', g'. split_and!; [done..|by apply D].
Qed.

Lemma alloc_spec fuel w g R c k flags : slab_inv w g R -> caches w !! c = Some k ->
  exists r w' g', kmem_cache_alloc (Datatypes.S (Datatypes.S fuel)) c flags w = Some (r, w') /\ alloc_post w g R c r w' g' /\
    (has_free g c \/ can_grow w k -> r ≠ None).
Proof.
  intros I Ec. change (kmem_cache_alloc (Datatypes.S (Datatypes.S fuel)) c flags w) with (cache_alloc_refill (kmem_cache_alloc (Datatypes.S fuel)) c flags w).
  destruct (refill_spec (kmem_cache_alloc (Datatypes.S fuel)) w g R c k flags I Ec) as (r & w' & g' & E & P & _ & Hf); [intros _; apply alloc_internal|].
  exists r, w', g'. done.
Qed.

(** *** Removing a slab *)

Section RemoveSlab.
Context (w : world S) (g : ghost) (R : Z -> Prop) (h : snode) (c : Z) (k : kmem_cache) (s : Z) (sl : slab_s).
Context (I : slab_inv w g R) (Hl : listed w g h c k s) (Es : slabs w !! s = Some sl).
Context (k' : kmem_cache) (st' : gmap snode (list_head snode)) (W' : gmap Z Z) (L' : snode -> list snode).
Context (Hk : same_geom k k') (Hg : geom_ok k').
Context (HW : forall a, ~ is_obj k sl a -> W' !! a = words w !! a).
Context (Hnodesc : forall x, is_obj k sl x -> descriptor w g x -> x ∈ gchain g s).
Context (Hr : rings st' (is_head w) L') (HL : forall x y, is_head w x -> y ∈ L' x <-> y ≠ SlabN s /\ y ∈ gL g x).

Definition rem_world : world S := mk_world _ (<[c := k']> (caches w)) (delete s (slabs w)) st' W' (pgs w) (pages w).
Definition rem_ghost : ghost := mk_ghost L' (gchain g) (gbase g).
Definition rem_reserved (p : Z) : Prop := R p \/ in_block (gfporder k) (gbase g s) p.

Lemma rem_cache_back d kd' : caches rem_world !! d = Some kd' -> geom_ok kd' /\ exists kd, caches w !! d = Some kd /\ same_geom kd kd'.
Proof.
  destruct Hl as (_ & Ec & _). cbn [rem_world caches]. destruct (decide (d = c)) as [->|]; [rewrite lookup_insert_eq|rewrite lookup_insert_ne by done].
  - intros [= <-]. split; [done|]. by exists k.
  - intros E. split; [by eapply (iv_geom _ _ _ I)|]. by exists kd'.
Qed.

Lemma rem_kept : kept w rem_world.
Proof.
  destruct Hl as (_ & Ec & _). intros d kd E. cbn [rem_world caches]. destruct (decide (d = c)) as [->|];
    [rewrite lookup_insert_eq|rewrite lookup_insert_ne by done; by exists kd]. rewrite Ec in E. injection E as <-. by exists k'.
Qed.

Lemma rem_listed_back x d kd' t : listed rem_world rem_ghost x d kd' t -> t ≠ s /\ exists kd, listed w g x d kd t /\ same_geom kd kd'.
Proof.
  intros (Ho & Ed & Ht). destruct (rem_cache_back _ _ Ed) as (_ & kd & E & G). cbn [rem_ghost gL] in Ht.
  rewrite HL in Ht by (right; exists d; split; [done|by exists kd]). destruct Ht as [Hne Ht]. split; [congruence|]. by exists kd.
Qed.

Lemma rem_listed_forth x d kd t : listed w g x d kd t -> t ≠ s -> exists kd', listed rem_world rem_ghost x d kd' t /\ same_geom kd kd'.
Proof.
  intros Hx Hne. pose proof (listed_head _ _ _ _ _ _ Hx) as Hh. destruct Hx as (Ho & Ed & Ht). destruct (rem_kept _ _ Ed) as (kd' & E & G).
  exists kd'. split; [|done]. split_and!; [done..|]. cbn [rem_ghost gL]. rewrite HL by done. split; [congruence|done].
Qed.

Lemma rem_live d x : live rem_world rem_ghost d x <-> exists t, t ≠ s /\ live_at w g d t x.
Proof.
  split.
  - intros (y & kd & t & slt & Hy & Et & Hx & Hn). destruct (rem_listed_back _ _ _ _ Hy) as (Hne & k0 & Hy0 & G). exists t. split; [done|].
    exists y, k0, slt. cbn [rem_world slabs] in Et. rewrite lookup_delete_ne in Et by done. split_and!; [done..| |done].
    by apply (same_geom_obj k0 kd slt slt).
  - intros (t & Hne & y & kd & slt & Hy & Et & Hx & Hn). destruct (rem_listed_forth _ _ _ _ Hy Hne) as (k0 & Hy0 & G). exists y, k0, t, slt.
    cbn [rem_world slabs]. rewrite lookup_delete_ne by done. split_and!; [done..| |done]. by apply (same_geom_obj kd k0 slt slt).
Qed.

Lemma rem_descriptor x : descriptor rem_world rem_ghost x <-> descriptor w g x /\ x ≠ s.
Proof.
  split.
  - intros (y & d & kd & Hy & Ho). destruct (rem_listed_back _ _ _ _ Hy) as (Hne & k0 & Hy0 & G). split; [|done]. exists y, d, k0. split; [done|].
    by rewrite <- (same_geom_off _ _ G).
  - intros [(y & d & kd & Hy & Ho) Hne]. destruct (rem_listed_forth _ _ _ _ Hy Hne) as (k0 & Hy0 & G). exists y, d, k0. split; [done|].
    by rewrite (same_geom_off _ _ G).
Qed.

Lemma rem_live_desc d x : live w g d x -> descriptor w g x -> live rem_world rem_ghost d x.
Proof.
  intros Hlv Hx. apply rem_live. apply (live_split w g R h c k s sl d x I Hl Es) in Hlv as [(-> & Ho & Hn)|?]; [|done].
  destruct Hn. by apply Hnodesc.
Qed.

Lemma rem_inv : slab_inv rem_world rem_ghost rem_reserved.
Proof.
  assert (forall x, is_head rem_world x -> is_head w x) as Hh.
  { apply is_head_ext. intros d [kd Hd]. destruct (rem_cache_back _ _ Hd) as (_ & k0 & ? & _). by exists k0. }
  destruct (iv_pages _ _ _ I) as (F & HF & Hfr & HR & Hp). constructor.
  - cbn [rem_world links rem_ghost gL]. eapply rings_ext; [exact Hr|done..].
  - intros x y Hx%Hh Hy. cbn [rem_ghost gL] in Hy. rewrite HL in Hy by done. destruct Hy as [_ Hy].
    apply (elem_ok_ext w); [intros d [kd Hd]; destruct (rem_kept _ _ Hd) as (k0 & ? & _); by exists k0|]. by apply (iv_elem _ _ _ I).
  - intros d kd Ed. by apply rem_cache_back in Ed as [? _].
  - intros d kd' Ed Ho. destruct (rem_cache_back _ _ Ed) as (_ & kd & Ed0 & Hgm). rewrite (same_geom_off _ _ Hgm) in Ho.
    destruct (iv_mgmt _ _ _ I _ _ Ed0 Ho) as (k2 & Ek2 & Ho2 & Hs2). destruct (rem_kept _ _ Ek2) as (k2' & E2' & Hgm2).
    exists k2'. destruct Hgm as (_ & _ & _ & _ & ->). rewrite (same_geom_off _ _ Hgm2). destruct Hgm2 as (-> & _). done.
  - intros x d kd' t Hx. destruct (rem_listed_back _ _ _ _ Hx) as (Hne & kd & Hy & G). pose proof G as (G1 & G2 & G3 & G4 & G5).
    destruct (iv_slab _ _ _ I _ _ _ _ Hy) as (Hpl & slt & Et & [C1 C2 C3 C4 C5 C6 C7 C8 C9]). cbn [rem_ghost gchain rem_world slabs]. split.
    { destruct x; cbn [placed] in *; rewrite ?G2; done. }
    exists slt. rewrite lookup_delete_ne by done. split; [done|].
    constructor; cbn [rem_ghost gchain gbase rem_world words pgs]; rewrite ?G1, ?G2, ?G3, ?(same_geom_off _ _ G); try done.
    + eapply chain_ext; [done|]. intros o Ho. apply HW. intros Ho'. apply Hne. symmetry. by apply (obj_slab w g R h c k s sl x d kd t slt o I Hl Es Ho' Hy Et (C2 o Ho)).
    + intros o Ho. apply (same_geom_obj kd kd' slt slt); auto.
  - intros x d kd' t Hx Ho. destruct (rem_listed_back _ _ _ _ Hx) as (Hne & kd & Hy & G).
    rewrite (same_geom_off _ _ G) in Ho. destruct G as (_ & _ & _ & _ & ->). apply rem_live_desc; [by eapply (iv_desc _ _ _ I)|]. by exists x, d, kd.
  - intros x d kd' t x2 d2 kd2' t2 p Hx Hx2. destruct (rem_listed_back _ _ _ _ Hx) as (_ & kd & Hy & (_ & _ & -> & _)).
    destruct (rem_listed_back _ _ _ _ Hx2) as (_ & kd2 & Hy2 & (_ & _ & -> & _)). by eapply (iv_disj _ _ _ I).
  - exists F. cbn [rem_world pages]. split_and!; [done..| |].
    + intros p [?|Hb]; [by apply HR|]. by destruct (Hp _ _ _ _ _ Hl Hb).
    + intros x d kd' t p Hx. destruct (rem_listed_back _ _ _ _ Hx) as (Hne & kd & Hy & (_ & _ & -> & _)). cbn [rem_ghost gbase]. intros Hb.
      destruct (Hp _ _ _ _ _ Hy Hb) as (? & ? & ?). split_and!; [done| |lia..]. intros [?|Hb2]; [done|]. apply Hne.
      by apply (iv_disj _ _ _ I x d kd t h c k s p).
Qed.
End RemoveSlab.

Lemma chain_short w g R h c k s sl o : slab_inv w g R -> listed w g h c k s -> slabs w !! s = Some sl ->
  is_obj k sl o -> o ∉ gchain g s -> Z.of_nat (length (gchain g s)) < num k.
Proof.
  intros I Hl Es Ho Hn. destruct (iv_slab _ _ _ I _ _ _ _ Hl) as (_ & sl' & Es' & Hs). rewrite Es in Es'. injection Es' as <-.
  pose proof (go_num _ (iv_geom _ _ _ I _ _ (proj1 (proj2 Hl)))).
  assert (length (o :: gchain g s) <= length (objs k (s_mem sl) (Z.to_nat (num k))))%nat as Hle.
  { apply submseteq_length, NoDup_submseteq.
    - apply NoDup_cons. split; [done|apply (so_nodup _ _ _ _ _ _ Hs)].
    - intros x Hx. apply objs_elem. rewrite Z2Nat.id by lia. apply elem_of_cons in Hx as [->|Hx]; [done|]. by apply (so_objs _ _ _ _ _ _ Hs). }
  unfold objs in Hle. rewrite length_fmap, length_seq in Hle. cbn [length] in Hle. lia.
Qed.

(** *** Freeing *)

Record free_post w (g : ghost) (R : Z -> Prop) (c o : Z) w' (g' : ghost) : Prop := {
  fp_inv : slab_inv w' g' R;
  fp_kept : kept w w';
  fp_frames : pa_frames (pages w') = pa_frames (pages w);
  fp_held d x : held w' g' d x <-> held w g d x /\ ~ (d = c /\ x = o)
}.

Definition free_ok (free : Z -> Z -> world S -> option (world S)) (c : Z) : Prop :=
  forall w g R k o, slab_inv w g R -> caches w !! c = Some k -> OFF_SLAB k = false -> held w g c o ->
    exists w' g', free c o w = Some w' /\ free_post w g R c o w' g' /\ (forall x, descriptor w' g' x <-> descriptor w g x).

Lemma live_unique w g R d d' x : slab_inv w g R -> live w g d x -> live w g d' x -> d = d'.
Proof.
  intros I (y & kd & t & slt & Hy & Et & Hx & _) (y' & kd' & t' & slt' & Hy' & Et' & Hx' & _).
  assert (t = t') as <- by exact (obj_slab _ _ _ _ _ _ _ _ _ _ _ _ _ _ I Hy Et Hx Hy' Et' Hx').
  by destruct (listed_unique _ _ _ _ _ _ _ _ _ _ I Hy Hy') as (_ & -> & _).
Qed.

Section Free.
Context (w : world S) (g : ghost) (R : Z -> Prop) (h : snode) (c : Z) (k : kmem_cache) (s : Z) (sl : slab_s) (o : Z).
Context (I : slab_inv w g R) (Hl : listed w g h c k s) (Es : slabs w !! s = Some sl) (Ho : is_obj k sl o) (Hn : o ∉ gchain g s).
Context (Hnd : ~ descriptor w g o).

Definition freed_cache : kmem_cache := set_free_objects (free_objects k + 1) k.
Definition freed_slab : slab_s := mk_slab (colouroff sl) (s_mem sl) (u32 (inuse sl - 1)) (free sl) o.
Definition freed_words : gmap Z Z := <[o := free_list sl]> (words w).
Definition freed_chain : list Z := o :: gchain g s.

Lemma freed_inuse : inuse freed_slab = num k - Z.of_nat (length freed_chain) /\ Z.of_nat (length freed_chain) <= num k.
Proof.
  destruct (iv_slab _ _ _ I _ _ _ _ Hl) as (_ & sl' & Es' & Hs). rewrite Es in Es'. injection Es' as <-.
  pose proof (chain_short _ _ _ _ _ _ _ _ _ I Hl Es Ho Hn). pose proof (num_small _ (iv_geom _ _ _ I _ _ (proj1 (proj2 Hl)))).
  cbn [freed_slab inuse freed_chain length]. rewrite (so_inuse _ _ _ _ _ _ Hs), u32_small by lia. lia.
Qed.

Lemma freed_words_chain : chain freed_words o freed_chain /\ forall a, ~ is_obj k sl a -> freed_words !! a = words w !! a.
Proof.
  destruct (iv_slab _ _ _ I _ _ _ _ Hl) as (_ & sl' & Es' & Hs). rewrite Es in Es'. injection Es' as <-. unfold freed_words. split.
  - cbn [freed_chain chain]. split; [done|]. exists (free_list sl). rewrite lookup_insert_eq. split; [done|].
    eapply chain_ext; [exact (so_chain _ _ _ _ _ _ Hs)|]. intros x Hx. apply lookup_insert_ne. by intros <-.
  - intros a Ha. apply lookup_insert_ne. by intros <-.
Qed.

(** The slab stays in the cache, on the list its free objects call for. *)
Lemma free_keep st' L' h' : rings st' (is_head w) L' -> relocated (is_head w) s h' (gL g) L' ->
  owner h' = Some c -> placed h' k freed_chain ->
  exists w' g', w' = mk_world _ (<[c := freed_cache]> (caches w)) (<[s := freed_slab]> (slabs w)) st' freed_words (pgs w) (pages w) /\
    free_post w g R c o w' g' /\ (forall x, descriptor w' g' x <-> descriptor w g x).
Proof.
  intros Hr Hrel Hh Hpl. destruct freed_words_chain as [Hch HW]. destruct freed_inuse as [Hiu _].
  destruct (iv_slab _ _ _ I _ _ _ _ Hl) as (_ & sl' & Es' & Hs). rewrite Es in Es'. injection Es' as <-.
  destruct (update_spec w g R h c k s sl I Hl Es freed_cache freed_slab st' freed_words L' freed_chain h') as (I' & K & L & D); try done.
  - by apply geom_free_objects, (iv_geom _ _ _ I c), Hl.
  - intros x [->|Hx]%elem_of_cons; [done|]. by apply (so_objs _ _ _ _ _ _ Hs).
  - apply NoDup_cons. split; [done|apply (so_nodup _ _ _ _ _ _ Hs)].
  - intros x [->|Hx]%elem_of_cons; [by right|by left].
  - eexists _, _. split; [done|]. split; [|exact D]. constructor; [exact I'|exact K|done|].
    intros d x. unfold held. rewrite L, D, (live_split w g R h c k s sl d x I Hl Es). unfold freed_chain. rewrite not_elem_of_cons.
    assert ((exists t, t ≠ s /\ live_at w g d t x) -> x ≠ o) as Hne; [|naive_solver].
    intros (t & Hts & y & kd & slt & Hy & Et & Hx & _) ->. apply Hts. symmetry. exact (obj_slab _ _ _ _ _ _ _ _ _ _ _ _ _ _ I Hl Es Ho Hy Et Hx).
Qed.

(** The slab leaves the cache: its pages go back to the page allocator, its
    external descriptor to the cache of descriptors. *)
Lemma free_destroy free st' L' : rings st' (is_head w) L' -> (forall x y, is_head w x -> y ∈ L' x <-> y ≠ SlabN s /\ y ∈ gL g x) ->
  Z.of_nat (length freed_chain) = num k -> (OFF_SLAB k = true -> free_ok free (slabp_cache k)) -> forall v,
  exists w' g', slab_destroy free c s (mk_world _ (<[c := set_free_objects v k]> (caches w)) (<[s := freed_slab]> (slabs w)) st' freed_words (pgs w) (pages w))
      = Some w' /\ free_post w g R c o w' g' /\ (OFF_SLAB k = false -> forall x, descriptor w' g' x <-> descriptor w g x).
Proof.
  intros Hr HL Hfull Hfree v. destruct freed_words_chain as [_ HW].
  destruct (iv_slab _ _ _ I _ _ _ _ Hl) as (_ & sl' & Es' & Hs). rewrite Es in Es'. injection Es' as <-.
  pose proof (iv_geom _ _ _ I _ _ (proj1 (proj2 Hl))) as G. set (k2 := set_free_objects v k).
  assert (forall x, is_obj k sl x -> x = o \/ x ∈ gchain g s) as Hall.
  { intros x Hx. destruct (decide (x = o)) as [|Hxo]; [by left|]. destruct (decide (x ∈ gchain g s)) as [|Hxc]; [by right|].
    assert (length (x :: freed_chain) <= length (objs k (s_mem sl) (Z.to_nat (num k))))%nat as Hle.
    { apply submseteq_length, NoDup_submseteq.
      - apply NoDup_cons. split; [unfold freed_chain; by rewrite not_elem_of_cons|]. apply NoDup_cons. split; [done|apply (so_nodup _ _ _ _ _ _ Hs)].
      - intros y Hy. apply objs_elem. pose proof (go_num _ G). rewrite Z2Nat.id by lia. unfold freed_chain in Hy. rewrite !elem_of_cons in Hy.
        destruct Hy as [->|[->|Hy]]; [done..|]. by apply (so_objs _ _ _ _ _ _ Hs). }
    unfold objs in Hle. rewrite length_fmap, length_seq in Hle. cbn [length] in Hle. lia. }
  set (wr := rem_world w c s k2 st' freed_words). set (gr := rem_ghost g L').
  assert (geom_ok k2) as G2 by (by apply geom_free_objects).
  assert (forall x, is_obj k sl x -> descriptor w g x -> x ∈ gchain g s) as Hnodesc.
  { intros x Hx Hd. destruct (Hall x Hx) as [->|?]; [|done]. by destruct Hnd. }
  pose proof (rem_inv w g R h c k s sl I Hl Es k2 st' freed_words L' ltac:(done) G2 HW Hnodesc Hr HL) as Ir. fold wr gr in Ir.
  assert (forall d x, live wr gr d x <-> exists t, t ≠ s /\ live_at w g d t x) as Lr.
  { intros d x. by apply (rem_live w g R h c k s I Hl k2 st' freed_words L'). }
  assert (forall x, descriptor wr gr x <-> descriptor w g x /\ x ≠ s) as Dr.
  { intros x. by apply (rem_descriptor w g R h c k s I Hl k2 st' freed_words L'). }
  assert (kept w wr) as Kr by (by apply (rem_kept w g h c k s Hl k2 st' freed_words)).
  assert (forall d x, live w g d x <-> (d = c /\ x = o) \/ live wr gr d x) as Lw.
  { intros d x. rewrite Lr, (live_split w g R h c k s sl d x I Hl Es). split; [|naive_solver].
    intros [(-> & Hx & Hxn)|?]; [|by right]. left. split; [done|]. by destruct (Hall x Hx). }
  assert (forall d, ~ live wr gr d o) as Hnr.
  { intros d (t & Hts & y & kd & slt & Hy & Et & Hx & _)%Lr. apply Hts. symmetry. exact (obj_slab _ _ _ _ _ _ _ _ _ _ _ _ _ _ I Hl Es Ho Hy Et Hx). }
  destruct (block_nonneg _ _ _ _ _ _ _ I Hl) as (Hb0 & _ & _). destruct (iv_pages _ _ _ I) as (F & _ & _ & _ & Hpp).
  assert (forall p, in_block (gfporder k2) (gbase g s) p -> 0 <= p < pa_frames (pages wr) /\ ~ R p) as Hblk.
  { intros p Hp. destruct (Hpp _ _ _ _ _ Hl Hp) as (_ & ? & ?). done. }
  assert (caches wr !! c = Some k2) as Ecr by apply lookup_insert_eq.
  unfold slab_destroy. cbn [caches slabs]. rewrite !lookup_insert_eq. cbn [mbind option_bind]. change (dtor k2) with (dtor k).
  rewrite (proj2 (go_plain _ G)). change (OFF_SLAB k2) with (OFF_SLAB k).
  unfold set_slabs. cbn [caches slabs links words pgs pages]. rewrite delete_insert_eq. fold wr.
  change (mk_world _ (<[c:=k2]> (caches w)) (delete s (slabs w)) st' freed_words (pgs w) (pages w)) with wr.
  cbn [freed_slab s_mem colouroff].
  destruct (OFF_SLAB k) eqn:Eo.
  - pose proof (so_desc _ _ _ _ _ _ Hs) as Hds. rewrite Eo in Hds. destruct (so_off _ _ _ _ _ _ Hs) as [Hco _].
    destruct (freepages_spec wr gr R c k2 (gbase g s) (s_mem sl) Ir Ecr) as (w3 & E3 & I3 & K3 & _ & Fr3 & L3 & D3); [|apply (so_align _ _ _ _ _ _ Hs)|done|].
    { rewrite (so_mem _ _ _ _ _ _ Hs), virt_to_page_at by lia. rewrite Z.div_small by lia. lia. }
    rewrite E3. cbn [mbind option_bind]. change (slabp_cache k2) with (slabp_cache k).
    destruct (iv_mgmt _ _ _ I _ _ (proj1 (proj2 Hl)) Eo) as (kd & Ekd & Eod & _). destruct (Kr _ _ Ekd) as (kd1 & Ekd1 & Gd1). destruct (K3 _ _ Ekd1) as (kd2 & Ekd2 & Gd2).
    assert (live w3 gr (slabp_cache k) s) as Hls.
    { apply L3. pose proof (iv_desc _ _ _ I _ _ _ _ Hl Eo) as Hlv. apply Lw in Hlv as [[_ ->]|?]; [|done]. destruct Hnd. by exists h, c, k. }
    assert (held w3 gr (slabp_cache k) s) as Hheld by (split; [done|]; rewrite D3, Dr; tauto).
    destruct (Hfree eq_refl w3 gr R kd2 s I3 Ekd2) as (w4 & g4 & E4 & [I4 K4 Fr4 H4] & D4); [by rewrite (same_geom_off _ _ Gd2), (same_geom_off _ _ Gd1)|done|].
    rewrite E4. exists w4, g4. split_and!; [done| |done]. constructor; [done|by eapply kept_trans; [exact Kr|eapply kept_trans]|by rewrite Fr4, Fr3|].
    intros d x. rewrite H4. unfold held. rewrite L3, D3, Dr, Lw.
    destruct (decide (x = s)) as [->|Hxs].
    + assert (descriptor w g s) as Hd by (by exists h, c, k). split; [|tauto]. intros [[Hx _] Hne]. destruct Hne. split; [|done].
      eapply live_unique; [exact I3|by apply L3|exact Hls].
    + pose proof (Hnr d). destruct (decide (x = o)) as [->|]; tauto.
  - destruct (freepages_spec wr gr R c k2 (gbase g s) (s_mem sl - colouroff sl) Ir Ecr) as (w3 & E3 & I3 & K3 & _ & Fr3 & L3 & D3); [|apply (so_align _ _ _ _ _ _ Hs)|done|].
    { rewrite (so_mem _ _ _ _ _ _ Hs). replace (_ - _) with (PAGE_OFFSET + PAGE_SIZE * gbase g s + 0) by lia. rewrite virt_to_page_at by lia.
      rewrite Z.div_0_l by done. lia. }
    rewrite E3. exists w3, gr. assert (forall x, descriptor w3 gr x <-> descriptor w g x) as D.
    { intros x. rewrite D3, Dr. split; [tauto|]. intros Hd. split; [done|]. intros ->. destruct Hd as (y & d & kd & Hy & Hoff).
      destruct (listed_unique _ _ _ _ _ _ _ _ _ _ I Hl Hy) as (_ & _ & ->). congruence. }
    split_and!; [done| |done]. constructor; [done|by eapply kept_trans|by rewrite Fr3|].
    intros d x. unfold held. rewrite D, L3, Lw. pose proof (Hnr d). destruct (decide (x = o)) as [->|]; tauto.
Qed.
End Free.

Lemma upd_cache_some c f w k : caches w !! c = Some k -> upd_cache c f w = Some (set_caches (<[c := f k]> (caches w)) w).
Proof. intros E. unfold upd_cache. by rewrite E. Qed.

Lemma was_full_spec w g R h c k s sl : slab_inv w g R -> listed w g h c k s -> slabs w !! s = Some sl ->
  (inuse sl =? num k) = bool_decide (gchain g s = []).
Proof.
  intros I Hl Es. destruct (iv_slab _ _ _ I _ _ _ _ Hl) as (_ & sl' & Es' & Hs). rewrite Es in Es'. injection Es' as <-.
  rewrite (so_inuse _ _ _ _ _ _ Hs). case_bool_decide as E; [rewrite E; cbn [length]; apply Z.eqb_eq; lia|].
  destruct (gchain g s); [done|]. apply Z.eqb_neq. cbn [length]. lia.
Qed.

(** A slab that is neither full nor empty is on the partial list. *)
Lemma partial_place w g R h c k s : slab_inv w g R -> listed w g h c k s -> gchain g s ≠ [] ->
  Z.of_nat (length (gchain g s)) < num k -> h = LPart c.
Proof.
  intros I Hl Hne Hlt. destruct (iv_slab _ _ _ I _ _ _ _ Hl) as (Hp & _). destruct Hl as (Ho & _).
  destruct h; cbn [placed owner] in *; try done; [by injection Ho as ->|lia].
Qed.

Lemma free_step fuel w g R c k o : slab_inv w g R -> caches w !! c = Some k -> held w g c o ->
  (OFF_SLAB k = true -> free_ok (kmem_cache_free fuel) (slabp_cache k)) ->
  exists w' g', kmem_cache_free (Datatypes.S fuel) c o w = Some w' /\ free_post w g R c o w' g' /\
    (OFF_SLAB k = false -> forall x, descriptor w' g' x <-> descriptor w g x).
Proof.
  intros I Ec [(h & k0 & s & sl & Hl & Es & Ho & Hn) Hnd] Hfree.
  assert (k0 = k) as -> by (destruct Hl as (_ & E & _); congruence). destruct (cache_heads w c k Ec) as (HP1 & HP2 & HP3).
  pose proof (listed_head _ _ _ _ _ _ Hl) as HPh. pose proof (proj2 (proj2 Hl)) as Hin.
  destruct (virt_to_slab_obj _ _ _ _ _ _ _ _ _ I Hl Es Ho) as [Ev _].
  destruct (freed_inuse w g R h c k s sl o I Hl Es Ho Hn) as [Hiu Hle].
  cbn [kmem_cache_free]. rewrite Ev. cbn [mbind option_bind]. rewrite Ec. cbn [mbind option_bind]. rewrite Es. cbn [mbind option_bind].
  rewrite (was_full_spec _ _ _ _ _ _ _ _ I Hl Es). unfold slab_put_obj. rewrite Es. cbn [mbind option_bind].
  rewrite (upd_cache_some c _ _ k) by done. cbn [mbind option_bind].
  set (w1 := mk_world _ (<[c := freed_cache k]> (caches w)) (<[s := freed_slab sl o]> (slabs w)) (links w) (freed_words w sl o) (pgs w) (pages w)).
  change (set_caches _ _) with w1.
  rewrite (lookup_insert_eq (slabs w) s (freed_slab sl o) : slabs w1 !! s = Some (freed_slab sl o)). cbn [mbind option_bind].
  rewrite (lookup_insert_eq (caches w) c (freed_cache k) : caches w1 !! c = Some (freed_cache k)). cbn [mbind option_bind].
  rewrite Hiu. destruct (Z.eqb_spec (num k - Z.of_nat (length (freed_chain g s o))) 0) as [Hz|Hz].
  - destruct (free_limit (freed_cache k) <? free_objects (freed_cache k)).
    + destruct (rings_del (links w) _ (gL g) h (SlabN s) (iv_rings _ _ _ I) HPh Hin) as (st1 & E1 & _ & Hr1 & _ & _ & _).
      unfold on_links. cbn [w1 links]. rewrite E1. cbn [mbind option_bind].
      rewrite (upd_cache_some c _ _ (freed_cache k)) by (cbn [set_links w1 caches]; apply lookup_insert_eq). cbn [mbind option_bind].
      destruct (free_destroy w g R h c k s sl o I Hl Es Ho Hn Hnd (kmem_cache_free fuel) st1 (ring_del (SlabN s) (gL g)) Hr1) with
        (v := free_objects (freed_cache k) - num (freed_cache k)) as (w' & g' & E & P & D).
      * intros x y _. unfold ring_del. by rewrite list_elem_of_filter.
      * lia.
      * done.
      * exists w', g'. split_and!; [|done..]. rewrite <- E. unfold set_caches, set_links, w1. cbn [caches slabs links words pgs pages].
        by rewrite insert_insert_eq.
    + destruct (move_slab (links w) _ (gL g) s h (LFree c) true (iv_rings _ _ _ I) HPh HP3 Hin) as (st1 & st2 & L' & E1 & E2 & Hr & Hrel).
      unfold on_links. cbn [w1 links]. rewrite E1. cbn [mbind option_bind set_links links]. rewrite E2. cbn [mbind option_bind].
      destruct (free_keep w g R h c k s sl o I Hl Es Ho Hn Hnd st2 L' (LFree c) Hr Hrel) as (w' & g' & -> & P & D); [done|cbn [placed]; lia|].
      eexists _, g'. split_and!; done.
  - case_bool_decide as Ech.
    + destruct (move_slab (links w) _ (gL g) s h (LPart c) false (iv_rings _ _ _ I) HPh HP1 Hin) as (st1 & st2 & L' & E1 & E2 & Hr & Hrel).
      unfold on_links. cbn [w1 links]. rewrite E1. cbn [mbind option_bind set_links links]. rewrite E2. cbn [mbind option_bind].
      destruct (free_keep w g R h c k s sl o I Hl Es Ho Hn Hnd st2 L' (LPart c) Hr Hrel) as (w' & g' & -> & P & D); [done|split; [done|lia]|].
      eexists _, g'. split_and!; done.
    + assert (h = LPart c) as -> by (eapply partial_place; try done; cbn [freed_chain length] in Hle; lia).
      destruct (free_keep w g R _ c k s sl o I Hl Es Ho Hn Hnd (links w) (gL g) (LPart c) (iv_rings _ _ _ I)) as (w' & g' & -> & P & D);
        [by eapply relocated_stay|done|split; [done|lia]|].
      eexists _, g'. split_and!; done.
Qed.

Lemma free_internal fuel c : free_ok (kmem_cache_free (Datatypes.S fuel)) c.
Proof.
  intros w g R k o I Ec Eo Hh. destruct (free_step fuel w g R c k o I Ec Hh) as (w' & g' & E & P & D); [by rewrite Eo|].
  exists w', g'. split_and!; [done..|by apply D].
Qed.

Lemma free_spec fuel w g R c k o : slab_inv w g R -> caches w !! c = Some k -> held w g c o ->
  exists w' g', kmem_cache_free (Datatypes.S (Datatypes.S fuel)) c o w = Some w' /\ free_post w g R c o w' g'.
Proof.
  intros I Ec Hh. destruct (free_step (Datatypes.S fuel) w g R c k o I Ec Hh) as (w' & g' & E & P & _); [intros _; apply free_internal|].
  by exists w', g'.
Qed.

(** Live objects do not overlap. *)
Lemma live_disjoint w g R d x k d' x' k' : slab_inv w g R -> caches w !! d = Some k -> caches w !! d' = Some k' ->
  live w g d x -> live w g d' x' -> x ≠ x' -> forall a, ~ (x <= a < x + objsize k /\ x' <= a < x' + objsize k').
Proof.
  intros I Ed Ed' (y & kd & t & slt & Hy & Et & Hx & _) (y' & kd' & t' & slt' & Hy' & Et' & Hx' & _) Hne a [Ha Ha'].
  assert (kd = k) as -> by (destruct Hy as (_ & E & _); congruence). assert (kd' = k') as -> by (destruct Hy' as (_ & E & _); congruence).
  pose proof (obj_page _ _ _ _ _ _ _ _ x a I Hy Et Hx Ha) as Hb. pose proof (obj_page _ _ _ _ _ _ _ _ x' a I Hy' Et' Hx' Ha') as Hb'.
  assert (t = t') as <- by exact (iv_disj _ _ _ I _ _ _ _ _ _ _ _ _ Hy Hy' Hb Hb').
  destruct (listed_unique _ _ _ _ _ _ _ _ _ _ I Hy Hy') as (_ & -> & ->). rewrite Et in Et'. injection Et' as <-.
  destruct Hx as (i & Hi & ->), Hx' as (j & Hj & ->). apply Hne. f_equal. f_equal. nia.
Qed.

(** *** Adding a cache *)

Section AddCache.
Context (w : world S) (g : ghost) (R : Z -> Prop) (c : Z) (k : kmem_cache).
Context (I : slab_inv w g R) (Hnew : caches w !! c = None) (Hg : geom_ok k).
Context (Hm : OFF_SLAB k = true -> exists k', caches w !! slabp_cache k = Some k' /\ OFF_SLAB k' = false /\ sizeof_slab_t <= objsize k').
Context (st0 st : gmap snode (list_head snode)).
Context (Hnode : forall y, y = LFull c \/ y = LPart c \/ y = LFree c \/ y = CacheN c -> dlist st0 y []).
Context (Hframe : forall y, y ≠ LFull c -> y ≠ LPart c -> y ≠ LFree c -> y ≠ CacheN c -> st0 !! y = links w !! y).
Context (Hadd : list_add Chain (CacheN c) st0 = Some st).

Definition newc_lists (h : snode) : list snode := if decide (owner h = Some c) then [] else gL g h.
Definition newc_ghost : ghost := mk_ghost (ring_add true Chain (CacheN c) newc_lists) (gchain g) (gbase g).
Definition newc_world : world S := mk_world _ (<[c := k]> (caches w)) (slabs w) st (words w) (pgs w) (pages w).

Lemma newc_head h : is_head newc_world h <-> is_head w h \/ owner h = Some c.
Proof.
  unfold is_head. cbn [newc_world caches]. split.
  - intros [->|(d & Ho & Hd)]; [by left; left|]. destruct (decide (d = c)) as [->|]; [by right|]. rewrite lookup_insert_ne in Hd by done. left. right. by exists d.
  - intros [[->|(d & Ho & Hd)]|Ho]; [by left|right; exists d|right; exists c].
    + split; [done|]. rewrite lookup_insert_ne; [done|]. intros <-. rewrite Hnew in Hd. by destruct Hd.
    + rewrite lookup_insert_eq. split; [done|by eexists].
Qed.

Lemma newc_old h : is_head w h -> owner h ≠ Some c.
Proof. intros [->|(d & Ho & Hd)] E; [done|]. rewrite Ho in E. injection E as ->. rewrite Hnew in Hd. by destruct Hd. Qed.

Lemma newc_elem h y : is_head w h -> y ∈ h :: gL g h -> y ≠ LFull c /\ y ≠ LPart c /\ y ≠ LFree c /\ y ≠ CacheN c.
Proof.
  intros Hh [->|Hy]%elem_of_cons.
  - pose proof (newc_old h Hh) as Ho. split_and!; intros ->; try done. by destruct Hh as [?|(? & ? & _)].
  - pose proof (iv_elem _ _ _ I h y Hh Hy) as He. destruct (decide (h = Chain)) as [->|Hne].
    2:{ assert (exists s, y = SlabN s) as [s ->] by (by destruct h). by split_and!. }
    destruct He as (d & -> & Hd). split_and!; try done. intros [= ->]. rewrite Hnew in Hd. by destruct Hd.
Qed.

Lemma newc_rings0 : rings st0 (is_head newc_world) newc_lists.
Proof.
  assert (forall h, owner h = Some c -> h = LFull c \/ h = LPart c \/ h = LFree c) as Hown.
  { intros h E. destruct h; cbn [owner] in E; try done; injection E as ->; tauto. }
  split.
  - intros h Hh. unfold newc_lists. case_decide as Ho; [apply Hnode; destruct (Hown h Ho) as [?|[?|?]]; tauto|].
    apply newc_head in Hh as [Hh|?]; [|done]. eapply dlist_frame; [|by apply (proj1 (iv_rings _ _ _ I))].
    intros y Hy. destruct (newc_elem h y Hh Hy) as (? & ? & ? & ?). by apply Hframe.
  - intros h h' y Hh Hh'. unfold newc_lists. rewrite newc_head in Hh, Hh'.
    assert (forall a b, is_head w a -> owner b = Some c -> y ∈ a :: gL g a -> y = b -> a = b) as Hab.
    { intros a b Ha Hb Hy ->. destruct (newc_elem a b Ha Hy) as (? & ? & ? & _). destruct (Hown b Hb) as [?|[?|?]]; done. }
    case_decide as Ho; case_decide as Ho'.
    + intros Hy%list_elem_of_singleton Hy'%list_elem_of_singleton. congruence.
    + destruct Hh' as [Hh'|]; [|done]. intros Hy%list_elem_of_singleton Hy'. symmetry. by eapply Hab.
    + destruct Hh as [Hh|]; [|done]. intros Hy Hy'%list_elem_of_singleton. by eapply Hab.
    + destruct Hh as [Hh|]; [|done]. destruct Hh' as [Hh'|]; [|done]. by apply (proj2 (iv_rings _ _ _ I)).
Qed.

Lemma newc_rings : rings st (is_head newc_world) (ring_add true Chain (CacheN c) newc_lists).
Proof.
  destruct (rings_add st0 (is_head newc_world) newc_lists true Chain (CacheN c) newc_rings0) as (st' & E & _ & Hr & _).
  - by left.
  - intros h Hh Hin. unfold newc_lists in Hin. case_decide as Ho.
    + apply list_elem_of_singleton in Hin. by rewrite <- Hin in Ho.
    + apply newc_head in Hh as [Hh|?]; [|done]. by destruct (newc_elem h _ Hh Hin) as (_ & _ & _ & ?).
  - apply (dlist_in_dom st0 (CacheN c) []); [apply Hnode; tauto|by left].
  - rewrite Hadd in E. by injection E as <-.
Qed.

Lemma newc_add_total : exists st', list_add Chain (CacheN c) st0 = Some st'.
Proof.
  unfold list_add, generic_add. destruct newc_rings0 as [Hd _].
  pose proof (Hd Chain ltac:(by left)) as Hc. pose proof (lseg_first _ _ _ _ (proj2 Hc)) as Hn.
  destruct (list_add_spec st0 Chain (newc_lists Chain) (CacheN c) Hc) as (st' & E & _).
  - intros Hin. unfold newc_lists in Hin. rewrite decide_False in Hin by done.
    by destruct (newc_elem Chain (CacheN c) ltac:(by left) Hin) as (_ & _ & _ & ?).
  - apply (dlist_in_dom st0 (CacheN c) []); [apply Hnode; tauto|by left].
  - exists st'. exact E.
Qed.

Lemma newc_listed h d kd t : listed newc_world newc_ghost h d kd t <-> listed w g h d kd t.
Proof.
  unfold listed. cbn [newc_world caches newc_ghost gL]. split; intros (Ho & Ed & Ht).
  - unfold ring_add, newc_lists in Ht. rewrite decide_False in Ht by (by intros ->). case_decide as Hc; [by apply elem_of_nil in Ht|].
    rewrite lookup_insert_ne in Ed by congruence. done.
  - assert (d ≠ c) as Hne by congruence. rewrite lookup_insert_ne by done. split_and!; [done..|]. unfold ring_add, newc_lists.
    rewrite decide_False by (by intros ->). rewrite decide_False by congruence. done.
Qed.

Lemma newc_spec : slab_inv newc_world newc_ghost R /\ (forall d x, live newc_world newc_ghost d x <-> live w g d x) /\
  (forall x, descriptor newc_world newc_ghost x <-> descriptor w g x).
Proof.
  assert (forall d x, live newc_world newc_ghost d x <-> live w g d x) as L.
  { intros d x. unfold live. by setoid_rewrite newc_listed. }
  split_and!; [|done|intros x; unfold descriptor; by setoid_rewrite newc_listed].
  assert (forall d, is_Some (caches w !! d) -> is_Some (caches newc_world !! d)) as Hdom.
  { intros d Hd. cbn [newc_world caches]. destruct (decide (d = c)) as [->|]; [rewrite lookup_insert_eq; by eexists|by rewrite lookup_insert_ne]. }
  assert (forall d kd, caches newc_world !! d = Some kd -> (d = c /\ kd = k) \/ caches w !! d = Some kd) as Hlk.
  { intros d kd. cbn [newc_world caches]. destruct (decide (d = c)) as [->|]; [rewrite lookup_insert_eq; intros [= <-]; by left|].
    rewrite lookup_insert_ne by done. by right. }
  assert (forall d kd, caches w !! d = Some kd -> caches newc_world !! d = Some kd) as Hkeep.
  { intros d kd E. cbn [newc_world caches]. rewrite lookup_insert_ne by congruence. done. }
  constructor.
  - apply newc_rings.
  - intros h y Hh Hy. cbn [newc_ghost gL] in Hy. unfold ring_add, newc_lists in Hy. case_decide as Hch.
    + subst h. rewrite decide_False in Hy by done. apply elem_of_cons in Hy as [->|Hy].
      * exists c. split; [done|]. cbn [newc_world caches]. rewrite lookup_insert_eq. by eexists.
      * apply (elem_ok_ext w); [done|]. apply (iv_elem _ _ _ I); [by left|done].
    + case_decide; [by apply elem_of_nil in Hy|]. apply newc_head in Hh as [Hh|]; [|done].
      apply (elem_ok_ext w); [done|]. by apply (iv_elem _ _ _ I).
  - intros d kd [[-> ->]|E]%Hlk; [done|]. by eapply (iv_geom _ _ _ I).
  - intros d kd [[-> ->]|E]%Hlk Ho.
    + destruct (Hm Ho) as (k' & E' & ? & ?). exists k'. split_and!; [by apply Hkeep|done..].
    + destruct (iv_mgmt _ _ _ I _ _ E Ho) as (k' & E' & ? & ?). exists k'. split_and!; [by apply Hkeep|done..].
  - intros h d kd t Hx%newc_listed. destruct (iv_slab _ _ _ I _ _ _ _ Hx) as (? & slt & ? & []). split; [done|]. exists slt. split; [done|]. by constructor.
  - intros h d kd t Hx%newc_listed Ho. apply L. by eapply (iv_desc _ _ _ I).
  - intros h d kd t h' d' kd' t' p Hx%newc_listed Hx'%newc_listed. by eapply (iv_disj _ _ _ I).
  - destruct (iv_pages _ _ _ I) as (F & HF & Hfr & HR & Hp). exists F. split_and!; [done..|].
    intros h d kd t p Hx%newc_listed. by eapply Hp.
Qed.
End AddCache.

(** *** Creating a cache *)

(** Every cache but [cc] is an object of [cc]; [cc] itself is static memory. *)
Definition registered w (g : ghost) (R : Z -> Prop) (cc : Z) : Prop :=
  R (virt_to_page cc) /\ forall d, is_Some (caches w !! d) -> d = cc \/ held w g cc d.

Lemma new_cache_fresh w g R cc c w' g' : slab_inv w g R -> registered w g R cc -> alloc_post w g R cc (Some c) w' g' ->
  caches w' !! c = None /\ registered w' g' R cc.
Proof.
  intros I [HR Hreg] P. destruct (ap_new _ _ _ _ _ _ _ P c eq_refl) as (Hlv & Hnd & Hno). pose proof (ap_inv _ _ _ _ _ _ _ P) as I'.
  assert (forall d, is_Some (caches w' !! d) -> d = cc \/ held w g cc d) as Hsub.
  { intros d Hd. apply Hreg. apply elem_of_dom. rewrite <- (ap_dom _ _ _ _ _ _ _ P). by apply elem_of_dom. }
  split.
  - apply eq_None_not_Some. intros Hc. destruct (Hsub c Hc) as [->|[Hl _]]; [|by apply (Hno cc)].
    destruct Hlv as (y & k & t & slt & Hy & Et & Ho & _). pose proof (go_objsize _ (iv_geom _ _ _ I' _ _ (proj1 (proj2 Hy)))).
    pose proof (obj_page _ _ _ _ _ _ _ _ cc cc I' Hy Et Ho ltac:(lia)) as Hb. destruct (iv_pages _ _ _ I') as (F & _ & _ & _ & Hp).
    by destruct (Hp _ _ _ _ _ Hy Hb) as (_ & ? & _).
  - split; [done|]. intros d Hd. destruct (Hsub d Hd) as [->|Hh]; [by left|]. right. apply (ap_held _ _ _ _ _ _ _ P). by left.
Qed.

Lemma shrink_align_total size : 1 <= size -> exists r, shrink_align 8 size L1_CACHE_BYTES = Some r.
Proof.
  intros Hs. unfold L1_CACHE_BYTES. do 6 (cbn [shrink_align]; match goal with |- context [size <=? ?e] => destruct (Z.leb_spec size e); [|by eexists] end).
  repeat match goal with H : size <= ?e |- _ => let v := eval vm_compute in e in change e with v in H end. lia.
Qed.
(** The table of the general caches: sizes ascending, each served by a cache of
    objects at least as large. *)
Definition table_ok (t : malloc_table) w : Prop :=
  forall cs c, (cs, c) ∈ t -> exists k, caches w !! c = Some k /\ cs <= objsize k.

Lemma find_size_spec size t w : table_ok t w ->
  match find_size size t with
  | Some c => exists k, caches w !! c = Some k /\ size <= objsize k
  | None => forall cs c, (cs, c) ∈ t -> cs < size
  end.
Proof.
  induction t as [|[cs c] t IH]; intros Ht; cbn [find_size]; [by intros cs c ?%elem_of_nil|].
  destruct (Z.ltb_spec cs size) as [Hlt|Hle].
  - assert (table_ok t w) as Ht' by (intros cs' c' Hin; apply (Ht cs' c'); by right). specialize (IH Ht').
    destruct (find_size size t); [done|]. intros cs' c' [[= -> ->]|Hin]%elem_of_cons; [done|]. by apply (IH cs' c').
  - destruct (Ht cs c) as (k & E & Hk); [by left|]. exists k. split; [done|lia].
Qed.
End Slab.

Lemma setup_geom old size align flags ord nr rest c sc :
  calculate_slab_order size align flags = Some (ord, nr, rest) -> nr ≠ 0 -> 4 <= size < 2 ^ 32 -> (align = 8 \/ align = 32) ->
  colour_next old = 0 -> dtor old = None -> c = None -> (has_flag flags CFLGS_OFF_SLAB = true -> rest <= PAGE_SIZE) ->
  geom_ok (setup_cache old size align flags (ord, nr, rest) c sc).
Proof.
  intros E Hnr Hs Ha Hcn Hd -> Hoff. apply order_search_found in E as [Ho Ee]; [|done..].
  change (Z.of_nat (Z.to_nat (KMALLOC_MAX_ORDER + 1))) with 11 in Ho.
  assert ((if L1_CACHE_BYTES <? align then align else L1_CACHE_BYTES) = 32) as Hco by (by destruct Ha as [->| ->]).
  assert (exists b, 0 <= b /\ b = PAGE_SIZE * 2 ^ ord - (if has_flag flags CFLGS_OFF_SLAB then 0 else 32) /\ nr = b `div` size /\ rest = b `mod` size) as (b & Hb & Eb & -> & ->).
  { destruct (slab_bytes ord ltac:(lia)) as [_ Hsb]. destruct (has_flag flags CFLGS_OFF_SLAB) eqn:Hf.
    - rewrite estimate_external in Ee by (done || lia). injection Ee as <- <-. eexists. split_and!; [|reflexivity|f_equal; lia|f_equal; lia]. lia.
    - rewrite estimate_internal, (mgmt_size_32 align Ha) in Ee by (done || lia). injection Ee as <- <-. eexists. split_and!; [|reflexivity|done..]. lia. }
  pose proof (Z.div_mod b size ltac:(lia)). pose proof (Z.mod_pos_bound b size ltac:(lia)). pose proof (Z.div_pos b size Hb ltac:(lia)).
  pose proof (Z.div_mod (b `mod` size) 32 ltac:(lia)). pose proof (Z.mod_pos_bound (b `mod` size) 32 ltac:(lia)). pose proof (Z.div_pos (b `mod` size) 32 ltac:(lia) ltac:(lia)).
  assert (OFF_SLAB (setup_cache old size align flags (ord, b `div` size, b `mod` size) None sc) = has_flag flags CFLGS_OFF_SLAB) as Eo by done.
  constructor; unfold header; rewrite ?Eo; unfold setup_cache; cbn [objsize num gfporder colour_next colour colour_off slab_size ctor dtor]; rewrite ?Hco.
  - lia.
  - lia.
  - unfold MAX_ORDER. lia.
  - lia.
  - change (ALIGN sizeof_slab_t align) with (slab_mgmt_size align). rewrite (mgmt_size_32 align Ha). destruct (has_flag flags CFLGS_OFF_SLAB); lia.
  - change (ALIGN sizeof_slab_t align) with (slab_mgmt_size align). rewrite (mgmt_size_32 align Ha). unfold sizeof_slab_t.
    destruct (has_flag flags CFLGS_OFF_SLAB); [specialize (Hoff eq_refl); lia|lia].
  - done.
Qed.

Lemma land_lnot_ones x n : 0 <= n -> Z.land x (Z.lnot (2 ^ n - 1)) = x - x `mod` 2 ^ n.
Proof.
  intros Hn. rewrite <- Z.ldiff_land. replace (2 ^ n - 1) with (Z.ones n) by (rewrite Z.ones_equiv; lia).
  rewrite Z.ldiff_ones_r, Z.shiftr_div_pow2, Z.shiftl_mul_pow2 by lia.
  pose proof (Z.pow_pos_nonneg 2 n ltac:(lia) Hn). pose proof (Z.div_mod x (2 ^ n) ltac:(lia)). lia.
Qed.

Lemma has_flag_3 x : has_flag x 3 = negb (x `mod` 4 =? 0).
Proof. unfold has_flag. change 3 with (Z.ones 2). by rewrite Z.land_ones by lia. Qed.

(** The object size of a cache: the requested size rounded up to 8 bytes. *)
Lemma rounded_size size : 1 <= size <= 2 ^ 21 ->
  let sz := ALIGN (round_word size) KMALLOC_MINALIGN in size <= sz <= size + 7 /\ 8 <= sz /\ sz `mod` 8 = 0.
Proof.
  intros Hs sz.
  assert (exists r, round_word size = r /\ size <= r <= size + 3 /\ r `mod` 4 = 0) as (r & Er & Hr & Hr4).
  { unfold round_word. change (BYTES_PER_WORD - 1) with 3. rewrite has_flag_3. destruct (Z.eqb_spec (size `mod` 4) 0) as [E|E]; cbn [negb].
    - exists size. split_and!; [done|lia..].
    - rewrite u32_small by lia. change 3 with (2 ^ 2 - 1) at 2. rewrite land_lnot_ones by lia. eexists. split; [done|]. change (2 ^ 2) with 4.
      pose proof (Z.mod_pos_bound (size + 3) 4 ltac:(lia)). split; [lia|]. rewrite Zminus_mod_idemp_r, Z.sub_diag. done. }
  unfold sz. rewrite Er. unfold ALIGN, KMALLOC_MINALIGN. rewrite u32_small by lia. change (8 - 1) with (2 ^ 3 - 1). rewrite land_lnot_ones by lia.
  change (2 ^ 3) with 8. set (y := r + (8 - 1)). pose proof (Z.mod_pos_bound y 8 ltac:(lia)). pose proof (Z.div_mod y 8 ltac:(lia)).
  pose proof (Z.div_mod r 4 ltac:(lia)).
  assert ((y - y `mod` 8) `mod` 8 = 0) as Hm by (rewrite Zminus_mod_idemp_r, Z.sub_diag; done).
  pose proof (Z.div_mod (y - y `mod` 8) 8 ltac:(lia)). split_and!; [lia| |lia|done].
  pose proof (Z.mod_divide (y - y `mod` 8) 4 ltac:(lia)). assert ((y - y `mod` 8) = 8 * (y `div` 8)) as Hy by lia. lia.
Qed.

Lemma order_search_total n : forall ord size align flags last,
  (forall o, ord <= o < ord + Z.of_nat n -> is_Some (cache_estimate o size align flags)) ->
  (exists o nr rest, ord <= o < ord + Z.of_nat n /\ cache_estimate o size align flags = Some (nr, rest) /\ nr ≠ 0) ->
  exists ord' nr rest, order_search n ord size align flags last = Some (ord', nr, rest) /\ nr ≠ 0.
Proof.
  induction n as [|n IH]; intros ord size align flags last Hsome (o & nr & rest & Ho & E & Hnr); [lia|]. cbn [order_search].
  destruct (Hsome ord) as [[nr0 rest0] E0]; [lia|]. rewrite E0. cbn [mbind option_bind]. destruct (Z.eqb_spec nr0 0) as [->|Hne].
  - apply IH; [intros o' Ho'; apply Hsome; lia|]. exists o, nr, rest. split_and!; [|lia|done..]. destruct (decide (o = ord)) as [->|]; [|lia]. congruence.
  - by exists ord, nr0, rest0.
Qed.

Lemma slab_order_total size flags : 8 <= size <= 2 ^ 21 + 7 ->
  exists ord nr rest, calculate_slab_order size KMALLOC_MINALIGN flags = Some (ord, nr, rest) /\ nr ≠ 0.
Proof.
  intros Hs. unfold calculate_slab_order. change (Z.to_nat (KMALLOC_MAX_ORDER + 1)) with 11%nat.
  assert (forall o, 0 <= o <= 10 -> exists b, 4000 <= b <= 2 ^ 22 /\ (o = 10 -> 2 ^ 22 - 32 <= b) /\
    cache_estimate o size KMALLOC_MINALIGN flags = Some (fit_objects b size)) as He.
  { intros o Ho. destruct (slab_bytes o Ho) as [_ Hb]. destruct (has_flag flags CFLGS_OFF_SLAB) eqn:Hf.
    - exists (PAGE_SIZE * 2 ^ o). split_and!; [lia..|intros ->; unfold PAGE_SIZE; lia|]. apply estimate_external; [done|lia|done].
    - exists (PAGE_SIZE * 2 ^ o - slab_mgmt_size KMALLOC_MINALIGN). change (slab_mgmt_size KMALLOC_MINALIGN) with 32.
      split_and!; [lia..|intros ->; unfold PAGE_SIZE; lia|]. apply estimate_internal; [done|lia|by left|done]. }
  apply order_search_total.
  - intros o Ho. destruct (He o) as (b & _ & _ & ->); [lia|]. by eexists.
  - destruct (He 10) as (b & Hb & Hb10 & E); [lia|]. exists 10, (b `div` size), (b `mod` size). split_and!; [lia..|done|].
    pose proof (Z.div_le_lower_bound b size 1 ltac:(lia) ltac:(lia)). lia.
Qed.

Section Create.
Context {S : Type} `{!PageAllocator S}.
Implicit Types w : world S.

(** The list heads of a new cache. *)
Lemma new_nodes w c k old : caches w !! c = Some old ->
  exists st0, (w1 ← kmem_list3_init c (set_links (<[LFull c := mk_list_head None None]> (<[LPart c := mk_list_head None None]>
       (<[LFree c := mk_list_head None None]> (<[CacheN c := mk_list_head None None]> (links w))))) w);
     on_links (set_caches (<[c := k]> (caches w1)) w1) (INIT_LIST_HEAD (CacheN c)))
   = Some (mk_world _ (<[c := k]> (caches w)) (slabs w) st0 (words w) (pgs w) (pages w)) /\
   (forall y, y = LFull c \/ y = LPart c \/ y = LFree c \/ y = CacheN c -> dlist st0 y []) /\
   (forall y, y ≠ LFull c -> y ≠ LPart c -> y ≠ LFree c -> y ≠ CacheN c -> st0 !! y = links w !! y).
Proof.
  intros Ec. unfold kmem_list3_init, on_links. cbn [set_links links].
  rewrite INIT_LIST_HEAD_effect by (rewrite lookup_insert_eq; by eexists). cbn [mbind option_bind set_links links].
  rewrite INIT_LIST_HEAD_effect by (rewrite !lookup_insert_ne, lookup_insert_eq by done; by eexists). cbn [mbind option_bind set_links links].
  rewrite INIT_LIST_HEAD_effect by (rewrite !lookup_insert_ne, lookup_insert_eq by done; by eexists). cbn [mbind option_bind set_links links].
  rewrite (upd_cache_some c _ _ old) by done. cbn [mbind option_bind]. unfold set_caches, set_links. cbn [caches slabs links words pgs pages].
  rewrite INIT_LIST_HEAD_effect by (rewrite !lookup_insert_ne, lookup_insert_eq by done; by eexists). cbn [mbind option_bind].
  rewrite insert_insert_eq. eexists. split; [done|]. split.
  - intros y Hy. split; [apply NoDup_singleton|]. unfold lseg, next_of, prev_of.
    destruct Hy as [->|[->|[->| ->]]]; rewrite ?lookup_insert_ne, lookup_insert_eq by done; done.
  - intros y H1 H2 H3 H4. by rewrite !lookup_insert_ne by done.
Qed.

Lemma list3_caches w w' c d : kmem_list3_init c w = Some w' -> d ≠ c -> caches w' !! d = caches w !! d.
Proof.
  unfold kmem_list3_init, on_links, upd_cache. intros (a1 & (b1 & _ & [= <-])%bind_Some & (a2 & (b2 & _ & [= <-])%bind_Some &
    (a3 & (b3 & _ & [= <-])%bind_Some & (k & _ & [= <-])%bind_Some)%bind_Some)%bind_Some)%bind_Some Hne.
  cbn [set_caches set_links caches]. by rewrite lookup_insert_ne.
Qed.

Lemma create_spec fuel w g R cc kc old size flags :
  slab_inv w g R -> registered w g R cc -> caches w !! cc = Some kc -> 1 <= size <= 2 ^ 21 ->
  colour_next old = 0 -> dtor old = None ->
  (has_flag flags CFLGS_OFF_SLAB = true ->
     (exists k', caches w !! slabp_cache kc = Some k' /\ OFF_SLAB k' = false /\ sizeof_slab_t <= objsize k') /\
     forall ord nr rest, calculate_slab_order (ALIGN (round_word size) KMALLOC_MINALIGN) KMALLOC_MINALIGN flags = Some (ord, nr, rest) ->
       rest <= PAGE_SIZE) ->
  exists r w' g', kmem_cache_create (Datatypes.S (Datatypes.S fuel)) cc old size KMALLOC_MINALIGN flags None w = Some (r, w') /\
    slab_inv w' g' R /\ registered w' g' R cc /\ kept w w' /\
    (forall d x, held w' g' d x <-> held w g d x \/ (r = Some x /\ d = cc)) /\ (has_free g cc \/ can_grow w kc -> r ≠ None) /\
    forall c, r = Some c -> exists k, caches w' !! c = Some k /\ size <= objsize k /\ OFF_SLAB k = has_flag flags CFLGS_OFF_SLAB.
Proof.
  intros I Hreg Ecc Hsize Hcn Hdt Hoff. destruct (rounded_size size Hsize) as (Hsz & Hsz8 & _). set (sz := ALIGN _ _) in *.
  unfold kmem_cache_create. set (rs := round_word size) in *.
  assert (size <= rs) as Hrs.
  { unfold rs, round_word. change (BYTES_PER_WORD - 1) with 3. destruct (has_flag size 3); [|lia]. rewrite u32_small by lia.
    change 3 with (2 ^ 2 - 1) at 2. rewrite land_lnot_ones by lia. pose proof (Z.mod_pos_bound (size + 3) 4 ltac:(lia)). change (2 ^ 2) with 4. lia. }
  assert (exists ra, (if has_flag flags SLAB_HWCACHE_ALIGN then shrink_align 8 rs L1_CACHE_BYTES else Some BYTES_PER_WORD) = Some ra) as [ra ->].
  { destruct (has_flag flags SLAB_HWCACHE_ALIGN); [apply shrink_align_total; lia|by eexists]. }
  cbn [mbind option_bind]. destruct (alloc_spec fuel w g R cc kc 0 I Ecc) as (r & w1 & g1 & E1 & P & Hcan). rewrite E1. cbn [mbind option_bind].
  pose proof (ap_inv _ _ _ _ _ _ _ P) as I1. pose proof (ap_kept _ _ _ _ _ _ _ P) as K1. pose proof (ap_held _ _ _ _ _ _ _ P) as H1.
  destruct r as [c|].
  2:{ exists None, w1, g1. split_and!; [done..| |done|done|done|done]. destruct Hreg as [HR Hreg]. split; [done|].
      intros d Hd. destruct (Hreg d) as [->|Hh]; [|by left|right; apply H1; by left].
      apply elem_of_dom. rewrite <- (ap_dom _ _ _ _ _ _ _ P). by apply elem_of_dom. }
  destruct (new_cache_fresh w g R cc c w1 g1 I Hreg P) as [Hnew [HR Hreg1]].
  destruct (slab_order_total sz flags ltac:(lia)) as (ord & nr & rest & Eo & Hnr). destruct (K1 _ _ Ecc) as (kc1 & Ecc1 & Hgc).
  fold sz. rewrite Eo.
  set (k := setup_cache old sz KMALLOC_MINALIGN flags (ord, nr, rest) None (slabp_cache kc1)).
  assert (cc ≠ c) as Hccne by congruence.
  destruct (new_nodes (set_caches (<[c := old]> (caches w1)) w1) c k old) as (st0 & E2 & Hnode & Hframe); [apply lookup_insert_eq|].
  apply bind_Some in E2 as (w2 & E2 & E3). cbn [set_caches links] in E2. cbn [set_caches links]. rewrite E2. cbn [mbind option_bind].
  cbn [fst snd]. destruct (Z.eqb_spec nr 0); [done|].
  assert (caches w2 !! cc = Some kc1) as Ecc2.
  { rewrite (list3_caches _ _ _ _ E2 Hccne). cbn [set_links set_caches caches]. by rewrite lookup_insert_ne. }
  rewrite Ecc2. cbn [mbind option_bind]. fold k. rewrite E3. cbn [mbind option_bind].
  cbn [set_caches caches slabs words pgs pages] in *. rewrite insert_insert_eq in *.
  destruct (newc_add_total w1 g1 R c k I1 Hnew st0 ∅ Hnode Hframe) as (st & Est).
  unfold on_links. cbn [links]. rewrite Est. cbn [mbind option_bind].
  assert (geom_ok k) as Gk.
  { apply setup_geom; try done; [lia|by left|]. intros Hf. by apply (proj2 (Hoff Hf) ord nr rest). }
  destruct (newc_spec w1 g1 R c k I1 Hnew Gk) with (st0 := st0) (st := st) as (I2 & L2 & D2); try done.
  { intros Hf. destruct (Hoff Hf) as [(k' & Ek' & Eok' & Hk') _]. destruct (K1 _ _ Ek') as (k1 & Ek1 & G1).
    exists k1. rewrite (same_geom_off _ _ G1). change (slabp_cache k) with (slabp_cache kc1).
    pose proof Hgc as (_ & _ & _ & _ & ->). destruct G1 as (-> & _). done. }
  assert (forall d x, held (newc_world w1 c k st) (newc_ghost g1 c) d x <-> held w1 g1 d x) as Hh2.
  { intros d x. unfold held. by rewrite L2, D2. }
  exists (Some c), (newc_world w1 c k st), (newc_ghost g1 c). split_and!; [done|done| | | |done|].
  - split; [done|]. intros d Hd. cbn [newc_world caches] in Hd. rewrite Hh2. destruct (decide (d = c)) as [->|].
    + right. apply H1. by right.
    + rewrite lookup_insert_ne in Hd by done. by apply Hreg1.
  - intros d kd Ed. destruct (K1 d kd Ed) as (kd' & Ed' & Gd). exists kd'. cbn [newc_world caches]. rewrite lookup_insert_ne by congruence. done.
  - intros d x. by rewrite Hh2, H1.
  - intros c' [= <-]. exists k. cbn [newc_world caches]. rewrite lookup_insert_eq. split_and!; [done| |done]. cbn. lia.
Qed.

Lemma slabp_field_spec w g R c k v : slab_inv w g R -> caches w !! c = Some k -> OFF_SLAB k = false ->
  let w' := set_caches (<[c := set_slabp_cache v k]> (caches w)) w in
  slab_inv w' g R /\ (forall d x, live w' g d x <-> live w g d x) /\ (forall x, descriptor w' g x <-> descriptor w g x).
Proof.
  intros I Ec Eo w'. destruct (iv_pages _ _ _ I) as (F & HF & Hfr & HR & Hp).
  assert (weak_geom k (set_slabp_cache v k)) as Hw by (unfold weak_geom; rewrite Eo; done).
  assert (forall d kd', caches w' !! d = Some kd' -> geom_ok kd' /\ exists kd, caches w !! d = Some kd /\ weak_geom kd kd') as Hb.
  { intros d kd'. cbn [w' set_caches caches]. destruct (decide (d = c)) as [->|]; [rewrite lookup_insert_eq|rewrite lookup_insert_ne by done].
    - intros [= <-]. split; [by destruct (iv_geom _ _ _ I _ _ Ec)|]. by exists k.
    - intros E. split; [by eapply (iv_geom _ _ _ I)|]. exists kd'. split; [done|]. by apply same_weak. }
  assert (forall d kd, caches w !! d = Some kd -> exists kd', caches w' !! d = Some kd' /\ weak_geom kd kd') as Hk.
  { intros d kd. cbn [w' set_caches caches]. intros E. destruct (decide (d = c)) as [->|];
      [rewrite lookup_insert_eq|rewrite lookup_insert_ne by done; exists kd; split; [done|by apply same_weak]].
    rewrite Ec in E. injection E as <-. by exists (set_slabp_cache v k). }
  split_and!.
  - apply (env_inv w w' g R R F); try done. intros x d kd t p Hx Hb'. by destruct (Hp _ _ _ _ _ Hx Hb') as (? & ? & _).
  - intros d x. by apply (env_live w w' g).
  - intros x. by apply (env_descriptor w w' g).
Qed.

(** The sizes of the general caches leave less than a page unused. *)
Lemma malloc_sizes_ok : Forall (fun size => 1 <= size <= 2 ^ 21 /\
  forall ord nr rest, calculate_slab_order (ALIGN (round_word size) KMALLOC_MINALIGN) KMALLOC_MINALIGN (Z.lor CFLGS_OFF_SLAB KMALLOC_FLAGS)
    = Some (ord, nr, rest) -> rest <= PAGE_SIZE) malloc_sizes.
Proof.
  unfold malloc_sizes. repeat (apply Forall_cons; split; [split; [lia|]; intros ord nr rest E; vm_compute in E; injection E as <- <- <-; done|]).
  apply Forall_nil. done.
Qed.

Lemma create_sizes_spec fuel cc old l : colour_next old = 0 -> dtor old = None ->
  Forall (fun size => 1 <= size <= 2 ^ 21 /\
    forall ord nr rest, calculate_slab_order (ALIGN (round_word size) KMALLOC_MINALIGN) KMALLOC_MINALIGN (Z.lor CFLGS_OFF_SLAB KMALLOC_FLAGS)
      = Some (ord, nr, rest) -> rest <= PAGE_SIZE) l ->
  forall w g R kc, slab_inv w g R -> registered w g R cc -> caches w !! cc = Some kc ->
  (exists k', caches w !! slabp_cache kc = Some k' /\ OFF_SLAB k' = false /\ sizeof_slab_t <= objsize k') ->
  exists t w' g', create_sizes (Datatypes.S (Datatypes.S fuel)) cc old l w = Some (t, w') /\
    slab_inv w' g' R /\ registered w' g' R cc /\ kept w w' /\ table_ok t w' /\ t.*1 `prefix_of` l.
Proof.
  intros Hcn Hdt. induction l as [|size l IH]; intros Hl w g R kc I Hreg Ecc Hs.
  { exists [], w, g. split_and!; [done..|apply kept_refl|by intros ? ? ?%elem_of_nil|done]. }
  apply Forall_cons in Hl as [[Hsize Hrest] Hl]. cbn [create_sizes].
  destruct (create_spec fuel w g R cc kc old size (Z.lor CFLGS_OFF_SLAB KMALLOC_FLAGS) I Hreg Ecc Hsize Hcn Hdt ltac:(done))
    as (r & w1 & g1 & E1 & I1 & Hreg1 & K1 & _ & _ & Hr).
  rewrite E1. cbn [mbind option_bind]. destruct r as [c|].
  2:{ exists [], w1, g1. split_and!; [done..|by intros ? ? ?%elem_of_nil|apply prefix_nil]. }
  destruct (Hr c eq_refl) as (k & Ek & Hk & _). destruct (K1 _ _ Ecc) as (kc1 & Ecc1 & (_ & _ & _ & _ & Gs)).
  destruct (IH Hl w1 g1 R kc1 I1 Hreg1 Ecc1) as (t & w2 & g2 & E2 & I2 & Hreg2 & K2 & Ht & Hpre).
  { destruct Hs as (k' & Ek' & Eo' & Hk'). destruct (K1 _ _ Ek') as (k1' & Ek1' & G'). exists k1'. rewrite Gs, (same_geom_off _ _ G').
    destruct G' as (-> & _). done. }
  rewrite E2. cbn [mbind option_bind]. exists ((size, c) :: t), w2, g2. split_and!; [done..|by eapply kept_trans| |].
  - intros cs d [[= -> ->]|Hin]%elem_of_cons; [|by apply Ht]. destruct (K2 _ _ Ek) as (k2 & Ek2 & G2). exists k2. destruct G2 as (-> & _). done.
  - cbn. by apply prefix_cons.
Qed.

(** *** Initialisation *)

(** [cache_cache] as [kmem_cache_init] leaves it. *)
Definition boot_cache (k0 : kmem_cache) (sc : Z) : kmem_cache :=
  mk_kmem_cache 0 128 (cflags k0) 31 31 0 (gfpflags k0) 3 L1_CACHE_BYTES 0 sc 32 None None.

Lemma boot_geom k0 sc : cflags k0 = 0 -> geom_ok (boot_cache k0 sc).
Proof. intros E. assert (OFF_SLAB (boot_cache k0 sc) = false) as Eo by (unfold OFF_SLAB, boot_cache; cbn [cflags]; by rewrite E).
  constructor; unfold header; rewrite ?Eo; cbn; unfold MAX_ORDER, L1_CACHE_BYTES, PAGE_SIZE, sizeof_slab_t; try lia; done.
Qed.

Definition boot_ghost (cc : Z) : ghost := mk_ghost (fun h => if decide (h = Chain) then [CacheN cc] else []) (fun _ => []) (fun _ => 0).

(** With a single cache and no slab. *)
Lemma boot_inv w R F cc k : caches w = {[cc := k]} -> geom_ok k -> OFF_SLAB k = false -> pa_rep (pages w) F -> pa_frames (pages w) <= 2 ^ 18 ->
  (forall p, R p -> ~ F p) -> dlist (links w) Chain [CacheN cc] ->
  (forall y, owner y = Some cc -> dlist (links w) y []) -> slab_inv w (boot_ghost cc) R.
Proof.
  intros Ec G Eo HF Hfr HR Hch Hh.
  assert (forall h, is_head w h -> h = Chain \/ owner h = Some cc) as Hhead.
  { intros h [->|(d & Ho & Hd)]; [by left|right]. rewrite Ec in Hd. destruct Hd as [kd Hd]. by apply lookup_singleton_Some in Hd as [-> _]. }
  assert (forall h c' k' s, ~ listed w (boot_ghost cc) h c' k' s) as Hnl.
  { intros h c' k' s (Ho & _ & Hs). cbn [boot_ghost gL] in Hs. case_decide; [subst h; done|]. by apply elem_of_nil in Hs. }
  assert (forall d kd, caches w !! d = Some kd -> d = cc /\ kd = k) as Hlk.
  { intros d kd. rewrite Ec. by intros [-> ->]%lookup_singleton_Some. }
  constructor.
  - split.
    + intros h Hx. cbn [boot_ghost gL]. case_decide as Hc; [by subst h|]. destruct (Hhead h Hx); [done|]. by apply Hh.
    + intros h h' y Hx Hx'. cbn [boot_ghost gL]. case_decide as Hc; case_decide as Hc'; [congruence|..].
      * subst h. intros Hy Hy'%list_elem_of_singleton. subst y. destruct (Hhead h' Hx') as [?|Ho]; [done|].
        apply elem_of_cons in Hy as [->|Hy]; [done|]. apply list_elem_of_singleton in Hy as ->. done.
      * subst h'. intros Hy%list_elem_of_singleton Hy'. subst y. destruct (Hhead h Hx) as [?|Ho]; [done|].
        apply elem_of_cons in Hy' as [->|Hy']; [done|]. apply list_elem_of_singleton in Hy' as ->. done.
      * intros Hy%list_elem_of_singleton Hy'%list_elem_of_singleton. congruence.
  - intros h y _ Hy. cbn [boot_ghost gL] in Hy. case_decide as Hc; [|by apply elem_of_nil in Hy]. subst h.
    apply list_elem_of_singleton in Hy as ->. exists cc. split; [done|]. rewrite Ec, lookup_singleton_eq. by eexists.
  - by intros d kd [_ ->]%Hlk.
  - intros d kd [_ ->]%Hlk. by rewrite Eo.
  - intros h c' k' s Hl. by apply Hnl in Hl.
  - intros h c' k' s Hl. by apply Hnl in Hl.
  - intros h c' k' s h' c2 k2 s2 p Hl. by apply Hnl in Hl.
  - exists F. split_and!; [done..|]. intros h c' k' s p Hl. by apply Hnl in Hl.
Qed.

(** The lists [kmem_cache_init] sets up. *)
Lemma boot_lists (st : gmap snode (list_head snode)) cc : is_Some (st !! Chain) -> is_Some (st !! CacheN cc) ->
  is_Some (st !! LFull cc) -> is_Some (st !! LPart cc) -> is_Some (st !! LFree cc) ->
  exists st1 st2 st3 st4 st5 st6, INIT_LIST_HEAD Chain st = Some st1 /\ INIT_LIST_HEAD (CacheN cc) st1 = Some st2 /\
    list_add Chain (CacheN cc) st2 = Some st3 /\ INIT_LIST_HEAD (LFull cc) st3 = Some st4 /\ INIT_LIST_HEAD (LPart cc) st4 = Some st5 /\
    INIT_LIST_HEAD (LFree cc) st5 = Some st6 /\ dlist st6 Chain [CacheN cc] /\ forall y, owner y = Some cc -> dlist st6 y [].
Proof.
  intros H1 H2 H3 H4 H5.
  destruct (INIT_LIST_HEAD_spec st Chain H1) as (st1 & E1 & D1 & R1 & F1).
  destruct (INIT_LIST_HEAD_spec st1 (CacheN cc)) as (st2 & E2 & D2 & R2 & F2); [by rewrite F1|].
  destruct (list_add_spec st2 Chain [] (CacheN cc)) as (st3 & E3 & D3 & R3 & F3).
  { eapply dlist_frame; [|exact R1]. intros y ->%list_elem_of_singleton. by apply F2. }
  { by intros ?%list_elem_of_singleton. }
  { apply (dlist_in_dom st2 (CacheN cc) []); [done|by left]. }
  assert (forall y, y ≠ Chain -> y ≠ CacheN cc -> st3 !! y = st !! y) as F30.
  { intros y Ha Hb. rewrite F3 by (rewrite !not_elem_of_cons, elem_of_nil; tauto). by rewrite F2, F1. }
  destruct (INIT_LIST_HEAD_spec st3 (LFull cc)) as (st4 & E4 & D4 & R4 & F4); [by rewrite F30|].
  destruct (INIT_LIST_HEAD_spec st4 (LPart cc)) as (st5 & E5 & D5 & R5 & F5); [by rewrite F4, F30|].
  destruct (INIT_LIST_HEAD_spec st5 (LFree cc)) as (st6 & E6 & D6 & R6 & F6); [by rewrite F5, F4, F30|].
  exists st1, st2, st3, st4, st5, st6. split_and!; [done..| |].
  - eapply dlist_frame; [|exact R3]. intros y [->| ->%list_elem_of_singleton]%elem_of_cons; by rewrite F6, F5, F4.
  - intros y Hy. destruct y as [c'|c'|c'|s'| |c']; cbn [owner] in Hy; try done; injection Hy as ->; [| |done].
    + eapply dlist_frame; [|exact R4]. intros y ->%list_elem_of_singleton. by rewrite F6, F5.
    + eapply dlist_frame; [|exact R5]. intros y ->%list_elem_of_singleton. by rewrite F6.
Qed.

Lemma init_spec fuel w (R F : Z -> Prop) cc old k0 :
  caches w = ∅ -> is_Some (links w !! Chain) -> is_Some (links w !! CacheN cc) ->
  is_Some (links w !! LFull cc) -> is_Some (links w !! LPart cc) -> is_Some (links w !! LFree cc) ->
  pa_rep (pages w) F -> pa_frames (pages w) <= 2 ^ 18 -> (forall p, R p -> ~ F p) -> R (virt_to_page cc) -> (exists i, F i) ->
  cflags k0 = 0 -> colour_next old = 0 -> dtor old = None ->
  exists t w' g', init_slab (Datatypes.S (Datatypes.S fuel)) cc old k0 w = Some (t, w') /\
    slab_inv w' g' R /\ registered w' g' R cc /\ table_ok t w' /\ t.*1 `prefix_of` malloc_sizes.
Proof.
  intros Ec H1 H2 H3 H4 H5 HF Hfr HR HRc [i0 Hi0] Hk0 Hcn Hdt.
  destruct (boot_lists (links w) cc H1 H2 H3 H4 H5) as (st1 & st2 & st3 & st4 & st5 & st6 & E1 & E2 & E3 & E4 & E5 & E6 & Hch & Hown).
  unfold init_slab, kmem_cache_init, on_links. rewrite E1. cbn [mbind option_bind set_links links]. rewrite E2. cbn [mbind option_bind set_links links].
  rewrite E3. cbn [mbind option_bind]. unfold kmem_list3_init, on_links. cbn [set_caches set_links links]. rewrite E4. cbn [mbind option_bind set_links links].
  rewrite E5. cbn [mbind option_bind set_links links]. rewrite E6. cbn [mbind option_bind].
  rewrite (upd_cache_some cc _ _ k0) by (cbn [set_links set_caches caches]; apply lookup_insert_eq). cbn [mbind option_bind].
  change (order_search 11 0 (ALIGN sizeof_kmem_cache L1_CACHE_BYTES) L1_CACHE_BYTES 0 (0, 0)) with (Some (0, 31, 96)). cbn [mbind option_bind].
  unfold set_caches, set_links. cbn [caches slabs links words pgs pages]. rewrite Ec, !insert_insert_eq, insert_empty.
  set (w1 := mk_world _ {[cc := _]} _ _ _ _ _). change (mk_kmem_cache 0 _ (cflags k0) _ _ _ _ _ _ _ _ _ _ _) with (boot_cache k0 (slabp_cache k0)) in w1.
  pose proof (boot_geom k0 (slabp_cache k0) Hk0) as G.
  assert (forall sc, OFF_SLAB (boot_cache k0 sc) = false) as Eo by (intros sc; unfold OFF_SLAB, boot_cache; cbn [cflags]; by rewrite Hk0).
  pose proof (boot_inv w1 R F cc _ eq_refl G (Eo _) HF Hfr HR Hch Hown) as I1.
  assert (registered w1 (boot_ghost cc) R cc) as Hreg1.
  { split; [done|]. intros d [kd Hd]. left. cbn [w1 caches] in Hd. by apply lookup_singleton_Some in Hd as [-> _]. }
  destruct (create_spec fuel w1 (boot_ghost cc) R cc (boot_cache k0 (slabp_cache k0)) old sizeof_slab_t SLAB_HWCACHE_ALIGN I1 Hreg1)
    as (r & w2 & g2 & Ec2 & I2 & Hreg2 & K2 & H2h & Hcan & Hr); [by cbn [w1 caches]; rewrite lookup_singleton_eq|unfold sizeof_slab_t; lia|done..|].
  rewrite Ec2. cbn [mbind option_bind].
  destruct r as [c|]; [|exfalso; apply Hcan; [|done]; right; split; [apply Eo|]; exists F, i0; split; [done|]; split; [apply Z.divide_1_l|]; intros p Hp;
    unfold in_block in Hp; cbn [boot_cache gfporder] in Hp; by replace p with i0 by lia].
  destruct (Hr c eq_refl) as (k & Ek & Hk & Eok). destruct (K2 cc (boot_cache k0 (slabp_cache k0))) as (kc2 & Ecc2 & Gc2); [by cbn [w1 caches]; rewrite lookup_singleton_eq|].
  rewrite (upd_cache_some cc _ w2 kc2 Ecc2). cbn [mbind option_bind default from_option id].
  assert (OFF_SLAB kc2 = false) as Eoc2 by (by rewrite (same_geom_off _ _ Gc2)).
  destruct (slabp_field_spec w2 g2 R cc kc2 c I2 Ecc2 Eoc2) as (I3 & L3 & D3).
  set (w3 := set_caches (<[cc := set_slabp_cache c kc2]> (caches w2)) w2) in *.
  assert (c ≠ cc) as Hne.
  { intros ->. assert (held w2 g2 cc cc) as [Hlv _] by (apply H2h; by right). destruct Hlv as (y & kd & t & slt & Hy & Et & Ho & _).
    pose proof (go_objsize _ (iv_geom _ _ _ I2 _ _ (proj1 (proj2 Hy)))). pose proof (obj_page _ _ _ _ _ _ _ _ cc cc I2 Hy Et Ho ltac:(lia)) as Hb.
    destruct (iv_pages _ _ _ I2) as (F2 & _ & _ & _ & Hp). by destruct (Hp _ _ _ _ _ Hy Hb) as (_ & ? & _). }
  assert (registered w3 g2 R cc) as Hreg3.
  { destruct Hreg2 as [HRr Hreg2]. split; [done|]. intros d Hd. unfold held. rewrite L3, D3. apply Hreg2. cbn [w3 set_caches caches] in Hd.
    destruct (decide (d = cc)) as [->|]; [by exists kc2|]. by rewrite lookup_insert_ne in Hd. }
  destruct (create_sizes_spec fuel cc old malloc_sizes Hcn Hdt malloc_sizes_ok w3 g2 R (set_slabp_cache c kc2) I3 Hreg3)
    as (t & w4 & g4 & E & I4 & Hreg4 & _ & Ht & Hpre).
  - cbn [w3 set_caches caches]. apply lookup_insert_eq.
  - exists k. cbn [w3 set_caches caches set_slabp_cache slabp_cache]. rewrite lookup_insert_ne by done. done.
  - exists t, w4, g4. done.
Qed.
End Create.

(** ** Main theorems *)

(** [cache_estimate] packs optimally: for internal descriptors it returns
    the quotient and the remainder of the slab's bytes after the aligned
    descriptor by the object size, for external ones those of all its bytes;
    the shortcut of the code (divide the bytes after the unaligned descriptor,
    then take one off if that does not fit) is exact. *)
Theorem cache_estimate_correct ord objsize align flags :
  0 <= ord <= 10 -> 4 <= objsize < 2 ^ 32 -> (align = 8 \/ align = 32) ->
  cache_estimate ord objsize align flags =
    Some (fit_objects (PAGE_SIZE * 2 ^ ord - (if has_flag flags CFLGS_OFF_SLAB then 0 else slab_mgmt_size align)) objsize).
Proof.
  intros Ho Hs Ha. destruct (has_flag flags CFLGS_OFF_SLAB) eqn:Hf; [|by apply estimate_internal].
  rewrite Z.sub_0_r. apply estimate_external; [done|lia|done].
Qed.

Lemma cache_estimate_correct_witness : cache_estimate 0 104 8 0 = Some (39, 8).
Proof. rewrite (cache_estimate_correct 0 104 8 0); [reflexivity|lia|lia|by left]. Defined.

Section Theorems.
Context {S : Type} `{!PageAllocator S}.
Implicit Types w : world S.

(** C1: [kmem_cache_alloc] from any cache of a well-formed allocator, with
    internal or external slab descriptors, returns null or an object that no
    client holds and that overlaps no object a client holds; the held objects
    are the previous ones and the new one, in every cache; it does not fail
    when the cache has a free object or the page allocator has a run of frames
    for a slab with an internal descriptor; the allocator stays well formed.
    Two levels of recursion (a descriptor for the slab) are enough. *)
Theorem kmem_cache_alloc_correct fuel w g R c k flags :
  slab_inv w g R -> caches w !! c = Some k ->
  exists r w' g', kmem_cache_alloc (2 + fuel) c flags w = Some (r, w') /\ slab_inv w' g' R /\
    (forall d x, held w' g' d x <-> held w g d x \/ (r = Some x /\ d = c)) /\
    (has_free g c \/ can_grow w k -> r ≠ None) /\
    forall o, r = Some o -> PAGE_OFFSET <= o /\ forall d x kd, held w g d x -> caches w !! d = Some kd ->
      forall a, ~ (o <= a < o + objsize k /\ x <= a < x + objsize kd).
Proof.
  intros I Ec. destruct (alloc_spec fuel w g R c k flags I Ec) as (r & w' & g' & E & P & Hcan). pose proof (ap_inv _ _ _ _ _ _ _ P) as I'.
  exists r, w', g'. split_and!; [done..|apply (ap_held _ _ _ _ _ _ _ P)|done|]. intros o ->.
  destruct (ap_new _ _ _ _ _ _ _ P o eq_refl) as (Hlo & _ & Hno). split.
  - destruct Hlo as (h & ko & s & sl & Hl & Es & Ho & _). destruct (iv_slab _ _ _ I' _ _ _ _ Hl) as (_ & sl' & Es' & Hs). rewrite Es in Es'. injection Es' as <-.
    destruct (obj_range _ _ _ _ _ _ _ (iv_geom _ _ _ I' _ _ (proj1 (proj2 Hl))) Hs Ho). destruct (block_nonneg _ _ _ _ _ _ _ I' Hl). unfold PAGE_SIZE in *. lia.
  - intros d x kd [Hlx _] Ed a. destruct (ap_kept _ _ _ _ _ _ _ P _ _ Ec) as (k' & Ec' & (<- & _)).
    destruct (ap_kept _ _ _ _ _ _ _ P _ _ Ed) as (kd' & Ed' & (<- & _)).
    apply (live_disjoint w' g' R c o k' d x kd' I' Ec' Ed' Hlo); [by apply (ap_mono _ _ _ _ _ _ _ P)|]. intros ->. by apply (Hno d).
Qed.

(** C2: [kmem_cache_free] of an object a client holds always completes, takes
    exactly that object away from the held ones, and keeps the allocator well
    formed, also when it returns the emptied slab to the page allocator and the
    slab's external descriptor to its cache. *)
Theorem kmem_cache_free_correct fuel w g R c k o :
  slab_inv w g R -> caches w !! c = Some k -> held w g c o ->
  exists w' g', kmem_cache_free (2 + fuel) c o w = Some w' /\ slab_inv w' g' R /\
    forall d x, held w' g' d x <-> held w g d x /\ ~ (d = c /\ x = o).
Proof. intros I Ec Hh. destruct (free_spec fuel w g R c k o I Ec Hh) as (w' & g' & E & []). by exists w', g'. Qed.


(** [init_slab] sets up a well-formed allocator: with one free page frame
    the caches of cache descriptors and of slab descriptors exist, and the table
    of general caches is a prefix of [malloc_sizes] (shorter only when frames
    run out), each size served by objects at least that large.  [old], the
    previous contents of the memory of a cache descriptor, has to be zero in
    [colour_next] and [dtor], which [kmem_cache_create] does not write. *)
Theorem init_slab_correct fuel w (R F : Z -> Prop) cc old k0 :
  caches w = ∅ -> (forall y, y = Chain \/ y = CacheN cc \/ owner y = Some cc -> is_Some (links w !! y)) ->
  pa_rep (pages w) F -> pa_frames (pages w) <= 2 ^ 18 -> (forall p, R p -> ~ F p) -> R (virt_to_page cc) -> (exists i, F i) ->
  cflags k0 = 0 -> colour_next old = 0 -> dtor old = None ->
  exists t w' g', init_slab (2 + fuel) cc old k0 w = Some (t, w') /\ slab_inv w' g' R /\ registered w' g' R cc /\
    table_ok t w' /\ t.*1 `prefix_of` malloc_sizes.
Proof. intros Ec Hl. intros. apply (init_spec fuel w R F); try done; apply Hl; auto. Qed.
End Theorems.
