(* ===== verification/Memory.v ===== *)
(** * The slab allocator on the buddy allocator

    The page allocator of the running kernel is the zone of Buddy; here the
    theorems of SlabOps are instantiated with it on a small zone. *)

From S2P Require Import SlabOps Buddy.

(** [cache_cache] lies in the first, reserved, page frame. *)
Definition boot_addr : Z := 0xC0000100.
Definition zero_cache : Slab.kmem_cache := Slab.mk_kmem_cache 0 0 0 0 0 0 0 0 0 0 0 0 None None.

Definition boot_links : gmap Slab.snode (list_head Slab.snode) :=
  list_to_map ((fun y => (y, mk_list_head None None)) <$> [Chain; CacheN boot_addr; LFull boot_addr; LPart boot_addr; LFree boot_addr]).

Definition boot_world (z : zone_t) : Slab.world zone_t := Slab.mk_world _ ∅ ∅ boot_links ∅ ∅ z.

Definition reserved_frames (p : Z) : Prop := p = 0 \/ p = 5.

Lemma demo_zone_rep : exists z, buddy_rep z (fun p => 0 <= p < 8 /\ p ≠ 0 /\ p ≠ 5) /\ present_pages z = 8.
Proof. destruct demo_live as (z & L & _ & I & Hp & HL). exists z. split; [|done]. by exists L. Qed.

Lemma init_slab_correct_witness :
  exists z t w' g', init_slab 2 boot_addr zero_cache zero_cache (boot_world z) = Some (t, w') /\
    slab_inv w' g' reserved_frames /\ t.*1 `prefix_of` malloc_sizes.
Proof.
  destruct demo_zone_rep as (z & HF & Hz).
  destruct (init_slab_correct 0 (boot_world z) reserved_frames (fun p => 0 <= p < 8 /\ p ≠ 0 /\ p ≠ 5) boot_addr zero_cache zero_cache)
    as (t & w' & g' & E & I & _ & _ & Ht).
  - reflexivity.
  - intros y Hy. assert (y ∈ [Chain; CacheN boot_addr; LFull boot_addr; LPart boot_addr; LFree boot_addr]) as Hin.
    { destruct Hy as [->|[->|Ho]]; [by left|right; by left|]. destruct y; cbn [owner] in Ho; try discriminate; injection Ho as ->; set_solver. }
    set_unfold. destruct Hin as [->|[->|[->|[->|[->|[]]]]]]; vm_compute; by eexists.
  - exact HF.
  - change (present_pages z <= 2 ^ 18). lia.
  - unfold reserved_frames. lia.
  - by left.
  - exists 1. lia.
  - reflexivity.
  - reflexivity.
  - reflexivity.
  - exists z, t, w', g'. split_and!; assumption.
Defined.

(** The allocator right after [cache_cache] has been set up. *)
Definition self_ring_node (y : Slab.snode) : list_head Slab.snode := mk_list_head (Some y) (Some y).

Definition ready_links : gmap Slab.snode (list_head Slab.snode) :=
  list_to_map [(Chain, mk_list_head (Some (CacheN boot_addr)) (Some (CacheN boot_addr)));
    (CacheN boot_addr, mk_list_head (Some Chain) (Some Chain));
    (LFull boot_addr, self_ring_node (LFull boot_addr)); (LPart boot_addr, self_ring_node (LPart boot_addr));
    (LFree boot_addr, self_ring_node (LFree boot_addr))].

Definition ready_world (z : zone_t) : Slab.world zone_t :=
  Slab.mk_world _ {[boot_addr := boot_cache zero_cache 0]} ∅ ready_links ∅ ∅ z.

Lemma ready_inv z : buddy_rep z (fun p => 0 <= p < 8 /\ p ≠ 0 /\ p ≠ 5) -> present_pages z = 8 ->
  slab_inv (ready_world z) (boot_ghost boot_addr) reserved_frames.
Proof.
  intros HF Hz. apply (boot_inv (ready_world z) reserved_frames (fun p => 0 <= p < 8 /\ p ≠ 0 /\ p ≠ 5) boot_addr (boot_cache zero_cache 0)).
  - done.
  - by apply boot_geom.
  - done.
  - done.
  - change (present_pages z <= 2 ^ 18). lia.
  - unfold reserved_frames. lia.
  - split; [apply (bool_decide_unpack _); vm_compute; done|]. by vm_compute.
  - intros y Ho. assert (ready_links !! y = Some (self_ring_node y)) as E.
    { destruct y; cbn [owner] in Ho; try done; injection Ho as ->; by vm_compute. }
    split; [apply NoDup_singleton|]. unfold lseg, next_of, prev_of. cbn [ready_world Slab.links]. by rewrite E.
Qed.

Lemma ready_cache z : Slab.caches (ready_world z) !! boot_addr = Some (boot_cache zero_cache 0).
Proof. apply lookup_singleton_eq. Qed.

(** On an empty allocator with free frames an object is available. *)
Lemma kmem_cache_alloc_correct_witness :
  exists z o w' g', Slab.kmem_cache_alloc 2 boot_addr 0 (ready_world z) = Some (Some o, w') /\
    slab_inv w' g' reserved_frames /\ held w' g' boot_addr o.
Proof.
  destruct demo_zone_rep as (z & HF & Hz).
  destruct (kmem_cache_alloc_correct 0 (ready_world z) (boot_ghost boot_addr) reserved_frames boot_addr (boot_cache zero_cache 0) 0
    (ready_inv z HF Hz) (ready_cache z)) as (r & w' & g' & E & I & Hh & Hcan & _).
  destruct r as [o|].
  - exists z, o, w', g'. split_and!; [assumption|assumption|]. apply Hh. by right.
  - exfalso. apply Hcan; [|reflexivity]. right. split; [reflexivity|]. exists (fun p => 0 <= p < 8 /\ p ≠ 0 /\ p ≠ 5), 1.
    split; [exact HF|]. split; [apply Z.divide_1_l|]. intros p Hp. unfold in_block in Hp. cbn [boot_cache Slab.gfporder] in Hp. lia.
Defined.

Lemma ready_object : exists (z : zone_t) (w : Slab.world zone_t) g o, slab_inv w g reserved_frames /\ held w g boot_addr o /\
  exists k : Slab.kmem_cache, Slab.caches w !! boot_addr = Some k.
Proof.
  destruct demo_zone_rep as (z & HF & Hz).
  destruct (alloc_spec 0 (ready_world z) (boot_ghost boot_addr) reserved_frames boot_addr (boot_cache zero_cache 0) 0
    (ready_inv z HF Hz) (ready_cache z)) as (r & w' & g' & E & P & Hcan).
  destruct r as [o|].
  - exists z, w', g', o. destruct (ap_new _ _ _ _ _ _ _ P o eq_refl) as (? & ? & _). split_and!; [apply (ap_inv _ _ _ _ _ _ _ P)|done|].
    destruct (ap_kept _ _ _ _ _ _ _ P _ _ (ready_cache z)) as (k & ? & _). by exists k.
  - exfalso. apply Hcan; [|done]. right. split; [done|]. exists (fun p => 0 <= p < 8 /\ p ≠ 0 /\ p ≠ 5), 1.
    split; [exact HF|]. split; [apply Z.divide_1_l|]. intros p Hp. unfold in_block in Hp. cbn [boot_cache Slab.gfporder] in Hp. lia.
Qed.

Lemma kmem_cache_free_correct_witness :
  exists (w w' : Slab.world zone_t) g g' o, held w g boot_addr o /\ Slab.kmem_cache_free 2 boot_addr o w = Some w' /\
    slab_inv w' g' reserved_frames /\ ~ held w' g' boot_addr o.
Proof.
  destruct ready_object as (z & w & g & o & I & Hh & k & Ek).
  destruct (kmem_cache_free_correct 0 w g reserved_frames boot_addr k o I Ek Hh) as (w' & g' & E & I' & H').
  exists w, w', g, g', o. split_and!; [assumption..|]. rewrite H'. intros [_ Hn]. by apply Hn.
Defined.

