(* ===== verification/Boot.v ===== *)
(** * Memory at boot, second half (memory-management/mm.c, the memory part of
    kernel_main)

    [init_mem] as a whole: [mem_map], zone, paging, buddy and slab allocator.
    The zone's [zone_mem_map] is the array [mem_map] itself: while only flags
    change the array is BootMap's list of flags, and [attach] is the zone's view
    of it.  The theorem follows the machine from the boot loader's tables to
    the running allocators. *)

From S2P Require Import BootMap SlabOps Lists Buddy Memory.

Definition ZONE_WATERMARK : Z := 10.

(** A descriptor as [create_mem_map] leaves it: zero but for number and flags. *)
Definition mem_page (i v : Z) : page := mk_page false i v 0 0 0 None.

Definition mem_pages (mm : list Z) : gmap Z page := map_imap (fun i v => Some (mem_page i v)) (map_seqZ 0 mm).

Definition null_links (ns : list node) : gmap node (list_head node) :=
  list_to_map ((fun n => (n, mk_list_head None None)) <$> ns).

(** The zone, a static variable. *)
Definition zone0 : zone_t := mk_zone 0 0 0 0 0 ∅ (replicate 11 0) (null_links (FreeList <$> seqZ 0 11)).

Fixpoint init_free_lists (n : nat) (iCnt : Z) (z : zone_t) : option zone_t :=
  match n with
  | O => Some z
  | S n => z ← on_links z (INIT_LIST_HEAD (FreeList iCnt)); init_free_lists n (iCnt + 1) z
  end.

(** [free_pages++] for every page; with the map come its [lru] fields. *)
Definition create_zone (l : phy_layout) (mm : list Z) (z : zone_t) : option zone_t :=
  let n := totalram_pages l in
  let z := mk_zone (Nat.iter (Z.to_nat n) (fun c => u32 (c + 1)) (free_pages_cnt z)) n ZONE_WATERMARK ZONE_WATERMARK 0
    (mem_pages mm) (nr_free z) (null_links (Lru <$> seqZ 0 n) ∪ links z) in
  init_free_lists (Z.to_nat BUDDY_GROUPS) 0 z.

Definition attach (mm : list Z) (z : zone_t) : zone_t := set_mem_map (mem_pages mm) z.

(** A page is its index; [page->zone] is followed. *)
Definition page_to_phys (i : Z) (z : zone_t) : option Z :=
  p ← zone_mem_map z !! i; if zone_set p then Some (u32 (i * PAGE_SIZE)) else None.

Record memory := mk_memory {
  mem_map_addr : Z;
  boot_heap : heap;
  page_tables : paging;
  general_caches : Slab.malloc_table;
  allocators : Slab.world zone_t
}.

Section Boot.
(** [stale]: what page frames hold; [cc], [old], [k0], [w0]: the address of
    cache_cache, what a cache descriptor's memory and cache_cache hold, and the
    slab allocator's static variables. *)
Context (stale : Z -> list Z) (fuel : nat) (cc : Z) (old k0 : Slab.kmem_cache) (w0 : Slab.world zone_t).

(** The inner [None] is the return when there is no room for [mem_map]. *)
Definition init_mem (l : phy_layout) (blocks : list memory_blocks_t) (h : heap) : option (option memory) :=
  '(r, h) ← create_mem_map l blocks h;
  match r with
  | None => Some None
  | Some (mem_map, mm) =>
      '(mem_map, mm, h) ← copy_mem_map l mem_map mm h;
      z ← create_zone l mm zone0;
      let pgdir_entries := count_pgdir_entries (present_pages z) in
      s ← start_paging stale l pgdir_entries (mk_paging mm (replicate 1024 0) ∅);
      z ← init_zone (attach (pg_map s) z);
      '(t, w) ← Slab.init_slab fuel cc old k0 (Slab.set_pages z w0);
      Some (Some (mk_memory mem_map h s t w))
  end.

(** The memory part of [kernel_main]; the inner [None] is the halt after a
    negative status, or [init_mem]'s return. *)
Definition boot_memory (KERNEL_END : Z) (mbi : multiboot_info) (m : gmap Z Z) : option (option memory) :=
  '(memory_status, blocks, l, h) ← initialize_memeory_manager KERNEL_END mbi (replicate 10 (mk_mblock 0 0)) m;
  if memory_status <? 0 then Some None
  else l ← l; h ← h; init_mem l blocks h.
End Boot.

(** ** The zone *)

Lemma mem_pages_lookup mm i : mem_pages mm !! i = mem_page i <$> zget mm i.
Proof.
  unfold mem_pages. rewrite map_lookup_imap. unfold zget. rewrite lookup_map_seqZ.
  destruct (Z.ltb_spec i 0); [by rewrite option_guard_False by lia|].
  rewrite option_guard_True, Z.sub_0_r by lia. by destruct (mm !! Z.to_nat i).
Qed.

Lemma null_links_lookup ns y : y ∈ ns -> null_links ns !! y = Some (mk_list_head None None).
Proof.
  unfold null_links. induction ns as [|n ns IH]; [by intros ?%not_elem_of_nil|]. cbn [fmap list_fmap list_to_map foldr].
  intros Hy. destruct (decide (n = y)) as [->|]; [by rewrite lookup_insert_eq|]. rewrite lookup_insert_ne by done.
  apply IH. by apply elem_of_cons in Hy as [?|?].
Qed.

Lemma init_free_lists_spec n : forall i z,
  (forall k, i <= k < i + Z.of_nat n -> is_Some (links z !! FreeList k)) ->
  exists st, init_free_lists n i z = Some (set_links st z) /\ dom st = dom (links z) /\
    (forall k, i <= k < i + Z.of_nat n -> dlist st (FreeList k) []) /\
    forall y, (forall k, i <= k < i + Z.of_nat n -> y ≠ FreeList k) -> st !! y = links z !! y.
Proof.
  induction n as [|n IH]; intros i z Hz; cbn [init_free_lists].
  { exists (links z). split_and!; [by destruct z|done|lia|done]. }
  destruct (INIT_LIST_HEAD_spec (links z) (FreeList i)) as (st1 & E1 & D1 & R1 & F1); [apply Hz; lia|].
  unfold on_links. rewrite E1. cbn [mbind option_bind].
  destruct (IH (i + 1) (set_links st1 z)) as (st & -> & D & Rr & F).
  { intros k Hk. cbn [set_links links]. rewrite F1 by (intros [= ->]; lia). apply Hz. lia. }
  exists st. split_and!; [done|by rewrite D| |].
  - intros k Hk. destruct (decide (k = i)) as [->|]; [|apply Rr; lia].
    eapply dlist_frame; [|exact R1]. intros y ->%list_elem_of_singleton. apply F. intros j Hj [= ->]. lia.
  - intros y Hy. rewrite F by (intros k Hk; apply Hy; lia). apply F1. apply Hy. lia.
Qed.

Lemma create_zone_spec l mm :
  0 <= totalram_pages l < 2 ^ 31 ->
  exists z, create_zone l mm zone0 = Some z /\ present_pages z = totalram_pages l /\
    forall mm' f', flags_are mm' (totalram_pages l) f' -> (forall i, 0 <= i < totalram_pages l -> Z.testbit (f' i) 4 = false) ->
      zone_created (attach mm' z).
Proof.
  intros HT. unfold create_zone. set (z0 := mk_zone _ _ _ _ _ _ _ _).
  assert (forall k, 0 <= k < 11 -> is_Some (links z0 !! FreeList k)) as Hfl.
  { intros k Hk. cbn [z0 links zone0]. apply lookup_union_is_Some. right. exists (mk_list_head None None). apply null_links_lookup.
    apply list_elem_of_fmap. exists k. split; [done|]. apply elem_of_seqZ. lia. }
  destruct (init_free_lists_spec (Z.to_nat BUDDY_GROUPS) 0 z0 Hfl) as (st & -> & D & Rr & F).
  eexists. split; [reflexivity|]. split; [done|]. intros mm' f' Hf' H4. pose proof Hf' as [Hl Hg]. split; cbn [attach set_mem_map set_links links present_pages zone_mem_map nr_free z0].
  - exact Rr.
  - intros k Hk. change (nr_free zone0) with (replicate 11 0). unfold zget, BUDDY_GROUPS in *. destruct (Z.ltb_spec k 0); [lia|]. apply lookup_replicate_2. lia.
  - intros i Hi. rewrite mem_pages_lookup, Hg by done. split; [by eexists|]. rewrite F by done. cbn [z0 links]. apply lookup_union_is_Some.
    left. exists (mk_list_head None None). apply null_links_lookup. apply list_elem_of_fmap. exists i. split; [done|]. apply elem_of_seqZ. lia.
  - intros i p. rewrite mem_pages_lookup. intros Hp. apply fmap_Some in Hp as (v & Hv & ->). rewrite PagePrivate_testbit.
    pose proof (zget_Some_lt _ _ _ Hv). rewrite Hg in Hv by lia. injection Hv as <-. apply H4. lia.
  - exact HT.
Qed.

Lemma attach_avail mm T f z (F : Z -> Prop) p :
  flags_are mm T f -> 0 <= p < T -> (f p = 0 /\ F p) \/ ((f p = 64 \/ f p = 192) /\ ~ F p) ->
  avail (attach mm z) p <-> F p.
Proof.
  intros [_ Hg] Hp Hf. unfold avail, page_unavailable. cbn [attach set_mem_map zone_mem_map].
  rewrite mem_pages_lookup, Hg by done. cbn [fmap option_fmap option_map mbind option_bind mem_page flags].
  destruct Hf as [[-> HF]|[[-> | ->] HF]]; (split; [|done]); done.
Qed.

(** ** The self test of the buddy allocator *)

Lemma buddy_rep_iff z (F G : Z -> Prop) : buddy_rep z F -> (forall p, F p <-> G p) -> buddy_rep z G.
Proof. intros (L & I & HL) H. exists L. split; [done|]. intros p. by rewrite HL. Qed.

Lemma test_buddy_spec z F j :
  buddy_rep z F -> (exists i, free_run F 9 i) -> free_run F 4 j -> (forall i, free_run F 9 i -> ~ in_block 9 i j) ->
  exists z', test_buddy z = Some z' /\ buddy_rep z' F /\ present_pages z' = present_pages z.
Proof.
  intros HF H9 [Hj4 Hj] Hdis. change (pa_rep z F) in HF. unfold test_buddy, in_block in *. change (2 ^ 9) with 512 in *. change (2 ^ 4) with 16 in *.
  destruct (pa_alloc_succeeds z F 9 HF ltac:(unfold MAX_ORDER; lia) H9) as (i & z1 & E1 & Hi & P1 & R1).
  pose proof Hi as [Hi9 Hif]. unfold in_block in *. change (2 ^ 9) with 512 in *. change (allocate_block z 9 = Some (Some i, z1)) in E1.
  rewrite E1. cbn [mbind option_bind]. specialize (Hdis i Hi).
  assert (free_run (fun p => F p /\ ~ (i <= p < i + 512)) 4 j) as H4.
  { split; [done|]. unfold in_block. change (2 ^ 4) with 16. intros p Hp. split; [by apply Hj|]. intros Hin.
    destruct Hj4 as [a ->], Hi9 as [b ->]. lia. }
  destruct (pa_alloc_succeeds z1 _ 4 R1 ltac:(unfold MAX_ORDER; lia) (ex_intro _ j H4)) as (k & z2 & E2 & Hk & P2 & R2).
  change (allocate_block z1 4 = Some (Some k, z2)) in E2. rewrite E2. cbn [mbind option_bind].
  destruct Hk as [Hk4 Hkf]. unfold in_block in *. change (2 ^ 4) with 16 in *.
  assert (forall p, i <= p < i + 512 -> 0 <= p < pa_frames z) as Hib by (intros p Hp; apply (pa_rep_bound z F p HF), Hif; lia).
  assert (forall p, k <= p < k + 16 -> 0 <= p < pa_frames z) as Hkb by (intros p Hp; apply (pa_rep_bound z F p HF), Hkf; lia).
  pose proof (Hib i ltac:(lia)). pose proof (Hib (i + 511) ltac:(lia)). pose proof (Hkb k ltac:(lia)). pose proof (Hkb (k + 15) ltac:(lia)).
  destruct (pa_free_spec z2 _ 4 k R2) as (z3 & E3 & P3 & R3); [unfold MAX_ORDER; lia|done|lia|change (2 ^ 4) with 16; lia|unfold in_block; tauto|].
  change (free_block k z2 4 = Some z3) in E3. rewrite E3. cbn [mbind option_bind]. unfold in_block in *. change (2 ^ 4) with 16 in *.
  destruct (pa_free_spec z3 _ 9 i R3) as (z4 & E4 & P4 & R4); [unfold MAX_ORDER; lia|done|lia|change (2 ^ 9) with 512; lia| |].
  { unfold in_block. change (2 ^ 9) with 512. intros p Hp [[[_ Hn] _]|Hpk]; [done|]. by apply (Hkf p Hpk). }
  change (free_block i z3 9 = Some z4) in E4. rewrite E4. exists z4. split; [done|]. split; [|change (pa_frames z4 = pa_frames z); congruence].
  change (buddy_rep z4 F). apply (buddy_rep_iff _ _ _ R4). intros p. unfold in_block. change (2 ^ 9) with 512. split.
  - intros [[[[? _] _]|Hpk]|Hpi]; [done|by apply (Hkf p Hpk)|by apply Hif].
  - intros Hp. destruct (decide (i <= p < i + 512)); [by right|left]. destruct (decide (k <= p < k + 16)); [by right|by left].
Qed.

(** ** The whole start-up *)

Section Started.
Context (KERNEL_END : Z) (mbi : multiboot_info) (P : pc KERNEL_END mbi).
Notation T := (ram_frames mbi).
Notation free_frames := (free_at_boot KERNEL_END mbi).

Lemma boot_zone_spec z s :
  (forall mm' f', flags_are mm' T f' -> (forall i, 0 <= i < T -> Z.testbit (f' i) 4 = false) -> zone_created (attach mm' z)) ->
  present_pages z = T -> flags_are (pg_map s) T (paged KERNEL_END mbi) ->
  exists z', init_zone (attach (pg_map s) z) = Some z' /\ buddy_rep z' free_frames /\ present_pages z' = T.
Proof.
  intros Hz HT Hs. pose proof (pc_bounds KERNEL_END mbi P) as (Ht & Hl & Hk & Hm & Htf & _). pose proof (pc_room _ _ P) as Hroom.
  pose proof (paged_free KERNEL_END mbi P) as Hpf.
  assert (zone_created (attach (pg_map s) z)) as C.
  { apply (Hz _ _ Hs). intros i Hi. destruct (Hpf i Hi) as [[-> _]|[[-> | ->] _]]; done. }
  destruct (init_zone_lists_spec _ C) as (z1 & L & E & I & Hp & _ & HL). cbn [attach set_mem_map present_pages] in Hp, HL. rewrite HT in Hp, HL.
  assert (buddy_rep z1 free_frames) as HF.
  { exists L. split; [done|]. intros p. rewrite HL. split.
    - intros [Hr Ha]. by apply (attach_avail _ _ _ z free_frames p Hs Hr (Hpf p Hr)).
    - intros Hf. assert (0 <= p < T) as Hr by (unfold free_at_boot in Hf; lia). split; [done|].
      by apply (attach_avail _ _ _ z free_frames p Hs Hr (Hpf p Hr)). }
  unfold init_zone. rewrite E. cbn [mbind option_bind].
  destruct (test_buddy_spec z1 free_frames 32 HF) as (z' & E' & HF' & Hp').
  - set (b := (kernel_frames KERNEL_END + map_frames mbi + 511) `div` 512).
    pose proof (Z.div_mod (kernel_frames KERNEL_END + map_frames mbi + 511) 512). pose proof (Z.mod_pos_bound (kernel_frames KERNEL_END + map_frames mbi + 511) 512).
    exists (b * 512). split; [by exists b|]. intros p. unfold in_block, free_at_boot. change (2 ^ 9) with 512. unfold b in *. lia.
  - split; [by exists 2|]. intros p. unfold in_block, free_at_boot. change (2 ^ 4) with 16. lia.
  - intros i [[b ->] Hb] Hin. unfold in_block in *. change (2 ^ 9) with 512 in *. assert (b = 0) as -> by lia.
    specialize (Hb 255 ltac:(lia)). unfold free_at_boot in Hb. lia.
  - exists z'. split_and!; [done..|congruence].
Qed.

Lemma boot_memory_spec stale fuel cc old k0 (w0 : Slab.world zone_t) m :
  (forall a, length (stale a) = 1024%nat) -> 256 <= Slab.virt_to_page cc < kernel_frames KERNEL_END ->
  Slab.caches w0 = ∅ -> (forall y, y = Slab.Chain \/ y = Slab.CacheN cc \/ owner y = Some cc -> is_Some (Slab.links w0 !! y)) ->
  Slab.cflags k0 = 0 -> Slab.colour_next old = 0 -> Slab.dtor old = None ->
  exists b g, boot_memory stale (2 + fuel) cc old k0 w0 KERNEL_END mbi m = Some (Some b) /\
    mem_map_addr b = 4096 * kernel_frames KERNEL_END /\
    paging_wf (table_frames mbi) T (page_tables b) /\ (forall p, frame_free (pg_map (page_tables b)) p <-> free_frames p) /\
    slab_inv (allocators b) g (fun p => ~ free_frames p) /\ table_ok (general_caches b) (allocators b).
Proof.
  intros Hst Hcc Hc Hl Hk0 Hcn Hdt. pose proof (pc_bounds KERNEL_END mbi P) as (Ht & Hlow & Hk & Hm & Htf & _). pose proof (pc_room _ _ P) as Hroom.
  destruct (pc_layout_frames _ _ P) as [ET _]. unfold boot_memory.
  destruct (manager_spec _ _ P m) as (len & ->). cbn [mbind option_bind]. change (0 <? 0) with false. cbv iota. cbn [mbind option_bind].
  unfold init_mem. destruct (create_mem_map_spec _ _ P len) as (mm & h & -> & Hmm & h' & Hh'). cbn [mbind option_bind].
  destruct (copy_mem_map_spec _ _ P mm h h' Hmm Hh') as (mm2 & -> & Hmm2). cbn [mbind option_bind].
  destruct (create_zone_spec (pc_layout mbi) mm2) as (z & -> & Hz & Hcr); [rewrite ET; lia|]. cbn [mbind option_bind]. rewrite ET in Hz, Hcr. rewrite Hz.
  destruct (start_paging_spec _ _ P stale mm2 Hst Hmm2) as (s & -> & W & Hs). cbn [mbind option_bind].
  destruct (boot_zone_spec z s Hcr Hz Hs) as (z' & -> & HF & HT'). cbn [mbind option_bind].
  change (2 + fuel)%nat with (S (S fuel)).
  destruct (init_spec fuel (Slab.set_pages z' w0) (fun p => ~ free_frames p) free_frames cc old k0) as (t & w & g & -> & I & _ & Htab & _);
    cbn [Slab.set_pages Slab.caches Slab.links Slab.pages]; try done; try (apply Hl; auto).
  - change (present_pages z' <= 2 ^ 18). lia.
  - unfold free_at_boot. lia.
  - exists (table_frames mbi). unfold free_at_boot. lia.
  - cbn [mbind option_bind]. eexists _, g. split; [reflexivity|]. split_and!; try done.
    intros p. cbn [page_tables]. rewrite (flags_free _ _ _ _ Hs). split.
    + intros [Hp Hb]. destruct (paged_free _ _ P p Hp) as [[_ ?]|[[Ep|Ep] _]]; [done|by rewrite Ep in Hb..].
    + intros Hp. assert (0 <= p < T) as Hr by (unfold free_at_boot in Hp; lia). split; [done|].
      destruct (paged_free _ _ P p Hr) as [[-> _]|[_ ?]]; done.
Qed.
End Started.

(** ** Correctness *)

(** C11: on a PC (usable memory below 640 KB and from 1 MB on, at most 70 MB, room
    behind the kernel) the start-up of the memory manager runs through: the boot
    heap's self test, [mem_map] and its move behind the kernel, paging, the
    zone, the buddy allocator with its self test, the slab allocator.  Then
    every mapped address, low and from [PAGE_OFFSET] on, translates to its page
    frame; no frame of a page table, of the kernel, of [mem_map] or of the hole
    below 1 MB is free or part of a slab; and the slab allocator's invariant
    holds over the buddy allocator. *)
Theorem boot_memory_correct KERNEL_END mbi stale fuel cc old k0 (w0 : Slab.world zone_t) m :
  pc KERNEL_END mbi -> (forall a, length (stale a) = 1024%nat) -> 256 <= Slab.virt_to_page cc < kernel_frames KERNEL_END ->
  Slab.caches w0 = ∅ -> (forall y, y = Slab.Chain \/ y = Slab.CacheN cc \/ owner y = Some cc -> is_Some (Slab.links w0 !! y)) ->
  Slab.cflags k0 = 0 -> Slab.colour_next old = 0 -> Slab.dtor old = None ->
  exists b g, boot_memory stale (2 + fuel) cc old k0 w0 KERNEL_END mbi m = Some (Some b) /\
    mem_map_addr b = 4096 * kernel_frames KERNEL_END /\
    (forall va, 0 <= va < table_frames mbi * 2 ^ 22 ->
       translate (page_tables b) va = Some va /\ translate (page_tables b) (va + Mm.PAGE_OFFSET) = Some va) /\
    (forall k, 0 <= k < table_frames mbi ->
       exists p, zget (pg_dir (page_tables b)) k = Some (4096 * p + 7) /\ ~ free_at_boot KERNEL_END mbi p) /\
    slab_inv (allocators b) g (fun p => ~ free_at_boot KERNEL_END mbi p) /\ table_ok (general_caches b) (allocators b).
Proof.
  intros P Hst Hcc Hc Hl Hk0 Hcn Hdt. pose proof (pc_bounds KERNEL_END mbi P) as (_ & _ & _ & _ & Htf & _).
  destruct (boot_memory_spec KERNEL_END mbi P stale fuel cc old k0 w0 m) as (b & g & E & Ha & W & Hf & I & Ht); [done..|].
  exists b, g. split_and!; try done.
  - intros va Hva. apply (paging_wf_translate (table_frames mbi) (ram_frames mbi)); [lia|done|done].
  - intros k Hk. destruct (pw_tables _ _ _ W k Hk) as (p & tbl & _ & Hd & _ & Hn & _). exists p. split; [done|]. by rewrite <- Hf.
Qed.

(** A machine with 32 MB whose kernel ends at 1.5 MB. *)
Definition demo_pc : multiboot_info :=
  mk_mbi 64 639 31744 [mk_mmap 0 0x9FC00 1; mk_mmap 0x9FC00 0x400 2; mk_mmap 0xF0000 0x10000 2; mk_mmap 0x100000 (1024 * 31744) 1].

Lemma demo_pc_ok : pc 0x180000 demo_pc.
Proof.
  split; try (vm_compute; done).
  - by exists 0x9FC00.
  - exists 7936. reflexivity.
Qed.

Definition demo_cc : Z := 0xC0100100.
Definition demo_slab_vars : Slab.world zone_t :=
  Slab.mk_world _ ∅ ∅ (list_to_map ((fun y => (y, mk_list_head None None)) <$>
    [Slab.Chain; Slab.CacheN demo_cc; Slab.LFull demo_cc; Slab.LPart demo_cc; Slab.LFree demo_cc])) ∅ ∅ zone0.

Lemma boot_memory_correct_witness :
  exists b g, boot_memory (fun _ => replicate 1024 0) 2 demo_cc zero_cache zero_cache demo_slab_vars 0x180000 demo_pc ∅ = Some (Some b) /\
    mem_map_addr b = 0x180000 /\ translate (page_tables b) 0xC0180004 = Some 0x180004 /\
    slab_inv (allocators b) g (fun p => ~ free_at_boot 0x180000 demo_pc p).
Proof.
  destruct (boot_memory_correct 0x180000 demo_pc (fun _ => replicate 1024 0) 0 demo_cc zero_cache zero_cache demo_slab_vars ∅ demo_pc_ok)
    as (b & g & E & Ha & Htr & _ & I & _).
  - intros a. apply length_replicate.
  - vm_compute. split; [discriminate|reflexivity].
  - reflexivity.
  - intros y Hy. assert (y ∈ [Slab.Chain; Slab.CacheN demo_cc; Slab.LFull demo_cc; Slab.LPart demo_cc; Slab.LFree demo_cc]) as Hin.
    { destruct Hy as [->|[->|Ho]]; [by left|right; by left|]. destruct y; cbn [owner] in Ho; try discriminate; injection Ho as ->; set_solver. }
    set_unfold. destruct Hin as [->|[->|[->|[->|[->|[]]]]]]; vm_compute; by eexists.
  - reflexivity.
  - reflexivity.
  - reflexivity.
  - exists b, g. split; [exact E|]. split; [exact Ha|]. split; [|exact I].
    apply (Htr 0x180004). vm_compute. split; [discriminate|reflexivity].
Defined.
